(* ===== verification/_CoqProject ===== *)
-Q . S2P
Prelude.v
Mem.v
Occp.v
Opcode.v
Kernel.v
Packet.v
Stream.v
Xmit.v
Poll.v
Ring.v
Ghost.v
Genl.v
Probe.v
Hw.v
Module.v
Regs.v
DmaCmd.v
Timer.v
Netlink.v
NlError.v
Recv.v
Dump.v
Attr.v
UserLib.v
Text.v
CStr.v
Addr.v
AddrOk.v
Utils.v
Tables.v
Names.v
NlList.v
TransList.v
Mngt.v
MngtOk.v
DriverCtrl.v
Examples.v
EndToEnd.v
PhyTables.v
Phy.v
PhyMenu.v
Phy1g.v
Demo.v
NicCorrect.v
CommandCorrect.v
UserCorrect.v
FirmwareCorrect.v
Objects.v
RtObj.v
RtOk.v
Tc.v
TcOk.v
Cache.v
CacheInv.v
CacheOps.v
CacheLoop.v
CacheSync.v
CacheResync.v
CacheApi.v
CacheFill.v
Family.v
GenlCtrl.v
CtrlParse.v
CtrlOk.v
Ports.v
Handlers.v
Socket.v
SockInv.v
SockOps.v
SockApi.v
NlIo.v
Mngr.v
MngrOk.v
MngrAdd.v
SupportCorrect.v
DemoLib.v
LibnlCorrect.v
SocketCorrect.v
MngrCorrect.v
RouteCorrect.v
