(* ===== verification/Prelude.v ===== *)
(** * NetFPGA-10G reference NIC software: a verification library

    The C programs of the NetFPGA-10G reference NIC, modelled as executable
    definitions and proved correct.

    ** The programs

    All paths are under [src/projects/].

    - The Linux network driver,
      [reference_nic/sw/host/driver/src/nf10_eth_driver_main.c] with [occp.h],
      [ocdp.h], [nf10_genl.h] and [nf10_eth_driver.h].  Four network interfaces
      share one TX and one RX ring of DMA buffers with the FPGA.  The transmit
      handler fills a slot of the TX ring; a timer and NAPI poll the RX ring.  A
      generic netlink family gives user space access to registers, to the rings and to the
      polling timer.  Built with [DRIVER_GHOST] the driver has no device: both
      rings are one, and the interfaces become two crossed cables.
    - The register library [nf10_reg_lib.c] and the control utility
      [driver_ctrl.c], which talk to the driver through the copy of libnl
      under [reference_nic/sw/host/driver/lib/libnl-3.0].
    - libnl itself, its core ([lib/*.c]) and its generic netlink part
      ([lib/genl]).  A message is built from attributes, sent over a socket that has a
      local port and a handle with callbacks, and the answers are read in a loop that calls
      the handle.  What the kernel reports becomes objects with reference counts, kept in
      caches; the controller is the cache of the generic netlink families, in which the
      tools look up the number of the driver's family.  The types of caches are registered in
      a list; a cache manager keeps caches of registered types up to date with the
      notifications on its socket.  Addresses and the names of types and flags are written as
      text and read back.  Of its routing part ([lib/route]) neighbours, rules and traffic
      control: objects whose data, shared addresses included, is sent in requests and read
      from the kernel's messages.
    - The two examples [rd.c] and [wr.c] of
      [reference_nic/sw/host/apps/libnf10reg_example], which read and write register after
      register.
    - The MicroBlaze firmware [helloworld.c] of [loopback_test] (10G) and
      [loopback_test_1g], which programs the PHY chips.

    ** The model

    The kernel, the PCI device, the FPGA, the system calls and the board are not part
    of the repository.  Each is a class ([Kernel.Kernel],
    [Socket.Os], [GenlCtrl.Ctrl], [Mngr.MngrSys], [Addr.Inet], [Phy.Board]) whose fields give the answer to every call as
    a function of the trace of calls, or the state, so far; so a theorem about all instances covers every
    behaviour, failures included.  What a theorem needs of them is a named
    hypothesis ([Regs.paged_device], [Module.alloc_fresh],
    [Module.ether_setup_ok], [UserLib.socket_ok], [EndToEnd.delivers],
    [SockInv.os_ok], [NlIo.datagrams], [AddrOk.inet_ok], [Phy.clock_ok], ...), and [Demo],
    [DemoLib], [SupportCorrect], [MngrCorrect] and [FirmwareCorrect] have
    instances that satisfy them.

    One class, [UserLib.Libnl], stands for code of the repository: the results of the calls of
    libnl with which the register library and the utility make a socket, connect it, resolve
    the family, allocate a message and send it, any results.  That code is modelled in
    [Socket], [GenlCtrl], [Netlink] and [NlIo], and is not composed with its callers; none of
    the numbered theorems is about the class.

    A handler of the driver is a function of the state monad [Kernel.M] over
    the record [Kernel.drv] of the global variables; it returns, faults (an
    access outside live memory, a NULL pointer) or runs out of fuel.  The
    memory of the rings is byte-addressed, so the slots, records and flags are
    where the pointer arithmetic of the C code puts them.  Integers are
    [Z] with the wrap-around of their C type written out.

    The operations of libnl on objects and caches are functions of the monad [Objects.R]
    over a store with the objects, the caches and the pointers of the linked lists; those on
    sockets are functions of [Prelude.St] over [Socket.net], with sockets, handles, the bitmap
    of ports and the open descriptors.  A cache manager works on all of these and on the
    registry of cache types at once ([Mngr.mstate]).  A use after free, a dangling list pointer or a
    failed assertion is a crash of the monad, and so are a clone of an object that does not
    end and one that fails with pointers of its source in the copy, since that is then freed.
    An object type is an instance of the class
    [Objects.World], which has the table of its operations.

    The objects of the routing part are values that their functions take and return; the
    addresses that they point to live in the memory of [Addr], links in a memory of their own.
    A type of objects that hold addresses is an instance of [RtObj.Holder], and
    [RtOk.HolderOk] states what it promises; a module of traffic control that writes and reads
    its options is an instance of [TcOk.ModuleOk].  Programs and messages are proved against
    these classes, and the types and modules discharge them.

    Which file models what:

    - [Prelude]: machine integers, little-endian words, lists indexed by [Z],
      decimal output, a state monad, the hint databases [nf10] and [state].
    - [Mem]: byte-addressed memory with live regions.
    - [Occp]: the register structures and constants of the headers.
    - [Opcode]: [rx_get_dst_iface] to [tx_set_src_iface].
    - [Kernel]: the driver's state, the events, the class [Kernel], the monad
      and its two program logics ([wlp] for partial, [twp] for total
      correctness).
    - [Packet]: the address rewriting of packets, [nf10_ndho_create],
      [nf10_ndho_rebuild], [nf10_ndo_set_mac_address].
    - [Stream]: [struct dma_stream] and the layout of a DMA region.
    - [Xmit]: [nf10_ndo_start_xmit], [nf10_ghost_xmit] and the small
      operations of an interface.
    - [Poll]: [rx_poll_timer_cb], [nf10_napi_struct_poll].
    - [Ring]: the abstraction of a ring to a bounded queue, over the class
      [Polarity] that says which flag value means full.
    - [Ghost]: [enable_ghosting], [disable_ghosting], the wire.
    - [Genl]: the handlers [genl_cmd_*] of the netlink family.
    - [Probe]: [probe], split at its comments, and [remove]; the accounting of
      what they acquire.
    - [Hw]: the running device as a step relation, the specification with two queues and
      the simulation.
    - [Module]: [nf10_eth_driver_init], [nf10_eth_driver_exit], [read_proc].
    - [Regs], [DmaCmd], [Timer]: the theories of the register commands, of the
      DMA commands, and of the timer and NAPI.
    - [Netlink], [Recv]: libnl's messages ([attr.c], [msg.c], [genl/genl.c]) and its
      receive loop ([nl.c]); [Dump]: what the loop makes of a dump and of an
      acknowledgement; [Attr]: the other attribute and message functions.
    - [NlError]: [error.c].  [Handlers]: [handlers.c].  [Ports]: the local ports of
      [socket.c].  [Socket]: the rest of [socket.c], [nl_connect] and [nl_close];
      [SockInv], [SockOps], [SockApi]: the invariant of sockets, that every operation keeps
      it, and programs as a transition system.  [NlIo]: [nl_recv] and the senders of [nl.c].
    - [NlList]: [list.h].  [Objects]: [object.c].  [Cache]: [cache.c].  [CacheInv] and
      [CacheOps]: the invariant of the store and the operations that keep it; [CacheLoop],
      [CacheSync], [CacheResync], [CacheFill]: loops over a cache, its synchronisation with a
      dump, and filling it; [CacheApi]: programs that use caches.
    - [Family], [GenlCtrl]: [genl/family.c], [genl/ctrl.c] and the parser of
      [genl/mngt.c]; [CtrlParse], [CtrlOk]: what the parser makes of the kernel's message,
      and the controller's lookups.
    - [CStr]: what libnl uses of the C library to read and write text.  [Addr]: [addr.c] and
      [data.c];
      [AddrOk]: comparison and text of addresses, and their reference counts.
      [Utils]: names, flags, sizes and times of [utils.c]; [Tables]: the
      tables of names of the library; [Names]: what is written is read back.
      [TransList]: the lists of names of [utils.c] and [route/route_utils.c].
    - [Mngt]: [cache_mngt.c] and the registration of [genl/mngt.c]; [MngtOk]: the registry is
      a map.  [Mngr]: [cache_mngr.c]; [MngrOk], [MngrAdd]: notifications, making a manager
      and adding caches to it.
    - [RtObj]: [route/neigh.c] and [route/rule.c]; [RtOk]: the references to their addresses,
      programs that use them, and their messages.
    - [Tc]: [route/tc.c], [route/qdisc.c], [route/class.c] and the modules [route/qdisc/fifo.c],
      [prio.c], [sfq.c], [dsmark.c], [red.c] and [blackhole.c]; [TcOk]: the modules and the
      messages.
    - [UserLib]: [nf10_reg_rd], [nf10_reg_wr].  [Examples]: [rd.c] and [wr.c].
    - [Text], [DriverCtrl]: what [driver_ctrl.c] uses of the C library, and
      the utility itself, command line included.
    - [EndToEnd]: library and utility composed with the driver's handlers
      through the bytes of the messages.
    - [PhyTables], [Phy], [PhyMenu], [Phy1g]: the firmware; its tables, the 10G
      program, its menu, the 1G program.
    - [Demo]: a kernel, a device and a socket on which the theorems are tried;
      [DemoLib]: an object type, a controller, an operating system and a queue of datagrams.
    - [NicCorrect], [CommandCorrect], [UserCorrect], [FirmwareCorrect], [LibnlCorrect],
      [SocketCorrect], [SupportCorrect], [MngrCorrect], [RouteCorrect]: the main theorems, with
      an instance of each that has hypotheses.

    ** What is proved

    - [NicCorrect] (C1-C6, C11, C15).  The packet path with a device is a refinement of
      two bounded queues under every interleaving of sends, polls and device steps; sends
      and polls never fault; probing acquires everything or nothing; the device is told the
      layout that the driver uses; loading and unloading
      are balanced but for one path, on which loading reads past a table;
      ghosting mode is a refinement of a wire.
    - [CommandCorrect] (C12-C14, C36, C37).  The timer and NAPI exclude each other and
      polling goes on, unless polling is enabled while NAPI is scheduled; the register
      commands implement a memory; the DMA commands use the same queues, and
      crash in ghosting mode; address rewriting and opcodes round-trip; the
      /proc text outgrows its page.
    - [UserCorrect] (C27).  What the library and the utility return and
      print, over the driver's own answers; errors of a read are reported and
      those of a write are lost; resources are released; messages and numbers
      round-trip; the counter of the examples overflows.
    - [FirmwareCorrect] (C38, C40).  Waits end and not early; each PHY gets its
      whole program, or nothing exactly if [value] is zero after its register was read; I2C reads end; the status report is right; the
      menu serves any number of choices.
    - [LibnlCorrect] (C7, C8, C10, C16, C17, C21, C24, C26, C28).  A resynchronised
      cache is the kernel's dump, and the changes are reported; programs that keep the rules of
      reference counting never crash and leave nothing behind; a family is resolved to the
      number that the kernel gave it, and the parser reads back what the kernel wrote;
      dumps and acknowledgements are received; nested attributes round-trip and copies stay
      in bounds; cloning a family does not end.
    - [SocketCorrect] (C9, C18, C22, C23, C25).  The ports are a set of numbers; programs
      that use sockets by the rules never crash and leave no port and no descriptor, and no handle
      but those that a failed allocation of a socket has lost; connecting gives a
      descriptor or nothing; whole datagrams are received, if they are peeked at; requests are
      completed and sent.
    - [SupportCorrect] (C33-C35, C39).  Addresses and names round-trip through text, times only in
      whole seconds; addresses are counted; lists of names are tables until they are cleared;
      the registry is a map from names to types, and loses entries when generic netlink
      operations are registered twice.
    - [MngrCorrect] (C19, C20).  A notification of the kernel updates the cache that is
      responsible for it; a cache that is added holds the kernel's dump; a manager is made with
      a connected socket, or nothing is left but for the code 1.
    - [RouteCorrect] (C29-C32).  Programs that use neighbours or rules keep the count of every
      address right and leave none behind, if there is memory; a clone that fails frees an
      address of its source.  Qdiscs, classes, neighbours and rules are read back from the
      requests that are built from them, up to what the code leaves out; taking a link away
      leaves a pointer to it, and the kind blackhole ends the program.

    ** Bounds and fuel

    - [Ghost.alloc_fuel] is 17: 32768 buffers are halved at most 16 times before the loop
      ends; running out of fuel is excluded by the theorems on [probe] and
      loading.
    - [Poll.poll_loop] gets one more than the number of buffers: a poll
      consumes a slot per iteration and the loop ends at an empty slot or at the
      budget; C3 shows that it always suffices.
    - [Recv.msg_loop] gets the length of the datagram plus one; each message has
      at least one byte.  [Netlink.Nl.nla_loop], [Attr.nla_find_loop] and
      [GenlCtrl.each_nested] get the length of the attributes plus one.
    - [Cache.for_each] gets one more than the number of list pointers in the store; the lists
      of the invariant are shorter.  [Objects.object_free] nests at most twice.
    - [Ports.port_loop] and [Ports.bit_loop] run over 32 words and 32 bits, as in the code.
    - [Addr.hex_bytes], [Utils.str2msec_loop], [Utils.str2flags_loop] and
      [TransList.read_loop] get one more than the length of the text, of which each turn uses
      at least one character.  [Mngt.ops_loop] and [TransList.find_entry] get one more than the
      number of entries in memory; the lists of the invariants are shorter.
      [Examples.sweep] takes any fuel; after 2^29 turns its counter has overflowed.
      [Mngr.find_slot] takes the number of times the array may grow; one turn suffices when a
      place is free.
    - [NlIo.nl_recv] takes any fuel; C22 gives a number that suffices: the calls that are
      interrupted, and one turn for each doubling of the buffer.
    - [Phy.sleep_fuel] is a parameter; [Phy.clock_ok] asks that it
      suffices for two seconds, the longest wait in the code.
    - The menus run for any given number of choices.
    - A message of 256, 512 or 1024 bytes suffices for a neighbour, a traffic control object
      or a rule: their attributes have at most 72, 88 and 324 bytes, and reserving an
      attribute asks for twice the length of the message; the library allocates a page.

    ** What is not modelled

    Interleavings finer than a handler (the transmit lock is an event of the
    trace, and the netlink handlers that take no lock are atomic steps); the
    internals of the kernel and of the socket layer; of libnl the functions that print, those
    that compute with floating point numbers (rate tables and the modules tbf, htb, cbq and
    netem), the resolver, the cloning of traffic control objects, and the other object types
    of routing and netfilter (links, interface addresses, routes, neighbour tables,
    classifiers), of which only the tables of names are there; a failure of
    [malloc] for the buffer of [nl_recv]; the overflow of the difference of two clock readings
    in the firmware, which wraps around here; debug output of the driver ([PDEBUG], [printk]); the
    Xilinx board support files; the hardware designs and scripts. *)

From Stdlib Require Export ZArith Lia.
From stdpp Require Export base tactics list gmap numbers.
#[export] Set Default Goal Selector "!".
#[global] Open Scope Z_scope.

(** ** Machine integers

    A [w]-bit unsigned C integer is a [Z] in [0, 2^w); the wrap-around of
    its arithmetic is written out with these functions. *)

Definition u8 (x : Z) : Z := x mod 2 ^ 8.
Definition u16 (x : Z) : Z := x mod 2 ^ 16.
Definition u32 (x : Z) : Z := x mod 2 ^ 32.
Definition u64 (x : Z) : Z := x mod 2 ^ 64.

(** Conversion of a 32-bit pattern to [int] (two's complement). *)
Definition s32 (x : Z) : Z :=
  let y := u32 x in if y <? 2 ^ 31 then y else y - 2 ^ 32.

Lemma u32_small x : 0 ≤ x < 2 ^ 32 → u32 x = x.
Proof. apply Z.mod_small. Qed.

Lemma u32_range x : 0 ≤ u32 x < 2 ^ 32.
Proof. apply Z.mod_pos_bound. lia. Qed.

Lemma u32_idemp x : u32 (u32 x) = u32 x.
Proof. apply u32_small, u32_range. Qed.

Lemma u64_small x : 0 ≤ x < 2 ^ 64 → u64 x = x.
Proof. apply Z.mod_small. Qed.

Lemma s32_small x : 0 ≤ x < 2 ^ 31 → s32 x = x.
Proof.
  intros H. unfold s32. rewrite u32_small by lia.
  destruct (Z.ltb_spec x (2 ^ 31)); lia.
Qed.

(** [int] to [uint32_t] and back is the identity on the [int] range. *)
Lemma s32_u32 x : - 2 ^ 31 ≤ x < 2 ^ 31 → s32 (u32 x) = x.
Proof.
  intros H. unfold s32. rewrite u32_idemp.
  destruct (Z.ltb_spec x 0) as [Hneg|Hpos].
  - assert (u32 x = x + 2 ^ 32) as ->.
    { unfold u32. symmetry. apply Z.mod_unique with (-1); lia. }
    destruct (Z.ltb_spec (x + 2 ^ 32) (2 ^ 31)); lia.
  - rewrite u32_small by lia. destruct (Z.ltb_spec x (2 ^ 31)); lia.
Qed.

(** Conversions only depend on the residue. *)
Lemma s32_cong x y : x mod 2 ^ 32 = y mod 2 ^ 32 → s32 x = s32 y.
Proof. intros E. unfold s32, u32. by rewrite E. Qed.

Lemma s32_mod x : s32 x mod 2 ^ 32 = x mod 2 ^ 32.
Proof.
  unfold s32, u32. destruct (_ <? _).
  - by rewrite Z.mod_mod.
  - rewrite <- Zminus_mod_idemp_r, Z.mod_same, Z.sub_0_r by done. by rewrite Z.mod_mod.
Qed.

(** ** Little-endian byte strings *)

Definition is_byte (b : Z) : Prop := 0 ≤ b < 256.

Fixpoint le_split (n : nat) (v : Z) : list Z :=
  match n with
  | O => []
  | S n => v mod 256 :: le_split n (v / 256)
  end.

Fixpoint le_combine (bs : list Z) : Z :=
  match bs with
  | [] => 0
  | b :: bs => b + 256 * le_combine bs
  end.

Lemma length_le_split n v : length (le_split n v) = n.
Proof. revert v; induction n as [|n IH]; intros v; simpl; auto. Qed.

Lemma le_combine_split n v :
  le_combine (le_split n v) = v mod 2 ^ (8 * Z.of_nat n).
Proof.
  revert v; induction n as [|n IH]; intros v; simpl le_split; simpl le_combine.
  - by rewrite Z.mod_1_r.
  - rewrite IH.
    replace (8 * Z.of_nat (S n)) with (8 + 8 * Z.of_nat n) by lia.
    rewrite Z.pow_add_r by lia. change (2 ^ 8) with 256.
    rewrite Z.rem_mul_r by lia. lia.
Qed.

Lemma le_combine_split4 v : le_combine (le_split 4 v) = u32 v.
Proof. apply (le_combine_split 4). Qed.

Lemma le_combine_range bs :
  Forall is_byte bs → 0 ≤ le_combine bs < 2 ^ (8 * Z.of_nat (length bs)).
Proof.
  induction 1 as [|b bs Hb _ IH]; [simpl; lia|].
  simpl le_combine. simpl length. unfold is_byte in Hb.
  replace (8 * Z.of_nat (S (length bs))) with (8 + 8 * Z.of_nat (length bs)) by lia.
  rewrite Z.pow_add_r by lia. change (2 ^ 8) with 256. nia.
Qed.

Lemma le_split_bytes n v : Forall is_byte (le_split n v).
Proof.
  revert v; induction n as [|n IH]; intros v; simpl; constructor; auto.
  apply Z.mod_pos_bound. lia.
Qed.

Lemma le_split_combine bs :
  Forall is_byte bs → le_split (length bs) (le_combine bs) = bs.
Proof.
  induction 1 as [|b bs Hb _ IH]; [done|]. unfold is_byte in Hb.
  simpl. f_equal.
  - rewrite Z.mul_comm, Z.mod_add by lia. by apply Z.mod_small.
  - rewrite Z.mul_comm, Z.div_add by lia. rewrite (Z.div_small b) by lia.
    by rewrite Z.add_0_l.
Qed.

(** ** Lists indexed by [Z] *)

Definition zlen {A} (l : list A) : Z := Z.of_nat (length l).

Lemma zlen_nonneg {A} (l : list A) : 0 ≤ zlen l.
Proof. unfold zlen. lia. Qed.

Lemma zlen_cons {A} (x : A) (l : list A) : zlen (x :: l) = 1 + zlen l.
Proof. unfold zlen. simpl. lia. Qed.

Lemma zlen_app {A} (l k : list A) : zlen (l ++ k) = zlen l + zlen k.
Proof. unfold zlen. rewrite length_app. lia. Qed.

Lemma zlen_le_split n v : zlen (le_split n v) = Z.of_nat n.
Proof. unfold zlen. by rewrite length_le_split. Qed.

Definition znth (l : list Z) (i : Z) : Z := nth (Z.to_nat i) l 0.

(** [l] with the element at index [i] replaced; a C array store whose
    bounds are checked by the caller. *)
Definition zset (l : list Z) (i : Z) (v : Z) : list Z :=
  <[Z.to_nat i := v]> l.

Lemma zlen_zset l i v : zlen (zset l i v) = zlen l.
Proof. unfold zlen, zset. by rewrite length_insert. Qed.

Lemma znth_zset l i j v :
  0 ≤ i < zlen l → 0 ≤ j →
  znth (zset l i v) j = if i =? j then v else znth l j.
Proof.
  unfold znth, zset, zlen. intros Hi Hj. rewrite !nth_lookup.
  destruct (Z.eqb_spec i j) as [->|Hne].
  - rewrite list_lookup_insert_eq by lia. done.
  - rewrite list_lookup_insert_ne by lia. done.
Qed.

(** ** The C library: [%d] of [sprintf] *)

Fixpoint dec_digits (fuel : nat) (n : Z) : list Z :=
  match fuel with
  | O => []
  | S fuel =>
      if n <? 10 then [48 + n] else dec_digits fuel (n / 10) ++ [48 + n mod 10]
  end.

(** An [int] has at most ten decimal digits. *)
Definition fmt_d (n : Z) : list Z :=
  if n <? 0 then 45 :: dec_digits 10 (- n) else dec_digits 10 n.

(** ** Reference counts

    A function gives the number of references that are held to each address; [add_ref] is
    one reference more ([d = 1]) or less to the object at [p]. *)

Definition add_ref (p d : Z) (ext : Z → Z) : Z → Z := λ q, if q =? p then ext q + d else ext q.

Lemma add_ref_back p ext q : add_ref p (-1) (add_ref p 1 ext) q = ext q.
Proof. unfold add_ref. destruct (q =? p); lia. Qed.

(** ** A state monad with crashes

    A program on a state [S] returns a value and a new state, or crashes ([None]): a NULL
    pointer or freed memory is used, or [BUG()] is reached.  [swp m Q s] is its total
    correctness: started in [s] it does not crash and ends in a state with [Q]. *)

Definition St (S A : Type) : Type := S → option (A * S).

Section State.
Context {S : Type}.

Definition sret {A} (a : A) : St S A := λ s, Some (a, s).
Definition scrash {A} : St S A := λ _, None.
Definition sbind {A B} (m : St S A) (k : A → St S B) : St S B := λ s,
  match m s with Some (a, s') => k a s' | None => None end.
(** A value that depends on the state, and a change of the state. *)
Definition sget {A} (f : S → option A) : St S A := λ s,
  match f s with Some a => Some (a, s) | None => None end.
Definition smodify (f : S → S) : St S unit := λ s, Some (tt, f s).

Definition swp {A} (m : St S A) (Q : A → S → Prop) (s : S) : Prop :=
  match m s with Some (a, s') => Q a s' | None => False end.

Lemma swp_bind {A B} (m : St S A) (k : A → St S B) Q s : swp m (λ a, swp (k a) Q) s → swp (sbind m k) Q s.
Proof. unfold swp, sbind. by destruct (m s) as [ [a s']|]. Qed.

Lemma swp_mono {A} (m : St S A) (P Q : A → S → Prop) s :
  swp m P s → (∀ a s', P a s' → Q a s') → swp m Q s.
Proof. unfold swp. destruct (m s) as [ [a s']|]; auto. Qed.

Lemma swp_seq {A B} (m : St S A) (k : A → St S B) (P : A → S → Prop) Q s :
  swp m P s → (∀ a s', P a s' → swp (k a) Q s') → swp (sbind m k) Q s.
Proof. intros Hm Hk. apply swp_bind. eapply swp_mono; [exact Hm|exact Hk]. Qed.

Lemma swp_ret {A} (a : A) (Q : A → S → Prop) s : Q a s → swp (sret a) Q s.
Proof. done. Qed.

Lemma swp_get {A} (f : S → option A) a (Q : A → S → Prop) s : f s = Some a → Q a s → swp (sget f) Q s.
Proof. unfold swp, sget. by intros ->. Qed.

Lemma swp_modify (f : S → S) (Q : unit → S → Prop) s : Q tt (f s) → swp (smodify f) Q s.
Proof. done. Qed.

Lemma sbind_some {A B} (m : St S A) (k : A → St S B) s a s' : m s = Some (a, s') → sbind m k s = k a s'.
Proof. intros E. unfold sbind. by rewrite E. Qed.

Lemma sbind_modify {B} (f : S → S) (k : unit → St S B) s : sbind (smodify f) k s = k tt (f s).
Proof. done. Qed.

Lemma swp_run {A} (m : St S A) (Q : A → S → Prop) s : swp m Q s ↔ ∃ a s', m s = Some (a, s') ∧ Q a s'.
Proof.
  unfold swp. destruct (m s) as [ [a s']|]; [|by split; [|intros (? & ? & ? & _)] ].
  split; [by eauto|]. by intros (? & ? & [= <- <-] & ?).
Qed.
End State.

Declare Scope state_scope.
Delimit Scope state_scope with state.
Notation "x <- m ;; k" := (sbind m (λ x, k))
  (at level 100, m at next level, right associativity) : state_scope.
Notation "m ;; k" := (sbind m (λ _, k)) (at level 100, right associativity) : state_scope.

Create HintDb state.
#[export] Hint Resolve swp_ret swp_modify : state.

(** ** Proof automation *)

(** Split the head [match] of the goal or of a hypothesis, keeping its equation. *)
Ltac case_eqn E :=
  match goal with
  | |- context [match ?x with _ => _ end] => destruct x eqn:E
  end.

(** Turn the boolean comparisons of the code into propositions. *)
Ltac boolify :=
  repeat match goal with
  | H : (_ && _)%bool = true |- _ => apply andb_true_iff in H; destruct H
  | H : (_ || _)%bool = false |- _ => apply orb_false_iff in H; destruct H
  | H : negb _ = true |- _ => apply negb_true_iff in H
  | H : negb _ = false |- _ => apply negb_false_iff in H
  | H : (_ <=? _) = true |- _ => apply Z.leb_le in H
  | H : (_ <=? _) = false |- _ => apply Z.leb_gt in H
  | H : (_ <? _) = true |- _ => apply Z.ltb_lt in H
  | H : (_ <? _) = false |- _ => apply Z.ltb_ge in H
  | H : (_ =? _) = true |- _ => apply Z.eqb_eq in H
  | H : (_ =? _) = false |- _ => apply Z.eqb_neq in H
  end.

(** Decide a closed or linear boolean test that occurs in the goal. *)
Ltac decide_test b v :=
  let H := fresh in
  assert (b = v) as H
    by (first [ reflexivity
              | first [ apply Z.eqb_eq; lia | apply Z.eqb_neq; lia
                      | apply Z.leb_le; lia | apply Z.leb_gt; lia
                      | apply Z.ltb_lt; lia | apply Z.ltb_ge; lia ]]);
  rewrite H; clear H.

Create HintDb nf10.
Create Rewrite HintDb nf10.
#[export] Hint Resolve zlen_nonneg u32_range le_split_bytes : nf10.
#[export] Hint Rewrite @zlen_app zlen_le_split zlen_zset le_combine_split4
  u32_idemp : nf10.
