(* ===== verification/Mem.v ===== *)
(** * Byte-addressed memory

    The kernel memory the driver reads and writes through C pointers:
    the DMA regions obtained from [dma_alloc_coherent] or [kmalloc].  An
    access outside every live allocation is a fault ([None]); a NULL
    pointer is address 0, which no allocation contains. *)

From S2P Require Import Prelude.

Record mem := mkMem {
  m_fill : Z → Z;              (** contents of memory never written *)
  m_data : gmap Z Z;           (** bytes written so far *)
  m_live : list (Z * Z);       (** live allocations: base and size *)
}.

Definition byte_at (m : mem) (a : Z) : Z := default (m_fill m a) (m_data m !! a).

Definition in_region (a n : Z) (r : Z * Z) : bool :=
  (r.1 <=? a) && (a + n <=? r.1 + r.2).

(** [n] bytes at [a] lie inside one live allocation. *)
Definition valid (m : mem) (a n : Z) : bool :=
  (n <=? 0) || existsb (in_region a n) (m_live m).

Fixpoint put_bytes (d : gmap Z Z) (a : Z) (bs : list Z) : gmap Z Z :=
  match bs with
  | [] => d
  | b :: bs => put_bytes (<[a := b]> d) (a + 1) bs
  end.

Definition upd (m : mem) (a : Z) (bs : list Z) : mem :=
  mkMem (m_fill m) (put_bytes (m_data m) a bs) (m_live m).

Fixpoint bytes_at (m : mem) (a : Z) (n : nat) : list Z :=
  match n with
  | O => []
  | S n => byte_at m a :: bytes_at m (a + 1) n
  end.

(** [memcpy] out of, and into, memory. *)
Definition load (m : mem) (a n : Z) : option (list Z) :=
  if valid m a n then Some (bytes_at m a (Z.to_nat n)) else None.

Definition store (m : mem) (a : Z) (bs : list Z) : option mem :=
  if valid m a (zlen bs) then Some (upd m a bs) else None.

(** A [uint32_t] access (little-endian host). *)
Definition word_at (m : mem) (a : Z) : Z := le_combine (bytes_at m a 4).

Definition load32 (m : mem) (a : Z) : option Z :=
  if valid m a 4 then Some (word_at m a) else None.

Definition upd32 (m : mem) (a v : Z) : mem := upd m a (le_split 4 v).

Definition store32 (m : mem) (a v : Z) : option mem := store m a (le_split 4 v).

Definition alloc (m : mem) (a n : Z) : mem :=
  mkMem (m_fill m) (m_data m) ((a, n) :: m_live m).

Definition free (m : mem) (a : Z) : mem :=
  mkMem (m_fill m) (m_data m) (filter (λ r, r.1 ≠ a) (m_live m)).

(** [memset(p, c, n)] *)
Definition memset (m : mem) (a c n : Z) : option mem :=
  store m a (replicate (Z.to_nat n) (u8 c)).

(** ** Updates *)

Lemma put_bytes_lookup d a bs x :
  put_bytes d a bs !! x =
  if (a <=? x) && (x <? a + zlen bs) then bs !! Z.to_nat (x - a) else d !! x.
Proof.
  revert d a; induction bs as [|b bs IH]; intros d a; unfold zlen; simpl length.
  - destruct (Z.leb_spec a x), (Z.ltb_spec x (a + Z.of_nat 0)); simpl; auto; lia.
  - simpl put_bytes. rewrite IH. unfold zlen.
    destruct (Z.leb_spec (a + 1) x), (Z.ltb_spec x (a + 1 + Z.of_nat (length bs)));
      destruct (Z.leb_spec a x), (Z.ltb_spec x (a + Z.of_nat (S (length bs))));
      simpl; try lia.
    + replace (Z.to_nat (x - a)) with (S (Z.to_nat (x - (a + 1)))) by lia. done.
    + rewrite lookup_insert_ne by lia. done.
    + replace x with a by lia. rewrite lookup_insert_eq. by rewrite Z.sub_diag.
    + rewrite lookup_insert_ne by lia. done.
Qed.

Lemma byte_at_upd m a bs x :
  byte_at (upd m a bs) x =
  if (a <=? x) && (x <? a + zlen bs) then znth bs (x - a) else byte_at m x.
Proof.
  unfold byte_at, upd; simpl. rewrite put_bytes_lookup.
  destruct (Z.leb_spec a x), (Z.ltb_spec x (a + zlen bs)); simpl; auto.
  unfold znth. rewrite nth_lookup. unfold zlen in *.
  destruct (lookup_lt_is_Some_2 bs (Z.to_nat (x - a))) as [b ->]; [lia|done].
Qed.

Lemma byte_at_upd_other m a bs x :
  x < a ∨ a + zlen bs ≤ x → byte_at (upd m a bs) x = byte_at m x.
Proof.
  intros H. rewrite byte_at_upd.
  destruct (Z.leb_spec a x), (Z.ltb_spec x (a + zlen bs)); simpl; auto; lia.
Qed.

Lemma length_bytes_at m a n : length (bytes_at m a n) = n.
Proof. revert a; induction n; intros a; simpl; auto. Qed.

Lemma bytes_at_ext m1 m2 a n :
  (∀ x, a ≤ x < a + Z.of_nat n → byte_at m1 x = byte_at m2 x) →
  bytes_at m1 a n = bytes_at m2 a n.
Proof.
  revert a; induction n as [|n IH]; intros a H; simpl; [done|].
  rewrite (H a) by lia. f_equal. apply IH. intros x Hx. apply H. lia.
Qed.

(** Reads at addresses disjoint from an update are unaffected. *)
Lemma bytes_at_upd_other m a bs x n :
  x + Z.of_nat n ≤ a ∨ a + zlen bs ≤ x →
  bytes_at (upd m a bs) x n = bytes_at m x n.
Proof. intros H. apply bytes_at_ext. intros y Hy. apply byte_at_upd_other. lia. Qed.

Lemma bytes_at_lookup m a n i :
  (i < n)%nat → bytes_at m a n !! i = Some (byte_at m (a + Z.of_nat i)).
Proof.
  revert a n; induction i as [|i IH]; intros a [|n] Hi; try lia; simpl.
  - by rewrite Z.add_0_r.
  - rewrite IH by lia. do 2 f_equal. lia.
Qed.

(** Reading back a part of what was just written. *)
Lemma bytes_at_upd_sub m a bs k n :
  (k + n ≤ length bs)%nat →
  bytes_at (upd m a bs) (a + Z.of_nat k) n = take n (drop k bs).
Proof.
  intros Hn. apply list_eq. intros i.
  destruct (decide (i < n)%nat) as [Hi|Hi].
  - rewrite bytes_at_lookup by done. rewrite lookup_take_lt by done. rewrite lookup_drop.
    rewrite byte_at_upd.
    destruct (Z.leb_spec a (a + Z.of_nat k + Z.of_nat i)); [|lia].
    destruct (Z.ltb_spec (a + Z.of_nat k + Z.of_nat i) (a + zlen bs)); [|unfold zlen in *; lia].
    simpl. unfold znth. rewrite nth_lookup.
    replace (Z.to_nat (a + Z.of_nat k + Z.of_nat i - a)) with (k + i)%nat by lia.
    destruct (lookup_lt_is_Some_2 bs (k + i)) as [b ->]; [lia|done].
  - rewrite lookup_ge_None_2 by (rewrite length_bytes_at; lia).
    rewrite lookup_ge_None_2; [done|]. rewrite length_take. lia.
Qed.

Lemma bytes_at_upd_same m a bs n :
  (n ≤ length bs)%nat → bytes_at (upd m a bs) a n = take n bs.
Proof. intros Hn. rewrite <- (Z.add_0_r a) at 2. by apply (bytes_at_upd_sub m a bs 0). Qed.

(** A word inside a [memset] block. *)
Lemma word_at_memset m a c n k :
  0 ≤ k → 4 * k + 4 ≤ Z.of_nat n →
  word_at (upd m a (replicate n c)) (a + 4 * k) = le_combine [c; c; c; c].
Proof.
  intros Hk Hn. unfold word_at.
  replace (4 * k) with (Z.of_nat (Z.to_nat (4 * k))) by lia.
  rewrite bytes_at_upd_sub by (rewrite length_replicate; lia).
  rewrite drop_replicate, take_replicate.
  by replace (4 `min` (n - Z.to_nat (4 * k)))%nat with 4%nat by lia.
Qed.

Lemma word_at_upd_other m a bs x :
  x + 4 ≤ a ∨ a + zlen bs ≤ x → word_at (upd m a bs) x = word_at m x.
Proof. intros H. unfold word_at. by rewrite bytes_at_upd_other. Qed.

Lemma word_at_upd32_same m a v : word_at (upd32 m a v) a = u32 v.
Proof.
  unfold word_at, upd32. rewrite bytes_at_upd_same by (by rewrite length_le_split).
  rewrite take_ge by (by rewrite length_le_split). apply le_combine_split4.
Qed.

Lemma word_at_upd32_other m a v x :
  x + 4 ≤ a ∨ a + 4 ≤ x → word_at (upd32 m a v) x = word_at m x.
Proof. intros H. apply word_at_upd_other. rewrite zlen_le_split. lia. Qed.

(** ** Validity *)

Lemma valid_region m b len a n :
  (b, len) ∈ m_live m → b ≤ a → a + n ≤ b + len → valid m a n = true.
Proof.
  intros Hin Ha Hn. unfold valid. apply orb_true_iff. right.
  apply existsb_exists. exists (b, len). split; [by apply list_elem_of_In|].
  unfold in_region; simpl. apply andb_true_iff. split; apply Z.leb_le; lia.
Qed.

Lemma valid_upd m a bs x n : valid (upd m a bs) x n = valid m x n.
Proof. done. Qed.

Lemma live_upd m a bs : m_live (upd m a bs) = m_live m.
Proof. done. Qed.

Lemma store_valid m a bs :
  valid m a (zlen bs) = true → store m a bs = Some (upd m a bs).
Proof. unfold store. by intros ->. Qed.

Lemma store32_valid m a v :
  valid m a 4 = true → store32 m a v = Some (upd32 m a v).
Proof. intros H. unfold store32. rewrite store_valid; [done|]. by rewrite zlen_le_split. Qed.

Lemma load32_valid m a : valid m a 4 = true → load32 m a = Some (word_at m a).
Proof. unfold load32. by intros ->. Qed.

Lemma load_valid m a n :
  valid m a n = true → load m a n = Some (bytes_at m a (Z.to_nat n)).
Proof. unfold load. by intros ->. Qed.

#[export] Hint Rewrite valid_upd live_upd word_at_upd32_same : nf10.

#[global] Arguments le_split : simpl never.
#[global] Arguments upd : simpl never.
#[global] Arguments upd32 : simpl never.
#[global] Arguments word_at : simpl never.
#[global] Arguments bytes_at : simpl never.
#[global] Arguments valid : simpl never.
