(* ===== verification/Occp.v ===== *)
(** * OpenCPI register space: [occp.h], [ocdp.h] and the driver's constants

    Field offsets are computed from the declarations of the C structures
    (every field is made of 32-bit words, so there is no padding), and the
    addresses the driver forms are sums of these offsets. *)

From S2P Require Import Prelude.

(** ** [nf10_eth_driver.h] *)

Definition PCI_VENDOR_ID_NF10 : Z := 0x10ee.
Definition PCI_DEVICE_ID_NF10_REF_NIC : Z := 0x4243.

Definition OPCODE_CPU0 : Z := 0x00000002.
Definition OPCODE_CPU1 : Z := 0x00000008.
Definition OPCODE_CPU2 : Z := 0x00000020.
Definition OPCODE_CPU3 : Z := 0x00000080.
Definition OPCODE_CPU_ALL : Z := 0x000000AA.

Definition OPCODE_MAC0 : Z := 0x00000001.
Definition OPCODE_MAC1 : Z := 0x00000004.
Definition OPCODE_MAC2 : Z := 0x00000010.
Definition OPCODE_MAC3 : Z := 0x00000040.
Definition OPCODE_MAC_ALL : Z := 0x00000055.

Definition HW_FOUND : Z := 0x00000001.
Definition HW_INIT : Z := 0x00000002.

Definition NF10_PKT_SIZE_MIN : Z := 33.
Definition NF10_PKT_SIZE_MAX : Z := 1514.

(** ** [occp.h] *)

Definition OCCP_CONTROL_ENABLE : Z := 0x80000000.
Definition OCCP_WORKER_CONTROL_SIZE : Z := 0x10000.
Definition OCCP_ADMIN_SIZE : Z := OCCP_WORKER_CONTROL_SIZE.
Definition OCCP_WORKER_CONFIG_SIZE : Z := 0x100000.
Definition OCCP_MAX_WORKERS : Z := 15.
Definition OCCP_SUCCESS_RESULT : Z := 0xc0de4201.

(** A C structure of 32-bit words: its fields in order, each with its
    number of words. *)
Definition struct (F : Type) := list (F * Z).

Fixpoint offsetof {F} `{EqDecision F} (f : F) (fs : struct F) : Z :=
  match fs with
  | [] => 0
  | (g, n) :: fs => if decide (f = g) then 0 else 4 * n + offsetof f fs
  end.

Definition sizeof {F} (fs : struct F) : Z := foldr (λ '(_, n) z, 4 * n + z) 0 fs.

Inductive admin_reg :=
  | A_magic1 | A_magic2 | A_revision | A_birthday | A_config | A_pciDevice
  | A_attention | A_ppsCount | A_scratch20 | A_scratch24 | A_counter | A_status
  | A_msiHigh | A_msiLow | A_msiData | A_mbz.

#[export] Instance admin_reg_eq : EqDecision admin_reg.
Proof. solve_decision. Defined.

Definition OccpAdminRegisters : struct admin_reg :=
  [(A_magic1, 1); (A_magic2, 1); (A_revision, 1); (A_birthday, 1);
   (A_config, 1); (A_pciDevice, 1); (A_attention, 1);
   (A_ppsCount, 1); (A_scratch20, 1); (A_scratch24, 1);
   (A_counter, 1); (A_status, 1);
   (A_msiHigh, 1); (A_msiLow, 1); (A_msiData, 1); (A_mbz, 1)].

Inductive worker_reg :=
  | W_initialize | W_start | W_stop | W_release | W_test | W_beforeQuery
  | W_afterConfigure | W_reserved7 | W_status | W_control | W_lastConfig
  | W_clearError | W_pageWindow | W_reserved.

#[export] Instance worker_reg_eq : EqDecision worker_reg.
Proof. solve_decision. Defined.

Definition OccpWorkerRegisters : struct worker_reg :=
  [(W_initialize, 1); (W_start, 1); (W_stop, 1); (W_release, 1); (W_test, 1);
   (W_beforeQuery, 1); (W_afterConfigure, 1); (W_reserved7, 1); (W_status, 1);
   (W_control, 1); (W_lastConfig, 1); (W_clearError, 1); (W_pageWindow, 1);
   (W_reserved, 3)].

(** [OccpWorker]: the control registers padded to [OCCP_WORKER_CONTROL_SIZE]. *)
Definition sizeof_OccpWorker : Z :=
  sizeof OccpWorkerRegisters
  + (OCCP_WORKER_CONTROL_SIZE - sizeof OccpWorkerRegisters).

(** [OccpSpace]: the admin registers with their padding, the workers' control
    areas, then the workers' configuration areas. *)
Definition occp_worker_off (i : Z) : Z :=
  sizeof OccpAdminRegisters + (OCCP_ADMIN_SIZE - sizeof OccpAdminRegisters)
  + i * sizeof_OccpWorker.

Definition occp_config_off (i : Z) : Z :=
  occp_worker_off OCCP_MAX_WORKERS + i * OCCP_WORKER_CONFIG_SIZE.

Definition sizeof_OccpSpace : Z := occp_config_off OCCP_MAX_WORKERS.

(** ** [ocdp.h] *)

Inductive ocdp_prop :=
  | P_nLocalBuffers | P_nRemoteBuffers | P_localBufferBase | P_localMetadataBase
  | P_localBufferSize | P_localMetadataSize | P_nRemoteDone | P_rsvd | P_nReady
  | P_foodFace | P_debug | P_memoryBytes | P_remoteBufferBase
  | P_remoteMetadataBase | P_remoteBufferSize | P_remoteMetadataSize
  | P_remoteFlagBase | P_remoteFlagPitch | P_control | P_flowDiagCount.

#[export] Instance ocdp_prop_eq : EqDecision ocdp_prop.
Proof. solve_decision. Defined.

Definition OcdpProperties : struct ocdp_prop :=
  [(P_nLocalBuffers, 1); (P_nRemoteBuffers, 1); (P_localBufferBase, 1);
   (P_localMetadataBase, 1); (P_localBufferSize, 1); (P_localMetadataSize, 1);
   (P_nRemoteDone, 1); (P_rsvd, 1); (P_nReady, 1);
   (P_foodFace, 1); (P_debug, 9);
   (P_memoryBytes, 1); (P_remoteBufferBase, 1); (P_remoteMetadataBase, 1);
   (P_remoteBufferSize, 1); (P_remoteMetadataSize, 1); (P_remoteFlagBase, 1);
   (P_remoteFlagPitch, 1); (P_control, 1); (P_flowDiagCount, 1)].

Definition OCDP_CONTROL_PRODUCER : Z := 1.
Definition OCDP_CONTROL_CONSUMER : Z := 2.
Definition OCDP_CONTROL (dir role : Z) : Z := Z.lor (Z.shiftl dir 2) role.
Definition OCDP_ACTIVE_MESSAGE : Z := 1.

Inductive ocdp_meta := MD_length | MD_opCode | MD_tag | MD_interval.

#[export] Instance ocdp_meta_eq : EqDecision ocdp_meta.
Proof. solve_decision. Defined.

Definition OcdpMetadata : struct ocdp_meta :=
  [(MD_length, 1); (MD_opCode, 1); (MD_tag, 1); (MD_interval, 1)].

Definition OCDP_METADATA_SIZE : Z := sizeof OcdpMetadata.

(** ** [nf10_eth_driver_main.c], the parameters *)

Definition NUM_NETDEVS : Z := 4.
Definition DMA_BUF_SIZE : Z := 2048.
Definition DMA_FPGA_BUFS : Z := 4.
Definition DMA_CPU_BUFS : Z := 32768.
Definition MIN_DMA_CPU_BUFS : Z := 1.
Definition RX_POLL_INTERVAL : Z := 1.
Definition RX_POLL_WEIGHT : Z := 64.

Definition WORKER_DP0 : Z := 13.
Definition WORKER_DP1 : Z := 14.
Definition WORKER_SMA0 : Z := 2.
Definition WORKER_BIAS : Z := 3.
Definition WORKER_SMA1 : Z := 4.
Definition WORKER_NF10 : Z := 0.
Definition OCCP_LOG_TIMEOUT : Z := 30.

(** ** Linux error numbers used by the driver *)

Definition ENOMEM : Z := 12.
Definition EINVAL : Z := 22.
Definition EADDRNOTAVAIL : Z := 99.

(** ** Layout facts *)

(** The offsets written as comments beside the fields of [OcdpProperties]
    are the offsets the compiler gives them. *)
Lemma ocdp_offsets_documented :
  map (λ f, offsetof f OcdpProperties)
    [P_nLocalBuffers; P_nRemoteBuffers; P_localBufferBase; P_localMetadataBase;
     P_localBufferSize; P_localMetadataSize; P_nRemoteDone; P_rsvd; P_nReady;
     P_foodFace; P_debug; P_memoryBytes; P_remoteBufferBase;
     P_remoteMetadataBase; P_remoteBufferSize; P_remoteMetadataSize;
     P_remoteFlagBase; P_remoteFlagPitch; P_control; P_flowDiagCount]
  = [0x00; 0x04; 0x08; 0x0c; 0x10; 0x14; 0x18; 0x1c; 0x20; 0x24; 0x28; 0x4c;
     0x50; 0x54; 0x58; 0x5c; 0x60; 0x64; 0x68; 0x6c].
Proof. reflexivity. Qed.

Lemma occp_config_off_val i : occp_config_off i = 0x100000 * (1 + i).
Proof. unfold occp_config_off. change (occp_worker_off OCCP_MAX_WORKERS) with 0x100000.
  unfold OCCP_WORKER_CONFIG_SIZE. lia. Qed.

Lemma occp_worker_off_val i : occp_worker_off i = 0x10000 * (1 + i).
Proof. unfold occp_worker_off. change sizeof_OccpWorker with 0x10000.
  change (sizeof OccpAdminRegisters + _) with 0x10000. lia. Qed.

Lemma sizeof_OccpSpace_val : sizeof_OccpSpace = 2 ^ 24.
Proof. reflexivity. Qed.

Lemma OCDP_METADATA_SIZE_val : OCDP_METADATA_SIZE = 16.
Proof. reflexivity. Qed.

#[export] Hint Rewrite occp_config_off_val occp_worker_off_val : nf10.
