(* ===== verification/Opcode.v ===== *)
(** * Interface numbers in the opcode word

    The helper functions of [nf10_eth_driver_main.c] that read and write the
    source and destination interface of a packet in the 32-bit opcode of its
    DMA metadata. *)

From S2P Require Import Prelude Occp.

Definition rx_get_dst_iface (opcode : Z) : Z :=
  if negb (Z.land opcode OPCODE_CPU0 =? 0) then 0
  else if negb (Z.land opcode OPCODE_CPU1 =? 0) then 1
  else if negb (Z.land opcode OPCODE_CPU2 =? 0) then 2
  else if negb (Z.land opcode OPCODE_CPU3 =? 0) then 3
  else u32 (-1).

Definition rx_get_src_iface (opcode : Z) : Z :=
  if negb (Z.land opcode OPCODE_MAC0 =? 0) then 0
  else if negb (Z.land opcode OPCODE_MAC1 =? 0) then 1
  else if negb (Z.land opcode OPCODE_MAC2 =? 0) then 2
  else if negb (Z.land opcode OPCODE_MAC3 =? 0) then 3
  else u32 (-1).

(** [*opcode &= ~OPCODE_CPU_ALL; ...]: the new value of [*opcode]. *)
Definition rx_set_dst_iface (opcode dst_iface : Z) : Z :=
  let opcode := Z.land opcode (u32 (Z.lnot OPCODE_CPU_ALL)) in
  if dst_iface =? 0 then Z.lor opcode OPCODE_CPU0
  else if dst_iface =? 1 then Z.lor opcode OPCODE_CPU1
  else if dst_iface =? 2 then Z.lor opcode OPCODE_CPU2
  else if dst_iface =? 3 then Z.lor opcode OPCODE_CPU3
  else opcode.

Definition rx_set_src_iface (opcode src_iface : Z) : Z :=
  let opcode := Z.land opcode (u32 (Z.lnot OPCODE_MAC_ALL)) in
  if src_iface =? 0 then Z.lor opcode OPCODE_MAC0
  else if src_iface =? 1 then Z.lor opcode OPCODE_MAC1
  else if src_iface =? 2 then Z.lor opcode OPCODE_MAC2
  else if src_iface =? 3 then Z.lor opcode OPCODE_MAC3
  else opcode.

Definition tx_get_dst_iface (opcode : Z) : Z := rx_get_src_iface opcode.
Definition tx_get_src_iface (opcode : Z) : Z := rx_get_dst_iface opcode.
Definition tx_set_dst_iface (opcode dst_iface : Z) : Z := rx_set_src_iface opcode dst_iface.
Definition tx_set_src_iface (opcode src_iface : Z) : Z := rx_set_dst_iface opcode src_iface.

(** ** Bit-level facts *)

(** A one-bit mask test is the test of that bit. *)
Lemma land_pow2_testbit x k :
  0 ≤ k → negb (Z.land x (2 ^ k) =? 0) = Z.testbit x k.
Proof.
  intros Hk. destruct (Z.testbit x k) eqn:E.
  - apply negb_true_iff, Z.eqb_neq. intros H0.
    assert (Z.testbit (Z.land x (2 ^ k)) k = true) as Ht
      by (rewrite Z.land_spec, E, Z.pow2_bits_true; auto).
    rewrite H0, Z.bits_0 in Ht. done.
  - apply negb_false_iff, Z.eqb_eq. apply Z.bits_inj'. intros n Hn.
    rewrite Z.land_spec, Z.bits_0, Z.pow2_bits_eqb by lia.
    destruct (Z.eqb_spec k n) as [->|]; [by rewrite E|apply andb_false_r].
Qed.

Lemma rx_get_dst_iface_bits op :
  rx_get_dst_iface op =
  if Z.testbit op 1 then 0 else if Z.testbit op 3 then 1
  else if Z.testbit op 5 then 2 else if Z.testbit op 7 then 3 else u32 (-1).
Proof.
  unfold rx_get_dst_iface, OPCODE_CPU0, OPCODE_CPU1, OPCODE_CPU2, OPCODE_CPU3.
  change 0x2 with (2 ^ 1). change 0x8 with (2 ^ 3).
  change 0x20 with (2 ^ 5). change 0x80 with (2 ^ 7).
  by rewrite !land_pow2_testbit by lia.
Qed.

Lemma rx_get_src_iface_bits op :
  rx_get_src_iface op =
  if Z.testbit op 0 then 0 else if Z.testbit op 2 then 1
  else if Z.testbit op 4 then 2 else if Z.testbit op 6 then 3 else u32 (-1).
Proof.
  unfold rx_get_src_iface, OPCODE_MAC0, OPCODE_MAC1, OPCODE_MAC2, OPCODE_MAC3.
  change 0x1 with (2 ^ 0). change 0x4 with (2 ^ 2).
  change 0x10 with (2 ^ 4). change 0x40 with (2 ^ 6).
  by rewrite !land_pow2_testbit by lia.
Qed.

(** The bit a setter turns on for interface [i], and the bits it clears. *)
Definition cpu_bit (i : Z) : Z := 2 * i + 1.
Definition mac_bit (i : Z) : Z := 2 * i.

Lemma testbit_const_range c n k :
  0 ≤ c < 2 ^ k → 0 ≤ k ≤ n → Z.testbit c n = false.
Proof.
  intros Hc Hn. destruct (decide (c = 0)) as [->|Hne]; [apply Z.bits_0|].
  apply Z.bits_above_log2; [lia|].
  assert (Z.log2 c < k) by (apply Z.log2_lt_pow2; lia). lia.
Qed.

Ltac small_cases n :=
  let H := fresh in
  assert (n = 0 ∨ n = 1 ∨ n = 2 ∨ n = 3 ∨ n = 4 ∨ n = 5 ∨ n = 6 ∨ n = 7 ∨ 8 ≤ n) as H by lia;
  destruct H as [-> | [-> | [-> | [-> | [-> | [-> | [-> | [-> | H ] ] ] ] ] ] ] ].

(** Bit [n >= 8] of the mask that the setter ors in is clear. *)
Ltac clear_high c0 c1 c2 c3 n :=
  first [ rewrite (testbit_const_range c0 n 8) by (first [lia | unfold c0; lia])
        | rewrite (testbit_const_range c1 n 8) by (first [lia | unfold c1; lia])
        | rewrite (testbit_const_range c2 n 8) by (first [lia | unfold c2; lia])
        | rewrite (testbit_const_range c3 n 8) by (first [lia | unfold c3; lia]) ].

Lemma rx_set_dst_iface_bits op i n :
  0 ≤ i < 4 → 0 ≤ n < 32 →
  Z.testbit (rx_set_dst_iface op i) n =
  (if n =? cpu_bit i then true
   else if (n <? 8) && Z.odd n then false else Z.testbit op n).
Proof.
  intros Hi Hn. unfold rx_set_dst_iface, cpu_bit.
  assert (i = 0 ∨ i = 1 ∨ i = 2 ∨ i = 3) as [-> | [-> | [-> | ->] ] ] by lia; simpl Z.eqb; cbv iota;
    rewrite Z.lor_spec, Z.land_spec;
    (small_cases n;
     [ simpl; rewrite ?andb_false_r, ?andb_true_r, ?orb_false_r; reflexivity ..
     | replace (n =? _) with false by (symmetry; apply Z.eqb_neq; lia);
       replace (n <? 8) with false by (symmetry; apply Z.ltb_ge; lia);
       clear_high OPCODE_CPU0 OPCODE_CPU1 OPCODE_CPU2 OPCODE_CPU3 n;
       unfold u32; rewrite <- Z.land_ones, Z.land_spec, Z.lnot_spec by lia;
       rewrite (testbit_const_range OPCODE_CPU_ALL n 8) by (first [lia | unfold OPCODE_CPU_ALL; lia]);
       rewrite Z.ones_spec_low by lia; simpl; by rewrite andb_true_r, orb_false_r ]).
Qed.

Lemma rx_set_src_iface_bits op i n :
  0 ≤ i < 4 → 0 ≤ n < 32 →
  Z.testbit (rx_set_src_iface op i) n =
  (if n =? mac_bit i then true
   else if (n <? 8) && Z.even n then false else Z.testbit op n).
Proof.
  intros Hi Hn. unfold rx_set_src_iface, mac_bit.
  assert (i = 0 ∨ i = 1 ∨ i = 2 ∨ i = 3) as [-> | [-> | [-> | ->] ] ] by lia; simpl Z.eqb; cbv iota;
    rewrite Z.lor_spec, Z.land_spec;
    (small_cases n;
     [ simpl; rewrite ?andb_false_r, ?andb_true_r, ?orb_false_r; reflexivity ..
     | replace (n =? _) with false by (symmetry; apply Z.eqb_neq; lia);
       replace (n <? 8) with false by (symmetry; apply Z.ltb_ge; lia);
       clear_high OPCODE_MAC0 OPCODE_MAC1 OPCODE_MAC2 OPCODE_MAC3 n;
       unfold u32; rewrite <- Z.land_ones, Z.land_spec, Z.lnot_spec by lia;
       rewrite (testbit_const_range OPCODE_MAC_ALL n 8) by (first [lia | unfold OPCODE_MAC_ALL; lia]);
       rewrite Z.ones_spec_low by lia; simpl; by rewrite andb_true_r, orb_false_r ]).
Qed.

(** ** Setters and getters are inverse, and independent of each other *)

Lemma rx_dst_get_set op i : 0 ≤ i < 4 → rx_get_dst_iface (rx_set_dst_iface op i) = i.
Proof.
  intros Hi. rewrite rx_get_dst_iface_bits, !rx_set_dst_iface_bits by lia.
  unfold cpu_bit.
  assert (i = 0 ∨ i = 1 ∨ i = 2 ∨ i = 3) as [-> | [-> | [-> | ->] ] ] by lia; reflexivity.
Qed.

Lemma rx_src_get_set op i : 0 ≤ i < 4 → rx_get_src_iface (rx_set_src_iface op i) = i.
Proof.
  intros Hi. rewrite rx_get_src_iface_bits, !rx_set_src_iface_bits by lia.
  unfold mac_bit.
  assert (i = 0 ∨ i = 1 ∨ i = 2 ∨ i = 3) as [-> | [-> | [-> | ->] ] ] by lia; reflexivity.
Qed.

Lemma rx_src_set_dst op i : 0 ≤ i < 4 → rx_get_src_iface (rx_set_dst_iface op i) = rx_get_src_iface op.
Proof.
  intros Hi. rewrite !rx_get_src_iface_bits, !rx_set_dst_iface_bits by lia.
  unfold cpu_bit.
  assert (i = 0 ∨ i = 1 ∨ i = 2 ∨ i = 3) as [-> | [-> | [-> | ->] ] ] by lia; reflexivity.
Qed.

Lemma rx_dst_set_src op i : 0 ≤ i < 4 → rx_get_dst_iface (rx_set_src_iface op i) = rx_get_dst_iface op.
Proof.
  intros Hi. rewrite !rx_get_dst_iface_bits, !rx_set_src_iface_bits by lia.
  unfold mac_bit.
  assert (i = 0 ∨ i = 1 ∨ i = 2 ∨ i = 3) as [-> | [-> | [-> | ->] ] ] by lia; reflexivity.
Qed.

(** The interface number a getter returns is below 4 or is [(uint32_t)-1]. *)
Lemma rx_get_dst_iface_range op :
  0 ≤ rx_get_dst_iface op < 4 ∨ rx_get_dst_iface op = u32 (-1).
Proof. rewrite rx_get_dst_iface_bits. repeat case_match; auto; lia. Qed.

Lemma rx_set_dst_iface_0 i : 0 ≤ i < 4 → rx_set_dst_iface 0 i = 2 ^ cpu_bit i.
Proof.
  intros Hi. unfold cpu_bit.
  assert (i = 0 ∨ i = 1 ∨ i = 2 ∨ i = 3) as [-> | [-> | [-> | ->] ] ] by lia; reflexivity.
Qed.
