(* ===== verification/Kernel.v ===== *)
(** * The driver's state, the kernel around it, and the monad of its handlers

    The Linux kernel and the FPGA are not part of this repository.  They
    appear in two ways only: every call the driver makes to them is recorded
    as an [event] of the [trace], and every answer they give is a field of the
    class [Kernel], a function of the trace so far, so that a theorem about
    all instances of [Kernel] is a theorem about every behaviour of the kernel
    and the device.  What the driver itself reads and writes (its global
    variables, the DMA memory, its [net_device] structures) is the record
    [drv].  [printk] and [PDEBUG] only log and are left out. *)

From S2P Require Import Prelude Mem Occp.

(** ** Events: calls to the kernel and accesses to the device *)

Inductive event :=
  (* device registers, memory barriers, stores to DMA memory *)
  | EvMmioWr (a v : Z) | EvMmioRd (a v : Z) | EvMb | EvWmb
  | EvStore (a : Z) (bs : list Z)
  (* spinlock of the TX DMA region *)
  | EvLock | EvUnlock
  (* polling timer and NAPI *)
  | EvAddTimer (expires : Z) | EvDelTimer | EvTimerFired
  | EvNapiAdd (netdev weight : Z) | EvNapiDel | EvNapiEnable | EvNapiDisable
  | EvNapiSchedule | EvNapiComplete
  (* packets *)
  | EvFreeSkb | EvAllocSkb (len : Z) (ok : bool)
  | EvReceive (netdev : Z) (data : list Z) (protocol : Z) (unnecessary : bool)
  | EvStartQueue (netdev : Z) | EvStopQueue (netdev : Z)
  (* memory *)
  | EvKmalloc (n va : Z) | EvKfree (va : Z)
  | EvDmaAlloc (n va pa : Z) | EvDmaFree (n va pa : Z)
  (* PCI *)
  | EvPciEnable (err : Z) | EvPciDisable | EvPciSetMaster
  | EvRequestRegion (err : Z) | EvReleaseRegion
  | EvIoremap (va : Z) | EvIounmap (va : Z)
  | EvDmaMask (err : Z) | EvDmaCoherentMask (err : Z)
  | EvPciRegister (err : Z) | EvPciUnregister
  (* network devices *)
  | EvAllocNetdev (p : Z) | EvFreeNetdev (p : Z)
  | EvRegisterNetdev (p err : Z) | EvUnregisterNetdev (p : Z)
  (* generic netlink and /proc *)
  | EvGenlRegFamily (err : Z) | EvGenlUnregFamily (err : Z)
  | EvGenlRegOps (cmd err : Z)
  | EvProcCreate | EvProcRemove
  | EvGenlNew (ok : bool) | EvGenlPutReply (cmd : Z) (ok : bool)
  | EvNlaPut (ty : Z) (data : list Z) (err : Z)
  | EvGenlReply (attrs : list (Z * list Z)) (err : Z).

(** ** Structures of the driver *)

(** [struct net_device_stats]; the counters are [unsigned long]. *)
Record net_device_stats := mkStats {
  rx_packets : Z;
  tx_packets : Z;
  rx_bytes : Z;
  tx_bytes : Z;
  rx_dropped : Z;
  tx_dropped : Z;
}.

Definition set_rx_packets (v : Z) (s : net_device_stats) : net_device_stats :=
    mkStats v (tx_packets s) (rx_bytes s) (tx_bytes s) (rx_dropped s) (tx_dropped s).
Definition set_tx_packets (v : Z) (s : net_device_stats) : net_device_stats :=
    mkStats (rx_packets s) v (rx_bytes s) (tx_bytes s) (rx_dropped s) (tx_dropped s).
Definition set_rx_bytes (v : Z) (s : net_device_stats) : net_device_stats :=
    mkStats (rx_packets s) (tx_packets s) v (tx_bytes s) (rx_dropped s) (tx_dropped s).
Definition set_tx_bytes (v : Z) (s : net_device_stats) : net_device_stats :=
    mkStats (rx_packets s) (tx_packets s) (rx_bytes s) v (rx_dropped s) (tx_dropped s).
Definition set_rx_dropped (v : Z) (s : net_device_stats) : net_device_stats :=
    mkStats (rx_packets s) (tx_packets s) (rx_bytes s) (tx_bytes s) v (tx_dropped s).
Definition set_tx_dropped (v : Z) (s : net_device_stats) : net_device_stats :=
    mkStats (rx_packets s) (tx_packets s) (rx_bytes s) (tx_bytes s) (rx_dropped s) v.

(** The part of [struct net_device] that the driver reads or writes. *)
Record net_device := mkNetDevice {
  dev_addr : list Z;
  addr_len : Z;
  hard_header_len : Z;
  nd_flags : Z;
  watchdog_timeo : Z;
  netdev_ops : bool;
  header_ops : bool;
  trans_start : Z;
  stats : net_device_stats;
}.

Definition set_dev_addr (v : list Z) (s : net_device) : net_device :=
    mkNetDevice v (addr_len s) (hard_header_len s) (nd_flags s) (watchdog_timeo s)
    (netdev_ops s) (header_ops s) (trans_start s) (stats s).
Definition set_addr_len (v : Z) (s : net_device) : net_device :=
    mkNetDevice (dev_addr s) v (hard_header_len s) (nd_flags s) (watchdog_timeo s)
    (netdev_ops s) (header_ops s) (trans_start s) (stats s).
Definition set_hard_header_len (v : Z) (s : net_device) : net_device :=
    mkNetDevice (dev_addr s) (addr_len s) v (nd_flags s) (watchdog_timeo s) (netdev_ops s)
    (header_ops s) (trans_start s) (stats s).
Definition set_nd_flags (v : Z) (s : net_device) : net_device :=
    mkNetDevice (dev_addr s) (addr_len s) (hard_header_len s) v (watchdog_timeo s)
    (netdev_ops s) (header_ops s) (trans_start s) (stats s).
Definition set_watchdog_timeo (v : Z) (s : net_device) : net_device :=
    mkNetDevice (dev_addr s) (addr_len s) (hard_header_len s) (nd_flags s) v (netdev_ops
    s) (header_ops s) (trans_start s) (stats s).
Definition set_netdev_ops (v : bool) (s : net_device) : net_device :=
    mkNetDevice (dev_addr s) (addr_len s) (hard_header_len s) (nd_flags s) (watchdog_timeo
    s) v (header_ops s) (trans_start s) (stats s).
Definition set_header_ops (v : bool) (s : net_device) : net_device :=
    mkNetDevice (dev_addr s) (addr_len s) (hard_header_len s) (nd_flags s) (watchdog_timeo
    s) (netdev_ops s) v (trans_start s) (stats s).
Definition set_trans_start (v : Z) (s : net_device) : net_device :=
    mkNetDevice (dev_addr s) (addr_len s) (hard_header_len s) (nd_flags s) (watchdog_timeo
    s) (netdev_ops s) (header_ops s) v (stats s).
Definition set_stats (v : net_device_stats) (s : net_device) : net_device :=
    mkNetDevice (dev_addr s) (addr_len s) (hard_header_len s) (nd_flags s) (watchdog_timeo
    s) (netdev_ops s) (header_ops s) (trans_start s) v.

(** [struct dma_stream]: pointers are addresses, NULL is 0. *)
Record dma_stream := mkStream {
  buffers : Z;
  metadata : Z;
  flags : Z;
  doorbell : Z;
  buf_index : Z;
}.

Definition set_buffers (v : Z) (s : dma_stream) : dma_stream :=
    mkStream v (metadata s) (flags s) (doorbell s) (buf_index s).
Definition set_metadata (v : Z) (s : dma_stream) : dma_stream :=
    mkStream (buffers s) v (flags s) (doorbell s) (buf_index s).
Definition set_flags (v : Z) (s : dma_stream) : dma_stream :=
    mkStream (buffers s) (metadata s) v (doorbell s) (buf_index s).
Definition set_doorbell (v : Z) (s : dma_stream) : dma_stream :=
    mkStream (buffers s) (metadata s) (flags s) v (buf_index s).
Definition set_buf_index (v : Z) (s : dma_stream) : dma_stream :=
    mkStream (buffers s) (metadata s) (flags s) (doorbell s) v.

(** The global variables of [nf10_eth_driver_main.c], the memory they point
    into ([ram], and [iomap], the live I/O mappings), the [net_device]
    structures by address, whether the PCI core has bound the device to the
    driver, and the trace (newest event first). *)
Record drv := mkDrv {
  nf10_netdevs : list Z;
  netdevs : gmap Z net_device;
  bar0_base_va : Z;
  bar0_size : Z;
  tx_dma_reg_va : Z;
  tx_dma_reg_pa : Z;
  rx_dma_reg_va : Z;
  rx_dma_reg_pa : Z;
  tx_dma_stream : dma_stream;
  rx_dma_stream : dma_stream;
  dma_cpu_bufs : Z;
  dma_region_size : Z;
  timer_expires : Z;
  nf10_regs : Z;
  nf10_ctrl : Z;
  hw_state : Z;
  ram : mem;
  iomap : list (Z * Z);
  pci_bound : bool;
  trace : list event;
}.

Definition set_nf10_netdevs (v : list Z) (s : drv) : drv :=
    mkDrv v (netdevs s) (bar0_base_va s) (bar0_size s) (tx_dma_reg_va s) (tx_dma_reg_pa s)
    (rx_dma_reg_va s) (rx_dma_reg_pa s) (tx_dma_stream s) (rx_dma_stream s) (dma_cpu_bufs
    s) (dma_region_size s) (timer_expires s) (nf10_regs s) (nf10_ctrl s) (hw_state s) (ram
    s) (iomap s) (pci_bound s) (trace s).
Definition set_netdevs (v : gmap Z net_device) (s : drv) : drv :=
    mkDrv (nf10_netdevs s) v (bar0_base_va s) (bar0_size s) (tx_dma_reg_va s)
    (tx_dma_reg_pa s) (rx_dma_reg_va s) (rx_dma_reg_pa s) (tx_dma_stream s) (rx_dma_stream
    s) (dma_cpu_bufs s) (dma_region_size s) (timer_expires s) (nf10_regs s) (nf10_ctrl s)
    (hw_state s) (ram s) (iomap s) (pci_bound s) (trace s).
Definition set_bar0_base_va (v : Z) (s : drv) : drv :=
    mkDrv (nf10_netdevs s) (netdevs s) v (bar0_size s) (tx_dma_reg_va s) (tx_dma_reg_pa s)
    (rx_dma_reg_va s) (rx_dma_reg_pa s) (tx_dma_stream s) (rx_dma_stream s) (dma_cpu_bufs
    s) (dma_region_size s) (timer_expires s) (nf10_regs s) (nf10_ctrl s) (hw_state s) (ram
    s) (iomap s) (pci_bound s) (trace s).
Definition set_bar0_size (v : Z) (s : drv) : drv :=
    mkDrv (nf10_netdevs s) (netdevs s) (bar0_base_va s) v (tx_dma_reg_va s) (tx_dma_reg_pa
    s) (rx_dma_reg_va s) (rx_dma_reg_pa s) (tx_dma_stream s) (rx_dma_stream s)
    (dma_cpu_bufs s) (dma_region_size s) (timer_expires s) (nf10_regs s) (nf10_ctrl s)
    (hw_state s) (ram s) (iomap s) (pci_bound s) (trace s).
Definition set_tx_dma_reg_va (v : Z) (s : drv) : drv :=
    mkDrv (nf10_netdevs s) (netdevs s) (bar0_base_va s) (bar0_size s) v (tx_dma_reg_pa s)
    (rx_dma_reg_va s) (rx_dma_reg_pa s) (tx_dma_stream s) (rx_dma_stream s) (dma_cpu_bufs
    s) (dma_region_size s) (timer_expires s) (nf10_regs s) (nf10_ctrl s) (hw_state s) (ram
    s) (iomap s) (pci_bound s) (trace s).
Definition set_tx_dma_reg_pa (v : Z) (s : drv) : drv :=
    mkDrv (nf10_netdevs s) (netdevs s) (bar0_base_va s) (bar0_size s) (tx_dma_reg_va s) v
    (rx_dma_reg_va s) (rx_dma_reg_pa s) (tx_dma_stream s) (rx_dma_stream s) (dma_cpu_bufs
    s) (dma_region_size s) (timer_expires s) (nf10_regs s) (nf10_ctrl s) (hw_state s) (ram
    s) (iomap s) (pci_bound s) (trace s).
Definition set_rx_dma_reg_va (v : Z) (s : drv) : drv :=
    mkDrv (nf10_netdevs s) (netdevs s) (bar0_base_va s) (bar0_size s) (tx_dma_reg_va s)
    (tx_dma_reg_pa s) v (rx_dma_reg_pa s) (tx_dma_stream s) (rx_dma_stream s)
    (dma_cpu_bufs s) (dma_region_size s) (timer_expires s) (nf10_regs s) (nf10_ctrl s)
    (hw_state s) (ram s) (iomap s) (pci_bound s) (trace s).
Definition set_rx_dma_reg_pa (v : Z) (s : drv) : drv :=
    mkDrv (nf10_netdevs s) (netdevs s) (bar0_base_va s) (bar0_size s) (tx_dma_reg_va s)
    (tx_dma_reg_pa s) (rx_dma_reg_va s) v (tx_dma_stream s) (rx_dma_stream s)
    (dma_cpu_bufs s) (dma_region_size s) (timer_expires s) (nf10_regs s) (nf10_ctrl s)
    (hw_state s) (ram s) (iomap s) (pci_bound s) (trace s).
Definition set_tx_dma_stream (v : dma_stream) (s : drv) : drv :=
    mkDrv (nf10_netdevs s) (netdevs s) (bar0_base_va s) (bar0_size s) (tx_dma_reg_va s)
    (tx_dma_reg_pa s) (rx_dma_reg_va s) (rx_dma_reg_pa s) v (rx_dma_stream s)
    (dma_cpu_bufs s) (dma_region_size s) (timer_expires s) (nf10_regs s) (nf10_ctrl s)
    (hw_state s) (ram s) (iomap s) (pci_bound s) (trace s).
Definition set_rx_dma_stream (v : dma_stream) (s : drv) : drv :=
    mkDrv (nf10_netdevs s) (netdevs s) (bar0_base_va s) (bar0_size s) (tx_dma_reg_va s)
    (tx_dma_reg_pa s) (rx_dma_reg_va s) (rx_dma_reg_pa s) (tx_dma_stream s) v
    (dma_cpu_bufs s) (dma_region_size s) (timer_expires s) (nf10_regs s) (nf10_ctrl s)
    (hw_state s) (ram s) (iomap s) (pci_bound s) (trace s).
Definition set_dma_cpu_bufs (v : Z) (s : drv) : drv :=
    mkDrv (nf10_netdevs s) (netdevs s) (bar0_base_va s) (bar0_size s) (tx_dma_reg_va s)
    (tx_dma_reg_pa s) (rx_dma_reg_va s) (rx_dma_reg_pa s) (tx_dma_stream s) (rx_dma_stream
    s) v (dma_region_size s) (timer_expires s) (nf10_regs s) (nf10_ctrl s) (hw_state s)
    (ram s) (iomap s) (pci_bound s) (trace s).
Definition set_dma_region_size (v : Z) (s : drv) : drv :=
    mkDrv (nf10_netdevs s) (netdevs s) (bar0_base_va s) (bar0_size s) (tx_dma_reg_va s)
    (tx_dma_reg_pa s) (rx_dma_reg_va s) (rx_dma_reg_pa s) (tx_dma_stream s) (rx_dma_stream
    s) (dma_cpu_bufs s) v (timer_expires s) (nf10_regs s) (nf10_ctrl s) (hw_state s) (ram
    s) (iomap s) (pci_bound s) (trace s).
Definition set_timer_expires (v : Z) (s : drv) : drv :=
    mkDrv (nf10_netdevs s) (netdevs s) (bar0_base_va s) (bar0_size s) (tx_dma_reg_va s)
    (tx_dma_reg_pa s) (rx_dma_reg_va s) (rx_dma_reg_pa s) (tx_dma_stream s) (rx_dma_stream
    s) (dma_cpu_bufs s) (dma_region_size s) v (nf10_regs s) (nf10_ctrl s) (hw_state s)
    (ram s) (iomap s) (pci_bound s) (trace s).
Definition set_nf10_regs (v : Z) (s : drv) : drv :=
    mkDrv (nf10_netdevs s) (netdevs s) (bar0_base_va s) (bar0_size s) (tx_dma_reg_va s)
    (tx_dma_reg_pa s) (rx_dma_reg_va s) (rx_dma_reg_pa s) (tx_dma_stream s) (rx_dma_stream
    s) (dma_cpu_bufs s) (dma_region_size s) (timer_expires s) v (nf10_ctrl s) (hw_state s)
    (ram s) (iomap s) (pci_bound s) (trace s).
Definition set_nf10_ctrl (v : Z) (s : drv) : drv :=
    mkDrv (nf10_netdevs s) (netdevs s) (bar0_base_va s) (bar0_size s) (tx_dma_reg_va s)
    (tx_dma_reg_pa s) (rx_dma_reg_va s) (rx_dma_reg_pa s) (tx_dma_stream s) (rx_dma_stream
    s) (dma_cpu_bufs s) (dma_region_size s) (timer_expires s) (nf10_regs s) v (hw_state s)
    (ram s) (iomap s) (pci_bound s) (trace s).
Definition set_hw_state (v : Z) (s : drv) : drv :=
    mkDrv (nf10_netdevs s) (netdevs s) (bar0_base_va s) (bar0_size s) (tx_dma_reg_va s)
    (tx_dma_reg_pa s) (rx_dma_reg_va s) (rx_dma_reg_pa s) (tx_dma_stream s) (rx_dma_stream
    s) (dma_cpu_bufs s) (dma_region_size s) (timer_expires s) (nf10_regs s) (nf10_ctrl s)
    v (ram s) (iomap s) (pci_bound s) (trace s).
Definition set_ram (v : mem) (s : drv) : drv :=
    mkDrv (nf10_netdevs s) (netdevs s) (bar0_base_va s) (bar0_size s) (tx_dma_reg_va s)
    (tx_dma_reg_pa s) (rx_dma_reg_va s) (rx_dma_reg_pa s) (tx_dma_stream s) (rx_dma_stream
    s) (dma_cpu_bufs s) (dma_region_size s) (timer_expires s) (nf10_regs s) (nf10_ctrl s)
    (hw_state s) v (iomap s) (pci_bound s) (trace s).
Definition set_iomap (v : list (Z * Z)) (s : drv) : drv :=
    mkDrv (nf10_netdevs s) (netdevs s) (bar0_base_va s) (bar0_size s) (tx_dma_reg_va s)
    (tx_dma_reg_pa s) (rx_dma_reg_va s) (rx_dma_reg_pa s) (tx_dma_stream s) (rx_dma_stream
    s) (dma_cpu_bufs s) (dma_region_size s) (timer_expires s) (nf10_regs s) (nf10_ctrl s)
    (hw_state s) (ram s) v (pci_bound s) (trace s).
Definition set_pci_bound (v : bool) (s : drv) : drv :=
    mkDrv (nf10_netdevs s) (netdevs s) (bar0_base_va s) (bar0_size s) (tx_dma_reg_va s)
    (tx_dma_reg_pa s) (rx_dma_reg_va s) (rx_dma_reg_pa s) (tx_dma_stream s) (rx_dma_stream
    s) (dma_cpu_bufs s) (dma_region_size s) (timer_expires s) (nf10_regs s) (nf10_ctrl s)
    (hw_state s) (ram s) (iomap s) v (trace s).
Definition set_trace (v : list event) (s : drv) : drv :=
    mkDrv (nf10_netdevs s) (netdevs s) (bar0_base_va s) (bar0_size s) (tx_dma_reg_va s)
    (tx_dma_reg_pa s) (rx_dma_reg_va s) (rx_dma_reg_pa s) (tx_dma_stream s) (rx_dma_stream
    s) (dma_cpu_bufs s) (dma_region_size s) (timer_expires s) (nf10_regs s) (nf10_ctrl s)
    (hw_state s) (ram s) (iomap s) (pci_bound s) v.

(** ** The kernel and the device as seen by the driver *)

Class Kernel := {
  (** build options: [-DDRIVER_GHOST], [-DDRIVER_LOOPB] *)
  DRIVER_GHOST : bool;
  DRIVER_LOOPB : bool;
  (** time *)
  k_jiffies : list event → Z;
  k_HZ : Z;
  (** value read from a device register *)
  k_mmio : list event → Z → Z;
  (** allocators: address, or 0 for NULL *)
  k_kmalloc : list event → Z → Z;
  k_dma_alloc : list event → Z → Z * Z;
  k_alloc_netdev : list event → Z;
  k_dev_alloc_skb : list event → Z → bool;
  (** PCI core *)
  k_pci_enable_device : list event → Z;
  k_pci_request_region : list event → Z;
  k_pci_ioremap_bar : list event → Z;
  k_pci_resource_len : Z;
  k_dma_set_mask : list event → Z;
  k_dma_set_coherent_mask : list event → Z;
  k_pci_register_driver : list event → Z;
  k_pci_device_present : list event → bool;
  (** network core *)
  k_register_netdev : list event → Z;
  k_ether_setup : net_device → net_device;
  k_eth_type_trans : list Z → Z;
  k_ip_fast_csum : list Z → Z → Z;
  k_is_valid_ether_addr : list Z → bool;
  (** generic netlink *)
  k_genl_register_family : list event → Z;
  k_genl_unregister_family : list event → Z;
  k_genl_register_ops : list event → Z → Z;
  k_genlmsg_new : list event → bool;
  k_genlmsg_put_reply : list event → bool;
  k_nla_put : list event → Z → Z → Z;
  k_genlmsg_reply : list event → Z;
}.

(** ** The monad: state, faults, and loops that run out of fuel *)

Inductive outcome (A : Type) :=
  | Ok (a : A) (s : drv)
  | Fault
  | OutOfFuel.
Arguments Ok {A} a s.
Arguments Fault {A}.
Arguments OutOfFuel {A}.

Definition M (A : Type) := drv → outcome A.

Definition ret {A} (a : A) : M A := λ s, Ok a s.

Definition bind {A B} (m : M A) (k : A → M B) : M B := λ s,
  match m s with
  | Ok a s' => k a s'
  | Fault => Fault
  | OutOfFuel => OutOfFuel
  end.

Declare Scope nf10_scope.
Delimit Scope nf10_scope with nf10.
#[global] Open Scope nf10_scope.

Notation "x <- m ;; k" := (bind m (λ x, k))
  (at level 100, m at next level, right associativity) : nf10_scope.
Notation "m ;; k" := (bind m (λ _, k))
  (at level 100, k at level 200, right associativity) : nf10_scope.

Definition fault {A} : M A := λ _, Fault.
Definition out_of_fuel {A} : M A := λ _, OutOfFuel.
Definition get {A} (f : drv → A) : M A := λ s, Ok (f s) s.
Definition modify (f : drv → drv) : M unit := λ s, Ok tt (f s).
Definition emit (e : event) : M unit := modify (λ s, set_trace (e :: trace s) s).

(** Ask the kernel: its answer may depend on everything that happened. *)
Definition ask {A} (f : list event → A) : M A := λ s, Ok (f (trace s)) s.

(** Ask and record the answer. *)
Definition call {A} (f : list event → A) (e : A → event) : M A :=
  a <- ask f ;; emit (e a) ;; ret a.

(** ** Memory and device accesses *)

Definition rd32 (a : Z) : M Z := λ s,
  match load32 (ram s) a with Some v => Ok v s | None => Fault end.

Definition rd (a n : Z) : M (list Z) := λ s,
  match load (ram s) a n with Some bs => Ok bs s | None => Fault end.

Definition wr (a : Z) (bs : list Z) : M unit := λ s,
  match store (ram s) a bs with
  | Some m => Ok tt (set_trace (EvStore a bs :: trace s) (set_ram m s))
  | None => Fault
  end.

Definition wr32 (a v : Z) : M unit := wr a (le_split 4 v).

Definition io_valid (s : drv) (a : Z) : bool := existsb (in_region a 4) (iomap s).

Definition mmio_wr `{Kernel} (a v : Z) : M unit := λ s,
  if io_valid s a then emit (EvMmioWr a v) s else Fault.

Definition mmio_rd `{Kernel} (a : Z) : M Z := λ s,
  if io_valid s a then call (λ tr, k_mmio tr a) (EvMmioRd a) s else Fault.

(** Access to a [net_device] through a pointer. *)
Definition netdev_get (p : Z) : M net_device := λ s,
  match netdevs s !! p with Some d => Ok d s | None => Fault end.

Definition netdev_upd (p : Z) (f : net_device → net_device) : M unit := λ s,
  match netdevs s !! p with
  | Some d => Ok tt (set_netdevs (<[p := f d]> (netdevs s)) s)
  | None => Fault
  end.

(** [nf10_netdevs[i]]; an index outside the array is a fault. *)
Definition netdev_ptr (i : Z) : M Z := λ s,
  if (0 <=? i) && (i <? NUM_NETDEVS) then
    match nf10_netdevs s !! Z.to_nat i with Some p => Ok p s | None => Fault end
  else Fault.

(** [netdev->stats.x++] and [netdev->stats.x += n]. *)
Definition inc_tx_dropped (d : net_device) : net_device :=
  set_stats (set_tx_dropped (u64 (tx_dropped (stats d) + 1)) (stats d)) d.
Definition inc_rx_dropped (d : net_device) : net_device :=
  set_stats (set_rx_dropped (u64 (rx_dropped (stats d) + 1)) (stats d)) d.
Definition count_tx (len : Z) (d : net_device) : net_device :=
  set_stats (set_tx_bytes (u64 (tx_bytes (stats d) + len))
              (set_tx_packets (u64 (tx_packets (stats d) + 1)) (stats d))) d.
Definition count_rx (len : Z) (d : net_device) : net_device :=
  set_stats (set_rx_bytes (u64 (rx_bytes (stats d) + len))
              (set_rx_packets (u64 (rx_packets (stats d) + 1)) (stats d))) d.

(** ** Running a computation step by step *)

Lemma bind_ok {A B} (m : M A) (k : A → M B) s a s' :
  m s = Ok a s' → bind m k s = k a s'.
Proof. unfold bind. by intros ->. Qed.

Lemma bind_assoc {A B C} (m : M A) (f : A → M B) (g : B → M C) s :
  bind (bind m f) g s = bind m (λ a, bind (f a) g) s.
Proof. unfold bind. by destruct (m s). Qed.

Lemma rd32_ok a s : valid (ram s) a 4 = true → rd32 a s = Ok (word_at (ram s) a) s.
Proof. intros H. unfold rd32. by rewrite load32_valid. Qed.

Lemma rd_ok a n s :
  valid (ram s) a n = true → rd a n s = Ok (bytes_at (ram s) a (Z.to_nat n)) s.
Proof. intros H. unfold rd. by rewrite load_valid. Qed.

Lemma wr_ok a bs s :
  valid (ram s) a (zlen bs) = true →
  wr a bs s = Ok tt (set_trace (EvStore a bs :: trace s) (set_ram (upd (ram s) a bs) s)).
Proof. intros H. unfold wr. by rewrite store_valid. Qed.

Lemma wr32_ok a v s :
  valid (ram s) a 4 = true →
  wr32 a v s = Ok tt (set_trace (EvStore a (le_split 4 v) :: trace s)
                        (set_ram (upd32 (ram s) a v) s)).
Proof. intros H. unfold wr32. rewrite wr_ok; [done|]. by rewrite zlen_le_split. Qed.

Lemma netdev_upd_ok p f d s :
  netdevs s !! p = Some d →
  netdev_upd p f s = Ok tt (set_netdevs (<[p := f d]> (netdevs s)) s).
Proof. unfold netdev_upd. by intros ->. Qed.

Lemma netdev_ptr_ok i p s :
  0 ≤ i < NUM_NETDEVS → nf10_netdevs s !! Z.to_nat i = Some p →
  netdev_ptr i s = Ok p s.
Proof.
  intros Hi Hp. unfold netdev_ptr.
  destruct (Z.leb_spec 0 i), (Z.ltb_spec i NUM_NETDEVS); simpl; try lia. by rewrite Hp.
Qed.

Lemma mmio_wr_ok `{Kernel} a v s :
  io_valid s a = true → mmio_wr a v s = Ok tt (set_trace (EvMmioWr a v :: trace s) s).
Proof. intros Hv. unfold mmio_wr. by rewrite Hv. Qed.

Lemma mmio_rd_ok `{Kernel} a s :
  io_valid s a = true →
  mmio_rd a s = Ok (k_mmio (trace s) a)
                  (set_trace (EvMmioRd a (k_mmio (trace s) a) :: trace s) s).
Proof. intros Hv. unfold mmio_rd. by rewrite Hv. Qed.

(** ** Symbolic execution

    [step] runs the first primitive of a computation applied to a state; the
    side condition of a memory access is left to [tac]. *)
Ltac prim tac :=
  first [ apply rd32_ok; tac | apply rd_ok; tac | apply wr32_ok; tac | apply wr_ok; tac
        | apply mmio_wr_ok; tac | apply mmio_rd_ok; tac
        | eapply netdev_upd_ok; tac | eapply netdev_ptr_ok; tac
        | reflexivity ].
Ltac step tac :=
  repeat rewrite bind_assoc;
  erewrite bind_ok; [ | solve [prim tac] ]; simpl.
Ltac steps tac := repeat (step tac).

(** ** Partial-correctness reasoning

    [wlp m s Q]: [m] run from [s] does not run out of fuel, and if it does not
    fault, its result and final state satisfy [Q]. *)
Definition wlp {A} (m : M A) (s : drv) (Q : A → drv → Prop) : Prop :=
  match m s with Ok a s' => Q a s' | Fault => True | OutOfFuel => False end.

Lemma wlp_bind {A B} (m : M A) (k : A → M B) s Q :
  wlp m s (λ a s1, wlp (k a) s1 Q) → wlp (bind m k) s Q.
Proof. unfold wlp, bind. by destruct (m s). Qed.

Lemma wlp_mono {A} (m : M A) s (P Q : A → drv → Prop) :
  wlp m s P → (∀ a s', P a s' → Q a s') → wlp m s Q.
Proof. unfold wlp. destruct (m s); auto. Qed.

Lemma wlp_ok {A} (m : M A) s Q a s' : wlp m s Q → m s = Ok a s' → Q a s'.
Proof. unfold wlp. intros Hw Hm. by rewrite Hm in Hw. Qed.

Lemma wlp_rd32 a s (Q : Z → drv → Prop) : Q (word_at (ram s) a) s → wlp (rd32 a) s Q.
Proof. unfold wlp, rd32, load32. by destruct (valid _ _ _). Qed.

Lemma wlp_rd a n s (Q : list Z → drv → Prop) :
  Q (bytes_at (ram s) a (Z.to_nat n)) s → wlp (rd a n) s Q.
Proof. unfold wlp, rd, load. by destruct (valid _ _ _). Qed.

Lemma wlp_wr a bs s (Q : unit → drv → Prop) :
  Q tt (set_trace (EvStore a bs :: trace s) (set_ram (upd (ram s) a bs) s)) →
  wlp (wr a bs) s Q.
Proof. unfold wlp, wr, store. by destruct (valid _ _ _). Qed.

Lemma wlp_mmio_wr `{Kernel} a v s (Q : unit → drv → Prop) :
  Q tt (set_trace (EvMmioWr a v :: trace s) s) → wlp (mmio_wr a v) s Q.
Proof. unfold wlp, mmio_wr. by destruct (io_valid _ _). Qed.

Lemma wlp_mmio_rd `{Kernel} a s (Q : Z → drv → Prop) :
  Q (k_mmio (trace s) a)
    (set_trace (EvMmioRd a (k_mmio (trace s) a) :: trace s) s) → wlp (mmio_rd a) s Q.
Proof. unfold wlp, mmio_rd. by destruct (io_valid _ _). Qed.

Lemma wlp_netdev_upd p f s (Q : unit → drv → Prop) :
  (∀ d, netdevs s !! p = Some d → Q tt (set_netdevs (<[p := f d]> (netdevs s)) s)) →
  wlp (netdev_upd p f) s Q.
Proof. unfold wlp, netdev_upd. intros HQ. destruct (netdevs s !! p); auto. Qed.

Lemma wlp_netdev_ptr i s (Q : Z → drv → Prop) :
  (∀ p, nf10_netdevs s !! Z.to_nat i = Some p → Q p s) → wlp (netdev_ptr i) s Q.
Proof.
  unfold wlp, netdev_ptr. intros HQ.
  destruct (_ && _); [|done]. destruct (nf10_netdevs s !! Z.to_nat i); auto.
Qed.

Lemma wlp_ret {A} (a : A) s (Q : A → drv → Prop) : Q a s → wlp (ret a) s Q.
Proof. done. Qed.

Lemma wlp_get {A} (f : drv → A) s (Q : A → drv → Prop) : Q (f s) s → wlp (get f) s Q.
Proof. done. Qed.

Lemma wlp_modify f s (Q : unit → drv → Prop) : Q tt (f s) → wlp (modify f) s Q.
Proof. done. Qed.

Lemma wlp_emit e s (Q : unit → drv → Prop) :
  Q tt (set_trace (e :: trace s) s) → wlp (emit e) s Q.
Proof. done. Qed.

Lemma wlp_ask {A} (f : list event → A) s (Q : A → drv → Prop) :
  Q (f (trace s)) s → wlp (ask f) s Q.
Proof. done. Qed.

Lemma wlp_call {A} (f : list event → A) e s (Q : A → drv → Prop) :
  Q (f (trace s)) (set_trace (e (f (trace s)) :: trace s) s) → wlp (call f e) s Q.
Proof. done. Qed.

Lemma wlp_fault {A} s (Q : A → drv → Prop) : wlp fault s Q.
Proof. done. Qed.

(** Walk through a computation; a [match] on data is split. *)
Ltac wlp_step :=
  lazymatch goal with
  | |- wlp (bind _ _) _ _ => apply wlp_bind
  | |- wlp (ret _) _ _ => apply wlp_ret
  | |- wlp (get _) _ _ => apply wlp_get
  | |- wlp (modify _) _ _ => apply wlp_modify
  | |- wlp (emit _) _ _ => apply wlp_emit
  | |- wlp (ask _) _ _ => apply wlp_ask
  | |- wlp (call _ _) _ _ => apply wlp_call
  | |- wlp fault _ _ => apply wlp_fault
  | |- wlp (rd32 _) _ _ => apply wlp_rd32
  | |- wlp (rd _ _) _ _ => apply wlp_rd
  | |- wlp (wr _ _) _ _ => apply wlp_wr
  | |- wlp (mmio_wr _ _) _ _ => apply wlp_mmio_wr
  | |- wlp (mmio_rd _) _ _ => apply wlp_mmio_rd
  | |- wlp (netdev_upd _ _) _ _ => apply wlp_netdev_upd; intros ? ?
  | |- wlp (netdev_ptr _) _ _ => apply wlp_netdev_ptr; intros ? ?
  | |- wlp (if ?b then _ else _) _ _ => destruct b eqn:?
  | |- wlp (match ?x with _ => _ end) _ _ => destruct x eqn:?
  end; cbv beta iota zeta.

(** ** Total-correctness reasoning

    [twp m s Q]: [m] run from [s] ends without a fault, in a result and state
    that satisfy [Q]. *)
Definition twp {A} (m : M A) (s : drv) (Q : A → drv → Prop) : Prop :=
  match m s with Ok a s' => Q a s' | _ => False end.

Lemma twp_run {A} (m : M A) s Q : twp m s Q → ∃ a s', m s = Ok a s' ∧ Q a s'.
Proof. unfold twp. destruct (m s) as [a s'| |]; eauto; done. Qed.

Lemma twp_bind {A B} (m : M A) (k : A → M B) s Q :
  twp m s (λ a s1, twp (k a) s1 Q) → twp (bind m k) s Q.
Proof. unfold twp, bind. by destruct (m s). Qed.

Lemma twp_mono {A} (m : M A) s (P Q : A → drv → Prop) :
  twp m s P → (∀ a s', P a s' → Q a s') → twp m s Q.
Proof. unfold twp. destruct (m s); auto. Qed.

(** Sequencing through an intermediate assertion. *)
Lemma twp_seq {A B} (m : M A) (k : A → M B) s (P : A → drv → Prop) Q :
  twp m s P → (∀ a s', P a s' → twp (k a) s' Q) → twp (bind m k) s Q.
Proof. intros Hm Hk. apply twp_bind. by eapply twp_mono. Qed.

Lemma twp_ret {A} (a : A) s (Q : A → drv → Prop) : Q a s → twp (ret a) s Q.
Proof. done. Qed.

Lemma twp_get {A} (f : drv → A) s (Q : A → drv → Prop) : Q (f s) s → twp (get f) s Q.
Proof. done. Qed.

Lemma twp_modify f s (Q : unit → drv → Prop) : Q tt (f s) → twp (modify f) s Q.
Proof. done. Qed.

Lemma twp_emit e s (Q : unit → drv → Prop) :
  Q tt (set_trace (e :: trace s) s) → twp (emit e) s Q.
Proof. done. Qed.

Lemma twp_ask {A} (f : list event → A) s (Q : A → drv → Prop) :
  (∀ a, Q a s) → twp (ask f) s Q.
Proof. intros HQ. apply HQ. Qed.

Lemma twp_call {A} (f : list event → A) e s (Q : A → drv → Prop) :
  (∀ a, Q a (set_trace (e a :: trace s) s)) → twp (call f e) s Q.
Proof. intros HQ. apply HQ. Qed.

Lemma twp_wr a bs s (Q : unit → drv → Prop) :
  valid (ram s) a (zlen bs) = true →
  Q tt (set_trace (EvStore a bs :: trace s) (set_ram (upd (ram s) a bs) s)) →
  twp (wr a bs) s Q.
Proof. intros Hv HQ. unfold twp. by rewrite wr_ok. Qed.

Lemma twp_mmio_wr `{Kernel} a v s (Q : unit → drv → Prop) :
  io_valid s a = true → Q tt (set_trace (EvMmioWr a v :: trace s) s) →
  twp (mmio_wr a v) s Q.
Proof. intros Hv HQ. unfold twp. by rewrite mmio_wr_ok. Qed.

Lemma twp_mmio_rd `{Kernel} a s (Q : Z → drv → Prop) :
  io_valid s a = true →
  (∀ v, Q v (set_trace (EvMmioRd a v :: trace s) s)) → twp (mmio_rd a) s Q.
Proof. intros Hv HQ. unfold twp. rewrite mmio_rd_ok by done. apply HQ. Qed.

Lemma twp_wlp {A} (m : M A) s Q : twp m s Q → wlp m s Q.
Proof. unfold twp, wlp. by destruct (m s). Qed.

(** Sequencing when the first part may fault. *)
Lemma wlp_seq {A B} (m : M A) (k : A → M B) s (P : A → drv → Prop) Q :
  wlp m s P → (∀ a s', P a s' → wlp (k a) s' Q) → wlp (bind m k) s Q.
Proof. intros Hm Hk. apply wlp_bind. by eapply wlp_mono. Qed.

(** Walk through a computation that only asks, records and updates; an answer
    of the kernel is arbitrary. *)
(** The same, keeping what the answer was. *)
Lemma twp_answer {A} (f : list event → A) e s (Q : A → drv → Prop) :
  Q (f (trace s)) (set_trace (e (f (trace s)) :: trace s) s) → twp (call f e) s Q.
Proof. done. Qed.

Ltac twp_step :=
  lazymatch goal with
  | |- twp (bind _ _) _ _ => apply twp_bind
  | |- twp (ret _) _ _ => apply twp_ret
  | |- twp (get _) _ _ => apply twp_get
  | |- twp (modify _) _ _ => apply twp_modify
  | |- twp (emit _) _ _ => apply twp_emit
  | |- twp (ask _) _ _ => apply twp_ask; intros ?
  | |- twp (call _ _) _ _ => apply twp_call; intros ?
  | |- twp (if ?b then _ else _) _ _ => destruct b eqn:?
  | |- twp (match ?x with _ => _ end) _ _ => destruct x eqn:?
  end; cbv beta iota zeta.

(** ** Which events a computation can record *)

Definition emits {A} (P : event → Prop) (m : M A) : Prop :=
  ∀ s a s', m s = Ok a s' → ∃ es, trace s' = es ++ trace s ∧ Forall P es.

Section Emits.
Context (P : event → Prop).

Lemma emits_bind {A B} (m : M A) (k : A → M B) :
  emits P m → (∀ a, emits P (k a)) → emits P (bind m k).
Proof.
  intros Hm Hk s b s2. unfold bind. destruct (m s) as [a s1| |] eqn:E; try done. intros E2.
  destruct (Hm _ _ _ E) as (es & He & Hes). destruct (Hk _ _ _ _ E2) as (fs & Hf & Hfs).
  exists (fs ++ es). rewrite Hf, He, app_assoc. split; [done|]. apply Forall_app. by split.
Qed.

(** A computation that leaves the trace alone. *)
Lemma emits_quiet {A} (m : M A) :
  (∀ s a s', m s = Ok a s' → trace s' = trace s) → emits P m.
Proof. intros Hm s a s' E. exists []. rewrite (Hm _ _ _ E). split; [done|constructor]. Qed.

Lemma emits_ret {A} (a : A) : emits P (ret a).
Proof. apply emits_quiet. by intros s b s' [= _ <-]. Qed.

Lemma emits_get {A} (f : drv → A) : emits P (get f).
Proof. apply emits_quiet. by intros s b s' [= _ <-]. Qed.

Lemma emits_ask {A} (f : list event → A) : emits P (ask f).
Proof. apply emits_quiet. by intros s b s' [= _ <-]. Qed.

Lemma emits_fault {A} : emits P (@fault A).
Proof. by intros s b s'. Qed.

Lemma emits_out_of_fuel {A} : emits P (@out_of_fuel A).
Proof. by intros s b s'. Qed.

Lemma emits_modify f : (∀ s, trace (f s) = trace s) → emits P (modify f).
Proof. intros Hf. apply emits_quiet. by intros s b s' [= _ <-]. Qed.

Lemma emits_emit e : P e → emits P (emit e).
Proof. intros He s a s' [= _ <-]. exists [e]. split; [done|by repeat constructor]. Qed.

Lemma emits_call {A} (f : list event → A) e : (∀ a, P (e a)) → emits P (call f e).
Proof. intros He s a s' [= _ <-]. exists [e (f (trace s))]. split; [done|by repeat constructor]. Qed.

Lemma emits_wr a bs : P (EvStore a bs) → emits P (wr a bs).
Proof.
  intros He s b s'. unfold wr. destruct (store _ _ _); [|done]. intros [= _ <-].
  exists [EvStore a bs]. split; [done|by repeat constructor].
Qed.

Lemma emits_mmio_wr `{Kernel} a v : P (EvMmioWr a v) → emits P (mmio_wr a v).
Proof.
  intros He s b s'. unfold mmio_wr. destruct (io_valid _ _); [|done]. by apply emits_emit.
Qed.

Lemma emits_mmio_rd `{Kernel} a : (∀ v, P (EvMmioRd a v)) → emits P (mmio_rd a).
Proof.
  intros He s b s'. unfold mmio_rd. destruct (io_valid _ _); [|done]. by apply emits_call.
Qed.

Lemma emits_rd32 a : emits P (rd32 a).
Proof. apply emits_quiet. intros s b s'. unfold rd32. by destruct (load32 _ _); intros [= _ <-]. Qed.

Lemma emits_rd a n : emits P (rd a n).
Proof. apply emits_quiet. intros s b s'. unfold rd. by destruct (load _ _ _); intros [= _ <-]. Qed.

Lemma emits_netdev_ptr i : emits P (netdev_ptr i).
Proof.
  apply emits_quiet. intros s b s'. unfold netdev_ptr. destruct (_ && _); [|done].
  by destruct (nf10_netdevs s !! Z.to_nat i); intros [= _ <-].
Qed.

Lemma emits_netdev_upd p f : emits P (netdev_upd p f).
Proof.
  apply emits_quiet. intros s b s'. unfold netdev_upd.
  by destruct (netdevs s !! p); intros [= _ <-].
Qed.

End Emits.

(** Walk through a computation; [tac] shows that an event is allowed. *)
Ltac quiet tac :=
  repeat (intros; cbv beta iota zeta;
  lazymatch goal with
  | |- emits _ (bind _ _) => apply emits_bind
  | |- emits _ (ret _) => apply emits_ret
  | |- emits _ (get _) => apply emits_get
  | |- emits _ (ask _) => apply emits_ask
  | |- emits _ fault => apply emits_fault
  | |- emits _ out_of_fuel => apply emits_out_of_fuel
  | |- emits _ (modify _) => apply emits_modify; reflexivity
  | |- emits _ (emit _) => apply emits_emit; tac
  | |- emits _ (call _ _) => apply emits_call; tac
  | |- emits _ (wr _ _) => apply emits_wr; tac
  | |- emits _ (rd32 _) => apply emits_rd32
  | |- emits _ (rd _ _) => apply emits_rd
  | |- emits _ (netdev_ptr _) => apply emits_netdev_ptr
  | |- emits _ (netdev_upd _ _) => apply emits_netdev_upd
  | |- emits _ (mmio_wr _ _) => apply emits_mmio_wr; tac
  | |- emits _ (mmio_rd _) => apply emits_mmio_rd; tac
  | |- emits _ (match ?x with _ => _ end) => destruct x
  | |- emits _ _ => solve [auto with emits]
  end).
Create HintDb emits.
