(* ===== verification/Packet.v ===== *)
(** * Ethernet and IP headers

    The code of [nf10_eth_driver_main.c] that edits packets: the IP address
    rewriting of the ghost and loopback modes, the [header_ops], the MAC
    addresses given to the interfaces and the MAC address setter. *)

From S2P Require Import Prelude Mem Occp Kernel.

(** A linear socket buffer: the headroom before [skb->data], the bytes from
    [skb->data] to the end of the buffer, and [skb->len]. *)
Record sk_buff := mkSkb {
  skb_head : list Z;
  skb_data : list Z;
  skb_len : Z;
}.

Definition ETH_ALEN : Z := 6.
Definition ETH_HLEN : Z := 14.
Definition ETH_P_IP : Z := 0x0800.

(** [htons] on a little-endian host. *)
Definition htons (x : Z) : Z := (x mod 256) * 256 + (x / 256) mod 256.

(** A 16-bit load from a packet. *)
Definition half (l : list Z) (i : Z) : Z := znth l i + 256 * znth l (i + 1).

(** [memcpy] into the middle of a buffer. *)
Fixpoint zcopy (l : list Z) (off : Z) (bs : list Z) : list Z :=
  match bs with
  | [] => l
  | b :: bs => zcopy (zset l off b) (off + 1) bs
  end.

Section Packet.
Context `{Kernel}.

(** Byte offsets in the packet of the fields of [struct iphdr]. *)
Definition ip_off : Z := ETH_HLEN.
Definition ip_check_off : Z := ip_off + 10.
Definition ip_saddr_off : Z := ip_off + 12.
Definition ip_daddr_off : Z := ip_off + 16.

(** "Do a switcharoo on the packet's IP address": the bytes of the packet
    afterwards, or [None] for an access past the end of the buffer. *)
Definition ip_switcharoo (data : list Z) : option (list Z) :=
  if zlen data <? ETH_HLEN then None
  else if half data 12 =? htons ETH_P_IP then
    if zlen data <? ETH_HLEN + 20 then None
    else
      let data := zset data (ip_saddr_off + 2)
                    (Z.lxor (znth data (ip_saddr_off + 2)) 1) in
      let data := zset data (ip_daddr_off + 2)
                    (Z.lxor (znth data (ip_daddr_off + 2)) 1) in
      let data := zset (zset data ip_check_off 0) (ip_check_off + 1) 0 in
      let ihl := Z.land (znth data ip_off) 15 in
      if zlen data <? ETH_HLEN + 4 * ihl then None
      else
        let c := k_ip_fast_csum (drop (Z.to_nat ETH_HLEN) data) ihl in
        Some (zset (zset data ip_check_off (c mod 256)) (ip_check_off + 1) (c / 256 mod 256))
  else Some data.

(** [skb_push]: the kernel panics when there is not enough headroom. *)
Definition skb_push (skb : sk_buff) (n : Z) : option sk_buff :=
  if zlen (skb_head skb) <? n then None
  else
    let k := (length (skb_head skb) - Z.to_nat n)%nat in
    Some (mkSkb (take k (skb_head skb)) (drop k (skb_head skb) ++ skb_data skb)
            (skb_len skb + n)).

Definition or_fault {A} (o : option A) : M A :=
  match o with Some a => ret a | None => fault end.

(** The first [n] bytes at a pointer to the byte string [bs]. *)
Definition rd_bytes (bs : list Z) (n : Z) : M (list Z) :=
  if zlen bs <? n then fault else ret (take (Z.to_nat n) bs).

Definition nf10_ndho_create (skb : sk_buff) (dev : Z) (type : Z)
    (daddr saddr : option (list Z)) (len : Z) : M (Z * sk_buff) :=
  skb <- or_fault (skb_push skb ETH_HLEN) ;;
  d <- netdev_get dev ;;
  let eth := zset (zset (skb_data skb) 12 (htons (u16 type) mod 256))
               13 (htons (u16 type) / 256) in
  src <- rd_bytes (default (dev_addr d) saddr) (addr_len d) ;;
  let eth := zcopy eth ETH_ALEN src in
  dst <- rd_bytes (default (dev_addr d) daddr) (addr_len d) ;;
  let eth := zcopy eth 0 dst in
  let eth := zset eth (ETH_ALEN - 3) (Z.lxor (znth eth (ETH_ALEN - 3)) 1) in
  ret (hard_header_len d, mkSkb (skb_head skb) eth (skb_len skb)).

Definition nf10_ndho_rebuild (skb : sk_buff) (dev : Z) : M (Z * sk_buff) :=
  d <- netdev_get dev ;;
  if zlen (skb_data skb) <? ETH_HLEN then fault
  else
    src <- rd_bytes (dev_addr d) (addr_len d) ;;
    let eth := zcopy (skb_data skb) ETH_ALEN src in
    let eth := zcopy eth 0 src in
    let eth := zset eth (ETH_ALEN - 3) (Z.lxor (znth eth (ETH_ALEN - 3)) 1) in
    ret (0, mkSkb (skb_head skb) eth (skb_len skb)).

Definition nf10_ndo_set_mac_address (netdev : Z) (sa_data : list Z) : M Z :=
  if negb (k_is_valid_ether_addr sa_data) then ret (- EADDRNOTAVAIL)
  else
    d <- netdev_get netdev ;;
    bs <- rd_bytes sa_data (addr_len d) ;;
    netdev_upd netdev (λ d, set_dev_addr (zcopy (dev_addr d) 0 bs) d) ;;
    ret 0.

(** [snprintf(&mac_addr[1], mac_addr_len, "NF%d", i)] into a zeroed array of
    [mac_addr_len + 1] bytes: at most [mac_addr_len - 1] characters and a NUL. *)
Definition init_mac_addr (mac_addr_len i : Z) : list Z :=
  let mac_addr := replicate (Z.to_nat (mac_addr_len + 1)) 0 in
  let out := take (Z.to_nat (mac_addr_len - 1)) ([78; 70] ++ fmt_d i) in
  take (Z.to_nat mac_addr_len) (zcopy mac_addr 1 (out ++ [0])).

End Packet.

(** ** Buffer lemmas *)

Lemma zlen_zcopy l off bs : zlen (zcopy l off bs) = zlen l.
Proof.
  revert l off; induction bs as [|b bs IH]; intros l off; simpl; [done|].
  by rewrite IH, zlen_zset.
Qed.

Lemma znth_zcopy l off bs j :
  0 ≤ off → off + zlen bs ≤ zlen l → 0 ≤ j →
  znth (zcopy l off bs) j =
  if (off <=? j) && (j <? off + zlen bs) then znth bs (j - off) else znth l j.
Proof.
  revert l off; induction bs as [|b bs IH]; intros l off Hoff Hlen Hj; simpl zcopy.
  - change (zlen []) with 0.
    destruct (Z.leb_spec off j), (Z.ltb_spec j (off + 0)); simpl; auto; lia.
  - assert (zlen (b :: bs) = 1 + zlen bs) as Hc by (unfold zlen; simpl length; lia).
    rewrite IH by (rewrite ?zlen_zset; lia). rewrite Hc.
    rewrite znth_zset by (pose proof (zlen_nonneg bs); lia).
    destruct (Z.leb_spec (off + 1) j), (Z.ltb_spec j (off + 1 + zlen bs)),
      (Z.leb_spec off j), (Z.ltb_spec j (off + (1 + zlen bs))),
      (Z.eqb_spec off j); simpl; try (pose proof (zlen_nonneg bs); lia); auto.
    + unfold znth. replace (Z.to_nat (j - off)) with (S (Z.to_nat (j - (off + 1)))) by lia. done.
    + subst. unfold znth. by rewrite Z.sub_diag.
Qed.

Lemma znth_ext l k :
  zlen l = zlen k → (∀ j, 0 ≤ j < zlen l → znth l j = znth k j) → l = k.
Proof.
  unfold zlen, znth. intros Hlen Hj. apply nth_ext with 0 0; [lia|].
  intros n Hn. specialize (Hj (Z.of_nat n)). rewrite Nat2Z.id in Hj. apply Hj. lia.
Qed.

#[export] Hint Rewrite zlen_zcopy : nf10.

(** ** The address rewriting *)

Section Switcharoo.
Context `{Kernel}.

(** Flip the low bit of the third octet of both addresses. *)
Definition flip (data : list Z) : list Z :=
  let d := zset data 28 (Z.lxor (znth data 28) 1) in
  zset d 32 (Z.lxor (znth d 32) 1).

(** Store a checksum. *)
Definition put_check (d : list Z) (lo hi : Z) : list Z := zset (zset d 24 lo) 25 hi.

(** The checksum of the header of [d], by the kernel's function, which reads
    the header with a zero checksum field. *)
Definition header_csum (d : list Z) : Z :=
  k_ip_fast_csum (drop 14 (put_check d 0 0)) (Z.land (znth d 14) 15).

Definition fix_check (d : list Z) : list Z :=
  put_check d (header_csum d mod 256) (header_csum d / 256 mod 256).

(** An IPv4 packet whose headers are inside the buffer. *)
Definition is_ipv4 (data : list Z) : Prop :=
  34 ≤ zlen data ∧ half data 12 = htons ETH_P_IP ∧
  14 + 4 * Z.land (znth data 14) 15 ≤ zlen data.

Lemma zlen_put_check d lo hi : zlen (put_check d lo hi) = zlen d.
Proof. unfold put_check. by rewrite !zlen_zset. Qed.

Lemma zlen_flip d : zlen (flip d) = zlen d.
Proof. unfold flip. by rewrite !zlen_zset. Qed.

Lemma znth_put_check d lo hi j :
  34 ≤ zlen d → 0 ≤ j →
  znth (put_check d lo hi) j = if j =? 24 then lo else if j =? 25 then hi else znth d j.
Proof.
  intros Hl Hj. unfold put_check. rewrite !znth_zset by (rewrite ?zlen_zset; lia).
  rewrite (Z.eqb_sym j 24), (Z.eqb_sym j 25).
  destruct (Z.eqb_spec 25 j), (Z.eqb_spec 24 j); auto; lia.
Qed.

Lemma znth_flip d j :
  34 ≤ zlen d → 0 ≤ j →
  znth (flip d) j = if (j =? 28) || (j =? 32) then Z.lxor (znth d j) 1 else znth d j.
Proof.
  intros Hl Hj. unfold flip. rewrite !znth_zset by (rewrite ?zlen_zset; lia).
  rewrite (Z.eqb_sym j 28), (Z.eqb_sym j 32). change (28 =? 32) with false.
  destruct (Z.eqb_spec 32 j), (Z.eqb_spec 28 j); subst; done.
Qed.

Lemma switcharoo_ipv4 data :
  is_ipv4 data → ip_switcharoo data = Some (fix_check (flip data)).
Proof.
  intros (Hl & Hty & Hihl). unfold ip_switcharoo, ETH_HLEN.
  decide_test (zlen data <? 14) false. rewrite Hty, Z.eqb_refl.
  decide_test (zlen data <? 14 + 20) false.
  change (ip_saddr_off + 2) with 28. change (ip_daddr_off + 2) with 32.
  change (ip_check_off + 1) with 25. change ip_check_off with 24. change ip_off with 14.
  cbv zeta. fold (flip data). fold (put_check (flip data) 0 0).
  assert (znth (put_check (flip data) 0 0) 14 = znth data 14) as ->.
  { rewrite znth_put_check, znth_flip by (rewrite ?zlen_flip; lia). done. }
  rewrite zlen_put_check, zlen_flip.
  decide_test (zlen data <? 14 + 4 * Z.land (znth data 14) 15) false.
  f_equal. unfold fix_check, header_csum.
  assert (znth (flip data) 14 = znth data 14) as -> by (by rewrite znth_flip by lia).
  change (Z.to_nat 14) with 14%nat.
  set (c := k_ip_fast_csum _ _). apply znth_ext.
  { by rewrite !zlen_put_check, !zlen_zset, zlen_put_check. }
  intros j Hj. rewrite !zlen_zset, zlen_put_check, zlen_flip in Hj.
  rewrite !znth_zset, !znth_put_check by (rewrite ?zlen_zset, ?zlen_put_check, ?zlen_flip; lia).
  rewrite (Z.eqb_sym j 24), (Z.eqb_sym j 25).
  destruct (Z.eqb_spec 25 j), (Z.eqb_spec 24 j); auto; lia.
Qed.

(** Frames that are not IPv4 pass unchanged. *)
Lemma switcharoo_other data :
  14 ≤ zlen data → half data 12 ≠ htons ETH_P_IP → ip_switcharoo data = Some data.
Proof.
  intros Hl Hty. unfold ip_switcharoo, ETH_HLEN. decide_test (zlen data <? 14) false.
  by rewrite (proj2 (Z.eqb_neq _ _) Hty).
Qed.

Lemma put_check_twice d a b lo hi :
  34 ≤ zlen d → put_check (put_check d a b) lo hi = put_check d lo hi.
Proof.
  intros Hl. apply znth_ext; rewrite !zlen_put_check; [done|]. intros j Hj.
  rewrite !znth_put_check by (rewrite ?zlen_put_check; lia).
  by destruct (j =? 24), (j =? 25).
Qed.

Lemma flip_fix_check d lo hi :
  34 ≤ zlen d → flip (put_check d lo hi) = put_check (flip d) lo hi.
Proof.
  intros Hl. apply znth_ext; rewrite ?zlen_flip, !zlen_put_check, ?zlen_flip; [done|]. intros j Hj.
  rewrite !znth_put_check, !znth_flip, ?znth_put_check by (rewrite ?zlen_flip, ?zlen_put_check; lia).
  destruct (Z.eqb_spec j 24), (Z.eqb_spec j 25); subst; done.
Qed.

Lemma flip_flip d : 34 ≤ zlen d → flip (flip d) = d.
Proof.
  intros Hl. apply znth_ext; rewrite !zlen_flip; [done|]. intros j Hj.
  rewrite !znth_flip by (rewrite ?zlen_flip; lia). destruct (_ || _); [|done].
  by rewrite Z.lxor_assoc, Z.lxor_nilpotent, Z.lxor_0_r.
Qed.

Lemma header_csum_put d lo hi :
  34 ≤ zlen d → header_csum (put_check d lo hi) = header_csum d.
Proof.
  intros Hl. unfold header_csum. rewrite put_check_twice, znth_put_check by lia. done.
Qed.

Lemma is_ipv4_rewritten data : is_ipv4 data → is_ipv4 (fix_check (flip data)).
Proof.
  intros (Hl & Hty & Hihl). unfold is_ipv4, half, fix_check.
  rewrite zlen_put_check, zlen_flip.
  rewrite !znth_put_check, !znth_flip by (rewrite ?zlen_flip; lia). done.
Qed.

(** Rewriting twice gives the packet back, with its checksum recomputed. *)
Lemma switcharoo_twice data :
  is_ipv4 data →
  (d1 ← ip_switcharoo data; ip_switcharoo d1) = Some (fix_check data).
Proof.
  intros Hip. pose proof Hip as (Hl & _). rewrite switcharoo_ipv4 by done. simpl.
  rewrite switcharoo_ipv4 by (by apply is_ipv4_rewritten). f_equal. unfold fix_check at 2.
  rewrite flip_fix_check by (by rewrite zlen_flip). rewrite flip_flip by done.
  unfold fix_check. rewrite header_csum_put, put_check_twice by done. done.
Qed.

End Switcharoo.

(** ** What the peer is to see

    The rewriting, byte by byte: in an IPv4 frame the low bit of the third octet
    of both addresses is flipped and the checksum is that of the new header; any
    other frame stays as it is. *)

Section Crossed.
Context `{Kernel}.

Definition has_ip (data : list Z) : bool := (znth data 12 =? 0x08) && (znth data 13 =? 0x00).

(** Byte [j] of the new frame, with the bytes [lo] and [hi] of its checksum. *)
Definition crossed_byte (lo hi : Z) (j : nat) (b : Z) : Z :=
  if decide (j = 28%nat ∨ j = 32%nat) then Z.lxor b 1
  else if decide (j = 24%nat) then lo else if decide (j = 25%nat) then hi else b.

(** The checksum is taken over the new header with zeros in its place. *)
Definition crossed_csum (data : list Z) : Z :=
  k_ip_fast_csum (drop 14 (imap (crossed_byte 0 0) data)) (Z.land (znth data 14) 15).

Definition crossed (data : list Z) : list Z :=
  if has_ip data then
    let c := crossed_csum data in imap (crossed_byte (c mod 256) (c / 256 mod 256)) data
  else data.

(** The headers that the rewriting reads and writes are inside the buffer. *)
Definition frame_ok (data : list Z) : Prop :=
  14 ≤ zlen data ∧ Forall (λ b, 0 ≤ b < 256) data ∧
  (has_ip data = true → 34 ≤ zlen data ∧ 14 + 4 * Z.land (znth data 14) 15 ≤ zlen data).

Lemma zlen_imap (f : nat → Z → Z) l : zlen (imap f l) = zlen l.
Proof. unfold zlen. by rewrite length_imap. Qed.

Lemma znth_imap (f : nat → Z → Z) l j :
  0 ≤ j < zlen l → znth (imap f l) j = f (Z.to_nat j) (znth l j).
Proof.
  intros Hj. unfold znth, zlen in *. rewrite !nth_lookup, list_lookup_imap.
  destruct (lookup_lt_is_Some_2 l (Z.to_nat j)) as [x ->]; [lia|done].
Qed.

Lemma crossed_bytes data lo hi :
  34 ≤ zlen data → imap (crossed_byte lo hi) data = put_check (flip data) lo hi.
Proof.
  intros Hl. apply znth_ext; rewrite zlen_imap; [by rewrite zlen_put_check, zlen_flip|].
  intros j Hj. rewrite znth_imap, znth_put_check, znth_flip by (rewrite ?zlen_flip; lia).
  unfold crossed_byte.
  destruct (Z.eqb_spec j 24), (Z.eqb_spec j 25), (Z.eqb_spec j 28), (Z.eqb_spec j 32);
    subst; try done; repeat case_decide; (done || lia).
Qed.

Lemma znth_byte data j : Forall (λ b, 0 ≤ b < 256) data → 0 ≤ znth data j < 256.
Proof.
  intros Hb. unfold znth. rewrite nth_lookup.
  destruct (data !! Z.to_nat j) eqn:E; simpl; [by eapply Forall_lookup_1 in Hb|lia].
Qed.

Lemma has_ip_half data :
  Forall (λ b, 0 ≤ b < 256) data → (half data 12 =? htons ETH_P_IP) = has_ip data.
Proof.
  intros Hb. unfold has_ip, half. change (htons ETH_P_IP) with 8. change (12 + 1) with 13.
  pose proof (znth_byte data 12 Hb). pose proof (znth_byte data 13 Hb).
  destruct (Z.eqb_spec (znth data 12) 8), (Z.eqb_spec (znth data 13) 0); simpl;
    first [apply Z.eqb_eq; lia|apply Z.eqb_neq; lia].
Qed.

(** The code's rewriting in place gives that frame. *)
Lemma switcharoo_crossed data : frame_ok data → ip_switcharoo data = Some (crossed data).
Proof.
  intros (Hl & Hb & Hip). pose proof (has_ip_half data Hb) as Hh. unfold crossed.
  destruct (has_ip data); [|by apply switcharoo_other; [|apply Z.eqb_neq]].
  destruct (Hip eq_refl) as [Hl34 Hihl]. apply Z.eqb_eq in Hh.
  rewrite switcharoo_ipv4 by done. unfold crossed_csum. cbv zeta.
  rewrite !crossed_bytes by done. unfold fix_check, header_csum. by rewrite znth_flip by lia.
Qed.

Lemma zlen_crossed data : zlen (crossed data) = zlen data.
Proof. unfold crossed. destruct (has_ip data); [apply zlen_imap|done]. Qed.

End Crossed.

(** ** Ethernet headers *)

(** A MAC address with the low bit of its fourth byte flipped. *)
Definition flip_mac (mac : list Z) : list Z := zset mac 3 (Z.lxor (znth mac 3) 1).

(** The address of interface [i] becomes that of the neighbouring interface. *)
Lemma flip_init_mac i :
  0 ≤ i < 4 → flip_mac (init_mac_addr 6 i) = init_mac_addr 6 (Z.lxor i 1).
Proof.
  intros Hi. assert (i = 0 ∨ i = 1 ∨ i = 2 ∨ i = 3) as [-> | [-> | [-> | ->] ] ] by lia; done.
Qed.

Lemma length6 (l : list Z) :
  length l = 6%nat → ∃ a b c d e f, l = [a; b; c; d; e; f].
Proof.
  intros Hl. do 6 (destruct l as [|? l]; [done|]). destruct l; [|done]. by repeat eexists.
Qed.

Lemma length14 (l : list Z) :
  length l = 14%nat → ∃ k h, l = k ++ h ∧ length k = 6%nat ∧
    ∃ k2 x y, h = k2 ++ [x; y] ∧ length k2 = 6%nat.
Proof.
  intros Hl. exists (take 6 l), (drop 6 l). rewrite take_drop, length_take, Hl.
  split; [done|]. split; [done|].
  do 14 (destruct l as [|? l]; [done|]). destruct l; [|done]. simpl.
  eexists [_; _; _; _; _; _], _, _. done.
Qed.

Section Headers.
Context `{Kernel}.

Lemma rd_bytes_ok bs n s :
  n ≤ zlen bs → rd_bytes bs n s = Ok (take (Z.to_nat n) bs) s.
Proof. intros Hn. unfold rd_bytes. by decide_test (zlen bs <? n) false. Qed.

(** Writing the three fields of an Ethernet header over 14 bytes. *)
Lemma header_bytes hd data dst src t :
  length hd = 14%nat → length dst = 6%nat → length src = 6%nat →
  let eth := zset (zset (hd ++ data) 12 (t mod 256)) 13 (t / 256) in
  let eth := zcopy (zcopy eth 6 src) 0 dst in
  zset eth 3 (Z.lxor (znth eth 3) 1)
  = flip_mac dst ++ src ++ [t mod 256; t / 256] ++ data.
Proof.
  intros Hh Hd Hs. destruct (length14 hd Hh) as (k & h & -> & Hk & k2 & x & y & -> & Hk2).
  destruct (length6 k Hk) as (? & ? & ? & ? & ? & ? & ->).
  destruct (length6 k2 Hk2) as (? & ? & ? & ? & ? & ? & ->).
  destruct (length6 dst Hd) as (? & ? & ? & ? & ? & ? & ->).
  destruct (length6 src Hs) as (? & ? & ? & ? & ? & ? & ->). reflexivity.
Qed.

Lemma ndho_create_run skb dev d type daddr saddr len s :
  netdevs s !! dev = Some d → addr_len d = 6 → 14 ≤ zlen (skb_head skb) →
  6 ≤ zlen (default (dev_addr d) daddr) → 6 ≤ zlen (default (dev_addr d) saddr) →
  let t := htons (u16 type) in
  let k := (length (skb_head skb) - 14)%nat in
  nf10_ndho_create skb dev type daddr saddr len s =
  Ok (hard_header_len d,
      mkSkb (take k (skb_head skb))
        (flip_mac (take 6 (default (dev_addr d) daddr))
         ++ take 6 (default (dev_addr d) saddr)
         ++ [t mod 256; t / 256] ++ skb_data skb)
        (skb_len skb + 14)) s.
Proof.
  intros Hd Ha Hh Hda Hsa t k. unfold nf10_ndho_create, skb_push, ETH_HLEN, ETH_ALEN.
  decide_test (zlen (skb_head skb) <? 14) false. erewrite bind_ok by reflexivity.
  erewrite bind_ok by (unfold netdev_get; by rewrite Hd). rewrite Ha. cbv zeta.
  erewrite bind_ok by (by apply rd_bytes_ok). erewrite bind_ok by (by apply rd_bytes_ok).
  change (Z.to_nat 14) with 14%nat. fold k t. cbn [skb_head skb_data skb_len].
  change (Z.to_nat 6) with 6%nat. change (6 - 3) with 3.
  unfold ret. do 3 f_equal. apply header_bytes; unfold zlen in *;
    rewrite ?length_drop, ?length_take; lia.
Qed.

Lemma ndho_rebuild_run skb dev d hd data s :
  netdevs s !! dev = Some d → addr_len d = 6 → 6 ≤ zlen (dev_addr d) →
  skb_data skb = hd ++ data → length hd = 14%nat →
  ∃ ty, drop 12 hd = ty ∧
  nf10_ndho_rebuild skb dev s =
  Ok (0, mkSkb (skb_head skb)
           (flip_mac (take 6 (dev_addr d)) ++ take 6 (dev_addr d) ++ ty ++ data)
           (skb_len skb)) s.
Proof.
  intros Hd Ha Hda Hskb Hh. eexists. split; [done|].
  unfold nf10_ndho_rebuild, ETH_HLEN, ETH_ALEN.
  erewrite bind_ok by (unfold netdev_get; by rewrite Hd).
  rewrite Hskb. assert ((zlen (hd ++ data) <? 14) = false) as ->.
  { apply Z.ltb_ge. rewrite zlen_app. pose proof (zlen_nonneg data). unfold zlen in *. lia. }
  rewrite Ha. erewrite bind_ok by (by apply rd_bytes_ok). change (Z.to_nat 6) with 6%nat.
  assert (length (take 6 (dev_addr d)) = 6%nat) as Hm
    by (rewrite length_take; unfold zlen in *; lia).
  destruct (length6 _ Hm) as (? & ? & ? & ? & ? & ? & ->).
  destruct (length14 hd Hh) as (k & h & -> & Hk & k2 & x' & y & -> & Hk2).
  destruct (length6 k Hk) as (? & ? & ? & ? & ? & ? & ->).
  destruct (length6 k2 Hk2) as (? & ? & ? & ? & ? & ? & ->). reflexivity.
Qed.

(** The MAC address setter: rejects, or stores the new address. *)
Lemma set_mac_rejected netdev addr s :
  k_is_valid_ether_addr addr = false →
  nf10_ndo_set_mac_address netdev addr s = Ok (- EADDRNOTAVAIL) s.
Proof. intros Hv. unfold nf10_ndo_set_mac_address. by rewrite Hv. Qed.

Lemma set_mac_run netdev d addr s :
  k_is_valid_ether_addr addr = true → netdevs s !! netdev = Some d →
  0 ≤ addr_len d → addr_len d ≤ zlen addr →
  nf10_ndo_set_mac_address netdev addr s =
  Ok 0 (set_netdevs (<[netdev := set_dev_addr
          (zcopy (dev_addr d) 0 (take (Z.to_nat (addr_len d)) addr)) d]> (netdevs s)) s).
Proof.
  intros Hv Hd H0 Hl. unfold nf10_ndo_set_mac_address. rewrite Hv. cbn [negb]. cbv iota.
  erewrite bind_ok by (unfold netdev_get; by rewrite Hd).
  erewrite bind_ok by (by apply rd_bytes_ok). by erewrite bind_ok by (by apply netdev_upd_ok).
Qed.

End Headers.
