(* ===== verification/Stream.v ===== *)
(** * DMA streams

    A DMA region holds [n] packet buffers, then [n] metadata records, then
    [n] flags; a [dma_stream] has a pointer to each array and the index of
    the next buffer.  This file has the address arithmetic of the driver, the
    well-formedness of a stream, and the effect of writing one slot. *)

From S2P Require Import Prelude Mem Occp Kernel.

(** [&s.buffers[i * DMA_BUF_SIZE]]: the product is a 32-bit product. *)
Definition buf_addr (st : dma_stream) (i : Z) : Z := buffers st + u32 (i * DMA_BUF_SIZE).

(** [&s.metadata[i].f] *)
Definition meta_addr (st : dma_stream) (i : Z) (f : ocdp_meta) : Z :=
  metadata st + i * sizeof OcdpMetadata + offsetof f OcdpMetadata.

(** [&s.flags[i]] *)
Definition flag_addr (st : dma_stream) (i : Z) : Z := flags st + 4 * i.

(** [if(++s.buf_index == dma_cpu_bufs) s.buf_index = 0;] *)
Definition next_index (n i : Z) : Z :=
  let i := u32 (i + 1) in if i =? n then 0 else i.

Definition advance (n : Z) (st : dma_stream) : dma_stream :=
  set_buf_index (next_index n (buf_index st)) st.

(** [dma_region_size = (DMA_BUF_SIZE + OCDP_METADATA_SIZE + sizeof(uint32_t)) * dma_cpu_bufs] *)
Definition region_size (n : Z) : Z := u32 ((DMA_BUF_SIZE + OCDP_METADATA_SIZE + 4) * n).

(** The pointers the driver sets up for a region of [n] buffers at [va]. *)
Definition stream_pointers (va n door : Z) : dma_stream :=
  let md := va + u32 (n * DMA_BUF_SIZE) in
  mkStream va md (md + n * sizeof OcdpMetadata) door 0.

(** ** Well-formed streams *)

Record stream_wf (m : mem) (n : Z) (st : dma_stream) : Prop := {
  wf_bufs : 1 ≤ n ≤ DMA_CPU_BUFS;
  wf_index : 0 ≤ buf_index st < n;
  wf_metadata : metadata st = buffers st + 2048 * n;
  wf_flags : flags st = buffers st + 2064 * n;
  wf_live : (buffers st, 2068 * n) ∈ m_live m;
}.

Lemma buf_addr_val st i : 0 ≤ i < DMA_CPU_BUFS → buf_addr st i = buffers st + 2048 * i.
Proof.
  unfold DMA_CPU_BUFS. intros Hi. unfold buf_addr, DMA_BUF_SIZE. rewrite u32_small; lia.
Qed.

Lemma meta_addr_val st i f :
  meta_addr st i f = metadata st + 16 * i + offsetof f OcdpMetadata.
Proof. unfold meta_addr. change (sizeof OcdpMetadata) with 16. lia. Qed.

Lemma offsetof_meta_range f : 0 ≤ offsetof f OcdpMetadata ≤ 12.
Proof. destruct f; vm_compute; split; discriminate. Qed.

Lemma offset_length : offsetof MD_length OcdpMetadata = 0.
Proof. reflexivity. Qed.

Lemma offset_opCode : offsetof MD_opCode OcdpMetadata = 4.
Proof. reflexivity. Qed.

Lemma next_index_val n i :
  1 ≤ n ≤ DMA_CPU_BUFS → 0 ≤ i < n → next_index n i = (i + 1) mod n.
Proof.
  unfold DMA_CPU_BUFS. intros Hn Hi. unfold next_index. rewrite u32_small by lia.
  destruct (Z.eqb_spec (i + 1) n) as [->|Hne].
  - by rewrite Z.mod_same by lia.
  - rewrite Z.mod_small; lia.
Qed.

Lemma stream_pointers_wf m va n door :
  1 ≤ n ≤ DMA_CPU_BUFS → (va, region_size n) ∈ m_live m →
  stream_wf m n (stream_pointers va n door).
Proof.
  unfold DMA_CPU_BUFS. intros Hn Hlive. unfold stream_pointers, DMA_BUF_SIZE in *.
  assert (region_size n = 2068 * n) as Hsz.
  { unfold region_size, DMA_BUF_SIZE. rewrite OCDP_METADATA_SIZE_val, u32_small; lia. }
  split; simpl; rewrite ?u32_small by lia; change (sizeof OcdpMetadata) with 16;
    unfold DMA_CPU_BUFS; try lia. by rewrite <- Hsz.
Qed.

Section Wf.
Context (m : mem) (n : Z) (st : dma_stream) (Hwf : stream_wf m n st).

Lemma valid_buf i len : 0 ≤ i < n → len ≤ 2048 → valid m (buf_addr st i) len = true.
Proof.
  intros Hi Hlen. destruct Hwf as [Hn _ _ _ Hlive].
  rewrite buf_addr_val by lia. eapply valid_region; eauto; lia.
Qed.

Lemma valid_meta i f : 0 ≤ i < n → valid m (meta_addr st i f) 4 = true.
Proof.
  intros Hi. destruct Hwf as [Hn _ Hmd _ Hlive]. rewrite meta_addr_val, Hmd.
  pose proof (offsetof_meta_range f). eapply valid_region; eauto; lia.
Qed.

Lemma valid_flag i : 0 ≤ i < n → valid m (flag_addr st i) 4 = true.
Proof.
  intros Hi. destruct Hwf as [Hn _ _ Hfl Hlive]. unfold flag_addr. rewrite Hfl.
  eapply valid_region; eauto; lia.
Qed.

Lemma advance_wf : stream_wf m n (advance n st).
Proof.
  destruct Hwf as [Hn Hi Hmd Hfl Hlive]. split; simpl; auto.
  rewrite next_index_val by done. apply Z.mod_pos_bound. lia.
Qed.

End Wf.

(** Well-formedness does not depend on the contents of memory. *)
Lemma stream_wf_upd m n st a bs : stream_wf m n st → stream_wf (upd m a bs) n st.
Proof. intros []. split; auto. Qed.

(** ** Slots *)

(** What slot [i] of a stream holds: the packet and its opcode. *)
Definition slot_at (m : mem) (st : dma_stream) (i : Z) : list Z * Z :=
  (bytes_at m (buf_addr st i) (Z.to_nat (word_at m (meta_addr st i MD_length))),
   word_at m (meta_addr st i MD_opCode)).

Definition slot_len (m : mem) (st : dma_stream) (i : Z) : Z :=
  word_at m (meta_addr st i MD_length).

Definition flag_at (m : mem) (st : dma_stream) (i : Z) : Z := word_at m (flag_addr st i).

(** Memory after the driver fills slot [i]: packet, length, opcode, flag. *)
Definition mput (m : mem) (st : dma_stream) (i : Z) (data : list Z) (op fl : Z) : mem :=
  upd32 (upd32 (upd32 (upd m (buf_addr st i) data)
                  (meta_addr st i MD_length) (zlen data))
           (meta_addr st i MD_opCode) op)
    (flag_addr st i) fl.

(** Memory after a flag is written. *)
Definition mflag (m : mem) (st : dma_stream) (i fl : Z) : mem :=
  upd32 m (flag_addr st i) fl.

Section Slots.
Context (m : mem) (n : Z) (st : dma_stream) (Hwf : stream_wf m n st).
Context (i j : Z) (Hi : 0 ≤ i < n) (Hj : 0 ≤ j < n).

Local Ltac addrs :=
  destruct Hwf as [Hn _ Hmd Hfl _]; unfold flag_addr;
  rewrite ?meta_addr_val, ?buf_addr_val, ?Hmd, ?Hfl by lia;
  rewrite ?offset_length, ?offset_opCode, ?zlen_le_split; lia.

Lemma flag_at_mflag fl :
  flag_at (mflag m st i fl) st j = if i =? j then u32 fl else flag_at m st j.
Proof.
  unfold flag_at, mflag. destruct (Z.eqb_spec i j) as [->|Hne].
  - apply word_at_upd32_same.
  - apply word_at_upd32_other. addrs.
Qed.

Lemma slot_at_mflag fl :
  slot_len m st j ≤ 2048 → slot_at (mflag m st i fl) st j = slot_at m st j.
Proof.
  unfold slot_len. intros Hlen. unfold slot_at, mflag.
  rewrite !word_at_upd32_other by addrs. f_equal.
  unfold upd32. apply bytes_at_upd_other.
  generalize dependent (word_at m (meta_addr st j MD_length)). intros len Hlen. addrs.
Qed.

Lemma slot_len_mflag fl : slot_len (mflag m st i fl) st j = slot_len m st j.
Proof. unfold slot_len, mflag. apply word_at_upd32_other. addrs. Qed.

Lemma flag_at_mput data op fl :
  zlen data ≤ 2048 →
  flag_at (mput m st i data op fl) st j = if i =? j then u32 fl else flag_at m st j.
Proof.
  intros Hd. unfold flag_at, mput. destruct (Z.eqb_spec i j) as [->|Hne].
  - apply word_at_upd32_same.
  - rewrite !word_at_upd32_other by addrs. apply word_at_upd_other. addrs.
Qed.

Lemma slot_len_mput data op fl :
  zlen data ≤ 2048 →
  slot_len (mput m st i data op fl) st j = if i =? j then zlen data else slot_len m st j.
Proof.
  intros Hd. pose proof (zlen_nonneg data).
  unfold slot_len, mput. destruct (Z.eqb_spec i j) as [->|Hne].
  - rewrite !(word_at_upd32_other _ _ _ (meta_addr st j MD_length)) by addrs.
    rewrite word_at_upd32_same. apply u32_small. lia.
  - rewrite !word_at_upd32_other by addrs. apply word_at_upd_other. addrs.
Qed.

Lemma slot_at_mput_same data op fl :
  zlen data ≤ 2048 → slot_at (mput m st i data op fl) st i = (data, u32 op).
Proof.
  intros Hd. unfold slot_at.
  assert (word_at (mput m st i data op fl) (meta_addr st i MD_length) = zlen data) as ->.
  { pose proof (zlen_nonneg data). unfold mput.
    rewrite !(word_at_upd32_other _ _ _ (meta_addr st i MD_length)) by addrs.
    rewrite word_at_upd32_same. apply u32_small. lia. }
  unfold mput; f_equal.
  - unfold upd32. rewrite !bytes_at_upd_other by addrs. unfold zlen. rewrite Nat2Z.id.
    rewrite bytes_at_upd_same by lia. by apply take_ge.
  - rewrite (word_at_upd32_other _ _ _ (meta_addr st i MD_opCode)) by addrs.
    apply word_at_upd32_same.
Qed.

Lemma slot_at_mput data op fl :
  zlen data ≤ 2048 → slot_len m st j ≤ 2048 →
  slot_at (mput m st i data op fl) st j = if i =? j then (data, u32 op) else slot_at m st j.
Proof.
  intros Hd Hl. destruct (Z.eqb_spec i j) as [<-|Hne]; [by apply slot_at_mput_same|].
  pose proof (slot_len_mput data op fl Hd) as Hlen.
  rewrite (proj2 (Z.eqb_neq i j) Hne) in Hlen.
  unfold slot_len in Hlen, Hl. unfold slot_at. rewrite Hlen. unfold mput; f_equal.
  - unfold upd32. clear Hlen.
    generalize dependent (word_at m (meta_addr st j MD_length)). intros len Hlen.
    by rewrite !bytes_at_upd_other by addrs.
  - rewrite !word_at_upd32_other by addrs. apply word_at_upd_other. addrs.
Qed.

End Slots.

Lemma mput_wf m st i data op fl k s :
  stream_wf m k s → stream_wf (mput m st i data op fl) k s.
Proof. intros []. split; auto. Qed.

Lemma mflag_wf m st i fl k s : stream_wf m k s → stream_wf (mflag m st i fl) k s.
Proof. intros []. split; auto. Qed.

#[export] Hint Resolve stream_wf_upd mput_wf mflag_wf advance_wf : nf10.

#[global] Arguments mput : simpl never.
#[global] Arguments mflag : simpl never.
#[global] Arguments buf_addr : simpl never.
#[global] Arguments meta_addr : simpl never.
#[global] Arguments flag_addr : simpl never.
#[global] Arguments next_index : simpl never.
