(* ===== verification/Xmit.v ===== *)
(** * Transmission

    The [net_device_ops] of [nf10_eth_driver_main.c]: [nf10_ndo_start_xmit]
    puts a packet in the TX ring and rings the doorbell of the device; in
    ghosting mode [nf10_ghost_xmit] puts it in the ring that the receive path
    polls, addressed to the neighbouring interface. *)

From S2P Require Import Prelude Mem Occp Opcode Kernel Packet Stream.

Definition NETDEV_TX_OK : Z := 0.

Section Xmit.
Context `{Kernel}.

Definition nf10_ndo_open (netdev : Z) : M Z :=
  emit (EvStartQueue netdev) ;; ret 0.

Definition nf10_ndo_stop (netdev : Z) : M Z :=
  emit (EvStopQueue netdev) ;; ret 0.

Fixpoint find_netdev (ptrs : list Z) (netdev i : Z) : Z :=
  match ptrs with
  | [] => u32 (-1)
  | p :: ptrs => if p =? netdev then i else find_netdev ptrs netdev (i + 1)
  end.

Definition get_iface_from_netdev (netdev : Z) : M Z :=
  get (λ s, find_netdev (nf10_netdevs s) netdev 0).

(** [netdev->stats.tx_dropped++; dev_kfree_skb(skb); return NETDEV_TX_OK;] *)
Definition tx_drop (netdev : Z) : M Z :=
  netdev_upd netdev inc_tx_dropped ;; emit EvFreeSkb ;; ret NETDEV_TX_OK.

Definition nf10_ghost_xmit (skb : sk_buff) (netdev : Z) : M Z :=
  let len := u32 (skb_len skb) in
  if DMA_BUF_SIZE <? len then tx_drop netdev
  else
    iface <- get_iface_from_netdev netdev ;;
    let src_iface := s32 iface in
    if src_iface <? 0 then tx_drop netdev
    else
      let dst_iface := Z.lxor src_iface 1 in
      let opcode := rx_set_dst_iface 0 (u32 dst_iface) in
      data <- or_fault (ip_switcharoo (skb_data skb)) ;;
      now <- ask k_jiffies ;;
      netdev_upd netdev (set_trans_start now) ;;
      emit EvLock ;;
      st <- get tx_dma_stream ;;
      fl <- rd32 (flag_addr st (buf_index st)) ;;
      if fl =? 1 then emit EvUnlock ;; tx_drop netdev
      else
        emit EvMb ;;
        src <- rd_bytes data len ;;
        wr (buf_addr st (buf_index st)) src ;;
        wr32 (meta_addr st (buf_index st) MD_length) len ;;
        wr32 (meta_addr st (buf_index st) MD_opCode) opcode ;;
        emit EvMb ;;
        wr32 (flag_addr st (buf_index st)) 1 ;;
        emit EvMb ;;
        modify (λ s, set_tx_dma_stream (advance (dma_cpu_bufs s) (tx_dma_stream s)) s) ;;
        emit EvUnlock ;;
        netdev_upd netdev (count_tx len) ;;
        emit EvFreeSkb ;;
        ret NETDEV_TX_OK.

(** [(hw_state & HW_FOUND) && (hw_state & HW_INIT)] *)
Definition hw_ready (hw : Z) : bool :=
  negb (Z.land hw HW_FOUND =? 0) && negb (Z.land hw HW_INIT =? 0).

Definition nf10_ndo_start_xmit (skb : sk_buff) (netdev : Z) : M Z :=
  if DRIVER_GHOST then nf10_ghost_xmit skb netdev
  else
    let len := u32 (skb_len skb) in
    if (len <? NF10_PKT_SIZE_MIN) || (NF10_PKT_SIZE_MAX <? len) then tx_drop netdev
    else if DMA_BUF_SIZE <? len then tx_drop netdev
    else
      hw <- get hw_state ;;
      if negb (hw_ready hw) then tx_drop netdev
      else
        iface <- get_iface_from_netdev netdev ;;
        let iface := s32 iface in
        if iface <? 0 then tx_drop netdev
        else
          let opcode := tx_set_src_iface 0 (u32 iface) in
          data <- (if DRIVER_LOOPB then or_fault (ip_switcharoo (skb_data skb))
                   else ret (skb_data skb)) ;;
          emit EvLock ;;
          now <- ask k_jiffies ;;
          netdev_upd netdev (set_trans_start now) ;;
          st <- get tx_dma_stream ;;
          fl <- rd32 (flag_addr st (buf_index st)) ;;
          if fl =? 0 then
            netdev_upd netdev inc_tx_dropped ;;
            emit EvFreeSkb ;;
            emit EvUnlock ;;
            ret NETDEV_TX_OK
          else
            src <- rd_bytes data len ;;
            wr (buf_addr st (buf_index st)) src ;;
            wr32 (meta_addr st (buf_index st) MD_length) len ;;
            wr32 (meta_addr st (buf_index st) MD_opCode) opcode ;;
            emit EvMb ;;
            wr32 (flag_addr st (buf_index st)) 0 ;;
            emit EvMb ;;
            mmio_wr (doorbell st) 1 ;;
            modify (λ s, set_tx_dma_stream (advance (dma_cpu_bufs s) (tx_dma_stream s)) s) ;;
            emit EvUnlock ;;
            netdev_upd netdev (count_tx len) ;;
            emit EvFreeSkb ;;
            ret NETDEV_TX_OK.

Definition nf10_ndo_tx_timeout (netdev : Z) : M unit := ret tt.

Definition nf10_ndo_get_stats (netdev : Z) : M net_device_stats :=
  d <- netdev_get netdev ;; ret (stats d).

(** ** Interface numbers *)

Lemma find_netdev_lookup ptrs p i j :
  NoDup ptrs → ptrs !! j = Some p → find_netdev ptrs p i = i + Z.of_nat j.
Proof.
  revert i j; induction ptrs as [|q ptrs IH]; intros i [|j] Hnd Hj; simplify_eq/=.
  - rewrite Z.eqb_refl. lia.
  - apply list.NoDup_cons in Hnd as [Hq Hnd].
    destruct (Z.eqb_spec q p) as [->|]; [|rewrite (IH _ j) by done; lia].
    destruct Hq. by eapply list_elem_of_lookup_2.
Qed.

Lemma find_netdev_none ptrs p i : p ∉ ptrs → find_netdev ptrs p i = u32 (-1).
Proof.
  revert i; induction ptrs as [|q ptrs IH]; intros i Hp; [done|]; simpl.
  apply not_elem_of_cons in Hp as [Hne Hp].
  destruct (Z.eqb_spec q p); [congruence|auto].
Qed.

(** ** The driver's interface table *)

(** [nf10_netdevs] holds four distinct pointers to live [net_device]s. *)
Record netdevs_wf (s : drv) : Prop := {
  nw_len : length (nf10_netdevs s) = 4%nat;
  nw_nodup : NoDup (nf10_netdevs s);
  nw_live : ∀ p, p ∈ nf10_netdevs s → is_Some (netdevs s !! p);
}.

Definition iface_of (s : drv) (i p : Z) : Prop :=
  0 ≤ i < 4 ∧ nf10_netdevs s !! Z.to_nat i = Some p.

Lemma find_iface s i p :
  netdevs_wf s → iface_of s i p → find_netdev (nf10_netdevs s) p 0 = i.
Proof.
  intros [_ Hnd _] [Hi Hp]. rewrite (find_netdev_lookup _ _ _ (Z.to_nat i)) by done. lia.
Qed.

(** ** [nf10_ndo_start_xmit] on each branch *)

(** State after a packet was dropped outside the critical section. *)
Definition dropped (p : Z) (d : net_device) (s : drv) : drv :=
  set_trace (EvFreeSkb :: trace s) (set_netdevs (<[p := inc_tx_dropped d]> (netdevs s)) s).

Lemma tx_drop_ok p d s :
  netdevs s !! p = Some d → tx_drop p s = Ok NETDEV_TX_OK (dropped p d s).
Proof. intros Hd. unfold tx_drop. step ltac:(eassumption). done. Qed.

(** The bytes that go into the ring: in loopback mode the addresses are flipped. *)
Definition tx_bytes_of (skb : sk_buff) : option (list Z) :=
  data ← (if DRIVER_LOOPB then ip_switcharoo (skb_data skb) else Some (skb_data skb));
  if zlen data <? skb_len skb then None else Some (take (Z.to_nat (skb_len skb)) data).

(** Events of a successful transmission, newest first: every store of the
    packet and its metadata precedes the flag, and the flag the doorbell. *)
Definition sent_events (st : dma_stream) (bs : list Z) (op : Z) : list event :=
  let i := buf_index st in
  [EvFreeSkb; EvUnlock; EvMmioWr (doorbell st) 1; EvMb;
   EvStore (flag_addr st i) (le_split 4 0); EvMb;
   EvStore (meta_addr st i MD_opCode) (le_split 4 op);
   EvStore (meta_addr st i MD_length) (le_split 4 (zlen bs));
   EvStore (buf_addr st i) bs; EvLock].

Definition sent (p : Z) (d : net_device) (bs : list Z) (op : Z) (s : drv) : drv :=
  let st := tx_dma_stream s in
  set_trace (sent_events st bs op ++ trace s)
    (set_netdevs (<[p := count_tx (zlen bs)
                           (set_trans_start (k_jiffies (EvLock :: trace s)) d)]> (netdevs s))
      (set_tx_dma_stream (advance (dma_cpu_bufs s) st)
        (set_ram (mput (ram s) st (buf_index st) bs op 0) s))).

Lemma take_zlen (l : list Z) (k : Z) : 0 ≤ k ≤ zlen l → zlen (take (Z.to_nat k) l) = k.
Proof. unfold zlen. intros Hk. rewrite length_take. lia. Qed.

Section Branches.
Context (Hng : DRIVER_GHOST = false).
Context (s : drv) (p : Z) (d : net_device) (Hd : netdevs s !! p = Some d).

Lemma start_xmit_bad_length skb :
  0 ≤ skb_len skb < 2 ^ 32 → ¬ (33 ≤ skb_len skb ≤ 1514) →
  nf10_ndo_start_xmit skb p s = Ok NETDEV_TX_OK (dropped p d s).
Proof.
  intros Hl Hb. unfold nf10_ndo_start_xmit. rewrite Hng, u32_small by done.
  unfold NF10_PKT_SIZE_MIN, NF10_PKT_SIZE_MAX.
  destruct (Z.ltb_spec (skb_len skb) 33), (Z.ltb_spec 1514 (skb_len skb)); simpl;
    try (by apply tx_drop_ok); lia.
Qed.

Context (skb : sk_buff) (Hlen : 33 ≤ skb_len skb ≤ 1514).

Local Ltac enter :=
  unfold nf10_ndo_start_xmit; rewrite Hng, u32_small by lia;
  unfold NF10_PKT_SIZE_MIN, NF10_PKT_SIZE_MAX, DMA_BUF_SIZE;
  decide_test (skb_len skb <? 33) false; decide_test (1514 <? skb_len skb) false;
  decide_test (2048 <? skb_len skb) false; cbn [orb]; cbv iota.

Lemma start_xmit_no_hw :
  hw_ready (hw_state s) = false →
  nf10_ndo_start_xmit skb p s = Ok NETDEV_TX_OK (dropped p d s).
Proof. intros Hhw. enter. step idtac. rewrite Hhw. by apply tx_drop_ok. Qed.

Context (Hhw : hw_ready (hw_state s) = true).

Lemma start_xmit_unknown_netdev :
  p ∉ nf10_netdevs s →
  nf10_ndo_start_xmit skb p s = Ok NETDEV_TX_OK (dropped p d s).
Proof.
  intros Hp. enter. step idtac. rewrite Hhw. simpl. step idtac.
  rewrite find_netdev_none by done. by apply tx_drop_ok.
Qed.

Context (i : Z) (Hwf : netdevs_wf s) (Hi : iface_of s i p).
Context (Hst : stream_wf (ram s) (dma_cpu_bufs s) (tx_dma_stream s)).
Context (bs : list Z) (Hbs : tx_bytes_of skb = Some bs).

Lemma tx_bytes_len : zlen bs = skb_len skb.
Proof.
  revert Hbs. unfold tx_bytes_of.
  destruct (if DRIVER_LOOPB then _ else _) as [data|]; simpl; [|done].
  destruct (Z.ltb_spec (zlen data) (skb_len skb)); [done|].
  intros [= <-]. apply take_zlen. lia.
Qed.

(** The switcharoo of loopback mode, as a step. *)
Lemma tx_data_step {B} (k : list Z → M B) s' :
  bind (if DRIVER_LOOPB then or_fault (ip_switcharoo (skb_data skb)) else ret (skb_data skb)) k s'
  = match (if DRIVER_LOOPB then ip_switcharoo (skb_data skb) else Some (skb_data skb)) with
    | Some data => k data s' | None => Fault end.
Proof. destruct DRIVER_LOOPB; [|done]. unfold bind, or_fault. by destruct (ip_switcharoo _). Qed.

Local Ltac upto_lock :=
  enter; step idtac; rewrite Hhw; simpl; step idtac;
  rewrite (find_iface s i p) by done;
  assert (0 ≤ i < 4) as Hi4 by apply Hi;
  rewrite s32_small, u32_small by lia; decide_test (i <? 0) false;
  rewrite tx_data_step.

Lemma start_xmit_full :
  flag_at (ram s) (tx_dma_stream s) (buf_index (tx_dma_stream s)) = 0 →
  nf10_ndo_start_xmit skb p s =
  Ok NETDEV_TX_OK
    (set_trace (EvUnlock :: EvFreeSkb :: EvLock :: trace s)
       (set_netdevs (<[p := inc_tx_dropped
                             (set_trans_start (k_jiffies (EvLock :: trace s)) d)]>
                       (netdevs s)) s)).
Proof.
  intros Hfl. upto_lock. revert Hbs. unfold tx_bytes_of.
  destruct (if DRIVER_LOOPB then _ else _) as [data|]; [intros _|done].
  step idtac. step idtac. step ltac:(eassumption). step idtac.
  step ltac:(apply valid_flag with (dma_cpu_bufs s); [exact Hst|apply Hst]).
  unfold flag_at in Hfl. rewrite Hfl. simpl.
  step ltac:(apply lookup_insert_eq). rewrite insert_insert_eq.
  step idtac. step idtac. done.
Qed.

Lemma start_xmit_sent :
  flag_at (ram s) (tx_dma_stream s) (buf_index (tx_dma_stream s)) ≠ 0 →
  io_valid s (doorbell (tx_dma_stream s)) = true →
  nf10_ndo_start_xmit skb p s =
  Ok NETDEV_TX_OK (sent p d bs (tx_set_src_iface 0 i) s).
Proof.
  intros Hfl Hdb. upto_lock. pose proof tx_bytes_len as Hbl. revert Hbs Hbl.
  unfold tx_bytes_of. destruct (if DRIVER_LOOPB then _ else _) as [data|]; simpl; [|done].
  destruct (Z.ltb_spec (zlen data) (skb_len skb)); [done|]. intros [= Hbs'] Hbl.
  step idtac. step idtac. step ltac:(eassumption). step idtac.
  step ltac:(apply valid_flag with (dma_cpu_bufs s); [exact Hst|apply Hst]).
  destruct (Z.eqb_spec (word_at (ram s) (flag_addr (tx_dma_stream s)
    (buf_index (tx_dma_stream s)))) 0) as [Hz|_]; [done|].
  unfold rd_bytes. decide_test (zlen data <? skb_len skb) false.
  rewrite Hbs'. step idtac.
  step ltac:(apply (valid_buf _ _ _ Hst); [apply Hst|lia]).
  step ltac:(apply (valid_meta _ _ _ Hst); apply Hst).
  step ltac:(apply (valid_meta _ _ _ Hst); apply Hst).
  step idtac.
  step ltac:(apply (valid_flag _ _ _ Hst); apply Hst).
  step idtac. step ltac:(exact Hdb). step idtac. step idtac.
  step ltac:(apply lookup_insert_eq). rewrite insert_insert_eq. step idtac.
  unfold ret, sent, sent_events, mput. rewrite <- Hbl. done.
Qed.

End Branches.

(** ** [nf10_ghost_xmit] on each branch *)

Definition ghost_bytes_of (skb : sk_buff) : option (list Z) :=
  data ← ip_switcharoo (skb_data skb);
  if zlen data <? skb_len skb then None else Some (take (Z.to_nat (skb_len skb)) data).

Definition ghost_events (st : dma_stream) (bs : list Z) (op : Z) : list event :=
  let i := buf_index st in
  [EvFreeSkb; EvUnlock; EvMb;
   EvStore (flag_addr st i) (le_split 4 1); EvMb;
   EvStore (meta_addr st i MD_opCode) (le_split 4 op);
   EvStore (meta_addr st i MD_length) (le_split 4 (zlen bs));
   EvStore (buf_addr st i) bs; EvMb; EvLock].

Definition ghost_sent (p : Z) (d : net_device) (bs : list Z) (op : Z) (s : drv) : drv :=
  let st := tx_dma_stream s in
  set_trace (ghost_events st bs op ++ trace s)
    (set_netdevs (<[p := count_tx (zlen bs) (set_trans_start (k_jiffies (trace s)) d)]>
                    (netdevs s))
      (set_tx_dma_stream (advance (dma_cpu_bufs s) st)
        (set_ram (mput (ram s) st (buf_index st) bs op 1) s))).

Definition ghost_dropped (p : Z) (d : net_device) (s : drv) : drv :=
  set_trace (EvFreeSkb :: EvUnlock :: EvLock :: trace s)
    (set_netdevs (<[p := inc_tx_dropped (set_trans_start (k_jiffies (trace s)) d)]>
                    (netdevs s)) s).

Section GhostBranches.
Context (s : drv) (p : Z) (d : net_device) (Hd : netdevs s !! p = Some d).

Lemma ghost_xmit_too_long skb :
  DMA_BUF_SIZE < skb_len skb < 2 ^ 32 →
  nf10_ghost_xmit skb p s = Ok NETDEV_TX_OK (dropped p d s).
Proof.
  unfold DMA_BUF_SIZE. intros Hl. unfold nf10_ghost_xmit, DMA_BUF_SIZE.
  rewrite u32_small by lia. decide_test (2048 <? skb_len skb) true. by apply tx_drop_ok.
Qed.

Context (skb : sk_buff) (Hlen : 0 ≤ skb_len skb ≤ DMA_BUF_SIZE).
Context (i : Z) (Hwf : netdevs_wf s) (Hi : iface_of s i p).
Context (Hst : stream_wf (ram s) (dma_cpu_bufs s) (tx_dma_stream s)).
Context (bs : list Z) (Hbs : ghost_bytes_of skb = Some bs).

Lemma ghost_bytes_len : zlen bs = skb_len skb.
Proof.
  revert Hbs. unfold ghost_bytes_of.
  destruct (ip_switcharoo _) as [data|]; simpl; [|done].
  destruct (Z.ltb_spec (zlen data) (skb_len skb)); [done|].
  intros [= <-]. apply take_zlen. lia.
Qed.

Local Ltac upto_flag :=
  unfold DMA_BUF_SIZE in Hlen;
  unfold nf10_ghost_xmit, DMA_BUF_SIZE; rewrite u32_small by lia;
  decide_test (2048 <? skb_len skb) false; step idtac;
  rewrite (find_iface s i p) by done;
  assert (0 ≤ i < 4) as Hi4 by apply Hi;
  rewrite s32_small by lia; decide_test (i <? 0) false;
  pose proof ghost_bytes_len as Hbl; revert Hbs Hbl;
  unfold ghost_bytes_of; destruct (ip_switcharoo _) as [data|]; simpl; [|done];
  destruct (Z.ltb_spec (zlen data) (skb_len skb)); [done|]; intros [= Hbs'] Hbl;
  step idtac; step idtac; step ltac:(eassumption); step idtac; step idtac;
  step ltac:(apply valid_flag with (dma_cpu_bufs s); [exact Hst|apply Hst]).

Lemma ghost_xmit_full :
  flag_at (ram s) (tx_dma_stream s) (buf_index (tx_dma_stream s)) = 1 →
  nf10_ghost_xmit skb p s = Ok NETDEV_TX_OK (ghost_dropped p d s).
Proof.
  intros Hfl. upto_flag. unfold flag_at in Hfl. rewrite Hfl. simpl. step idtac.
  erewrite tx_drop_ok by (simpl; apply lookup_insert_eq).
  unfold dropped, ghost_dropped; simpl. by rewrite insert_insert_eq.
Qed.

Lemma peer_iface : 0 ≤ Z.lxor i 1 < 4 ∧ u32 (Z.lxor i 1) = Z.lxor i 1.
Proof.
  assert (0 ≤ i < 4) as Hi4 by apply Hi.
  assert (i = 0 ∨ i = 1 ∨ i = 2 ∨ i = 3) as [-> | [-> | [-> | ->] ] ] by lia; done.
Qed.

Lemma ghost_xmit_sent :
  flag_at (ram s) (tx_dma_stream s) (buf_index (tx_dma_stream s)) ≠ 1 →
  nf10_ghost_xmit skb p s =
  Ok NETDEV_TX_OK (ghost_sent p d bs (rx_set_dst_iface 0 (Z.lxor i 1)) s).
Proof.
  intros Hfl. upto_flag. destruct peer_iface as [_ Hpeer]. rewrite Hpeer.
  destruct (Z.eqb_spec (word_at (ram s) (flag_addr (tx_dma_stream s)
    (buf_index (tx_dma_stream s)))) 1) as [Hz|_]; [done|].
  step idtac. unfold rd_bytes. decide_test (zlen data <? skb_len skb) false.
  rewrite Hbs'. step idtac.
  step ltac:(apply (valid_buf _ _ _ Hst); [apply Hst|lia]).
  step ltac:(apply (valid_meta _ _ _ Hst); apply Hst).
  step ltac:(apply (valid_meta _ _ _ Hst); apply Hst).
  step idtac.
  step ltac:(apply (valid_flag _ _ _ Hst); apply Hst).
  step idtac. step idtac. step idtac.
  step ltac:(apply lookup_insert_eq). rewrite insert_insert_eq. step idtac.
  unfold ret, ghost_sent, ghost_events, mput. rewrite <- Hbl. done.
Qed.

End GhostBranches.
End Xmit.
