(* ===== verification/Poll.v ===== *)
(** * Reception

    [rx_poll_timer_cb] and the NAPI poll function [nf10_napi_struct_poll],
    which takes packets out of the RX ring and hands them to the network
    stack. *)

From S2P Require Import Prelude Mem Occp Opcode Kernel Packet Stream Xmit.

Section Poll.
Context `{Kernel}.

Definition rx_poll_timer_cb : M unit :=
  st <- get rx_dma_stream ;;
  fl <- rd32 (flag_addr st (buf_index st)) ;;
  if fl =? 1 then emit EvNapiSchedule
  else
    modify (λ s, set_timer_expires (u64 (timer_expires s + RX_POLL_INTERVAL)) s) ;;
    e <- get timer_expires ;;
    emit (EvAddTimer e).

(** [#ifndef DRIVER_GHOST *rx_dma_stream.doorbell = 1; #endif] *)
Definition rx_doorbell : M unit :=
  if DRIVER_GHOST then ret tt
  else st <- get rx_dma_stream ;; mmio_wr (doorbell st) 1.

(** Update [rx_dma_stream.buf_index] and read it back into [buf_index]. *)
Definition rx_advance : M Z :=
  modify (λ s, set_rx_dma_stream (advance (dma_cpu_bufs s) (rx_dma_stream s)) s) ;;
  get (λ s, s32 (buf_index (rx_dma_stream s))).

(** One iteration of the loop: the new [n_rx] and [buf_index].  Nothing else
    runs during an iteration, so the repeated reads of a metadata field are one
    read. *)
Definition poll_body (n_rx bi : Z) : M (Z * Z) :=
  st <- get rx_dma_stream ;;
  op <- rd32 (meta_addr st bi MD_opCode) ;;
  let dst_iface := s32 (rx_get_dst_iface op) in
  if dst_iface <? 0 then
    emit EvMb ;;
    wr32 (flag_addr st bi) 0 ;;
    emit EvMb ;;
    rx_doorbell ;;
    bi <- rx_advance ;;
    ret (n_rx, bi)
  else
    len <- rd32 (meta_addr st bi MD_length) ;;
    ok <- call (λ tr, k_dev_alloc_skb tr len) (EvAllocSkb len) ;;
    if negb ok then
      emit EvMb ;;
      wr32 (flag_addr st bi) 0 ;;
      rx_doorbell ;;
      bi <- rx_advance ;;
      dev <- netdev_ptr dst_iface ;;
      netdev_upd dev inc_rx_dropped ;;
      ret (n_rx, bi)
    else
      data <- rd (buf_addr st bi) len ;;
      dev <- netdev_ptr dst_iface ;;
      emit (EvReceive dev data (k_eth_type_trans data) (DRIVER_GHOST || DRIVER_LOOPB)) ;;
      netdev_upd dev (count_rx len) ;;
      emit EvMb ;;
      wr32 (flag_addr st bi) 0 ;;
      rx_doorbell ;;
      emit EvMb ;;
      bi <- rx_advance ;;
      ret (n_rx + 1, bi).

(** [while(n_rx < budget && rx_dma_stream.flags[buf_index] == 1)] *)
Fixpoint poll_loop (fuel : nat) (budget n_rx bi : Z) : M (Z * Z) :=
  match fuel with
  | O => out_of_fuel
  | S fuel =>
      if n_rx <? budget then
        st <- get rx_dma_stream ;;
        fl <- rd32 (flag_addr st bi) ;;
        if fl =? 1 then
          r <- poll_body n_rx bi ;;
          poll_loop fuel budget r.1 r.2
        else ret (n_rx, bi)
      else ret (n_rx, bi)
  end.

Definition nf10_napi_struct_poll (budget : Z) : M Z :=
  bi <- get (λ s, s32 (buf_index (rx_dma_stream s))) ;;
  n <- get dma_cpu_bufs ;;
  r <- poll_loop (S (Z.to_nat n)) budget 0 bi ;;
  st <- get rx_dma_stream ;;
  fl <- rd32 (flag_addr st r.2) ;;
  if fl =? 0 then
    emit EvNapiComplete ;;
    now <- ask k_jiffies ;;
    modify (set_timer_expires (u64 (now + RX_POLL_INTERVAL))) ;;
    e <- get timer_expires ;;
    emit (EvAddTimer e) ;;
    ret 0
  else ret r.1.

(** ** One iteration, branch by branch *)

(** Releasing slot [i]: the flag is cleared and the index moves on. *)
Definition released (s : drv) : drv :=
  set_rx_dma_stream (advance (dma_cpu_bufs s) (rx_dma_stream s))
    (set_ram (mflag (ram s) (rx_dma_stream s) (buf_index (rx_dma_stream s)) 0) s).

(** The device must be mapped for the doorbell, except in ghosting mode. *)
Definition doorbell_ok (s : drv) : Prop :=
  DRIVER_GHOST = true ∨ io_valid s (doorbell (rx_dma_stream s)) = true.

Definition bell (st : dma_stream) : list event :=
  if DRIVER_GHOST then [] else [EvMmioWr (doorbell st) 1].

Lemma rx_doorbell_ok s :
  doorbell_ok s →
  rx_doorbell s = Ok tt (set_trace (bell (rx_dma_stream s) ++ trace s) s).
Proof.
  unfold rx_doorbell, bell. intros [Hg|Hv].
  - rewrite Hg. by destruct s.
  - destruct DRIVER_GHOST; [by destruct s|]. step idtac. by rewrite mmio_wr_ok.
Qed.

Section Body.
Context (s : drv) (Hst : stream_wf (ram s) (dma_cpu_bufs s) (rx_dma_stream s)).
Context (Hdb : doorbell_ok s) (n_rx : Z).
Local Abbreviation st := (rx_dma_stream s).
Local Abbreviation i := (buf_index (rx_dma_stream s)).
Local Abbreviation n := (dma_cpu_bufs s).

Lemma rx_index_s32 : s32 (next_index n i) = next_index n i.
Proof.
  apply s32_small. destruct Hst as [Hn Hi _ _ _]. unfold DMA_CPU_BUFS in Hn.
  rewrite next_index_val by (unfold DMA_CPU_BUFS; lia).
  pose proof (Z.mod_pos_bound (i + 1) n). lia.
Qed.

Definition body_lost : drv :=
  set_trace (bell st ++ [EvMb; EvStore (flag_addr st i) (le_split 4 0); EvMb] ++ trace s)
    (released s).

Lemma poll_body_bad_iface :
  rx_get_dst_iface (slot_at (ram s) st i).2 = u32 (-1) →
  poll_body n_rx i s = Ok (n_rx, next_index n i) body_lost.
Proof.
  intros Hop. unfold poll_body. step idtac.
  step ltac:(apply (valid_meta _ _ _ Hst); apply Hst). simpl in Hop. rewrite Hop.
  change (s32 (u32 (-1)) <? 0) with true. cbv iota.
  step idtac. step ltac:(apply (valid_flag _ _ _ Hst); apply Hst). step idtac.
  erewrite bind_ok by (apply rx_doorbell_ok; exact Hdb). simpl.
  unfold rx_advance. step idtac. step idtac. unfold ret. by rewrite rx_index_s32.
Qed.

Context (dst p : Z) (d : net_device).
Context (Hop : rx_get_dst_iface (slot_at (ram s) st i).2 = dst).
Context (Hp : iface_of s dst p) (Hd : netdevs s !! p = Some d).

Definition body_noskb : drv :=
  let len := slot_len (ram s) st i in
  set_netdevs (<[p := inc_rx_dropped d]> (netdevs s))
    (set_trace (bell st ++ [EvStore (flag_addr st i) (le_split 4 0); EvMb;
                            EvAllocSkb len false] ++ trace s)
       (released s)).

Local Ltac upto_alloc :=
  unfold poll_body; step idtac;
  step ltac:(apply (valid_meta _ _ _ Hst); apply Hst);
  simpl in Hop; rewrite Hop; assert (0 ≤ dst < 4) as Hdst by apply Hp;
  rewrite s32_small by lia; decide_test (dst <? 0) false;
  step ltac:(apply (valid_meta _ _ _ Hst); apply Hst); step idtac.

Lemma poll_body_no_skb :
  k_dev_alloc_skb (trace s) (slot_len (ram s) st i) = false →
  poll_body n_rx i s = Ok (n_rx, next_index n i) body_noskb.
Proof.
  intros Hk. upto_alloc. unfold slot_len in Hk. rewrite Hk. simpl.
  steps ltac:(apply (valid_flag _ _ _ Hst); apply Hst).
  erewrite bind_ok by (apply rx_doorbell_ok; exact Hdb). simpl.
  unfold rx_advance. step idtac. step idtac.
  step ltac:(first [exact Hdst | apply Hp]). step ltac:(eassumption).
  unfold ret. by rewrite rx_index_s32.
Qed.

Definition body_delivered : drv :=
  let len := slot_len (ram s) st i in
  let data := (slot_at (ram s) st i).1 in
  set_netdevs (<[p := count_rx len d]> (netdevs s))
    (set_trace ([EvMb] ++ bell st ++
                [EvStore (flag_addr st i) (le_split 4 0); EvMb;
                 EvReceive p data (k_eth_type_trans data) (DRIVER_GHOST || DRIVER_LOOPB);
                 EvAllocSkb len true] ++ trace s)
       (released s)).

Lemma poll_body_delivered :
  k_dev_alloc_skb (trace s) (slot_len (ram s) st i) = true →
  valid (ram s) (buf_addr st i) (slot_len (ram s) st i) = true →
  poll_body n_rx i s = Ok (n_rx + 1, next_index n i) body_delivered.
Proof.
  intros Hk Hv. upto_alloc. unfold slot_len in Hk, Hv. rewrite Hk. simpl.
  step ltac:(exact Hv). step ltac:(first [exact Hdst | apply Hp]).
  step idtac. step ltac:(eassumption). step idtac.
  step ltac:(apply (valid_flag _ _ _ Hst); apply Hst).
  erewrite bind_ok by (apply rx_doorbell_ok; exact Hdb). simpl.
  step idtac. unfold rx_advance. step idtac. step idtac.
  unfold ret. by rewrite rx_index_s32.
Qed.

End Body.

(** ** Termination

    Every iteration clears the flag it found set, so a poll makes at most
    [dma_cpu_bufs] iterations. *)

(** Number of slots whose flag is 1. *)
Definition full_slots (m : mem) (st : dma_stream) (n : Z) : nat :=
  length (filter (λ j, flag_at m st j = 1) (seqZ 0 n)).

Lemma filter_length_lt {A} (P Q : A → Prop) `{∀ x, Decision (P x), ∀ x, Decision (Q x)} l x :
  (∀ y, y ∈ l → Q y → P y) → x ∈ l → P x → ¬ Q x →
  (length (filter Q l) < length (filter P l))%nat.
Proof.
  intros HQP Hx HP HQ.
  assert (∀ k, (∀ y, y ∈ k → Q y → P y) →
            (length (filter Q k) ≤ length (filter P k))%nat) as Hle.
  { induction k as [|y k IH]; intros Hk; [done|].
    rewrite !filter_cons. specialize (IH (λ z Hz, Hk z (list_elem_of_further _ _ _ Hz))).
    specialize (Hk y (list_elem_of_here _ _)). repeat case_decide; simpl; try lia. tauto. }
  apply list_elem_of_split in Hx as (l1 & l2 & ->).
  rewrite !list.filter_app, !length_app, !filter_cons.
  rewrite decide_False by done. rewrite decide_True by done. simpl.
  assert (length (filter Q l1) ≤ length (filter P l1))%nat by (apply Hle; set_solver).
  assert (length (filter Q l2) ≤ length (filter P l2))%nat by (apply Hle; set_solver).
  lia.
Qed.

Lemma full_slots_mflag m n st i :
  stream_wf m n st → 0 ≤ i < n → flag_at m st i = 1 →
  (full_slots (mflag m st i 0) st n < full_slots m st n)%nat.
Proof.
  intros Hwf Hi Hfl. unfold full_slots.
  apply (filter_length_lt _ _ _ i); [| |done|].
  - intros j Hj. apply elem_of_seqZ in Hj.
    rewrite (flag_at_mflag m n) by (auto; lia).
    destruct (Z.eqb_spec i j) as [->|]; [done|auto].
  - apply elem_of_seqZ. lia.
  - rewrite (flag_at_mflag m n) by (auto; lia). by rewrite Z.eqb_refl.
Qed.

Lemma full_slots_le m st n : 0 ≤ n → (full_slots m st n ≤ Z.to_nat n)%nat.
Proof.
  intros Hn. unfold full_slots.
  etransitivity; [apply list.length_filter|]. by rewrite length_seqZ.
Qed.

(** Whatever the device wrote, an iteration that does not fault clears the
    flag of its slot and moves to the next one. *)
Lemma poll_body_wlp n_rx s :
  wlp (poll_body n_rx (buf_index (rx_dma_stream s))) s (λ r s',
    ram s' = ram (released s) ∧ rx_dma_stream s' = rx_dma_stream (released s) ∧
    dma_cpu_bufs s' = dma_cpu_bufs s ∧ n_rx ≤ r.1 ≤ n_rx + 1 ∧
    r.2 = s32 (buf_index (rx_dma_stream s')) ∧
    iomap s' = iomap s ∧ nf10_netdevs s' = nf10_netdevs s ∧
    (∀ p, is_Some (netdevs s !! p) → is_Some (netdevs s' !! p))).
Proof.
  unfold poll_body, rx_doorbell, rx_advance, wr32.
  repeat wlp_step; simpl; repeat split; try lia; auto;
    intros q Hq; rewrite lookup_insert; case_decide; eauto.
Qed.

Lemma released_wf s :
  stream_wf (ram s) (dma_cpu_bufs s) (rx_dma_stream s) →
  stream_wf (ram (released s)) (dma_cpu_bufs s) (rx_dma_stream (released s)).
Proof. intros Hwf. simpl. apply advance_wf. by apply mflag_wf. Qed.

Lemma rx_index_small s :
  stream_wf (ram s) (dma_cpu_bufs s) (rx_dma_stream s) →
  s32 (buf_index (rx_dma_stream s)) = buf_index (rx_dma_stream s).
Proof. intros [Hn Hi _ _ _]. unfold DMA_CPU_BUFS in Hn. apply s32_small. lia. Qed.

Lemma poll_loop_wlp fuel budget n_rx s :
  stream_wf (ram s) (dma_cpu_bufs s) (rx_dma_stream s) →
  (full_slots (ram s) (rx_dma_stream s) (dma_cpu_bufs s) < fuel)%nat →
  wlp (poll_loop fuel budget n_rx (buf_index (rx_dma_stream s))) s (λ r s',
    n_rx ≤ r.1 ≤ Z.max n_rx budget).
Proof.
  revert n_rx s. induction fuel as [|fuel IH]; intros n_rx s Hwf Hf; [lia|].
  simpl poll_loop. destruct (Z.ltb_spec n_rx budget) as [Hlt|Hge];
    [|unfold wlp, ret; simpl; lia].
  apply wlp_bind, wlp_get, wlp_bind, wlp_rd32. case_eqn Hfl; [|unfold wlp, ret; simpl; lia].
  apply Z.eqb_eq in Hfl. apply wlp_bind.
  eapply wlp_mono; [apply poll_body_wlp|].
  intros [k b] s' (Hram & Hrx & Hn & Hk & Hb & _). simpl in Hk, Hb. simpl fst. simpl snd.
  assert (stream_wf (ram s') (dma_cpu_bufs s') (rx_dma_stream s')) as Hwf'.
  { rewrite Hram, Hrx, Hn. by apply released_wf. }
  rewrite Hb, rx_index_small by done.
  eapply wlp_mono; [apply (IH k s' Hwf')|intros [k' b'] _ Hk'; simpl in *; lia].
  rewrite Hram, Hrx, Hn. simpl.
  pose proof (full_slots_mflag _ _ _ (buf_index (rx_dma_stream s)) Hwf (wf_index _ _ _ Hwf) Hfl).
  unfold full_slots, flag_at, flag_addr in *. simpl in *. lia.
Qed.

Lemma poll_wlp budget s :
  stream_wf (ram s) (dma_cpu_bufs s) (rx_dma_stream s) →
  wlp (nf10_napi_struct_poll budget) s (λ r s', 0 ≤ r ≤ Z.max 0 budget).
Proof.
  intros Hwf. unfold nf10_napi_struct_poll.
  do 2 apply wlp_bind, wlp_get.
  rewrite rx_index_small by done.
  apply wlp_bind. eapply wlp_mono; [apply (poll_loop_wlp _ budget 0 s Hwf)|].
  { pose proof (full_slots_le (ram s) (rx_dma_stream s) (dma_cpu_bufs s)).
    destruct Hwf as [Hn _ _ _ _]. lia. }
  intros [k b] s' Hk. simpl in *. apply wlp_bind, wlp_get.
  apply wlp_bind, wlp_rd32. case_eqn Hfl; unfold wlp; simpl; lia.
Qed.

(** ** Total correctness

    What the receive path relies on: a well-formed ring, a mapped doorbell,
    the four interfaces, flags that are 0 or 1, and a length of at most one
    buffer in every full slot. *)
Record rx_inv (s : drv) : Prop := {
  ri_wf : stream_wf (ram s) (dma_cpu_bufs s) (rx_dma_stream s);
  ri_bell : doorbell_ok s;
  ri_netdevs : netdevs_wf s;
  ri_flags : ∀ j, 0 ≤ j < dma_cpu_bufs s →
    flag_at (ram s) (rx_dma_stream s) j = 0 ∨ flag_at (ram s) (rx_dma_stream s) j = 1;
  ri_len : ∀ j, 0 ≤ j < dma_cpu_bufs s → flag_at (ram s) (rx_dma_stream s) j = 1 →
    slot_len (ram s) (rx_dma_stream s) j ≤ 2048;
}.

(** The invariant does not depend on the rest of the state. *)
Lemma rx_inv_frame s s' :
  ram s' = ram s → rx_dma_stream s' = rx_dma_stream s →
  dma_cpu_bufs s' = dma_cpu_bufs s → iomap s' = iomap s →
  nf10_netdevs s' = nf10_netdevs s → netdevs s' = netdevs s → rx_inv s → rx_inv s'.
Proof.
  intros E1 E2 E3 E4 E5 E6 [Hwf Hb [] Hf Hl].
  unfold doorbell_ok, io_valid in *.
  split; [| |split| |]; unfold doorbell_ok, io_valid; rewrite ?E1, ?E2, ?E3, ?E4, ?E5, ?E6; auto.
Qed.

Lemma iface_lookup s i :
  netdevs_wf s → 0 ≤ i < 4 → ∃ p d, iface_of s i p ∧ netdevs s !! p = Some d.
Proof.
  intros [Hl _ Hlive] Hi.
  destruct (lookup_lt_is_Some_2 (nf10_netdevs s) (Z.to_nat i)) as [p Hp]; [lia|].
  destruct (Hlive p) as [d Hd]; [by eapply list_elem_of_lookup_2|].
  by exists p, d.
Qed.

Lemma poll_body_total n_rx s :
  rx_inv s →
  flag_at (ram s) (rx_dma_stream s) (buf_index (rx_dma_stream s)) = 1 →
  ∃ r s', poll_body n_rx (buf_index (rx_dma_stream s)) s = Ok r s' ∧ rx_inv s' ∧
    ram s' = ram (released s) ∧ rx_dma_stream s' = rx_dma_stream (released s) ∧
    dma_cpu_bufs s' = dma_cpu_bufs s ∧ n_rx ≤ r.1 ≤ n_rx + 1 ∧
    r.2 = buf_index (rx_dma_stream s').
Proof.
  intros [Hwf Hbell Hnd Hfl Hlen] Hfull.
  assert (∃ r s', poll_body n_rx (buf_index (rx_dma_stream s)) s = Ok r s') as (r & s' & Hrun).
  { destruct (rx_get_dst_iface_range (slot_at (ram s) (rx_dma_stream s)
      (buf_index (rx_dma_stream s))).2) as [Hok|Hbad].
    - destruct (iface_lookup s _ Hnd Hok) as (p & d & Hp & Hd).
      destruct (k_dev_alloc_skb (trace s) (slot_len (ram s) (rx_dma_stream s)
        (buf_index (rx_dma_stream s)))) eqn:Hk.
      + do 2 eexists. eapply poll_body_delivered; eauto.
        apply (valid_buf _ _ _ Hwf); [apply Hwf|]. apply Hlen; [apply Hwf|done].
      + do 2 eexists. eapply poll_body_no_skb; eauto.
    - do 2 eexists. by apply poll_body_bad_iface. }
  destruct (wlp_ok _ _ _ _ _ (poll_body_wlp n_rx s) Hrun)
    as (Hram & Hrx & Hn & Hk & Hb & Hio & Hnn & Hlive).
  assert (stream_wf (ram s') (dma_cpu_bufs s') (rx_dma_stream s')) as Hwf'.
  { rewrite Hram, Hrx, Hn. by apply released_wf. }
  exists r, s'. split; [done|]. rewrite rx_index_small in Hb by done.
  split; [|repeat split; done || lia].
  split; [exact Hwf'| | | |].
  - destruct Hbell as [|Hv]; [by left|right].
    unfold io_valid in *. rewrite Hio, Hrx. exact Hv.
  - split; [rewrite Hnn; apply Hnd| rewrite Hnn; apply Hnd|].
    intros p Hp. apply Hlive, Hnd. by rewrite <- Hnn.
  - intros j Hj. rewrite Hn in Hj. rewrite Hram, Hrx. unfold flag_at, flag_addr; simpl.
    change (flag_at (mflag (ram s) (rx_dma_stream s) (buf_index (rx_dma_stream s)) 0)
              (rx_dma_stream s) j = 0 ∨ flag_at (mflag (ram s) (rx_dma_stream s)
              (buf_index (rx_dma_stream s)) 0) (rx_dma_stream s) j = 1).
    rewrite (flag_at_mflag _ _ _ Hwf) by (auto; apply Hwf).
    destruct (_ =? j); [by left|auto].
  - intros j Hj. rewrite Hn in Hj. rewrite Hram, Hrx.
    change (flag_at (mflag (ram s) (rx_dma_stream s) (buf_index (rx_dma_stream s)) 0)
              (rx_dma_stream s) j = 1 → slot_len (mflag (ram s) (rx_dma_stream s)
              (buf_index (rx_dma_stream s)) 0) (rx_dma_stream s) j ≤ 2048).
    rewrite (flag_at_mflag _ _ _ Hwf), (slot_len_mflag _ _ _ Hwf) by (auto; apply Hwf).
    destruct (_ =? j); [done|auto].
Qed.

Lemma poll_loop_total fuel budget n_rx s :
  rx_inv s →
  (full_slots (ram s) (rx_dma_stream s) (dma_cpu_bufs s) < fuel)%nat →
  ∃ k s', poll_loop fuel budget n_rx (buf_index (rx_dma_stream s)) s
          = Ok (k, buf_index (rx_dma_stream s')) s' ∧ rx_inv s' ∧
    n_rx ≤ k ≤ Z.max n_rx budget ∧
    (flag_at (ram s') (rx_dma_stream s') (buf_index (rx_dma_stream s')) = 1 → budget ≤ k).
Proof.
  revert n_rx s. induction fuel as [|fuel IH]; intros n_rx s Hinv Hf; [lia|].
  pose proof (ri_wf s Hinv) as Hwf.
  simpl poll_loop. destruct (Z.ltb_spec n_rx budget) as [Hlt|Hge].
  2: { exists n_rx, s. repeat split; auto; try apply Hinv; lia. }
  step idtac. step ltac:(apply (valid_flag _ _ _ Hwf); apply Hwf).
  destruct (Z.eqb_spec (word_at (ram s) (flag_addr (rx_dma_stream s)
    (buf_index (rx_dma_stream s)))) 1) as [Hfl|Hfl].
  2: { exists n_rx, s. repeat split; auto; try apply Hinv; try lia. by intros ?. }
  destruct (poll_body_total n_rx s Hinv Hfl)
    as ([k b] & s' & Hrun & Hinv' & Hram & Hrx & Hn & Hk & Hb); simpl in *.
  erewrite bind_ok by exact Hrun. simpl. rewrite Hb.
  destruct (IH k s' Hinv') as (k' & s'' & Hrun' & Hinv'' & Hk' & Hfull).
  { rewrite Hram, Hrx, Hn. simpl.
    pose proof (full_slots_mflag _ _ _ (buf_index (rx_dma_stream s)) Hwf (wf_index _ _ _ Hwf) Hfl).
    unfold full_slots, flag_at, flag_addr in *. simpl in *. lia. }
  exists k', s''. repeat split; auto; try apply Hinv''; lia.
Qed.

Lemma poll_total budget s :
  rx_inv s →
  ∃ r s', nf10_napi_struct_poll budget s = Ok r s' ∧ rx_inv s' ∧
    ((r = 0 ∧ flag_at (ram s') (rx_dma_stream s') (buf_index (rx_dma_stream s')) = 0 ∧
      ∃ tr, trace s' = EvAddTimer (timer_expires s') :: EvNapiComplete :: tr)
     ∨ (r = Z.max 0 budget ∧
        flag_at (ram s') (rx_dma_stream s') (buf_index (rx_dma_stream s')) = 1)).
Proof.
  intros Hinv. unfold nf10_napi_struct_poll. step idtac. step idtac.
  rewrite rx_index_small by apply Hinv.
  destruct (poll_loop_total (S (Z.to_nat (dma_cpu_bufs s))) budget 0 s Hinv)
    as (k & s' & Hrun & Hinv' & Hk & Hfull).
  { pose proof (full_slots_le (ram s) (rx_dma_stream s) (dma_cpu_bufs s)).
    destruct (ri_wf s Hinv) as [Hn _ _ _ _]. lia. }
  erewrite bind_ok by exact Hrun. simpl. step idtac.
  pose proof (ri_wf s' Hinv') as Hwf'.
  step ltac:(apply (valid_flag _ _ _ Hwf'); apply Hwf').
  destruct (ri_flags s' Hinv' (buf_index (rx_dma_stream s')) (wf_index _ _ _ Hwf')) as [Hz|Ho];
    unfold flag_at in *.
  - rewrite Hz. simpl. steps idtac. do 2 eexists. split; [done|].
    split; [by apply (rx_inv_frame s')|]. left. simpl. eauto.
  - rewrite Ho. simpl. exists k, s'. split; [done|]. split; [done|]. right. split; [lia|done].
Qed.

End Poll.

(** ** A poll as a step on a queue

    What a poll with budget [b] does to the queue of waiting packets, given the
    answers of [dev_alloc_skb] in the order in which it asks: a packet for no
    interface is dropped without asking; one that is refused a socket buffer is
    dropped and does not count against the budget; one that is granted a buffer
    is delivered. *)

Section Polls.
Context {P O : Type} (target : P → option O).

Inductive polls : Z → list P → list bool → list O → list P → Prop :=
  | PollsEmpty b : polls b [] [] [] []
  | PollsSpent b q : b ≤ 0 → polls b q [] [] q
  | PollsStray b p q ans out rest :
      0 < b → target p = None → polls b q ans out rest → polls b (p :: q) ans out rest
  | PollsRefused b p o q ans out rest :
      0 < b → target p = Some o → polls b q ans out rest →
      polls b (p :: q) (false :: ans) out rest
  | PollsDelivered b p o q ans out rest :
      0 < b → target p = Some o → polls (b - 1) q ans out rest →
      polls b (p :: q) (true :: ans) (o :: out) rest.

(** The elements whose answer is [true]. *)
Fixpoint granted (ans : list bool) (l : list O) : list O :=
  match ans, l with
  | true :: ans, x :: l => x :: granted ans l
  | false :: ans, _ :: l => granted ans l
  | _, _ => []
  end.

Lemma granted_app ans1 ans2 l1 l2 :
  length ans1 = length l1 → granted (ans1 ++ ans2) (l1 ++ l2) = granted ans1 l1 ++ granted ans2 l2.
Proof.
  revert l1. induction ans1 as [|[] ans1 IH]; intros [|x l1] Hl; simplify_eq/=; [done|..];
    by rewrite IH.
Qed.

(** A poll takes packets off the front of the queue and asks once for each
    that has a target. *)
Lemma polls_split b q ans out rest :
  polls b q ans out rest →
  ∃ front, q = front ++ rest ∧ length ans = length (omap target front) ∧
           out = granted ans (omap target front).
Proof.
  induction 1 as [b|b q Hb|b p q ans out rest Hb Ht _ IH|b p o q ans out rest Hb Ht _ IH
    |b p o q ans out rest Hb Ht _ IH]; [by exists []..| | |];
    destruct IH as (front & -> & Hl & ->); exists (p :: front); simpl; rewrite Ht; simpl; auto.
Qed.

(** It delivers no more than its budget allows. *)
Lemma polls_out b q ans out rest : polls b q ans out rest → zlen out ≤ Z.max 0 b.
Proof.
  induction 1; unfold zlen in *; simpl length; lia.
Qed.

End Polls.

(** The answers of [dev_alloc_skb] in a trace, oldest first. *)
Fixpoint skb_answers (tr : list event) : list bool :=
  match tr with
  | [] => []
  | EvAllocSkb _ ok :: tr => skb_answers tr ++ [ok]
  | _ :: tr => skb_answers tr
  end.

Lemma skb_answers_bell `{Kernel} st tr : skb_answers (bell st ++ tr) = skb_answers tr.
Proof. unfold bell. by destruct DRIVER_GHOST. Qed.
