(* ===== verification/Ring.v ===== *)
(** * The ring as a bounded FIFO queue

    A DMA ring is shared by a producer and a consumer that communicate only
    through the flags.  Which flag value means "full" differs between the
    directions, so the theory is stated over the class [Polarity].  [ring]
    relates the memory of a ring to the queue of packets it holds; filling the
    slot at the tail is an enqueue and clearing the flag at the head is a
    dequeue. *)

From S2P Require Import Prelude Mem Occp Kernel Stream.

(** Which flags mean "full", and the flag the producer writes. *)
Class Polarity := {
  is_full : Z → bool;
  full_flag : Z;
  full_flag_full : is_full (u32 full_flag) = true;
}.

(** RX and ghosting: 1 is full.  TX: 0 is full, any other value is free. *)
Definition rx_polarity : Polarity :=
  {| is_full f := f =? 1; full_flag := 1; full_flag_full := eq_refl |}.
Definition tx_polarity : Polarity :=
  {| is_full f := f =? 0; full_flag := 0; full_flag_full := eq_refl |}.

Abbreviation packet := (list Z * Z)%type.

(** The [k]-th slot after [h]. *)
Definition ix (n h k : Z) : Z := (h + k) mod n.

Lemma ix_val n h k :
  0 ≤ h < n → 0 ≤ k ≤ n → ix n h k = if h + k <? n then h + k else h + k - n.
Proof.
  intros Hh Hk. unfold ix. destruct (Z.ltb_spec (h + k) n).
  - apply Z.mod_small. lia.
  - symmetry. apply Z.mod_unique with 1; lia.
Qed.

Lemma ix_range n h k : 0 < n → 0 ≤ ix n h k < n.
Proof. intros Hn. apply Z.mod_pos_bound. done. Qed.

Lemma ix_inj n h k l :
  0 ≤ h < n → 0 ≤ k < n → 0 ≤ l < n → ix n h k = ix n h l → k = l.
Proof.
  intros Hh Hk Hl. rewrite !ix_val by lia.
  destruct (Z.ltb_spec (h + k) n), (Z.ltb_spec (h + l) n); lia.
Qed.

Lemma ix_0 n h : 0 ≤ h < n → ix n h 0 = h.
Proof. intros Hh. unfold ix. rewrite Z.add_0_r. by apply Z.mod_small. Qed.

Lemma ix_succ n h k : 0 < n → ix n h (k + 1) = ix n (ix n h 1) k.
Proof.
  intros Hn. unfold ix. rewrite Z.add_mod_idemp_l by lia. f_equal. lia.
Qed.

Lemma ix_ix n h k : 0 < n → ix n (ix n h k) 1 = ix n h (k + 1).
Proof.
  intros Hn. unfold ix. rewrite Z.add_mod_idemp_l by lia. f_equal. lia.
Qed.

Section Ring.
Context `{Polarity}.

(** Memory [m] holds, in the ring of stream [st] with [n] slots, the queue
    [q] whose oldest packet is in slot [h]. *)
Record ring (m : mem) (n : Z) (st : dma_stream) (h : Z) (q : list packet) : Prop := {
  r_wf : stream_wf m n st;
  r_head : 0 ≤ h < n;
  r_bound : zlen q ≤ n;
  r_slot : ∀ k p, q !! k = Some p →
    is_full (flag_at m st (ix n h (Z.of_nat k))) = true ∧
    slot_at m st (ix n h (Z.of_nat k)) = p ∧
    slot_len m st (ix n h (Z.of_nat k)) ≤ 2048;
  r_free : ∀ k, zlen q ≤ k < n → is_full (flag_at m st (ix n h k)) = false;
}.

(** The tail slot is full exactly when the queue is. *)
Lemma ring_tail_full m n st h q :
  ring m n st h q → is_full (flag_at m st (ix n h (zlen q))) = (zlen q =? n).
Proof.
  intros [[Hn _ _ _ _] Hh Hb Hs Hf]. destruct (Z.eqb_spec (zlen q) n) as [Heq|Hne].
  - rewrite Heq. unfold ix. replace (h + n) with (h + 1 * n) by lia.
    rewrite Z.mod_add, Z.mod_small by lia.
    destruct (lookup_lt_is_Some_2 q 0) as [p Hp]; [unfold zlen in *; lia|].
    destruct (Hs 0%nat p Hp) as [Hfull _]. change (Z.of_nat 0) with 0 in Hfull.
    by rewrite ix_0 in Hfull.
  - apply Hf. lia.
Qed.

Lemma ring_head_full m n st h q :
  ring m n st h q → is_full (flag_at m st h) = negb (bool_decide (q = [])).
Proof.
  intros [[Hn _ _ _ _] Hh Hb Hs Hf]. destruct q as [|p q].
  - rewrite bool_decide_true by done. simpl.
    rewrite <- (ix_0 n h) at 1 by done. apply Hf. unfold zlen; simpl. lia.
  - rewrite bool_decide_false by done. simpl.
    destruct (Hs 0%nat p eq_refl) as [Hfull _]. change (Z.of_nat 0) with 0 in Hfull.
    by rewrite ix_0 in Hfull.
Qed.

(** Filling the tail slot enqueues. *)
Lemma ring_produce m n st h q bs op :
  ring m n st h q → zlen q < n → zlen bs ≤ 2048 → 0 ≤ op < 2 ^ 32 →
  ring (mput m st (ix n h (zlen q)) bs op full_flag) n st h (q ++ [(bs, op)]).
Proof.
  intros [Hwf Hh Hb Hs Hf] Hlt Hbs Hop. pose proof (zlen_nonneg q).
  assert (0 < n) by (destruct Hwf; lia).
  assert (0 ≤ ix n h (zlen q) < n) as Ht by (by apply ix_range).
  assert (∀ k, 0 ≤ k < n → 0 ≤ ix n h k < n) as Hr by (intros; by apply ix_range).
  assert (∀ k, 0 ≤ k < n → k ≠ zlen q → (ix n h (zlen q) =? ix n h k) = false) as Hne.
  { intros k Hk Hkq. apply Z.eqb_neq. intros E. apply Hkq. symmetry.
    apply (ix_inj n h); auto; lia. }
  split; auto.
  - by apply mput_wf.
  - rewrite zlen_app. change (zlen [(bs, op)]) with 1. lia.
  - intros k p Hk. destruct (decide (k < length q)%nat) as [Hkq|Hkq].
    + rewrite lookup_app_l in Hk by done. destruct (Hs k p Hk) as (Hfull & Hslot & Hl2).
      unfold zlen in *.
      rewrite (flag_at_mput _ _ _ Hwf), (slot_at_mput _ _ _ Hwf), (slot_len_mput _ _ _ Hwf)
        by (auto; apply Hr; lia).
      rewrite Hne by lia. auto.
    + apply lookup_lt_Some in Hk as Hlt'. rewrite length_app in Hlt'; simpl in Hlt'.
      assert (k = length q) as -> by lia.
      rewrite lookup_app_r, Nat.sub_diag in Hk by lia. simplify_eq/=.
      fold (zlen q).
      rewrite (flag_at_mput _ _ _ Hwf), (slot_len_mput _ _ _ Hwf) by auto.
      assert (slot_at (mput m st (ix n h (zlen q)) bs op full_flag) st (ix n h (zlen q))
              = (bs, u32 op)) as ->.
      { apply slot_at_mput_same with n; auto. }
      rewrite Z.eqb_refl, (u32_small op) by lia. split; [apply full_flag_full|]. split; [done|lia].
  - intros k Hk. rewrite zlen_app in Hk. change (zlen [(bs, op)]) with 1 in Hk.
    rewrite (flag_at_mput _ _ _ Hwf) by (auto; apply Hr; lia). rewrite Hne by lia.
    apply Hf. lia.
Qed.

(** Clearing the head's flag dequeues. *)
Lemma ring_consume m n st h p q v :
  ring m n st h (p :: q) → is_full (u32 v) = false →
  ring (mflag m st h v) n st (ix n h 1) q.
Proof.
  intros [Hwf Hh Hb Hs Hf] Hv.
  assert (0 < n) by (destruct Hwf; lia).
  assert (zlen (p :: q) = zlen q + 1) as Hc by (unfold zlen; simpl length; lia).
  rewrite Hc in Hb, Hf. pose proof (zlen_nonneg q).
  assert (∀ k, 0 ≤ k < n → 0 ≤ ix n h k < n) as Hr by (intros; by apply ix_range).
  assert (∀ k, 0 < k < n → (h =? ix n h k) = false) as Hne.
  { intros k Hk. apply Z.eqb_neq. intros E.
    rewrite <- (ix_0 n h) in E at 1 by done. apply ix_inj in E; lia. }
  split; auto.
  - by apply mflag_wf.
  - by apply ix_range.
  - lia.
  - intros k r Hk. rewrite <- ix_succ by done.
    replace (Z.of_nat k + 1) with (Z.of_nat (S k)) by lia.
    destruct (Hs (S k) r Hk) as (Hfull & Hslot & Hl2).
    assert (0 < Z.of_nat (S k) < n) as Hkn.
    { apply lookup_lt_Some in Hk. unfold zlen in *. lia. }
    rewrite (flag_at_mflag _ _ _ Hwf), (slot_at_mflag _ _ _ Hwf), (slot_len_mflag _ _ _ Hwf)
      by (auto; apply Hr; lia).
    rewrite Hne by lia. auto.
  - intros k Hk. rewrite <- ix_succ by done.
    destruct (decide (k + 1 = n)) as [->|Hkn].
    + assert (ix n h n = h) as ->.
      { unfold ix. replace (h + n) with (h + 1 * n) by lia.
        rewrite Z.mod_add, Z.mod_small by lia. done. }
      rewrite (flag_at_mflag _ _ _ Hwf) by auto. by rewrite Z.eqb_refl.
    + rewrite (flag_at_mflag _ _ _ Hwf) by (auto; apply Hr; lia).
      rewrite Hne by lia. apply Hf. lia.
Qed.

(** The head packet is what the consumer reads. *)
Lemma ring_head_slot m n st h p q :
  ring m n st h (p :: q) → slot_at m st h = p ∧ slot_len m st h ≤ 2048.
Proof.
  intros [Hwf Hh Hb Hs Hf]. destruct (Hs 0%nat p eq_refl) as (_ & Hslot & Hl2).
  change (Z.of_nat 0) with 0 in *. by rewrite ix_0 in Hslot, Hl2 by done.
Qed.

(** The representation does not depend on the stream's own index. *)
Lemma ring_advance m n st h q : ring m n st h q → ring m n (advance n st) h q.
Proof.
  intros [Hwf Hh Hb Hs Hf]. split; auto. by apply advance_wf.
Qed.

End Ring.
