(* ===== verification/Ghost.v ===== *)
(** * Ghosting mode

    Without hardware the driver makes its TX and RX streams point to one
    region, and the four interfaces become two crossed cables.  This file has
    [enable_ghosting] and [disable_ghosting] and the refinement theorem: the
    transmit and poll functions together implement a bounded FIFO queue that
    carries every accepted packet to the neighbouring interface. *)

From S2P Require Import Prelude Mem Occp Opcode Kernel Packet Stream Xmit Poll Ring.

Section Ghost.
Context `{Kernel}.

Definition kmalloc (n : Z) : M Z :=
  va <- call (λ tr, k_kmalloc tr n) (EvKmalloc n) ;;
  if va =? 0 then ret 0
  else modify (λ s, set_ram (alloc (ram s) va n) s) ;; ret va.

Definition kfree (va : Z) : M unit :=
  emit (EvKfree va) ;; modify (λ s, set_ram (free (ram s) va) s).

(** [for(...; dma_cpu_bufs >= MIN_DMA_CPU_BUFS; dma_cpu_bufs /= 2)] *)
Fixpoint ghost_alloc (fuel : nat) : M unit :=
  match fuel with
  | O => out_of_fuel
  | S fuel =>
      n <- get dma_cpu_bufs ;;
      if n <? MIN_DMA_CPU_BUFS then ret tt
      else
        modify (set_dma_region_size (region_size n)) ;;
        va <- kmalloc (region_size n) ;;
        modify (set_rx_dma_reg_va va) ;;
        if va =? 0 then modify (set_dma_cpu_bufs (n / 2)) ;; ghost_alloc fuel
        else ret tt
  end.

(** [DMA_CPU_BUFS] is 2^15: sixteen sizes are tried before the loop ends. *)
Definition alloc_fuel : nat := 17.

Definition start_poll_timer : M unit :=
  now <- ask k_jiffies ;;
  modify (set_timer_expires (u64 (now + RX_POLL_INTERVAL))) ;;
  e <- get timer_expires ;;
  emit (EvAddTimer e).

Definition enable_ghosting : M Z :=
  modify (set_dma_cpu_bufs DMA_CPU_BUFS) ;;
  ghost_alloc alloc_fuel ;;
  va <- get rx_dma_reg_va ;;
  if va =? 0 then ret (-1)
  else
    modify (set_tx_dma_reg_va va) ;;
    n <- get dma_cpu_bufs ;;
    modify (λ s, set_rx_dma_stream (stream_pointers va n (doorbell (rx_dma_stream s))) s) ;;
    rx <- get rx_dma_stream ;;
    wr (flags rx) (replicate (Z.to_nat (n * 4)) (u8 0)) ;;
    modify (λ s, set_tx_dma_stream
      (mkStream (buffers rx) (metadata rx) (flags rx) (doorbell (tx_dma_stream s)) 0) s) ;;
    start_poll_timer ;;
    ret 0.

(** The three pointers become NULL; the doorbells and indexes stay. *)
Definition null_pointers (st : dma_stream) : dma_stream :=
  mkStream 0 0 0 (doorbell st) (buf_index st).

Definition disable_ghosting : M Z :=
  emit EvDelTimer ;;
  va <- get rx_dma_reg_va ;;
  kfree va ;;
  modify (λ s, set_rx_dma_stream (null_pointers (rx_dma_stream s)) s) ;;
  modify (λ s, set_tx_dma_stream (null_pointers (tx_dma_stream s)) s) ;;
  ret 0.

(** Packets handed to the network stack, oldest first. *)
Fixpoint received (tr : list event) : list (Z * list Z) :=
  match tr with
  | [] => []
  | EvReceive p data _ _ :: tr => received tr ++ [(p, data)]
  | _ :: tr => received tr
  end.

(** ** The allocation loop *)

Lemma kmalloc_run n s :
  kmalloc n s =
  let va := k_kmalloc (trace s) n in
  let s := set_trace (EvKmalloc n va :: trace s) s in
  Ok va (if va =? 0 then s else set_ram (alloc (ram s) va n) s).
Proof.
  unfold kmalloc. step idtac.
  destruct (Z.eqb_spec (k_kmalloc (trace s) n) 0) as [E|E]; [by rewrite E|done].
Qed.

(** Whatever the allocator answers, the loop ends: with a region for [2^i]
    buffers, or with no region after every size failed. *)
Lemma ghost_alloc_total j fuel s :
  dma_cpu_bufs s = 2 ^ Z.of_nat j → (j + 1 < fuel)%nat →
  ∃ s', ghost_alloc fuel s = Ok tt s' ∧
    nf10_netdevs s' = nf10_netdevs s ∧ netdevs s' = netdevs s ∧
    rx_dma_stream s' = rx_dma_stream s ∧ tx_dma_stream s' = tx_dma_stream s ∧
    received (trace s') = received (trace s) ∧
    ((rx_dma_reg_va s' = 0 ∧ dma_cpu_bufs s' = 0) ∨
     (rx_dma_reg_va s' ≠ 0 ∧ ∃ i, (i ≤ j)%nat ∧ dma_cpu_bufs s' = 2 ^ Z.of_nat i ∧
        (rx_dma_reg_va s', region_size (2 ^ Z.of_nat i)) ∈ m_live (ram s'))).
Proof.
  revert fuel s. induction j as [|j IH]; intros [|fuel] s Hn Hf; try lia; simpl.
  all: step idtac; rewrite Hn;
    (match goal with |- context [?a <? MIN_DMA_CPU_BUFS] =>
       assert (0 < a) by (apply Z.pow_pos_nonneg; lia);
       unfold MIN_DMA_CPU_BUFS; decide_test (a <? 1) false end);
    step idtac; erewrite bind_ok by apply kmalloc_run; simpl;
    (match goal with |- context [k_kmalloc ?t ?m =? 0] => set (va := k_kmalloc t m) end);
    step idtac; destruct (Z.eqb_spec va 0) as [Hz|Hz].
  2, 4: eexists; split; [done|]; simpl; do 5 (split; [done|]); right; split; [done|].
  2: exists 0%nat; repeat split; [lia|done|apply list_elem_of_here].
  2: exists (S j); repeat split; [lia|done|apply list_elem_of_here].
  - step idtac. destruct fuel as [|fuel]; [lia|]. simpl. step idtac.
    eexists; split; [done|]; simpl; do 5 (split; [done|]). by left.
  - step idtac.
    match goal with |- context [ghost_alloc fuel ?s1] =>
      destruct (IH fuel s1) as (s' & Hrun & Hnn & Hnd & Hrx & Htx & Hout & Hcase) end.
    { simpl. rewrite Nat2Z.inj_succ, Z.pow_succ_r by lia.
      rewrite Z.mul_comm, Z.div_mul by lia. done. }
    { lia. }
    exists s'. split; [exact Hrun|]. do 5 (split; [done|]).
    destruct Hcase as [Hc|(Hne & i & Hi & Hc)]; [by left|right].
    split; [done|]. exists i. split; [lia|done].
Qed.

(** ** The abstract machine: a bounded queue and what was delivered *)

Record wire := mkWire {
  w_queue : list (Z * list Z);       (** accepted, not yet polled: destination, bytes *)
  w_out : list (Z * list Z);         (** delivered: interface pointer, bytes *)
}.

(** The other end of the cable of interface [i]. *)
Definition peer (i : Z) : Z := if Z.even i then i + 1 else i - 1.

(** Interface [i] sends: the frame joins the queue, for the interface at the
    other end, unless it is too long or the queue is full. *)
Definition wire_xmit (n i : Z) (skb : sk_buff) (w : wire) : wire :=
  if DMA_BUF_SIZE <? skb_len skb then w
  else if zlen (w_queue w) <? n then
    mkWire (w_queue w ++ [(peer i, take (Z.to_nat (skb_len skb)) (crossed (skb_data skb)))]) (w_out w)
  else w.

(** Where a frame of the queue goes: to the [net_device] of its destination. *)
Definition wire_target (ptrs : list Z) (p : Z * list Z) : option (Z * list Z) :=
  Some (nth (Z.to_nat p.1) ptrs 0, p.2).

(** ** The refinement relation *)

#[local] Existing Instance rx_polarity.

(** The slot that holds a frame: its bytes, and an opcode with its destination. *)
Definition slot_of (p : Z * list Z) : packet := (p.2, rx_set_dst_iface 0 p.1).

Record ghost_rel (s : drv) (w : wire) : Prop := {
  gr_ring : ring (ram s) (dma_cpu_bufs s) (rx_dma_stream s)
              (buf_index (rx_dma_stream s)) (map slot_of (w_queue w));
  gr_buffers : buffers (tx_dma_stream s) = buffers (rx_dma_stream s);
  gr_metadata : metadata (tx_dma_stream s) = metadata (rx_dma_stream s);
  gr_flags : flags (tx_dma_stream s) = flags (rx_dma_stream s);
  gr_tail : buf_index (tx_dma_stream s) =
            ix (dma_cpu_bufs s) (buf_index (rx_dma_stream s)) (zlen (w_queue w));
  gr_netdevs : netdevs_wf s;
  gr_01 : ∀ j, 0 ≤ j < dma_cpu_bufs s →
    flag_at (ram s) (rx_dma_stream s) j = 0 ∨ flag_at (ram s) (rx_dma_stream s) j = 1;
  gr_dst : Forall (λ p, 0 ≤ p.1 < 4) (w_queue w);
  gr_out : received (trace s) = w_out w;
}.

Lemma ghost_tx_wf s w :
  ghost_rel s w → stream_wf (ram s) (dma_cpu_bufs s) (tx_dma_stream s).
Proof.
  intros [Hr Hb Hm Hf Ht _ _ _ _]. pose proof (r_wf _ _ _ _ _ Hr) as [Hn Hi Hmd Hfl Hl].
  split; rewrite ?Hb, ?Hm, ?Hf; auto. rewrite Ht. apply ix_range. lia.
Qed.

(** The slots of the two streams are the same memory. *)
Lemma ghost_same_slots s w i :
  ghost_rel s w →
  buf_addr (tx_dma_stream s) i = buf_addr (rx_dma_stream s) i ∧
  (∀ f, meta_addr (tx_dma_stream s) i f = meta_addr (rx_dma_stream s) i f) ∧
  flag_addr (tx_dma_stream s) i = flag_addr (rx_dma_stream s) i.
Proof.
  intros [_ Hb Hm Hf _ _ _ _ _]. unfold buf_addr, meta_addr, flag_addr.
  rewrite Hb, Hm, Hf. done.
Qed.

Lemma ghost_same_mput s w i bs op fl :
  ghost_rel s w →
  mput (ram s) (tx_dma_stream s) i bs op fl = mput (ram s) (rx_dma_stream s) i bs op fl.
Proof.
  intros Hrel. destruct (ghost_same_slots s w i Hrel) as (Hb & Hm & Hf).
  unfold mput. by rewrite Hb, !Hm, Hf.
Qed.

Lemma netdevs_wf_insert s s' p d :
  netdevs_wf s → nf10_netdevs s' = nf10_netdevs s →
  netdevs s' = <[p := d]> (netdevs s) → netdevs_wf s'.
Proof.
  intros [Hl Hn Hd] E1 E2. split; rewrite ?E1, ?E2; auto.
  intros q Hq. rewrite lookup_insert. case_decide; eauto.
Qed.

Lemma op_of_iface i : 0 ≤ i < 4 →
  0 ≤ rx_set_dst_iface 0 i < 2 ^ 32 ∧ rx_get_dst_iface (rx_set_dst_iface 0 i) = i.
Proof.
  intros Hi.
  assert (i = 0 ∨ i = 1 ∨ i = 2 ∨ i = 3) as [-> | [-> | [-> | ->] ] ] by lia; done.
Qed.

Lemma peer_lxor i : 0 ≤ i < 4 → Z.lxor i 1 = peer i ∧ 0 ≤ peer i < 4.
Proof.
  intros Hi.
  assert (i = 0 ∨ i = 1 ∨ i = 2 ∨ i = 3) as [-> | [-> | [-> | ->] ] ] by lia; done.
Qed.

Lemma zlen_slots (q : list (Z * list Z)) : zlen (map slot_of q) = zlen q.
Proof. unfold zlen. by rewrite length_map. Qed.

(** ** [enable_ghosting] establishes the relation, with an empty queue *)

Lemma ring_empty m n st :
  stream_wf m n st → (∀ j, 0 ≤ j < n → flag_at m st j = 0) →
  ring m n st (buf_index st) [].
Proof.
  intros Hwf Hfl. pose proof (wf_bufs _ _ _ Hwf) as Hn.
  split; auto; [apply Hwf|unfold zlen; simpl; lia|done|].
  intros k Hk. simpl. rewrite Hfl; [done|]. apply ix_range. lia.
Qed.

Lemma pow2_bufs i : (i ≤ 15)%nat → 1 ≤ 2 ^ Z.of_nat i ≤ DMA_CPU_BUFS.
Proof.
  intros Hi. change DMA_CPU_BUFS with (2 ^ 15).
  split; [|apply Z.pow_le_mono_r; lia].
  change 1 with (2 ^ 0). apply Z.pow_le_mono_r; lia.
Qed.

Lemma memset_flags_zero m n st :
  stream_wf m n st →
  ∀ j, 0 ≤ j < n → flag_at (upd m (flags st) (replicate (Z.to_nat (n * 4)) (u8 0))) st j = 0.
Proof.
  intros Hwf j Hj. unfold flag_at, flag_addr. by rewrite word_at_memset by lia.
Qed.

Lemma enable_ghosting_cases s :
  netdevs_wf s →
  ∃ r s', enable_ghosting s = Ok r s' ∧
    nf10_netdevs s' = nf10_netdevs s ∧ netdevs s' = netdevs s ∧
    ((r = -1 ∧ rx_dma_reg_va s' = 0) ∨
     (r = 0 ∧ ghost_rel s' (mkWire [] (received (trace s))) ∧
      ∃ i, (i ≤ 15)%nat ∧ dma_cpu_bufs s' = 2 ^ Z.of_nat i)).
Proof.
  intros Hnd. unfold enable_ghosting. step idtac.
  destruct (ghost_alloc_total 15 alloc_fuel (set_dma_cpu_bufs DMA_CPU_BUFS s))
    as (s1 & Hrun & Hnn & Hnds & Hrx & Htx & Hout & Hcase); [done|unfold alloc_fuel; lia|].
  erewrite bind_ok by exact Hrun. simpl in *. step idtac.
  destruct Hcase as [[Hva Hn]|(Hva & i & Hi & Hn & Hlive)].
  { rewrite Hva. do 2 eexists. do 3 (split; [done|]). by left. }
  pose proof (pow2_bufs i Hi) as Hb.
  rewrite (proj2 (Z.eqb_neq _ _) Hva). steps idtac. rewrite Hn.
  pose proof (stream_pointers_wf (ram s1) (rx_dma_reg_va s1) (2 ^ Z.of_nat i)
    (doorbell (rx_dma_stream s1)) Hb Hlive) as Hwf.
  pose proof (memset_flags_zero _ _ _ Hwf) as Hz.
  step ltac:(unfold zlen; rewrite length_replicate; destruct Hwf as [_ _ _ Hfl Hl];
             simpl in Hfl, Hl; eapply valid_region; [exact Hl| |]; lia).
  unfold start_poll_timer. steps idtac.
  do 2 eexists. do 3 (split; [done|]). right. split; [done|]. split; [|eauto].
  split; simpl; auto; rewrite ?Hn; auto.
  - apply ring_empty; [by apply stream_wf_upd|done].
  - split; simpl; rewrite ?Hnn, ?Hnds; apply Hnd.
Qed.

(** ** Transmission refines [wire_xmit] *)

Lemma ghost_sent_rel s w p d bs j :
  ghost_rel s w → 0 ≤ j < 4 → zlen bs ≤ 2048 → zlen (w_queue w) < dma_cpu_bufs s →
  ghost_rel (ghost_sent p d bs (rx_set_dst_iface 0 j) s) (mkWire (w_queue w ++ [(j, bs)]) (w_out w)).
Proof.
  intros Hrel Hj Hbs Hroom. destruct (op_of_iface j Hj) as [Hop _].
  pose proof (gr_ring s w Hrel) as Hring. pose proof (r_wf _ _ _ _ _ Hring) as Hwf.
  pose proof (zlen_nonneg (w_queue w)).
  assert (0 ≤ buf_index (tx_dma_stream s) < dma_cpu_bufs s) as Hidx
    by apply (ghost_tx_wf s w Hrel).
  pose proof (wf_bufs _ _ _ Hwf) as Hn.
  split; simpl; rewrite ?(ghost_same_mput s w) by done; try by destruct Hrel.
  - rewrite (gr_tail s w Hrel), map_app, <- zlen_slots.
    apply (ring_produce _ _ _ _ _ bs _ Hring); [by rewrite zlen_slots|done..].
  - rewrite next_index_val by done. fold (ix (dma_cpu_bufs s) (buf_index (tx_dma_stream s)) 1).
    rewrite (gr_tail s w Hrel), ix_ix, zlen_app by lia. done.
  - eapply netdevs_wf_insert; [apply (gr_netdevs s w Hrel)|done|done].
  - intros k Hk. rewrite (flag_at_mput _ _ _ Hwf) by auto.
    destruct (_ =? k); [by right|by apply (gr_01 s w Hrel)].
  - apply Forall_app. split; [apply (gr_dst s w Hrel)|]. by constructor.
Qed.

(** A frame the network stack may pass: its headers and its [skb_len] bytes are
    in the buffer. *)
Definition skb_frame (skb : sk_buff) : Prop :=
  0 ≤ skb_len skb < 2 ^ 32 ∧ skb_len skb ≤ zlen (skb_data skb) ∧ frame_ok (skb_data skb).

Lemma skb_frame_bytes skb :
  skb_frame skb →
  ghost_bytes_of skb = Some (take (Z.to_nat (skb_len skb)) (crossed (skb_data skb))).
Proof.
  intros (_ & Hl & Hok). unfold ghost_bytes_of. rewrite switcharoo_crossed by done. simpl.
  rewrite zlen_crossed. by decide_test (zlen (skb_data skb) <? skb_len skb) false.
Qed.

Lemma ghost_xmit_refines s w i p skb :
  ghost_rel s w → iface_of s i p → skb_frame skb →
  ∃ s', nf10_ghost_xmit skb p s = Ok NETDEV_TX_OK s' ∧
        ghost_rel s' (wire_xmit (dma_cpu_bufs s) i skb w) ∧
        skb_answers (trace s') = skb_answers (trace s) ∧
        dma_cpu_bufs s' = dma_cpu_bufs s ∧ nf10_netdevs s' = nf10_netdevs s.
Proof.
  intros Hrel Hi Hskb. pose proof (skb_frame_bytes skb Hskb) as Hbs. destruct Hskb as [Hlen _].
  unfold wire_xmit, DMA_BUF_SIZE.
  assert (is_Some (netdevs s !! p)) as [d Hd].
  { apply (nw_live s (gr_netdevs s w Hrel)). eapply list_elem_of_lookup_2, Hi. }
  destruct (Z.ltb_spec 2048 (skb_len skb)) as [Hlong|Hshort].
  { eexists. split; [apply ghost_xmit_too_long; [done|unfold DMA_BUF_SIZE; lia]|].
    split; [|done]. destruct Hrel. split; auto. by eapply netdevs_wf_insert. }
  pose proof (ghost_tx_wf s w Hrel) as Htx.
  pose proof (gr_ring s w Hrel) as Hring.
  pose proof (ring_tail_full _ _ _ _ _ Hring) as Hfull. rewrite zlen_slots in Hfull.
  rewrite <- (gr_tail s w Hrel) in Hfull. simpl in Hfull.
  assert (flag_at (ram s) (rx_dma_stream s) (buf_index (tx_dma_stream s)) =
          flag_at (ram s) (tx_dma_stream s) (buf_index (tx_dma_stream s))) as Hsame.
  { unfold flag_at. by destruct (ghost_same_slots s w (buf_index (tx_dma_stream s)) Hrel)
      as (_ & _ & ->). }
  pose proof (r_bound _ _ _ _ _ Hring) as Hbound. rewrite zlen_slots in Hbound. rewrite Hsame in Hfull.
  pose proof (gr_netdevs s w Hrel) as Hnd. destruct (peer_lxor i (proj1 Hi)) as [Hpeer Hj].
  destruct (Z.ltb_spec (zlen (w_queue w)) (dma_cpu_bufs s)) as [Hroom|Hno].
  - rewrite (proj2 (Z.eqb_neq (zlen (w_queue w)) (dma_cpu_bufs s))) in Hfull by lia.
    apply Z.eqb_neq in Hfull.
    eexists. split; [eapply ghost_xmit_sent; eauto; unfold DMA_BUF_SIZE; lia|].
    split; [|done]. rewrite Hpeer. apply ghost_sent_rel; auto.
    rewrite (ghost_bytes_len skb) by (eauto; unfold DMA_BUF_SIZE; lia). lia.
  - rewrite (proj2 (Z.eqb_eq (zlen (w_queue w)) (dma_cpu_bufs s))) in Hfull by lia.
    apply Z.eqb_eq in Hfull.
    eexists. split; [eapply ghost_xmit_full; eauto; unfold DMA_BUF_SIZE; lia|].
    split; [|done]. destruct Hrel. split; auto. by eapply netdevs_wf_insert.
Qed.

(** ** Polling refines [polls] *)

Section GhostPoll.
Context (Hghost : DRIVER_GHOST = true).

Lemma received_bell st tr : received (bell st ++ tr) = received tr.
Proof. unfold bell. by rewrite Hghost. Qed.

(** Releasing the head slot keeps the rest of the relation. *)
Lemma ghost_released_rel s s' p q out out' :
  ghost_rel s (mkWire (p :: q) out) →
  ram s' = ram (released s) → rx_dma_stream s' = rx_dma_stream (released s) →
  tx_dma_stream s' = tx_dma_stream s → dma_cpu_bufs s' = dma_cpu_bufs s → netdevs_wf s' →
  received (trace s') = out' → ghost_rel s' (mkWire q out').
Proof.
  intros [Hring Hb Hm Hf Ht _ H01 Hdst _] Er Erx Et En Hnd Hout. simpl in *.
  pose proof (r_wf _ _ _ _ _ Hring) as Hwf. pose proof (wf_bufs _ _ _ Hwf) as Hn.
  pose proof (wf_index _ _ _ Hwf) as Hidx. apply Forall_cons_iff in Hdst as [_ Hq].
  split; simpl; rewrite ?Er, ?Erx, ?Et, ?En; simpl; auto.
  - rewrite next_index_val by done. apply ring_advance. by apply ring_consume with (slot_of p).
  - rewrite Ht, next_index_val by done.
    replace (zlen (p :: q)) with (zlen q + 1) by (unfold zlen; simpl length; lia).
    by rewrite ix_succ by lia.
  - intros j Hj.
    change (flag_at ?m (advance _ _) j) with (flag_at m (rx_dma_stream s) j).
    rewrite (flag_at_mflag _ _ _ Hwf) by auto. destruct (_ =? j); [by left|auto].
Qed.

Lemma ghost_body s p q out n_rx :
  ghost_rel s (mkWire (p :: q) out) →
  ∃ s' ok, poll_body n_rx (buf_index (rx_dma_stream s)) s
        = Ok (if ok : bool then n_rx + 1 else n_rx, buf_index (rx_dma_stream s')) s' ∧
    skb_answers (trace s') = skb_answers (trace s) ++ [ok] ∧
    ghost_rel s' (mkWire q (if ok then out ++ [(nth (Z.to_nat p.1) (nf10_netdevs s) 0, p.2)] else out)) ∧
    dma_cpu_bufs s' = dma_cpu_bufs s ∧ nf10_netdevs s' = nf10_netdevs s.
Proof.
  intros Hrel. pose proof (gr_ring _ _ Hrel) as Hring. simpl in Hring.
  pose proof (r_wf _ _ _ _ _ Hring) as Hwf. pose proof (gr_out _ _ Hrel) as Hout. simpl in Hout.
  destruct (ring_head_slot _ _ _ _ _ _ Hring) as [Hslot Hlen].
  pose proof (gr_dst _ _ Hrel) as Hdst. simpl in Hdst. apply Forall_cons_iff in Hdst as [Hp _].
  destruct (op_of_iface _ Hp) as [_ Hget].
  destruct (iface_lookup s _ (gr_netdevs _ _ Hrel) Hp) as (ptr & d & Hi & Hd).
  assert (doorbell_ok s) as Hdb by (by left).
  destruct (k_dev_alloc_skb (trace s) (slot_len (ram s) (rx_dma_stream s)
    (buf_index (rx_dma_stream s)))) eqn:Hk.
  - exists (body_delivered s ptr d), true. split; [|split; [|split; [|done]]].
    + apply (poll_body_delivered s Hwf Hdb) with p.1; auto; [by rewrite Hslot|].
      apply (valid_buf _ _ _ Hwf); auto. apply Hwf.
    + simpl. by rewrite skb_answers_bell.
    + apply (ghost_released_rel s _ p q out); auto;
        [by eapply netdevs_wf_insert; [apply (gr_netdevs _ _ Hrel)|..]|].
      unfold body_delivered. rewrite Hslot. simpl. rewrite received_bell. simpl. rewrite Hout.
      destruct Hi as [_ Hptr]. by rewrite nth_lookup, Hptr.
  - exists (body_noskb s ptr d), false. split; [|split; [|split; [|done]]].
    + apply (poll_body_no_skb s Hwf Hdb) with p.1; auto. by rewrite Hslot.
    + simpl. by rewrite skb_answers_bell.
    + apply (ghost_released_rel s _ p q out); auto;
        [by eapply netdevs_wf_insert; [apply (gr_netdevs _ _ Hrel)|..]|].
      simpl. by rewrite received_bell.
Qed.

Lemma ghost_loop fuel budget n_rx s q out :
  (length q < fuel)%nat → ghost_rel s (mkWire q out) →
  ∃ k s' ans o rest, poll_loop fuel budget n_rx (buf_index (rx_dma_stream s)) s
          = Ok (k, buf_index (rx_dma_stream s')) s' ∧
    skb_answers (trace s') = skb_answers (trace s) ++ ans ∧
    polls (wire_target (nf10_netdevs s)) (budget - n_rx) q ans o rest ∧
    ghost_rel s' (mkWire rest (out ++ o)) ∧
    dma_cpu_bufs s' = dma_cpu_bufs s ∧ nf10_netdevs s' = nf10_netdevs s.
Proof.
  revert n_rx s q out. induction fuel as [|fuel IH]; intros n_rx s q out Hf Hrel; [lia|].
  pose proof (gr_ring _ _ Hrel) as Hring. simpl in Hring.
  pose proof (r_wf _ _ _ _ _ Hring) as Hwf. simpl poll_loop.
  destruct (Z.ltb_spec n_rx budget) as [Hlt|Hge].
  2: { exists n_rx, s, [], [], q. rewrite !app_nil_r.
       split; [done|]. split; [done|]. split; [constructor; lia|done]. }
  step idtac. step ltac:(apply (valid_flag _ _ _ Hwf); apply Hwf).
  pose proof (ring_head_full _ _ _ _ _ Hring) as Hfull. simpl in Hfull. unfold flag_at in Hfull.
  rewrite Hfull. destruct q as [|p q].
  { rewrite bool_decide_true by done. exists n_rx, s, [], [], []. rewrite !app_nil_r.
    split; [done|]. split; [done|]. split; [constructor|done]. }
  rewrite bool_decide_false by done. cbn [negb]. cbv iota.
  destruct (ghost_body s p q out n_rx Hrel) as (s1 & ok & Hrun & Ha1 & Hrel1 & Hn1 & Hp1).
  erewrite bind_ok by exact Hrun. simpl.
  destruct (IH (if ok then n_rx + 1 else n_rx) s1 q _ ltac:(simpl in Hf; lia) Hrel1)
    as (k & s' & ans & o & rest & Hrun' & Ha' & Hpolls & Hrel' & Hn' & Hp').
  exists k, s', (ok :: ans), (if ok then (nth (Z.to_nat p.1) (nf10_netdevs s) 0, p.2) :: o else o), rest.
  split; [done|]. split; [by rewrite Ha', Ha1, <- app_assoc|]. rewrite Hp1 in Hpolls.
  split; [|split; [|split; congruence]].
  - destruct ok; [eapply PollsDelivered|eapply PollsRefused]; (lia || reflexivity || idtac); [|done].
    by replace (budget - n_rx - 1) with (budget - (n_rx + 1)) by lia.
  - destruct ok; [|done]. by rewrite <- app_assoc in Hrel'.
Qed.

Lemma ghost_rel_frame s s' w :
  ram s' = ram s → rx_dma_stream s' = rx_dma_stream s → tx_dma_stream s' = tx_dma_stream s →
  dma_cpu_bufs s' = dma_cpu_bufs s → nf10_netdevs s' = nf10_netdevs s →
  netdevs s' = netdevs s → received (trace s') = received (trace s) →
  ghost_rel s w → ghost_rel s' w.
Proof.
  intros E1 E2 E3 E4 E5 E6 E7 [].
  split; rewrite ?E1, ?E2, ?E3, ?E4, ?E7; auto. destruct gr_netdevs0.
  split; rewrite ?E5, ?E6; auto.
Qed.

Lemma ghost_poll_refines s w budget :
  ghost_rel s w →
  ∃ r s' ans o rest, nf10_napi_struct_poll budget s = Ok r s' ∧
    skb_answers (trace s') = skb_answers (trace s) ++ ans ∧
    polls (wire_target (nf10_netdevs s)) budget (w_queue w) ans o rest ∧
    ghost_rel s' (mkWire rest (w_out w ++ o)) ∧
    dma_cpu_bufs s' = dma_cpu_bufs s ∧ nf10_netdevs s' = nf10_netdevs s.
Proof.
  destruct w as [q out]. intros Hrel.
  pose proof (gr_ring _ _ Hrel) as Hring. simpl in Hring.
  pose proof (r_bound _ _ _ _ _ Hring) as Hb. rewrite zlen_slots in Hb.
  unfold nf10_napi_struct_poll. step idtac. step idtac.
  rewrite rx_index_small by apply Hring.
  destruct (ghost_loop (S (Z.to_nat (dma_cpu_bufs s))) budget 0 s q out)
    as (k & s' & ans & o & rest & Hrun & Ha & Hpolls & Hrel' & Hn' & Hp');
    [unfold zlen in Hb; lia|done|].
  rewrite Z.sub_0_r in Hpolls.
  erewrite bind_ok by exact Hrun. simpl. step idtac.
  pose proof (r_wf _ _ _ _ _ (gr_ring _ _ Hrel')) as Hwf'.
  step ltac:(apply (valid_flag _ _ _ Hwf'); apply Hwf').
  destruct (_ =? 0).
  - steps idtac. do 2 eexists. exists ans, o, rest. do 3 (split; [done|]).
    split; [|done]. by apply (ghost_rel_frame s').
  - by exists k, s', ans, o, rest.
Qed.

(** ** Sequences of operations *)

Inductive ghost_op :=
  | GXmit (i : Z) (skb : sk_buff)      (** interface [i] sends a packet *)
  | GPoll (budget : Z).                (** NAPI calls the poll function *)

Definition run_op (o : ghost_op) : M unit :=
  match o with
  | GXmit i skb => p <- netdev_ptr i ;; _ <- nf10_ghost_xmit skb p ;; ret tt
  | GPoll b => _ <- nf10_napi_struct_poll b ;; ret tt
  end.

Fixpoint run_ops (os : list ghost_op) : M unit :=
  match os with
  | [] => ret tt
  | o :: os => run_op o ;; run_ops os
  end.

Definition op_ok (o : ghost_op) : Prop :=
  match o with GXmit i skb => 0 ≤ i < 4 ∧ skb_frame skb | GPoll b => 0 ≤ b end.

(** The wire's steps, with the answers of [dev_alloc_skb] that each consumes. *)
Inductive wire_step (n : Z) (ptrs : list Z) : wire → ghost_op → list bool → wire → Prop :=
  | WireXmit w i skb : wire_step n ptrs w (GXmit i skb) [] (wire_xmit n i skb w)
  | WirePoll w b ans o rest :
      polls (wire_target ptrs) b (w_queue w) ans o rest →
      wire_step n ptrs w (GPoll b) ans (mkWire rest (w_out w ++ o)).

Inductive wire_run (n : Z) (ptrs : list Z) : wire → list ghost_op → list bool → wire → Prop :=
  | WireNil w : wire_run n ptrs w [] [] w
  | WireCons w o ans w1 os anss w2 :
      wire_step n ptrs w o ans w1 → wire_run n ptrs w1 os anss w2 →
      wire_run n ptrs w (o :: os) (ans ++ anss) w2.

Lemma run_op_refines s w o :
  ghost_rel s w → op_ok o →
  ∃ s' ans w', run_op o s = Ok tt s' ∧ skb_answers (trace s') = skb_answers (trace s) ++ ans ∧
    wire_step (dma_cpu_bufs s) (nf10_netdevs s) w o ans w' ∧ ghost_rel s' w' ∧
    dma_cpu_bufs s' = dma_cpu_bufs s ∧ nf10_netdevs s' = nf10_netdevs s.
Proof.
  intros Hrel Hok. destruct o as [i skb|b]; simpl in *.
  - destruct Hok as [Hi Hskb].
    destruct (iface_lookup s i (gr_netdevs _ _ Hrel) Hi) as (p & d & Hp & _).
    destruct (ghost_xmit_refines s w i p skb Hrel Hp Hskb) as (s' & Hrun & Hrel' & Ha & Hn & Hnd).
    eexists s', [], _. erewrite bind_ok by (eapply netdev_ptr_ok; [done|apply Hp]).
    erewrite bind_ok by exact Hrun. rewrite app_nil_r.
    split; [done|]. split; [done|]. split; [constructor|done].
  - destruct (ghost_poll_refines s w b Hrel)
      as (r & s' & ans & o & rest & Hrun & Ha & Hpolls & Hrel' & Hn & Hnd).
    eexists s', ans, _. erewrite bind_ok by exact Hrun.
    split; [done|]. split; [done|]. split; [by constructor|done].
Qed.

Lemma run_ops_refines os s w :
  ghost_rel s w → Forall op_ok os →
  ∃ s' ans w', run_ops os s = Ok tt s' ∧ skb_answers (trace s') = skb_answers (trace s) ++ ans ∧
    wire_run (dma_cpu_bufs s) (nf10_netdevs s) w os ans w' ∧ ghost_rel s' w'.
Proof.
  revert s w. induction os as [|o os IH]; intros s w Hrel Hok; simpl.
  - exists s, [], w. rewrite app_nil_r. repeat (split; [done|]). split; [constructor|done].
  - apply Forall_cons_iff in Hok as [Ho Hos].
    destruct (run_op_refines s w o Hrel Ho) as (s1 & a1 & w1 & Hrun & Ha1 & Hs1 & Hrel1 & Hn1 & Hp1).
    destruct (IH s1 w1 Hrel1 Hos) as (s' & a' & w' & Hrun' & Ha' & Hs' & Hrel').
    rewrite Hn1, Hp1 in Hs'. exists s', (a1 ++ a'), w'. erewrite bind_ok by exact Hrun.
    split; [done|]. split; [by rewrite Ha', Ha1, <- app_assoc|]. split; [by econstructor|done].
Qed.

End GhostPoll.

End Ghost.
