(* ===== verification/Genl.v ===== *)
(** * Generic netlink commands

    The handlers of the driver's generic netlink family: echo, DMA transmit
    and receive, register read and write, and control of the polling timer.
    Message construction and delivery are the kernel's; a reply is the list of
    attributes that were added to it. *)

From S2P Require Import Prelude Mem Occp Kernel Packet Stream Ghost.

(** ** [nf10_genl.h] *)

Definition NF10_GENL_FAMILY_VERSION : Z := 1.

Definition NF10_GENL_A_UNSPEC : Z := 0.
Definition NF10_GENL_A_MSG : Z := 1.
Definition NF10_GENL_A_DMA_BUF : Z := 2.
Definition NF10_GENL_A_ADDR32 : Z := 3.
Definition NF10_GENL_A_REGVAL32 : Z := 4.
Definition NF10_GENL_A_OPCODE : Z := 5.
Definition NF10_GENL_A_ERRNO : Z := 6.
Definition NF10_GENL_A_MAX : Z := 6.

Definition NF10_GENL_C_UNSPEC : Z := 0.
Definition NF10_GENL_C_ECHO : Z := 1.
Definition NF10_GENL_C_DMA_TX : Z := 2.
Definition NF10_GENL_C_DMA_RX : Z := 3.
Definition NF10_GENL_C_REG_RD : Z := 4.
Definition NF10_GENL_C_REG_WR : Z := 5.
Definition NF10_GENL_C_NAPI_ENABLE : Z := 6.
Definition NF10_GENL_C_NAPI_DISABLE : Z := 7.

(** An attribute of a received message: [nla_len] and the bytes from
    [nla_data] to the end of the message buffer ([None] for a NULL pointer). *)
Record nlattr := mkAttr {
  nla_data : option (list Z);
  nla_len : Z;
}.

(** [struct genl_info]: the table of attributes by type. *)
Definition genl_info := Z → option nlattr.

(** A reply under construction. *)
Definition attrs := list (Z * list Z).

(** The NUL-terminated string at the start of [bs], with its NUL. *)
Fixpoint c_string (bs : list Z) : option (list Z) :=
  match bs with
  | [] => None
  | b :: bs => if b =? 0 then Some [0] else cons b <$> c_string bs
  end.

Lemma c_string_app str rest :
  Forall (λ b, b ≠ 0) str → c_string (str ++ 0 :: rest) = Some (str ++ [0]).
Proof.
  induction 1 as [|b str Hb _ IH]; [done|]. simpl.
  rewrite (proj2 (Z.eqb_neq b 0)) by done. by rewrite IH.
Qed.

Section Genl.
Context `{Kernel}.

Definition genlmsg_new : M bool := call k_genlmsg_new EvGenlNew.

Definition genlmsg_put_reply (cmd : Z) : M bool :=
  call k_genlmsg_put_reply (EvGenlPutReply cmd).

(** [nla_put]: the kernel checks the room in the message first and copies
    the data only on success. *)
Definition nla_put_from (ty len : Z) (src : M (list Z)) (a : attrs) : M (Z * attrs) :=
  err <- ask (λ tr, k_nla_put tr ty len) ;;
  if err =? 0 then
    bs <- src ;; emit (EvNlaPut ty bs 0) ;; ret (0, a ++ [(ty, bs)])
  else emit (EvNlaPut ty [] err) ;; ret (err, a).

Definition nla_put_u32 (ty v : Z) (a : attrs) : M (Z * attrs) :=
  nla_put_from ty 4 (ret (le_split 4 (u32 v))) a.

Definition genlmsg_reply (a : attrs) : M Z :=
  call k_genlmsg_reply (EvGenlReply a).

(** [*(uint32_t* )nla_data(na)] *)
Definition attr_u32 (data : list Z) : M Z :=
  bs <- rd_bytes data 4 ;; ret (le_combine bs).

Definition genl_cmd_echo (info : option genl_info) : M Z :=
  match info with
  | None => ret (- EINVAL)
  | Some info =>
      match info NF10_GENL_A_MSG with
      | None => ret 0
      | Some na =>
          match nla_data na with
          | None => ret 0
          | Some msg =>
              ok <- genlmsg_new ;;
              if negb ok then ret (- ENOMEM)
              else
                ok <- genlmsg_put_reply NF10_GENL_C_ECHO ;;
                if negb ok then ret 0
                else
                  str <- or_fault (c_string msg) ;;
                  r <- nla_put_from NF10_GENL_A_MSG (zlen str) (ret str) [] ;;
                  if negb (r.1 =? 0) then ret r.1
                  else
                    err <- genlmsg_reply r.2 ;;
                    if negb (err =? 0) then ret err else ret 0
          end
      end
  end.

Definition genl_cmd_dma_tx (info : option genl_info) : M Z :=
  match info with
  | None => ret (- EINVAL)
  | Some info =>
      match info NF10_GENL_A_MSG with
      | None => ret 0
      | Some na_msg =>
          match nla_data na_msg with
          | None => ret 0
          | Some msg_data =>
              match info NF10_GENL_A_OPCODE with
              | None => ret 0
              | Some na_opcode =>
                  match nla_data na_opcode with
                  | None => ret 0
                  | Some op_data =>
                      st <- get tx_dma_stream ;;
                      fl <- rd32 (flag_addr st (buf_index st)) ;;
                      if fl =? 0 then ret 0
                      else
                        let msg_len := if DMA_BUF_SIZE <? nla_len na_msg then DMA_BUF_SIZE
                                       else nla_len na_msg in
                        bs <- rd_bytes msg_data msg_len ;;
                        wr (buf_addr st (buf_index st)) bs ;;
                        wr32 (meta_addr st (buf_index st) MD_length) msg_len ;;
                        op <- attr_u32 op_data ;;
                        wr32 (meta_addr st (buf_index st) MD_opCode) op ;;
                        wr32 (flag_addr st (buf_index st)) 0 ;;
                        mmio_wr (doorbell st) 1 ;;
                        modify (λ s, set_tx_dma_stream
                                       (advance (dma_cpu_bufs s) (tx_dma_stream s)) s) ;;
                        ret 0
                  end
              end
          end
      end
  end.

Definition genl_cmd_dma_rx (info : option genl_info) : M Z :=
  match info with
  | None => ret (- EINVAL)
  | Some info =>
      ok <- genlmsg_new ;;
      if negb ok then ret (- ENOMEM)
      else
        ok <- genlmsg_put_reply NF10_GENL_C_DMA_RX ;;
        if negb ok then ret 0
        else
          st <- get rx_dma_stream ;;
          fl <- rd32 (flag_addr st (buf_index st)) ;;
          r <- (if fl =? 1 then
                  len <- rd32 (meta_addr st (buf_index st) MD_length) ;;
                  r <- nla_put_from NF10_GENL_A_DMA_BUF (s32 len)
                         (rd (buf_addr st (buf_index st)) len) [] ;;
                  if negb (r.1 =? 0) then ret r
                  else
                    op <- rd32 (meta_addr st (buf_index st) MD_opCode) ;;
                    r <- nla_put_u32 NF10_GENL_A_OPCODE op r.2 ;;
                    if negb (r.1 =? 0) then ret r
                    else
                      wr32 (flag_addr st (buf_index st)) 0 ;;
                      mmio_wr (doorbell st) 1 ;;
                      modify (λ s, set_rx_dma_stream
                                     (advance (dma_cpu_bufs s) (rx_dma_stream s)) s) ;;
                      ret r
                else ret (0, [])) ;;
          if negb (r.1 =? 0) then ret r.1
          else
            err <- genlmsg_reply r.2 ;;
            if negb (err =? 0) then ret err else ret 0
  end.

(** The code after the label [send_error] of the register commands. *)
Definition send_error (err : Z) (a : attrs) : M Z :=
  r <- nla_put_u32 NF10_GENL_A_ERRNO err a ;;
  if negb (r.1 =? 0) then ret r.1
  else
    err <- genlmsg_reply r.2 ;;
    if negb (err =? 0) then ret err else ret 0.

(** The data of an attribute that must be present and have data. *)
Definition need_attr (info : genl_info) (ty : Z) : option (list Z) :=
  na ← info ty; nla_data na.

Definition page_addr (s : drv) : Z := nf10_ctrl s + offsetof W_pageWindow OccpWorkerRegisters.

Definition reg_addr_page (reg_addr : Z) : Z := reg_addr / OCCP_WORKER_CONFIG_SIZE.
Definition reg_addr_offset (reg_addr : Z) : Z := reg_addr mod OCCP_WORKER_CONFIG_SIZE.

(** [nf10_regs[offset >> 2]] *)
Definition reg_slot (s : drv) (offset : Z) : Z := nf10_regs s + 4 * Z.shiftr offset 2.

Definition genl_cmd_reg_rd (info : option genl_info) : M Z :=
  match info with
  | None => ret (- EINVAL)
  | Some info =>
      ok <- genlmsg_new ;;
      if negb ok then ret (- ENOMEM)
      else
        ok <- genlmsg_put_reply NF10_GENL_C_REG_RD ;;
        if negb ok then ret 0
        else
          match need_attr info NF10_GENL_A_ADDR32 with
          | None => send_error (-1) []
          | Some addr =>
              reg_addr <- attr_u32 addr ;;
              let page := reg_addr_page reg_addr in
              let offset := reg_addr_offset reg_addr in
              if negb (offset mod 4 =? 0) then send_error (-1) []
              else
                pw <- get page_addr ;;
                mmio_wr pw page ;;
                emit EvMb ;;
                slot <- get (λ s, reg_slot s offset) ;;
                reg_val <- mmio_rd slot ;;
                r <- nla_put_u32 NF10_GENL_A_REGVAL32 reg_val [] ;;
                send_error r.1 r.2
          end
  end.

Definition genl_cmd_reg_wr (info : option genl_info) : M Z :=
  match info with
  | None => ret (- EINVAL)
  | Some info =>
      ok <- genlmsg_new ;;
      if negb ok then ret (- ENOMEM)
      else
        ok <- genlmsg_put_reply NF10_GENL_C_REG_WR ;;
        if negb ok then ret 0
        else
          match need_attr info NF10_GENL_A_ADDR32 with
          | None => send_error (-1) []
          | Some addr =>
              match need_attr info NF10_GENL_A_REGVAL32 with
              | None => send_error (-1) []
              | Some val =>
                  reg_addr <- attr_u32 addr ;;
                  let page := reg_addr_page reg_addr in
                  let offset := reg_addr_offset reg_addr in
                  if negb (offset mod 4 =? 0) then send_error (-1) []
                  else
                    reg_val <- attr_u32 val ;;
                    pw <- get page_addr ;;
                    mmio_wr pw page ;;
                    emit EvMb ;;
                    slot <- get (λ s, reg_slot s offset) ;;
                    mmio_wr slot reg_val ;;
                    send_error 0 []
              end
          end
  end.

Definition genl_cmd_napi_enable (info : option genl_info) : M Z :=
  now <- ask k_jiffies ;;
  modify (set_timer_expires (u64 (now + RX_POLL_INTERVAL))) ;;
  emit EvDelTimer ;;
  e <- get timer_expires ;;
  emit (EvAddTimer e) ;;
  ret 0.

Definition genl_cmd_napi_disable (info : option genl_info) : M Z :=
  emit EvDelTimer ;; ret 0.

(** The command table [genl_all_ops]: command numbers and handlers. *)
Definition genl_all_ops : list (Z * (option genl_info → M Z)) :=
  [(NF10_GENL_C_ECHO, genl_cmd_echo);
   (NF10_GENL_C_DMA_TX, genl_cmd_dma_tx);
   (NF10_GENL_C_DMA_RX, genl_cmd_dma_rx);
   (NF10_GENL_C_REG_RD, genl_cmd_reg_rd);
   (NF10_GENL_C_REG_WR, genl_cmd_reg_wr);
   (NF10_GENL_C_NAPI_ENABLE, genl_cmd_napi_enable);
   (NF10_GENL_C_NAPI_DISABLE, genl_cmd_napi_disable)].

(** ** Register addressing *)

Lemma reg_addr_split a :
  reg_addr_page a * OCCP_WORKER_CONFIG_SIZE + reg_addr_offset a = a.
Proof.
  unfold reg_addr_page, reg_addr_offset. pose proof (Z.div_mod a OCCP_WORKER_CONFIG_SIZE).
  unfold OCCP_WORKER_CONFIG_SIZE in *. lia.
Qed.

Lemma reg_addr_offset_range a : 0 ≤ reg_addr_offset a < OCCP_WORKER_CONFIG_SIZE.
Proof. apply Z.mod_pos_bound. done. Qed.

(** The page number of a 32-bit address fits the 12-bit page register. *)
Lemma reg_addr_page_range a : 0 ≤ a < 2 ^ 32 → 0 ≤ reg_addr_page a < 2 ^ 12.
Proof.
  intros Ha. unfold reg_addr_page, OCCP_WORKER_CONFIG_SIZE.
  split; [apply Z.div_pos; lia|]. apply Z.div_lt_upper_bound; lia.
Qed.

Lemma reg_slot_aligned s off : off mod 4 = 0 → reg_slot s off = nf10_regs s + off.
Proof.
  intros Ho. unfold reg_slot. rewrite Z.shiftr_div_pow2 by lia. change (2 ^ 2) with 4.
  pose proof (Z.div_mod off 4). lia.
Qed.

Lemma reg_addr_offset_mod4 a : reg_addr_offset a mod 4 = a mod 4.
Proof.
  unfold reg_addr_offset, OCCP_WORKER_CONFIG_SIZE. apply Z.mod_mod_divide.
  exists 0x40000. done.
Qed.

(** An attribute that carries the 32-bit value [v]. *)
Definition attr_val (bs : list Z) (v : Z) : Prop :=
  ∃ rest, bs = le_split 4 v ++ rest ∧ 0 ≤ v < 2 ^ 32.

Lemma attr_u32_ok bs v s : attr_val bs v → attr_u32 bs s = Ok v s.
Proof.
  intros (rest & -> & Hv). unfold attr_u32, rd_bytes.
  assert ((zlen (le_split 4 v ++ rest) <? 4) = false) as ->.
  { apply Z.ltb_ge. rewrite zlen_app, zlen_le_split. pose proof (zlen_nonneg rest). lia. }
  change (Z.to_nat 4) with 4%nat.
  rewrite take_app_le by (by rewrite length_le_split).
  rewrite take_ge by (by rewrite length_le_split).
  unfold bind, ret. by rewrite le_combine_split4, u32_small by done.
Qed.

(** ** The register commands on each branch

    The kernel functions that build and send the reply succeed; [reply] is
    then what the application receives. *)

Definition reply_ok : Prop :=
  (∀ tr, k_genlmsg_new tr = true) ∧ (∀ tr, k_genlmsg_put_reply tr = true) ∧
  (∀ tr ty len, k_nla_put tr ty len = 0) ∧ (∀ tr, k_genlmsg_reply tr = 0).

(** Events of a register command, newest first: the reply, then the accesses
    to the device, then the construction of the message. *)
Definition err_attr (e : Z) : Z * list Z := (NF10_GENL_A_ERRNO, le_split 4 (u32 e)).

Section Registers.
Context (Hk : reply_ok).

Lemma send_error_run e a s :
  send_error e a s =
  Ok 0 (set_trace (EvGenlReply (a ++ [err_attr e]) 0
                   :: EvNlaPut NF10_GENL_A_ERRNO (le_split 4 (u32 e)) 0 :: trace s) s).
Proof.
  destruct Hk as (_ & _ & Hput & Hrep). unfold send_error, nla_put_u32, nla_put_from.
  step idtac. rewrite Hput. simpl. steps idtac. unfold genlmsg_reply, call.
  steps idtac. rewrite Hrep. done.
Qed.

Definition opened (cmd : Z) (s : drv) : drv :=
  set_trace (EvGenlPutReply cmd true :: EvGenlNew true :: trace s) s.

Local Ltac header :=
  let Hn := fresh in let Hp := fresh in
  pose proof Hk as (Hn & Hp & _ & _);
  unfold genl_cmd_reg_rd, genl_cmd_reg_wr, genlmsg_new, genlmsg_put_reply, call;
  steps idtac; rewrite Hn; simpl; steps idtac; rewrite Hp; simpl.

Lemma reg_rd_no_addr (info : genl_info) s :
  need_attr info NF10_GENL_A_ADDR32 = None →
  genl_cmd_reg_rd (Some info) s = send_error (-1) [] (opened NF10_GENL_C_REG_RD s).
Proof. intros Ha. header. by rewrite Ha. Qed.

Lemma reg_rd_unaligned (info : genl_info) bs addr s :
  need_attr info NF10_GENL_A_ADDR32 = Some bs → attr_val bs addr → addr mod 4 ≠ 0 →
  genl_cmd_reg_rd (Some info) s = send_error (-1) [] (opened NF10_GENL_C_REG_RD s).
Proof.
  intros Ha Hv Hal. header. rewrite Ha. erewrite bind_ok by (by apply attr_u32_ok).
  rewrite reg_addr_offset_mod4. by rewrite (proj2 (Z.eqb_neq _ _) Hal).
Qed.

Lemma reg_rd_run (info : genl_info) bs addr s :
  need_attr info NF10_GENL_A_ADDR32 = Some bs → attr_val bs addr → addr mod 4 = 0 →
  io_valid s (page_addr s) = true → io_valid s (nf10_regs s + reg_addr_offset addr) = true →
  let slot := nf10_regs s + reg_addr_offset addr in
  let tr := EvMb :: EvMmioWr (page_addr s) (reg_addr_page addr)
            :: trace (opened NF10_GENL_C_REG_RD s) in
  let v := k_mmio tr slot in
  genl_cmd_reg_rd (Some info) s =
  Ok 0 (set_trace
          (EvGenlReply [(NF10_GENL_A_REGVAL32, le_split 4 (u32 v)); err_attr 0] 0
           :: EvNlaPut NF10_GENL_A_ERRNO (le_split 4 (u32 0)) 0
           :: EvNlaPut NF10_GENL_A_REGVAL32 (le_split 4 (u32 v)) 0
           :: EvMmioRd slot v :: tr) s).
Proof.
  intros Ha Hv Hal Hpw Hrs. header. rewrite Ha.
  erewrite bind_ok by (by apply attr_u32_ok).
  rewrite reg_addr_offset_mod4, Hal. simpl. step idtac.
  step ltac:(exact Hpw). steps idtac.
  rewrite reg_slot_aligned by (by rewrite reg_addr_offset_mod4). simpl.
  step ltac:(exact Hrs).
  pose proof Hk as (_ & _ & Hput & _). unfold nla_put_u32, nla_put_from.
  steps idtac. rewrite Hput. simpl. steps idtac. by rewrite send_error_run.
Qed.

Lemma reg_wr_run (info : genl_info) bs vs addr val s :
  need_attr info NF10_GENL_A_ADDR32 = Some bs → attr_val bs addr →
  need_attr info NF10_GENL_A_REGVAL32 = Some vs → attr_val vs val → addr mod 4 = 0 →
  io_valid s (page_addr s) = true → io_valid s (nf10_regs s + reg_addr_offset addr) = true →
  genl_cmd_reg_wr (Some info) s =
  Ok 0 (set_trace
          (EvGenlReply [err_attr 0] 0
           :: EvNlaPut NF10_GENL_A_ERRNO (le_split 4 (u32 0)) 0
           :: EvMmioWr (nf10_regs s + reg_addr_offset addr) val
           :: EvMb :: EvMmioWr (page_addr s) (reg_addr_page addr)
           :: trace (opened NF10_GENL_C_REG_WR s)) s).
Proof.
  intros Ha Hv Hw Hvv Hal Hpw Hrs. header. rewrite Ha, Hw.
  erewrite bind_ok by (by apply attr_u32_ok).
  rewrite reg_addr_offset_mod4, Hal. simpl.
  erewrite bind_ok by (by apply attr_u32_ok). step idtac.
  step ltac:(exact Hpw). steps idtac.
  rewrite reg_slot_aligned by (by rewrite reg_addr_offset_mod4). simpl.
  step ltac:(exact Hrs). by rewrite send_error_run.
Qed.

Lemma reg_wr_rejected (info : genl_info) s :
  need_attr info NF10_GENL_A_ADDR32 = None ∨
  need_attr info NF10_GENL_A_REGVAL32 = None ∨
  (∃ bs addr, need_attr info NF10_GENL_A_ADDR32 = Some bs ∧ attr_val bs addr ∧
              addr mod 4 ≠ 0) →
  genl_cmd_reg_wr (Some info) s = send_error (-1) [] (opened NF10_GENL_C_REG_WR s).
Proof.
  intros Hc. header. destruct (need_attr info NF10_GENL_A_ADDR32) as [bs|]; [|done].
  destruct (need_attr info NF10_GENL_A_REGVAL32) as [vs|]; [|done].
  destruct Hc as [?|[?|(bs' & addr & [= <-] & Hv & Hal)]]; [done..|].
  erewrite bind_ok by (by apply attr_u32_ok).
  rewrite reg_addr_offset_mod4. by rewrite (proj2 (Z.eqb_neq _ _) Hal).
Qed.

End Registers.
End Genl.
