(* ===== verification/Probe.v ===== *)
(** * Device initialisation: [probe] and [remove]

    [probe] acquires the PCI device, its register window and two DMA regions,
    resets and starts the OpenCPI workers and programs the two data-plane
    workers with the layout of the DMA regions; every failure releases what
    was acquired.  The long function is split at its comments: mapping the
    device, allocating DMA memory, resetting, initialising, configuring and
    starting the workers. *)

From S2P Require Import Prelude Mem Occp Kernel Packet Stream Xmit Poll Ring Ghost.

Section Probe.
Context `{Kernel}.

(** ** PCI and DMA services *)

(** A [resource_size_t], 64 bits. *)
Definition pci_resource_len : Z := u64 k_pci_resource_len.

Definition pci_ioremap_bar : M Z :=
  va <- call k_pci_ioremap_bar EvIoremap ;;
  (if va =? 0 then ret tt
   else modify (λ s, set_iomap ((va, pci_resource_len) :: iomap s) s)) ;;
  ret va.

Definition iounmap (va : Z) : M unit :=
  emit (EvIounmap va) ;;
  modify (λ s, set_iomap (filter (λ r, r.1 ≠ va) (iomap s)) s).

Definition dma_alloc_coherent (n : Z) : M (Z * Z) :=
  r <- ask (λ tr, k_dma_alloc tr n) ;;
  emit (EvDmaAlloc n r.1 r.2) ;;
  (if r.1 =? 0 then ret tt
   else modify (λ s, set_ram (alloc (ram s) r.1 n) s)) ;;
  ret r.

Definition dma_free_coherent (n va pa : Z) : M unit :=
  emit (EvDmaFree n va pa) ;;
  modify (λ s, set_ram (free (ram s) va) s).

(** [iounmap(bar0_base_va); pci_release_region(...); pci_disable_device(...);] *)
Definition release_bar0 : M unit :=
  va <- get bar0_base_va ;;
  iounmap va ;;
  emit EvReleaseRegion ;;
  emit EvPciDisable.

(** [dma_free_coherent] of the RX and of the TX region. *)
Definition free_regions : M unit :=
  n <- get dma_region_size ;;
  rva <- get rx_dma_reg_va ;; rpa <- get rx_dma_reg_pa ;;
  dma_free_coherent n rva rpa ;;
  tva <- get tx_dma_reg_va ;; tpa <- get tx_dma_reg_pa ;;
  dma_free_coherent n tva tpa.

(** ** Mapping the device: [None], or the error to return *)

Definition probe_map : M (option Z) :=
  modify (λ s, set_hw_state (Z.lor (hw_state s) HW_FOUND) s) ;;
  err <- call k_pci_enable_device EvPciEnable ;;
  if negb (err =? 0) then ret (Some err)
  else
    emit EvPciSetMaster ;;
    err <- call k_pci_request_region EvRequestRegion ;;
    if negb (err =? 0) then emit EvPciDisable ;; ret (Some err)
    else
      va <- pci_ioremap_bar ;;
      modify (set_bar0_base_va va) ;;
      if va =? 0 then emit EvReleaseRegion ;; emit EvPciDisable ;; ret (Some (- ENOMEM))
      else
        modify (set_bar0_size (u32 pci_resource_len)) ;;
        sz <- get bar0_size ;;
        if negb (sizeof_OccpSpace <=? sz) then release_bar0 ;; ret (Some (-1))
        else
          err <- call k_dma_set_mask EvDmaMask ;;
          if negb (err =? 0) then release_bar0 ;; ret (Some err)
          else
            err <- call k_dma_set_coherent_mask EvDmaCoherentMask ;;
            if negb (err =? 0) then release_bar0 ;; ret (Some err)
            else ret None.

(** ** Allocating the two DMA regions *)

Fixpoint probe_alloc (fuel : nat) : M unit :=
  match fuel with
  | O => out_of_fuel
  | S fuel =>
      n <- get dma_cpu_bufs ;;
      if n <? MIN_DMA_CPU_BUFS then ret tt
      else
        modify (set_dma_region_size (region_size n)) ;;
        t <- dma_alloc_coherent (region_size n) ;;
        modify (set_tx_dma_reg_va t.1) ;;
        (if t.1 =? 0 then ret tt else modify (set_tx_dma_reg_pa t.2)) ;;
        if t.1 =? 0 then modify (set_dma_cpu_bufs (n / 2)) ;; probe_alloc fuel
        else
          r <- dma_alloc_coherent (region_size n) ;;
          modify (set_rx_dma_reg_va r.1) ;;
          (if r.1 =? 0 then ret tt else modify (set_rx_dma_reg_pa r.2)) ;;
          if r.1 =? 0 then
            tpa <- get tx_dma_reg_pa ;;
            dma_free_coherent (region_size n) t.1 tpa ;;
            modify (set_dma_cpu_bufs (n / 2)) ;;
            probe_alloc fuel
          else ret tt
  end.

(** ** Worker registers *)

Definition worker_addr (bar w : Z) (f : worker_reg) : Z :=
  bar + occp_worker_off w + offsetof f OccpWorkerRegisters.

Definition config_addr (bar w : Z) : Z := bar + occp_config_off w.

Definition prop_addr (bar w : Z) (f : ocdp_prop) : Z :=
  config_addr bar w + offsetof f OcdpProperties.

(** The workers in the order of the source. *)
Definition workers : list Z :=
  [WORKER_DP0; WORKER_DP1; WORKER_SMA0; WORKER_SMA1; WORKER_BIAS; WORKER_NF10].

Fixpoint write_controls (bar v : Z) (ws : list Z) : M unit :=
  match ws with
  | [] => ret tt
  | w :: ws => mmio_wr (worker_addr bar w W_control) v ;; write_controls bar v ws
  end.

(** Assert reset, then take the workers out of reset. *)
Definition reset_workers (bar : Z) : M unit :=
  write_controls bar OCCP_LOG_TIMEOUT workers ;;
  emit EvWmb ;;
  write_controls bar (Z.lor OCCP_CONTROL_ENABLE OCCP_LOG_TIMEOUT) workers ;;
  emit EvMb.

(** [if(x_regs->f != OCCP_SUCCESS_RESULT) err = -1;] for each worker. *)
Fixpoint check_workers (bar : Z) (f : worker_reg) (ws : list Z) (err : Z) : M Z :=
  match ws with
  | [] => ret err
  | w :: ws =>
      v <- mmio_rd (worker_addr bar w f) ;;
      check_workers bar f ws (if negb (v =? OCCP_SUCCESS_RESULT) then -1 else err)
  end.

(** ** Configuring the data-plane workers *)

(** The properties written to a data-plane worker for [n] buffers in a region
    at physical address [pa], in the order of the source. *)
Definition dp_config (n pa dir : Z) : list (ocdp_prop * Z) :=
  [(P_nLocalBuffers, DMA_FPGA_BUFS);
   (P_nRemoteBuffers, n);
   (P_localBufferBase, 0);
   (P_localMetadataBase, DMA_FPGA_BUFS * DMA_BUF_SIZE);
   (P_localBufferSize, DMA_BUF_SIZE);
   (P_localMetadataSize, sizeof OcdpMetadata);
   (P_memoryBytes, 32 * 1024);
   (P_remoteBufferBase, u32 pa);
   (P_remoteMetadataBase, u32 (u32 pa + u32 (n * DMA_BUF_SIZE)));
   (P_remoteBufferSize, DMA_BUF_SIZE);
   (P_remoteMetadataSize, sizeof OcdpMetadata);
   (P_remoteFlagBase, u32 (u32 pa + (DMA_BUF_SIZE + sizeof OcdpMetadata) * n));
   (P_remoteFlagPitch, 4);
   (P_control, OCDP_CONTROL dir OCDP_ACTIVE_MESSAGE)].

Fixpoint write_props (bar w : Z) (ps : list (ocdp_prop * Z)) : M unit :=
  match ps with
  | [] => ret tt
  | (f, v) :: ps => mmio_wr (prop_addr bar w f) v ;; write_props bar w ps
  end.

(** The two streams of [n] buffers, each with the doorbell of its worker. *)
Definition tx_pointers (bar va n : Z) : dma_stream :=
  stream_pointers va n (prop_addr bar WORKER_DP0 P_nRemoteDone).
Definition rx_pointers (bar va n : Z) : dma_stream :=
  stream_pointers va n (prop_addr bar WORKER_DP1 P_nRemoteDone).

Definition configure_workers (bar : Z) : M unit :=
  mmio_wr (config_addr bar WORKER_SMA0) 1 ;;
  mmio_wr (config_addr bar WORKER_BIAS) 0 ;;
  mmio_wr (config_addr bar WORKER_SMA1) 2 ;;
  n <- get dma_cpu_bufs ;;
  tva <- get tx_dma_reg_va ;;
  let tx := tx_pointers bar tva n in
  modify (set_tx_dma_stream tx) ;;
  wr (flags tx) (replicate (Z.to_nat (n * 4)) (u8 1)) ;;
  tpa <- get tx_dma_reg_pa ;;
  write_props bar WORKER_DP0 (dp_config n tpa OCDP_CONTROL_CONSUMER) ;;
  rva <- get rx_dma_reg_va ;;
  let rx := rx_pointers bar rva n in
  modify (set_rx_dma_stream rx) ;;
  wr (flags rx) (replicate (Z.to_nat (n * 4)) (u8 0)) ;;
  rpa <- get rx_dma_reg_pa ;;
  write_props bar WORKER_DP1 (dp_config n rpa OCDP_CONTROL_PRODUCER) ;;
  emit EvMb.

(** ** [probe] *)

(** From the register pointers to the polling timer; [err] is 0 before the
    first check. *)
Definition bring_up (bar : Z) : M Z :=
  modify (set_nf10_regs (config_addr bar WORKER_NF10)) ;;
  modify (set_nf10_ctrl (bar + occp_worker_off WORKER_NF10)) ;;
  reset_workers bar ;;
  err <- check_workers bar W_initialize workers 0 ;;
  if negb (err =? 0) then free_regions ;; release_bar0 ;; ret err
  else
    emit EvMb ;;
    configure_workers bar ;;
    err <- check_workers bar W_start workers err ;;
    if negb (err =? 0) then free_regions ;; release_bar0 ;; ret err
    else
      modify (λ s, set_hw_state (Z.lor (hw_state s) HW_INIT) s) ;;
      start_poll_timer ;;
      ret err.

Definition probe : M Z :=
  m <- probe_map ;;
  match m with
  | Some err => ret err
  | None =>
      modify (set_dma_cpu_bufs DMA_CPU_BUFS) ;;
      probe_alloc alloc_fuel ;;
      tva <- get tx_dma_reg_va ;;
      rva <- get rx_dma_reg_va ;;
      (* [err] is still the 0 that dma_set_coherent_mask returned *)
      if (tva =? 0) || (rva =? 0) then release_bar0 ;; ret 0
      else
        bar <- get bar0_base_va ;;
        bring_up bar
  end.

Definition remove : M unit :=
  free_regions ;; release_bar0.

(** ** Accounting of resources *)

Inductive resource := RPci | RRegion | RIomap | RDma.

(** Change of the number of resources of a kind that an event makes. *)
Definition delta (r : resource) (e : event) : Z :=
  match r, e with
  | RPci, EvPciEnable err => if err =? 0 then 1 else 0
  | RPci, EvPciDisable => -1
  | RRegion, EvRequestRegion err => if err =? 0 then 1 else 0
  | RRegion, EvReleaseRegion => -1
  | RIomap, EvIoremap va => if va =? 0 then 0 else 1
  | RIomap, EvIounmap _ => -1
  | RDma, EvDmaAlloc _ va _ => if va =? 0 then 0 else 1
  | RDma, EvDmaFree _ _ _ => -1
  | _, _ => 0
  end.

Fixpoint balance (r : resource) (tr : list event) : Z :=
  match tr with [] => 0 | e :: tr => delta r e + balance r tr end.

(** What a running device holds. *)
Definition held (r : resource) : Z :=
  match r with RPci | RRegion | RIomap => 1 | RDma => 2 end.

(** ** Events that neither acquire nor release anything *)

Definition neutral (e : event) : Prop := ∀ r, delta r e = 0.

Lemma balance_app r es tr :
  Forall neutral es → balance r (es ++ tr) = balance r tr.
Proof. induction 1 as [|e es He _ IH]; simpl; [done|]. by rewrite He, IH. Qed.

(** [s'] is [s] after some neutral events. *)
Definition touched (s s' : drv) : Prop :=
  ∃ es, s' = set_trace (es ++ trace s) s ∧ Forall neutral es.

Lemma touched_refl s : touched s s.
Proof. exists []. split; [by destruct s|constructor]. Qed.

Lemma touched_emit s e s' :
  neutral e → touched (set_trace (e :: trace s) s) s' → touched s s'.
Proof.
  intros He (es & -> & Hes). exists (es ++ [e]). simpl. rewrite <- app_assoc.
  split; [done|]. apply Forall_app. by repeat constructor.
Qed.

Lemma touched_trans s1 s2 s3 : touched s1 s2 → touched s2 s3 → touched s1 s3.
Proof.
  intros (es & -> & Hes) (fs & -> & Hfs). exists (fs ++ es). simpl.
  rewrite <- app_assoc. split; [done|]. apply Forall_app. by split.
Qed.

Lemma touched_balance s s' r : touched s s' → balance r (trace s') = balance r (trace s).
Proof. intros (es & -> & Hes). simpl. by apply balance_app. Qed.

Lemma neutral_mmio_wr a v : neutral (EvMmioWr a v).
Proof. by intros []. Qed.
Lemma neutral_mmio_rd a v : neutral (EvMmioRd a v).
Proof. by intros []. Qed.
Lemma neutral_mb : neutral EvMb.
Proof. by intros []. Qed.
Lemma neutral_wmb : neutral EvWmb.
Proof. by intros []. Qed.

(** ** Access to the mapped registers *)

(** The register window at [bar] is mapped and as large as [OccpSpace]. *)
Definition mapped (s : drv) (bar : Z) : Prop :=
  ∃ len, (bar, len) ∈ iomap s ∧ sizeof_OccpSpace ≤ len.

Lemma mapped_valid s bar off :
  mapped s bar → 0 ≤ off → off + 4 ≤ sizeof_OccpSpace → io_valid s (bar + off) = true.
Proof.
  intros (len & Hin & Hlen) Hoff Hend. unfold io_valid. apply existsb_exists.
  exists (bar, len). split; [by apply list_elem_of_In|]. unfold in_region. simpl.
  apply andb_true_iff. split; apply Z.leb_le; lia.
Qed.

Lemma offsetof_worker_range f : 0 ≤ offsetof f OccpWorkerRegisters ≤ 52.
Proof. destruct f; vm_compute; split; discriminate. Qed.

Lemma offsetof_prop_range f : 0 ≤ offsetof f OcdpProperties ≤ 108.
Proof. destruct f; vm_compute; split; discriminate. Qed.

Lemma worker_addr_valid s bar w f :
  mapped s bar → 0 ≤ w < OCCP_MAX_WORKERS → io_valid s (worker_addr bar w f) = true.
Proof.
  unfold OCCP_MAX_WORKERS. intros Hm Hw. pose proof (offsetof_worker_range f).
  unfold worker_addr. rewrite <- Z.add_assoc, occp_worker_off_val.
  apply mapped_valid; [done|lia|]. change sizeof_OccpSpace with 0x1000000. lia.
Qed.

Lemma config_off_valid s bar w off :
  mapped s bar → 0 ≤ w < OCCP_MAX_WORKERS → 0 ≤ off ≤ 0xFFFFC →
  io_valid s (config_addr bar w + off) = true.
Proof.
  unfold OCCP_MAX_WORKERS. intros Hm Hw Hoff. unfold config_addr.
  rewrite <- Z.add_assoc, occp_config_off_val.
  apply mapped_valid; [done|lia|]. change sizeof_OccpSpace with 0x1000000. lia.
Qed.

Lemma prop_addr_valid s bar w f :
  mapped s bar → 0 ≤ w < OCCP_MAX_WORKERS → io_valid s (prop_addr bar w f) = true.
Proof.
  intros Hm Hw. pose proof (offsetof_prop_range f). apply config_off_valid; auto; lia.
Qed.

Lemma config_addr_valid s bar w :
  mapped s bar → 0 ≤ w < OCCP_MAX_WORKERS → io_valid s (config_addr bar w) = true.
Proof.
  intros Hm Hw. rewrite <- (Z.add_0_r (config_addr bar w)). apply config_off_valid; auto; lia.
Qed.

Definition in_range (ws : list Z) : Prop := Forall (λ w, 0 ≤ w < OCCP_MAX_WORKERS) ws.

Lemma workers_in_range : in_range workers.
Proof. repeat constructor; done. Qed.

Lemma write_controls_twp bar v ws s :
  mapped s bar → in_range ws →
  twp (write_controls bar v ws) s (λ _ s', touched s s').
Proof.
  intros Hm Hws. revert s Hm. induction Hws as [|w ws Hw _ IH]; intros s Hm; simpl.
  { apply touched_refl. }
  apply twp_bind, twp_mmio_wr; [by apply worker_addr_valid|].
  eapply twp_mono; [by apply IH|]. intros [] s' Ht.
  eapply touched_emit; [apply neutral_mmio_wr|exact Ht].
Qed.

Lemma reset_workers_twp bar s :
  mapped s bar → twp (reset_workers bar) s (λ _ s', touched s s').
Proof.
  intros Hm. unfold reset_workers.
  eapply twp_seq; [by apply write_controls_twp, workers_in_range|].
  intros [] s1 (es & -> & Hes). repeat twp_step.
  eapply twp_mono; [by apply write_controls_twp, workers_in_range|].
  intros [] s2 Ht. repeat twp_step.
  eapply touched_trans; [by exists es|].
  eapply touched_emit; [apply neutral_wmb|].
  eapply touched_trans; [exact Ht|].
  eapply touched_emit; [apply neutral_mb|apply touched_refl].
Qed.

(** The check reads every worker and reports [-1] unless all succeeded. *)
Lemma check_workers_twp bar f ws err s :
  mapped s bar → in_range ws →
  twp (check_workers bar f ws err) s (λ r s', touched s s' ∧ (r = err ∨ r = -1)).
Proof.
  intros Hm Hws. revert s err Hm. induction Hws as [|w ws Hw _ IH]; intros s err Hm; simpl.
  { split; [apply touched_refl|by left]. }
  apply twp_bind, twp_mmio_rd; [by apply worker_addr_valid|]. intros v.
  eapply twp_mono; [by apply IH|]. intros r s' [Ht Hr]. split.
  - eapply touched_emit; [apply neutral_mmio_rd|exact Ht].
  - destruct (negb _); [destruct Hr; auto|done].
Qed.

Lemma write_props_twp bar w ps s :
  mapped s bar → 0 ≤ w < OCCP_MAX_WORKERS →
  twp (write_props bar w ps) s (λ _ s', touched s s').
Proof.
  intros Hm Hw. revert s Hm. induction ps as [|[f v] ps IH]; intros s Hm; simpl.
  { apply touched_refl. }
  apply twp_bind, twp_mmio_wr; [by apply prop_addr_valid|].
  eapply twp_mono; [by apply IH|]. intros [] s' Ht.
  eapply touched_emit; [apply neutral_mmio_wr|exact Ht].
Qed.

(** Evaluate the balance of an explicit trace. *)
Local Ltac account :=
  intros []; simpl;
  repeat match goal with |- context [?x =? 0] => destruct (Z.eqb_spec x 0) end; lia.

(** ** Mapping the device *)

(** What the phases of [probe] leave alone. *)
Record frame (s s' : drv) : Prop := {
  fr_ptrs : nf10_netdevs s' = nf10_netdevs s;
  fr_netdevs : netdevs s' = netdevs s;
  fr_bar : bar0_base_va s' = bar0_base_va s;
  fr_iomap : iomap s' = iomap s;
  fr_hw : hw_state s' = hw_state s;
  fr_regs : nf10_regs s' = nf10_regs s;
  fr_ctrl : nf10_ctrl s' = nf10_ctrl s;
}.

Lemma frame_trans s1 s2 s3 : frame s1 s2 → frame s2 s3 → frame s1 s3.
Proof. intros [] []. split; congruence. Qed.

Lemma frame_mapped s s' bar : frame s s' → mapped s bar → mapped s' bar.
Proof. intros [_ _ _ Hio _ _ _] (len & Hin & Hlen). exists len. by rewrite Hio. Qed.

Definition held_bar0 (r : resource) : Z :=
  match r with RPci | RRegion | RIomap => 1 | RDma => 0 end.

Lemma release_bar0_twp s :
  twp release_bar0 s (λ _ s',
    (∀ r, balance r (trace s') = balance r (trace s) - held_bar0 r) ∧
    hw_state s' = hw_state s ∧ tx_dma_reg_va s' = tx_dma_reg_va s ∧
    rx_dma_reg_va s' = rx_dma_reg_va s).
Proof.
  unfold release_bar0, iounmap. repeat twp_step; simpl; auto.
  split; [|done]. intros []; simpl; lia.
Qed.

Lemma probe_map_twp s :
  twp probe_map s (λ m s',
    hw_state s' = Z.lor (hw_state s) HW_FOUND ∧
    match m with
    | Some err => err ≠ 0 ∧ ∀ r, balance r (trace s') = balance r (trace s)
    | None =>
        mapped s' (bar0_base_va s') ∧ ram s' = ram s ∧
        nf10_netdevs s' = nf10_netdevs s ∧ netdevs s' = netdevs s ∧
        ∀ r, balance r (trace s') = balance r (trace s) + held_bar0 r
    end).
Proof.
  unfold probe_map, pci_ioremap_bar, release_bar0, iounmap.
  repeat twp_step; simpl in *; boolify.
  all: split; [done|].
  all: try (split; [first [done|assumption] | account]).
  all: try done.
  split; [|by repeat (split; [done|]); account].
  eexists. split; [apply list_elem_of_here|].
  pose proof (Z.mod_le pci_resource_len (2 ^ 32)).
  pose proof (Z.mod_pos_bound k_pci_resource_len (2 ^ 64)).
  unfold u32, pci_resource_len, u64 in *. lia.
Qed.

(** ** Allocating the DMA regions *)

Definition held_dma (r : resource) : Z := match r with RDma => 2 | _ => 0 end.

Definition alloc_post (j : nat) (s s' : drv) : Prop :=
  frame s s' ∧
  (((tx_dma_reg_va s' = 0 ∨ rx_dma_reg_va s' = 0) ∧
    ∀ r, balance r (trace s') = balance r (trace s)) ∨
   (tx_dma_reg_va s' ≠ 0 ∧ rx_dma_reg_va s' ≠ 0 ∧
    (∃ i, (i ≤ j)%nat ∧ dma_cpu_bufs s' = 2 ^ Z.of_nat i ∧
      (tx_dma_reg_va s', region_size (2 ^ Z.of_nat i)) ∈ m_live (ram s') ∧
      (rx_dma_reg_va s', region_size (2 ^ Z.of_nat i)) ∈ m_live (ram s')) ∧
    ∀ r, balance r (trace s') = balance r (trace s) + held_dma r)).

(** One round of the loop, with a buffer count of at least one: it fails, and
    releases what it got, or it ends the loop. *)
Lemma probe_alloc_round fuel n s Q :
  dma_cpu_bufs s = n → MIN_DMA_CPU_BUFS ≤ n →
  (∀ s', frame s s' → dma_cpu_bufs s' = n / 2 →
     (tx_dma_reg_va s' = 0 ∨ rx_dma_reg_va s' = 0) →
     (∀ r, balance r (trace s') = balance r (trace s)) →
     twp (probe_alloc fuel) s' Q) →
  (∀ s', frame s s' → dma_cpu_bufs s' = n →
     tx_dma_reg_va s' ≠ 0 → rx_dma_reg_va s' ≠ 0 →
     (tx_dma_reg_va s', region_size n) ∈ m_live (ram s') →
     (rx_dma_reg_va s', region_size n) ∈ m_live (ram s') →
     (∀ r, balance r (trace s') = balance r (trace s) + held_dma r) → Q tt s') →
  twp (probe_alloc (S fuel)) s Q.
Proof.
  intros Hn Hmin Hfail Hdone. simpl probe_alloc. do 2 twp_step. rewrite Hn.
  rewrite (proj2 (Z.ltb_ge _ _) Hmin). unfold dma_alloc_coherent, dma_free_coherent.
  repeat twp_step; simpl in *; boolify; try done.
  - apply Hfail; [done..|by left|account].
  - apply Hfail; [done..|by right|account].
  - apply Hdone; try done; [apply list_elem_of_further, list_elem_of_here
                           |apply list_elem_of_here|account].
Qed.

Lemma probe_alloc_twp j fuel s :
  dma_cpu_bufs s = 2 ^ Z.of_nat j → (j + 1 < fuel)%nat →
  twp (probe_alloc fuel) s (λ _ s', alloc_post j s s').
Proof.
  revert fuel s. induction j as [|j IH]; intros [|fuel] s Hn Hf; try lia.
  - eapply probe_alloc_round; [exact Hn|done| |].
    + intros s' Hfr Hb Hz Hbal. destruct fuel as [|fuel]; [lia|]. simpl probe_alloc.
      do 2 twp_step. rewrite Hb. simpl. split; [done|]. by left.
    + intros s' Hfr Hb Ht Hr Htl Hrl Hbal. split; [done|]. right.
      repeat (split; [done|]). split; [|done]. by exists 0%nat.
  - pose proof (Z.pow_pos_nonneg 2 (Z.of_nat (S j))).
    eapply probe_alloc_round; [exact Hn|unfold MIN_DMA_CPU_BUFS; lia| |].
    + intros s' Hfr Hb Hz Hbal. eapply twp_mono; [apply IH; [|lia]|].
      * rewrite Hb, Nat2Z.inj_succ, Z.pow_succ_r by lia.
        by rewrite Z.mul_comm, Z.div_mul by lia.
      * intros [] s2 [Hfr2 Hcase]. split; [by eapply frame_trans|].
        destruct Hcase as [[Hz2 Hbal2]|(Ht & Hr & (i & Hi & Hi2) & Hbal2)]; [left|right].
        -- split; [done|]. intros r. by rewrite Hbal2.
        -- repeat (split; [done|]). split; [exists i; split; [lia|done]|].
           intros r. by rewrite Hbal2, Hbal.
    + intros s' Hfr Hb Ht Hr Htl Hrl Hbal. split; [done|]. right.
      repeat (split; [done|]). split; [|done]. by exists (S j).
Qed.

(** ** Configuring the data-plane workers *)

(** [memset] of the flags of a stream. *)
Definition memset_flags (m : mem) (st : dma_stream) (n c : Z) : mem :=
  upd m (flags st) (replicate (Z.to_nat (n * 4)) (u8 c)).

Lemma memset_flags_valid m n st c :
  stream_wf m n st →
  valid m (flags st) (zlen (replicate (Z.to_nat (n * 4)) (u8 c))) = true.
Proof.
  intros [Hn _ _ Hfl Hl]. unfold zlen. rewrite length_replicate, Hfl.
  eapply valid_region; [exact Hl| |]; lia.
Qed.

Definition configured (bar : Z) (s s' : drv) : Prop :=
  let n := dma_cpu_bufs s in
  let tx := tx_pointers bar (tx_dma_reg_va s) n in
  let rx := rx_pointers bar (rx_dma_reg_va s) n in
  frame s s' ∧ dma_cpu_bufs s' = n ∧
  tx_dma_reg_va s' = tx_dma_reg_va s ∧ rx_dma_reg_va s' = rx_dma_reg_va s ∧
  tx_dma_stream s' = tx ∧ rx_dma_stream s' = rx ∧
  ram s' = memset_flags (memset_flags (ram s) tx n 1) rx n 0 ∧
  ∀ r, balance r (trace s') = balance r (trace s).

#[local] Arguments write_props : simpl never.
#[local] Arguments dp_config : simpl never.
#[local] Arguments tx_pointers : simpl never.
#[local] Arguments rx_pointers : simpl never.

Lemma configure_workers_twp bar s :
  mapped s bar → 1 ≤ dma_cpu_bufs s ≤ DMA_CPU_BUFS →
  (tx_dma_reg_va s, region_size (dma_cpu_bufs s)) ∈ m_live (ram s) →
  (rx_dma_reg_va s, region_size (dma_cpu_bufs s)) ∈ m_live (ram s) →
  twp (configure_workers bar) s (λ _ s', configured bar s s').
Proof.
  intros Hm Hn Htx Hrx. unfold configure_workers.
  do 3 (apply twp_bind, twp_mmio_wr; [by apply config_addr_valid|]).
  do 6 twp_step. simpl.
  apply twp_bind, twp_wr; [apply (memset_flags_valid _ (dma_cpu_bufs s) (tx_pointers bar
    (tx_dma_reg_va s) (dma_cpu_bufs s))); by apply stream_pointers_wf|].
  do 2 twp_step. simpl. eapply twp_seq; [by apply write_props_twp|].
  intros [] s1 (es & -> & Hes). do 4 twp_step. simpl.
  apply twp_bind, twp_wr; [apply (memset_flags_valid _ (dma_cpu_bufs s) (rx_pointers bar
    (rx_dma_reg_va s) (dma_cpu_bufs s))); by apply stream_pointers_wf|].
  do 2 twp_step. simpl. eapply twp_seq; [by apply write_props_twp|].
  intros [] s2 (fs & -> & Hfs). twp_step. simpl.
  repeat (split; [done|]). intros r. simpl.
  assert (delta r EvMb = 0) as -> by (by destruct r).
  rewrite balance_app by done. simpl. rewrite balance_app by done. by destruct r.
Qed.

(** ** The whole of [probe] *)

Lemma free_regions_twp s :
  twp free_regions s (λ _ s',
    (∀ r, balance r (trace s') = balance r (trace s) - held_dma r) ∧
    hw_state s' = hw_state s).
Proof.
  unfold free_regions, dma_free_coherent. repeat twp_step. simpl.
  split; [|done]. account.
Qed.

(** The state of a device that is up: the rings are set up and both doorbells
    are mapped. *)
Record device_up (s : drv) : Prop := {
  up_hw : hw_ready (hw_state s) = true;
  up_bufs : ∃ i, (i ≤ 15)%nat ∧ dma_cpu_bufs s = 2 ^ Z.of_nat i;
  up_tx : stream_wf (ram s) (dma_cpu_bufs s) (tx_dma_stream s);
  up_rx : stream_wf (ram s) (dma_cpu_bufs s) (rx_dma_stream s);
  up_tx_bell : io_valid s (doorbell (tx_dma_stream s)) = true;
  up_rx_bell : io_valid s (doorbell (rx_dma_stream s)) = true;
  up_regs : ∃ bar, mapped s bar ∧ nf10_regs s = config_addr bar WORKER_NF10 ∧
                   nf10_ctrl s = bar + occp_worker_off WORKER_NF10;
}.

Definition disjoint_streams (n : Z) (a b : dma_stream) : Prop :=
  buffers a + 2068 * n ≤ buffers b ∨ buffers b + 2068 * n ≤ buffers a.

(** Every TX flag says "free", every RX flag "empty". *)
Definition flags_initial (s : drv) : Prop :=
  ∀ j, 0 ≤ j < dma_cpu_bufs s →
    flag_at (ram s) (tx_dma_stream s) j ≠ 0 ∧ flag_at (ram s) (rx_dma_stream s) j = 0.

(** A return value other than an error, or a failure with everything released. *)
Definition probe_post (s : drv) (r : Z) (s' : drv) : Prop :=
  (r = 0 ∧ device_up s' ∧
   (disjoint_streams (dma_cpu_bufs s') (tx_dma_stream s') (rx_dma_stream s') →
    flags_initial s') ∧
   nf10_netdevs s' = nf10_netdevs s ∧ netdevs s' = netdevs s ∧
   ∀ k, balance k (trace s') = balance k (trace s) + held k) ∨
  (hw_state s' = Z.lor (hw_state s) HW_FOUND ∧
   (r ≠ 0 ∨ (r = 0 ∧ (tx_dma_reg_va s' = 0 ∨ rx_dma_reg_va s' = 0))) ∧
   ∀ k, balance k (trace s') = balance k (trace s)).

Lemma configured_flags bar s s' :
  1 ≤ dma_cpu_bufs s ≤ DMA_CPU_BUFS →
  (tx_dma_reg_va s, region_size (dma_cpu_bufs s)) ∈ m_live (ram s) →
  (rx_dma_reg_va s, region_size (dma_cpu_bufs s)) ∈ m_live (ram s) →
  configured bar s s' →
  disjoint_streams (dma_cpu_bufs s') (tx_dma_stream s') (rx_dma_stream s') →
  flags_initial s'.
Proof.
  intros Hn Htx Hrx (_ & En & _ & _ & Et & Er & Em & _) Hd j.
  pose proof (stream_pointers_wf _ _ _ (prop_addr bar WORKER_DP0 P_nRemoteDone) Hn Htx)
    as [_ _ _ Htf _].
  pose proof (stream_pointers_wf _ _ _ (prop_addr bar WORKER_DP1 P_nRemoteDone) Hn Hrx)
    as [_ _ _ Hrf _].
  rewrite Et, Er, En in Hd. rewrite En, Em, Et, Er. unfold flag_at, memset_flags, flag_addr.
  unfold tx_pointers, rx_pointers in *. intros Hj. split.
  - rewrite word_at_upd_other, word_at_memset; [done|lia..|].
    unfold zlen. rewrite length_replicate. unfold disjoint_streams in Hd. lia.
  - by rewrite word_at_memset by lia.
Qed.

Lemma touched_frame s s' : touched s s' → frame s s'.
Proof. intros (es & -> & _). by split. Qed.

Lemma touched_regions s s' :
  touched s s' →
  dma_cpu_bufs s' = dma_cpu_bufs s ∧ ram s' = ram s ∧
  tx_dma_reg_va s' = tx_dma_reg_va s ∧ rx_dma_reg_va s' = rx_dma_reg_va s.
Proof. by intros (es & -> & _). Qed.

(** The two failure exits after the regions are allocated. *)
Lemma give_up_twp s0 s err :
  err ≠ 0 → hw_state s = Z.lor (hw_state s0) HW_FOUND →
  (∀ r, balance r (trace s) = balance r (trace s0) + held r) →
  twp (free_regions ;; release_bar0 ;; ret err) s (probe_post s0).
Proof.
  intros Herr Hhw Hbal. eapply twp_seq; [apply free_regions_twp|].
  intros [] s1 [Hb1 Hh1]. eapply twp_seq; [apply release_bar0_twp|].
  intros [] s2 (Hb2 & Hh2 & _). right. split; [congruence|]. split; [by left|].
  intros r. rewrite Hb2, Hb1, Hbal. destruct r; simpl; lia.
Qed.

Lemma hw_ready_or x : hw_ready (Z.lor (Z.lor x HW_FOUND) HW_INIT) = true.
Proof.
  unfold hw_ready, HW_FOUND, HW_INIT. apply andb_true_iff.
  split; apply negb_true_iff, Z.eqb_neq; intros E.
  - apply (f_equal (λ z, Z.testbit z 0)) in E.
    rewrite Z.land_spec, !Z.lor_spec, Z.bits_0 in E.
    destruct (Z.testbit x 0); vm_compute in E; discriminate.
  - apply (f_equal (λ z, Z.testbit z 1)) in E.
    rewrite Z.land_spec, !Z.lor_spec, Z.bits_0 in E.
    destruct (Z.testbit x 1); vm_compute in E; discriminate.
Qed.

Lemma bell_valid s bar w :
  mapped s bar → 0 ≤ w < OCCP_MAX_WORKERS →
  io_valid s (prop_addr bar w P_nRemoteDone) = true.
Proof. apply prop_addr_valid. Qed.

(** What [bring_up] needs. *)
Record ready_to_start (s0 s : drv) (bar : Z) : Prop := {
  rs_mapped : mapped s bar;
  rs_bufs : ∃ i, (i ≤ 15)%nat ∧ dma_cpu_bufs s = 2 ^ Z.of_nat i;
  rs_tx : (tx_dma_reg_va s, region_size (dma_cpu_bufs s)) ∈ m_live (ram s);
  rs_rx : (rx_dma_reg_va s, region_size (dma_cpu_bufs s)) ∈ m_live (ram s);
  rs_hw : hw_state s = Z.lor (hw_state s0) HW_FOUND;
  rs_ptrs : nf10_netdevs s = nf10_netdevs s0;
  rs_netdevs : netdevs s = netdevs s0;
  rs_bal : ∀ r, balance r (trace s) = balance r (trace s0) + held r;
}.

Lemma touched_ready s0 s s' bar :
  touched s s' → ready_to_start s0 s bar → ready_to_start s0 s' bar.
Proof.
  intros Ht []. pose proof (touched_frame _ _ Ht) as Hfr.
  destruct (touched_regions _ _ Ht) as (En & Em & Et & Er).
  split; rewrite ?En, ?Em, ?Et, ?Er; auto.
  - by eapply frame_mapped.
  - by rewrite (fr_hw _ _ Hfr).
  - by rewrite (fr_ptrs _ _ Hfr).
  - by rewrite (fr_netdevs _ _ Hfr).
  - intros r. by rewrite (touched_balance _ _ _ Ht).
Qed.

Lemma start_up s0 bar s s' s'' :
  ready_to_start s0 s bar → configured bar s s' → touched s' s'' →
  nf10_regs s = config_addr bar WORKER_NF10 →
  nf10_ctrl s = bar + occp_worker_off WORKER_NF10 →
  device_up (set_hw_state (Z.lor (hw_state s'') HW_INIT) s'').
Proof.
  intros [Hm (i & Hi & Hn) Htx Hrx Hhw _ _ _] (Hfr & En & _ & _ & Et & Er & Em & _).
  intros (es & -> & _) Hregs Hctrl.
  pose proof (pow2_bufs i Hi) as Hb. rewrite <- Hn in Hb.
  pose proof (frame_mapped _ _ _ Hfr Hm) as Hm'.
  split; simpl; rewrite ?En, ?Et, ?Er, ?Em.
  - rewrite (fr_hw _ _ Hfr), Hhw. apply hw_ready_or.
  - by exists i.
  - by do 2 apply stream_wf_upd; apply stream_pointers_wf.
  - by do 2 apply stream_wf_upd; apply stream_pointers_wf.
  - by apply prop_addr_valid.
  - by apply prop_addr_valid.
  - exists bar. by rewrite (fr_regs _ _ Hfr), (fr_ctrl _ _ Hfr).
Qed.

(** After the last check the timer is started and nothing else happens. *)
Lemma timer_twp s0 bar s4 s5 s6 :
  ready_to_start s0 s4 bar → configured bar s4 s5 → touched s5 s6 →
  nf10_regs s4 = config_addr bar WORKER_NF10 →
  nf10_ctrl s4 = bar + occp_worker_off WORKER_NF10 →
  (∀ r, balance r (trace s6) = balance r (trace s0) + held r) →
  twp (modify (λ s, set_hw_state (Z.lor (hw_state s) HW_INIT) s) ;;
       start_poll_timer ;; ret 0) s6 (probe_post s0).
Proof.
  intros Hs4 Hs5 Ht6 Hregs Hctrl Hbal.
  unfold start_poll_timer. repeat twp_step. simpl. left. split; [done|].
  assert (1 ≤ dma_cpu_bufs s4 ≤ DMA_CPU_BUFS) as Hb.
  { destruct (rs_bufs _ _ _ Hs4) as (i & Hi & ->). by apply pow2_bufs. }
  split; [by destruct (start_up s0 bar s4 s5 s6 Hs4 Hs5 Ht6 Hregs Hctrl); split|].
  pose proof (touched_frame _ _ Ht6) as Hfr6. pose proof Hs5 as (Hfr5 & _).
  destruct Ht6 as (es & -> & _). split; [|split; [|split]].
  - apply (configured_flags bar s4 s5 Hb (rs_tx _ _ _ Hs4) (rs_rx _ _ _ Hs4) Hs5).
  - simpl. by rewrite (fr_ptrs _ _ Hfr5), (rs_ptrs _ _ _ Hs4).
  - simpl. by rewrite (fr_netdevs _ _ Hfr5), (rs_netdevs _ _ _ Hs4).
  - intros r. specialize (Hbal r). simpl in *. rewrite Hbal. by destruct r.
Qed.

Lemma bring_up_twp s0 s bar :
  ready_to_start s0 s bar → twp (bring_up bar) s (probe_post s0).
Proof.
  intros Hs. unfold bring_up. do 4 twp_step.
  set (s1 := set_nf10_ctrl _ _).
  assert (ready_to_start s0 s1 bar) as Hs1 by (destruct Hs; by split).
  eapply twp_seq; [apply reset_workers_twp, Hs1|]. intros [] s2 Ht2.
  pose proof (touched_ready _ _ _ _ Ht2 Hs1) as Hs2.
  eapply twp_seq; [apply check_workers_twp; [apply Hs2|apply workers_in_range]|].
  intros err s3 [Ht3 Herr]. pose proof (touched_ready _ _ _ _ Ht3 Hs2) as Hs3.
  destruct (Z.eqb_spec err 0) as [->|Hne]; cbn [negb]; cbv iota.
  2: { apply give_up_twp; [done|apply Hs3..]. }
  do 2 twp_step. set (s4 := set_trace _ s3).
  assert (touched s3 s4) as Ht4 by (eapply touched_emit; [apply neutral_mb|apply touched_refl]).
  pose proof (touched_ready _ _ _ _ Ht4 Hs3) as Hs4.
  assert (1 ≤ dma_cpu_bufs s4 ≤ DMA_CPU_BUFS) as Hb.
  { destruct (rs_bufs _ _ _ Hs4) as (i & Hi & ->). by apply pow2_bufs. }
  eapply twp_seq; [apply configure_workers_twp; [apply Hs4|done|apply Hs4|apply Hs4]|].
  intros [] s5 Hs5. pose proof Hs5 as (Hfr5 & En5 & _ & _ & _ & _ & _ & Hbal5).
  pose proof (frame_mapped _ _ _ Hfr5 (rs_mapped _ _ _ Hs4)) as Hm5.
  eapply twp_seq; [apply check_workers_twp; [exact Hm5|apply workers_in_range]|].
  intros err s6 [Ht6 _]. pose proof (touched_frame _ _ Ht6) as Hfr6.
  assert (∀ r, balance r (trace s6) = balance r (trace s0) + held r) as Hbal6.
  { intros r. by rewrite (touched_balance _ _ _ Ht6), Hbal5, (rs_bal _ _ _ Hs4). }
  destruct (Z.eqb_spec err 0) as [->|Hne]; cbn [negb]; cbv iota.
  2: { apply give_up_twp; [done| |done].
       rewrite (fr_hw _ _ Hfr6), (fr_hw _ _ Hfr5). apply Hs4. }
  apply (timer_twp s0 bar s4 s5 s6); auto.
  - subst s4. by destruct Ht3 as (? & -> & _), Ht2 as (? & -> & _).
  - subst s4. by destruct Ht3 as (? & -> & _), Ht2 as (? & -> & _).
Qed.

Lemma probe_twp s : twp probe s (probe_post s).
Proof.
  unfold probe. eapply twp_seq; [apply probe_map_twp|].
  intros [err|] s1 [Hhw1 Hmap].
  { destruct Hmap as [Herr Hbal]. right. split; [done|]. split; [by left|done]. }
  destruct Hmap as (Hm1 & _ & Hp1 & Hd1 & Hbal1). do 2 twp_step.
  eapply twp_seq; [apply (probe_alloc_twp 15); [done|unfold alloc_fuel; lia]|].
  intros [] s2 [Hfr2 Hcase]. do 4 twp_step.
  destruct Hcase as [[Hz Hbal2]|(Ht & Hr & (i & Hi & Hn & Htl & Hrl) & Hbal2)].
  { assert ((tx_dma_reg_va s2 =? 0) || (rx_dma_reg_va s2 =? 0) = true) as ->.
    { apply orb_true_iff. destruct Hz as [->| ->]; auto. }
    eapply twp_seq; [apply release_bar0_twp|]. intros [] s3 (Hb & Hh & Et & Er).
    right. rewrite Hh, (fr_hw _ _ Hfr2), Et, Er. split; [done|]. split; [by right|].
    intros r. rewrite Hb, Hbal2. simpl. rewrite Hbal1. lia. }
  rewrite (proj2 (Z.eqb_neq _ _) Ht), (proj2 (Z.eqb_neq _ _) Hr). cbn [orb]. cbv iota.
  do 2 twp_step. rewrite <- Hn in Htl, Hrl. destruct Hfr2 as [Ep Ed Eb Eio Eh _ _].
  apply bring_up_twp. split; auto; rewrite ?Eh, ?Ep, ?Ed, ?Eb; auto.
  - destruct Hm1 as (len & Hin & Hlen). exists len. by rewrite Eio.
  - by exists i.
  - intros r. rewrite Hbal2. simpl. rewrite Hbal1. destruct r; simpl; lia.
Qed.

(** ** [remove] releases what a successful [probe] acquired *)

Lemma remove_twp s :
  twp remove s (λ _ s', ∀ r, balance r (trace s') = balance r (trace s) - held r).
Proof.
  unfold remove. eapply twp_seq; [apply free_regions_twp|]. intros [] s1 [Hb1 _].
  eapply twp_mono; [apply release_bar0_twp|]. intros [] s2 (Hb2 & _) r.
  rewrite Hb2, Hb1. destruct r; simpl; lia.
Qed.

(** ** The device and the driver agree on the layout of a region *)

Fixpoint prop_val (f : ocdp_prop) (ps : list (ocdp_prop * Z)) : Z :=
  match ps with
  | [] => 0
  | (g, v) :: ps => if decide (f = g) then v else prop_val f ps
  end.

Lemma region_size_val n : 1 ≤ n ≤ DMA_CPU_BUFS → region_size n = 2068 * n.
Proof.
  unfold DMA_CPU_BUFS. intros Hn. unfold region_size, DMA_BUF_SIZE.
  rewrite OCDP_METADATA_SIZE_val, u32_small; lia.
Qed.

Lemma dp_config_layout n pa va door dir j :
  1 ≤ n ≤ DMA_CPU_BUFS → 0 ≤ pa → pa + region_size n ≤ 2 ^ 32 → 0 ≤ j < n →
  let st := stream_pointers va n door in
  let cfg f := prop_val f (dp_config n pa dir) in
  cfg P_nRemoteBuffers = n ∧
  cfg P_remoteBufferBase + j * cfg P_remoteBufferSize = pa + (buf_addr st j - va) ∧
  cfg P_remoteMetadataBase + j * cfg P_remoteMetadataSize
    = pa + (meta_addr st j MD_length - va) ∧
  cfg P_remoteFlagBase + j * cfg P_remoteFlagPitch = pa + (flag_addr st j - va).
Proof.
  intros Hn Hpa Hend Hj st cfg. rewrite region_size_val in Hend by done.
  subst cfg st. cbv beta. unfold flag_addr. rewrite buf_addr_val, meta_addr_val by lia.
  unfold DMA_CPU_BUFS in *.
  unfold dp_config, DMA_BUF_SIZE. simpl. unfold DMA_BUF_SIZE.
  rewrite !(u32_small pa) by lia. rewrite !(u32_small (n * 2048)) by lia.
  rewrite !u32_small by lia. lia.
Qed.

End Probe.
