(* ===== verification/Hw.v ===== *)
(** * The running device

    With hardware the two rings are shared with the data-plane workers of the
    FPGA, which are not part of this repository.  What the driver relies on
    of them is the flag protocol of the rings: a worker takes the packet of a
    TX slot whose flag is 0 and makes the flag non-zero, or fills an RX slot
    whose flag is 0 and makes it 1, going through the slots in order.  This
    file composes the driver's handlers with such a device in a step relation
    and proves that the two rings are bounded FIFO queues. *)

From S2P Require Import Prelude Mem Occp Opcode Kernel Packet Stream Xmit Poll Ring Ghost Probe.

(** ** Rings in disjoint memory do not interfere *)

(** The [n] bytes at [a] are outside the region of stream [st]. *)
Definition outside (n : Z) (st : dma_stream) (a len : Z) : Prop :=
  a + len ≤ buffers st ∨ buffers st + 2068 * n ≤ a.

Section Frame.
Context `{Polarity} (m : mem) (n : Z) (st : dma_stream) (Hwf : stream_wf m n st).

Local Ltac addrs :=
  destruct Hwf as [Hn _ Hmd Hfl _]; unfold outside, flag_addr in *;
  rewrite ?meta_addr_val, ?buf_addr_val, ?Hmd, ?Hfl by lia;
  rewrite ?offset_length, ?offset_opCode; lia.

Lemma slot_frame a bs j :
  outside n st a (zlen bs) → 0 ≤ j < n →
  flag_at (upd m a bs) st j = flag_at m st j ∧
  slot_len (upd m a bs) st j = slot_len m st j ∧
  (slot_len m st j ≤ 2048 → slot_at (upd m a bs) st j = slot_at m st j).
Proof.
  intros Ho Hj. unfold flag_at, slot_len, slot_at.
  rewrite !word_at_upd_other by addrs. split; [done|]. split; [done|]. intros Hl.
  f_equal. apply bytes_at_upd_other.
  generalize dependent (word_at m (meta_addr st j MD_length)). intros len Hl. addrs.
Qed.

Lemma ring_frame a bs h q :
  outside n st a (zlen bs) → ring m n st h q → ring (upd m a bs) n st h q.
Proof.
  intros Ho [_ Hh Hb Hs Hf]. pose proof (wf_bufs _ _ _ Hwf).
  split; auto.
  - by apply stream_wf_upd.
  - intros k p Hk. destruct (Hs k p Hk) as (Hfull & Hslot & Hlen).
    destruct (slot_frame a bs (ix n h (Z.of_nat k)) Ho) as (-> & -> & E).
    { apply ix_range. lia. }
    by rewrite E.
  - intros k Hk. destruct (slot_frame a bs (ix n h k) Ho) as (-> & _); [|auto].
    apply ix_range. lia.
Qed.

End Frame.

Lemma mput_frame `{Polarity} m n st st' i data op fl h q :
  stream_wf m n st → stream_wf m n st' → disjoint_streams n st st' → 0 ≤ i < n →
  zlen data ≤ 2048 → ring m n st h q → ring (mput m st' i data op fl) n st h q.
Proof.
  intros Hwf [Hn _ Hmd Hfl _] Hd Hi Hlen Hr. unfold mput, upd32.
  repeat (apply ring_frame; [auto using stream_wf_upd| |]); [..|done];
    unfold outside, disjoint_streams, flag_addr in *;
    rewrite ?meta_addr_val, ?buf_addr_val, ?Hmd, ?Hfl, ?zlen_le_split by lia;
    rewrite ?offset_length, ?offset_opCode; lia.
Qed.

Lemma mflag_frame `{Polarity} m n st st' i fl h q :
  stream_wf m n st → stream_wf m n st' → disjoint_streams n st st' → 0 ≤ i < n →
  ring m n st h q → ring (mflag m st' i fl) n st h q.
Proof.
  intros Hwf [Hn _ Hmd Hfl _] Hd Hi Hr. unfold mflag, upd32.
  apply ring_frame; [done| |done].
  unfold outside, disjoint_streams, flag_addr in *. rewrite Hfl, zlen_le_split. lia.
Qed.

Section Hw.
Context `{Kernel}.

(** ** The specification: two bounded queues *)

Record hw := mkHw {
  tx_accepted : list packet;          (** handed over by the interfaces *)
  tx_taken : list packet;             (** taken by the device *)
  tx_queue : list packet;             (** in the TX ring *)
  rx_arrived : list packet;           (** put in the RX ring by the device *)
  rx_queue : list packet;             (** in the RX ring *)
  rx_out : list (Z * list Z);         (** handed to the network stack *)
}.

(** A packet whose opcode names one of the four interfaces. *)
Definition has_iface (p : packet) : bool := rx_get_dst_iface p.2 <? 4.

Definition deliver (ptrs : list Z) (p : packet) : Z * list Z :=
  (nth (Z.to_nat (rx_get_dst_iface p.2)) ptrs 0, p.1).

(** Where a packet of the RX ring goes, if anywhere. *)
Definition rx_target (ptrs : list Z) (p : packet) : option (Z * list Z) :=
  if has_iface p then Some (deliver ptrs p) else None.

Inductive label :=
  | LXmit (i : Z) (skb : sk_buff)       (** interface [i] sends *)
  | LTaken                              (** the device takes a packet *)
  | LArrive (p : packet)                (** the device delivers a packet *)
  | LPoll (budget : Z) (ans : list bool).
      (** NAPI polls, and [dev_alloc_skb] gives these answers *)

(** A packet the driver accepts when there is room, and its slot contents. *)
Definition xmit_packet (i : Z) (skb : sk_buff) : option packet :=
  if (skb_len skb <? NF10_PKT_SIZE_MIN) || (NF10_PKT_SIZE_MAX <? skb_len skb) then None
  else bs ← tx_bytes_of skb; Some (bs, tx_set_src_iface 0 i).

Definition spec_xmit (n i : Z) (skb : sk_buff) (w : hw) : hw :=
  match xmit_packet i skb with
  | Some p =>
      if zlen (tx_queue w) <? n then
        mkHw (tx_accepted w ++ [p]) (tx_taken w) (tx_queue w ++ [p])
          (rx_arrived w) (rx_queue w) (rx_out w)
      else w
  | None => w
  end.

Inductive spec_step (n : Z) (ptrs : list Z) : hw → label → hw → Prop :=
  | SpecXmit w i skb : spec_step n ptrs w (LXmit i skb) (spec_xmit n i skb w)
  | SpecTaken w p q :
      tx_queue w = p :: q →
      spec_step n ptrs w LTaken
        (mkHw (tx_accepted w) (tx_taken w ++ [p]) q (rx_arrived w) (rx_queue w) (rx_out w))
  | SpecArrive w p :
      zlen (rx_queue w) < n →
      spec_step n ptrs w (LArrive p)
        (mkHw (tx_accepted w) (tx_taken w) (tx_queue w)
           (rx_arrived w ++ [p]) (rx_queue w ++ [p]) (rx_out w))
  | SpecPoll w b ans out rest :
      polls (rx_target ptrs) b (rx_queue w) ans out rest →
      spec_step n ptrs w (LPoll b ans)
        (mkHw (tx_accepted w) (tx_taken w) (tx_queue w) (rx_arrived w) rest (rx_out w ++ out)).

(** ** The system: the driver's handlers and the device *)

(** The driver's state and the slots the device's two workers look at. *)
Record system := mkSys { sys_drv : drv; dev_tx : Z; dev_rx : Z }.

(** What the network stack may ask for: an interface of the driver, and a
    packet whose buffer holds its headers and its [skb_len] bytes. *)
Definition skb_ok (i : Z) (skb : sk_buff) : Prop :=
  0 ≤ i < 4 ∧ 0 ≤ skb_len skb < 2 ^ 32 ∧ is_Some (tx_bytes_of skb).

Inductive hw_step : system → label → system → Prop :=
  | StepXmit s dt dr i p skb r s' :
      skb_ok i skb → iface_of s i p → nf10_ndo_start_xmit skb p s = Ok r s' →
      hw_step (mkSys s dt dr) (LXmit i skb) (mkSys s' dt dr)
  | StepPoll s dt dr b ans r s' :
      nf10_napi_struct_poll b s = Ok r s' →
      skb_answers (trace s') = skb_answers (trace s) ++ ans →
      hw_step (mkSys s dt dr) (LPoll b ans) (mkSys s' dt dr)
  | StepTaken s dt dr v :
      flag_at (ram s) (tx_dma_stream s) dt = 0 → 0 < v < 2 ^ 32 →
      hw_step (mkSys s dt dr) LTaken
        (mkSys (set_ram (mflag (ram s) (tx_dma_stream s) dt v) s)
           (next_index (dma_cpu_bufs s) dt) dr)
  | StepArrive s dt dr bs op :
      flag_at (ram s) (rx_dma_stream s) dr = 0 → zlen bs ≤ DMA_BUF_SIZE → 0 ≤ op < 2 ^ 32 →
      hw_step (mkSys s dt dr) (LArrive (bs, op))
        (mkSys (set_ram (mput (ram s) (rx_dma_stream s) dr bs op 1) s)
           dt (next_index (dma_cpu_bufs s) dr)).

(** ** The refinement relation *)

Record hw_rel (y : system) (w : hw) : Prop := {
  hr_tx : @ring tx_polarity (ram (sys_drv y)) (dma_cpu_bufs (sys_drv y))
            (tx_dma_stream (sys_drv y)) (dev_tx y) (tx_queue w);
  hr_tx_tail : buf_index (tx_dma_stream (sys_drv y)) =
               ix (dma_cpu_bufs (sys_drv y)) (dev_tx y) (zlen (tx_queue w));
  hr_rx : @ring rx_polarity (ram (sys_drv y)) (dma_cpu_bufs (sys_drv y))
            (rx_dma_stream (sys_drv y)) (buf_index (rx_dma_stream (sys_drv y)))
            (rx_queue w);
  hr_rx_tail : dev_rx y = ix (dma_cpu_bufs (sys_drv y))
                 (buf_index (rx_dma_stream (sys_drv y))) (zlen (rx_queue w));
  hr_01 : ∀ j, 0 ≤ j < dma_cpu_bufs (sys_drv y) →
    flag_at (ram (sys_drv y)) (rx_dma_stream (sys_drv y)) j = 0 ∨
    flag_at (ram (sys_drv y)) (rx_dma_stream (sys_drv y)) j = 1;
  hr_disjoint : disjoint_streams (dma_cpu_bufs (sys_drv y))
                  (tx_dma_stream (sys_drv y)) (rx_dma_stream (sys_drv y));
  hr_netdevs : netdevs_wf (sys_drv y);
  hr_hw : hw_ready (hw_state (sys_drv y)) = true;
  hr_tx_bell : io_valid (sys_drv y) (doorbell (tx_dma_stream (sys_drv y))) = true;
  hr_rx_bell : io_valid (sys_drv y) (doorbell (rx_dma_stream (sys_drv y))) = true;
  hr_out : received (trace (sys_drv y)) = rx_out w;
}.

(** A system whose TX ring or RX ring is full, or not, by its tail flag. *)
Lemma hw_tx_full y w :
  hw_rel y w →
  (flag_at (ram (sys_drv y)) (tx_dma_stream (sys_drv y))
     (buf_index (tx_dma_stream (sys_drv y))) =? 0)
  = (zlen (tx_queue w) =? dma_cpu_bufs (sys_drv y)).
Proof. intros Hr. rewrite (hr_tx_tail _ _ Hr). apply (ring_tail_full _ _ _ _ _ (hr_tx _ _ Hr)). Qed.

Lemma disjoint_sym n a b : disjoint_streams n a b → disjoint_streams n b a.
Proof. unfold disjoint_streams. tauto. Qed.

(** The relation does not look at the packet counters or at events that are
    not deliveries. *)
Lemma hw_rel_frame s s' dt dr w :
  ram s' = ram s → rx_dma_stream s' = rx_dma_stream s → tx_dma_stream s' = tx_dma_stream s →
  dma_cpu_bufs s' = dma_cpu_bufs s → iomap s' = iomap s → hw_state s' = hw_state s →
  netdevs_wf s' → received (trace s') = received (trace s) →
  hw_rel (mkSys s dt dr) w → hw_rel (mkSys s' dt dr) w.
Proof.
  intros E1 E2 E3 E4 E5 E6 Hnd E7 []. simpl in *. unfold io_valid in *.
  split; simpl; unfold io_valid; rewrite ?E1, ?E2, ?E3, ?E4, ?E5, ?E6, ?E7; auto.
Qed.

(** ** Transmission *)

Context (Hng : DRIVER_GHOST = false).

Lemma tx_op_range i : 0 ≤ i < 4 → 0 ≤ tx_set_src_iface 0 i < 2 ^ 32.
Proof.
  intros Hi. assert (i = 0 ∨ i = 1 ∨ i = 2 ∨ i = 3) as [-> | [-> | [-> | ->] ] ] by lia; done.
Qed.

(** Filling the tail slot of the TX ring keeps the rest of the relation. *)
Lemma hw_put_rel s s' dt dr w bs op :
  hw_rel (mkSys s dt dr) w → zlen bs ≤ 2048 → 0 ≤ op < 2 ^ 32 →
  zlen (tx_queue w) < dma_cpu_bufs s →
  ram s' = mput (ram s) (tx_dma_stream s) (buf_index (tx_dma_stream s)) bs op 0 →
  tx_dma_stream s' = advance (dma_cpu_bufs s) (tx_dma_stream s) →
  rx_dma_stream s' = rx_dma_stream s → dma_cpu_bufs s' = dma_cpu_bufs s →
  iomap s' = iomap s → hw_state s' = hw_state s → netdevs_wf s' →
  received (trace s') = received (trace s) →
  hw_rel (mkSys s' dt dr)
    (mkHw (tx_accepted w ++ [(bs, op)]) (tx_taken w) (tx_queue w ++ [(bs, op)])
       (rx_arrived w) (rx_queue w) (rx_out w)).
Proof.
  intros [Htx Htail Hrx Hrtail H01 Hdis _ Hhw Htb Hrb Hout] Hbs Hop Hroom Er Et Erx En Eio Eh
    Hnd Etr. simpl in *.
  pose proof (r_wf _ _ _ _ _ Htx) as Hwf. pose proof (r_wf _ _ _ _ _ Hrx) as Hwfr.
  pose proof (wf_bufs _ _ _ Hwf) as Hn. pose proof (wf_index _ _ _ Hwf) as Hidx.
  pose proof (zlen_nonneg (tx_queue w)). apply disjoint_sym in Hdis as Hdis'.
  unfold io_valid in *.
  split; simpl; unfold io_valid; rewrite ?Er, ?Et, ?Erx, ?En, ?Eio, ?Eh, ?Etr; auto.
  - apply ring_advance. rewrite Htail. by apply (@ring_produce tx_polarity).
  - simpl. rewrite next_index_val, zlen_app by done. rewrite Htail.
    fold (ix (dma_cpu_bufs s) (ix (dma_cpu_bufs s) dt (zlen (tx_queue w))) 1).
    by rewrite ix_ix by lia.
  - by apply (mput_frame _ (dma_cpu_bufs s)).
  - intros j Hj. unfold mput, upd32.
    destruct Hwf as [_ _ Hmd Hfl _].
    repeat match goal with |- context [flag_at (upd ?m ?a ?b) ?st j] =>
      destruct (slot_frame m (dma_cpu_bufs s) st) with a b j as (-> & _);
        [auto using stream_wf_upd| |done|] end; [..|by auto];
      unfold outside, disjoint_streams, flag_addr in *;
      rewrite ?meta_addr_val, ?buf_addr_val, ?Hmd, ?Hfl, ?zlen_le_split by lia;
      rewrite ?offset_length, ?offset_opCode; lia.
Qed.

Lemma hw_xmit s dt dr w i p skb :
  hw_rel (mkSys s dt dr) w → skb_ok i skb → iface_of s i p →
  ∃ s', nf10_ndo_start_xmit skb p s = Ok NETDEV_TX_OK s' ∧
    hw_rel (mkSys s' dt dr) (spec_xmit (dma_cpu_bufs s) i skb w) ∧
    dma_cpu_bufs s' = dma_cpu_bufs s ∧ nf10_netdevs s' = nf10_netdevs s.
Proof.
  intros Hrel (Hi & Hlen & bs & Hbs) Hp. pose proof Hrel as [Htx Htail _ _ _ _ Hnd Hhw Htb _ _].
  simpl in *. pose proof (r_wf _ _ _ _ _ Htx) as Hwf.
  assert (is_Some (netdevs s !! p)) as [d Hd].
  { apply (nw_live s Hnd). eapply list_elem_of_lookup_2, Hp. }
  unfold spec_xmit, xmit_packet, NF10_PKT_SIZE_MIN, NF10_PKT_SIZE_MAX. rewrite Hbs.
  destruct (decide (33 ≤ skb_len skb ≤ 1514)) as [Hl|Hl].
  2: { eexists. split; [by apply start_xmit_bad_length|].
       assert ((skb_len skb <? 33) || (1514 <? skb_len skb) = true) as ->.
       { apply orb_true_iff. rewrite !Z.ltb_lt. lia. }
       split; [|done]. apply (hw_rel_frame s); auto. by eapply netdevs_wf_insert. }
  decide_test (skb_len skb <? 33) false. decide_test (1514 <? skb_len skb) false. simpl.
  pose proof (hw_tx_full _ _ Hrel) as Hfull. simpl in Hfull.
  pose proof (r_bound _ _ _ _ _ Htx) as Hb.
  destruct (Z.ltb_spec (zlen (tx_queue w)) (dma_cpu_bufs s)) as [Hroom|Hno].
  - rewrite (proj2 (Z.eqb_neq (zlen (tx_queue w)) (dma_cpu_bufs s))) in Hfull by lia.
    apply Z.eqb_neq in Hfull.
    eexists. split; [by eapply start_xmit_sent|]. split; [|done].
    apply (hw_put_rel s); auto.
    + rewrite (tx_bytes_len skb Hl bs Hbs). lia.
    + by apply tx_op_range.
    + by eapply netdevs_wf_insert.
  - rewrite (proj2 (Z.eqb_eq (zlen (tx_queue w)) (dma_cpu_bufs s))) in Hfull by lia.
    apply Z.eqb_eq in Hfull.
    eexists. split; [by eapply start_xmit_full|]. split; [|done].
    apply (hw_rel_frame s); auto. by eapply netdevs_wf_insert.
Qed.

(** ** The device's steps *)

(** A flag written in one ring leaves the flags of the other alone. *)
Lemma flag_at_mflag_other m n st st' i fl j :
  stream_wf m n st → stream_wf m n st' → disjoint_streams n st st' →
  0 ≤ i < n → 0 ≤ j < n → flag_at (mflag m st' i fl) st j = flag_at m st j.
Proof.
  intros Hwf [Hn _ _ Hfl _] Hd Hi Hj. unfold mflag, upd32.
  destruct (slot_frame m n st Hwf (flag_addr st' i) (le_split 4 fl) j) as (-> & _); auto.
  unfold outside, disjoint_streams, flag_addr in *. rewrite Hfl, zlen_le_split. lia.
Qed.

Lemma ix_next n h : 1 ≤ n ≤ DMA_CPU_BUFS → 0 ≤ h < n → next_index n h = ix n h 1.
Proof. intros Hn Hh. by rewrite next_index_val. Qed.

Lemma hw_taken s dt dr w v :
  hw_rel (mkSys s dt dr) w → flag_at (ram s) (tx_dma_stream s) dt = 0 → 0 < v < 2 ^ 32 →
  ∃ p q, tx_queue w = p :: q ∧
    hw_rel (mkSys (set_ram (mflag (ram s) (tx_dma_stream s) dt v) s)
              (next_index (dma_cpu_bufs s) dt) dr)
      (mkHw (tx_accepted w) (tx_taken w ++ [p]) q (rx_arrived w) (rx_queue w) (rx_out w)).
Proof.
  intros [Htx Htail Hrx Hrtail H01 Hdis Hnd Hhw Htb Hrb Hout] Hfl Hv. simpl in *.
  pose proof (r_wf _ _ _ _ _ Htx) as Hwf. pose proof (r_wf _ _ _ _ _ Hrx) as Hwfr.
  pose proof (wf_bufs _ _ _ Hwf) as Hn. pose proof (r_head _ _ _ _ _ Htx) as Hh.
  apply disjoint_sym in Hdis as Hdis'.
  pose proof (ring_head_full _ _ _ _ _ Htx) as Hfull. simpl in Hfull. rewrite Hfl in Hfull.
  destruct (tx_queue w) as [|p q]; [done|]. exists p, q. split; [done|].
  split; simpl; auto.
  - rewrite ix_next by done. apply (@ring_consume tx_polarity) with p; auto. simpl.
    rewrite u32_small by lia. apply Z.eqb_neq. lia.
  - rewrite Htail, ix_next by done. rewrite <- ix_succ by lia.
    f_equal. unfold zlen. simpl length. lia.
  - by apply (mflag_frame _ (dma_cpu_bufs s)).
  - intros j Hj. rewrite (flag_at_mflag_other _ (dma_cpu_bufs s)) by done. auto.
  - destruct Hnd. by split.
Qed.

Lemma hw_arrive s dt dr w bs op :
  hw_rel (mkSys s dt dr) w → flag_at (ram s) (rx_dma_stream s) dr = 0 →
  zlen bs ≤ DMA_BUF_SIZE → 0 ≤ op < 2 ^ 32 →
  zlen (rx_queue w) < dma_cpu_bufs s ∧
  hw_rel (mkSys (set_ram (mput (ram s) (rx_dma_stream s) dr bs op 1) s) dt
            (next_index (dma_cpu_bufs s) dr))
    (mkHw (tx_accepted w) (tx_taken w) (tx_queue w)
       (rx_arrived w ++ [(bs, op)]) (rx_queue w ++ [(bs, op)]) (rx_out w)).
Proof.
  unfold DMA_BUF_SIZE.
  intros [Htx Htail Hrx Hrtail H01 Hdis Hnd Hhw Htb Hrb Hout] Hfl Hbs Hop. simpl in *.
  pose proof (r_wf _ _ _ _ _ Htx) as Hwf. pose proof (r_wf _ _ _ _ _ Hrx) as Hwfr.
  pose proof (wf_bufs _ _ _ Hwf) as Hn. pose proof (zlen_nonneg (rx_queue w)).
  assert (0 ≤ dr < dma_cpu_bufs s) as Hdr by (rewrite Hrtail; apply ix_range; lia).
  pose proof (ring_tail_full _ _ _ _ _ Hrx) as Hfull. simpl in Hfull.
  rewrite <- Hrtail, Hfl in Hfull. symmetry in Hfull. apply Z.eqb_neq in Hfull.
  pose proof (r_bound _ _ _ _ _ Hrx) as Hb. assert (zlen (rx_queue w) < dma_cpu_bufs s) by lia.
  split; [done|]. split; simpl; auto.
  - by apply (mput_frame _ (dma_cpu_bufs s)).
  - rewrite Hrtail. by apply (@ring_produce rx_polarity).
  - rewrite ix_next, Hrtail, ix_ix, zlen_app by (done || lia). done.
  - intros j Hj. rewrite (flag_at_mput _ _ _ Hwfr) by auto.
    destruct (_ =? j); [by right|auto].
  - destruct Hnd. by split.
Qed.

(** ** Polling *)

Lemma received_bell_hw st tr : received (bell st ++ tr) = received tr.
Proof. unfold bell. by rewrite Hng. Qed.

(** Releasing the head slot keeps the rest of the relation. *)
Lemma hw_released_rel s s' dt dr w p q out :
  hw_rel (mkSys s dt dr) w → rx_queue w = p :: q →
  ram s' = ram (released s) → rx_dma_stream s' = rx_dma_stream (released s) →
  tx_dma_stream s' = tx_dma_stream s → dma_cpu_bufs s' = dma_cpu_bufs s →
  iomap s' = iomap s → hw_state s' = hw_state s → netdevs_wf s' →
  received (trace s') = out →
  hw_rel (mkSys s' dt dr)
    (mkHw (tx_accepted w) (tx_taken w) (tx_queue w) (rx_arrived w) q out).
Proof.
  intros [Htx Htail Hrx Hrtail H01 Hdis _ Hhw Htb Hrb Hout] Hq Er Erx Et En Eio Eh Hnd Htr.
  simpl in *. rewrite Hq in *.
  pose proof (r_wf _ _ _ _ _ Htx) as Hwf. pose proof (r_wf _ _ _ _ _ Hrx) as Hwfr.
  pose proof (wf_bufs _ _ _ Hwf) as Hn. pose proof (wf_index _ _ _ Hwfr) as Hidx.
  unfold io_valid in *. split; simpl; unfold io_valid;
    rewrite ?Er, ?Erx, ?Et, ?En, ?Eio, ?Eh; simpl; auto.
  - by apply (mflag_frame _ (dma_cpu_bufs s)).
  - rewrite ix_next by done. apply ring_advance. by apply (@ring_consume rx_polarity) with p.
  - rewrite Hrtail, ix_next by done. rewrite <- ix_succ by lia.
    f_equal. unfold zlen. simpl length. lia.
  - intros j Hj.
    change (flag_at ?m (advance _ _) j) with (flag_at m (rx_dma_stream s) j).
    rewrite (flag_at_mflag _ _ _ Hwfr) by auto. destruct (_ =? j); [by left|auto].
Qed.

(** One iteration: the packet for an interface asks for a buffer. *)
Lemma hw_body s dt dr w p q n_rx :
  hw_rel (mkSys s dt dr) w → rx_queue w = p :: q →
  ∃ s' n' ans out, poll_body n_rx (buf_index (rx_dma_stream s)) s
                   = Ok (n', buf_index (rx_dma_stream s')) s' ∧
    skb_answers (trace s') = skb_answers (trace s) ++ ans ∧
    match rx_target (nf10_netdevs s) p with
    | None => n' = n_rx ∧ ans = [] ∧ out = []
    | Some o => (n' = n_rx ∧ ans = [false] ∧ out = []) ∨ (n' = n_rx + 1 ∧ ans = [true] ∧ out = [o])
    end ∧
    hw_rel (mkSys s' dt dr)
      (mkHw (tx_accepted w) (tx_taken w) (tx_queue w) (rx_arrived w) q (rx_out w ++ out)) ∧
    dma_cpu_bufs s' = dma_cpu_bufs s ∧ nf10_netdevs s' = nf10_netdevs s.
Proof.
  intros Hrel Hq. pose proof (hr_rx _ _ Hrel) as Hring. simpl in Hring. rewrite Hq in Hring.
  pose proof (r_wf _ _ _ _ _ Hring) as Hwf. pose proof (hr_out _ _ Hrel) as Hout. simpl in Hout.
  pose proof (hr_netdevs _ _ Hrel) as Hnd. simpl in Hnd.
  destruct (ring_head_slot _ _ _ _ _ _ Hring) as [Hslot Hlen].
  assert (doorbell_ok s) as Hdb by (right; apply (hr_rx_bell _ _ Hrel)).
  unfold rx_target, has_iface. destruct (rx_get_dst_iface_range p.2) as [Hok|Hbad].
  2: { rewrite Hbad. change (u32 (-1) <? 4) with false. cbv iota.
    exists (body_lost s), n_rx, [], []. rewrite !app_nil_r. split; [|split; [|split; [done|split; [|done]]]].
    + apply (poll_body_bad_iface s Hwf Hdb). by rewrite Hslot.
    + simpl. by rewrite skb_answers_bell.
    + apply (hw_released_rel s) with p; auto; [by destruct Hnd|].
      simpl. rewrite received_bell_hw. done. }
  decide_test (rx_get_dst_iface p.2 <? 4) true.
  destruct (iface_lookup s _ Hnd Hok) as (ptr & d & Hi & Hd).
  destruct (k_dev_alloc_skb (trace s) (slot_len (ram s) (rx_dma_stream s)
    (buf_index (rx_dma_stream s)))) eqn:Hk.
  - exists (body_delivered s ptr d), (n_rx + 1), [true], [deliver (nf10_netdevs s) p].
    split; [|split; [|split; [by right|split; [|done]]]].
    + apply (poll_body_delivered s Hwf Hdb) with (rx_get_dst_iface p.2); auto;
        [by rewrite Hslot|]. apply (valid_buf _ _ _ Hwf); [apply Hwf|done].
    + simpl. by rewrite skb_answers_bell.
    + apply (hw_released_rel s) with p; auto; [by eapply netdevs_wf_insert|].
      unfold body_delivered. rewrite Hslot. simpl. rewrite received_bell_hw. simpl.
      rewrite Hout. unfold deliver. destruct Hi as [_ Hptr]. by rewrite nth_lookup, Hptr.
  - exists (body_noskb s ptr d), n_rx, [false], []. rewrite app_nil_r.
    split; [|split; [|split; [by left|split; [|done]]]].
    + apply (poll_body_no_skb s Hwf Hdb) with (rx_get_dst_iface p.2); auto. by rewrite Hslot.
    + simpl. by rewrite skb_answers_bell.
    + apply (hw_released_rel s) with p; auto; [by eapply netdevs_wf_insert|].
      simpl. by rewrite received_bell_hw.
Qed.

Lemma hw_loop fuel budget n_rx s dt dr w :
  (length (rx_queue w) < fuel)%nat → hw_rel (mkSys s dt dr) w →
  ∃ k s' ans out rest, poll_loop fuel budget n_rx (buf_index (rx_dma_stream s)) s
          = Ok (k, buf_index (rx_dma_stream s')) s' ∧
    skb_answers (trace s') = skb_answers (trace s) ++ ans ∧
    polls (rx_target (nf10_netdevs s)) (budget - n_rx) (rx_queue w) ans out rest ∧
    hw_rel (mkSys s' dt dr)
      (mkHw (tx_accepted w) (tx_taken w) (tx_queue w) (rx_arrived w) rest (rx_out w ++ out)) ∧
    dma_cpu_bufs s' = dma_cpu_bufs s ∧ nf10_netdevs s' = nf10_netdevs s.
Proof.
  revert n_rx s w. induction fuel as [|fuel IH]; intros n_rx s w Hf Hrel; [lia|].
  pose proof (hr_rx _ _ Hrel) as Hring. simpl in Hring.
  pose proof (r_wf _ _ _ _ _ Hring) as Hwf. simpl poll_loop.
  assert (hw_rel (mkSys s dt dr)
    (mkHw (tx_accepted w) (tx_taken w) (tx_queue w) (rx_arrived w) (rx_queue w)
       (rx_out w ++ []))) as Hsame by (rewrite app_nil_r; by destruct w).
  destruct (Z.ltb_spec n_rx budget) as [Hlt|Hge].
  2: { exists n_rx, s, [], [], (rx_queue w). rewrite app_nil_r in Hsame. rewrite !app_nil_r.
       split; [done|]. split; [done|]. split; [constructor; lia|done]. }
  step idtac. step ltac:(apply (valid_flag _ _ _ Hwf); apply Hwf).
  pose proof (ring_head_full _ _ _ _ _ Hring) as Hfull. simpl in Hfull. unfold flag_at in Hfull.
  rewrite Hfull. destruct (rx_queue w) as [|p q] eqn:Hq.
  { rewrite bool_decide_true by done. exists n_rx, s, [], [], []. rewrite app_nil_r in Hsame. rewrite !app_nil_r.
    split; [done|]. split; [done|]. split; [constructor|done]. }
  rewrite bool_decide_false by done. cbn [negb]. cbv iota.
  destruct (hw_body s dt dr w p q n_rx Hrel Hq)
    as (s1 & n1 & a1 & o1 & Hrun & Ha1 & Hcase & Hrel1 & Hn1 & Hp1).
  erewrite bind_ok by exact Hrun. simpl.
  edestruct (IH n1 s1) as (k & s' & a' & o' & rest & Hrun' & Ha' & Hpolls & Hrel' & Hn' & Hp');
    [|exact Hrel1|]; [simpl in *; lia|].
  simpl in *. rewrite Hp1 in Hpolls. exists k, s', (a1 ++ a'), (o1 ++ o'), rest.
  split; [done|]. split; [by rewrite Ha', Ha1, <- app_assoc|]. rewrite <- app_assoc in Hrel'.
  split; [|split; [done|split; congruence]].
  destruct (rx_target (nf10_netdevs s) p) as [o|] eqn:Ht.
  - destruct Hcase as [(-> & -> & ->)|(-> & -> & ->)];
      [eapply PollsRefused|eapply PollsDelivered]; (lia || done || idtac).
    by replace (budget - n_rx - 1) with (budget - (n_rx + 1)) by lia.
  - destruct Hcase as (-> & -> & ->). apply PollsStray; [lia|done..].
Qed.

Lemma hw_poll s dt dr w budget :
  hw_rel (mkSys s dt dr) w →
  ∃ r s' ans out rest, nf10_napi_struct_poll budget s = Ok r s' ∧
    skb_answers (trace s') = skb_answers (trace s) ++ ans ∧
    polls (rx_target (nf10_netdevs s)) budget (rx_queue w) ans out rest ∧
    hw_rel (mkSys s' dt dr)
      (mkHw (tx_accepted w) (tx_taken w) (tx_queue w) (rx_arrived w) rest (rx_out w ++ out)) ∧
    dma_cpu_bufs s' = dma_cpu_bufs s ∧ nf10_netdevs s' = nf10_netdevs s.
Proof.
  intros Hrel. pose proof (hr_rx _ _ Hrel) as Hring. simpl in Hring.
  pose proof (r_bound _ _ _ _ _ Hring) as Hb.
  unfold nf10_napi_struct_poll. step idtac. step idtac.
  rewrite rx_index_small by apply Hring.
  destruct (hw_loop (S (Z.to_nat (dma_cpu_bufs s))) budget 0 s dt dr w)
    as (k & s' & ans & out & rest & Hrun & Ha & Hpolls & Hrel' & Hn' & Hp');
    [unfold zlen in Hb; lia|done|].
  rewrite Z.sub_0_r in Hpolls. erewrite bind_ok by exact Hrun. simpl. step idtac.
  pose proof (r_wf _ _ _ _ _ (hr_rx _ _ Hrel')) as Hwf'.
  step ltac:(apply (valid_flag _ _ _ Hwf'); apply Hwf').
  destruct (_ =? 0).
  - steps idtac. do 2 eexists. exists ans, out, rest. do 3 (split; [done|]). split; [|done].
    apply (hw_rel_frame s'); auto. by destruct (hr_netdevs _ _ Hrel').
  - by exists k, s', ans, out, rest.
Qed.

(** ** Simulation *)

Lemma hw_step_simulated y l y' w :
  hw_rel y w → hw_step y l y' →
  ∃ w', spec_step (dma_cpu_bufs (sys_drv y)) (nf10_netdevs (sys_drv y)) w l w' ∧
        hw_rel y' w' ∧
        dma_cpu_bufs (sys_drv y') = dma_cpu_bufs (sys_drv y) ∧
        nf10_netdevs (sys_drv y') = nf10_netdevs (sys_drv y).
Proof.
  intros Hrel Hstep. destruct Hstep as [s dt dr i p skb r s' Hok Hp Hrun
    |s dt dr b ans r s' Hrun Hans|s dt dr v Hfl Hv|s dt dr bs op Hfl Hbs Hop]; simpl.
  - destruct (hw_xmit s dt dr w i p skb Hrel Hok Hp) as (s1 & Hrun1 & Hrel1 & Hn & Hnd).
    rewrite Hrun in Hrun1. injection Hrun1 as -> ->. eexists. split; [constructor|done].
  - destruct (hw_poll s dt dr w b Hrel)
      as (r1 & s1 & ans1 & out & rest & Hrun1 & Ha & Hpolls & Hrel1 & Hn & Hnd).
    rewrite Hrun in Hrun1. injection Hrun1 as -> ->. rewrite Hans in Ha.
    apply app_inv_head in Ha as ->. eexists. split; [by constructor|done].
  - destruct (hw_taken s dt dr w v Hrel Hfl Hv) as (p & q & Hq & Hrel').
    eexists. split; [by econstructor|done].
  - destruct (hw_arrive s dt dr w bs op Hrel Hfl Hbs Hop) as [Hroom Hrel'].
    eexists. split; [by constructor|done].
Qed.

Inductive hw_run : system → list label → system → Prop :=
  | RunNil y : hw_run y [] y
  | RunCons y l y1 ls y2 : hw_step y l y1 → hw_run y1 ls y2 → hw_run y (l :: ls) y2.

Inductive spec_run (n : Z) (ptrs : list Z) : hw → list label → hw → Prop :=
  | SpecNil w : spec_run n ptrs w [] w
  | SpecCons w l w1 ls w2 :
      spec_step n ptrs w l w1 → spec_run n ptrs w1 ls w2 → spec_run n ptrs w (l :: ls) w2.

Lemma hw_run_simulated y ls y' w :
  hw_rel y w → hw_run y ls y' →
  ∃ w', spec_run (dma_cpu_bufs (sys_drv y)) (nf10_netdevs (sys_drv y)) w ls w' ∧ hw_rel y' w'.
Proof.
  intros Hrel Hrun. revert w Hrel.
  induction Hrun as [y|y l y1 ls y2 Hstep _ IH]; intros w Hrel.
  { exists w. split; [constructor|done]. }
  destruct (hw_step_simulated y l y1 w Hrel Hstep) as (w1 & Hs & Hrel1 & Hn & Hnd).
  destruct (IH w1 Hrel1) as (w2 & Hs2 & Hrel2). rewrite Hn, Hnd in Hs2.
  exists w2. split; [by econstructor|done].
Qed.

(** The answers of [dev_alloc_skb] in a run. *)
Fixpoint answers (ls : list label) : list bool :=
  match ls with
  | [] => []
  | LPoll _ ans :: ls => ans ++ answers ls
  | _ :: ls => answers ls
  end.

Lemma rx_targets ptrs l :
  omap (rx_target ptrs) l = map (deliver ptrs) (filter (λ p, has_iface p = true) l).
Proof.
  induction l as [|p l IH]; [done|]. simpl omap. unfold rx_target at 1.
  destruct (has_iface p) eqn:Hp.
  - rewrite filter_cons_True by done. simpl. f_equal. exact IH.
  - rewrite filter_cons_False by (by rewrite Hp). exact IH.
Qed.

(** The queues of the specification reorder nothing and lose only what was
    refused a buffer: [ans] has one answer for each packet that was polled and
    has an interface. *)
Definition fifo (ptrs : list Z) (ans : list bool) (w : hw) : Prop :=
  tx_accepted w = tx_taken w ++ tx_queue w ∧
  ∃ polled, rx_arrived w = polled ++ rx_queue w ∧
    length ans = length (omap (rx_target ptrs) polled) ∧
    rx_out w = granted ans (omap (rx_target ptrs) polled).

Lemma spec_step_fifo n ptrs w l w' ans :
  spec_step n ptrs w l w' → fifo ptrs ans w → fifo ptrs (ans ++ answers [l]) w'.
Proof.
  intros Hs [Htx (polled & Hrx & Hl & Hout)].
  destruct Hs as [w i skb|w p q Hq|w p Hroom|w b ans' out rest Hp]; unfold fifo in *; simpl;
    rewrite ?app_nil_r.
  - unfold spec_xmit. destruct (xmit_packet i skb) as [p|]; [|eauto].
    destruct (_ <? n); simpl; [|eauto]. rewrite Htx, app_assoc. eauto.
  - rewrite Htx, Hq, <- app_assoc. eauto.
  - split; [done|]. exists polled. by rewrite Hrx, app_assoc.
  - split; [done|]. destruct (polls_split _ _ _ _ _ _ Hp) as (front & Hq & Hl' & ->).
    exists (polled ++ front). rewrite Hrx, Hq, <- app_assoc, omap_app, !length_app, Hl, Hl', Hout.
    by rewrite granted_app.
Qed.

Lemma spec_run_fifo n ptrs w ls w' :
  spec_run n ptrs w ls w' → ∀ ans, fifo ptrs ans w → fifo ptrs (ans ++ answers ls) w'.
Proof.
  induction 1 as [w|w l w1 ls w2 Hs _ IH]; intros ans Hf; [by rewrite app_nil_r|].
  replace (ans ++ answers (l :: ls)) with ((ans ++ answers [l]) ++ answers ls).
  - eapply IH, spec_step_fifo; eauto.
  - rewrite <- app_assoc. f_equal. destruct l; simpl; rewrite ?app_nil_r; done.
Qed.

(** ** A device that [probe] has brought up *)

Lemma ring_empty_tx m n st :
  stream_wf m n st → (∀ j, 0 ≤ j < n → flag_at m st j ≠ 0) →
  @ring tx_polarity m n st (buf_index st) [].
Proof.
  intros Hwf Hfl. pose proof (wf_bufs _ _ _ Hwf) as Hn.
  split; auto; [apply Hwf|unfold zlen; simpl; lia|done|].
  intros k Hk. simpl. apply Z.eqb_neq, Hfl, ix_range. lia.
Qed.

Definition hw_idle (out : list (Z * list Z)) : hw := mkHw [] [] [] [] [] out.

Lemma device_up_rel s :
  device_up s → flags_initial s →
  disjoint_streams (dma_cpu_bufs s) (tx_dma_stream s) (rx_dma_stream s) → netdevs_wf s →
  hw_rel (mkSys s (buf_index (tx_dma_stream s)) (buf_index (rx_dma_stream s)))
    (hw_idle (received (trace s))).
Proof.
  intros [Hhw _ Htx Hrx Htb Hrb _] Hfl Hd Hnd. split; simpl; auto.
  - apply ring_empty_tx; [done|]. intros j Hj. apply Hfl. done.
  - symmetry. apply ix_0. apply Htx.
  - apply ring_empty; [done|]. intros j Hj. apply Hfl. done.
  - symmetry. apply ix_0. apply Hrx.
  - intros j Hj. left. apply Hfl. done.
Qed.

End Hw.
