(* ===== verification/Module.v ===== *)
(** * Loading and unloading the module

    [nf10_netdev_init], [nf10_eth_driver_init], [nf10_eth_driver_exit] and
    [read_proc].  Registering the PCI driver makes the PCI core call [probe]
    when a device is present, and bind the device when [probe] does not return
    an error; unregistering it calls [remove] on a bound device. *)

From S2P Require Import Prelude Mem Occp Kernel Packet Stream Xmit Poll Ring Ghost Genl Probe.

Definition IFF_NOARP : Z := 0x80.

(** A zeroed [struct net_device]; [dev_addr] has [MAX_ADDR_LEN] bytes. *)
Definition MAX_ADDR_LEN : Z := 32.
Definition blank_netdev : net_device :=
  mkNetDevice (replicate (Z.to_nat MAX_ADDR_LEN) 0) 0 0 0 0 false false 0
    (mkStats 0 0 0 0 0 0).

Section Module.
Context `{Kernel}.

Definition nf10_netdev_init (d : net_device) : net_device :=
  let d := k_ether_setup d in
  let d := set_netdev_ops true d in
  let d := if DRIVER_GHOST || DRIVER_LOOPB then
             let d := set_header_ops true d in
             set_nd_flags (Z.lor (nd_flags d) IFF_NOARP) d
           else d in
  set_watchdog_timeo (s32 (5 * k_HZ)) d.

(** ** Kernel services *)

(** [alloc_netdev] zeroes the structure and calls the setup function. *)
Definition alloc_netdev : M Z :=
  p <- call k_alloc_netdev EvAllocNetdev ;;
  (if p =? 0 then ret tt
   else modify (λ s, set_netdevs (<[p := nf10_netdev_init blank_netdev]> (netdevs s)) s)) ;;
  ret p.

Definition free_netdev (p : Z) : M unit :=
  emit (EvFreeNetdev p) ;; modify (λ s, set_netdevs (delete p (netdevs s)) s).

Definition register_netdev (p : Z) : M Z := call k_register_netdev (EvRegisterNetdev p).

Definition unregister_netdev (p : Z) : M unit := emit (EvUnregisterNetdev p).

Definition pci_register_driver : M Z :=
  err <- call k_pci_register_driver EvPciRegister ;;
  if negb (err =? 0) then ret err
  else
    present <- ask k_pci_device_present ;;
    (if present then
       r <- probe ;; modify (set_pci_bound (0 <=? r))
     else ret tt) ;;
    ret 0.

Definition pci_unregister_driver : M unit :=
  emit EvPciUnregister ;;
  bound <- get pci_bound ;;
  if bound then remove ;; modify (set_pci_bound false) else ret tt.

(** ** Loops over the interfaces *)

(** [for(i = i-1; i >= 0; i--) f(nf10_netdevs[i]);] entered with [i = k]. *)
Fixpoint for_down (f : Z → M unit) (k : nat) : M unit :=
  match k with
  | O => ret tt
  | S k => p <- netdev_ptr (Z.of_nat k) ;; f p ;; for_down f k
  end.

(** [for(i = 0; i < NUM_NETDEVS; i++) f(nf10_netdevs[i]);], [k] rounds left. *)
Fixpoint for_up (f : Z → M unit) (i : Z) (k : nat) : M unit :=
  match k with
  | O => ret tt
  | S k => p <- netdev_ptr i ;; f p ;; for_up f (i + 1) k
  end.

Definition each_netdev (f : Z → M unit) : M unit := for_up f 0 (Z.to_nat NUM_NETDEVS).

(** ** [nf10_eth_driver_init], phase by phase; [Some err] is an early return *)

Fixpoint init_alloc (i : Z) (k : nat) : M (option Z) :=
  match k with
  | O => ret None
  | S k =>
      p <- alloc_netdev ;;
      modify (λ s, set_nf10_netdevs (<[Z.to_nat i := p]> (nf10_netdevs s)) s) ;;
      if p =? 0 then
        for_down free_netdev (Z.to_nat i) ;;
        pci_unregister_driver ;;
        ret (Some (- ENOMEM))
      else init_alloc (i + 1) k
  end.

(** [memset], [snprintf] and [memcpy] of interface [i]'s address. *)
Fixpoint init_macs (mac_addr_len i : Z) (k : nat) : M unit :=
  match k with
  | O => ret tt
  | S k =>
      p <- netdev_ptr i ;;
      d <- netdev_get p ;;
      (if zlen (dev_addr d) <? mac_addr_len then fault
       else netdev_upd p (λ d, set_dev_addr
              (zcopy (dev_addr d) 0 (init_mac_addr mac_addr_len i)) d)) ;;
      init_macs mac_addr_len (i + 1) k
  end.

(** The loop [for(i = 0; i < NUM_NETDEVS; i++);] has an empty body: the
    [free_netdev] below it runs once, with [i = NUM_NETDEVS]. *)
Fixpoint init_register (i : Z) (k : nat) : M (option Z) :=
  match k with
  | O => ret None
  | S k =>
      p <- netdev_ptr i ;;
      err <- register_netdev p ;;
      if negb (err =? 0) then
        for_down unregister_netdev (Z.to_nat i) ;;
        emit EvNapiDel ;;
        q <- netdev_ptr NUM_NETDEVS ;;
        free_netdev q ;;
        pci_unregister_driver ;;
        ret (Some err)
      else init_register (i + 1) k
  end.

(** The cleanup of the two generic netlink failures. *)
Definition drop_netdevs : M unit :=
  each_netdev unregister_netdev ;;
  emit EvNapiDel ;;
  each_netdev free_netdev ;;
  pci_unregister_driver.

Definition genl_register_family : M Z := call k_genl_register_family EvGenlRegFamily.
Definition genl_unregister_family : M Z := call k_genl_unregister_family EvGenlUnregFamily.
Definition genl_register_ops (cmd : Z) : M Z :=
  call (λ tr, k_genl_register_ops tr cmd) (EvGenlRegOps cmd).

Fixpoint init_ops (cmds : list Z) : M (option Z) :=
  match cmds with
  | [] => ret None
  | c :: cmds =>
      err <- genl_register_ops c ;;
      if negb (err =? 0) then
        _ <- genl_unregister_family ;;
        drop_netdevs ;;
        ret (Some err)
      else init_ops cmds
  end.

(** From the generic netlink family to the end. *)
Definition init_services : M Z :=
  err <- genl_register_family ;;
  if negb (err =? 0) then drop_netdevs ;; ret err
  else
    r <- init_ops (map fst genl_all_ops) ;;
    match r with
    | Some err => ret err
    | None =>
        emit EvProcCreate ;;
        emit EvNapiEnable ;;
        if DRIVER_GHOST then enable_ghosting else pci_register_driver
    end.

Definition nf10_eth_driver_init : M Z :=
  r <- init_alloc 0 (Z.to_nat NUM_NETDEVS) ;;
  match r with
  | Some err => ret err
  | None =>
      p0 <- netdev_ptr 0 ;;
      d0 <- netdev_get p0 ;;
      let mac_addr_len := u32 (addr_len d0) in
      init_macs mac_addr_len 0 (Z.to_nat NUM_NETDEVS) ;;
      emit (EvNapiAdd p0 RX_POLL_WEIGHT) ;;
      r <- init_register 0 (Z.to_nat NUM_NETDEVS) ;;
      match r with
      | Some err => ret err
      | None => init_services
      end
  end.

Definition nf10_eth_driver_exit : M unit :=
  emit EvNapiDisable ;;
  emit EvDelTimer ;;
  emit EvProcRemove ;;
  _ <- genl_unregister_family ;;
  each_netdev unregister_netdev ;;
  emit EvNapiDel ;;
  each_netdev free_netdev ;;
  if DRIVER_GHOST then _ <- disable_ghosting ;; ret tt else pci_unregister_driver.

(** ** [read_proc]: the text it writes *)

(** ["\t%d: %d\n"] *)
Definition flag_line (i v : Z) : list Z := [9] ++ fmt_d i ++ [58; 32] ++ fmt_d (s32 v) ++ [10].

Fixpoint flag_lines (st : dma_stream) (i : Z) (k : nat) : M (list Z) :=
  match k with
  | O => ret []
  | S k =>
      v <- rd32 (flag_addr st i) ;;
      rest <- flag_lines st (i + 1) k ;;
      ret (flag_line i v ++ rest)
  end.

(** ["NetFPGA-10G Ethernet Driver\n-----------------------------\n"] *)
Definition proc_title : list Z :=
  [78; 101; 116; 70; 80; 71; 65; 45; 49; 48; 71; 32; 69; 116; 104; 101; 114; 110; 101;
   116; 32; 68; 114; 105; 118; 101; 114; 10] ++ replicate 29 45 ++ [10].

(** ["TX Flags:\n"] and ["RX Flags:\n"] *)
Definition flags_title (c : Z) : list Z := [c; 88; 32; 70; 108; 97; 103; 115; 58; 10].

Definition read_proc : M (list Z) :=
  n <- get dma_cpu_bufs ;;
  tx <- get tx_dma_stream ;;
  a <- flag_lines tx 0 (Z.to_nat n) ;;
  rx <- get rx_dma_stream ;;
  b <- flag_lines rx 0 (Z.to_nat n) ;;
  ret (proc_title ++ flags_title 84 ++ a ++ flags_title 82 ++ b).

(** ** Accounting *)

Inductive mres := MNetdev | MRegistered | MNapi | MFamily | MProc | MPciDriver.

Definition mdelta (r : mres) (e : event) : Z :=
  match r, e with
  | MNetdev, EvAllocNetdev p => if p =? 0 then 0 else 1
  | MNetdev, EvFreeNetdev _ => -1
  | MRegistered, EvRegisterNetdev _ err => if err =? 0 then 1 else 0
  | MRegistered, EvUnregisterNetdev _ => -1
  | MNapi, EvNapiAdd _ _ => 1
  | MNapi, EvNapiDel => -1
  | MFamily, EvGenlRegFamily err => if err =? 0 then 1 else 0
  | MFamily, EvGenlUnregFamily err => if err =? 0 then -1 else 0
  | MProc, EvProcCreate => 1
  | MProc, EvProcRemove => -1
  | MPciDriver, EvPciRegister err => if err =? 0 then 1 else 0
  | MPciDriver, EvPciUnregister => -1
  | _, _ => 0
  end.

Fixpoint mbalance (r : mres) (tr : list event) : Z :=
  match tr with [] => 0 | e :: tr => mdelta r e + mbalance r tr end.

Definition mneutral (e : event) : Prop := ∀ r, mdelta r e = 0.

Lemma mbalance_app r es tr : Forall mneutral es → mbalance r (es ++ tr) = mbalance r tr.
Proof. induction 1 as [|e es He _ IH]; simpl; [done|]. by rewrite He, IH. Qed.

Lemma emits_mbalance {A} (m : M A) s a s' r :
  emits mneutral m → m s = Ok a s' → mbalance r (trace s') = mbalance r (trace s).
Proof. intros Hm E. destruct (Hm _ _ _ E) as (es & -> & Hes). by apply mbalance_app. Qed.

(** Device bring-up and ghosting acquire nothing of the module's. *)
Local Ltac allowed := quiet ltac:(intros; by intros []).

Lemma probe_alloc_quiet fuel : emits mneutral (probe_alloc fuel).
Proof. induction fuel; simpl; unfold dma_alloc_coherent, dma_free_coherent; allowed. Qed.

Lemma write_controls_quiet bar v ws : emits mneutral (write_controls bar v ws).
Proof. induction ws; simpl; allowed. Qed.

Lemma check_workers_quiet bar f ws err : emits mneutral (check_workers bar f ws err).
Proof. revert err; induction ws; intros err; simpl; allowed. Qed.

Lemma write_props_quiet bar w ps : emits mneutral (write_props bar w ps).
Proof. induction ps; simpl; allowed. Qed.

Lemma ghost_alloc_quiet fuel : emits mneutral (ghost_alloc fuel).
Proof. induction fuel; simpl; unfold kmalloc; allowed. Qed.

#[local] Hint Resolve probe_alloc_quiet write_controls_quiet check_workers_quiet
  write_props_quiet ghost_alloc_quiet : emits.

Lemma remove_quiet : emits mneutral remove.
Proof.
  unfold remove, free_regions, release_bar0, dma_free_coherent, iounmap. allowed.
Qed.

Lemma probe_quiet : emits mneutral probe.
Proof.
  unfold probe, probe_map, pci_ioremap_bar, bring_up, reset_workers, configure_workers,
    start_poll_timer, free_regions, release_bar0, dma_free_coherent, iounmap. allowed.
Qed.

Lemma enable_ghosting_quiet : emits mneutral enable_ghosting.
Proof.
  unfold enable_ghosting, start_poll_timer. allowed.
Qed.

Lemma disable_ghosting_quiet : emits mneutral disable_ghosting.
Proof. unfold disable_ghosting, kfree. allowed. Qed.

(** Device bring-up does not touch the interfaces. *)
Definition keeps {A} (m : M A) : Prop :=
  ∀ s a s', m s = Ok a s' → nf10_netdevs s' = nf10_netdevs s ∧ netdevs s' = netdevs s.

Lemma keeps_bind {A B} (m : M A) (k : A → M B) :
  keeps m → (∀ a, keeps (k a)) → keeps (bind m k).
Proof.
  intros Hm Hk s b s2. unfold bind. destruct (m s) as [a s1| |] eqn:E; try done. intros E2.
  destruct (Hm _ _ _ E) as [E3 E4]. destruct (Hk _ _ _ _ E2) as [E5 E6]. by rewrite E5, E6.
Qed.

Create HintDb keeps.

#[local] Ltac keep :=
  repeat (intros; cbv beta iota zeta;
  lazymatch goal with
  | |- keeps (bind _ _) => apply keeps_bind
  | |- keeps (call _ _) => unfold call
  | |- keeps (match ?x with _ => _ end) => destruct x
  | |- keeps _ => solve [auto with keeps | intros ???;
        unfold ret, get, ask, fault, out_of_fuel, modify, emit, wr, wr32, rd32, rd, mmio_wr, mmio_rd;
        repeat case_match; intros [= _ <-]; split; reflexivity]
  end).

Lemma probe_alloc_keeps fuel : keeps (probe_alloc fuel).
Proof. induction fuel; simpl; unfold dma_alloc_coherent, dma_free_coherent; keep. Qed.

Lemma write_controls_keeps bar v ws : keeps (write_controls bar v ws).
Proof. induction ws; simpl; keep. Qed.

Lemma check_workers_keeps bar f ws err : keeps (check_workers bar f ws err).
Proof. revert err; induction ws; intros err; simpl; keep. Qed.

Lemma write_props_keeps bar w ps : keeps (write_props bar w ps).
Proof. induction ps; simpl; keep. Qed.

#[local] Hint Resolve probe_alloc_keeps write_controls_keeps check_workers_keeps
  write_props_keeps : keeps.

Lemma probe_keeps : keeps probe.
Proof.
  unfold probe, probe_map, pci_ioremap_bar, bring_up, reset_workers, configure_workers,
    start_poll_timer, free_regions, release_bar0, dma_free_coherent, iounmap. keep.
Qed.

(** ** Loops over the interfaces *)

Definition ptrs4 (s : drv) : Prop := length (nf10_netdevs s) = 4%nat.

Lemma ptrs4_get s i : ptrs4 s → 0 ≤ i < 4 → ∃ p, netdev_ptr i s = Ok p s.
Proof.
  intros Hl Hi. destruct (lookup_lt_is_Some_2 (nf10_netdevs s) (Z.to_nat i)) as [p Hp].
  { unfold ptrs4 in Hl. lia. }
  exists p. by apply netdev_ptr_ok.
Qed.

(** A loop whose body changes the balance by [c]. *)
Section Loops.
Context (f : Z → M unit) (c : mres → Z).
Context (Hf : ∀ p s, twp (f p) s (λ _ s', nf10_netdevs s' = nf10_netdevs s ∧
  ∀ r, mbalance r (trace s') = mbalance r (trace s) + c r)).

Lemma for_up_twp k i s :
  ptrs4 s → 0 ≤ i → i + Z.of_nat k ≤ 4 →
  twp (for_up f i k) s (λ _ s', nf10_netdevs s' = nf10_netdevs s ∧
    ∀ r, mbalance r (trace s') = mbalance r (trace s) + Z.of_nat k * c r).
Proof.
  revert i s. induction k as [|k IH]; intros i s Hl Hi Hk; simpl.
  { split; [done|]. intros r. lia. }
  destruct (ptrs4_get s i Hl) as [p Hp]; [lia|]. unfold twp. erewrite bind_ok by exact Hp.
  change (twp (f p ;; for_up f (i + 1) k) s (λ _ s', nf10_netdevs s' = nf10_netdevs s ∧
    ∀ r, mbalance r (trace s') = mbalance r (trace s) + Z.of_nat (S k) * c r)).
  eapply twp_seq; [apply Hf|]. intros [] s1 [E1 Hb1].
  eapply twp_mono; [apply IH; [unfold ptrs4; by rewrite E1|lia..]|].
  intros [] s2 [E2 Hb2]. split; [congruence|]. intros r. rewrite Hb2, Hb1. lia.
Qed.

Lemma for_down_twp k s :
  ptrs4 s → Z.of_nat k ≤ 4 →
  twp (for_down f k) s (λ _ s', nf10_netdevs s' = nf10_netdevs s ∧
    ∀ r, mbalance r (trace s') = mbalance r (trace s) + Z.of_nat k * c r).
Proof.
  revert s. induction k as [|k IH]; intros s Hl Hk; simpl.
  { split; [done|]. intros r. lia. }
  destruct (ptrs4_get s (Z.of_nat k) Hl) as [p Hp]; [lia|]. unfold twp.
  erewrite bind_ok by exact Hp.
  change (twp (f p ;; for_down f k) s (λ _ s', nf10_netdevs s' = nf10_netdevs s ∧
    ∀ r, mbalance r (trace s') = mbalance r (trace s) + Z.of_nat (S k) * c r)).
  eapply twp_seq; [apply Hf|]. intros [] s1 [E1 Hb1].
  eapply twp_mono; [apply IH; [unfold ptrs4; by rewrite E1|lia]|].
  intros [] s2 [E2 Hb2]. split; [congruence|]. intros r. rewrite Hb2, Hb1. lia.
Qed.

Lemma each_netdev_twp s :
  ptrs4 s →
  twp (each_netdev f) s (λ _ s', nf10_netdevs s' = nf10_netdevs s ∧
    ∀ r, mbalance r (trace s') = mbalance r (trace s) + 4 * c r).
Proof. intros Hl. by apply for_up_twp. Qed.

End Loops.

Definition c_unregister (r : mres) : Z := if r is MRegistered then -1 else 0.
Definition c_free (r : mres) : Z := if r is MNetdev then -1 else 0.

Lemma unregister_netdev_twp p s :
  twp (unregister_netdev p) s (λ _ s', nf10_netdevs s' = nf10_netdevs s ∧
    ∀ r, mbalance r (trace s') = mbalance r (trace s) + c_unregister r).
Proof. unfold unregister_netdev. twp_step. split; [done|]. intros []; simpl; lia. Qed.

Lemma free_netdev_twp p s :
  twp (free_netdev p) s (λ _ s', nf10_netdevs s' = nf10_netdevs s ∧
    ∀ r, mbalance r (trace s') = mbalance r (trace s) + c_free r).
Proof.
  unfold free_netdev. repeat twp_step. split; [done|]. intros []; simpl; lia.
Qed.

Lemma pci_unregister_run s :
  twp pci_unregister_driver s (λ _ s',
    ∀ r, mbalance r (trace s') = mbalance r (trace s) - (if r is MPciDriver then 1 else 0)).
Proof.
  unfold pci_unregister_driver. do 4 twp_step. twp_step.
  2: { simpl. intros []; simpl; lia. }
  twp_step. destruct (twp_run _ _ _ (remove_twp (set_trace (EvPciUnregister :: trace s) s)))
    as ([] & s' & Hrun & _).
  unfold twp. rewrite Hrun. simpl. intros r.
  rewrite (emits_mbalance _ _ _ _ r remove_quiet Hrun). destruct r; simpl; lia.
Qed.

Definition mheld (r : mres) : Z :=
  match r with
  | MNetdev | MRegistered => 4
  | MNapi | MFamily | MProc => 1
  | MPciDriver => if DRIVER_GHOST then 0 else 1
  end.

(** ** Allocating the interfaces *)

(** Interfaces allocated and not freed. *)
Fixpoint netdev_live (tr : list event) : list Z :=
  match tr with
  | [] => []
  | EvAllocNetdev p :: tr => p :: netdev_live tr
  | EvFreeNetdev p :: tr => filter (λ q, q ≠ p) (netdev_live tr)
  | _ :: tr => netdev_live tr
  end.

(** The allocator does not return a structure that is in use. *)
Definition alloc_fresh : Prop :=
  ∀ tr, k_alloc_netdev tr = 0 ∨ k_alloc_netdev tr ∉ netdev_live tr.

(** The first [i] interfaces are allocated and set up. *)
Record allocated (i : Z) (s : drv) : Prop := {
  al_len : ptrs4 s;
  al_nodup : NoDup (take (Z.to_nat i) (nf10_netdevs s));
  al_live : ∀ p, p ∈ take (Z.to_nat i) (nf10_netdevs s) →
    p ∈ netdev_live (trace s) ∧ netdevs s !! p = Some (nf10_netdev_init blank_netdev);
}.

Lemma allocated_0 s : ptrs4 s → allocated 0 s.
Proof.
  intros Hl. split; [done|constructor|]. intros p Hp. by apply elem_of_nil in Hp.
Qed.

Lemma take_insert_next (l : list Z) i p :
  0 ≤ i < zlen l →
  take (Z.to_nat (i + 1)) (<[Z.to_nat i := p]> l) = take (Z.to_nat i) l ++ [p].
Proof.
  unfold zlen. intros Hi. replace (Z.to_nat (i + 1)) with (S (Z.to_nat i)) by lia.
  erewrite take_S_r by (apply list_lookup_insert_eq; lia).
  by rewrite take_insert_ge by lia.
Qed.

Lemma allocated_next i p s :
  allocated i s → 0 ≤ i < 4 → p ∉ netdev_live (trace s) →
  allocated (i + 1)
    (set_nf10_netdevs (<[Z.to_nat i := p]> (nf10_netdevs s))
       (set_netdevs (<[p := nf10_netdev_init blank_netdev]> (netdevs s))
          (set_trace (EvAllocNetdev p :: trace s) s))).
Proof.
  intros [Hl Hnd Hlive] Hi Hp. unfold ptrs4 in *.
  assert (p ∉ take (Z.to_nat i) (nf10_netdevs s)) as Hnew by (intros Hin; by apply Hlive in Hin as [? _]).
  split; unfold ptrs4; simpl; rewrite ?length_insert, ?take_insert_next by (unfold zlen; lia).
  - done.
  - apply list.NoDup_app. split; [done|]. split; [|apply NoDup_singleton].
    intros q Hq Hq'. apply list_elem_of_singleton in Hq' as ->. done.
  - intros q Hq. apply elem_of_app in Hq as [Hq|Hq].
    + destruct (Hlive q Hq) as [Hin Hd]. split; [by apply list_elem_of_further|].
      by rewrite lookup_insert_ne by (intros ->; done).
    + apply list_elem_of_singleton in Hq as ->. split; [apply list_elem_of_here|].
      by rewrite lookup_insert_eq.
Qed.

Section Load.
Context (Hfresh : alloc_fresh).

(** A failed load undoes its own steps, and also unregisters a PCI driver that
    was never registered. *)
Definition unwound (s s' : drv) : Prop :=
  ∀ r, mbalance r (trace s') = mbalance r (trace s) - (if r is MPciDriver then 1 else 0).

(** The error of the service that made an unwound load fail. *)
Definition load_error (err : Z) : Prop :=
  err ≠ 0 ∧
  ((err = - ENOMEM ∧ ∃ tr, k_alloc_netdev tr = 0) ∨
   (∃ tr, k_genl_register_family tr = err) ∨ (∃ tr c, k_genl_register_ops tr c = err)).

Lemma alloc_netdev_twp s :
  twp alloc_netdev s (λ p s',
    (p = 0 ∧ k_alloc_netdev (trace s) = 0 ∧ s' = set_trace (EvAllocNetdev 0 :: trace s) s) ∨
    (p ≠ 0 ∧ (p ∉ netdev_live (trace s)) ∧
     s' = set_netdevs (<[p := nf10_netdev_init blank_netdev]> (netdevs s))
            (set_trace (EvAllocNetdev p :: trace s) s))).
Proof.
  unfold twp, alloc_netdev. step idtac.
  destruct (Z.eqb_spec (k_alloc_netdev (trace s)) 0) as [E|Hne]; [left; by rewrite E|].
  right. split; [done|]. split; [|done]. by destruct (Hfresh (trace s)).
Qed.

Lemma init_alloc_twp k i s :
  0 ≤ i → i + Z.of_nat k = 4 → allocated i s →
  twp (init_alloc i k) s (λ r s',
    match r with
    | None => allocated 4 s' ∧
        ∀ r, mbalance r (trace s') = mbalance r (trace s) + (if r is MNetdev then Z.of_nat k else 0)
    | Some e => load_error e ∧
        ∀ r, mbalance r (trace s') = mbalance r (trace s)
             - (match r with MPciDriver => 1 | MNetdev => i | _ => 0 end)
    end).
Proof.
  revert i s. induction k as [|k IH]; intros i s Hi Hk Hal.
  { replace i with 4 in Hal by lia. split; [done|]. intros []; simpl; lia. }
  simpl init_alloc. eapply twp_seq; [apply alloc_netdev_twp|].
  intros p s1 [(-> & Hz & ->)|(Hne & Hnew & ->)]; do 2 twp_step; simpl.
  - eapply twp_seq.
    { apply (for_down_twp _ _ free_netdev_twp); [|lia]. unfold ptrs4. simpl.
      rewrite length_insert. apply Hal. }
    intros [] s2 [_ Hb2]. eapply twp_seq; [apply pci_unregister_run|].
    intros [] s3 Hb3. split; [split; [done|eauto]|]. intros r. rewrite Hb3, Hb2. simpl.
    destruct r; simpl; lia.
  - rewrite (proj2 (Z.eqb_neq _ _) Hne).
    eapply twp_mono; [apply (IH (i + 1)); [lia..|apply allocated_next; auto; lia]|].
    intros [e|] s2 [He Hb]; (split; [done|]); intros r; rewrite Hb; destruct r; simpl;
      rewrite ?(proj2 (Z.eqb_neq _ _) Hne); lia.
Qed.

(** ** MAC addresses *)

(** Interface [j]'s structure. *)
Definition netdev_of (s : drv) (j : Z) (d : net_device) : Prop :=
  ∃ p, nf10_netdevs s !! Z.to_nat j = Some p ∧ netdevs s !! p = Some d.

(** The four interfaces are distinct and set up, with addresses of [w] bytes. *)
Record fresh_netdevs (w : Z) (s : drv) : Prop := {
  fn_wf : netdevs_wf s;
  fn_width : ∀ j d, 0 ≤ j < 4 → netdev_of s j d → zlen (dev_addr d) = w;
}.

Lemma allocated_wf s : allocated 4 s → netdevs_wf s.
Proof.
  intros [Hl Hnd Hlive]. unfold ptrs4 in Hl. rewrite take_ge in Hnd, Hlive by (rewrite Hl; lia).
  split; [done..|]. intros p Hp. destruct (Hlive p Hp) as [_ Hd]. by rewrite Hd.
Qed.

Lemma set_mac_wf w s p d v :
  fresh_netdevs w s → netdevs s !! p = Some d → zlen v = w →
  fresh_netdevs w (set_netdevs (<[p := set_dev_addr v d]> (netdevs s)) s).
Proof.
  intros [Hwf Hw] Hd Hv. split; [by eapply netdevs_wf_insert|].
  intros j e Hj (q & Hq & He). simpl in *. rewrite lookup_insert in He.
  case_decide as Hpq; [by injection He as <-|]. apply (Hw j e Hj). by exists q.
Qed.

Lemma init_macs_twp len w k i s :
  len ≤ w → 0 ≤ i → i + Z.of_nat k ≤ 4 → fresh_netdevs w s →
  twp (init_macs len i k) s (λ _ s',
    fresh_netdevs w s' ∧ nf10_netdevs s' = nf10_netdevs s ∧ trace s' = trace s ∧
    (∀ j d, 0 ≤ j < i → netdev_of s j d → netdev_of s' j d) ∧
    (∀ j, i ≤ j < i + Z.of_nat k → ∃ d, netdev_of s j d ∧
       netdev_of s' j (set_dev_addr (zcopy (dev_addr d) 0 (init_mac_addr len j)) d))).
Proof.
  intros Hlen. revert i s. induction k as [|k IH]; intros i s Hi Hk Hfn.
  { do 4 (split; [done|]). intros j Hj. lia. }
  destruct (iface_lookup s i (fn_wf _ _ Hfn)) as (p & d & [_ Hp] & Hd); [lia|].
  assert (zlen (dev_addr d) = w) as Hz by (apply (fn_width _ _ Hfn i); [lia|by exists p]).
  simpl init_macs. unfold twp.
  erewrite bind_ok by (eapply netdev_ptr_ok; [unfold NUM_NETDEVS; lia|done]).
  erewrite bind_ok by (unfold netdev_get; by rewrite Hd).
  rewrite Hz. decide_test (w <? len) false.
  erewrite bind_ok by (by apply netdev_upd_ok).
  set (s1 := set_netdevs _ s).
  assert (fresh_netdevs w s1) as Hfn1 by (apply set_mac_wf; auto; by rewrite zlen_zcopy).
  apply (twp_mono _ _ _ _ (IH (i + 1) s1 ltac:(lia) ltac:(lia) Hfn1)).
  intros [] s2 (Hfn2 & E2 & Et & Hlow & Hhigh).
  assert (∀ j e, 0 ≤ j < 4 → j ≠ i → netdev_of s j e ↔ netdev_of s1 j e) as Hother.
  { intros j e Hj Hne. split; intros (q & Hq & He); exists q; (split; [done|]); simpl in *.
    all: assert (q ≠ p) by (intros ->; apply Hne;
      pose proof (NoDup_lookup _ _ _ _ (nw_nodup _ (fn_wf _ _ Hfn)) Hp Hq); lia).
    - by rewrite lookup_insert_ne.
    - by rewrite lookup_insert_ne in He. }
  split; [done|]. split; [done|]. split; [done|]. split.
  - intros j e Hj He. apply Hlow; [lia|]. apply Hother; auto; lia.
  - intros j Hj. destruct (decide (j = i)) as [->|Hne].
    + exists d. split; [by exists p|]. apply Hlow; [lia|]. exists p.
      split; [done|]. simpl. by rewrite lookup_insert_eq.
    + destruct (Hhigh j) as (e & He & He2); [lia|]. exists e. split; [|done].
      apply Hother; auto; lia.
Qed.

(** ** Registering the interfaces *)

(** Registration succeeds for all, or the error path reads the pointer after
    the last one. *)
Lemma init_register_cases k i s :
  ptrs4 s → 0 ≤ i → i + Z.of_nat k ≤ 4 →
  match init_register i k s with
  | Ok r s' => r = None ∧ ∃ tr, s' = set_trace tr s ∧
      ∀ r, mbalance r tr = mbalance r (trace s) + (if r is MRegistered then Z.of_nat k else 0)
  | Fault => ∃ tr, k_register_netdev tr ≠ 0
  | OutOfFuel => False
  end.
Proof.
  revert i s. induction k as [|k IH]; intros i s Hl Hi Hk.
  { simpl. split; [done|]. exists (trace s). split; [by destruct s|]. intros []; lia. }
  destruct (ptrs4_get s i Hl) as [p Hp]; [lia|].
  simpl init_register. erewrite bind_ok by exact Hp. unfold register_netdev. step idtac.
  destruct (Z.eqb_spec (k_register_netdev (trace s)) 0) as [E|E]; cbn [negb]; cbv iota.
  - set (s1 := set_trace _ s). specialize (IH (i + 1) s1 Hl ltac:(lia) ltac:(lia)).
    destruct (init_register (i + 1) k s1) as [r s'| |]; [|done..].
    destruct IH as [-> (tr & -> & Hb)]. split; [done|]. exists tr. split; [done|].
    intros r. rewrite Hb. subst s1. rewrite E. destruct r; simpl; lia.
  - set (s1 := set_trace _ s).
    destruct (twp_run _ _ _ (for_down_twp _ _ unregister_netdev_twp (Z.to_nat i) s1 Hl ltac:(lia)))
      as ([] & s2 & Hrun & _).
    erewrite bind_ok by exact Hrun. simpl. by exists (trace s).
Qed.

(** ** Services *)

Context (Hunreg : ∀ tr, k_genl_unregister_family tr = 0).

Lemma unregister_family_run s :
  twp genl_unregister_family s (λ _ s', nf10_netdevs s' = nf10_netdevs s ∧
    ∀ r, mbalance r (trace s') = mbalance r (trace s) - (if r is MFamily then 1 else 0)).
Proof.
  unfold twp, genl_unregister_family, call, ask, emit, modify, bind, ret. simpl.
  rewrite Hunreg. split; [done|]. intros []; simpl; lia.
Qed.

Definition c_netdevs (r : mres) : Z :=
  match r with MNetdev | MRegistered => 4 | MNapi | MPciDriver => 1 | _ => 0 end.

Lemma drop_netdevs_twp s :
  ptrs4 s →
  twp drop_netdevs s (λ _ s', ∀ r, mbalance r (trace s') = mbalance r (trace s) - c_netdevs r).
Proof.
  intros Hl. unfold drop_netdevs.
  eapply twp_seq; [by apply (each_netdev_twp _ _ unregister_netdev_twp)|].
  intros [] s1 [E1 Hb1]. do 2 twp_step.
  eapply twp_seq; [apply (each_netdev_twp _ _ free_netdev_twp); unfold ptrs4; simpl; by rewrite E1|].
  intros [] s2 [_ Hb2]. eapply twp_mono; [apply pci_unregister_run|].
  intros [] s3 Hb3 r. rewrite Hb3, Hb2. simpl. rewrite Hb1. destruct r; simpl; lia.
Qed.

Lemma init_ops_twp cmds s :
  ptrs4 s →
  twp (init_ops cmds) s (λ r s',
    match r with
    | None => ∃ tr, s' = set_trace tr s ∧ ∀ k, mbalance k tr = mbalance k (trace s)
    | Some err => err ≠ 0 ∧ (∃ tr c, k_genl_register_ops tr c = err) ∧
        ∀ k, mbalance k (trace s') = mbalance k (trace s) - c_netdevs k
                                     - (if k is MFamily then 1 else 0)
    end).
Proof.
  revert s. induction cmds as [|c cmds IH]; intros s Hl.
  { exists (trace s). split; [by destruct s|done]. }
  simpl init_ops. unfold genl_register_ops. twp_step. apply twp_answer.
  set (e := k_genl_register_ops _ c). assert (k_genl_register_ops (trace s) c = e) as Ha by done.
  clearbody e. destruct (Z.eqb_spec e 0) as [->|Hne]; cbn [negb]; cbv iota.
  - eapply twp_mono; [by apply IH|]. intros [err|] s' Hr.
    + destruct Hr as (He & Hc & Hb). do 2 (split; [done|]). intros k. rewrite Hb. by destruct k.
    + destruct Hr as (tr & -> & Hb). exists tr. split; [done|]. intros k. rewrite Hb. by destruct k.
  - eapply twp_seq; [apply unregister_family_run|]. intros _e s1 [E1 Hb1].
    eapply twp_seq; [apply drop_netdevs_twp; unfold ptrs4; by rewrite E1|].
    intros [] s2 Hb2. split; [done|]. split; [eauto|].
    intros k. rewrite Hb2, Hb1. simpl. destruct k; simpl; lia.
Qed.

Lemma pci_register_twp s :
  twp pci_register_driver s (λ r s',
    (∃ tr, k_pci_register_driver tr = r) ∧
    ∀ k, mbalance k (trace s') = mbalance k (trace s)
         + (if k is MPciDriver then if r =? 0 then 1 else 0 else 0)).
Proof.
  unfold pci_register_driver. twp_step. apply twp_answer.
  set (e := k_pci_register_driver _). assert (k_pci_register_driver (trace s) = e) as Ha by done.
  clearbody e. destruct (Z.eqb_spec e 0) as [->|Hne]; cbn [negb]; cbv iota.
  2: { twp_step. split; [eauto|]. rewrite (proj2 (Z.eqb_neq _ _) Hne). intros k. simpl.
       destruct k; simpl; rewrite ?(proj2 (Z.eqb_neq _ _) Hne); lia. }
  do 3 twp_step.
  destruct a.
  2: { repeat twp_step. split; [eauto|]. intros k. destruct k; simpl; lia. }
  set (s1 := set_trace _ s). destruct (twp_run _ _ _ (probe_twp s1)) as (r & s2 & Hrun & _).
  unfold twp. erewrite bind_ok by exact Hrun. simpl. split; [eauto|]. intros k.
  rewrite (emits_mbalance _ _ _ _ k probe_quiet Hrun). destruct k; simpl; lia.
Qed.

(** The error of the last step, which is not unwound. *)
Definition start_error (err : Z) (s' : drv) : Prop :=
  err ≠ 0 ∧
  (if DRIVER_GHOST then err = -1 ∧ rx_dma_reg_va s' = 0 else ∃ tr, k_pci_register_driver tr = err).

(** The balance after a load that got as far as the last step. *)
Definition loaded (s : drv) (r : Z) (s' : drv) : Prop :=
  (r = 0 ∨ start_error r s') ∧
  ∀ k, mbalance k (trace s') = mbalance k (trace s)
       + (if k is MPciDriver then if r =? 0 then mheld k else 0 else mheld k).

(** What the services add. *)
Definition c_services (r : Z) (k : mres) : Z :=
  match k with
  | MFamily | MProc => 1
  | MPciDriver => if DRIVER_GHOST then 0 else if r =? 0 then 1 else 0
  | _ => 0
  end.

Lemma init_services_twp s :
  netdevs_wf s →
  twp init_services s (λ r s',
    (load_error r ∧ ∀ k, mbalance k (trace s') = mbalance k (trace s) - c_netdevs k) ∨
    ((r = 0 ∨ start_error r s') ∧
     ∀ k, mbalance k (trace s') = mbalance k (trace s) + c_services r k)).
Proof.
  intros Hwf. pose proof (nw_len _ Hwf) as Hl. unfold init_services, genl_register_family.
  twp_step. apply twp_answer. set (e := k_genl_register_family _).
  assert (k_genl_register_family (trace s) = e) as Ha by done. clearbody e.
  destruct (Z.eqb_spec e 0) as [->|Hne]; cbn [negb]; cbv iota.
  2: { eapply twp_seq; [by apply drop_netdevs_twp|]. intros [] s1 Hb. left.
       split; [split; [done|eauto]|].
       intros k. rewrite Hb. destruct k; simpl; rewrite ?(proj2 (Z.eqb_neq _ _) Hne); lia. }
  eapply twp_seq; [by apply init_ops_twp|]. intros [err|] s1 Hr.
  { destruct Hr as (He & Hc & Hb). left. split; [split; [done|eauto]|].
    intros k. rewrite Hb. destruct k; simpl; lia. }
  destruct Hr as (tr & -> & Hb). do 4 twp_step. set (s2 := set_trace _ _).
  assert (∀ k, mbalance k (trace s2) = mbalance k (trace s)
    + (if k is MFamily then 1 else if k is MProc then 1 else 0)) as Hb2.
  { intros k. subst s2. simpl. rewrite Hb. destruct k; simpl; lia. }
  destruct DRIVER_GHOST eqn:Hg.
  - destruct (enable_ghosting_cases s2) as (r & s3 & Hrun & _ & _ & Hr); [by destruct Hwf|].
    unfold twp. rewrite Hrun. right.
    split; [unfold start_error; rewrite Hg; destruct Hr as [ [-> Hz]|[-> _] ]; auto|]. intros k.
    rewrite (emits_mbalance _ _ _ _ k enable_ghosting_quiet Hrun), Hb2.
    destruct k; simpl; rewrite ?Hg; lia.
  - eapply twp_mono; [apply pci_register_twp|]. intros r s3 [Hc Hb3]. right.
    split; [unfold start_error; rewrite Hg; destruct (decide (r = 0)); auto|]. intros k.
    rewrite Hb3, Hb2. destruct k; simpl; rewrite ?Hg; lia.
Qed.

(** ** The whole of [nf10_eth_driver_init] *)

(** What the driver relies on of [ether_setup]: the address array keeps its
    size and an address has the length of an Ethernet address. *)
Definition ether_setup_ok : Prop :=
  zlen (dev_addr (k_ether_setup blank_netdev)) = MAX_ADDR_LEN ∧
  addr_len (k_ether_setup blank_netdev) = ETH_ALEN.

Context (Hether : ether_setup_ok).

Lemma nf10_netdev_init_addr d :
  dev_addr (nf10_netdev_init d) = dev_addr (k_ether_setup d) ∧
  addr_len (nf10_netdev_init d) = addr_len (k_ether_setup d).
Proof. unfold nf10_netdev_init. by destruct (DRIVER_GHOST || DRIVER_LOOPB). Qed.

Lemma allocated_netdev s j d :
  allocated 4 s → 0 ≤ j < 4 → netdev_of s j d → d = nf10_netdev_init blank_netdev.
Proof.
  intros [Hl _ Hlive] Hj (p & Hp & Hd). unfold ptrs4 in Hl.
  rewrite take_ge in Hlive by (rewrite Hl; lia).
  destruct (Hlive p) as [_ Hd']; [by eapply list_elem_of_lookup_2|]. congruence.
Qed.

Lemma allocated_fresh s : allocated 4 s → fresh_netdevs MAX_ADDR_LEN s.
Proof.
  intros Hal. split; [by apply allocated_wf|]. intros j d Hj Hd.
  rewrite (allocated_netdev s j d Hal Hj Hd).
  destruct (nf10_netdev_init_addr blank_netdev) as [-> _]. apply Hether.
Qed.

(** The interfaces have the addresses 00:4E:46:30:00:00 to 00:4E:46:33:00:00. *)
Definition named (s : drv) : Prop :=
  ∀ j, 0 ≤ j < 4 → ∃ d, netdev_of s j d ∧ addr_len d = 6 ∧
    take 6 (dev_addr d) = [0x00; 0x4E; 0x46; 0x30 + j; 0x00; 0x00].

Lemma take_zcopy_0 l bs : zlen bs ≤ zlen l → take (length bs) (zcopy l 0 bs) = bs.
Proof.
  intros Hlen. pose proof (zlen_nonneg bs). apply znth_ext.
  - unfold zlen. rewrite length_take. pose proof (zlen_zcopy l 0 bs). unfold zlen in *. lia.
  - intros j Hj. unfold zlen in Hj. rewrite length_take in Hj.
    assert (znth (take (length bs) (zcopy l 0 bs)) j = znth (zcopy l 0 bs) j) as ->.
    { unfold znth. rewrite !nth_lookup, lookup_take_lt by lia. done. }
    rewrite znth_zcopy by lia. unfold zlen.
    decide_test (0 <=? j) true. decide_test (j <? 0 + Z.of_nat (length bs)) true. simpl.
    by rewrite Z.sub_0_r.
Qed.

Lemma zlen_init_mac len j : 0 ≤ len → zlen (init_mac_addr len j) = len.
Proof.
  intros Hl. unfold init_mac_addr. pose proof (zlen_zcopy (replicate (Z.to_nat (len + 1)) 0) 1
    (take (Z.to_nat (len - 1)) ([78; 70] ++ fmt_d j) ++ [0])) as Hz.
  unfold zlen in *. rewrite length_take, length_replicate in *. lia.
Qed.

(** From the registration on. *)
Definition init_rest (p0 : Z) : M Z :=
  (emit (EvNapiAdd p0 RX_POLL_WEIGHT) ;;
   r <- init_register 0 (Z.to_nat NUM_NETDEVS) ;;
   match r with Some err => ret err | None => init_services end).

(** The setup of the interfaces does not touch the hardware state. *)
Lemma init_alloc_hw k i s s' : init_alloc i k s = Ok None s' → hw_state s' = hw_state s.
Proof.
  revert i s. induction k as [|k IH]; intros i s; simpl init_alloc.
  { by intros [= <-]. }
  unfold alloc_netdev. rewrite bind_assoc. erewrite bind_ok by reflexivity.
  set (p := k_alloc_netdev _). destruct (p =? 0) eqn:E.
  - erewrite bind_ok by reflexivity. erewrite bind_ok by reflexivity. rewrite E.
    unfold bind at 1. destruct (for_down free_netdev (Z.to_nat i) _) as [[] s1| |]; [|done..].
    unfold bind at 1. by destruct (pci_unregister_driver s1).
  - rewrite bind_assoc. erewrite bind_ok by reflexivity. erewrite bind_ok by reflexivity.
    erewrite bind_ok by reflexivity. rewrite E. intros Hrun. by rewrite (IH _ _ Hrun).
Qed.

Lemma init_macs_hw len k i s s' : init_macs len i k s = Ok tt s' → hw_state s' = hw_state s.
Proof.
  revert i s. induction k as [|k IH]; intros i s; simpl init_macs.
  { by intros [= <-]. }
  unfold bind at 1, netdev_ptr. destruct (_ && _); [|done].
  destruct (nf10_netdevs s !! _) as [p|]; [|done].
  unfold bind at 1, netdev_get. destruct (netdevs s !! p) as [d|] eqn:E; [|done].
  unfold bind at 1. destruct (zlen (dev_addr d) <? len); [done|].
  unfold netdev_upd. rewrite E.
  intros Hrun. by rewrite (IH _ _ Hrun).
Qed.

(** Once the interfaces are allocated, they are named. *)
Lemma init_front s s1 :
  init_alloc 0 (Z.to_nat NUM_NETDEVS) s = Ok None s1 → allocated 4 s1 →
  ∃ p0 s2, nf10_eth_driver_init s = init_rest p0 s2 ∧
    netdevs_wf s2 ∧ named s2 ∧ trace s2 = trace s1 ∧ hw_state s2 = hw_state s1.
Proof.
  intros Hrun Hal. unfold nf10_eth_driver_init. erewrite bind_ok by exact Hrun.
  pose proof (allocated_fresh s1 Hal) as Hfn.
  destruct (iface_lookup s1 0 (fn_wf _ _ Hfn)) as (p & d & [_ Hp] & Hd); [lia|].
  assert (d = nf10_netdev_init blank_netdev) as Hd0
    by (apply (allocated_netdev s1 0); [done|lia|by exists p]).
  erewrite bind_ok by (eapply netdev_ptr_ok; done).
  erewrite bind_ok by (unfold netdev_get; by rewrite Hd). cbv zeta.
  destruct (nf10_netdev_init_addr blank_netdev) as [_ Hlen]. rewrite <- Hd0 in Hlen.
  destruct Hether as [_ Hlen2]. rewrite <- Hlen in Hlen2.
  unfold ETH_ALEN in Hlen2. rewrite u32_small by lia.
  destruct (twp_run _ _ _ (init_macs_twp (addr_len d) MAX_ADDR_LEN (Z.to_nat NUM_NETDEVS) 0 s1
    ltac:(unfold MAX_ADDR_LEN; lia) ltac:(done) ltac:(done) Hfn)) as ([] & s2 & Hrun2 & Hfn2 & _ & Et & _ & Hmacs).
  erewrite bind_ok by exact Hrun2. exists p, s2. split; [done|]. split; [apply Hfn2|].
  split; [|split; [done|by eapply init_macs_hw]].
  intros j Hj. destruct (Hmacs j) as (e & He & He'); [done|].
  rewrite (allocated_netdev s1 j e Hal Hj He), <- Hd0 in He'. eexists. split; [exact He'|].
  simpl. split; [done|]. rewrite Hlen2.
  assert (init_mac_addr 6 j = [0x00; 0x4E; 0x46; 0x30 + j; 0x00; 0x00]) as <-.
  { assert (j = 0 ∨ j = 1 ∨ j = 2 ∨ j = 3) as [-> | [-> | [-> | ->] ] ] by lia; done. }
  pose proof (zlen_init_mac 6 j ltac:(lia)) as Hzl.
  assert (length (init_mac_addr 6 j) = 6%nat) as <- by (unfold zlen in Hzl; lia).
  apply take_zcopy_0. rewrite Hzl.
  assert (zlen (dev_addr d) = MAX_ADDR_LEN) as -> by (apply (fn_width _ _ Hfn 0); [lia|by exists p]).
  unfold MAX_ADDR_LEN. lia.
Qed.

(** Every load ends in one of four ways: unwound, loaded, an error of the last
    step with everything before it in place, or a fault. *)
Definition init_outcome (s : drv) (o : outcome Z) : Prop :=
  match o with
  | Ok r s' => (load_error r ∧ unwound s s') ∨ loaded s r s'
  | Fault => ∃ tr, k_register_netdev tr ≠ 0
  | OutOfFuel => False
  end.

Lemma init_tail s0 s1 p0 :
  netdevs_wf s1 →
  (∀ k, mbalance k (trace s1) = mbalance k (trace s0) + (if k is MNetdev then 4 else 0)) →
  init_outcome s0 (init_rest p0 s1).
Proof.
  intros Hwf Hb1. unfold init_rest. pose proof (nw_len _ Hwf) as Hl.
  erewrite bind_ok by reflexivity. set (s2 := set_trace _ s1).
  pose proof (init_register_cases (Z.to_nat NUM_NETDEVS) 0 s2 Hl ltac:(done) ltac:(done)) as Hreg.
  unfold bind at 1. destruct (init_register _ _ s2) as [r s3| |]; [|done..].
  destruct Hreg as [-> (tr & -> & Hb3)].
  destruct (twp_run _ _ _ (init_services_twp (set_trace tr s2) ltac:(by destruct Hwf)))
    as (r & s4 & -> & Hcase).
  assert (∀ k, mbalance k tr = mbalance k (trace s0) + (if k is MNetdev then 4 else 0)
    + (if k is MNapi then 1 else 0) + (if k is MRegistered then 4 else 0)) as Hb.
  { intros k. rewrite Hb3. subst s2. simpl. rewrite Hb1.
    destruct k; simpl; change (Z.of_nat (Z.to_nat NUM_NETDEVS)) with 4; lia. }
  simpl in Hcase. destruct Hcase as [[Hr Hb4]|[Hr Hb4]]; [left|right]; (split; [done|]).
  - intros k. rewrite Hb4, Hb. destruct k; simpl; lia.
  - intros k. rewrite Hb4, Hb. destruct k; simpl; try lia.
    destruct (r =? 0), DRIVER_GHOST; lia.
Qed.

Lemma init_cases s : ptrs4 s → init_outcome s (nf10_eth_driver_init s).
Proof.
  intros Hl.
  destruct (twp_run _ _ _ (init_alloc_twp (Z.to_nat NUM_NETDEVS) 0 s ltac:(done) ltac:(done)
    (allocated_0 s Hl))) as ([err|] & s1 & Hrun & Hpost).
  - unfold nf10_eth_driver_init. erewrite bind_ok by exact Hrun.
    destruct Hpost as [He Hb]. left. split; [done|]. intros k. rewrite Hb. by destruct k.
  - destruct Hpost as [Hal Hb].
    destruct (init_front s s1 Hrun Hal) as (p0 & s2 & -> & Hwf & _ & Et & _).
    apply init_tail; [done|]. intros k. by rewrite Et.
Qed.

(** ** A load in which every service of the kernel succeeds *)

Record services_ok : Prop := {
  so_alloc : ∀ tr, k_alloc_netdev tr ≠ 0;
  so_register : ∀ tr, k_register_netdev tr = 0;
  so_family : ∀ tr, k_genl_register_family tr = 0;
  so_ops : ∀ tr c, k_genl_register_ops tr c = 0;
}.

Section Success.
Context (Hok : services_ok).

Lemma init_alloc_none k i s :
  match init_alloc i k s with Ok (Some _) _ => False | _ => True end.
Proof.
  revert i s. induction k as [|k IH]; intros i s; [done|]. simpl init_alloc.
  unfold alloc_netdev. pose proof (so_alloc Hok (trace s)) as Hne.
  rewrite bind_assoc. erewrite bind_ok by reflexivity. apply Z.eqb_neq in Hne. rewrite Hne.
  rewrite bind_assoc. erewrite bind_ok by reflexivity. erewrite bind_ok by reflexivity.
  erewrite bind_ok by reflexivity. rewrite Hne. apply IH.
Qed.

Lemma init_ops_run cmds s :
  ∃ tr, init_ops cmds s = Ok None (set_trace tr s).
Proof.
  revert s. induction cmds as [|c cmds IH]; intros s.
  { exists (trace s). by destruct s. }
  simpl init_ops. erewrite bind_ok by reflexivity. cbv beta. rewrite !(so_ops Hok).
  destruct (IH (set_trace (EvGenlRegOps c 0 :: trace s) s)) as (tr & Hrun).
  exists tr. exact Hrun.
Qed.

Lemma init_reaches s :
  ptrs4 s →
  ∃ s', nf10_eth_driver_init s = (if DRIVER_GHOST then enable_ghosting else pci_register_driver) s'
        ∧ netdevs_wf s' ∧ named s' ∧ hw_state s' = hw_state s.
Proof.
  intros Hl.
  destruct (twp_run _ _ _ (init_alloc_twp (Z.to_nat NUM_NETDEVS) 0 s ltac:(done) ltac:(done)
    (allocated_0 s Hl))) as (r & s1 & Hrun & Hpost).
  pose proof (init_alloc_none (Z.to_nat NUM_NETDEVS) 0 s) as Hnone. rewrite Hrun in Hnone.
  destruct r as [err|]; [done|]. destruct Hpost as [Hal _].
  destruct (init_front s s1 Hrun Hal) as (p0 & s2 & -> & Hwf & Hnamed & _ & Ehw).
  unfold init_rest. erewrite bind_ok by reflexivity. set (s3 := set_trace _ s2).
  pose proof (init_register_cases (Z.to_nat NUM_NETDEVS) 0 s3 (nw_len _ Hwf)
    ltac:(done) ltac:(done)) as Hreg.
  unfold bind at 1. destruct (init_register _ _ s3) as [r s4| |];
    [|by destruct Hreg as [tr Htr]; destruct Htr; apply Hok|done].
  destruct Hreg as [-> (tr & -> & _)]. unfold init_services.
  erewrite bind_ok by reflexivity. cbv beta. rewrite !(so_family Hok). cbn [negb Z.eqb]. cbv iota.
  destruct (init_ops_run (map fst genl_all_ops) (set_trace (EvGenlRegFamily 0 :: tr) s3))
    as (tr' & Hrun3).
  erewrite bind_ok by exact Hrun3. cbv iota. erewrite bind_ok by reflexivity.
  erewrite bind_ok by reflexivity. eexists. split; [done|]. split; [by destruct Hwf|].
  split; [done|]. simpl. by rewrite Ehw, (init_alloc_hw _ _ _ _ Hrun).
Qed.

Lemma named_frame s s' :
  nf10_netdevs s' = nf10_netdevs s → netdevs s' = netdevs s → named s → named s'.
Proof.
  intros E1 E2 Hn j Hj. destruct (Hn j Hj) as (d & (p & Hp & Hd) & Ht).
  exists d. split; [|done]. exists p. by rewrite E1, E2.
Qed.

(** In ghosting mode the load ends with the crossed cables in place. *)
Lemma init_ghost s :
  DRIVER_GHOST = true → ptrs4 s →
  ∃ r s', nf10_eth_driver_init s = Ok r s' ∧ named s' ∧
    ((r = -1 ∧ rx_dma_reg_va s' = 0) ∨ (r = 0 ∧ ∃ out, ghost_rel s' (mkWire [] out))).
Proof.
  intros Hg Hl. destruct (init_reaches s Hl) as (s1 & -> & Hwf & Hn & Ehw). rewrite Hg.
  destruct (enable_ghosting_cases s1 Hwf) as (r & s' & Hrun & E1 & E2 & Hcase).
  exists r, s'. split; [done|]. split; [by eapply named_frame|].
  destruct Hcase as [Hc|(-> & Hrel & _)]; eauto.
Qed.

(** With a device present the load brings it up, or leaves it unused. *)
Lemma init_hw s :
  DRIVER_GHOST = false → ptrs4 s →
  (∀ tr, k_pci_register_driver tr = 0) → (∀ tr, k_pci_device_present tr = true) →
  ∃ s', nf10_eth_driver_init s = Ok 0 s' ∧ named s' ∧ netdevs_wf s' ∧
    ((pci_bound s' = true ∧ device_up s' ∧
      (disjoint_streams (dma_cpu_bufs s') (tx_dma_stream s') (rx_dma_stream s') →
       flags_initial s'))
     ∨ hw_state s' = Z.lor (hw_state s) HW_FOUND).
Proof.
  intros Hg Hl Hreg Hpres. destruct (init_reaches s Hl) as (s1 & -> & Hwf & Hn & Ehw). rewrite Hg.
  unfold pci_register_driver. erewrite bind_ok by reflexivity. cbv beta. rewrite !Hreg.
  cbn [negb Z.eqb]. cbv iota. erewrite bind_ok by reflexivity. rewrite Hpres.
  set (s2 := set_trace _ s1). destruct (twp_run _ _ _ (probe_twp s2)) as (r & s3 & Hrun & Hpost).
  destruct (probe_keeps _ _ _ Hrun) as [E1 E2].
  rewrite bind_assoc. erewrite bind_ok by exact Hrun. erewrite bind_ok by reflexivity.
  eexists. split; [done|]. split; [by apply (named_frame s1)|].
  split; [destruct Hwf as [Hl1 Hnd Hlive]; split; simpl; rewrite ?E1, ?E2; done|].
  destruct Hpost as [(-> & Hup & Hfl & _)|(Hhw & Hr & _)]; [left|right].
  - split; [done|]. split; [by destruct Hup; split|done].
  - simpl. by rewrite Hhw, <- Ehw.
Qed.

End Success.

(** ** Unloading *)

Lemma disable_ghosting_ok s : ∃ s', disable_ghosting s = Ok 0 s'.
Proof. by eexists. Qed.

Lemma exit_twp s :
  ptrs4 s →
  twp nf10_eth_driver_exit s (λ _ s',
    ∀ r, mbalance r (trace s') = mbalance r (trace s) - mheld r).
Proof.
  intros Hp. unfold nf10_eth_driver_exit. do 6 twp_step.
  eapply twp_seq; [apply unregister_family_run|]. intros _a s1 [E1 Hb1].
  eapply twp_seq; [apply (each_netdev_twp _ _ unregister_netdev_twp); unfold ptrs4; by rewrite E1|].
  intros [] s2 [E2 Hb2]. do 2 twp_step.
  eapply twp_seq;
    [apply (each_netdev_twp _ _ free_netdev_twp); unfold ptrs4; simpl; by rewrite E2, E1|].
  intros [] s3 [_ Hb3].
  assert (∀ r, mbalance r (trace s3) = mbalance r (trace s)
    - (if r is MPciDriver then 0 else mheld r)) as Hb.
  { intros r. rewrite Hb3. simpl. rewrite Hb2, Hb1. simpl. destruct r; simpl; lia. }
  destruct DRIVER_GHOST eqn:Hg.
  - destruct (disable_ghosting_ok s3) as (s4 & Hrun). unfold twp. erewrite bind_ok by exact Hrun.
    simpl. intros r. rewrite (emits_mbalance _ _ _ _ r disable_ghosting_quiet Hrun), Hb.
    destruct r; simpl; rewrite ?Hg; lia.
  - eapply twp_mono; [apply pci_unregister_run|]. intros [] s4 Hb4 r. rewrite Hb4, Hb.
    destruct r; simpl; rewrite ?Hg; lia.
Qed.

End Load.

(** ** [read_proc] *)

Lemma dec_digits_length fuel n : (1 ≤ fuel)%nat → 1 ≤ zlen (dec_digits fuel n).
Proof.
  intros Hf. destruct fuel as [|fuel]; [lia|]. simpl. destruct (n <? 10); [done|].
  rewrite zlen_app. pose proof (zlen_nonneg (dec_digits fuel (n / 10))).
  change (zlen [48 + n mod 10]) with 1. lia.
Qed.

Lemma fmt_d_length n : 1 ≤ zlen (fmt_d n).
Proof.
  unfold fmt_d. destruct (n <? 0); [|apply dec_digits_length; lia].
  change (45 :: dec_digits 10 (- n)) with ([45] ++ dec_digits 10 (- n)).
  rewrite zlen_app. pose proof (zlen_nonneg (dec_digits 10 (- n))). change (zlen [45]) with 1. lia.
Qed.

Lemma flag_line_length i v : 6 ≤ zlen (flag_line i v).
Proof.
  unfold flag_line. rewrite !zlen_app. pose proof (fmt_d_length i).
  pose proof (fmt_d_length (s32 v)). change (zlen [9]) with 1. change (zlen [58; 32]) with 2.
  change (zlen [10]) with 1. lia.
Qed.

Lemma flag_lines_run m n st s k i :
  stream_wf m n st → ram s = m → 0 ≤ i → i + Z.of_nat k ≤ n →
  ∃ txt, flag_lines st i k s = Ok txt s ∧ 6 * Z.of_nat k ≤ zlen txt.
Proof.
  intros Hwf Hm. revert i. induction k as [|k IH]; intros i Hi Hk.
  { exists []. split; [done|]. unfold zlen. simpl. lia. }
  destruct (IH (i + 1)) as (txt & Hrun & Hlen); [lia..|].
  simpl flag_lines. step ltac:(rewrite Hm; apply (valid_flag _ _ _ Hwf); lia).
  erewrite bind_ok by exact Hrun.
  exists (flag_line i (word_at (ram s) (flag_addr st i)) ++ txt). split; [done|].
  rewrite zlen_app. pose proof (flag_line_length i (word_at (ram s) (flag_addr st i))). lia.
Qed.

Lemma read_proc_run s :
  stream_wf (ram s) (dma_cpu_bufs s) (tx_dma_stream s) →
  stream_wf (ram s) (dma_cpu_bufs s) (rx_dma_stream s) →
  ∃ txt, read_proc s = Ok txt s ∧ 78 + 12 * dma_cpu_bufs s ≤ zlen txt.
Proof.
  intros Htx Hrx. pose proof (wf_bufs _ _ _ Htx).
  destruct (flag_lines_run _ _ _ s (Z.to_nat (dma_cpu_bufs s)) 0 Htx) as (a & Ha & Hla); [done|lia..|].
  destruct (flag_lines_run _ _ _ s (Z.to_nat (dma_cpu_bufs s)) 0 Hrx) as (b & Hb & Hlb); [done|lia..|].
  unfold read_proc. erewrite bind_ok by reflexivity. erewrite bind_ok by reflexivity.
  erewrite bind_ok by exact Ha. erewrite bind_ok by reflexivity. erewrite bind_ok by exact Hb.
  eexists. split; [done|]. rewrite !zlen_app. change (zlen proc_title) with 58.
  change (zlen (flags_title 84)) with 10. change (zlen (flags_title 82)) with 10. lia.
Qed.
End Module.
