(* ===== verification/Regs.v ===== *)
(** * The register file behind the netlink commands

    [genl_cmd_reg_wr] and [genl_cmd_reg_rd] reach a 32-bit register address
    space through a 1 MB window and a page register.  The device is not part
    of the repository; what the driver relies on is that a register of the
    window, read under a page, holds the value last written to it under that
    page.  Under this law the two commands implement a memory: a read returns
    the last value written to the same address. *)

From S2P Require Import Prelude Mem Occp Kernel Packet Stream Xmit Poll Ring Ghost Genl Probe.

(** ** The device's law *)

(** The page selected by a trace: the last value written to [pw]. *)
Fixpoint page_of (pw : Z) (tr : list event) : option Z :=
  match tr with
  | [] => None
  | EvMmioWr a v :: tr => if a =? pw then Some v else page_of pw tr
  | _ :: tr => page_of pw tr
  end.

(** The value last written to the register [slot] of the window under [page]. *)
Fixpoint last_write (pw slot page : Z) (tr : list event) : option Z :=
  match tr with
  | [] => None
  | EvMmioWr a v :: tr =>
      if (a =? slot) && bool_decide (page_of pw tr = Some page) then Some v
      else last_write pw slot page tr
  | _ :: tr => last_write pw slot page tr
  end.

Section Regs.
Context `{Kernel}.

Definition paged_device (pw base : Z) : Prop :=
  ∀ tr off page v, 0 ≤ off < OCCP_WORKER_CONFIG_SIZE → page_of pw tr = Some page →
    last_write pw (base + off) page tr = Some v → k_mmio tr (base + off) = v.

(** The window and the page register are mapped and apart. *)
Record window_ok (s : drv) : Prop := {
  wo_page : io_valid s (page_addr s) = true;
  wo_regs : ∀ off, 0 ≤ off → off + 4 ≤ OCCP_WORKER_CONFIG_SIZE →
              io_valid s (nf10_regs s + off) = true;
  wo_apart : page_addr s < nf10_regs s;
}.

Lemma device_up_window s : device_up s → window_ok s.
Proof.
  intros [_ _ _ _ _ _ (bar & Hm & Hregs & Hctrl)].
  split; unfold page_addr; rewrite ?Hregs, ?Hctrl.
  - apply (worker_addr_valid s bar WORKER_NF10 W_pageWindow); [done|].
    unfold WORKER_NF10, OCCP_MAX_WORKERS. lia.
  - unfold OCCP_WORKER_CONFIG_SIZE. intros off Hoff Hend. apply config_off_valid; [done| |lia].
    unfold WORKER_NF10, OCCP_MAX_WORKERS. lia.
  - unfold config_addr. rewrite occp_config_off_val, occp_worker_off_val.
    pose proof (offsetof_worker_range W_pageWindow). unfold WORKER_NF10. lia.
Qed.

(** ** The register file *)

Inductive reg_op := RegWr (addr val : Z) | RegRd (addr : Z).

(** Requests as the user-space library builds them. *)
Definition u32_attr (v : Z) : nlattr := mkAttr (Some (le_split 4 v)) 4.

Definition wr_info (addr val : Z) : genl_info := λ ty,
  if ty =? NF10_GENL_A_ADDR32 then Some (u32_attr addr)
  else if ty =? NF10_GENL_A_REGVAL32 then Some (u32_attr val) else None.

Definition rd_info (addr : Z) : genl_info := λ ty,
  if ty =? NF10_GENL_A_ADDR32 then Some (u32_attr addr) else None.

Definition reg_op_run (o : reg_op) : M Z :=
  match o with
  | RegWr a v => genl_cmd_reg_wr (Some (wr_info a v))
  | RegRd a => genl_cmd_reg_rd (Some (rd_info a))
  end.

Fixpoint reg_ops_run (os : list reg_op) : M unit :=
  match os with
  | [] => ret tt
  | o :: os => _ <- reg_op_run o ;; reg_ops_run os
  end.

Definition reg_op_ok (o : reg_op) : Prop :=
  match o with
  | RegWr a v => 0 ≤ a < 2 ^ 32 ∧ 0 ≤ v < 2 ^ 32
  | RegRd a => 0 ≤ a < 2 ^ 32
  end.

(** The specification: a map from addresses to values.  A write changes it if
    the kernel granted the command its reply and the address is a multiple of
    four. *)
Definition spec_reg (f : gmap Z Z) (c : reg_op * bool) : gmap Z Z :=
  match c with
  | (RegWr a v, ok) => if ok && (a mod 4 =? 0) then <[a := v]> f else f
  | (RegRd _, _) => f
  end.

(** Whether each command of a trace was granted its reply, oldest first. *)
Fixpoint granted_replies (tr : list event) : list bool :=
  match tr with
  | [] => []
  | EvGenlPutReply _ ok :: tr => granted_replies tr ++ [ok]
  | EvGenlNew ok :: tr => if ok then granted_replies tr else granted_replies tr ++ [false]
  | _ :: tr => granted_replies tr
  end.

Definition holds (s : drv) (f : gmap Z Z) : Prop :=
  ∀ a v, f !! a = Some v → 0 ≤ a < 2 ^ 32 ∧ a mod 4 = 0 ∧ 0 ≤ v < 2 ^ 32 ∧
    last_write (page_addr s) (nf10_regs s + reg_addr_offset a) (reg_addr_page a) (trace s)
    = Some v.

Lemma attr_val_u32 v : 0 ≤ v < 2 ^ 32 → attr_val (le_split 4 v) v.
Proof. intros Hv. exists []. by rewrite app_nil_r. Qed.

Lemma reg_addr_offset_end a : a mod 4 = 0 → reg_addr_offset a + 4 ≤ OCCP_WORKER_CONFIG_SIZE.
Proof.
  intros Ha. pose proof (reg_addr_offset_range a) as Hr.
  rewrite <- reg_addr_offset_mod4 in Ha. unfold OCCP_WORKER_CONFIG_SIZE in *.
  pose proof (Z.div_mod (reg_addr_offset a) 4). lia.
Qed.

(** The request carries the word [v] as the attribute [ty]. *)
Definition carries (info : genl_info) (ty v : Z) : Prop :=
  ∃ bs, need_attr info ty = Some bs ∧ attr_val bs v.

Lemma carries_range info ty v : carries info ty v → 0 ≤ v < 2 ^ 32.
Proof. by intros (bs & _ & rest & _ & Hv). Qed.

Lemma wr_info_carries a v :
  0 ≤ a < 2 ^ 32 → 0 ≤ v < 2 ^ 32 →
  carries (wr_info a v) NF10_GENL_A_ADDR32 a ∧ carries (wr_info a v) NF10_GENL_A_REGVAL32 v.
Proof. intros Ha Hv. split; eexists; (split; [reflexivity|by apply attr_val_u32]). Qed.

Lemma rd_info_carries a : 0 ≤ a < 2 ^ 32 → carries (rd_info a) NF10_GENL_A_ADDR32 a.
Proof. intros Ha. eexists. split; [reflexivity|by apply attr_val_u32]. Qed.

Lemma window_trace s tr : window_ok s → window_ok (set_trace tr s).
Proof. intros []. by split. Qed.

(** ** Commands under any answers of the kernel *)

(** Events that neither write to the device nor open a reply. *)
Definition silent (e : event) : Prop :=
  match e with EvMmioWr _ _ | EvGenlNew _ | EvGenlPutReply _ _ => False | _ => True end.

Lemma silent_app es tr :
  Forall silent es →
  granted_replies (es ++ tr) = granted_replies tr ∧
  ∀ pw slot page, last_write pw slot page (es ++ tr) = last_write pw slot page tr.
Proof. induction 1 as [|e es He _ IH]; [done|]. by destruct e. Qed.

(** The kernel refused the command something. *)
Definition reply_refused (r : Z) : Prop :=
  (r = - ENOMEM ∧ ∃ tr, k_genlmsg_new tr = false) ∨
  (r = 0 ∧ ∃ tr, k_genlmsg_put_reply tr = false) ∨
  ∃ tr ty len, k_nla_put tr ty len ≠ 0.

Lemma send_error_any e a s :
  ∃ r es, send_error e a s = Ok r (set_trace (es ++ trace s) s) ∧ Forall silent es ∧
    ((∃ es', es = EvGenlReply (a ++ [err_attr e]) r :: es') ∨ reply_refused r).
Proof.
  unfold send_error, nla_put_u32, nla_put_from. step idtac.
  destruct (Z.eqb_spec (k_nla_put (trace s) NF10_GENL_A_ERRNO 4) 0) as [E|E].
  - steps idtac. simpl. unfold genlmsg_reply. steps idtac. simpl.
    match goal with |- context [k_genlmsg_reply ?t] => set (r := k_genlmsg_reply t) end.
    exists r, [EvGenlReply (a ++ [err_attr e]) r; EvNlaPut NF10_GENL_A_ERRNO (le_split 4 (u32 e)) 0].
    split; [by destruct (Z.eqb_spec r 0) as [->|]|]. split; [by repeat constructor|eauto].
  - steps idtac. simpl. rewrite (proj2 (Z.eqb_neq _ _) E).
    eexists _, [_]. split; [reflexivity|]. split; [by repeat constructor|].
    right. right. right. eauto.
Qed.

(** A register command: its reply is opened, or nothing else happens. *)
Definition with_reply (cmd : Z) (body : M Z) : M Z :=
  ok <- genlmsg_new ;;
  if negb ok then ret (- ENOMEM)
  else ok <- genlmsg_put_reply cmd ;; if negb ok then ret 0 else body.

Lemma with_reply_cases cmd body s :
  (∃ r es, with_reply cmd body s = Ok r (set_trace (es ++ trace s) s) ∧
     granted_replies (es ++ trace s) = granted_replies (trace s) ++ [false] ∧
     (∀ pw slot page, last_write pw slot page (es ++ trace s) = last_write pw slot page (trace s)) ∧
     reply_refused r) ∨
  (with_reply cmd body s = body (opened cmd s) ∧
   granted_replies (trace (opened cmd s)) = granted_replies (trace s) ++ [true] ∧
   ∀ pw slot page,
     last_write pw slot page (trace (opened cmd s)) = last_write pw slot page (trace s)).
Proof.
  unfold with_reply, genlmsg_new, genlmsg_put_reply. steps idtac. simpl.
  destruct (k_genlmsg_new (trace s)) eqn:E1; simpl.
  2: { left. exists (- ENOMEM), [EvGenlNew false]. repeat (split; [done|]). left. eauto. }
  steps idtac. simpl. destruct (k_genlmsg_put_reply _) eqn:E2; simpl; [by right|].
  left. exists 0, [EvGenlPutReply cmd false; EvGenlNew true]. repeat (split; [done|]).
  right. left. eauto.
Qed.

(** The device's memory after a write under its page. *)
Lemma last_write_put pw base a b v tr :
  pw < base → b mod 4 = 0 →
  last_write pw (base + reg_addr_offset b) (reg_addr_page b)
    (EvMmioWr (base + reg_addr_offset a) v :: EvMb :: EvMmioWr pw (reg_addr_page a) :: tr) =
  if b =? a then Some v
  else last_write pw (base + reg_addr_offset b) (reg_addr_page b) tr.
Proof.
  intros Hap Hb. pose proof (reg_addr_offset_range b) as Ho'. simpl. rewrite Z.eqb_refl.
  decide_test (pw =? base + reg_addr_offset b) false. simpl.
  destruct (Z.eqb_spec b a) as [->|Hne].
  - rewrite Z.eqb_refl, bool_decide_true by done. done.
  - destruct (Z.eqb_spec (base + reg_addr_offset a) (base + reg_addr_offset b)) as [E|E]; [|done].
    rewrite bool_decide_false; [done|]. intros [= E2]. apply Hne.
    rewrite <- (reg_addr_split a), <- (reg_addr_split b), E2. lia.
Qed.

(** The window's memory stands for a map. *)
Lemma holds_write s f a v tr :
  window_ok s → holds s f → 0 ≤ a < 2 ^ 32 → a mod 4 = 0 → 0 ≤ v < 2 ^ 32 →
  (∀ b, b mod 4 = 0 →
    last_write (page_addr s) (nf10_regs s + reg_addr_offset b) (reg_addr_page b) tr =
    if b =? a then Some v
    else last_write (page_addr s) (nf10_regs s + reg_addr_offset b) (reg_addr_page b) (trace s)) →
  holds (set_trace tr s) (<[a := v]> f).
Proof.
  intros Hw Hf Ha Hal Hv Hlast b w Hb. rewrite lookup_insert in Hb.
  unfold page_addr. simpl. fold (page_addr s). case_decide as Hab.
  - subst. injection Hb as ->. do 3 (split; [done|]). rewrite Hlast by done. by rewrite Z.eqb_refl.
  - destruct (Hf b w Hb) as (Hb1 & Hb2 & Hb3 & Hb4). repeat (split; [done|]).
    rewrite Hlast by done. by rewrite (proj2 (Z.eqb_neq b a)) by done.
Qed.

Lemma holds_same s f tr :
  holds s f →
  (∀ b, b mod 4 = 0 →
    last_write (page_addr s) (nf10_regs s + reg_addr_offset b) (reg_addr_page b) tr =
    last_write (page_addr s) (nf10_regs s + reg_addr_offset b) (reg_addr_page b) (trace s)) →
  holds (set_trace tr s) f.
Proof.
  intros Hf Hlast b w Hb. destruct (Hf b w Hb) as (Hb1 & Hb2 & Hb3 & Hb4).
  repeat (split; [done|]). unfold page_addr. simpl. fold (page_addr s). by rewrite Hlast.
Qed.

(** The part of the write command that follows the opening of its reply. *)
Definition wr_body (a v : Z) : M Z :=
  reg_addr <- attr_u32 (le_split 4 a) ;;
  let page := reg_addr_page reg_addr in
  let offset := reg_addr_offset reg_addr in
  if negb (offset mod 4 =? 0) then send_error (-1) []
  else
    reg_val <- attr_u32 (le_split 4 v) ;;
    pw <- get page_addr ;;
    mmio_wr pw page ;;
    emit EvMb ;;
    slot <- get (λ s, reg_slot s offset) ;;
    mmio_wr slot reg_val ;;
    send_error 0 [].

Lemma reg_wr_split a v :
  genl_cmd_reg_wr (Some (wr_info a v)) = with_reply NF10_GENL_C_REG_WR (wr_body a v).
Proof. reflexivity. Qed.

(** What a register command does with an opened reply: a write changes its own
    register; a read replies with what the device answers. *)
Lemma reg_wr_any s f a v :
  window_ok s → holds s f → 0 ≤ a < 2 ^ 32 → 0 ≤ v < 2 ^ 32 →
  ∃ r tr ok, genl_cmd_reg_wr (Some (wr_info a v)) s = Ok r (set_trace tr s) ∧
    granted_replies tr = granted_replies (trace s) ++ [ok] ∧
    holds (set_trace tr s) (spec_reg f (RegWr a v, ok)).
Proof.
  intros Hw Hf Ha Hv. pose proof Hw as [Hp Hr Hap].
  rewrite reg_wr_split.
  destruct (with_reply_cases NF10_GENL_C_REG_WR (wr_body a v) s)
    as [(r & es & -> & Hg & Hl & _)|(-> & Hg & Hl)].
  { exists r, (es ++ trace s), false. split; [done|]. split; [done|]. by apply holds_same. }
  unfold wr_body. erewrite bind_ok by (by apply attr_u32_ok, attr_val_u32). cbv zeta. rewrite reg_addr_offset_mod4.
  simpl spec_reg. destruct (Z.eqb_spec (a mod 4) 0) as [Hal|Hal]; cbn [negb]; cbv iota.
  2: { destruct (send_error_any (-1) [] (opened NF10_GENL_C_REG_WR s)) as (r & es & -> & Hes & _).
    destruct (silent_app es (trace (opened NF10_GENL_C_REG_WR s)) Hes) as [Eg El].
    eexists r, _, true. split; [reflexivity|]. split; [by rewrite Eg|].
    apply holds_same; [done|]. intros b Hb. by rewrite El, Hl. }
  pose proof (reg_addr_offset_range a) as Ho. pose proof (reg_addr_offset_end a Hal).
  erewrite bind_ok by (by apply attr_u32_ok, attr_val_u32). step idtac.
  change (page_addr (opened NF10_GENL_C_REG_WR s)) with (page_addr s).
  step ltac:(exact Hp). steps idtac.
  rewrite reg_slot_aligned by (by rewrite reg_addr_offset_mod4). simpl.
  step ltac:(apply Hr; lia).
  match goal with |- context [send_error 0 [] ?t] =>
    destruct (send_error_any 0 [] t) as (r & es & -> & Hes & _);
    destruct (silent_app es (trace t) Hes) as [Eg El] end.
  eexists r, _, true. split; [reflexivity|]. split; [by rewrite Eg|].
  apply holds_write; [done..|]. intros b Hb. rewrite El.
  cbn [trace set_trace]. rewrite last_write_put by done.
  destruct (b =? a); [done|apply Hl].
Qed.

(** The part of the read command that follows the opening of its reply. *)
Definition rd_body (a : Z) : M Z :=
  reg_addr <- attr_u32 (le_split 4 a) ;;
  let page := reg_addr_page reg_addr in
  let offset := reg_addr_offset reg_addr in
  if negb (offset mod 4 =? 0) then send_error (-1) []
  else
    pw <- get page_addr ;;
    mmio_wr pw page ;;
    emit EvMb ;;
    slot <- get (λ s, reg_slot s offset) ;;
    reg_val <- mmio_rd slot ;;
    r <- nla_put_u32 NF10_GENL_A_REGVAL32 reg_val [] ;;
    send_error r.1 r.2.

Lemma reg_rd_split a :
  genl_cmd_reg_rd (Some (rd_info a)) = with_reply NF10_GENL_C_REG_RD (rd_body a).
Proof. reflexivity. Qed.

Lemma reg_rd_any s f a :
  window_ok s → holds s f → 0 ≤ a < 2 ^ 32 →
  ∃ r tr ok, genl_cmd_reg_rd (Some (rd_info a)) s = Ok r (set_trace tr s) ∧
    granted_replies tr = granted_replies (trace s) ++ [ok] ∧ holds (set_trace tr s) f ∧
    (∀ v, paged_device (page_addr s) (nf10_regs s) → f !! a = Some v →
      (∃ tr', tr = EvGenlReply [(NF10_GENL_A_REGVAL32, le_split 4 v); err_attr 0] r :: tr')
      ∨ reply_refused r).
Proof.
  intros Hw Hf Ha. pose proof Hw as [Hp Hr Hap].
  rewrite reg_rd_split.
  destruct (with_reply_cases NF10_GENL_C_REG_RD (rd_body a) s)
    as [(r & es & -> & Hg & Hl & Hrf)|(-> & Hg & Hl)].
  { exists r, (es ++ trace s), false. split; [done|]. split; [done|]. split; [by apply holds_same|auto]. }
  unfold rd_body. erewrite bind_ok by (by apply attr_u32_ok, attr_val_u32). cbv zeta. rewrite reg_addr_offset_mod4.
  destruct (Z.eqb_spec (a mod 4) 0) as [Hal|Hal]; cbn [negb]; cbv iota.
  2: { destruct (send_error_any (-1) [] (opened NF10_GENL_C_REG_RD s)) as (r & es & -> & Hes & _).
    destruct (silent_app es (trace (opened NF10_GENL_C_REG_RD s)) Hes) as [Eg El].
    eexists r, _, true. split; [reflexivity|]. split; [by rewrite Eg|].
    split; [apply holds_same; [done|]; intros b Hb; by rewrite El, Hl|].
    intros v _ Hv. by destruct (Hf a v Hv) as (_ & ? & _). }
  pose proof (reg_addr_offset_range a) as Ho. pose proof (reg_addr_offset_end a Hal).
  step idtac. change (page_addr (opened NF10_GENL_C_REG_RD s)) with (page_addr s).
  step ltac:(exact Hp). steps idtac.
  rewrite reg_slot_aligned by (by rewrite reg_addr_offset_mod4). simpl.
  step ltac:(apply Hr; lia). unfold nla_put_u32, nla_put_from. steps idtac.
  match goal with |- context [EvMmioRd ?sl ?x] => set (val := x) end.
  assert (∀ v, paged_device (page_addr s) (nf10_regs s) → f !! a = Some v → u32 val = v) as Hval.
  { intros v Hdev Hv. destruct (Hf a v Hv) as (_ & _ & Hvr & Hlast).
    assert (val = v) as ->; [|by apply u32_small].
    apply Hdev with (reg_addr_page a); [done|simpl; by rewrite Z.eqb_refl|].
    simpl. by decide_test (page_addr s =? nf10_regs s + reg_addr_offset a) false. }
  clearbody val.
  match goal with |- context [k_nla_put ?t ?ty ?l] => destruct (Z.eqb_spec (k_nla_put t ty l) 0) as [E|E] end;
    steps idtac; simpl fst; simpl snd;
    match goal with |- context [send_error ?e ?at_ ?t] =>
      destruct (send_error_any e at_ t) as (r & es & -> & Hes & Hrep);
      destruct (silent_app es (trace t) Hes) as [Eg El] end;
    (eexists r, _, true; split; [reflexivity|]; split; [by rewrite Eg|]; split;
     [apply holds_same; [done|]; intros b Hb; rewrite El; simpl;
      pose proof (reg_addr_offset_range b);
      by decide_test (page_addr s =? nf10_regs s + reg_addr_offset b) false|]); intros v Hdev Hv.
  - destruct Hrep as [(es' & ->)|?]; [left|by right]. rewrite (Hval v Hdev Hv). by eexists.
  - right. right. right. eauto.
Qed.

Lemma reg_op_any s f o :
  window_ok s → holds s f → reg_op_ok o →
  ∃ r tr ok, reg_op_run o s = Ok r (set_trace tr s) ∧
    granted_replies tr = granted_replies (trace s) ++ [ok] ∧
    holds (set_trace tr s) (spec_reg f (o, ok)).
Proof.
  intros Hw Hf Ho. destruct o as [a v|a]; simpl in Ho.
  - destruct Ho as [Ha Hv]. by apply reg_wr_any.
  - destruct (reg_rd_any s f a Hw Hf Ho) as (r & tr & ok & ? & ? & ? & _). by exists r, tr, ok.
Qed.

Lemma reg_ops_any os s f :
  window_ok s → holds s f → Forall reg_op_ok os →
  ∃ tr oks, reg_ops_run os s = Ok tt (set_trace tr s) ∧ length oks = length os ∧
    granted_replies tr = granted_replies (trace s) ++ oks ∧
    holds (set_trace tr s) (foldl spec_reg f (zip os oks)).
Proof.
  revert s f. induction os as [|o os IH]; intros s f Hw Hf Hos.
  { exists (trace s), []. rewrite app_nil_r. by destruct s. }
  apply Forall_cons_iff in Hos as [Ho Hos].
  destruct (reg_op_any s f o Hw Hf Ho) as (r & tr & ok & Hrun & Hg & Hf1).
  destruct (IH (set_trace tr s) _ (window_trace s tr Hw) Hf1 Hos) as (tr' & oks & Hrun' & Hl & Hg' & Hf2).
  exists tr', (ok :: oks). simpl. erewrite bind_ok by exact Hrun. rewrite Hrun', Hl, Hg'. simpl.
  by rewrite Hg, <- app_assoc.
Qed.

(** ** Commands whose replies are granted *)

Context (Hk : reply_ok).

(** The events of a write command: only its own register changes. *)
Lemma reg_wr_events info s a v :
  window_ok s → carries info NF10_GENL_A_ADDR32 a → a mod 4 = 0 →
  carries info NF10_GENL_A_REGVAL32 v →
  ∃ tr, genl_cmd_reg_wr (Some info) s
        = Ok 0 (set_trace (EvGenlReply [err_attr 0] 0 :: tr) s) ∧
    (∀ b, b mod 4 = 0 →
      last_write (page_addr s) (nf10_regs s + reg_addr_offset b) (reg_addr_page b) tr =
      if b =? a then Some v
      else last_write (page_addr s) (nf10_regs s + reg_addr_offset b) (reg_addr_page b) (trace s)).
Proof.
  intros [Hp Hr Hap] (bs & Ha & Hav) Hal (vs & Hv & Hvv).
  pose proof (reg_addr_offset_range a) as Ho. pose proof (reg_addr_offset_end a Hal).
  eexists. split.
  - eapply reg_wr_run; eauto. apply Hr; lia.
  - intros b Hb. rewrite <- (last_write_put (page_addr s) (nf10_regs s) a b v (trace s)) by done.
    done.
Qed.

(** A read command changes no register. *)
Lemma reg_rd_events info s a :
  window_ok s → carries info NF10_GENL_A_ADDR32 a → a mod 4 = 0 →
  let v := k_mmio (EvMb :: EvMmioWr (page_addr s) (reg_addr_page a)
             :: trace (opened NF10_GENL_C_REG_RD s)) (nf10_regs s + reg_addr_offset a) in
  ∃ tr, genl_cmd_reg_rd (Some info) s =
    Ok 0 (set_trace
      (EvGenlReply [(NF10_GENL_A_REGVAL32, le_split 4 (u32 v)); err_attr 0] 0 :: tr) s) ∧
    (∀ b, b mod 4 = 0 →
      last_write (page_addr s) (nf10_regs s + reg_addr_offset b) (reg_addr_page b) tr =
      last_write (page_addr s) (nf10_regs s + reg_addr_offset b) (reg_addr_page b) (trace s)).
Proof.
  intros [Hp Hr Hap] (bs & Ha & Hav) Hal v. pose proof (reg_addr_offset_range a) as Ho.
  pose proof (reg_addr_offset_end a Hal).
  eexists. split.
  - eapply reg_rd_run; eauto. apply Hr; lia.
  - intros b Hb. pose proof (reg_addr_offset_range b) as Ho'. simpl.
    by decide_test (page_addr s =? nf10_regs s + reg_addr_offset b) false.
Qed.

(** A write command updates the map. *)
Lemma reg_wr_holds info s f a v :
  window_ok s → holds s f → carries info NF10_GENL_A_ADDR32 a → a mod 4 = 0 →
  carries info NF10_GENL_A_REGVAL32 v →
  ∃ tr, genl_cmd_reg_wr (Some info) s
        = Ok 0 (set_trace (EvGenlReply [err_attr 0] 0 :: tr) s) ∧
    holds (set_trace (EvGenlReply [err_attr 0] 0 :: tr) s) (<[a := v]> f).
Proof.
  intros Hw Hf Ha Hal Hv.
  destruct (reg_wr_events info s a v Hw Ha Hal Hv) as (tr & Hrun & Hlast).
  exists tr. split; [done|]. apply holds_write; eauto using carries_range.
Qed.

(** A read command keeps it. *)
Lemma reg_rd_holds info s f a :
  window_ok s → holds s f → carries info NF10_GENL_A_ADDR32 a → a mod 4 = 0 →
  ∃ tr, genl_cmd_reg_rd (Some info) s = Ok 0 (set_trace tr s) ∧ holds (set_trace tr s) f.
Proof.
  intros Hw Hf Ha Hal. destruct (reg_rd_events info s a Hw Ha Hal) as (tr & Hrun & Hlast).
  eexists. split; [exact Hrun|]. by apply holds_same.
Qed.

(** A read returns what the specification holds. *)
Lemma reg_rd_returns info s f a v :
  window_ok s → paged_device (page_addr s) (nf10_regs s) → holds s f → f !! a = Some v →
  carries info NF10_GENL_A_ADDR32 a →
  ∃ tr, genl_cmd_reg_rd (Some info) s =
    Ok 0 (set_trace
      (EvGenlReply [(NF10_GENL_A_REGVAL32, le_split 4 v); err_attr 0] 0 :: tr) s).
Proof.
  intros Hw Hdev Hf Hv Hc. destruct (Hf a v Hv) as (Ha & Hal & Hvr & Hlast).
  destruct (reg_rd_events info s a Hw Hc Hal) as (tr & Hrun & _). exists tr. rewrite Hrun.
  pose proof (reg_addr_offset_range a) as Ho. pose proof (wo_apart s Hw).
  assert (k_mmio (EvMb :: EvMmioWr (page_addr s) (reg_addr_page a)
    :: trace (opened NF10_GENL_C_REG_RD s)) (nf10_regs s + reg_addr_offset a) = v) as ->.
  { apply Hdev with (reg_addr_page a); [done| |].
    - simpl. by rewrite Z.eqb_refl.
    - simpl. by decide_test (page_addr s =? nf10_regs s + reg_addr_offset a) false. }
  by rewrite u32_small by done.
Qed.

End Regs.
