(* ===== verification/DmaCmd.v ===== *)
(** * The echo and DMA commands of the netlink interface

    [genl_cmd_dma_tx] and [genl_cmd_dma_rx] are a second producer and a second
    consumer of the rings; with a device they implement the same queues as the
    network path.  In ghosting mode, where there is no doorbell, they do
    not work. *)

From S2P Require Import Prelude Mem Occp Opcode Kernel Packet Stream Xmit Poll Ring Ghost Genl.
From S2P Require Import Probe Hw Regs.

Section DmaCmd.
Context `{Kernel} (Hk : reply_ok).

(** ** Echo *)

Lemma echo_run (info : genl_info) na str rest s :
  info NF10_GENL_A_MSG = Some na → nla_data na = Some (str ++ 0 :: rest) →
  Forall (λ b, b ≠ 0) str →
  ∃ tr, genl_cmd_echo (Some info) s =
    Ok 0 (set_trace (EvGenlReply [(NF10_GENL_A_MSG, str ++ [0])] 0 :: tr) s).
Proof.
  intros Hna Hd Hstr. pose proof Hk as (Hn & Hp & Hput & Hrep). unfold genl_cmd_echo.
  rewrite Hna, Hd. erewrite bind_ok by reflexivity. cbv beta. rewrite !Hn. cbn [negb]. cbv iota.
  erewrite bind_ok by reflexivity. cbv beta. rewrite !Hp. cbn [negb]. cbv iota.
  rewrite c_string_app by done. erewrite bind_ok by reflexivity. unfold nla_put_from.
  rewrite bind_assoc. erewrite bind_ok by reflexivity. rewrite !Hput. simpl.
  steps idtac. rewrite Hrep. by eexists.
Qed.

(** ** Transmit *)

(** What a request asks for: the first buffer's worth of its message, to be sent
    with its opcode, or nothing if one of the two is missing. *)
Definition tx_request (info : genl_info) (r : option packet) : Prop :=
  match r with
  | Some (bs, op) =>
      ∃ na nb data odata, info NF10_GENL_A_MSG = Some na ∧ info NF10_GENL_A_OPCODE = Some nb ∧
        nla_data na = Some data ∧ nla_data nb = Some odata ∧ attr_val odata op ∧
        0 ≤ nla_len na ≤ zlen data ∧
        bs = take (Z.to_nat (Z.min DMA_BUF_SIZE (nla_len na))) data
  | None => need_attr info NF10_GENL_A_MSG = None ∨ need_attr info NF10_GENL_A_OPCODE = None
  end.

Lemma dma_tx_refines s dt dr w info r :
  hw_rel (mkSys s dt dr) w → tx_request info r →
  ∃ s', genl_cmd_dma_tx (Some info) s = Ok 0 s' ∧
    hw_rel (mkSys s' dt dr)
      (match r with
       | Some p =>
           if zlen (tx_queue w) <? dma_cpu_bufs s then
             mkHw (tx_accepted w ++ [p]) (tx_taken w) (tx_queue w ++ [p])
               (rx_arrived w) (rx_queue w) (rx_out w)
           else w
       | None => w
       end).
Proof.
  intros Hrel. destruct r as [ [bs op]|].
  2: { intros Hreq. exists s. split; [|done]. unfold genl_cmd_dma_tx.
       destruct (info NF10_GENL_A_MSG) as [na|] eqn:E1; [|done].
       destruct (nla_data na) as [data|] eqn:E2; [|done].
       destruct (info NF10_GENL_A_OPCODE) as [nb|] eqn:E3; [|done].
       destruct (nla_data nb) as [odata|] eqn:E4; [|done].
       unfold tx_request, need_attr in Hreq. rewrite E1, E3 in Hreq. simpl in Hreq. rewrite E2, E4 in Hreq.
       by destruct Hreq. }
  intros (na & nb & data & odata & E1 & E2 & E3 & E4 & Hv & Hlen & Hbs).
  pose proof (hr_tx _ _ Hrel) as Htx. simpl in Htx. pose proof (r_wf _ _ _ _ _ Htx) as Hwf.
  pose proof (wf_index _ _ _ Hwf) as Hidx. pose proof (r_bound _ _ _ _ _ Htx) as Hb.
  unfold genl_cmd_dma_tx. rewrite E1, E2, E3, E4. step idtac.
  step ltac:(by apply (valid_flag _ _ _ Hwf)).
  pose proof (hw_tx_full _ _ Hrel) as Hfull. simpl in Hfull. unfold flag_at in Hfull.
  rewrite Hfull. destruct (Z.ltb_spec (zlen (tx_queue w)) (dma_cpu_bufs s)) as [Hroom|Hno].
  2: { rewrite (proj2 (Z.eqb_eq (zlen (tx_queue w)) (dma_cpu_bufs s))) by lia. by exists s. }
  rewrite (proj2 (Z.eqb_neq (zlen (tx_queue w)) (dma_cpu_bufs s))) by lia.
  assert ((if DMA_BUF_SIZE <? nla_len na then DMA_BUF_SIZE else nla_len na)
          = Z.min DMA_BUF_SIZE (nla_len na)) as ->.
  { destruct (Z.ltb_spec DMA_BUF_SIZE (nla_len na)); lia. }
  assert (zlen bs = Z.min DMA_BUF_SIZE (nla_len na)) as Hbl.
  { rewrite Hbs. apply take_zlen. unfold DMA_BUF_SIZE. lia. }
  assert (zlen bs ≤ 2048) as Hbl2 by (rewrite Hbl; unfold DMA_BUF_SIZE; lia).
  erewrite bind_ok by (apply rd_bytes_ok; lia). rewrite <- Hbs, <- Hbl.
  step ltac:(by apply (valid_buf _ _ _ Hwf)).
  step ltac:(by apply (valid_meta _ _ _ Hwf)).
  erewrite bind_ok by (by apply attr_u32_ok).
  step ltac:(by apply (valid_meta _ _ _ Hwf)).
  step ltac:(by apply (valid_flag _ _ _ Hwf)).
  step ltac:(apply (hr_tx_bell _ _ Hrel)). step idtac.
  eexists. split; [done|]. destruct Hv as (rest & _ & Hop).
  apply (hw_put_rel s); auto. by destruct (hr_netdevs _ _ Hrel).
Qed.

(** ** Receive *)

(** The reply: the oldest packet and its opcode, or nothing. *)
Definition rx_reply (q : list packet) : attrs :=
  match q with
  | [] => []
  | p :: _ => [(NF10_GENL_A_DMA_BUF, p.1); (NF10_GENL_A_OPCODE, le_split 4 p.2)]
  end.

(** The replies that were sent, newest first. *)
Fixpoint replies (tr : list event) : list (attrs * Z) :=
  match tr with
  | [] => []
  | EvGenlReply a err :: tr => (a, err) :: replies tr
  | _ :: tr => replies tr
  end.

(** [if(err != 0) return err; return 0;] *)
Lemma if_err (err : Z) (s : drv) : (if negb (err =? 0) then ret err else ret 0) s = Ok err s.
Proof. by destruct (Z.eqb_spec err 0) as [->|]. Qed.

(** Trace events that are neither replies nor deliveries leave the relation alone. *)
Lemma hw_rel_trace s s' dt dr w :
  hw_rel (mkSys s dt dr) w → s' = set_trace (trace s') s → received (trace s') = received (trace s) →
  hw_rel (mkSys s' dt dr) w.
Proof.
  intros Hrel Hs Htr. pose proof (hr_netdevs _ _ Hrel) as [].
  apply (hw_rel_frame s); auto; rewrite Hs; done.
Qed.

(** The head of the ring is sent, or the kernel refuses an attribute. *)
Lemma dma_rx_any s dt dr w (info : genl_info) :
  hw_rel (mkSys s dt dr) w → Forall (λ p, 0 ≤ p.2 < 2 ^ 32) (rx_queue w) →
  ∃ r s', genl_cmd_dma_rx (Some info) s = Ok r s' ∧
    ((∃ tr, trace s' = EvGenlReply (rx_reply (rx_queue w)) r :: tr ∧ replies tr = replies (trace s) ∧
        hw_rel (mkSys s' dt dr)
          (mkHw (tx_accepted w) (tx_taken w) (tx_queue w) (rx_arrived w)
             (tail (rx_queue w)) (rx_out w))) ∨
     (reply_refused r ∧ replies (trace s') = replies (trace s) ∧ hw_rel (mkSys s' dt dr) w)).
Proof.
  intros Hrel Hq. unfold genl_cmd_dma_rx, genlmsg_new, genlmsg_put_reply, genlmsg_reply.
  step idtac. destruct (k_genlmsg_new (trace s)) eqn:E1; cbn [negb]; cbv iota.
  2: { do 2 eexists. split; [reflexivity|]. right. split; [left; eauto|]. split; [done|].
       by apply (hw_rel_trace s). }
  step idtac. destruct (k_genlmsg_put_reply _) eqn:E2; cbn [negb]; cbv iota.
  2: { do 2 eexists. split; [reflexivity|]. right. split; [right; left; eauto|]. split; [done|].
       by apply (hw_rel_trace s). }
  set (s0 := set_trace _ _).
  assert (hw_rel (mkSys s0 dt dr) w) as Hrel0 by (by apply (hw_rel_trace s)).
  assert (replies (trace s0) = replies (trace s)) as <- by done.
  clearbody s0. pose proof (hr_rx _ _ Hrel0) as Hrx. simpl in Hrx.
  pose proof (r_wf _ _ _ _ _ Hrx) as Hwf.
  pose proof (wf_index _ _ _ Hwf) as Hidx. pose proof (hr_rx_bell _ _ Hrel0) as Hbell.
  pose proof (ring_head_full _ _ _ _ _ Hrx) as Hfull. simpl in Hfull. unfold flag_at in Hfull.
  step idtac. step ltac:(by apply (valid_flag _ _ _ Hwf)). rewrite Hfull.
  destruct (rx_queue w) as [|p q] eqn:Eq.
  { rewrite bool_decide_true by done. simpl. steps idtac.
    eexists _, _. split; [apply if_err|]. left. eexists. split; [done|]. split; [done|].
    rewrite <- Eq. destruct w. by apply (hw_rel_trace s0). }
  rewrite bool_decide_false by done. cbn [negb]. cbv iota.
  apply Forall_cons_iff in Hq as [Hop _].
  destruct (ring_head_slot _ _ _ _ _ _ Hrx) as [Hslot Hlen].
  step ltac:(by apply (valid_meta _ _ _ Hwf)). unfold nla_put_from. step idtac.
  match goal with |- context [k_nla_put ?t ?ty ?l =? 0] => destruct (Z.eqb_spec (k_nla_put t ty l) 0) as [E3|E3] end.
  2: { steps idtac. simpl. rewrite (proj2 (Z.eqb_neq _ _) E3). simpl. steps idtac. simpl.
       rewrite (proj2 (Z.eqb_neq _ _) E3). do 2 eexists. split; [reflexivity|]. right.
       split; [right; right; eauto|]. split; [done|]. by apply (hw_rel_trace s0). }
  step ltac:(by apply (valid_buf _ _ _ Hwf)). steps idtac.
  step ltac:(by apply (valid_meta _ _ _ Hwf)). unfold nla_put_u32, nla_put_from. step idtac.
  match goal with |- context [k_nla_put ?t ?ty ?l =? 0] => destruct (Z.eqb_spec (k_nla_put t ty l) 0) as [E4|E4] end.
  2: { steps idtac. simpl. rewrite (proj2 (Z.eqb_neq _ _) E4). simpl. steps idtac. simpl.
       rewrite (proj2 (Z.eqb_neq _ _) E4). do 2 eexists. split; [reflexivity|]. right.
       split; [right; right; eauto|]. split; [done|]. by apply (hw_rel_trace s0). }
  steps idtac. step ltac:(by apply (valid_flag _ _ _ Hwf)).
  step ltac:(exact Hbell). steps idtac. simpl.
  eexists _, _. split; [apply if_err|]. left. eexists. split; [|split].
  - simpl. unfold slot_at in Hslot. destruct p as [bs op]. injection Hslot as <- <-. simpl in *.
    by rewrite u32_small by done.
  - done.
  - eapply (hw_released_rel s0); eauto; [by destruct (hr_netdevs _ _ Hrel0)|].
    simpl. apply (hr_out _ _ Hrel0).
Qed.

(** ** Without a device

    In ghosting mode the doorbells are NULL and nothing is mapped. *)

Definition no_device (s : drv) : Prop := ∀ a, io_valid s a = false.

Lemma mmio_wr_fault a v s : io_valid s a = false → mmio_wr a v s = Fault.
Proof. intros Hv. unfold mmio_wr. by rewrite Hv. Qed.

(** Taking a packet out of the ring with the receive command writes through
    the NULL doorbell. *)
Lemma dma_rx_ghost_fault s w (info : genl_info) :
  ghost_rel s w → no_device s → w_queue w ≠ [] →
  genl_cmd_dma_rx (Some info) s = Fault.
Proof.
  intros Hrel Hno Hq. pose proof Hk as (Hn & Hp & Hput & Hrep). unfold genl_cmd_dma_rx.
  erewrite bind_ok by reflexivity. cbv beta. rewrite !Hn. cbn [negb]. cbv iota.
  erewrite bind_ok by reflexivity. cbv beta. rewrite !Hp. cbn [negb]. cbv iota.
  set (s0 := set_trace _ _).
  assert (ghost_rel s0 w) as Hrel0 by (by apply (ghost_rel_frame s)).
  assert (no_device s0) as Hno0 by exact Hno.
  clearbody s0. pose proof (gr_ring _ _ Hrel0) as Hrx.
  pose proof (r_wf _ _ _ _ _ Hrx) as Hwf. pose proof (wf_index _ _ _ Hwf) as Hidx.
  pose proof (ring_head_full _ _ _ _ _ Hrx) as Hfull. simpl in Hfull. unfold flag_at in Hfull.
  step idtac. step ltac:(by apply (valid_flag _ _ _ Hwf)). rewrite Hfull.
  destruct (w_queue w) as [|p q]; [done|]. rewrite bool_decide_false by done. cbn [negb]. cbv iota.
  destruct (ring_head_slot _ _ _ _ _ _ Hrx) as [Hslot Hlen].
  step ltac:(by apply (valid_meta _ _ _ Hwf)). unfold nla_put_from.
  step idtac. rewrite Hput. simpl.
  step ltac:(by apply (valid_buf _ _ _ Hwf)). steps idtac.
  step ltac:(by apply (valid_meta _ _ _ Hwf)). unfold nla_put_u32, nla_put_from.
  step idtac. rewrite Hput. simpl. steps idtac.
  step ltac:(by apply (valid_flag _ _ _ Hwf)).
  unfold bind. by rewrite mmio_wr_fault by apply Hno0.
Qed.

End DmaCmd.
