(* ===== verification/Timer.v ===== *)
(** * The polling timer and NAPI

    Reception is driven by a timer that hands over to NAPI when a packet has
    arrived, and by a poll function that hands back to the timer when the ring
    is empty.  [add_timer] on a timer that is already pending is a kernel bug,
    so the handlers must keep the two states apart.  The state machine is read
    off the trace; the expiry of the timer is an event of its own. *)

From S2P Require Import Prelude Mem Occp Opcode Kernel Packet Stream Xmit Poll Ring Ghost Genl.

Fixpoint timer_pending (tr : list event) : bool :=
  match tr with
  | [] => false
  | EvAddTimer _ :: _ => true
  | EvDelTimer :: _ | EvTimerFired :: _ => false
  | _ :: tr => timer_pending tr
  end.

Fixpoint napi_scheduled (tr : list event) : bool :=
  match tr with
  | [] => false
  | EvNapiSchedule :: _ => true
  | EvNapiComplete :: _ => false
  | _ :: tr => napi_scheduled tr
  end.

(** No [add_timer] of a pending timer. *)
Fixpoint timers_ok (tr : list event) : bool :=
  match tr with
  | [] => true
  | EvAddTimer _ :: tr => negb (timer_pending tr) && timers_ok tr
  | _ :: tr => timers_ok tr
  end.

(** Events that do not concern the timer or NAPI. *)
Definition untimed (e : event) : Prop :=
  match e with
  | EvAddTimer _ | EvDelTimer | EvTimerFired | EvNapiSchedule | EvNapiComplete => False
  | _ => True
  end.

Lemma untimed_app es tr :
  Forall untimed es →
  timer_pending (es ++ tr) = timer_pending tr ∧
  napi_scheduled (es ++ tr) = napi_scheduled tr ∧ timers_ok (es ++ tr) = timers_ok tr.
Proof. induction 1 as [|e es He _ IH]; [done|]. by destruct e. Qed.

Section Timer.
Context `{Kernel}.

Local Ltac allowed := quiet ltac:(intros; exact I).

Lemma poll_loop_untimed fuel budget n_rx bi : emits untimed (poll_loop fuel budget n_rx bi).
Proof.
  revert n_rx bi. induction fuel as [|fuel IH]; intros n_rx bi; simpl;
    unfold poll_body, rx_doorbell, rx_advance, wr32; allowed.
Qed.

(** A poll either completes and restarts the timer, or stays scheduled. *)
Lemma poll_events budget s r s' :
  nf10_napi_struct_poll budget s = Ok r s' →
  ∃ es, Forall untimed es ∧
    (trace s' = es ++ trace s ∨
     ∃ e, trace s' = EvAddTimer e :: EvNapiComplete :: es ++ trace s).
Proof.
  unfold nf10_napi_struct_poll. erewrite bind_ok by reflexivity. erewrite bind_ok by reflexivity.
  unfold bind at 1. destruct (poll_loop _ _ _ _ s) as [[k b] s1| |] eqn:E; try done.
  destruct (poll_loop_untimed _ _ _ _ _ _ _ E) as (es & Hes & Hun).
  erewrite bind_ok by reflexivity. unfold bind at 1, rd32 at 1.
  destruct (load32 _ _); [|done].
  destruct (_ =? 0); intros [= _ <-]; exists es; (split; [done|]); simpl; rewrite Hes; eauto.
Qed.

(** The timer callback either schedules NAPI or restarts the timer. *)
Lemma cb_events s s' :
  rx_poll_timer_cb s = Ok tt s' →
  trace s' = EvNapiSchedule :: trace s ∨ ∃ e, trace s' = EvAddTimer e :: trace s.
Proof.
  unfold rx_poll_timer_cb. erewrite bind_ok by reflexivity. unfold bind at 1, rd32 at 1.
  destruct (load32 _ _); [|done]. destruct (_ =? 1); intros [= <-]; simpl; eauto.
Qed.

(** ** The machine *)

Inductive timer_step : drv → drv → Prop :=
  | TimerFires s s' :
      timer_pending (trace s) = true →
      (emit EvTimerFired ;; rx_poll_timer_cb) s = Ok tt s' → timer_step s s'
  | NapiPolls s b r s' :
      napi_scheduled (trace s) = true → nf10_napi_struct_poll b s = Ok r s' → timer_step s s'
  | Disabled s info r s' :
      genl_cmd_napi_disable info s = Ok r s' → timer_step s s'
  | Enabled s info r s' :
      napi_scheduled (trace s) = false → genl_cmd_napi_enable info s = Ok r s' → timer_step s s'
  | Transmits s skb p r s' :
      nf10_ndo_start_xmit skb p s = Ok r s' → timer_step s s'.

(** Never both pending and scheduled, and no pending timer was added again. *)
Definition timer_inv (s : drv) : Prop :=
  timers_ok (trace s) = true ∧
  (timer_pending (trace s) = true → napi_scheduled (trace s) = false).

Lemma xmit_untimed skb p : emits untimed (nf10_ndo_start_xmit skb p).
Proof.
  unfold nf10_ndo_start_xmit, nf10_ghost_xmit, tx_drop, get_iface_from_netdev, or_fault, rd_bytes,
    wr32. allowed.
Qed.

Lemma timer_step_inv s s' : timer_inv s → timer_step s s' → timer_inv s'.
Proof.
  intros [Hok Hex] Hstep. unfold timer_inv.
  destruct Hstep as [s s' Hp Hrun|s b r s' Hs Hrun|s info r s' Hrun|s info r s' Hs Hrun
                    |s skb p r s' Hrun].
  - destruct (cb_events _ _ Hrun) as [->|[e ->]]; simpl; auto.
  - destruct (poll_events _ _ _ _ Hrun) as (es & Hes & [->|[e ->]]);
      destruct (untimed_app es (trace s) Hes) as (E1 & E2 & E3); simpl; rewrite E1, ?E2, E3; auto.
    assert (timer_pending (trace s) = false) as ->.
    { destruct (timer_pending (trace s)); [|done]. by rewrite Hex in Hs. }
    by rewrite Hok.
  - injection Hrun as _ <-. simpl. by split.
  - injection Hrun as _ <-. simpl. split; [by rewrite Hok|done].
  - destruct (xmit_untimed _ _ _ _ _ Hrun) as (es & -> & Hes).
    destruct (untimed_app es (trace s) Hes) as (E1 & E2 & E3). by rewrite E1, E2, E3.
Qed.

(** While polling is not disabled it never stops: one of the two is on. *)
Lemma timer_step_live s s' :
  timer_step s s' → (timer_pending (trace s) || napi_scheduled (trace s)) = true →
  (timer_pending (trace s') || napi_scheduled (trace s')) = true ∨
  ∃ info r, genl_cmd_napi_disable info s = Ok r s'.
Proof.
  intros Hstep Hon.
  destruct Hstep as [s s' Hp Hrun|s b r s' Hs Hrun|s info r s' Hrun|s info r s' Hs Hrun
                    |s skb p r s' Hrun]; [left|left|right|left|left].
  - destruct (cb_events _ _ Hrun) as [->|[e ->]]; simpl; auto.
  - destruct (poll_events _ _ _ _ Hrun) as (es & Hes & [->|[e ->]]);
      destruct (untimed_app es (trace s) Hes) as (E1 & E2 & E3); simpl; rewrite ?E1, ?E2; auto.
  - eauto.
  - injection Hrun as _ <-. done.
  - destruct (xmit_untimed _ _ _ _ _ Hrun) as (es & -> & Hes).
    destruct (untimed_app es (trace s) Hes) as (E1 & E2 & E3). by rewrite E1, E2.
Qed.

Lemma timer_run_inv s s' : rtc timer_step s s' → timer_inv s → timer_inv s'.
Proof. induction 1; eauto using timer_step_inv. Qed.

(** Enabling polling while NAPI is scheduled leads to the kernel bug as soon
    as a poll finds the ring empty. *)
Lemma enable_scheduled_breaks s info s1 b s2 :
  napi_scheduled (trace s) = true → genl_cmd_napi_enable info s = Ok 0 s1 →
  nf10_napi_struct_poll b s1 = Ok 0 s2 → napi_scheduled (trace s2) = false →
  timers_ok (trace s2) = false.
Proof.
  intros Hs He Hp Hc. injection He as <-.
  destruct (poll_events _ _ _ _ Hp) as (es & Hes & [E|[e E]]);
    destruct (untimed_app es (EvAddTimer (u64 (k_jiffies (trace s) + RX_POLL_INTERVAL))
      :: EvDelTimer :: trace s) Hes) as (E1 & E2 & E3); simpl in E.
  - rewrite E, E2 in Hc. simpl in Hc. by rewrite Hs in Hc.
  - rewrite E. simpl. by rewrite E1.
Qed.

End Timer.
