(* ===== verification/Netlink.v ===== *)
(** * Netlink messages: the vendored [libnl-3.0]

    The user-space programs build requests and parse replies with the copy of
    libnl under [driver/lib/libnl-3.0].  A message is its byte buffer; a
    pointer into it is an offset; an access past the end of the buffer is
    [None].  This file has the construction of messages ([msg.c], [genl.c],
    [attr.c]), the parsing of attributes and the receive loop of [nl.c], and
    proves that parsing inverts construction. *)

From S2P Require Import Prelude Mem Kernel Packet.

Module Nl.

(** ** Constants and sizes *)

Definition NLMSG_ALIGN (len : Z) : Z := Z.land (len + 4 - 1) (Z.lnot (4 - 1)).
Definition NLA_ALIGN (len : Z) : Z := Z.land (len + 4 - 1) (Z.lnot (4 - 1)).

Definition sizeof_nlmsghdr : Z := 16.
Definition sizeof_nlattr : Z := 4.
Definition sizeof_genlmsghdr : Z := 4.
Definition sizeof_nlmsgerr : Z := 4 + sizeof_nlmsghdr.

Definition NLMSG_HDRLEN : Z := NLMSG_ALIGN sizeof_nlmsghdr.
Definition NLA_HDRLEN : Z := NLA_ALIGN sizeof_nlattr.
Definition GENL_HDRLEN : Z := NLMSG_ALIGN sizeof_genlmsghdr.

Definition NLM_F_REQUEST : Z := 1.
Definition NLM_F_MULTI : Z := 2.
Definition NLM_F_ACK : Z := 4.

Definition NLMSG_NOOP : Z := 1.
Definition NLMSG_ERROR : Z := 2.
Definition NLMSG_DONE : Z := 3.
Definition NLMSG_OVERRUN : Z := 4.

Definition NLE_NOMEM : Z := 5.
Definition NLE_INVAL : Z := 7.
Definition NLE_RANGE : Z := 8.
Definition NLE_NOATTR : Z := 13.
Definition NLE_SEQ_MISMATCH : Z := 16.
Definition NLE_MSG_OVERFLOW : Z := 17.
Definition NLE_MSG_TRUNC : Z := 18.
Definition NLE_MSG_TOOSHORT : Z := 21.

Definition nlmsg_size (payload : Z) : Z := NLMSG_HDRLEN + payload.
Definition nlmsg_msg_size (payload : Z) : Z := nlmsg_size payload.
Definition nlmsg_total_size (payload : Z) : Z := NLMSG_ALIGN (nlmsg_msg_size payload).
Definition nla_attr_size (payload : Z) : Z := NLA_HDRLEN + payload.
Definition nla_total_size (payload : Z) : Z := NLA_ALIGN (nla_attr_size payload).
Definition nla_padlen (payload : Z) : Z := nla_total_size payload - nla_attr_size payload.

(** ** Access to the buffer *)

(** A little-endian load of [n] bytes; [None] outside the buffer. *)
Definition ld (n : nat) (buf : list Z) (off : Z) : option Z :=
  if (off <? 0) || (zlen buf <? off + Z.of_nat n) then None
  else Some (le_combine (take n (drop (Z.to_nat off) buf))).

(** A store of bytes. *)
Definition st (buf : list Z) (off : Z) (bs : list Z) : option (list Z) :=
  if (off <? 0) || (zlen buf <? off + zlen bs) then None else Some (zcopy buf off bs).

Definition nlmsg_len (buf : list Z) (nlh : Z) : option Z := ld 4 buf nlh.
Definition nlmsg_type (buf : list Z) (nlh : Z) : option Z := ld 2 buf (nlh + 4).
Definition nlmsg_flags (buf : list Z) (nlh : Z) : option Z := ld 2 buf (nlh + 6).
Definition nlmsg_seq (buf : list Z) (nlh : Z) : option Z := ld 4 buf (nlh + 8).
Definition nlmsg_pid (buf : list Z) (nlh : Z) : option Z := ld 4 buf (nlh + 12).

Definition nlmsg_data (nlh : Z) : Z := nlh + NLMSG_HDRLEN.

(** ** Building a message *)

(** [struct nl_msg]: the size of the buffer and the buffer itself. *)
Record nl_msg := mkMsg { nm_size : Z; nm_nlh : list Z }.

Definition nlmsg_alloc_len (len : Z) : nl_msg :=
  let len := if len <? sizeof_nlmsghdr then sizeof_nlmsghdr else len in
  let buf := replicate (Z.to_nat len) 0 in
  mkMsg len (zcopy buf 0 (le_split 4 (nlmsg_total_size 0))).

(** [nlmsg_reserve]: the offset of the reserved room. *)
Definition nlmsg_reserve (n : nl_msg) (len pad : Z) : option (option Z * nl_msg) :=
  l ← nlmsg_len (nm_nlh n) 0;
  let tlen := if pad =? 0 then len else Z.land (len + (pad - 1)) (Z.lnot (pad - 1)) in
  if nm_size n <? tlen + l then Some (None, n)
  else
    buf ← st (nm_nlh n) 0 (le_split 4 (l + tlen));
    buf ← (if len <? tlen then st buf (l + len) (replicate (Z.to_nat (tlen - len)) 0)
           else Some buf);
    Some (Some l, mkMsg (nm_size n) buf).

(** [nlmsg_put]: whether it succeeded. *)
Definition nlmsg_put (n : nl_msg) (pid seq type payload flags : Z) : option (bool * nl_msg) :=
  l ← nlmsg_len (nm_nlh n) 0;
  if l <? NLMSG_HDRLEN then None
  else
    buf ← st (nm_nlh n) 4 (le_split 2 type);
    buf ← st buf 6 (le_split 2 flags);
    buf ← st buf 12 (le_split 4 pid);
    buf ← st buf 8 (le_split 4 seq);
    let n := mkMsg (nm_size n) buf in
    if 0 <? payload then
      r ← nlmsg_reserve n payload 4;
      Some (bool_decide (r.1 ≠ None), r.2)
    else Some (true, n).

(** [struct genlmsghdr]: command, version, 16 reserved bits. *)
Definition genlmsghdr (cmd version : Z) : list Z := [u8 cmd; u8 version; 0; 0].

Definition genlmsg_put (msg : nl_msg) (pid seq family hdrlen flags cmd version : Z)
    : option (bool * nl_msg) :=
  r ← nlmsg_put msg pid seq family (GENL_HDRLEN + hdrlen) flags;
  if negb r.1 then Some (false, r.2)
  else
    buf ← st (nm_nlh r.2) (nlmsg_data 0) (genlmsghdr cmd version);
    Some (true, mkMsg (nm_size r.2) buf).

(** [nla_reserve]: the offset of the attribute.  The length is stored in 16 bits, and the
    padding is where the stored length says. *)
Definition nla_reserve (msg : nl_msg) (attrtype attrlen : Z) : option (option Z * nl_msg) :=
  l ← nlmsg_len (nm_nlh msg) 0;
  let tlen := NLMSG_ALIGN l + nla_total_size attrlen in
  if nm_size msg <? tlen + l then Some (None, msg)
  else
    let nla := NLMSG_ALIGN l in
    buf ← st (nm_nlh msg) (nla + 2) (le_split 2 attrtype);
    buf ← st buf nla (le_split 2 (nla_attr_size attrlen));
    buf ← (if attrlen =? 0 then Some buf
           else st buf (nla + u16 (nla_attr_size attrlen))
                  (replicate (Z.to_nat (nla_padlen attrlen)) 0));
    buf ← st buf 0 (le_split 4 tlen);
    Some (Some nla, mkMsg (nm_size msg) buf).

Definition nla_put (msg : nl_msg) (attrtype : Z) (data : list Z) : option (Z * nl_msg) :=
  r ← nla_reserve msg attrtype (zlen data);
  match r.1 with
  | None => Some (- NLE_NOMEM, r.2)
  | Some nla =>
      buf ← st (nm_nlh r.2) (nla + NLA_HDRLEN) data;
      Some (0, mkMsg (nm_size r.2) buf)
  end.

Definition nla_put_u32 (msg : nl_msg) (attrtype value : Z) : option (Z * nl_msg) :=
  nla_put msg attrtype (le_split 4 (u32 value)).

(** [str] without its NUL, which the attribute includes. *)
Definition nla_put_string (msg : nl_msg) (attrtype : Z) (str : list Z) : option (Z * nl_msg) :=
  nla_put msg attrtype (str ++ [0]).

(** Add several attributes; [None] if one does not fit. *)
Fixpoint nla_puts (msg : nl_msg) (l : list (Z * list Z)) : option nl_msg :=
  match l with
  | [] => Some msg
  | a :: l => r ← nla_put msg a.1 a.2; if r.1 =? 0 then nla_puts r.2 l else None
  end.

(** ** Parsing attributes *)

Definition nla_nla_len (buf : list Z) (nla : Z) : option Z := ld 2 buf nla.
Definition nla_type (buf : list Z) (nla : Z) : option Z :=
  t ← ld 2 buf (nla + 2); Some (Z.land t 0x3FFF).
Definition nla_data (nla : Z) : Z := nla + NLA_HDRLEN.
Definition nla_len (buf : list Z) (nla : Z) : option Z :=
  l ← nla_nla_len buf nla; Some (l - NLA_HDRLEN).

(** [remaining >= sizeof( *nla)] compares as unsigned 64-bit numbers; the last
    comparison is signed. *)
Definition nla_ok (buf : list Z) (nla remaining : Z) : option bool :=
  if u64 remaining <? sizeof_nlattr then Some false
  else
    l ← nla_nla_len buf nla;
    Some ((sizeof_nlattr <=? l) && (l <=? remaining)).

Definition nla_next (buf : list Z) (nla remaining : Z) : option (Z * Z) :=
  l ← nla_nla_len buf nla;
  Some (nla + NLA_ALIGN l, remaining - NLA_ALIGN l).

(** [struct nla_policy] and the attribute types it names. *)
Record nla_policy := mkPolicy { pt_type : Z; pt_minlen : Z; pt_maxlen : Z }.

Definition NLA_STRING : Z := 5.
Definition NLA_FLAG : Z := 6.
Definition NLA_TYPE_MAX : Z := 8.

Definition nla_attr_minlen (t : Z) : Z := nth (Z.to_nat t) [0; 1; 2; 4; 8; 1] 0.

(** [None] is an access out of bounds or [BUG()]. *)
Definition validate_nla (buf : list Z) (nla maxtype : Z) (policy : Z → nla_policy) : option Z :=
  type ← nla_type buf nla;
  if (type <=? 0) || (maxtype <? type) then Some 0
  else
    let pt := policy type in
    if NLA_TYPE_MAX <? pt_type pt then None
    else
      let minlen := if negb (pt_minlen pt =? 0) then pt_minlen pt
                    else if negb (pt_type pt =? 0) then nla_attr_minlen (pt_type pt) else 0 in
      len ← nla_len buf nla;
      if (pt_type pt =? NLA_FLAG) && (0 <? len) then Some (- NLE_RANGE)
      else if len <? minlen then Some (- NLE_RANGE)
      else if negb (pt_maxlen pt =? 0) && (pt_maxlen pt <? len) then Some (- NLE_RANGE)
      else if pt_type pt =? NLA_STRING then
        c ← ld 1 buf (nla_data nla + len - 1);
        if negb (c =? 0) then Some (- NLE_INVAL) else Some 0
      else Some 0.

(** The index array: the offset of the attribute of each type, if any. *)
Definition tb := Z → option Z.
Definition tb_empty : tb := λ _, None.
Definition tb_set (t : tb) (type nla : Z) : tb := λ x, if x =? type then Some nla else t x.

(** The loop of [nla_parse]; the result is the error code and the index. *)
Fixpoint nla_loop (fuel : nat) (buf : list Z) (maxtype : Z) (policy : option (Z → nla_policy))
    (nla rem : Z) (t : tb) : option (Z * tb) :=
  match fuel with
  | O => None
  | S fuel =>
      ok ← nla_ok buf nla rem;
      if negb ok then Some (0, t)
      else
        type ← nla_type buf nla;
        nx ← nla_next buf nla rem;
        if type =? 0 then nla_loop fuel buf maxtype policy nx.1 nx.2 t
        else if type <=? maxtype then
          err ← (match policy with
                 | Some p => validate_nla buf nla maxtype p
                 | None => Some 0
                 end);
          if err <? 0 then Some (err, t)
          else nla_loop fuel buf maxtype policy nx.1 nx.2 (tb_set t type nla)
        else nla_loop fuel buf maxtype policy nx.1 nx.2 t
  end.

(** Every round consumes at least four bytes of the stream. *)
Definition nla_parse (buf : list Z) (maxtype head len : Z) (policy : option (Z → nla_policy))
    : option (Z * tb) :=
  nla_loop (S (Z.to_nat len)) buf maxtype policy head len tb_empty.

(** [genlmsg_parse] leaves the caller's array untouched when the message is
    too short: the second component is then [None]. *)
Definition genlmsg_parse (buf : list Z) (nlh hdrlen maxtype : Z)
    (policy : option (Z → nla_policy)) : option (Z * option tb) :=
  l ← nlmsg_len buf nlh;
  if l <? nlmsg_msg_size GENL_HDRLEN then Some (- NLE_MSG_TOOSHORT, None)
  else
    let glen := l - GENL_HDRLEN - NLMSG_HDRLEN in
    if glen <? NLMSG_ALIGN hdrlen then Some (- NLE_MSG_TOOSHORT, None)
    else
      r ← nla_parse buf maxtype (nlmsg_data nlh + GENL_HDRLEN + NLMSG_ALIGN hdrlen)
            (glen - NLMSG_ALIGN hdrlen) policy;
      Some (r.1, Some r.2).

(** ** Alignment *)

Lemma ALIGN_val len : 0 ≤ len → NLA_ALIGN len = 4 * ((len + 3) / 4).
Proof.
  intros Hl. unfold NLA_ALIGN. replace (len + 4 - 1) with (len + 3) by lia.
  rewrite <- Z.ldiff_land. change (4 - 1) with (Z.ones 2).
  rewrite Z.ldiff_ones_r, Z.shiftr_div_pow2, Z.shiftl_mul_pow2 by lia.
  change (2 ^ 2) with 4. lia.
Qed.

Lemma ALIGN_bounds len : 0 ≤ len → len ≤ NLA_ALIGN len < len + 4 ∧ (NLA_ALIGN len) mod 4 = 0.
Proof.
  intros Hl. rewrite ALIGN_val by done. pose proof (Z.div_mod (len + 3) 4).
  pose proof (Z.mod_pos_bound (len + 3) 4). split; [lia|].
  rewrite Z.mul_comm. by apply Z.mod_mul.
Qed.

Lemma ALIGN_aligned len : 0 ≤ len → len mod 4 = 0 → NLMSG_ALIGN len = len.
Proof.
  intros Hl Hm. change (NLMSG_ALIGN len) with (NLA_ALIGN len).
  pose proof (ALIGN_bounds len Hl) as [Hb Hm']. pose proof (Z.div_mod len 4).
  pose proof (Z.div_mod (NLA_ALIGN len) 4). lia.
Qed.

(** ** Reading and writing a part of a buffer *)

Lemma zcopy_mid pre old post bs :
  length old = length bs → zcopy (pre ++ old ++ post) (zlen pre) bs = pre ++ bs ++ post.
Proof.
  revert pre old. induction bs as [|b bs IH]; intros pre [|o old] Hl; try done.
  simpl. unfold zset, zlen. rewrite Nat2Z.id. simpl.
  replace (length pre) with (length pre + 0)%nat at 1 by lia. rewrite insert_app_r. simpl.
  replace (Z.of_nat (length pre) + 1) with (zlen (pre ++ [b]))
    by (rewrite zlen_app; unfold zlen; simpl; lia).
  replace (pre ++ b :: old ++ post) with ((pre ++ [b]) ++ old ++ post)
    by (by rewrite <- app_assoc).
  rewrite IH by (simpl in Hl; lia). by rewrite <- app_assoc.
Qed.

Lemma st_mid pre old post bs off :
  off = zlen pre → length old = length bs →
  st (pre ++ old ++ post) off bs = Some (pre ++ bs ++ post).
Proof.
  intros -> Hl. unfold st. pose proof (zlen_nonneg pre). rewrite !zlen_app.
  pose proof (zlen_nonneg post).
  decide_test (zlen pre <? 0) false. simpl.
  assert ((zlen pre + (zlen old + zlen post) <? zlen pre + zlen bs) = false) as ->.
  { apply Z.ltb_ge. unfold zlen in *. lia. }
  by rewrite zcopy_mid.
Qed.

Lemma ld_mid n pre bs post off :
  off = zlen pre → length bs = n → ld n (pre ++ bs ++ post) off = Some (le_combine bs).
Proof.
  intros -> Hl. unfold ld. pose proof (zlen_nonneg pre). rewrite !zlen_app.
  pose proof (zlen_nonneg post).
  decide_test (zlen pre <? 0) false. simpl.
  assert ((zlen pre + (zlen bs + zlen post) <? zlen pre + Z.of_nat n) = false) as ->.
  { apply Z.ltb_ge. unfold zlen in *. lia. }
  unfold zlen. rewrite Nat2Z.id, drop_app_length. by rewrite take_app_le, take_ge by lia.
Qed.

Lemma some_bind {A B} (a : A) (f : A → option B) : (x ← Some a; f x) = f a.
Proof. done. Qed.

(** The same at the start of the buffer. *)
Lemma zcopy_head old post bs : length old = length bs → zcopy (old ++ post) 0 bs = bs ++ post.
Proof. intros Hl. by apply (zcopy_mid []). Qed.

Lemma ld_head n bs post : length bs = n → ld n (bs ++ post) 0 = Some (le_combine bs).
Proof. intros Hl. by apply (ld_mid n []). Qed.

Lemma st_head old post bs : length old = length bs → st (old ++ post) 0 bs = Some (bs ++ post).
Proof. intros Hl. by apply (st_mid []). Qed.

(** ** The format *)

(** An attribute on the wire: length, type, payload, padding. *)
Definition enc (a : Z * list Z) : list Z :=
  le_split 2 (nla_attr_size (zlen a.2)) ++ le_split 2 a.1 ++ a.2
  ++ replicate (Z.to_nat (nla_padlen (zlen a.2))) 0.

Definition flat (l : list (Z * list Z)) : list Z := concat (map enc l).

(** Attributes that fit the 14-bit type and the 16-bit length. *)
Definition attr_ok (a : Z * list Z) : Prop := 0 < a.1 < 2 ^ 14 ∧ zlen a.2 + 4 < 2 ^ 16.

Lemma padlen_bounds l : 0 ≤ l → 0 ≤ nla_padlen l < 4.
Proof.
  intros Hl. unfold nla_padlen, nla_total_size, nla_attr_size. change NLA_HDRLEN with 4.
  pose proof (ALIGN_bounds (4 + l)). lia.
Qed.

Lemma zlen_enc a : zlen (enc a) = nla_total_size (zlen a.2).
Proof.
  unfold enc. pose proof (padlen_bounds (zlen a.2) (zlen_nonneg _)).
  rewrite !zlen_app, !zlen_le_split. unfold nla_padlen in *. unfold nla_attr_size in *.
  change NLA_HDRLEN with 4 in *.
  unfold zlen at 2. rewrite length_replicate. lia.
Qed.

Lemma total_size_pos l : 0 ≤ l → 4 ≤ nla_total_size l ∧ nla_total_size l mod 4 = 0.
Proof.
  intros Hl. unfold nla_total_size, nla_attr_size. change NLA_HDRLEN with 4.
  pose proof (ALIGN_bounds (4 + l)). lia.
Qed.

Lemma flat_app l k : flat (l ++ k) = flat l ++ flat k.
Proof. unfold flat. by rewrite map_app, concat_app. Qed.

Lemma flat_aligned l : zlen (flat l) mod 4 = 0.
Proof.
  induction l as [|a l IH]; [done|]. change (flat (a :: l)) with (enc a ++ flat l).
  rewrite zlen_app, zlen_enc. pose proof (total_size_pos (zlen a.2) (zlen_nonneg _)) as [_ Hm].
  rewrite Z.add_mod, Hm, IH by lia. done.
Qed.

Lemma le2 v : 0 ≤ v < 2 ^ 16 → le_combine (le_split 2 v) = v.
Proof. intros Hv. rewrite le_combine_split. by apply Z.mod_small. Qed.

(** ** Construction produces the format *)

(** The buffer of [msg] holds the attributes [l] after a 16-byte rest of the
    two headers. *)
Record represents (msg : nl_msg) (hdr : list Z) (l : list (Z * list Z)) (room : list Z) : Prop := {
  rp_buf : nm_nlh msg = le_split 4 (20 + zlen (flat l)) ++ hdr ++ flat l ++ room;
  rp_hdr : length hdr = 16%nat;
  rp_size : nm_size msg = zlen (nm_nlh msg);
  rp_small : nm_size msg < 2 ^ 31;
}.

Lemma represents_len msg hdr l room :
  represents msg hdr l room → nlmsg_len (nm_nlh msg) 0 = Some (20 + zlen (flat l)).
Proof.
  intros [Hb Hh Hs Hsm]. unfold nlmsg_len. rewrite Hb in *.
  rewrite !zlen_app, zlen_le_split in Hs. pose proof (zlen_nonneg room).
  pose proof (zlen_nonneg (flat l)).
  rewrite ld_head by (by rewrite length_le_split). rewrite le_combine_split4, u32_small; [done|].
  unfold zlen in *. lia.
Qed.

Lemma nla_put_no_room msg hdr l room ty bs :
  represents msg hdr l room →
  nm_size msg < 2 * (20 + zlen (flat l)) + nla_total_size (zlen bs) →
  nla_put msg ty bs = Some (- NLE_NOMEM, msg).
Proof.
  intros Hr Hn. unfold nla_put, nla_reserve. rewrite (represents_len _ _ _ _ Hr). simpl.
  pose proof (zlen_nonneg (flat l)). pose proof (flat_aligned l).
  rewrite ALIGN_aligned.
  - decide_test (nm_size msg <? 20 + zlen (flat l) + nla_total_size (zlen bs)
      + (20 + zlen (flat l))) true. done.
  - lia.
  - rewrite Z.add_mod, H0 by lia. done.
Qed.

(** Writing an attribute into free room. *)
Lemma put_bytes_room pre r1 r2 r3 r4 post ty bs tlen0 tlen rest0 :
  pre = tlen0 ++ rest0 → length tlen0 = 4%nat → length tlen = 4%nat →
  length r1 = 2%nat → length r2 = 2%nat → length r3 = length bs →
  length r4 = Z.to_nat (nla_padlen (zlen bs)) → 4 + zlen bs < 2 ^ 16 →
  (b ← st (pre ++ r1 ++ r2 ++ r3 ++ r4 ++ post) (zlen pre + 2) (le_split 2 ty);
   b ← st b (zlen pre) (le_split 2 (nla_attr_size (zlen bs)));
   b ← (if zlen bs =? 0 then Some b
        else st b (zlen pre + u16 (nla_attr_size (zlen bs)))
               (replicate (Z.to_nat (nla_padlen (zlen bs))) 0));
   b ← st b 0 tlen;
   st b (zlen pre + NLA_HDRLEN) bs)
  = Some ((tlen ++ rest0) ++ enc (ty, bs) ++ post).
Proof.
  intros Hpre Hl0 Hlt H1 H2 H3 H4 Hsm. unfold nla_attr_size. change NLA_HDRLEN with 4.
  assert (u16 (4 + zlen bs) = 4 + zlen bs) as -> by (apply Z.mod_small; pose proof (zlen_nonneg bs); lia).
  replace (pre ++ r1 ++ r2 ++ r3 ++ r4 ++ post)
    with ((pre ++ r1) ++ r2 ++ (r3 ++ r4 ++ post)) by (by rewrite <- !app_assoc).
  rewrite st_mid; [|rewrite zlen_app; unfold zlen; lia|by rewrite length_le_split]. rewrite some_bind.
  replace ((pre ++ r1) ++ le_split 2 ty ++ r3 ++ r4 ++ post)
    with (pre ++ r1 ++ (le_split 2 ty ++ r3 ++ r4 ++ post)) by (by rewrite <- !app_assoc).
  rewrite st_mid by (by rewrite ?length_le_split). rewrite some_bind.
  set (h := le_split 2 (4 + zlen bs)). set (k := le_split 2 ty).
  assert (length h = 2%nat) as Hh by apply length_le_split.
  assert (length k = 2%nat) as Hk by apply length_le_split.
  set (z := replicate (Z.to_nat (nla_padlen (zlen bs))) 0).
  assert (length z = length r4) as Hz by (subst z; by rewrite length_replicate).
  assert ((if zlen bs =? 0 then Some (pre ++ h ++ k ++ r3 ++ r4 ++ post)
           else st (pre ++ h ++ k ++ r3 ++ r4 ++ post) (zlen pre + (4 + zlen bs)) z)
          = Some (pre ++ h ++ k ++ r3 ++ z ++ post)) as ->.
  { destruct (Z.eqb_spec (zlen bs) 0) as [E|E].
    - subst z. rewrite E in *. change (Z.to_nat (nla_padlen 0)) with 0%nat in *.
      by destruct r4.
    - replace (pre ++ h ++ k ++ r3 ++ r4 ++ post)
        with ((pre ++ h ++ k ++ r3) ++ r4 ++ post) by (by rewrite <- !app_assoc).
      rewrite st_mid; [by rewrite <- !app_assoc| |by rewrite Hz].
      rewrite !zlen_app. unfold zlen. lia. }
  rewrite some_bind, Hpre, <- (app_assoc tlen0).
  rewrite st_head by lia. rewrite some_bind.
  replace (tlen ++ rest0 ++ h ++ k ++ r3 ++ z ++ post)
    with ((tlen ++ rest0 ++ h ++ k) ++ r3 ++ (z ++ post)) by (by rewrite <- !app_assoc).
  rewrite st_mid; [|rewrite !zlen_app; unfold zlen; lia|done].
  unfold enc. cbn [fst snd]. by rewrite <- !app_assoc.
Qed.

Lemma split_at {A} (l : list A) n : (n ≤ length l)%nat → ∃ a b, l = a ++ b ∧ length a = n.
Proof. intros Hn. exists (take n l), (drop n l). rewrite take_drop, length_take. split; [done|lia]. Qed.

(** The buffer holds [body] after the word with the length. *)
Record built (msg : nl_msg) (body room : list Z) : Prop := {
  bt_buf : nm_nlh msg = le_split 4 (4 + zlen body) ++ body ++ room;
  bt_size : nm_size msg = zlen (nm_nlh msg);
  bt_small : nm_size msg < 2 ^ 31;
}.

Lemma built_len msg body room : built msg body room → nlmsg_len (nm_nlh msg) 0 = Some (4 + zlen body).
Proof.
  intros [Hb Hs Hsm]. unfold nlmsg_len. rewrite Hb in *. rewrite !zlen_app, zlen_le_split in Hs.
  pose proof (zlen_nonneg room). pose proof (zlen_nonneg body).
  rewrite ld_head by (by rewrite length_le_split). rewrite le_combine_split4, u32_small; [done|]. lia.
Qed.

Lemma represents_built msg hdr l room :
  represents msg hdr l room ↔ built msg (hdr ++ flat l) room ∧ length hdr = 16%nat.
Proof.
  assert (length hdr = 16%nat → 4 + zlen (hdr ++ flat l) = 20 + zlen (flat l)) as E.
  { intros Hh. rewrite zlen_app. unfold zlen. lia. }
  split.
  - intros [Hb Hh Hs Hsm]. split; [|done]. split; [|done..]. by rewrite E, <- app_assoc.
  - intros [ [Hb Hs Hsm] Hh]. split; [|done..]. by rewrite E, <- app_assoc in Hb.
Qed.

Lemma put_built msg body room ty bs :
  built msg body room → zlen body mod 4 = 0 → 4 + zlen bs < 2 ^ 16 →
  2 * (4 + zlen body) + nla_total_size (zlen bs) ≤ nm_size msg →
  ∃ msg' room', nla_put msg ty bs = Some (0, msg') ∧
    built msg' (body ++ enc (ty, bs)) room' ∧ nm_size msg' = nm_size msg.
Proof.
  intros Hr Hal Hsm16 Hn. pose proof (built_len _ _ _ Hr) as Hlen. destruct Hr as [Hb Hs Hsm].
  pose proof (zlen_nonneg body).
  pose proof (total_size_pos (zlen bs) (zlen_nonneg _)) as [Htp _].
  pose proof (padlen_bounds (zlen bs) (zlen_nonneg _)) as Hpad.
  unfold nla_put, nla_reserve. rewrite Hlen, some_bind.
  assert (NLMSG_ALIGN (4 + zlen body) = 4 + zlen body) as ->
    by (apply ALIGN_aligned; [lia|]; by rewrite Z.add_mod, Hal by lia).
  decide_test (nm_size msg <? 4 + zlen body + nla_total_size (zlen bs) + (4 + zlen body)) false.
  rewrite Hs, Hb, !zlen_app, zlen_le_split in Hn.
  assert (nla_total_size (zlen bs) = 4 + zlen bs + nla_padlen (zlen bs)) as Htot
    by (unfold nla_padlen, nla_attr_size; change NLA_HDRLEN with 4; lia).
  destruct (split_at room 2) as (r1 & x1 & -> & H1); [unfold zlen in *; lia|].
  rewrite !zlen_app in Hn.
  destruct (split_at x1 2) as (r2 & x2 & -> & H2); [unfold zlen in *; lia|].
  rewrite !zlen_app in Hn.
  destruct (split_at x2 (length bs)) as (r3 & x3 & -> & H3); [unfold zlen in *; lia|].
  rewrite !zlen_app in Hn.
  destruct (split_at x3 (Z.to_nat (nla_padlen (zlen bs)))) as (r4 & post & -> & H4);
    [unfold zlen in *; lia|].
  pose proof (put_bytes_room _ r1 r2 r3 r4 post ty bs (le_split 4 (4 + zlen body))
    (le_split 4 (4 + zlen body + nla_total_size (zlen bs))) body eq_refl
    ltac:(by rewrite length_le_split) ltac:(by rewrite length_le_split) H1 H2 H3 H4 Hsm16) as E.
  assert (zlen (le_split 4 (4 + zlen body) ++ body) = 4 + zlen body) as Hz
    by (rewrite zlen_app, zlen_le_split; lia).
  rewrite Hz in E. rewrite <- !app_assoc in E. rewrite Hb in *. clear Hb.
  revert E.
  destruct (st _ (4 + zlen body + 2) _) as [b1|]; [|intros E; discriminate E].
  rewrite !some_bind. destruct (st b1 _ _) as [b2|]; [|intros E; discriminate E].
  rewrite !some_bind. destruct (if zlen bs =? 0 then _ else _) as [b3|];
    [|intros E; discriminate E].
  rewrite !some_bind. destruct (st b3 0 _) as [b4|]; [|intros E; discriminate E].
  rewrite !some_bind. intros E.
  cbn [fst snd nm_nlh nm_size]. rewrite E, some_bind.
  do 2 eexists. split; [done|]. split; [|done].
  split; cbn [nm_nlh nm_size]; [|rewrite Hs, !zlen_app, !zlen_le_split, zlen_enc; cbn [snd]; rewrite Htot; unfold zlen in *; lia|done].
  rewrite zlen_app, zlen_enc, Z.add_assoc, <- !app_assoc. done.
Qed.

Lemma nla_put_ok msg hdr l room ty bs :
  represents msg hdr l room → 4 + zlen bs < 2 ^ 16 →
  2 * (20 + zlen (flat l)) + nla_total_size (zlen bs) ≤ nm_size msg →
  ∃ msg' room', nla_put msg ty bs = Some (0, msg') ∧
    represents msg' hdr (l ++ [(ty, bs)]) room' ∧ nm_size msg' = nm_size msg.
Proof.
  intros [Hb Hh]%represents_built Hsm Hn.
  assert (zlen (hdr ++ flat l) = 16 + zlen (flat l)) as E by (rewrite zlen_app; unfold zlen; lia).
  destruct (put_built _ _ _ ty bs Hb) as (msg' & room' & Ep & Hb' & Hs).
  - rewrite E, Z.add_mod, flat_aligned by lia. done.
  - done.
  - lia.
  - exists msg', room'. split; [done|]. split; [|done]. apply represents_built. split; [|done].
    rewrite flat_app. change (flat [(ty, bs)]) with (enc (ty, bs) ++ []).
    by rewrite app_nil_r, app_assoc.
Qed.

(** A fresh message with its two headers. *)
Definition req_hdr (pid seq family flags cmd version : Z) : list Z :=
  le_split 2 family ++ le_split 2 flags ++ le_split 4 seq ++ le_split 4 pid
  ++ genlmsghdr cmd version.

(** The four stores of [nlmsg_put]. *)
Lemma header_stores h a b c d post family flags pid seq :
  length h = 4%nat → length a = 2%nat → length b = 2%nat → length c = 4%nat → length d = 4%nat →
  (x ← st (h ++ a ++ b ++ c ++ d ++ post) 4 (le_split 2 family);
   x ← st x 6 (le_split 2 flags);
   x ← st x 12 (le_split 4 pid);
   st x 8 (le_split 4 seq))
  = Some (h ++ le_split 2 family ++ le_split 2 flags ++ le_split 4 seq ++ le_split 4 pid ++ post).
Proof.
  intros Hh Ha Hb Hc Hd.
  assert (∀ v, length (le_split 4 v) = 4%nat) as L4 by (intros; apply length_le_split).
  assert (∀ v, length (le_split 2 v) = 2%nat) as L2 by (intros; apply length_le_split).
  rewrite (st_mid h a) by (rewrite ?L2; unfold zlen; lia). rewrite some_bind.
  rewrite (app_assoc h), (st_mid (h ++ _) b) by (rewrite ?zlen_app, ?L2; unfold zlen;
    rewrite ?L2; lia).
  rewrite some_bind, (app_assoc (h ++ _)), (app_assoc _ c).
  rewrite (st_mid _ d) by (rewrite ?zlen_app, ?L4; unfold zlen; rewrite ?L2; lia).
  rewrite some_bind, <- (app_assoc _ c).
  rewrite (st_mid _ c) by (rewrite ?zlen_app, ?L4; unfold zlen; rewrite ?L2; lia).
  by rewrite <- !app_assoc.
Qed.

Lemma genlmsg_put_ok ps pid seq family flags cmd version :
  20 ≤ ps < 2 ^ 31 →
  ∃ msg, genlmsg_put (nlmsg_alloc_len ps) pid seq family 0 flags cmd version = Some (true, msg) ∧
    represents msg (req_hdr pid seq family flags cmd version) []
      (replicate (Z.to_nat (ps - 20)) 0) ∧ nm_size msg = ps.
Proof.
  intros Hps. unfold genlmsg_put, nlmsg_put, nlmsg_alloc_len, sizeof_nlmsghdr.
  decide_test (ps <? 16) false. cbn [nm_nlh nm_size].
  set (tl := replicate (Z.to_nat (ps - 20)) 0). set (z2 := replicate 2 0). set (z4 := replicate 4 0).
  assert (replicate (Z.to_nat ps) 0 = z4 ++ z2 ++ z2 ++ z4 ++ z4 ++ z4 ++ tl) as ->.
  { subst z2 z4 tl. rewrite <- !replicate_add. f_equal. lia. }
  change (nlmsg_total_size 0) with 16. unfold nlmsg_len.
  rewrite zcopy_head by done. rewrite ld_head by done. rewrite some_bind.
  change (le_combine (le_split 4 16) <? NLMSG_HDRLEN) with false. cbv iota.
  pose proof (header_stores (le_split 4 16) z2 z2 z4 z4 (z4 ++ tl) family flags pid seq
    eq_refl eq_refl eq_refl eq_refl eq_refl) as E. revert E.
  destruct (st _ 4 _) as [x|]; [|intros E; discriminate E]. rewrite !some_bind.
  destruct (st x 6 _) as [y|]; [|intros E; discriminate E]. rewrite !some_bind.
  destruct (st y 12 _) as [z|]; [|intros E; discriminate E]. rewrite !some_bind. intros ->.
  rewrite some_bind.
  change (0 <? GENL_HDRLEN + 0) with true. cbv iota. unfold nlmsg_reserve. cbn [nm_nlh nm_size].
  unfold nlmsg_len. rewrite ld_head by done. rewrite some_bind.
  change (GENL_HDRLEN + 0) with 4. change (4 =? 0) with false. cbv iota.
  change (Z.land (4 + (4 - 1)) (Z.lnot (4 - 1))) with 4. change (le_combine (le_split 4 16)) with 16.
  decide_test (ps <? 4 + 16) false.
  rewrite st_head by (by rewrite !length_le_split). rewrite some_bind.
  change (4 <? 4) with false. cbv iota. rewrite !some_bind. cbn [fst snd nm_nlh nm_size].
  rewrite bool_decide_true by done. cbn [negb]. cbv iota.
  set (pre := le_split 4 (16 + 4) ++ le_split 2 family ++ le_split 2 flags ++ le_split 4 seq
    ++ le_split 4 pid).
  replace (le_split 4 (16 + 4) ++ le_split 2 family ++ le_split 2 flags ++ le_split 4 seq
    ++ le_split 4 pid ++ z4 ++ tl) with (pre ++ z4 ++ tl) by (subst pre; by rewrite <- !app_assoc).
  rewrite st_mid by (subst pre; by rewrite ?zlen_app, ?zlen_le_split). rewrite some_bind.
  eexists. split; [done|]. split; [|done]. split; cbn [nm_nlh nm_size].
  - subst pre. unfold req_hdr. by rewrite <- !app_assoc.
  - unfold req_hdr. by rewrite !length_app, !length_le_split.
  - subst pre. rewrite !zlen_app, !zlen_le_split. unfold zlen, tl. rewrite length_replicate.
    simpl. lia.
  - lia.
Qed.

Lemma nla_puts_ok l : ∀ msg hdr k room,
  represents msg hdr k room → Forall (λ a, 4 + zlen a.2 < 2 ^ 16) l →
  2 * (20 + zlen (flat (k ++ l))) ≤ nm_size msg →
  ∃ msg' room', nla_puts msg l = Some msg' ∧ represents msg' hdr (k ++ l) room'.
Proof.
  induction l as [|a l IH]; intros msg hdr k room Hr Hsm Hfit.
  { exists msg, room. by rewrite app_nil_r. }
  apply list.Forall_cons in Hsm as [Ha Hsm].
  destruct (nla_put_ok msg hdr k room a.1 a.2 Hr Ha) as (m1 & room1 & Hput & Hr1 & Hs1).
  { rewrite flat_app in Hfit. unfold flat at 2 in Hfit. cbn [map concat] in Hfit.
    rewrite !zlen_app, zlen_enc in Hfit. pose proof (zlen_nonneg (concat (map enc l))).
    pose proof (total_size_pos (zlen a.2) (zlen_nonneg _)). lia. }
  replace (a.1, a.2) with a in Hr1 by (by destruct a).
  destruct (IH m1 hdr (k ++ [a]) room1 Hr1 Hsm) as (m2 & room2 & Hputs & Hr2).
  { by rewrite Hs1, <- app_assoc. }
  exists m2, room2. rewrite <- app_assoc in Hr2. split; [|exact Hr2].
  cbn [nla_puts]. by rewrite Hput.
Qed.

(** ** Parsing inverts construction *)

(** The last attribute of a type, as [nla_parse] keeps it. *)
Fixpoint find_attr (ty : Z) (l : list (Z * list Z)) : option (list Z) :=
  match l with
  | [] => None
  | a :: l =>
      match find_attr ty l with
      | Some bs => Some bs
      | None => if ty =? a.1 then Some a.2 else None
      end
  end.

(** The attribute at [off] has the payload [bs]. *)
Definition attr_at (buf : list Z) (off : Z) (bs : list Z) : Prop :=
  0 ≤ off ∧ nla_len buf off = Some (zlen bs) ∧
  take (length bs) (drop (Z.to_nat (nla_data off)) buf) = bs.

Lemma enc_at pre a post :
  attr_ok a →
  let buf := pre ++ enc a ++ post in
  attr_at buf (zlen pre) a.2 ∧ nla_type buf (zlen pre) = Some a.1 ∧
  nla_nla_len buf (zlen pre) = Some (4 + zlen a.2).
Proof.
  intros [Hty Hlen]. pose proof (zlen_nonneg a.2). pose proof (zlen_nonneg pre).
  unfold enc. set (z := replicate _ 0).
  assert (nla_nla_len (pre ++ (le_split 2 (nla_attr_size (zlen a.2)) ++ le_split 2 a.1 ++ a.2 ++ z)
    ++ post) (zlen pre) = Some (4 + zlen a.2)) as Hl.
  { unfold nla_nla_len. rewrite <- !app_assoc. rewrite ld_mid by (by rewrite ?length_le_split).
    unfold nla_attr_size. change NLA_HDRLEN with 4. by rewrite le2 by lia. }
  split; [|split; [|done]].
  - split; [done|]. unfold nla_len. rewrite Hl, some_bind. change NLA_HDRLEN with 4.
    split; [f_equal; lia|]. unfold nla_data. change NLA_HDRLEN with 4.
    rewrite <- !app_assoc. rewrite !(app_assoc pre), (app_assoc (pre ++ _)).
    assert (Z.to_nat (zlen pre + 4)
            = length ((pre ++ le_split 2 (nla_attr_size (zlen a.2))) ++ le_split 2 a.1)) as ->
      by (rewrite !length_app, !length_le_split; unfold zlen in *; lia).
    rewrite drop_app_length. by rewrite take_app_le, take_ge by lia.
  - unfold nla_type. rewrite <- !app_assoc. rewrite (app_assoc pre).
    rewrite ld_mid; [|by rewrite zlen_app, zlen_le_split|by rewrite length_le_split].
    rewrite some_bind, le2 by lia. f_equal. change 0x3FFF with (Z.ones 14).
    rewrite Z.land_ones by lia. apply Z.mod_small. lia.
Qed.

(** The index that the loop computes. *)
Fixpoint index (maxtype off : Z) (l : list (Z * list Z)) (t : tb) : tb :=
  match l with
  | [] => t
  | a :: l => index maxtype (off + nla_total_size (zlen a.2)) l
                (if a.1 <=? maxtype then tb_set t a.1 off else t)
  end.

Lemma nla_loop_flat maxtype l : ∀ fuel pre post t,
  Forall attr_ok l → (length l < fuel)%nat → zlen (flat l) < 2 ^ 31 →
  nla_loop fuel (pre ++ flat l ++ post) maxtype None (zlen pre) (zlen (flat l)) t
  = Some (0, index maxtype (zlen pre) l t).
Proof.
  induction l as [|a l IH]; intros [|fuel] pre post t Hok Hf Hsm; try (simpl in Hf; lia).
  { done. }
  apply Forall_cons_iff in Hok as [Ha Hok].
  change (flat (a :: l)) with (enc a ++ flat l) in *. rewrite zlen_app, zlen_enc in *.
  pose proof (total_size_pos (zlen a.2) (zlen_nonneg _)) as [Htp _].
  pose proof (zlen_nonneg (flat l)). rewrite <- (app_assoc (enc a)).
  destruct (enc_at pre a (flat l ++ post) Ha) as (_ & Hty & Hlen).
  assert (4 + zlen a.2 ≤ nla_total_size (zlen a.2)) as Hfit.
  { unfold nla_total_size, nla_attr_size. change NLA_HDRLEN with 4.
    pose proof (ALIGN_bounds (4 + zlen a.2)). pose proof (zlen_nonneg a.2). lia. }
  cbn [nla_loop]. unfold nla_ok, nla_next. rewrite Hlen, Hty, u64_small by lia.
  unfold sizeof_nlattr. pose proof (zlen_nonneg a.2).
  decide_test (nla_total_size (zlen a.2) + zlen (flat l) <? 4) false. rewrite !some_bind.
  decide_test (4 <=? 4 + zlen a.2) true.
  decide_test (4 + zlen a.2 <=? nla_total_size (zlen a.2) + zlen (flat l)) true.
  cbn [andb negb]. cbv iota. destruct Ha as [Hty0 _]. decide_test (a.1 =? 0) false.
  cbn [fst snd]. fold (nla_attr_size (zlen a.2)). fold (nla_total_size (zlen a.2)).
  change (NLA_ALIGN (4 + zlen a.2)) with (nla_total_size (zlen a.2)).
  replace (nla_total_size (zlen a.2) + zlen (flat l) - nla_total_size (zlen a.2))
    with (zlen (flat l)) by lia.
  rewrite (app_assoc pre).
  replace (zlen pre + nla_total_size (zlen a.2)) with (zlen (pre ++ enc a))
    by (by rewrite zlen_app, zlen_enc).
  simpl in Hf. destruct (a.1 <=? maxtype) eqn:Hmax; rewrite ?some_bind;
    [change (0 <? 0) with false; cbv iota|]; rewrite IH by (done || lia);
    simpl index; rewrite Hmax, zlen_app, zlen_enc; done.
Qed.

Lemma index_spec maxtype ty l : ∀ pre post t,
  Forall attr_ok l → ty ≤ maxtype →
  match find_attr ty l with
  | Some bs => ∃ off, index maxtype (zlen pre) l t ty = Some off ∧
                      attr_at (pre ++ flat l ++ post) off bs
  | None => index maxtype (zlen pre) l t ty = t ty
  end.
Proof.
  induction l as [|a l IH]; intros pre post t Hok Hty; [done|].
  apply Forall_cons_iff in Hok as [Ha Hok]. simpl find_attr.
  change (flat (a :: l)) with (enc a ++ flat l).
  destruct (enc_at pre a (flat l ++ post) Ha) as (Hat & _).
  simpl index.
  replace (zlen pre + nla_total_size (zlen a.2)) with (zlen (pre ++ enc a))
    by (by rewrite zlen_app, zlen_enc).
  specialize (IH (pre ++ enc a) post (if a.1 <=? maxtype then tb_set t a.1 (zlen pre) else t) Hok Hty).
  rewrite <- !app_assoc in IH |- *.
  destruct (find_attr ty l) as [bs|]; [done|]. rewrite IH.
  destruct (Z.eqb_spec ty a.1) as [->|Hne].
  - rewrite (proj2 (Z.leb_le _ _) Hty). exists (zlen pre). split; [|done].
    unfold tb_set. by rewrite Z.eqb_refl.
  - destruct (a.1 <=? maxtype); [|done]. unfold tb_set. by rewrite (proj2 (Z.eqb_neq _ _) Hne).
Qed.

Lemma flat_length l : Z.of_nat (length l) ≤ zlen (flat l).
Proof.
  induction l as [|a l IH]; [done|]. change (flat (a :: l)) with (enc a ++ flat l).
  rewrite zlen_app, zlen_enc. pose proof (total_size_pos (zlen a.2) (zlen_nonneg _)).
  simpl length. lia.
Qed.

(** A whole message: the length word, the rest of the two headers, the
    attributes, and anything after them. *)
Lemma genlmsg_parse_ok hdr l room maxtype :
  length hdr = 16%nat → Forall attr_ok l → zlen (flat l) < 2 ^ 30 →
  let buf := le_split 4 (20 + zlen (flat l)) ++ hdr ++ flat l ++ room in
  ∃ t, genlmsg_parse buf 0 0 maxtype None = Some (0, Some t) ∧
    ∀ ty, ty ≤ maxtype →
      match find_attr ty l with
      | Some bs => ∃ off, t ty = Some off ∧ attr_at buf off bs
      | None => t ty = None
      end.
Proof.
  intros Hh Hok Hsm buf. pose proof (zlen_nonneg (flat l)).
  exists (index maxtype 20 l tb_empty).
  assert (buf = (le_split 4 (20 + zlen (flat l)) ++ hdr) ++ flat l ++ room) as Hbuf
    by (subst buf; by rewrite <- app_assoc).
  assert (zlen (le_split 4 (20 + zlen (flat l)) ++ hdr) = 20) as Hpre
    by (rewrite zlen_app, zlen_le_split; unfold zlen; lia).
  split.
  - unfold genlmsg_parse, nlmsg_len. subst buf. rewrite ld_head by (by rewrite length_le_split).
    rewrite some_bind, le_combine_split4, u32_small by lia.
    change (nlmsg_msg_size GENL_HDRLEN) with 20. change GENL_HDRLEN with 4.
    change NLMSG_HDRLEN with 16. change (NLMSG_ALIGN 0) with 0.
    change (nlmsg_data 0 + 4 + 0) with 20.
    decide_test (20 + zlen (flat l) <? 20) false.
    replace (20 + zlen (flat l) - 4 - 16) with (zlen (flat l)) by lia.
    decide_test (zlen (flat l) <? 0) false. rewrite Z.sub_0_r. unfold nla_parse.
    rewrite Hbuf. rewrite <- Hpre at 2. pose proof (flat_length l).
    rewrite nla_loop_flat by (done || lia). by rewrite Hpre.
  - intros ty Hty. pose proof (index_spec maxtype ty l
      (le_split 4 (20 + zlen (flat l)) ++ hdr) room tb_empty Hok Hty) as Hix.
    rewrite Hpre, <- Hbuf in Hix. done.
Qed.

End Nl.
