(* ===== verification/NlError.v ===== *)
(** * The error codes of libnl: [include/netlink/errno.h] and [lib/error.c]

    The codes, their messages, and the translation of the system's error numbers, which
    every function that makes a system call or gets an error message of the kernel uses. *)

From stdpp Require Import strings.
From S2P Require Import Prelude Occp Netlink.
Import Nl.

Definition NLE_SUCCESS : Z := 0.
Definition NLE_FAILURE : Z := 1.
Definition NLE_INTR : Z := 2.
Definition NLE_BAD_SOCK : Z := 3.
Definition NLE_AGAIN : Z := 4.
Definition NLE_EXIST : Z := 6.
Definition NLE_MSGSIZE : Z := 9.
Definition NLE_OPNOTSUPP : Z := 10.
Definition NLE_AF_NOSUPPORT : Z := 11.
Definition NLE_OBJ_NOTFOUND : Z := 12.
Definition NLE_MISSING_ATTR : Z := 14.
Definition NLE_AF_MISMATCH : Z := 15.
Definition NLE_NOADDR : Z := 19.
Definition NLE_SRCRT_NOSUPPORT : Z := 20.
Definition NLE_MSGTYPE_NOSUPPORT : Z := 22.
Definition NLE_OBJ_MISMATCH : Z := 23.
Definition NLE_NOCACHE : Z := 24.
Definition NLE_BUSY : Z := 25.
Definition NLE_PROTO_MISMATCH : Z := 26.
Definition NLE_NOACCESS : Z := 27.
Definition NLE_PERM : Z := 28.
Definition NLE_PKTLOC_FILE : Z := 29.
Definition NLE_PARSE_ERR : Z := 30.
Definition NLE_MAX : Z := NLE_PARSE_ERR.

(** The error numbers of Linux. *)
Definition EPERM : Z := 1.
Definition ENOENT : Z := 2.
Definition EINTR : Z := 4.
Definition EBADF : Z := 9.
Definition EAGAIN : Z := 11.
Definition EACCES : Z := 13.
Definition EFAULT : Z := 14.
Definition EBUSY : Z := 16.
Definition EEXIST : Z := 17.
Definition ERANGE : Z := 34.
Definition ENOTSOCK : Z := 88.
Definition ENOPROTOOPT : Z := 92.
Definition EPROTONOSUPPORT : Z := 93.
Definition EOPNOTSUPP : Z := 95.
Definition EAFNOSUPPORT : Z := 97.
Definition EADDRINUSE : Z := 98.
Definition ENOBUFS : Z := 105.

(** [errmsg], in the order of the codes. *)
Definition errmsg : list string :=
  ["Success"; "Unspecific failure"; "Interrupted system call"; "Bad socket"; "Try again";
   "Out of memory"; "Object exists"; "Invalid input data or parameter";
   "Input data out of range"; "Message size not sufficient"; "Operation not supported";
   "Address family not supported"; "Object not found"; "Attribute not available";
   "Missing attribute"; "Address family mismatch"; "Message sequence number mismatch";
   "Kernel reported message overflow"; "Kernel reported truncated message";
   "Invalid address for specified address family"; "Source based routing not supported";
   "Netlink message is too short"; "Netlink message type is not supported";
   "Object type does not match cache"; "Unknown or invalid cache type"; "Object busy";
   "Protocol mismatch"; "No Access"; "Operation not permitted";
   "Unable to open packet location file"; "Unable to parse object"]%string.

(** [abs] of an [int]: the smallest one has no positive counterpart and stays as it is. *)
Definition c_abs (x : Z) : Z := s32 (Z.abs x).

(** [None] is a read outside the table. *)
Definition nl_geterror (error : Z) : option string :=
  let error := c_abs error in
  let error := if NLE_MAX <? error then NLE_FAILURE else error in
  if error <? 0 then None else errmsg !! Z.to_nat error.

Definition nl_syserr2nlerr (error : Z) : Z :=
  let error := c_abs error in
  if error =? EBADF then NLE_BAD_SOCK
  else if error =? EADDRINUSE then NLE_EXIST
  else if error =? EEXIST then NLE_EXIST
  else if error =? EADDRNOTAVAIL then NLE_NOADDR
  else if error =? ENOENT then NLE_OBJ_NOTFOUND
  else if error =? EINTR then NLE_INTR
  else if error =? EAGAIN then NLE_AGAIN
  else if error =? ENOTSOCK then NLE_BAD_SOCK
  else if error =? ENOPROTOOPT then NLE_INVAL
  else if error =? EFAULT then NLE_INVAL
  else if error =? EACCES then NLE_NOACCESS
  else if error =? EINVAL then NLE_INVAL
  else if error =? ENOBUFS then NLE_NOMEM
  else if error =? ENOMEM then NLE_NOMEM
  else if error =? EAFNOSUPPORT then NLE_AF_NOSUPPORT
  else if error =? EPROTONOSUPPORT then NLE_PROTO_MISMATCH
  else if error =? EOPNOTSUPP then NLE_OPNOTSUPP
  else if error =? EPERM then NLE_PERM
  else if error =? EBUSY then NLE_BUSY
  else if error =? ERANGE then NLE_RANGE
  else NLE_FAILURE.

(** ** Facts *)

(** A system error always becomes an error code of the library, so that its negation is
    negative: no failed call is taken for a success. *)
Lemma syserr_range e : 0 < nl_syserr2nlerr e ≤ NLE_MAX.
Proof.
  unfold nl_syserr2nlerr, NLE_MAX, NLE_PARSE_ERR.
  repeat match goal with |- context [if ?b then _ else _] => destruct b end;
    unfold NLE_BAD_SOCK, NLE_EXIST, NLE_NOADDR, NLE_OBJ_NOTFOUND, NLE_INTR, NLE_AGAIN, NLE_INVAL,
      NLE_NOACCESS, NLE_NOMEM, NLE_AF_NOSUPPORT, NLE_PROTO_MISMATCH, NLE_OPNOTSUPP, NLE_PERM,
      NLE_BUSY, NLE_RANGE, NLE_FAILURE; lia.
Qed.

Lemma c_abs_ok x : - 2 ^ 31 < x < 2 ^ 31 → c_abs x = Z.abs x.
Proof. intros H. unfold c_abs. apply s32_small. lia. Qed.

(** Every [int] but the smallest has a message. *)
Lemma geterror_total e : - 2 ^ 31 < e < 2 ^ 31 → is_Some (nl_geterror e).
Proof.
  intros H. unfold nl_geterror. rewrite c_abs_ok by done.
  destruct (Z.ltb_spec NLE_MAX (Z.abs e)); [by eexists|].
  destruct (Z.ltb_spec (Z.abs e) 0); [lia|].
  apply lookup_lt_is_Some. change (length errmsg) with 31%nat.
  unfold NLE_MAX, NLE_PARSE_ERR in *. lia.
Qed.

Example geterror_smallest : nl_geterror (- 2 ^ 31) = None.
Proof. reflexivity. Qed.

(** The two signs of a code have the same message. *)
Lemma geterror_sign e : - 2 ^ 31 < e < 2 ^ 31 → nl_geterror (- e) = nl_geterror e.
Proof. intros H. unfold nl_geterror. by rewrite !c_abs_ok, Z.abs_opp by lia. Qed.
