(* ===== verification/Recv.v ===== *)
(** * Receiving netlink messages: [recvmsgs] of [libnl-3.0/lib/nl.c]

    The loop over the messages of a datagram, with its callbacks, and the loop
    over the datagrams of a multipart message.  A callback is a function of
    the message and of the caller's state; [nl_recv] is the list of datagrams
    that the socket will deliver. *)

From S2P Require Import Prelude Mem Kernel Packet Netlink NlError.
Import Nl.

Inductive nl_cb_type :=
  | NL_CB_VALID | NL_CB_FINISH | NL_CB_OVERRUN | NL_CB_SKIPPED | NL_CB_ACK
  | NL_CB_MSG_IN | NL_CB_MSG_OUT | NL_CB_INVALID | NL_CB_SEQ_CHECK | NL_CB_SEND_ACK.

#[export] Instance nl_cb_type_eq : EqDecision nl_cb_type.
Proof. solve_decision. Defined.

Section Recv.
Context {S : Type}.

(** A callback returns an action or an error, and the caller's new state;
    [None] is a crash in it. *)
Definition callback := list Z → S → option (Z * S).

Record nl_cb := mkCb {
  cb_set : nl_cb_type → option callback;
  cb_err : option (Z → S → option (Z * S));
}.

(** [nl_cb_alloc(NL_CB_DEFAULT)]: no handler is set. *)
Definition nl_cb_default : nl_cb := mkCb (λ _, None) None.

(** [nl_socket_modify_cb(sk, type, NL_CB_CUSTOM, f, arg)] *)
Definition nl_socket_modify_cb (cb : nl_cb) (type : nl_cb_type) (f : callback) : nl_cb :=
  mkCb (λ t, if decide (t = type) then Some f else cb_set cb t) (cb_err cb).

(** The local variables of the loop and the socket's expected sequence number. *)
Record rst := mkRst { r_user : S; r_seq_expect : Z; r_multipart : bool }.

(** Where a callback sends the control flow. *)
Inductive flow := Proceed | Skip | Stop | Out (err : Z).

(** The macro [NL_CB_CALL], for a callback that is set. *)
Definition NL_CB_CALL (f : callback) (msg : list Z) (r : rst) : option (flow * rst) :=
  x ← f msg (r_user r);
  Some (if x.1 =? 0 then Proceed else if x.1 =? 1 then Skip else if x.1 =? 2 then Stop
        else Out x.1,
        mkRst x.2 (r_seq_expect r) (r_multipart r)).

(** Call a callback if it is set, else do [d]. *)
Definition cb_or (cb : nl_cb) (t : nl_cb_type) (msg : list Z) (r : rst) (d : flow)
    : option (flow * rst) :=
  match cb_set cb t with
  | Some f => NL_CB_CALL f msg r
  | None => Some (d, r)
  end.

(** Continue only when the control flow proceeds. *)
Definition andthen (m : option (flow * rst)) (k : rst → option (flow * rst))
    : option (flow * rst) :=
  x ← m; match x.1 with Proceed => k x.2 | _ => Some x end.

(** [nlmsg_convert]: a copy of one message, padded. *)
Definition nlmsg_convert (buf : list Z) (hdr len : Z) : list Z :=
  let m := take (Z.to_nat len) (drop (Z.to_nat hdr) buf) in
  m ++ replicate (Z.to_nat (NLMSG_ALIGN len - len)) 0.

Definition is_control (type : Z) : bool :=
  (type =? NLMSG_DONE) || (type =? NLMSG_ERROR) || (type =? NLMSG_NOOP) || (type =? NLMSG_OVERRUN).

(** An error or acknowledgement message. *)
Definition error_msg (cb : nl_cb) (buf : list Z) (hdr len : Z) (msg : list Z) (r : rst)
    : option (flow * rst) :=
  if len <? nlmsg_size sizeof_nlmsgerr then
    cb_or cb NL_CB_INVALID msg r (Out (- NLE_MSG_TRUNC))
  else
    e ← ld 4 buf (nlmsg_data hdr);
    let e := s32 e in
    if negb (e =? 0) then
      match cb_err cb with
      | Some f =>
          x ← f e (r_user r);
          let r := mkRst x.2 (r_seq_expect r) (r_multipart r) in
          if x.1 <? 0 then Some (Out x.1, r)
          else if x.1 =? 1 then Some (Skip, r)
          else if x.1 =? 2 then Some (Out (- nl_syserr2nlerr e), r)
          else Some (Proceed, r)
      | None => Some (Out (- nl_syserr2nlerr e), r)
      end
    else cb_or cb NL_CB_ACK msg r Proceed.

(** Whether there is memory for the copy of a message that [nlmsg_convert] makes. *)
Context (copied : S → list Z → bool).

(** The body of the loop for one message; [auto_ack] is
    [!(sk->s_flags & NL_NO_AUTO_ACK)]. *)
Definition process_msg (cb : nl_cb) (auto_ack : bool) (buf : list Z) (hdr : Z) (r : rst)
    : option (flow * rst) :=
  len ← nlmsg_len buf hdr;
  type ← nlmsg_type buf hdr;
  flags ← nlmsg_flags buf hdr;
  seq ← nlmsg_seq buf hdr;
  let msg := nlmsg_convert buf hdr len in
  if negb (copied (r_user r) msg) then Some (Out (- NLE_NOMEM), r)
  else
  andthen (cb_or cb NL_CB_MSG_IN msg r Proceed) (λ r,
  andthen
    (match cb_set cb NL_CB_SEQ_CHECK with
     | Some f => NL_CB_CALL f msg r
     | None =>
         if auto_ack && negb (seq =? r_seq_expect r) then
           cb_or cb NL_CB_INVALID msg r (Out (- NLE_SEQ_MISMATCH))
         else Some (Proceed, r)
     end) (λ r,
  let r := if is_control type
           then mkRst (r_user r) (u32 (r_seq_expect r + 1)) (r_multipart r) else r in
  let r := if negb (Z.land flags NLM_F_MULTI =? 0)
           then mkRst (r_user r) (r_seq_expect r) true else r in
  andthen
    (if negb (Z.land flags NLM_F_ACK =? 0) then cb_or cb NL_CB_SEND_ACK msg r Proceed
     else Some (Proceed, r)) (λ r,
  if type =? NLMSG_DONE then
    cb_or cb NL_CB_FINISH msg (mkRst (r_user r) (r_seq_expect r) false) Proceed
  else if type =? NLMSG_NOOP then cb_or cb NL_CB_SKIPPED msg r Skip
  else if type =? NLMSG_OVERRUN then
    cb_or cb NL_CB_OVERRUN msg r (Out (- NLE_MSG_OVERFLOW))
  else if type =? NLMSG_ERROR then error_msg cb buf hdr len msg r
  else cb_or cb NL_CB_VALID msg r Proceed))).

Definition nlmsg_ok (buf : list Z) (hdr remaining : Z) : option bool :=
  if remaining <? sizeof_nlmsghdr then Some false
  else
    l ← nlmsg_len buf hdr;
    Some ((sizeof_nlmsghdr <=? l) && (l <=? remaining)).

(** How the loop over the messages of one datagram ends. *)
Inductive loop_end := Exhausted (r : rst) | Stopped (r : rst) | Failed (err : Z) (r : rst).

Fixpoint msg_loop (fuel : nat) (cb : nl_cb) (auto_ack : bool) (buf : list Z) (hdr n : Z) (r : rst)
    : option loop_end :=
  match fuel with
  | O => None
  | Datatypes.S fuel =>
      ok ← nlmsg_ok buf hdr n;
      if negb ok then Some (Exhausted r)
      else
        len ← nlmsg_len buf hdr;
        x ← process_msg cb auto_ack buf hdr r;
        match x.1 with
        | Proceed | Skip =>
            msg_loop fuel cb auto_ack buf (hdr + NLMSG_ALIGN len) (n - NLMSG_ALIGN len) x.2
        | Stop => Some (Stopped x.2)
        | Out err => Some (Failed err x.2)
        end
  end.

(** What [nl_recv] returns: an error or end of file, or a datagram. *)
Inductive datagram := RecvErr (n : Z) | Datagram (bytes : list Z).

(** What [recvmsgs] does: return a code and leave the rest of the datagrams in the socket,
    or wait for a datagram for ever. *)
Inductive recv_result := Returned (err : Z) (r : rst) (rest : list datagram) | Blocked (r : rst).

Fixpoint recvmsgs (cb : nl_cb) (auto_ack : bool) (dgs : list datagram) (r : rst)
    : option recv_result :=
  match dgs with
  | [] => Some (Blocked r)
  | RecvErr n :: dgs => Some (Returned n r dgs)
  | Datagram buf :: dgs =>
      e ← msg_loop (Datatypes.S (length buf)) cb auto_ack buf 0 (zlen buf) r;
      match e with
      | Exhausted r => if r_multipart r then recvmsgs cb auto_ack dgs r
                       else Some (Returned 0 r dgs)
      | Stopped r => Some (Returned 0 r dgs)
      | Failed err r => Some (Returned err r dgs)
      end
  end.

(** ** One reply in one datagram *)

(** The code that [recvmsgs] returns for a callback's code. *)
Definition cb_result (c : Z) : Z :=
  if (c =? 0) || (c =? 1) || (c =? 2) then 0 else c.

(** A data message as the kernel sends it: not a control message, not part of
    a multipart message, with the expected sequence number. *)
Record data_msg (buf : list Z) (seq : Z) : Prop := {
  dm_len : nlmsg_len buf 0 = Some (zlen buf);
  dm_type : ∃ ty, nlmsg_type buf 0 = Some ty ∧ is_control ty = false;
  dm_flags : ∃ fl, nlmsg_flags buf 0 = Some fl ∧ Z.land fl NLM_F_MULTI = 0 ∧
                   Z.land fl NLM_F_ACK = 0;
  dm_seq : nlmsg_seq buf 0 = Some seq;
  dm_size : 16 ≤ zlen buf;
  dm_aligned : zlen buf mod 4 = 0;
}.

Lemma nlmsg_convert_all buf : zlen buf mod 4 = 0 → nlmsg_convert buf 0 (zlen buf) = buf.
Proof.
  intros Ha. unfold nlmsg_convert. rewrite ALIGN_aligned by (auto; apply zlen_nonneg).
  rewrite Z.sub_diag, app_nil_r. change (Z.to_nat 0) with 0%nat. rewrite drop_0.
  apply take_ge. unfold zlen. lia.
Qed.

(** The sequence number is the expected one, or is not checked. *)
Definition seq_pass (cb : nl_cb) (seq expect : Z) : Prop :=
  match cb_set cb NL_CB_SEQ_CHECK with
  | None => seq = expect
  | Some f => ∀ msg u, f msg u = Some (0, u)
  end.

Lemma seq_check_passes cb seq buf r :
  seq_pass cb seq (r_seq_expect r) →
  match cb_set cb NL_CB_SEQ_CHECK with
  | Some f => NL_CB_CALL f buf r
  | None => if true && negb (seq =? r_seq_expect r)
            then cb_or cb NL_CB_INVALID buf r (Out (- NLE_SEQ_MISMATCH)) else Some (Proceed, r)
  end = Some (Proceed, r).
Proof.
  unfold seq_pass. destruct (cb_set cb NL_CB_SEQ_CHECK) as [f|]; [|by intros ->; rewrite Z.eqb_refl].
  intros Hf. unfold NL_CB_CALL. rewrite Hf. by destruct r.
Qed.

(** With only a [VALID] handler it is called once; with none, the message is
    dropped and 0 is returned. *)
Lemma process_passed cb buf seq r :
  data_msg buf seq → cb_set cb NL_CB_MSG_IN = None → seq_pass cb seq (r_seq_expect r) →
  process_msg cb true buf 0 r =
  if copied (r_user r) buf then cb_or cb NL_CB_VALID buf r Proceed else Some (Out (- NLE_NOMEM), r).
Proof.
  intros [Hl (ty & Hty & Hc) (fl & Hfl & Hm & Hack) Hs Hsz Ha] H1 H2.
  unfold process_msg. rewrite Hl, Hty, Hfl, Hs, !some_bind, nlmsg_convert_all by done.
  destruct (copied (r_user r) buf); [|done]. cbn [negb].
  unfold cb_or at 1. rewrite H1. unfold andthen. rewrite some_bind. cbn [fst snd].
  rewrite seq_check_passes by done.
  rewrite some_bind. cbn [fst snd].
  rewrite Hc, Hm, Hack. cbn [negb Z.eqb]. rewrite some_bind. cbn [fst snd].
  unfold is_control in Hc. apply orb_false_iff in Hc as [Hc H4].
  apply orb_false_iff in Hc as [Hc H3]. apply orb_false_iff in Hc as [H5 H6].
  by rewrite H3, H4, H5, H6.
Qed.

Lemma recv_passed cb buf seq r dgs :
  data_msg buf seq → r_multipart r = false → cb_set cb NL_CB_MSG_IN = None → seq_pass cb seq (r_seq_expect r) →
  recvmsgs cb true (Datagram buf :: dgs) r =
  if copied (r_user r) buf then
    match cb_set cb NL_CB_VALID with
    | None => Some (Returned 0 r dgs)
    | Some f => x ← f buf (r_user r);
                Some (Returned (cb_result x.1) (mkRst x.2 (r_seq_expect r) false) dgs)
    end
  else Some (Returned (- NLE_NOMEM) r dgs).
Proof.
  intros Hd Hm H1 H2. pose proof Hd as [Hl _ _ _ Hsz Ha]. simpl recvmsgs.
  assert (∃ k, length buf = Datatypes.S k) as [k Hk].
  { destruct buf; [unfold zlen in Hsz; simpl in Hsz; lia|by eexists]. }
  cbn [msg_loop]. unfold nlmsg_ok, sizeof_nlmsghdr at 1.
  decide_test (zlen buf <? 16) false. rewrite Hl, !some_bind. unfold sizeof_nlmsghdr.
  decide_test (16 <=? zlen buf) true. rewrite Z.leb_refl. cbn [andb negb]. cbv iota.
  rewrite (process_passed cb buf seq) by done. rewrite ALIGN_aligned by (auto; lia).
  rewrite Z.sub_diag. destruct (copied (r_user r) buf); [|done].
  assert (∀ r', msg_loop (length buf) cb true buf (0 + zlen buf) 0 r' = Some (Exhausted r'))
    as Hend by (intros r'; by rewrite Hk).
  unfold cb_or. destruct (cb_set cb NL_CB_VALID) as [f|].
  2: { rewrite some_bind. cbn [fst snd]. by rewrite Hend, some_bind, Hm. }
  unfold NL_CB_CALL. destruct (f buf (r_user r)) as [ [c u]|]; [|done].
  rewrite !some_bind. cbn [fst snd]. unfold cb_result. rewrite Hm.
  destruct (c =? 0); [by rewrite Hend|].
  destruct (c =? 1); [by rewrite Hend|].
  by destruct (c =? 2).
Qed.

Lemma recv_data cb buf r dgs :
  data_msg buf (r_seq_expect r) → r_multipart r = false →
  cb_set cb NL_CB_MSG_IN = None → cb_set cb NL_CB_SEQ_CHECK = None →
  recvmsgs cb true (Datagram buf :: dgs) r =
  if copied (r_user r) buf then
    match cb_set cb NL_CB_VALID with
    | None => Some (Returned 0 r dgs)
    | Some f => x ← f buf (r_user r);
                Some (Returned (cb_result x.1) (mkRst x.2 (r_seq_expect r) false) dgs)
    end
  else Some (Returned (- NLE_NOMEM) r dgs).
Proof. intros Hd Hm H1 H2. apply (recv_passed _ _ (r_seq_expect r)); try done. unfold seq_pass. by rewrite H2. Qed.

End Recv.
Arguments nl_cb : clear implicits.
Arguments rst : clear implicits.
Arguments callback : clear implicits.
