(* ===== verification/Dump.v ===== *)
(** * Receiving dumps and acknowledgements: [recvmsgs] on a multipart message

    The kernel answers a dump request with a sequence of datagrams, each with several
    messages, and a [NLMSG_DONE] message at the end.  However the messages are spread over
    the datagrams, the loops of [recvmsgs] call the [NL_CB_VALID] callback with each of them
    in turn.  An acknowledgement is a message with an error code, which may be 0. *)

From S2P Require Import Prelude Mem Kernel Packet Netlink NlError Recv.
Import Nl.

Section Dump.
Context {S : Type} (copied : S → list Z → bool).

(** A message of a multipart message, and the one that ends it. *)
Record part_msg (seq : Z) (ctrl : bool) (m : list Z) : Prop := {
  pm_len : nlmsg_len m 0 = Some (zlen m);
  pm_type : ∃ ty, nlmsg_type m 0 = Some ty ∧
    (if ctrl then ty = NLMSG_DONE else is_control ty = false);
  pm_flags : ∃ fl, nlmsg_flags m 0 = Some fl ∧ Z.land fl NLM_F_MULTI ≠ 0 ∧ Z.land fl NLM_F_ACK = 0;
  pm_seq : nlmsg_seq m 0 = Some seq;
  pm_size : 16 ≤ zlen m;
  pm_aligned : zlen m mod 4 = 0;
}.

(** The callback on a copy of each message, until a call stops or fails or there is no
    memory for a copy. *)
Fixpoint feed (f : callback S) (ms : list (list Z)) (u : S) : option (Z * S) :=
  match ms with
  | [] => Some (0, u)
  | m :: ms =>
      if copied u m then x ← f m u; if (x.1 =? 0) || (x.1 =? 1) then feed f ms x.2 else Some x
      else Some (- NLE_NOMEM, u)
  end.

Lemma feed_app f xs ys u :
  feed f (xs ++ ys) u =
  match feed f xs u with
  | None => None
  | Some (c, u) => if c =? 0 then feed f ys u else Some (c, u)
  end.
Proof.
  revert u. induction xs as [|x xs IH]; intros u; [done|]. cbn [app feed].
  destruct (copied u x); [|done].
  destruct (f x u) as [ [c u']|]; [|done]. rewrite !some_bind. cbn [fst snd].
  destruct (c =? 0) eqn:E; cbn [orb]; [apply IH|].
  destruct (c =? 1) eqn:E1; [apply IH|by rewrite E].
Qed.

(** A load from a message inside a larger buffer. *)
Lemma ld_inside n pre m post off v :
  ld n m off = Some v → ld n (pre ++ m ++ post) (zlen pre + off) = Some v.
Proof.
  unfold ld. destruct (Z.ltb_spec off 0) as [|H0]; [done|].
  destruct (Z.ltb_spec (zlen m) (off + Z.of_nat n)) as [|Hn]; [done|]. cbn [orb]. intros [= <-].
  pose proof (zlen_nonneg pre). pose proof (zlen_nonneg post). rewrite !zlen_app.
  decide_test (zlen pre + off <? 0) false.
  decide_test (zlen pre + (zlen m + zlen post) <? zlen pre + off + Z.of_nat n) false.
  cbn [orb]. do 2 f_equal. unfold zlen in *.
  replace (Z.to_nat (Z.of_nat (length pre) + off)) with (length pre + Z.to_nat off)%nat by lia.
  rewrite <- drop_drop, drop_app_length, drop_app_le by lia.
  rewrite take_app_le; [done|]. rewrite length_drop. lia.
Qed.

Lemma convert_inside pre m post :
  zlen m mod 4 = 0 → nlmsg_convert (pre ++ m ++ post) (zlen pre) (zlen m) = m.
Proof.
  intros Ha. unfold nlmsg_convert. rewrite ALIGN_aligned by (auto; apply zlen_nonneg).
  rewrite Z.sub_diag, app_nil_r. unfold zlen. by rewrite !Nat2Z.id, drop_app_length, take_app_length.
Qed.

(** The socket's callbacks: [f] for valid messages, nothing else that matters here. *)
Record valid_only (cb : nl_cb S) (f : callback S) : Prop := {
  vo_valid : cb_set cb NL_CB_VALID = Some f;
  vo_in : cb_set cb NL_CB_MSG_IN = None;
  vo_seq e : seq_pass cb e e;
  vo_fin : cb_set cb NL_CB_FINISH = None;
}.

Section Loop.
Context (cb : nl_cb S) (f : callback S) (Hcb : valid_only cb f).

Lemma process_part pre m post r :
  part_msg (r_seq_expect r) false m →
  process_msg copied cb true (pre ++ m ++ post) (zlen pre) r =
  if copied (r_user r) m then
    x ← f m (r_user r);
    Some (if x.1 =? 0 then Proceed else if x.1 =? 1 then Skip else if x.1 =? 2 then Stop else Out x.1,
          mkRst x.2 (r_seq_expect r) true)
  else Some (Out (- NLE_NOMEM), r).
Proof.
  intros [Hl (ty & Hty & Hc) (fl & Hfl & Hm & Hack) Hs Hsz Ha]. destruct Hcb as [V1 V2 V3 V4].
  unfold process_msg, nlmsg_len, nlmsg_type, nlmsg_flags, nlmsg_seq in *.
  replace (zlen pre) with (zlen pre + 0) at 1 by lia.
  rewrite (ld_inside _ _ _ _ _ _ Hl), (ld_inside _ _ _ _ _ _ Hty), (ld_inside _ _ _ _ _ _ Hfl),
    (ld_inside _ _ _ _ _ _ Hs), !some_bind, convert_inside by done.
  destruct (copied (r_user r) m); [|done]. cbn [negb].
  unfold cb_or at 1. rewrite V2. unfold andthen. rewrite some_bind. cbn [fst snd].
  rewrite seq_check_passes, some_bind by done. cbn [fst snd].
  rewrite Hc, (proj2 (Z.eqb_neq _ _) Hm), Hack. cbn [negb Z.eqb]. rewrite some_bind. cbn [fst snd].
  unfold is_control in Hc. apply orb_false_iff in Hc as [Hc H4].
  apply orb_false_iff in Hc as [Hc H3]. apply orb_false_iff in Hc as [H5 H6].
  rewrite H3, H4, H5, H6. unfold cb_or. rewrite V1. unfold NL_CB_CALL. cbn [r_user r_seq_expect].
  done.
Qed.

Lemma process_done pre m post r :
  part_msg (r_seq_expect r) true m →
  process_msg copied cb true (pre ++ m ++ post) (zlen pre) r =
  Some (if copied (r_user r) m then (Proceed, mkRst (r_user r) (u32 (r_seq_expect r + 1)) false)
        else (Out (- NLE_NOMEM), r)).
Proof.
  intros [Hl (ty & Hty & ->) (fl & Hfl & Hm & Hack) Hs Hsz Ha]. destruct Hcb as [V1 V2 V3 V4].
  unfold process_msg, nlmsg_len, nlmsg_type, nlmsg_flags, nlmsg_seq in *.
  replace (zlen pre) with (zlen pre + 0) at 1 by lia.
  rewrite (ld_inside _ _ _ _ _ _ Hl), (ld_inside _ _ _ _ _ _ Hty), (ld_inside _ _ _ _ _ _ Hfl),
    (ld_inside _ _ _ _ _ _ Hs), !some_bind, convert_inside by done.
  destruct (copied (r_user r) m); [|done]. cbn [negb].
  unfold cb_or at 1. rewrite V2. unfold andthen. rewrite some_bind. cbn [fst snd].
  rewrite seq_check_passes, some_bind by done. cbn [fst snd].
  rewrite (proj2 (Z.eqb_neq _ _) Hm), Hack. cbn [negb Z.eqb]. rewrite some_bind. cbn [fst snd].
  unfold cb_or. by rewrite V4.
Qed.

(** One turn of the loop inside a datagram. *)
Lemma msg_loop_turn fuel pre m post r ctrl :
  part_msg (r_seq_expect r) ctrl m →
  msg_loop copied (Datatypes.S fuel) cb true (pre ++ m ++ post) (zlen pre) (zlen (m ++ post)) r =
  (x ← process_msg copied cb true (pre ++ m ++ post) (zlen pre) r;
   match x.1 with
   | Proceed | Skip => msg_loop copied fuel cb true ((pre ++ m) ++ post) (zlen (pre ++ m)) (zlen post) x.2
   | Stop => Some (Stopped x.2)
   | Out err => Some (Failed err x.2)
   end).
Proof.
  intros [Hl _ _ _ Hsz Ha]. cbn [msg_loop]. unfold nlmsg_ok, sizeof_nlmsghdr.
  pose proof (zlen_nonneg post). rewrite zlen_app.
  assert (nlmsg_len (pre ++ m ++ post) (zlen pre) = Some (zlen m)) as Hl'.
  { unfold nlmsg_len in *. replace (zlen pre) with (zlen pre + 0) by lia. by apply ld_inside. }
  decide_test (zlen m + zlen post <? 16) false. rewrite Hl', !some_bind.
  decide_test (16 <=? zlen m) true. decide_test (zlen m <=? zlen m + zlen post) true. cbn [andb negb].
  rewrite ALIGN_aligned by (auto; lia).
  destruct (process_msg _ _ _ _ _ _) as [x|]; [|done]. rewrite !some_bind.
  rewrite <- app_assoc, zlen_app. replace (zlen m + zlen post - zlen m) with (zlen post) by lia. done.
Qed.

(** The messages of one datagram; [tail] is what comes after them in it. *)
Lemma msg_loop_parts ms fuel pre tail r :
  Forall (part_msg (r_seq_expect r) false) ms → ms ≠ [] ∨ r_multipart r = true → 
  (length ms ≤ fuel)%nat →
  ∃ mp, msg_loop copied fuel cb true (pre ++ concat ms ++ tail) (zlen pre) (zlen (concat ms ++ tail)) r =
  match feed f ms (r_user r) with
  | None => None
  | Some (c, u) =>
      if c =? 0
      then msg_loop copied (fuel - length ms) cb true ((pre ++ concat ms) ++ tail) (zlen (pre ++ concat ms))
             (zlen tail) (mkRst u (r_seq_expect r) true)
      else Some (if c =? 2 then Stopped (mkRst u (r_seq_expect r) mp)
                 else Failed c (mkRst u (r_seq_expect r) mp))
  end.
Proof.
  revert fuel pre r. induction ms as [|m ms IH]; intros fuel pre r Hms Hmp Hfu.
  { exists true. cbn [concat feed]. rewrite app_nil_r, Nat.sub_0_r. destruct Hmp as [?|Hmp]; [done|].
    cbn [app Z.eqb]. by destruct r; simpl in Hmp; subst. }
  apply list.Forall_cons in Hms as [Hm Hms]. destruct fuel as [|fuel]; [simpl in Hfu; lia|].
  cbn [concat feed]. rewrite <- app_assoc.
  rewrite (msg_loop_turn _ _ _ _ _ false Hm), process_part by done.
  destruct (copied (r_user r) m); [|exists (r_multipart r); by destruct r].
  destruct (f m (r_user r)) as [ [c u]|] eqn:Ex; [|by exists true]. rewrite !some_bind. cbn [fst snd].
  pose proof (IH fuel (pre ++ m) (mkRst u (r_seq_expect r) true) Hms (or_intror eq_refl)) as IHm.
  cbn [r_user r_seq_expect] in IHm. rewrite <- !app_assoc in IHm. cbn [Datatypes.length Nat.sub].
  destruct (c =? 0) eqn:E0; cbn [orb]; [rewrite <- !app_assoc; apply IHm; simpl in Hfu; lia|].
  destruct (c =? 1) eqn:E1; [rewrite <- !app_assoc; apply IHm; simpl in Hfu; lia|].
  exists true. rewrite E0. by destruct (c =? 2).
Qed.

(** The datagrams of a dump: the messages [mss] of the first ones, then those of the last
    one, [ms] and the end of the dump. *)
Definition dump_dgs (mss : list (list (list Z))) (ms : list (list Z)) (fin : list Z) : list datagram :=
  map (λ ms, Datagram (concat ms)) mss ++ [Datagram (concat ms ++ fin)].

Lemma parts_length seq ctrl ms :
  Forall (part_msg seq ctrl) ms → (length ms ≤ length (concat ms))%nat.
Proof.
  induction 1 as [|m ms [_ _ _ _ Hsz _] _ IH]; [done|]. simpl. rewrite length_app.
  unfold zlen in Hsz. lia.
Qed.

Lemma msg_loop_end fuel buf hdr r :
  (0 < fuel)%nat → msg_loop copied fuel cb true buf hdr (zlen (@nil Z)) r = Some (Exhausted r).
Proof. intros Hfu. destruct fuel; [lia|]. done. Qed.

(** The result of receiving a dump, after [f] was called with its messages: a call that stops
    or fails ends it, and so does a message for which there is no memory. *)
Definition dump_result (seq : Z) (fin : list Z) (rest rest' : list datagram) (mp : bool) (x : option (Z * S))
    : option (recv_result (S := S)) :=
  match x with
  | None => None
  | Some (c, u) =>
      if c =? 0 then
        Some (if copied u fin then Returned 0 (mkRst u (u32 (seq + 1)) false) rest
              else Returned (- NLE_NOMEM) (mkRst u seq mp) rest)
      else Some (Returned (if c =? 2 then 0 else c) (mkRst u seq mp) rest')
  end.

(** The last datagram. *)
Lemma recv_last ms fin rest r :
  Forall (part_msg (r_seq_expect r) false) ms → part_msg (r_seq_expect r) true fin →
  ∃ mp, recvmsgs copied cb true (Datagram (concat ms ++ fin) :: rest) r =
        dump_result (r_seq_expect r) fin rest rest mp (feed f ms (r_user r)).
Proof.
  intros Hms Hfin. cbn [recvmsgs]. unfold dump_result.
  pose proof (parts_length _ _ _ Hms) as Hlen. pose proof Hfin as [_ _ _ _ Hsz _].
  assert (∀ fuel pre u mp, (2 ≤ fuel)%nat →
    msg_loop copied fuel cb true (pre ++ fin) (zlen pre) (zlen fin) (mkRst u (r_seq_expect r) mp) =
    Some (if copied u fin then Exhausted (mkRst u (u32 (r_seq_expect r + 1)) false)
          else Failed (- NLE_NOMEM) (mkRst u (r_seq_expect r) mp))) as Hlast.
  { intros fuel pre u mp Hfu. destruct fuel as [|fuel]; [lia|].
    rewrite <- (app_nil_r fin) at 1 2.
    rewrite (msg_loop_turn _ _ _ _ (mkRst u (r_seq_expect r) mp) true Hfin).
    rewrite (process_done pre fin [] (mkRst u (r_seq_expect r) mp)) by done.
    rewrite some_bind. cbn [r_user r_seq_expect]. destruct (copied u fin); cbn [fst snd]; [|done].
    apply msg_loop_end. lia. }
  destruct (decide (ms = [])) as [->|Hne].
  - exists (r_multipart r). cbn [concat feed app Z.eqb].
    pose proof (Hlast (Datatypes.S (length fin)) [] (r_user r) (r_multipart r)) as Hl.
    destruct r as [u sq mp]. cbn [app r_user r_seq_expect r_multipart] in *.
    change (zlen (@nil Z)) with 0 in Hl. rewrite Hl; [|unfold zlen in Hsz; lia]. by destruct (copied u fin).
  - destruct (msg_loop_parts ms (Datatypes.S (length (concat ms ++ fin))) [] fin r Hms (or_introl Hne)) as [mp Hp];
      [rewrite length_app; lia|].
    cbn [app] in Hp. change (zlen (@nil Z)) with 0 in Hp. rewrite length_app in *. rewrite Hp.
    destruct (feed f ms (r_user r)) as [ [c u]|]; [|by exists mp].
    destruct (c =? 0) eqn:Ec; [|exists mp; by destruct (c =? 2)].
    exists true. rewrite Hlast by (unfold zlen in Hsz; lia). by destruct (copied u fin).
Qed.

(** However the messages are spread over datagrams, each gets its call. *)
Theorem recv_dump mss ms fin rest r :
  Forall (λ ms, ms ≠ [] ∧ Forall (part_msg (r_seq_expect r) false) ms) mss →
  Forall (part_msg (r_seq_expect r) false) ms → part_msg (r_seq_expect r) true fin →
  ∃ rest' mp, recvmsgs copied cb true (dump_dgs mss ms fin ++ rest) r =
    dump_result (r_seq_expect r) fin rest rest' mp (feed f (concat mss ++ ms) (r_user r)).
Proof.
  intros Hmss Hms Hfin. revert r Hmss Hms Hfin. induction mss as [|m1 mss IH]; intros r Hmss Hms Hfin.
  { exists rest. by apply recv_last. }
  apply list.Forall_cons in Hmss as [ [Hne H1] Hmss]. cbn [dump_dgs map app recvmsgs concat].
  pose proof (parts_length _ _ _ H1) as Hlen.
  destruct (msg_loop_parts m1 (Datatypes.S (length (concat m1))) [] [] r H1 (or_introl Hne)) as [mp Hp]; [lia|].
  rewrite !app_nil_r in Hp. cbn [app] in Hp. change (zlen (@nil Z)) with 0 in Hp at 1. rewrite Hp.
  rewrite <- (app_assoc m1), feed_app. unfold dump_result at 1.
  destruct (feed f m1 (r_user r)) as [ [c u]|]; [|by exists rest, mp].
  destruct (c =? 0) eqn:Ec; [|eexists _, mp; unfold dump_result; rewrite Ec; by destruct (c =? 2)].
  rewrite msg_loop_end by lia. rewrite some_bind. cbn [r_multipart].
  apply (IH (mkRst u (r_seq_expect r) true)); done.
Qed.
End Loop.
End Dump.

Section Ack.
Context {S : Type} (copied : S → list Z → bool).

(** [ack_wait_handler] returns [NL_STOP]; [cloned] tells whether memory was left for a copy
    of the socket's handlers. *)
Definition nl_wait_for_ack (cloned : bool) (cb : nl_cb S) (auto_ack : bool) (dgs : list datagram) (r : rst S)
    : option (recv_result (S := S)) :=
  if negb cloned then Some (Returned (- NLE_NOMEM) r dgs)
  else recvmsgs copied (nl_socket_modify_cb cb NL_CB_ACK (λ _ u, Some (2, u))) auto_ack dgs r.

(** The kernel's report of the error [e] for the request [seq]; [e] is 0 or negative. *)
Record report (seq e : Z) (m : list Z) : Prop := {
  re_len : nlmsg_len m 0 = Some (zlen m);
  re_type : nlmsg_type m 0 = Some NLMSG_ERROR;
  re_flags : nlmsg_flags m 0 = Some 0;
  re_seq : nlmsg_seq m 0 = Some seq;
  re_error : ∃ v, ld 4 m 16 = Some v ∧ s32 v = e;
  re_size : 36 ≤ zlen m;
  re_aligned : zlen m mod 4 = 0;
}.

Lemma process_report (cb : nl_cb S) aa m e r :
  report (r_seq_expect r) e m → cb_set cb NL_CB_MSG_IN = None → cb_set cb NL_CB_SEQ_CHECK = None → cb_err cb = None →
  process_msg copied cb aa m 0 r =
  let r' := mkRst (r_user r) (u32 (r_seq_expect r + 1)) (r_multipart r) in
  if copied (r_user r) m then
    if e =? 0 then cb_or cb NL_CB_ACK m r' Proceed else Some (Out (- nl_syserr2nlerr e), r')
  else Some (Out (- NLE_NOMEM), r).
Proof.
  intros [Hl Ht Hf Hs (v & Hv & Ev) Hsz Ha] H1 H2 H3. unfold process_msg.
  rewrite Hl, Ht, Hf, Hs, !some_bind, nlmsg_convert_all by done.
  destruct (copied (r_user r) m); [|done]. cbn [negb].
  unfold cb_or at 1. rewrite H1. unfold andthen. rewrite some_bind. cbn [fst snd].
  rewrite H2, (Z.eqb_refl (r_seq_expect r)), andb_false_r. rewrite some_bind. cbn [fst snd].
  change (is_control NLMSG_ERROR) with true. change (Z.land 0 NLM_F_MULTI) with 0. change (Z.land 0 NLM_F_ACK) with 0.
  cbn [negb Z.eqb]. rewrite some_bind. cbn [fst snd].
  change (NLMSG_ERROR =? NLMSG_DONE) with false. change (NLMSG_ERROR =? NLMSG_NOOP) with false.
  change (NLMSG_ERROR =? NLMSG_OVERRUN) with false. change (NLMSG_ERROR =? NLMSG_ERROR) with true. cbv iota.
  unfold error_msg. change (nlmsg_size sizeof_nlmsgerr) with 36. decide_test (zlen m <? 36) false.
  change (nlmsg_data 0) with 16. rewrite Hv, some_bind, Ev, H3. by destruct (e =? 0).
Qed.

(** The answer to a request, as [recvmsgs] sees it: the request is acknowledged, or the error
    of the kernel is returned as an error of the library; the next number is expected. *)
Lemma recv_report (cb : nl_cb S) aa m e r dgs :
  report (r_seq_expect r) e m → r_multipart r = false →
  cb_set cb NL_CB_MSG_IN = None → cb_set cb NL_CB_SEQ_CHECK = None → cb_err cb = None →
  (∀ f, cb_set cb NL_CB_ACK = Some f → ∃ c, ∀ u, f m u = Some (c, u) ∧ 0 ≤ c ≤ 2) →
  recvmsgs copied cb aa (Datagram m :: dgs) r =
  Some (if copied (r_user r) m then
          Returned (if e =? 0 then 0 else - nl_syserr2nlerr e) (mkRst (r_user r) (u32 (r_seq_expect r + 1)) false) dgs
        else Returned (- NLE_NOMEM) r dgs).
Proof.
  intros Hr Hm H1 H2 H3 Hack. pose proof Hr as [Hl _ _ _ _ Hsz Ha]. cbn [recvmsgs].
  assert (∃ k, length m = Datatypes.S k) as [k Hk].
  { destruct m; [unfold zlen in Hsz; simpl in Hsz; lia|by eexists]. }
  cbn [msg_loop]. unfold nlmsg_ok, sizeof_nlmsghdr at 1.
  decide_test (zlen m <? 16) false. rewrite Hl, !some_bind. unfold sizeof_nlmsghdr.
  decide_test (16 <=? zlen m) true. rewrite Z.leb_refl. cbn [andb negb]. cbv iota.
  rewrite (process_report cb aa m e r Hr H1 H2 H3). cbv zeta. destruct (copied (r_user r) m); [|done]. rewrite ALIGN_aligned, Z.sub_diag, Hm by (auto; lia).
  assert (∀ r', msg_loop copied (length m) cb aa m (0 + zlen m) 0 r' = Some (Exhausted r'))
    as Hend by (intros r'; by rewrite Hk).
  destruct (e =? 0); [|done]. unfold cb_or. destruct (cb_set cb NL_CB_ACK) as [f|].
  - destruct (Hack f eq_refl) as [c Hc]. unfold NL_CB_CALL. cbn [r_user].
    destruct (Hc (r_user r)) as [-> Hcr]. rewrite !some_bind. cbn [fst snd r_seq_expect r_multipart].
    assert (c = 0 ∨ c = 1 ∨ c = 2) as [->|[->| ->] ] by lia; cbn [Z.eqb Pos.eqb]; by rewrite ?Hend.
  - rewrite some_bind. cbn [fst snd]. by rewrite Hend.
Qed.

Lemma wait_for_ack_ok (cb : nl_cb S) aa m e r dgs :
  report (r_seq_expect r) e m → r_multipart r = false →
  cb_set cb NL_CB_MSG_IN = None → cb_set cb NL_CB_SEQ_CHECK = None → cb_err cb = None →
  nl_wait_for_ack true cb aa (Datagram m :: dgs) r =
  Some (if copied (r_user r) m then
          Returned (if e =? 0 then 0 else - nl_syserr2nlerr e) (mkRst (r_user r) (u32 (r_seq_expect r + 1)) false) dgs
        else Returned (- NLE_NOMEM) r dgs).
Proof.
  intros Hr Hm H1 H2 H3. apply (recv_report _ aa m e); try done.
  intros f. cbn. intros [= <-]. by exists 2.
Qed.
End Ack.
