(* ===== verification/Attr.v ===== *)
(** * Attributes and messages: the other functions of [lib/attr.c] and [lib/msg.c]

    Validation, searching, copies, typed values, nesting and parsing by a policy; messages
    that are parsed, made, appended to and grown. *)

From S2P Require Import Prelude Mem Kernel Packet Netlink Dump.
Import Nl.

(** The types that a policy names. *)
Definition NLA_UNSPEC : Z := 0.
Definition NLA_U8 : Z := 1.
Definition NLA_U16 : Z := 2.
Definition NLA_U32 : Z := 3.
Definition NLA_NESTED : Z := 8.

(** The payload of an attribute. *)
Definition payload (buf : list Z) (nla : Z) : option (list Z) :=
  len ← nla_len buf nla;
  if (len <? 0) || (nla_data nla <? 0) || (zlen buf <? nla_data nla + len) then None
  else Some (take (Z.to_nat len) (drop (Z.to_nat (nla_data nla)) buf)).

(** ** Loops over a stream of attributes *)

Fixpoint nla_validate_loop (fuel : nat) (buf : list Z) (nla rem maxtype : Z)
    (policy : Z → nla_policy) : option Z :=
  match fuel with
  | O => None
  | S fuel =>
      ok ← nla_ok buf nla rem;
      if negb ok then Some 0
      else
        err ← validate_nla buf nla maxtype policy;
        if err <? 0 then Some err
        else nx ← nla_next buf nla rem; nla_validate_loop fuel buf nx.1 nx.2 maxtype policy
  end.

Definition nla_validate (buf : list Z) (head len maxtype : Z) (policy : Z → nla_policy) : option Z :=
  nla_validate_loop (S (Z.to_nat len)) buf head len maxtype policy.

Fixpoint nla_find_loop (fuel : nat) (buf : list Z) (nla rem attrtype : Z) : option (option Z) :=
  match fuel with
  | O => None
  | S fuel =>
      ok ← nla_ok buf nla rem;
      if negb ok then Some None
      else
        type ← nla_type buf nla;
        if type =? attrtype then Some (Some nla)
        else nx ← nla_next buf nla rem; nla_find_loop fuel buf nx.1 nx.2 attrtype
  end.

Definition nla_find (buf : list Z) (head len attrtype : Z) : option (option Z) :=
  nla_find_loop (S (Z.to_nat len)) buf head len attrtype.

(** ** Copies and comparisons *)

(** [dest] is the memory at the destination; the copy of a negative number of bytes is a
    copy of almost the whole address space. *)
Definition nla_memcpy (dest buf : list Z) (src : option Z) (count : Z) : option (Z * list Z) :=
  match src with
  | None => Some (0, dest)
  | Some nla =>
      len ← nla_len buf nla;
      bs ← payload buf nla;
      let minlen := Z.min count len in
      if minlen <? 0 then None
      else d ← st dest 0 (take (Z.to_nat minlen) bs); Some (minlen, d)
  end.

Definition nla_strlcpy (dst buf : list Z) (nla dstsize : Z) : option (Z * list Z) :=
  src ← payload buf nla;
  let srclen := zlen src in
  let srclen := if (0 <? srclen) && (znth src (srclen - 1) =? 0) then srclen - 1 else srclen in
  if 0 <? dstsize then
    let len := if dstsize <=? srclen then dstsize - 1 else srclen in
    d ← st dst 0 (replicate (Z.to_nat dstsize) 0);
    d ← st d 0 (take (Z.to_nat len) src);
    Some (srclen, d)
  else Some (srclen, dst).

(** Of [memcmp] only the sign is specified; this is the difference of the first bytes that
    differ. *)
Fixpoint c_memcmp (a b : list Z) : Z :=
  match a, b with
  | x :: a, y :: b => if x =? y then c_memcmp a b else x - y
  | _, _ => 0
  end.

Definition nla_memcmp (buf : list Z) (nla : Z) (data : list Z) : option Z :=
  len ← nla_len buf nla;
  let d := s32 (len - zlen data) in
  if d =? 0 then bs ← payload buf nla; Some (c_memcmp bs data) else Some d.

(** [str] without its NUL. *)
Definition nla_strcmp (buf : list Z) (nla : Z) (str : list Z) : option Z :=
  len ← nla_len buf nla;
  let d := len - (zlen str + 1) in
  if d =? 0 then bs ← payload buf nla; Some (c_memcmp bs (str ++ [0])) else Some d.

(** ** Typed attributes *)

Definition nla_put_u8 (msg : nl_msg) (attrtype value : Z) : option (Z * nl_msg) :=
  nla_put msg attrtype (le_split 1 (u8 value)).
Definition nla_put_u16 (msg : nl_msg) (attrtype value : Z) : option (Z * nl_msg) :=
  nla_put msg attrtype (le_split 2 (u16 value)).
Definition nla_put_u64 (msg : nl_msg) (attrtype value : Z) : option (Z * nl_msg) :=
  nla_put msg attrtype (le_split 8 (u64 value)).
Definition nla_put_flag (msg : nl_msg) (attrtype : Z) : option (Z * nl_msg) :=
  nla_put msg attrtype [].
Definition nla_put_msecs (msg : nl_msg) (attrtype msecs : Z) : option (Z * nl_msg) :=
  nla_put_u64 msg attrtype msecs.
(** [nla_put_data] and [nla_put_addr] with the bytes of the abstract data or address. *)
Definition nla_put_data (msg : nl_msg) (attrtype : Z) (data : list Z) : option (Z * nl_msg) :=
  nla_put msg attrtype data.

Definition nla_get_u8 (buf : list Z) (nla : Z) : option Z := ld 1 buf (nla_data nla).
Definition nla_get_u16 (buf : list Z) (nla : Z) : option Z := ld 2 buf (nla_data nla).
Definition nla_get_u32 (buf : list Z) (nla : Z) : option Z := ld 4 buf (nla_data nla).
(** The variable that the bytes are copied to is not initialised: [junk]. *)
Definition nla_get_u64 (junk buf : list Z) (nla : Z) : option Z :=
  r ← nla_memcpy junk buf (Some nla) 8; Some (le_combine r.2).
Definition nla_get_flag (nla : option Z) : Z := if nla is Some _ then 1 else 0.
Definition nla_get_msecs (junk buf : list Z) (nla : Z) : option Z := nla_get_u64 junk buf nla.

(** A C string: the bytes before the first NUL; [None] when the buffer ends before it. *)
Fixpoint c_string (bs : list Z) : option (list Z) :=
  match bs with
  | [] => None
  | b :: bs => if b =? 0 then Some [] else s ← c_string bs; Some (b :: s)
  end.

Definition nla_get_string (buf : list Z) (nla : Z) : option (list Z) :=
  if nla_data nla <? 0 then None else c_string (drop (Z.to_nat (nla_data nla)) buf).
(** The copy is the same string. *)
Definition nla_strdup (buf : list Z) (nla : Z) : option (list Z) := nla_get_string buf nla.

(** ** Nested attributes *)

Definition nlmsg_datalen (buf : list Z) : option Z := l ← nlmsg_len buf 0; Some (l - NLMSG_HDRLEN).
(** The offset of the tail. *)
Definition nlmsg_tail (buf : list Z) : option Z := l ← nlmsg_len buf 0; Some (NLMSG_ALIGN l).

Definition nla_put_nested (msg : nl_msg) (attrtype : Z) (nested : nl_msg) : option (Z * nl_msg) :=
  len ← nlmsg_datalen (nm_nlh nested);
  if (len <? 0) || (zlen (nm_nlh nested) <? NLMSG_HDRLEN + len) then None
  else nla_put msg attrtype (take (Z.to_nat len) (drop (Z.to_nat NLMSG_HDRLEN) (nm_nlh nested))).

Definition nla_nest_start (msg : nl_msg) (attrtype : Z) : option (option Z * nl_msg) :=
  start ← nlmsg_tail (nm_nlh msg);
  r ← nla_put msg attrtype [];
  Some (if r.1 <? 0 then None else Some start, r.2).

Definition nla_nest_end (msg : nl_msg) (start : Z) : option (Z * nl_msg) :=
  tail ← nlmsg_tail (nm_nlh msg);
  buf ← st (nm_nlh msg) start (le_split 2 (tail - start));
  l ← nlmsg_len buf 0;
  let pad := NLMSG_ALIGN l - l in
  let msg := mkMsg (nm_size msg) buf in
  if 0 <? pad then
    r ← nlmsg_reserve msg pad 0;
    match r.1 with Some _ => Some (0, r.2) | None => None end
  else Some (0, msg).

Definition nla_parse_nested (buf : list Z) (maxtype nla : Z) (policy : option (Z → nla_policy))
    : option (Z * tb) :=
  len ← nla_len buf nla; nla_parse buf maxtype (nla_data nla) len policy.

(** ** Payloads of encoded attributes *)

Lemma attr_payload buf off bs :
  attr_at buf off bs → nla_data off + zlen bs ≤ zlen buf → payload buf off = Some bs.
Proof.
  intros (H0 & Hl & Ht) Hb. unfold payload. rewrite Hl, some_bind.
  pose proof (zlen_nonneg bs). unfold nla_data in *. change NLA_HDRLEN with 4 in *.
  decide_test (zlen bs <? 0) false. decide_test (off + 4 <? 0) false.
  decide_test (zlen buf <? off + 4 + zlen bs) false. cbn [orb].
  unfold zlen at 1. rewrite Nat2Z.id. by rewrite Ht.
Qed.

(** An attribute inside a buffer. *)
Definition attr_in (buf : list Z) (off : Z) (bs : list Z) : Prop :=
  attr_at buf off bs ∧ nla_data off + zlen bs ≤ zlen buf.

Lemma enc_in pre a post : attr_ok a → attr_in (pre ++ enc a ++ post) (zlen pre) a.2.
Proof.
  intros Ha. split; [by apply (enc_at pre a post)|]. rewrite !zlen_app, zlen_enc.
  unfold nla_data, nla_total_size, nla_attr_size. change NLA_HDRLEN with 4.
  pose proof (ALIGN_bounds (4 + zlen a.2)). pose proof (zlen_nonneg a.2). pose proof (zlen_nonneg post). lia.
Qed.

Lemma take_drop_split {A} (l bs : list A) n :
  take (length bs) (drop n l) = bs → ∃ post, l = take n l ++ bs ++ post.
Proof.
  intros E. exists (drop (length bs) (drop n l)). rewrite <- E at 1.
  by rewrite take_drop, take_drop.
Qed.

(** The bytes of the payload, as a load sees them. *)
Lemma attr_split buf off bs :
  attr_in buf off bs → ∃ pre post, buf = pre ++ bs ++ post ∧ zlen pre = nla_data off.
Proof.
  intros [(H0 & Hl & Ht) Hb]. destruct (take_drop_split _ _ _ Ht) as [post E].
  exists (take (Z.to_nat (nla_data off)) buf), post. split; [done|].
  pose proof (zlen_nonneg bs). unfold nla_data in *. change NLA_HDRLEN with 4 in *.
  unfold zlen in *. rewrite length_take. lia.
Qed.

Lemma get_value n buf off v :
  attr_in buf off (le_split n v) → ld n buf (nla_data off) = Some (v mod 2 ^ (8 * Z.of_nat n)).
Proof.
  intros Ha. destruct (attr_split _ _ _ Ha) as (pre & post & -> & E).
  rewrite <- E, ld_mid by (by rewrite ?length_le_split). by rewrite le_combine_split.
Qed.

Lemma c_string_text s rest : 0 ∉ s → c_string (s ++ 0 :: rest) = Some s.
Proof.
  induction s as [|b s IH]; intros Hs; [done|]. simpl.
  destruct (Z.eqb_spec b 0) as [->|]; [set_solver|]. rewrite IH by set_solver. done.
Qed.

Lemma get_string buf off s : attr_in buf off (s ++ [0]) → 0 ∉ s → nla_get_string buf off = Some s.
Proof.
  intros Ha Hs. destruct (attr_split _ _ _ Ha) as (pre & post & -> & E).
  unfold nla_get_string. rewrite <- E. pose proof (zlen_nonneg pre).
  decide_test (zlen pre <? 0) false. unfold zlen. rewrite Nat2Z.id, drop_app_length, <- app_assoc.
  by apply c_string_text.
Qed.

(** ** Copying and comparing *)

(** At most [count] bytes are written, whatever the attribute claims. *)
Lemma memcpy_ok dest buf off bs count :
  attr_in buf off bs → 0 ≤ count ≤ zlen dest →
  nla_memcpy dest buf (Some off) count =
  Some (Z.min count (zlen bs),
        take (Z.to_nat (Z.min count (zlen bs))) bs ++ drop (Z.to_nat (Z.min count (zlen bs))) dest).
Proof.
  intros Ha Hc. pose proof Ha as [ [_ [Hl _] ] Hb]. unfold nla_memcpy.
  rewrite Hl, some_bind, (attr_payload _ _ _ (proj1 Ha) Hb), some_bind. pose proof (zlen_nonneg bs).
  set (n := Z.min count (zlen bs)). decide_test (n <? 0) false.
  assert (length (take (Z.to_nat n) bs) = Z.to_nat n) as Hlen.
  { rewrite length_take. unfold zlen in *. lia. }
  rewrite <- (take_drop (Z.to_nat n) dest) at 1. rewrite st_head; [done|].
  rewrite length_take, Hlen. unfold zlen in *. lia.
Qed.

(** The text of a string attribute: its payload without a NUL at the end. *)
Definition attr_text (bs : list Z) : list Z :=
  if (0 <? zlen bs) && (znth bs (zlen bs - 1) =? 0) then take (length bs - 1) bs else bs.

Lemma attr_text_len bs :
  zlen (attr_text bs) =
  if (0 <? zlen bs) && (znth bs (zlen bs - 1) =? 0) then zlen bs - 1 else zlen bs.
Proof.
  unfold attr_text. destruct (Z.ltb_spec 0 (zlen bs)); [|done]. destruct (znth _ _ =? 0); [|done].
  cbn [andb]. unfold zlen in *. rewrite length_take. lia.
Qed.

Lemma attr_text_take n bs : (n ≤ length (attr_text bs))%nat → take n bs = take n (attr_text bs).
Proof.
  unfold attr_text. destruct (_ && _); [|done]. intros Hn. rewrite length_take in Hn.
  rewrite take_take. f_equal. lia.
Qed.

(** [nla_strlcpy] truncates, always ends the string, and returns the length of the whole
    text, so that a result of [dstsize] or more means that it was cut. *)
Lemma strlcpy_ok dst buf off bs :
  attr_in buf off bs → 0 < zlen dst →
  let text := attr_text bs in
  let n := Z.min (zlen text) (zlen dst - 1) in
  nla_strlcpy dst buf off (zlen dst) =
  Some (zlen text, take (Z.to_nat n) text ++ replicate (Z.to_nat (zlen dst - n)) 0).
Proof.
  intros Ha Hd text n. pose proof Ha as [ [_ [Hl _] ] Hb]. unfold nla_strlcpy.
  rewrite (attr_payload _ _ _ (proj1 Ha) Hb), some_bind, <- attr_text_len. fold text.
  decide_test (0 <? zlen dst) true. pose proof (zlen_nonneg text).
  assert ((if zlen dst <=? zlen text then zlen dst - 1 else zlen text) = n) as ->.
  { subst n. destruct (Z.leb_spec (zlen dst) (zlen text)); lia. }
  assert (st dst 0 (replicate (Z.to_nat (zlen dst)) 0) = Some (replicate (Z.to_nat (zlen dst)) 0)) as ->.
  { rewrite <- (app_nil_r dst) at 1. rewrite st_head; [by rewrite app_nil_r|].
    rewrite length_replicate. unfold zlen. lia. }
  rewrite some_bind, attr_text_take by (fold text; unfold zlen in *; lia). fold text.
  replace (Z.to_nat (zlen dst)) with (Z.to_nat n + Z.to_nat (zlen dst - n))%nat by (subst n; lia).
  rewrite replicate_add, st_head; [done|]. rewrite length_replicate, length_take. unfold zlen in *. lia.
Qed.

Lemma memcmp_zero a b : length a = length b → c_memcmp a b = 0 ↔ a = b.
Proof.
  revert b. induction a as [|x a IH]; intros [|y b] Hl; try done. simpl.
  destruct (Z.eqb_spec x y) as [->|Hne].
  - rewrite IH by (simpl in Hl; lia). split; [by intros ->|by intros [= ->]].
  - split; [lia|]. by intros [= ? ?].
Qed.

(** Both comparisons are 0 exactly for equal payloads. *)
Lemma nla_memcmp_ok buf off bs data :
  attr_in buf off bs → zlen bs < 2 ^ 16 → zlen data < 2 ^ 30 →
  ∃ d, nla_memcmp buf off data = Some d ∧ (d = 0 ↔ bs = data).
Proof.
  intros Ha Hs Hd. pose proof Ha as [ [_ [Hl _] ] Hb]. unfold nla_memcmp. rewrite Hl, some_bind.
  pose proof (zlen_nonneg bs). pose proof (zlen_nonneg data).
  assert (s32 (zlen bs - zlen data) = zlen bs - zlen data) as ->.
  { rewrite <- (s32_u32 (zlen bs - zlen data)) at 2 by lia. unfold s32. by rewrite u32_idemp. }
  destruct (Z.eqb_spec (zlen bs - zlen data) 0) as [E|E].
  - rewrite (attr_payload _ _ _ (proj1 Ha) Hb), some_bind. eexists. split; [done|].
    apply memcmp_zero. unfold zlen in E. lia.
  - eexists. split; [done|]. split; [lia|]. intros ->. lia.
Qed.

Lemma nla_strcmp_ok buf off bs str :
  attr_in buf off bs → ∃ d, nla_strcmp buf off str = Some d ∧ (d = 0 ↔ bs = str ++ [0]).
Proof.
  intros Ha. pose proof Ha as [ [_ [Hl _] ] Hb]. unfold nla_strcmp. rewrite Hl, some_bind.
  assert (zlen (str ++ [0]) = zlen str + 1) as Hz by (rewrite zlen_app; done).
  destruct (Z.eqb_spec (zlen bs - (zlen str + 1)) 0) as [E|E].
  - rewrite (attr_payload _ _ _ (proj1 Ha) Hb), some_bind. eexists. split; [done|].
    apply memcmp_zero. unfold zlen in *. lia.
  - eexists. split; [done|]. split; [lia|]. intros ->. lia.
Qed.

(** ** Policies *)

(** What a policy accepts. *)
Definition accepts (p : nla_policy) (bs : list Z) : bool :=
  let minlen := if negb (pt_minlen p =? 0) then pt_minlen p
                else if negb (pt_type p =? 0) then nla_attr_minlen (pt_type p) else 0 in
  (pt_type p <=? NLA_TYPE_MAX) && negb ((pt_type p =? NLA_FLAG) && (0 <? zlen bs)) &&
  (minlen <=? zlen bs) && ((pt_maxlen p =? 0) || (zlen bs <=? pt_maxlen p)) &&
  (negb (pt_type p =? NLA_STRING) || ((0 <? zlen bs) && (znth bs (zlen bs - 1) =? 0))).

Lemma load_byte buf off bs :
  attr_in buf off bs → 0 < zlen bs → Forall is_byte bs →
  ld 1 buf (nla_data off + zlen bs - 1) = Some (znth bs (zlen bs - 1)).
Proof.
  intros Ha Hb Hbs. destruct (attr_split _ _ _ Ha) as (pre & post & -> & E). rewrite <- E.
  destruct (exists_last (l := bs)) as (l & b & ->); [by destruct bs|].
  replace (zlen pre + zlen (l ++ [b]) - 1) with (zlen (pre ++ l)) by (rewrite !zlen_app; unfold zlen; simpl; lia).
  replace (pre ++ (l ++ [b]) ++ post) with ((pre ++ l) ++ [b] ++ post) by (by rewrite <- !app_assoc).
  rewrite ld_mid by done. apply Forall_app in Hbs as [_ Hbs]. apply list.Forall_cons in Hbs as [Hbb _].
  f_equal. unfold znth. rewrite zlen_app. change (zlen [b]) with 1.
  replace (Z.to_nat (zlen l + 1 - 1)) with (length l) by (unfold zlen; lia).
  rewrite app_nth2, Nat.sub_diag by lia. simpl. unfold is_byte in Hbb. lia.
Qed.

Lemma validate_ok buf off ty bs maxtype policy :
  attr_in buf off bs → nla_type buf off = Some ty → Forall is_byte bs →
  (0 < ty ≤ maxtype → accepts (policy ty) bs = true) →
  validate_nla buf off maxtype policy = Some 0.
Proof.
  intros Ha Hty Hbs Hacc. unfold validate_nla. rewrite Hty, some_bind.
  destruct (Z.leb_spec ty 0); [done|]. destruct (Z.ltb_spec maxtype ty); [done|]. cbn [orb].
  specialize (Hacc ltac:(lia)). unfold accepts in Hacc.
  apply andb_true_iff in Hacc as [Hacc H5]. apply andb_true_iff in Hacc as [Hacc H4].
  apply andb_true_iff in Hacc as [Hacc H3]. apply andb_true_iff in Hacc as [H1 H2].
  apply Z.leb_le in H1, H3. apply negb_true_iff in H2.
  decide_test (NLA_TYPE_MAX <? pt_type (policy ty)) false.
  pose proof Ha as [ [_ [Hl _] ] Hb]. rewrite Hl, some_bind, H2.
  match goal with |- context [zlen bs <? ?m] => decide_test (zlen bs <? m) false end.
  assert (negb (pt_maxlen (policy ty) =? 0) && (pt_maxlen (policy ty) <? zlen bs) = false) as ->.
  { apply orb_true_iff in H4 as [->|H4]; [done|]. apply Z.leb_le in H4.
    decide_test (pt_maxlen (policy ty) <? zlen bs) false. by rewrite andb_false_r. }
  destruct (pt_type (policy ty) =? NLA_STRING); [|done]. cbn [negb orb] in H5.
  apply andb_true_iff in H5 as [H5 H6]. apply Z.ltb_lt in H5.
  rewrite (load_byte _ _ _ Ha H5 Hbs), some_bind. by rewrite H6.
Qed.

(** ** Streams of attributes *)

(** One step of the loops over a stream. *)
Lemma stream_step pre a rest post :
  attr_ok a → zlen (flat (a :: rest)) < 2 ^ 31 →
  let buf := pre ++ flat (a :: rest) ++ post in
  nla_ok buf (zlen pre) (zlen (flat (a :: rest))) = Some true ∧
  nla_type buf (zlen pre) = Some a.1 ∧ attr_in buf (zlen pre) a.2 ∧
  nla_next buf (zlen pre) (zlen (flat (a :: rest))) =
    Some (zlen (pre ++ enc a), zlen (flat rest)) ∧
  buf = (pre ++ enc a) ++ flat rest ++ post.
Proof.
  intros Ha Hsm buf. subst buf. change (flat (a :: rest)) with (enc a ++ flat rest) in *.
  rewrite <- (app_assoc (enc a)). destruct (enc_at pre a (flat rest ++ post) Ha) as (_ & Hty & Hlen).
  pose proof (enc_in pre a (flat rest ++ post) Ha) as Hin.
  pose proof (total_size_pos (zlen a.2) (zlen_nonneg _)) as [Htp _].
  pose proof (zlen_nonneg (flat rest)). pose proof (zlen_nonneg a.2).
  rewrite zlen_app, zlen_enc in *.
  assert (4 + zlen a.2 ≤ nla_total_size (zlen a.2)) as Hfit.
  { unfold nla_total_size, nla_attr_size. change NLA_HDRLEN with 4.
    pose proof (ALIGN_bounds (4 + zlen a.2)). lia. }
  unfold nla_ok, nla_next. rewrite Hlen, u64_small by lia. unfold sizeof_nlattr.
  decide_test (nla_total_size (zlen a.2) + zlen (flat rest) <? 4) false. rewrite !some_bind.
  decide_test (4 <=? 4 + zlen a.2) true.
  decide_test (4 + zlen a.2 <=? nla_total_size (zlen a.2) + zlen (flat rest)) true.
  split; [done|]. split; [done|]. split; [done|].
  change (NLA_ALIGN (4 + zlen a.2)) with (nla_total_size (zlen a.2)).
  rewrite zlen_app, zlen_enc. split; [do 2 f_equal; lia|]. by rewrite <- app_assoc.
Qed.

(** An attribute that a policy lets through. *)
Definition passes (maxtype : Z) (policy : Z → nla_policy) (a : Z * list Z) : Prop :=
  Forall is_byte a.2 ∧ (a.1 ≤ maxtype → accepts (policy a.1) a.2 = true).

(** A name of the kernel. *)
Definition name_ok (s : list Z) : Prop := 0 ∉ s ∧ Forall is_byte s ∧ zlen s ≤ 15.

Lemma bytes_name s : name_ok s → Forall is_byte (s ++ [0]).
Proof. intros (_ & Hs & _). apply Forall_app. split; [done|]. repeat constructor; done. Qed.

Lemma passes_u32 maxtype policy ty v :
  policy ty = mkPolicy NLA_U32 0 0 → passes maxtype policy (ty, le_split 4 v).
Proof. intros E. split; [apply le_split_bytes|]. intros _. cbn [fst snd]. by rewrite E. Qed.

(** A string with its NUL is accepted when it is not too long. *)
Lemma passes_name maxtype policy ty s m :
  policy ty = mkPolicy NLA_STRING 0 m → name_ok s → m = 0 ∨ 16 ≤ m → passes maxtype policy (ty, s ++ [0]).
Proof.
  intros E Hs Hm. split; [by apply bytes_name|]. intros _. cbn [fst snd]. rewrite E.
  destruct Hs as (_ & _ & Hl). pose proof (zlen_nonneg s). unfold accepts. cbn [pt_type pt_minlen pt_maxlen].
  assert (zlen (s ++ [0]) = zlen s + 1) as -> by by rewrite zlen_app.
  assert (znth (s ++ [0]) (zlen s + 1 - 1) = 0) as ->.
  { unfold znth. replace (Z.to_nat (zlen s + 1 - 1)) with (length s) by (unfold zlen; lia).
    by rewrite app_nth2, Nat.sub_diag by lia. }
  change (nla_attr_minlen NLA_STRING) with 1. cbn [negb Z.eqb NLA_STRING NLA_FLAG Pos.eqb andb orb].
  decide_test (1 <=? zlen s + 1) true. decide_test (0 <? zlen s + 1) true.
  destruct Hm as [->|Hm]; [done|]. decide_test (zlen s + 1 <=? m) true. by rewrite orb_true_r.
Qed.

Lemma get_u32_ok buf off v :
  attr_in buf off (le_split 4 v) → 0 ≤ v < 2 ^ 32 → nla_get_u32 buf off = Some v.
Proof.
  intros Ha Hv. unfold nla_get_u32. rewrite (get_value 4 _ _ _ Ha). f_equal. by apply Z.mod_small.
Qed.

Lemma nla_loop_policy maxtype policy l : ∀ fuel pre post t,
  Forall attr_ok l → Forall (passes maxtype policy) l → (length l < fuel)%nat → zlen (flat l) < 2 ^ 31 →
  nla_loop fuel (pre ++ flat l ++ post) maxtype (Some policy) (zlen pre) (zlen (flat l)) t
  = Some (0, index maxtype (zlen pre) l t).
Proof.
  induction l as [|a l IH]; intros [|fuel] pre post t Hok Hpa Hf Hsm; try (simpl in Hf; lia); [done|].
  apply Forall_cons_iff in Hok as [Ha Hok]. apply Forall_cons_iff in Hpa as [ [Hby Hp] Hpa].
  destruct (stream_step pre a l post Ha Hsm) as (E1 & E2 & E3 & E4 & E5).
  cbn [nla_loop]. rewrite E1, !some_bind. cbn [negb]. rewrite E2, E4, !some_bind. cbn [fst snd].
  destruct Ha as [Hty0 Hsz]. decide_test (a.1 =? 0) false.
  rewrite (validate_ok _ _ _ _ _ _ E3 E2 Hby) by (intros; apply Hp; lia).
  assert (zlen (flat l) < 2 ^ 31) as Hsm'.
  { change (flat (a :: l)) with (enc a ++ flat l) in Hsm. rewrite zlen_app in Hsm.
    pose proof (zlen_nonneg (enc a)). lia. }
  rewrite some_bind. change (0 <? 0) with false. cbv iota. rewrite E5.
  simpl in Hf. rewrite !IH by (done || lia). cbn [index].
  replace (zlen (pre ++ enc a)) with (zlen pre + nla_total_size (zlen a.2)) by (by rewrite zlen_app, zlen_enc).
  by destruct (a.1 <=? maxtype).
Qed.

(** The index has the last attribute of each type. *)
Definition indexes (buf : list Z) (l : list (Z * list Z)) (maxtype : Z) (t : tb) : Prop :=
  ∀ ty, ty ≤ maxtype →
    match find_attr ty l with
    | Some bs => ∃ off, t ty = Some off ∧ attr_in buf off bs
    | None => t ty = None
    end.

(** What [nla_parse] finds. *)
Lemma parse_stream maxtype policy l pre post :
  Forall attr_ok l → Forall (passes maxtype policy) l → zlen (flat l) < 2 ^ 31 →
  ∃ t, nla_parse (pre ++ flat l ++ post) maxtype (zlen pre) (zlen (flat l)) (Some policy) = Some (0, t) ∧
    ∀ ty, ty ≤ maxtype →
      match find_attr ty l with
      | Some bs => ∃ off, t ty = Some off ∧ attr_in (pre ++ flat l ++ post) off bs
      | None => t ty = None
      end.
Proof.
  intros Hok Hpa Hsm. exists (index maxtype (zlen pre) l tb_empty). split.
  { unfold nla_parse. apply nla_loop_policy; try done. pose proof (flat_length l). lia. }
  intros ty Hty. clear Hpa Hsm. change (match find_attr ty l with
    | Some bs => ∃ off, index maxtype (zlen pre) l tb_empty ty = Some off ∧ attr_in (pre ++ flat l ++ post) off bs
    | None => index maxtype (zlen pre) l tb_empty ty = tb_empty ty end).
  generalize tb_empty as t. revert pre. induction l as [|a l IH]; intros pre t; [done|].
  apply Forall_cons_iff in Hok as [Ha Hok]. specialize (IH Hok (pre ++ enc a)). cbn [find_attr index].
  change (flat (a :: l)) with (enc a ++ flat l). rewrite <- (app_assoc (enc a)).
  replace (zlen pre + nla_total_size (zlen a.2)) with (zlen (pre ++ enc a)) by (by rewrite zlen_app, zlen_enc).
  specialize (IH (if a.1 <=? maxtype then tb_set t a.1 (zlen pre) else t)). rewrite <- app_assoc in IH.
  destruct (find_attr ty l) as [bs|]; [done|]. rewrite IH. destruct (Z.eqb_spec ty a.1) as [->|Hne].
  - rewrite (proj2 (Z.leb_le _ _) Hty). exists (zlen pre). unfold tb_set. rewrite Z.eqb_refl.
    split; [done|]. by apply enc_in.
  - destruct (a.1 <=? maxtype); [|done]. unfold tb_set. by rewrite (proj2 (Z.eqb_neq _ _) Hne).
Qed.

Lemma parse_nested_ok buf off maxtype policy l :
  attr_in buf off (flat l) → Forall attr_ok l → Forall (passes maxtype policy) l → zlen (flat l) < 2 ^ 31 →
  ∃ t, nla_parse_nested buf maxtype off (Some policy) = Some (0, t) ∧
    ∀ ty, ty ≤ maxtype →
      match find_attr ty l with
      | Some bs => ∃ off', t ty = Some off' ∧ attr_in buf off' bs
      | None => t ty = None
      end.
Proof.
  intros Ha Hok Hpa Hsm. pose proof Ha as [ [_ [Hl _] ] _].
  destruct (attr_split _ _ _ Ha) as (pre & post & Eb & Ep).
  destruct (parse_stream maxtype policy l pre post Hok Hpa Hsm) as (t & Et & Hfind).
  exists t. rewrite <- Eb in *. split; [|done]. unfold nla_parse_nested. rewrite Hl, some_bind. by rewrite <- Ep.
Qed.

(** [nla_find]: the first attribute of a type. *)
Fixpoint first_attr (ty : Z) (l : list (Z * list Z)) : option (list Z) :=
  match l with
  | [] => None
  | a :: l => if a.1 =? ty then Some a.2 else first_attr ty l
  end.

Lemma nla_find_ok ty l pre post :
  Forall attr_ok l → zlen (flat l) < 2 ^ 31 →
  ∃ r, nla_find (pre ++ flat l ++ post) (zlen pre) (zlen (flat l)) ty = Some r ∧
    match first_attr ty l with
    | Some bs => ∃ off, r = Some off ∧ attr_in (pre ++ flat l ++ post) off bs
    | None => r = None
    end.
Proof.
  intros Hok Hsm. unfold nla_find. assert (length l < S (Z.to_nat (zlen (flat l))))%nat as Hf.
  { pose proof (flat_length l). lia. }
  revert Hf. generalize (S (Z.to_nat (zlen (flat l)))) as fuel. revert pre.
  induction l as [|a l IH]; intros pre [|fuel] Hf; try (simpl in Hf; lia).
  { exists None. done. }
  apply Forall_cons_iff in Hok as [Ha Hok].
  destruct (stream_step pre a l post Ha Hsm) as (E1 & E2 & E3 & E4 & E5).
  cbn [nla_find_loop first_attr]. rewrite E1, !some_bind. cbn [negb]. rewrite E2, !some_bind.
  destruct (a.1 =? ty).
  { exists (Some (zlen pre)). split; [done|]. by exists (zlen pre). }
  rewrite E4, some_bind. cbn [fst snd]. rewrite E5. apply (IH Hok); [|simpl in Hf; lia].
  change (flat (a :: l)) with (enc a ++ flat l) in Hsm. rewrite zlen_app in Hsm.
  pose proof (zlen_nonneg (enc a)). lia.
Qed.

(** ** Nesting *)

Lemma enc_aligned ty bs : zlen bs mod 4 = 0 → enc (ty, bs) = le_split 2 (4 + zlen bs) ++ le_split 2 ty ++ bs.
Proof.
  intros Hal. unfold enc. cbn [fst snd]. assert (nla_padlen (zlen bs) = 0) as ->.
  { unfold nla_padlen, nla_total_size, nla_attr_size. change NLA_HDRLEN with 4. pose proof (zlen_nonneg bs).
    change (NLA_ALIGN (4 + zlen bs)) with (NLMSG_ALIGN (4 + zlen bs)).
    rewrite ALIGN_aligned; [lia|lia|]. by rewrite Z.add_mod, Hal by lia. }
  change (Z.to_nat 0) with 0%nat. by rewrite app_nil_r.
Qed.

(** Closing a nested attribute puts what is after its header inside it. *)
Lemma nest_end_built msg body ty inner room :
  built msg (body ++ enc (ty, []) ++ inner) room → zlen body mod 4 = 0 → zlen inner mod 4 = 0 →
  ∃ msg', nla_nest_end msg (4 + zlen body) = Some (0, msg') ∧ built msg' (body ++ enc (ty, inner)) room ∧ nm_size msg' = nm_size msg.
Proof.
  intros Hr Hb4 Hi4. pose proof (built_len _ _ _ Hr) as Hlen. destruct Hr as [Hb Hs Hsm].
  rewrite (enc_aligned ty []) in * by done. rewrite (enc_aligned ty inner) by done. change (4 + zlen []) with 4 in *.
  rewrite app_nil_r in *. pose proof (zlen_nonneg body). pose proof (zlen_nonneg inner). pose proof (zlen_nonneg room).
  assert (4 + zlen (body ++ (le_split 2 4 ++ le_split 2 ty) ++ inner) = 8 + zlen body + zlen inner) as Ez
    by (rewrite !zlen_app, !zlen_le_split; lia).
  rewrite Ez in *. assert ((8 + zlen body + zlen inner) mod 4 = 0) as Hal by (by rewrite (Z.add_mod (8 + zlen body)), (Z.add_mod 8), Hb4, Hi4 by lia).
  unfold nla_nest_end, nlmsg_tail. rewrite Hlen, some_bind, ALIGN_aligned, some_bind by lia.
  assert (nm_nlh msg = (le_split 4 (8 + zlen body + zlen inner) ++ body) ++ le_split 2 4 ++ (le_split 2 ty ++ inner ++ room)) as Hb'.
  { rewrite Hb. generalize (le_split 4 (8 + zlen body + zlen inner)), (le_split 2 4), (le_split 2 ty). intros. by rewrite <- !app_assoc. }
  rewrite Hb', st_mid by (rewrite ?zlen_app, ?zlen_le_split, ?length_le_split; done). rewrite some_bind, <- !app_assoc.
  unfold nlmsg_len at 1. rewrite ld_head by (by rewrite length_le_split). rewrite le_combine_split4, u32_small, some_bind.
  2:{ rewrite Hs, Hb, !zlen_app, !zlen_le_split in Hsm. lia. }
  rewrite ALIGN_aligned, Z.sub_diag by lia. change (0 <? 0) with false. cbv iota. eexists. split; [done|]. split; [|done].
  split; cbn [nm_nlh nm_size]; [|rewrite Hs, Hb, !zlen_app, !zlen_le_split; lia|done].
  rewrite !zlen_app, !zlen_le_split, <- !app_assoc.
  replace (8 + zlen body + zlen inner - (4 + zlen body)) with (4 + zlen inner) by lia.
  replace (4 + (zlen body + (Z.of_nat 2 + (Z.of_nat 2 + zlen inner)))) with (8 + zlen body + zlen inner) by lia. done.
Qed.

Lemma nest_end_ok msg hdr l ty inner room :
  represents msg hdr (l ++ (ty, []) :: inner) room →
  ∃ msg', nla_nest_end msg (20 + zlen (flat l)) = Some (0, msg') ∧ represents msg' hdr (l ++ [(ty, flat inner)]) room.
Proof.
  intros [Hr Hh]%represents_built. rewrite flat_app, app_assoc in Hr. change (flat ((ty, []) :: inner)) with (enc (ty, []) ++ flat inner) in Hr.
  destruct (nest_end_built _ _ _ _ _ Hr) as (msg' & E & Hr' & _); [|apply flat_aligned|].
  { rewrite zlen_app, Z.add_mod, flat_aligned by lia. unfold zlen. by rewrite Hh. }
  exists msg'. replace (4 + zlen (hdr ++ flat l)) with (20 + zlen (flat l)) in E by (rewrite zlen_app; unfold zlen; lia).
  split; [done|]. apply represents_built. split; [|done]. rewrite flat_app, app_assoc.
  change (flat [(ty, flat inner)]) with (enc (ty, flat inner) ++ []). by rewrite app_nil_r.
Qed.

(** Opening one. *)
Lemma nest_start_built msg body room ty :
  built msg body room → zlen body mod 4 = 0 → 2 * (4 + zlen body) + 4 ≤ nm_size msg →
  ∃ msg' room', nla_nest_start msg ty = Some (Some (4 + zlen body), msg') ∧ built msg' (body ++ enc (ty, [])) room' ∧
    nm_size msg' = nm_size msg.
Proof.
  intros Hb Hal Hfit. destruct (put_built msg body room ty [] Hb Hal ltac:(done) Hfit) as (msg' & room' & Ep & Hb' & Hs).
  exists msg', room'. split; [|done]. pose proof (zlen_nonneg body).
  unfold nla_nest_start, nlmsg_tail. rewrite (built_len _ _ _ Hb), some_bind, ALIGN_aligned, some_bind, Ep; [done|lia|].
  by rewrite Z.add_mod, Hal by lia.
Qed.

(** Attributes that fit together fit one by one. *)
Lemma inner_small l : 4 + zlen (flat l) < 2 ^ 16 → Forall (λ a, 4 + zlen a.2 < 2 ^ 16) l.
Proof.
  unfold flat. induction l as [|a l IH]; [by constructor|]. cbn [map concat]. rewrite zlen_app, zlen_enc. intros Hl.
  pose proof (zlen_nonneg (concat (map enc l))). pose proof (total_size_pos (zlen a.2) (zlen_nonneg _)) as [Ht _].
  pose proof (padlen_bounds (zlen a.2) (zlen_nonneg _)). unfold nla_padlen, nla_attr_size in *. change NLA_HDRLEN with 4 in *.
  constructor; [lia|]. apply IH. lia.
Qed.

(** A whole nested attribute: what is built is what is parsed. *)
Lemma nest_roundtrip msg hdr l ty inner room :
  represents msg hdr l room → 2 * (20 + zlen (flat (l ++ (ty, []) :: inner))) ≤ nm_size msg →
  4 + zlen (flat inner) < 2 ^ 16 →
  ∃ start m1 m2 m3 room', nla_nest_start msg ty = Some (Some start, m1) ∧ nla_puts m1 inner = Some m2 ∧
    nla_nest_end m2 start = Some (0, m3) ∧ represents m3 hdr (l ++ [(ty, flat inner)]) room'.
Proof.
  intros Hr Hfit Hsm. pose proof (represents_len _ _ _ _ Hr) as Hlen.
  pose proof (zlen_nonneg (flat l)). pose proof (flat_aligned l) as Hal.
  destruct (nla_put_ok msg hdr l room ty [] Hr ltac:(done)) as (m1 & room1 & Hput & Hr1 & Hs1).
  { rewrite flat_app in Hfit. change (flat ((ty, []) :: inner)) with (enc (ty, []) ++ flat inner) in Hfit.
    rewrite !zlen_app, zlen_enc in Hfit. cbn [snd] in Hfit. pose proof (zlen_nonneg (flat inner)).
    pose proof (total_size_pos (zlen (@nil Z)) (zlen_nonneg _)). lia. }
  destruct (nla_puts_ok inner m1 hdr (l ++ [(ty, [])]) room1 Hr1 (inner_small inner Hsm)) as (m2 & room2 & Hputs & Hr2).
  { rewrite Hs1, <- app_assoc. exact Hfit. }
  rewrite <- app_assoc in Hr2. cbn [app] in Hr2.
  destruct (nest_end_ok _ _ _ _ _ _ Hr2) as (m3 & Hend & Hr3).
  exists (20 + zlen (flat l)), m1, m2, m3, room2. split; [|done].
  unfold nla_nest_start, nlmsg_tail. rewrite Hlen, some_bind, ALIGN_aligned, some_bind; [|lia|].
  - by rewrite Hput.
  - rewrite Z.add_mod, Hal by lia. done.
Qed.

(** ** Looking at a message *)

Definition nlmsg_attrdata (nlh hdrlen : Z) : Z := nlmsg_data nlh + NLMSG_ALIGN hdrlen.

Definition nlmsg_attrlen (buf : list Z) (nlh hdrlen : Z) : option Z :=
  l ← nlmsg_len buf nlh; Some (l - NLMSG_HDRLEN - NLMSG_ALIGN hdrlen).

Definition nlmsg_valid_hdr (buf : list Z) (nlh hdrlen : Z) : option bool :=
  l ← nlmsg_len buf nlh; Some (negb (l <? nlmsg_msg_size hdrlen)).

Definition nlmsg_next (buf : list Z) (nlh remaining : Z) : option (Z * Z) :=
  l ← nlmsg_len buf nlh;
  let totlen := NLMSG_ALIGN l in Some (nlh + totlen, remaining - totlen).

(** The array of the caller stays as it is ([None]) when the message is too short. *)
Definition nlmsg_parse (buf : list Z) (nlh hdrlen maxtype : Z) (policy : option (Z → nla_policy))
    : option (Z * option tb) :=
  ok ← nlmsg_valid_hdr buf nlh hdrlen;
  if negb ok then Some (- NLE_MSG_TOOSHORT, None)
  else
    len ← nlmsg_attrlen buf nlh hdrlen;
    r ← nla_parse buf maxtype (nlmsg_attrdata nlh hdrlen) len policy;
    Some (r.1, Some r.2).

Definition nlmsg_find_attr (buf : list Z) (nlh hdrlen attrtype : Z) : option (option Z) :=
  len ← nlmsg_attrlen buf nlh hdrlen;
  nla_find buf (nlmsg_attrdata nlh hdrlen) len attrtype.

Definition nlmsg_validate (buf : list Z) (nlh hdrlen maxtype : Z) (policy : Z → nla_policy)
    : option Z :=
  ok ← nlmsg_valid_hdr buf nlh hdrlen;
  if negb ok then Some (- NLE_MSG_TOOSHORT)
  else
    len ← nlmsg_attrlen buf nlh hdrlen;
    nla_validate buf (nlmsg_attrdata nlh hdrlen) len maxtype policy.

(** ** Making a message *)

(** [nlmsg_inherit(hdr)], with a default buffer of [size] bytes: the header's type, flags,
    sequence number and port. *)
Definition nlmsg_inherit (size type flags seq pid : Z) : option nl_msg :=
  let nm := nlmsg_alloc_len size in
  buf ← st (nm_nlh nm) 4 (le_split 2 type);
  buf ← st buf 6 (le_split 2 flags);
  buf ← st buf 8 (le_split 4 seq);
  buf ← st buf 12 (le_split 4 pid);
  Some (mkMsg (nm_size nm) buf).

Definition nlmsg_alloc_simple (size type flags : Z) : option nl_msg :=
  nlmsg_inherit size type flags 0 0.

Definition nlmsg_append (n : nl_msg) (data : list Z) (pad : Z) : option (Z * nl_msg) :=
  r ← nlmsg_reserve n (zlen data) pad;
  match r.1 with
  | None => Some (- NLE_NOMEM, r.2)
  | Some off => buf ← st (nm_nlh r.2) off data; Some (0, mkMsg (nm_size r.2) buf)
  end.

(** [realloc] keeps the old bytes; the new ones are [junk], or it fails ([None]). *)
Definition nlmsg_expand (n : nl_msg) (newlen : Z) (junk : option (list Z)) : Z * nl_msg :=
  if newlen <=? nm_size n then (- NLE_INVAL, n)
  else match junk with
       | None => (- NLE_NOMEM, n)
       | Some j => (0, mkMsg newlen (nm_nlh n ++ take (Z.to_nat (newlen - nm_size n)) j))
       end.

(** The reference count of a message: [None] for [BUG()], and whether it was freed. *)
Definition nlmsg_get_ref (refcnt : Z) : Z := refcnt + 1.
Definition nlmsg_free_ref (refcnt : Z) : option (Z * bool) :=
  let refcnt := refcnt - 1 in
  if refcnt <? 0 then None else Some (refcnt, refcnt <=? 0).

(** ** The messages of [nl_send_simple] *)

(** Header and data of a simple message. *)
Lemma simple_append size type flags data :
  16 + NLMSG_ALIGN (zlen data) ≤ size < 2 ^ 31 →
  ∃ n n' tail, nlmsg_alloc_simple size type flags = Some n ∧ nlmsg_append n data 4 = Some (0, n') ∧
    nm_nlh n' = le_split 4 (16 + NLMSG_ALIGN (zlen data)) ++ le_split 2 type ++ le_split 2 flags ++
      replicate 8 0 ++ data ++ replicate (Z.to_nat (NLMSG_ALIGN (zlen data) - zlen data)) 0 ++ tail.
Proof.
  intros Hs. pose proof (zlen_nonneg data) as Hd. pose proof (ALIGN_bounds (zlen data) Hd) as [Ha Hm].
  change (NLA_ALIGN (zlen data)) with (NLMSG_ALIGN (zlen data)) in *.
  set (k := NLMSG_ALIGN (zlen data)) in *.
  set (z2 := replicate 2 0). set (z4 := replicate 4 0).
  set (zd := replicate (length data) 0). set (zp := replicate (Z.to_nat (k - zlen data)) 0).
  set (tl := replicate (Z.to_nat (size - 16 - k)) 0).
  assert (replicate (Z.to_nat size) 0 = z4 ++ z2 ++ z2 ++ z4 ++ z4 ++ zd ++ zp ++ tl) as Er.
  { subst z2 z4 zd zp tl. rewrite <- !replicate_add. f_equal. unfold zlen in *. lia. }
  unfold nlmsg_alloc_simple, nlmsg_inherit, nlmsg_alloc_len, sizeof_nlmsghdr.
  decide_test (size <? 16) false. cbn [nm_nlh nm_size]. rewrite Er.
  change (nlmsg_total_size 0) with 16. rewrite zcopy_head by done.
  assert (∀ v, length (le_split 4 v) = 4%nat) as L4 by (intros; apply length_le_split).
  assert (∀ v, length (le_split 2 v) = 2%nat) as L2 by (intros; apply length_le_split).
  rewrite (st_mid (le_split 4 16) z2) by (rewrite ?L2; done). rewrite some_bind.
  rewrite (app_assoc (le_split 4 16)), (st_mid _ z2) by (rewrite ?zlen_app, ?zlen_le_split, ?L2; done).
  rewrite some_bind, (app_assoc (_ ++ _) (le_split 2 flags)), (st_mid _ z4)
    by (rewrite ?zlen_app, ?zlen_le_split, ?L4; done).
  rewrite some_bind, (app_assoc (_ ++ _) (le_split 4 0)), (st_mid _ z4)
    by (rewrite ?zlen_app, ?zlen_le_split, ?L4; done).
  rewrite some_bind. do 2 eexists. exists tl. split; [done|].
  unfold nlmsg_append, nlmsg_reserve. cbn [nm_nlh nm_size]. rewrite <- !app_assoc.
  unfold nlmsg_len. rewrite ld_head by done. rewrite some_bind. change (le_combine (le_split 4 16)) with 16.
  change (4 =? 0) with false. cbv iota.
  replace (Z.land (zlen data + (4 - 1)) (Z.lnot (4 - 1))) with k
    by (subst k; unfold NLMSG_ALIGN; f_equal; lia).
  decide_test (size <? k + 16) false. rewrite st_head by (by rewrite !L4). rewrite some_bind.
  set (pre := le_split 4 (16 + k) ++ le_split 2 type ++ le_split 2 flags ++ le_split 4 0 ++ le_split 4 0).
  replace (le_split 4 (16 + k) ++ le_split 2 type ++ le_split 2 flags ++ le_split 4 0 ++ le_split 4 0 ++ zd ++ zp ++ tl)
    with (pre ++ zd ++ zp ++ tl) by (subst pre; by rewrite <- !app_assoc).
  assert (zlen pre = 16) as Hpre by (subst pre; rewrite !zlen_app, !zlen_le_split; done). fold zp.
  assert ((if zlen data <? k then st (pre ++ zd ++ zp ++ tl) (16 + zlen data) zp
           else Some (pre ++ zd ++ zp ++ tl)) = Some (pre ++ zd ++ zp ++ tl)) as ->.
  { destruct (zlen data <? k); [|done]. rewrite (app_assoc pre), st_mid; [done| |done].
    rewrite zlen_app, Hpre. subst zd. unfold zlen. rewrite length_replicate. lia. }
  rewrite !some_bind. cbn [fst snd nm_nlh nm_size].
  rewrite (st_mid pre zd) by (rewrite ?Hpre; subst zd; rewrite ?length_replicate; done).
  rewrite some_bind. split; [done|]. cbn [nm_nlh]. subst pre. by rewrite <- !app_assoc.
Qed.

(** Growing a message does not change what is in it. *)
Lemma expand_ok n newlen j :
  nm_size n = zlen (nm_nlh n) → newlen - nm_size n ≤ zlen j → nm_size n < newlen →
  ∃ n', nlmsg_expand n newlen (Some j) = (0, n') ∧ nm_size n' = zlen (nm_nlh n') ∧
    take (length (nm_nlh n)) (nm_nlh n') = nm_nlh n.
Proof.
  intros Hs Hj Hlt. unfold nlmsg_expand. decide_test (newlen <=? nm_size n) false.
  eexists. split; [done|]. cbn [nm_nlh nm_size]. split; [|apply take_app_length].
  rewrite zlen_app. unfold zlen in *. rewrite length_take. lia.
Qed.

(** ** Messages of other families *)

Lemma alloc_simple_built size type flags :
  16 ≤ size < 2 ^ 31 →
  ∃ msg, nlmsg_alloc_simple size type flags = Some msg ∧
    built msg (le_split 2 type ++ le_split 2 flags ++ replicate 8 0) (replicate (Z.to_nat (size - 16)) 0) ∧ nm_size msg = size.
Proof.
  intros Hs. set (tl := replicate (Z.to_nat (size - 16)) 0). set (z2 := replicate 2 0). set (z4 := replicate 4 0).
  assert (replicate (Z.to_nat size) 0 = z4 ++ z2 ++ z2 ++ z4 ++ z4 ++ tl) as Er.
  { subst z2 z4 tl. rewrite <- !replicate_add. f_equal. lia. }
  assert (∀ v, length (le_split 4 v) = 4%nat) as L4 by (intros; apply length_le_split).
  assert (∀ v, length (le_split 2 v) = 2%nat) as L2 by (intros; apply length_le_split).
  unfold nlmsg_alloc_simple, nlmsg_inherit, nlmsg_alloc_len, sizeof_nlmsghdr.
  decide_test (size <? 16) false. cbn [nm_nlh nm_size]. rewrite Er.
  change (nlmsg_total_size 0) with 16. rewrite zcopy_head by done.
  rewrite (st_mid (le_split 4 16) z2) by (rewrite ?L2; done). rewrite some_bind.
  rewrite (app_assoc (le_split 4 16)), (st_mid _ z2) by (rewrite ?zlen_app, ?zlen_le_split, ?L2; done).
  rewrite some_bind, (app_assoc (_ ++ _) (le_split 2 flags)), (st_mid _ z4)
    by (rewrite ?zlen_app, ?zlen_le_split, ?L4; done).
  rewrite some_bind, (app_assoc (_ ++ _) (le_split 4 0)), (st_mid _ z4)
    by (rewrite ?zlen_app, ?zlen_le_split, ?L4; done).
  rewrite some_bind. eexists. split; [done|]. split; [|done]. split; cbn [nm_nlh nm_size].
  - rewrite <- !app_assoc. rewrite !zlen_app, !zlen_le_split. done.
  - rewrite !zlen_app, !zlen_le_split. subst tl. unfold zlen. rewrite length_replicate. lia.
  - lia.
Qed.

Lemma append_built msg body room data pad :
  built msg body room → zlen data mod 4 = 0 → pad = 0 ∨ pad = 4 → 4 + zlen body + zlen data ≤ nm_size msg →
  ∃ msg' room', nlmsg_append msg data pad = Some (0, msg') ∧ built msg' (body ++ data) room' ∧ nm_size msg' = nm_size msg.
Proof.
  intros Hb Hal Hpad Hfit. pose proof (built_len _ _ _ Hb) as Hlen. destruct Hb as [Hb Hs Hsm].
  pose proof (zlen_nonneg data). pose proof (zlen_nonneg body).
  unfold nlmsg_append, nlmsg_reserve. rewrite Hlen, some_bind.
  assert ((if pad =? 0 then zlen data else Z.land (zlen data + (pad - 1)) (Z.lnot (pad - 1))) = zlen data) as ->.
  { destruct Hpad as [->| ->]; [done|]. change (4 =? 0) with false. cbv iota.
    replace (zlen data + (4 - 1)) with (zlen data + 4 - 1) by lia. by apply ALIGN_aligned. }
  decide_test (nm_size msg <? zlen data + (4 + zlen body)) false.
  rewrite Hs, Hb, !zlen_app, zlen_le_split in Hfit.
  destruct (split_at room (length data)) as (r1 & post & -> & H1); [unfold zlen in *; lia|].
  rewrite Hb, st_head by (by rewrite !length_le_split). rewrite some_bind.
  rewrite Z.ltb_irrefl, !some_bind. cbn [fst snd nm_nlh nm_size].
  rewrite (app_assoc _ body), (st_mid _ r1) by (rewrite ?zlen_app, ?zlen_le_split; done). rewrite some_bind.
  do 2 eexists. split; [done|]. split; [|done]. split; cbn [nm_nlh nm_size]; [|rewrite Hs, Hb, !zlen_app, !zlen_le_split; unfold zlen in *; lia|done].
  by rewrite zlen_app, Z.add_assoc, <- !app_assoc.
Qed.

(** [nlmsg_parse] of a message with a header of [hdrlen] bytes before the attributes. *)
Lemma nlmsg_parse_ok h fh l room hdrlen maxtype policy :
  length h = 12%nat → zlen fh = hdrlen → hdrlen mod 4 = 0 → Forall attr_ok l → Forall (passes maxtype policy) l →
  16 + hdrlen + zlen (flat l) < 2 ^ 31 →
  let buf := le_split 4 (4 + zlen (h ++ fh ++ flat l)) ++ (h ++ fh ++ flat l) ++ room in
  ∃ t, nlmsg_parse buf 0 hdrlen maxtype (Some policy) = Some (0, Some t) ∧ indexes buf l maxtype t.
Proof.
  intros Hh Hf Hal Hok Hpa Hsm buf. pose proof (zlen_nonneg fh). pose proof (zlen_nonneg (flat l)).
  assert (4 + zlen (h ++ fh ++ flat l) = 16 + hdrlen + zlen (flat l)) as El by (rewrite !zlen_app; unfold zlen in *; lia).
  assert (buf = (le_split 4 (16 + hdrlen + zlen (flat l)) ++ h ++ fh) ++ flat l ++ room) as Eb
    by (subst buf; rewrite El; by rewrite <- !app_assoc).
  assert (zlen (le_split 4 (16 + hdrlen + zlen (flat l)) ++ h ++ fh) = 16 + hdrlen) as Ep
    by (rewrite !zlen_app, zlen_le_split; unfold zlen in *; lia).
  destruct (parse_stream maxtype policy l (le_split 4 (16 + hdrlen + zlen (flat l)) ++ h ++ fh) room Hok Hpa ltac:(lia)) as (t & Et & Hix).
  rewrite <- Eb in Et, Hix. exists t. split; [|done].
  assert (nlmsg_len buf 0 = Some (16 + hdrlen + zlen (flat l))) as Hlen.
  { unfold nlmsg_len. rewrite Eb, <- !app_assoc, ld_head by (by rewrite length_le_split).
    rewrite le_combine_split4, u32_small by lia. done. }
  unfold nlmsg_parse, nlmsg_valid_hdr, nlmsg_attrlen, nlmsg_attrdata, nlmsg_msg_size, nlmsg_size, nlmsg_data.
  rewrite Hlen, !some_bind. change NLMSG_HDRLEN with 16. decide_test (16 + hdrlen + zlen (flat l) <? 16 + hdrlen) false.
  cbn [negb]. rewrite (ALIGN_aligned hdrlen) by lia.
  replace (16 + hdrlen + zlen (flat l) - 16 - hdrlen) with (zlen (flat l)) by lia.
  change (0 + 16 + hdrlen) with (16 + hdrlen). rewrite <- Ep, Et. done.
Qed.
