(* ===== verification/UserLib.v ===== *)
(** * The register library: [nf10_reg_lib.c]

    [nf10_reg_rd] and [nf10_reg_wr] open a generic netlink socket, send a
    request built with libnl, and wait for the reply.  The results of libnl's calls
    on the socket are arguments: every call is an event of the trace and
    every answer a function of the trace.  [Socket], [GenlCtrl] and [NlIo] model
    these calls themselves. *)

From S2P Require Import Prelude Mem Occp Kernel Packet Stream Ghost Genl Netlink Recv.

Inductive uevent :=
  | USockAlloc (ok : bool) | UConnect (err : Z) | UResolve (family : Z) | USockFree
  | UMsgAlloc (ok : bool) | UMsgFree | USend (bytes : list Z) (err : Z)
  | UPrint (text : list Z).

(** The results of the calls of the socket layer of libnl, failures included, and what the
    kernel sends. *)
Class Libnl := {
  l_socket_alloc : list uevent → bool;
  l_genl_connect : list uevent → Z;
  l_genl_ctrl_resolve : list uevent → Z;
  l_nlmsg_alloc : list uevent → bool;
  l_pagesize : Z;
  (** the socket's port, its next sequence number, the number it expects *)
  l_pid : Z;
  l_seq_next : list uevent → Z;
  l_seq_expect : list uevent → Z;
  l_send : list uevent → list Z → Z;
  l_recv : list uevent → list datagram;
  (** is there memory for the copy of a message that was received *)
  l_copied : list uevent → list Z → bool;
}.

(** A program returns, crashes, or waits for ever. *)
Inductive uout (A : Type) := UOk (a : A) (tr : list uevent) | UCrash | UBlocked.
Arguments UOk {A} a tr.
Arguments UCrash {A}.
Arguments UBlocked {A}.

Definition U (A : Type) := list uevent → uout A.

Definition uret {A} (a : A) : U A := λ tr, UOk a tr.
Definition ubind {A B} (m : U A) (k : A → U B) : U B := λ tr,
  match m tr with UOk a tr => k a tr | UCrash => UCrash | UBlocked => UBlocked end.
Definition uemit (e : uevent) : U unit := λ tr, UOk tt (e :: tr).
Definition ucall {A} (f : list uevent → A) (e : A → uevent) : U A := λ tr,
  UOk (f tr) (e (f tr) :: tr).
Definition ulift {A} (o : option A) : U A := λ tr,
  match o with Some a => UOk a tr | None => UCrash end.

Declare Scope user_scope.
Delimit Scope user_scope with user.
Notation "x <- m ;; k" := (ubind m (λ x, k))
  (at level 100, m at next level, right associativity) : user_scope.
Notation "m ;; k" := (ubind m (λ _, k))
  (at level 100, k at level 200, right associativity) : user_scope.

Section UserLib.
Context `{Libnl}.
Local Open Scope user_scope.

(** ** Connecting *)

Definition driver_disconnect : U unit := uemit USockFree.

(** The error, or the number of the family. *)
Definition driver_connect : U (Z * Z) :=
  ok <- ucall l_socket_alloc USockAlloc ;;
  if negb ok then uret (- Nl.NLE_NOMEM, 0)
  else
    err <- ucall l_genl_connect UConnect ;;
    if negb (err =? 0) then uemit USockFree ;; uret (err, 0)
    else
      family <- ucall l_genl_ctrl_resolve UResolve ;;
      if family <? 0 then uemit USockFree ;; uret (family, family)
      else uret (0, family).

(** [nlmsg_alloc]: a message of one page. *)
Definition nlmsg_alloc : U (option Nl.nl_msg) :=
  ok <- ucall l_nlmsg_alloc UMsgAlloc ;;
  uret (if ok then Some (Nl.nlmsg_alloc_len l_pagesize) else None).

Definition nlmsg_free : U unit := uemit UMsgFree.

(** [nl_complete_msg]: fill in the port, the sequence number and the flags. *)
Definition nl_complete_msg (pid seq : Z) (buf : list Z) : option (list Z) :=
  p ← Nl.nlmsg_pid buf 0;
  buf ← (if p =? 0 then Nl.st buf 12 (le_split 4 pid) else Some buf);
  s ← Nl.nlmsg_seq buf 0;
  buf ← (if s =? 0 then Nl.st buf 8 (le_split 4 seq) else Some buf);
  f ← Nl.nlmsg_flags buf 0;
  Nl.st buf 6 (le_split 2 (Z.lor (Z.lor f Nl.NLM_F_REQUEST) Nl.NLM_F_ACK)).

(** [nl_send_auto]: [nlmsg_len] bytes of the completed message. *)
Definition nl_send_auto (msg : Nl.nl_msg) : U Z := λ tr,
  match nl_complete_msg l_pid (l_seq_next tr) (Nl.nm_nlh msg) with
  | None => UCrash
  | Some buf =>
      match Nl.nlmsg_len buf 0 with
      | None => UCrash
      | Some l =>
          let bytes := take (Z.to_nat l) buf in
          UOk (l_send tr bytes) (USend bytes (l_send tr bytes) :: tr)
      end
  end.

(** [nl_recvmsgs_default] with the socket's callbacks and the caller's state. *)
Definition nl_recvmsgs_default {S} (cb : nl_cb S) (u : S) : U (Z * S) := λ tr,
  match recvmsgs (λ _, l_copied tr) cb true (l_recv tr) (mkRst u (l_seq_expect tr) false) with
  | None => UCrash
  | Some (Blocked _) => UBlocked
  | Some (Returned err r _) => UOk (err, r_user r) tr
  end.

(** [genlmsg_put(msg, NL_AUTO_PID, NL_AUTO_SEQ, family, 0, 0, cmd, version)]; its
    result is not checked. *)
Definition request (msg : Nl.nl_msg) (family cmd : Z) : U Nl.nl_msg :=
  r <- ulift (Nl.genlmsg_put msg 0 0 family 0 0 cmd NF10_GENL_FAMILY_VERSION) ;;
  uret r.2.

Definition put_u32 (msg : Nl.nl_msg) (ty v : Z) : U Nl.nl_msg :=
  r <- ulift (Nl.nla_put_u32 msg ty v) ;; uret r.2.

(** ** Callbacks *)

(** [genlmsg_parse(nlh, 0, attrs, NF10_GENL_A_MAX, 0)]; the array is not
    initialised when the message is too short. *)
Definition parse_attrs (msg : list Z) : option Nl.tb :=
  r ← Nl.genlmsg_parse msg 0 0 NF10_GENL_A_MAX None; r.2.

(** [*(uint32_t* )nla_data(na)] *)
Definition attr_word (msg : list Z) (na : Z) : option Z := Nl.ld 4 msg (Nl.nla_data na).

(** The caller's state is the word that [val_ptr] points to. *)
Definition nf10_reg_rd_recv_msg_cb : callback Z := λ msg val,
  attrs ← parse_attrs msg;
  match attrs NF10_GENL_A_ERRNO with
  | None => Some (- Nl.NLE_NOATTR, val)
  | Some na_errno =>
      w ← attr_word msg na_errno;
      let err := s32 w in
      if negb (err =? 0) then Some (err, val)
      else
        match attrs NF10_GENL_A_REGVAL32 with
        | None => Some (- Nl.NLE_NOATTR, val)
        | Some na_regval => v ← attr_word msg na_regval; Some (0, v)
        end
  end.

Definition nf10_reg_wr_recv_ack_cb : callback unit := λ msg u,
  attrs ← parse_attrs msg;
  match attrs NF10_GENL_A_ERRNO with
  | None => Some (- Nl.NLE_NOATTR, u)
  | Some na_errno => w ← attr_word msg na_errno; Some (s32 w, u)
  end.

(** ** The two functions *)

(** The error and the word at [val_ptr] afterwards. *)
Definition nf10_reg_rd (addr val : Z) : U (Z * Z) :=
  c <- driver_connect ;;
  if negb (c.1 =? 0) then uret (c.1, val)
  else
    m <- nlmsg_alloc ;;
    match m with
    | None => driver_disconnect ;; uret (- Nl.NLE_NOMEM, val)
    | Some msg =>
        msg <- request msg c.2 NF10_GENL_C_REG_RD ;;
        msg <- put_u32 msg NF10_GENL_A_ADDR32 addr ;;
        err <- nl_send_auto msg ;;
        if err <? 0 then nlmsg_free ;; driver_disconnect ;; uret (err, val)
        else
          nlmsg_free ;;
          r <- nl_recvmsgs_default
                 (nl_socket_modify_cb nl_cb_default NL_CB_VALID nf10_reg_rd_recv_msg_cb) val ;;
          driver_disconnect ;;
          uret r
    end.

Definition nf10_reg_wr (addr val : Z) : U Z :=
  c <- driver_connect ;;
  if negb (c.1 =? 0) then uret c.1
  else
    m <- nlmsg_alloc ;;
    match m with
    | None => driver_disconnect ;; uret (- Nl.NLE_NOMEM)
    | Some msg =>
        msg <- request msg c.2 NF10_GENL_C_REG_WR ;;
        msg <- put_u32 msg NF10_GENL_A_ADDR32 addr ;;
        msg <- put_u32 msg NF10_GENL_A_REGVAL32 val ;;
        err <- nl_send_auto msg ;;
        if err <? 0 then nlmsg_free ;; driver_disconnect ;; uret err
        else
          nlmsg_free ;;
          r <- nl_recvmsgs_default
                 (nl_socket_modify_cb nl_cb_default NL_CB_ACK nf10_reg_wr_recv_ack_cb) tt ;;
          driver_disconnect ;;
          uret r.1
    end.

(** ** Early returns *)

(** Connecting always returns. *)
Lemma driver_connect_total tr : ∃ err family tr1, driver_connect tr = UOk (err, family) tr1.
Proof.
  unfold driver_connect, ubind, ucall, uemit, uret. cbn.
  destruct (l_socket_alloc tr); cbn; [|eauto].
  destruct (_ =? 0); cbn; [|eauto]. destruct (_ <? 0); cbn; eauto.
Qed.

Lemma lib_early_returns addr val tr :
  ∃ err family tr1, driver_connect tr = UOk (err, family) tr1 ∧
    (err ≠ 0 → nf10_reg_rd addr val tr = UOk (err, val) tr1 ∧ nf10_reg_wr addr val tr = UOk err tr1) ∧
    (err = 0 → l_nlmsg_alloc tr1 = false →
       ∃ tr2, nf10_reg_rd addr val tr = UOk (- Nl.NLE_NOMEM, val) tr2 ∧
              nf10_reg_wr addr val tr = UOk (- Nl.NLE_NOMEM) tr2).
Proof.
  destruct (driver_connect_total tr) as (err & family & tr1 & E). exists err, family, tr1.
  split; [done|]. unfold nf10_reg_rd, nf10_reg_wr, ubind. rewrite E. cbn [fst snd].
  destruct (Z.eqb_spec err 0) as [->|Hne]; cbn [negb]; (split; [done|]); [|done].
  intros _ Ha. unfold nlmsg_alloc, ubind, ucall. rewrite Ha. by eexists.
Qed.

(** ** Nothing is leaked *)

(** What an event acquires: sockets and messages. *)
Definition uev_net (e : uevent) : Z * Z :=
  match e with
  | USockAlloc true => (1, 0)
  | USockFree => (-1, 0)
  | UMsgAlloc true => (0, 1)
  | UMsgFree => (0, -1)
  | _ => (0, 0)
  end.

Fixpoint unet (tr : list uevent) : Z * Z :=
  match tr with
  | [] => (0, 0)
  | e :: tr => ((uev_net e).1 + (unet tr).1, (uev_net e).2 + (unet tr).2)
  end.

(** When [m] returns, it has acquired [d] more than it has released. *)
Definition unets {A} (m : U A) (d : A → Z * Z) : Prop :=
  ∀ tr, match m tr with
        | UOk a tr' => unet tr' = ((unet tr).1 + (d a).1, (unet tr).2 + (d a).2)
        | _ => True
        end.

Lemma unets_ret {A} (a : A) : unets (uret a) (λ _, (0, 0)).
Proof. intros tr. simpl. rewrite !Z.add_0_r. by destruct (unet tr). Qed.

Lemma unets_lift {A} (o : option A) : unets (ulift o) (λ _, (0, 0)).
Proof. intros tr. destruct o; simpl; [|done]. rewrite !Z.add_0_r. by destruct (unet tr). Qed.

Lemma unets_emit e : unets (uemit e) (λ _, uev_net e).
Proof. intros tr. simpl. f_equal; lia. Qed.

Lemma unets_call {A} (f : list uevent → A) e : unets (ucall f e) (λ a, uev_net (e a)).
Proof. intros tr. simpl. f_equal; lia. Qed.

Lemma unets_bind {A B} (m : U A) (k : A → U B) d d' :
  unets m d → (∀ a, unets (k a) (λ b, ((d' b).1 - (d a).1, (d' b).2 - (d a).2))) →
  unets (ubind m k) d'.
Proof.
  intros Hm Hk tr. unfold ubind. specialize (Hm tr). destruct (m tr) as [a tr'| |]; [|done..].
  specialize (Hk a tr'). destruct (k a tr') as [b tr''| |]; [|done..].
  rewrite Hk, Hm. simpl. f_equal; lia.
Qed.

Lemma unets_eq {A} (m : U A) d d' : unets m d → (∀ a, d a = d' a) → unets m d'.
Proof. intros Hm Hd tr. specialize (Hm tr). destruct (m tr); [|done..]. by rewrite <- Hd. Qed.

Lemma unets_send msg : unets (nl_send_auto msg) (λ _, (0, 0)).
Proof.
  intros tr. unfold nl_send_auto. destruct (nl_complete_msg _ _ _) as [buf|]; [|done].
  destruct (Nl.nlmsg_len buf 0); [|done]. simpl. f_equal; lia.
Qed.

Lemma unets_recv {S} (cb : nl_cb S) u : unets (nl_recvmsgs_default cb u) (λ _, (0, 0)).
Proof.
  intros tr. unfold nl_recvmsgs_default. destruct (recvmsgs _ _ _ _ _) as [ [err r rest|r]|]; [|done..].
  simpl. rewrite !Z.add_0_r. by destruct (unet tr).
Qed.

Lemma unets_request msg family cmd : unets (request msg family cmd) (λ _, (0, 0)).
Proof. eapply unets_bind; [apply unets_lift|]. intros a. eapply unets_eq; [apply unets_ret|done]. Qed.

Lemma unets_put_u32 msg ty v : unets (put_u32 msg ty v) (λ _, (0, 0)).
Proof. eapply unets_bind; [apply unets_lift|]. intros a. eapply unets_eq; [apply unets_ret|done]. Qed.

Lemma unets_alloc : unets nlmsg_alloc (λ m, (0, match m with Some _ => 1 | None => 0 end)).
Proof.
  intros tr. unfold nlmsg_alloc, ubind, ucall, uret.
  destruct (l_nlmsg_alloc tr); simpl; f_equal; lia.
Qed.

(** A connected socket is open exactly when [driver_connect] returns 0. *)
Lemma unets_connect : unets driver_connect (λ c, (if c.1 =? 0 then 1 else 0, 0)).
Proof.
  intros tr. unfold driver_connect, ubind, ucall, uemit, uret.
  destruct (l_socket_alloc tr); simpl; [|f_equal; lia].
  set (e := l_genl_connect _). destruct (e =? 0) eqn:E; simpl.
  - set (f := l_genl_ctrl_resolve _). destruct (f <? 0) eqn:E2; simpl; [|f_equal; lia].
    apply Z.ltb_lt in E2. rewrite (proj2 (Z.eqb_neq _ 0)) by lia. f_equal; lia.
  - rewrite E. f_equal; lia.
Qed.

End UserLib.

(** Follow a program, adding up what its steps acquire. *)
Ltac unets_step :=
  lazymatch goal with
  | |- unets (ubind driver_connect _) _ => eapply unets_bind; [apply unets_connect|intros ?; cbv beta]
  | |- unets (ubind nlmsg_alloc _) _ => eapply unets_bind; [apply unets_alloc|intros ?; cbv beta]
  | |- unets (ubind (request _ _ _) _) _ => eapply unets_bind; [apply unets_request|intros ?]
  | |- unets (ubind (put_u32 _ _ _) _) _ => eapply unets_bind; [apply unets_put_u32|intros ?]
  | |- unets (ubind (nl_send_auto _) _) _ => eapply unets_bind; [apply unets_send|intros ?]
  | |- unets (ubind (nl_recvmsgs_default _ _) _) _ =>
      eapply unets_bind; [apply unets_recv|intros ?]
  | |- unets (ubind nlmsg_free _) _ => eapply unets_bind; [apply unets_emit|intros ?]
  | |- unets (ubind driver_disconnect _) _ => eapply unets_bind; [apply unets_emit|intros ?]
  | |- unets (uret _) _ => eapply unets_eq; [apply unets_ret|intros ?; simpl]
  | |- context [if negb (?c.1 =? 0) then _ else _] =>
      destruct (c.1 =? 0); cbn [negb]; cbv iota
  | |- context [if ?b then _ else _] => destruct b
  | |- unets (match ?m with Some _ => _ | None => _ end) _ => destruct m
  end.

Section Exchanges.
Context `{Libnl}.
Local Open Scope user_scope.

(** Both functions release their socket and their message on every path on
    which they return. *)
Lemma nf10_reg_rd_balanced addr val : unets (nf10_reg_rd addr val) (λ _, (0, 0)).
Proof. unfold nf10_reg_rd. repeat unets_step; done. Qed.

Lemma nf10_reg_wr_balanced addr val : unets (nf10_reg_wr addr val) (λ _, (0, 0)).
Proof. unfold nf10_reg_wr. repeat unets_step; done. Qed.

(** ** Messages on the wire *)

(** A whole generic netlink message. *)
Definition wire_msg (pid seq family flags cmd version : Z) (l : list (Z * list Z)) : list Z :=
  le_split 4 (20 + zlen (Nl.flat l)) ++ Nl.req_hdr pid seq family flags cmd version ++ Nl.flat l.

Lemma length_req_hdr pid seq family flags cmd version :
  length (Nl.req_hdr pid seq family flags cmd version) = 16%nat.
Proof. unfold Nl.req_hdr. by rewrite !length_app, !length_le_split. Qed.

Lemma zlen_wire_msg pid seq family flags cmd version l :
  zlen (wire_msg pid seq family flags cmd version l) = 20 + zlen (Nl.flat l).
Proof.
  unfold wire_msg. rewrite !zlen_app, zlen_le_split. unfold zlen at 1.
  rewrite length_req_hdr. lia.
Qed.

(** Reading a header field of a message. *)
Lemma header_field n len pid seq family flags cmd version rest pre bs post off :
  le_split 4 len ++ Nl.req_hdr pid seq family flags cmd version ++ rest = pre ++ bs ++ post →
  off = zlen pre → length bs = n →
  Nl.ld n (le_split 4 len ++ Nl.req_hdr pid seq family flags cmd version ++ rest) off
  = Some (le_combine bs).
Proof. intros -> Hoff Hl. by apply Nl.ld_mid. Qed.

Section Fields.
Context (len pid seq family flags cmd version : Z) (rest : list Z).
Local Abbreviation buf :=
  (le_split 4 len ++ Nl.req_hdr pid seq family flags cmd version ++ rest).

Lemma field_len : 0 ≤ len < 2 ^ 32 → Nl.nlmsg_len buf 0 = Some len.
Proof.
  intros Hl. unfold Nl.nlmsg_len. rewrite Nl.ld_head by (by rewrite length_le_split).
  by rewrite le_combine_split4, u32_small.
Qed.

Lemma field_type : 0 ≤ family < 2 ^ 16 → Nl.nlmsg_type buf 0 = Some family.
Proof.
  intros Hf. unfold Nl.nlmsg_type.
  rewrite (header_field 2 _ _ _ _ _ _ _ _ (le_split 4 len) (le_split 2 family)
    (le_split 2 flags ++ le_split 4 seq ++ le_split 4 pid ++ Nl.genlmsghdr cmd version ++ rest)).
  - by rewrite Nl.le2.
  - unfold Nl.req_hdr. by rewrite <- !app_assoc.
  - by rewrite zlen_le_split.
  - by rewrite length_le_split.
Qed.

Lemma field_flags : 0 ≤ flags < 2 ^ 16 → Nl.nlmsg_flags buf 0 = Some flags.
Proof.
  intros Hf. unfold Nl.nlmsg_flags.
  rewrite (header_field 2 _ _ _ _ _ _ _ _ (le_split 4 len ++ le_split 2 family) (le_split 2 flags)
    (le_split 4 seq ++ le_split 4 pid ++ Nl.genlmsghdr cmd version ++ rest)).
  - by rewrite Nl.le2.
  - unfold Nl.req_hdr. by rewrite <- !app_assoc.
  - by rewrite zlen_app, !zlen_le_split.
  - by rewrite length_le_split.
Qed.

Lemma field_seq : 0 ≤ seq < 2 ^ 32 → Nl.nlmsg_seq buf 0 = Some seq.
Proof.
  intros Hs. unfold Nl.nlmsg_seq.
  rewrite (header_field 4 _ _ _ _ _ _ _ _
    (le_split 4 len ++ le_split 2 family ++ le_split 2 flags) (le_split 4 seq)
    (le_split 4 pid ++ Nl.genlmsghdr cmd version ++ rest)).
  - by rewrite le_combine_split4, u32_small.
  - unfold Nl.req_hdr. by rewrite <- !app_assoc.
  - by rewrite !zlen_app, !zlen_le_split.
  - by rewrite length_le_split.
Qed.

Lemma field_pid : 0 ≤ pid < 2 ^ 32 → Nl.nlmsg_pid buf 0 = Some pid.
Proof.
  intros Hs. unfold Nl.nlmsg_pid.
  rewrite (header_field 4 _ _ _ _ _ _ _ _
    (le_split 4 len ++ le_split 2 family ++ le_split 2 flags ++ le_split 4 seq) (le_split 4 pid)
    (Nl.genlmsghdr cmd version ++ rest)).
  - by rewrite le_combine_split4, u32_small.
  - unfold Nl.req_hdr. by rewrite <- !app_assoc.
  - by rewrite !zlen_app, !zlen_le_split.
  - by rewrite length_le_split.
Qed.

Lemma set_pid v :
  Nl.st buf 12 (le_split 4 v)
  = Some (le_split 4 len ++ Nl.req_hdr v seq family flags cmd version ++ rest).
Proof.
  unfold Nl.req_hdr.
  replace (le_split 4 len ++ (le_split 2 family ++ le_split 2 flags ++ le_split 4 seq
    ++ le_split 4 pid ++ Nl.genlmsghdr cmd version) ++ rest)
    with ((le_split 4 len ++ le_split 2 family ++ le_split 2 flags ++ le_split 4 seq)
    ++ le_split 4 pid ++ Nl.genlmsghdr cmd version ++ rest) by (by rewrite <- !app_assoc).
  rewrite Nl.st_mid by (by rewrite ?zlen_app, ?zlen_le_split, ?length_le_split).
  by rewrite <- !app_assoc.
Qed.

Lemma set_seq v :
  Nl.st buf 8 (le_split 4 v)
  = Some (le_split 4 len ++ Nl.req_hdr pid v family flags cmd version ++ rest).
Proof.
  unfold Nl.req_hdr.
  replace (le_split 4 len ++ (le_split 2 family ++ le_split 2 flags ++ le_split 4 seq
    ++ le_split 4 pid ++ Nl.genlmsghdr cmd version) ++ rest)
    with ((le_split 4 len ++ le_split 2 family ++ le_split 2 flags) ++ le_split 4 seq
    ++ le_split 4 pid ++ Nl.genlmsghdr cmd version ++ rest) by (by rewrite <- !app_assoc).
  rewrite Nl.st_mid by (by rewrite ?zlen_app, ?zlen_le_split, ?length_le_split).
  by rewrite <- !app_assoc.
Qed.

Lemma set_flags v :
  Nl.st buf 6 (le_split 2 v)
  = Some (le_split 4 len ++ Nl.req_hdr pid seq family v cmd version ++ rest).
Proof.
  unfold Nl.req_hdr.
  replace (le_split 4 len ++ (le_split 2 family ++ le_split 2 flags ++ le_split 4 seq
    ++ le_split 4 pid ++ Nl.genlmsghdr cmd version) ++ rest)
    with ((le_split 4 len ++ le_split 2 family) ++ le_split 2 flags ++ le_split 4 seq
    ++ le_split 4 pid ++ Nl.genlmsghdr cmd version ++ rest) by (by rewrite <- !app_assoc).
  rewrite Nl.st_mid by (by rewrite ?zlen_app, ?zlen_le_split, ?length_le_split).
  by rewrite <- !app_assoc.
Qed.

End Fields.

(** Completion fills in the port, the sequence number and the two flags. *)
Lemma complete_any len pid seq family flags cmd version rest :
  0 ≤ flags < 2 ^ 16 →
  nl_complete_msg pid seq (le_split 4 len ++ Nl.req_hdr 0 0 family flags cmd version ++ rest)
  = Some (le_split 4 len ++ Nl.req_hdr pid seq family (Z.lor (Z.lor flags Nl.NLM_F_REQUEST) Nl.NLM_F_ACK) cmd version ++ rest).
Proof.
  intros Hf. unfold nl_complete_msg. rewrite field_pid, Nl.some_bind by done. change (0 =? 0) with true.
  cbv iota. rewrite set_pid, Nl.some_bind, field_seq, Nl.some_bind by done.
  change (0 =? 0) with true. cbv iota. rewrite set_seq, Nl.some_bind, field_flags, Nl.some_bind by done.
  by rewrite set_flags.
Qed.

Lemma complete_ok len pid seq family cmd version rest :
  nl_complete_msg pid seq (le_split 4 len ++ Nl.req_hdr 0 0 family 0 cmd version ++ rest)
  = Some (le_split 4 len ++ Nl.req_hdr pid seq family 5 cmd version ++ rest).
Proof. by rewrite complete_any. Qed.

(** What is sent for a represented message. *)
Lemma send_ok msg family cmd l room tr :
  Nl.represents msg (Nl.req_hdr 0 0 family 0 cmd NF10_GENL_FAMILY_VERSION) l room →
  let bytes := wire_msg l_pid (l_seq_next tr) family 5 cmd NF10_GENL_FAMILY_VERSION l in
  nl_send_auto msg tr = UOk (l_send tr bytes) (USend bytes (l_send tr bytes) :: tr).
Proof.
  intros Hr bytes. pose proof Hr as [Hb _ Hs Hsm]. unfold nl_send_auto. rewrite Hb, complete_ok.
  pose proof (zlen_nonneg (Nl.flat l)). pose proof (zlen_nonneg room).
  rewrite Hs, Hb, !zlen_app, zlen_le_split in Hsm. unfold zlen at 1 in Hsm.
  rewrite length_req_hdr in Hsm. rewrite field_len by lia.
  assert (take (Z.to_nat (20 + zlen (Nl.flat l)))
    (le_split 4 (20 + zlen (Nl.flat l)) ++ Nl.req_hdr l_pid (l_seq_next tr) family 5 cmd
       NF10_GENL_FAMILY_VERSION ++ Nl.flat l ++ room) = bytes) as ->; [|done].
  subst bytes. rewrite !(app_assoc _ _ room).
  fold (wire_msg l_pid (l_seq_next tr) family 5 cmd NF10_GENL_FAMILY_VERSION l).
  pose proof (zlen_wire_msg l_pid (l_seq_next tr) family 5 cmd NF10_GENL_FAMILY_VERSION l) as Hz.
  unfold zlen at 1 in Hz. by rewrite take_app_le, take_ge by lia.
Qed.

(** ** Replies *)

Lemma wire_data pid seq family cmd version l :
  16 ≤ family < 2 ^ 16 → 0 ≤ seq < 2 ^ 32 → zlen (Nl.flat l) < 2 ^ 30 →
  data_msg (wire_msg pid seq family 0 cmd version l) seq.
Proof.
  intros Hf Hs Hl. pose proof (zlen_nonneg (Nl.flat l)).
  split; rewrite ?zlen_wire_msg; unfold wire_msg.
  - apply field_len. lia.
  - exists family. split; [apply field_type; lia|]. unfold is_control, Nl.NLMSG_DONE,
      Nl.NLMSG_ERROR, Nl.NLMSG_NOOP, Nl.NLMSG_OVERRUN.
    decide_test (family =? 3) false. decide_test (family =? 2) false.
    decide_test (family =? 1) false. by decide_test (family =? 4) false.
  - exists 0. split; [by apply field_flags|done].
  - by apply field_seq.
  - lia.
  - rewrite Z.add_mod, Nl.flat_aligned by lia. done.
Qed.

(** The attributes of a reply, by type. *)
Lemma wire_attrs pid seq family flags cmd version l :
  Forall Nl.attr_ok l → zlen (Nl.flat l) < 2 ^ 30 →
  ∃ t, parse_attrs (wire_msg pid seq family flags cmd version l) = Some t ∧
    ∀ ty, ty ≤ NF10_GENL_A_MAX →
      match Nl.find_attr ty l with
      | Some bs => ∃ off, t ty = Some off ∧
                     Nl.attr_at (wire_msg pid seq family flags cmd version l) off bs
      | None => t ty = None
      end.
Proof.
  intros Hok Hl.
  destruct (Nl.genlmsg_parse_ok (Nl.req_hdr pid seq family flags cmd version) l [] NF10_GENL_A_MAX)
    as (t & Hp & Ht); [apply length_req_hdr|done..|].
  rewrite app_nil_r in Hp, Ht. exists t. unfold parse_attrs, wire_msg. by rewrite Hp.
Qed.

Lemma attr_word_ok msg off v :
  Nl.attr_at msg off (le_split 4 v) → attr_word msg off = Some (u32 v).
Proof.
  intros (H0 & _ & Hb). rewrite length_le_split in Hb. unfold attr_word, Nl.ld.
  assert (0 ≤ Nl.nla_data off) as Hd by (unfold Nl.nla_data; change Nl.NLA_HDRLEN with 4; lia).
  decide_test (Nl.nla_data off <? 0) false. cbn [orb].
  assert ((zlen msg <? Nl.nla_data off + Z.of_nat 4) = false) as ->.
  { apply Z.ltb_ge. apply (f_equal length) in Hb.
    rewrite length_le_split, length_take, length_drop in Hb. unfold zlen. lia. }
  by rewrite Hb, le_combine_split4.
Qed.

(** What the read callback makes of a reply. *)
Definition rd_reply (l : list (Z * list Z)) (val : Z) : Z * Z :=
  match Nl.find_attr NF10_GENL_A_ERRNO l with
  | None => (- Nl.NLE_NOATTR, val)
  | Some e =>
      if negb (s32 (le_combine e) =? 0) then (s32 (le_combine e), val)
      else match Nl.find_attr NF10_GENL_A_REGVAL32 l with
           | None => (- Nl.NLE_NOATTR, val)
           | Some v => (0, le_combine v)
           end
  end.

(** A reply whose error and value attributes are 32-bit words. *)
Definition word_attrs (l : list (Z * list Z)) : Prop :=
  ∀ ty bs, Nl.find_attr ty l = Some bs → ∃ v, 0 ≤ v < 2 ^ 32 ∧ bs = le_split 4 v.

Lemma word_attrs_Forall l :
  Forall (λ a, ∃ v, 0 ≤ v < 2 ^ 32 ∧ a.2 = le_split 4 v) l → word_attrs l.
Proof.
  induction 1 as [|[t b] l (v & Hv & Hb) _ IH]; intros ty bs; [done|]. simpl in *.
  destruct (Nl.find_attr ty l) as [x|] eqn:E; [intros [= <-]; by eapply IH|].
  case_match; [|done]. intros [= <-]. by exists v.
Qed.

(** The replies that the driver makes to a read. *)
Lemma rd_reply_value v val :
  0 ≤ v < 2 ^ 32 →
  rd_reply [(NF10_GENL_A_REGVAL32, le_split 4 v); err_attr 0] val = (0, v).
Proof.
  intros Hv. unfold rd_reply, err_attr.
  change (Nl.find_attr NF10_GENL_A_ERRNO _) with (Some (le_split 4 (u32 0))).
  change (Nl.find_attr NF10_GENL_A_REGVAL32 _) with (Some (le_split 4 v)).
  cbv iota. rewrite !le_combine_split4, (u32_small v) by done. reflexivity.
Qed.

Lemma rd_reply_error val : rd_reply [err_attr (-1)] val = (-1, val).
Proof. reflexivity. Qed.

Lemma rd_cb_run pid seq family cmd version l val :
  Forall Nl.attr_ok l → zlen (Nl.flat l) < 2 ^ 30 → word_attrs l →
  nf10_reg_rd_recv_msg_cb (wire_msg pid seq family 0 cmd version l) val = Some (rd_reply l val).
Proof.
  intros Hok Hl Hw. destruct (wire_attrs pid seq family 0 cmd version l Hok Hl) as (t & Hp & Ht).
  unfold nf10_reg_rd_recv_msg_cb, rd_reply. rewrite Hp, Nl.some_bind.
  pose proof (Ht NF10_GENL_A_ERRNO ltac:(done)) as He.
  destruct (Nl.find_attr NF10_GENL_A_ERRNO l) as [e|] eqn:E1; [|by rewrite He].
  destruct He as (off & -> & Hat). destruct (Hw _ _ E1) as (x & Hx & ->).
  rewrite (attr_word_ok _ _ _ Hat), Nl.some_bind, le_combine_split4.
  destruct (negb _); [done|].
  pose proof (Ht NF10_GENL_A_REGVAL32 ltac:(done)) as Hv.
  destruct (Nl.find_attr NF10_GENL_A_REGVAL32 l) as [v|] eqn:E2; [|by rewrite Hv].
  destruct Hv as (off2 & -> & Hat2). destruct (Hw _ _ E2) as (y & Hy & ->).
  by rewrite (attr_word_ok _ _ _ Hat2), Nl.some_bind, le_combine_split4.
Qed.

(** ** The whole exchange *)

Lemma ubind_ok {A B} (m : U A) (k : A → U B) tr a tr' :
  m tr = UOk a tr' → ubind m k tr = k a tr'.
Proof. unfold ubind. by intros ->. Qed.

(** The socket opens, the message is allocated and sent. *)
Record socket_ok (family : Z) : Prop := {
  sk_alloc : ∀ tr, l_socket_alloc tr = true;
  sk_connect : ∀ tr, l_genl_connect tr = 0;
  sk_resolve : ∀ tr, l_genl_ctrl_resolve tr = family;
  sk_family : 16 ≤ family < 2 ^ 16;
  sk_msg : ∀ tr, l_nlmsg_alloc tr = true;
  sk_page : 128 ≤ l_pagesize < 2 ^ 31;
  sk_send : ∀ tr bs, 0 ≤ l_send tr bs;
  sk_seq : ∀ tr, 0 ≤ l_seq_expect tr < 2 ^ 32;
  sk_copied : ∀ tr msg, l_copied tr msg = true;
}.

Section Exchange.
Context (family : Z) (Hsk : socket_ok family).

Lemma connect_ok tr :
  driver_connect tr = UOk (0, family) (UResolve family :: UConnect 0 :: USockAlloc true :: tr).
Proof.
  destruct Hsk as [Ha Hc Hr Hf _ _ _ _ _]. unfold driver_connect, ubind, ucall.
  rewrite Ha. cbn [negb]. rewrite Hc. cbn [negb Z.eqb]. rewrite Hr.
  by decide_test (family <? 0) false.
Qed.

(** A fresh message of the command [cmd]. *)
Lemma request_ok cmd :
  ∃ msg,
    Nl.represents msg (Nl.req_hdr 0 0 family 0 cmd NF10_GENL_FAMILY_VERSION) []
      (replicate (Z.to_nat (l_pagesize - 20)) 0) ∧
    Nl.nm_size msg = l_pagesize ∧
    ∀ tr, request (Nl.nlmsg_alloc_len l_pagesize) family cmd tr = UOk msg tr.
Proof.
  pose proof (sk_page _ Hsk) as Hps.
  destruct (Nl.genlmsg_put_ok l_pagesize 0 0 family 0 cmd NF10_GENL_FAMILY_VERSION)
    as (m1 & Hput & Hr1 & Hsz1); [lia|].
  exists m1. split; [done|]. split; [done|]. intros tr.
  unfold request, ubind, ulift, uret. by rewrite Hput.
Qed.

(** One more word in it. *)
Lemma put_u32_ok msg hdr l room ty v :
  Nl.represents msg hdr l room → 48 + 2 * zlen (Nl.flat l) ≤ Nl.nm_size msg →
  ∃ msg' room', Nl.represents msg' hdr (l ++ [(ty, le_split 4 (u32 v))]) room' ∧
    Nl.nm_size msg' = Nl.nm_size msg ∧ ∀ tr, put_u32 msg ty v tr = UOk msg' tr.
Proof.
  intros Hr Hroom.
  destruct (Nl.nla_put_ok msg _ _ _ ty (le_split 4 (u32 v)) Hr ltac:(by rewrite zlen_le_split)) as (m2 & room' & Hput & Hr2 & Hsz).
  { rewrite zlen_le_split. change (Nl.nla_total_size (Z.of_nat 4)) with 8. lia. }
  exists m2, room'. split; [done|]. split; [done|]. intros tr.
  unfold put_u32, Nl.nla_put_u32, ubind, ulift, uret. by rewrite Hput.
Qed.

(** The events of an exchange up to the reply, newest first. *)
Definition asked (bytes : list Z) (tr : list uevent) : list uevent :=
  let tr := UMsgAlloc true :: UResolve family :: UConnect 0 :: USockAlloc true :: tr in
  UMsgFree :: USend bytes (l_send tr bytes) :: tr.

(** The trace at which the message is sent. *)
Definition sending (tr : list uevent) : list uevent :=
  UMsgAlloc true :: UResolve family :: UConnect 0 :: USockAlloc true :: tr.

(** The bytes of the request with the attributes [l]. *)
Definition request_bytes (cmd : Z) (l : list (Z * list Z)) (tr : list uevent) : list Z :=
  wire_msg l_pid (l_seq_next (sending tr)) family 5 cmd NF10_GENL_FAMILY_VERSION l.

(** The first datagram after the request is a data message with the
    attributes [l]. *)
Definition replies (l : list (Z * list Z)) (tr : list uevent) : Prop :=
  ∃ pid fam cmd version dgs,
    16 ≤ fam < 2 ^ 16 ∧
    l_recv tr = Datagram (wire_msg pid (l_seq_expect tr) fam 0 cmd version l) :: dgs.

Lemma recv_reply {S} (cb : nl_cb S) (u : S) l tr :
  replies l tr → zlen (Nl.flat l) < 2 ^ 30 →
  cb_set cb NL_CB_MSG_IN = None → cb_set cb NL_CB_SEQ_CHECK = None →
  (∀ f, cb_set cb NL_CB_VALID = Some f → ∀ pid seq fam cmd version,
     ∃ r, f (wire_msg pid seq fam 0 cmd version l) u = Some r) →
  ∃ pid seq fam cmd version,
    nl_recvmsgs_default cb u tr =
    match cb_set cb NL_CB_VALID with
    | None => UOk (0, u) tr
    | Some f => match f (wire_msg pid seq fam 0 cmd version l) u with
                | Some x => UOk (cb_result x.1, x.2) tr
                | None => UCrash
                end
    end.
Proof.
  intros (pid & fam & cmd & version & dgs & Hf & Hr) Hl H1 H2 Hcb.
  exists pid, (l_seq_expect tr), fam, cmd, version.
  pose proof (wire_data pid (l_seq_expect tr) fam cmd version l Hf (sk_seq _ Hsk tr) Hl) as Hd.
  unfold nl_recvmsgs_default.
  rewrite Hr, (recv_data _ cb _ (mkRst u (l_seq_expect tr) false) dgs Hd) by done.
  rewrite (sk_copied _ Hsk).
  destruct (cb_set cb NL_CB_VALID) as [f|] eqn:E; [|done]. cbn [r_user].
  destruct (Hcb f eq_refl pid (l_seq_expect tr) fam cmd version) as [r Hfr]. by rewrite Hfr.
Qed.

(** [nf10_reg_rd] sends the address, takes what the reply's attributes say,
    and releases the message and the socket. *)
Lemma nf10_reg_rd_run addr val l tr :
  let bytes := request_bytes NF10_GENL_C_REG_RD
                 [(NF10_GENL_A_ADDR32, le_split 4 (u32 addr))] tr in
  replies l (asked bytes tr) →
  Forall Nl.attr_ok l → zlen (Nl.flat l) < 2 ^ 30 → word_attrs l →
  nf10_reg_rd addr val tr =
  UOk (cb_result (rd_reply l val).1, (rd_reply l val).2) (USockFree :: asked bytes tr).
Proof.
  intros bytes Hrep Hok Hl Hw. unfold nf10_reg_rd.
  rewrite (ubind_ok _ _ _ _ _ (connect_ok tr)). cbn [fst snd negb Z.eqb].
  unfold nlmsg_alloc. erewrite ubind_ok.
  2: { unfold ubind, ucall, uret. by rewrite (sk_msg _ Hsk). }
  destruct (request_ok NF10_GENL_C_REG_RD) as (m1 & Hr1 & Hs1 & E1).
  pose proof (sk_page _ Hsk).
  destruct (put_u32_ok m1 _ _ _ NF10_GENL_A_ADDR32 addr Hr1) as (m2 & room & Hr2 & Hs2 & E2).
  { rewrite Hs1. change (zlen (Nl.flat [])) with 0. lia. }
  rewrite (ubind_ok _ _ _ _ _ (E1 _)), (ubind_ok _ _ _ _ _ (E2 _)).
  rewrite (ubind_ok _ _ _ _ _ (send_ok m2 family _ _ room _ Hr2)).
  fold (sending tr). change ([] ++ ?x) with x. fold bytes.
  rewrite (proj2 (Z.ltb_ge _ _) (sk_send _ Hsk _ _)).
  unfold nlmsg_free, driver_disconnect, uemit. erewrite (ubind_ok _ _ _ tt) by done.
  cbv beta.
  destruct (recv_reply (nl_socket_modify_cb nl_cb_default NL_CB_VALID nf10_reg_rd_recv_msg_cb)
    val l (asked bytes tr) Hrep Hl) as (p & q & f & c & v & E); [done..| |].
  { intros g [= <-] p q f c v. rewrite rd_cb_run by done. by eexists. }
  erewrite ubind_ok; [|etransitivity; [exact E|]]; simpl cb_set; cbv iota;
    [|rewrite rd_cb_run by done; reflexivity].
  done.
Qed.

(** [nf10_reg_wr] sends the address and the value, and returns 0 on any data
    message, whatever its attributes say. *)
Lemma nf10_reg_wr_run addr val l tr :
  let bytes := request_bytes NF10_GENL_C_REG_WR
                 [(NF10_GENL_A_ADDR32, le_split 4 (u32 addr));
                  (NF10_GENL_A_REGVAL32, le_split 4 (u32 val))] tr in
  replies l (asked bytes tr) → zlen (Nl.flat l) < 2 ^ 30 →
  nf10_reg_wr addr val tr = UOk 0 (USockFree :: asked bytes tr).
Proof.
  intros bytes Hrep Hl. unfold nf10_reg_wr.
  rewrite (ubind_ok _ _ _ _ _ (connect_ok tr)). cbn [fst snd negb Z.eqb].
  unfold nlmsg_alloc. erewrite ubind_ok.
  2: { unfold ubind, ucall, uret. by rewrite (sk_msg _ Hsk). }
  destruct (request_ok NF10_GENL_C_REG_WR) as (m1 & Hr1 & Hs1 & E1).
  pose proof (sk_page _ Hsk).
  destruct (put_u32_ok m1 _ _ _ NF10_GENL_A_ADDR32 addr Hr1) as (m2 & room & Hr2 & Hs2 & E2).
  { rewrite Hs1. change (zlen (Nl.flat [])) with 0. lia. }
  destruct (put_u32_ok m2 _ _ _ NF10_GENL_A_REGVAL32 val Hr2) as (m3 & room' & Hr3 & Hs3 & E3).
  { rewrite Hs2, Hs1. change (zlen (Nl.flat _)) with 8. lia. }
  rewrite (ubind_ok _ _ _ _ _ (E1 _)), (ubind_ok _ _ _ _ _ (E2 _)), (ubind_ok _ _ _ _ _ (E3 _)).
  rewrite (ubind_ok _ _ _ _ _ (send_ok m3 family _ _ room' _ Hr3)).
  fold (sending tr). change (([] ++ [?x]) ++ [?y]) with [x; y]. fold bytes.
  rewrite (proj2 (Z.ltb_ge _ _) (sk_send _ Hsk _ _)).
  unfold nlmsg_free, driver_disconnect, uemit. erewrite (ubind_ok _ _ _ tt) by done.
  cbv beta.
  destruct (recv_reply (nl_socket_modify_cb nl_cb_default NL_CB_ACK nf10_reg_wr_recv_ack_cb)
    tt l (asked bytes tr) Hrep Hl) as (p & q & f & c & v & E); [done..|].
  by rewrite (ubind_ok _ _ _ _ _ E).
Qed.

End Exchange.

End Exchanges.
