(* ===== verification/Text.v ===== *)
(** * Text: what the control utility uses of the C library

    [strtoull] with base 0, the conversion [0x%08x] of [printf], [strcmp] and
    [strrchr], on strings as lists of character codes. *)

From stdpp Require Import strings.
From S2P Require Import Prelude.

(** The characters of a literal. *)
Definition text (s : string) : list Z :=
  map (λ c, Z.of_nat (Ascii.nat_of_ascii c)) (String.list_ascii_of_string s).

(** ** [strtoull(s, NULL, 0)] *)

Definition is_space (c : Z) : bool := (c =? 32) || ((9 <=? c) && (c <=? 13)).

Fixpoint skip_space (s : list Z) : list Z :=
  match s with c :: s' => if is_space c then skip_space s' else s | [] => [] end.

(** The value of a digit, or 36 if it is none. *)
Definition digit (c : Z) : Z :=
  if (48 <=? c) && (c <=? 57) then c - 48
  else if (97 <=? c) && (c <=? 122) then c - 87
  else if (65 <=? c) && (c <=? 90) then c - 55
  else 36.

Fixpoint digits (base acc : Z) (s : list Z) : Z :=
  match s with
  | c :: s => if digit c <? base then digits base (acc * base + digit c) s else acc
  | [] => acc
  end.

(** A leading [0x] selects base 16, a leading [0] base 8. *)
Definition detect_base (s : list Z) : Z * list Z :=
  match s with
  | 48 :: x :: d :: s' =>
      if ((x =? 120) || (x =? 88)) && (digit d <? 16) then (16, d :: s') else (8, s)
  | 48 :: _ => (8, s)
  | _ => (10, s)
  end.

Definition ULLONG_MAX : Z := 2 ^ 64 - 1.

Definition strtoull (s : list Z) : Z :=
  let s := skip_space s in
  let '(neg, s) := match s with
                   | 45 :: s => (true, s)
                   | 43 :: s => (false, s)
                   | _ => (false, s)
                   end in
  let '(base, s) := detect_base s in
  let v := digits base 0 s in
  if ULLONG_MAX <? v then ULLONG_MAX
  else if neg then u64 (- v) else v.

(** ** [printf("0x%08x", v)] *)

Definition hex_char (d : Z) : Z := if d <? 10 then 48 + d else 87 + d.

Fixpoint hex_digits (n : nat) (v : Z) : list Z :=
  match n with
  | O => []
  | S n => hex_digits n (v / 16) ++ [hex_char (v mod 16)]
  end.

Definition fmt_0x08x (v : Z) : list Z := [48; 120] ++ hex_digits 8 v.

(** ** [strcmp(a, b) == 0] and [strrchr(s, '/')] *)

Definition str_eq (a b : list Z) : bool := bool_decide (a = b).

(** The text after the last occurrence of [c], if there is one. *)
Fixpoint after_last (c : Z) (s : list Z) : option (list Z) :=
  match s with
  | [] => None
  | x :: s' =>
      match after_last c s' with
      | Some r => Some r
      | None => if x =? c then Some s' else None
      end
  end.

(** ** Round trips *)

Lemma digit_hex_char d : 0 ≤ d < 16 → digit (hex_char d) = d.
Proof.
  intros Hd. unfold hex_char. destruct (d <? 10) eqn:E; boolify; unfold digit.
  - decide_test (48 <=? 48 + d) true. decide_test (48 + d <=? 57) true. simpl. lia.
  - decide_test (87 + d <=? 57) false. rewrite andb_false_r.
    decide_test (97 <=? 87 + d) true. decide_test (87 + d <=? 122) true. simpl. lia.
Qed.

Lemma digits_app base s t acc :
  Forall (λ c, digit c < base) s → digits base acc (s ++ t) = digits base (digits base acc s) t.
Proof.
  intros Hs. revert acc. induction Hs as [|c s Hc _ IH]; intros acc; [done|]. simpl.
  by rewrite (proj2 (Z.ltb_lt _ _) Hc).
Qed.

Lemma hex_digits_ok n v : Forall (λ c, digit c < 16) (hex_digits n v).
Proof.
  revert v. induction n as [|n IH]; intros v; simpl; [constructor|].
  apply Forall_app. split; [apply IH|]. repeat constructor.
  pose proof (Z.mod_pos_bound v 16). rewrite digit_hex_char; lia.
Qed.

Lemma digits_hex n : ∀ v acc,
  digits 16 acc (hex_digits n v) = acc * 16 ^ Z.of_nat n + v mod 16 ^ Z.of_nat n.
Proof.
  induction n as [|n IH]; intros v acc; simpl hex_digits.
  { simpl. rewrite Z.mod_1_r. lia. }
  rewrite digits_app, IH by apply hex_digits_ok. cbn [digits].
  pose proof (Z.mod_pos_bound v 16 ltac:(lia)) as Hm. rewrite digit_hex_char by done.
  rewrite (proj2 (Z.ltb_lt _ _)) by lia.
  rewrite Nat2Z.inj_succ, Z.pow_succ_r by lia.
  rewrite (Z.rem_mul_r v 16 (16 ^ Z.of_nat n)) by (try apply Z.pow_pos_nonneg; lia). lia.
Qed.

(** What the utility prints for a register, it reads back. *)
Lemma strtoull_0x08x v : 0 ≤ v < 2 ^ 32 → strtoull (fmt_0x08x v) = v.
Proof.
  intros Hv. unfold strtoull, fmt_0x08x.
  change (skip_space ([48; 120] ++ ?s)) with (48 :: 120 :: s). cbv beta iota.
  assert (∃ d s, hex_digits 8 v = d :: s ∧ digit d < 16) as (d & s & E & Hd).
  { pose proof (hex_digits_ok 8 v) as Hok. destruct (hex_digits 8 v) as [|d s] eqn:E.
    - exfalso. revert E. cbn [hex_digits]. by intros [_ ?]%app_eq_nil.
    - apply Forall_cons_iff in Hok as [Hd _]. by exists d, s. }
  cbn [detect_base]. rewrite E. change ((120 =? 120) || (120 =? 88)) with true.
  cbn [detect_base andb]. rewrite (proj2 (Z.ltb_lt _ _) Hd). cbv beta iota zeta.
  rewrite <- E, digits_hex. change (16 ^ Z.of_nat 8) with (2 ^ 32).
  rewrite Z.mod_small by done. unfold ULLONG_MAX.
  by decide_test (2 ^ 64 - 1 <? 0 * 2 ^ 32 + v) false.
Qed.
