(* ===== verification/CStr.v ===== *)
(** * Strings: what libnl uses of the C library

    Numbers in text ([strtol], [strtoul], [sscanf], [%u], [%x]), comparison without case, and
    writing into buffers of limited size ([snprintf], [strncat]).  A string is the list of its
    characters before the NUL; a buffer is the list of its bytes. *)

From stdpp Require Import strings.
From S2P Require Import Prelude Packet Netlink Text Attr.
Import Nl.

(** ** Numbers in text *)

(** The digits at the front, and what follows them. *)
Fixpoint scan (base acc : Z) (s : list Z) : Z * list Z :=
  match s with
  | c :: s' => if digit c <? base then scan base (acc * base + digit c) s' else (acc, s)
  | [] => (acc, [])
  end.

(** A prefix [0x] that is followed by a digit. *)
Definition drop_0x (s : list Z) : list Z :=
  match s with
  | 48 :: x :: d :: s' => if ((x =? 120) || (x =? 88)) && (digit d <? 16) then d :: s' else s
  | _ => s
  end.

(** The number at the front of a text, its sign, and the rest; [None] when there is none.
    Base 0 stands for the base that the number itself shows. *)
Definition number (base : Z) (s : list Z) : option (bool * Z * list Z) :=
  let s := skip_space s in
  let '(neg, s) := match s with
                   | 45 :: s => (true, s)
                   | 43 :: s => (false, s)
                   | _ => (false, s)
                   end in
  let '(base, s) := if base =? 0 then detect_base s else (base, if base =? 16 then drop_0x s else s) in
  match s with
  | c :: _ => if digit c <? base then let r := scan base 0 s in Some (neg, r.1, r.2) else None
  | [] => None
  end.

Definition LONG_MAX : Z := 2 ^ 63 - 1.
Definition LONG_MIN : Z := - 2 ^ 63.
Definition ULONG_MAX : Z := 2 ^ 64 - 1.

(** [strtol(s, &end, base)]; [None] when [end] is [s]. *)
Definition strtol (base : Z) (s : list Z) : option (Z * list Z) :=
  r ← number base s;
  let v := if (r.1.1 : bool) then - r.1.2 else r.1.2 in
  Some (Z.max LONG_MIN (Z.min LONG_MAX v), r.2).

Definition strtoul (base : Z) (s : list Z) : option (Z * list Z) :=
  r ← number base s;
  let v := r.1.2 in
  Some (if ULONG_MAX <? v then ULONG_MAX else if (r.1.1 : bool) then u64 (- v) else v, r.2).

(** [%02x] of [sscanf]: the value and the rest of the input. *)
Definition scan_02x (s : list Z) : option (Z * list Z) :=
  let s := skip_space s in
  r ← number 16 (take 2 s);
  Some (u32 (if (r.1.1 : bool) then - r.1.2 else r.1.2), drop (length (take 2 s) - length r.2) s).

(** The digits of a number; [%u], [%x] and [%02x] of [printf]. *)
Fixpoint digits_of (base : Z) (fuel : nat) (n : Z) : list Z :=
  match fuel with
  | O => []
  | S fuel => if n <? base then [hex_char n] else digits_of base fuel (n / base) ++ [hex_char (n mod base)]
  end.

Definition fmt_u (n : Z) : list Z := digits_of 10 20 n.
Definition fmt_x (n : Z) : list Z := digits_of 16 16 n.
Definition fmt_02x (n : Z) : list Z := hex_digits 2 n.

(** ** Searching and comparing *)

(** [strchr]: what is before the character, and what follows it. *)
Fixpoint strchr (c : Z) (s : list Z) : option (list Z * list Z) :=
  match s with
  | [] => None
  | x :: s => if x =? c then Some ([], s) else r ← strchr c s; Some (x :: r.1, r.2)
  end.

Definition has_char (c : Z) (s : list Z) : bool := existsb (Z.eqb c) s.

Definition lower (c : Z) : Z := if (65 <=? c) && (c <=? 90) then c + 32 else c.

(** [!strcasecmp(a, b)] *)
Definition case_eq (a b : list Z) : bool := bool_decide (map lower a = map lower b).

(** ** Buffers *)

(** [strncpy(buf, s, n)]: padded with NULs to [n] bytes. *)
Definition strncpy (buf s : list Z) (n : Z) : option (list Z) :=
  let t := take (Z.to_nat n) s in st buf 0 (t ++ replicate (Z.to_nat n - length t) 0).

(** [snprintf(buf, size, ...)] of the text [s]. *)
Definition snprintf (buf : list Z) (size : Z) (s : list Z) : option (list Z) :=
  if size =? 0 then Some buf else st buf 0 (take (Z.to_nat (size - 1)) s ++ [0]).

(** [strncat(buf, s, n)]; the buffer must have a string. *)
Definition strncat (buf s : list Z) (n : Z) : option (list Z) :=
  t ← c_string buf;
  st buf (zlen t) (take (Z.to_nat n) s ++ [0]).

(** [strncat(buf, s, size - strlen(buf) - 1)] *)
Definition append (buf : list Z) (size : Z) (s : list Z) : option (list Z) :=
  t ← c_string buf;
  strncat buf s (u64 (size - zlen t - 1)).

(** ** Facts on numbers *)

Lemma hex_char_digit d : 0 ≤ d < 36 → digit (hex_char d) = d.
Proof.
  intros Hd. unfold hex_char. destruct (d <? 10) eqn:E; boolify; unfold digit.
  - decide_test (48 <=? 48 + d) true. decide_test (48 + d <=? 57) true. simpl. lia.
  - decide_test (87 + d <=? 57) false. rewrite andb_false_r.
    decide_test (97 <=? 87 + d) true. decide_test (87 + d <=? 122) true. simpl. lia.
Qed.

Lemma hex_char_range d : 0 ≤ d < 36 → 48 ≤ hex_char d ≤ 57 ∨ 97 ≤ hex_char d ≤ 122.
Proof. intros Hd. unfold hex_char. destruct (d <? 10) eqn:E; boolify; lia. Qed.

(** The text goes on with no digit. *)
Definition ends (base : Z) (s : list Z) : Prop := match s with c :: _ => base ≤ digit c | [] => True end.

Lemma scan_digits base fuel : ∀ n acc s,
  2 ≤ base ≤ 36 → 0 ≤ n < base ^ Z.of_nat fuel → 
  ∃ k, 0 ≤ k ∧ scan base acc (digits_of base fuel n ++ s) = scan base (acc * base ^ k + n) s.
Proof.
  induction fuel as [|fuel IH]; intros n acc s Hb Hn; [change (base ^ Z.of_nat 0) with 1 in Hn; exists 0; split; [lia|]; cbn; f_equal; lia|].
  cbn [digits_of]. destruct (Z.ltb_spec n base) as [Hlt|Hge].
  - exists 1. split; [lia|]. cbn [app scan]. rewrite hex_char_digit by lia. rewrite (proj2 (Z.ltb_lt _ _) Hlt). f_equal. lia.
  - rewrite Nat2Z.inj_succ, Z.pow_succ_r in Hn by lia. pose proof (Z.mod_pos_bound n base ltac:(lia)) as Hm.
    destruct (IH (n / base) acc ([hex_char (n mod base)] ++ s) Hb) as (k & Hk & E).
    { split; [apply Z.div_pos; lia|]. apply Z.div_lt_upper_bound; lia. }
    exists (k + 1). split; [lia|]. rewrite <- app_assoc, E. cbn [app scan]. rewrite hex_char_digit by lia.
    rewrite (proj2 (Z.ltb_lt _ _)) by lia. f_equal. rewrite Z.pow_add_r, Z.pow_1_r by lia.
    pose proof (Z.div_mod n base ltac:(lia)). nia.
Qed.

Lemma scan_end base acc s : ends base s → scan base acc s = (acc, s).
Proof. destruct s as [|c s]; [done|]. cbn. intros Hc. by rewrite (proj2 (Z.ltb_ge _ _) Hc). Qed.

(** The first digit: 0 only for the number 0. *)
Lemma digits_head base fuel n :
  2 ≤ base ≤ 36 → 0 ≤ n < base ^ Z.of_nat fuel → (0 < fuel)%nat →
  ∃ d s, 0 ≤ d < base ∧ digits_of base fuel n = hex_char d :: s ∧ (d = 0 → n = 0 ∧ s = []).
Proof.
  revert n. induction fuel as [|fuel IH]; intros n Hb Hn Hf; [lia|]. cbn [digits_of].
  destruct (Z.ltb_spec n base) as [Hlt|Hge]; [exists n, []; split; [lia|]; done|].
  rewrite Nat2Z.inj_succ, Z.pow_succ_r in Hn by lia.
  destruct fuel as [|fuel].
  { change (base ^ Z.of_nat 0) with 1 in Hn. lia. }
  assert (1 ≤ n / base) by (apply Z.div_le_lower_bound; lia).
  destruct (IH (n / base)) as (d & s & Hd & E & H0); [done| |lia|].
  { split; [lia|]. apply Z.div_lt_upper_bound; lia. }
  exists d, (s ++ [hex_char (n mod base)]). split; [done|]. split; [by rewrite E|]. intros ->. destruct (H0 eq_refl). lia.
Qed.

Lemma skip_space_digit d s : 0 ≤ d < 36 → skip_space (hex_char d :: s) = hex_char d :: s.
Proof.
  intros Hd. pose proof (hex_char_range d Hd) as Hr. cbn [skip_space].
  assert (is_space (hex_char d) = false) as ->; [|done]. unfold is_space. apply orb_false_iff.
  split; [apply Z.eqb_neq; lia|]. destruct (Z.leb_spec 9 (hex_char d)), (Z.leb_spec (hex_char d) 13); try done; lia.
Qed.

(** No sign and no space before a digit. *)
Lemma number_unsigned base d s :
  0 ≤ d < 36 →
  number base (hex_char d :: s) =
  let '(b, t) := if base =? 0 then detect_base (hex_char d :: s)
                 else (base, if base =? 16 then drop_0x (hex_char d :: s) else hex_char d :: s) in
  match t with
  | c :: _ => if digit c <? b then let r := scan b 0 t in Some (false, r.1, r.2) else None
  | [] => None
  end.
Proof.
  intros Hd. pose proof (hex_char_range d Hd) as Hr. unfold number. rewrite skip_space_digit by done.
  destruct (hex_char d) as [|p|p] eqn:E; [lia| |lia].
  destruct (decide (p = 45%positive)) as [->|]; [lia|]. destruct (decide (p = 43%positive)) as [->|]; [lia|].
  repeat (destruct p as [p|p|]; try done).
Qed.

(** The base of a number that starts with another digit than 0. *)
Lemma detect_dec d s : 0 < d < 10 → detect_base (hex_char d :: s) = (10, hex_char d :: s).
Proof.
  intros Hd. assert (d = 1 ∨ d = 2 ∨ d = 3 ∨ d = 4 ∨ d = 5 ∨ d = 6 ∨ d = 7 ∨ d = 8 ∨ d = 9) as Hc by lia.
  by destruct Hc as [->|[->|[->|[->|[->|[->|[->|[->| ->] ] ] ] ] ] ] ].
Qed.

Lemma detect_zero s : ends 36 s → detect_base (48 :: s) = (8, 48 :: s).
Proof.
  intros Hs. destruct s as [|x [|d s] ]; [done..|]. cbn in Hs |- *.
  assert ((x =? 120) || (x =? 88) = false) as ->; [|done].
  apply orb_false_iff. split; apply Z.eqb_neq; intros ->; by vm_compute in Hs.
Qed.

Lemma ends_le b b' s : b ≤ b' → ends b' s → ends b s.
Proof. destruct s; [done|]. cbn. lia. Qed.

(** Reading back what [%u] wrote. *)
Lemma number_fmt_pos n s : 0 < n < 10 ^ 20 → ends 10 s → number 0 (fmt_u n ++ s) = Some (false, n, s).
Proof.
  intros Hn Hs. unfold fmt_u. destruct (digits_head 10 20 n) as (d & t & Hd & E & H0); [lia|lia|lia|].
  assert (d ≠ 0) by (intros ->; destruct (H0 eq_refl); lia).
  destruct (scan_digits 10 20 n 0 s) as (k & Hk & Esc); [lia|lia|]. rewrite E in Esc |- *. cbn [app] in Esc |- *.
  rewrite number_unsigned by lia. change (0 =? 0) with true. cbv iota. rewrite detect_dec by lia.
  rewrite hex_char_digit, (proj2 (Z.ltb_lt d 10)) by lia. cbv zeta. by rewrite Esc, scan_end.
Qed.

Lemma number_fmt_u n s : 0 ≤ n < 10 ^ 20 → ends 36 s → number 0 (fmt_u n ++ s) = Some (false, n, s).
Proof.
  intros Hn Hs. destruct (Z.eq_dec n 0) as [->|Hne]; [|apply number_fmt_pos; [lia|by apply (ends_le _ 36)] ].
  change (fmt_u 0) with [hex_char 0]. cbn [app]. rewrite number_unsigned by lia.
  change (0 =? 0) with true. cbv iota. change (hex_char 0) with 48. rewrite detect_zero by done.
  change (digit 48 <? 8) with true. cbv iota zeta. cbn [scan]. change (digit 48) with 0. change (0 <? 8) with true. cbv iota.
  rewrite scan_end; [done|]. by apply (ends_le _ 36).
Qed.

(** Reading back what [0x%x] wrote. *)
Lemma number_fmt_x n s :
  0 ≤ n < 16 ^ 16 → ends 16 s → number 0 (48 :: 120 :: fmt_x n ++ s) = Some (false, n, s).
Proof.
  intros Hn Hs. unfold fmt_x. destruct (digits_head 16 16 n) as (d & t & Hd & E & _); [lia|done|lia|].
  destruct (scan_digits 16 16 n 0 s) as (k & Hk & Esc); [lia|done|]. rewrite E in Esc |- *. cbn [app] in Esc |- *.
  change (48 :: 120 :: ?x) with (hex_char 0 :: 120 :: x) at 1. rewrite number_unsigned by lia. change (0 =? 0) with true. cbv iota.
  change (hex_char 0) with 48. cbn [detect_base]. rewrite hex_char_digit by lia. rewrite (proj2 (Z.ltb_lt d 16)) by lia.
  change ((120 =? 120) || (120 =? 88)) with true. cbn [andb]. cbv iota. rewrite hex_char_digit, (proj2 (Z.ltb_lt d 16)) by lia.
  cbv zeta. by rewrite Esc, scan_end.
Qed.

(** A byte as two digits. *)
Lemma fmt_02x_chars b : fmt_02x b = [hex_char (b / 16 mod 16); hex_char (b mod 16)].
Proof. done. Qed.

Lemma number_02x b : is_byte b → number 16 (fmt_02x b) = Some (false, b, []).
Proof.
  intros Hb. unfold is_byte in Hb. rewrite fmt_02x_chars. pose proof (Z.mod_pos_bound (b / 16) 16 ltac:(lia)).
  pose proof (Z.mod_pos_bound b 16 ltac:(lia)). rewrite number_unsigned by lia. change (16 =? 0) with false. change (16 =? 16) with true.
  cbv iota. assert (∀ x y, drop_0x [x; y] = [x; y]) as -> by (intros x y; cbn; by repeat case_match).
  rewrite hex_char_digit, (proj2 (Z.ltb_lt (b / 16 mod 16) 16)) by lia. cbv zeta. cbn [scan].
  rewrite !hex_char_digit by lia. rewrite !(proj2 (Z.ltb_lt _ 16)) by lia. cbn [fst snd]. do 3 f_equal.
  rewrite (Z.mod_small (b / 16)); [|split; [apply Z.div_pos; lia|apply Z.div_lt_upper_bound; lia] ].
  pose proof (Z.div_mod b 16 ltac:(lia)). lia.
Qed.

Lemma scan_02x_ok b s : is_byte b → scan_02x (fmt_02x b ++ s) = Some (b, s).
Proof.
  intros Hb. unfold scan_02x. pose proof (Z.mod_pos_bound (b / 16) 16 ltac:(lia)).
  rewrite fmt_02x_chars. cbn [app]. rewrite skip_space_digit by lia. cbn [take]. rewrite <- fmt_02x_chars, number_02x, some_bind by done.
  cbn [fst snd]. rewrite u32_small by (unfold is_byte in Hb; lia). by rewrite fmt_02x_chars.
Qed.

(** ** Facts on buffers *)

(** The buffer of [size] bytes has the string [s]. *)
Record holds (size : Z) (buf s : list Z) : Prop := {
  ho_size : zlen buf = size;
  ho_text : ∃ rest, buf = s ++ 0 :: rest;
  ho_nul : 0 ∉ s;
}.

Lemma holds_string size buf s : holds size buf s → c_string buf = Some s.
Proof. intros [_ (rest & ->) H0]. by apply c_string_text. Qed.

Lemma holds_len size buf s : holds size buf s → zlen s < size.
Proof.
  intros [<- (rest & ->) _]. rewrite zlen_app. change (0 :: rest) with ([0] ++ rest). rewrite zlen_app.
  change (zlen [0]) with 1. pose proof (zlen_nonneg rest). lia.
Qed.

Lemma not_in_take (x : Z) n s : x ∉ s → x ∉ take n s.
Proof. intros Hx Hin. apply Hx. rewrite <- (take_drop n s). apply elem_of_app. by left. Qed.

(** A store of a text and a NUL. *)
Lemma st_text buf t s old rest :
  buf = t ++ old ++ rest → length old = S (length s) → 0 ∉ t → 0 ∉ s →
  ∃ buf', st buf (zlen t) (s ++ [0]) = Some buf' ∧ holds (zlen buf) buf' (t ++ s).
Proof.
  intros -> Hl Ht Hs. rewrite st_mid by (rewrite ?length_app; simpl; lia || done). eexists. split; [done|]. split.
  - unfold zlen. rewrite !length_app. simpl. lia.
  - exists rest. by rewrite <- !app_assoc.
  - rewrite elem_of_app. tauto.
Qed.

Lemma snprintf_holds buf size s :
  zlen buf = size → 0 < size → 0 ∉ s →
  ∃ buf', snprintf buf size s = Some buf' ∧ holds size buf' (take (Z.to_nat (size - 1)) s).
Proof.
  intros Hb Hs H0. unfold snprintf. rewrite (proj2 (Z.eqb_neq size 0)) by lia. set (u := take (Z.to_nat (size - 1)) s).
  assert (length u < length buf)%nat as Hu.
  { unfold u. rewrite length_take. unfold zlen in Hb. lia. }
  destruct (st_text buf [] u (take (S (length u)) buf) (drop (S (length u)) buf)) as (buf' & E & Hh); [|rewrite length_take; lia|set_solver|by apply not_in_take|].
  - cbn [app]. by rewrite take_drop.
  - change (zlen []) with 0 in E. rewrite Hb in Hh. by exists buf'.
Qed.

Lemma append_holds buf size t s :
  holds size buf t → size < 2 ^ 63 → 0 ∉ s →
  ∃ buf', append buf size s = Some buf' ∧ holds size buf' (take (Z.to_nat (size - 1)) (t ++ s)).
Proof.
  intros Hh Hs H0. unfold append, strncat. pose proof (holds_len _ _ _ Hh) as Hlen. pose proof (zlen_nonneg t).
  rewrite (holds_string _ _ _ Hh), !some_bind, u64_small by lia. destruct Hh as [Hb (rest & E) Ht].
  set (u := take (Z.to_nat (size - zlen t - 1)) s).
  assert (take (Z.to_nat (size - 1)) (t ++ s) = t ++ u) as ->.
  { rewrite take_app. f_equal; [apply take_ge; unfold zlen in *; lia|]. unfold u. f_equal. unfold zlen in *. lia. }
  assert (length u ≤ length rest)%nat as Hu.
  { unfold u. rewrite length_take. rewrite E in Hb. unfold zlen in *. rewrite length_app in Hb. simpl in Hb. lia. }
  destruct (st_text buf t u (0 :: take (length u) rest) (drop (length u) rest)) as (buf' & E' & Hh');
    [|simpl; rewrite length_take; lia|done|by apply not_in_take|].
  - rewrite E. cbn [app]. by rewrite take_drop.
  - rewrite Hb in Hh'. by exists buf'.
Qed.

(** With enough room, the text is whole. *)
Lemma snprintf_whole buf size s :
  zlen buf = size → zlen s < size → 0 ∉ s → ∃ buf', snprintf buf size s = Some buf' ∧ holds size buf' s.
Proof.
  intros Hb Hs H0. pose proof (zlen_nonneg s). destruct (snprintf_holds buf size s Hb) as (buf' & E & Hh); [lia|done|].
  rewrite take_ge in Hh by (unfold zlen in *; lia). by exists buf'.
Qed.

Lemma append_whole buf size t s :
  holds size buf t → zlen t + zlen s < size → size < 2 ^ 63 → 0 ∉ s →
  ∃ buf', append buf size s = Some buf' ∧ holds size buf' (t ++ s).
Proof.
  intros Hh Hl Hs H0. destruct (append_holds buf size t s Hh Hs H0) as (buf' & E & Hh').
  rewrite take_ge in Hh' by (unfold zlen in *; rewrite length_app; lia). by exists buf'.
Qed.
