(* ===== verification/Addr.v ===== *)
(** * Abstract addresses and data: [lib/addr.c], [lib/data.c]

    An abstract address has a family, up to [a_maxsize] bytes, the number of bytes in use, a
    prefix length and a count of references.  [inet_pton] and [inet_ntop] are parameters.
    Abstract data is a buffer of bytes with its size. *)

From stdpp Require Import strings.
From S2P Require Import Prelude Packet Netlink NlError Text Attr CStr.
Import Nl.

Definition AF_UNSPEC : Z := 0.
Definition AF_INET : Z := 2.
Definition AF_INET6 : Z := 10.
Definition AF_DECnet : Z := 12.
Definition AF_LLC : Z := 26.

(** [struct nl_addr]; [a_addr] is the memory behind the structure, [a_maxsize] bytes. *)
Record nl_addr := mkNlAddr {
  a_family : Z;
  a_maxsize : Z;
  a_len : Z;
  a_prefixlen : Z;
  a_refcnt : Z;
  a_addr : list Z;
}.

Class Inet := {
  (** the bytes of an address in text, if it is one *)
  inet_pton : Z → list Z → option (list Z);
  (** the text of an address *)
  inet_ntop : Z → list Z → list Z;
}.

(** ** DECnet *)

(** The state of [dnet_ntop]: the buffer, the rest of the number, the position, and whether a
    digit was written; [inr] when the function returns. *)
Definition do_digit (buf : list Z) (addr scale pos len : Z) (started : bool)
    : option ((list Z * Z * Z * bool) + list Z) :=
  let tmp := addr / scale in
  if pos =? len then Some (inr buf)
  else if (0 <? tmp) || started || (scale =? 1) then
    buf ← st buf pos [tmp + 48];
    Some (inl (buf, addr - tmp * scale, pos + 1, true))
  else Some (inl (buf, addr, pos, started)).

(** The digits of a number, for the given scales. *)
Fixpoint do_digits (buf : list Z) (addr : Z) (scales : list Z) (pos len : Z) (started : bool)
    : option ((list Z * Z) + list Z) :=
  match scales with
  | [] => Some (inl (buf, pos))
  | scale :: scales =>
      r ← do_digit buf addr scale pos len started;
      match r with
      | inr buf => Some (inr buf)
      | inl (buf, addr, pos, started) => do_digits buf addr scales pos len started
      end
  end.

(** The buffer afterwards. *)
Definition dnet_ntop (addrbuf : list Z) (addrlen : Z) (str : list Z) (len : Z) : option (list Z) :=
  w ← ld 2 addrbuf 0;
  let area := Z.shiftr w 10 in
  if negb (addrlen =? 2) then Some str
  else
    let addr := Z.land w 0x3ff in
    if len =? 0 then Some str
    else
      r ← do_digits str area [10; 1] 0 len false;
      match r with
      | inr str => Some str
      | inl (str, pos) =>
          if pos =? len then Some str
          else
            str ← st str pos [46];
            r ← do_digits str addr [1000; 100; 10; 1] (pos + 1) len false;
            match r with
            | inr str => Some str
            | inl (str, pos) => if pos =? len then Some str else st str pos [0]
            end
      end.

(** The number of digits, and the number itself, as a [uint16_t]. *)
Fixpoint dnet_num (dst rv : Z) (src : list Z) : Z * Z :=
  match src with
  | [] => (rv, dst)
  | c :: src =>
      let tmp := c - 48 in
      if (tmp <? 0) || (9 <? tmp) then (rv, dst) else dnet_num (u16 (u16 (dst * 10) + tmp)) (rv + 1) src
  end.

(** The two bytes of the address, or [None] for an error. *)
Definition dnet_pton (src : list Z) : option (list Z) :=
  let a := dnet_num 0 0 src in
  let c := znth src a.1 in
  if (a.1 =? 0) || (63 <? a.2) || (negb (c =? 46) && negb (c =? 44)) then None
  else
    let n := dnet_num 0 0 (drop (Z.to_nat (a.1 + 1)) src) in
    if (n.1 =? 0) || (1023 <? n.2) then None
    else Some (le_split 2 (Z.lor (Z.shiftl a.2 10) n.2)).

(** ** Reading and changing *)

Definition nl_addr_set_family (family : Z) (a : nl_addr) : nl_addr :=
  mkNlAddr family (a_maxsize a) (a_len a) (a_prefixlen a) (a_refcnt a) (a_addr a).
Definition nl_addr_get_family (a : nl_addr) : Z := a_family a.
Definition nl_addr_set_prefixlen (n : Z) (a : nl_addr) : nl_addr :=
  mkNlAddr (a_family a) (a_maxsize a) (a_len a) n (a_refcnt a) (a_addr a).
Definition nl_addr_get_prefixlen (a : nl_addr) : Z := u32 (a_prefixlen a).
Definition nl_addr_get_len (a : nl_addr) : Z := a_len a.
Definition nl_addr_get_binary_addr (a : nl_addr) : list Z := a_addr a.

(** The first [len] bytes of [buf]. *)
Definition nl_addr_set_binary_addr (buf : list Z) (len : Z) (a : nl_addr) : option (Z * nl_addr) :=
  if a_maxsize a <? len then Some (- NLE_RANGE, a)
  else if zlen buf <? len then None
  else
    m ← st (a_addr a) 0 (take (Z.to_nat len) buf);
    Some (0, mkNlAddr (a_family a) (a_maxsize a) len (a_prefixlen a) (a_refcnt a) m).

(** [memcmp] of [n] bytes. *)
Definition memcmp (a b : list Z) (n : Z) : option Z :=
  if (zlen a <? n) || (zlen b <? n) then None else Some (c_memcmp (take (Z.to_nat n) a) (take (Z.to_nat n) b)).

Definition nl_addr_cmp (a b : nl_addr) : option Z :=
  let d := s32 (a_family a - a_family b) in
  if d =? 0 then
    let d := s32 (a_len a - a_len b) in
    if negb (a_len a =? 0) && (d =? 0) then memcmp (a_addr a) (a_addr b) (a_len a) else Some d
  else Some d.

(** A byte; behind the address there is nothing. *)
Definition byte (l : list Z) (i : Z) : option Z := if i <? 0 then None else l !! Z.to_nat i.

(** With a negative prefix length, [memcmp] and the shift are undefined. *)
Definition nl_addr_cmp_prefix (a b : nl_addr) : option Z :=
  let d := s32 (a_family a - a_family b) in
  if d =? 0 then
    let len := Z.min (a_prefixlen a) (a_prefixlen b) in
    let bytes := len / 8 in
    d ← (if len <? 0 then None else memcmp (a_addr a) (a_addr b) bytes);
    if d =? 0 then
      let mask := Z.shiftl 1 (len mod 8) - 1 in
      x ← byte (a_addr a) bytes;
      y ← byte (a_addr b) bytes;
      Some (Z.land x mask - Z.land y mask)
    else Some d
  else Some d.

(** The loop runs over [a_len] bytes. *)
Definition nl_addr_iszero (a : nl_addr) : option Z :=
  if zlen (a_addr a) <? a_len a then None
  else Some (if forallb (Z.eqb 0) (take (Z.to_nat (a_len a)) (a_addr a)) then 1 else 0).

Definition nl_addr_guess_family (a : nl_addr) : Z :=
  if a_len a =? 4 then AF_INET else if a_len a =? 6 then AF_LLC else if a_len a =? 16 then AF_INET6 else AF_UNSPEC.

Definition sizeof_sockaddr_in : Z := 16.
Definition sizeof_sockaddr_in6 : Z := 28.

(** The result, the structure and its size; the port and the other fields stay. *)
Definition nl_addr_fill_sockaddr (a : nl_addr) (sa : list Z) (salen : Z) : option (Z * list Z * Z) :=
  if a_family a =? AF_INET then
    if salen <? sizeof_sockaddr_in then Some (- NLE_INVAL, sa, salen)
    else if zlen (a_addr a) <? 4 then None
    else
      sa ← st sa 0 (le_split 2 (a_family a));
      sa ← st sa 4 (take 4 (a_addr a));
      Some (0, sa, sizeof_sockaddr_in)
  else if a_family a =? AF_INET6 then
    if salen <? sizeof_sockaddr_in6 then Some (- NLE_INVAL, sa, salen)
    else if zlen (a_addr a) <? 16 then None
    else
      sa ← st sa 0 (le_split 2 (a_family a));
      sa ← st sa 8 (take 16 (a_addr a));
      Some (0, sa, sizeof_sockaddr_in6)
  else Some (- NLE_INVAL, sa, salen).

(** ** Text *)

Section Inet.
Context `{Inet}.

(** The loop over the bytes after the first one. *)
Fixpoint colon_bytes (buf : list Z) (size : Z) (bs : list Z) : option (list Z) :=
  match bs with
  | [] => Some buf
  | b :: bs => buf ← append buf size (58 :: fmt_02x b); colon_bytes buf size bs
  end.

(** [inet_ntop] leaves the buffer as it is when the text does not fit. *)
Definition write_inet (buf : list Z) (size : Z) (s : list Z) : option (list Z) :=
  if size <=? zlen s then Some buf else st buf 0 (s ++ [0]).

Definition addr_text (a : nl_addr) (buf : list Z) (size : Z) : option (list Z) :=
  let bs := take (Z.to_nat (a_len a)) (a_addr a) in
  if (a_family a =? AF_INET) || (a_family a =? AF_INET6) then
    let n := if a_family a =? AF_INET then 4 else 16 in
    if zlen (a_addr a) <? n then None
    else write_inet buf size (inet_ntop (a_family a) (take (Z.to_nat n) (a_addr a)))
  else if a_family a =? AF_DECnet then dnet_ntop (a_addr a) (a_len a) buf size
  else if zlen (a_addr a) <? a_len a then None
  else
    match bs with
    | [] => None
    | b :: bs => buf ← snprintf buf size (fmt_02x b); colon_bytes buf size bs
    end.

(** [a] is [None] for NULL. *)
Definition nl_addr2str (a : option nl_addr) (buf : list Z) (size : Z) : option (list Z) :=
  match a with
  | None => snprintf buf size (text "none")
  | Some a =>
      buf ← (if a_len a =? 0 then snprintf buf size (text "none") else addr_text a buf size);
      if negb (u32 (a_prefixlen a) =? u32 (8 * a_len a)) then append buf size (47 :: fmt_u (u32 (a_prefixlen a)))
      else Some buf
  end.

(** [sscanf(str, "%02x:%02x:%02x:%02x:%02x:%02x", ...) == 6]: the six values. *)
Fixpoint scan_colon (n : nat) (s : list Z) : option (list Z) :=
  match n with
  | O => Some []
  | S n =>
      r ← scan_02x s;
      match n with
      | O => Some [r.1]
      | _ => match r.2 with
             | 58 :: s => l ← scan_colon n s; Some (r.1 :: l)
             | _ => None
             end
      end
  end.

(** The loop over bytes of any number, up to the 32 of the buffer; [None] for an error. *)
Fixpoint hex_bytes (fuel : nat) (i : Z) (s : list Z) : option (list Z) :=
  match fuel with
  | O => None
  | S fuel =>
      r ← strtol 16 s;
      if (0xff <? r.1) || (32 <=? i) then None
      else
        match r.2 with
        | [] => Some [u8 r.1]
        | _ :: s => l ← hex_bytes fuel (i + 1) s; Some (u8 r.1 :: l)
        end
  end.

(** What comes before the label [prefix]: the family, the length and the bytes to copy, or an
    error. *)
Definition parse_addr (str : list Z) (hint : Z) : (Z * Z * option (list Z)) + Z :=
  if case_eq str (text "none") then inl (hint, 0, None)
  else if case_eq str (text "default") || case_eq str (text "all") || case_eq str (text "any") then
    if (hint =? AF_INET) || (hint =? AF_UNSPEC) then inl (AF_INET, 4, None)
    else if hint =? AF_INET6 then inl (AF_INET6, 16, None)
    else if hint =? AF_LLC then inl (AF_LLC, 6, None)
    else inr (- NLE_AF_NOSUPPORT)
  else
    let any := hint =? AF_UNSPEC in
    let v4 := if (hint =? AF_INET) || any then inet_pton AF_INET str else None in
    let v6 := if (hint =? AF_INET6) || any then inet_pton AF_INET6 str else None in
    let ll := if ((hint =? AF_LLC) || any) && has_char 58 str then scan_colon 6 str else None in
    let dn := if ((hint =? AF_DECnet) || any) && (has_char 46 str || has_char 44 str) then dnet_pton str else None in
    match v4 with
    | Some bs => inl (AF_INET, 4, Some bs)
    | None =>
    if hint =? AF_INET then inr (- NLE_NOADDR) else
    match v6 with
    | Some bs => inl (AF_INET6, 16, Some bs)
    | None =>
    if hint =? AF_INET6 then inr (- NLE_NOADDR) else
    match ll with
    | Some l => inl (AF_LLC, 6, Some (map u8 l))
    | None =>
    if (hint =? AF_LLC) && has_char 58 str then inr (- NLE_NOADDR) else
    match dn with
    | Some bs => inl (AF_DECnet, 2, Some bs)
    | None =>
    if (hint =? AF_DECnet) && (has_char 46 str || has_char 44 str) then inr (- NLE_NOADDR) else
    if any && has_char 58 str then
      match hex_bytes (S (length str)) 0 str with
      | Some bs => inl (AF_UNSPEC, zlen bs, Some bs)
      | None => inr (- NLE_INVAL)
      end
    else inr (- NLE_NOADDR)
    end end end end.

(** A new address of [maxsize] bytes. *)
Definition addr_new (maxsize : Z) : nl_addr :=
  mkNlAddr 0 maxsize 0 0 1 (replicate (Z.to_nat maxsize) 0).

(** [strdup_ok] and [alloc_ok] tell whether memory is left for the copy of the string and for
    the address.  The error, and the address on success. *)
Definition nl_addr_parse (strdup_ok alloc_ok : bool) (addrstr : list Z) (hint : Z) : option (Z * option nl_addr) :=
  if negb strdup_ok then Some (- NLE_NOMEM, None)
  else
    let '(str, prefix) := match strchr 47 addrstr with
                          | Some (str, p) => (str, Some p)
                          | None => (addrstr, None)
                          end in
    match parse_addr str hint with
    | inr err => Some (err, None)
    | inl (family, len, copy) =>
        if negb alloc_ok then Some (- NLE_NOMEM, None)
        else
          let a := nl_addr_set_family family (addr_new len) in
          a ← match copy with
              | Some buf => r ← nl_addr_set_binary_addr buf len a; Some r.2
              | None => Some a
              end;
          match prefix with
          | Some p =>
              match strtol 0 p with
              | Some (pl, _) => Some (0, Some (nl_addr_set_prefixlen (s32 pl) a))
              | None => Some (- NLE_INVAL, None)
              end
          | None => Some (0, Some (nl_addr_set_prefixlen (len * 8) a))
          end
    end.

(** [sscanf] with [%*02x] assigns nothing and never returns 6. *)
Definition nl_addr_valid (addr : list Z) (family : Z) : Z :=
  if (family =? AF_INET) || (family =? AF_INET6) then if inet_pton family addr is Some _ then 1 else 0
  else if family =? AF_DECnet then if dnet_pton addr is Some _ then 1 else 0
  else if family =? AF_LLC then 0
  else 1.
End Inet.

(** ** Addresses in memory *)

Section Heap.
(** Memory for an address; 0 when there is none. *)
Context (addr_calloc : gmap Z nl_addr → Z).
Local Open Scope state_scope.

Abbreviation H A := (St (gmap Z nl_addr) A).

Definition addr_at (p : Z) : H nl_addr := sget (λ m, m !! p).
Definition addr_set (p : Z) (a : nl_addr) : H unit := smodify (insert p a).

Definition nl_addr_alloc (maxsize : Z) : H Z := λ m,
  let p := addr_calloc m in
  if p =? 0 then Some (0, m) else Some (p, <[p := addr_new maxsize]> m).

Definition nl_addr_build (family : Z) (buf : list Z) (size : Z) : H Z :=
  p <- nl_addr_alloc size ;;
  if p =? 0 then sret 0
  else
    a <- addr_at p ;;
    bs <- sget (λ _, if negb (size =? 0) then if zlen buf <? size then None else st (a_addr a) 0 (take (Z.to_nat size) buf)
                     else Some (a_addr a)) ;;
    addr_set p (mkNlAddr family (a_maxsize a) size (s32 (size * 8)) (a_refcnt a) bs) ;;
    sret p.

(** The attribute at the offset [nla] of [msg]. *)
Definition nl_addr_alloc_attr (msg : list Z) (nla family : Z) : H Z :=
  bs <- sget (λ _, payload msg nla) ;;
  nl_addr_build family bs (zlen bs).

Definition nl_addr_clone (p : Z) : H Z :=
  a <- addr_at p ;;
  q <- nl_addr_build (a_family a) (a_addr a) (a_len a) ;;
  if q =? 0 then sret 0
  else
    b <- addr_at q ;;
    addr_set q (nl_addr_set_prefixlen (a_prefixlen a) b) ;;
    sret q.

Definition set_arefs (n : Z) (a : nl_addr) : nl_addr :=
  mkNlAddr (a_family a) (a_maxsize a) (a_len a) (a_prefixlen a) n (a_addr a).

Definition nl_addr_get (p : Z) : H Z :=
  a <- addr_at p ;; addr_set p (set_arefs (a_refcnt a + 1) a) ;; sret p.

Definition addr_destroy (p : Z) : H unit :=
  if p =? 0 then sret tt
  else
    a <- addr_at p ;;
    if negb (a_refcnt a =? 1) then scrash else smodify (delete p).

Definition nl_addr_put (p : Z) : H unit :=
  if p =? 0 then sret tt
  else
    a <- addr_at p ;;
    if a_refcnt a =? 1 then addr_destroy p else addr_set p (set_arefs (a_refcnt a - 1) a).

Definition nl_addr_shared (p : Z) : H bool := a <- addr_at p ;; sret (1 <? a_refcnt a).
End Heap.

(** ** Abstract data

    [None] as a result is an access outside of a buffer; the flags tell whether memory is
    left. *)

(** [struct nl_data]; [d_data] is [None] for NULL. *)
Record nl_data := mkData { d_size : Z; d_data : option (list Z) }.

(** The first [size] bytes of [buf], or zeros for NULL. *)
Definition source (buf : option (list Z)) (size : Z) : option (list Z) :=
  match buf with
  | Some bs => if zlen bs <? size then None else Some (take (Z.to_nat size) bs)
  | None => Some (replicate (Z.to_nat size) 0)
  end.

(** The new handle; [Some None] for NULL. *)
Definition nl_data_alloc (data_ok buf_ok : bool) (buf : option (list Z)) (size : Z) : option (option nl_data) :=
  if negb data_ok then Some None
  else if negb buf_ok then Some None
  else bs ← source buf size; Some (Some (mkData size (Some bs))).

(** The attribute at the offset [nla] of [msg]. *)
Definition nl_data_alloc_attr (data_ok buf_ok : bool) (msg : list Z) (nla : Z) : option (option nl_data) :=
  bs ← payload msg nla; nl_data_alloc data_ok buf_ok (Some bs) (zlen bs).

Definition nl_data_clone (data_ok buf_ok : bool) (src : nl_data) : option (option nl_data) :=
  nl_data_alloc data_ok buf_ok (d_data src) (d_size src).

(** [realloc] keeps the bytes there are, or fails. *)
Definition nl_data_append (realloc_ok : bool) (data : nl_data) (buf : option (list Z)) (size : Z)
    : option (Z * nl_data) :=
  if 0 <? size then
    if negb realloc_ok then Some (- NLE_NOMEM, mkData (d_size data) None)
    else
      let old := default [] (d_data data) in
      bs ← source buf size;
      Some (0, mkData (d_size data + size) (Some (old ++ bs)))
  else Some (0, data).

Definition nl_data_get (data : nl_data) : option (list Z) := if 0 <? d_size data then d_data data else None.
Definition nl_data_get_size (data : nl_data) : Z := d_size data.

Definition nl_data_cmp (a b : nl_data) : option Z :=
  match nl_data_get a, nl_data_get b with
  | Some x, Some y => memcmp x y (nl_data_get_size a)
  | _, _ => Some (-1)
  end.

(** ** The bytes of a handle *)

(** The handle has the bytes [l]. *)
Record data_is (d : nl_data) (l : list Z) : Prop := {
  di_size : d_size d = zlen l;
  di_data : d_data d = Some l;
}.

Lemma source_all l : source (Some l) (zlen l) = Some l.
Proof. unfold source. rewrite Z.ltb_irrefl, take_ge; [done|]. unfold zlen. lia. Qed.

Lemma data_alloc_ok l : ∃ d, nl_data_alloc true true (Some l) (zlen l) = Some (Some d) ∧ data_is d l.
Proof. unfold nl_data_alloc. cbn [negb]. rewrite source_all, some_bind. by eexists. Qed.

Lemma data_clone_ok d l : data_is d l → ∃ d', nl_data_clone true true d = Some (Some d') ∧ data_is d' l.
Proof. intros [Hs Hd]. unfold nl_data_clone. rewrite Hs, Hd. apply data_alloc_ok. Qed.

Lemma data_append_ok d l k :
  data_is d l → ∃ d', nl_data_append true d (Some k) (zlen k) = Some (0, d') ∧ data_is d' (l ++ k).
Proof.
  intros [Hs Hd]. unfold nl_data_append. destruct (Z.ltb_spec 0 (zlen k)) as [Hk|Hk].
  - cbn [negb]. rewrite source_all, some_bind, Hd. eexists. split; [done|]. split; cbn; [|done].
    rewrite Hs. unfold zlen. rewrite length_app. lia.
  - destruct k; [|unfold zlen in Hk; cbn in Hk; lia]. rewrite app_nil_r. by exists d.
Qed.

(** Handles of the same size compare equal when they have the same bytes, except empty ones. *)
Lemma data_cmp_ok a b x y :
  data_is a x → data_is b y → zlen x = zlen y → 0 < zlen x → ∃ r, nl_data_cmp a b = Some r ∧ (r = 0 ↔ x = y).
Proof.
  intros [Sa Da] [Sb Db] Hl H0. unfold nl_data_cmp, nl_data_get, nl_data_get_size. rewrite Sa, Sb, Da, Db, <- Hl.
  decide_test (0 <? zlen x) true. unfold memcmp. rewrite Hl, !Z.ltb_irrefl.
  cbn [orb]. eexists. split; [done|]. rewrite !take_ge by (unfold zlen in *; lia). apply memcmp_zero. unfold zlen in *. lia.
Qed.
