(* ===== verification/AddrOk.v ===== *)
(** * What the functions on addresses do

    Comparison, the round trip through text, and reference counts of [lib/addr.c]: a program
    that only uses addresses it holds never crashes, the count of an address is the number of
    references that are held, and an address that is copied is a new one with the same
    contents. *)

From stdpp Require Import strings.
From S2P Require Import Prelude Packet Netlink NlError Text Attr CStr Addr.
Import Nl.

(** ** Comparison *)

(** The bytes in use. *)
Definition binary (a : nl_addr) : list Z := take (Z.to_nat (a_len a)) (a_addr a).

Record addr_wf (a : nl_addr) : Prop := {
  aw_mem : zlen (a_addr a) = a_maxsize a;
  aw_len : 0 ≤ a_len a ≤ a_maxsize a;
  aw_max : a_maxsize a < 2 ^ 28;
  aw_family : - 2 ^ 31 ≤ a_family a < 2 ^ 31;
  aw_bytes : Forall is_byte (a_addr a);
}.

Lemma s32_sub_zero x y : - 2 ^ 31 ≤ x < 2 ^ 31 → - 2 ^ 31 ≤ y < 2 ^ 31 → s32 (x - y) = 0 ↔ x = y.
Proof.
  intros Hx Hy. split; [|intros ->; by rewrite Z.sub_diag]. intros E.
  assert ((x - y) mod 2 ^ 32 = 0) as Hm by (rewrite <- s32_mod, E; done).
  apply Z.mod_divide in Hm as [k Hk]; [|done]. nia.
Qed.

Lemma zlen_binary a : addr_wf a → zlen (binary a) = a_len a.
Proof. intros [Hm Hl _ _ _]. unfold binary, zlen in *. rewrite length_take. lia. Qed.

(** The comparison is 0 for equal addresses and for no others. *)
Lemma cmp_zero a b :
  addr_wf a → addr_wf b →
  ∃ d, nl_addr_cmp a b = Some d ∧ (d = 0 ↔ a_family a = a_family b ∧ binary a = binary b).
Proof.
  intros Ha Hb. pose proof (zlen_binary a Ha) as La. pose proof (zlen_binary b Hb) as Lb.
  pose proof Ha as [Hma Hla Hxa Hfa _]. pose proof Hb as [Hmb Hlb Hxb Hfb _]. unfold nl_addr_cmp.
  pose proof (s32_sub_zero (a_family a) (a_family b) Hfa Hfb) as Hf.
  destruct (Z.eqb_spec (s32 (a_family a - a_family b)) 0) as [E|E].
  2: { eexists. split; [done|]. split; [done|]. intros [Ef _]. by apply Hf in Ef. }
  pose proof (s32_sub_zero (a_len a) (a_len b) ltac:(lia) ltac:(lia)) as Hl.
  destruct (Z.eqb_spec (s32 (a_len a - a_len b)) 0) as [E'|E']; [|rewrite andb_false_r; eexists; split; [done|] ].
  - rewrite andb_true_r. apply Hl in E'. destruct (Z.eqb_spec (a_len a) 0) as [Ez|Ez]; cbn [negb].
    + eexists. split; [done|]. rewrite E', Z.sub_diag. split; [|done]. intros _. split; [by apply Hf|].
      unfold binary. by rewrite <- E', Ez.
    + unfold memcmp. decide_test (zlen (a_addr a) <? a_len a) false. decide_test (zlen (a_addr b) <? a_len a) false.
      cbn [orb]. eexists. split; [done|]. change (take (Z.to_nat (a_len a)) (a_addr a)) with (binary a).
      rewrite E'. change (take (Z.to_nat (a_len b)) (a_addr b)) with (binary b).
      rewrite memcmp_zero by (unfold zlen in *; lia). split; [intros ?; split; [by apply Hf|done]|by intros [_ ?] ].
  - split; [done|]. intros [_ Eb]. apply Hl. rewrite Eb in La. lia.
Qed.

(** The bits of an address, in the order of the network. *)
Definition bit_at (l : list Z) (i : Z) : bool := Z.testbit (znth l (i / 8)) (7 - i mod 8).

(** What the comparison of prefixes looks at: the whole bytes of the prefix, and the {e low}
    bits of the next byte. *)
Lemma cmp_prefix_val a b :
  addr_wf a → addr_wf b →
  let len := Z.min (a_prefixlen a) (a_prefixlen b) in
  0 ≤ len < 8 * Z.min (a_maxsize a) (a_maxsize b) → a_family a = a_family b →
  ∃ d, nl_addr_cmp_prefix a b = Some d ∧
    (d = 0 ↔ take (Z.to_nat (len / 8)) (a_addr a) = take (Z.to_nat (len / 8)) (a_addr b) ∧
             znth (a_addr a) (len / 8) mod 2 ^ (len mod 8) = znth (a_addr b) (len / 8) mod 2 ^ (len mod 8)).
Proof.
  intros [Hma _ _ _ _] [Hmb _ _ _ _] len Hlen Hf. unfold nl_addr_cmp_prefix. rewrite Hf, Z.sub_diag.
  change (s32 0 =? 0) with true. cbv iota zeta. fold len. decide_test (len <? 0) false.
  assert (0 ≤ len / 8 < Z.min (a_maxsize a) (a_maxsize b)) as Hq.
  { split; [apply Z.div_pos; lia|]. apply Z.div_lt_upper_bound; lia. }
  unfold memcmp. decide_test (zlen (a_addr a) <? len / 8) false. decide_test (zlen (a_addr b) <? len / 8) false. cbn [orb].
  rewrite some_bind.
  assert (length (take (Z.to_nat (len / 8)) (a_addr a)) = length (take (Z.to_nat (len / 8)) (a_addr b))) as Hl.
  { rewrite !length_take. unfold zlen in *. lia. }
  pose proof (memcmp_zero _ _ Hl) as Hc. set (d := c_memcmp _ _) in *.
  destruct (Z.eqb_spec d 0) as [Ed|Ed]; [|eexists; split; [done|]; split; [done|]; intros [? _]; by apply Hc].
  assert (∀ l, zlen l = a_maxsize a ∨ zlen l = a_maxsize b → byte l (len / 8) = Some (znth l (len / 8))) as Hby.
  { intros l Hll. unfold byte, znth. decide_test (len / 8 <? 0) false.
    destruct (l !! Z.to_nat (len / 8)) as [x|] eqn:E; [by rewrite (nth_lookup_Some _ _ _ _ E)|].
    apply lookup_ge_None in E. unfold zlen in *. lia. }
  rewrite !Hby, !some_bind by auto. eexists. split; [done|]. pose proof (Z.mod_pos_bound len 8 ltac:(lia)).
  replace (Z.shiftl 1 (len mod 8) - 1) with (Z.ones (len mod 8)) by (rewrite Z.ones_equiv, Z.shiftl_1_l; lia).
  rewrite !Z.land_ones by lia. split; [intros ?; split; [by apply Hc|lia]|intros [_ ->]; lia].
Qed.

(** For a prefix of whole bytes these are the bits of the prefix. *)
Lemma bits_of_bytes n : ∀ l l' : list Z,
  Forall is_byte l → Forall is_byte l' → n ≤ zlen l → n ≤ zlen l' → 0 ≤ n →
  take (Z.to_nat n) l = take (Z.to_nat n) l' ↔ ∀ i, 0 ≤ i < 8 * n → bit_at l i = bit_at l' i.
Proof.
  intros l l' Hb Hb' Hn Hn' H0. split.
  - intros E i Hi. unfold bit_at. f_equal. unfold znth.
    assert (0 ≤ i / 8 < n) by (split; [apply Z.div_pos; lia|apply Z.div_lt_upper_bound; lia]).
    rewrite <- (take_drop (Z.to_nat n) l), <- (take_drop (Z.to_nat n) l'), E.
    rewrite !app_nth1; [done|rewrite length_take; unfold zlen in *; lia..].
  - intros E. apply list_eq. intros k. destruct (decide (k < Z.to_nat n)%nat) as [Hk|Hk].
    + rewrite !lookup_take_lt by done.
      assert (is_Some (l !! k)) as [x Hx] by (apply lookup_lt_is_Some; unfold zlen in *; lia).
      assert (is_Some (l' !! k)) as [y Hy] by (apply lookup_lt_is_Some; unfold zlen in *; lia).
      rewrite Hx, Hy. f_equal. pose proof (Forall_lookup_1 _ _ _ _ Hb Hx) as Bx. pose proof (Forall_lookup_1 _ _ _ _ Hb' Hy) as By.
      unfold is_byte in *. apply Z.bits_inj'. intros j Hj. destruct (Z.lt_ge_cases j 8) as [Hj8|Hj8].
      * specialize (E (8 * Z.of_nat k + (7 - j)) ltac:(lia)). unfold bit_at, znth in E.
        replace (8 * Z.of_nat k + (7 - j)) with ((7 - j) + Z.of_nat k * 8) in E by lia.
        rewrite Z.div_add, Z.mod_add, Z.div_small, Z.mod_small, Z.add_0_l, Nat2Z.id in E by lia.
        rewrite (nth_lookup_Some _ _ _ _ Hx), (nth_lookup_Some _ _ _ _ Hy) in E. by replace (7 - (7 - j)) with j in E by lia.
      * rewrite !Z.bits_above_log2; [done|lia| |lia|].
        -- destruct (Z.eq_dec y 0) as [->|]; [cbn; lia|]. enough (Z.log2 y < 8) by lia. apply Z.log2_lt_pow2; lia.
        -- destruct (Z.eq_dec x 0) as [->|]; [cbn; lia|]. enough (Z.log2 x < 8) by lia. apply Z.log2_lt_pow2; lia.
    + rewrite !lookup_take_ge by lia. done.
Qed.

(** ** The characters of addresses *)

Definition addr_char (c : Z) : Prop := digit c < 16 ∨ c = 46 ∨ c = 58.

Lemma addr_char_not c : addr_char c → c ≠ 0 ∧ c ≠ 47.
Proof. intros Hc. split; intros ->; destruct Hc as [Hc|[?|?] ]; try done; by vm_compute in Hc. Qed.

Lemma addr_chars_nul s : Forall addr_char s → 0 ∉ s.
Proof. intros Hs Hin. rewrite list.Forall_forall in Hs. by destruct (addr_char_not 0 (Hs 0 Hin)). Qed.

(** The words for special addresses have a letter that is no digit. *)
Lemma not_word s w c : Forall addr_char s → c ∈ w → c = 110 ∨ c = 108 → case_eq s w = false.
Proof.
  intros Hs Hc Hor. unfold case_eq. apply bool_decide_eq_false. intros E.
  assert (c ∈ map lower s) as Hin.
  { rewrite E. apply list_elem_of_In, in_map_iff. exists c. split; [by destruct Hor as [->| ->]|by apply list_elem_of_In]. }
  apply list_elem_of_In, in_map_iff in Hin as (x & Ex & Hx%list_elem_of_In). rewrite list.Forall_forall in Hs. specialize (Hs x Hx).
  assert (x = c ∨ x = c - 32) as Hxc.
  { unfold lower in Ex. destruct ((65 <=? x) && (x <=? 90)); lia. }
  destruct Hor as [->| ->], Hxc as [->| ->], Hs as [Hd|[?|?] ]; try lia; by vm_compute in Hd.
Qed.

Lemma not_words s :
  Forall addr_char s →
  case_eq s (text "none") = false ∧
  case_eq s (text "default") || case_eq s (text "all") || case_eq s (text "any") = false.
Proof.
  intros Hs. rewrite (not_word s (text "none") 110), (not_word s (text "default") 108), (not_word s (text "all") 108),
    (not_word s (text "any") 110); first [done|by left|by right|idtac]; apply list_elem_of_In; vm_compute; tauto.
Qed.

Lemma fmt_02x_addr b : Forall addr_char (fmt_02x b).
Proof.
  rewrite fmt_02x_chars. pose proof (Z.mod_pos_bound (b / 16) 16 ltac:(lia)). pose proof (Z.mod_pos_bound b 16 ltac:(lia)).
  apply list.Forall_cons. split; [left; rewrite hex_char_digit; lia|].
  apply list.Forall_cons. split; [left; rewrite hex_char_digit; lia|apply Forall_nil].
Qed.

(** ** Bytes with colons *)

Definition colons (bs : list Z) : list Z := concat (map (λ b, 58 :: fmt_02x b) bs).

Lemma colons_addr bs : Forall addr_char (colons bs).
Proof.
  induction bs as [|b bs IH]; [apply Forall_nil|]. change (colons (b :: bs)) with (58 :: fmt_02x b ++ colons bs).
  apply list.Forall_cons. split; [by right; right|]. apply Forall_app. split; [apply fmt_02x_addr|done].
Qed.

Lemma zlen_colons bs : zlen (colons bs) = 3 * zlen bs.
Proof.
  unfold zlen. induction bs as [|b bs IH]; [done|]. change (colons (b :: bs)) with (58 :: fmt_02x b ++ colons bs).
  cbn [length app]. rewrite length_app. change (length (fmt_02x b)) with 2%nat. lia.
Qed.

Lemma colon_bytes_ok bs : ∀ buf size t,
  holds size buf t → zlen t + zlen (colons bs) < size → size < 2 ^ 63 →
  ∃ buf', colon_bytes buf size bs = Some buf' ∧ holds size buf' (t ++ colons bs).
Proof.
  induction bs as [|b bs IH]; intros buf size t Hh Hl Hs; [exists buf; by rewrite app_nil_r|].
  cbn [colon_bytes]. rewrite zlen_colons in Hl. change (zlen (b :: bs)) with (Z.of_nat (S (length bs))) in Hl.
  destruct (append_whole buf size t (58 :: fmt_02x b) Hh) as (buf1 & E1 & Hh1).
  { change (zlen (58 :: fmt_02x b)) with 3. lia. }
  { done. }
  { apply addr_chars_nul. apply list.Forall_cons. split; [by right; right|apply fmt_02x_addr]. }
  rewrite E1, some_bind. destruct (IH buf1 size _ Hh1) as (buf' & E & Hh').
  - rewrite zlen_app, zlen_colons. change (zlen (58 :: fmt_02x b)) with 3. unfold zlen in *. lia.
  - done.
  - exists buf'. split; [done|]. by rewrite <- app_assoc in Hh'.
Qed.

Lemma scan_colon_step n s :
  scan_colon (S (S n)) s =
  (r ← scan_02x s; match r.2 with 58 :: s => l ← scan_colon (S n) s; Some (r.1 :: l) | _ => None end).
Proof. done. Qed.

Lemma scan_colon_ok bs : ∀ b,
  Forall is_byte (b :: bs) → scan_colon (S (length bs)) (fmt_02x b ++ colons bs) = Some (b :: bs).
Proof.
  induction bs as [|b' bs IH]; intros b Hb; apply list.Forall_cons in Hb as [Hb Hbs]; cbn [length].
  - cbn [scan_colon]. by rewrite scan_02x_ok, some_bind.
  - rewrite scan_colon_step, scan_02x_ok, some_bind by done. cbn [fst snd].
    change (colons (b' :: bs)) with (58 :: fmt_02x b' ++ colons bs). cbv iota. by rewrite IH.
Qed.

Lemma u8_bytes bs : Forall is_byte bs → map u8 bs = bs.
Proof. induction 1 as [|b bs Hb _ IH]; [done|]. cbn. rewrite IH. f_equal. apply Z.mod_small. unfold is_byte in Hb. lia. Qed.

(** ** DECnet *)

(** The digits that [do_digit] writes. *)
Fixpoint dig_text (n : Z) (scales : list Z) (started : bool) : list Z :=
  match scales with
  | [] => []
  | scale :: scales =>
      if (0 <? n / scale) || started || (scale =? 1) then n / scale + 48 :: dig_text (n - n / scale * scale) scales true
      else dig_text n scales started
  end.

Lemma dig_text_len scales : ∀ n started, (length (dig_text n scales started) ≤ length scales)%nat.
Proof.
  induction scales as [|scale scales IH]; intros n started; [done|]. cbn [dig_text].
  destruct (_ || _); cbn [length]; [specialize (IH (n - n / scale * scale) true)|specialize (IH n started)]; lia.
Qed.

Lemma do_digits_ok scales : ∀ t old n len started,
  zlen (t ++ old) = len → zlen t + zlen scales < len →
  ∃ old', do_digits (t ++ old) n scales (zlen t) len started =
    Some (inl ((t ++ dig_text n scales started) ++ old', zlen (t ++ dig_text n scales started))) ∧
    zlen ((t ++ dig_text n scales started) ++ old') = len.
Proof.
  induction scales as [|scale scales IH]; intros t old n len started Hl Hlt; cbn [do_digits dig_text].
  { exists old. by rewrite app_nil_r. }
  change (zlen (scale :: scales)) with (Z.of_nat (S (length scales))) in Hlt. unfold do_digit.
  decide_test (zlen t =? len) false. destruct ((0 <? n / scale) || started || (scale =? 1)).
  - destruct old as [|x old]; [rewrite app_nil_r in Hl; lia|].
    rewrite (st_mid t [x] old) by done. rewrite !some_bind.
    destruct (IH (t ++ [n / scale + 48]) old (n - n / scale * scale) len true) as (old' & E & Hl').
    + unfold zlen in *. rewrite !length_app in *. simpl in *. lia.
    + unfold zlen in *. rewrite length_app. simpl. lia.
    + assert (∀ l, (t ++ [n / scale + 48]) ++ l = t ++ n / scale + 48 :: l) as Ha by (intros l; by rewrite <- app_assoc).
      rewrite (Ha old), (Ha (dig_text _ _ _)) in E. rewrite (Ha (dig_text _ _ _)) in Hl'. rewrite (zlen_app t [_]) in E. change (zlen [n / scale + 48]) with 1 in E. by exists old'.
  - rewrite some_bind. apply IH; [done|unfold zlen in *; lia].
Qed.

Definition dnet_text (w : Z) : list Z :=
  dig_text (Z.shiftr w 10) [10; 1] false ++ 46 :: dig_text (Z.land w 0x3ff) [1000; 100; 10; 1] false.

Lemma check_range (P : Z → bool) n : forallb P (seqZ 0 n) = true → ∀ k, 0 ≤ k < n → P k = true.
Proof. intros Hf k Hk. rewrite forallb_forall in Hf. apply Hf, list_elem_of_In, elem_of_seqZ. lia. Qed.

(** The digits of a number are digits, and are read back. *)
Definition digits_good (scales : list Z) (n : Z) : bool :=
  let s := dig_text n scales false in
  forallb (λ c, (48 <=? c) && (c <=? 57)) s && bool_decide (dnet_num 0 0 s = (zlen s, n)) && negb (zlen s =? 0).

Lemma digits_read scales n :
  digits_good scales n = true →
  let s := dig_text n scales false in
  Forall addr_char s ∧ dnet_num 0 0 s = (zlen s, n) ∧ 0 < zlen s.
Proof.
  unfold digits_good. set (s := dig_text n scales false). intros Hg.
  apply andb_true_iff in Hg as [ [Hg Hn%bool_decide_eq_true_1]%andb_true_iff Hl%negb_true_iff].
  apply Z.eqb_neq in Hl. pose proof (zlen_nonneg s). split; [|split; [done|lia] ].
  apply list.Forall_forall. intros c Hc%list_elem_of_In. rewrite forallb_forall in Hg. specialize (Hg c Hc).
  apply andb_true_iff in Hg as [H1%Z.leb_le H2%Z.leb_le]. left. unfold digit.
  decide_test (48 <=? c) true. decide_test (c <=? 57) true. simpl. lia.
Qed.

Lemma area_read n : 0 ≤ n < 64 → digits_good [10; 1] n = true.
Proof. apply check_range. vm_compute. reflexivity. Qed.

Lemma node_read n : 0 ≤ n < 1024 → digits_good [1000; 100; 10; 1] n = true.
Proof. apply check_range. vm_compute. reflexivity. Qed.

Lemma dnet_num_stop c t s : ∀ dst rv, c < 48 ∨ 57 < c → dnet_num dst rv (s ++ c :: t) = dnet_num dst rv s.
Proof.
  induction s as [|x s IH]; intros dst rv Hc; cbn [app dnet_num].
  - destruct (Z.ltb_spec (c - 48) 0), (Z.ltb_spec 9 (c - 48)); try done; lia.
  - destruct (_ || _); [done|]. by apply IH.
Qed.

Lemma word_parts w : 0 ≤ w < 2 ^ 16 →
  0 ≤ Z.shiftr w 10 < 64 ∧ 0 ≤ Z.land w 0x3ff < 1024 ∧ Z.lor (Z.shiftl (Z.shiftr w 10) 10) (Z.land w 0x3ff) = w.
Proof.
  intros Hw. change 0x3ff with (Z.ones 10). rewrite Z.shiftr_div_pow2, Z.land_ones by lia.
  split; [|split].
  - split; [apply Z.div_pos; lia|]. apply Z.div_lt_upper_bound; lia.
  - apply Z.mod_pos_bound. lia.
  - rewrite <- Z.shiftr_div_pow2, <- Z.land_ones by lia. apply Z.bits_inj'. intros i Hi.
    rewrite Z.lor_spec, Z.land_spec. destruct (Z.lt_ge_cases i 10).
    + rewrite Z.shiftl_spec_low, Z.ones_spec_low, andb_true_r by lia. done.
    + rewrite Z.shiftl_spec_high, Z.shiftr_spec, Z.ones_spec_high, andb_false_r, orb_false_r by lia. f_equal. lia.
Qed.

Lemma dnet_text_ok w :
  0 ≤ w < 2 ^ 16 →
  Forall addr_char (dnet_text w) ∧ has_char 46 (dnet_text w) = true ∧ zlen (dnet_text w) ≤ 7 ∧
  dnet_pton (dnet_text w) = Some (le_split 2 w).
Proof.
  intros Hw. destruct (word_parts w Hw) as (Ha & Hn & Ew).
  destruct (digits_read _ _ (area_read _ Ha)) as (Ca & Na & La). destruct (digits_read _ _ (node_read _ Hn)) as (Cn & Nn & Ln).
  pose proof (dig_text_len [10; 1] (Z.shiftr w 10) false) as Sa.
  pose proof (dig_text_len [1000; 100; 10; 1] (Z.land w 0x3ff) false) as Sn.
  unfold dnet_text. set (s := dig_text (Z.shiftr w 10) [10; 1] false) in *.
  set (t := dig_text (Z.land w 0x3ff) [1000; 100; 10; 1] false) in *. split; [|split; [|split] ].
  - apply Forall_app. split; [done|]. apply list.Forall_cons. split; [by right; left|done].
  - unfold has_char. apply existsb_exists. exists 46. split; [|done]. apply in_or_app. right. by left.
  - unfold zlen. rewrite length_app. simpl in *. lia.
  - unfold dnet_pton. rewrite dnet_num_stop, Na by lia. cbn [fst snd].
    assert (znth (s ++ 46 :: t) (zlen s) = 46) as Ez.
    { unfold znth, zlen. by rewrite Nat2Z.id, nth_middle. }
    rewrite Ez. decide_test (zlen s =? 0) false. decide_test (63 <? Z.shiftr w 10) false. cbn [orb Z.eqb Pos.eqb negb andb].
    replace (Z.to_nat (zlen s + 1)) with (S (length s)) by (unfold zlen; lia).
    assert (drop (S (length s)) (s ++ 46 :: t) = t) as ->.
    { change (46 :: t) with ([46] ++ t). rewrite app_assoc. apply drop_app_length'. rewrite length_app. simpl. lia. }
    rewrite Nn. cbn [fst snd]. decide_test (zlen t =? 0) false. decide_test (1023 <? Z.land w 1023) false. cbn [orb]. by rewrite Ew.
Qed.

Lemma dnet_ntop_ok b0 b1 buf size :
  is_byte b0 → is_byte b1 → zlen buf = size → 16 ≤ size →
  ∃ buf', dnet_ntop [b0; b1] 2 buf size = Some buf' ∧ holds size buf' (dnet_text (le_combine [b0; b1])).
Proof.
  intros H0 H1 Hb Hs. unfold dnet_ntop. change (ld 2 [b0; b1] 0) with (ld 2 ([b0; b1] ++ []) 0).
  rewrite ld_head, some_bind by done. set (w := le_combine [b0; b1]).
  assert (0 ≤ w < 2 ^ 16) as Hw.
  { apply (le_combine_range [b0; b1]). apply list.Forall_cons. split; [done|]. apply list.Forall_cons. split; [done|apply Forall_nil]. }
  destruct (dnet_text_ok w Hw) as (Hc & _ & Hl & _).
  change (negb (2 =? 2)) with false. cbv iota zeta. decide_test (size =? 0) false.
  destruct (do_digits_ok [10; 1] [] buf (Z.shiftr w 10) size false) as (o1 & E1 & L1); [done|change (zlen [10; 1]) with 2; change (zlen []) with 0; lia|].
  cbn [app] in E1, L1. change (zlen []) with 0 in E1. rewrite E1, some_bind. clear E1.
  pose proof (dig_text_len [10; 1] (Z.shiftr w 10) false) as Sa. unfold dnet_text in *.
  set (s := dig_text (Z.shiftr w 10) [10; 1] false) in *. simpl in Sa.
  rewrite (proj2 (Z.eqb_neq (zlen s) size)) by (unfold zlen in *; lia).
  destruct o1 as [|x o1]; [rewrite app_nil_r in L1; unfold zlen in *; lia|].
  rewrite (st_mid s [x] o1), some_bind by done.
  destruct (do_digits_ok [1000; 100; 10; 1] (s ++ [46]) o1 (Z.land w 0x3ff) size false) as (o2 & E2 & L2).
  { unfold zlen in *. rewrite !length_app in *. simpl in *. lia. }
  { change (zlen [1000; 100; 10; 1]) with 4. unfold zlen. rewrite length_app. simpl. lia. }
  rewrite zlen_app in E2 at 1. change (zlen [46]) with 1 in E2. rewrite <- app_assoc in E2 at 1. rewrite E2, some_bind. clear E2.
  pose proof (dig_text_len [1000; 100; 10; 1] (Z.land w 0x3ff) false) as Sn.
  set (t := dig_text (Z.land w 0x3ff) [1000; 100; 10; 1] false) in *. simpl in Sn.
  assert ((s ++ [46]) ++ t = s ++ 46 :: t) as Et by (by rewrite <- app_assoc). rewrite Et in *.
  decide_test (zlen (s ++ 46 :: t) =? size) false.
  destruct o2 as [|y o2]; [rewrite app_nil_r in L2; unfold zlen in *; lia|].
  rewrite (st_mid (s ++ 46 :: t) [y] o2) by done. eexists. split; [done|]. split.
  - rewrite <- L2. unfold zlen. rewrite !length_app. simpl. lia.
  - by eexists.
  - by apply addr_chars_nul.
Qed.

(** ** The round trip *)

Section Roundtrip.
Context `{Inet}.

(** The sizes of the addresses that are printed and parsed by their family. *)
Definition family_size (f : Z) : option Z :=
  if f =? AF_INET then Some 4 else if f =? AF_INET6 then Some 16
  else if f =? AF_DECnet then Some 2 else if f =? AF_LLC then Some 6 else None.

(** [inet_ntop] writes hexadecimal digits, dots and colons, at most 45 characters, and
    [inet_pton] reads the address back. *)
Record inet_ok : Prop := {
  io_chars : ∀ f bs, f = AF_INET ∨ f = AF_INET6 → family_size f = Some (zlen bs) → Forall is_byte bs →
    Forall addr_char (inet_ntop f bs) ∧ zlen (inet_ntop f bs) ≤ 45;
  io_back : ∀ f bs, f = AF_INET ∨ f = AF_INET6 → family_size f = Some (zlen bs) → Forall is_byte bs →
    inet_pton f (inet_ntop f bs) = Some bs;
}.

Record printable (a : nl_addr) : Prop := {
  pr_refs : a_refcnt a = 1;
  pr_size : a_maxsize a = a_len a ∧ zlen (a_addr a) = a_len a;
  pr_family : family_size (a_family a) = Some (a_len a);
  pr_bytes : Forall is_byte (a_addr a);
  pr_prefix : 0 ≤ a_prefixlen a < 2 ^ 31;
}.

(** The text without the prefix length. *)
Lemma addr_text_ok a buf size :
  inet_ok → printable a → zlen buf = size → 64 ≤ size < 2 ^ 63 →
  ∃ buf' s, addr_text a buf size = Some buf' ∧ holds size buf' s ∧ Forall addr_char s ∧ zlen s ≤ 45 ∧
    parse_addr s (a_family a) = inl (a_family a, a_len a, Some (a_addr a)).
Proof.
  intros [Hch Hbk] [_ [_ Hsz] Hfam Hby _] Hb Hs. unfold addr_text. destruct a as [f m len pl rc bs]. cbn [a_family a_len a_addr] in *.
  assert (Z.to_nat len = length bs) as Elen by (unfold zlen in Hsz; lia).
  assert ((f = AF_INET ∨ f = AF_INET6) ∧ len = (if f =? AF_INET then 4 else 16) ∨ f = AF_DECnet ∧ len = 2 ∨ f = AF_LLC ∧ len = 6) as Hc.
  { unfold family_size in Hfam. destruct (Z.eqb_spec f AF_INET); [left; split; [by left|congruence]|].
    destruct (Z.eqb_spec f AF_INET6); [left; split; [by right|congruence]|].
    destruct (Z.eqb_spec f AF_DECnet); [right; left; split; congruence|].
    destruct (Z.eqb_spec f AF_LLC); [right; right; split; congruence|done]. }
  destruct Hc as [ [Hf El]|[ [-> ->]|[-> ->] ] ].
  - assert ((f =? AF_INET) || (f =? AF_INET6) = true) as -> by (by destruct Hf as [->| ->]). rewrite <- El.
    decide_test (zlen bs <? len) false. rewrite Elen, firstn_all.
    rewrite <- Hsz in Hfam. destruct (Hch f bs Hf Hfam Hby) as [Hcs Hl]. pose proof (Hbk f bs Hf Hfam Hby) as Eb.
    unfold write_inet. decide_test (size <=? zlen (inet_ntop f bs)) false.
    destruct (snprintf_whole buf size (inet_ntop f bs)) as (buf' & E & Hh); [done|lia|by apply addr_chars_nul|].
    unfold snprintf in E. rewrite (proj2 (Z.eqb_neq size 0)), take_ge in E by (unfold zlen in *; lia).
    exists buf', (inet_ntop f bs). split; [done|]. split; [done|]. split; [done|]. split; [done|].
    destruct (not_words _ Hcs) as [W1 W2]. unfold parse_addr. rewrite W1, W2.
    destruct Hf as [->| ->]; cbn [AF_INET AF_INET6 AF_UNSPEC Z.eqb Pos.eqb orb] in *; rewrite Eb; by rewrite El.
  - destruct bs as [|b0 [|b1 [|] ] ]; try done. apply list.Forall_cons in Hby as [B0 [B1 _]%list.Forall_cons].
    cbn [AF_DECnet AF_INET AF_INET6 Z.eqb Pos.eqb orb].
    assert (0 ≤ le_combine [b0; b1] < 2 ^ 16) as Hw by (apply (le_combine_range [b0; b1]); by repeat apply Forall_cons_2).
    destruct (dnet_text_ok _ Hw) as (Hcs & Hdot & Hl & Hp).
    destruct (dnet_ntop_ok b0 b1 buf size B0 B1 Hb ltac:(lia)) as (buf' & E & Hh).
    exists buf', (dnet_text (le_combine [b0; b1])). split; [done|]. split; [done|]. split; [done|]. split; [lia|].
    destruct (not_words _ Hcs) as [W1 W2]. unfold parse_addr. rewrite W1, W2.
    cbn [AF_DECnet AF_INET AF_INET6 AF_UNSPEC AF_LLC Z.eqb Pos.eqb orb andb]. rewrite Hdot, Hp. cbn [orb].
    do 3 f_equal. apply (le_split_combine [b0; b1]). by repeat apply Forall_cons_2.
  - destruct bs as [|b bs]; [done|]. cbn [AF_LLC AF_DECnet AF_INET AF_INET6 Z.eqb Pos.eqb orb].
    rewrite (proj2 (Z.ltb_ge (zlen (b :: bs)) 6)) by lia. rewrite Elen, firstn_all.
    destruct (snprintf_whole buf size (fmt_02x b) Hb) as (buf1 & E1 & Hh1); [change (zlen (fmt_02x b)) with 2; lia|apply addr_chars_nul, fmt_02x_addr|].
    rewrite E1, some_bind. assert (zlen bs = 5) as Hl5 by (unfold zlen in *; simpl in *; lia).
    destruct (colon_bytes_ok bs buf1 size (fmt_02x b) Hh1) as (buf' & E & Hh); [rewrite zlen_colons; change (zlen (fmt_02x b)) with 2; lia|lia|].
    assert (Forall addr_char (fmt_02x b ++ colons bs)) as Hcs by (apply Forall_app; split; [apply fmt_02x_addr|apply colons_addr]).
    exists buf', (fmt_02x b ++ colons bs). split; [done|]. split; [done|]. split; [done|].
    split; [rewrite zlen_app, zlen_colons; change (zlen (fmt_02x b)) with 2; lia|].
    destruct (not_words _ Hcs) as [W1 W2]. unfold parse_addr. rewrite W1, W2.
    assert (has_char 58 (fmt_02x b ++ colons bs) = true) as ->.
    { destruct bs as [|b' bs]; [done|]. unfold has_char. apply existsb_exists. exists 58. split; [|done]. apply in_or_app. right. by left. }
    cbn [AF_DECnet AF_INET AF_INET6 AF_UNSPEC AF_LLC Z.eqb Pos.eqb orb andb].
    replace 6%nat with (S (length bs)) by (unfold zlen in *; lia). rewrite scan_colon_ok, u8_bytes by done. done.
Qed.

Lemma strchr_none c s : c ∉ s → strchr c s = None.
Proof.
  induction s as [|x s IH]; intros Hc; [done|]. cbn [strchr]. apply not_elem_of_cons in Hc as [Hx Hs].
  rewrite (proj2 (Z.eqb_neq x c)) by done. by rewrite IH.
Qed.

Lemma strchr_app c s t : c ∉ s → strchr c (s ++ c :: t) = Some (s, t).
Proof.
  induction s as [|x s IH]; intros Hc; cbn [app strchr]; [by rewrite Z.eqb_refl|].
  apply not_elem_of_cons in Hc as [Hx Hs]. rewrite (proj2 (Z.eqb_neq x c)) by done. by rewrite IH.
Qed.

Lemma digits_of_chars base fuel n :
  2 ≤ base ≤ 16 → 0 ≤ n → Forall addr_char (digits_of base fuel n) ∧ (length (digits_of base fuel n) ≤ fuel)%nat.
Proof.
  intros Hb. revert n. induction fuel as [|fuel IH]; intros n Hn; cbn [digits_of]; [split; [apply Forall_nil|done]|].
  destruct (Z.ltb_spec n base); [split; [apply Forall_cons_2; [left; rewrite hex_char_digit; lia|apply Forall_nil]|simpl; lia]|].
  pose proof (Z.mod_pos_bound n base ltac:(lia)). destruct (IH (n / base)) as [IH1 IH2]; [apply Z.div_pos; lia|]. split.
  - apply Forall_app. split; [done|]. apply Forall_cons_2; [left; rewrite hex_char_digit; lia|apply Forall_nil].
  - rewrite length_app. simpl. lia.
Qed.

(** The address that the parser makes of bytes. *)
Lemma copied f len bs :
  zlen bs = len →
  nl_addr_set_binary_addr bs len (nl_addr_set_family f (addr_new len)) = Some (0, mkNlAddr f len len 0 1 bs).
Proof.
  intros Hl. unfold nl_addr_set_binary_addr, addr_new, nl_addr_set_family. cbn [a_maxsize a_addr a_family a_prefixlen a_refcnt a_len].
  rewrite Z.ltb_irrefl, Hl, Z.ltb_irrefl. rewrite take_ge by (unfold zlen in Hl; lia).
  rewrite <- (app_nil_r (replicate _ _)), st_head by (rewrite length_replicate; unfold zlen in Hl; lia).
  by rewrite app_nil_r.
Qed.

(** What [nl_addr2str] writes, [nl_addr_parse] reads back. *)
Lemma addr_roundtrip a buf size :
  inet_ok → printable a → zlen buf = size → 96 ≤ size < 2 ^ 63 →
  ∃ buf' s, nl_addr2str (Some a) buf size = Some buf' ∧ c_string buf' = Some s ∧
    nl_addr_parse true true s (a_family a) = Some (0, Some a).
Proof.
  intros Hin Ha Hb Hs. destruct (addr_text_ok a buf size Hin Ha Hb ltac:(lia)) as (buf1 & s & E1 & Hh & Hcs & Hl & Hp).
  pose proof Ha as [Hrc [Hm Hsz] Hfam Hby Hpl].
  assert (0 < a_len a ≤ 16) as Hlen.
  { unfold family_size in Hfam. repeat case_match; simplify_eq; lia. }
  assert (47 ∉ s) as H47.
  { intros Hc. rewrite list.Forall_forall in Hcs. by destruct (addr_char_not 47 (Hcs 47 Hc)). }
  unfold nl_addr2str. decide_test (a_len a =? 0) false. rewrite E1, some_bind, !u32_small by lia.
  assert (a = mkNlAddr (a_family a) (a_len a) (a_len a) (a_prefixlen a) 1 (a_addr a)) as Ea.
  { destruct a. cbn in *. by subst. }
  pose proof (copied (a_family a) (a_len a) (a_addr a) Hsz) as Hcp.
  unfold nl_addr_parse. cbn [negb].
  destruct (Z.eqb_spec (a_prefixlen a) (8 * a_len a)) as [E8|E8]; cbn [negb].
  - exists buf1, s. split; [done|]. split; [by eapply holds_string|]. rewrite (strchr_none 47 s) by done. rewrite Hp. cbv beta iota zeta.
    rewrite Hcp, !some_bind. unfold nl_addr_set_prefixlen. cbn [a_family a_maxsize a_len a_refcnt a_addr snd].
    rewrite Z.mul_comm, <- E8. by rewrite <- Ea.
  - destruct (digits_of_chars 10 20 (a_prefixlen a)) as [Dc Dl]; [lia|lia|].
    destruct (append_whole buf1 size s (47 :: fmt_u (a_prefixlen a)) Hh) as (buf' & E & Hh').
    + change (zlen (47 :: fmt_u (a_prefixlen a))) with (Z.of_nat (S (length (digits_of 10 20 (a_prefixlen a))))). lia.
    + lia.
    + apply not_elem_of_cons. split; [done|]. by apply addr_chars_nul.
    + exists buf', (s ++ 47 :: fmt_u (a_prefixlen a)). split; [done|]. split; [by eapply holds_string|].
      rewrite (strchr_app 47 s) by done. rewrite Hp. cbv beta iota zeta.
      rewrite Hcp, !some_bind. unfold nl_addr_set_prefixlen. cbn [a_family a_maxsize a_len a_refcnt a_addr snd].
      unfold strtol. rewrite <- (app_nil_r (fmt_u _)), number_fmt_u, some_bind by (try done; lia). cbn [fst snd].
      unfold LONG_MIN, LONG_MAX. rewrite Z.min_r, Z.max_r, s32_small by lia. by rewrite <- Ea.
Qed.
End Roundtrip.

(** ** References *)

Section Refs.
Context (addr_calloc : gmap Z nl_addr → Z).

Implicit Types (m : gmap Z nl_addr) (ext : Z → Z).

(** [calloc] returns NULL or memory that is not in use. *)
Definition addr_calloc_ok : Prop := ∀ m, addr_calloc m = 0 ∨ m !! addr_calloc m = None.

(** The calls of a program that counts references. *)
Inductive addr_call :=
  | ANew (maxsize : Z)
  | ABuild (family : Z) (buf : list Z)
  | AClone (p : Z)
  | AGet (p : Z)
  | APut (p : Z).

Definition addr_exec (x : addr_call) : St (gmap Z nl_addr) Z :=
  match x with
  | ANew n => nl_addr_alloc addr_calloc n
  | ABuild f buf => nl_addr_build addr_calloc f buf (zlen buf)
  | AClone p => nl_addr_clone addr_calloc p
  | AGet p => nl_addr_get p
  | APut p => sbind (nl_addr_put p) (λ _, sret 0)
  end.

(** What a program may call, with the references it holds. *)
Definition addr_may (x : addr_call) ext : Prop :=
  match x with
  | ANew n => 0 ≤ n < 2 ^ 28
  | ABuild f buf => - 2 ^ 31 ≤ f < 2 ^ 31 ∧ zlen buf < 2 ^ 28 ∧ Forall is_byte buf
  | AClone p | AGet p => 0 < ext p
  | APut p => p = 0 ∨ 0 < ext p
  end.

(** The references after a call that returned [r]. *)
Definition addr_after (x : addr_call) (r : Z) ext : Z → Z :=
  match x with
  | ANew _ | ABuild _ _ | AClone _ => λ q, if (q =? r) && negb (r =? 0) then 1 else ext q
  | AGet p => λ q, if q =? p then ext q + 1 else ext q
  | APut p => λ q, if (q =? p) && negb (p =? 0) then ext q - 1 else ext q
  end.

Inductive addr_reach : gmap Z nl_addr → (Z → Z) → Prop :=
  | areach_init : addr_reach ∅ (λ _, 0)
  | areach_step m ext x r m' :
      addr_reach m ext → addr_may x ext → addr_exec x m = Some (r, m') →
      addr_reach m' (addr_after x r ext).

(** The memory is that of the references. *)
Record counted ext m : Prop := {
  ct_null : m !! 0 = None;
  ct_live p a : m !! p = Some a → a_refcnt a = ext p ∧ 0 < ext p ∧ addr_wf a;
  ct_dead p : m !! p = None → ext p = 0;
}.

Lemma counted_held ext m p : counted ext m → 0 < ext p → ∃ a, m !! p = Some a ∧ a_refcnt a = ext p ∧ addr_wf a ∧ p ≠ 0.
Proof.
  intros Hc Hp. destruct (m !! p) as [a|] eqn:E.
  - destruct (ct_live _ _ Hc _ _ E) as (? & _ & ?). exists a. split_and!; try done. intros ->. by rewrite (ct_null _ _ Hc) in E.
  - apply (ct_dead _ _ Hc) in E. lia.
Qed.

(** An address is added with one reference. *)
Lemma counted_insert ext m p a :
  counted ext m → p ≠ 0 → m !! p = None → a_refcnt a = 1 → addr_wf a →
  counted (λ q, if (q =? p) && negb (p =? 0) then 1 else ext q) (<[p := a]> m).
Proof.
  intros Hc Hp Hn Hr Hw. split.
  - rewrite lookup_insert_ne by done. apply (ct_null _ _ Hc).
  - intros q b. destruct (Z.eqb_spec q p) as [->|Hq].
    + rewrite lookup_insert_eq, (proj2 (Z.eqb_neq p 0)) by done. intros [= <-]. cbn. by split_and!.
    + rewrite lookup_insert_ne by done. cbn. apply (ct_live _ _ Hc).
  - intros q. destruct (Z.eqb_spec q p) as [->|Hq]; [by rewrite lookup_insert_eq|].
    rewrite lookup_insert_ne by done. cbn. apply (ct_dead _ _ Hc).
Qed.

Lemma counted_same ext m ext' : counted ext m → (∀ q, ext' q = ext q) → counted ext' m.
Proof.
  intros Hc He. split; [apply (ct_null _ _ Hc)|intros p a Hp; rewrite !He; by apply (ct_live _ _ Hc)|].
  intros p Hp. rewrite He. by apply (ct_dead _ _ Hc).
Qed.

(** The calls that make an address: it is new, or there is no memory. *)
Definition makes (mk : St (gmap Z nl_addr) Z) (good : nl_addr → Prop) : Prop := ∀ m,
  (addr_calloc m = 0 ∧ mk m = Some (0, m)) ∨
  (addr_calloc m ≠ 0 ∧ ∃ a, mk m = Some (addr_calloc m, <[addr_calloc m := a]> m) ∧
     a_refcnt a = 1 ∧ addr_wf a ∧ good a).

Lemma makes_counted mk good ext m :
  addr_calloc_ok → makes mk good → counted ext m →
  ∃ r m', mk m = Some (r, m') ∧ counted (λ q, if (q =? r) && negb (r =? 0) then 1 else ext q) m'.
Proof.
  intros Hca Hmk Hc. destruct (Hmk m) as [ [E0 E]|(Hn & a & E & Hr & Hw & _)]; do 2 eexists; (split; [exact E|]).
  - apply (counted_same ext); [done|]. intros q. by rewrite andb_false_r.
  - apply counted_insert; try done. by destruct (Hca m).
Qed.

Lemma alloc_makes n : 0 ≤ n < 2 ^ 28 → makes (nl_addr_alloc addr_calloc n) (λ _, True).
Proof.
  intros Hn m. unfold nl_addr_alloc. destruct (Z.eqb_spec (addr_calloc m) 0) as [E|E]; [by left|right].
  split; [done|]. eexists. split_and!; try done. split; cbn.
  - unfold zlen. rewrite length_replicate. lia.
  - lia.
  - lia.
  - lia.
  - apply list.Forall_replicate. unfold is_byte. lia.
Qed.

(** [nl_addr_build] copies the first [n] bytes. *)
Lemma build_makes f buf n :
  - 2 ^ 31 ≤ f < 2 ^ 31 → 0 ≤ n ≤ zlen buf → n < 2 ^ 28 → Forall is_byte buf →
  makes (nl_addr_build addr_calloc f buf n)
    (λ a, a = mkNlAddr f n n (n * 8) 1 (take (Z.to_nat n) buf)).
Proof.
  intros Hf Hl Hn Hb m. unfold nl_addr_build.
  destruct (Z.eqb_spec (addr_calloc m) 0) as [E|E]; [left|right]; (split; [done|]).
  { rewrite (sbind_some _ _ _ 0 m); [done|]. unfold nl_addr_alloc. by rewrite E. }
  apply Z.eqb_neq in E. rewrite (sbind_some _ _ _ (addr_calloc m) (<[addr_calloc m:=addr_new n]> m)), E.
  2: { unfold nl_addr_alloc. by rewrite E. }
  unfold addr_at. rewrite (sbind_some _ _ _ (addr_new n) (<[addr_calloc m:=addr_new n]> m)).
  2: { unfold sget. by rewrite lookup_insert_eq. }
  rewrite (sbind_some _ _ _ (take (Z.to_nat n) buf) (<[addr_calloc m:=addr_new n]> m)).
  2: { unfold sget, addr_new. cbn [a_addr]. decide_test (zlen buf <? n) false. destruct (Z.eqb_spec n 0) as [Ez|Ez]; cbn [negb].
       - by rewrite Ez.
       - rewrite <- (app_nil_r (replicate _ _)), st_head, app_nil_r; [done|].
         rewrite length_replicate, length_take. unfold zlen in *. lia. }
  eexists. split_and!; [unfold addr_set; rewrite sbind_modify; unfold sret; by rewrite insert_insert_eq|done| |].
  - split; cbn; try done; [unfold zlen in *; rewrite length_take; lia|lia|by apply Forall_take].
  - cbn. f_equal. by apply s32_small; lia.
Qed.

(** A copy has the family, the bytes in use and the prefix length of the original. *)
Lemma clone_makes p a m :
  m !! p = Some a → addr_wf a →
  (addr_calloc m = 0 ∧ nl_addr_clone addr_calloc p m = Some (0, m)) ∨
  (addr_calloc m ≠ 0 ∧ nl_addr_clone addr_calloc p m =
     Some (addr_calloc m, <[addr_calloc m := mkNlAddr (a_family a) (a_len a) (a_len a) (a_prefixlen a) 1 (binary a)]> m)).
Proof.
  intros Hp Ha. pose proof Ha as [Hm Hl Hx Hf Hb]. unfold nl_addr_clone, addr_at.
  rewrite (sbind_some _ _ _ a m) by (unfold sget; by rewrite Hp).
  destruct (build_makes (a_family a) (a_addr a) (a_len a) Hf ltac:(lia) ltac:(lia) Hb m)
    as [ [E Eb]|(E & b & Eb & _ & _ & ->)]; [left|right]; (split; [done|]); rewrite (sbind_some _ _ _ _ _ Eb).
  - done.
  - rewrite (proj2 (Z.eqb_neq _ 0)) by done. cbv iota.
    erewrite sbind_some; [|unfold sget; by rewrite lookup_insert_eq].
    unfold addr_set. rewrite sbind_modify. unfold sret. by rewrite insert_insert_eq.
Qed.

Lemma get_counted ext m p :
  counted ext m → 0 < ext p →
  ∃ m', nl_addr_get p m = Some (p, m') ∧ counted (λ q, if q =? p then ext q + 1 else ext q) m'.
Proof.
  intros Hc Hp. destruct (counted_held _ _ _ Hc Hp) as (a & Ha & Hr & [Hm Hl Hx Hf Hb] & Hn0).
  unfold nl_addr_get, addr_at. rewrite (sbind_some _ _ _ a m) by (unfold sget; by rewrite Ha).
  eexists. split; [done|]. split.
  - rewrite lookup_insert_ne by done. apply (ct_null _ _ Hc).
  - intros q b. destruct (Z.eqb_spec q p) as [->|Hq].
    + rewrite lookup_insert_eq. intros [= <-]. cbn. split_and!; [lia|lia|by split].
    + rewrite lookup_insert_ne by done. apply (ct_live _ _ Hc).
  - intros q. destruct (Z.eqb_spec q p) as [->|Hq]; [by rewrite lookup_insert_eq|].
    rewrite lookup_insert_ne by done. apply (ct_dead _ _ Hc).
Qed.

Lemma put_counted ext m p :
  counted ext m → p = 0 ∨ 0 < ext p →
  ∃ m', nl_addr_put p m = Some (tt, m') ∧ counted (λ q, if (q =? p) && negb (p =? 0) then ext q - 1 else ext q) m'.
Proof.
  intros Hc Hp. unfold nl_addr_put. destruct (Z.eqb_spec p 0) as [->|Hp0].
  { exists m. split; [done|]. apply (counted_same ext); [done|]. intros q. by rewrite andb_false_r. }
  destruct Hp as [?|Hp]; [done|]. destruct (counted_held _ _ _ Hc Hp) as (a & Ha & Hr & [Hm Hl Hx Hf Hb] & _).
  unfold addr_destroy. apply Z.eqb_neq in Hp0 as E0. rewrite E0.
  assert (addr_at p m = Some (a, m)) as Eat by (unfold addr_at, sget; by rewrite Ha).
  rewrite (sbind_some _ _ _ _ _ Eat). cbn [negb].
  destruct (Z.eqb_spec (a_refcnt a) 1) as [E1|E1]; cbn [negb]; (eexists; split; [by rewrite ?(sbind_some _ _ _ _ _ Eat), ?E1|]); split; cbv beta; try setoid_rewrite andb_true_r.
  - rewrite lookup_delete_ne by done. apply (ct_null _ _ Hc).
  - intros q b. destruct (Z.eqb_spec q p) as [->|Hq]; [by rewrite lookup_delete_eq|].
    rewrite lookup_delete_ne by done. apply (ct_live _ _ Hc).
  - intros q. destruct (Z.eqb_spec q p) as [->|Hq]; [lia|]. rewrite lookup_delete_ne by done. apply (ct_dead _ _ Hc).
  - rewrite lookup_insert_ne by done. apply (ct_null _ _ Hc).
  - intros q b. destruct (Z.eqb_spec q p) as [->|Hq].
    + rewrite lookup_insert_eq. intros [= <-]. cbn. split_and!; [lia|lia|by split].
    + rewrite lookup_insert_ne by done. apply (ct_live _ _ Hc).
  - intros q. destruct (Z.eqb_spec q p) as [->|Hq]; [by rewrite lookup_insert_eq|].
    rewrite lookup_insert_ne by done. apply (ct_dead _ _ Hc).
Qed.

(** A call that is allowed does not crash, and keeps the count. *)
Lemma addr_exec_ok ext m x :
  addr_calloc_ok → counted ext m → addr_may x ext →
  ∃ r m', addr_exec x m = Some (r, m') ∧ counted (addr_after x r ext) m'.
Proof.
  intros Hca Hc Hx. destruct x as [n|f buf|p|p|p]; cbn [addr_exec addr_may addr_after] in *.
  - eapply makes_counted; [done|by apply alloc_makes|done].
  - destruct Hx as (Hf & Hl & Hb). eapply makes_counted; [done|apply build_makes; try done; pose proof (zlen_nonneg buf); lia|done].
  - destruct (counted_held _ _ _ Hc Hx) as (a & Ha & _ & Hw & _). pose proof (zlen_binary _ Hw) as Hz.
    destruct (clone_makes p a m Ha Hw) as [ [E Eb]|[E Eb] ]; do 2 eexists; (split; [exact Eb|]).
    + apply (counted_same ext); [done|]. intros q. by rewrite andb_false_r.
    + apply counted_insert; try done; [by destruct (Hca m)|]. destruct Hw as [Hm Hl Hx' Hf Hb].
      split; cbn; try done; [lia|lia|by apply Forall_take].
  - destruct (get_counted _ _ _ Hc Hx) as (m' & E & Hc'). by exists p, m'.
  - destruct (put_counted _ _ _ Hc Hx) as (m' & E & Hc'). exists 0, m'. split; [|done]. by rewrite (sbind_some _ _ _ _ _ E).
Qed.

Lemma reach_counted m ext : addr_calloc_ok → addr_reach m ext → counted ext m.
Proof.
  intros Hca Hr. induction Hr as [|m ext x r m' _ IH Hmay E]; [split; [done|done|done]|].
  destruct (addr_exec_ok _ _ _ Hca IH Hmay) as (r' & m2 & E' & Hc). rewrite E in E'. by injection E' as <- <-.
Qed.

Lemma counted_empty ext m : counted ext m → (∀ p, ext p = 0) → m = ∅.
Proof.
  intros Hc He. apply map_empty. intros p. destruct (m !! p) as [a|] eqn:E; [|done].
  destruct (ct_live _ _ Hc _ _ E) as (_ & ? & _). specialize (He p). lia.
Qed.
End Refs.

(** An allocator that always has memory. *)
Definition addr_fresh (m : gmap Z nl_addr) : Z := fresh (dom m ∪ {[0]} : gset Z).

Lemma addr_fresh_ok : addr_calloc_ok addr_fresh.
Proof.
  intros m. right. unfold addr_fresh. pose proof (is_fresh (dom m ∪ {[0]} : gset Z)) as Hf.
  rewrite not_elem_of_union, not_elem_of_dom in Hf. tauto.
Qed.

Lemma addr_fresh_some m : addr_fresh m ≠ 0.
Proof.
  unfold addr_fresh. pose proof (is_fresh (dom m ∪ {[0]} : gset Z)) as Hf. rewrite not_elem_of_union, not_elem_of_singleton in Hf. tauto.
Qed.
