(* ===== verification/Utils.v ===== *)
(** * Names of types and flags: [lib/utils.c]

    Tables and lists of names; the translations between a number and its name, and between a
    set of flags and the names of the flags; sizes and times in text; the output of dumps. *)

From stdpp Require Import strings.
From S2P Require Import Prelude Packet Netlink NlError Text Attr CStr.
Import Nl.

(** An entry of a [struct trans_tbl], or of a [struct trans_list]. *)
Record trans_tbl := mkTr { tr_i : Z; tr_a : list Z }.
Definition ent (i : Z) (a : string) : trans_tbl := mkTr i (text a).

(** ** Types *)

Fixpoint __type2str (type : Z) (buf : list Z) (len : Z) (tbl : list trans_tbl) : option (list Z) :=
  match tbl with
  | [] => snprintf buf len (48 :: 120 :: fmt_x (u32 type))
  | e :: tbl => if tr_i e =? type then snprintf buf len (tr_a e) else __type2str type buf len tbl
  end.

(** The search of the name in the table. *)
Fixpoint find_name (buf : list Z) (tbl : list trans_tbl) : option Z :=
  match tbl with
  | [] => None
  | e :: tbl => if case_eq (tr_a e) buf then Some (tr_i e) else find_name buf tbl
  end.

(** A number in text; when there are no digits, [end] stays at the start. *)
Definition str2num (buf : list Z) : Z :=
  match strtoul 0 buf with
  | Some (l, []) => if l =? ULONG_MAX then - NLE_OBJ_NOTFOUND else s32 l
  | _ => - NLE_OBJ_NOTFOUND
  end.

Definition __str2type (buf : list Z) (tbl : list trans_tbl) : Z :=
  match buf with
  | [] => - NLE_INVAL
  | _ => match find_name buf tbl with
         | Some i => i
         | None => str2num buf
         end
  end.

(** ** Flags *)

(** [memset(buf, 0, len)] *)
Definition zeroed (buf : list Z) (len : Z) : option (list Z) := st buf 0 (replicate (Z.to_nat len) 0).

Fixpoint flags_loop (flags tmp : Z) (buf : list Z) (len : Z) (tbl : list trans_tbl) : option (list Z) :=
  match tbl with
  | [] => Some buf
  | e :: tbl =>
      if negb (Z.land (tr_i e) tmp =? 0) then
        let tmp := Z.land tmp (Z.lnot (tr_i e)) in
        buf ← append buf len (tr_a e);
        buf ← (if negb (Z.land tmp flags =? 0) then append buf len [44] else Some buf);
        flags_loop flags tmp buf len tbl
      else flags_loop flags tmp buf len tbl
  end.

Definition __flags2str (flags : Z) (buf : list Z) (len : Z) (tbl : list trans_tbl) : option (list Z) :=
  buf ← zeroed buf len; flags_loop flags flags buf len tbl.

(** [!strncasecmp(a, p, len)], where [p] has at least [len] characters: [item]. *)
Definition case_prefix (item a : list Z) : bool := case_eq (take (length item) a) item.

(** The loop over the table for one item. *)
Fixpoint item_flags (item : list Z) (tbl : list trans_tbl) (flags : Z) : Z :=
  match tbl with
  | [] => flags
  | e :: tbl => item_flags item tbl (if case_prefix item (tr_a e) then Z.lor flags (tr_i e) else flags)
  end.

(** One space before an item is skipped. *)
Definition skip1 (p : list Z) : list Z := match p with 32 :: p => p | _ => p end.

(** The loop over the items; [fuel] is more than the number of characters. *)
Fixpoint str2flags_loop (fuel : nat) (p : list Z) (tbl : list trans_tbl) (flags : Z) : Z :=
  match fuel with
  | O => flags
  | S fuel =>
      match strchr 44 (skip1 p) with
      | None => item_flags (skip1 p) tbl flags
      | Some (item, t) => str2flags_loop fuel t tbl (item_flags item tbl flags)
      end
  end.

Definition __str2flags (buf : list Z) (tbl : list trans_tbl) : Z := str2flags_loop (S (length buf)) buf tbl 0.

(** ** Sizes *)

Definition word_is (p : list Z) (s : string) : bool := case_eq p (text s).

(** [None] when the product does not fit in a [long]. *)
Definition long_mul (l k : Z) : option Z :=
  let v := l * k in if (LONG_MIN <=? v) && (v <=? LONG_MAX) then Some v else None.

Definition nl_size2int (str : list Z) : option Z :=
  match strtol 0 str with
  | None => Some (- NLE_INVAL)
  | Some (l, p) =>
      match p with
      | [] => Some l
      | _ =>
          if word_is p "kb" || word_is p "k" then long_mul l 1024
          else if word_is p "gb" || word_is p "g" then long_mul l (1024 * 1024 * 1024)
          else if word_is p "gbit" then long_mul l (1024 * 1024 * 1024 / 8)
          else if word_is p "mb" || word_is p "m" then long_mul l (1024 * 1024)
          else if word_is p "mbit" then long_mul l (1024 * 1024 / 8)
          else if word_is p "kbit" then long_mul l (1024 / 8)
          else if word_is p "bit" then Some (Z.quot l 8)
          else if negb (word_is p "b") then Some (- NLE_INVAL)
          else Some l
      end
  end.

(** ** Times *)

(** The characters before a space or a tab, and the rest. *)
Fixpoint span_blank (p : list Z) : list Z * list Z :=
  match p with
  | [] => ([], [])
  | c :: p' => if (c =? 32) || (c =? 9) then ([], p) else let r := span_blank p' in (c :: r.1, r.2)
  end.

(** [!strncasecmp(p, unit, plen)], where [u] are the [plen] characters at [p]. *)
Definition unit_is (u : list Z) (unit : string) : bool := case_prefix u (text unit).

(** The factor of a unit. *)
Definition time_unit (u : list Z) : option Z :=
  match u with
  | [] => Some 1
  | _ =>
      if unit_is u "sec" then Some 1000
      else if unit_is u "min" then Some (1000 * 60)
      else if unit_is u "hour" then Some (1000 * 60 * 60)
      else if unit_is u "day" then Some (1000 * 60 * 60 * 24)
      else None
  end.

(** The total, or an error. *)
Fixpoint str2msec_loop (fuel : nat) (str : list Z) (total : Z) : Z + Z :=
  match fuel with
  | O => inr (- NLE_INVAL)
  | S fuel =>
      match strtoul 0 str with
      | None => inr (- NLE_INVAL)
      | Some (l, []) => inl (u64 (total + l))
      | Some (l, p) =>
          let r := span_blank p in
          match time_unit r.1 with
          | None => inr (- NLE_INVAL)
          | Some k =>
              let total := u64 (total + l * k) in
              match r.2 with
              | [] => inl total
              | str => str2msec_loop fuel str total
              end
          end
      end
  end.

(** Each round uses up at least one character. *)
Definition nl_str2msec (str : list Z) : Z + Z := str2msec_loop (S (length str)) str 0.

(** A part of a time: its value as an [int], and what is left. *)
Definition split_unit (msec unit : Z) : Z * Z :=
  let n := s32 (msec / unit) in (n, if 0 <? n then msec mod unit else msec).

Fixpoint msec_loop (parts : list (Z * list Z)) (buf : list Z) (len : Z) : option (list Z) :=
  match parts with
  | [] => Some buf
  | (n, u) :: parts =>
      if 0 <? n then
        t ← c_string buf;
        buf ← append buf len ((match t with [] => [] | _ => [32] end) ++ fmt_u n ++ u);
        msec_loop parts buf len
      else msec_loop parts buf len
  end.

Definition nl_msec2str (msec : Z) (buf : list Z) (len : Z) : option (list Z) :=
  let d := split_unit msec 86400000 in
  let h := split_unit d.2 3600000 in
  let m := split_unit h.2 60000 in
  let s := split_unit m.2 1000 in
  buf ← zeroed buf len;
  msec_loop [(d.1, text "d"); (h.1, text "h"); (m.1, text "m"); (s.1, text "s"); (s32 s.2, text "msec")] buf len.
