(* ===== verification/Tables.v ===== *)
(** * The tables of names of libnl

    Each table as the library has it, in its order, and the two functions that use it.  The
    numbers are those of the headers under [include/]. *)

From stdpp Require Import strings.
From S2P Require Import Prelude Packet Netlink NlError Text CStr Utils Occp.

Definition afs : list trans_tbl := [
  ent 0 "unspec"; ent 1 "unix"; ent 1 "local"; ent 2 "inet"; ent 3 "ax25"; ent 4 "ipx"; ent 5 "appletalk";
  ent 6 "netrom"; ent 7 "bridge"; ent 8 "atmpvc"; ent 9 "x25"; ent 10 "inet6"; ent 11 "rose";
  ent 12 "decnet"; ent 13 "netbeui"; ent 14 "security"; ent 15 "key"; ent 16 "netlink"; ent 16 "route";
  ent 17 "packet"; ent 18 "ash"; ent 19 "econet"; ent 20 "atmsvc"; ent 22 "sna"; ent 23 "irda";
  ent 24 "pppox"; ent 25 "wanpipe"; ent 26 "llc"; ent 31 "bluetooth"].

Definition nlfamilies : list trans_tbl := [
  ent 0 "route"; ent 2 "usersock"; ent 3 "firewall"; ent 4 "inetdiag"; ent 5 "nflog"; ent 6 "xfrm";
  ent 7 "selinux"; ent 8 "iscsi"; ent 9 "audit"; ent 10 "fib_lookup"; ent 11 "connector";
  ent 12 "netfilter"; ent 13 "ip6_fw"; ent 14 "dnrtmsg"; ent 15 "kobject_uevent"; ent 16 "generic";
  ent 18 "scsitransport"; ent 19 "ecryptfs"].

Definition llprotos : list trans_tbl := [
  ent 0 "generic"; ent 1 "ether"; ent 2 "eether"; ent 3 "ax25"; ent 4 "pronet"; ent 5 "chaos";
  ent 6 "ieee802"; ent 7 "arcnet"; ent 8 "atalk"; ent 15 "dlci"; ent 19 "atm"; ent 23 "metricom";
  ent 24 "ieee1394"; ent 27 "eui64"; ent 32 "infiniband"; ent 256 "slip"; ent 257 "cslip"; ent 258 "slip6";
  ent 259 "cslip6"; ent 260 "rsrvd"; ent 264 "adapt"; ent 270 "rose"; ent 271 "x25"; ent 272 "hwx25";
  ent 280 "can"; ent 512 "ppp"; ent 513 "hdlc"; ent 516 "lapb"; ent 517 "ddcmp"; ent 518 "rawhdlc";
  ent 768 "ipip"; ent 769 "tunnel6"; ent 770 "frad"; ent 771 "skip"; ent 772 "loopback";
  ent 773 "localtlk"; ent 774 "fddi"; ent 775 "bif"; ent 776 "sit"; ent 777 "ip/ddp"; ent 778 "gre";
  ent 779 "pimreg"; ent 780 "hippi"; ent 781 "ash"; ent 782 "econet"; ent 783 "irda"; ent 784 "fcpp";
  ent 785 "fcal"; ent 786 "fcpl"; ent 787 "fcfb_0"; ent 788 "fcfb_1"; ent 789 "fcfb_2"; ent 790 "fcfb_3";
  ent 791 "fcfb_4"; ent 792 "fcfb_5"; ent 793 "fcfb_6"; ent 794 "fcfb_7"; ent 795 "fcfb_8";
  ent 796 "fcfb_9"; ent 797 "fcfb_10"; ent 798 "fcfb_11"; ent 799 "fcfb_12"; ent 800 "tr";
  ent 801 "ieee802.11"; ent 820 "phonet"; ent 822 "caif"; ent 802 "ieee802.11_prism"; ent 65535 "void"].

Definition ether_protos : list trans_tbl := [
  ent 96 "loop"; ent 512 "pup"; ent 513 "pupat"; ent 2048 "ip"; ent 2053 "x25"; ent 2054 "arp";
  ent 2303 "bpq"; ent 2560 "ieeepup"; ent 2561 "ieeepupat"; ent 24576 "dec"; ent 24577 "dna_dl";
  ent 24578 "dna_rc"; ent 24579 "dna_rt"; ent 24580 "lat"; ent 24581 "diag"; ent 24582 "cust";
  ent 24583 "sca"; ent 25944 "teb"; ent 32821 "rarp"; ent 32923 "atalk"; ent 33011 "aarp";
  ent 33024 "802.1q"; ent 33079 "ipx"; ent 34525 "ipv6"; ent 34824 "pause"; ent 34825 "slow";
  ent 34878 "wccp"; ent 34915 "ppp_disc"; ent 34916 "ppp_ses"; ent 34887 "mpls_uc"; ent 34888 "mpls_mc";
  ent 34892 "atmmpoa"; ent 34948 "atmfate"; ent 34958 "pae"; ent 34978 "aoe"; ent 35018 "tipc";
  ent 35063 "ieee1588"; ent 35078 "fcoe"; ent 35092 "fip"; ent 56026 "edsa"; ent 34978 "edp2";
  ent 1 "802.3"; ent 2 "ax25"; ent 3 "all"; ent 4 "802.2"; ent 5 "snap"; ent 6 "ddcmp"; ent 7 "wan_ppp";
  ent 8 "ppp_mp"; ent 9 "localtalk"; ent 12 "can"; ent 16 "ppptalk"; ent 17 "tr_802.2"; ent 21 "mobitex";
  ent 22 "control"; ent 23 "irda"; ent 24 "econet"; ent 25 "hdlc"; ent 26 "arcnet"; ent 27 "dsa";
  ent 28 "trailer"; ent 245 "phonet"; ent 246 "ieee802154"; ent 247 "caif"].

Definition nl_msgtypes : list trans_tbl := [
  ent 1 "NOOP"; ent 2 "ERROR"; ent 3 "DONE"; ent 4 "OVERRUN"].

Definition rtntypes : list trans_tbl := [
  ent 0 "unspec"; ent 1 "unicast"; ent 2 "local"; ent 3 "broadcast"; ent 4 "anycast"; ent 5 "multicast";
  ent 6 "blackhole"; ent 7 "unreachable"; ent 8 "prohibit"; ent 9 "throw"; ent 10 "nat"; ent 11 "xresolve"].

Definition scopes : list trans_tbl := [
  ent 255 "nowhere"; ent 254 "host"; ent 253 "link"; ent 200 "site"; ent 0 "universe"].

Definition route_metrices : list trans_tbl := [
  ent 0 "unspec"; ent 1 "lock"; ent 2 "mtu"; ent 3 "window"; ent 4 "rtt"; ent 5 "rttvar"; ent 6 "ssthresh";
  ent 7 "cwnd"; ent 8 "advmss"; ent 9 "reordering"; ent 10 "hoplimit"; ent 11 "initcwnd"; ent 12 "features"].

Definition link_stats : list trans_tbl := [
  ent 0 "rx_packets"; ent 1 "tx_packets"; ent 2 "rx_bytes"; ent 3 "tx_bytes"; ent 4 "rx_errors";
  ent 5 "tx_errors"; ent 6 "rx_dropped"; ent 7 "tx_dropped"; ent 8 "rx_compressed"; ent 9 "tx_compressed";
  ent 10 "rx_fifo_err"; ent 11 "tx_fifo_err"; ent 12 "rx_len_err"; ent 13 "rx_over_err";
  ent 14 "rx_crc_err"; ent 15 "rx_frame_err"; ent 16 "rx_missed_err"; ent 17 "tx_abort_err";
  ent 18 "tx_carrier_err"; ent 19 "tx_hbeat_err"; ent 20 "tx_win_err"; ent 21 "collisions";
  ent 22 "multicast"; ent 23 "Ip6InReceives"; ent 24 "Ip6InHdrErrors"; ent 25 "Ip6InTooBigErrors";
  ent 26 "Ip6InNoRoutes"; ent 27 "Ip6InAddrErrors"; ent 28 "Ip6InUnknownProtos";
  ent 29 "Ip6InTruncatedPkts"; ent 30 "Ip6InDiscards"; ent 31 "Ip6InDelivers";
  ent 32 "Ip6OutForwDatagrams"; ent 33 "Ip6OutRequests"; ent 34 "Ip6OutDiscards"; ent 35 "Ip6OutNoRoutes";
  ent 36 "Ip6ReasmTimeout"; ent 37 "Ip6ReasmReqds"; ent 38 "Ip6ReasmOKs"; ent 39 "Ip6ReasmFails";
  ent 40 "Ip6FragOKs"; ent 41 "Ip6FragFails"; ent 42 "Ip6FragCreates"; ent 43 "Ip6InMcastPkts";
  ent 44 "Ip6OutMcastPkts"; ent 45 "Ip6InBcastPkts"; ent 46 "Ip6OutBcastPkts"; ent 47 "Ip6InOctets";
  ent 48 "Ip6OutOctets"; ent 49 "Ip6InMcastOctets"; ent 50 "Ip6OutMcastOctets"; ent 51 "Ip6InBcastOctets";
  ent 52 "Ip6OutBcastOctets"; ent 53 "ICMP6_InMsgs"; ent 54 "ICMP6_InErrors"; ent 55 "ICMP6_OutMsgs";
  ent 56 "ICMP6_OutErrors"].

Definition link_operstates : list trans_tbl := [
  ent 0 "unknown"; ent 1 "notpresent"; ent 2 "down"; ent 3 "lowerlayerdown"; ent 4 "testing";
  ent 5 "dormant"; ent 6 "up"].

Definition link_modes : list trans_tbl := [
  ent 0 "default"; ent 1 "dormant"].

Definition inet_devconf : list trans_tbl := [
  ent 1 "forwarding"; ent 2 "mc_forwarding"; ent 3 "proxy_arp"; ent 4 "accept_redirects";
  ent 5 "secure_redirects"; ent 6 "send_redirects"; ent 7 "shared_media"; ent 8 "rp_filter";
  ent 9 "accept_source_route"; ent 10 "bootp_relay"; ent 11 "log_martians"; ent 12 "tag";
  ent 13 "arpfilter"; ent 14 "medium_id"; ent 15 "noxfrm"; ent 16 "nopolicy"; ent 17 "force_igmp_version";
  ent 18 "arp_announce"; ent 19 "arp_ignore"; ent 20 "promote_secondaries"; ent 21 "arp_accept";
  ent 22 "arp_notify"; ent 23 "accept_local"; ent 24 "src_vmark"; ent 25 "proxy_arp_pvlan"].

Definition inet6_devconf : list trans_tbl := [
  ent 0 "forwarding"; ent 1 "hoplimit"; ent 2 "mtu6"; ent 3 "accept_ra"; ent 4 "accept_redirects";
  ent 5 "autoconf"; ent 6 "dad_transmits"; ent 7 "rtr_solicits"; ent 8 "rtr_solicit_interval";
  ent 9 "rtr_solicit_delay"; ent 10 "use_tempaddr"; ent 11 "temp_valid_lft"; ent 12 "temp_prefered_lft";
  ent 13 "regen_max_retry"; ent 14 "max_desync_factor"; ent 15 "max_addresses"; ent 16 "force_mld_version";
  ent 17 "accept_ra_defrtr"; ent 18 "accept_ra_pinfo"; ent 19 "accept_ra_rtr_pref";
  ent 20 "rtr_probe_interval"; ent 21 "accept_ra_rt_info"; ent 22 "proxy_ndp"; ent 23 "optimistic_dad";
  ent 24 "accept_source_route"; ent 25 "mc_forwarding"; ent 26 "disable_ipv6"; ent 27 "accept_dad";
  ent 28 "force_tllao"].

Definition police_types : list trans_tbl := [
  ent (-1) "unspec"; ent 0 "ok"; ent 1 "reclassify"; ent 2 "shot"; ent 3 "pipe"].

Definition prios : list trans_tbl := [
  ent 0 "besteffort"; ent 1 "filler"; ent 2 "bulk"; ent 4 "interactive_bulk"; ent 6 "interactive";
  ent 7 "control"].

Definition ovl_strategies : list trans_tbl := [
  ent 0 "classic"; ent 1 "delay"; ent 2 "lowprio"; ent 3 "drop"; ent 4 "rclassic"].

Definition nfnl_verdicts : list trans_tbl := [
  ent 0 "NF_DROP"; ent 1 "NF_ACCEPT"; ent 2 "NF_STOLEN"; ent 3 "NF_QUEUE"; ent 4 "NF_REPEAT";
  ent 5 "NF_STOP"].

Definition nfnl_inet_hooks : list trans_tbl := [
  ent 0 "NF_INET_PREROUTING"; ent 1 "NF_INET_LOCAL_IN"; ent 2 "NF_INET_FORWARD"; ent 3 "NF_INET_LOCAL_OUT";
  ent 4 "NF_INET_POST_ROUTING"].

Definition log_copy_modes : list trans_tbl := [
  ent 0 "none"; ent 1 "meta"; ent 2 "packet"].

Definition queue_copy_modes : list trans_tbl := [
  ent 0 "none"; ent 1 "meta"; ent 2 "packet"].

Definition link_flags : list trans_tbl := [
  ent 8 "loopback"; ent 2 "broadcast"; ent 16 "pointopoint"; ent 4096 "multicast"; ent 128 "noarp";
  ent 512 "allmulti"; ent 256 "promisc"; ent 1024 "master"; ent 2048 "slave"; ent 4 "debug";
  ent 32768 "dynamic"; ent 16384 "automedia"; ent 8192 "portsel"; ent 32 "notrailers"; ent 1 "up";
  ent 64 "running"; ent 65536 "lowerup"; ent 131072 "dormant"; ent 262144 "echo"].

Definition addr_flags : list trans_tbl := [
  ent 1 "secondary"; ent 2 "nodad"; ent 4 "optimistic"; ent 16 "homeaddress"; ent 32 "deprecated";
  ent 64 "tentative"; ent 128 "permanent"].

Definition neigh_states : list trans_tbl := [
  ent 1 "incomplete"; ent 2 "reachable"; ent 4 "stale"; ent 8 "delay"; ent 16 "probe"; ent 32 "failed";
  ent 64 "norarp"; ent 128 "permanent"].

Definition neigh_flags : list trans_tbl := [
  ent 1 "use"; ent 8 "proxy"; ent 128 "router"].

Definition nh_flags : list trans_tbl := [
  ent 1 "dead"; ent 2 "pervasive"; ent 4 "onlink"].

Definition vlan_flags : list trans_tbl := [
  ent 1 "reorder_hdr"].

Definition inet6_flags : list trans_tbl := [
  ent 128 "ra_otherconf"; ent 64 "ra_managed"; ent 32 "ra_rcvd"; ent 16 "rs_sent"; ent (-2147483648) "ready"].

Definition log_flags : list trans_tbl := [
  ent 1 "seq"; ent 2 "seq_global"].

Definition ops_flags : list trans_tbl := [
  ent 1 "admin-perm"; ent 2 "has-doit"; ent 4 "has-dump"; ent 8 "has-policy"].

Definition link_attrs : list trans_tbl := [
  ent 1 "mtu"; ent 2 "link"; ent 4 "txqlen"; ent 8 "weight"; ent 16 "master"; ent 32 "qdisc"; ent 64 "map";
  ent 128 "address"; ent 256 "broadcast"; ent 512 "flags"; ent 1024 "name"; ent 2048 "ifindex";
  ent 4096 "family"; ent 8192 "arptype"; ent 16384 "stats"; ent 32768 "change"; ent 65536 "operstate";
  ent 131072 "linkmode"; ent 524288 "ifalias"; ent 1048576 "num_vf"].

Definition addr_attrs : list trans_tbl := [
  ent 1 "family"; ent 2 "prefixlen"; ent 4 "flags"; ent 8 "scope"; ent 16 "ifindex"; ent 32 "label";
  ent 64 "cacheinfo"; ent 128 "peer"; ent 256 "local"; ent 512 "broadcast"; ent 1024 "multicast"].

Definition neigh_attrs : list trans_tbl := [
  ent 1 "flags"; ent 2 "state"; ent 4 "lladdr"; ent 8 "dst"; ent 16 "cacheinfo"; ent 32 "ifindex";
  ent 64 "family"; ent 128 "type"; ent 256 "probes"].

Definition rule_attrs : list trans_tbl := [
  ent 1 "family"; ent 2 "table"; ent 4 "action"; ent 16 "iifname"; ent 32 "oifname"; ent 64 "prio";
  ent 128 "mark"; ent 256 "mask"; ent 512 "goto"; ent 1024 "src"; ent 2048 "dst"; ent 4096 "dsfield";
  ent 8192 "flow"].

Definition route_attrs : list trans_tbl := [
  ent 1 "family"; ent 2 "tos"; ent 4 "table"; ent 8 "protocol"; ent 16 "scope"; ent 32 "type";
  ent 64 "flags"; ent 128 "dst"; ent 256 "src"; ent 512 "iif"; ent 1024 "oif"; ent 2048 "gateway";
  ent 4096 "prio"; ent 8192 "pref_src"; ent 16384 "metrics"; ent 32768 "multipath"; ent 65536 "realms";
  ent 131072 "cacheinfo"].

Definition ct_attrs : list trans_tbl := [
  ent 1 "family"; ent 2 "proto"; ent 4 "tcpstate"; ent 8 "status"; ent 16 "timeout"; ent 32 "mark";
  ent 64 "use"; ent 128 "id"; ent 256 "origsrc"; ent 512 "origdst"; ent 1024 "origsrcport";
  ent 2048 "origdstport"; ent 4096 "origicmpid"; ent 8192 "origicmptype"; ent 16384 "origicmpcode";
  ent 32768 "origpackets"; ent 65536 "origbytes"; ent 131072 "replysrc"; ent 262144 "replydst";
  ent 524288 "replysrcport"; ent 1048576 "replydstport"; ent 2097152 "replyicmpid";
  ent 4194304 "replyicmptype"; ent 8388608 "replyicmpcode"; ent 16777216 "replypackets";
  ent 33554432 "replybytes"].

Definition nfnl_log_attrs : list trans_tbl := [
  ent 1 "group"; ent 2 "copy_mode"; ent 8 "copy_range"; ent 16 "flush_timeout"; ent 32 "alloc_size";
  ent 64 "queue_threshold"].

Definition nfnl_queue_attrs : list trans_tbl := [
  ent 1 "group"; ent 2 "maxlen"; ent 4 "copy_mode"; ent 8 "copy_range"].

Definition nfnl_queue_msg_attrs : list trans_tbl := [
  ent 1 "group"; ent 2 "family"; ent 4 "packetid"; ent 8 "hwproto"; ent 16 "hook"; ent 32 "mark";
  ent 64 "timestamp"; ent 128 "indev"; ent 256 "outdev"; ent 512 "physindev"; ent 1024 "physoutdev";
  ent 2048 "hwaddr"; ent 4096 "payload"; ent 8192 "verdict"].

(** ** The functions of the tables *)

Definition nl_af2str (v : Z) (buf : list Z) (len : Z) : option (list Z) := __type2str v buf len afs.
Definition ops_flags2str (v : Z) (buf : list Z) (len : Z) : option (list Z) := __flags2str v buf len ops_flags.
Definition nl_nlmsgtype2str (v : Z) (buf : list Z) (len : Z) : option (list Z) := __type2str v buf len nl_msgtypes.
Definition nl_str2nlmsgtype (name : list Z) : Z := __str2type name nl_msgtypes.
Definition ct_attrs2str (v : Z) (buf : list Z) (len : Z) : option (list Z) := __flags2str v buf len ct_attrs.
Definition nfnl_log_copy_mode2str (v : Z) (buf : list Z) (len : Z) : option (list Z) := __type2str v buf len log_copy_modes.
Definition nfnl_log_flags2str (v : Z) (buf : list Z) (len : Z) : option (list Z) := __flags2str v buf len log_flags.
Definition nfnl_log_str2flags (name : list Z) : Z := u32 (__str2flags name log_flags).
Definition nfnl_log_attrs2str (v : Z) (buf : list Z) (len : Z) : option (list Z) := __flags2str v buf len nfnl_log_attrs.
Definition nfnl_verdict2str (v : Z) (buf : list Z) (len : Z) : option (list Z) := __type2str v buf len nfnl_verdicts.
Definition nfnl_str2verdict (name : list Z) : Z := u32 (__str2type name nfnl_verdicts).
Definition nfnl_inet_hook2str (v : Z) (buf : list Z) (len : Z) : option (list Z) := __type2str v buf len nfnl_inet_hooks.
Definition nfnl_str2inet_hook (name : list Z) : Z := u32 (__str2type name nfnl_inet_hooks).
Definition nfnl_queue_msg_attrs2str (v : Z) (buf : list Z) (len : Z) : option (list Z) := __flags2str v buf len nfnl_queue_msg_attrs.
Definition nfnl_queue_copy_mode2str (v : Z) (buf : list Z) (len : Z) : option (list Z) := __type2str v buf len queue_copy_modes.
Definition nfnl_queue_attrs2str (v : Z) (buf : list Z) (len : Z) : option (list Z) := __flags2str v buf len nfnl_queue_attrs.
Definition addr_attrs2str (v : Z) (buf : list Z) (len : Z) : option (list Z) := __flags2str v buf len addr_attrs.
Definition rtnl_addr_flags2str (v : Z) (buf : list Z) (len : Z) : option (list Z) := __flags2str v buf len addr_flags.
Definition rtnl_addr_str2flags (name : list Z) : Z := __str2flags name addr_flags.
Definition nl_police2str (v : Z) (buf : list Z) (len : Z) : option (list Z) := __type2str v buf len police_types.
Definition nl_str2police (name : list Z) : Z := __str2type name police_types.
Definition link_attrs2str (v : Z) (buf : list Z) (len : Z) : option (list Z) := __flags2str v buf len link_attrs.
Definition rtnl_link_flags2str (v : Z) (buf : list Z) (len : Z) : option (list Z) := __flags2str v buf len link_flags.
Definition rtnl_link_str2flags (name : list Z) : Z := __str2flags name link_flags.
Definition rtnl_link_stat2str (v : Z) (buf : list Z) (len : Z) : option (list Z) := __type2str v buf len link_stats.
Definition rtnl_link_str2stat (name : list Z) : Z := __str2type name link_stats.
Definition rtnl_link_operstate2str (v : Z) (buf : list Z) (len : Z) : option (list Z) := __type2str v buf len link_operstates.
Definition rtnl_link_str2operstate (name : list Z) : Z := __str2type name link_operstates.
Definition rtnl_link_mode2str (v : Z) (buf : list Z) (len : Z) : option (list Z) := __type2str v buf len link_modes.
Definition rtnl_link_str2mode (name : list Z) : Z := __str2type name link_modes.
Definition rtnl_link_inet_str2devconf (name : list Z) : Z := u32 (__str2type name inet_devconf).
Definition inet6_flags2str (v : Z) (buf : list Z) (len : Z) : option (list Z) := __flags2str v buf len inet6_flags.
Definition inet6_devconf2str (v : Z) (buf : list Z) (len : Z) : option (list Z) := __type2str v buf len inet6_devconf.
Definition rtnl_link_vlan_flags2str (v : Z) (buf : list Z) (len : Z) : option (list Z) := __flags2str v buf len vlan_flags.
Definition rtnl_link_vlan_str2flags (name : list Z) : Z := __str2flags name vlan_flags.
Definition neigh_attrs2str (v : Z) (buf : list Z) (len : Z) : option (list Z) := __flags2str v buf len neigh_attrs.
Definition rtnl_neigh_state2str (v : Z) (buf : list Z) (len : Z) : option (list Z) := __flags2str v buf len neigh_states.
Definition rtnl_neigh_str2state (name : list Z) : Z := __str2type name neigh_states.
Definition rtnl_neigh_flags2str (v : Z) (buf : list Z) (len : Z) : option (list Z) := __flags2str v buf len neigh_flags.
Definition rtnl_neigh_str2flag (name : list Z) : Z := __str2type name neigh_flags.
Definition rtnl_route_nh_flags2str (v : Z) (buf : list Z) (len : Z) : option (list Z) := __flags2str v buf len nh_flags.
Definition rtnl_route_nh_str2flags (name : list Z) : Z := __str2flags name nh_flags.
Definition nl_ovl_strategy2str (v : Z) (buf : list Z) (len : Z) : option (list Z) := __type2str v buf len ovl_strategies.
Definition nl_str2ovl_strategy (name : list Z) : Z := __str2type name ovl_strategies.
Definition rtnl_prio2str (v : Z) (buf : list Z) (len : Z) : option (list Z) := __type2str v buf len prios.
Definition rtnl_str2prio (name : list Z) : Z := __str2type name prios.
Definition route_attrs2str (v : Z) (buf : list Z) (len : Z) : option (list Z) := __flags2str v buf len route_attrs.
Definition rtnl_route_metric2str (v : Z) (buf : list Z) (len : Z) : option (list Z) := __type2str v buf len route_metrices.
Definition rtnl_route_str2metric (name : list Z) : Z := __str2type name route_metrices.
Definition nl_rtntype2str (v : Z) (buf : list Z) (len : Z) : option (list Z) := __type2str v buf len rtntypes.
Definition nl_str2rtntype (name : list Z) : Z := __str2type name rtntypes.
Definition rtnl_scope2str (v : Z) (buf : list Z) (len : Z) : option (list Z) := __type2str v buf len scopes.
Definition rtnl_str2scope (name : list Z) : Z := __str2type name scopes.
Definition rule_attrs2str (v : Z) (buf : list Z) (len : Z) : option (list Z) := __flags2str v buf len rule_attrs.
Definition nl_nlfamily2str (v : Z) (buf : list Z) (len : Z) : option (list Z) := __type2str v buf len nlfamilies.
Definition nl_str2nlfamily (name : list Z) : Z := __str2type name nlfamilies.
Definition nl_llproto2str (v : Z) (buf : list Z) (len : Z) : option (list Z) := __type2str v buf len llprotos.
Definition nl_str2llproto (name : list Z) : Z := __str2type name llprotos.
Definition nl_ether_proto2str (v : Z) (buf : list Z) (len : Z) : option (list Z) := __type2str v buf len ether_protos.
Definition nl_str2ether_proto (name : list Z) : Z := __str2type name ether_protos.

Definition nl_str2af (name : list Z) : Z :=
  let fam := __str2type name afs in if 0 <=? fam then fam else - EINVAL.

(** The tables of types, and the tables of flags that [__str2flags] reads, other than
    [log_flags]. *)
Definition type_tables : list (list trans_tbl) :=
  [afs; nlfamilies; llprotos; ether_protos; nl_msgtypes; rtntypes; scopes; route_metrices; link_stats; link_operstates; link_modes; inet_devconf; inet6_devconf; police_types; prios; ovl_strategies; nfnl_verdicts; nfnl_inet_hooks; log_copy_modes; queue_copy_modes].
Definition flag_tables : list (list trans_tbl) :=
  [link_flags; addr_flags; nh_flags; vlan_flags].
