(* ===== verification/Names.v ===== *)
(** * Names, flags and times in text are read back: [lib/utils.c] *)

From stdpp Require Import strings.
From S2P Require Import Prelude Packet Netlink NlError Text Attr CStr Utils Tables AddrOk.
Import Nl.

(** ** Types *)

(** The names of a table can be told apart, and from a number in base 16. *)
Definition name_ok (a : list Z) : bool :=
  negb (bool_decide (a = [])) && forallb (λ c, negb (c =? 0)) a &&
  negb (bool_decide (take 2 (map lower a) = [48; 120])).

Fixpoint names_distinct (tbl : list trans_tbl) : bool :=
  match tbl with
  | [] => true
  | e :: tbl => forallb (λ f, negb (case_eq (tr_a e) (tr_a f))) tbl && names_distinct tbl
  end.

Definition types_ok (tbl : list trans_tbl) : bool :=
  forallb (λ e, name_ok (tr_a e)) tbl && names_distinct tbl.

(** All names fit in [len] bytes. *)
Definition fits (len : Z) (tbl : list trans_tbl) : Prop := Forall (λ e, zlen (tr_a e) < len) tbl.

(** The text of a type. *)
Fixpoint type_name (type : Z) (tbl : list trans_tbl) : list Z :=
  match tbl with
  | [] => 48 :: 120 :: fmt_x (u32 type)
  | e :: tbl => if tr_i e =? type then tr_a e else type_name type tbl
  end.

Lemma type2str_name type buf len tbl : __type2str type buf len tbl = snprintf buf len (type_name type tbl).
Proof. induction tbl as [|e tbl IH]; [done|]. simpl. by destruct (tr_i e =? type). Qed.

Lemma case_eq_refl a : case_eq a a = true.
Proof. by apply bool_decide_eq_true. Qed.

Lemma case_eq_sym a b : case_eq a b = case_eq b a.
Proof. unfold case_eq. by apply bool_decide_ext. Qed.

Lemma name_ok_spec a : name_ok a = true → a ≠ [] ∧ 0 ∉ a ∧ take 2 (map lower a) ≠ [48; 120].
Proof.
  unfold name_ok. intros Hn. apply andb_prop in Hn as [Hn H3]. apply andb_prop in Hn as [H1 H2].
  apply negb_true_iff, bool_decide_eq_false in H1, H3. split_and!; try done. intros Hin.
  rewrite forallb_forall in H2. by specialize (H2 0 (proj1 (list_elem_of_In _ _) Hin)).
Qed.

Lemma fmt_x_chars n : 0 ≤ n → Forall addr_char (fmt_x n) ∧ (length (fmt_x n) ≤ 16)%nat.
Proof. intros Hn. by apply digits_of_chars; lia. Qed.

(** A number needs no more than eight digits. *)
Lemma digits_len base fuel n k :
  2 ≤ base → 0 ≤ n < base ^ Z.of_nat k → (0 < k)%nat → (length (digits_of base fuel n) ≤ k)%nat.
Proof.
  intros Hb. revert n k. induction fuel as [|fuel IH]; intros n k Hn Hk; cbn [digits_of]; [simpl; lia|].
  destruct (Z.ltb_spec n base); [simpl; lia|]. destruct k as [|[|k] ]; [lia|rewrite Z.pow_1_r in Hn; lia|].
  rewrite length_app. simpl length. specialize (IH (n / base) (S k)).
  enough (0 ≤ n / base < base ^ Z.of_nat (S k)) as Hq by (specialize (IH Hq ltac:(lia)); lia).
  split; [apply Z.div_pos; lia|]. apply Z.div_lt_upper_bound; [lia|]. rewrite <- Z.pow_succ_r by lia.
  replace (Z.succ (Z.of_nat (S k))) with (Z.of_nat (S (S k))) by lia. lia.
Qed.

Lemma find_name_hex tbl t :
  forallb (λ e, name_ok (tr_a e)) tbl = true → find_name (48 :: 120 :: t) tbl = None.
Proof.
  induction tbl as [|e tbl IH]; [done|]. cbn [forallb find_name]. intros [He Ht]%andb_prop.
  assert (case_eq (tr_a e) (48 :: 120 :: t) = false) as ->; [|by apply IH].
  apply bool_decide_eq_false. intros E. destruct (name_ok_spec _ He) as (_ & _ & Hn). apply Hn. by rewrite E.
Qed.

(** The name of a type is found at its entry. *)
Lemma find_type_name type tbl :
  names_distinct tbl = true → (∃ e, e ∈ tbl ∧ tr_i e = type) → find_name (type_name type tbl) tbl = Some type.
Proof.
  induction tbl as [|e tbl IH]; [intros _ (e & He & _); by apply elem_of_nil in He|].
  cbn [names_distinct type_name find_name]. intros [Hd Ht]%andb_prop (f & Hf & Ef).
  destruct (Z.eqb_spec (tr_i e) type) as [Ee|Ee]; [rewrite case_eq_refl; by f_equal|].
  apply elem_of_cons in Hf as [->|Hf]; [done|].
  assert (∀ l, (∃ g, g ∈ l ∧ tr_i g = type) → ∃ g, g ∈ l ∧ type_name type l = tr_a g) as Hg.
  { clear. induction l as [|g l IHl]; [intros (g & Hg & _); by apply elem_of_nil in Hg|]. intros (h & Hh & Eh). cbn [type_name].
    destruct (Z.eqb_spec (tr_i g) type); [exists g; split; [by apply list_elem_of_here|done]|].
    apply elem_of_cons in Hh as [->|Hh]; [done|]. destruct IHl as (g' & ? & ?); [by exists h|].
    exists g'. split; [by apply list_elem_of_further|done]. }
  destruct (Hg tbl) as (g & Hgin & Eg); [by exists f|]. rewrite Eg. rewrite forallb_forall in Hd.
  specialize (Hd g (proj1 (list_elem_of_In _ _) Hgin)). apply negb_true_iff in Hd. rewrite Hd, <- Eg. apply IH; [done|]. by exists f.
Qed.

Lemma type_name_other type tbl : (∀ e, e ∈ tbl → tr_i e ≠ type) → type_name type tbl = 48 :: 120 :: fmt_x (u32 type).
Proof.
  induction tbl as [|e tbl IH]; [done|]. intros Ho. cbn [type_name].
  rewrite (proj2 (Z.eqb_neq _ _)) by (apply Ho, list_elem_of_here). apply IH. intros f Hf. by apply Ho, list_elem_of_further.
Qed.

Lemma type_name_in type tbl :
  (∃ e, e ∈ tbl ∧ tr_i e = type ∧ type_name type tbl = tr_a e) ∨ (∀ e, e ∈ tbl → tr_i e ≠ type).
Proof.
  induction tbl as [|e tbl IH]; [right; intros e He; by apply elem_of_nil in He|]. cbn [type_name].
  destruct (Z.eqb_spec (tr_i e) type) as [Ee|Ee]; [left; exists e; split; [apply list_elem_of_here|done]|].
  destruct IH as [(f & ? & ? & ?)|Ho]; [left; exists f; split; [by apply list_elem_of_further|done]|right].
  intros f [->|Hf]%elem_of_cons; [done|by apply Ho].
Qed.

(** What [__type2str] writes, [__str2type] reads back. *)
Lemma type_roundtrip tbl type buf len :
  types_ok tbl = true → - 2 ^ 31 ≤ type < 2 ^ 31 → zlen buf = len → 10 < len → fits len tbl →
  ∃ buf' s, __type2str type buf len tbl = Some buf' ∧ c_string buf' = Some s ∧ __str2type s tbl = type.
Proof.
  intros [Hn Hd]%andb_prop Ht Hb Hl Hf. rewrite type2str_name. pose proof (Z.mod_pos_bound type (2 ^ 32) ltac:(lia)) as Hm.
  assert (∀ s, zlen s < len → 0 ∉ s → ∃ buf', snprintf buf len s = Some buf' ∧ c_string buf' = Some s) as Hw.
  { intros s Hs H0. destruct (snprintf_whole buf len s Hb Hs H0) as (buf' & E & Hh). exists buf'. split; [done|by eapply holds_string]. }
  destruct (type_name_in type tbl) as [(e & He & Ee & En)|Ho].
  - rewrite En. assert (name_ok (tr_a e) = true) as Hok by (rewrite forallb_forall in Hn; by apply Hn, list_elem_of_In).
    destruct (name_ok_spec _ Hok) as (Hne & H0 & _). unfold fits in Hf. rewrite list.Forall_forall in Hf.
    destruct (Hw (tr_a e)) as (buf' & E & Hc); [by apply Hf|done|]. exists buf', (tr_a e). split_and!; try done.
    unfold __str2type. destruct (tr_a e) eqn:Ea; [done|]. rewrite <- En, find_type_name; [done|done|by exists e].
  - rewrite type_name_other by done. unfold u32 at 1. destruct (fmt_x_chars (type mod 2 ^ 32)) as [Hc _]; [lia|].
    pose proof (digits_len 16 16 (type mod 2 ^ 32) 8) as Hlen. assert (0 ∉ fmt_x (type mod 2 ^ 32)) as H0 by (by apply addr_chars_nul).
    destruct (Hw (48 :: 120 :: fmt_x (type mod 2 ^ 32))) as (buf' & E & Hcs).
    + unfold zlen, fmt_x. cbn [length]. specialize (Hlen ltac:(lia) ltac:(lia) ltac:(lia)). lia.
    + by rewrite !not_elem_of_cons.
    + do 2 eexists. split_and!; [done|done|]. unfold __str2type. rewrite find_name_hex by done. unfold str2num, strtoul.
      rewrite <- (app_nil_r (fmt_x _)), number_fmt_x, some_bind by (try done; lia). cbn [fst snd].
      unfold ULONG_MAX. decide_test (2 ^ 64 - 1 <? type mod 2 ^ 32) false. decide_test (type mod 2 ^ 32 =? 2 ^ 64 - 1) false.
      by apply s32_u32.
Qed.

Lemma type_tables_ok : forallb types_ok type_tables = true.
Proof. by vm_compute. Qed.

(** ** Flags *)

(** The flags of a list of entries. *)
Definition or_all (l : list trans_tbl) : Z := foldr (λ e v, Z.lor (tr_i e) v) 0 l.

(** The names of a list of entries, with commas between them. *)
Fixpoint joined (l : list trans_tbl) : list Z :=
  match l with
  | [] => []
  | e :: l => tr_a e ++ match l with [] => [] | _ => 44 :: joined l end
  end.

Definition flag_name_ok (a : list Z) : bool :=
  match a with
  | [] => false
  | c :: _ => negb (c =? 32) && forallb (λ c, negb (c =? 0) && negb (c =? 44)) a
  end.

(** The flags do not overlap, and no name is the start of another one. *)
Definition apart (e f : trans_tbl) : bool :=
  (Z.land (tr_i e) (tr_i f) =? 0) && negb (case_prefix (tr_a e) (tr_a f)) && negb (case_prefix (tr_a f) (tr_a e)).

Fixpoint all_apart (tbl : list trans_tbl) : bool :=
  match tbl with
  | [] => true
  | e :: tbl => forallb (apart e) tbl && all_apart tbl
  end.

Definition flags_ok (tbl : list trans_tbl) : bool :=
  forallb (λ e, flag_name_ok (tr_a e) && negb (tr_i e =? 0)) tbl && all_apart tbl.

(** A buffer of this size has room for all names. *)
Definition room (tbl : list trans_tbl) : Z := foldr (λ e n, zlen (tr_a e) + 1 + n) 1 tbl.

Lemma flag_name_spec a :
  flag_name_ok a = true → ∃ c t, a = c :: t ∧ c ≠ 32 ∧ 0 ∉ a ∧ 44 ∉ a.
Proof.
  destruct a as [|c t]; [done|]. cbn [flag_name_ok]. intros [H1 H2]%andb_prop. exists c, t. split; [done|].
  apply negb_true_iff, Z.eqb_neq in H1. rewrite forallb_forall in H2. split_and!; [done|..].
  - intros Hin%list_elem_of_In. by apply H2 in Hin.
  - intros Hin%list_elem_of_In. by apply H2 in Hin.
Qed.

Lemma land_or_all e l : (∀ f, f ∈ l → Z.land (tr_i e) (tr_i f) = 0) → Z.land (tr_i e) (or_all l) = 0.
Proof.
  induction l as [|f l IH]; [intros _; apply Z.land_0_r|]. intros Hf. cbn [or_all foldr].
  rewrite Z.land_lor_distr_r, (Hf f) by apply list_elem_of_here. apply IH. intros g Hg. by apply Hf, list_elem_of_further.
Qed.

Lemma land_sub v w : Z.land (Z.lor v w) w = w.
Proof. apply Z.bits_inj'. intros n Hn. rewrite Z.land_spec, Z.lor_spec. by destruct (Z.testbit v n), (Z.testbit w n). Qed.

Lemma land_rest v w flags : Z.land (Z.lor v w) flags = Z.lor v w → Z.land w flags = w.
Proof.
  intros Hf. apply Z.bits_inj'. intros n Hn. apply (f_equal (λ x, Z.testbit x n)) in Hf.
  rewrite Z.land_spec, Z.lor_spec in Hf. rewrite Z.land_spec. by destruct (Z.testbit v n), (Z.testbit w n), (Z.testbit flags n).
Qed.

(** Taking one flag out of a set. *)
Lemma or_all_cons_clear e l :
  Z.land (tr_i e) (or_all l) = 0 → Z.land (or_all (e :: l)) (Z.lnot (tr_i e)) = or_all l.
Proof.
  intros Hd. cbn [or_all foldr]. change (foldr (λ e v, Z.lor (tr_i e) v) 0 l) with (or_all l).
  apply Z.bits_inj'. intros n Hn. assert (Z.testbit (Z.land (tr_i e) (or_all l)) n = false) as Hb by (rewrite Hd; apply Z.bits_0).
  rewrite Z.land_spec in Hb. rewrite Z.land_spec, Z.lor_spec, Z.lnot_spec by done.
  by destruct (Z.testbit (tr_i e) n), (Z.testbit (or_all l) n).
Qed.

Lemma or_all_nonzero e l : tr_i e ≠ 0 → or_all (e :: l) ≠ 0.
Proof. intros He E. apply Z.lor_eq_0_iff in E as [E _]. done. Qed.

Lemma joined_chars l : Forall (λ e, flag_name_ok (tr_a e) = true) l → 0 ∉ joined l.
Proof.
  induction 1 as [|e l He Hl IH]; [apply not_elem_of_nil|]. cbn [joined]. apply not_elem_of_app.
  destruct (flag_name_spec _ He) as (_ & _ & _ & _ & H0 & _). split; [done|]. destruct l; [apply not_elem_of_nil|].
  by apply not_elem_of_cons.
Qed.

Lemma apart_spec e tbl f :
  forallb (apart e) tbl = true → f ∈ tbl →
  Z.land (tr_i e) (tr_i f) = 0 ∧ case_prefix (tr_a e) (tr_a f) = false ∧ case_prefix (tr_a f) (tr_a e) = false.
Proof.
  intros Ha Hf%list_elem_of_In. rewrite forallb_forall in Ha. specialize (Ha f Hf).
  apply andb_prop in Ha as [Ha H3]. apply andb_prop in Ha as [H1 H2].
  split_and!; [by apply Z.eqb_eq|by apply negb_true_iff..].
Qed.

(** The loop of [__flags2str] writes the names of the flags that are set. *)
Lemma flags_loop_ok sel tbl :
  sel `sublist_of` tbl → Forall (λ e, flag_name_ok (tr_a e) = true ∧ tr_i e ≠ 0) tbl → all_apart tbl = true →
  ∀ flags buf len t, holds len buf t → Z.land (or_all sel) flags = or_all sel →
    zlen t + zlen (joined sel) < len → len < 2 ^ 63 →
    ∃ buf', flags_loop flags (or_all sel) buf len tbl = Some buf' ∧ holds len buf' (t ++ joined sel).
Proof.
  induction 1 as [|e sel tbl Hs IH|e sel tbl Hs IH]; intros Hok Ha flags buf len t Hh Hf Hl Hlen.
  - exists buf. by rewrite app_nil_r.
  - apply list.Forall_cons in Hok as [ [Hn Hz] Hok]. cbn [all_apart] in Ha. apply andb_prop in Ha as [Ha Ha'].
    destruct (flag_name_spec _ Hn) as (_ & _ & _ & _ & H0 & _).
    assert (Z.land (tr_i e) (or_all sel) = 0) as Hd.
    { apply land_or_all. intros f Hfin. eapply apart_spec; [done|]. by eapply elem_of_sublist. }
    cbn [flags_loop joined] in *. rewrite or_all_cons_clear by done. rewrite Z.land_comm.
    cbn [or_all foldr] in Hf. change (foldr (λ e v, Z.lor (tr_i e) v) 0 sel) with (or_all sel) in Hf.
    change (or_all (e :: sel)) with (Z.lor (tr_i e) (or_all sel)). rewrite (Z.lor_comm (tr_i e)), land_sub, (proj2 (Z.eqb_neq _ _) Hz).
    cbn [negb]. rewrite zlen_app in Hl. pose proof (zlen_nonneg (match sel with [] => [] | _ => 44 :: joined sel end)).
    destruct (append_whole buf len t (tr_a e) Hh) as (buf1 & E1 & Hh1); [lia|done..|]. rewrite E1, some_bind.
    rewrite (land_rest _ _ _ Hf). destruct sel as [|f sel].
    + cbn [or_all foldr]. change (negb (0 =? 0)) with false. cbv iota. rewrite some_bind.
      pose proof (land_rest _ _ _ Hf) as Hf'. destruct (IH Hok Ha' flags buf1 len (t ++ tr_a e) Hh1) as (buf' & E' & H'); try done; [rewrite zlen_app; cbn; change (zlen []) with 0 in *; lia|].
      exists buf'. split; [done|]. by rewrite app_assoc.
    + assert (or_all (f :: sel) ≠ 0) as Hnz.
      { apply or_all_nonzero. rewrite list.Forall_forall in Hok. apply Hok. eapply elem_of_sublist; [apply list_elem_of_here|done]. }
      rewrite (proj2 (Z.eqb_neq _ _) Hnz). cbn [negb]. change (44 :: joined (f :: sel)) with ([44] ++ joined (f :: sel)) in *.
      rewrite zlen_app in Hl. change (zlen [44]) with 1 in Hl. pose proof (zlen_nonneg (joined (f :: sel))).
      destruct (append_whole buf1 len _ [44] Hh1) as (buf2 & E2 & Hh2); [rewrite zlen_app; change (zlen [44]) with 1; lia|done|by apply not_elem_of_cons; split; [|apply not_elem_of_nil]|].
      rewrite E2, some_bind. pose proof (land_rest _ _ _ Hf) as Hf'. destruct (IH Hok Ha' flags buf2 len _ Hh2) as (buf' & E' & H'); try done.
      { rewrite !zlen_app. change (zlen [44]) with 1. lia. }
      exists buf'. split; [done|]. by rewrite <- !app_assoc in H'.
  - apply list.Forall_cons in Hok as [ [Hn Hz] Hok]. cbn [all_apart] in Ha. apply andb_prop in Ha as [Ha Ha'].
    cbn [flags_loop]. assert (Z.land (tr_i e) (or_all sel) = 0) as ->.
    { apply land_or_all. intros f Hfin. eapply apart_spec; [done|]. by eapply elem_of_sublist. }
    change (negb (0 =? 0)) with false. cbv iota. by apply IH.
Qed.

Lemma skip1_id c t : c ≠ 32 → skip1 (c :: t) = c :: t.
Proof. intros Hc. unfold skip1. repeat case_match; congruence. Qed.

(** A name selects its own flag and no other. *)
Lemma item_flags_none item tbl v : (∀ f, f ∈ tbl → case_prefix item (tr_a f) = false) → item_flags item tbl v = v.
Proof.
  revert v. induction tbl as [|f tbl IH]; [done|]. intros v Hf. cbn [item_flags]. rewrite (Hf f) by apply list_elem_of_here.
  apply IH. intros g Hg. by apply Hf, list_elem_of_further.
Qed.

Lemma item_flags_name e tbl v : all_apart tbl = true → e ∈ tbl → item_flags (tr_a e) tbl v = Z.lor v (tr_i e).
Proof.
  revert v. induction tbl as [|f tbl IH]; intros v Ha He; [by apply elem_of_nil in He|].
  cbn [all_apart item_flags] in *. apply andb_prop in Ha as [Ha Ha'].
  apply elem_of_cons in He as [->|He].
  - unfold case_prefix at 1. rewrite firstn_all, case_eq_refl. apply item_flags_none. intros g Hg.
    by destruct (apart_spec _ _ _ Ha Hg) as (_ & ? & _).
  - destruct (apart_spec _ _ _ Ha He) as (_ & _ & ->). by apply IH.
Qed.

Lemma str2flags_joined tbl sel :
  all_apart tbl = true → Forall (λ e, flag_name_ok (tr_a e) = true) tbl → sel ≠ [] → (∀ e, e ∈ sel → e ∈ tbl) →
  ∀ fuel v, (length (joined sel) < fuel)%nat → str2flags_loop fuel (joined sel) tbl v = Z.lor v (or_all sel).
Proof.
  intros Ha Hok. induction sel as [|e sel IH]; [done|]. intros _ Hin fuel v Hfu.
  assert (e ∈ tbl) as He by apply Hin, list_elem_of_here. rewrite list.Forall_forall in Hok.
  destruct (flag_name_spec _ (Hok e He)) as (c & t & Ea & Hc & _ & H44).
  destruct fuel as [|fuel]; [lia|]. cbn [str2flags_loop]. destruct sel as [|f sel].
  - cbn [joined]. rewrite app_nil_r, Ea, skip1_id, <- Ea, strchr_none by done. rewrite item_flags_name by done.
    cbn [or_all foldr]. by rewrite Z.lor_0_r.
  - change (joined (e :: f :: sel)) with (tr_a e ++ 44 :: joined (f :: sel)) in *.
    assert (skip1 (tr_a e ++ 44 :: joined (f :: sel)) = tr_a e ++ 44 :: joined (f :: sel)) as ->.
    { rewrite Ea. cbn [app]. by apply skip1_id. }
    rewrite strchr_app by done. rewrite length_app in Hfu. cbn [length] in Hfu. rewrite IH; [|done| |lia].
    + rewrite item_flags_name by done. by rewrite <- Z.lor_assoc.
    + intros g Hg. by apply Hin, list_elem_of_further.
Qed.

Lemma joined_room sel tbl : sel `sublist_of` tbl → zlen (joined sel) < room tbl.
Proof.
  induction 1 as [|e sel tbl _ IH|e sel tbl _ IH]; [done| |].
  - cbn [joined room foldr]. rewrite zlen_app. fold (room tbl). destruct sel as [|f sel].
    + change (zlen (joined [])) with 0 in IH. change (zlen []) with 0. lia.
    + change (44 :: joined (f :: sel)) with ([44] ++ joined (f :: sel)). rewrite zlen_app. change (zlen [44]) with 1. lia.
  - cbn [room foldr]. fold (room tbl). pose proof (zlen_nonneg (tr_a e)). lia.
Qed.

Lemma flags_ok_spec tbl :
  flags_ok tbl = true → Forall (λ e, flag_name_ok (tr_a e) = true ∧ tr_i e ≠ 0) tbl ∧ all_apart tbl = true.
Proof.
  intros [Hn Ha]%andb_prop. split; [|done]. apply list.Forall_forall. intros e He%list_elem_of_In.
  rewrite forallb_forall in Hn. specialize (Hn e He). apply andb_prop in Hn as [? ?%negb_true_iff%Z.eqb_neq]. done.
Qed.

Lemma zeroed_holds buf len : zlen buf = len → 0 < len → ∃ buf', zeroed buf len = Some buf' ∧ holds len buf' [].
Proof.
  intros Hb Hl. exists (replicate (Z.to_nat len) 0). unfold zeroed. split.
  { rewrite <- (app_nil_r buf), st_head, app_nil_r; [done|]. rewrite length_replicate. unfold zlen in Hb. lia. }
  split; [unfold zlen; rewrite length_replicate; lia| |apply not_elem_of_nil].
  exists (replicate (Z.to_nat len - 1) 0). cbn [app]. by replace (Z.to_nat len) with (S (Z.to_nat len - 1)) at 1 by lia.
Qed.

(** What [__flags2str] writes for some of the flags of a table, [__str2flags] reads back. *)
Lemma flags_roundtrip tbl sel buf len :
  flags_ok tbl = true → sel `sublist_of` tbl → sel ≠ [] → zlen buf = len → room tbl ≤ len < 2 ^ 63 →
  ∃ buf' s, __flags2str (or_all sel) buf len tbl = Some buf' ∧ c_string buf' = Some s ∧ __str2flags s tbl = or_all sel.
Proof.
  intros [Hn Ha]%flags_ok_spec Hs Hne Hb Hl. pose proof (joined_room _ _ Hs) as Hr. pose proof (zlen_nonneg (joined sel)).
  unfold __flags2str.
  destruct (zeroed_holds buf len Hb ltac:(lia)) as (buf0 & E0 & Hh). rewrite E0, some_bind.
  destruct (flags_loop_ok _ _ Hs Hn Ha (or_all sel) _ len [] Hh) as (buf' & E & Hh'); [apply Z.land_diag|change (zlen []) with 0; lia|lia|].
  exists buf', (joined sel). split; [done|]. split; [by eapply holds_string|]. unfold __str2flags.
  rewrite (str2flags_joined tbl sel); [apply Z.lor_0_l|done| |done| |lia].
  - eapply list.Forall_impl; [exact Hn|]. by intros e [? _].
  - intros e He. by eapply elem_of_sublist.
Qed.

Lemma flag_tables_ok : forallb flags_ok flag_tables = true.
Proof. by vm_compute. Qed.

(** Without a name, all flags are read. *)
Lemma str2flags_empty tbl : __str2flags [] tbl = or_all tbl.
Proof.
  unfold __str2flags. cbn [length str2flags_loop skip1 strchr].
  enough (∀ v, item_flags [] tbl v = Z.lor v (or_all tbl)) as -> by apply Z.lor_0_l.
  induction tbl as [|e tbl IH]; intros v; cbn [item_flags or_all foldr]; [by rewrite Z.lor_0_r|].
  change (case_prefix [] (tr_a e)) with true. cbv iota. by rewrite IH, <- Z.lor_assoc.
Qed.

(** ** Times *)

(** A part of a time: a number, and the name of its unit. *)
Abbreviation part := (Z * list Z)%type.

Definition part_text (p : part) : list Z := fmt_u p.1 ++ p.2.

Fixpoint time_text (ps : list part) : list Z :=
  match ps with
  | [] => []
  | p :: ps => part_text p ++ match ps with [] => [] | _ => 32 :: time_text ps end
  end.

(** What the parts add up to, with the units that [nl_str2msec] knows. *)
Fixpoint total_of (ps : list part) (total : Z) : Z + Z :=
  match ps with
  | [] => inl total
  | p :: ps => match time_unit p.2 with
               | None => inr (- NLE_INVAL)
               | Some k => total_of ps (u64 (total + p.1 * k))
               end
  end.

Record part_ok (p : part) : Prop := {
  pk_num : 0 < p.1 < 2 ^ 31;
  pk_unit : ∃ c t, p.2 = c :: t ∧ 10 ≤ digit c;
  pk_blank : 32 ∉ p.2 ∧ 9 ∉ p.2;
  pk_nul : 0 ∉ p.2;
  pk_len : zlen p.2 ≤ 4;
}.

Lemma span_all u : 32 ∉ u → 9 ∉ u → span_blank u = (u, []).
Proof.
  induction u as [|c u IH]; [done|]. intros [Hc Hu]%not_elem_of_cons [Hc9 Hu9]%not_elem_of_cons. cbn [span_blank].
  rewrite (proj2 (Z.eqb_neq c 32)), (proj2 (Z.eqb_neq c 9)) by done. cbn [orb]. by rewrite IH.
Qed.

Lemma span_to u s : 32 ∉ u → 9 ∉ u → span_blank (u ++ 32 :: s) = (u, 32 :: s).
Proof.
  induction u as [|c u IH]; [done|]. intros [Hc Hu]%not_elem_of_cons [Hc9 Hu9]%not_elem_of_cons. cbn [span_blank app].
  rewrite (proj2 (Z.eqb_neq c 32)), (proj2 (Z.eqb_neq c 9)) by done. cbn [orb]. by rewrite IH.
Qed.

(** A part is read, after a space or not. *)
Lemma strtoul_part p s (lead : list Z) :
  part_ok p → lead = [] ∨ lead = [32] → strtoul 0 (lead ++ part_text p ++ s) = Some (p.1, p.2 ++ s).
Proof.
  intros [Hn (c & t & Eu & Hc) _ _ _] Hl. assert (strtoul 0 (lead ++ part_text p ++ s) = strtoul 0 (part_text p ++ s)) as ->.
  { by destruct Hl as [->| ->]. }
  unfold strtoul, part_text. rewrite <- app_assoc, number_fmt_pos, some_bind; [|lia|by rewrite Eu].
  cbn [fst snd]. unfold ULONG_MAX. by decide_test (2 ^ 64 - 1 <? p.1) false.
Qed.

Lemma read_time ps : ∀ fuel total lead,
  ps ≠ [] → Forall part_ok ps → lead = [] ∨ lead = [32] → (length ps ≤ fuel)%nat →
  str2msec_loop fuel (lead ++ time_text ps) total = total_of ps total.
Proof.
  induction ps as [|p ps IH]; [done|]. intros fuel total lead _ [Hp Hps]%list.Forall_cons Hl Hf.
  destruct fuel as [|fuel]; [simpl in Hf; lia|]. cbn [str2msec_loop time_text total_of].
  rewrite strtoul_part by done. destruct Hp as [_ (c & t & Eu & _) [Hb Ht] _ _].
  destruct ps as [|q ps].
  - rewrite app_nil_r, Eu. cbv iota beta. rewrite <- Eu, span_all by done. cbn [fst snd].
    by destruct (time_unit p.2).
  - rewrite Eu. cbn [app]. cbv iota beta. rewrite app_comm_cons, <- Eu, span_to by done. cbn [fst snd].
    destruct (time_unit p.2) as [k|]; [|done]. cbv zeta iota beta.
    change (32 :: time_text (q :: ps)) with ([32] ++ time_text (q :: ps)). apply IH; [done|done|by right|simpl in *; lia].
Qed.

Definition positive (p : part) : bool := 0 <? p.1.

(** Adding a part to a text. *)
Lemma time_text_snoc ps p :
  time_text (ps ++ [p]) = time_text ps ++ match time_text ps with [] => [] | _ => [32] end ++ part_text p.
Proof.
  assert (∀ q, part_text q ≠ []) as Hne.
  { intros [n u] E. unfold part_text in E. apply app_eq_nil in E as [E _]. cbn [fst] in E. unfold fmt_u in E.
    cbn [digits_of] in E. destruct (n <? 10); [done|]. by apply app_eq_nil in E as [_ ?]. }
  induction ps as [|q ps IH]; [cbn [app time_text]; by rewrite app_nil_r|]. cbn [app time_text]. rewrite IH.
  assert (time_text (q :: ps) ≠ []) as Hq. { cbn [time_text]. intros [E _]%app_eq_nil. by apply (Hne q). }
  cbn [time_text] in Hq. destruct ps as [|r ps].
  - cbn [app time_text]. rewrite !app_nil_r in *. destruct (part_text q) eqn:E; [done|]. cbn [app]. by rewrite ?app_nil_r.
  - cbn [app]. destruct (time_text (r :: ps)) eqn:Er; [cbn [time_text] in Er; apply app_eq_nil in Er as [Er _]; by apply Hne in Er|].
    destruct (part_text q ++ 32 :: z :: l) eqn:E; [by apply app_eq_nil in E as [_ ?]|]. rewrite <- E. by rewrite <- app_assoc.
Qed.

Lemma part_text_ok p : part_ok p → 0 ∉ part_text p ∧ zlen (part_text p) ≤ 14.
Proof.
  intros [Hn _ _ H0 Hl]. destruct (digits_of_chars 10 20 p.1) as [Hc _]; [lia|lia|].
  pose proof (digits_len 10 20 p.1 10 ltac:(lia) ltac:(lia) ltac:(lia)). unfold part_text. split.
  - apply not_elem_of_app. split; [by apply addr_chars_nul|done].
  - rewrite zlen_app. unfold zlen, fmt_u in *. lia.
Qed.

Lemma time_text_len ps : Forall part_ok ps → zlen (time_text ps) ≤ 15 * zlen ps.
Proof.
  induction 1 as [|p ps Hp Hps IH]; [done|]. destruct (part_text_ok p Hp) as [_ ?]. cbn [time_text]. rewrite zlen_app, zlen_cons.
  destruct ps as [|q ps]; [change (zlen []) with 0 in *; lia|]. rewrite (zlen_cons 32). lia.
Qed.

(** The loop of [nl_msec2str] writes the parts that are not 0. *)
Lemma msec_loop_ok ps : ∀ buf len before,
  Forall (λ p, positive p = true → part_ok p) ps → Forall part_ok before → holds len buf (time_text before) →
  len < 2 ^ 63 → 15 * zlen (before ++ ps) < len →
  ∃ buf', msec_loop ps buf len = Some buf' ∧ holds len buf' (time_text (before ++ List.filter positive ps)).
Proof.
  induction ps as [|[n u] ps IH]; intros buf len before Hps Hb Hh Hlen Hl.
  { exists buf. cbn [msec_loop List.filter]. by rewrite app_nil_r. }
  apply list.Forall_cons in Hps as [Hp Hps]. rewrite zlen_app, zlen_cons in Hl. cbn [msec_loop List.filter].
  change (positive (n, u)) with (0 <? n) in *. destruct (0 <? n) eqn:En.
  2: { apply IH; try done. rewrite zlen_app. lia. }
  specialize (Hp eq_refl). rewrite (holds_string _ _ _ Hh), some_bind.
  destruct (part_text_ok _ Hp) as [H0 Hpl]. pose proof (time_text_len _ Hb) as Ht. pose proof (zlen_nonneg ps).
  destruct (append_whole buf len (time_text before) (match time_text before with [] => [] | _ => [32] end ++ fmt_u n ++ u) Hh) as (buf1 & E1 & Hh1).
  - rewrite zlen_app. change (fmt_u n ++ u) with (part_text (n, u)). destruct (time_text before); [change (zlen []) with 0 in *; lia|].
    change (zlen [32]) with 1. lia.
  - done.
  - apply not_elem_of_app. split; [|done]. destruct (time_text before); [apply not_elem_of_nil|]. apply not_elem_of_cons. split; [done|apply not_elem_of_nil].
  - rewrite E1, some_bind. change (fmt_u n ++ u) with (part_text (n, u)) in Hh1. rewrite <- time_text_snoc in Hh1.
    destruct (IH buf1 len (before ++ [(n, u)]) Hps) as (buf' & E & Hh'); try done.
    + apply Forall_app. split; [done|]. by apply Forall_cons_2; [|apply Forall_nil].
    + rewrite !zlen_app. change (zlen [(n, u)]) with 1. lia.
    + exists buf'. split; [done|]. by rewrite <- app_assoc in Hh'.
Qed.

(** The parts of a time, in the order in which they are written. *)
Definition parts_of (msec : Z) : list part :=
  [(msec / 86400000, text "d"); (msec mod 86400000 / 3600000, text "h"); (msec mod 3600000 / 60000, text "m");
   (msec mod 60000 / 1000, text "s"); (msec mod 1000, text "msec")].

Lemma split_unit_ok msec unit : 0 ≤ msec → 0 < unit → msec / unit < 2 ^ 31 → split_unit msec unit = (msec / unit, msec mod unit).
Proof.
  intros Hm Hu Hq. pose proof (Z.div_pos msec unit Hm Hu). unfold split_unit. rewrite s32_small by lia. cbv zeta. f_equal.
  destruct (Z.ltb_spec 0 (msec / unit)) as [Hp|Hp]; [done|]. rewrite Z.mod_small; [done|].
  pose proof (Z.div_mod msec unit ltac:(lia)). pose proof (Z.mod_pos_bound msec unit Hu). nia.
Qed.

Lemma msec2str_parts msec buf len :
  0 ≤ msec < 2 ^ 31 * 86400000 →
  nl_msec2str msec buf len = (buf ← zeroed buf len; msec_loop (parts_of msec) buf len).
Proof.
  intros Hm. unfold nl_msec2str.
  assert (∀ a b, 0 < b → (b | a) → 0 < a → msec mod a mod b = msec mod b) as Hmm.
  { intros a b Hb [k ->] Ha. symmetry. rewrite <- (Znumtheory.Zmod_div_mod b (k * b)); try lia. by exists k. }
  pose proof (Z.mod_pos_bound msec 86400000 ltac:(lia)). pose proof (Z.mod_pos_bound msec 3600000 ltac:(lia)).
  pose proof (Z.mod_pos_bound msec 60000 ltac:(lia)). pose proof (Z.mod_pos_bound msec 1000 ltac:(lia)).
  rewrite (split_unit_ok msec) by first [lia|apply Z.div_lt_upper_bound; lia]. cbn [fst snd].
  rewrite (split_unit_ok (msec mod _)) by first [lia|apply Z.div_lt_upper_bound; lia]. cbn [fst snd].
  rewrite (Hmm 86400000 3600000) by first [lia|by exists 24].
  rewrite (split_unit_ok (msec mod 3600000)) by first [lia|apply Z.div_lt_upper_bound; lia]. cbn [fst snd].
  rewrite (Hmm 3600000 60000) by first [lia|by exists 60].
  rewrite (split_unit_ok (msec mod 60000)) by first [lia|apply Z.div_lt_upper_bound; lia]. cbn [fst snd].
  rewrite (Hmm 60000 1000) by first [lia|by exists 60]. by rewrite s32_small by lia.
Qed.

Lemma parts_ok msec : 0 ≤ msec < 2 ^ 31 * 86400000 → Forall (λ p, positive p = true → part_ok p) (parts_of msec).
Proof.
  intros Hm.
  assert (∀ n u c t, n < 2 ^ 31 → text u = c :: t → 10 ≤ digit c → 32 ∉ text u → 9 ∉ text u → 0 ∉ text u → zlen (text u) ≤ 4 →
    positive (n, text u) = true → part_ok (n, text u)) as Hp.
  { intros n u c t Hn Eu Hc H32 H9 H0 Hl Hpos. apply Z.ltb_lt in Hpos. by split; [cbn in *; lia|exists c, t|..]. }
  assert (∀ a b, 0 < b → 0 ≤ a < b * 2 ^ 31 → a / b < 2 ^ 31) as Hd by (intros; apply Z.div_lt_upper_bound; lia).
  pose proof (Z.mod_pos_bound msec 86400000 ltac:(lia)). pose proof (Z.mod_pos_bound msec 3600000 ltac:(lia)).
  pose proof (Z.mod_pos_bound msec 60000 ltac:(lia)). pose proof (Z.mod_pos_bound msec 1000 ltac:(lia)).
  unfold parts_of. repeat first [apply Forall_cons_2|apply Forall_nil];
    (eapply Hp; [first [apply Hd; lia|lia]|reflexivity|vm_compute; discriminate|(intros Hin%list_elem_of_In; vm_compute in Hin; intuition discriminate)..|by vm_compute]).
Qed.

(** Leaving out a part that is 0 does not change the total. *)
Lemma total_known n u k ps total :
  0 ≤ n → time_unit u = Some k → 0 ≤ total → 0 ≤ k → total + n * k < 2 ^ 64 →
  total_of (List.filter positive ((n, u) :: ps)) total = total_of (List.filter positive ps) (total + n * k).
Proof.
  intros Hn Hu Ht Hk Hs. cbn [List.filter]. unfold positive at 1. cbn [fst]. destruct (Z.ltb_spec 0 n) as [Hp|Hp].
  - cbn [total_of fst snd]. rewrite Hu. unfold u64. rewrite Z.mod_small by nia. done.
  - replace n with 0 by lia. by rewrite Z.add_0_r.
Qed.

Lemma total_parts msec :
  0 ≤ msec < 2 ^ 31 * 86400000 →
  total_of (List.filter positive (parts_of msec)) 0 = if msec mod 1000 =? 0 then inl msec else inr (- NLE_INVAL).
Proof.
  intros Hm. assert (0 ≤ msec / 86400000) by (apply Z.div_pos; lia).
  assert (∀ b, 0 < b → 0 ≤ msec mod b < b) as Hb by (intros; by apply Z.mod_pos_bound).
  assert (∀ a b k, b * k = a → 0 < b → 0 < k → msec mod a = b * (msec mod a / b) + msec mod b ∧ 0 ≤ msec mod a / b) as Hdm.
  { intros a b k <- Hb0 Hk. split; [|apply Z.div_pos; [apply Hb; nia|lia] ].
    rewrite (Z.div_mod (msec mod (b * k)) b) at 1 by lia. f_equal.
    rewrite Z.rem_mul_r, (Z.mul_comm b), Z.mod_add, Z.mod_mod by lia. done. }
  pose proof (Z.div_mod msec 86400000 ltac:(lia)). destruct (Hdm 86400000 3600000 24) as [? ?]; [lia..|].
  destruct (Hdm 3600000 60000 60) as [? ?]; [lia..|]. destruct (Hdm 60000 1000 60) as [? ?]; [lia..|].
  pose proof (Hb 1000 ltac:(lia)). pose proof (Hb 60000 ltac:(lia)). pose proof (Hb 3600000 ltac:(lia)). pose proof (Hb 86400000 ltac:(lia)).
  unfold parts_of.
  rewrite (total_known _ _ 86400000), (total_known _ _ 3600000), (total_known _ _ 60000), (total_known _ _ 1000); try done; try lia.
  cbn [List.filter]. unfold positive. cbn [fst]. destruct (Z.eqb_spec (msec mod 1000) 0) as [E|E].
  - rewrite E. change (0 <? 0) with false. cbn [total_of]. f_equal. lia.
  - decide_test (0 <? msec mod 1000) true. by cbn [total_of fst snd].
Qed.

(** What [nl_str2msec] makes of the text of a time. *)
Lemma msec_roundtrip msec buf len :
  0 < msec < 2 ^ 31 * 86400000 → zlen buf = len → 75 < len < 2 ^ 63 →
  ∃ buf' s, nl_msec2str msec buf len = Some buf' ∧ c_string buf' = Some s ∧
    nl_str2msec s = if msec mod 1000 =? 0 then inl msec else inr (- NLE_INVAL).
Proof.
  intros Hm Hb Hl. rewrite msec2str_parts by lia. destruct (zeroed_holds buf len Hb ltac:(lia)) as (buf0 & E0 & Hh0).
  rewrite E0, some_bind. pose proof (parts_ok msec ltac:(lia)) as Hpk. pose proof (total_parts msec ltac:(lia)) as Ht.
  destruct (msec_loop_ok (parts_of msec) buf0 len []) as (buf' & E & Hh);
    [done|apply Forall_nil|done|lia|change (zlen ([] ++ parts_of msec)) with 5; lia|].
  set (ps := List.filter positive (parts_of msec)) in *. cbn [app] in Hh.
  exists buf', (time_text ps). split; [done|]. split; [by eapply holds_string|].
  assert (Forall part_ok ps) as Hok.
  { apply list.Forall_forall. intros p [Hin Hpos]%list_elem_of_In%filter_In. rewrite list.Forall_forall in Hpk.
    apply Hpk; [by apply list_elem_of_In|done]. }
  assert (ps ≠ []) as Hne.
  { intros E'. rewrite E' in Ht. cbn [total_of] in Ht. destruct (_ =? 0); [|done]. injection Ht. lia. }
  unfold nl_str2msec. change (time_text ps) with ([] ++ time_text ps) at 2. rewrite read_time; [done|done|done|by left|].
  enough (length ps ≤ length (time_text ps))%nat by lia. clear -Hok. induction Hok as [|p ps Hp Hps IH]; [done|].
  cbn [time_text]. rewrite length_app. destruct Hp as [_ (c & t & Eu & _) _ _ _].
  assert (1 ≤ length (part_text p))%nat by (unfold part_text; rewrite length_app, Eu; simpl; lia).
  destruct ps as [|q ps]; simpl in *; lia.
Qed.
