(* ===== verification/NlList.v ===== *)
(** * Intrusive doubly linked lists: [libnl-3.0/include/netlink/list.h]

    The caches of libnl link their objects through a [struct nl_list_head] inside each
    object.  The heap of list heads maps a node to its [next] and [prev] pointers; an
    access to a node that is not there is a crash ([None]).  [dlist] relates a heap to the
    sequence that a list head represents, and the operations of [list.h] are proved to be
    the operations on sequences. *)

From S2P Require Import Prelude.

(** The list head inside the object at [p], or the head of the cache at [c]. *)
Inductive node := NObj (p : Z) | NHead (c : Z).

#[export] Instance node_eq : EqDecision node.
Proof. solve_decision. Defined.

#[export] Instance node_countable : Countable node.
Proof.
  refine (inj_countable' (λ n, match n with NObj p => inl p | NHead c => inr c end)
    (λ s, match s with inl p => NObj p | inr c => NHead c end) _).
  by intros [].
Defined.

(** [next] and [prev] of every live list head. *)
Abbreviation heads := (gmap node (node * node)).

Definition next (h : heads) (n : node) : option node := fst <$> h !! n.
Definition prev (h : heads) (n : node) : option node := snd <$> h !! n.

(** [n->next = v;] and [n->prev = v;] *)
Definition set_next (n v : node) (h : heads) : option heads :=
  x ← h !! n; Some (<[n := (v, x.2)]> h).
Definition set_prev (n v : node) (h : heads) : option heads :=
  x ← h !! n; Some (<[n := (x.1, v)]> h).

(** ** The operations *)

Definition nl_init_list_head (n : node) (h : heads) : heads := <[n := (n, n)]> h.

Definition __nl_list_add (obj p n : node) (h : heads) : option heads :=
  h ← set_next p obj h;
  h ← set_prev obj p h;
  h ← set_prev n obj h;
  set_next obj n h.

Definition nl_list_add_tail (obj head : node) (h : heads) : option heads :=
  p ← prev h head; __nl_list_add obj p head h.

Definition nl_list_add_head (obj head : node) (h : heads) : option heads :=
  n ← next h head; __nl_list_add obj head n h.

(** The pointers of [obj] itself stay as they are. *)
Definition nl_list_del (obj : node) (h : heads) : option heads :=
  n ← next h obj;
  p ← prev h obj;
  h ← set_prev n p h;
  p ← prev h obj;
  n ← next h obj;
  set_next p n h.

Definition nl_list_empty (head : node) (h : heads) : option bool :=
  n ← next h head; Some (bool_decide (n = head)).

Definition nl_list_at_tail (pos head : node) (h : heads) : option bool :=
  n ← next h pos; Some (bool_decide (n = head)).

Definition nl_list_at_head (pos head : node) (h : heads) : option bool :=
  p ← prev h pos; Some (bool_decide (p = head)).

(** ** Single updates *)

Lemma set_next_ok n v h :
  is_Some (h !! n) →
  ∃ h', set_next n v h = Some h' ∧ (∀ m, next h' m = if decide (m = n) then Some v else next h m) ∧
    (∀ m, prev h' m = prev h m) ∧ (∀ m, m ≠ n → h' !! m = h !! m) ∧ dom h' = dom h.
Proof.
  intros [x Hx]. unfold set_next. rewrite Hx. eexists. split; [reflexivity|]. unfold next, prev.
  split; [|split; [|split]].
  - intros m. destruct (decide (m = n)) as [->|]; [by rewrite lookup_insert_eq|].
    by rewrite lookup_insert_ne.
  - intros m. destruct (decide (m = n)) as [->|]; [by rewrite lookup_insert_eq, Hx|].
    by rewrite lookup_insert_ne.
  - intros m Hm. by rewrite lookup_insert_ne.
  - apply dom_insert_lookup_L. by eexists.
Qed.

Lemma set_prev_ok n v h :
  is_Some (h !! n) →
  ∃ h', set_prev n v h = Some h' ∧ (∀ m, prev h' m = if decide (m = n) then Some v else prev h m) ∧
    (∀ m, next h' m = next h m) ∧ (∀ m, m ≠ n → h' !! m = h !! m) ∧ dom h' = dom h.
Proof.
  intros [x Hx]. unfold set_prev. rewrite Hx. eexists. split; [reflexivity|]. unfold next, prev.
  split; [|split; [|split]].
  - intros m. destruct (decide (m = n)) as [->|]; [by rewrite lookup_insert_eq|].
    by rewrite lookup_insert_ne.
  - intros m. destruct (decide (m = n)) as [->|]; [by rewrite lookup_insert_eq, Hx|].
    by rewrite lookup_insert_ne.
  - intros m Hm. by rewrite lookup_insert_ne.
  - apply dom_insert_lookup_L. by eexists.
Qed.

Lemma is_Some_dom (h h' : heads) n : dom h' = dom h → is_Some (h !! n) → is_Some (h' !! n).
Proof. intros E. by rewrite <- !elem_of_dom, E. Qed.

(** ** Sequences *)

Definition link (h : heads) (a b : node) : Prop := next h a = Some b ∧ prev h b = Some a.

(** Each node of [ns] is linked to its successor. *)
Fixpoint path (h : heads) (ns : list node) : Prop :=
  match ns with
  | a :: (b :: _) as t => link h a b ∧ path h t
  | _ => True
  end.

(** The list at [hd] is the sequence [xs]. *)
Definition dlist (h : heads) (hd : node) (xs : list node) : Prop :=
  NoDup (hd :: xs) ∧ path h (hd :: xs ++ [hd]).

Lemma path_app h l1 a l2 : path h (l1 ++ a :: l2) ↔ path h (l1 ++ [a]) ∧ path h (a :: l2).
Proof.
  induction l1 as [|b l1 IH]; [simpl; tauto|]. destruct l1 as [|c l1].
  - simpl in *. tauto.
  - change (link h b c ∧ path h ((c :: l1) ++ a :: l2) ↔
            (link h b c ∧ path h ((c :: l1) ++ [a])) ∧ path h (a :: l2)). tauto.
Qed.

(** A path only depends on the [next] of all nodes but the last, and on the [prev] of all
    but the first. *)
Lemma path_frame h h' a l b :
  path h (a :: l ++ [b]) → (∀ x, x ∈ a :: l → next h' x = next h x) →
  (∀ x, x ∈ l ++ [b] → prev h' x = prev h x) → path h' (a :: l ++ [b]).
Proof.
  revert a. induction l as [|c l IH]; intros a Hp Hn Hv.
  - destruct Hp as [[H1 H2] _]. split; [|done]. split; [rewrite Hn|rewrite Hv]; set_solver.
  - destruct Hp as [[H1 H2] Hp]. split.
    + split; [rewrite Hn|rewrite Hv]; set_solver.
    + apply IH; [done| |]; intros x Hx; [apply Hn|apply Hv]; set_solver.
Qed.

(** A node on a path is live. *)
Lemma path_live h l x : path h l → x ∈ l → (2 ≤ length l)%nat → is_Some (h !! x).
Proof.
  assert (∀ a b, link h a b → is_Some (h !! a) ∧ is_Some (h !! b)) as Hl.
  { intros a b [H1 H2]. unfold next, prev in *. by destruct (h !! a), (h !! b). }
  induction l as [|a [|b l] IH]; simpl; [lia|lia|]. intros [Hab Hp] Hx _.
  apply elem_of_cons in Hx as [->|Hx]; [by apply (Hl a b)|].
  destruct l as [|c l]; [|apply IH; [done|done|simpl; lia]].
  apply list_elem_of_singleton in Hx as ->. by apply (Hl a b).
Qed.

Lemma dlist_live h hd xs x : dlist h hd xs → x ∈ hd :: xs → is_Some (h !! x).
Proof.
  intros [_ Hp] Hx. eapply path_live; [exact Hp| |].
  - rewrite app_comm_cons. apply elem_of_app. by left.
  - simpl. rewrite length_app. simpl. lia.
Qed.

(** The neighbours at any place of a list: what is before it and what is after it. *)
Lemma dlist_split h hd xs ys :
  dlist h hd (xs ++ ys) →
  ∃ l a b r, hd :: xs = l ++ [a] ∧ ys ++ [hd] = b :: r ∧ path h (l ++ [a]) ∧ link h a b ∧
    path h (b :: r).
Proof.
  intros [_ Hp]. destruct (exists_last (l := hd :: xs)) as (l & a & El); [done|].
  destruct (ys ++ [hd]) as [|b r] eqn:Er; [by destruct ys|].
  exists l, a, b, r. split; [done|]. split; [done|].
  rewrite <- app_assoc, Er, app_comm_cons, El, <- app_assoc in Hp. simpl in Hp.
  apply path_app in Hp as [H1 [H2 H3]]. done.
Qed.

(** ** Insertion *)

Lemma list_add_run h obj a b :
  is_Some (h !! obj) → is_Some (h !! a) → is_Some (h !! b) →
  ∃ h', __nl_list_add obj a b h = Some h' ∧
    (∀ m, next h' m = if decide (m = obj) then Some b
                      else if decide (m = a) then Some obj else next h m) ∧
    (∀ m, prev h' m = if decide (m = b) then Some obj
                      else if decide (m = obj) then Some a else prev h m) ∧
    (∀ m, m ≠ obj → m ≠ a → m ≠ b → h' !! m = h !! m) ∧ dom h' = dom h.
Proof.
  intros Ho Ha Hb. unfold __nl_list_add.
  destruct (set_next_ok a obj h Ha) as (h1 & -> & N1 & P1 & F1 & D1). cbn [mbind option_bind].
  destruct (set_prev_ok obj a h1) as (h2 & -> & P2 & N2 & F2 & D2); [by eapply is_Some_dom|].
  cbn [mbind option_bind].
  destruct (set_prev_ok b obj h2) as (h3 & -> & P3 & N3 & F3 & D3);
    [eapply is_Some_dom; [|exact Hb]; congruence|]. cbn [mbind option_bind].
  destruct (set_next_ok obj b h3) as (h4 & -> & N4 & P4 & F4 & D4);
    [eapply is_Some_dom; [|exact Ho]; congruence|].
  exists h4. split; [done|]. split; [|split; [|split; [|congruence]]].
  - intros m. by rewrite N4, N3, N2, N1.
  - intros m. by rewrite P4, P3, P2, P1.
  - intros m H1 H2 H3. by rewrite F4, F3, F2, F1.
Qed.

(** Where a neighbour is changed does not matter to the path before it and after it. *)
Lemma path_before h h' hd xs l a b r obj ys :
  NoDup (hd :: xs ++ ys) → obj ∉ hd :: xs ++ ys → hd :: xs = l ++ [a] → ys ++ [hd] = b :: r →
  (∀ m, m ≠ obj → m ≠ a → next h' m = next h m) → (∀ m, m ≠ obj → m ≠ b → prev h' m = prev h m) →
  path h (l ++ [a]) → path h' (l ++ [a]).
Proof.
  intros Hnd Hno El Er N P Hp. destruct l as [|c l]; [done|].
  simpl in El. injection El as -> El. subst xs.
  apply list.NoDup_cons in Hnd as [Hc Hnd]. apply list.NoDup_app in Hnd as (Hl & Hdis & _).
  apply list.NoDup_app in Hl as (_ & Hla & _).
  assert (b = c ∨ b ∈ ys) as Hb by (destruct ys; simpl in Er; set_solver).
  eapply path_frame; [exact Hp| |]; intros x Hx; [apply N|apply P]; set_solver.
Qed.

Lemma path_after h h' hd xs l a b r obj ys :
  NoDup (hd :: xs ++ ys) → obj ∉ hd :: xs ++ ys → hd :: xs = l ++ [a] → ys ++ [hd] = b :: r →
  (∀ m, m ≠ obj → m ≠ a → next h' m = next h m) → (∀ m, m ≠ obj → m ≠ b → prev h' m = prev h m) →
  path h (b :: r) → path h' (b :: r).
Proof.
  intros Hnd Hno El Er N P Hp. destruct ys as [|y ys]; [by injection Er as <- <-|].
  simpl in Er. injection Er as -> <-.
  apply (list.NoDup_app (hd :: xs)) in Hnd as (_ & Hdis & Hnd).
  apply list.NoDup_cons in Hnd as [Hb _].
  assert (a ∈ hd :: xs) as Ha by (rewrite El; set_solver).
  eapply path_frame; [exact Hp| |]; intros x Hx; [apply N|apply P]; set_solver.
Qed.

(** Inserting [obj] between two neighbours. *)
Lemma list_insert h hd xs ys obj l a b r :
  dlist h hd (xs ++ ys) → obj ∉ hd :: xs ++ ys → is_Some (h !! obj) →
  hd :: xs = l ++ [a] → ys ++ [hd] = b :: r →
  ∃ h', __nl_list_add obj a b h = Some h' ∧ dlist h' hd (xs ++ obj :: ys) ∧
    (∀ m, m ∉ obj :: hd :: xs ++ ys → h' !! m = h !! m) ∧ dom h' = dom h.
Proof.
  intros Hd Hno Hobj El Er. pose proof Hd as [Hnd Hp].
  assert (a ∈ hd :: xs) as Ina by (rewrite El; set_solver).
  assert (b ∈ ys ++ [hd]) as Inb by (rewrite Er; set_solver).
  destruct (list_add_run h obj a b Hobj) as (h' & E & N & P & F & D);
    [eapply dlist_live; [exact Hd|]; set_solver..|].
  exists h'. split; [done|]. split; [|split; [|done]].
  2:{ intros m Hm. apply F; set_solver. }
  split.
  { apply (list.NoDup_app (hd :: xs)) in Hnd as (N1 & N2 & N3).
    apply (list.NoDup_app (hd :: xs)). rewrite (list.NoDup_cons obj). set_solver. }
  rewrite <- app_assoc, <- app_comm_cons, Er, app_comm_cons, El, <- app_assoc. cbn [app].
  rewrite <- app_assoc, Er, app_comm_cons, El, <- app_assoc in Hp. cbn [app] in Hp.
  apply path_app in Hp as [Hp1 [Hab Hp2]].
  assert (∀ m, m ≠ obj → m ≠ a → next h' m = next h m) as N'
    by (intros m H1 H2; by rewrite N, !decide_False).
  assert (∀ m, m ≠ obj → m ≠ b → prev h' m = prev h m) as P'
    by (intros m H1 H2; by rewrite P, !decide_False).
  apply path_app. split; [by eapply path_before|]. split; [|split; [|by eapply path_after]].
  - split; [rewrite N, decide_False, decide_True; set_solver|].
    rewrite P, decide_False, decide_True; set_solver.
  - split; [by rewrite N, decide_True|by rewrite P, decide_True].
Qed.

Lemma add_tail_ok h hd xs obj :
  dlist h hd xs → obj ∉ hd :: xs → is_Some (h !! obj) →
  ∃ h', nl_list_add_tail obj hd h = Some h' ∧ dlist h' hd (xs ++ [obj]) ∧
    (∀ m, m ∉ obj :: hd :: xs → h' !! m = h !! m) ∧ dom h' = dom h.
Proof.
  rewrite <- (app_nil_r xs) at 1. intros Hd Hno Hobj.
  destruct (dlist_split h hd xs [] Hd) as (l & a & b & r & El & Er & _ & [_ Hv] & _).
  pose proof Er as [= <- <-]. unfold nl_list_add_tail. rewrite Hv. cbn [mbind option_bind].
  destruct (list_insert h hd xs [] obj l a hd [] Hd) as (h' & E & Hd' & F & D);
    [by rewrite app_nil_r|done..|]. rewrite app_nil_r in F. by exists h'.
Qed.

Lemma add_head_ok h hd xs obj :
  dlist h hd xs → obj ∉ hd :: xs → is_Some (h !! obj) →
  ∃ h', nl_list_add_head obj hd h = Some h' ∧ dlist h' hd (obj :: xs) ∧
    (∀ m, m ∉ obj :: hd :: xs → h' !! m = h !! m) ∧ dom h' = dom h.
Proof.
  intros Hd Hno Hobj.
  destruct (dlist_split h hd [] xs Hd) as (l & a & b & r & El & Er & _ & [Hn _] & _).
  destruct l as [|? []]; [|done..]. injection El as <-.
  unfold nl_list_add_head. rewrite Hn. cbn [mbind option_bind].
  exact (list_insert h hd [] xs obj [] hd b r Hd Hno Hobj eq_refl Er).
Qed.

(** ** Deletion *)

Lemma list_del_run h obj a b :
  link h a obj → link h obj b → a ≠ obj → b ≠ obj →
  ∃ h', nl_list_del obj h = Some h' ∧
    (∀ m, next h' m = if decide (m = a) then Some b else next h m) ∧
    (∀ m, prev h' m = if decide (m = b) then Some a else prev h m) ∧
    (∀ m, m ≠ a → m ≠ b → h' !! m = h !! m) ∧ dom h' = dom h.
Proof.
  intros [Na Po] [No Pb] Hao Hbo. unfold nl_list_del. rewrite No, Po. cbn [mbind option_bind].
  destruct (set_prev_ok b a h) as (h1 & -> & P1 & N1 & F1 & D1).
  { unfold prev in Pb. by destruct (h !! b). }
  cbn [mbind option_bind]. rewrite P1, decide_False, Po by done. cbn [mbind option_bind].
  rewrite N1, No. cbn [mbind option_bind].
  destruct (set_next_ok a b h1) as (h2 & -> & N2 & P2 & F2 & D2).
  { eapply is_Some_dom; [exact D1|]. unfold next in Na. by destruct (h !! a). }
  exists h2. split; [done|]. split; [|split; [|split; [|congruence]]].
  - intros m. by rewrite N2, N1.
  - intros m. by rewrite P2, P1.
  - intros m H1 H2. by rewrite F2, F1.
Qed.

(** Unlinking a member; its own pointers are left alone. *)
Lemma list_del_ok h hd xs obj ys :
  dlist h hd (xs ++ obj :: ys) →
  ∃ h', nl_list_del obj h = Some h' ∧ dlist h' hd (xs ++ ys) ∧ h' !! obj = h !! obj ∧
    (∀ m, m ∉ hd :: xs ++ ys → h' !! m = h !! m) ∧ dom h' = dom h.
Proof.
  intros Hd. pose proof Hd as [Hnd Hp].
  destruct (dlist_split h hd xs (obj :: ys) Hd) as (l & a & b' & r' & El & Er & Hp1 & Hao & Hp2).
  injection Er as <- Er. destruct (ys ++ [hd]) as [|b r] eqn:Eb; [by destruct ys|]. subst r'.
  destruct Hp2 as [Hob Hp2].
  assert (a ∈ hd :: xs) as Ina by (rewrite El; set_solver).
  assert (b ∈ ys ++ [hd]) as Inb by (rewrite Eb; set_solver).
  assert (obj ∉ hd :: xs ++ ys ∧ NoDup (hd :: xs ++ ys)) as [Hno Hnd'].
  { apply (list.NoDup_app (hd :: xs)) in Hnd as (N1 & N2 & N3). apply list.NoDup_cons in N3.
    split; [set_solver|]. apply (list.NoDup_app (hd :: xs)). set_solver. }
  destruct (list_del_run h obj a b Hao Hob) as (h' & E & N & P & F & D); [set_solver..|].
  exists h'. split; [done|]. split; [|split; [apply F; set_solver|split; [|done]]].
  2:{ intros m Hm. apply F; set_solver. }
  split; [done|].
  assert (∀ m, m ≠ obj → m ≠ a → next h' m = next h m) as N'
    by (intros m H1 H2; by rewrite N, !decide_False).
  assert (∀ m, m ≠ obj → m ≠ b → prev h' m = prev h m) as P'
    by (intros m H1 H2; by rewrite P, !decide_False).
  rewrite <- app_assoc, Eb, app_comm_cons, El, <- app_assoc. cbn [app].
  apply path_app. split; [by eapply path_before|]. split; [|by eapply path_after].
  split; [by rewrite N, decide_True|by rewrite P, decide_True].
Qed.

(** ** Tests *)

Lemma list_empty_ok h hd xs :
  dlist h hd xs → nl_list_empty hd h = Some (bool_decide (xs = [])).
Proof.
  intros [Hnd Hp]. unfold nl_list_empty. destruct xs as [|x xs].
  - destruct Hp as [[-> _] _]. cbn. by rewrite !bool_decide_true.
  - destruct Hp as [[-> _] _]. cbn. rewrite !bool_decide_false; [done..|].
    intros ->. apply list.NoDup_cons in Hnd as [Hn _]. set_solver.
Qed.

(** The successor of a member. *)
Lemma list_next h hd xs x ys :
  dlist h hd (xs ++ x :: ys) → next h x = Some (match ys with y :: _ => y | [] => hd end).
Proof.
  intros [_ Hp]. rewrite <- app_assoc in Hp. apply (path_app h (hd :: xs) x (ys ++ [hd])) in Hp as [_ Hp].
  destruct ys as [|y ys]; by destruct Hp as [[H1 _] _].
Qed.

Lemma list_first h hd xs :
  dlist h hd xs → next h hd = Some (match xs with y :: _ => y | [] => hd end).
Proof. intros [_ Hp]. destruct xs; by destruct Hp as [[H1 _] _]. Qed.

(** A list is not touched by changes elsewhere. *)
Lemma dlist_frame h h' hd xs :
  dlist h hd xs → (∀ m, m ∈ hd :: xs → h' !! m = h !! m) → dlist h' hd xs.
Proof.
  intros [Hnd Hp] E. split; [done|].
  eapply path_frame; [exact Hp| |]; intros x Hx; unfold next, prev; rewrite E; set_solver.
Qed.

Lemma init_list_ok h n : dlist (nl_init_list_head n h) n [].
Proof.
  split; [apply NoDup_singleton|]. unfold nl_init_list_head. split; [|done].
  unfold link, next, prev. by rewrite lookup_insert_eq.
Qed.
