(* ===== verification/TransList.v ===== *)
(** * Lists of names: [__trans_list_add] and the like of [lib/utils.c], [lib/route/route_utils.c]

    The names of routing tables and protocols are kept in linked lists, which can be read from
    a file.  The heap has the list heads and the entries; 0 is NULL. *)

From stdpp Require Import strings.
From S2P Require Import Prelude Packet Netlink NlError Text Attr CStr NlList Utils.
Import Nl.

(** ** Loops over a list *)

(** [nl_list_for_each_entry], from [pos] on; a body that returns a value leaves the loop. *)
Fixpoint first_entry {A} (fuel : nat) (h : heads) (hd pos : node) (body : Z → option (option A)) : option (option A) :=
  match fuel with
  | O => None
  | S fuel =>
      if decide (pos = hd) then Some None
      else match pos with
           | NHead _ => None
           | NObj p =>
               r ← body p;
               match r with
               | Some a => Some (Some a)
               | None => n ← next h pos; first_entry fuel h hd n body
               end
           end
  end.

(** No list is longer than the number of list heads. *)
Definition find_entry {A} (h : heads) (hd : node) (body : Z → option (option A)) : option (option A) :=
  n ← next h hd; first_entry (S (size h)) h hd n body.

(** The same on a sequence. *)
Fixpoint first_in {A} (ps : list Z) (body : Z → option (option A)) : option (option A) :=
  match ps with
  | [] => Some None
  | p :: ps => r ← body p; match r with Some a => Some (Some a) | None => first_in ps body end
  end.

Lemma first_entry_path {A} fuel h hd ps (body : Z → option (option A)) : ∀ pos,
  path h (pos :: map NObj ps ++ [hd]) → hd ∉ map NObj ps → (length ps < fuel)%nat →
  ∀ n, next h pos = Some n → first_entry fuel h hd n body = first_in ps body.
Proof.
  revert fuel. induction ps as [|p ps IH]; intros fuel pos Hp Hh Hf n Hn; (destruct fuel as [|fuel]; [lia|]);
    cbn [map app] in *; destruct Hp as [ [H1 _] Hp]; rewrite Hn in H1; injection H1 as ->.
  - cbn [first_entry]. by rewrite decide_True.
  - apply not_elem_of_cons in Hh as [Hne Hh]. cbn [first_entry first_in]. rewrite decide_False by done.
    destruct (body p) as [ [a|]|]; [done| |done]. rewrite !some_bind.
    assert (∃ m, next h (NObj p) = Some m) as [m Hm].
    { destruct ps; cbn [map app] in Hp; destruct Hp as [ [? _] _]; by eexists. }
    rewrite Hm, some_bind. apply (IH fuel (NObj p)); try done. simpl in Hf. lia.
Qed.

(** A list is no longer than the heap. *)
Lemma name_list_size h hd ps : dlist h hd (map NObj ps) → (length ps < size h)%nat.
Proof.
  intros Hd. pose proof Hd as [Hnd _]. rewrite <- size_dom. apply (Nat.lt_le_trans _ (length (hd :: map NObj ps))); [simpl; rewrite length_map; lia|].
  rewrite <- (size_list_to_set (C := gset node)) by done. apply subseteq_size. intros x Hx. apply elem_of_list_to_set in Hx.
  apply elem_of_dom. by eapply dlist_live.
Qed.

Lemma find_entry_ok {A} h hd ps (body : Z → option (option A)) :
  dlist h hd (map NObj ps) → find_entry h hd body = first_in ps body.
Proof.
  intros Hd. pose proof (name_list_size _ _ _ Hd) as Hs. destruct Hd as [Hnd Hp]. apply list.NoDup_cons in Hnd as [Hno _].
  unfold find_entry. assert (∃ m, next h hd = Some m) as [m Hm].
  { destruct ps; cbn [map app] in Hp; destruct Hp as [ [? _] _]; by eexists. }
  rewrite Hm, some_bind. eapply (first_entry_path _ h hd ps body hd); try done. lia.
Qed.

(** ** The lists of names *)

(** [struct trans_list]; [tl_a] is [None] when [strdup] failed. *)
Record trans_list := mkTl { tl_i : Z; tl_a : option (list Z) }.

Record names := mkNames { nm_heads : heads; nm_ents : gmap Z trans_list }.

Section TransList.
(** Memory for an entry, 0 when there is none; whether [strdup] succeeds. *)
Context (nm_calloc : names → Z) (nm_strdup : names → bool).
Local Open Scope state_scope.

Abbreviation M A := (St names A).

Definition __trans_list_add (i : Z) (a : list Z) (head : Z) : M Z := λ m,
  let p := nm_calloc m in
  if p =? 0 then Some (- NLE_NOMEM, m)
  else
    h ← nl_list_add_tail (NObj p) (NHead head) (<[NObj p := (NObj 0, NObj 0)]> (nm_heads m));
    Some (0, mkNames h (<[p := mkTl (s32 i) (if nm_strdup m then Some a else None)]> (nm_ents m))).

(** [free(tl)]: the entry and the list head inside it are gone. *)
Definition free_entry (p : Z) (m : names) : names :=
  mkNames (delete (NObj p) (nm_heads m)) (delete p (nm_ents m)).

(** [nl_list_for_each_entry_safe] with the two calls of [free]; the heads of the list stay. *)
Fixpoint clear_loop (fuel : nat) (hd pos n : node) : M unit := λ m,
  match fuel with
  | O => None
  | S fuel =>
      if decide (pos = hd) then Some (tt, m)
      else match pos with
           | NHead _ => None
           | NObj p =>
               _ ← nm_ents m !! p;
               let m := free_entry p m in
               n' ← next (nm_heads m) n;
               clear_loop fuel hd n n' m
           end
  end.

Definition __trans_list_clear (head : Z) : M unit := λ m,
  pos ← next (nm_heads m) (NHead head);
  n ← next (nm_heads m) pos;
  clear_loop (S (size (nm_heads m))) (NHead head) pos n m.

(** The body of a search by number: the text to print. *)
Definition by_type (m : names) (type : Z) (p : Z) : option (option (list Z)) :=
  e ← nm_ents m !! p;
  if tl_i e =? type then a ← tl_a e; Some (Some a) else Some None.

Definition __list_type2str (type : Z) (buf : list Z) (len : Z) (head : Z) : M (list Z) := sget (λ m,
  r ← find_entry (nm_heads m) (NHead head) (by_type m type);
  snprintf buf len (match r with Some a => a | None => 48 :: 120 :: fmt_x (u32 type) end)).

(** The body of a search by name. *)
Definition by_name (m : names) (buf : list Z) (p : Z) : option (option Z) :=
  e ← nm_ents m !! p;
  a ← tl_a e;
  Some (if case_eq a buf then Some (tl_i e) else None).

Definition __list_str2type (buf : list Z) (head : Z) : M Z := sget (λ m,
  match buf with
  | [] => Some (- NLE_INVAL)
  | _ =>
      r ← find_entry (nm_heads m) (NHead head) (by_name m buf);
      Some (match r with Some i => i | None => str2num buf end)
  end).

(** ** Files with names *)

(** [fgets]: up to 127 characters, to the end of the line. *)
Fixpoint fgets (n : nat) (s : list Z) : list Z * list Z :=
  match n, s with
  | S n, c :: s => if c =? 10 then ([c], s) else let r := fgets n s in (c :: r.1, r.2)
  | _, _ => ([], s)
  end.

Definition is_blank (c : Z) : bool := (c =? 32) || (c =? 9).

Fixpoint skip_blank (s : list Z) : list Z :=
  match s with c :: s' => if is_blank c then skip_blank s' else s | [] => [] end.

(** The characters before one of ["#\r\n\t "]. *)
Fixpoint good_chars (s : list Z) : list Z :=
  match s with
  | [] => []
  | c :: s => if (c =? 35) || (c =? 13) || (c =? 10) || (c =? 9) || (c =? 32) then [] else c :: good_chars s
  end.

(** A line: skipped, refused, or a number and a name. *)
Inductive name_line := Skipped | Refused (err : Z) | Named (num : Z) (name : list Z).

Definition read_line (buf : list Z) : name_line :=
  match buf with
  | 35 :: _ | 10 :: _ | 13 :: _ => Skipped
  | _ =>
      match strtol 0 buf with
      | None => Refused (- NLE_INVAL)
      | Some (num, e) =>
          if (num =? LONG_MIN) || (num =? LONG_MAX) then Refused (- NLE_RANGE)
          else match good_chars (skip_blank e) with
               | [] => Refused (- NLE_INVAL)
               | name => Named num name
               end
      end
  end.

(** The loop over the lines; the flag tells whether the file was closed. *)
Fixpoint read_loop (fuel : nat) (s : list Z) (cb : Z → list Z → M Z) : M (Z * bool) :=
  match fuel with
  | O => scrash
  | S fuel =>
      match s with
      | [] => sret (0, true)
      | _ =>
          let r := fgets 127 s in
          match read_line r.1 with
          | Skipped => read_loop fuel r.2 cb
          | Refused err => sret (err, false)
          | Named num name =>
              err <- cb num name ;;
              if err <? 0 then sret (err, false) else read_loop fuel r.2 cb
          end
      end
  end.

(** The file as the text in it, or the [errno] of [fopen]. *)
Definition __nl_read_num_str_file (file : list Z + Z) (cb : Z → list Z → M Z) : M (Z * bool) :=
  match file with
  | inr errno => sret (- nl_syserr2nlerr errno, true)
  | inl s => read_loop (S (length s)) s cb
  end.

(** ** [lib/route/route_utils.c] *)

Definition table_names : Z := 1.
Definition proto_names : Z := 2.

Definition add_routing_table_name (id : Z) (name : list Z) : M Z := __trans_list_add id name table_names.

Definition init_routing_table_names : M unit :=
  add_routing_table_name 0 (text "unspec") ;;
  add_routing_table_name 252 (text "compat") ;;
  add_routing_table_name 253 (text "default") ;;
  add_routing_table_name 254 (text "main") ;;
  add_routing_table_name 255 (text "local") ;;
  sret tt.

Definition release_routing_table_names : M unit := __trans_list_clear table_names.

Definition rtnl_route_read_table_names (file : list Z + Z) : M (Z * bool) :=
  __trans_list_clear table_names ;;
  __nl_read_num_str_file file add_routing_table_name.

Definition rtnl_route_table2str (table : Z) (buf : list Z) (size : Z) : M (list Z) := __list_type2str table buf size table_names.
Definition rtnl_route_str2table (name : list Z) : M Z := __list_str2type name table_names.

Definition add_proto_name (id : Z) (name : list Z) : M Z := __trans_list_add id name proto_names.

Definition init_proto_names : M unit :=
  add_proto_name 0 (text "unspec") ;;
  add_proto_name 1 (text "redirect") ;;
  add_proto_name 2 (text "kernel") ;;
  add_proto_name 3 (text "boot") ;;
  add_proto_name 4 (text "static") ;;
  sret tt.

Definition release_proto_names : M unit := __trans_list_clear proto_names.

Definition rtnl_route_read_protocol_names (file : list Z + Z) : M (Z * bool) :=
  __trans_list_clear proto_names ;;
  __nl_read_num_str_file file add_proto_name.

Definition rtnl_route_proto2str (proto : Z) (buf : list Z) (size : Z) : M (list Z) := __list_type2str proto buf size proto_names.
Definition rtnl_route_str2proto (name : list Z) : M Z := __list_str2type name proto_names.
End TransList.

(** ** What the lists hold *)

(** The list at [head] has the entries [l]. *)
Definition names_are (m : names) (head : Z) (l : list trans_tbl) : Prop :=
  ∃ ps, dlist (nm_heads m) (NHead head) (map NObj ps) ∧
    Forall2 (λ p e, nm_ents m !! p = Some (mkTl (tr_i e) (Some (tr_a e)))) ps l.

(** The functions on a list are those on a table with its entries. *)
Lemma list_type2str_ok m head l type buf len :
  names_are m head l →
  __list_type2str type buf len head m = (b ← __type2str type buf len l; Some (b, m)).
Proof.
  intros (ps & Hd & Hps). unfold __list_type2str, sget. rewrite (find_entry_ok _ _ ps) by done. clear Hd.
  induction Hps as [|p e ps l Hp _ IH]; cbn [first_in __type2str].
  - rewrite some_bind. by destruct (snprintf _ _ _).
  - assert (by_type m type p = Some (if tr_i e =? type then Some (tr_a e) else None)) as ->.
    { unfold by_type. rewrite Hp, some_bind. cbn [tl_i tl_a]. by destruct (tr_i e =? type). }
    rewrite some_bind. destruct (tr_i e =? type); [|apply IH]. rewrite some_bind. by destruct (snprintf _ _ _).
Qed.

Lemma list_str2type_ok m head l buf : names_are m head l → __list_str2type buf head m = Some (__str2type buf l, m).
Proof.
  intros (ps & Hd & Hps). unfold __list_str2type, sget, __str2type. destruct buf as [|c buf]; [done|].
  rewrite (find_entry_ok _ _ ps) by done. clear Hd.
  enough (first_in ps (by_name m (c :: buf)) = Some (find_name (c :: buf) l)) as -> by done.
  induction Hps as [|p e ps l Hp _ IH]; cbn [first_in find_name]; [done|].
  assert (by_name m (c :: buf) p = Some (if case_eq (tr_a e) (c :: buf) then Some (tr_i e) else None)) as ->.
  { unfold by_name. by rewrite Hp, some_bind. }
  rewrite some_bind. by destruct (case_eq (tr_a e) (c :: buf)).
Qed.

(** A name is added at the end. *)
Lemma trans_list_add_ok calloc strdup m head l i a :
  names_are m head l → calloc m ≠ 0 → nm_heads m !! NObj (calloc m) = None → nm_ents m !! calloc m = None →
  strdup m = true → - 2 ^ 31 ≤ i < 2 ^ 31 →
  ∃ m', __trans_list_add calloc strdup i a head m = Some (0, m') ∧ names_are m' head (l ++ [mkTr i a]).
Proof.
  intros (ps & Hd & Hps) Hp Hh He Hs Hi. unfold __trans_list_add. rewrite (proj2 (Z.eqb_neq _ 0)), Hs by done.
  set (p := calloc m) in *. pose proof Hd as [Hnd Hpa].
  assert (∀ x, x ∈ NHead head :: map NObj ps → x ≠ NObj p) as Hfr.
  { intros x Hx ->. apply (dlist_live _ _ _ _ Hd) in Hx. rewrite Hh in Hx. by destruct Hx. }
  assert (dlist (<[NObj p:=(NObj 0, NObj 0)]> (nm_heads m)) (NHead head) (map NObj ps)) as Hd'.
  { split; [done|]. eapply path_frame; [exact Hpa|..]; intros x Hx; unfold next, prev; rewrite lookup_insert_ne; try done;
      apply not_eq_sym, Hfr; [done|]. apply elem_of_app in Hx as [Hx|Hx%list_elem_of_singleton]; [by apply list_elem_of_further|].
    rewrite Hx. apply list_elem_of_here. }
  destruct (add_tail_ok _ _ _ (NObj p) Hd') as (h' & E & Hd2 & _).
  { intros Hin. by apply (Hfr _ Hin). }
  { rewrite lookup_insert_eq. by eexists. }
  rewrite E, some_bind. eexists. split; [done|]. exists (ps ++ [p]). split; [by rewrite map_app|].
  apply Forall2_app.
  - eapply Forall2_impl; [|exact Hps]. intros q e Hq. cbn [nm_ents]. rewrite lookup_insert_ne; [done|]. intros Eq. by rewrite <- Eq, He in Hq.
  - constructor; [|constructor]. cbn [nm_ents]. rewrite lookup_insert_eq. cbn [tr_i tr_a].
    rewrite (s32_cong i (u32 i)), s32_u32; [done|done|]. unfold u32. by rewrite Z.mod_mod.
Qed.

(** ** Clearing a list *)

(** The successors from [pos] to the head. *)
Fixpoint chain (h : heads) (pos : node) (ps : list Z) (hd : node) : Prop :=
  match ps with
  | [] => next h pos = Some hd
  | p :: ps => next h pos = Some (NObj p) ∧ chain h (NObj p) ps hd
  end.

Lemma path_chain h ps hd : ∀ pos, path h (pos :: map NObj ps ++ [hd]) → chain h pos ps hd.
Proof. induction ps as [|p ps IH]; intros pos Hp; cbn [map app chain] in *; destruct Hp as [ [? _] ?]; auto. Qed.

Lemma chain_delete h p ps hd : ∀ pos, chain h pos ps hd → pos ≠ NObj p → p ∉ ps → chain (delete (NObj p) h) pos ps hd.
Proof.
  induction ps as [|q ps IH]; intros pos Hc Hpos Hp; cbn [chain] in *.
  - unfold next. by rewrite lookup_delete_ne.
  - apply not_elem_of_cons in Hp as [Hq Hp]. destruct Hc as [Hc1 Hc2]. split; [unfold next; by rewrite lookup_delete_ne|].
    apply IH; [done|congruence|done].
Qed.

Lemma clear_loop_ok c ps : ∀ fuel m p n,
  next (nm_heads m) (NObj p) = Some n → chain (nm_heads m) (NObj p) ps (NHead c) → NoDup (p :: ps) →
  is_Some (nm_heads m !! NHead c) → (∀ q, q ∈ p :: ps → is_Some (nm_ents m !! q)) → (S (length ps) < fuel)%nat →
  ∃ m', clear_loop fuel (NHead c) (NObj p) n m = Some (tt, m') ∧
    nm_heads m' !! NHead c = nm_heads m !! NHead c ∧
    (∀ q, q ∈ p :: ps ∨ nm_ents m !! q = None → nm_ents m' !! q = None).
Proof.
  induction ps as [|q ps IH]; intros fuel m p n Hn Hc Hnd [hd Hhd] He Hf; (destruct fuel as [|fuel]; [lia|]); cbn [clear_loop];
    rewrite decide_False by done; destruct (He p (list_elem_of_here _ _)) as [e Hpe]; rewrite Hpe, some_bind; cbn [chain] in Hc.
  - rewrite Hn in Hc. injection Hc as ->. cbn [free_entry nm_heads]. unfold next at 1. rewrite lookup_delete_ne, Hhd by done.
    cbn [fmap option_fmap option_map]. rewrite some_bind. destruct fuel as [|fuel]; [simpl in Hf; lia|]. cbn [clear_loop].
    rewrite decide_True by done. eexists. split; [done|]. cbn [free_entry nm_heads nm_ents]. rewrite lookup_delete_ne by done.
    split; [done|]. intros q [Hq%list_elem_of_singleton|Hq]; [subst q; by rewrite lookup_delete_eq|].
    by rewrite lookup_delete_None; right.
  - destruct Hc as [Hc1 Hc]. rewrite Hn in Hc1. injection Hc1 as ->. apply list.NoDup_cons in Hnd as [Hp Hnd].
    apply not_elem_of_cons in Hp as [Hpq Hp]. cbn [free_entry nm_heads].
    assert (chain (delete (NObj p) (nm_heads m)) (NObj q) ps (NHead c)) as Hc' by (apply chain_delete; [done|congruence|done]).
    assert (∃ n', next (delete (NObj p) (nm_heads m)) (NObj q) = Some n') as [n' Hn'].
    { destruct ps; cbn [chain] in Hc'; [by eexists|]. destruct Hc'. by eexists. }
    rewrite Hn', some_bind. destruct (IH fuel (free_entry p m) q n') as (m' & E & Hh & Hz); cbn [free_entry nm_heads nm_ents]; try done.
    + by rewrite lookup_delete_ne, Hhd.
    + intros r Hr. rewrite lookup_delete_ne by (intros ->; apply elem_of_cons in Hr as [->|?]; done). apply He. by apply list_elem_of_further.
    + simpl in Hf. lia.
    + exists m'. split; [done|]. cbn [free_entry nm_heads] in Hh. rewrite lookup_delete_ne in Hh by done. split; [done|].
      intros r Hr. apply Hz. cbn [free_entry nm_ents]. rewrite lookup_delete_None. rewrite elem_of_cons in Hr.
      destruct Hr as [ [->|Hr]|Hr]; auto.
Qed.

(** After clearing, the head still points to the first entry, which is gone. *)
Lemma clear_dangles m c e l :
  names_are m c (e :: l) →
  ∃ m' p, __trans_list_clear c m = Some (tt, m') ∧ next (nm_heads m') (NHead c) = Some (NObj p) ∧ nm_ents m' !! p = None.
Proof.
  intros (ps & Hd & Hps). apply Forall2_cons_inv_r in Hps as (p & qs & Hp & Hqs & ->). pose proof (name_list_size _ _ _ Hd) as Hs.
  pose proof (dlist_live _ _ _ (NHead c) Hd (list_elem_of_here _ _)) as Hhd. destruct Hd as [Hnd Hpa].
  pose proof (path_chain _ _ _ _ Hpa) as [Hn Hc]. unfold __trans_list_clear. rewrite Hn, some_bind.
  assert (∃ n, next (nm_heads m) (NObj p) = Some n) as [n Hnn]. { destruct qs; cbn [chain] in Hc; [by eexists|]. destruct Hc. by eexists. }
  rewrite Hnn, some_bind. destruct (clear_loop_ok c qs (S (size (nm_heads m))) m p n) as (m' & E & Hh & Hz); try done.
  - apply list.NoDup_cons in Hnd as [_ Hnd]. change (NObj p :: map NObj qs) with (map NObj (p :: qs)) in Hnd. by apply NoDup_fmap_1 in Hnd.
  - intros q Hq. apply elem_of_cons in Hq as [->|Hq]; [by eexists|].
    apply list_elem_of_lookup in Hq as [k Hk]. destruct (Forall2_lookup_l _ _ _ _ _ Hqs Hk) as (f & _ & Hf). by eexists.
  - simpl in Hs. lia.
  - exists m', p. split; [done|]. unfold next in *. rewrite Hh. split; [done|]. apply Hz. left. apply list_elem_of_here.
Qed.

(** From then on every search uses memory that was freed. *)
Lemma search_after_clear m c p type buf len name :
  next (nm_heads m) (NHead c) = Some (NObj p) → nm_ents m !! p = None → name ≠ [] →
  __list_type2str type buf len c m = None ∧ __list_str2type name c m = None.
Proof.
  intros Hn Hp Hne. unfold __list_type2str, __list_str2type, sget, find_entry. rewrite !Hn, !some_bind. cbn [first_entry].
  rewrite !decide_False by done. unfold by_type, by_name. rewrite !Hp. cbn [mbind option_bind]. by destruct name.
Qed.
