(* ===== verification/Mngt.v ===== *)
(** * Registered cache types: [lib/cache_mngt.c] and [lib/genl/mngt.c]

    The operations of all cache types are linked through [co_next]; the generic netlink ones
    are in a second list, through [o_list] of their [struct genl_ops].  0 is NULL. *)

From stdpp Require Import strings.
From S2P Require Import Prelude Packet Netlink NlError Text Attr CStr NlList TransList.
Import Nl.

Definition NETLINK_GENERIC : Z := 16.

(** [struct nl_cache_ops]; the table of message types has numbers and names.  [ro_parser]
    tells whether [co_msg_parser] is [genl_msg_parser]. *)
Record reg_ops := mkReg {
  ro_name : option (list Z);
  ro_protocol : Z;
  ro_obj_ops : Z;
  ro_hdrsize : Z;
  ro_groups : option (list Z);
  ro_msgtypes : list (Z * list Z);
  ro_genl : Z;
  ro_parser : bool;
  ro_major : Z;
  ro_next : Z;
}.

(** [struct genl_ops]; a command has a number and a name. *)
Record genl_ops := mkGops {
  o_family : Z;
  o_id : Z;
  o_name : list Z;
  o_cache_ops : Z;
  o_cmds : list (Z * list Z);
}.

Record mngt := mkMngt {
  g_ops : gmap Z reg_ops;
  g_head : Z;
  g_genl : gmap Z genl_ops;
  g_heads : heads;
}.

Definition genl_ops_list : node := NHead 0.

(** ** The loop over all cache types *)

Fixpoint ops_loop {A} (fuel : nat) (m : gmap Z reg_ops) (p : Z) (body : Z → reg_ops → option (option A)) : option (option A) :=
  match fuel with
  | O => None
  | S fuel =>
      if p =? 0 then Some None
      else
        o ← m !! p;
        r ← body p o;
        match r with
        | Some a => Some (Some a)
        | None => ops_loop fuel m (ro_next o) body
        end
  end.

Definition each_ops {A} (g : mngt) (body : Z → reg_ops → option (option A)) : option (option A) :=
  ops_loop (S (size (g_ops g))) (g_ops g) (g_head g) body.

(** 0 when nothing is found. *)
Definition first_ops (g : mngt) (body : Z → reg_ops → option bool) : option Z :=
  r ← each_ops g (λ p o, b ← body p o; Some (if (b : bool) then Some p else None));
  Some (default 0 r).

(** The table of message types ends with a negative number. *)
Fixpoint find_msgtype (types : list (Z * list Z)) (msgtype : Z) : option (option (Z * list Z)) :=
  match types with
  | [] => None
  | t :: types => if t.1 <? 0 then Some None else if t.1 =? msgtype then Some (Some t) else find_msgtype types msgtype
  end.

(** [!strcmp(ops->co_name, name)] *)
Definition named (name : list Z) (o : reg_ops) : option bool := a ← ro_name o; Some (str_eq a name).

(** ** [lib/cache_mngt.c] *)

Abbreviation G A := (St mngt A).

Definition set_next_ops (n : Z) (o : reg_ops) : reg_ops :=
  mkReg (ro_name o) (ro_protocol o) (ro_obj_ops o) (ro_hdrsize o) (ro_groups o) (ro_msgtypes o) (ro_genl o)
    (ro_parser o) (ro_major o) n.
Definition set_major (c : Z) (o : reg_ops) : reg_ops :=
  mkReg (ro_name o) (ro_protocol o) (ro_obj_ops o) (ro_hdrsize o) (ro_groups o) (ro_msgtypes o) (ro_genl o)
    (ro_parser o) c (ro_next o).
Definition set_genl_parser (o : reg_ops) : reg_ops :=
  mkReg (ro_name o) (ro_protocol o) (ro_obj_ops o) (ro_hdrsize o) (ro_groups o) (ro_msgtypes o) (ro_genl o)
    true (ro_major o) (ro_next o).

Definition put_ops (p : Z) (o : reg_ops) (g : mngt) : mngt := mkMngt (<[p := o]> (g_ops g)) (g_head g) (g_genl g) (g_heads g).
Definition put_head (p : Z) (g : mngt) : mngt := mkMngt (g_ops g) p (g_genl g) (g_heads g).

Section Mngt.
Local Open Scope state_scope.

Definition ops_at (p : Z) : G reg_ops := sget (λ g, g_ops g !! p).

Definition nl_cache_ops_lookup (name : list Z) : G Z := sget (λ g, first_ops g (λ _, named name)).

Definition nl_cache_ops_associate (protocol msgtype : Z) : G Z := sget (λ g, first_ops g (λ _ o,
  if negb (ro_protocol o =? protocol) then Some false
  else r ← find_msgtype (ro_msgtypes o) msgtype; Some (bool_decide (is_Some r)))).

Definition nl_msgtype_lookup (p msgtype : Z) : G (option (Z * list Z)) :=
  o <- ops_at p ;; sget (λ _, find_msgtype (ro_msgtypes o) msgtype).

Definition cache_ops_lookup_for_obj (obj_ops : Z) : G Z :=
  sget (λ g, first_ops g (λ _ o, Some (ro_obj_ops o =? obj_ops))).

(** The calls of [cb], in order. *)
Definition nl_cache_ops_foreach : G (list Z) := sget (λ g,
  (fix go fuel p := match fuel with
                    | O => None
                    | S fuel => if p =? 0 then Some [] else o ← g_ops g !! p; l ← go fuel (ro_next o); Some (p :: l)
                    end) (S (size (g_ops g))) (g_head g)).

Definition nl_cache_mngt_register (p : Z) : G Z :=
  o <- ops_at p ;;
  match ro_name o with
  | None => sret (- NLE_INVAL)
  | Some name =>
      if ro_obj_ops o =? 0 then sret (- NLE_INVAL)
      else
        q <- nl_cache_ops_lookup name ;;
        if negb (q =? 0) then sret (- NLE_EXIST)
        else
          head <- sget (λ g, Some (g_head g)) ;;
          smodify (put_ops p (set_next_ops head o)) ;;
          smodify (put_head p) ;;
          sret 0
  end.

(** The loop of [nl_cache_mngt_unregister]: the place where the pointer to [p] is, which is
    the head ([None]) or the [co_next] of another one. *)
Fixpoint find_ptr (fuel : nat) (m : gmap Z reg_ops) (place : option Z) (t p : Z) : option (option (option Z)) :=
  match fuel with
  | O => None
  | S fuel =>
      if t =? 0 then Some None
      else if t =? p then Some (Some place)
      else o ← m !! t; find_ptr fuel m (Some t) (ro_next o) p
  end.

Definition nl_cache_mngt_unregister (p : Z) : G Z :=
  r <- sget (λ g, find_ptr (S (size (g_ops g))) (g_ops g) None (g_head g) p) ;;
  match r with
  | None => sret (- NLE_NOCACHE)
  | Some place =>
      o <- ops_at p ;;
      match place with
      | None => smodify (put_head (ro_next o))
      | Some t => q <- ops_at t ;; smodify (put_ops t (set_next_ops (ro_next o) q))
      end ;;
      sret 0
  end.

(** [obj_ops] is [cache->c_ops->co_obj_ops]. *)
Definition nl_cache_mngt_provide (c obj_ops : Z) : G unit :=
  p <- cache_ops_lookup_for_obj obj_ops ;;
  if p =? 0 then scrash
  else o <- ops_at p ;; smodify (put_ops p (set_major c o)).

Definition nl_cache_mngt_unprovide (c obj_ops : Z) : G unit :=
  p <- cache_ops_lookup_for_obj obj_ops ;;
  if p =? 0 then scrash
  else
    o <- ops_at p ;;
    if ro_major o =? c then smodify (put_ops p (set_major 0 o)) else sret tt.

(** NULL also when no cache was provided. *)
Definition nl_cache_mngt_require (name : list Z) : G Z :=
  p <- nl_cache_ops_lookup name ;;
  if p =? 0 then sret 0 else o <- ops_at p ;; sret (ro_major o).

(** ** [lib/genl/mngt.c] *)

(** [GENL_HDRSIZE(0)] *)
Definition GENL_HDRSIZE0 : Z := 4.

Definition put_genl (q : Z) (o : genl_ops) (h : heads) (g : mngt) : mngt :=
  mkMngt (g_ops g) (g_head g) (<[q := o]> (g_genl g)) h.

Definition genl_register (p : Z) : G Z :=
  o <- ops_at p ;;
  if negb (ro_protocol o =? NETLINK_GENERIC) then sret (- NLE_PROTO_MISMATCH)
  else if ro_hdrsize o <? GENL_HDRSIZE0 then sret (- NLE_INVAL)
  else if ro_genl o =? 0 then sret (- NLE_INVAL)
  else
    q <- sget (λ g, g_genl g !! ro_genl o) ;;
    t <- sget (λ _, head (ro_msgtypes o)) ;;
    smodify (put_ops p (set_genl_parser o)) ;;
    h <- sget (λ g, nl_list_add_tail (NObj (ro_genl o)) genl_ops_list (g_heads g)) ;;
    smodify (put_genl (ro_genl o) (mkGops t.1 (o_id q) t.2 p (o_cmds q)) h) ;;
    nl_cache_mngt_register p.

Definition genl_unregister (p : Z) : G unit :=
  nl_cache_mngt_unregister p ;;
  o <- ops_at p ;;
  h <- sget (λ g, nl_list_del (NObj (ro_genl o)) (g_heads g)) ;;
  smodify (λ g, mkMngt (g_ops g) (g_head g) (g_genl g) h).

Fixpoint find_op (cmds : list (Z * list Z)) (op : Z) : option (list Z) :=
  match cmds with
  | [] => None
  | c :: cmds => if c.1 =? op then Some c.2 else find_op cmds op
  end.

(** The buffer, and whether it is returned instead of NULL. *)
Definition genl_op2name (family op : Z) (buf : list Z) (len : Z) : G (bool * list Z) := sget (λ g,
  r ← find_entry (g_heads g) genl_ops_list (λ q,
        o ← g_genl g !! q;
        Some (if o_family o =? family then find_op (o_cmds o) op else None));
  match r with
  | Some name => b ← strncpy buf name (u64 (len - 1)); Some (true, b)
  | None => b ← strncpy buf (text "unknown") (u64 (len - 1)); Some (false, b)
  end).
End Mngt.
