(* ===== verification/MngtOk.v ===== *)
(** * The registry of cache types is a finite map

    The linked list of registered operations, seen as a map from names to operations. *)

From stdpp Require Import strings.
From S2P Require Import Prelude Packet Netlink NlError Text Attr CStr NlList TransList Mngt.
Import Nl.

(** The operations from [p] on are [l]. *)
Fixpoint ops_chain (m : gmap Z reg_ops) (p : Z) (l : list Z) : Prop :=
  match l with
  | [] => p = 0
  | q :: l => p = q ∧ q ≠ 0 ∧ ∃ o, m !! q = Some o ∧ ops_chain m (ro_next o) l
  end.

Definition name_of (m : gmap Z reg_ops) (p : Z) : option (list Z) := o ← m !! p; ro_name o.

Record registered (g : mngt) (l : list Z) : Prop := {
  rg_chain : ops_chain (g_ops g) (g_head g) l;
  rg_nodup : NoDup l;
  rg_named p : p ∈ l → ∃ a, name_of (g_ops g) p = Some a;
  rg_names p q a : p ∈ l → q ∈ l → name_of (g_ops g) p = Some a → name_of (g_ops g) q = Some a → p = q;
}.

(** The registry is the map [s]. *)
Definition models (g : mngt) (s : gmap (list Z) Z) : Prop :=
  ∃ l, registered g l ∧ ∀ a p, s !! a = Some p ↔ p ∈ l ∧ name_of (g_ops g) p = Some a.

(** ** Loops *)

Fixpoint first_reg {A} (m : gmap Z reg_ops) (l : list Z) (body : Z → reg_ops → option (option A)) : option (option A) :=
  match l with
  | [] => Some None
  | p :: l => o ← m !! p; r ← body p o; match r with Some a => Some (Some a) | None => first_reg m l body end
  end.

Lemma chain_in m l p : ∀ q, ops_chain m q l → p ∈ l → p ≠ 0 ∧ is_Some (m !! p).
Proof.
  induction l as [|x l IH]; intros q Hc Hp; [by apply elem_of_nil in Hp|]. cbn in Hc. destruct Hc as (-> & Hx & o & Ho & Hc).
  apply elem_of_cons in Hp as [->|Hp]; [split; [done|by eexists]|by eapply IH].
Qed.

Lemma ops_loop_ok {A} m l (body : Z → reg_ops → option (option A)) : ∀ fuel p,
  ops_chain m p l → (length l < fuel)%nat → ops_loop fuel m p body = first_reg m l body.
Proof.
  induction l as [|q l IH]; intros fuel p Hc Hf; (destruct fuel as [|fuel]; [lia|]); cbn in Hc; cbn [ops_loop first_reg].
  - by subst p.
  - destruct Hc as (-> & Hq & o & Ho & Hc). rewrite (proj2 (Z.eqb_neq q 0)), Ho, !some_bind by done.
    destruct (body q o) as [ [a|]|]; [done| |done]. rewrite !some_bind. apply IH; [done|]. simpl in Hf. lia.
Qed.

Lemma reg_size g l : registered g l → (length l < S (size (g_ops g)))%nat.
Proof.
  intros [Hc Hn _ _]. rewrite <- size_dom. rewrite <- (size_list_to_set (C := gset Z)) by done. apply Nat.lt_succ_r, subseteq_size.
  intros p Hp%elem_of_list_to_set. apply elem_of_dom. by eapply chain_in.
Qed.

(** The search by name. *)
Lemma first_named g l name :
  (∀ p, p ∈ l → ∃ a, name_of (g_ops g) p = Some a) →
  first_reg (g_ops g) l (λ p o, b ← named name o; Some (if (b : bool) then Some p else None)) =
  Some (List.find (λ p, bool_decide (name_of (g_ops g) p = Some name)) l).
Proof.
  induction l as [|p l IH]; intros Hn; [done|]. cbn [first_reg List.find].
  destruct (Hn p (list_elem_of_here _ _)) as [a Ha].
  rewrite (bool_decide_ext (name_of (g_ops g) p = Some name) (a = name)) by (rewrite Ha; naive_solver).
  unfold name_of in Ha. destruct (g_ops g !! p) as [o|] eqn:Ho; [|done]. rewrite some_bind in Ha. rewrite some_bind.
  assert (named name o = Some (str_eq a name)) as -> by (unfold named; by rewrite Ha). rewrite !some_bind. unfold str_eq.
  destruct (bool_decide (a = name)); [done|]. apply IH. intros q Hq. by apply Hn, list_elem_of_further.
Qed.

Lemma find_models (g : mngt) (s : gmap (list Z) Z) l name :
  registered g l → (∀ a p, s !! a = Some p ↔ p ∈ l ∧ name_of (g_ops g) p = Some a) →
  List.find (λ p, bool_decide (name_of (g_ops g) p = Some name)) l = s !! name.
Proof.
  intros Hr Hs. destruct (List.find _ l) as [p|] eqn:E.
  - apply List.find_some in E as [Hp%list_elem_of_In Hb%bool_decide_eq_true]. symmetry. by apply Hs.
  - destruct (s !! name) as [p|] eqn:E'; [|done]. apply Hs in E' as [Hp%list_elem_of_In Hn].
    apply (List.find_none _ _ E) in Hp. by apply bool_decide_eq_false in Hp.
Qed.

Lemma registry_lookup (g : mngt) (s : gmap (list Z) Z) name : models g s → nl_cache_ops_lookup name g = Some (default 0 (s !! name), g).
Proof.
  intros (l & Hr & Hs). unfold nl_cache_ops_lookup, sget, first_ops, each_ops. pose proof (reg_size _ _ Hr) as Hsz.
  rewrite (ops_loop_ok _ l) by (try done; apply Hr). rewrite first_named by apply Hr.
  by rewrite !some_bind, (find_models g s l) by done.
Qed.

(** ** Changes *)

(** Changing the operations of others, or their pointers, keeps the chain. *)
Lemma ops_chain_ext m m' l : ∀ p,
  ops_chain m p l → (∀ q o, q ∈ l → m !! q = Some o → ∃ o', m' !! q = Some o' ∧ ro_next o' = ro_next o) → ops_chain m' p l.
Proof.
  induction l as [|q l IH]; intros p Hc He; [done|]. cbn in *. destruct Hc as (-> & Hq & o & Ho & Hc).
  split; [done|]. split; [done|]. destruct (He q o (list_elem_of_here _ _) Ho) as (o' & Ho' & En). exists o'. split; [done|]. rewrite En.
  apply IH; [done|]. intros r x Hr. apply He. by apply list_elem_of_further.
Qed.

Lemma name_of_insert m p q o o' : m !! q = Some o → ro_name o' = ro_name o → name_of (<[q := o']> m) p = name_of m p.
Proof.
  intros Ho Hn. unfold name_of. destruct (decide (p = q)) as [->|Hpq].
  - rewrite lookup_insert_eq, Ho, !some_bind. done.
  - by rewrite lookup_insert_ne.
Qed.

(** ** The operations on the map *)

Inductive reg_call := Register (p : Z) | Unregister (p : Z) | Find (name : list Z).

Definition reg_exec (x : reg_call) : St mngt Z :=
  match x with
  | Register p => nl_cache_mngt_register p
  | Unregister p => nl_cache_mngt_unregister p
  | Find name => nl_cache_ops_lookup name
  end.

(** The operations that are passed are there. *)
Definition reg_valid (x : reg_call) (g : mngt) : Prop :=
  match x with
  | Register p | Unregister p => p ≠ 0 ∧ is_Some (g_ops g !! p)
  | Find _ => True
  end.

(** What a call does to the map: [ops] are the operations in memory. *)
Definition reg_spec (ops : gmap Z reg_ops) (x : reg_call) (s : gmap (list Z) Z) : Z * gmap (list Z) Z :=
  match x with
  | Register p =>
      match name_of ops p, ops !! p with
      | Some a, Some o =>
          if ro_obj_ops o =? 0 then (- NLE_INVAL, s)
          else match s !! a with
               | Some _ => (- NLE_EXIST, s)
               | None => (0, <[a := p]> s)
               end
      | _, _ => (- NLE_INVAL, s)
      end
  | Unregister p =>
      match name_of ops p with
      | Some a => if bool_decide (s !! a = Some p) then (0, delete a s) else (- NLE_NOCACHE, s)
      | None => (- NLE_NOCACHE, s)
      end
  | Find a => (default 0 (s !! a), s)
  end.

Lemma models_nonzero (g : mngt) (s : gmap (list Z) Z) a p : models g s → s !! a = Some p → p ≠ 0.
Proof. intros (l & Hr & Hs) [Hp _]%Hs. by eapply chain_in; [apply Hr|]. Qed.

(** A new entry at the front. *)
Lemma models_push (g : mngt) (s : gmap (list Z) Z) p o a :
  models g s → g_ops g !! p = Some o → p ≠ 0 → ro_name o = Some a → s !! a = None →
  models (put_head p (put_ops p (set_next_ops (g_head g) o) g)) (<[a := p]> s).
Proof.
  intros (l & [Hc Hn Hna Hnm] & Hs) Ho Hp Ha Hfree.
  assert (name_of (g_ops g) p = Some a) as Hpa by (unfold name_of; by rewrite Ho).
  assert (p ∉ l) as Hpl. { intros Hin. assert (s !! a = Some p) as E by (by apply Hs). by rewrite Hfree in E. }
  assert (∀ q, name_of (g_ops (put_head p (put_ops p (set_next_ops (g_head g) o) g))) q = name_of (g_ops g) q) as En.
  { intros q. by apply (name_of_insert _ _ _ o). }
  exists (p :: l). split.
  - split.
    + cbn. split; [done|]. split; [done|]. exists (set_next_ops (g_head g) o). split; [by rewrite lookup_insert_eq|].
      cbn [ro_next set_next_ops]. eapply ops_chain_ext; [exact Hc|]. intros q x Hq Hx. exists x. split; [|done].
      rewrite lookup_insert_ne; [done|]. by intros ->.
    + by apply list.NoDup_cons.
    + intros q. rewrite En. intros [->|Hq]%elem_of_cons; [by exists a|by apply Hna].
    + intros q r b. rewrite !En. intros [->|Hq]%elem_of_cons [->|Hr]%elem_of_cons Hb1 Hb2; [done| | |by eapply Hnm].
      * assert (s !! b = Some r) as E by (by apply Hs). rewrite Hpa in Hb1. injection Hb1 as <-. by rewrite Hfree in E.
      * assert (s !! b = Some q) as E by (by apply Hs). rewrite Hpa in Hb2. injection Hb2 as <-. by rewrite Hfree in E.
  - intros b q. rewrite En, elem_of_cons. destruct (decide (b = a)) as [->|Hb].
    + rewrite lookup_insert_eq. split; [intros [= <-]; auto|]. intros [ [->|Hq] Hqa]; [done|].
      assert (s !! a = Some q) as E by (by apply Hs). by rewrite Hfree in E.
    + rewrite lookup_insert_ne, Hs by done. split; [tauto|]. intros [ [->|Hq] Hqb]; [congruence|done].
Qed.

Lemma register_ok (g : mngt) (s : gmap (list Z) Z) p :
  models g s → p ≠ 0 → is_Some (g_ops g !! p) →
  ∃ r g', nl_cache_mngt_register p g = Some (r, g') ∧ r = (reg_spec (g_ops g) (Register p) s).1 ∧
    models g' (reg_spec (g_ops g) (Register p) s).2.
Proof.
  intros Hm Hp [o Ho]. unfold nl_cache_mngt_register, reg_spec, name_of, ops_at.
  rewrite (sbind_some _ _ _ o g) by (unfold sget; by rewrite Ho). rewrite Ho, some_bind.
  destruct (ro_name o) as [a|] eqn:Ha; [|by exists (- NLE_INVAL), g].
  destruct (ro_obj_ops o =? 0); [by exists (- NLE_INVAL), g|].
  rewrite (sbind_some _ _ _ _ _ (registry_lookup g s a Hm)). destruct (s !! a) as [q|] eqn:Eq.
  - change (default 0 (Some q)) with q. rewrite (proj2 (Z.eqb_neq q 0)) by (by eapply models_nonzero). by exists (- NLE_EXIST), g.
  - change (negb (default 0 (@None Z) =? 0)) with false. cbv iota. rewrite (sbind_some _ _ _ (g_head g) g) by done. rewrite !sbind_modify.
    do 2 eexists. split; [done|]. split; [done|]. by apply models_push.
Qed.

(** The place of the pointer to [p]. *)
Lemma find_ptr_out m p l : ∀ fuel place t,
  ops_chain m t l → p ∉ l → p ≠ 0 → (length l < fuel)%nat → find_ptr fuel m place t p = Some None.
Proof.
  induction l as [|q l IH]; intros fuel place t Hc Hp Hp0 Hf; (destruct fuel as [|fuel]; [lia|]); cbn in Hc; cbn [find_ptr].
  - by subst t.
  - destruct Hc as (-> & Hq & o & Ho & Hc). apply not_elem_of_cons in Hp as [Hpq Hp].
    rewrite (proj2 (Z.eqb_neq q 0)), (proj2 (Z.eqb_neq q p)), Ho, some_bind by done. apply IH; try done. simpl in Hf. lia.
Qed.

Lemma find_ptr_in m p l1 l2 : ∀ fuel place t,
  ops_chain m t (l1 ++ p :: l2) → p ∉ l1 → (length l1 < fuel)%nat →
  find_ptr fuel m place t p = Some (Some (match list.last l1 with Some x => Some x | None => place end)).
Proof.
  induction l1 as [|q l1 IH]; intros fuel place t Hc Hp Hf; (destruct fuel as [|fuel]; [lia|]); cbn in Hc; cbn [find_ptr];
    destruct Hc as (-> & Hq & o & Ho & Hc); rewrite (proj2 (Z.eqb_neq _ 0)) by done.
  - by rewrite Z.eqb_refl.
  - apply not_elem_of_cons in Hp as [Hpq Hp]. rewrite (proj2 (Z.eqb_neq q p)), Ho, some_bind by done.
    rewrite (IH fuel (Some q)) by (try done; simpl in Hf; lia).
    destruct l1 as [|r l1]; [done|]. change (list.last (q :: r :: l1)) with (list.last (r :: l1)).
    destruct (list.last (r :: l1)) eqn:El; [done|]. by apply last_None in El.
Qed.

Lemma ops_chain_app m l1 l2 l3 : ∀ t, ops_chain m t (l1 ++ l3) → ∀ m' t2,
  l1 ≠ [] → (∀ q o, q ∈ l1 → m !! q = Some o → ∃ o', m' !! q = Some o' ∧
     ro_next o' = if bool_decide (list.last l1 = Some q) then t2 else ro_next o) →
  NoDup l1 → ops_chain m' t2 l2 → ops_chain m' t (l1 ++ l2).
Proof.
  induction l1 as [|q l1 IH]; [done|]. intros t Hc m' t2 _ He Hnd H2. cbn [app ops_chain] in *. destruct Hc as (-> & Hq & o & Ho & Hc).
  split; [done|]. split; [done|]. destruct (He q o (list_elem_of_here _ _) Ho) as (o' & Ho' & En). exists o'. split; [done|].
  apply list.NoDup_cons in Hnd as [Hql Hnd]. destruct l1 as [|r l1].
  - rewrite bool_decide_eq_true_2 in En by done. by rewrite En.
  - assert (list.last (q :: r :: l1) = list.last (r :: l1)) as El by done. rewrite El in *.
    rewrite bool_decide_eq_false_2 in En by (intros E; apply last_Some_elem_of in E; done). rewrite En.
    apply (IH _ Hc m' t2); try done. intros x ox Hx Hox. apply He; [by apply list_elem_of_further|done].
Qed.

Lemma models_drop (g g' : mngt) (s : gmap (list Z) Z) p a l1 l2 :
  registered g (l1 ++ p :: l2) → (∀ b q, s !! b = Some q ↔ q ∈ l1 ++ p :: l2 ∧ name_of (g_ops g) q = Some b) →
  name_of (g_ops g) p = Some a → ops_chain (g_ops g') (g_head g') (l1 ++ l2) →
  (∀ q, name_of (g_ops g') q = name_of (g_ops g) q) → models g' (delete a s).
Proof.
  intros [Hc Hn Hna Hnm] Hs Ha Hc' En. apply list.NoDup_app in Hn as (N1 & N2 & N3). apply list.NoDup_cons in N3 as [Np N3].
  assert (∀ q, q ∈ l1 ++ l2 → q ∈ l1 ++ p :: l2) as Hsub.
  { intros q. rewrite !elem_of_app, elem_of_cons. tauto. }
  exists (l1 ++ l2). split.
  - split; [done| | |].
    + apply list.NoDup_app. split_and!; [done| |done]. intros x Hx Hx2. apply (N2 x Hx). by apply list_elem_of_further.
    + intros q Hq. rewrite En. by apply Hna, Hsub.
    + intros q r b Hq Hr. rewrite !En. apply Hnm; by apply Hsub.
  - intros b q. rewrite En, lookup_delete_Some, Hs, !elem_of_app, elem_of_cons. split.
    + intros [Hb [Hq Hqb] ]. split; [|done]. destruct Hq as [Hq|[->|Hq] ]; [auto| |auto]. congruence.
    + intros [Hq Hqb]. split; [|tauto]. intros <-. assert (q = p) as ->.
      { apply (Hnm q p a); try done; rewrite elem_of_app, elem_of_cons; tauto. }
      destruct Hq as [Hq|Hq]; [|done]. by apply (N2 p Hq), list_elem_of_here.
Qed.

Lemma unregister_in (g : mngt) p l1 l2 :
  registered g (l1 ++ p :: l2) →
  ∃ g', nl_cache_mngt_unregister p g = Some (0, g') ∧ ops_chain (g_ops g') (g_head g') (l1 ++ l2) ∧
    (∀ q, name_of (g_ops g') q = name_of (g_ops g) q).
Proof.
  intros Hr. pose proof (reg_size _ _ Hr) as Hsz. destruct Hr as [Hc Hn _ _].
  apply list.NoDup_app in Hn as (N1 & N2 & N3). apply list.NoDup_cons in N3 as [Np N3].
  assert (p ∉ l1) as Hp1 by (intros Hin; by apply (N2 p Hin), list_elem_of_here).
  destruct (chain_in _ _ p _ Hc) as [Hp0 [o Ho] ]; [apply elem_of_app; right; apply list_elem_of_here|].
  assert (ops_chain (g_ops g) (ro_next o) l2) as H2.
  { clear -Hc Ho. generalize (g_head g), Hc. clear Hc. induction l1 as [|x l1 IH]; intros t Hc; cbn [app ops_chain] in Hc;
      destruct Hc as (_ & _ & o' & Ho' & Hc); [by simplify_eq|by eapply IH]. }
  assert (∀ x, list.last l1 = Some x → is_Some (g_ops g !! x)) as Hlx.
  { intros x Hx%last_Some_elem_of. eapply chain_in; [exact Hc|]. by apply elem_of_app; left. }
  unfold nl_cache_mngt_unregister, ops_at.
  rewrite (sbind_some _ _ _ (Some (list.last l1)) g).
  2: { unfold sget. rewrite (find_ptr_in _ _ l1 l2) by (try done; rewrite length_app in Hsz; simpl in Hsz; lia). by destruct (list.last l1). }
  rewrite (sbind_some _ _ _ o g) by (unfold sget; by rewrite Ho).
  destruct (list.last l1) as [x|] eqn:El.
  - destruct (Hlx x eq_refl) as [ox Hox].
    erewrite sbind_some; [|erewrite sbind_some; [|unfold sget; by rewrite Hox]; done].
    eexists. split; [done|]. split; [|intros q; by apply (name_of_insert _ _ _ ox)]. cbn [g_ops g_head put_ops].
    apply (ops_chain_app (g_ops g) l1 l2 (p :: l2) (g_head g) Hc _ (ro_next o)).
    + intros ->. done.
    + intros q oq Hq Hoq. destruct (decide (q = x)) as [->|Hqx].
      * rewrite lookup_insert_eq, bool_decide_eq_true_2 by done. by eexists.
      * rewrite lookup_insert_ne, bool_decide_eq_false_2 by congruence. by exists oq.
    + done.
    + eapply ops_chain_ext; [exact H2|]. intros q oq Hq Hoq. exists oq. split; [|done]. rewrite lookup_insert_ne; [done|].
      intros ->. apply last_Some_elem_of in El. by apply (N2 q El), list_elem_of_further.
  - apply last_None in El as ->. rewrite sbind_modify. eexists. split; [done|]. by split.
Qed.

Lemma unregister_ok (g : mngt) (s : gmap (list Z) Z) p :
  models g s → p ≠ 0 → is_Some (g_ops g !! p) →
  ∃ r g', nl_cache_mngt_unregister p g = Some (r, g') ∧ r = (reg_spec (g_ops g) (Unregister p) s).1 ∧
    models g' (reg_spec (g_ops g) (Unregister p) s).2.
Proof.
  intros (l & Hr & Hs) Hp Ho. cbn [reg_spec]. destruct (decide (p ∈ l)) as [Hin|Hout].
  - destruct (rg_named _ _ Hr p Hin) as [a Ha]. rewrite Ha, bool_decide_eq_true_2 by (by apply Hs).
    apply list_elem_of_split in Hin as (l1 & l2 & ->). destruct (unregister_in g p l1 l2 Hr) as (g' & E & Hc & En).
    exists 0, g'. split; [done|]. split; [done|]. cbn [snd]. by eapply models_drop.
  - exists (- NLE_NOCACHE), g. split.
    { unfold nl_cache_mngt_unregister. rewrite (sbind_some _ _ _ None g); [done|]. unfold sget. pose proof (reg_size _ _ Hr).
      rewrite (find_ptr_out _ _ l); [done|apply Hr|done..]. }
    destruct (name_of (g_ops g) p) as [a|]; [|split; [done|by exists l] ].
    rewrite bool_decide_eq_false_2 by (intros [? _]%Hs; done). split; [done|by exists l].
Qed.

(** Every call on the registry is the operation on the map. *)
Lemma reg_refines (g : mngt) (s : gmap (list Z) Z) x :
  models g s → reg_valid x g →
  ∃ r g', reg_exec x g = Some (r, g') ∧ r = (reg_spec (g_ops g) x s).1 ∧ models g' (reg_spec (g_ops g) x s).2.
Proof.
  intros Hm Hv. destruct x as [p|p|a]; cbn [reg_exec reg_valid] in *.
  - destruct Hv as [Hp Ho]. by apply register_ok.
  - destruct Hv as [Hp Ho]. by apply unregister_ok.
  - exists (default 0 (s !! a)), g. split; [by apply registry_lookup|done].
Qed.

(** ** Changes that keep the map *)

Lemma models_upd (g g' : mngt) (s : gmap (list Z) Z) p o o' :
  models g s → g_ops g !! p = Some o → ro_name o' = ro_name o → ro_next o' = ro_next o →
  g_ops g' = <[p := o']> (g_ops g) → g_head g' = g_head g → models g' s.
Proof.
  intros (l & [Hc Hn Hna Hnm] & Hs) Ho En Ex Eo Eh.
  assert (∀ q, name_of (g_ops g') q = name_of (g_ops g) q) as Ea by (intros q; rewrite Eo; by apply (name_of_insert _ _ _ o)).
  exists l. split; [split; [|done|intros q; rewrite Ea; auto|intros q y b; rewrite !Ea; apply Hnm]|intros b q; by rewrite Ea].
  rewrite Eh. eapply ops_chain_ext; [exact Hc|]. intros q oq Hq Hoq. rewrite Eo. destruct (decide (q = p)) as [->|Hqp].
  - rewrite lookup_insert_eq. simplify_eq. by eexists.
  - rewrite lookup_insert_ne by done. by exists oq.
Qed.

(** Operations that are registered are refused. *)
Lemma register_exist (g : mngt) (s : gmap (list Z) Z) p o a :
  models g s → g_ops g !! p = Some o → ro_name o = Some a → s !! a = Some p → ro_obj_ops o ≠ 0 →
  nl_cache_mngt_register p g = Some (- NLE_EXIST, g).
Proof.
  intros Hm Ho Hna Ha Hobj. unfold nl_cache_mngt_register, ops_at. rewrite (sbind_some _ _ _ o g) by (unfold sget; by rewrite Ho).
  rewrite Hna, (proj2 (Z.eqb_neq (ro_obj_ops o) 0)) by done.
  rewrite (sbind_some _ _ _ _ _ (registry_lookup g s a Hm)), Ha. change (default 0 (Some p)) with p.
  by rewrite (proj2 (Z.eqb_neq p 0)) by (by eapply models_nonzero).
Qed.

(** ** Providing caches *)

Lemma first_reg_unique (g : mngt) l p (test : reg_ops → bool) o :
  (∀ q, q ∈ l → is_Some (g_ops g !! q)) → p ∈ l → g_ops g !! p = Some o → test o = true →
  (∀ q o', q ∈ l → g_ops g !! q = Some o' → test o' = true → q = p) →
  first_reg (g_ops g) l (λ q o, b ← Some (test o); Some (if (b : bool) then Some q else None)) = Some (Some p).
Proof.
  intros Hl Hp Ho Ht Hu. induction l as [|q l IH]; [by apply elem_of_nil in Hp|]. cbn [first_reg].
  destruct (Hl q (list_elem_of_here _ _)) as [oq Hoq]. rewrite Hoq, !some_bind. destruct (test oq) eqn:Eq.
  - by rewrite (Hu q oq) by (try done; apply list_elem_of_here).
  - apply elem_of_cons in Hp as [->|Hp]; [simplify_eq; congruence|]. apply IH; [|done|].
    + intros r Hr. by apply Hl, list_elem_of_further.
    + intros r o' Hr. by apply Hu, list_elem_of_further.
Qed.

(** A cache that is provided is the one that is required, until another one is. *)
Lemma provide_require (g : mngt) (s : gmap (list Z) Z) a p o c :
  models g s → s !! a = Some p → g_ops g !! p = Some o →
  (∀ b q o', s !! b = Some q → g_ops g !! q = Some o' → ro_obj_ops o' = ro_obj_ops o → q = p) →
  ∃ g', nl_cache_mngt_provide c (ro_obj_ops o) g = Some (tt, g') ∧ models g' s ∧
    nl_cache_mngt_require a g' = Some (c, g') ∧
    (∀ b, b ≠ a → ∀ r g1, nl_cache_mngt_require b g = Some (r, g1) → nl_cache_mngt_require b g' = Some (r, g')).
Proof.
  intros Hm Ha Ho Hu. pose proof Hm as (l & Hr & Hs). pose proof (models_nonzero _ _ _ _ Hm Ha) as Hp0.
  assert (p ∈ l) as Hpl by (by apply Hs in Ha as [? _]).
  unfold nl_cache_mngt_provide, cache_ops_lookup_for_obj, ops_at.
  rewrite (sbind_some _ _ _ p g).
  2: { unfold sget, first_ops, each_ops. pose proof (reg_size _ _ Hr). rewrite (ops_loop_ok _ l) by (try done; apply Hr).
       rewrite (first_reg_unique g l p (λ o', ro_obj_ops o' =? ro_obj_ops o) o); [done| |done|done|apply Z.eqb_refl|].
       - intros q Hq. by eapply chain_in; [apply Hr|].
       - intros q o' Hq Hoq Eq%Z.eqb_eq. destruct (rg_named _ _ Hr q Hq) as [b Hb]. eapply (Hu b q o'); [by apply Hs|done|done]. }
  rewrite (proj2 (Z.eqb_neq p 0)) by done. rewrite (sbind_some _ _ _ o g) by (unfold sget; by rewrite Ho).
  set (g' := put_ops p (set_major c o) g). assert (models g' s) as Hm' by (by apply (models_upd g g' s p o (set_major c o))).
  exists g'. split; [done|]. split; [done|]. unfold nl_cache_mngt_require, ops_at. split.
  - rewrite (sbind_some _ _ _ _ _ (registry_lookup g' s a Hm')), Ha. change (default 0 (Some p)) with p.
    rewrite (proj2 (Z.eqb_neq p 0)) by done.
    rewrite (sbind_some _ _ _ (set_major c o) g'); [done|]. unfold sget, g'. cbn [g_ops put_ops]. by rewrite lookup_insert_eq.
  - intros b Hb r g1. rewrite (sbind_some _ _ _ _ _ (registry_lookup g' s b Hm')), (sbind_some _ _ _ _ _ (registry_lookup g s b Hm)).
    destruct (s !! b) as [q|] eqn:Eq; [|by intros [= <- <-] ]. change (default 0 (Some q)) with q.
    rewrite (proj2 (Z.eqb_neq q 0)) by (by eapply models_nonzero). unfold sbind, sget, g'. cbn [g_ops put_ops]. rewrite lookup_insert_ne; [by destruct (g_ops g !! q); [intros [= <- <-]|] |].
    intros <-. apply Hs in Eq as [_ Eb], Ha as [_ Ea]. congruence.
Qed.

(** ** The list of generic netlink operations *)

(** Adding the first entry of a list once more: the others can no longer be reached. *)
Lemma add_tail_again h hd q r xs :
  dlist h hd (q :: r :: xs) →
  ∃ h', nl_list_add_tail q hd h = Some h' ∧ next h' hd = Some q ∧ next h' q = Some hd ∧ size h' = size h.
Proof.
  intros Hd. destruct (exists_last (l := r :: xs)) as (ys & z & El); [done|]. rewrite El in Hd.
  assert (next h hd = Some q) as Hq by (destruct Hd as [_ [ [? _] _] ]; done).
  destruct (dlist_split h hd (q :: ys ++ [z]) []) as (l & a & b & r' & E1 & E2 & _ & [Hab Hba] & _); [by rewrite app_nil_r|].
  cbn [app] in E2. injection E2 as <- <-. rewrite 2!app_comm_cons in E1. apply app_inj_tail in E1 as [_ <-].
  pose proof Hd as [Hnd _]. apply list.NoDup_cons in Hnd as [Hh Hnd]. apply list.NoDup_cons in Hnd as [Hqn _].
  assert (∀ x, x ∈ hd :: q :: ys ++ [z] → is_Some (h !! x)) as Hlive by (intros x; by apply dlist_live).
  unfold nl_list_add_tail. rewrite Hba. cbn [mbind option_bind].
  destruct (list_add_run h q z hd) as (h' & E & N & _ & _ & D); [apply Hlive; set_solver..|].
  exists h'. split; [done|]. rewrite !N, decide_False, decide_False, decide_True by set_solver.
  split_and!; [done|done|]. by rewrite <- !size_dom, D.
Qed.

Lemma find_entry_one {A} h hd q (body : Z → option (option A)) :
  next h hd = Some (NObj q) → next h (NObj q) = Some hd → hd ≠ NObj q → (1 < size h)%nat →
  find_entry h hd body = first_in [q] body.
Proof.
  intros H1 H2 Hn Hs. unfold find_entry. rewrite H1, some_bind. destruct (size h) as [|[|k] ]; [lia|lia|]. cbn [first_entry first_in].
  rewrite decide_False by done. destruct (body q) as [ [x|]|]; [done| |done]. rewrite !some_bind, H2, some_bind.
  by rewrite decide_True.
Qed.

(** Registering the same operations twice fails and loses all that were registered later. *)
Lemma genl_register_again (g : mngt) (s : gmap (list Z) Z) p o a go t r xs :
  models g s → g_ops g !! p = Some o → ro_name o = Some a → s !! a = Some p → ro_obj_ops o ≠ 0 →
  ro_protocol o = NETLINK_GENERIC → GENL_HDRSIZE0 ≤ ro_hdrsize o → ro_genl o ≠ 0 →
  g_genl g !! ro_genl o = Some go → head (ro_msgtypes o) = Some t →
  dlist (g_heads g) genl_ops_list (map NObj (ro_genl o :: r :: xs)) →
  ∃ g', genl_register p g = Some (- NLE_EXIST, g') ∧
    ∀ A (body : Z → option (option A)), find_entry (g_heads g') genl_ops_list body = first_in [ro_genl o] body.
Proof.
  intros Hm Ho Hna Ha Hobj Hpr Hh Hg Hgo Ht Hd. cbn [map] in Hd.
  destruct (add_tail_again _ _ _ _ _ Hd) as (h' & E & N1 & N2 & Es).
  pose proof (name_list_size (g_heads g) genl_ops_list (ro_genl o :: r :: xs) Hd) as Hs. simpl in Hs.
  unfold genl_register, ops_at. rewrite (sbind_some _ _ _ o g) by (unfold sget; by rewrite Ho).
  rewrite Hpr, Z.eqb_refl. cbn [negb]. decide_test (ro_hdrsize o <? GENL_HDRSIZE0) false. rewrite (proj2 (Z.eqb_neq (ro_genl o) 0)) by done.
  rewrite (sbind_some _ _ _ go g) by (unfold sget; by rewrite Hgo). rewrite (sbind_some _ _ _ t g) by (unfold sget; by rewrite Ht).
  rewrite sbind_modify, (sbind_some _ _ _ h' (put_ops p (set_genl_parser o) g)) by (unfold sget; cbn [g_heads put_ops]; by rewrite E).
  rewrite sbind_modify. set (g1 := put_genl _ _ _ _).
  assert (models g1 s) as Hm1 by (by apply (models_upd g g1 s p o (set_genl_parser o))).
  exists g1. rewrite (register_exist g1 s p (set_genl_parser o) a); try done; [|cbn [g_ops g1 put_genl put_ops]; by rewrite lookup_insert_eq].
  split; [done|]. intros A body. cbn [g_heads g1 put_genl]. apply find_entry_one; try done. lia.
Qed.

(** ** Sequences of calls *)

(** What the calls do not change of the operations in memory. *)
Definition sig_of (o : reg_ops) : option (list Z) * Z := (ro_name o, ro_obj_ops o).
Abbreviation sigs ops := (sig_of <$> (ops : gmap Z reg_ops)).

Lemma reg_spec_sigs ops ops' x s : sigs ops = sigs ops' → reg_spec ops x s = reg_spec ops' x s.
Proof.
  intros E. assert (∀ p, sig_of <$> ops !! p = sig_of <$> ops' !! p) as El by (intros p; by rewrite <- !lookup_fmap, E).
  assert (∀ p, name_of ops p = name_of ops' p) as En.
  { intros p. unfold name_of. specialize (El p). destruct (ops !! p), (ops' !! p); cbn in *; try done; by injection El as ->. }
  destruct x as [p|p|a]; cbn [reg_spec]; [|by rewrite En|done]. rewrite En. destruct (name_of ops' p) as [a|]; [|done].
  specialize (El p). destruct (ops !! p) as [o|], (ops' !! p) as [o'|]; cbn in El; try done. injection El as _ Eo. by rewrite Eo.
Qed.

Lemma sigs_put ops p o o' : ops !! p = Some o → sig_of o' = sig_of o → sigs (<[p := o']> ops) = sigs ops.
Proof. intros Ho E. rewrite fmap_insert, E. apply insert_id. by rewrite lookup_fmap, Ho. Qed.

Lemma reg_exec_sigs x (g : mngt) r g' : reg_exec x g = Some (r, g') → sigs (g_ops g') = sigs (g_ops g).
Proof.
  destruct x as [p|p|a]; cbn [reg_exec].
  - unfold nl_cache_mngt_register, ops_at, sbind, sget, smodify. destruct (g_ops g !! p) as [o|] eqn:Ho; [|done].
    destruct (ro_name o); [|by intros [= <- <-] ]. destruct (ro_obj_ops o =? 0); [by intros [= <- <-]|].
    unfold nl_cache_ops_lookup, sget. destruct (first_ops _ _) as [q|]; [|done]. destruct (negb (q =? 0)); [by intros [= <- <-]|].
    intros [= <- <-]. by apply (sigs_put _ _ o).
  - unfold nl_cache_mngt_unregister, ops_at, sbind, sget, smodify. destruct (find_ptr _ _ _ _ _) as [ [place|]|]; [|by intros [= <- <-]|done].
    destruct (g_ops g !! p) as [o|]; [|done]. destruct place as [q|]; [|by intros [= <- <-] ].
    destruct (g_ops g !! q) as [oq|] eqn:Hq; [|done]. intros [= <- <-]. by apply (sigs_put _ _ oq).
  - unfold nl_cache_ops_lookup, sget. destruct (first_ops _ _); [|done]. by intros [= <- <-].
Qed.

Fixpoint reg_run (l : list reg_call) : St mngt (list Z) :=
  match l with
  | [] => sret []
  | x :: l => sbind (reg_exec x) (λ r, sbind (reg_run l) (λ rs, sret (r :: rs)))
  end.

Fixpoint reg_specs (ops : gmap Z reg_ops) (l : list reg_call) (s : gmap (list Z) Z) : list Z * gmap (list Z) Z :=
  match l with
  | [] => ([], s)
  | x :: l => let a := reg_spec ops x s in let b := reg_specs ops l a.2 in (a.1 :: b.1, b.2)
  end.

Lemma reg_valid_sigs x (g g' : mngt) : sigs (g_ops g') = sigs (g_ops g) → reg_valid x g → reg_valid x g'.
Proof.
  intros E. assert (∀ p, is_Some (g_ops g !! p) → is_Some (g_ops g' !! p)) as Hs.
  { intros p Hp. apply (fmap_is_Some sig_of). by rewrite <- lookup_fmap, E, lookup_fmap, fmap_is_Some. }
  destruct x as [p|p|a]; cbn [reg_valid]; naive_solver.
Qed.

Lemma reg_run_ok ops l : ∀ (g : mngt) (s : gmap (list Z) Z),
  models g s → sigs (g_ops g) = sigs ops → Forall (λ x, reg_valid x g) l →
  ∃ g', reg_run l g = Some ((reg_specs ops l s).1, g') ∧ models g' (reg_specs ops l s).2.
Proof.
  induction l as [|x l IH]; intros g s Hm Es Hv; [by exists g|]. apply list.Forall_cons in Hv as [Hx Hv]. cbn [reg_run reg_specs].
  destruct (reg_refines g s x Hm Hx) as (r & g1 & E & Er & Hm1). pose proof (reg_exec_sigs _ _ _ _ E) as Es1.
  rewrite (reg_spec_sigs _ ops) in Er, Hm1 by done. destruct (IH g1 _ Hm1) as (g2 & E2 & Hm2); [by rewrite Es1| |].
  { eapply Forall_impl; [|exact Hv]. intros y. by apply reg_valid_sigs. }
  exists g2. rewrite (sbind_some _ _ _ _ _ E), (sbind_some _ _ _ _ _ E2). cbn [fst snd]. by rewrite Er.
Qed.

(** A registry with one type. *)
Lemma one_registered (g : mngt) p a o :
  p ≠ 0 → g_head g = p → g_ops g !! p = Some o → ro_name o = Some a → ro_next o = 0 → models g {[a := p]}.
Proof.
  intros Hp Hh Ho Ha Hn. assert (name_of (g_ops g) p = Some a) as En by (unfold name_of; by rewrite Ho).
  exists [p]. split.
  - split.
    + cbn. split; [done|]. split; [done|]. by exists o.
    + apply NoDup_singleton.
    + intros q ->%list_elem_of_singleton. by eexists.
    + by intros q r b ->%list_elem_of_singleton ->%list_elem_of_singleton.
  - intros b q. rewrite lookup_singleton_Some, list_elem_of_singleton. split; [by intros [<- <-]|].
    intros [-> E]. split; [congruence|done].
Qed.
