(* ===== verification/DriverCtrl.v ===== *)
(** * The control utility: [driver_ctrl.c]

    The command line, its table of commands, and the handlers, each of which
    sends one generic netlink request and prints what comes back.  The
    handlers are programs of the monad of [UserLib]; standard output is the
    sequence of [UPrint] events. *)

From stdpp Require Import strings.
From S2P Require Import Prelude Mem Kernel Packet Stream Ghost Genl Netlink Recv UserLib Text.

Section DriverCtrl.
Context `{Libnl}.
Local Open Scope user_scope.

(** What the stack slot of [retval] holds before it is written. *)
Context (uninit : Z).

Definition printf (t : list Z) : U unit := uemit (UPrint t).

(** ** Connecting *)

Definition driver_connect : U (Z * Z) :=
  ok <- ucall l_socket_alloc USockAlloc ;;
  if negb ok then
    printf (text "ERROR: driver_connect(): could not allocate netlink socket" ++ [10]) ;;
    uret (-1, 0)
  else
    err <- ucall l_genl_connect UConnect ;;
    if negb (err =? 0) then
      printf (text "ERROR: driver_connect(): genl_connect failed" ++ [10]) ;;
      uemit USockFree ;; uret (err, 0)
    else
      family <- ucall l_genl_ctrl_resolve UResolve ;;
      if family <? 0 then
        printf (text "ERROR: driver_connect(): could not resolve family channel number" ++ [10]) ;;
        uemit USockFree ;; uret (-1, family)
      else uret (0, family).

(** ** Callbacks that print

    Their state is the output so far, newest first. *)

Definition pcallback := callback (list (list Z)).

(** [nl_recvmsgs_default], with what the callback prints as events. *)
Definition recvmsgs_printing (type : nl_cb_type) (f : pcallback) : U Z :=
  r <- nl_recvmsgs_default (nl_socket_modify_cb nl_cb_default type f) [] ;;
  (λ tr, UOk r.1 (map UPrint r.2 ++ tr)).

(** The bytes that [nla_data] points to, to the end of the message. *)
Definition attr_bytes (msg : list Z) (na : Z) : list Z := drop (Z.to_nat (Nl.nla_data na)) msg.

(** [%s]: the characters before the first NUL. *)
Definition fmt_s (bs : list Z) : option (list Z) :=
  s ← c_string bs; Some (take (length s - 1) s).

(** [nla_data(NULL)] is the address 4: it is not NULL, and reading there crashes. *)
Definition do_echo_recv_msg_cb : pcallback := λ msg out,
  attrs ← parse_attrs msg;
  na ← attrs NF10_GENL_A_MSG;
  reply ← fmt_s (attr_bytes msg na);
  Some (0, (text "Received reply:" ++ [10] ++ reply ++ [10]) :: out).

Definition do_dma_tx_recv_ack_cb : pcallback := λ msg out, Some (0, out).

Definition do_dma_rx_recv_msg_cb : pcallback := λ msg out,
  attrs ← parse_attrs msg;
  match attrs NF10_GENL_A_DMA_BUF with
  | None => Some (0, (text "Didn't find any data to receive" ++ [10]) :: out)
  | Some na_msg =>
      m ← fmt_s (attr_bytes msg na_msg);
      len ← Nl.nla_len msg na_msg;
      let out := (text "len:" ++ [9] ++ fmt_d len ++ [10])
                 :: (text "msg:" ++ [9] ++ m ++ [10]) :: out in
      match attrs NF10_GENL_A_OPCODE with
      | None => Some (0, out)
      | Some na_opcode =>
          op ← attr_word msg na_opcode;
          Some (0, (text "opcode:" ++ [9] ++ fmt_0x08x op ++ [10]) :: out)
      end
  end.

Definition do_reg_rd_recv_msg_cb : callback Z := λ msg val,
  attrs ← parse_attrs msg;
  match attrs NF10_GENL_A_ERRNO with
  | None => Some (- Nl.NLE_NOATTR, val)
  | Some na_errno =>
      w ← attr_word msg na_errno;
      let err := s32 w in
      if negb (err =? 0) then Some (err, val)
      else
        match attrs NF10_GENL_A_REGVAL32 with
        | None => Some (- Nl.NLE_NOATTR, val)
        | Some na_regval => v ← attr_word msg na_regval; Some (0, v)
        end
  end.

Definition do_reg_wr_recv_ack_cb : pcallback := λ msg out,
  attrs ← parse_attrs msg;
  match attrs NF10_GENL_A_ERRNO with
  | None => Some (- Nl.NLE_NOATTR, out)
  | Some na_errno => w ← attr_word msg na_errno; Some (s32 w, out)
  end.

Definition do_napi_enable_recv_ack_cb : pcallback := λ msg out, Some (0, out).
Definition do_napi_disable_recv_ack_cb : pcallback := λ msg out, Some (0, out).

(** ** Handlers *)

(** [argv[i]] *)
Definition arg (argv : list (list Z)) (i : nat) : U (list Z) := ulift (argv !! i).

(** [(uint32_t)strtoull(argv[i], NULL, 0)] *)
Definition arg_u32 (argv : list (list Z)) (i : nat) : U Z :=
  a <- arg argv i ;; uret (u32 (strtoull a)).

Definition put_string (msg : Nl.nl_msg) (ty : Z) (s : list Z) : U (Z * Nl.nl_msg) :=
  ulift (Nl.nla_put_string msg ty s).

Definition do_echo (argv : list (list Z)) : U unit :=
  c <- driver_connect ;;
  if negb (c.1 =? 0) then
    printf (text "ERROR: do_echo(): failed to connect to the driver" ++ [10])
  else
    m <- nlmsg_alloc ;;
    match m with
    | None =>
        printf (text "ERROR: do_echo(): could not allocate new netlink message" ++ [10]) ;;
        driver_disconnect
    | Some msg =>
        msg <- request msg c.2 NF10_GENL_C_ECHO ;;
        s <- arg argv 1 ;;
        r <- put_string msg NF10_GENL_A_MSG s ;;
        nl_send_auto r.2 ;;
        nlmsg_free ;;
        recvmsgs_printing NL_CB_VALID do_echo_recv_msg_cb ;;
        driver_disconnect
    end.

Definition do_dma_tx (argv : list (list Z)) : U unit :=
  c <- driver_connect ;;
  if negb (c.1 =? 0) then
    printf (text "ERROR: do_dma_tx(): failed to connect to the driver" ++ [10])
  else
    m <- nlmsg_alloc ;;
    match m with
    | None =>
        printf (text "ERROR: do_dma_tx(): could not allocate new netlink message" ++ [10]) ;;
        driver_disconnect
    | Some msg =>
        msg <- request msg c.2 NF10_GENL_C_DMA_TX ;;
        s <- arg argv 1 ;;
        r <- put_string msg NF10_GENL_A_MSG s ;;
        if negb (r.1 =? 0) then
          printf (text "ERROR: do_dma_tx(): could not put string in netlink message" ++ [10]) ;;
          driver_disconnect
        else
          op <- (if bool_decide (length argv = 3%nat) then arg_u32 argv 2 else uret 0) ;;
          msg <- put_u32 r.2 NF10_GENL_A_OPCODE op ;;
          nl_send_auto msg ;;
          nlmsg_free ;;
          recvmsgs_printing NL_CB_ACK do_dma_tx_recv_ack_cb ;;
          driver_disconnect
    end.

Definition do_dma_rx (argv : list (list Z)) : U unit :=
  c <- driver_connect ;;
  if negb (c.1 =? 0) then
    printf (text "ERROR: do_dma_rx(): failed to connect to the driver" ++ [10])
  else
    m <- nlmsg_alloc ;;
    match m with
    | None =>
        printf (text "ERROR: do_dma_rx(): could not allocate new netlink message" ++ [10]) ;;
        driver_disconnect
    | Some msg =>
        msg <- request msg c.2 NF10_GENL_C_DMA_RX ;;
        nl_send_auto msg ;;
        nlmsg_free ;;
        recvmsgs_printing NL_CB_VALID do_dma_rx_recv_msg_cb ;;
        driver_disconnect
    end.

Definition do_reg_rd (argv : list (list Z)) : U unit :=
  c <- driver_connect ;;
  if negb (c.1 =? 0) then
    printf (text "ERROR: do_reg_rd(): failed to connect to the driver" ++ [10])
  else
    m <- nlmsg_alloc ;;
    match m with
    | None =>
        printf (text "ERROR: do_reg_rd(): could not allocate new netlink message" ++ [10]) ;;
        driver_disconnect
    | Some msg =>
        msg <- request msg c.2 NF10_GENL_C_REG_RD ;;
        a <- arg_u32 argv 1 ;;
        msg <- put_u32 msg NF10_GENL_A_ADDR32 a ;;
        err <- nl_send_auto msg ;;
        if err <? 0 then
          printf (text "ERROR: do_reg_rd(): couldn't send netlink message" ++ [10]) ;;
          nlmsg_free ;;
          driver_disconnect
        else
          nlmsg_free ;;
          r <- nl_recvmsgs_default
                 (nl_socket_modify_cb nl_cb_default NL_CB_VALID do_reg_rd_recv_msg_cb) uninit ;;
          (if negb (r.1 =? 0) then
             printf (text "ERROR: do_reg_rd(): driver reported back an error" ++ [10])
           else printf (fmt_0x08x r.2 ++ [10])) ;;
          driver_disconnect
    end.

Definition do_reg_wr (argv : list (list Z)) : U unit :=
  c <- driver_connect ;;
  if negb (c.1 =? 0) then
    printf (text "ERROR: do_reg_wr(): failed to connect to the driver" ++ [10])
  else
    m <- nlmsg_alloc ;;
    match m with
    | None =>
        printf (text "ERROR: do_reg_wr(): could not allocate new netlink message" ++ [10]) ;;
        driver_disconnect
    | Some msg =>
        msg <- request msg c.2 NF10_GENL_C_REG_WR ;;
        a <- arg_u32 argv 1 ;;
        msg <- put_u32 msg NF10_GENL_A_ADDR32 a ;;
        v <- arg_u32 argv 2 ;;
        msg <- put_u32 msg NF10_GENL_A_REGVAL32 v ;;
        err <- nl_send_auto msg ;;
        if err <? 0 then
          printf (text "ERROR: do_reg_wr(): couldn't send netlink message" ++ [10]) ;;
          nlmsg_free ;;
          driver_disconnect
        else
          nlmsg_free ;;
          err <- recvmsgs_printing NL_CB_ACK do_reg_wr_recv_ack_cb ;;
          (if negb (err =? 0) then
             printf (text "ERROR: do_reg_wr(): driver reported back an error" ++ [10])
           else uret tt) ;;
          driver_disconnect
    end.

Definition do_napi_enable (argv : list (list Z)) : U unit :=
  c <- driver_connect ;;
  if negb (c.1 =? 0) then
    printf (text "ERROR: do_napi_enable(): failed to connect to the driver" ++ [10])
  else
    m <- nlmsg_alloc ;;
    match m with
    | None =>
        printf (text "ERROR: do_napi_enable(): could not allocate new netlink message" ++ [10]) ;;
        driver_disconnect
    | Some msg =>
        msg <- request msg c.2 NF10_GENL_C_NAPI_ENABLE ;;
        nl_send_auto msg ;;
        nlmsg_free ;;
        recvmsgs_printing NL_CB_ACK do_napi_enable_recv_ack_cb ;;
        driver_disconnect
    end.

Definition do_napi_disable (argv : list (list Z)) : U unit :=
  c <- driver_connect ;;
  if negb (c.1 =? 0) then
    printf (text "ERROR: do_napi_disable(): failed to connect to the driver" ++ [10])
  else
    m <- nlmsg_alloc ;;
    match m with
    | None =>
        printf (text "ERROR: do_napi_disable(): could not allocate new netlink message" ++ [10]) ;;
        driver_disconnect
    | Some msg =>
        msg <- request msg c.2 NF10_GENL_C_NAPI_DISABLE ;;
        nl_send_auto msg ;;
        nlmsg_free ;;
        recvmsgs_printing NL_CB_ACK do_napi_disable_recv_ack_cb ;;
        driver_disconnect
    end.

(** ** The command line *)

Definition set_program_name (argv0 : list Z) : list Z :=
  match after_last 47 argv0 with Some r => r | None => argv0 end.

Definition usage (program_name : list Z) : U unit :=
  printf
    (program_name
     ++ text ": NetFPGA-10G Ethernet driver management, control, and testing utility" ++ [10]
     ++ text "usage: " ++ program_name ++ text " [OPTIONS] COMMAND [ARG...]" ++ [10; 10]
     ++ text "   echo STRING             Send STRING to driver, driver echoes it back." ++ [10]
     ++ text "   dma_tx STRING [OPCODE]  Transmit STRING to the hardware via DMA w/ optional OPCODE."
     ++ [10]
     ++ text "   dma_rx                  Pull out what's next in the DMA RX buffer and print it."
     ++ [10]
     ++ text "   reg_rd ADDR             Read register at address ADDR." ++ [10]
     ++ text "   reg_wr ADDR VAL         Write VAL to register at address ADDR." ++ [10]
     ++ text "   napi_enable             Enable driver polling for RX packets." ++ [10]
     ++ text "   napi_disable            Disable driver polling for RX packets." ++ [10]
     ++ text "   help                    Print this help message." ++ [10]).

Definition do_help (program_name : list Z) (argv : list (list Z)) : U unit := usage program_name.

Record command := mkCommand {
  c_name : list Z;
  c_min_args : Z;
  c_max_args : Z;
  c_handler : list (list Z) → U unit;
}.

Definition all_commands (program_name : list Z) : list command :=
  [mkCommand (text "echo") 1 1 do_echo;
   mkCommand (text "dma_tx") 1 2 do_dma_tx;
   mkCommand (text "dma_rx") 0 0 do_dma_rx;
   mkCommand (text "reg_rd") 1 1 do_reg_rd;
   mkCommand (text "reg_wr") 2 2 do_reg_wr;
   mkCommand (text "napi_enable") 0 0 do_napi_enable;
   mkCommand (text "napi_disable") 0 0 do_napi_disable;
   mkCommand (text "help") 0 0 (do_help program_name)].

(** The loop over the table; [argv] starts with the command's name. *)
Fixpoint dispatch (program_name : list Z) (cs : list command) (name : list Z)
    (argv : list (list Z)) : U Z :=
  match cs with
  | [] =>
      printf (text "ERROR: main(): unknown command '" ++ name ++ text "'" ++ [10; 10]) ;;
      usage program_name ;;
      uret 0
  | p :: cs =>
      if str_eq (c_name p) name then
        let n_arg := zlen argv - 1 in
        if n_arg <? c_min_args p then
          printf (text "ERROR: main(): '" ++ c_name p ++ text "' command requires at least "
                  ++ fmt_d (c_min_args p) ++ text " arguments" ++ [10]) ;;
          uret 0
        else if c_max_args p <? n_arg then
          printf (text "ERROR: main(): '" ++ c_name p ++ text "' command takes at most "
                  ++ fmt_d (c_max_args p) ++ text " arguments" ++ [10]) ;;
          uret 0
        else c_handler p argv ;; uret 0
      else dispatch program_name cs name argv
  end.

Definition main (argv : list (list Z)) : U Z :=
  argv0 <- arg argv 0 ;;
  let program_name := set_program_name argv0 in
  let argv := tail argv in
  match argv with
  | [] =>
      printf (text "ERROR: main(): too few arguments" ++ [10; 10]) ;;
      usage program_name ;;
      uret 0
  | name :: _ => dispatch program_name (all_commands program_name) name argv
  end.

(** ** Nothing is leaked, but for one path *)

Lemma unets_printf t : unets (printf t) (λ _, (0, 0)).
Proof. apply unets_emit. Qed.

Lemma unet_prints ts tr : unet (map UPrint ts ++ tr) = unet tr.
Proof. induction ts as [|t ts IH]; [done|]. simpl. rewrite IH. by destruct (unet tr). Qed.

Lemma unets_printing type f : unets (recvmsgs_printing type f) (λ _, (0, 0)).
Proof.
  eapply unets_bind; [apply unets_recv|]. intros r tr. rewrite unet_prints. simpl.
  rewrite !Z.add_0_r. by destruct (unet tr).
Qed.

Lemma unets_arg argv i : unets (arg argv i) (λ _, (0, 0)).
Proof. apply unets_lift. Qed.

Lemma unets_arg_u32 argv i : unets (arg_u32 argv i) (λ _, (0, 0)).
Proof. eapply unets_bind; [apply unets_lift|]. intros a. eapply unets_eq; [apply unets_ret|done]. Qed.

Lemma unets_put_string msg ty t : unets (put_string msg ty t) (λ _, (0, 0)).
Proof. apply unets_lift. Qed.

Lemma unets_ctrl_connect : unets driver_connect (λ c, (if c.1 =? 0 then 1 else 0, 0)).
Proof.
  intros tr. unfold driver_connect, printf, ubind, ucall, uemit, uret.
  destruct (l_socket_alloc tr); simpl; [|f_equal; lia].
  set (e := l_genl_connect _). destruct (e =? 0) eqn:E; simpl.
  - set (f := l_genl_ctrl_resolve _). destruct (f <? 0) eqn:E2; simpl; f_equal; lia.
  - rewrite E. f_equal; lia.
Qed.

Ltac ctrl_step :=
  lazymatch goal with
  | |- unets (ubind driver_connect _) _ =>
      eapply unets_bind; [apply unets_ctrl_connect|intros ?; cbv beta]
  | |- unets (ubind (ubind _ _) _) _ =>
      eapply unets_bind; [eapply unets_bind; [apply unets_emit|intros ?; apply unets_emit]|intros ?]
  | |- unets (ubind (printf _) _) _ => eapply unets_bind; [apply unets_printf|intros ?]
  | |- unets (ubind (recvmsgs_printing _ _) _) _ =>
      eapply unets_bind; [apply unets_printing|intros ?]
  | |- unets (ubind (arg _ _) _) _ => eapply unets_bind; [apply unets_arg|intros ?]
  | |- unets (ubind (arg_u32 _ _) _) _ => eapply unets_bind; [apply unets_arg_u32|intros ?]
  | |- unets (ubind (put_string _ _ _) _) _ =>
      eapply unets_bind; [apply unets_put_string|intros ?]
  | |- unets (ubind (if ?b then _ else _) _) _ => destruct b
  | |- unets (ubind (uret _) _) _ => eapply unets_bind; [apply unets_ret|intros ?]
  | |- unets (printf _) _ => eapply unets_eq; [apply unets_printf|intros ?; simpl]
  | |- unets (driver_disconnect) _ => eapply unets_eq; [apply unets_emit|intros ?; simpl]
  | _ => unets_step
  end.

Lemma do_echo_balanced argv : unets (do_echo argv) (λ _, (0, 0)).
Proof. unfold do_echo. repeat ctrl_step; done. Qed.

Lemma do_dma_rx_balanced argv : unets (do_dma_rx argv) (λ _, (0, 0)).
Proof. unfold do_dma_rx. repeat ctrl_step; done. Qed.

Lemma do_reg_rd_balanced argv : unets (do_reg_rd argv) (λ _, (0, 0)).
Proof. unfold do_reg_rd. repeat ctrl_step; done. Qed.

Lemma do_reg_wr_balanced argv : unets (do_reg_wr argv) (λ _, (0, 0)).
Proof. unfold do_reg_wr. repeat ctrl_step; done. Qed.

Lemma do_napi_enable_balanced argv : unets (do_napi_enable argv) (λ _, (0, 0)).
Proof. unfold do_napi_enable. repeat ctrl_step; done. Qed.

Lemma do_napi_disable_balanced argv : unets (do_napi_disable argv) (λ _, (0, 0)).
Proof. unfold do_napi_disable. repeat ctrl_step; done. Qed.

(** ** The command line *)

(** How many arguments each command takes. *)
Definition arity : list (list Z * (Z * Z)) :=
  [(text "echo", (1, 1)); (text "dma_tx", (1, 2)); (text "dma_rx", (0, 0));
   (text "reg_rd", (1, 1)); (text "reg_wr", (2, 2)); (text "napi_enable", (0, 0));
   (text "napi_disable", (0, 0)); (text "help", (0, 0))].

(** The command line names a command and gives it an allowed number of arguments. *)
Definition accepted (argv : list (list Z)) : Prop :=
  ∃ prog name args lo hi, argv = prog :: name :: args ∧ (name, (lo, hi)) ∈ arity ∧
    lo ≤ zlen args ≤ hi.

(** [m] returns 0 and does nothing but print. *)
Definition only_prints (m : U Z) : Prop :=
  ∀ tr, ∃ ts, m tr = UOk 0 (map UPrint ts ++ tr).

Lemma dispatch_prints prog name args cs :
  Forall (λ p, c_name p = name → ¬ (c_min_args p ≤ zlen args ≤ c_max_args p)) cs →
  only_prints (dispatch prog cs name (name :: args)).
Proof.
  induction 1 as [|p cs Hp _ IH]; intros tr.
  - eexists [_; _]. reflexivity.
  - cbn [dispatch]. unfold str_eq. case_bool_decide as E; [|apply IH].
    specialize (Hp E). replace (zlen (name :: args) - 1) with (zlen args)
      by (unfold zlen; simpl length; lia).
    destruct (Z.ltb_spec (zlen args) (c_min_args p)); [eexists [_]; reflexivity|].
    destruct (Z.ltb_spec (c_max_args p) (zlen args)); [eexists [_]; reflexivity|]. lia.
Qed.

Lemma main_rejects argv : argv ≠ [] → ¬ accepted argv → only_prints (main argv).
Proof.
  intros Hne Hna tr. destruct argv as [|prog argv]; [done|]. unfold main, arg.
  erewrite ubind_ok by reflexivity. cbv beta zeta. cbn [tail].
  destruct argv as [|name args]; [eexists [_; _]; reflexivity|].
  apply dispatch_prints. unfold all_commands.
  repeat constructor; cbn [c_name c_min_args c_max_args]; intros <- Hr; apply Hna;
    eexists _, _, _, _, _; (split; [reflexivity|]); (split; [|exact Hr]);
    unfold arity; rewrite !elem_of_cons; tauto.
Qed.

Lemma dispatch_found prog p args cs :
  p ∈ cs → NoDup (map c_name cs) → c_min_args p ≤ zlen args ≤ c_max_args p →
  dispatch prog cs (c_name p) (c_name p :: args)
  = (c_handler p (c_name p :: args) ;; uret 0)%user.
Proof.
  intros Hp Hnd Hr. induction cs as [|q cs IH]; [by apply elem_of_nil in Hp|].
  cbn [map] in Hnd. apply list.NoDup_cons in Hnd as [Hq Hnd]. cbn [dispatch].
  unfold str_eq. replace (zlen (c_name p :: args) - 1) with (zlen args)
    by (unfold zlen; simpl length; lia).
  apply elem_of_cons in Hp as [<-|Hp].
  - rewrite bool_decide_true by done.
    decide_test (zlen args <? c_min_args p) false.
    by decide_test (c_max_args p <? zlen args) false.
  - rewrite bool_decide_false; [by apply IH|]. intros E. apply Hq. rewrite E.
    apply list_elem_of_In, in_map. by apply list_elem_of_In.
Qed.

Lemma command_names : NoDup (map fst arity).
Proof. apply (bool_decide_unpack _). by vm_compute. Qed.

(** An accepted command line runs the handler of its command, and nothing else. *)
Lemma main_accepts prog p args :
  p ∈ all_commands (set_program_name prog) → c_min_args p ≤ zlen args ≤ c_max_args p →
  main (prog :: c_name p :: args) = (c_handler p (c_name p :: args) ;; uret 0)%user.
Proof.
  intros Hp Hr. pose proof command_names as Hnd.
  change (map fst arity) with (map c_name (all_commands (set_program_name prog))) in Hnd.
  by rewrite <- (dispatch_found (set_program_name prog) p args _ Hp Hnd Hr).
Qed.

(** ** The handlers on a working socket *)

Section Handlers.
Context (family : Z) (Hsk : socket_ok family).

Lemma ctrl_connect_ok tr :
  driver_connect tr = UOk (0, family) (UResolve family :: UConnect 0 :: USockAlloc true :: tr).
Proof.
  destruct Hsk as [Ha Hc Hr Hf _ _ _ _]. unfold driver_connect, ubind, ucall.
  rewrite Ha. cbn [negb]. rewrite Hc. cbn [negb Z.eqb]. rewrite Hr.
  by decide_test (family <? 0) false.
Qed.

Lemma alloc_ok tr :
  nlmsg_alloc tr = UOk (Some (Nl.nlmsg_alloc_len l_pagesize)) (UMsgAlloc true :: tr).
Proof. unfold nlmsg_alloc, ubind, ucall, uret. by rewrite (sk_msg _ Hsk). Qed.

(** A reply to a callback for data messages. *)
Lemma printing_valid f l tr c out :
  replies l tr → zlen (Nl.flat l) < 2 ^ 30 →
  (∀ pid seq fam cmd version, f (wire_msg pid seq fam 0 cmd version l) [] = Some (c, out)) →
  recvmsgs_printing NL_CB_VALID f tr = UOk (cb_result c) (map UPrint out ++ tr).
Proof.
  intros Hrep Hl Hf. unfold recvmsgs_printing.
  destruct (recv_reply family Hsk (nl_socket_modify_cb nl_cb_default NL_CB_VALID f) [] l tr Hrep Hl)
    as (p & q & fm & cm & v & E); [done..| |].
  { intros g [= <-] p q fm cm v. by eexists. }
  erewrite ubind_ok; [|etransitivity; [exact E|]]; simpl cb_set; cbv iota;
    [|rewrite Hf; reflexivity].
  done.
Qed.

(** A data message when only acknowledgements have a callback. *)
Lemma printing_ack f l tr :
  replies l tr → zlen (Nl.flat l) < 2 ^ 30 → recvmsgs_printing NL_CB_ACK f tr = UOk 0 tr.
Proof.
  intros Hrep Hl. unfold recvmsgs_printing.
  destruct (recv_reply family Hsk (nl_socket_modify_cb nl_cb_default NL_CB_ACK f) [] l tr Hrep Hl)
    as (p & q & fm & cm & v & E); [done..|].
  by rewrite (ubind_ok _ _ _ _ _ E).
Qed.

Lemma put_string_ok msg hdr l room ty t :
  Nl.represents msg hdr l room → zlen t < 2 ^ 15 →
  2 * (20 + zlen (Nl.flat l)) + Nl.nla_total_size (zlen t + 1) ≤ Nl.nm_size msg →
  ∃ msg' room', Nl.represents msg' hdr (l ++ [(ty, t ++ [0])]) room' ∧
    Nl.nm_size msg' = Nl.nm_size msg ∧ ∀ tr, put_string msg ty t tr = UOk (0, msg') tr.
Proof.
  intros Hr Hsm Hroom.
  destruct (Nl.nla_put_ok msg _ _ _ ty (t ++ [0]) Hr ltac:(rewrite zlen_app; change (zlen [0]) with 1; lia)) as (m2 & room' & Hput & Hr2 & Hsz).
  { by rewrite zlen_app. }
  exists m2, room'. split; [done|]. split; [done|]. intros tr.
  unfold put_string, Nl.nla_put_string, ulift. by rewrite Hput.
Qed.

(** The first string fits in half of the page that is left. *)
Definition fits (t : list Z) : Prop := 40 + Nl.nla_total_size (zlen t + 1) ≤ l_pagesize.

(** [reg_rd] prints the register, or that the driver reported an error. *)
Lemma do_reg_rd_run cmd a l tr :
  let bytes := request_bytes family NF10_GENL_C_REG_RD
                 [(NF10_GENL_A_ADDR32, le_split 4 (u32 (u32 (strtoull a))))] tr in
  replies l (asked family bytes tr) →
  Forall Nl.attr_ok l → zlen (Nl.flat l) < 2 ^ 30 → word_attrs l →
  do_reg_rd [cmd; a] tr =
  UOk tt (USockFree ::
    UPrint (if cb_result (rd_reply l uninit).1 =? 0 then fmt_0x08x (rd_reply l uninit).2 ++ [10]
            else text "ERROR: do_reg_rd(): driver reported back an error" ++ [10])
    :: asked family bytes tr).
Proof.
  intros bytes Hrep Hok Hl Hw. unfold do_reg_rd.
  rewrite (ubind_ok _ _ _ _ _ (ctrl_connect_ok tr)). cbn [fst snd negb Z.eqb].
  rewrite (ubind_ok _ _ _ _ _ (alloc_ok _)). pose proof (sk_page _ Hsk).
  destruct (request_ok family Hsk NF10_GENL_C_REG_RD) as (m1 & Hr1 & Hs1 & E1).
  destruct (put_u32_ok m1 _ _ _ NF10_GENL_A_ADDR32 (u32 (strtoull a)) Hr1)
    as (m2 & room & Hr2 & Hs2 & E2).
  { rewrite Hs1. change (zlen (Nl.flat [])) with 0. lia. }
  rewrite (ubind_ok _ _ _ _ _ (E1 _)). unfold arg_u32, arg. erewrite ubind_ok by reflexivity.
  cbv beta. rewrite (ubind_ok _ _ _ _ _ (E2 _)).
  rewrite (ubind_ok _ _ _ _ _ (send_ok m2 family _ _ room _ Hr2)).
  fold (sending family tr). change ([] ++ ?x) with x. fold bytes.
  rewrite (proj2 (Z.ltb_ge _ _) (sk_send _ Hsk _ _)).
  unfold nlmsg_free, driver_disconnect, uemit. erewrite (ubind_ok _ _ _ tt) by done.
  cbv beta.
  destruct (recv_reply family Hsk (nl_socket_modify_cb nl_cb_default NL_CB_VALID
    do_reg_rd_recv_msg_cb) uninit l (asked family bytes tr) Hrep Hl)
    as (p & q & f & c & v & E); [done..| |].
  { intros g [= <-] p q f c v. setoid_rewrite rd_cb_run; [by eexists|done..]. }
  erewrite ubind_ok; [|etransitivity; [exact E|]]; simpl cb_set; cbv iota;
    [|setoid_rewrite rd_cb_run; [reflexivity|done..]].
  cbn [fst snd]. by destruct (cb_result _ =? 0).
Qed.

(** [reg_wr] prints nothing when a data message comes back, whatever error it
    carries. *)
Lemma do_reg_wr_run cmd a b l tr :
  let bytes := request_bytes family NF10_GENL_C_REG_WR
                 [(NF10_GENL_A_ADDR32, le_split 4 (u32 (u32 (strtoull a))));
                  (NF10_GENL_A_REGVAL32, le_split 4 (u32 (u32 (strtoull b))))] tr in
  replies l (asked family bytes tr) → zlen (Nl.flat l) < 2 ^ 30 →
  do_reg_wr [cmd; a; b] tr = UOk tt (USockFree :: asked family bytes tr).
Proof.
  intros bytes Hrep Hl. unfold do_reg_wr.
  rewrite (ubind_ok _ _ _ _ _ (ctrl_connect_ok tr)). cbn [fst snd negb Z.eqb].
  rewrite (ubind_ok _ _ _ _ _ (alloc_ok _)). pose proof (sk_page _ Hsk).
  destruct (request_ok family Hsk NF10_GENL_C_REG_WR) as (m1 & Hr1 & Hs1 & E1).
  destruct (put_u32_ok m1 _ _ _ NF10_GENL_A_ADDR32 (u32 (strtoull a)) Hr1)
    as (m2 & room & Hr2 & Hs2 & E2).
  { rewrite Hs1. change (zlen (Nl.flat [])) with 0. lia. }
  destruct (put_u32_ok m2 _ _ _ NF10_GENL_A_REGVAL32 (u32 (strtoull b)) Hr2)
    as (m3 & room' & Hr3 & Hs3 & E3).
  { rewrite Hs2, Hs1. change (zlen (Nl.flat _)) with 8. lia. }
  rewrite (ubind_ok _ _ _ _ _ (E1 _)). unfold arg_u32, arg. erewrite ubind_ok by reflexivity.
  cbv beta. rewrite (ubind_ok _ _ _ _ _ (E2 _)). erewrite ubind_ok by reflexivity.
  cbv beta. rewrite (ubind_ok _ _ _ _ _ (E3 _)).
  rewrite (ubind_ok _ _ _ _ _ (send_ok m3 family _ _ room' _ Hr3)).
  fold (sending family tr). change (([] ++ [?x]) ++ [?y]) with [x; y]. fold bytes.
  rewrite (proj2 (Z.ltb_ge _ _) (sk_send _ Hsk _ _)).
  unfold nlmsg_free, driver_disconnect, uemit. erewrite (ubind_ok _ _ _ tt) by done.
  cbv beta. erewrite ubind_ok by (by eapply printing_ack). done.
Qed.

Lemma attr_bytes_ok msg off bs : Nl.attr_at msg off bs → ∃ rest, attr_bytes msg off = bs ++ rest.
Proof.
  intros (_ & _ & Hb). unfold attr_bytes. set (d := drop _ msg) in *.
  exists (drop (length bs) d). rewrite <- (take_drop (length bs) d) at 1. by rewrite Hb.
Qed.

Lemma fmt_s_ok t rest : Forall (λ b, b ≠ 0) t → fmt_s ((t ++ [0]) ++ rest) = Some t.
Proof.
  intros Ht. unfold fmt_s. rewrite <- app_assoc. change ([0] ++ rest) with (0 :: rest).
  rewrite c_string_app, Nl.some_bind by done. f_equal. rewrite length_app. simpl.
  rewrite take_app_le by lia. apply take_ge. lia.
Qed.

Lemma one_attr_small ty t : zlen t < 2 ^ 15 → zlen (Nl.flat [(ty, t ++ [0])]) < 2 ^ 30.
Proof.
  intros Ht. pose proof (zlen_nonneg t). unfold Nl.flat. cbn [map concat].
  rewrite app_nil_r, Nl.zlen_enc. cbn [snd]. rewrite zlen_app. change (zlen [0]) with 1.
  unfold Nl.nla_total_size, Nl.nla_attr_size. change Nl.NLA_HDRLEN with 4.
  pose proof (Nl.ALIGN_bounds (4 + (zlen t + 1))). lia.
Qed.

(** [echo] prints the string of the reply. *)
Lemma do_echo_run cmd t reply tr :
  let bytes := request_bytes family NF10_GENL_C_ECHO [(NF10_GENL_A_MSG, t ++ [0])] tr in
  fits t → zlen t < 2 ^ 15 → Forall (λ b, b ≠ 0) reply → zlen reply < 2 ^ 15 →
  replies [(NF10_GENL_A_MSG, reply ++ [0])] (asked family bytes tr) →
  do_echo [cmd; t] tr =
  UOk tt (USockFree :: UPrint (text "Received reply:" ++ [10] ++ reply ++ [10])
          :: asked family bytes tr).
Proof.
  intros bytes Hfit Htl Hrz Hrl Hrep. unfold do_echo.
  rewrite (ubind_ok _ _ _ _ _ (ctrl_connect_ok tr)). cbn [fst snd negb Z.eqb].
  rewrite (ubind_ok _ _ _ _ _ (alloc_ok _)).
  destruct (request_ok family Hsk NF10_GENL_C_ECHO) as (m1 & Hr1 & Hs1 & E1).
  destruct (put_string_ok m1 _ _ _ NF10_GENL_A_MSG t Hr1 Htl) as (m2 & room & Hr2 & Hs2 & E2).
  { rewrite Hs1. change (zlen (Nl.flat [])) with 0. unfold fits in Hfit. lia. }
  rewrite (ubind_ok _ _ _ _ _ (E1 _)). unfold arg. erewrite ubind_ok by reflexivity.
  cbv beta. rewrite (ubind_ok _ _ _ _ _ (E2 _)). cbn [snd].
  rewrite (ubind_ok _ _ _ _ _ (send_ok m2 family _ _ room _ Hr2)).
  fold (sending family tr). change ([] ++ ?x) with x. fold bytes.
  unfold nlmsg_free, driver_disconnect, uemit. erewrite (ubind_ok _ _ _ tt) by done.
  cbv beta. assert (zlen (reply ++ [0]) = zlen reply + 1) as Hz by (by rewrite zlen_app).
  pose proof (zlen_nonneg reply).
  assert (Forall Nl.attr_ok [(NF10_GENL_A_MSG, reply ++ [0])]) as Hok.
  { repeat constructor. cbn [snd]. lia. }
  assert (zlen (Nl.flat [(NF10_GENL_A_MSG, reply ++ [0])]) < 2 ^ 30) as Hfl by (by apply one_attr_small).
  erewrite ubind_ok.
  2: { apply (printing_valid do_echo_recv_msg_cb _ _ 0
         [text "Received reply:" ++ [10] ++ reply ++ [10] ] Hrep Hfl).
       intros p q f c v.
       destruct (wire_attrs p q f 0 c v _ Hok Hfl) as (tb & Hp & Ht).
       unfold do_echo_recv_msg_cb. rewrite Hp, Nl.some_bind.
       specialize (Ht NF10_GENL_A_MSG ltac:(done)).
       change (Nl.find_attr _ _) with (Some (reply ++ [0])) in Ht.
       destruct Ht as (off & Ho & Hat). rewrite Ho, Nl.some_bind.
       destruct (attr_bytes_ok _ _ _ Hat) as [rest ->]. by rewrite fmt_s_ok, Nl.some_bind. }
  done.
Qed.

(** A string that does not fit is not sent, and the message is leaked. *)
Lemma do_dma_tx_leaks cmd t opt tr :
  ¬ fits t →
  ∃ tr', do_dma_tx (cmd :: t :: opt) tr = UOk tt tr' ∧
    unet tr' = ((unet tr).1, (unet tr).2 + 1).
Proof.
  intros Hfit. unfold do_dma_tx.
  rewrite (ubind_ok _ _ _ _ _ (ctrl_connect_ok tr)). cbn [fst snd negb Z.eqb].
  rewrite (ubind_ok _ _ _ _ _ (alloc_ok _)).
  destruct (request_ok family Hsk NF10_GENL_C_DMA_TX) as (m1 & Hr1 & Hs1 & E1).
  rewrite (ubind_ok _ _ _ _ _ (E1 _)). unfold arg. erewrite ubind_ok by reflexivity.
  cbv beta. unfold put_string, Nl.nla_put_string.
  rewrite (Nl.nla_put_no_room m1 _ _ _ NF10_GENL_A_MSG (t ++ [0]) Hr1).
  2: { rewrite Hs1, zlen_app. change (zlen (Nl.flat [])) with 0. change (zlen [0]) with 1.
       unfold fits in Hfit. lia. }
  erewrite ubind_ok by reflexivity. eexists. split; [reflexivity|]. simpl. f_equal; lia.
Qed.

End Handlers.

End DriverCtrl.
