(* ===== verification/Examples.v ===== *)
(** * The register examples: [apps/libnf10reg_example/rd.c] and [wr.c]

    Two programs that read, or write, one register after the other and print a line for each.
    Both loops count in an [int] from 4 and are meant to end when it is 0 again; the addition
    overflows before, which C leaves undefined: a crash here. *)

From stdpp Require Import strings.
From S2P Require Import Prelude Mem Kernel Packet Stream Ghost Genl Netlink NlError Recv.
From S2P Require Import UserLib Text DriverCtrl.

Section Examples.
Context `{Libnl}.
Local Open Scope user_scope.

(** ["0x%08x: ERROR: %s\n"]; [nl_geterror] crashes on the smallest [int]. *)
Definition error_line (i err : Z) : U unit :=
  msg <- ulift (nl_geterror err) ;;
  printf (fmt_0x08x (u32 i) ++ text ": ERROR: " ++ text msg ++ [10]).

(** The body of the loop of [rd.c]; [x] keeps its value when the read fails. *)
Definition rd_step (i x : Z) : U Z :=
  r <- nf10_reg_rd (u32 i) x ;;
  (if negb (r.1 =? 0) then error_line i r.1
   else printf (fmt_0x08x (u32 i) ++ text ": rd " ++ fmt_0x08x (u32 r.2) ++ [10])) ;;
  uret r.2.

(** The body of the loop of [wr.c], which has no variable [x]. *)
Definition wr_step (i x : Z) : U Z :=
  err <- nf10_reg_wr (u32 i) (u32 i) ;;
  (if negb (err =? 0) then error_line i err
   else printf (fmt_0x08x (u32 i) ++ text ": wr " ++ fmt_0x08x (u32 i) ++ [10])) ;;
  uret x.

(** [while(i) { ...; i += 4; }]; without fuel the loop goes on for ever.  The sum is computed
    in [int]: one that does not fit is undefined. *)
Fixpoint sweep (fuel : nat) (step : Z → Z → U Z) (i x : Z) : U Z :=
  match fuel with
  | O => λ _, UBlocked
  | S fuel =>
      if i =? 0 then uret x
      else
        x <- step i x ;;
        if i + 4 <? 2 ^ 31 then sweep fuel step (i + 4) x else λ _, UCrash
  end.

(** [x] is not initialised. *)
Definition rd_main (fuel : nat) (x : Z) : U Z := sweep fuel rd_step 4 x ;; uret 0.
Definition wr_main (fuel : nat) : U Z := sweep fuel wr_step 4 0 ;; uret 0.

(** ** What the loops do *)

(** One step for each of a list of addresses. *)
Fixpoint for_all (step : Z → Z → U Z) (l : list Z) (x : Z) : U Z :=
  match l with
  | [] => uret x
  | i :: l => x <- step i x ;; for_all step l x
  end.

(** The aligned addresses but 0 that an [int] holds. *)
Definition int_regs : list Z := (λ k, 4 * k) <$> seqZ 1 (2 ^ 29 - 1).

Lemma sweep_ok step n : ∀ fuel k x tr,
  (n < fuel)%nat → 0 < k → k + Z.of_nat n = 2 ^ 29 - 1 →
  sweep fuel step (4 * k) x tr =
  ubind (for_all step ((λ k, 4 * k) <$> seqZ k (Z.of_nat n + 1)) x) (λ _ _, UCrash) tr.
Proof.
  induction n as [|n IH]; intros fuel k x tr Hf Hk Ek; (destruct fuel as [|fuel]; [lia|]); cbn [sweep].
  - rewrite (proj2 (Z.eqb_neq (4 * k) 0)), seqZ_cons by lia. cbn [fmap list_fmap for_all]. unfold ubind.
    destruct (step (4 * k) x tr) as [x' tr'| |]; [|done..]. by rewrite (proj2 (Z.ltb_ge (4 * k + 4) (2 ^ 31))) by lia.
  - rewrite (proj2 (Z.eqb_neq (4 * k) 0)) by lia. rewrite seqZ_cons by lia. cbn [fmap list_fmap for_all].
    unfold ubind. destruct (step (4 * k) x tr) as [x' tr'| |]; [|done..].
    rewrite (proj2 (Z.ltb_lt (4 * k + 4) (2 ^ 31))) by lia. replace (4 * k + 4) with (4 * (k + 1)) by lia.
    rewrite IH by lia. unfold ubind. by replace (Z.pred (Z.of_nat (S n) + 1)) with (Z.of_nat n + 1) by lia.
Qed.

(** Every register whose address is positive as an [int], in order; then the overflow. *)
Lemma sweep_overflows fuel step x tr :
  (Z.to_nat (2 ^ 29) ≤ fuel)%nat →
  sweep fuel step 4 x tr = ubind (for_all step int_regs x) (λ _ _, UCrash) tr.
Proof.
  intros Hf. change 4 with (4 * 1) at 1. rewrite (sweep_ok step (Z.to_nat (2 ^ 29 - 2))) by lia.
  unfold int_regs. by replace (Z.of_nat (Z.to_nat (2 ^ 29 - 2)) + 1) with (2 ^ 29 - 1) by lia.
Qed.
End Examples.
