(* ===== verification/EndToEnd.v ===== *)
(** * The register library over the driver

    The two sides of a register access together: the functions of
    [nf10_reg_lib.c] send a message, the kernel hands its attributes to the
    handlers of the driver, and the attributes of the driver's reply come back
    in a datagram.  The kernel in between is a parameter; it delivers the
    attributes of a message unchanged in both directions. *)

From stdpp Require Import strings.
From S2P Require Import Prelude Mem Occp Kernel Packet Stream Ghost Genl Probe Regs DmaCmd.
From S2P Require Import Netlink Recv UserLib Text DriverCtrl.

Section EndToEnd.
Context `{Kernel} `{Libnl}.

(** The kernel parses a request into the table of attributes. *)
Context (deliver : list Z → genl_info).

Definition delivers : Prop :=
  ∀ pid seq family flags cmd version l, Forall Nl.attr_ok l → zlen (Nl.flat l) < 2 ^ 30 →
  ∀ ty, 0 < ty ≤ NF10_GENL_A_MAX →
    match Nl.find_attr ty l with
    | Some bs => ∃ rest, need_attr (deliver (wire_msg pid seq family flags cmd version l)) ty
                         = Some (bs ++ rest)
    | None => need_attr (deliver (wire_msg pid seq family flags cmd version l)) ty = None
    end.

(** The reply that the driver made last. *)
Definition last_reply (s : drv) : option attrs :=
  match trace s with EvGenlReply a 0 :: _ => Some a | _ => None end.

(** The driver in state [s] serves the request [bytes] with the handler [h]
    and the kernel sends the reply to the socket. *)
Definition served (h : option genl_info → M Z) (s : drv) (bytes : list Z) (tr : list uevent)
    : Prop :=
  ∀ s' a, h (Some (deliver bytes)) s = Ok 0 s' → last_reply s' = Some a → replies a tr.

Context (Hdel : delivers) (Hk : reply_ok) (family : Z) (Hsk : socket_ok family).

Lemma deliver_word pid seq fam flags cmd version l ty v :
  Forall Nl.attr_ok l → zlen (Nl.flat l) < 2 ^ 30 → 0 < ty ≤ NF10_GENL_A_MAX → 0 ≤ v < 2 ^ 32 →
  Nl.find_attr ty l = Some (le_split 4 v) →
  carries (deliver (wire_msg pid seq fam flags cmd version l)) ty v.
Proof.
  intros Hok Hl Hty Hv Hf. pose proof (Hdel pid seq fam flags cmd version l Hok Hl ty Hty) as Hd.
  rewrite Hf in Hd. destruct Hd as (rest & Hd). eexists. split; [exact Hd|]. by exists rest.
Qed.

Lemma word_attr_ok ty v : 0 < ty < 2 ^ 14 → Nl.attr_ok (ty, le_split 4 v).
Proof. intros Hty. split; [done|]. cbn [snd]. by rewrite zlen_le_split. Qed.

(** The request of [nf10_reg_rd] for [addr]. *)
Definition rd_bytes_of (addr : Z) (tr : list uevent) : list Z :=
  request_bytes family NF10_GENL_C_REG_RD [(NF10_GENL_A_ADDR32, le_split 4 (u32 addr))] tr.

Definition wr_bytes_of (addr val : Z) (tr : list uevent) : list Z :=
  request_bytes family NF10_GENL_C_REG_WR
    [(NF10_GENL_A_ADDR32, le_split 4 (u32 addr)); (NF10_GENL_A_REGVAL32, le_split 4 (u32 val))] tr.

Lemma rd_bytes_carry addr tr :
  0 ≤ addr < 2 ^ 32 → carries (deliver (rd_bytes_of addr tr)) NF10_GENL_A_ADDR32 addr.
Proof.
  intros Ha. apply deliver_word; [|done..|].
  - repeat constructor; by apply word_attr_ok.
  - by rewrite u32_small.
Qed.

Lemma wr_bytes_carry addr val tr :
  0 ≤ addr < 2 ^ 32 → 0 ≤ val < 2 ^ 32 →
  carries (deliver (wr_bytes_of addr val tr)) NF10_GENL_A_ADDR32 addr ∧
  carries (deliver (wr_bytes_of addr val tr)) NF10_GENL_A_REGVAL32 val.
Proof.
  intros Ha Hv.
  assert (Forall Nl.attr_ok [(NF10_GENL_A_ADDR32, le_split 4 (u32 addr));
    (NF10_GENL_A_REGVAL32, le_split 4 (u32 val))])
    by (repeat constructor; by apply word_attr_ok).
  split; apply deliver_word; try done; by rewrite !u32_small.
Qed.

(** A read through the library returns what was last written. *)
Lemma lib_rd_returns s f addr val v tr :
  window_ok s → paged_device (page_addr s) (nf10_regs s) → holds s f → f !! addr = Some v →
  served genl_cmd_reg_rd s (rd_bytes_of addr tr) (asked family (rd_bytes_of addr tr) tr) →
  nf10_reg_rd addr val tr = UOk (0, v) (USockFree :: asked family (rd_bytes_of addr tr) tr).
Proof.
  intros Hw Hdev Hf Hv Hserved. pose proof (Hf addr v Hv) as (Ha & Hal & Hvr & _).
  destruct (reg_rd_returns Hk (deliver (rd_bytes_of addr tr)) s f addr v Hw Hdev Hf Hv)
    as (tr' & Hrun); [by apply rd_bytes_carry|].
  specialize (Hserved _ _ Hrun eq_refl).
  rewrite (nf10_reg_rd_run family Hsk addr val _ tr Hserved);
    [by rewrite rd_reply_value|repeat constructor; by apply word_attr_ok|reflexivity|].
  apply word_attrs_Forall. repeat constructor; [by exists v|by exists (u32 0)].
Qed.

(** A read of an address that is not a multiple of four fails with the
    driver's error, and the caller's word is not changed. *)
Lemma lib_rd_unaligned s addr val tr :
  0 ≤ addr < 2 ^ 32 → addr mod 4 ≠ 0 →
  served genl_cmd_reg_rd s (rd_bytes_of addr tr) (asked family (rd_bytes_of addr tr) tr) →
  nf10_reg_rd addr val tr = UOk (-1, val) (USockFree :: asked family (rd_bytes_of addr tr) tr).
Proof.
  intros Ha Hal Hserved. destruct (rd_bytes_carry addr tr Ha) as (bs & Hn & Hav).
  pose proof (reg_rd_unaligned Hk _ bs addr s Hn Hav Hal) as Hrun.
  rewrite (send_error_run Hk) in Hrun. specialize (Hserved _ _ Hrun eq_refl).
  rewrite (nf10_reg_rd_run family Hsk addr val _ tr Hserved);
    [by rewrite rd_reply_error|repeat constructor; by apply word_attr_ok|reflexivity|].
  apply word_attrs_Forall. repeat constructor. by exists (u32 (-1)).
Qed.

(** A write through the library reaches the register file and returns 0. *)
Lemma lib_wr_updates s f addr val tr :
  window_ok s → holds s f → 0 ≤ addr < 2 ^ 32 → addr mod 4 = 0 → 0 ≤ val < 2 ^ 32 →
  let bytes := wr_bytes_of addr val tr in
  served genl_cmd_reg_wr s bytes (asked family bytes tr) →
  nf10_reg_wr addr val tr = UOk 0 (USockFree :: asked family bytes tr) ∧
  ∃ s', genl_cmd_reg_wr (Some (deliver bytes)) s = Ok 0 s' ∧ window_ok s' ∧
        page_addr s' = page_addr s ∧ nf10_regs s' = nf10_regs s ∧
        holds s' (<[addr := val]> f).
Proof.
  intros Hw Hf Ha Hal Hv bytes Hserved. destruct (wr_bytes_carry addr val tr Ha Hv) as [C1 C2].
  destruct (reg_wr_holds Hk _ s f addr val Hw Hf C1 Hal C2) as (tr' & Hrun & Hf').
  specialize (Hserved _ _ Hrun eq_refl). split.
  - apply (nf10_reg_wr_run family Hsk addr val _ tr Hserved). reflexivity.
  - eexists. split; [exact Hrun|]. split; [by apply window_trace|]. done.
Qed.

(** A write that the driver refuses returns 0 too: the error that the driver
    reports is in a data message, for which no callback is set. *)
Lemma lib_wr_error_lost s addr val tr :
  0 ≤ addr < 2 ^ 32 → 0 ≤ val < 2 ^ 32 → addr mod 4 ≠ 0 →
  let bytes := wr_bytes_of addr val tr in
  served genl_cmd_reg_wr s bytes (asked family bytes tr) →
  (∃ s', genl_cmd_reg_wr (Some (deliver bytes)) s = Ok 0 s' ∧
         last_reply s' = Some [err_attr (-1)]) ∧
  nf10_reg_wr addr val tr = UOk 0 (USockFree :: asked family bytes tr).
Proof.
  intros Ha Hv Hal bytes Hserved. destruct (wr_bytes_carry addr val tr Ha Hv) as [(bs & C1 & Cv) C2].
  pose proof (reg_wr_rejected Hk (deliver bytes) s) as Hrun.
  rewrite (send_error_run Hk) in Hrun. specialize (Hrun ltac:(right; right; by exists bs, addr)).
  split; [by eexists|]. apply (nf10_reg_wr_run family Hsk addr val [err_attr (-1)] tr).
  - by apply (Hserved _ _ Hrun).
  - reflexivity.
Qed.

(** ** Through the command line *)

(** [driver_ctrl reg_rd ADDR] prints the register. *)
Lemma ctrl_rd_prints uninit prog s f addr v tr :
  window_ok s → paged_device (page_addr s) (nf10_regs s) → holds s f → f !! addr = Some v →
  served genl_cmd_reg_rd s (rd_bytes_of addr tr) (asked family (rd_bytes_of addr tr) tr) →
  main uninit [prog; text "reg_rd"; fmt_0x08x addr] tr =
  UOk 0 (USockFree :: UPrint (fmt_0x08x v ++ [10]) :: asked family (rd_bytes_of addr tr) tr).
Proof.
  intros Hw Hdev Hf Hv Hserved. pose proof (Hf addr v Hv) as (Ha & Hal & Hvr & _).
  destruct (reg_rd_returns Hk (deliver (rd_bytes_of addr tr)) s f addr v Hw Hdev Hf Hv)
    as (tr' & Hrun); [by apply rd_bytes_carry|].
  specialize (Hserved _ _ Hrun eq_refl).
  rewrite (main_accepts uninit prog (mkCommand (text "reg_rd") 1 1 (do_reg_rd uninit)))
    by (try done; unfold all_commands; rewrite !elem_of_cons; tauto).
  cbn [c_handler c_name].
  pose proof (do_reg_rd_run uninit family Hsk (text "reg_rd") (fmt_0x08x addr)
    [(NF10_GENL_A_REGVAL32, le_split 4 v); err_attr 0] tr) as Hr.
  cbv zeta in Hr. rewrite strtoull_0x08x, (u32_idemp addr) in Hr by done.
  fold (rd_bytes_of addr tr) in Hr. erewrite ubind_ok.
  2: { apply Hr; [done|repeat constructor; by apply word_attr_ok|reflexivity|].
       apply word_attrs_Forall. repeat constructor; [by exists v|by exists (u32 0)]. }
  by rewrite rd_reply_value.
Qed.

(** [driver_ctrl echo STRING] prints what was sent. *)
Lemma ctrl_echo_prints uninit prog s t tr :
  let bytes := request_bytes family NF10_GENL_C_ECHO [(NF10_GENL_A_MSG, t ++ [0])] tr in
  fits t → Forall (λ b, b ≠ 0) t → zlen t < 2 ^ 15 →
  served genl_cmd_echo s bytes (asked family bytes tr) →
  main uninit [prog; text "echo"; t] tr =
  UOk 0 (USockFree :: UPrint (text "Received reply:" ++ [10] ++ t ++ [10])
         :: asked family bytes tr).
Proof.
  intros bytes Hfit Hz Hl Hserved.
  assert (Forall Nl.attr_ok [(NF10_GENL_A_MSG, t ++ [0])]) as Hok.
  { repeat constructor. cbn [snd]. rewrite zlen_app. change (zlen [0]) with 1. lia. }
  assert (zlen (Nl.flat [(NF10_GENL_A_MSG, t ++ [0])]) < 2 ^ 30) as Hfl by (by apply one_attr_small).
  pose proof (Hdel l_pid (l_seq_next (sending family tr)) family 5 NF10_GENL_C_ECHO
    NF10_GENL_FAMILY_VERSION _ Hok Hfl NF10_GENL_A_MSG ltac:(done)) as Hd.
  change (Nl.find_attr _ _) with (Some (t ++ [0])) in Hd. destruct Hd as [rest Hd].
  fold (request_bytes family NF10_GENL_C_ECHO [(NF10_GENL_A_MSG, t ++ [0])] tr) in Hd.
  fold bytes in Hd. unfold need_attr in Hd.
  destruct (deliver bytes NF10_GENL_A_MSG) as [na|] eqn:E; [|done]. simpl in Hd.
  destruct (echo_run Hk (deliver bytes) na t rest s E) as [tr' Hrun]; [|done|].
  { by rewrite Hd, <- app_assoc. }
  specialize (Hserved _ _ Hrun eq_refl).
  rewrite (main_accepts uninit prog (mkCommand (text "echo") 1 1 do_echo))
    by (try done; unfold all_commands; rewrite !elem_of_cons; tauto).
  cbn [c_handler c_name].
  by rewrite (ubind_ok _ _ _ _ _ (do_echo_run family Hsk (text "echo") t t tr Hfit Hl Hz Hl Hserved)).
Qed.

End EndToEnd.
