(* ===== verification/Phy.v ===== *)
(** * The PHY firmware: [helloworld.c] of the two loopback tests

    The MicroBlaze firmware brings up the four AEL2005 PHYs over MDIO and runs
    a menu.  The board is a parameter: each register access, MDIO frame and
    printed line is an event, and each value read is a function of the events
    so far.  [None] is a wait that did not end within its fuel. *)

From stdpp Require Import strings.
From S2P Require Import Prelude PhyTables.

Inductive fevent :=
  | FInit                               (** platform and Ethernet MAC set up *)
  | FAddr (phy dev a : Z)               (** MDIO address frame *)
  | FWrite (phy dev v : Z)              (** MDIO write frame *)
  | FRead (phy dev v : Z)               (** MDIO read frame *)
  | FTime (t : Z)                       (** time base register *)
  | FOut32 (a v : Z) | FIn32 (a v : Z)
  | FInbyte (c : Z)
  | FPrintf (fmt : string) (args : list Z).   (** the format as written in the source *)

(** What the firmware reads from the board, the addresses of its peripherals, the
    byte order, and the macro [AEL2005_SR]. *)
Class Board := {
  b_time : list fevent → Z;
  b_mdio : list fevent → Z → Z → Z;
  b_in32 : list fevent → Z → Z;
  b_inbyte : list fevent → Z;
  GEN_CHECK_0 : Z;
  GEN_CHECK_1 : Z;
  little_endian : bool;
  AEL2005_SR : bool;
  (** how often a wait may read the clock *)
  sleep_fuel : nat;
}.

Definition F (A : Type) := list fevent → option (A * list fevent).

Definition fret {A} (a : A) : F A := λ tr, Some (a, tr).
Definition fbind {A B} (m : F A) (k : A → F B) : F B := λ tr,
  match m tr with Some (a, tr) => k a tr | None => None end.
Definition femit (e : fevent) : F unit := λ tr, Some (tt, e :: tr).
Definition fask {A} (f : list fevent → A) (e : A → fevent) : F A := λ tr, Some (f tr, e (f tr) :: tr).

Declare Scope fw_scope.
Delimit Scope fw_scope with fw.
Notation "x <- m ;; k" := (fbind m (λ x, k))
  (at level 100, m at next level, right associativity) : fw_scope.
Notation "m ;; k" := (fbind m (λ _, k))
  (at level 100, k at level 200, right associativity) : fw_scope.

Definition XST_SUCCESS : Z := 0.
Definition XST_DEVICE_BUSY : Z := 21.

Definition AEL_I2C_CTRL : Z := 0xc30a.
Definition AEL_I2C_DATA : Z := 0xc30b.
Definition AEL_I2C_STAT : Z := 0xc30c.
Definition MODULE_DEV_ADDR : Z := 0xa0.
Definition MODE_TWINAX : Z := 0.
Definition MODE_SR : Z := 1.

Section Phy.
Context `{Board}.
Local Open Scope fw_scope.

Definition print (s : string) : F unit := femit (FPrintf s []).
Definition xil_printf (s : string) (args : list Z) : F unit := femit (FPrintf s args).

(** ** Waiting *)

Definition read_time : F Z := fask (λ tr, u32 (b_time tr)) FTime.

(** The difference of two readings is computed in [int]; it wraps around, as on the board,
    where C leaves an overflow undefined. *)
Fixpoint sleep_loop (fuel : nat) (result_0 result_1 limit : Z) : F unit :=
  match fuel with
  | O => λ _, None
  | S fuel =>
      if s32 (result_1 - result_0) <? limit then
        t <- read_time ;; sleep_loop fuel result_0 (s32 t) limit
      else fret tt
  end.

Definition ael2005_sleep (ms : Z) : F Z :=
  t <- read_time ;;
  sleep_loop sleep_fuel (s32 t) (s32 t) (s32 (ms * 50000)) ;;
  fret XST_SUCCESS.

(** ** MDIO *)

Definition mdio_read (phy dev : Z) : F Z := fask (λ tr, u16 (b_mdio tr phy dev)) (FRead phy dev).

Definition ael2005_read (PhyAddr PhyDev address : Z) : F Z :=
  femit (FAddr PhyAddr PhyDev address) ;;
  v <- mdio_read PhyAddr PhyDev ;;
  ael2005_sleep 2 ;;
  fret v.

Definition ael2005_write (PhyAddr PhyDev address data : Z) : F Z :=
  femit (FAddr PhyAddr PhyDev address) ;;
  femit (FWrite PhyAddr PhyDev data) ;;
  ael2005_sleep 2 ;;
  fret XST_SUCCESS.

(** ** I2C behind the PHY *)

Fixpoint i2c_write_loop (k : nat) (PhyAddress : Z) : F Z :=
  match k with
  | O => fret XST_DEVICE_BUSY
  | S k =>
      ael2005_sleep 2 ;;
      stat <- ael2005_read PhyAddress 1 AEL_I2C_STAT ;;
      if Z.land stat 3 =? 1 then fret XST_SUCCESS else i2c_write_loop k PhyAddress
  end.

Definition ael2005_i2c_write (PhyAddress dev_addr word_addr data : Z) : F Z :=
  ael2005_write PhyAddress 1 AEL_I2C_DATA data ;;
  ael2005_write PhyAddress 1 AEL_I2C_CTRL (u16 (Z.lor (Z.shiftl dev_addr 8) word_addr)) ;;
  i2c_write_loop 20 PhyAddress.

(** The status, and the 16-bit value stored through [data] if there is one. *)
Fixpoint i2c_read_loop (k : nat) (PhyAddress : Z) : F (Z * option Z) :=
  match k with
  | O => fret (XST_DEVICE_BUSY, None)
  | S k =>
      ael2005_sleep 2 ;;
      stat <- ael2005_read PhyAddress 1 AEL_I2C_STAT ;;
      if Z.land stat 3 =? 1 then
        stat <- ael2005_read PhyAddress 1 AEL_I2C_DATA ;;
        fret (XST_SUCCESS, Some (Z.shiftr stat 8))
      else i2c_read_loop k PhyAddress
  end.

Definition ael2005_i2c_read (PhyAddress dev_addr word_addr : Z) : F (Z * option Z) :=
  ael2005_write PhyAddress 1 AEL_I2C_CTRL
    (u16 (Z.lor (Z.lor (Z.shiftl dev_addr 8) (Z.shiftl 1 8)) word_addr)) ;;
  i2c_read_loop 20 PhyAddress.

(** ** Bringing up a PHY *)

(** [for(i = 0; i < size; i+=2) ael2005_write(p, dev, 1, t[i], t[i+1]);] *)
Fixpoint write_table (dev : Z) (t : list Z) : F unit :=
  match t with
  | a :: v :: t => ael2005_write dev 1 a v ;; write_table dev t
  | _ => fret tt
  end.

Definition edc_table (mode : Z) : list Z :=
  if AEL2005_SR && (mode =? MODE_SR) then sr_edc else twinax_edc.

Definition ael2005_initialize (dev mode : Z) : F Z :=
  print "AEL2005 Initialization Start..\r\n" ;;
  print "Step 1..\r\n" ;;
  write_table dev regs0 ;;
  ael2005_sleep 50 ;;
  print "Step 2..\r\n" ;;
  write_table dev (edc_table mode) ;;
  print "Step 3..\r\n" ;;
  write_table dev regs1 ;;
  ael2005_sleep 50 ;;
  fret XST_SUCCESS.

Definition test_initialize (PhyAddress mode : Z) : F Z :=
  ael2005_sleep 100 ;;
  ael2005_initialize PhyAddress mode ;;
  ael2005_sleep 200 ;;
  fret XST_SUCCESS.

(** PHY0-3 are C, B, A, D. *)
Definition dev_of_port (port : Z) : Z :=
  if port =? 0 then 2 else if port =? 1 then 1 else if port =? 2 then 0 else 3.

Definition link_bit (status : Z) : Z := Z.land (Z.shiftr status 2) 1.

Fixpoint status_loop (k : nat) (i : Z) : F unit :=
  match k with
  | O => fret tt
  | S k =>
      let dev := dev_of_port i in
      pma <- ael2005_read dev 1 0x1 ;;
      pcs <- ael2005_read dev 3 0x1 ;;
      xs <- ael2005_read dev 4 0x1 ;;
      (if negb (Z.land (Z.land (link_bit pma) (link_bit pcs)) (link_bit xs) =? 0)
       then xil_printf "PHY %d OK\r\n" [i]
       else xil_printf "PHY %d error: link down\r\n" [i]) ;;
      status_loop k (i + 1)
  end.

Definition test_status : F Z := status_loop 4 0 ;; fret XST_SUCCESS.

(** ** [main] *)

(** A [u16] stored through a pointer to an [unsigned int]. *)
Definition store_half (w v : Z) : Z :=
  if little_endian then w - w mod 2 ^ 16 + v else w mod 2 ^ 16 + 2 ^ 16 * v.

(** The variables that live across the iterations. *)
Record fw := mkFw { fw_value : Z; fw_port_mode : list Z }.

(** [for(s = first; ...; s++) { ael2005_i2c_read(...s, &value); xil_printf("%c", value); }] *)
Fixpoint dump_bytes (k : nat) (dev s value : Z) : F Z :=
  match k with
  | O => fret value
  | S k =>
      r <- ael2005_i2c_read dev MODULE_DEV_ADDR s ;;
      let value := match r.2 with Some v => store_half value v | None => value end in
      xil_printf "%c" [value] ;;
      dump_bytes k dev (s + 1) value
  end.

(** The part of the loop body that chooses the EDC program. *)
Definition choose_mode (port dev : Z) (st : fw) : F fw :=
  if AEL2005_SR then
    r <- ael2005_i2c_read dev MODULE_DEV_ADDR 0x3 ;;
    let value := match r.2 with Some v => store_half (fw_value st) v | None => fw_value st end in
    let mode := if Z.shiftr value 4 =? 1 then MODE_SR else MODE_TWINAX in
    if negb (mode =? znth (fw_port_mode st) port) then
      xil_printf "Port %d Detected new mode %x\r\n" [port; mode] ;;
      test_initialize dev mode ;;
      fret (mkFw value (zset (fw_port_mode st) port mode))
    else fret (mkFw value (fw_port_mode st))
  else test_initialize dev MODE_TWINAX ;; fret st.

(** The body of [for(port = 0; port < 4; port ++)]. *)
Definition port_step (port : Z) (st : fw) : F fw :=
  let dev := dev_of_port port in
  xil_printf "Port %d: " [port] ;;
  v <- ael2005_read dev 1 0xa ;;
  let value := store_half (fw_value st) v in
  if value =? 0 then
    print "No Signal.\r\n" ;; fret (mkFw value (fw_port_mode st))
  else
    value <- dump_bytes 16 dev 20 value ;;
    value <- dump_bytes 16 dev 40 value ;;
    print "\r\n" ;;
    choose_mode port dev (mkFw value (fw_port_mode st)).

Fixpoint init_ports (k : nat) (port : Z) (st : fw) : F fw :=
  match k with
  | O => fret st
  | S k => st <- port_step port st ;; init_ports k (port + 1) st
  end.

Definition Xil_Out32 (a v : Z) : F unit := femit (FOut32 a v).
Definition Xil_In32 (a : Z) : F Z := fask (λ tr, u32 (b_in32 tr a)) (FIn32 a).

Definition gen_check (v : Z) : F unit :=
  Xil_Out32 (GEN_CHECK_0 + 0x3) v ;; Xil_Out32 (GEN_CHECK_1 + 0x3) v.

(** The counters of the two packet generators; the last one read stays in [value]. *)
Definition dump_counters : F Z :=
  v <- Xil_In32 (GEN_CHECK_0 + 0x0) ;;
  xil_printf "AXI4-Stream Gen/Check 0\r\nTX\t0x%x\t" [v] ;;
  v <- Xil_In32 (GEN_CHECK_0 + 0x1) ;;
  xil_printf "RX\t0x%x\t" [v] ;;
  v <- Xil_In32 (GEN_CHECK_0 + 0x2) ;;
  xil_printf "ERR\t0x%x\r\n" [v] ;;
  v <- Xil_In32 (GEN_CHECK_1 + 0x0) ;;
  xil_printf "AXI4-Stream Gen/Check 1\r\nTX\t0x%x\t" [v] ;;
  v <- Xil_In32 (GEN_CHECK_1 + 0x1) ;;
  xil_printf "RX\t0x%x\t" [v] ;;
  v <- Xil_In32 (GEN_CHECK_1 + 0x2) ;;
  xil_printf "ERR\t0x%x\r\n" [v] ;;
  fret v.

Definition print_menu : F unit :=
  print "==NetFPGA-10G==\r\n" ;;
  print "i : Initialize AEL2005\r\n" ;;
  print "s : Dump status\r\n" ;;
  print "t : Run AXI4-Stream Gen/Check\r\n" ;;
  print "r : Stop AXI4-Stream Gen/Check\r\n".

(** One iteration of [while(1)]. *)
Definition menu_step (st : fw) : F fw :=
  print_menu ;;
  s <- fask b_inbyte FInbyte ;;
  if s =? 105 then init_ports 4 0 st
  else if s =? 114 then
    gen_check 0x1 ;; print "AXI4-Stream Gen/Check Stopped\r\n" ;; fret st
  else if s =? 116 then
    gen_check 0x0 ;; print "AXI4-Stream Gen/Check Started\r\n" ;; fret st
  else if s =? 115 then
    test_status ;; v <- dump_counters ;; fret (mkFw v (fw_port_mode st))
  else fret st.

Fixpoint menu_loop (n : nat) (st : fw) : F fw :=
  match n with
  | O => fret st
  | S n => st <- menu_step st ;; menu_loop n st
  end.

(** [main] up to the [n]-th choice of the menu; [uninit] is what [value] holds at first.
    [goto INIT] enters the loop at the initialisation. *)
Definition fw_main (n : nat) (uninit : Z) : F fw :=
  femit FInit ;;
  gen_check 0x1 ;;
  st <- init_ports 4 0 (mkFw uninit (replicate 4 (-1))) ;;
  menu_loop n st.

(** ** The clock *)

(** The last reading of the time base. *)
Fixpoint last_time (tr : list fevent) : option Z :=
  match tr with
  | [] => None
  | FTime t :: _ => Some t
  | _ :: tr => last_time tr
  end.

(** Between two readings at least [d] and at most [2^30] ticks pass. *)
Definition clock_ok (d : Z) : Prop :=
  0 < d ∧ (∀ tr t, last_time tr = Some t → d ≤ u32 (b_time tr - t) ≤ 2 ^ 30) ∧
  100000000 ≤ d * (Z.of_nat sleep_fuel - 1).

Definition is_time (e : fevent) : Prop := match e with FTime _ => True | _ => False end.

Lemma s32_diff a b : s32 (s32 a - s32 b) = s32 (a - b).
Proof. apply s32_cong. by rewrite Zminus_mod, !s32_mod, <- Zminus_mod. Qed.

Section Clock.
Context (d : Z) (Hclock : clock_ok d).

(** The time that has passed, as the loop computes it. *)
Lemma elapsed r0 r1 e :
  0 ≤ e < 2 ^ 31 → r1 mod 2 ^ 32 = (r0 + e) mod 2 ^ 32 →
  u32 (r1 - r0) = e ∧ s32 (s32 r1 - s32 r0) = e.
Proof.
  intros He Hr1. assert ((r1 - r0) mod 2 ^ 32 = e) as Hu.
  { rewrite Zminus_mod, Hr1, <- Zminus_mod. replace (r0 + e - r0) with e by lia.
    apply Z.mod_small. lia. }
  split; [done|]. rewrite s32_diff, (s32_cong _ e), s32_small; [done|lia|].
  rewrite Hu. symmetry. apply Z.mod_small. lia.
Qed.

Lemma sleep_loop_ok fuel r0 r1 e limit tr :
  0 ≤ e < 2 ^ 31 → r1 mod 2 ^ 32 = (r0 + e) mod 2 ^ 32 → 0 ≤ limit ≤ 100000000 →
  limit - e ≤ d * Z.of_nat fuel → last_time tr = Some r1 →
  ∃ ts r, sleep_loop (S fuel) (s32 r0) (s32 r1) limit tr = Some (tt, ts ++ tr) ∧
    last_time (ts ++ tr) = Some r ∧ limit ≤ u32 (r - r0) ∧ Forall is_time ts.
Proof.
  destruct Hclock as (Hd & Hstep & _). revert r1 e tr.
  induction fuel as [|fuel IH]; intros r1 e tr He Hr1 Hlim Hf Hlast;
    destruct (elapsed r0 r1 e He Hr1) as [Hu Hs]; cbn [sleep_loop]; rewrite Hs;
    destruct (Z.ltb_spec e limit) as [Hlt|Hge]; try lia;
    try (exists [], r1; split; [done|]; split; [done|]; split; [lia|constructor]).
  pose proof (Hstep tr r1 Hlast) as Hst. unfold fbind, read_time, fask.
  set (t := u32 (b_time tr)). set (st := u32 (b_time tr - r1)) in *.
  destruct (IH t (e + st) (FTime t :: tr)) as (ts & r & Hrun & Hl & Hw & Hts).
  - lia.
  - subst t st. unfold u32. rewrite Z.mod_mod by done.
    rewrite Z.add_assoc, Z.add_mod, Z.mod_mod, <- Hr1, <- Z.add_mod by done. f_equal. lia.
  - done.
  - lia.
  - done.
  - exists (ts ++ [FTime t]), r. rewrite <- app_assoc. split; [exact Hrun|].
    split; [exact Hl|]. split; [exact Hw|]. apply Forall_app. split; [done|by constructor].
Qed.

(** A wait of up to two seconds ends, not before its time, also when the
    32-bit time base wraps around; it does nothing but read the clock. *)
Lemma sleep_ok ms tr :
  0 ≤ ms ≤ 2000 →
  ∃ ts r0 r, ael2005_sleep ms tr = Some (XST_SUCCESS, ts ++ FTime r0 :: tr) ∧
    last_time (ts ++ FTime r0 :: tr) = Some r ∧ ms * 50000 ≤ u32 (r - r0) ∧ Forall is_time ts.
Proof.
  intros Hms. unfold ael2005_sleep, read_time, fask, fbind.
  set (t := u32 (b_time tr)). rewrite (s32_small (ms * 50000)) by lia.
  destruct Hclock as (Hd & _ & Hf). destruct sleep_fuel as [|fuel]; [lia|].
  destruct (sleep_loop_ok fuel t t 0 (ms * 50000) (FTime t :: tr))
    as (ts & r & Hrun & Hl & Hw & Hts); [lia|by rewrite Z.add_0_r|lia|lia|done|].
  exists ts, t, r. by rewrite Hrun.
Qed.

(** ** What the PHYs see *)

(** The register that an address frame selected last in device [dev] of a PHY. *)
Fixpoint latch (phy dev : Z) (tr : list fevent) : option Z :=
  match tr with
  | [] => None
  | FAddr p e a :: tr => if (p =? phy) && (e =? dev) then Some a else latch phy dev tr
  | _ :: tr => latch phy dev tr
  end.

(** The registers of the I2C controller, which only pass data on. *)
Definition i2c_reg (a : option Z) : bool :=
  bool_decide (a = Some AEL_I2C_CTRL) || bool_decide (a = Some AEL_I2C_DATA).

(** The writes that PHY [phy] has seen outside its I2C controller: device, register,
    value; oldest first. *)
Fixpoint phy_writes (phy : Z) (tr : list fevent) : list (Z * option Z * Z) :=
  match tr with
  | [] => []
  | FWrite p e v :: tr =>
      if (p =? phy) && negb (i2c_reg (latch p e tr))
      then phy_writes phy tr ++ [(e, latch p e tr, v)] else phy_writes phy tr
  | _ :: tr => phy_writes phy tr
  end.

(** Events that write to no PHY. *)
Definition no_write (e : fevent) : Prop := match e with FWrite _ _ _ => False | _ => True end.

Lemma phy_writes_app phy es tr : Forall no_write es → phy_writes phy (es ++ tr) = phy_writes phy tr.
Proof. induction 1 as [|e es He _ IH]; [done|]. by destruct e. Qed.

Lemma is_time_no_write ts : Forall is_time ts → Forall no_write ts.
Proof. apply Forall_impl. by intros []. Qed.

(** A run from [tr] to [tr'] in which the PHYs see the writes [w]. *)
Definition adds (tr tr' : list fevent) (w : Z → list (Z * option Z * Z)) : Prop :=
  tr `suffix_of` tr' ∧ ∀ phy, phy_writes phy tr' = phy_writes phy tr ++ w phy.

(** [m] returns, and the PHYs see the writes [w]. *)
Definition fwrites {A} (m : F A) (w : Z → list (Z * option Z * Z)) : Prop :=
  ∀ tr, ∃ a tr', m tr = Some (a, tr') ∧ adds tr tr' w.

Lemma adds_trans t1 t2 t3 w1 w2 :
  adds t1 t2 w1 → adds t2 t3 w2 → adds t1 t3 (λ p, w1 p ++ w2 p).
Proof.
  intros [S1 H1] [S2 H2]. split; [by etrans|]. intros phy. by rewrite H2, H1, app_assoc.
Qed.

Lemma adds_quiet t1 t2 t3 w : adds t1 t2 (λ _, []) → adds t2 t3 w → adds t1 t3 w.
Proof. intros Ha Hb. exact (adds_trans _ _ _ _ _ Ha Hb). Qed.

Lemma adds_eq t1 t2 w w' : adds t1 t2 w → (∀ p, w p = w' p) → adds t1 t2 w'.
Proof. intros [S1 H1] E. split; [done|]. intros phy. by rewrite H1, E. Qed.

Lemma adds_app es tr : Forall no_write es → adds tr (es ++ tr) (λ _, []).
Proof.
  intros He. split; [by eexists|]. intros phy. by rewrite app_nil_r, phy_writes_app.
Qed.

Definition quiet_fw {A} (m : F A) : Prop := fwrites m (λ _, []).

Lemma fwrites_bind {A B} (m : F A) (k : A → F B) w1 w2 :
  fwrites m w1 → (∀ a, fwrites (k a) w2) → fwrites (fbind m k) (λ p, w1 p ++ w2 p).
Proof.
  intros Hm Hk tr. destruct (Hm tr) as (a & tr1 & E1 & H1).
  destruct (Hk a tr1) as (b & tr2 & E2 & H2). exists b, tr2. unfold fbind. rewrite E1.
  split; [done|]. by eapply adds_trans.
Qed.

Lemma fwrites_eq {A} (m : F A) w w' : fwrites m w → (∀ p, w p = w' p) → fwrites m w'.
Proof.
  intros Hm E tr. destruct (Hm tr) as (a & tr' & E1 & H1). exists a, tr'. split; [done|].
  by eapply adds_eq.
Qed.

Lemma quiet_ret {A} (a : A) : quiet_fw (fret a).
Proof. intros tr. exists a, tr. split; [done|]. by apply (adds_app []). Qed.

Lemma quiet_emit e : no_write e → quiet_fw (femit e).
Proof.
  intros He tr. exists tt, (e :: tr). split; [done|]. apply (adds_app [e]). by constructor.
Qed.

Lemma quiet_ask {A} (f : list fevent → A) e : (∀ a, no_write (e a)) → quiet_fw (fask f e).
Proof.
  intros He tr. eexists _, _. split; [reflexivity|]. apply (adds_app [e (f tr)]).
  by constructor.
Qed.

Lemma quiet_sleep ms : 0 ≤ ms ≤ 2000 → quiet_fw (ael2005_sleep ms).
Proof.
  intros Hms tr. destruct (sleep_ok ms tr Hms) as (ts & r0 & r & E & _ & _ & Hts).
  eexists _, _. split; [exact E|]. rewrite cons_middle, app_assoc. apply adds_app.
  apply Forall_app. split; [by apply is_time_no_write|by constructor].
Qed.

Lemma quiet_bind {A B} (m : F A) (k : A → F B) :
  quiet_fw m → (∀ a, quiet_fw (k a)) → quiet_fw (fbind m k).
Proof. intros Hm Hk. by eapply fwrites_eq; [eapply fwrites_bind|]. Qed.

Lemma fwrites_quiet_l {A B} (m : F A) (k : A → F B) w :
  quiet_fw m → (∀ a, fwrites (k a) w) → fwrites (fbind m k) w.
Proof. intros Hm Hk. by eapply fwrites_eq; [eapply fwrites_bind|]. Qed.

Lemma fwrites_quiet_r {A B} (m : F A) (k : A → F B) w :
  fwrites m w → (∀ a, quiet_fw (k a)) → fwrites (fbind m k) w.
Proof.
  intros Hm Hk. eapply fwrites_eq; [eapply fwrites_bind; done|]. intros p. simpl.
  by rewrite app_nil_r.
Qed.

(** A write reaches its register, and no other PHY. *)
Lemma ael2005_write_ok dev e a v :
  fwrites (ael2005_write dev e a v)
    (λ p, if (dev =? p) && negb (i2c_reg (Some a)) then [(e, Some a, v)] else []).
Proof.
  intros tr. unfold ael2005_write, fbind, femit.
  destruct (sleep_ok 2 (FWrite dev e v :: FAddr dev e a :: tr)) as (ts & r0 & r & E & _ & _ & Hts);
    [lia|].
  rewrite E. eexists _, _. split; [reflexivity|].
  split; [apply suffix_app_r; by do 3 apply suffix_cons_r|]. intros phy.
  rewrite phy_writes_app by (by apply is_time_no_write). cbn [phy_writes latch].
  rewrite !Z.eqb_refl. cbn [andb]. destruct (_ && _); [done|by rewrite app_nil_r].
Qed.

Lemma quiet_read dev e a : quiet_fw (ael2005_read dev e a).
Proof.
  unfold ael2005_read. apply quiet_bind; [by apply quiet_emit|intros _].
  apply quiet_bind; [by apply quiet_ask|intros v].
  apply quiet_bind; [apply quiet_sleep; lia|intros _]. apply quiet_ret.
Qed.

(** The pairs of a table. *)
Fixpoint pairs (t : list Z) : list (Z * Z) :=
  match t with a :: v :: t => (a, v) :: pairs t | _ => [] end.

(** The writes of a table to device 1. *)
Definition table_writes (t : list Z) : list (Z * option Z * Z) :=
  map (λ p, (1, Some p.1, p.2)) (pairs t).

Definition no_i2c (t : list Z) : bool := forallb (λ p, negb (i2c_reg (Some p.1))) (pairs t).

Lemma write_table_ok dev t :
  no_i2c t = true → fwrites (write_table dev t) (λ p, if dev =? p then table_writes t else []).
Proof.
  revert t. fix IH 1. intros [|a [|v t]] Hn;
    [apply (fwrites_eq _ (λ _, [])); [apply quiet_ret|]; intros p; by destruct (dev =? p)..|].
  unfold no_i2c in Hn. cbn [pairs forallb fst] in Hn. apply andb_true_iff in Hn as [Ha Hn].
  cbn [write_table].
  eapply fwrites_eq; [apply fwrites_bind; [apply ael2005_write_ok|intros _; by apply IH]|].
  intros p. cbv beta. rewrite Ha. by destruct (dev =? p).
Qed.

(** ** Initialisation *)

(** The program of a PHY. *)
Definition phy_program (mode : Z) : list (Z * option Z * Z) :=
  table_writes regs0 ++ table_writes (edc_table mode) ++ table_writes regs1.

Lemma tables_no_i2c mode :
  no_i2c regs0 = true ∧ no_i2c (edc_table mode) = true ∧ no_i2c regs1 = true.
Proof.
  unfold edc_table. destruct (AEL2005_SR && (mode =? MODE_SR));
    (split; [by vm_compute|split; by vm_compute]).
Qed.

Local Ltac quiet_next :=
  lazymatch goal with
  | |- fwrites (fbind (print _) _) _ => apply fwrites_quiet_l; [by apply quiet_emit|intros _]
  | |- fwrites (fbind (ael2005_sleep _) _) _ =>
      apply fwrites_quiet_l; [apply quiet_sleep; lia|intros _]
  end.

Lemma ael2005_initialize_ok dev mode :
  fwrites (ael2005_initialize dev mode) (λ p, if dev =? p then phy_program mode else []).
Proof.
  destruct (tables_no_i2c mode) as (H0 & H1 & H2). unfold ael2005_initialize. do 2 quiet_next.
  eapply fwrites_eq.
  - apply fwrites_bind; [by apply write_table_ok|intros _]. do 2 quiet_next.
    apply fwrites_bind; [by apply write_table_ok|intros _]. quiet_next.
    apply fwrites_bind; [by apply write_table_ok|intros _]. quiet_next. apply quiet_ret.
  - intros p. cbv beta. destruct (dev =? p); [|done]. by rewrite app_nil_r.
Qed.

Lemma test_initialize_ok dev mode :
  fwrites (test_initialize dev mode) (λ p, if dev =? p then phy_program mode else []).
Proof.
  unfold test_initialize. quiet_next. apply fwrites_quiet_r; [apply ael2005_initialize_ok|intros _].
  apply quiet_bind; [apply quiet_sleep; lia|intros _]. apply quiet_ret.
Qed.

(** ** Reading over I2C *)

(** The values read from PHY [phy], oldest first. *)
Fixpoint mdio_reads (phy : Z) (tr : list fevent) : list Z :=
  match tr with
  | [] => []
  | FRead p _ v :: tr => if p =? phy then mdio_reads phy tr ++ [v] else mdio_reads phy tr
  | _ :: tr => mdio_reads phy tr
  end.

Lemma mdio_reads_times phy ts tr : Forall is_time ts → mdio_reads phy (ts ++ tr) = mdio_reads phy tr.
Proof. induction 1 as [|e es He _ IH]; [done|]. by destruct e. Qed.

Lemma sleep_reads phy ms tr :
  0 ≤ ms ≤ 2000 →
  ∃ r tr', ael2005_sleep ms tr = Some (r, tr') ∧ mdio_reads phy tr' = mdio_reads phy tr.
Proof.
  intros Hms. destruct (sleep_ok ms tr Hms) as (ts & r0 & r & E & _ & _ & Hts).
  eexists _, _. split; [exact E|]. by rewrite mdio_reads_times.
Qed.

Lemma read_reads phy e a tr :
  ∃ v tr', ael2005_read phy e a tr = Some (v, tr') ∧ 0 ≤ v < 2 ^ 16 ∧
    mdio_reads phy tr' = mdio_reads phy tr ++ [v].
Proof.
  unfold ael2005_read, mdio_read, fask, femit, fbind.
  set (v := u16 _). destruct (sleep_reads phy 2 (FRead phy e v :: FAddr phy e a :: tr))
    as (r & tr' & E & Hm); [lia|]. rewrite E. exists v, tr'. split; [done|].
  split; [apply Z.mod_pos_bound; done|]. rewrite Hm. cbn [mdio_reads]. by rewrite Z.eqb_refl.
Qed.

Lemma write_reads phy e a v tr :
  ∃ r tr', ael2005_write phy e a v tr = Some (r, tr') ∧ mdio_reads phy tr' = mdio_reads phy tr.
Proof.
  unfold ael2005_write, fbind, femit.
  destruct (sleep_reads phy 2 (FWrite phy e v :: FAddr phy e a :: tr)) as (r & tr' & E & Hm); [lia|].
  rewrite E. by eexists _, _.
Qed.

(** The controller is not ready. *)
Definition busy (stat : Z) : Prop := Z.land stat 3 ≠ 1.

(** How polling [k] times can end, by the values read. *)
Definition i2c_end (k : nat) (sts : list Z) (r : Z * option Z) : Prop :=
  (r = (XST_DEVICE_BUSY, None) ∧ length sts = k ∧ Forall busy sts) ∨
  (∃ bad st v, sts = bad ++ [st; v] ∧ (length bad < k)%nat ∧ Forall busy bad ∧ ¬ busy st ∧
     0 ≤ v < 2 ^ 16 ∧ r = (XST_SUCCESS, Some (Z.shiftr v 8))).

Lemma i2c_read_loop_ok k phy tr :
  ∃ r tr' sts, i2c_read_loop k phy tr = Some (r, tr') ∧
    mdio_reads phy tr' = mdio_reads phy tr ++ sts ∧ i2c_end k sts r.
Proof.
  revert tr. induction k as [|k IH]; intros tr; cbn [i2c_read_loop].
  { eexists _, _, []. split; [reflexivity|]. rewrite app_nil_r. split; [done|]. left.
    split; [done|]. split; [done|constructor]. }
  unfold fbind at 1. destruct (sleep_reads phy 2 tr) as (r0 & tr0 & -> & Hm0); [lia|].
  unfold fbind at 1. destruct (read_reads phy 1 AEL_I2C_STAT tr0) as (st & tr1 & -> & _ & Hm1).
  destruct (Z.eqb_spec (Z.land st 3) 1) as [Hr|Hr].
  - unfold fbind at 1. destruct (read_reads phy 1 AEL_I2C_DATA tr1) as (v & tr2 & -> & Hv & Hm2).
    eexists _, _, [st; v]. split; [reflexivity|]. split.
    { by rewrite Hm2, Hm1, Hm0, <- app_assoc. }
    right. exists [], st, v. split; [done|]. split; [simpl; lia|]. split; [constructor|].
    unfold busy. split; [tauto|done].
  - destruct (IH tr1) as (r & tr2 & sts & -> & Hm2 & Hend). exists r, tr2, (st :: sts).
    split; [done|]. split; [by rewrite Hm2, Hm1, Hm0, <- app_assoc|].
    destruct Hend as [(-> & Hl & Hb)|(bad & s1 & v & -> & Hl & Hb & Hs & Hv & ->)].
    + left. split; [done|]. split; [by rewrite <- Hl|by constructor].
    + right. exists (st :: bad), s1, v. split; [done|]. split; [simpl; lia|].
      split; [by constructor|done].
Qed.

Lemma i2c_read_ok phy da wa tr :
  ∃ r tr' sts, ael2005_i2c_read phy da wa tr = Some (r, tr') ∧
    mdio_reads phy tr' = mdio_reads phy tr ++ sts ∧ i2c_end 20 sts r.
Proof.
  unfold ael2005_i2c_read, fbind at 1.
  destruct (write_reads phy 1 AEL_I2C_CTRL
    (u16 (Z.lor (Z.lor (Z.shiftl da 8) (Z.shiftl 1 8)) wa)) tr) as (r & tr0 & -> & Hm).
  destruct (i2c_read_loop_ok 20 phy tr0) as (r' & tr' & sts & E & Hm' & Hend).
  exists r', tr', sts. by rewrite E, Hm', Hm.
Qed.

(** ** Ports *)

Lemma quiet_i2c_read_loop k phy : quiet_fw (i2c_read_loop k phy).
Proof.
  induction k as [|k IH]; [apply quiet_ret|]. cbn [i2c_read_loop].
  apply quiet_bind; [apply quiet_sleep; lia|intros _].
  apply quiet_bind; [apply quiet_read|intros st]. destruct (_ =? _); [|done].
  apply quiet_bind; [apply quiet_read|intros v]. apply quiet_ret.
Qed.

(** Reading the module over I2C changes no other register of the PHY. *)
Lemma quiet_i2c_read phy da wa : quiet_fw (ael2005_i2c_read phy da wa).
Proof.
  unfold ael2005_i2c_read. apply quiet_bind; [|intros _; apply quiet_i2c_read_loop].
  eapply fwrites_eq; [apply ael2005_write_ok|]. intros p. cbv beta.
  replace (i2c_reg (Some AEL_I2C_CTRL)) with true by done. by rewrite andb_false_r.
Qed.

Lemma quiet_dump k dev s value : quiet_fw (dump_bytes k dev s value).
Proof.
  revert s value. induction k as [|k IH]; intros s value; [apply quiet_ret|]. cbn [dump_bytes].
  apply quiet_bind; [apply quiet_i2c_read|intros r].
  apply quiet_bind; [by apply quiet_emit|intros _]. apply IH.
Qed.

(** The half of [value] into which a reading is not stored. *)
Definition other_half (w : Z) : Z := if little_endian then w / 2 ^ 16 else w mod 2 ^ 16.

(** [value], whose other half is [o]: no reading changes that. *)
Definition half_ok (o w : Z) : Prop := 0 ≤ w ∧ other_half w = o.

Lemma store_half_ok o w v : half_ok o w → 0 ≤ v < 2 ^ 16 → half_ok o (store_half w v).
Proof.
  intros [Hw <-] Hv. unfold half_ok, store_half, other_half. pose proof (Z.mod_pos_bound w (2 ^ 16)).
  pose proof (Z.mod_le w (2 ^ 16)). destruct little_endian; (split; [lia|]).
  - rewrite (Z_div_mod_eq_full w (2 ^ 16)) at 1.
    replace (2 ^ 16 * (w / 2 ^ 16) + w mod 2 ^ 16 - w mod 2 ^ 16 + v) with (v + w / 2 ^ 16 * 2 ^ 16) by lia.
    rewrite Z.div_add by lia. rewrite Z.div_small; lia.
  - rewrite (Z.mul_comm (2 ^ 16)), Z_mod_plus_full. by rewrite Z.mod_mod.
Qed.

(** [value] is zero if the reading and the other half are. *)
Lemma store_half_zero o w v :
  half_ok o w → 0 ≤ v < 2 ^ 16 → (store_half w v =? 0) = (v =? 0) && (o =? 0).
Proof.
  intros [Hw <-] Hv. unfold store_half, other_half. pose proof (Z.mod_pos_bound w (2 ^ 16)).
  pose proof (Z_div_mod_eq_full w (2 ^ 16)). pose proof (Z.div_pos w (2 ^ 16)).
  destruct little_endian.
  - destruct (Z.eqb_spec v 0), (Z.eqb_spec (w / 2 ^ 16) 0); cbn [andb]; (apply Z.eqb_eq || apply Z.eqb_neq); lia.
  - destruct (Z.eqb_spec v 0), (Z.eqb_spec (w mod 2 ^ 16) 0); cbn [andb]; (apply Z.eqb_eq || apply Z.eqb_neq); lia.
Qed.

(** The value after an I2C read, whether it succeeded or not. *)
Lemma i2c_value_half o phy da wa tr r tr' w :
  ael2005_i2c_read phy da wa tr = Some (r, tr') → half_ok o w →
  half_ok o (match r.2 with Some v => store_half w v | None => w end).
Proof.
  intros E Hw. destruct (i2c_read_ok phy da wa tr) as (r0 & t0 & sts & E0 & _ & Hend).
  rewrite E in E0. injection E0 as <- <-.
  destruct Hend as [(-> & _)|(bad & st & v & _ & _ & _ & _ & Hv & ->)]; [done|].
  apply store_half_ok; [done|]. cbn [snd]. rewrite Z.shiftr_div_pow2 by lia.
  split; [apply Z.div_pos; lia|]. apply Z.div_lt_upper_bound; lia.
Qed.

Lemma dump_half o k dev s value tr r tr' :
  dump_bytes k dev s value tr = Some (r, tr') → half_ok o value → half_ok o r.
Proof.
  revert s value tr. induction k as [|k IH]; intros s value tr; cbn [dump_bytes].
  { by intros [= <- <-]. }
  unfold fbind at 1. destruct (ael2005_i2c_read _ _ _ _) as [[r0 t0]|] eqn:E; [|done].
  intros Hr Hv. eapply IH; [exact Hr|]. by eapply i2c_value_half.
Qed.

(** What a port's PHY is programmed with when its module is sensed: the default build
    always writes the Twinax program, the SR build the program of a mode it had not
    recorded for the port. *)
Definition programs (port : Z) (st st' : fw) : list (Z * option Z * Z) :=
  if AEL2005_SR then
    if znth (fw_port_mode st') port =? znth (fw_port_mode st) port then []
    else phy_program (znth (fw_port_mode st') port)
  else phy_program MODE_TWINAX.

Lemma choose_mode_ok o port dev st tr :
  0 ≤ port < zlen (fw_port_mode st) → half_ok o (fw_value st) →
  ∃ st' tr', choose_mode port dev st tr = Some (st', tr') ∧ half_ok o (fw_value st') ∧
    zlen (fw_port_mode st') = zlen (fw_port_mode st) ∧
    (∀ q, 0 ≤ q → q ≠ port → znth (fw_port_mode st') q = znth (fw_port_mode st) q) ∧
    adds tr tr' (λ p, if dev =? p then programs port st st' else []).
Proof.
  intros Hp Hv0. unfold choose_mode, programs. destruct AEL2005_SR.
  2:{ unfold fbind. destruct (test_initialize_ok dev MODE_TWINAX tr) as (r & tr' & E & Ha).
      rewrite E. by exists st, tr'. }
  unfold fbind at 1. destruct (quiet_i2c_read dev MODULE_DEV_ADDR 3 tr) as (r & tr1 & E1 & Ha1).
  rewrite E1. apply (i2c_value_half o _ _ _ _ _ _ (fw_value st)) in E1; [|done]. revert E1.
  set (v := match r.2 with Some _ => _ | None => _ end). intros Hv. cbv zeta.
  set (mode := if _ =? 1 then MODE_SR else MODE_TWINAX).
  destruct (Z.eqb_spec mode (znth (fw_port_mode st) port)) as [Em|Em]; cbn [negb].
  - eexists _, _. split; [reflexivity|]. split; [done|]. split; [done|]. split; [done|].
    cbn [fw_port_mode]. rewrite Z.eqb_refl. eapply adds_eq; [exact Ha1|]. intros p. by destruct (dev =? p).
  - unfold fbind at 1, xil_printf, femit at 1.
    unfold fbind. destruct (test_initialize_ok dev mode
      (FPrintf "Port %d Detected new mode %x\r\n" [port; mode] :: tr1)) as (r' & tr' & E & Ha).
    rewrite E. eexists _, _. split; [reflexivity|]. cbn [fw_port_mode].
    split; [done|]. split; [apply zlen_zset|]. split; [intros q Hq Hne|].
    { rewrite znth_zset by lia. by destruct (Z.eqb_spec port q). }
    rewrite znth_zset, Z.eqb_refl by lia. destruct (Z.eqb_spec mode (znth (fw_port_mode st) port)); [done|].
    eapply adds_quiet; [exact Ha1|]. eapply adds_quiet; [|exact Ha].
    apply (adds_app [_]). by constructor.
Qed.

Lemma read_seen dev e a tr :
  ∃ v tr', ael2005_read dev e a tr = Some (v, tr') ∧ 0 ≤ v < 2 ^ 16 ∧
    (FRead dev e v :: FAddr dev e a :: tr) `suffix_of` tr' ∧ adds tr tr' (λ _, []).
Proof.
  destruct (quiet_read dev e a tr) as (v & tr' & E & Ha). exists v, tr'. split; [done|].
  revert E. unfold ael2005_read, mdio_read, fask, femit, fbind. set (u := u16 _).
  destruct (quiet_sleep 2) with (tr := FRead dev e u :: FAddr dev e a :: tr)
    as (r & tr1 & E1 & Hs & _); [lia|]. rewrite E1. intros [= <- <-].
  split; [apply Z.mod_pos_bound; done|done].
Qed.

(** A port: its PHY is sensed, and [v] is read. *)
Definition sensed (tr tr' : list fevent) (port v : Z) : Prop :=
  ∃ t, (FRead (dev_of_port port) 1 v :: FAddr (dev_of_port port) 1 0xa ::
        FPrintf "Port %d: " [port] :: t) `suffix_of` tr' ∧ tr `suffix_of` t.

Lemma port_step_ok o port st tr :
  0 ≤ port < zlen (fw_port_mode st) → half_ok o (fw_value st) →
  ∃ st' tr' v, port_step port st tr = Some (st', tr') ∧ half_ok o (fw_value st') ∧
    zlen (fw_port_mode st') = zlen (fw_port_mode st) ∧
    (∀ q, 0 ≤ q → q ≠ port → znth (fw_port_mode st') q = znth (fw_port_mode st) q) ∧
    0 ≤ v < 2 ^ 16 ∧ sensed tr tr' port v ∧
    adds tr tr' (λ p, if (dev_of_port port =? p) && negb ((v =? 0) && (o =? 0))
                      then programs port st st' else []).
Proof.
  intros Hp Hv0. unfold port_step. set (dev := dev_of_port port). cbv zeta.
  unfold xil_printf at 1, fbind at 1, femit at 1. set (tr0 := _ :: tr).
  destruct (read_seen dev 1 0xa tr0) as (v & tr1 & E1 & Hv & Hs1 & Ha1).
  unfold fbind at 1. rewrite E1.
  assert (adds tr tr1 (λ _, [])) as Ha.
  { eapply adds_quiet; [|exact Ha1]. apply (adds_app [_]). by constructor. }
  assert (∀ tr' w, adds tr1 tr' w → sensed tr tr' port v ∧ adds tr tr' w) as Hend.
  { intros tr' w Hw. split; [|by eapply adds_quiet].
    exists tr. split; [etrans; [exact Hs1|apply Hw]|done]. }
  pose proof (store_half_ok o _ v Hv0 Hv) as Hh. pose proof (store_half_zero o _ v Hv0 Hv) as Hz.
  destruct (Z.eqb_spec (store_half (fw_value st) v) 0) as [Ez|Ez].
  - eexists _, _, v. split; [reflexivity|]. cbn [fw_value]. split; [done|]. split; [done|].
    split; [done|]. split; [done|]. apply Hend. eapply adds_eq; [apply (adds_app [_]); by constructor|]. intros p.
    by rewrite <- Hz, andb_false_r.
  - unfold fbind at 1. destruct (quiet_dump 16 dev 20 (store_half (fw_value st) v) tr1)
      as (v2 & tr2 & E2 & Ha2). rewrite E2.
    unfold fbind at 1. destruct (quiet_dump 16 dev 40 v2 tr2) as (v3 & tr3 & E3 & Ha3). rewrite E3.
    unfold print, fbind, femit. set (tr4 := _ :: tr3).
    destruct (choose_mode_ok o port dev (mkFw v3 (fw_port_mode st)) tr4)
      as (st' & tr' & E4 & Hv' & Hl & Hq & Ha4); [done|..].
    { cbn [fw_value]. eapply dump_half; [exact E3|]. by eapply dump_half; [exact E2|]. }
    exists st', tr', v. rewrite E4. split; [done|]. split; [done|]. split; [done|]. split; [done|]. split; [done|].
    apply Hend. eapply adds_quiet; [exact Ha2|]. eapply adds_quiet; [exact Ha3|].
    eapply (adds_quiet _ tr4); [apply (adds_app [_]); by constructor|].
    eapply adds_eq; [exact Ha4|]. intros p. by rewrite <- Hz, andb_true_r.
Qed.


Lemma dev_of_port_inj p q : 0 ≤ p < 4 → 0 ≤ q < 4 → dev_of_port p = dev_of_port q → p = q.
Proof. intros Hp Hq. unfold dev_of_port. repeat case_match; lia. Qed.

Lemma dev_of_port_range q : 0 ≤ dev_of_port q < 4.
Proof. unfold dev_of_port. repeat case_match; lia. Qed.

(** The port [q], in a run from [st] at [tr] to [st'] at [tr']: it was sensed, and its PHY was
    left alone if the reading and the other half [o] of [value] are zero, and programmed
    otherwise. *)
Definition port_done (o : Z) (tr tr' : list fevent) (st st' : fw) (q : Z) : Prop :=
  ∃ v, 0 ≤ v < 2 ^ 16 ∧ sensed tr tr' q v ∧
    phy_writes (dev_of_port q) tr' = phy_writes (dev_of_port q) tr ++
      (if (v =? 0) && (o =? 0) then [] else programs q st st').

Lemma init_ports_ok o k port st tr :
  0 ≤ port → port + Z.of_nat k ≤ 4 → zlen (fw_port_mode st) = 4 → half_ok o (fw_value st) →
  ∃ st' tr', init_ports k port st tr = Some (st', tr') ∧ tr `suffix_of` tr' ∧
    zlen (fw_port_mode st') = 4 ∧
    (∀ q, port ≤ q < port + Z.of_nat k → port_done o tr tr' st st' q) ∧
    (∀ q, 0 ≤ q → ¬ port ≤ q < port + Z.of_nat k →
       znth (fw_port_mode st') q = znth (fw_port_mode st) q) ∧
    (∀ phy, (∀ q, port ≤ q < port + Z.of_nat k → dev_of_port q ≠ phy) →
       phy_writes phy tr' = phy_writes phy tr).
Proof.
  revert port st tr. induction k as [|k IH]; intros port st tr Hp Hk Hl Hv0.
  { exists st, tr. split; [done|]. split; [done|]. split; [done|]. split; [lia|]. done. }
  cbn [init_ports]. unfold fbind.
  destruct (port_step_ok o port st tr) as (st1 & tr1 & v & E1 & Hv1 & Hl1 & Hm1 & Hv & (t & Ht & Hs) & Hs1 & Hw1);
    [lia|done|]. rewrite E1.
  destruct (IH (port + 1) st1 tr1) as (st' & tr' & E & Hsuf & Hl' & Hd & Hm & Ho); [lia|lia|lia|done|].
  exists st', tr'. split; [done|]. split; [by etrans|]. split; [done|]. split; [|split].
  - intros q Hq. destruct (decide (q = port)) as [->|Hne].
    + exists v. split; [done|]. split.
      { exists t. split; [by etrans|done]. }
      rewrite Ho, Hw1, Z.eqb_refl; cbn [andb].
      2:{ intros q Hq' E'. apply dev_of_port_inj in E'; lia. }
      unfold programs. rewrite (Hm port) by lia. by destruct ((v =? 0) && (o =? 0)).
    + destruct (Hd q) as (v' & Hv' & (t' & Ht' & Hs') & Hw'); [lia|].
      exists v'. split; [done|]. split.
      { exists t'. split; [done|by etrans]. }
      rewrite Hw', Hw1. destruct (Z.eqb_spec (dev_of_port port) (dev_of_port q)) as [E'|_].
      { apply dev_of_port_inj in E'; lia. }
      cbn [andb]. rewrite app_nil_r. unfold programs. by rewrite (Hm1 q) by lia.
  - intros q Hq Hn. rewrite Hm, Hm1 by lia. done.
  - intros phy Hphy. rewrite Ho, Hw1.
    + destruct (Z.eqb_spec (dev_of_port port) phy) as [E'|_]; [|by rewrite app_nil_r].
      by destruct (Hphy port); [lia|].
    + intros q Hq. apply Hphy. lia.
Qed.

(** ** Link status *)

(** The printed lines, oldest first. *)
Fixpoint printed (tr : list fevent) : list (string * list Z) :=
  match tr with
  | [] => []
  | FPrintf f args :: tr => printed tr ++ [(f, args)]
  | _ :: tr => printed tr
  end.

Lemma printed_times ts tr : Forall is_time ts → printed (ts ++ tr) = printed tr.
Proof. induction 1 as [|e es He _ IH]; [done|]. by destruct e. Qed.

Lemma read_obs phy e a tr :
  ∃ v tr', ael2005_read phy e a tr = Some (v, tr') ∧ printed tr' = printed tr ∧
    ∀ p, mdio_reads p tr' = mdio_reads p tr ++ (if phy =? p then [v] else []).
Proof.
  unfold ael2005_read, mdio_read, fask, femit, fbind. set (v := u16 _).
  destruct (sleep_ok 2 (FRead phy e v :: FAddr phy e a :: tr)) as (ts & r0 & r & E & _ & _ & Hts);
    [lia|]. rewrite E. eexists v, _. split; [done|].
  rewrite printed_times by done. split; [done|]. intros p. rewrite mdio_reads_times by done.
  cbn [mdio_reads]. destruct (phy =? p); [done|by rewrite app_nil_r].
Qed.

(** The line for PHY [i] with the three status words [s]. *)
Definition status_line (i : Z) (s : Z * Z * Z) : string * list Z :=
  if Z.testbit s.1.1 2 && Z.testbit s.1.2 2 && Z.testbit s.2 2
  then ("PHY %d OK\r\n", [i]) else ("PHY %d error: link down\r\n", [i]).

Lemma link_bit_testbit x : link_bit x = Z.b2z (Z.testbit x 2).
Proof.
  unfold link_bit. change 1 with (Z.ones 1). rewrite Z.land_ones by done.
  by rewrite <- Z.bit0_mod, Z.shiftr_spec.
Qed.

Lemma links_up x y z :
  negb (Z.land (Z.land (link_bit x) (link_bit y)) (link_bit z) =? 0) =
    Z.testbit x 2 && Z.testbit y 2 && Z.testbit z 2.
Proof.
  rewrite !link_bit_testbit.
  by destruct (Z.testbit x 2), (Z.testbit y 2), (Z.testbit z 2).
Qed.

(** The part of the loop body for PHY [i]. *)
Lemma status_step k i tr :
  ∃ s t, status_loop (S k) i tr = status_loop k (i + 1) t ∧
    printed t = printed tr ++ [status_line i s] ∧
    ∀ p, mdio_reads p t = mdio_reads p tr ++ if dev_of_port i =? p then [s.1.1; s.1.2; s.2] else [].
Proof.
  cbn [status_loop]. set (dev := dev_of_port i). cbv zeta.
  unfold fbind at 1. destruct (read_obs dev 1 1 tr) as (x & t1 & -> & Hp1 & Hr1).
  unfold fbind at 1. destruct (read_obs dev 3 1 t1) as (y & t2 & -> & Hp2 & Hr2).
  unfold fbind at 1. destruct (read_obs dev 4 1 t2) as (z & t3 & -> & Hp3 & Hr3).
  rewrite links_up. set (line := status_line i (x, y, z)).
  exists (x, y, z), (FPrintf line.1 line.2 :: t3). split; [|split].
  - subst line. unfold status_line, fbind. cbn [fst snd]. by destruct (_ && _).
  - cbn [printed]. rewrite Hp3, Hp2, Hp1. fold line. by destruct line.
  - intros p. cbn [mdio_reads fst snd]. rewrite Hr3, Hr2, Hr1.
    destruct (dev =? p); by rewrite <- ?app_assoc, ?app_nil_r.
Qed.

Lemma status_loop_ok k i tr :
  0 ≤ i → i + Z.of_nat k ≤ 4 →
  ∃ tr' f, status_loop k i tr = Some (tt, tr') ∧
    printed tr' = printed tr ++ map (λ j, status_line j (f j)) (seqZ i (Z.of_nat k)) ∧
    (∀ j, i ≤ j < i + Z.of_nat k → mdio_reads (dev_of_port j) tr' =
       mdio_reads (dev_of_port j) tr ++ [(f j).1.1; (f j).1.2; (f j).2]) ∧
    (∀ p, (∀ j, i ≤ j < i + Z.of_nat k → dev_of_port j ≠ p) → mdio_reads p tr' = mdio_reads p tr).
Proof.
  revert i tr. induction k as [|k IH]; intros i tr Hi Hk.
  { exists tr, (λ _, (0, 0, 0)). split; [done|]. split; [by rewrite app_nil_r|]. split; [lia|done]. }
  destruct (status_step k i tr) as (s & t & -> & Hpt & Hrt).
  destruct (IH (i + 1) t) as (tr' & f & -> & Hp & Hr & Ho); [lia..|].
  exists tr', (λ j, if j =? i then s else f j). split; [done|]. split; [|split].
  - rewrite Hp, Hpt, <- app_assoc, (seqZ_cons i) by lia. cbn [app map].
    rewrite Z.eqb_refl. do 2 f_equal.
    replace (Z.pred (Z.of_nat (S k))) with (Z.of_nat k) by lia. rewrite Z.add_1_r. apply map_ext_in.
    intros j Hj. apply list_elem_of_In, elem_of_seqZ in Hj. by destruct (Z.eqb_spec j i); [lia|].
  - intros j Hj. destruct (Z.eqb_spec j i) as [->|Hne].
    + rewrite Ho, Hrt, Z.eqb_refl; [done|]. intros j Hj' E. apply dev_of_port_inj in E; lia.
    + rewrite Hr, Hrt by lia. destruct (Z.eqb_spec (dev_of_port i) (dev_of_port j)) as [E|_].
      { apply dev_of_port_inj in E; lia. }
      by rewrite app_nil_r.
  - intros p Hp'. rewrite Ho, Hrt; [|intros j Hj; apply Hp'; lia].
    destruct (Z.eqb_spec (dev_of_port i) p) as [E|_]; [|by rewrite app_nil_r].
    by destruct (Hp' i); [lia|].
Qed.

End Clock.
End Phy.
