(* ===== verification/PhyMenu.v ===== *)
(** * The menu of the PHY firmware

    The loop of [main] in [helloworld.c]: every choice is served, and the packet
    generators run exactly when the operator asked for it last. *)

From stdpp Require Import strings.
From S2P Require Import Prelude PhyTables Phy.

Create HintDb aside.

Section Menu.
Context `{Board}.
Local Open Scope fw_scope.

(** Events that neither take a choice nor write a peripheral register. *)
Definition aside (e : fevent) : Prop :=
  match e with FOut32 _ _ | FInbyte _ => False | _ => True end.

(** [m] returns, and does nothing but that. *)
Definition only_aside {A} (m : F A) : Prop :=
  ∀ tr, ∃ a es, m tr = Some (a, es ++ tr) ∧ Forall aside es.

Lemma aside_ret {A} (a : A) : only_aside (fret a).
Proof. intros tr. by exists a, []. Qed.

Lemma aside_bind {A B} (m : F A) (k : A → F B) :
  only_aside m → (∀ a, only_aside (k a)) → only_aside (fbind m k).
Proof.
  intros Hm Hk tr. destruct (Hm tr) as (a & es & E & He).
  destruct (Hk a (es ++ tr)) as (b & es' & E' & He'). exists b, (es' ++ es).
  unfold fbind. rewrite E, E', app_assoc. split; [done|]. by apply Forall_app.
Qed.

Lemma aside_emit e : aside e → only_aside (femit e).
Proof. intros He tr. exists tt, [e]. by split; [|constructor]. Qed.

Lemma aside_ask {A} (f : list fevent → A) e : (∀ a, aside (e a)) → only_aside (fask f e).
Proof. intros He tr. exists (f tr), [e (f tr)]. by split; [|constructor]. Qed.

#[local] Hint Resolve aside_ret aside_bind : aside.

Lemma aside_print s : only_aside (print s).
Proof. by apply aside_emit. Qed.

Lemma aside_printf s args : only_aside (xil_printf s args).
Proof. by apply aside_emit. Qed.

Lemma aside_in32 a : only_aside (Xil_In32 a).
Proof. by apply aside_ask. Qed.

#[local] Hint Resolve aside_print aside_printf aside_in32 : aside.

(** The last value written to a register, and what the operator last asked of the
    generators: 1 holds them. *)
Fixpoint last_out (a : Z) (tr : list fevent) : option Z :=
  match tr with
  | [] => None
  | FOut32 b v :: tr => if b =? a then Some v else last_out a tr
  | _ :: tr => last_out a tr
  end.

Fixpoint asked (tr : list fevent) : Z :=
  match tr with
  | [] => 1
  | FInbyte c :: tr => if c =? 114 then 1 else if c =? 116 then 0 else asked tr
  | _ :: tr => asked tr
  end.

(** The choices taken, oldest first. *)
Fixpoint choices (tr : list fevent) : list Z :=
  match tr with
  | [] => []
  | FInbyte c :: tr => choices tr ++ [c]
  | _ :: tr => choices tr
  end.

(** Both generators do what the operator asked for last. *)
Definition gen_ok (tr : list fevent) : Prop :=
  last_out (GEN_CHECK_0 + 0x3) tr = Some (asked tr) ∧
  last_out (GEN_CHECK_1 + 0x3) tr = Some (asked tr).

Lemma aside_obs es tr :
  Forall aside es →
  (∀ a, last_out a (es ++ tr) = last_out a tr) ∧ asked (es ++ tr) = asked tr ∧
  choices (es ++ tr) = choices tr.
Proof. induction 1 as [|e es He _ IH]; [done|]. by destruct e. Qed.

Lemma aside_gen_ok es tr : Forall aside es → gen_ok (es ++ tr) ↔ gen_ok tr.
Proof. intros He. unfold gen_ok. destruct (aside_obs es tr He) as (Ho & -> & _). by rewrite !Ho. Qed.

Section Clock.
Context (d : Z) (Hclock : clock_ok d).

Lemma aside_sleep ms : 0 ≤ ms ≤ 2000 → only_aside (ael2005_sleep ms).
Proof.
  intros Hms tr. destruct (sleep_ok d Hclock ms tr Hms) as (ts & r0 & r & E & _ & _ & Hts).
  exists XST_SUCCESS, (ts ++ [FTime r0]). rewrite <- app_assoc. split; [exact E|].
  apply Forall_app. split; [|by constructor]. revert Hts. apply Forall_impl. by intros [].
Qed.

#[local] Hint Extern 1 (only_aside (ael2005_sleep _)) => apply aside_sleep; lia : aside.
#[local] Hint Extern 1 (only_aside (femit _)) => by apply aside_emit : aside.
#[local] Hint Extern 1 (only_aside (mdio_read _ _)) => by apply aside_ask : aside.

Lemma aside_read phy e a : only_aside (ael2005_read phy e a).
Proof. unfold ael2005_read. auto with aside. Qed.

Lemma aside_write phy e a v : only_aside (ael2005_write phy e a v).
Proof. unfold ael2005_write. auto with aside. Qed.

#[local] Hint Resolve aside_read aside_write : aside.

Lemma aside_i2c_loop k phy : only_aside (i2c_read_loop k phy).
Proof.
  induction k as [|k IH]; cbn [i2c_read_loop]; [auto with aside|].
  apply aside_bind; [auto with aside|intros _]. apply aside_bind; [auto with aside|intros st].
  case_match; auto with aside.
Qed.

Lemma aside_i2c_read phy da wa : only_aside (ael2005_i2c_read phy da wa).
Proof. unfold ael2005_i2c_read. auto using aside_i2c_loop with aside. Qed.

Lemma aside_table dev t : only_aside (write_table dev t).
Proof. revert t. fix IH 1. intros [|a [|v t]]; cbn [write_table]; auto with aside. Qed.

#[local] Hint Resolve aside_i2c_read aside_table : aside.

Lemma aside_initialize dev mode : only_aside (test_initialize dev mode).
Proof. unfold test_initialize, ael2005_initialize. auto 20 with aside. Qed.

#[local] Hint Resolve aside_initialize : aside.

Lemma aside_dump k dev s value : only_aside (dump_bytes k dev s value).
Proof.
  revert s value. induction k as [|k IH]; intros s value; cbn [dump_bytes]; auto with aside.
Qed.

#[local] Hint Resolve aside_dump : aside.

Lemma aside_ports k port st : only_aside (init_ports k port st).
Proof.
  revert port st. induction k as [|k IH]; intros port st; cbn [init_ports]; [auto with aside|].
  apply aside_bind; [|auto]. unfold port_step, choose_mode.
  apply aside_bind; [auto with aside|intros _]. apply aside_bind; [auto with aside|intros v].
  repeat case_match; auto 20 with aside.
  do 3 (apply aside_bind; [auto with aside|intros ?]).
  apply aside_bind; [auto with aside|intros r]. repeat case_match; auto with aside.
Qed.

Lemma aside_status k i : only_aside (status_loop k i).
Proof.
  revert i. induction k as [|k IH]; intros i; cbn [status_loop]; [auto with aside|].
  do 3 (apply aside_bind; [auto with aside|intros ?]).
  apply aside_bind; [case_match; auto with aside|auto].
Qed.

Lemma gen_check_ok v tr :
  gen_check v tr = Some (tt, FOut32 (GEN_CHECK_1 + 3) v :: FOut32 (GEN_CHECK_0 + 3) v :: tr).
Proof. done. Qed.

Lemma menu_choice {A} c (m : F A) tr :
  gen_ok tr → only_aside m → c ≠ 114 → c ≠ 116 →
  ∃ st' tr', m (FInbyte c :: tr) = Some (st', tr') ∧ gen_ok tr' ∧ choices tr' = choices tr ++ [c].
Proof.
  intros Hg Hm H1 H2. destruct (Hm (FInbyte c :: tr)) as (st' & es & -> & He).
  eexists _, _. split; [done|]. rewrite aside_gen_ok by done.
  destruct (aside_obs es (FInbyte c :: tr) He) as (_ & _ & ->). split; [|done].
  unfold gen_ok. cbn [last_out asked]. by destruct (Z.eqb_spec c 114), (Z.eqb_spec c 116).
Qed.

Lemma gen_choice {A} c v (m : F A) tr :
  asked (FInbyte c :: tr) = v → only_aside m →
  ∃ a tr', (gen_check v ;; m) (FInbyte c :: tr) = Some (a, tr') ∧
    gen_ok tr' ∧ choices tr' = choices tr ++ [c].
Proof.
  intros Ha Hm. unfold fbind at 1. rewrite gen_check_ok. set (tr0 := FOut32 _ _ :: _).
  destruct (Hm tr0) as (a & es & -> & He). exists a, (es ++ tr0). split; [done|].
  rewrite aside_gen_ok by done. destruct (aside_obs es tr0 He) as (_ & _ & ->). split; [|done].
  split; cbn [tr0 last_out]; rewrite !Z.eqb_refl; [|by rewrite <- Ha].
  rewrite <- Ha. by destruct (_ =? _).
Qed.

(** Every choice is served. *)
Lemma menu_step_ok st tr :
  gen_ok tr →
  ∃ c st' tr', menu_step st tr = Some (st', tr') ∧ gen_ok tr' ∧ choices tr' = choices tr ++ [c].
Proof.
  intros Hg. unfold menu_step.
  assert (only_aside print_menu) as Hm by (unfold print_menu; auto 10 with aside).
  unfold fbind at 1. destruct (Hm tr) as ([] & es & -> & He).
  apply (aside_gen_ok es tr He) in Hg. destruct (aside_obs es tr He) as (_ & _ & <-).
  set (tr0 := es ++ tr) in *. unfold fbind at 1, fask at 1. set (c := b_inbyte tr0).
  exists c. destruct (Z.eqb_spec c 105); [apply menu_choice; [done|apply aside_ports|lia..]|].
  destruct (Z.eqb_spec c 114) as [E|?].
  { apply gen_choice; [by rewrite E|auto with aside]. }
  destruct (Z.eqb_spec c 116) as [E|?].
  { apply gen_choice; [by rewrite E|auto with aside]. }
  destruct (Z.eqb_spec c 115); apply menu_choice; try done; [|apply aside_ret].
  unfold test_status, dump_counters.
  apply aside_bind; [apply aside_bind; [apply aside_status|auto with aside]|intros _].
  auto 20 with aside.
Qed.

Lemma menu_loop_ok n st tr :
  gen_ok tr →
  ∃ cs st' tr', menu_loop n st tr = Some (st', tr') ∧ gen_ok tr' ∧
    choices tr' = choices tr ++ cs ∧ length cs = n.
Proof.
  revert st tr. induction n as [|n IH]; intros st tr Hg.
  { exists [], st, tr. split; [done|]. split; [done|]. by rewrite app_nil_r. }
  cbn [menu_loop]. unfold fbind.
  destruct (menu_step_ok st tr Hg) as (c & st1 & tr1 & -> & Hg1 & Hc).
  destruct (IH st1 tr1 Hg1) as (cs & st' & tr' & -> & Hg' & Hc' & Hl).
  exists (c :: cs), st', tr'. split; [done|]. split; [done|].
  rewrite Hc', Hc, <- app_assoc. split; [done|]. simpl. by rewrite Hl.
Qed.

(** The firmware starts with the generators held and serves [n] choices. *)
Lemma fw_main_ok n uninit :
  ∃ st tr, fw_main n uninit [] = Some (st, tr) ∧ length (choices tr) = n ∧ gen_ok tr.
Proof.
  unfold fw_main, fbind at 1, femit at 1. unfold fbind at 1. rewrite gen_check_ok. set (tr0 := FOut32 _ _ :: _).
  assert (gen_ok tr0) as Hg.
  { split; cbn [tr0 last_out asked]; rewrite !Z.eqb_refl; [by destruct (_ =? _)|done]. }
  unfold fbind. destruct (aside_ports 4 0 (mkFw uninit (replicate 4 (-1))) tr0) as (st & es & -> & He).
  apply (aside_gen_ok es tr0 He) in Hg.
  destruct (menu_loop_ok n st _ Hg) as (cs & st' & tr' & -> & Hg' & Hc & Hl).
  exists st', tr'. split; [done|]. split; [|done]. rewrite Hc.
  destruct (aside_obs es tr0 He) as (_ & _ & ->). done.
Qed.

End Clock.
End Menu.
