(* ===== verification/Phy1g.v ===== *)
(** * The 1G variant of the PHY firmware

    [helloworld.c] of [loopback_test_1g] resets the four PHYs together and then selects
    the 1G mode of each, without looking at the modules. *)

From stdpp Require Import strings.
From S2P Require Import Prelude PhyTables Phy PhyMenu.

Module G1.
Section G1.
Context `{Board}.
Local Open Scope fw_scope.

Definition reset : list Z := [
  0x0000; 0xa040;
  0xc001; 0x0428;
  0xc017; 0xfeb0;
  0xc013; 0xf341;
  0xc210; 0x8000;
  0xc210; 0x8100;
  0xc210; 0x8000;
  0xc210; 0x0000 ].

Definition regs0 : list Z := [0xc220; 0x711C].

Definition regs1 : list Z := [0xc220; 0x744C].

Definition ael2005_sleep (ms : Z) : F Z :=
  t <- read_time ;;
  sleep_loop sleep_fuel (s32 t) (s32 t) (s32 (ms * 50000)) ;;
  fret XST_SUCCESS.

(** The register is read twice; the second value stays in [data]. *)
Definition ael2005_read (PhyAddr PhyDev address : Z) : F Z :=
  femit (FAddr PhyAddr PhyDev address) ;;
  mdio_read PhyAddr PhyDev ;;
  ael2005_sleep 20 ;;
  femit (FAddr PhyAddr PhyDev address) ;;
  data <- mdio_read PhyAddr PhyDev ;;
  ael2005_sleep 20 ;;
  fret data.

Definition ael2005_write (PhyAddr PhyDev address data : Z) : F Z :=
  femit (FAddr PhyAddr PhyDev address) ;;
  femit (FWrite PhyAddr PhyDev data) ;;
  ael2005_sleep 20 ;;
  fret XST_SUCCESS.

(** [for(dev = hi; dev >= 0; dev--) ael2005_write(InstancePtr, dev, 1, a, v);] *)
Fixpoint write_devs (devs : list Z) (a v : Z) : F unit :=
  match devs with
  | [] => fret tt
  | dev :: devs => ael2005_write dev 1 a v ;; write_devs devs a v
  end.

(** [for(i = 0; i < size; i+=2)] around it. *)
Fixpoint write_table (devs t : list Z) : F unit :=
  match t with
  | a :: v :: t => write_devs devs a v ;; write_table devs t
  | _ => fret tt
  end.

Definition ael2005_initialize : F Z :=
  print "AEL2005 Initialization Start..\r\n" ;;
  print "Step 1: Reset\r\n" ;;
  write_table [3; 2; 1; 0] reset ;;
  ael2005_sleep 200 ;;
  print "Step 2: Write magic registers\r\n" ;;
  write_table [2; 1; 0] regs0 ;;
  write_table [3] regs1 ;;
  ael2005_sleep 50 ;;
  fret XST_SUCCESS.

Definition test_initialize : F Z :=
  ael2005_sleep 1000 ;;
  ael2005_initialize ;;
  ael2005_sleep 2000 ;;
  fret XST_SUCCESS.

(** One iteration of [while(1)]; [value] is dead between iterations. *)
Definition menu_step : F unit :=
  print_menu ;;
  s <- fask b_inbyte FInbyte ;;
  if s =? 105 then test_initialize ;; fret tt
  else if s =? 114 then gen_check 0x1 ;; print "AXI4-Stream Gen/Check Stopped\r\n"
  else if s =? 116 then gen_check 0x0 ;; print "AXI4-Stream Gen/Check Started\r\n"
  else if s =? 115 then dump_counters ;; fret tt
  else fret tt.

Fixpoint menu_loop (n : nat) : F unit :=
  match n with
  | O => fret tt
  | S n => menu_step ;; menu_loop n
  end.

(** [main] up to the [n]-th choice. *)
Definition fw_main (n : nat) : F unit :=
  femit FInit ;;
  gen_check 0x1 ;;
  test_initialize ;;
  menu_loop n.

(** ** What the PHYs see *)

(** The 1G program of a PHY. *)
Definition phy_program_1g (phy : Z) : list (Z * option Z * Z) :=
  if (0 <=? phy) && (phy <=? 3) then
    table_writes reset ++ table_writes (if phy =? 3 then regs1 else regs0)
  else [].

Section Clock.
Context (d : Z) (Hclock : clock_ok d).

Lemma quiet_sleep_1g ms : 0 ≤ ms ≤ 2000 → quiet_fw (ael2005_sleep ms).
Proof. apply (quiet_sleep d Hclock). Qed.

Lemma ael2005_write_1g dev e a v :
  i2c_reg (Some a) = false →
  fwrites (ael2005_write dev e a v) (λ p, if dev =? p then [(e, Some a, v)] else []).
Proof.
  intros Ha. intros tr. unfold ael2005_write, fbind, femit.
  destruct (quiet_sleep_1g 20) with (tr := FWrite dev e v :: FAddr dev e a :: tr)
    as (r & tr' & E & Hs & Hw); [lia|].
  rewrite E. eexists _, _. split; [reflexivity|]. split.
  { etrans; [|exact Hs]. by do 2 apply suffix_cons_r. }
  intros phy. rewrite Hw, app_nil_r. cbn [phy_writes latch].
  rewrite !Z.eqb_refl. cbn [andb]. rewrite Ha, andb_true_r.
  destruct (dev =? phy); [done|by rewrite app_nil_r].
Qed.

Lemma write_devs_ok devs a v :
  NoDup devs → i2c_reg (Some a) = false →
  fwrites (write_devs devs a v) (λ p, if bool_decide (p ∈ devs) then [(1, Some a, v)] else []).
Proof.
  intros Hnd Ha. induction Hnd as [|dev devs Hni Hnd IH]; cbn [write_devs]; [apply quiet_ret|].
  eapply fwrites_eq; [apply fwrites_bind; [by apply ael2005_write_1g|intros _; exact IH]|].
  intros p. cbv beta. destruct (Z.eqb_spec dev p) as [->|Hne].
  - rewrite bool_decide_false, bool_decide_true by (done || set_solver). done.
  - cbn [app]. destruct (decide (p ∈ devs)) as [Hi|Hi].
    + by rewrite !bool_decide_true by set_solver.
    + by rewrite !bool_decide_false by set_solver.
Qed.

Lemma write_table_1g devs t :
  NoDup devs → no_i2c t = true →
  fwrites (write_table devs t) (λ p, if bool_decide (p ∈ devs) then table_writes t else []).
Proof.
  intros Hnd. revert t. fix IH 1. intros [|a [|v t]] Hn;
    [apply (fwrites_eq _ (λ _, [])); [apply quiet_ret|]; intros p; by case_bool_decide..|].
  unfold no_i2c in Hn. cbn [pairs forallb fst] in Hn. apply andb_true_iff in Hn as [Ha Hn].
  cbn [write_table].
  eapply fwrites_eq; [apply fwrites_bind; [apply write_devs_ok; [done|]|intros _; by apply IH]|].
  - by apply negb_true_iff.
  - intros p. cbv beta. by case_bool_decide.
Qed.

(** Each PHY is reset and put into its 1G mode, in this order. *)
Lemma test_initialize_1g : fwrites test_initialize phy_program_1g.
Proof.
  unfold test_initialize, ael2005_initialize.
  apply fwrites_quiet_l; [apply quiet_sleep_1g; lia|intros _].
  apply fwrites_quiet_r; [|intros _; apply quiet_bind;
    [apply quiet_sleep_1g; lia|intros _; apply quiet_ret]].
  do 2 (apply fwrites_quiet_l; [by apply quiet_emit|intros _]).
  eapply fwrites_eq.
  - apply fwrites_bind; [apply write_table_1g; [compute_done|done]|intros _].
    apply fwrites_quiet_l; [apply quiet_sleep_1g; lia|intros _].
    apply fwrites_quiet_l; [by apply quiet_emit|intros _].
    apply fwrites_bind; [apply write_table_1g; [compute_done|done]|intros _].
    apply fwrites_quiet_r; [apply write_table_1g; [compute_done|done]|intros _].
    apply quiet_bind; [apply quiet_sleep_1g; lia|intros _; apply quiet_ret].
  - intros p. cbv beta. unfold phy_program_1g.
    destruct (decide (p ∈ [3; 2; 1; 0])) as [Hi|Hi].
    + by repeat (apply elem_of_cons in Hi as [->|Hi]); [..|by apply elem_of_nil in Hi].
    + rewrite !bool_decide_false by (done || set_solver).
      destruct (Z.leb_spec 0 p), (Z.leb_spec p 3); try done.
      destruct Hi. assert (p = 0 ∨ p = 1 ∨ p = 2 ∨ p = 3) by lia. set_solver.
Qed.

(** ** The menu *)

Lemma aside_write_1g dev e a v : only_aside (ael2005_write dev e a v).
Proof.
  unfold ael2005_write. do 2 (apply aside_bind; [by apply aside_emit|intros _]).
  apply aside_bind; [apply (aside_sleep d Hclock); lia|intros _]. apply aside_ret.
Qed.

Lemma aside_devs_1g devs a v : only_aside (write_devs devs a v).
Proof. induction devs; cbn [write_devs]; auto using aside_ret, aside_bind, aside_write_1g. Qed.

Lemma aside_table_1g devs t : only_aside (write_table devs t).
Proof.
  revert t. fix IH 1. intros [|a [|v t]]; cbn [write_table];
    auto using aside_ret, aside_bind, aside_devs_1g.
Qed.

Lemma aside_initialize_1g : only_aside test_initialize.
Proof.
  assert (∀ ms, 0 ≤ ms ≤ 2000 → only_aside (ael2005_sleep ms)) as Hs by apply (aside_sleep d Hclock).
  unfold test_initialize, ael2005_initialize.
  repeat first [apply Hs; lia | apply aside_print | apply aside_table_1g | apply aside_ret
    | apply aside_bind; [|intros _] ].
Qed.

Lemma menu_step_1g tr :
  gen_ok tr →
  ∃ c u tr', menu_step tr = Some (u, tr') ∧ gen_ok tr' ∧ choices tr' = choices tr ++ [c].
Proof.
  intros Hg. unfold menu_step.
  assert (only_aside print_menu) as Hm.
  { unfold print_menu. auto 10 using aside_bind, aside_print. }
  unfold fbind at 1. destruct (Hm tr) as ([] & es & -> & He).
  apply (aside_gen_ok es tr He) in Hg. destruct (aside_obs es tr He) as (_ & _ & <-).
  set (tr0 := es ++ tr) in *. unfold fbind at 1, fask at 1. set (c := b_inbyte tr0). exists c.
  destruct (Z.eqb_spec c 105).
  { apply menu_choice; [done|auto using aside_bind, aside_initialize_1g, aside_ret|lia..]. }
  destruct (Z.eqb_spec c 114) as [E|?]; [apply gen_choice; [by rewrite E|apply aside_print]|].
  destruct (Z.eqb_spec c 116) as [E|?]; [apply gen_choice; [by rewrite E|apply aside_print]|].
  destruct (Z.eqb_spec c 115); apply menu_choice; try done; [|apply aside_ret].
  unfold dump_counters.
  auto 20 using aside_bind, aside_ret, aside_in32, aside_printf.
Qed.

Lemma menu_loop_1g n tr :
  gen_ok tr →
  ∃ cs u tr', menu_loop n tr = Some (u, tr') ∧ gen_ok tr' ∧
    choices tr' = choices tr ++ cs ∧ length cs = n.
Proof.
  revert tr. induction n as [|n IH]; intros tr Hg.
  { exists [], tt, tr. split; [done|]. split; [done|]. by rewrite app_nil_r. }
  cbn [menu_loop]. unfold fbind.
  destruct (menu_step_1g tr Hg) as (c & u & tr1 & -> & Hg1 & Hc).
  destruct (IH tr1 Hg1) as (cs & u' & tr' & -> & Hg' & Hc' & Hl).
  exists (c :: cs), u', tr'. split; [done|]. split; [done|].
  rewrite Hc', Hc, <- app_assoc. split; [done|]. simpl. by rewrite Hl.
Qed.

(** [main]: every PHY is in its 1G mode before the first choice, and [n] choices are
    served. *)
Lemma fw_main_1g n :
  ∃ u tr0 tr, fw_main n [] = Some (u, tr) ∧ menu_loop n tr0 = Some (u, tr) ∧
    (∀ phy, phy_writes phy tr0 = phy_program_1g phy) ∧ length (choices tr) = n ∧ gen_ok tr.
Proof.
  unfold fw_main, fbind at 1, femit at 1. unfold fbind at 1. rewrite gen_check_ok.
  set (t0 := FOut32 _ _ :: _). assert (gen_ok t0) as Hg.
  { split; cbn [t0 last_out asked]; rewrite !Z.eqb_refl; [by destruct (_ =? _)|done]. }
  unfold fbind. destruct (aside_initialize_1g t0) as (r & es & E & He).
  destruct (test_initialize_1g t0) as (r' & t1 & E' & _ & Hw). rewrite E in E'.
  injection E' as <- <-. rewrite E. apply (aside_gen_ok es t0 He) in Hg.
  destruct (menu_loop_1g n _ Hg) as (cs & u & tr' & Hm & Hg' & Hc & Hl). rewrite Hm.
  exists u, (es ++ t0), tr'. split; [done|]. split; [done|]. split; [exact Hw|].
  split; [|done]. rewrite Hc. destruct (aside_obs es t0 He) as (_ & _ & ->). done.
Qed.

End Clock.
End G1.
End G1.
