(* ===== verification/Demo.v ===== *)
(** * A concrete kernel, device and user

    Instances of the classes [Kernel] and [Libnl] in which every call
    succeeds, and small states of the driver.  They show that the hypotheses
    of the theorems can hold together, and let the definitions be run. *)

From S2P Require Import Prelude Mem Occp Opcode Kernel Packet Stream Xmit Poll Ring Ghost Genl.
From S2P Require Import Probe Hw Module Regs DmaCmd Timer Netlink Recv UserLib Text DriverCtrl.
From S2P Require Import EndToEnd.

(** ** The kernel *)

Definition demo_bar : Z := 0x10000000.
Definition demo_page : Z := demo_bar + occp_worker_off WORKER_NF10 + offsetof W_pageWindow OccpWorkerRegisters.
Definition demo_window : Z := config_addr demo_bar WORKER_NF10.

(** A paged register file behind the window; every other register reads as
    the number that a worker returns for success. *)
Definition demo_mmio (tr : list event) (a : Z) : Z :=
  if (demo_window <=? a) && (a <? demo_window + OCCP_WORKER_CONFIG_SIZE) then
    default 0 (page ← page_of demo_page tr; last_write demo_page a page tr)
  else OCCP_SUCCESS_RESULT.

Fixpoint dma_allocs (tr : list event) : Z :=
  match tr with
  | [] => 0
  | EvDmaAlloc _ _ _ :: tr => 1 + dma_allocs tr
  | _ :: tr => dma_allocs tr
  end.

Definition max_list (l : list Z) : Z := foldr Z.max 0 l.

(** The address after all the interfaces that are live. *)
Definition demo_netdev (tr : list event) : Z := 1 + max_list (netdev_live tr).

Definition demo_ether (d : net_device) : net_device :=
  set_dev_addr (replicate 32 0) (set_addr_len 6 (set_hard_header_len 14 d)).

Definition demo (ghost : bool) : Kernel := {|
  DRIVER_GHOST := ghost;
  DRIVER_LOOPB := false;
  k_jiffies := λ tr, Z.of_nat (length tr);
  k_HZ := 250;
  k_mmio := demo_mmio;
  k_kmalloc := λ _ _, 0x20000000;
  k_dma_alloc := λ tr _, (0x20000000 + 0x8000000 * dma_allocs tr,
                          0x40000000 + 0x8000000 * dma_allocs tr);
  k_alloc_netdev := demo_netdev;
  k_dev_alloc_skb := λ _ _, true;
  k_pci_enable_device := λ _, 0;
  k_pci_request_region := λ _, 0;
  k_pci_ioremap_bar := λ _, demo_bar;
  k_pci_resource_len := 2 ^ 24;
  k_dma_set_mask := λ _, 0;
  k_dma_set_coherent_mask := λ _, 0;
  k_pci_register_driver := λ _, 0;
  k_pci_device_present := λ _, true;
  k_register_netdev := λ _, 0;
  k_ether_setup := demo_ether;
  k_eth_type_trans := λ bs, htons (256 * znth bs 12 + znth bs 13);
  k_ip_fast_csum := λ _ _, 0;
  k_is_valid_ether_addr := λ a, Z.even (znth a 0);
  k_genl_register_family := λ _, 0;
  k_genl_unregister_family := λ _, 0;
  k_genl_register_ops := λ _ _, 0;
  k_genlmsg_new := λ _, true;
  k_genlmsg_put_reply := λ _, true;
  k_nla_put := λ _ _ _, 0;
  k_genlmsg_reply := λ _, 0;
|}.

Lemma max_list_ge l x : x ∈ l → x ≤ max_list l.
Proof.
  induction l as [|y l IH]; intros Hx; [by apply elem_of_nil in Hx|]. simpl.
  apply elem_of_cons in Hx as [->|Hx]; [lia|]. specialize (IH Hx). lia.
Qed.

Lemma max_list_nonneg l : 0 ≤ max_list l.
Proof. induction l; simpl; lia. Qed.

Lemma demo_alloc_fresh g : @alloc_fresh (demo g).
Proof.
  intros tr. right. simpl. unfold demo_netdev. intros Hin. apply max_list_ge in Hin. lia.
Qed.

Lemma demo_ether_ok g : @ether_setup_ok (demo g).
Proof. by split. Qed.

Lemma demo_services_ok g : @services_ok (demo g).
Proof.
  split; simpl; try done. intros tr. unfold demo_netdev.
  pose proof (max_list_nonneg (netdev_live tr)). lia.
Qed.

Lemma demo_reply_ok g : @reply_ok (demo g).
Proof. done. Qed.

(** ** A driver with two buffers in each direction and nothing in them *)

Definition blank_stats : net_device_stats := mkStats 0 0 0 0 0 0.

Definition demo_netdevs : gmap Z net_device :=
  list_to_map (map (λ p, (p, mkNetDevice (init_mac_addr 6 p ++ replicate 26 0) 6 14 0 0 true true 0
                               blank_stats)) [1; 2; 3; 4]).

(** Fresh memory reads as 1 in the TX region, where a flag that is not zero
    means free, and as 0 in the RX region, where it means empty. *)
Definition demo_ram : mem :=
  mkMem (λ a, if a <? 0x20000 then 1 else 0) ∅ [(0x10000, 4136); (0x20000, 4136)].

Definition demo_tx : dma_stream := stream_pointers 0x10000 2 (demo_bar + 0x100000).
Definition demo_rx : dma_stream := stream_pointers 0x20000 2 (demo_bar + 0x200000).

Definition demo_drv : drv :=
  mkDrv [1; 2; 3; 4] demo_netdevs demo_bar (2 ^ 24) 0x10000 0x40000000 0x20000 0x48000000
    demo_tx demo_rx 2 (region_size 2) 0 demo_window (demo_bar + occp_worker_off WORKER_NF10)
    (Z.lor HW_FOUND HW_INIT) demo_ram [(demo_bar, 2 ^ 24)] true [].

Lemma demo_stream_wf va door :
  va = 0x10000 ∨ va = 0x20000 → stream_wf demo_ram 2 (stream_pointers va 2 door).
Proof.
  intros Hva. split.
  - unfold DMA_CPU_BUFS. lia.
  - simpl. lia.
  - destruct Hva as [->| ->]; reflexivity.
  - destruct Hva as [->| ->]; reflexivity.
  - simpl. rewrite !elem_of_cons. destruct Hva as [->| ->]; auto.
Qed.

Lemma demo_device_up : device_up demo_drv.
Proof.
  split; try reflexivity.
  - exists 1%nat. split; [lia|reflexivity].
  - apply demo_stream_wf. auto.
  - apply demo_stream_wf. auto.
  - exists demo_bar. split; [|split; reflexivity]. exists (2 ^ 24).
    split; [simpl; apply list_elem_of_here|]. rewrite sizeof_OccpSpace_val. lia.
Qed.

Lemma demo_flags_initial : flags_initial demo_drv.
Proof.
  intros j Hj. assert (j = 0 ∨ j = 1) as [->| ->] by (simpl in Hj; lia);
    (split; [by vm_compute|by vm_compute]).
Qed.

Lemma demo_disjoint :
  disjoint_streams (dma_cpu_bufs demo_drv) (tx_dma_stream demo_drv) (rx_dma_stream demo_drv).
Proof. left. vm_compute. done. Qed.

Lemma demo_netdevs_wf : netdevs_wf demo_drv.
Proof.
  split; [done| |].
  - apply (bool_decide_unpack _). by vm_compute.
  - intros p Hp. simpl in Hp. rewrite !elem_of_cons in Hp.
    destruct Hp as [->|[->|[->|[->|Hp]]]]; [vm_compute; by eexists..|]. by apply elem_of_nil in Hp.
Qed.

Definition demo_sys : system := mkSys demo_drv 0 0.

Lemma demo_hw_rel : hw_rel demo_sys (hw_idle []).
Proof.
  apply (device_up_rel demo_drv);
    auto using demo_device_up, demo_flags_initial, demo_disjoint, demo_netdevs_wf.
Qed.

(** A packet of forty bytes. *)
Definition demo_skb : sk_buff := mkSkb [] (replicate 40 7) 40.

Lemma demo_frame : skb_frame demo_skb.
Proof.
  split; [cbn; lia|]. split; [vm_compute; discriminate|]. split; [vm_compute; discriminate|].
  split; [by apply Forall_replicate|done].
Qed.

Lemma demo_paged : @paged_device (demo false) (page_addr demo_drv) (nf10_regs demo_drv).
Proof.
  intros tr off page v Hoff Hp Hl. simpl k_mmio. unfold demo_mmio.
  change (nf10_regs demo_drv) with demo_window in *. change (page_addr demo_drv) with demo_page in *.
  decide_test (demo_window <=? demo_window + off) true.
  decide_test (demo_window + off <? demo_window + OCCP_WORKER_CONFIG_SIZE) true.
  cbn [andb]. rewrite Hp. cbn. by rewrite Hl.
Qed.

Lemma demo_window_ok : window_ok demo_drv.
Proof. apply device_up_window, demo_device_up. Qed.

(** A packet for the second interface in the first RX slot. *)
Definition demo_arrived : drv :=
  set_ram (mput demo_ram demo_rx 0 (replicate 40 9) (rx_set_dst_iface 0 1) 1) demo_drv.

Lemma demo_arrived_rel :
  hw_rel (mkSys demo_arrived 0 1)
    (mkHw [] [] [] [(replicate 40 9, 8)] [(replicate 40 9, 8)] []).
Proof.
  destruct (@hw_arrive demo_drv 0 0 (hw_idle []) (replicate 40 9) 8) as [_ Hr];
    [apply demo_hw_rel|by vm_compute..|lia|exact Hr].
Qed.

(** ** A ghost driver: the two streams share one region *)

Definition demo_ghost : drv :=
  mkDrv [1; 2; 3; 4] demo_netdevs 0 0 0 0 0x20000 0 (stream_pointers 0x20000 2 0)
    (stream_pointers 0x20000 2 0) 2 (region_size 2) 0 0 0 0 demo_ram [] false [].

Lemma demo_ghost_rel : ghost_rel demo_ghost (mkWire [] []).
Proof.
  split; try done.
  - apply ring_empty; [apply demo_stream_wf; auto|]. intros j Hj.
    assert (j = 0 ∨ j = 1) as [->| ->] by (simpl in Hj; lia); by vm_compute.
  - destruct demo_netdevs_wf. by split.
  - intros j Hj. left. assert (j = 0 ∨ j = 1) as [->| ->] by (simpl in Hj; lia); by vm_compute.
Qed.

(** The same driver before [enable_ghosting]. *)
Definition demo_unloaded : drv :=
  mkDrv [0; 0; 0; 0] ∅ 0 0 0 0 0 0 (mkStream 0 0 0 0 0) (mkStream 0 0 0 0 0) DMA_CPU_BUFS 0 0 0 0 0
    (mkMem (λ _, 0) ∅ []) [] false [].

(** ** A socket over the driver *)

(** Generic netlink hands the attributes of a request to the handler. *)
Definition demo_deliver (bytes : list Z) : genl_info := λ ty,
  t ← parse_attrs bytes;
  off ← t ty;
  len ← Nl.nla_len bytes off;
  Some (mkAttr (Some (attr_bytes bytes off)) len).

Lemma demo_delivers : delivers demo_deliver.
Proof.
  intros pid seq family flags cmd version l Hok Hl ty Hty.
  destruct (wire_attrs pid seq family flags cmd version l Hok Hl) as (t & Hp & Ht).
  specialize (Ht ty ltac:(lia)). unfold need_attr, demo_deliver. rewrite Hp. cbn.
  destruct (Nl.find_attr ty l) as [bs|]; [|by rewrite Ht].
  destruct Ht as (off & -> & Hat). pose proof Hat as (_ & Hlen & _).
  destruct (attr_bytes_ok _ _ _ Hat) as [rest E]. exists rest. cbn. rewrite Hlen. cbn.
  by rewrite E.
Qed.

Fixpoint find_op `{Kernel} (cmd : Z) (ops : list (Z * (option genl_info → M Z)))
    : option (option genl_info → M Z) :=
  match ops with
  | [] => None
  | o :: ops => if o.1 =? cmd then Some o.2 else find_op cmd ops
  end.

(** The reply of the driver in state [s] to the request [bytes]. *)
Definition demo_serve `{Kernel} (s : drv) (bytes : list Z) : list datagram :=
  match
    cmd ← bytes !! 16%nat;
    h ← find_op cmd genl_all_ops;
    match h (Some (demo_deliver bytes)) s with
    | Ok _ s' => a ← last_reply s'; Some (wire_msg 0 7 20 0 cmd 1 a)
    | _ => None
    end
  with Some d => [Datagram d] | None => [] end.

Definition demo_libnl `{Kernel} (s : drv) : Libnl := {|
  l_socket_alloc := λ _, true;
  l_genl_connect := λ _, 0;
  l_genl_ctrl_resolve := λ _, 20;
  l_nlmsg_alloc := λ _, true;
  l_pagesize := 4096;
  l_pid := 1;
  l_seq_next := λ _, 7;
  l_seq_expect := λ _, 7;
  l_send := λ _ bs, zlen bs;
  l_copied := λ _ _, true;
  l_recv := λ tr, match tr with UMsgFree :: USend bytes _ :: _ => demo_serve s bytes | _ => [] end;
|}.

Section Sockets.
Context `{Kernel} (s : drv).

Lemma demo_socket_ok : @socket_ok (demo_libnl s) 20.
Proof. split; simpl; try done. intros _ bs. apply zlen_nonneg. Qed.

Lemma demo_served h cmd l tr :
  find_op (u8 cmd) genl_all_ops = Some h →
  let bytes := @request_bytes (demo_libnl s) 20 cmd l tr in
  @served (demo_libnl s) demo_deliver h s bytes (@asked (demo_libnl s) 20 bytes tr).
Proof.
  intros Hh bytes s' a Hrun Hlast. exists 0, 20, (u8 cmd), 1, []. split; [done|].
  simpl l_recv. unfold demo_serve.
  replace (bytes !! 16%nat) with (Some (u8 cmd)) by done.
  rewrite !Nl.some_bind, Hh, Nl.some_bind, Hrun, Hlast. done.
Qed.

End Sockets.
