(* ===== verification/NicCorrect.v ===== *)
(** * Correctness of the network driver

    The theorems about [nf10_eth_driver_main.c]: loading and unloading, the
    packet path with a device and in ghosting mode, the polling timer, the
    register commands, and the DMA commands.  Each is followed by an instance
    at the concrete kernel and driver of [Demo]. *)

From S2P Require Import Prelude Mem Occp Opcode Kernel Packet Stream Xmit Poll Ring Ghost Genl.
From S2P Require Import Probe Hw Module Regs DmaCmd Timer Demo.

(** ** The packet path with a device *)

(** C1 Every run of the driver's transmit and poll handlers, interleaved in any
    order with the device taking packets from the TX ring and putting packets
    in the RX ring, is a run of two bounded queues: what interfaces sent is,
    in order, what the device took followed by what is queued, and what
    was handed to the network stack is, in order, what arrived for the four
    interfaces and was polled, each packet on its own interface, less the packets for
    which [dev_alloc_skb] failed, which was asked once for each of them. *)
Theorem nic_delivers_in_order `{Kernel} s ls y' :
  DRIVER_GHOST = false → device_up s → flags_initial s →
  disjoint_streams (dma_cpu_bufs s) (tx_dma_stream s) (rx_dma_stream s) → netdevs_wf s →
  received (trace s) = [] →
  hw_run (mkSys s (buf_index (tx_dma_stream s)) (buf_index (rx_dma_stream s))) ls y' →
  ∃ w', spec_run (dma_cpu_bufs s) (nf10_netdevs s) (hw_idle []) ls w' ∧ hw_rel y' w' ∧
    tx_accepted w' = tx_taken w' ++ tx_queue w' ∧
    ∃ polled, rx_arrived w' = polled ++ rx_queue w' ∧
      let wanted := map (deliver (nf10_netdevs s)) (filter (λ p, has_iface p = true) polled) in
      length (answers ls) = length wanted ∧
      received (trace (sys_drv y')) = granted (answers ls) wanted.
Proof.
  intros Hng Hup Hfl Hd Hnd Hrec Hrun.
  pose proof (device_up_rel s Hup Hfl Hd Hnd) as Hrel. rewrite Hrec in Hrel.
  destruct (hw_run_simulated Hng _ _ _ _ Hrel Hrun) as (w' & Hspec & Hrel').
  exists w'. split; [done|]. split; [done|].
  destruct (spec_run_fifo _ _ _ _ _ Hspec []) as (Htx & polled & Hrx & Hl & Hout);
    [by split; [|exists []]|].
  split; [done|]. exists polled. rewrite rx_targets in Hl, Hout. cbv zeta.
  rewrite (hr_out _ _ Hrel'). done.
Qed.

(** What a step leaves behind. *)
Definition after {A} (o : outcome A) (s : drv) : drv := match o with Ok _ s' => s' | _ => s end.

(** The first interface sends a packet and NAPI polls. *)
Definition demo_sent : drv := after (@nf10_ndo_start_xmit (demo false) demo_skb 1 demo_drv) demo_drv.
Definition demo_polled : drv := after (@nf10_napi_struct_poll (demo false) 64 demo_sent) demo_sent.

Lemma demo_skb_ok : @skb_ok (demo false) 0 demo_skb.
Proof. split; [lia|]. split; [cbn [skb_len demo_skb]; lia|]. by eexists. Qed.

Lemma nic_delivers_in_order_witness :
  ∃ w', @spec_run (demo false) 2 [1; 2; 3; 4] (hw_idle []) [LXmit 0 demo_skb; LPoll 64 []] w' ∧
    hw_rel (mkSys demo_polled 0 0) w' ∧
    tx_accepted w' = tx_taken w' ++ tx_queue w' ∧
    ∃ polled, rx_arrived w' = polled ++ rx_queue w' ∧
      let wanted := map (deliver [1; 2; 3; 4]) (filter (λ p, has_iface p = true) polled) in
      length (answers [LXmit 0 demo_skb; LPoll 64 []]) = length wanted ∧
      received (trace demo_polled) = granted (answers [LXmit 0 demo_skb; LPoll 64 []]) wanted.
Proof.
  apply (@nic_delivers_in_order (demo false) demo_drv [LXmit 0 demo_skb; LPoll 64 []]
    (mkSys demo_polled 0 0)); try done;
    auto using demo_device_up, demo_flags_initial, demo_disjoint, demo_netdevs_wf.
  eapply RunCons; [|eapply RunCons; [|apply RunNil]].
  - apply (@StepXmit (demo false) demo_drv 0 0 0 1 demo_skb 0 demo_sent);
      [apply demo_skb_ok|by split|].
    vm_compute. reflexivity.
  - apply (@StepPoll (demo false) demo_sent 0 0 64 [] 0 demo_polled); vm_compute; reflexivity.
Defined.

(** C2 Sending never faults and never asks the stack to retry: a packet of a legal
    size joins the TX queue when the ring has a free slot, with the
    opcode of its interface; any other packet is dropped and the queues stay
    as they are. *)
Theorem nic_transmit `{Kernel} s dt dr w i p skb :
  DRIVER_GHOST = false → hw_rel (mkSys s dt dr) w → skb_ok i skb → iface_of s i p →
  ∃ s', nf10_ndo_start_xmit skb p s = Ok NETDEV_TX_OK s' ∧
    hw_rel (mkSys s' dt dr) (spec_xmit (dma_cpu_bufs s) i skb w).
Proof.
  intros Hng Hrel Hok Hi. destruct (hw_xmit Hng s dt dr w i p skb Hrel Hok Hi) as (s' & ? & ? & _).
  eauto.
Qed.

Lemma nic_transmit_witness :
  ∃ s', @nf10_ndo_start_xmit (demo false) demo_skb 1 demo_drv = Ok NETDEV_TX_OK s' ∧
    hw_rel (mkSys s' 0 0) (@spec_xmit (demo false) 2 0 demo_skb (hw_idle [])).
Proof.
  apply (@nic_transmit (demo false) demo_drv 0 0 (hw_idle []) 0 1 demo_skb);
    [done|apply demo_hw_rel|apply demo_skb_ok|by split].
Defined.

(** C3 A poll never faults or loops for ever, whatever [dev_alloc_skb] answers: it takes packets
    off the front of the ring, drops those for no interface and those for which
    there is no memory without counting them, delivers the others in order up to
    its budget, and leaves the rest in the ring. *)
Theorem nic_poll `{Kernel} s dt dr w budget :
  DRIVER_GHOST = false → hw_rel (mkSys s dt dr) w →
  ∃ r s' ans out rest, nf10_napi_struct_poll budget s = Ok r s' ∧
    skb_answers (trace s') = skb_answers (trace s) ++ ans ∧
    polls (rx_target (nf10_netdevs s)) budget (rx_queue w) ans out rest ∧
    hw_rel (mkSys s' dt dr)
      (mkHw (tx_accepted w) (tx_taken w) (tx_queue w) (rx_arrived w) rest (rx_out w ++ out)).
Proof.
  intros Hng Hrel.
  destruct (hw_poll Hng s dt dr w budget Hrel) as (r & s' & ans & out & rest & ? & ? & ? & ? & _).
  by exists r, s', ans, out, rest.
Qed.

Lemma nic_poll_witness :
  ∃ r s' ans out rest, @nf10_napi_struct_poll (demo false) 64 demo_arrived = Ok r s' ∧
    skb_answers (trace s') = ans ∧
    polls (rx_target [1; 2; 3; 4]) 64 [(replicate 40 9, 8)] ans out rest ∧
    hw_rel (mkSys s' 0 1) (mkHw [] [] [] [(replicate 40 9, 8)] rest out).
Proof.
  apply (@nic_poll (demo false) demo_arrived 0 1 _ 64 eq_refl demo_arrived_rel).
Defined.

(** ** Attaching and detaching the device *)

(** C4 Probing never faults, whatever the kernel and the device answer.  When it
    attaches the device, the driver is in a state from which the packet path
    works, and holds the PCI device, its region, its mapping and
    two DMA regions; in every other case it holds nothing more than
    before and the device is not marked as initialised. *)
Theorem probe_attaches_or_releases `{Kernel} s :
  ∃ r s', probe s = Ok r s' ∧
    ((r = 0 ∧ device_up s' ∧
      (disjoint_streams (dma_cpu_bufs s') (tx_dma_stream s') (rx_dma_stream s') →
       flags_initial s') ∧
      ∀ k, balance k (trace s') = balance k (trace s) + held k) ∨
     (hw_state s' = Z.lor (hw_state s) HW_FOUND ∧
      (r ≠ 0 ∨ tx_dma_reg_va s' = 0 ∨ rx_dma_reg_va s' = 0) ∧
      ∀ k, balance k (trace s') = balance k (trace s))).
Proof.
  destruct (twp_run _ _ _ (probe_twp s)) as (r & s' & Hrun & Hpost). exists r, s'.
  split; [done|]. destruct Hpost as [(-> & Hup & Hfl & _ & _ & Hb)|(Hhw & Hr & Hb)];
    [left; by split|right; split; [done|]; split; [|done]]. destruct Hr as [?|[_ ?]]; auto.
Qed.

(** Removing the device never faults and releases what a running device holds. *)
Theorem remove_releases `{Kernel} s :
  ∃ s', remove s = Ok tt s' ∧ ∀ r, balance r (trace s') = balance r (trace s) - held r.
Proof.
  destruct (twp_run _ _ _ (remove_twp s)) as ([] & s' & Hrun & Hpost). eauto.
Qed.

(** C5 The addresses that the driver programs into a DMA worker are those of the
    driver's own pointers: for every slot of a region below 4 GB, buffer, metadata and
    flag are at the same offset from the region's start on both sides. *)
Theorem worker_layout_agrees n pa va door dir j :
  1 ≤ n ≤ DMA_CPU_BUFS → 0 ≤ pa → pa + region_size n ≤ 2 ^ 32 → 0 ≤ j < n →
  let st := stream_pointers va n door in
  let cfg f := prop_val f (dp_config n pa dir) in
  cfg P_nRemoteBuffers = n ∧
  cfg P_remoteBufferBase + j * cfg P_remoteBufferSize = pa + (buf_addr st j - va) ∧
  cfg P_remoteMetadataBase + j * cfg P_remoteMetadataSize
    = pa + (meta_addr st j MD_length - va) ∧
  cfg P_remoteFlagBase + j * cfg P_remoteFlagPitch = pa + (flag_addr st j - va).
Proof. apply dp_config_layout. Qed.

Lemma worker_layout_agrees_witness :
  let st := stream_pointers 0x10000 2 0 in
  let cfg f := prop_val f (dp_config 2 0x40000000 0) in
  cfg P_nRemoteBuffers = 2 ∧
  cfg P_remoteBufferBase + 1 * cfg P_remoteBufferSize
    = 0x40000000 + (buf_addr st 1 - 0x10000) ∧
  cfg P_remoteMetadataBase + 1 * cfg P_remoteMetadataSize
    = 0x40000000 + (meta_addr st 1 MD_length - 0x10000) ∧
  cfg P_remoteFlagBase + 1 * cfg P_remoteFlagPitch = 0x40000000 + (flag_addr st 1 - 0x10000).
Proof.
  apply (worker_layout_agrees 2 0x40000000 0x10000 0 0 1);
    [unfold DMA_CPU_BUFS; lia|lia|vm_compute; discriminate|lia].
Defined.

(** ** Loading and unloading the module *)

(** C6 Loading, if [alloc_netdev] gives new interfaces that [ether_setup] has set up and the
    netlink family can be unregistered, ends in one of four ways.  An error, that of the allocation or registration
    that was refused, with every network interface, the NAPI structure, the netlink family and the
    /proc entry released (and the PCI driver unregistered once more than it was registered).
    The result 0 and a module that holds them all.  An error of the last step, [pci_register_driver]
    or, in ghosting mode, the allocation of the rings, with all but the PCI driver still held.
    Or, only if the kernel refused to register an interface, a read past the end of the table of
    interfaces. *)
Theorem init_unwinds_or_loads `{Kernel} s :
  alloc_fresh → (∀ tr, k_genl_unregister_family tr = 0) → ether_setup_ok → ptrs4 s →
  match nf10_eth_driver_init s with
  | Ok r s' =>
      (load_error r ∧
       ∀ k, mbalance k (trace s') = mbalance k (trace s) - (if k is MPciDriver then 1 else 0)) ∨
      (r = 0 ∧ ∀ k, mbalance k (trace s') = mbalance k (trace s) + mheld k) ∨
      (start_error r s' ∧
       ∀ k, mbalance k (trace s') = mbalance k (trace s) + (if k is MPciDriver then 0 else mheld k))
  | Fault => ∃ tr, k_register_netdev tr ≠ 0
  | OutOfFuel => False
  end.
Proof.
  intros Hf Hu He Hp. pose proof (init_cases Hf Hu He s Hp) as Hout.
  destruct (nf10_eth_driver_init s) as [r s'| |]; [|done..].
  destruct Hout as [Hun|[ [->|Hr] Hb] ]; [by left|right..]; [left|right]; (split; [done|]);
    intros k; rewrite Hb; destruct k; try done.
  destruct Hr as [Hne _]. by rewrite (proj2 (Z.eqb_neq _ _) Hne).
Qed.

Lemma init_unwinds_or_loads_witness :
  match @nf10_eth_driver_init (demo true) demo_unloaded with
  | Ok r s' =>
      (@load_error (demo true) r ∧
       ∀ k, mbalance k (trace s') = mbalance k (trace demo_unloaded) - (if k is MPciDriver then 1 else 0)) ∨
      (r = 0 ∧ ∀ k, mbalance k (trace s') = mbalance k (trace demo_unloaded) + @mheld (demo true) k) ∨
      (@start_error (demo true) r s' ∧
       ∀ k, mbalance k (trace s')
            = mbalance k (trace demo_unloaded) + (if k is MPciDriver then 0 else @mheld (demo true) k))
  | Fault => ∃ tr, @k_register_netdev (demo true) tr ≠ 0
  | OutOfFuel => False
  end.
Proof.
  apply (@init_unwinds_or_loads (demo true) demo_unloaded);
    [apply demo_alloc_fresh|done|apply demo_ether_ok|done].
Defined.

(** Unloading never faults, given its four interfaces, and releases what a loaded module holds. *)
Theorem exit_releases `{Kernel} s :
  (∀ tr, k_genl_unregister_family tr = 0) → ptrs4 s →
  ∃ s', nf10_eth_driver_exit s = Ok tt s' ∧
    ∀ r, mbalance r (trace s') = mbalance r (trace s) - mheld r.
Proof.
  intros Hu Hp. destruct (twp_run _ _ _ (exit_twp Hu s Hp)) as ([] & s' & Hrun & Hpost). eauto.
Qed.

Lemma exit_releases_witness :
  ∃ s', @nf10_eth_driver_exit (demo false) demo_drv = Ok tt s' ∧
    ∀ r, mbalance r (trace s') = mbalance r (trace demo_drv) - @mheld (demo false) r.
Proof. apply (@exit_releases (demo false) demo_drv); done. Defined.

(** C15 With a device present and a kernel that grants every service, loading returns 0 and
    leaves four different interfaces with the addresses 00:4E:46:30:00:00 to 00:4E:46:33:00:00,
    whether or not probing the device succeeded; if it did, the device is bound and up, and the
    packet path can start; if not, the device is marked as found and not as initialised. *)
Theorem load_reaches_device `{Kernel} s :
  alloc_fresh → ether_setup_ok → services_ok → DRIVER_GHOST = false → ptrs4 s →
  (∀ tr, k_pci_register_driver tr = 0) → (∀ tr, k_pci_device_present tr = true) →
  ∃ s', nf10_eth_driver_init s = Ok 0 s' ∧ named s' ∧ netdevs_wf s' ∧
    ((pci_bound s' = true ∧ device_up s' ∧
      (disjoint_streams (dma_cpu_bufs s') (tx_dma_stream s') (rx_dma_stream s') →
       flags_initial s'))
     ∨ hw_state s' = Z.lor (hw_state s) HW_FOUND).
Proof. intros Hf He Hok. apply (init_hw Hf He Hok). Qed.

Lemma load_reaches_device_witness :
  ∃ s', @nf10_eth_driver_init (demo false) demo_unloaded = Ok 0 s' ∧ named s' ∧ netdevs_wf s' ∧
    ((pci_bound s' = true ∧ device_up s' ∧
      (disjoint_streams (dma_cpu_bufs s') (tx_dma_stream s') (rx_dma_stream s') →
       flags_initial s'))
     ∨ hw_state s' = Z.lor (hw_state demo_unloaded) HW_FOUND).
Proof.
  apply (@load_reaches_device (demo false) demo_unloaded (demo_alloc_fresh _) (demo_ether_ok _)
    (demo_services_ok _)); done.
Defined.

(** ** Ghosting *)

(** C11 In ghosting mode any sequence of sends, of frames whose headers are in the buffer, and
    polls runs without a fault and does what a wire between interfaces 0 and 1 and between 2 and 3
    does: a frame of at most one buffer is queued when there is room, with the low bit of the
    third octet of both IPv4 addresses flipped and a new header checksum, and a poll delivers
    frames in order, each to the peer of its sender, less those for which [dev_alloc_skb] failed. *)
Theorem ghost_is_a_wire `{Kernel} os s w :
  DRIVER_GHOST = true → ghost_rel s w → Forall op_ok os →
  ∃ s' ans w', run_ops os s = Ok tt s' ∧ skb_answers (trace s') = skb_answers (trace s) ++ ans ∧
    wire_run (dma_cpu_bufs s) (nf10_netdevs s) w os ans w' ∧ ghost_rel s' w'.
Proof. intros Hg. by apply run_ops_refines. Qed.

Lemma ghost_is_a_wire_witness :
  ∃ s' ans w', @run_ops (demo true) [GXmit 0 demo_skb; GXmit 2 demo_skb; GPoll 1] demo_ghost = Ok tt s' ∧
    skb_answers (trace s') = ans ∧
    @wire_run (demo true) 2 [1; 2; 3; 4] (mkWire [] []) [GXmit 0 demo_skb; GXmit 2 demo_skb; GPoll 1]
      ans w' ∧ ghost_rel s' w'.
Proof.
  apply (@ghost_is_a_wire (demo true) _ demo_ghost (mkWire [] []) eq_refl demo_ghost_rel).
  repeat apply Forall_cons; [..|apply Forall_nil]; cbn [op_ok]; [split; [lia|apply demo_frame]..|lia].
Defined.

(** Loading with [DRIVER_GHOST] either fails for want of memory or ends with an empty wire. *)
Theorem ghost_load `{Kernel} s :
  alloc_fresh → ether_setup_ok → services_ok → DRIVER_GHOST = true → ptrs4 s →
  ∃ r s', nf10_eth_driver_init s = Ok r s' ∧ named s' ∧
    ((r = -1 ∧ rx_dma_reg_va s' = 0) ∨ (r = 0 ∧ ∃ out, ghost_rel s' (mkWire [] out))).
Proof. intros Hf He Hok Hg. by apply (init_ghost Hf He Hok). Qed.

Lemma ghost_load_witness :
  ∃ r s', @nf10_eth_driver_init (demo true) demo_unloaded = Ok r s' ∧ named s' ∧
    ((r = -1 ∧ rx_dma_reg_va s' = 0) ∨ (r = 0 ∧ ∃ out, ghost_rel s' (mkWire [] out))).
Proof.
  apply (@ghost_load (demo true) demo_unloaded (demo_alloc_fresh _) (demo_ether_ok _)
    (demo_services_ok _)); done.
Defined.
