(* ===== verification/CommandCorrect.v ===== *)
(** * Correctness of the polling timer, the netlink commands and the rest of the driver

    The timer's state machine, the register file behind the register commands,
    the DMA commands, the header rewriting of the ghost and loopback modes, the
    opcodes, and the /proc entry; with instances at the kernel of [Demo]. *)

From S2P Require Import Prelude Mem Occp Opcode Kernel Packet Stream Xmit Poll Ring Ghost Genl.
From S2P Require Import Probe Hw Module Regs DmaCmd Timer Demo.

(** ** The polling timer *)

(** C12 In every interleaving of timer expiries, polls, transmissions and the two
    netlink commands, as long as polling is not enabled while NAPI is already scheduled, the
    timer and NAPI are never active together and [add_timer] is never
    called on a pending timer. *)
Theorem timer_exclusive `{Kernel} s s' :
  rtc timer_step s s' → timer_inv s → timer_inv s'.
Proof. apply timer_run_inv. Qed.

(** The driver after the timer was started. *)
Definition demo_armed : drv := set_trace [EvAddTimer 1] demo_drv.

Lemma demo_armed_inv : timer_inv demo_armed.
Proof. by split. Qed.

Lemma timer_exclusive_witness : timer_inv (set_trace [EvDelTimer; EvAddTimer 1] demo_drv).
Proof.
  apply (@timer_exclusive (demo false) demo_armed); [|apply demo_armed_inv].
  apply rtc_once. by apply (@Disabled (demo false) demo_armed None 0).
Defined.

(** C13 Polling does not stop by itself: after any step from a state where the timer is
    pending or NAPI is scheduled one of them still is, unless the step was the
    [napi_disable] command. *)
Theorem polling_stays_alive `{Kernel} s s' :
  timer_step s s' → (timer_pending (trace s) || napi_scheduled (trace s)) = true →
  (timer_pending (trace s') || napi_scheduled (trace s')) = true ∨
  ∃ info r, genl_cmd_napi_disable info s = Ok r s'.
Proof. apply timer_step_live. Qed.

(** The timer fires on an empty ring. *)
Definition demo_fired : drv :=
  match (emit EvTimerFired ;; rx_poll_timer_cb) demo_armed with
  | Ok _ s => s | _ => demo_armed end.

Lemma polling_stays_alive_witness :
  (timer_pending (trace demo_fired) || napi_scheduled (trace demo_fired)) = true ∨
  ∃ info r, genl_cmd_napi_disable info demo_armed = Ok r demo_fired.
Proof.
  apply (@polling_stays_alive (demo false) demo_armed demo_fired); [|reflexivity].
  apply TimerFires; [reflexivity|]. vm_compute. reflexivity.
Defined.

(** The [napi_enable] command while NAPI is scheduled breaks this: the timer is then
    pending, and the poll that completes adds it a second time. *)
Theorem enable_while_scheduled `{Kernel} s info s1 b s2 :
  napi_scheduled (trace s) = true → genl_cmd_napi_enable info s = Ok 0 s1 →
  nf10_napi_struct_poll b s1 = Ok 0 s2 → napi_scheduled (trace s2) = false →
  timers_ok (trace s2) = false.
Proof. apply enable_scheduled_breaks. Qed.

Definition demo_scheduled : drv := set_trace [EvNapiSchedule] demo_drv.
Definition demo_enabled : drv :=
  match @genl_cmd_napi_enable (demo false) None demo_scheduled with
  | Ok _ s => s | _ => demo_scheduled end.
Definition demo_completed : drv :=
  match @nf10_napi_struct_poll (demo false) 64 demo_enabled with
  | Ok _ s => s | _ => demo_enabled end.

Lemma enable_while_scheduled_witness : timers_ok (trace demo_completed) = false.
Proof.
  apply (@enable_while_scheduled (demo false) demo_scheduled None demo_enabled 64 demo_completed);
    vm_compute; reflexivity.
Defined.

(** ** The register commands *)



(** The request has no address, or one that is not a multiple of four. *)
Definition bad_addr (info : genl_info) : Prop :=
  need_attr info NF10_GENL_A_ADDR32 = None ∨
  ∃ bs a, need_attr info NF10_GENL_A_ADDR32 = Some bs ∧ attr_val bs a ∧ a mod 4 ≠ 0.

(** An error reply and nothing else. *)
Definition refused (cmd : Z) (s : drv) : drv :=
  set_trace (EvGenlReply [err_attr (-1)] 0
             :: EvNlaPut NF10_GENL_A_ERRNO (le_split 4 (u32 (-1))) 0
             :: EvGenlPutReply cmd true :: EvGenlNew true :: trace s) s.

(** A register command whose address is missing or not a multiple of four, or a write
    without a value, replies with the error -1 and does not touch the device. *)
Theorem register_command_refused `{Kernel} (info : genl_info) s :
  reply_ok →
  (bad_addr info → genl_cmd_reg_rd (Some info) s = Ok 0 (refused NF10_GENL_C_REG_RD s)) ∧
  (bad_addr info ∨ need_attr info NF10_GENL_A_REGVAL32 = None →
   genl_cmd_reg_wr (Some info) s = Ok 0 (refused NF10_GENL_C_REG_WR s)).
Proof.
  intros Hk. split.
  - intros [Hn|(bs & a & Hn & Hv & Hal)];
      [rewrite (reg_rd_no_addr Hk) by done|rewrite (reg_rd_unaligned Hk info bs a) by done];
      by rewrite send_error_run.
  - intros Hbad. rewrite (reg_wr_rejected Hk); [by rewrite send_error_run|].
    unfold bad_addr in Hbad. tauto.
Qed.

Lemma register_command_refused_witness :
  @genl_cmd_reg_rd (demo false) (Some (wr_info 6 1)) demo_drv
  = Ok 0 (refused NF10_GENL_C_REG_RD demo_drv) ∧
  @genl_cmd_reg_wr (demo false) (Some (rd_info 8)) demo_drv
  = Ok 0 (refused NF10_GENL_C_REG_WR demo_drv).
Proof.
  split; apply (@register_command_refused (demo false)); try done.
  - right. exists (le_split 4 6), 6. split; [reflexivity|].
    split; [by apply attr_val_u32|done].
  - by right.
Defined.

(** ** The DMA commands *)

(** C36 The [dma_tx] command on a running device, for a request whose opcode attribute, if
    it has one, holds at least four bytes: it never faults and returns 0; a request with a message
    and an opcode appends the first buffer's worth of the message to the TX queue with this
    opcode, or does nothing when the ring is full; a request without one of them does nothing. *)
Theorem dma_tx_queues `{Kernel} s dt dr w info r :
  hw_rel (mkSys s dt dr) w → tx_request info r →
  ∃ s', genl_cmd_dma_tx (Some info) s = Ok 0 s' ∧
    hw_rel (mkSys s' dt dr)
      (match r with
       | Some p =>
           if zlen (tx_queue w) <? dma_cpu_bufs s then
             mkHw (tx_accepted w ++ [p]) (tx_taken w) (tx_queue w ++ [p])
               (rx_arrived w) (rx_queue w) (rx_out w)
           else w
       | None => w
       end).
Proof. apply dma_tx_refines. Qed.

Definition demo_tx_info : genl_info := λ ty,
  if ty =? NF10_GENL_A_MSG then Some (mkAttr (Some [72; 105; 0]) 3)
  else if ty =? NF10_GENL_A_OPCODE then Some (u32_attr 1) else None.

Lemma dma_tx_queues_witness :
  ∃ s', @genl_cmd_dma_tx (demo false) (Some demo_tx_info) demo_drv = Ok 0 s' ∧
    hw_rel (mkSys s' 0 0) (mkHw [([72; 105; 0], 1)] [] [([72; 105; 0], 1)] [] [] []).
Proof.
  apply (@dma_tx_queues (demo false) demo_drv 0 0 (hw_idle []) demo_tx_info (Some ([72; 105; 0], 1)));
    [apply demo_hw_rel|].
  eexists _, _, _, _. repeat (split; [reflexivity|]).
  split; [by apply attr_val_u32|]. split; [vm_compute; split; discriminate|reflexivity].
Defined.

(** C37 The [dma_rx] command never faults on a running device, whatever memory the kernel
    grants: it sends a reply with the oldest packet of the RX ring and its opcode, or with no attribute
    when the ring is empty, frees the slot, and returns the result of sending; or the kernel refused
    the reply or an attribute of it, and then no reply is sent and the packet stays in the ring. *)
Theorem dma_rx_dequeues `{Kernel} s dt dr w (info : genl_info) :
  hw_rel (mkSys s dt dr) w → Forall (λ p, 0 ≤ p.2 < 2 ^ 32) (rx_queue w) →
  ∃ r s', genl_cmd_dma_rx (Some info) s = Ok r s' ∧
    ((∃ tr, trace s' = EvGenlReply (rx_reply (rx_queue w)) r :: tr ∧ replies tr = replies (trace s) ∧
        hw_rel (mkSys s' dt dr)
          (mkHw (tx_accepted w) (tx_taken w) (tx_queue w) (rx_arrived w)
             (tail (rx_queue w)) (rx_out w))) ∨
     (reply_refused r ∧ replies (trace s') = replies (trace s) ∧ hw_rel (mkSys s' dt dr) w)).
Proof. by apply dma_rx_any. Qed.

Lemma dma_rx_dequeues_witness :
  ∃ r s', @genl_cmd_dma_rx (demo false) (Some demo_tx_info) demo_arrived = Ok r s' ∧
    ((∃ tr, trace s' = EvGenlReply [(NF10_GENL_A_DMA_BUF, replicate 40 9);
                                    (NF10_GENL_A_OPCODE, le_split 4 8)] r :: tr ∧ replies tr = [] ∧
        hw_rel (mkSys s' 0 1) (mkHw [] [] [] [(replicate 40 9, 8)] [] [])) ∨
     (@reply_refused (demo false) r ∧ replies (trace s') = [] ∧
      hw_rel (mkSys s' 0 1) (mkHw [] [] [] [(replicate 40 9, 8)] [(replicate 40 9, 8)] []))).
Proof.
  apply (@dma_rx_dequeues (demo false) demo_arrived 0 1 _ demo_tx_info demo_arrived_rel).
  repeat constructor; done.
Defined.

(** In ghosting mode there is no device behind the doorbell pointer: the [dma_rx]
    command dereferences NULL as soon as a packet is waiting. *)
Theorem dma_rx_ghost_crash `{Kernel} s w (info : genl_info) :
  reply_ok → ghost_rel s w → no_device s → w_queue w ≠ [] →
  genl_cmd_dma_rx (Some info) s = Fault.
Proof. intros Hk. by apply dma_rx_ghost_fault. Qed.

Definition demo_ghost_sent : drv :=
  match @nf10_ghost_xmit (demo true) demo_skb 1 demo_ghost with Ok _ s => s | _ => demo_ghost end.

Lemma demo_ghost_sent_rel :
  ghost_rel demo_ghost_sent (mkWire [(1, replicate 40 7)] []).
Proof.
  destruct (@ghost_xmit_refines (demo true) demo_ghost (mkWire [] []) 0 1 demo_skb)
    as (s' & Hrun & Hrel & _); [apply demo_ghost_rel|by split|apply demo_frame|].
  unfold demo_ghost_sent. rewrite Hrun. exact Hrel.
Qed.

Lemma dma_rx_ghost_crash_witness :
  @genl_cmd_dma_rx (demo true) (Some demo_tx_info) demo_ghost_sent = Fault.
Proof.
  apply (@dma_rx_ghost_crash (demo true) demo_ghost_sent (mkWire [(1, replicate 40 7)] []));
    [done|apply demo_ghost_sent_rel|by intros a|done].
Defined.

(** ** Headers, opcodes and the /proc entry *)

(** Rewriting a packet's addresses twice, as a packet that crosses the wire and is answered is,
    gives the packet back, with its header checksum recomputed. *)
Theorem switcharoo_involutive `{Kernel} data :
  is_ipv4 data → (d1 ← ip_switcharoo data; ip_switcharoo d1) = Some (fix_check data).
Proof. apply switcharoo_twice. Qed.

Definition demo_ipv4 : list Z :=
  replicate 12 0 ++ [8; 0; 0x45] ++ replicate 11 0 ++ [10; 0; 2; 1] ++ [10; 0; 3; 1] ++ replicate 20 7.

Lemma switcharoo_involutive_witness :
  (d1 ← @ip_switcharoo (demo true) demo_ipv4; @ip_switcharoo (demo true) d1)
  = Some (@fix_check (demo true) demo_ipv4).
Proof.
  apply (@switcharoo_involutive (demo true)). split; [|split]; vm_compute; done.
Defined.

(** Setting an opcode's destination interface is read back, changes no other bit of
    the opcode but the other destination bits, and leaves the source interface alone. *)
Theorem opcode_dst_roundtrip op i n :
  0 ≤ i < 4 → 0 ≤ n < 32 →
  rx_get_dst_iface (rx_set_dst_iface op i) = i ∧
  rx_get_src_iface (rx_set_dst_iface op i) = rx_get_src_iface op ∧
  Z.testbit (rx_set_dst_iface op i) n =
  (if n =? cpu_bit i then true
   else if (n <? 8) && Z.odd n then false else Z.testbit op n).
Proof.
  intros Hi Hn. auto using rx_dst_get_set, rx_src_set_dst, rx_set_dst_iface_bits.
Qed.

Lemma opcode_dst_roundtrip_witness :
  rx_get_dst_iface (rx_set_dst_iface 0xffffffff 2) = 2 ∧
  rx_get_src_iface (rx_set_dst_iface 0xffffffff 2) = rx_get_src_iface 0xffffffff ∧
  Z.testbit (rx_set_dst_iface 0xffffffff 2) 7 = false.
Proof. apply (opcode_dst_roundtrip 0xffffffff 2 7); lia. Defined.

(** The /proc entry's text grows with the number of buffers: a device with more than 334 of them
    overflows the page that the kernel gives to the callback. *)
Theorem proc_text_overflows s :
  stream_wf (ram s) (dma_cpu_bufs s) (tx_dma_stream s) →
  stream_wf (ram s) (dma_cpu_bufs s) (rx_dma_stream s) → 334 < dma_cpu_bufs s →
  ∃ txt, read_proc s = Ok txt s ∧ 4096 < zlen txt.
Proof.
  intros Ht Hr Hn. destruct (read_proc_run s Ht Hr) as (txt & Hrun & Hlen).
  exists txt. split; [done|lia].
Qed.

(** A running driver with 512 buffers. *)
Definition demo_many : drv :=
  mkDrv [1; 2; 3; 4] demo_netdevs demo_bar (2 ^ 24) 0x100000 0 0x300000 0
    (stream_pointers 0x100000 512 0) (stream_pointers 0x300000 512 0) 512 (region_size 512) 0
    0 0 3 (mkMem (λ _, 0) ∅ [(0x100000, 2068 * 512); (0x300000, 2068 * 512)]) [] true [].

Lemma proc_text_overflows_witness : ∃ txt, read_proc demo_many = Ok txt demo_many ∧ 4096 < zlen txt.
Proof.
  apply (proc_text_overflows demo_many).
  - split; try (vm_compute; done). + apply list_elem_of_here.
  - split; try (vm_compute; done). apply list_elem_of_further, list_elem_of_here.
  - reflexivity.
Defined.
