(* ===== verification/UserCorrect.v ===== *)
(** * Correctness of the user-space side

    Netlink messages at the level of bytes, the register library and the
    control utility, alone and together with the driver; with instances at the
    socket of [Demo], behind which the driver itself answers. *)

From stdpp Require Import strings.
From S2P Require Import Prelude Mem Occp Opcode Kernel Packet Stream Xmit Poll Ring Ghost Genl.
From S2P Require Import Probe Hw Module Regs DmaCmd Timer Netlink Recv UserLib Text DriverCtrl.
From S2P Require Import Examples EndToEnd Demo.

(** ** The register library over the driver *)

(** A read through the library returns 0 and the value last written to the register,
    and leaves neither a message nor a socket behind. *)
Theorem lib_read_returns_last_write `{Kernel} `{Libnl} deliver family s f addr val v tr :
  delivers deliver → reply_ok → socket_ok family →
  window_ok s → paged_device (page_addr s) (nf10_regs s) → holds s f → f !! addr = Some v →
  served deliver genl_cmd_reg_rd s (rd_bytes_of family addr tr)
    (asked family (rd_bytes_of family addr tr) tr) →
  ∃ tr', nf10_reg_rd addr val tr = UOk (0, v) tr' ∧ unet tr' = unet tr.
Proof.
  intros Hd Hk Hsk Hw Hdev Hf Hv Hs. eexists. split.
  - by apply (lib_rd_returns deliver Hd Hk family Hsk s f).
  - simpl. destruct (unet tr). simpl. f_equal; lia.
Qed.

(** The driver after a write of 7 to the register 0x100004. *)
Definition demo_written : drv :=
  match @genl_cmd_reg_wr (demo false) (Some (wr_info 0x100004 7)) demo_drv with
  | Ok _ s => s | _ => demo_drv end.

Lemma demo_written_holds : window_ok demo_written ∧ holds demo_written {[0x100004 := 7]}.
Proof.
  destruct (wr_info_carries 0x100004 7) as [C1 C2]; [done..|].
  destruct (@reg_wr_holds (demo false) (demo_reply_ok false) (wr_info 0x100004 7) demo_drv ∅
    0x100004 7 demo_window_ok) as (tr & Hrun & Hh); [by intros b w ?|done..|].
  unfold demo_written. rewrite Hrun. split; [apply window_trace, demo_window_ok|exact Hh].
Qed.

Lemma lib_read_returns_last_write_witness :
  ∃ tr', @nf10_reg_rd (@demo_libnl (demo false) demo_written) 0x100004 0 [] = UOk (0, 7) tr' ∧
    unet tr' = unet [].
Proof.
  destruct demo_written_holds as [Hw Hh].
  apply (@lib_read_returns_last_write (demo false) (@demo_libnl (demo false) demo_written)
    demo_deliver 20 demo_written {[0x100004 := 7]} 0x100004 0 7 []);
    [apply demo_delivers|apply demo_reply_ok|apply demo_socket_ok|exact Hw|apply demo_paged
    |exact Hh|reflexivity|by apply (@demo_served (demo false))].
Defined.

(** A write through the library reaches the driver, which then holds the value at that
    address and keeps every other one; the library returns 0. *)
Theorem lib_write_updates_register `{Kernel} `{Libnl} deliver family s f addr val tr :
  delivers deliver → reply_ok → socket_ok family →
  window_ok s → holds s f → 0 ≤ addr < 2 ^ 32 → addr mod 4 = 0 → 0 ≤ val < 2 ^ 32 →
  let bytes := wr_bytes_of family addr val tr in
  served deliver genl_cmd_reg_wr s bytes (asked family bytes tr) →
  nf10_reg_wr addr val tr = UOk 0 (USockFree :: asked family bytes tr) ∧
  ∃ s', genl_cmd_reg_wr (Some (deliver bytes)) s = Ok 0 s' ∧ window_ok s' ∧
        holds s' (<[addr := val]> f).
Proof.
  intros Hd Hk Hsk Hw Hf Ha Hal Hv bytes Hs.
  destruct (lib_wr_updates deliver Hd Hk family Hsk s f addr val tr Hw Hf Ha Hal Hv Hs)
    as (Hr & s' & Hrun & Hw' & _ & _ & Hh). eauto 6.
Qed.

Lemma lib_write_updates_register_witness :
  let H0 := @demo_libnl (demo false) demo_written in
  let bytes := wr_bytes_of 20 8 9 [] in
  nf10_reg_wr 8 9 [] = UOk 0 (USockFree :: asked 20 bytes []) ∧
  ∃ s', @genl_cmd_reg_wr (demo false) (Some (demo_deliver bytes)) demo_written = Ok 0 s' ∧
        window_ok s' ∧ holds s' (<[8 := 9]> {[0x100004 := 7]}).
Proof.
  destruct demo_written_holds as [Hw Hh].
  apply (@lib_write_updates_register (demo false) (@demo_libnl (demo false) demo_written)
    demo_deliver 20 demo_written {[0x100004 := 7]} 8 9 []);
    [apply demo_delivers|apply demo_reply_ok|apply demo_socket_ok|exact Hw
    |exact Hh|done|done|done|by apply (@demo_served (demo false))].
Defined.

(** A read of an address that is not a multiple of four returns the driver's error and leaves the caller's word alone. *)
Theorem lib_read_unaligned_fails `{Kernel} `{Libnl} deliver family s addr val tr :
  delivers deliver → reply_ok → socket_ok family →
  0 ≤ addr < 2 ^ 32 → addr mod 4 ≠ 0 →
  served deliver genl_cmd_reg_rd s (rd_bytes_of family addr tr)
    (asked family (rd_bytes_of family addr tr) tr) →
  nf10_reg_rd addr val tr = UOk (-1, val) (USockFree :: asked family (rd_bytes_of family addr tr) tr).
Proof. intros Hd Hk Hsk. by apply (lib_rd_unaligned deliver Hd Hk family Hsk). Qed.

Lemma lib_read_unaligned_fails_witness :
  let H0 := @demo_libnl (demo false) demo_drv in
  nf10_reg_rd 6 33 [] = UOk (-1, 33) (USockFree :: asked 20 (rd_bytes_of 20 6 []) []).
Proof.
  apply (@lib_read_unaligned_fails (demo false) (@demo_libnl (demo false) demo_drv) demo_deliver 20
    demo_drv 6 33 []);
    [apply demo_delivers|apply demo_reply_ok|apply demo_socket_ok|done|done
    |by apply (@demo_served (demo false))].
Defined.

(** A write that the driver refuses returns 0 all the same: the driver's error comes in a data
    message, and only acknowledgements have a callback. *)
Theorem lib_write_error_lost `{Kernel} `{Libnl} deliver family s addr val tr :
  delivers deliver → reply_ok → socket_ok family →
  0 ≤ addr < 2 ^ 32 → 0 ≤ val < 2 ^ 32 → addr mod 4 ≠ 0 →
  let bytes := wr_bytes_of family addr val tr in
  served deliver genl_cmd_reg_wr s bytes (asked family bytes tr) →
  (∃ s', genl_cmd_reg_wr (Some (deliver bytes)) s = Ok 0 s' ∧
         last_reply s' = Some [err_attr (-1)]) ∧
  nf10_reg_wr addr val tr = UOk 0 (USockFree :: asked family bytes tr).
Proof. intros Hd Hk Hsk. by apply (lib_wr_error_lost deliver Hd Hk family Hsk). Qed.

Lemma lib_write_error_lost_witness :
  let H0 := @demo_libnl (demo false) demo_drv in
  let bytes := wr_bytes_of 20 6 1 [] in
  (∃ s', @genl_cmd_reg_wr (demo false) (Some (demo_deliver bytes)) demo_drv = Ok 0 s' ∧
         last_reply s' = Some [err_attr (-1)]) ∧
  nf10_reg_wr 6 1 [] = UOk 0 (USockFree :: asked 20 bytes []).
Proof.
  apply (@lib_write_error_lost (demo false) (@demo_libnl (demo false) demo_drv) demo_deliver 20
    demo_drv 6 1 []);
    [apply demo_delivers|apply demo_reply_ok|apply demo_socket_ok|done|done|done
    |by apply (@demo_served (demo false))].
Defined.

(** Whatever libnl and the kernel answer, both library functions have released their socket and their
    message on every path on which they return; when the connection fails, or there is no memory for
    a message, they do return, with that error and without touching the caller's word. *)
Theorem lib_releases `{Libnl} addr val tr :
  match nf10_reg_rd addr val tr with UOk _ tr' => unet tr' = unet tr | _ => True end ∧
  match nf10_reg_wr addr val tr with UOk _ tr' => unet tr' = unet tr | _ => True end ∧
  ∃ err family tr1, UserLib.driver_connect tr = UOk (err, family) tr1 ∧
    (err ≠ 0 → nf10_reg_rd addr val tr = UOk (err, val) tr1 ∧ nf10_reg_wr addr val tr = UOk err tr1) ∧
    (err = 0 → l_nlmsg_alloc tr1 = false →
       ∃ tr2, nf10_reg_rd addr val tr = UOk (- Nl.NLE_NOMEM, val) tr2 ∧
              nf10_reg_wr addr val tr = UOk (- Nl.NLE_NOMEM) tr2).
Proof.
  pose proof (nf10_reg_rd_balanced addr val tr) as Hr.
  pose proof (nf10_reg_wr_balanced addr val tr) as Hw.
  split; [|split; [|apply lib_early_returns]];
    [destruct (nf10_reg_rd _ _ _)|destruct (nf10_reg_wr _ _ _)]; try done;
    destruct (unet tr); simpl in *; rewrite ?Hr, ?Hw; f_equal; lia.
Qed.

(** ** Through the command line *)

(** [driver_ctrl reg_rd ADDR], with the address as the utility itself prints numbers,
    prints the value last written to the register. *)
Theorem ctrl_prints_register `{Kernel} `{Libnl} deliver family uninit prog s f addr v tr :
  delivers deliver → reply_ok → socket_ok family →
  window_ok s → paged_device (page_addr s) (nf10_regs s) → holds s f → f !! addr = Some v →
  served deliver genl_cmd_reg_rd s (rd_bytes_of family addr tr)
    (asked family (rd_bytes_of family addr tr) tr) →
  main uninit [prog; text "reg_rd"; fmt_0x08x addr] tr =
  UOk 0 (USockFree :: UPrint (fmt_0x08x v ++ [10]) :: asked family (rd_bytes_of family addr tr) tr).
Proof. intros Hd Hk Hsk. by apply (ctrl_rd_prints deliver Hd Hk family Hsk). Qed.

Lemma ctrl_prints_register_witness :
  let H0 := @demo_libnl (demo false) demo_written in
  main 0 [text "./driver_ctrl"; text "reg_rd"; text "0x00100004"] [] =
  UOk 0 (USockFree :: UPrint (text "0x00000007" ++ [10]) :: asked 20 (rd_bytes_of 20 0x100004 []) []).
Proof.
  destruct demo_written_holds as [Hw Hh].
  apply (@ctrl_prints_register (demo false) (@demo_libnl (demo false) demo_written)
    demo_deliver 20 0 (text "./driver_ctrl") demo_written {[0x100004 := 7]} 0x100004 7 []);
    [apply demo_delivers|apply demo_reply_ok|apply demo_socket_ok|exact Hw|apply demo_paged
    |exact Hh|reflexivity|by apply (@demo_served (demo false))].
Defined.

(** [driver_ctrl echo STRING] prints the string that it sent, which the driver sent back. *)
Theorem ctrl_echo_roundtrip `{Kernel} `{Libnl} deliver family uninit prog s t tr :
  delivers deliver → reply_ok → socket_ok family →
  let bytes := request_bytes family NF10_GENL_C_ECHO [(NF10_GENL_A_MSG, t ++ [0])] tr in
  fits t → Forall (λ b, b ≠ 0) t → zlen t < 2 ^ 15 →
  served deliver genl_cmd_echo s bytes (asked family bytes tr) →
  main uninit [prog; text "echo"; t] tr =
  UOk 0 (USockFree :: UPrint (text "Received reply:" ++ [10] ++ t ++ [10])
         :: asked family bytes tr).
Proof. intros Hd Hk Hsk. by apply (ctrl_echo_prints deliver Hd Hk family Hsk). Qed.

Lemma ctrl_echo_roundtrip_witness :
  let H0 := @demo_libnl (demo false) demo_drv in
  main 0 [text "driver_ctrl"; text "echo"; text "hello"] [] =
  UOk 0 (USockFree :: UPrint (text "Received reply:" ++ [10] ++ text "hello" ++ [10])
         :: asked 20 (request_bytes 20 NF10_GENL_C_ECHO [(NF10_GENL_A_MSG, text "hello" ++ [0])] []) []).
Proof.
  apply (@ctrl_echo_roundtrip (demo false) (@demo_libnl (demo false) demo_drv) demo_deliver 20 0
    (text "driver_ctrl") demo_drv (text "hello") []);
    [apply demo_delivers|apply demo_reply_ok|apply demo_socket_ok|vm_compute; discriminate
    |repeat constructor; done|done|by apply (@demo_served (demo false))].
Defined.

(** A command line that names no command, or gives one the wrong number of arguments, prints
    and returns 0: no socket is opened and nothing is sent. *)
Theorem ctrl_rejects `{Libnl} uninit argv :
  argv ≠ [] → ¬ accepted argv →
  ∀ tr, ∃ ts, main uninit argv tr = UOk 0 (map UPrint ts ++ tr).
Proof. apply main_rejects. Qed.

Lemma ctrl_rejects_witness :
  ∃ ts, @main (@demo_libnl (demo false) demo_drv) 0 [text "driver_ctrl"; text "reg_wr"; text "4"] []
        = UOk 0 (map UPrint ts ++ []).
Proof.
  apply (@ctrl_rejects (@demo_libnl (demo false) demo_drv)); [done|].
  intros (prog & name & args & lo & hi & [= <- <- <-] & Hin & Hr). unfold arity in Hin.
  rewrite !elem_of_cons in Hin.
  repeat (destruct Hin as [Hin|Hin]; [revert Hin Hr; vm_compute; intros [= -> ->] [H1 H2]; by (apply H1 || apply H2)|]).
  by apply elem_of_nil in Hin.
Defined.

(** An accepted command line runs the handler of its command, once, and returns 0. *)
Theorem ctrl_dispatches `{Libnl} uninit prog p args :
  p ∈ all_commands uninit (set_program_name prog) → c_min_args p ≤ zlen args ≤ c_max_args p →
  ∀ tr, main uninit (prog :: c_name p :: args) tr
        = match c_handler p (c_name p :: args) tr with
          | UOk _ tr' => UOk 0 tr' | UCrash => UCrash | UBlocked => UBlocked
          end.
Proof. intros Hp Hr tr. by rewrite (main_accepts uninit prog p args Hp Hr). Qed.

Lemma ctrl_dispatches_witness :
  let H0 := @demo_libnl (demo false) demo_drv in
  main 0 [text "driver_ctrl"; text "dma_rx"] []
        = match do_dma_rx [text "dma_rx"] [] with
          | UOk _ tr' => UOk 0 tr' | UCrash => UCrash | UBlocked => UBlocked
          end.
Proof.
  apply (@ctrl_dispatches (@demo_libnl (demo false) demo_drv) 0 (text "driver_ctrl")
    (mkCommand (text "dma_rx") 0 0 (@do_dma_rx (@demo_libnl (demo false) demo_drv))) []);
    [|done]. unfold all_commands. rewrite !elem_of_cons. tauto.
Defined.

(** Every command of the utility but [dma_tx] releases its socket and its message on every path
    on which it returns; [dma_tx] leaks the message when the string does not fit. *)
Theorem ctrl_releases `{Libnl} uninit argv tr :
  (∀ h, h ∈ [do_echo; do_dma_rx; do_reg_rd uninit; do_reg_wr; do_napi_enable; do_napi_disable] →
     match h argv tr with UOk _ tr' => unet tr' = unet tr | _ => True end) ∧
  (∀ family cmd t opt, socket_ok family → argv = cmd :: t :: opt → ¬ fits t →
     ∃ tr', do_dma_tx argv tr = UOk tt tr' ∧ unet tr' = ((unet tr).1, (unet tr).2 + 1)).
Proof.
  split.
  - intros h Hh. assert (unets (h argv) (λ _, (0, 0))) as Hu.
    { rewrite !elem_of_cons in Hh. destruct Hh as [->|[->|[->|[->|[->|[->|Hh]]]]]];
        [apply do_echo_balanced|apply do_dma_rx_balanced|apply do_reg_rd_balanced
        |apply do_reg_wr_balanced|apply do_napi_enable_balanced|apply do_napi_disable_balanced|].
      by apply elem_of_nil in Hh. }
    specialize (Hu tr). destruct (h argv tr); [|done..]. rewrite Hu. destruct (unet tr).
    simpl. f_equal; lia.
  - intros family cmd t opt Hsk -> Hfit. by apply (do_dma_tx_leaks family Hsk).
Qed.

(** The utility reads a number that it printed: an argument of the form in which it prints a
    32-bit word, at any place of the command line, is converted to that word. *)
Theorem number_roundtrip argv i v tr :
  0 ≤ v < 2 ^ 32 → argv !! i = Some (fmt_0x08x v) → arg_u32 argv i tr = UOk v tr.
Proof.
  intros Hv Hi. unfold arg_u32, arg, ubind, ulift, uret. rewrite Hi. cbv beta iota.
  by rewrite strtoull_0x08x, u32_small.
Qed.

Lemma number_roundtrip_witness :
  arg_u32 [text "reg_rd"; text "0xdeadbeef"] 1 [] = UOk 0xdeadbeef [].
Proof. apply (number_roundtrip _ _ 0xdeadbeef); done. Defined.

(** ** Netlink messages *)

(** C27 Parsing inverts construction: a message of one page to which attributes
    were added, in any number that fits, parses to the last attribute of each type, with its own bytes. *)
Theorem message_roundtrip ps pid seq family flags cmd version l maxtype :
  20 ≤ ps < 2 ^ 31 → Forall Nl.attr_ok l → 2 * (20 + zlen (Nl.flat l)) ≤ ps →
  ∃ msg0 msg t,
    Nl.genlmsg_put (Nl.nlmsg_alloc_len ps) pid seq family 0 flags cmd version = Some (true, msg0) ∧
    Nl.nla_puts msg0 l = Some msg ∧
    Nl.genlmsg_parse (Nl.nm_nlh msg) 0 0 maxtype None = Some (0, Some t) ∧
    ∀ ty, ty ≤ maxtype →
      match Nl.find_attr ty l with
      | Some bs => ∃ off, t ty = Some off ∧ Nl.attr_at (Nl.nm_nlh msg) off bs
      | None => t ty = None
      end.
Proof.
  intros Hps Hok Hfit.
  destruct (Nl.genlmsg_put_ok ps pid seq family flags cmd version Hps) as (m0 & Hput & Hr0 & Hs0).
  destruct (Nl.nla_puts_ok l m0 _ [] _ Hr0) as (m & room & Hputs & Hr);
    [eapply List.Forall_impl; [|exact Hok]; intros a [_ Ha]; lia|by rewrite Hs0|].
  destruct Hr as [Hb Hh _ Hsm].
  destruct (Nl.genlmsg_parse_ok _ l room maxtype Hh Hok) as (t & Hp & Ht); [lia|].
  exists m0, m, t. rewrite Hb. auto.
Qed.

Lemma message_roundtrip_witness :
  ∃ msg0 msg t,
    Nl.genlmsg_put (Nl.nlmsg_alloc_len 4096) 1 2 20 0 5 4 1 = Some (true, msg0) ∧
    Nl.nla_puts msg0 [(3, [1; 2; 3; 4]); (1, [104; 105; 0])] = Some msg ∧
    Nl.genlmsg_parse (Nl.nm_nlh msg) 0 0 6 None = Some (0, Some t) ∧
    ∀ ty, ty ≤ 6 →
      match Nl.find_attr ty [(3, [1; 2; 3; 4]); (1, [104; 105; 0])] with
      | Some bs => ∃ off, t ty = Some off ∧ Nl.attr_at (Nl.nm_nlh msg) off bs
      | None => t ty = None
      end.
Proof.
  apply (message_roundtrip 4096 1 2 20 5 4 1 [(3, [1; 2; 3; 4]); (1, [104; 105; 0])] 6);
    [lia|repeat constructor; done|vm_compute; discriminate].
Defined.

(** ** The register examples *)

(** The two example programs never end well: they read, or write, the registers 4 to 2^31 - 4
    in order (unless one of these calls crashes or blocks), and then their counter, an [int],
    overflows. *)
Theorem examples_overflow `{Libnl} fuel x tr :
  (Z.to_nat (2 ^ 29) ≤ fuel)%nat →
  rd_main fuel x tr = ubind (for_all rd_step int_regs x) (λ _ _, UCrash) tr ∧
  wr_main fuel tr = ubind (for_all wr_step int_regs 0) (λ _ _, UCrash) tr.
Proof.
  intros Hf. unfold rd_main, wr_main. split; unfold ubind at 1; rewrite sweep_overflows by done; unfold ubind;
    by destruct (for_all _ _ _ _).
Qed.
