(* ===== verification/FirmwareCorrect.v ===== *)
(** * Correctness of the PHY firmware

    The claims about [helloworld.c] of the two loopback tests, and a board on which
    they are tried. *)

From stdpp Require Import strings.
From S2P Require Import Prelude PhyTables Phy PhyMenu Phy1g.

(** ** A board *)

(** The clock advances by [2^27] per reading; the PHY with address 2 has a module
    whose I2C controller is always ready, the others have no signal; all links are up. *)
#[local] Instance demo_board : Board := {|
  b_time := λ tr, match last_time tr with Some t => t + 2 ^ 27 | None => 0 end;
  b_mdio := λ tr phy dev,
    match latch phy dev tr with
    | Some 0x1 => 0x4
    | Some 0xa => if phy =? 2 then 1 else 0
    | Some 0xc30c => 1
    | Some 0xc30b => 0x4100
    | _ => 0
    end;
  b_in32 := λ _ _, 0;
  b_inbyte := λ _, 116;
  GEN_CHECK_0 := 0x7a000000;
  GEN_CHECK_1 := 0x7a200000;
  little_endian := true;
  AEL2005_SR := false;
  sleep_fuel := 2%nat;
|}.

Lemma demo_clock : clock_ok (2 ^ 27).
Proof.
  split; [done|]. split; [|done]. intros tr t E. unfold b_time, demo_board. rewrite E.
  replace (t + 2 ^ 27 - t) with (2 ^ 27) by lia. unfold u32. rewrite Z.mod_small; lia.
Qed.

(** ** The 10G firmware *)

(** A wait of up to two seconds ends, and not early: at least 50000 ticks per
    millisecond pass between its first and its last reading of the 32-bit time base,
    also when the time base wraps around; it does nothing but read the clock. *)
Theorem phy_sleep_waits `{Board} d ms tr :
  clock_ok d → 0 ≤ ms ≤ 2000 →
  ∃ ts r0 r, ael2005_sleep ms tr = Some (XST_SUCCESS, ts ++ FTime r0 :: tr) ∧
    last_time (ts ++ FTime r0 :: tr) = Some r ∧ ms * 50000 ≤ u32 (r - r0) ∧ Forall is_time ts.
Proof. intros Hc. by apply sleep_ok with d. Qed.

Lemma phy_sleep_waits_witness :
  ∃ ts r0 r, ael2005_sleep 200 [FTime (2 ^ 32 - 1)] =
      Some (XST_SUCCESS, ts ++ FTime r0 :: [FTime (2 ^ 32 - 1)]) ∧
    last_time (ts ++ FTime r0 :: [FTime (2 ^ 32 - 1)]) = Some r ∧
    200 * 50000 ≤ u32 (r - r0) ∧ Forall is_time ts.
Proof. apply (phy_sleep_waits (2 ^ 27)); [apply demo_clock|lia]. Defined.

(** C38 Initialising the ports in the default build, with a clock that goes on and whose
    readings are subtracted modulo 2^32, always ends, and for every port the
    register 10 of its PHY is read into one half of [value], whose other half stays what the
    uninitialised variable had: if the reading and that other half are zero, the port is
    skipped and its PHY sees nothing; in all other cases the PHY sees the whole program for
    Direct Attach, in order and nothing else outside its I2C controller.  No other PHY is
    written to. *)
Theorem ports_programmed `{Board} d uninit modes tr :
  clock_ok d → AEL2005_SR = false → 0 ≤ uninit → zlen modes = 4 →
  ∃ st' tr', init_ports 4 0 (mkFw uninit modes) tr = Some (st', tr') ∧
    (∀ q, 0 ≤ q < 4 → ∃ v, sensed tr tr' q v ∧
       phy_writes (dev_of_port q) tr' = phy_writes (dev_of_port q) tr ++
         (if (v =? 0) && (other_half uninit =? 0) then [] else phy_program MODE_TWINAX)) ∧
    (∀ phy, ¬ 0 ≤ phy < 4 → phy_writes phy tr' = phy_writes phy tr).
Proof.
  intros Hc Hsr Hu Hm.
  destruct (init_ports_ok d Hc (other_half uninit) 4 0 (mkFw uninit modes) tr)
    as (st' & tr' & E & _ & _ & Hd & _ & Ho); [done..|].
  exists st', tr'. split; [done|]. split.
  - intros q Hq. destruct (Hd q Hq) as (v & Hv & Hs & Hp). exists v.
    split; [done|]. rewrite Hp. unfold programs. by rewrite Hsr.
  - intros phy Hphy. apply Ho. intros q Hq <-. apply Hphy. apply dev_of_port_range.
Qed.

Lemma ports_programmed_witness :
  ∃ st' tr', init_ports 4 0 (mkFw 0 (replicate 4 (-1))) [] = Some (st', tr') ∧
    (∀ q, 0 ≤ q < 4 → ∃ v, sensed [] tr' q v ∧
       phy_writes (dev_of_port q) tr' = phy_writes (dev_of_port q) [] ++
         (if (v =? 0) && (other_half 0 =? 0) then [] else phy_program MODE_TWINAX)) ∧
    (∀ phy, ¬ 0 ≤ phy < 4 → phy_writes phy tr' = phy_writes phy []).
Proof. apply (ports_programmed (2 ^ 27)); [apply demo_clock|done..]. Defined.

(** A read over I2C always ends: with the byte that the data register gives once the
    controller reports success within 20 polls, or with the busy status, without a value,
    after exactly 20 polls that did not. *)
Theorem module_read_ends `{Board} d phy da wa tr :
  clock_ok d →
  ∃ r tr' sts, ael2005_i2c_read phy da wa tr = Some (r, tr') ∧
    mdio_reads phy tr' = mdio_reads phy tr ++ sts ∧ i2c_end 20 sts r.
Proof. intros Hc. by apply i2c_read_ok with d. Qed.

Lemma module_read_ends_witness :
  ∃ r tr' sts, ael2005_i2c_read 2 MODULE_DEV_ADDR 20 [] = Some (r, tr') ∧
    mdio_reads 2 tr' = mdio_reads 2 [] ++ sts ∧ i2c_end 20 sts r.
Proof. apply (module_read_ends (2 ^ 27)), demo_clock. Defined.

(** The status command reads the three status registers of each PHY, and reports a
    PHY as up exactly if bit 2, the link status, is set in all three of them. *)
Theorem status_reported `{Board} d tr :
  clock_ok d →
  ∃ tr' f, test_status tr = Some (XST_SUCCESS, tr') ∧
    printed tr' = printed tr ++ map (λ i, status_line i (f i)) [0; 1; 2; 3] ∧
    ∀ i, 0 ≤ i < 4 → mdio_reads (dev_of_port i) tr' =
      mdio_reads (dev_of_port i) tr ++ [(f i).1.1; (f i).1.2; (f i).2].
Proof.
  intros Hc. destruct (status_loop_ok d Hc 4 0 tr) as (tr' & f & E & Hp & Hr & _); [done..|].
  exists tr', f. unfold test_status, fbind. rewrite E. split; [done|]. split; [exact Hp|].
  intros i Hi. apply Hr. lia.
Qed.

Lemma status_reported_witness :
  ∃ tr' f, test_status [] = Some (XST_SUCCESS, tr') ∧
    printed tr' = printed [] ++ map (λ i, status_line i (f i)) [0; 1; 2; 3] ∧
    ∀ i, 0 ≤ i < 4 → mdio_reads (dev_of_port i) tr' =
      mdio_reads (dev_of_port i) [] ++ [(f i).1.1; (f i).1.2; (f i).2].
Proof. apply (status_reported (2 ^ 27)), demo_clock. Defined.

(** The firmware serves any number of choices from its menu, and after each of them
    both packet generators run exactly if the operator started them and has not stopped
    them since. *)
Theorem menu_serves `{Board} d n uninit :
  clock_ok d →
  ∃ st tr, fw_main n uninit [] = Some (st, tr) ∧ length (choices tr) = n ∧
    last_out (GEN_CHECK_0 + 3) tr = Some (asked tr) ∧
    last_out (GEN_CHECK_1 + 3) tr = Some (asked tr).
Proof. intros Hc. by apply fw_main_ok with d. Qed.

Lemma menu_serves_witness :
  ∃ st tr, fw_main 3 0 [] = Some (st, tr) ∧ length (choices tr) = 3%nat ∧
    last_out (GEN_CHECK_0 + 3) tr = Some (asked tr) ∧
    last_out (GEN_CHECK_1 + 3) tr = Some (asked tr).
Proof. apply (menu_serves (2 ^ 27)), demo_clock. Defined.

(** ** The 1G firmware *)

(** C40 With a clock that goes on and whose readings are subtracted modulo 2^32, the 1G firmware resets all four PHYs and writes each its own mode, in this order
    and nothing else, before it takes the first choice; it serves any number of choices,
    and the generators do what the operator asked for last. *)
Theorem phys_in_1g_mode `{Board} d n :
  clock_ok d →
  ∃ u tr0 tr, G1.fw_main n [] = Some (u, tr) ∧ G1.menu_loop n tr0 = Some (u, tr) ∧
    (∀ phy, phy_writes phy tr0 = G1.phy_program_1g phy) ∧
    length (choices tr) = n ∧ gen_ok tr.
Proof. intros Hc. by apply G1.fw_main_1g with d. Qed.

Lemma phys_in_1g_mode_witness :
  ∃ u tr0 tr, G1.fw_main 2 [] = Some (u, tr) ∧ G1.menu_loop 2 tr0 = Some (u, tr) ∧
    (∀ phy, phy_writes phy tr0 = G1.phy_program_1g phy) ∧
    length (choices tr) = 2%nat ∧ gen_ok tr.
Proof. apply (phys_in_1g_mode (2 ^ 27)), demo_clock. Defined.
