(* ===== verification/Objects.v ===== *)
(** * Objects of libnl: [lib/object.c]

    Objects are reference counted and may be linked into a cache; a cache holds one
    reference to each of its objects.  Both live in a shared store, with the list heads of
    [NlList].  A dereference of memory that was freed and a failed [BUG] check crash
    ([None]).

    The payload [D] of the objects, their operations and the memory allocator are
    parameters. *)

From S2P Require Import Prelude Recv NlList.

Definition NL_OBJ_MARK : Z := 1.
Definition LOOSE_COMPARISON : Z := 1.

(** [ATTR_DIFF] of [object-api.h]: the bit, if it is among those to compare and differs. *)
Definition ATTR_DIFF (attrs attr ma mb : Z) (expr : bool) : Z :=
  if negb (Z.land attrs attr =? 0) &&
     (negb (Z.land (Z.lxor ma mb) attr =? 0) ||
      negb (Z.land (Z.land ma mb) attr =? 0) && expr)
  then attr else 0.

Inductive nl_act := NL_ACT_UNSPEC | NL_ACT_NEW | NL_ACT_DEL | NL_ACT_GET | NL_ACT_SET | NL_ACT_CHANGE.

#[export] Instance nl_act_eq : EqDecision nl_act.
Proof. solve_decision. Defined.

Record nl_object {D : Type} := mkObj {
  ce_refcnt : Z;
  ce_ops : Z;                 (** the address of the operations *)
  ce_cache : Z;
  ce_msgtype : Z;
  ce_flags : Z;
  ce_mask : Z;
  ce_data : D;
}.
Arguments nl_object D : clear implicits.
Arguments mkObj {D}.

Record nl_cache := mkCache { c_nitems : Z; c_ops : Z }.

Section Setters.
Context {D : Type}.
Definition set_refcnt (v : Z) (o : nl_object D) : nl_object D :=
  mkObj v (ce_ops o) (ce_cache o) (ce_msgtype o) (ce_flags o) (ce_mask o) (ce_data o).
Definition set_cache (v : Z) (o : nl_object D) : nl_object D :=
  mkObj (ce_refcnt o) (ce_ops o) v (ce_msgtype o) (ce_flags o) (ce_mask o) (ce_data o).
Definition set_flags (v : Z) (o : nl_object D) : nl_object D :=
  mkObj (ce_refcnt o) (ce_ops o) (ce_cache o) (ce_msgtype o) v (ce_mask o) (ce_data o).
(** The parts that a clone copies. *)
Definition set_body (m k : Z) (d : D) (o : nl_object D) : nl_object D :=
  mkObj (ce_refcnt o) (ce_ops o) (ce_cache o) m (ce_flags o) k d.
End Setters.

(** The connection: the numbers of the socket, what was sent on it, and the datagrams that
    wait to be received. *)
Record nl_io := mkIo {
  io_seq_next : Z;
  io_seq_expect : Z;
  io_sent : list (list Z);
  io_incoming : list datagram;
}.

(** The heap and the connection; [log] has the calls of the change callback: the cache, the
    object and the action. *)
Record store {D : Type} := mkStore {
  objs : gmap Z (nl_object D);
  caches : gmap Z nl_cache;
  hs : heads;
  log : list (Z * Z * nl_act);
  io : nl_io;
}.
Arguments store D : clear implicits.
Arguments mkStore {D}.

(** ** The monad *)

Definition R (D A : Type) := store D → option (A * store D).

Definition rret {D A} (a : A) : R D A := λ st, Some (a, st).
Definition rbind {D A B} (m : R D A) (k : A → R D B) : R D B := λ st,
  match m st with Some (a, st) => k a st | None => None end.
Definition crash {D A} : R D A := λ _, None.
(** A computation that does not touch the store. *)
Definition lift {D A} (o : option A) : R D A := λ st,
  match o with Some a => Some (a, st) | None => None end.

Declare Scope store_scope.
Delimit Scope store_scope with st.
Notation "x <- m ;; k" := (rbind m (λ x, k))
  (at level 100, m at next level, right associativity) : store_scope.
Notation "m ;; k" := (rbind m (λ _, k))
  (at level 100, k at level 200, right associativity) : store_scope.

(** ** Types of objects and caches *)

(** What [oo_clone] makes of the copied payload: a payload of its own; an error, and whether
    the copy then still has pointers of the source; or it never returns. *)
Inductive clone_result {D : Type} := CloneOk (d : D) | CloneErr (shared : bool) | CloneBusy.
Arguments clone_result D : clear implicits.

(** The operations of a type of objects.  [oo_clone] gets the copied payload and
    [oo_compare] the masks and the payloads. *)
Record nl_object_ops {D : Type} := mkOps {
  oo_constructor : D;
  oo_clone : option (D → clone_result D);
  oo_free_data : bool;
  oo_compare : option (Z * D → Z * D → Z → Z → Z);
  oo_id_attrs : Z;
}.
Arguments nl_object_ops D : clear implicits.

(** The operations of a type of caches.  The table of message types ends with a negative
    number; a parser gets the message and the function to call with each object. *)
Record nl_cache_ops {D : Type} := mkCops {
  co_obj_ops : Z;
  co_hdrsize : Z;
  co_msgtypes : list (Z * nl_act);
  co_msg_parser : list Z → (Z → R D Z) → R D Z;
  co_request_update : option (Z → R D Z);
}.
Arguments nl_cache_ops D : clear implicits.

(** The operations by their address, and the allocator. *)
Class World (D : Type) := {
  obj_ops_at : Z → nl_object_ops D;
  cache_ops_at : Z → nl_cache_ops D;
  (** what [calloc] returns *)
  a_calloc : store D → Z;
  (** the callbacks of the socket, and whether memory is left for a copy of them *)
  s_cb : nl_cb (store D);
  a_cb_clone : store D → bool;
  (** is there memory for the copy of a message that was received *)
  a_msg_copy : store D → list Z → bool;
}.

(** [calloc] returns NULL or memory that is not in use. *)
Definition calloc_ok {D} `{World D} : Prop :=
  ∀ st, a_calloc st = 0 ∨
    (objs st !! a_calloc st = None ∧ caches st !! a_calloc st = None).

Section Objects.
Context {D : Type} `{World D}.
Local Open Scope store_scope.

Definition set_objs (v : gmap Z (nl_object D)) (st : store D) : store D :=
  mkStore v (caches st) (hs st) (log st) (io st).
Definition set_caches (v : gmap Z nl_cache) (st : store D) : store D :=
  mkStore (objs st) v (hs st) (log st) (io st).
Definition set_hs (v : heads) (st : store D) : store D :=
  mkStore (objs st) (caches st) v (log st) (io st).

Definition obj (p : Z) : R D (nl_object D) := λ st,
  match objs st !! p with Some o => Some (o, st) | None => None end.
Definition upd (p : Z) (f : nl_object D → nl_object D) : R D unit := λ st,
  match objs st !! p with
  | Some o => Some (tt, set_objs (<[p := f o]> (objs st)) st)
  | None => None
  end.
Definition cache (c : Z) : R D nl_cache := λ st,
  match caches st !! c with Some x => Some (x, st) | None => None end.
Definition upd_nitems (c d : Z) : R D unit := λ st,
  match caches st !! c with
  | Some x => Some (tt, set_caches (<[c := mkCache (c_nitems x + d) (c_ops x)]> (caches st)) st)
  | None => None
  end.
(** An operation on the list heads. *)
Definition on_heads (f : heads → option heads) : R D unit := λ st,
  match f (hs st) with Some h => Some (tt, set_hs h st) | None => None end.
Definition ask_heads {A} (f : heads → option A) : R D A := λ st,
  match f (hs st) with Some a => Some (a, st) | None => None end.

(** ** Objects *)

Definition nl_object_alloc (ops : Z) : R D Z := λ st,
  let p := a_calloc st in
  if p =? 0 then Some (0, st)
  else Some (p, mkStore
    (<[p := mkObj 1 ops 0 0 0 0 (oo_constructor (obj_ops_at ops))]> (objs st)) (caches st)
    (nl_init_list_head (NObj p) (hs st)) (log st) (io st)).

(** [free(obj)]: the list head inside it goes too; freeing it twice is a crash. *)
Definition free_obj (p : Z) : R D unit := λ st,
  match objs st !! p with
  | Some _ => Some (tt, mkStore (delete p (objs st)) (caches st) (delete (NObj p) (hs st))
                          (log st) (io st))
  | None => None
  end.

(** [nl_object_put], given [nl_object_free]. *)
Definition put_with (nl_object_free : Z → R D unit) (p : Z) : R D unit :=
  if p =? 0 then rret tt
  else
    upd p (λ o, set_refcnt (ce_refcnt o - 1) o) ;;
    o <- obj p ;;
    if ce_refcnt o <? 0 then crash
    else if ce_refcnt o <=? 0 then nl_object_free p else rret tt.

(** [nl_cache_remove], given [nl_object_free]. *)
Definition remove_with (nl_object_free : Z → R D unit) (p : Z) : R D unit :=
  o <- obj p ;;
  let c := ce_cache o in
  if c =? 0 then rret tt
  else
    on_heads (nl_list_del (NObj p)) ;;
    upd p (set_cache 0) ;;
    put_with nl_object_free p ;;
    upd_nitems c (-1).

(** [nl_object_free] and [nl_cache_remove] call each other; the object is out of its cache
    in the second call, which ends the recursion. *)
Fixpoint object_free (depth : nat) (p : Z) : R D unit :=
  match depth with
  | O => crash
  | S depth =>
      o <- obj p ;;
      (if negb (ce_cache o =? 0) then remove_with (object_free depth) p else rret tt) ;;
      free_obj p
  end.

Definition nl_object_free : Z → R D unit := object_free 2.
Definition nl_object_put : Z → R D unit := put_with nl_object_free.
Definition nl_cache_remove : Z → R D unit := remove_with nl_object_free.

Definition nl_object_get (p : Z) : R D unit := upd p (λ o, set_refcnt (ce_refcnt o + 1) o).

Definition nl_object_shared (p : Z) : R D bool := o <- obj p ;; rret (1 <? ce_refcnt o).

(** The sizes of the types are those of structs that begin with [struct nl_object] (56 bytes,
    which [nl_object_alloc] checks), so that the payload, which is counted from byte 52, is
    never empty ([size] is not 0).  When [oo_clone] fails, [nl_object_free] gives the payload
    of the copy to [oo_free_data]: if that has pointers of the source, the source's memory is
    freed under it, which is a crash here, as is a clone that never returns. *)
Definition nl_object_clone (p : Z) : R D Z :=
  o <- obj p ;;
  new <- nl_object_alloc (ce_ops o) ;;
  if new =? 0 then rret 0
  else
    let ops := obj_ops_at (ce_ops o) in
    upd new (set_body (ce_msgtype o) (ce_mask o) (ce_data o)) ;;
    match oo_clone ops with
    | Some f =>
        match f (ce_data o) with
        | CloneOk d => upd new (set_body (ce_msgtype o) (ce_mask o) d) ;; rret new
        | CloneErr shared =>
            if shared && oo_free_data ops then crash else nl_object_free new ;; rret 0
        | CloneBusy => crash
        end
    | None => if oo_free_data ops then crash else rret new
    end.

Definition nl_object_mark (p : Z) : R D unit :=
  upd p (λ o, set_flags (Z.lor (ce_flags o) NL_OBJ_MARK) o).
Definition nl_object_unmark (p : Z) : R D unit :=
  upd p (λ o, set_flags (Z.land (ce_flags o) (Z.lnot NL_OBJ_MARK)) o).
Definition nl_object_is_marked (p : Z) : R D bool :=
  o <- obj p ;; rret (negb (Z.land (ce_flags o) NL_OBJ_MARK =? 0)).

(** [nl_object_identical] of two objects. *)
Definition identical (a b : nl_object D) : bool :=
  let ops := obj_ops_at (ce_ops a) in
  if negb (ce_ops a =? ce_ops b) then false
  else
    let req := if oo_id_attrs ops =? -1 then Z.land (ce_mask a) (ce_mask b) else oo_id_attrs ops in
    if negb (Z.land (ce_mask a) req =? req) || negb (Z.land (ce_mask b) req =? req) then false
    else
      match oo_compare ops with
      | None => false
      | Some cmp => cmp (ce_mask a, ce_data a) (ce_mask b, ce_data b) req 0 =? 0
      end.

Definition nl_object_identical (a b : Z) : R D bool :=
  x <- obj a ;; y <- obj b ;; rret (identical x y).

Definition diff (a b : nl_object D) : Z :=
  let ops := obj_ops_at (ce_ops a) in
  match oo_compare ops with
  | Some cmp => if ce_ops a =? ce_ops b
                then u32 (cmp (ce_mask a, ce_data a) (ce_mask b, ce_data b) (-1) 0) else u32 (-1)
  | None => u32 (-1)
  end.

Definition nl_object_diff (a b : Z) : R D Z := x <- obj a ;; y <- obj b ;; rret (diff x y).

Definition match_filter (a filter : nl_object D) : bool :=
  let ops := obj_ops_at (ce_ops a) in
  match oo_compare ops with
  | Some cmp =>
      (ce_ops a =? ce_ops filter) &&
      (cmp (ce_mask a, ce_data a) (ce_mask filter, ce_data filter) (ce_mask filter) LOOSE_COMPARISON =? 0)
  | None => false
  end.

Definition nl_object_match_filter (a filter : Z) : R D bool :=
  x <- obj a ;; y <- obj filter ;; rret (match_filter x y).

End Objects.
