(* ===== verification/RtObj.v ===== *)
(** * Routing objects: [lib/route/neigh.c] and [lib/route/rule.c]

    Neighbours and routing rules are objects whose payload points to abstract addresses.  The
    addresses live in the memory of [Addr]; an object is a value that its functions take and
    return, with the header of [Objects].  A message is its bytes.  A pointer that is not in
    use, and [BUG()], crash. *)

From S2P Require Import Prelude Packet Netlink NlError Text Attr CStr Addr Recv NlList Objects.
Import Nl.

Definition IFNAMSIZ : Z := 16.

Definition no_policy : nla_policy := mkPolicy NLA_UNSPEC 0 0.

(** ** Objects that hold addresses *)

Section Header.
Context {D : Type}.

(** [obj->field = ...; obj->ce_mask |= bit]. *)
Definition put_data (bit : Z) (d : D) (o : nl_object D) : nl_object D :=
  set_body (ce_msgtype o) (Z.lor (ce_mask o) bit) d o.
Definition has_attr (bit : Z) (o : nl_object D) : bool := negb (Z.land (ce_mask o) bit =? 0).
End Header.

Abbreviation addrs := (gmap Z nl_addr).

(** A type of objects: a new payload, the release of what it holds, and the second half of a
    clone, which gets the copied payload and the one of the source. *)
Class Holder (D : Type) := {
  h_new : D;
  h_free_data : D → St addrs unit;
  h_clone : (addrs → Z) → D → D → St addrs (Z * D);
}.

Section Objects.
Context {D : Type} `{Holder D} (addr_calloc : addrs → Z).
Local Open Scope state_scope.

(** [nl_object_alloc]; [ops] is the address of the operations. *)
Definition new_object (ops : Z) : nl_object D := mkObj 1 ops 0 0 0 0 h_new.

(** [nl_object_free] of an object without references.  One that is still in a cache is
    removed from it first, which gives back a reference that is not there: [BUG()]. *)
Definition release (o : nl_object D) : St addrs unit :=
  if negb (ce_cache o =? 0) then scrash else h_free_data (ce_data o).

(** [nl_object_put]: what is left of the object. *)
Definition object_put (o : nl_object D) : St addrs (option (nl_object D)) :=
  let o := set_refcnt (ce_refcnt o - 1) o in
  if ce_refcnt o <? 0 then scrash
  else if ce_refcnt o <=? 0 then release o ;; sret None
  else sret (Some o).

(** [nl_object_clone]: the payload is copied, pointers included, before [oo_clone] replaces
    them.  [ok] tells whether there is memory for the object. *)
Definition object_clone (ok : bool) (o : nl_object D) : St addrs (option (nl_object D)) :=
  if negb ok then sret None
  else
    let new := set_body (ce_msgtype o) (ce_mask o) (ce_data o) (new_object (ce_ops o)) in
    r <- h_clone addr_calloc (ce_data new) (ce_data o) ;;
    let new := set_body (ce_msgtype new) (ce_mask new) r.2 new in
    if r.1 <? 0 then release new ;; sret None
    else sret (Some new).
End Objects.

Section Addresses.
Context (addr_calloc : addrs → Z).
Local Open Scope state_scope.

(** [ATTR_DIFF] with an expression that is evaluated only if both objects have the
    attribute. *)
Definition attr_diff (attrs attr ma mb : Z) (expr : St addrs bool) : St addrs Z :=
  if Z.land attrs attr =? 0 then sret 0
  else if negb (Z.land (Z.lxor ma mb) attr =? 0) then sret attr
  else if negb (Z.land (Z.land ma mb) attr =? 0) then
    e <- expr ;; sret (if e : bool then attr else 0)
  else sret 0.

(** [nl_addr_cmp(a, b)] as a condition. *)
Definition addr_differs (a b : Z) : St addrs bool :=
  x <- addr_at a ;;
  y <- addr_at b ;;
  d <- sget (λ _, nl_addr_cmp x y) ;;
  sret (negb (d =? 0)).

(** [strcmp(a, b)] of two arrays as a condition. *)
Definition str_differs (a b : list Z) : St addrs bool :=
  s <- sget (λ _, c_string a) ;;
  t <- sget (λ _, c_string b) ;;
  sret (negb (bool_decide (s = t))).

(** [NLA_PUT_ADDR(msg, attrtype, addr)]; a negative error is a jump to [nla_put_failure]. *)
Definition put_addr (msg : nl_msg) (attrtype addr : Z) : St addrs (Z * nl_msg) :=
  a <- addr_at addr ;;
  sget (λ _, if zlen (nl_addr_get_binary_addr a) <? nl_addr_get_len a then None
             else nla_put msg attrtype (take (Z.to_nat (nl_addr_get_len a)) (nl_addr_get_binary_addr a))).

(** An attribute that is put if [b] holds. *)
Definition put_if (b : bool) (put : nl_msg → St addrs (Z * nl_msg)) (r : Z * nl_msg) : St addrs (Z * nl_msg) :=
  if r.1 <? 0 then sret r else if b then put r.2 else sret (0, r.2).

(** The message, or [-NLE_MSGSIZE] when something did not fit. *)
Definition finish_msg (r : Z * nl_msg) : Z * option nl_msg :=
  if r.1 <? 0 then (- NLE_MSGSIZE, None) else (0, Some r.2).

(** [if (tb[TYPE]) { obj->field = nla_get_u32(tb[TYPE]); obj->ce_mask |= bit; }] *)
Definition take_u32 {D} (buf : list Z) (nla : option Z) (set : Z → D → D) (bit : Z) (o : nl_object D)
    : St addrs (nl_object D) :=
  match nla with
  | None => sret o
  | Some nla => v <- sget (λ _, nla_get_u32 buf nla) ;; sret (put_data bit (set v (ce_data o)) o)
  end.

(** An address of the message: [nl_addr_alloc_attr], something done to the address, and the
    pointer stored in the object; no memory is [-NLE_NOMEM]. *)
Definition take_addr {D} (buf : list Z) (nla : option Z) (family : Z) (f : nl_addr → nl_addr)
    (set : Z → D → D) (bit : Z) (r : Z * nl_object D) : St addrs (Z * nl_object D) :=
  match nla with
  | None => sret r
  | Some nla =>
      if r.1 <? 0 then sret r
      else
        p <- nl_addr_alloc_attr addr_calloc buf nla family ;;
        let o := set_body (ce_msgtype r.2) (ce_mask r.2) (set p (ce_data r.2)) r.2 in
        if p =? 0 then sret (- NLE_NOMEM, o)
        else
          a <- addr_at p ;;
          addr_set p (f a) ;;
          sret (0, put_data bit (ce_data o) o)
  end.

(** The end of a parser: the callback gets the object, and a reference is given back.  The
    result is the error and the object, if the callback kept a reference. *)
Definition deliver {D} `{Holder D} (pp_cb : nl_object D → St addrs (Z * nl_object D)) (r : Z * nl_object D)
    : St addrs (Z * option (nl_object D)) :=
  r <- (if r.1 <? 0 then sret r else pp_cb r.2) ;;
  o <- object_put r.2 ;;
  sret (r.1, o).
End Addresses.

(** ** Neighbours *)

Module Neigh.

Definition NEIGH_ATTR_FLAGS : Z := 0x01.
Definition NEIGH_ATTR_STATE : Z := 0x02.
Definition NEIGH_ATTR_LLADDR : Z := 0x04.
Definition NEIGH_ATTR_DST : Z := 0x08.
Definition NEIGH_ATTR_CACHEINFO : Z := 0x10.
Definition NEIGH_ATTR_IFINDEX : Z := 0x20.
Definition NEIGH_ATTR_FAMILY : Z := 0x40.
Definition NEIGH_ATTR_TYPE : Z := 0x80.
Definition NEIGH_ATTR_PROBES : Z := 0x100.

Definition NDA_DST : Z := 1.
Definition NDA_LLADDR : Z := 2.
Definition NDA_CACHEINFO : Z := 3.
Definition NDA_PROBES : Z := 4.
Definition NDA_MAX : Z := 4.
Definition NUD_PERMANENT : Z := 0x80.
Definition RTM_NEWNEIGH : Z := 28.
Definition RTM_DELNEIGH : Z := 29.
Definition sizeof_ndmsg : Z := 12.

(** [struct rtnl_ncacheinfo] *)
Record rtnl_ncacheinfo := mkNci { nci_confirmed : Z; nci_used : Z; nci_updated : Z; nci_refcnt : Z }.

(** [struct rtnl_neigh] without its header; [n_lladdr] and [n_dst] are pointers. *)
Record rtnl_neigh := mkNeigh {
  n_family : Z;
  n_ifindex : Z;
  n_state : Z;
  n_flags : Z;
  n_type : Z;
  n_lladdr : Z;
  n_dst : Z;
  n_probes : Z;
  n_cacheinfo : rtnl_ncacheinfo;
  n_state_mask : Z;
  n_flag_mask : Z;
}.

Definition n_set_head (family ifindex state flags type : Z) (n : rtnl_neigh) : rtnl_neigh :=
  mkNeigh family ifindex state flags type (n_lladdr n) (n_dst n) (n_probes n) (n_cacheinfo n) (n_state_mask n) (n_flag_mask n).
Definition n_set_lladdr (p : Z) (n : rtnl_neigh) : rtnl_neigh :=
  mkNeigh (n_family n) (n_ifindex n) (n_state n) (n_flags n) (n_type n) p (n_dst n) (n_probes n) (n_cacheinfo n)
    (n_state_mask n) (n_flag_mask n).
Definition n_set_dst (p : Z) (n : rtnl_neigh) : rtnl_neigh :=
  mkNeigh (n_family n) (n_ifindex n) (n_state n) (n_flags n) (n_type n) (n_lladdr n) p (n_probes n) (n_cacheinfo n)
    (n_state_mask n) (n_flag_mask n).
Definition n_set_probes (v : Z) (n : rtnl_neigh) : rtnl_neigh :=
  mkNeigh (n_family n) (n_ifindex n) (n_state n) (n_flags n) (n_type n) (n_lladdr n) (n_dst n) v (n_cacheinfo n)
    (n_state_mask n) (n_flag_mask n).
Definition n_set_cacheinfo (v : rtnl_ncacheinfo) (n : rtnl_neigh) : rtnl_neigh :=
  mkNeigh (n_family n) (n_ifindex n) (n_state n) (n_flags n) (n_type n) (n_lladdr n) (n_dst n) (n_probes n) v
    (n_state_mask n) (n_flag_mask n).
Definition n_set_masks (s f : Z) (n : rtnl_neigh) : rtnl_neigh :=
  mkNeigh (n_family n) (n_ifindex n) (n_state n) (n_flags n) (n_type n) (n_lladdr n) (n_dst n) (n_probes n) (n_cacheinfo n)
    s f.

Abbreviation neigh := (nl_object rtnl_neigh).

(** *** Attributes *)

Definition rtnl_neigh_set_state (state : Z) (o : neigh) : neigh :=
  let n := ce_data o in
  let n := n_set_masks (u32 (Z.lor (n_state_mask n) state)) (n_flag_mask n) n in
  put_data NEIGH_ATTR_STATE
    (n_set_head (n_family n) (n_ifindex n) (u16 (Z.lor (n_state n) state)) (n_flags n) (n_type n) n) o.

Definition rtnl_neigh_get_state (o : neigh) : Z := if has_attr NEIGH_ATTR_STATE o then n_state (ce_data o) else -1.

Definition rtnl_neigh_unset_state (state : Z) (o : neigh) : neigh :=
  let n := ce_data o in
  let n := n_set_masks (u32 (Z.lor (n_state_mask n) state)) (n_flag_mask n) n in
  put_data NEIGH_ATTR_STATE
    (n_set_head (n_family n) (n_ifindex n) (u16 (Z.land (n_state n) (Z.lnot state))) (n_flags n) (n_type n) n) o.

Definition rtnl_neigh_set_flags (flags : Z) (o : neigh) : neigh :=
  let n := ce_data o in
  let n := n_set_masks (n_state_mask n) (u32 (Z.lor (n_flag_mask n) flags)) n in
  put_data NEIGH_ATTR_FLAGS
    (n_set_head (n_family n) (n_ifindex n) (n_state n) (u8 (Z.lor (n_flags n) flags)) (n_type n) n) o.

Definition rtnl_neigh_get_flags (o : neigh) : Z := n_flags (ce_data o).

Definition rtnl_neigh_unset_flags (flags : Z) (o : neigh) : neigh :=
  let n := ce_data o in
  let n := n_set_masks (n_state_mask n) (u32 (Z.lor (n_flag_mask n) flags)) n in
  put_data NEIGH_ATTR_FLAGS
    (n_set_head (n_family n) (n_ifindex n) (n_state n) (u8 (Z.land (n_flags n) (Z.lnot flags))) (n_type n) n) o.

Definition rtnl_neigh_set_ifindex (ifindex : Z) (o : neigh) : neigh :=
  let n := ce_data o in
  put_data NEIGH_ATTR_IFINDEX (n_set_head (n_family n) (u32 ifindex) (n_state n) (n_flags n) (n_type n) n) o.

Definition rtnl_neigh_get_ifindex (o : neigh) : Z := s32 (n_ifindex (ce_data o)).

Definition rtnl_neigh_set_family (family : Z) (o : neigh) : neigh :=
  let n := ce_data o in
  put_data NEIGH_ATTR_FAMILY (n_set_head (u32 family) (n_ifindex n) (n_state n) (n_flags n) (n_type n) n) o.

Definition rtnl_neigh_get_family (o : neigh) : Z := s32 (n_family (ce_data o)).

(** The mask is assigned, not extended. *)
Definition rtnl_neigh_set_type (type : Z) (o : neigh) : neigh :=
  let n := ce_data o in
  set_body (ce_msgtype o) NEIGH_ATTR_TYPE (n_set_head (n_family n) (n_ifindex n) (n_state n) (n_flags n) (u8 type) n) o.

Definition rtnl_neigh_get_type (o : neigh) : Z := if has_attr NEIGH_ATTR_TYPE o then n_type (ce_data o) else -1.

(** The pointer, 0 for NULL. *)
Definition rtnl_neigh_get_lladdr (o : neigh) : Z := if has_attr NEIGH_ATTR_LLADDR o then n_lladdr (ce_data o) else 0.
Definition rtnl_neigh_get_dst (o : neigh) : Z := if has_attr NEIGH_ATTR_DST o then n_dst (ce_data o) else 0.

Section Neigh.
Context (addr_calloc : addrs → Z).
Local Open Scope state_scope.

(** The checks of [__assign_addr]: the error, or the object with its family set. *)
Definition neigh_check_family (new : Z) (o : neigh) : St addrs (Z * neigh) :=
  a <- addr_at new ;;
  let n := ce_data o in
  if has_attr NEIGH_ATTR_FAMILY o then
    if negb (u32 (a_family a) =? n_family n) then sret (- NLE_AF_MISMATCH, o) else sret (0, o)
  else
    sret (0, put_data NEIGH_ATTR_FAMILY
      (n_set_head (u32 (a_family a)) (n_ifindex n) (n_state n) (n_flags n) (n_type n) n) o).

(** [__assign_addr], with the pointer that is replaced and how it is set. *)
Definition neigh_assign_addr (pos : rtnl_neigh → Z) (set : Z → rtnl_neigh → rtnl_neigh) (new flag : Z) (nocheck : bool)
    (o : neigh) : St addrs (Z * neigh) :=
  r <- (if nocheck then sret (0, o) else neigh_check_family new o) ;;
  if r.1 <? 0 then sret r
  else
    let o := r.2 in
    (if negb (pos (ce_data o) =? 0) then nl_addr_put (pos (ce_data o)) else sret tt) ;;
    nl_addr_get new ;;
    sret (0, put_data flag (set new (ce_data o)) o).

Definition rtnl_neigh_set_lladdr (addr : Z) (o : neigh) : St addrs (Z * neigh) :=
  neigh_assign_addr n_lladdr n_set_lladdr addr NEIGH_ATTR_LLADDR true o.

Definition rtnl_neigh_set_dst (addr : Z) (o : neigh) : St addrs (Z * neigh) :=
  neigh_assign_addr n_dst n_set_dst addr NEIGH_ATTR_DST false o.

(** *** The operations of the type *)

Definition neigh_new : rtnl_neigh := mkNeigh 0 0 0 0 0 0 0 0 (mkNci 0 0 0 0) 0 0.

Definition neigh_free_data (n : rtnl_neigh) : St addrs unit := nl_addr_put (n_lladdr n) ;; nl_addr_put (n_dst n).

Definition neigh_clone (dst src : rtnl_neigh) : St addrs (Z * rtnl_neigh) :=
  p <- (if negb (n_lladdr src =? 0) then nl_addr_clone addr_calloc (n_lladdr src) else sret (n_lladdr dst)) ;;
  let dst := n_set_lladdr p dst in
  if negb (n_lladdr src =? 0) && (p =? 0) then sret (- NLE_NOMEM, dst)
  else
    q <- (if negb (n_dst src =? 0) then nl_addr_clone addr_calloc (n_dst src) else sret (n_dst dst)) ;;
    let dst := n_set_dst q dst in
    if negb (n_dst src =? 0) && (q =? 0) then sret (- NLE_NOMEM, dst) else sret (0, dst).

Definition neigh_compare (a b : neigh) (attrs flags : Z) : St addrs Z :=
  let x := ce_data a in
  let y := ce_data b in
  let DIFF attr expr := ATTR_DIFF attrs attr (ce_mask a) (ce_mask b) expr in
  let d := Z.lor (Z.lor (DIFF NEIGH_ATTR_IFINDEX (negb (n_ifindex x =? n_ifindex y)))
                        (DIFF NEIGH_ATTR_FAMILY (negb (n_family x =? n_family y))))
                 (DIFF NEIGH_ATTR_TYPE (negb (n_type x =? n_type y))) in
  dl <- attr_diff attrs NEIGH_ATTR_LLADDR (ce_mask a) (ce_mask b) (addr_differs (n_lladdr x) (n_lladdr y)) ;;
  dd <- attr_diff attrs NEIGH_ATTR_DST (ce_mask a) (ce_mask b) (addr_differs (n_dst x) (n_dst y)) ;;
  let d := Z.lor (Z.lor d dl) dd in
  if negb (Z.land flags LOOSE_COMPARISON =? 0) then
    sret (Z.lor (Z.lor d
      (DIFF NEIGH_ATTR_STATE (negb (Z.land (Z.lxor (n_state x) (n_state y)) (n_state_mask y) =? 0))))
      (DIFF NEIGH_ATTR_FLAGS (negb (Z.land (Z.lxor (n_flags x) (n_flags y)) (n_flag_mask y) =? 0))))
  else
    sret (Z.lor (Z.lor d (DIFF NEIGH_ATTR_STATE (negb (n_state x =? n_state y))))
                (DIFF NEIGH_ATTR_FLAGS (negb (n_flags x =? n_flags y)))).

(** *** Messages *)

Definition neigh_policy (t : Z) : nla_policy :=
  if t =? NDA_CACHEINFO then mkPolicy NLA_UNSPEC 16 0
  else if t =? NDA_PROBES then mkPolicy NLA_U32 0 0
  else no_policy.

(** The header [struct ndmsg] and the bits that it sets. *)
Definition neigh_parse_head (buf : list Z) (o : neigh) : St addrs neigh :=
  let nm := nlmsg_data 0 in
  family <- sget (λ _, ld 1 buf nm) ;;
  ifindex <- sget (λ _, ld 4 buf (nm + 4)) ;;
  state <- sget (λ _, ld 2 buf (nm + 8)) ;;
  flags <- sget (λ _, ld 1 buf (nm + 10)) ;;
  type <- sget (λ _, ld 1 buf (nm + 11)) ;;
  sret (put_data (Z.lor (Z.lor (Z.lor (Z.lor NEIGH_ATTR_FAMILY NEIGH_ATTR_IFINDEX) NEIGH_ATTR_STATE) NEIGH_ATTR_FLAGS)
                    NEIGH_ATTR_TYPE)
          (n_set_head family ifindex state flags type (ce_data o)) o).

(** [struct nda_cacheinfo] *)
Definition neigh_take_cacheinfo (buf : list Z) (nla : option Z) (o : neigh) : St addrs neigh :=
  match nla with
  | None => sret o
  | Some nla =>
      let ci := nla_data nla in
      confirmed <- sget (λ _, ld 4 buf ci) ;;
      used <- sget (λ _, ld 4 buf (ci + 4)) ;;
      updated <- sget (λ _, ld 4 buf (ci + 8)) ;;
      refcnt <- sget (λ _, ld 4 buf (ci + 12)) ;;
      sret (put_data NEIGH_ATTR_CACHEINFO (n_set_cacheinfo (mkNci confirmed used updated refcnt) (ce_data o)) o)
  end.

(** What the parser makes of the message, up to the callback. *)
Definition neigh_fill (buf : list Z) (o : neigh) : St addrs (Z * neigh) :=
  type <- sget (λ _, nlmsg_type buf 0) ;;
  let o := set_body type (ce_mask o) (ce_data o) o in
  r <- sget (λ _, nlmsg_parse buf 0 sizeof_ndmsg NDA_MAX (Some neigh_policy)) ;;
  match r with
  | (err, Some tb) =>
      if err <? 0 then sret (err, o)
      else
        o <- neigh_parse_head buf o ;;
        r <- take_addr addr_calloc buf (tb NDA_LLADDR) AF_UNSPEC
               (λ a, nl_addr_set_family (nl_addr_guess_family a) a) n_set_lladdr NEIGH_ATTR_LLADDR (0, o) ;;
        r <- take_addr addr_calloc buf (tb NDA_DST) (n_family (ce_data r.2)) id n_set_dst NEIGH_ATTR_DST r ;;
        if r.1 <? 0 then sret r
        else
          o <- neigh_take_cacheinfo buf (tb NDA_CACHEINFO) r.2 ;;
          o <- take_u32 buf (tb NDA_PROBES) n_set_probes NEIGH_ATTR_PROBES o ;;
          sret (0, o)
  | (err, None) => sret (err, o)
  end.

(** The header [struct ndmsg] of a request: flags and type are not sent. *)
Definition ndmsg (family ifindex state : Z) : list Z :=
  [u8 family; 0; 0; 0] ++ le_split 4 ifindex ++ le_split 2 state ++ [0; 0].

(** [size] is the default size of a message, [ok] whether there is memory for it. *)
Definition build_neigh_msg (size : Z) (ok : bool) (tmpl : neigh) (cmd flags : Z) : St addrs (Z * option nl_msg) :=
  let n := ce_data tmpl in
  if negb (has_attr NEIGH_ATTR_DST tmpl) then sret (- NLE_MISSING_ATTR, None)
  else
    a <- addr_at (n_dst n) ;;
    let state := if has_attr NEIGH_ATTR_STATE tmpl then n_state n else NUD_PERMANENT in
    if negb ok then sret (- NLE_NOMEM, None)
    else
      msg <- sget (λ _, nlmsg_alloc_simple size cmd flags) ;;
      r <- sget (λ _, nlmsg_append msg (ndmsg (nl_addr_get_family a) (n_ifindex n) state) 4) ;;
      r <- put_if true (λ msg, put_addr msg NDA_DST (n_dst n)) r ;;
      r <- put_if (has_attr NEIGH_ATTR_LLADDR tmpl) (λ msg, put_addr msg NDA_LLADDR (n_lladdr n)) r ;;
      sret (finish_msg r).

Definition rtnl_neigh_build_add_request (size : Z) (ok : bool) (tmpl : neigh) (flags : Z) : St addrs (Z * option nl_msg) :=
  build_neigh_msg size ok tmpl RTM_NEWNEIGH flags.

Definition rtnl_neigh_build_delete_request (size : Z) (ok : bool) (neigh : neigh) (flags : Z) : St addrs (Z * option nl_msg) :=
  build_neigh_msg size ok neigh RTM_DELNEIGH flags.

(** The first object of a cache with this interface and address, with a reference more, and
    the objects afterwards. *)
Fixpoint rtnl_neigh_get (items : list neigh) (ifindex dst : Z) : St addrs (option neigh * list neigh) :=
  match items with
  | [] => sret (None, [])
  | o :: items =>
      found <- (if n_ifindex (ce_data o) =? u32 ifindex then
                  d <- addr_differs (n_dst (ce_data o)) dst ;; sret (negb d)
                else sret false) ;;
      if found : bool then
        let o := set_refcnt (ce_refcnt o + 1) o in sret (Some o, o :: items)
      else
        r <- rtnl_neigh_get items ifindex dst ;; sret (r.1, o :: r.2)
  end.
End Neigh.

#[export] Instance neigh_holder : Holder rtnl_neigh := {|
  h_new := neigh_new;
  h_free_data := neigh_free_data;
  h_clone := neigh_clone;
|}.

(** [neigh_obj_ops.oo_id_attrs] *)
Definition neigh_id_attrs : Z := Z.lor (Z.lor NEIGH_ATTR_IFINDEX NEIGH_ATTR_DST) NEIGH_ATTR_FAMILY.

(** [ok] tells whether there is memory for the object; [ops] are the operations of the type. *)
Definition neigh_msg_parser (addr_calloc : addrs → Z) (ops : Z) (ok : bool)
    (pp_cb : neigh → St addrs (Z * neigh)) (buf : list Z) : St addrs (Z * option neigh) :=
  if negb ok then sret (- NLE_NOMEM, None)
  else sbind (neigh_fill addr_calloc buf (new_object ops)) (deliver pp_cb).
End Neigh.

(** ** Routing rules *)

Module Rule.

Definition RULE_ATTR_FAMILY : Z := 0x0001.
Definition RULE_ATTR_TABLE : Z := 0x0002.
Definition RULE_ATTR_ACTION : Z := 0x0004.
Definition RULE_ATTR_FLAGS : Z := 0x0008.
Definition RULE_ATTR_IIFNAME : Z := 0x0010.
Definition RULE_ATTR_OIFNAME : Z := 0x0020.
Definition RULE_ATTR_PRIO : Z := 0x0040.
Definition RULE_ATTR_MARK : Z := 0x0080.
Definition RULE_ATTR_MASK : Z := 0x0100.
Definition RULE_ATTR_GOTO : Z := 0x0200.
Definition RULE_ATTR_SRC : Z := 0x0400.
Definition RULE_ATTR_DST : Z := 0x0800.
Definition RULE_ATTR_DSFIELD : Z := 0x1000.
Definition RULE_ATTR_FLOW : Z := 0x2000.

Definition FRA_DST : Z := 1.
Definition FRA_SRC : Z := 2.
Definition FRA_IIFNAME : Z := 3.
Definition FRA_GOTO : Z := 4.
Definition FRA_PRIORITY : Z := 6.
Definition FRA_FWMARK : Z := 10.
Definition FRA_FLOW : Z := 11.
Definition FRA_TABLE : Z := 15.
Definition FRA_FWMASK : Z := 16.
Definition FRA_OIFNAME : Z := 17.
Definition FRA_MAX : Z := 17.
Definition RTM_NEWRULE : Z := 32.
Definition RTM_DELRULE : Z := 33.
Definition NLM_F_CREATE : Z := 0x400.
Definition sizeof_fib_rule_hdr : Z := 12.

(** The numbers of a rule. *)
Record rule_nums := mkNums {
  r_family : Z;
  r_action : Z;
  r_dsfield : Z;
  r_table : Z;
  r_flags : Z;
  r_prio : Z;
  r_mark : Z;
  r_mask : Z;
  r_goto : Z;
  r_flow : Z;
}.

(** [struct rtnl_rule] without its header; [r_src] and [r_dst] are pointers, the names are
    arrays of [IFNAMSIZ] bytes. *)
Record rtnl_rule := mkRule {
  r_nums : rule_nums;
  r_src : Z;
  r_dst : Z;
  r_iifname : list Z;
  r_oifname : list Z;
}.

Definition r_set_family (v : Z) (k : rule_nums) : rule_nums :=
  mkNums v (r_action k) (r_dsfield k) (r_table k) (r_flags k) (r_prio k) (r_mark k) (r_mask k) (r_goto k) (r_flow k).
Definition r_set_action (v : Z) (k : rule_nums) : rule_nums :=
  mkNums (r_family k) v (r_dsfield k) (r_table k) (r_flags k) (r_prio k) (r_mark k) (r_mask k) (r_goto k) (r_flow k).
Definition r_set_dsfield (v : Z) (k : rule_nums) : rule_nums :=
  mkNums (r_family k) (r_action k) v (r_table k) (r_flags k) (r_prio k) (r_mark k) (r_mask k) (r_goto k) (r_flow k).
Definition r_set_table (v : Z) (k : rule_nums) : rule_nums :=
  mkNums (r_family k) (r_action k) (r_dsfield k) v (r_flags k) (r_prio k) (r_mark k) (r_mask k) (r_goto k) (r_flow k).
Definition r_set_rflags (v : Z) (k : rule_nums) : rule_nums :=
  mkNums (r_family k) (r_action k) (r_dsfield k) (r_table k) v (r_prio k) (r_mark k) (r_mask k) (r_goto k) (r_flow k).
Definition r_set_prio (v : Z) (k : rule_nums) : rule_nums :=
  mkNums (r_family k) (r_action k) (r_dsfield k) (r_table k) (r_flags k) v (r_mark k) (r_mask k) (r_goto k) (r_flow k).
Definition r_set_mark (v : Z) (k : rule_nums) : rule_nums :=
  mkNums (r_family k) (r_action k) (r_dsfield k) (r_table k) (r_flags k) (r_prio k) v (r_mask k) (r_goto k) (r_flow k).
Definition r_set_mask (v : Z) (k : rule_nums) : rule_nums :=
  mkNums (r_family k) (r_action k) (r_dsfield k) (r_table k) (r_flags k) (r_prio k) (r_mark k) v (r_goto k) (r_flow k).
Definition r_set_goto (v : Z) (k : rule_nums) : rule_nums :=
  mkNums (r_family k) (r_action k) (r_dsfield k) (r_table k) (r_flags k) (r_prio k) (r_mark k) (r_mask k) v (r_flow k).
Definition r_set_flow (v : Z) (k : rule_nums) : rule_nums :=
  mkNums (r_family k) (r_action k) (r_dsfield k) (r_table k) (r_flags k) (r_prio k) (r_mark k) (r_mask k) (r_goto k) v.

(** A change of the numbers, of the addresses and of the names. *)
Definition on_nums (f : rule_nums → rule_nums) (r : rtnl_rule) : rtnl_rule :=
  mkRule (f (r_nums r)) (r_src r) (r_dst r) (r_iifname r) (r_oifname r).
Definition r_set_src (p : Z) (r : rtnl_rule) : rtnl_rule := mkRule (r_nums r) p (r_dst r) (r_iifname r) (r_oifname r).
Definition r_set_dst (p : Z) (r : rtnl_rule) : rtnl_rule := mkRule (r_nums r) (r_src r) p (r_iifname r) (r_oifname r).
Definition r_set_iifname (s : list Z) (r : rtnl_rule) : rtnl_rule := mkRule (r_nums r) (r_src r) (r_dst r) s (r_oifname r).
Definition r_set_oifname (s : list Z) (r : rtnl_rule) : rtnl_rule := mkRule (r_nums r) (r_src r) (r_dst r) (r_iifname r) s.

Abbreviation rule := (nl_object rtnl_rule).

(** *** Attributes *)

Definition set_num (bit : Z) (f : rule_nums → rule_nums) (o : rule) : rule := put_data bit (on_nums f (ce_data o)) o.
Definition num (f : rule_nums → Z) (o : rule) : Z := f (r_nums (ce_data o)).

Definition rtnl_rule_set_family (v : Z) : rule → rule := set_num RULE_ATTR_FAMILY (r_set_family (u8 v)).
Definition rtnl_rule_get_family (o : rule) : Z := if has_attr RULE_ATTR_FAMILY o then num r_family o else AF_UNSPEC.
Definition rtnl_rule_set_prio (v : Z) : rule → rule := set_num RULE_ATTR_PRIO (r_set_prio v).
Definition rtnl_rule_get_prio (o : rule) : Z := num r_prio o.
Definition rtnl_rule_set_mark (v : Z) : rule → rule := set_num RULE_ATTR_MARK (r_set_mark v).
Definition rtnl_rule_get_mark (o : rule) : Z := num r_mark o.
Definition rtnl_rule_set_mask (v : Z) : rule → rule := set_num RULE_ATTR_MASK (r_set_mask v).
Definition rtnl_rule_get_mask (o : rule) : Z := num r_mask o.
Definition rtnl_rule_set_table (v : Z) : rule → rule := set_num RULE_ATTR_TABLE (r_set_table v).
Definition rtnl_rule_get_table (o : rule) : Z := num r_table o.
Definition rtnl_rule_set_dsfield (v : Z) : rule → rule := set_num RULE_ATTR_DSFIELD (r_set_dsfield v).
Definition rtnl_rule_get_dsfield (o : rule) : Z := num r_dsfield o.
Definition rtnl_rule_set_action (v : Z) : rule → rule := set_num RULE_ATTR_ACTION (r_set_action v).
Definition rtnl_rule_get_action (o : rule) : Z := num r_action o.
Definition rtnl_rule_set_realms (v : Z) : rule → rule := set_num RULE_ATTR_FLOW (r_set_flow v).
Definition rtnl_rule_get_realms (o : rule) : Z := num r_flow o.
Definition rtnl_rule_set_goto (v : Z) : rule → rule := set_num RULE_ATTR_GOTO (r_set_goto v).
Definition rtnl_rule_get_goto (o : rule) : Z := num r_goto o.
Definition rtnl_rule_get_src (o : rule) : Z := r_src (ce_data o).
Definition rtnl_rule_get_dst (o : rule) : Z := r_dst (ce_data o).

(** [dev] without its NUL. *)
Definition rtnl_rule_set_iif (dev : list Z) (o : rule) : option (Z * rule) :=
  if IFNAMSIZ - 1 <? zlen dev then Some (- NLE_RANGE, o)
  else s ← st (r_iifname (ce_data o)) 0 (dev ++ [0]); Some (0, put_data RULE_ATTR_IIFNAME (r_set_iifname s (ce_data o)) o).

Definition rtnl_rule_get_iif (o : rule) : option (list Z) :=
  if has_attr RULE_ATTR_IIFNAME o then Some (r_iifname (ce_data o)) else None.

Definition rtnl_rule_set_oif (dev : list Z) (o : rule) : option (Z * rule) :=
  if IFNAMSIZ - 1 <? zlen dev then Some (- NLE_RANGE, o)
  else s ← st (r_oifname (ce_data o)) 0 (dev ++ [0]); Some (0, put_data RULE_ATTR_OIFNAME (r_set_oifname s (ce_data o)) o).

Definition rtnl_rule_get_oif (o : rule) : option (list Z) :=
  if has_attr RULE_ATTR_OIFNAME o then Some (r_oifname (ce_data o)) else None.

Section Rule.
Context (addr_calloc : addrs → Z).
Local Open Scope state_scope.

(** [__assign_addr], with the pointer that is replaced and how it is set. *)
Definition rule_assign_addr (pos : rtnl_rule → Z) (set : Z → rtnl_rule → rtnl_rule) (new flag : Z) (o : rule)
    : St addrs (Z * rule) :=
  a <- addr_at new ;;
  if has_attr RULE_ATTR_FAMILY o && negb (a_family a =? num r_family o) then sret (- NLE_AF_MISMATCH, o)
  else
    let o := if has_attr RULE_ATTR_FAMILY o then o
             else set_body (ce_msgtype o) (ce_mask o) (on_nums (r_set_family (u8 (a_family a))) (ce_data o)) o in
    (if negb (pos (ce_data o) =? 0) then nl_addr_put (pos (ce_data o)) else sret tt) ;;
    nl_addr_get new ;;
    sret (0, put_data (Z.lor flag RULE_ATTR_FAMILY) (set new (ce_data o)) o).

Definition rtnl_rule_set_src (src : Z) (o : rule) : St addrs (Z * rule) :=
  rule_assign_addr r_src r_set_src src RULE_ATTR_SRC o.

Definition rtnl_rule_set_dst (dst : Z) (o : rule) : St addrs (Z * rule) :=
  rule_assign_addr r_dst r_set_dst dst RULE_ATTR_DST o.

(** *** The operations of the type *)

Definition rule_new : rtnl_rule := mkRule (mkNums 0 0 0 0 0 0 0 0 0 0) 0 0 (replicate 16 0) (replicate 16 0).

Definition rule_free_data (r : rtnl_rule) : St addrs unit := nl_addr_put (r_src r) ;; nl_addr_put (r_dst r).

Definition rule_clone (dst src : rtnl_rule) : St addrs (Z * rtnl_rule) :=
  p <- (if negb (r_src src =? 0) then nl_addr_clone addr_calloc (r_src src) else sret (r_src dst)) ;;
  let dst := r_set_src p dst in
  if negb (r_src src =? 0) && (p =? 0) then sret (- NLE_NOMEM, dst)
  else
    q <- (if negb (r_dst src =? 0) then nl_addr_clone addr_calloc (r_dst src) else sret (r_dst dst)) ;;
    let dst := r_set_dst q dst in
    if negb (r_dst src =? 0) && (q =? 0) then sret (- NLE_NOMEM, dst) else sret (0, dst).

Definition rule_compare (a b : rule) (attrs flags : Z) : St addrs Z :=
  let x := ce_data a in
  let y := ce_data b in
  let DIFF attr f := ATTR_DIFF attrs attr (ce_mask a) (ce_mask b) (negb (num f a =? num f b)) in
  let DIFFM attr e := attr_diff attrs attr (ce_mask a) (ce_mask b) e in
  di <- DIFFM RULE_ATTR_IIFNAME (str_differs (r_iifname x) (r_iifname y)) ;;
  do_ <- DIFFM RULE_ATTR_OIFNAME (str_differs (r_oifname x) (r_oifname y)) ;;
  ds <- DIFFM RULE_ATTR_SRC (addr_differs (r_src x) (r_src y)) ;;
  dd <- DIFFM RULE_ATTR_DST (addr_differs (r_dst x) (r_dst y)) ;;
  sret (foldl Z.lor 0
    [DIFF RULE_ATTR_FAMILY r_family; DIFF RULE_ATTR_TABLE r_table; DIFF RULE_ATTR_ACTION r_action; di; do_;
     DIFF RULE_ATTR_PRIO r_prio; DIFF RULE_ATTR_MARK r_mark; DIFF RULE_ATTR_MASK r_mask; DIFF RULE_ATTR_GOTO r_goto;
     ds; dd; DIFF RULE_ATTR_DSFIELD r_dsfield; DIFF RULE_ATTR_FLOW r_flow]).

(** *** Messages *)

Definition rule_policy (t : Z) : nla_policy :=
  if (t =? FRA_IIFNAME) || (t =? FRA_OIFNAME) then mkPolicy NLA_STRING 0 IFNAMSIZ
  else if (t =? FRA_TABLE) || (t =? FRA_PRIORITY) || (t =? FRA_FWMARK) || (t =? FRA_FWMASK) || (t =? FRA_GOTO) || (t =? FRA_FLOW)
  then mkPolicy NLA_U32 0 0
  else no_policy.

(** The header [struct fib_rule_hdr]; the mask is assigned. *)
Definition rule_parse_head (buf : list Z) (o : rule) : St addrs rule :=
  let frh := nlmsg_data 0 in
  family <- sget (λ _, ld 1 buf frh) ;;
  table <- sget (λ _, ld 1 buf (frh + 4)) ;;
  action <- sget (λ _, ld 1 buf (frh + 7)) ;;
  flags <- sget (λ _, ld 4 buf (frh + 8)) ;;
  tos <- sget (λ _, ld 1 buf (frh + 3)) ;;
  let k := r_set_rflags flags (r_set_action action (r_set_table table (r_set_family family (r_nums (ce_data o))))) in
  let o := set_body (ce_msgtype o) (Z.lor (Z.lor (Z.lor RULE_ATTR_FAMILY RULE_ATTR_TABLE) RULE_ATTR_ACTION) RULE_ATTR_FLAGS)
             (on_nums (λ _, k) (ce_data o)) o in
  sret (if negb (tos =? 0) then set_num RULE_ATTR_DSFIELD (r_set_dsfield tos) o else o).

(** [nla_strlcpy(name, tb[TYPE], IFNAMSIZ)] *)
Definition rule_take_name (buf : list Z) (nla : option Z) (name : rtnl_rule → list Z) (set : list Z → rtnl_rule → rtnl_rule)
    (bit : Z) (o : rule) : St addrs rule :=
  match nla with
  | None => sret o
  | Some nla =>
      r <- sget (λ _, nla_strlcpy (name (ce_data o)) buf nla IFNAMSIZ) ;;
      sret (put_data bit (set r.2 (ce_data o)) o)
  end.

(** What the parser makes of the message, up to the callback. *)
Definition rule_fill (buf : list Z) (o : rule) : St addrs (Z * rule) :=
  type <- sget (λ _, nlmsg_type buf 0) ;;
  let o := set_body type (ce_mask o) (ce_data o) o in
  r <- sget (λ _, nlmsg_parse buf 0 sizeof_fib_rule_hdr FRA_MAX (Some rule_policy)) ;;
  match r with
  | (err, Some tb) =>
      if err <? 0 then sret (err, o)
      else
        o <- rule_parse_head buf o ;;
        let family := num r_family o in
        o <- take_u32 buf (tb FRA_TABLE) (λ v, on_nums (r_set_table v)) RULE_ATTR_TABLE o ;;
        o <- rule_take_name buf (tb FRA_IIFNAME) r_iifname r_set_iifname RULE_ATTR_IIFNAME o ;;
        o <- rule_take_name buf (tb FRA_OIFNAME) r_oifname r_set_oifname RULE_ATTR_OIFNAME o ;;
        o <- take_u32 buf (tb FRA_PRIORITY) (λ v, on_nums (r_set_prio v)) RULE_ATTR_PRIO o ;;
        o <- take_u32 buf (tb FRA_FWMARK) (λ v, on_nums (r_set_mark v)) RULE_ATTR_MARK o ;;
        o <- take_u32 buf (tb FRA_FWMASK) (λ v, on_nums (r_set_mask v)) RULE_ATTR_MASK o ;;
        o <- take_u32 buf (tb FRA_GOTO) (λ v, on_nums (r_set_goto v)) RULE_ATTR_GOTO o ;;
        src_len <- sget (λ _, ld 1 buf (nlmsg_data 0 + 2)) ;;
        dst_len <- sget (λ _, ld 1 buf (nlmsg_data 0 + 1)) ;;
        r <- take_addr addr_calloc buf (tb FRA_SRC) family (nl_addr_set_prefixlen src_len) r_set_src RULE_ATTR_SRC (0, o) ;;
        r <- take_addr addr_calloc buf (tb FRA_DST) family (nl_addr_set_prefixlen dst_len) r_set_dst RULE_ATTR_DST r ;;
        if r.1 <? 0 then sret r
        else
          o <- take_u32 buf (tb FRA_FLOW) (λ v, on_nums (r_set_flow v)) RULE_ATTR_FLOW r.2 ;;
          sret (0, o)
  | (err, None) => sret (err, o)
  end.

(** The header [struct fib_rule_hdr] of a request, as it is appended to the message: the
    prefix lengths are assigned only afterwards, to the local variable. *)
Definition fib_rule_hdr (k : rule_nums) : list Z :=
  [u8 (r_family k); 0; 0; u8 (r_dsfield k); u8 (r_table k); 0; 0; u8 (r_action k)] ++ le_split 4 (r_flags k).

(** [NLA_PUT_STRING(msg, attrtype, name)] of an array. *)
Definition put_name (msg : nl_msg) (attrtype : Z) (name : list Z) : St addrs (Z * nl_msg) :=
  s <- sget (λ _, c_string name) ;; sget (λ _, nla_put_string msg attrtype s).

Definition build_rule_msg (size : Z) (ok : bool) (tmpl : rule) (cmd flags : Z) : St addrs (Z * option nl_msg) :=
  let r := ce_data tmpl in
  if negb (has_attr RULE_ATTR_FAMILY tmpl) then sret (- NLE_MISSING_ATTR, None)
  else if negb ok then sret (- NLE_NOMEM, None)
  else
    msg <- sget (λ _, nlmsg_alloc_simple size cmd flags) ;;
    x <- sget (λ _, nlmsg_append msg (fib_rule_hdr (r_nums r)) 4) ;;
    x <- put_if (has_attr RULE_ATTR_SRC tmpl) (λ msg, put_addr msg FRA_SRC (r_src r)) x ;;
    x <- put_if (has_attr RULE_ATTR_DST tmpl) (λ msg, put_addr msg FRA_DST (r_dst r)) x ;;
    x <- put_if (has_attr RULE_ATTR_IIFNAME tmpl) (λ msg, put_name msg FRA_IIFNAME (r_iifname r)) x ;;
    x <- put_if (has_attr RULE_ATTR_OIFNAME tmpl) (λ msg, put_name msg FRA_OIFNAME (r_oifname r)) x ;;
    let put_num bit ty f x := put_if (has_attr bit tmpl) (λ msg, sget (λ _, nla_put_u32 msg ty (num f tmpl))) x in
    x <- put_num RULE_ATTR_PRIO FRA_PRIORITY r_prio x ;;
    x <- put_num RULE_ATTR_MARK FRA_FWMARK r_mark x ;;
    x <- put_num RULE_ATTR_MASK FRA_FWMASK r_mask x ;;
    x <- put_num RULE_ATTR_GOTO FRA_GOTO r_goto x ;;
    x <- put_num RULE_ATTR_FLOW FRA_FLOW r_flow x ;;
    sret (finish_msg x).

Definition rtnl_rule_build_add_request (size : Z) (ok : bool) (tmpl : rule) (flags : Z) : St addrs (Z * option nl_msg) :=
  build_rule_msg size ok tmpl RTM_NEWRULE (Z.lor NLM_F_CREATE flags).

Definition rtnl_rule_build_delete_request (size : Z) (ok : bool) (rule : rule) (flags : Z) : St addrs (Z * option nl_msg) :=
  build_rule_msg size ok rule RTM_DELRULE flags.
End Rule.

#[export] Instance rule_holder : Holder rtnl_rule := {|
  h_new := rule_new;
  h_free_data := rule_free_data;
  h_clone := rule_clone;
|}.

(** [ok] tells whether there is memory for the object; [ops] are the operations of the type. *)
Definition rule_msg_parser (addr_calloc : addrs → Z) (ops : Z) (ok : bool)
    (pp_cb : rule → St addrs (Z * rule)) (buf : list Z) : St addrs (Z * option rule) :=
  if negb ok then sret (- NLE_NOMEM, None)
  else sbind (rule_fill addr_calloc buf (new_object ops)) (deliver pp_cb).
End Rule.
