(* ===== verification/RtOk.v ===== *)
(** * Routing objects: the addresses they hold and the messages they make

    The references of an object to its addresses are counted like those of the program; a
    class states what a type of objects promises, neighbours and rules are its instances, and
    programs on objects of any such type are proved against the class.  A message that is
    built from an object is read back as that object, up to what the code leaves out. *)

From Stdlib Require Import Btauto.
From S2P Require Import Prelude Packet Netlink NlError Text Attr CStr Addr AddrOk Recv NlList Objects RtObj.
Import Nl.

(** ** References held by objects *)

(** The number of pointers to [q] among [ps]; NULL is none. *)
Definition cnt (ps : list Z) (q : Z) : Z := if q =? 0 then 0 else Z.of_nat (length (filter (eq q) ps)).

(** The references [ext] of the program and those of [ps]. *)
Definition held (ps : list Z) (ext : Z → Z) : Z → Z := λ q, ext q + cnt ps q.

Lemma cnt_nonneg ps q : 0 ≤ cnt ps q.
Proof. unfold cnt. destruct (q =? 0); lia. Qed.

Lemma cnt_app ps qs q : cnt (ps ++ qs) q = cnt ps q + cnt qs q.
Proof. unfold cnt. destruct (q =? 0); [done|]. rewrite list.filter_app, length_app. lia. Qed.

Lemma cnt_one p q : cnt [p] q = if (q =? p) && negb (p =? 0) then 1 else 0.
Proof.
  unfold cnt. rewrite list.filter_cons, list.filter_nil. destruct (Z.eqb_spec q 0) as [->|H0].
  - destruct (Z.eqb_spec 0 p) as [<-|]; done.
  - destruct (Z.eqb_spec q p) as [->|Hp].
    + rewrite decide_True, (proj2 (Z.eqb_neq p 0)) by done. done.
    + by rewrite decide_False.
Qed.

Lemma cnt_cons p ps q : cnt (p :: ps) q = (if (q =? p) && negb (p =? 0) then 1 else 0) + cnt ps q.
Proof. change (p :: ps) with ([p] ++ ps). by rewrite cnt_app, cnt_one. Qed.

Lemma cnt_nil q : cnt [] q = 0.
Proof. unfold cnt. by destruct (q =? 0). Qed.

Lemma cnt_self p ps : p ≠ 0 → 0 < cnt (p :: ps) p.
Proof. intros Hp. rewrite cnt_cons, Z.eqb_refl, (proj2 (Z.eqb_neq p 0)) by done. cbn. pose proof (cnt_nonneg ps p). lia. Qed.

Section Counted.
Implicit Types (m : gmap Z nl_addr) (ext : Z → Z).

(** A pointer of an object is given back. *)
Lemma put_held ext ps p m :
  counted (held (p :: ps) ext) m → (∀ q, 0 ≤ ext q) →
  ∃ m', nl_addr_put p m = Some (tt, m') ∧ counted (held ps ext) m'.
Proof.
  intros Hc He. destruct (put_counted _ _ p Hc) as (m' & E & Hc').
  { destruct (Z.eq_dec p 0) as [->|Hp]; [by left|right]. unfold held. pose proof (cnt_self p ps Hp). specialize (He p). lia. }
  exists m'. split; [done|]. eapply counted_same; [exact Hc'|]. intros q. unfold held. rewrite cnt_cons.
  destruct ((q =? p) && negb (p =? 0)); lia.
Qed.

(** A new reference to an address that is held. *)
Lemma get_held ext ps p m :
  counted (held ps ext) m → 0 < held ps ext p →
  ∃ m', nl_addr_get p m = Some (p, m') ∧ counted (held (p :: ps) ext) m'.
Proof.
  intros Hc Hp. destruct (counted_held _ _ _ Hc Hp) as (_ & _ & _ & _ & Hp0).
  destruct (get_counted _ _ _ Hc Hp) as (m' & E & Hc'). exists m'. split; [done|].
  eapply counted_same; [exact Hc'|]. intros q. unfold held. rewrite cnt_cons, (proj2 (Z.eqb_neq p 0)), andb_true_r by done.
  destruct (q =? p); lia.
Qed.

(** A copy of an address that is held. *)
Lemma clone_held addr_calloc ext ps p m :
  addr_calloc_ok addr_calloc → addr_calloc m ≠ 0 → counted (held ps ext) m → 0 < held ps ext p →
  ∃ q m', nl_addr_clone addr_calloc p m = Some (q, m') ∧ q ≠ 0 ∧ counted (held (q :: ps) ext) m'.
Proof.
  intros Hca Hm Hc Hp. destruct (counted_held _ _ _ Hc Hp) as (a & Ha & _ & Hw & _).
  destruct (clone_makes addr_calloc p a m Ha Hw) as [ [? _]|[_ E] ]; [done|].
  pose proof (addr_exec_ok addr_calloc (held ps ext) m (AClone p) Hca Hc Hp) as (r & m' & E' & Hc').
  cbn [addr_exec addr_after] in *. rewrite E in E'. injection E' as <- <-.
  assert (held ps ext (addr_calloc m) = 0) as H0.
  { apply (ct_dead _ _ Hc). by destruct (Hca m). }
  do 2 eexists. split; [exact E|]. split; [done|]. eapply counted_same; [exact Hc'|].
  intros q. cbv beta. unfold held in *. rewrite cnt_cons. destruct (Z.eqb_spec q (addr_calloc m)) as [->|]; cbn [andb]; [|lia].
  destruct (negb _); lia.
Qed.
End Counted.

(** ** What a type of objects promises *)

Class HolderOk (D : Type) `{Holder D} := {
  (** the pointers of a payload *)
  h_ptrs : D → list Z;
  h_new_ok q : cnt (h_ptrs h_new) q = 0;
  h_free_ok d ext m :
    counted (held (h_ptrs d) ext) m → (∀ q, 0 ≤ ext q) →
    ∃ m', h_free_data d m = Some (tt, m') ∧ counted ext m';
  h_clone_ok addr_calloc d ext m :
    addr_calloc_ok addr_calloc → (∀ m, addr_calloc m ≠ 0) → counted (held (h_ptrs d) ext) m → (∀ q, 0 ≤ ext q) →
    ∃ d' m', h_clone addr_calloc d d m = Some ((0, d'), m') ∧ counted (held (h_ptrs d' ++ h_ptrs d) ext) m';
  (** the setters of pointers *)
  h_set : bool → Z → nl_object D → St addrs (Z * nl_object D);
  h_set_ok k p o ext m :
    counted (held (h_ptrs (ce_data o)) ext) m → (∀ q, 0 ≤ ext q) → 0 < ext p →
    ∃ err o' m', h_set k p o m = Some ((err, o'), m') ∧ counted (held (h_ptrs (ce_data o')) ext) m' ∧
      ce_refcnt o' = ce_refcnt o ∧ ce_cache o' = ce_cache o;
}.

(** Two pointers, as both types have them. *)
Lemma free_two p q ext m :
  counted (held [p; q] ext) m → (∀ q, 0 ≤ ext q) →
  ∃ m', sbind (nl_addr_put p) (λ _, nl_addr_put q) m = Some (tt, m') ∧ counted ext m'.
Proof.
  intros Hc He. destruct (put_held _ _ _ _ Hc He) as (m1 & E1 & H1). destruct (put_held _ _ _ _ H1 He) as (m2 & E2 & H2).
  exists m2. rewrite (sbind_some _ _ _ _ _ E1). split; [done|]. eapply counted_same; [exact H2|].
  intros x. unfold held. rewrite cnt_nil. lia.
Qed.

(** One pointer of a clone. *)
Lemma clone_one addr_calloc p ps ext m :
  addr_calloc_ok addr_calloc → (∀ m, addr_calloc m ≠ 0) → counted (held ps ext) m → p = 0 ∨ 0 < held ps ext p →
  ∃ q m', (if negb (p =? 0) then nl_addr_clone addr_calloc p else sret p) m = Some (q, m') ∧
    negb (p =? 0) && (q =? 0) = false ∧ counted (held (q :: ps) ext) m'.
Proof.
  intros Hca Hm Hc Hp. destruct (Z.eqb_spec p 0) as [->|Hp0]; cbn [negb].
  - exists 0, m. split; [done|]. split; [done|]. eapply counted_same; [exact Hc|]. intros x. unfold held. rewrite cnt_cons.
    rewrite andb_false_r. lia.
  - destruct Hp as [?|Hp]; [done|]. destruct (clone_held addr_calloc _ _ _ _ Hca (Hm m) Hc Hp) as (q & m' & E & Hq & Hc').
    exists q, m'. split; [done|]. split; [|done]. by apply Z.eqb_neq in Hq as ->.
Qed.

Lemma ptr_held p ps ext : p ∈ ps → (∀ q, 0 ≤ ext q) → p = 0 ∨ 0 < held ps ext p.
Proof.
  intros Hin He. destruct (Z.eq_dec p 0) as [->|Hp]; [by left|right]. apply list_elem_of_split in Hin as (l1 & l2 & ->).
  unfold held. rewrite cnt_app. pose proof (cnt_self p l2 Hp). pose proof (cnt_nonneg l1 p). specialize (He p). lia.
Qed.

(** [if ( *pos) nl_addr_put( *pos); nl_addr_get(new);] *)
Lemma replace_ok p new ps ext m :
  counted (held (p :: ps) ext) m → (∀ q, 0 ≤ ext q) → 0 < ext new →
  ∃ m1 m', (if negb (p =? 0) then nl_addr_put p else sret tt) m = Some (tt, m1) ∧ nl_addr_get new m1 = Some (new, m') ∧
    counted (held (new :: ps) ext) m'.
Proof.
  intros Hc He Hn. assert (∃ m1, (if negb (p =? 0) then nl_addr_put p else sret tt) m = Some (tt, m1) ∧ counted (held ps ext) m1) as (m1 & E1 & H1).
  { destruct (Z.eqb_spec p 0) as [->|Hp]; cbn [negb].
    - exists m. split; [done|]. eapply counted_same; [exact Hc|]. intros x. unfold held. rewrite cnt_cons, andb_false_r. lia.
    - destruct (put_held _ _ _ _ Hc He) as (m1 & E1 & H1). by exists m1. }
  destruct (get_held ext ps new m1 H1) as (m2 & E2 & H2); [unfold held; pose proof (cnt_nonneg ps new); lia|].
  by exists m1, m2.
Qed.

Lemma counted_perm l k ext m : l ≡ₚ k → counted (held l ext) m → counted (held k ext) m.
Proof.
  intros Hlk Hl. eapply counted_same; [exact Hl|]. intros q. unfold held, cnt. destruct (q =? 0); [done|]. by rewrite Hlk.
Qed.

(** *** Neighbours *)

Section NeighOk.
Import Neigh.

Definition n_ptrs (n : rtnl_neigh) : list Z := [n_lladdr n; n_dst n].

(** The family is checked or set; the pointers stay. *)
Lemma check_family_ok new o ext m :
  counted ext m → 0 < ext new →
  ∃ err o', neigh_check_family new o m = Some ((err, o'), m) ∧ n_ptrs (ce_data o') = n_ptrs (ce_data o) ∧
    ce_refcnt o' = ce_refcnt o ∧ ce_cache o' = ce_cache o.
Proof.
  intros Hc Hn. destruct (counted_held _ _ _ Hc Hn) as (a & Ha & _). unfold neigh_check_family, addr_at.
  rewrite (sbind_some _ _ _ a m) by (unfold sget; by rewrite Ha). destruct (has_attr _ o); [destruct (negb _)|]; by do 2 eexists.
Qed.

Lemma neigh_assign_ok pos set other new flag nocheck o ext m :
  (∀ n p, n_ptrs n ≡ₚ [pos n; other n] ∧ n_ptrs (set p n) ≡ₚ [p; other n]) →
  counted (held (n_ptrs (ce_data o)) ext) m → (∀ q, 0 ≤ ext q) → 0 < ext new →
  ∃ err o' m', neigh_assign_addr pos set new flag nocheck o m = Some ((err, o'), m') ∧
    counted (held (n_ptrs (ce_data o')) ext) m' ∧ ce_refcnt o' = ce_refcnt o ∧ ce_cache o' = ce_cache o.
Proof.
  intros Hset Hc He Hn. assert (∃ err o1, (if nocheck then sret (0, o) else neigh_check_family new o) m = Some ((err, o1), m) ∧
    n_ptrs (ce_data o1) = n_ptrs (ce_data o) ∧ ce_refcnt o1 = ce_refcnt o ∧ ce_cache o1 = ce_cache o) as (err & o1 & E1 & Ep & Er & Ec).
  { destruct nocheck; [by exists 0, o|]. eapply check_family_ok; [exact Hc|]. unfold held. pose proof (cnt_nonneg (n_ptrs (ce_data o)) new). lia. }
  unfold neigh_assign_addr. rewrite (sbind_some _ _ _ _ _ E1). cbn [fst snd]. destruct (err <? 0).
  { exists err, o1, m. rewrite Ep. by split. }
  rewrite <- Ep in Hc. apply (counted_perm _ _ _ _ (proj1 (Hset (ce_data o1) 0))) in Hc.
  destruct (replace_ok _ new _ ext m Hc He Hn) as (m1 & m' & E2 & E3 & Hc').
  rewrite (sbind_some _ _ _ _ _ E2), (sbind_some _ _ _ _ _ E3).
  do 3 eexists. split; [done|]. split; [|done]. eapply counted_perm; [|exact Hc']. symmetry. apply Hset.
Qed.

#[export] Program Instance neigh_ok : HolderOk rtnl_neigh := {|
  h_ptrs := n_ptrs;
  h_set k p o := if k : bool then rtnl_neigh_set_lladdr p o else rtnl_neigh_set_dst p o;
|}.
Next Obligation. intros q. unfold n_ptrs. rewrite !cnt_cons, cnt_nil. cbn. by rewrite andb_false_r. Qed.
Next Obligation. intros n ext m. apply free_two. Qed.
Next Obligation.
  intros calloc n ext m Hca Hm Hc He. cbn [h_clone neigh_holder]. unfold neigh_clone.
  destruct (clone_one calloc (n_lladdr n) _ ext m Hca Hm Hc) as (p & m1 & E1 & T1 & H1); [apply ptr_held; [set_solver|done]|].
  rewrite (sbind_some _ _ _ _ _ E1), T1. cbv iota.
  destruct (clone_one calloc (n_dst n) _ ext m1 Hca Hm H1) as (q & m2 & E2 & T2 & H2); [apply ptr_held; [set_solver|done]|].
  assert ((if negb (n_dst n =? 0) then nl_addr_clone calloc (n_dst n) else sret (n_dst (n_set_lladdr p n))) m1 = Some (q, m2)) as E2' by exact E2.
  rewrite (sbind_some _ _ _ _ _ E2'), T2. do 2 eexists. split; [done|]. eapply counted_same; [exact H2|].
  intros x. unfold held. cbn [app n_ptrs n_set_dst n_set_lladdr n_lladdr n_dst]. rewrite !cnt_cons. lia.
Qed.
Next Obligation.
  intros k p o ext m Hc He Hp. destruct k.
  - eapply (neigh_assign_ok _ _ n_dst); try done.
  - eapply (neigh_assign_ok _ _ n_lladdr); try done. intros n x. split; apply Permutation_swap.
Qed.
End NeighOk.

(** *** Rules *)

Section RuleOk.
Import Rule.

Definition r_ptrs (r : rtnl_rule) : list Z := [r_src r; r_dst r].

Lemma rule_assign_ok pos set other new flag o ext m :
  (∀ f r, r_ptrs (on_nums f r) = r_ptrs r) →
  (∀ r p, r_ptrs r ≡ₚ [pos r; other r] ∧ r_ptrs (set p r) ≡ₚ [p; other r]) →
  counted (held (r_ptrs (ce_data o)) ext) m → (∀ q, 0 ≤ ext q) → 0 < ext new →
  ∃ err o' m', rule_assign_addr pos set new flag o m = Some ((err, o'), m') ∧
    counted (held (r_ptrs (ce_data o')) ext) m' ∧ ce_refcnt o' = ce_refcnt o ∧ ce_cache o' = ce_cache o.
Proof.
  intros Hnum Hset Hc He Hn. destruct (counted_held _ _ new Hc) as (a & Ha & _); [unfold held; pose proof (cnt_nonneg (r_ptrs (ce_data o)) new); lia|].
  unfold rule_assign_addr, addr_at. rewrite (sbind_some _ _ _ a m) by (unfold sget; by rewrite Ha).
  destruct (_ && _); [by exists (- NLE_AF_MISMATCH), o, m|].
  set (o1 := if has_attr RULE_ATTR_FAMILY o then o else _).
  assert (r_ptrs (ce_data o1) = r_ptrs (ce_data o) ∧ ce_refcnt o1 = ce_refcnt o ∧ ce_cache o1 = ce_cache o) as (Ep & Er & Ec).
  { subst o1. by destruct (has_attr _ o). }
  rewrite <- Ep in Hc. apply (counted_perm _ _ _ _ (proj1 (Hset (ce_data o1) 0))) in Hc.
  destruct (replace_ok _ new _ ext m Hc He Hn) as (m1 & m' & E2 & E3 & Hc').
  rewrite (sbind_some _ _ _ _ _ E2), (sbind_some _ _ _ _ _ E3).
  do 3 eexists. split; [done|]. split; [|done]. eapply counted_perm; [|exact Hc']. symmetry. apply Hset.
Qed.

#[export] Program Instance rule_ok : HolderOk rtnl_rule := {|
  h_ptrs := r_ptrs;
  h_set k p o := if k : bool then rtnl_rule_set_src p o else rtnl_rule_set_dst p o;
|}.
Next Obligation. intros q. unfold r_ptrs. rewrite !cnt_cons, cnt_nil. cbn. by rewrite andb_false_r. Qed.
Next Obligation. intros r ext m. apply free_two. Qed.
Next Obligation.
  intros calloc r ext m Hca Hm Hc He. cbn [h_clone rule_holder]. unfold rule_clone.
  destruct (clone_one calloc (r_src r) _ ext m Hca Hm Hc) as (p & m1 & E1 & T1 & H1); [apply ptr_held; [set_solver|done]|].
  rewrite (sbind_some _ _ _ _ _ E1), T1. cbv iota.
  destruct (clone_one calloc (r_dst r) _ ext m1 Hca Hm H1) as (q & m2 & E2 & T2 & H2); [apply ptr_held; [set_solver|done]|].
  assert ((if negb (r_dst r =? 0) then nl_addr_clone calloc (r_dst r) else sret (r_dst (r_set_src p r))) m1 = Some (q, m2)) as E2' by exact E2.
  rewrite (sbind_some _ _ _ _ _ E2'), T2. do 2 eexists. split; [done|]. eapply counted_same; [exact H2|].
  intros x. unfold held. cbn [app r_ptrs r_set_dst r_set_src r_src r_dst]. rewrite !cnt_cons. lia.
Qed.
Next Obligation.
  intros k p o ext m Hc He Hp. destruct k.
  - eapply (rule_assign_ok _ _ r_dst); try done.
  - eapply (rule_assign_ok _ _ r_src); try done. intros n x. split; apply Permutation_swap.
Qed.
End RuleOk.

(** ** Programs on objects of a type *)

Section Programs.
Context {D : Type} `{HolderOk D} (addr_calloc : addrs → Z) (ops : Z).

(** The calls of a program: objects are named by their position. *)
Inductive rt_call :=
  | RNew
  | RSet (i : nat) (k : bool) (p : Z)
  | RClone (i : nat)
  | RGet (i : nat)
  | RPut (i : nat)
  | RAddr (x : addr_call).

Definition rt_state : Type := addrs * list (nl_object D).

(** The result of the call and the new state. *)
Definition rt_exec (x : rt_call) (s : rt_state) : option (Z * rt_state) :=
  let '(m, os) := s in
  match x with
  | RNew => Some (0, (m, os ++ [new_object ops]))
  | RSet i k p => o ← os !! i; r ← h_set k p o m; Some (r.1.1, (r.2, <[i := r.1.2]> os))
  | RClone i =>
      o ← os !! i; r ← object_clone addr_calloc true o m;
      Some (match r.1 with Some o' => (0, (r.2, os ++ [o'])) | None => (-1, (r.2, os)) end)
  | RGet i => o ← os !! i; Some (0, (m, <[i := set_refcnt (ce_refcnt o + 1) o]> os))
  | RPut i =>
      o ← os !! i; r ← object_put o m;
      Some (0, (r.2, match r.1 with Some o' => <[i := o']> os | None => delete i os end))
  | RAddr x => r ← addr_exec addr_calloc x m; Some (r.1, (r.2, os))
  end.

(** What a program may call: it names objects that it has and addresses that it holds. *)
Definition rt_may (x : rt_call) (s : rt_state) (ext : Z → Z) : Prop :=
  match x with
  | RNew => True
  | RSet i _ p => (i < length s.2)%nat ∧ 0 < ext p
  | RClone i | RGet i | RPut i => (i < length s.2)%nat
  | RAddr x => addr_may x ext
  end.

Definition rt_after (x : rt_call) (r : Z) (ext : Z → Z) : Z → Z :=
  match x with RAddr x => addr_after x r ext | _ => ext end.

Inductive rt_reach : rt_state → (Z → Z) → Prop :=
  | rreach_init : rt_reach (∅, []) (λ _, 0)
  | rreach_step s ext x r s' :
      rt_reach s ext → rt_may x s ext → rt_exec x s = Some (r, s') → rt_reach s' (rt_after x r ext).

(** The pointers of all objects. *)
Definition all_ptrs (os : list (nl_object D)) : list Z := concat (map (λ o, h_ptrs (ce_data o)) os).

(** An object is referenced and not in a cache. *)
Definition live (o : nl_object D) : Prop := 0 < ce_refcnt o ∧ ce_cache o = 0.

Record rt_inv (s : rt_state) (ext : Z → Z) : Prop := {
  ri_counted : counted (held (all_ptrs s.2) ext) s.1;
  ri_ext q : 0 ≤ ext q;
  ri_live : Forall live s.2;
}.

Lemma all_ptrs_app l k : all_ptrs (l ++ k) = all_ptrs l ++ all_ptrs k.
Proof. unfold all_ptrs. by rewrite map_app, concat_app. Qed.

Lemma all_ptrs_mid l o k : all_ptrs (l ++ o :: k) ≡ₚ h_ptrs (ce_data o) ++ all_ptrs (l ++ k).
Proof. rewrite !all_ptrs_app. change (all_ptrs (o :: k)) with (h_ptrs (ce_data o) ++ all_ptrs k). by rewrite (assoc_L (++)), (comm (++) (all_ptrs l)), <- (assoc_L (++)). Qed.

Lemma all_ptrs_one o : all_ptrs [o] = h_ptrs (ce_data o).
Proof. unfold all_ptrs. cbn [map concat]. by rewrite app_nil_r. Qed.

Lemma cnt_mid l o k q : cnt (all_ptrs (l ++ o :: k)) q = cnt (h_ptrs (ce_data o)) q + cnt (all_ptrs (l ++ k)) q.
Proof. rewrite <- cnt_app. unfold cnt. destruct (q =? 0); [done|]. by rewrite all_ptrs_mid. Qed.

Lemma held_app ps qs ext q : held (ps ++ qs) ext q = held ps (held qs ext) q.
Proof. unfold held. rewrite cnt_app. lia. Qed.

Lemma held_nonneg ps ext : (∀ q, 0 ≤ ext q) → ∀ q, 0 ≤ held ps ext q.
Proof. intros He q. unfold held. specialize (He q). pose proof (cnt_nonneg ps q). lia. Qed.

(** The references of one object, and those of the others with the program's. *)
Lemma focus l o k ext m :
  counted (held (all_ptrs (l ++ o :: k)) ext) m ↔ counted (held (h_ptrs (ce_data o)) (held (all_ptrs (l ++ k)) ext)) m.
Proof.
  split; intros Hc.
  - eapply counted_same; [exact (counted_perm _ _ _ _ (all_ptrs_mid l o k) Hc)|]. intros q. by rewrite held_app.
  - apply (counted_perm _ _ _ _ (symmetry (all_ptrs_mid l o k))). eapply counted_same; [exact Hc|]. intros q. by rewrite held_app.
Qed.

Lemma insert_mid {A} (l : list A) x y k : <[length l := y]> (l ++ x :: k) = l ++ y :: k.
Proof. rewrite <- (Nat.add_0_r (length l)), insert_app_r. done. Qed.

Lemma at_index {A} (os : list A) i : (i < length os)%nat → ∃ l o k, os = l ++ o :: k ∧ i = length l ∧ os !! i = Some o.
Proof.
  intros Hi. destruct (lookup_lt_is_Some_2 os i Hi) as [o Ho]. exists (take i os), o, (drop (S i) os).
  split; [by rewrite take_drop_middle|]. split; [rewrite length_take; lia|done].
Qed.

(** A changed object in place of the old one. *)
Lemma inv_replace l o o' k ext m' :
  Forall live (l ++ o :: k) → (∀ q, 0 ≤ ext q) → live o' →
  counted (held (h_ptrs (ce_data o')) (held (all_ptrs (l ++ k)) ext)) m' → rt_inv (m', l ++ o' :: k) ext.
Proof.
  intros [Hl [_ Hk]%list.Forall_cons]%Forall_app He Ho Hc. split; cbn [fst snd]; [by apply focus|done|].
  apply Forall_app. split; [done|]. by apply list.Forall_cons.
Qed.

Lemma addr_after_held x r ext ps m :
  counted (held ps ext) m → (∀ q, 0 ≤ ext q) →
  match x with ANew _ | ABuild _ _ | AClone _ => r = 0 ∨ m !! r = None | _ => True end →
  ∀ q, addr_after x r (held ps ext) q = held ps (addr_after x r ext) q.
Proof.
  intros Hc He Hx q. unfold held, addr_after.
  destruct x; cbn beta iota; try (destruct (Z.eqb_spec q p); cbn; repeat case_match; lia);
    (destruct (Z.eqb_spec q r) as [->|]; [|done]; cbn [andb]; destruct (Z.eqb_spec r 0) as [->|Hr]; [done|]; cbn [negb];
     destruct Hx as [?|Hx]; [done|]; apply (ct_dead _ _ Hc) in Hx; unfold held in Hx; specialize (He r); pose proof (cnt_nonneg ps r); lia).
Qed.

Lemma addr_made x m r m' :
  addr_calloc_ok addr_calloc → addr_exec addr_calloc x m = Some (r, m') →
  match x with ANew _ | ABuild _ _ | AClone _ => r = 0 ∨ m !! r = None | _ => True end.
Proof.
  intros Hca E. assert (∀ f b n k, nl_addr_build addr_calloc f b n m = Some k → k.1 = 0 ∨ k.1 = addr_calloc m) as Hb.
  { intros f b n k. unfold nl_addr_build, nl_addr_alloc, sbind. destruct (addr_calloc m =? 0) eqn:E0; [intros [= <-]; by left|].
    cbn beta iota. rewrite E0. unfold addr_at, sget. rewrite lookup_insert_eq. repeat case_match; try done; intros [= <-]; by right. }
  destruct x; cbn [addr_exec] in E; try done.
  - unfold nl_addr_alloc in E. destruct (Z.eqb_spec (addr_calloc m) 0); injection E as <- <-; [by left|]. apply Hca.
  - apply Hb in E. cbn [fst] in E. destruct E as [->| ->]; [by left|apply Hca].
  - unfold nl_addr_clone, sbind in E. destruct (addr_at p m) as [ [a m0]|] eqn:Ea; [|done].
    unfold addr_at, sget in Ea. destruct (m !! p); [|done]. injection Ea as <- <-.
    destruct (nl_addr_build addr_calloc (a_family n) (a_addr n) (a_len n) m) as [ [q m1]|] eqn:Eb; [|done].
    apply Hb in Eb. cbn [fst] in Eb. destruct (Z.eqb_spec q 0) as [->|Hq]; [injection E as <- <-; by left|].
    repeat case_match; try done; injection E as <- <-; (destruct Eb as [->| ->]; [done|apply Hca]).
Qed.

(** A call that is allowed returns and keeps the invariant. *)
Lemma rt_exec_ok x s ext :
  addr_calloc_ok addr_calloc → (∀ m, addr_calloc m ≠ 0) → rt_inv s ext → rt_may x s ext →
  ∃ r s', rt_exec x s = Some (r, s') ∧ rt_inv s' (rt_after x r ext).
Proof.
  intros Hca Hpl [Hc He Hl] Hx. destruct s as [m os]. cbn [fst snd] in *.
  destruct x as [|i k p|i|i|i|x]; cbn [rt_exec rt_may rt_after fst snd] in *.
  - do 2 eexists. split; [done|]. split; cbn [fst snd]; [|done|].
    + eapply counted_same; [exact Hc|]. intros q. rewrite all_ptrs_app, all_ptrs_one. unfold held. rewrite cnt_app.
      cbn [ce_data new_object]. rewrite h_new_ok. lia.
    + apply Forall_app. split; [done|]. apply Forall_singleton. by split.
  - destruct Hx as [(l & o & k' & -> & -> & Ho)%at_index Hp]. rewrite Ho, some_bind. apply focus in Hc.
    pose proof Hl as [_ [ [Hr Hca'] _]%list.Forall_cons]%Forall_app.
    destruct (h_set_ok k p o _ m Hc) as (err & o' & m' & E & Hc' & E1 & E2); [by apply held_nonneg| |].
    { unfold held. pose proof (cnt_nonneg (all_ptrs (l ++ k')) p). lia. }
    rewrite E, some_bind. do 2 eexists. split; [done|]. cbn [fst snd]. rewrite insert_mid.
    eapply inv_replace; [exact Hl|done| |exact Hc']. split; congruence.
  - apply at_index in Hx as (l & o & k & -> & -> & Ho). rewrite Ho, some_bind. apply focus in Hc.
    destruct (h_clone_ok addr_calloc (ce_data o) _ m Hca Hpl Hc) as (d' & m' & E & Hc'); [by apply held_nonneg|].
    unfold object_clone. cbn [negb]. rewrite (sbind_some _ _ _ _ _ E). cbn [fst snd]. change (0 <? 0) with false. cbv iota.
    unfold sret. rewrite some_bind. cbn [fst snd]. do 2 eexists. split; [done|]. split; cbn [fst snd]; [|done|].
    + eapply counted_same; [exact Hc'|]. intros q. rewrite (all_ptrs_app (l ++ o :: k)). unfold held.
      rewrite !cnt_app, cnt_mid, all_ptrs_one. cbn [ce_data set_body]. lia.
    + apply Forall_app. split; [done|]. apply Forall_singleton. by split.
  - apply at_index in Hx as (l & o & k & -> & -> & Ho). rewrite Ho, some_bind. apply focus in Hc.
    pose proof Hl as [_ [ [Hr Hca'] _]%list.Forall_cons]%Forall_app.
    do 2 eexists. split; [done|]. rewrite insert_mid. eapply inv_replace; [exact Hl|done| |exact Hc]. split; cbn; lia.
  - apply at_index in Hx as (l & o & k & -> & -> & Ho). rewrite Ho, some_bind. apply focus in Hc.
    pose proof Hl as [Hl1 [ [Hr Hca'] Hl2]%list.Forall_cons]%Forall_app.
    unfold object_put. cbn [ce_refcnt set_refcnt]. decide_test (ce_refcnt o - 1 <? 0) false.
    destruct (Z.leb_spec (ce_refcnt o - 1) 0).
    + unfold release. cbn [ce_cache set_refcnt ce_data]. rewrite Hca'. cbn [negb Z.eqb].
      destruct (h_free_ok (ce_data o) _ m Hc) as (m' & E & Hc'); [by apply held_nonneg|].
      rewrite (sbind_some _ _ _ _ _ E). unfold sret. rewrite some_bind. do 2 eexists. split; [done|]. cbn [fst snd].
      rewrite delete_middle. split; cbn [fst snd]; [done|done|]. by apply Forall_app.
    + unfold sret. rewrite some_bind. do 2 eexists. split; [done|]. cbn [fst snd]. rewrite insert_mid.
      eapply inv_replace; [exact Hl|done| |exact Hc]. split; cbn; lia.
  - destruct (addr_exec_ok addr_calloc (held (all_ptrs os) ext) m x Hca Hc) as (r & m' & E & Hc').
    { destruct x; cbn in *; try done; unfold held; [..|destruct Hx; [by left|right]]; pose proof (cnt_nonneg (all_ptrs os) p); lia. }
    pose proof (addr_made _ _ _ _ Hca E) as Hmade. rewrite E, some_bind. do 2 eexists. split; [done|]. cbn [fst snd].
    split; cbn [fst snd]; [|intros q|done].
    + eapply counted_same; [exact Hc'|]. intros q. symmetry. by eapply addr_after_held.
    + destruct x; cbn in *; repeat case_match; boolify; try done; try lia; subst; [specialize (He p); lia|destruct Hx; lia].
Qed.

Lemma rt_reach_inv s ext :
  addr_calloc_ok addr_calloc → (∀ m, addr_calloc m ≠ 0) → rt_reach s ext → rt_inv s ext.
Proof.
  intros Hca Hpl Hr. induction Hr as [|s ext x r s' _ IH Hmay E].
  - split; cbn; [|done|constructor]. split; [done|done|]. intros p _. unfold held. by rewrite cnt_nil.
  - destruct (rt_exec_ok _ _ _ Hca Hpl IH Hmay) as (r' & s2 & E' & Hi). rewrite E in E'. by injection E' as <- <-.
Qed.
End Programs.
Arguments rt_state D : clear implicits.

(** ** Messages *)

(** An attribute that is there if [b] holds. *)
Definition opt_attr (b : bool) (ty : Z) (bs : list Z) : list (Z * list Z) := if b then [(ty, bs)] else [].

Lemma find_attr_app ty l k :
  find_attr ty (l ++ k) = match find_attr ty k with Some bs => Some bs | None => find_attr ty l end.
Proof.
  induction l as [|a l IH]; cbn [app find_attr]; [by destruct (find_attr ty k)|]. rewrite IH.
  by destruct (find_attr ty k), (find_attr ty l).
Qed.

Lemma find_opt ty b ty' bs : find_attr ty (opt_attr b ty' bs) = if b && (ty =? ty') then Some bs else None.
Proof. by destruct b. Qed.

(** The attribute of a type in a list of optional attributes with different types. *)
Ltac find_opts :=
  rewrite ?find_attr_app, !find_opt;
  repeat match goal with |- context [?a =? ?b] => let v := eval vm_compute in (a =? b) in change (a =? b) with v end;
  rewrite ?andb_false_r, ?andb_true_r; cbv iota; try reflexivity; repeat case_match; congruence.

Lemma Forall_opt (P : Z * list Z → Prop) b ty bs : (b = true → P (ty, bs)) → Forall P (opt_attr b ty bs).
Proof. intros HP. destruct b; [|constructor]. constructor; [by apply HP|constructor]. Qed.

(** One optional attribute of a message that is built. *)
Lemma opt_built b ty bs rest msg body room :
  built msg body room → zlen body mod 4 = 0 → (b = true → 4 + zlen bs < 2 ^ 16) →
  2 * (4 + zlen (body ++ flat (opt_attr b ty bs ++ rest))) ≤ nm_size msg →
  ∃ msg' room', (if b then nla_put msg ty bs else Some (0, msg)) = Some (0, msg') ∧
    built msg' (body ++ flat (opt_attr b ty bs)) room' ∧ zlen (body ++ flat (opt_attr b ty bs)) mod 4 = 0 ∧
    2 * (4 + zlen ((body ++ flat (opt_attr b ty bs)) ++ flat rest)) ≤ nm_size msg' ∧ nm_size msg' = nm_size msg.
Proof.
  intros Hb Hal Hsm Hfit. rewrite flat_app, app_assoc in Hfit. pose proof (zlen_nonneg (flat rest)). destruct b.
  - assert (flat (opt_attr true ty bs) = enc (ty, bs)) as Ef by (unfold opt_attr, flat; cbn [map concat]; apply app_nil_r).
    rewrite Ef in *. destruct (put_built msg body room ty bs Hb Hal (Hsm eq_refl)) as (msg' & room' & Ep & Hb' & Hs).
    { rewrite !zlen_app, zlen_enc in Hfit. cbn [snd] in Hfit. pose proof (total_size_pos (zlen bs) (zlen_nonneg _)). lia. }
    exists msg', room'. rewrite Hs. split_and!; try done. rewrite zlen_app, zlen_enc, Z.add_mod, Hal by lia. cbn [snd].
    by pose proof (total_size_pos (zlen bs) (zlen_nonneg _)) as [_ ->].
  - cbn [opt_attr] in *. change (flat []) with (@nil Z) in *. rewrite app_nil_r in *. by exists msg, room.
Qed.

Section Put.
Implicit Types (m : addrs).

Lemma put_if_step {B} b put ty bs rest msg body room (k : Z * nl_msg → St addrs B) Q m :
  built msg body room → zlen body mod 4 = 0 → (b = true → 4 + zlen bs < 2 ^ 16) →
  2 * (4 + zlen (body ++ flat (opt_attr b ty bs ++ rest))) ≤ nm_size msg →
  (b = true → ∀ msg, put msg m = (r ← nla_put msg ty bs; Some (r, m))) →
  (∀ msg' room', built msg' (body ++ flat (opt_attr b ty bs)) room' →
     zlen (body ++ flat (opt_attr b ty bs)) mod 4 = 0 →
     2 * (4 + zlen ((body ++ flat (opt_attr b ty bs)) ++ flat rest)) ≤ nm_size msg' → swp (k (0, msg')) Q m) →
  swp (sbind (put_if b put (0, msg)) k) Q m.
Proof.
  intros Hb Hal Hsm Hfit Hput Hk. unfold put_if. cbn [fst snd]. change (0 <? 0) with false. cbv iota.
  destruct (opt_built b ty bs rest msg body room Hb Hal Hsm Hfit) as (msg' & room' & E & Hb' & Hal' & Hfit' & _).
  unfold swp, sbind. destruct b.
  - rewrite (Hput eq_refl), E, some_bind. by apply (Hk msg' room').
  - injection E as ->. by apply (Hk msg' room').
Qed.

(** The bytes of an address that is put. *)
Lemma put_addr_is msg ty p a m :
  m !! p = Some a → addr_wf a → put_addr msg ty p m = (r ← nla_put msg ty (binary a); Some (r, m)).
Proof.
  intros Ha [Hm Hl Hx Hf Hb]. unfold put_addr, addr_at, sbind, sget. rewrite Ha. unfold nl_addr_get_binary_addr, nl_addr_get_len.
  decide_test (zlen (a_addr a) <? a_len a) false. unfold binary. by destruct (nla_put _ _ _).
Qed.

(** The start of a message: header and family header. *)
Lemma simple_msg size type flags fh :
  zlen fh mod 4 = 0 → 16 + zlen fh ≤ size < 2 ^ 31 →
  ∃ msg msg' room, nlmsg_alloc_simple size type flags = Some msg ∧ nlmsg_append msg fh 4 = Some (0, msg') ∧
    built msg' ((le_split 2 type ++ le_split 2 flags ++ replicate 8 0) ++ fh) room ∧ nm_size msg' = size.
Proof.
  intros Hal Hs. pose proof (zlen_nonneg fh). destruct (alloc_simple_built size type flags) as (msg & Em & Hb & Hsz); [lia|].
  destruct (append_built msg _ _ fh 4 Hb Hal) as (msg' & room & Ea & Hb' & Hsz'); [by right| |].
  { rewrite Hsz, !zlen_app, !zlen_le_split. change (zlen (replicate 8 0)) with 8. lia. }
  exists msg, msg', room. rewrite Hsz' in *. done.
Qed.
End Put.

Section Take.
Context (addr_calloc : addrs → Z).
Implicit Types (m : addrs).

Lemma take_u32_step {D B} buf l max t ty b v (set : Z → D → D) bit o (k : nl_object D → St addrs B) Q m :
  indexes buf l max t → ty ≤ max → find_attr ty l = (if b : bool then Some (le_split 4 (u32 v)) else None) → 0 ≤ v < 2 ^ 32 →
  swp (k (if b then put_data bit (set v (ce_data o)) o else o)) Q m → swp (sbind (take_u32 buf (t ty) set bit o) k) Q m.
Proof.
  intros Hix Hty Hf Hv Hk. specialize (Hix ty Hty). rewrite Hf in Hix. destruct b.
  - destruct Hix as (off & -> & Ha). apply swp_bind. unfold take_u32. apply swp_bind. apply (swp_get _ v); [|by apply swp_ret].
    unfold nla_get_u32. rewrite (get_value 4 _ _ _ Ha). f_equal. change (2 ^ (8 * Z.of_nat 4)) with (2 ^ 32).
    rewrite u32_small by done. by rewrite Z.mod_small.
  - by rewrite Hix.
Qed.

(** A new address with the bytes of an attribute. *)
Definition made (family : Z) (bs : list Z) : nl_addr := mkNlAddr family (zlen bs) (zlen bs) (zlen bs * 8) 1 bs.

(** The memory has room. *)
Definition plenty : Prop := addr_calloc_ok addr_calloc ∧ ∀ m, addr_calloc m ≠ 0.

Lemma take_addr_step {D B} buf l max t ty b bs family f (set : Z → D → D) bit o (k : Z * nl_object D → St addrs B) Q m :
  plenty → indexes buf l max t → ty ≤ max → find_attr ty l = (if b : bool then Some bs else None) →
  - 2 ^ 31 ≤ family < 2 ^ 31 → zlen bs < 2 ^ 28 → Forall is_byte bs →
  swp (k (0, if b then put_data bit (set (addr_calloc m) (ce_data o)) o else o)) Q
    (if b then <[addr_calloc m := f (made family bs)]> m else m) →
  swp (sbind (take_addr addr_calloc buf (t ty) family f set bit (0, o)) k) Q m.
Proof.
  intros [Hca Hpl] Hix Hty Hf Hfam Hsz Hby Hk. specialize (Hix ty Hty). rewrite Hf in Hix. destruct b; [|by rewrite Hix].
  destruct Hix as (off & -> & Ha). apply swp_bind. unfold take_addr. cbn [fst snd]. change (0 <? 0) with false. cbv iota.
  apply swp_bind. unfold nl_addr_alloc_attr. apply swp_bind.
  eapply swp_get; [by apply (attr_payload _ _ _ (proj1 Ha)), (proj2 Ha)|].
  destruct (build_makes addr_calloc family bs (zlen bs) Hfam ltac:(pose proof (zlen_nonneg bs); lia) Hsz Hby m)
    as [ [E _]|(_ & a & E & _ & _ & ->)]; [by destruct (Hpl m)|].
  unfold swp at 1. rewrite E. cbv zeta. rewrite (proj2 (Z.eqb_neq _ 0)) by done.
  apply swp_bind. unfold addr_at. eapply swp_get; [apply lookup_insert_eq|].
  apply swp_bind, swp_modify, swp_ret. rewrite insert_insert_eq.
  replace (take (Z.to_nat (zlen bs)) bs) with bs in * by (rewrite take_ge; [done|unfold zlen; lia]). exact Hk.
Qed.
End Take.

(** The bytes of a message that are sent. *)
Definition wire (msg : nl_msg) : list Z :=
  match nlmsg_len (nm_nlh msg) 0 with Some l => take (Z.to_nat l) (nm_nlh msg) | None => [] end.

Lemma wire_built msg body room : built msg body room → wire msg = le_split 4 (4 + zlen body) ++ body.
Proof.
  intros Hb. unfold wire. rewrite (built_len _ _ _ Hb). destruct Hb as [Hb _ _]. rewrite Hb, app_assoc, take_app_le, take_ge; [done|..];
    rewrite length_app, length_le_split; unfold zlen; lia.
Qed.

(** ** Fields of a header *)

Lemma ld_skip n x buf off k : zlen x = k → k ≤ off → ld n (x ++ buf) off = ld n buf (off - k).
Proof.
  intros <- Hk. unfold ld. pose proof (zlen_nonneg x). rewrite zlen_app.
  decide_test (off <? 0) false. decide_test (off - zlen x <? 0) false. cbn [orb].
  replace (zlen x + zlen buf <? off + Z.of_nat n) with (zlen buf <? off - zlen x + Z.of_nat n)
    by (destruct (Z.ltb_spec (zlen buf) (off - zlen x + Z.of_nat n)); symmetry; [apply Z.ltb_lt|apply Z.ltb_ge]; lia).
  destruct (_ <? _); [done|]. do 3 f_equal. rewrite drop_app_ge by (unfold zlen in *; lia). f_equal. unfold zlen in *. lia.
Qed.

Lemma ld_byte a buf : ld 1 (a :: buf) 0 = Some a.
Proof. change (a :: buf) with ([a] ++ buf). rewrite ld_head by done. cbn [le_combine]. f_equal. lia. Qed.

Lemma ld_word n v buf : 0 ≤ v < 2 ^ (8 * Z.of_nat n) → ld n (le_split n v ++ buf) 0 = Some v.
Proof. intros Hv. rewrite ld_head by apply length_le_split. by rewrite le_combine_split, Z.mod_small. Qed.

(** Go to the field at an offset of a message that is given piece by piece. *)
Ltac ld_field :=
  rewrite <- ?app_assoc; cbn [app];
  repeat (lazymatch goal with
    | |- ld _ _ 0 = _ => fail
    | |- ld ?n (le_split ?k ?v ++ ?b) ?off = _ => rewrite (ld_skip n (le_split k v) b off (Z.of_nat k)) by (first [apply zlen_le_split|done])
    | |- ld ?n (replicate ?k 0 ++ ?b) ?off = _ => rewrite (ld_skip n (replicate k 0) b off (Z.of_nat k)) by done
    | |- ld ?n (?a :: ?b) ?off = _ => change (a :: b) with ([a] ++ b); rewrite (ld_skip n [a] b off 1) by done
    end; lazymatch goal with |- ld ?n ?b ?off = _ => let o := eval vm_compute in off in change off with o end);
  first [apply ld_byte|apply ld_word].

Lemma passes_none max policy ty bs : policy ty = no_policy → Forall is_byte bs → passes max policy (ty, bs).
Proof.
  intros E Hb. split; [done|]. intros _. cbn [fst snd]. rewrite E. unfold accepts. cbn. pose proof (zlen_nonneg bs).
  by decide_test (0 <=? zlen bs) true.
Qed.

(** ** A neighbour and its message *)

Section NeighMsg.
Import Neigh.
Context (addr_calloc : addrs → Z).

(** A neighbour that can be sent, with its destination. *)
Record neigh_sendable (o : neigh) (a : nl_addr) (m : addrs) : Prop := {
  ns_has : has_attr NEIGH_ATTR_DST o = true;
  ns_dst : m !! n_dst (ce_data o) = Some a;
  ns_wf : addr_wf a ∧ 0 ≤ a_family a < 256 ∧ a_len a ≤ 32;
  ns_ifindex : 0 ≤ n_ifindex (ce_data o) < 2 ^ 32;
  ns_state : 0 ≤ n_state (ce_data o) < 2 ^ 16;
}.

(** Its link layer address, if it has one. *)
Definition neigh_ll (o : neigh) (bs : list Z) (m : addrs) : Prop :=
  has_attr NEIGH_ATTR_LLADDR o = true →
  ∃ b, m !! n_lladdr (ce_data o) = Some b ∧ addr_wf b ∧ a_len b ≤ 32 ∧ binary b = bs.

Definition sent_state (o : neigh) : Z := if has_attr NEIGH_ATTR_STATE o then n_state (ce_data o) else NUD_PERMANENT.

Definition neigh_parts (o : neigh) (dst ll : list Z) : list (Z * list Z) :=
  opt_attr true NDA_DST dst ++ opt_attr (has_attr NEIGH_ATTR_LLADDR o) NDA_LLADDR ll.

Lemma flat_opt_len b ty bs : zlen bs ≤ 32 → zlen (flat (opt_attr b ty bs)) ≤ 36.
Proof.
  intros Hb. destruct b; [|done]. unfold opt_attr, flat. cbn [map concat]. rewrite app_nil_r, zlen_enc. cbn [snd].
  unfold nla_total_size, nla_attr_size. change NLA_HDRLEN with 4. pose proof (zlen_nonneg bs).
  rewrite ALIGN_val by lia. pose proof (Z.div_le_mono (4 + zlen bs + 3) 39 4). change (39 / 4) with 9 in *. lia.
Qed.

Lemma build_neigh_ok size o a ll cmd flags m :
  neigh_sendable o a m → neigh_ll o ll m → zlen ll ≤ 32 → 256 ≤ size < 2 ^ 31 →
  ∃ msg, build_neigh_msg size true o cmd flags m = Some ((0, Some msg), m) ∧
    wire msg = le_split 4 (4 + zlen ((le_split 2 cmd ++ le_split 2 flags ++ replicate 8 0) ++
        ndmsg (a_family a) (n_ifindex (ce_data o)) (sent_state o) ++ flat (neigh_parts o (binary a) ll))) ++
      (le_split 2 cmd ++ le_split 2 flags ++ replicate 8 0) ++
        ndmsg (a_family a) (n_ifindex (ce_data o)) (sent_state o) ++ flat (neigh_parts o (binary a) ll).
Proof.
  intros [Hh Hd (Hw & Hf & Hl) Hi Hst] Hll Hl2 Hsz.
  set (fh := ndmsg (a_family a) (n_ifindex (ce_data o)) (sent_state o)).
  assert (zlen fh = 12) as Efh by (subst fh; unfold ndmsg; rewrite !zlen_app, !zlen_le_split; done).
  set (h := le_split 2 cmd ++ le_split 2 flags ++ replicate 8 0).
  assert (zlen h = 12) as Eh by (subst h; rewrite !zlen_app, !zlen_le_split; done).
  pose proof (zlen_binary _ Hw) as Hbin.
  assert (swp (build_neigh_msg size true o cmd flags) (λ r m', m' = m ∧ ∃ msg, r = (0, Some msg) ∧
    wire msg = le_split 4 (4 + zlen (h ++ fh ++ flat (neigh_parts o (binary a) ll))) ++ h ++ fh ++ flat (neigh_parts o (binary a) ll)) m) as Hwp.
  2: { apply swp_run in Hwp as (r & m' & E & -> & msg & -> & Hm). by exists msg. }
  unfold build_neigh_msg. rewrite Hh. cbn [negb]. apply swp_bind. unfold addr_at at 1. eapply swp_get; [exact Hd|].
  fold (sent_state o). unfold nl_addr_get_family. fold fh.
  destruct (simple_msg size cmd flags fh) as (msg & msg' & room & E1 & E2 & Hb & Hs); [by rewrite Efh|lia|].
  apply swp_bind. eapply swp_get; [exact E1|]. apply swp_bind. eapply swp_get; [exact E2|].
  fold h in Hb. assert (zlen (h ++ fh) mod 4 = 0) as Hal by (rewrite zlen_app, Eh, Efh; done).
  assert (zlen (flat (neigh_parts o (binary a) ll)) ≤ 72) as Hfl.
  { unfold neigh_parts. rewrite flat_app, zlen_app. pose proof (flat_opt_len true NDA_DST (binary a) ltac:(lia)).
    pose proof (flat_opt_len (has_attr NEIGH_ATTR_LLADDR o) NDA_LLADDR ll Hl2). lia. }
  eapply (put_if_step true _ NDA_DST (binary a) (opt_attr (has_attr NEIGH_ATTR_LLADDR o) NDA_LLADDR ll)); [exact Hb|done|intros _; lia| | |].
  { rewrite zlen_app. unfold neigh_parts in Hfl. rewrite zlen_app. lia. }
  { intros _ msg0. by apply put_addr_is. }
  clear Hb. intros msg1 room1 Hb Hal1 Hfit1.
  eapply (put_if_step _ _ NDA_LLADDR ll []); [exact Hb|done|intros _; lia|by rewrite app_nil_r| |].
  { intros E msg0. destruct (Hll E) as (b & Eb & Hwb & _ & <-). by apply put_addr_is. }
  clear Hb. intros msg2 room2 Hb _ _. apply swp_ret. split; [done|]. exists msg2. split; [done|].
  rewrite (wire_built _ _ _ Hb). unfold neigh_parts. rewrite flat_app. by rewrite <- !app_assoc.
Qed.

(** The object that the parser makes of the message of [o]. *)
Definition neigh_back (ops cmd : Z) (o : neigh) (family lladdr dst : Z) : neigh :=
  mkObj 1 ops 0 cmd 0
    (Z.lor (Z.lor 0xe3 NEIGH_ATTR_DST) (if has_attr NEIGH_ATTR_LLADDR o then NEIGH_ATTR_LLADDR else 0))
    (mkNeigh family (n_ifindex (ce_data o)) (sent_state o) 0 0 lladdr dst 0 (mkNci 0 0 0 0) 0 0).

Lemma u8_small v : 0 ≤ v < 256 → u8 v = v.
Proof. apply Z.mod_small. Qed.

Lemma parse_neigh_ok ops size o a ll cmd flags m :
  plenty addr_calloc → neigh_sendable o a m → neigh_ll o ll m → zlen ll ≤ 32 → Forall is_byte ll → 256 ≤ size < 2 ^ 31 →
  0 ≤ cmd < 2 ^ 16 →
  let b := has_attr NEIGH_ATTR_LLADDR o in
  let m1 := if b then <[addr_calloc m := nl_addr_set_family (nl_addr_guess_family (made AF_UNSPEC ll)) (made AF_UNSPEC ll)]> m else m in
  ∃ msg, build_neigh_msg size true o cmd flags m = Some ((0, Some msg), m) ∧
    neigh_fill addr_calloc (wire msg) (new_object ops) m =
    Some ((0, neigh_back ops cmd o (a_family a) (if b then addr_calloc m else 0) (addr_calloc m1)),
          <[addr_calloc m1 := made (a_family a) (binary a)]> m1).
Proof.
  intros Hpl Hs Hll Hl2 Hby Hsz Hcmd b m1. pose proof Hs as [Hh Hd (Hw & Hf & Hl) Hi Hst].
  destruct (build_neigh_ok size o a ll cmd flags m Hs Hll Hl2 Hsz) as (msg & E & Hwire). exists msg. split; [done|].
  rewrite Hwire. clear E Hwire msg. set (l := neigh_parts o (binary a) ll).
  set (fh := ndmsg (a_family a) (n_ifindex (ce_data o)) (sent_state o)).
  assert (zlen fh = 12) as Efh by (subst fh; unfold ndmsg; rewrite !zlen_app, !zlen_le_split; done).
  pose proof (zlen_binary _ Hw) as Hbin. assert (Forall is_byte (binary a)) as Hba by (destruct Hw; by apply Forall_take).
  assert (0 ≤ sent_state o < 2 ^ 16) as Hss by (unfold sent_state, NUD_PERMANENT; destruct (has_attr NEIGH_ATTR_STATE o); lia).
  destruct (nlmsg_parse_ok (le_split 2 cmd ++ le_split 2 flags ++ replicate 8 0) fh l [] 12 NDA_MAX neigh_policy) as (t & Et & Hix); try done.
  { apply Forall_app. split; apply Forall_opt; intros _; (split; [done|cbn [snd]; lia]). }
  { apply Forall_app. split; apply Forall_opt; intros _; by apply passes_none. }
  { subst l. unfold neigh_parts. rewrite flat_app, zlen_app. pose proof (flat_opt_len true NDA_DST (binary a) ltac:(lia)).
    pose proof (flat_opt_len (has_attr NEIGH_ATTR_LLADDR o) NDA_LLADDR ll Hl2). lia. }
  rewrite app_nil_r in Et, Hix. set (buf := le_split 4 _ ++ _) in *.
  assert (swp (neigh_fill addr_calloc buf (new_object ops)) (λ r m',
    r = (0, neigh_back ops cmd o (a_family a) (if b then addr_calloc m else 0) (addr_calloc m1)) ∧
    m' = <[addr_calloc m1 := made (a_family a) (binary a)]> m1) m) as Hwp.
  2: { apply swp_run in Hwp as (r & m' & E & -> & ->). done. }
  unfold neigh_fill. apply swp_bind. eapply swp_get; [subst buf; unfold nlmsg_type; ld_field; done|].
  apply swp_bind. eapply swp_get; [exact Et|]. change (0 <? 0) with false. cbv iota.
  apply swp_bind. unfold neigh_parse_head. change (nlmsg_data 0) with 16.
  apply swp_bind. eapply swp_get; [subst buf fh; unfold ndmsg; ld_field|].
  apply swp_bind. eapply swp_get; [subst buf fh; unfold ndmsg; ld_field; done|].
  apply swp_bind. eapply swp_get; [subst buf fh; unfold ndmsg; ld_field; done|].
  apply swp_bind. eapply swp_get; [subst buf fh; unfold ndmsg; ld_field|].
  apply swp_bind. eapply swp_get; [subst buf fh; unfold ndmsg; ld_field|]. apply swp_ret. rewrite u8_small by done.
  eapply (take_addr_step addr_calloc _ l _ _ NDA_LLADDR b ll);
    [done|exact Hix|done|subst l b; unfold neigh_parts; find_opts|unfold AF_UNSPEC; lia|lia|done|].
  fold m1. cbn [fst snd].
  match goal with |- context [(0, if b then ?x else ?y)] => set (o1 := if b then x else y) end.
  assert (n_family (ce_data o1) = a_family a) as Efam by (subst o1; by destruct b).
  eapply (take_addr_step addr_calloc _ l _ _ NDA_DST true (binary a));
    [done|exact Hix|done|subst l; unfold neigh_parts; find_opts|lia|lia|done|]. cbn [fst snd]. change (0 <? 0) with false. cbv iota.
  apply swp_bind. pose proof (Hix NDA_CACHEINFO ltac:(done)) as Hci. pose proof (Hix NDA_PROBES ltac:(done)) as Hpr.
  replace (find_attr NDA_CACHEINFO l) with (@None (list Z)) in Hci by (subst l; unfold neigh_parts; find_opts).
  replace (find_attr NDA_PROBES l) with (@None (list Z)) in Hpr by (subst l; unfold neigh_parts; find_opts).
  rewrite Hci, Hpr. apply swp_ret, swp_bind, swp_ret, swp_ret. rewrite Efam. split; [|done].
  f_equal. subst o1 b. unfold neigh_back. by destruct (has_attr NEIGH_ATTR_LLADDR o).
Qed.
End NeighMsg.

(** ** Parsing an object whose unset fields are zero *)

Section Clean.
Context (addr_calloc : addrs → Z).
Implicit Types (m : addrs).

(** A bit that is set if [b] holds. *)
Definition opt_bit (b : bool) (bit : Z) : Z := if b then bit else 0.

Lemma put_data_id {D} (o : nl_object D) : put_data 0 (ce_data o) o = o.
Proof. unfold put_data, set_body. rewrite Z.lor_0_r. by destruct o. Qed.

Lemma take_u32_clean {D B} buf l max t ty b v (set : Z → D → D) bit o (k : nl_object D → St addrs B) Q m :
  indexes buf l max t → ty ≤ max → find_attr ty l = (if b : bool then Some (le_split 4 (u32 v)) else None) → 0 ≤ v < 2 ^ 32 →
  (b = false → set v (ce_data o) = ce_data o) →
  swp (k (put_data (opt_bit b bit) (set v (ce_data o)) o)) Q m → swp (sbind (take_u32 buf (t ty) set bit o) k) Q m.
Proof.
  intros Hix Hty Hf Hv Hc Hk. eapply take_u32_step; [exact Hix|done|exact Hf|done|]. destruct b; [done|].
  unfold opt_bit in Hk. by rewrite Hc, put_data_id in Hk.
Qed.

Lemma take_addr_clean {D B} buf l max t ty b bs family f (set : Z → D → D) bit o (k : Z * nl_object D → St addrs B) Q m :
  plenty addr_calloc → indexes buf l max t → ty ≤ max → find_attr ty l = (if b : bool then Some bs else None) →
  - 2 ^ 31 ≤ family < 2 ^ 31 → zlen bs < 2 ^ 28 → Forall is_byte bs →
  set 0 (ce_data o) = ce_data o →
  swp (k (0, put_data (opt_bit b bit) (set (opt_bit b (addr_calloc m)) (ce_data o)) o)) Q
    (if b then <[addr_calloc m := f (made family bs)]> m else m) →
  swp (sbind (take_addr addr_calloc buf (t ty) family f set bit (0, o)) k) Q m.
Proof.
  intros Hpl Hix Hty Hf Hfam Hsz Hby Hc Hk. eapply take_addr_step; [done|exact Hix|done|exact Hf|done..|]. destruct b; [done|].
  unfold opt_bit in Hk. by rewrite Hc, put_data_id in Hk.
Qed.

(** The array that [nla_strlcpy] fills. *)
Definition padded (s : list Z) : list Z := s ++ replicate (Z.to_nat (16 - zlen s)) 0.

Lemma attr_text_nul s : attr_text (s ++ [0]) = s.
Proof.
  unfold attr_text. assert (zlen (s ++ [0]) = zlen s + 1) as -> by (by rewrite zlen_app). pose proof (zlen_nonneg s).
  decide_test (0 <? zlen s + 1) true. unfold znth. replace (Z.to_nat (zlen s + 1 - 1)) with (length s) by (unfold zlen; lia).
  rewrite app_nth2, Nat.sub_diag by lia. cbn. rewrite length_app. cbn [length]. rewrite Nat.add_sub. by rewrite take_app_length.
Qed.

Lemma take_name_clean {B} buf l max t ty b s name set bit o (k : Rule.rule → St addrs B) Q m :
  indexes buf l max t → ty ≤ max → find_attr ty l = (if b : bool then Some (s ++ [0]) else None) → zlen s ≤ 15 →
  zlen (name (ce_data o)) = 16 → (b = false → set (padded s) (ce_data o) = ce_data o) →
  swp (k (put_data (opt_bit b bit) (set (padded s) (ce_data o)) o)) Q m →
  swp (sbind (Rule.rule_take_name buf (t ty) name set bit o) k) Q m.
Proof.
  intros Hix Hty Hf Hs Hn Hc Hk. specialize (Hix ty Hty). rewrite Hf in Hix. destruct b.
  - destruct Hix as (off & -> & Ha). apply swp_bind. unfold Rule.rule_take_name. apply swp_bind.
    pose proof (strlcpy_ok (name (ce_data o)) buf off _ Ha ltac:(lia)) as E. cbv zeta in E. rewrite attr_text_nul, Hn in E.
    change IFNAMSIZ with 16. eapply swp_get; [exact E|]. apply swp_ret. cbn [snd]. pose proof (zlen_nonneg s).
    rewrite Z.min_l, take_ge by (unfold zlen in *; lia). exact Hk.
  - rewrite Hix. unfold opt_bit in Hk. rewrite Hc, put_data_id in Hk by done. done.
Qed.
End Clean.

(** ** Bits of a mask *)

Lemma land_bit x k : 0 ≤ k → Z.land x (2 ^ k) = if Z.testbit x k then 2 ^ k else 0.
Proof.
  intros Hk. apply Z.bits_inj'. intros n Hn. rewrite Z.land_spec, Z.pow2_bits_eqb by done.
  destruct (Z.eqb_spec k n) as [->|Hne].
  - rewrite andb_true_r. destruct (Z.testbit x n) eqn:E; [by rewrite Z.pow2_bits_true|by rewrite Z.bits_0].
  - rewrite andb_false_r. destruct (Z.testbit x k); [by rewrite Z.pow2_bits_false|by rewrite Z.bits_0].
Qed.

(** The bit of an attribute, if the object has it. *)
Lemma attr_bit {D} (o : nl_object D) k : 0 ≤ k → opt_bit (has_attr (2 ^ k) o) (2 ^ k) = Z.land (ce_mask o) (2 ^ k).
Proof.
  intros Hk. unfold opt_bit, has_attr. rewrite !land_bit by done. pose proof (Z.pow_pos_nonneg 2 k ltac:(lia) Hk).
  destruct (Z.testbit _ _); [|done]. by decide_test (2 ^ k =? 0) false.
Qed.

(** ** A rule and its message *)

Section RuleMsg.
Import Rule.
Context (addr_calloc : addrs → Z).

(** Numbers in the ranges of their fields, and zero if they are not set. *)
Record nums_ok (o : rule) : Prop := {
  no_family : 0 ≤ num r_family o < 256;
  no_action : 0 ≤ num r_action o < 256;
  no_dsfield : 0 ≤ num r_dsfield o < 256;
  no_flags : 0 ≤ num r_flags o < 2 ^ 32;
  no_prio : 0 ≤ num r_prio o < 2 ^ 32 ∧ (has_attr RULE_ATTR_PRIO o = false → num r_prio o = 0);
  no_mark : 0 ≤ num r_mark o < 2 ^ 32 ∧ (has_attr RULE_ATTR_MARK o = false → num r_mark o = 0);
  no_mask : 0 ≤ num r_mask o < 2 ^ 32 ∧ (has_attr RULE_ATTR_MASK o = false → num r_mask o = 0);
  no_goto : 0 ≤ num r_goto o < 2 ^ 32 ∧ (has_attr RULE_ATTR_GOTO o = false → num r_goto o = 0);
  no_flow : 0 ≤ num r_flow o < 2 ^ 32 ∧ (has_attr RULE_ATTR_FLOW o = false → num r_flow o = 0);
}.

(** The name in an array, if the attribute is set. *)
Definition rule_name (bit : Z) (o : rule) (name s : list Z) : Prop :=
  name_ok s ∧ (if has_attr bit o then c_string name = Some s else s = []).

(** The bytes of an address, if the attribute is set. *)
Definition rule_addr (bit : Z) (o : rule) (p : Z) (bs : list Z) (m : addrs) : Prop :=
  zlen bs ≤ 32 ∧ Forall is_byte bs ∧ (has_attr bit o = true → ∃ a, m !! p = Some a ∧ addr_wf a ∧ binary a = bs).

Record rule_sendable (o : rule) (src dst iif oif : list Z) (m : addrs) : Prop := {
  rs_family : has_attr RULE_ATTR_FAMILY o = true;
  rs_nums : nums_ok o;
  rs_src : rule_addr RULE_ATTR_SRC o (r_src (ce_data o)) src m;
  rs_dst : rule_addr RULE_ATTR_DST o (r_dst (ce_data o)) dst m;
  rs_iif : rule_name RULE_ATTR_IIFNAME o (r_iifname (ce_data o)) iif;
  rs_oif : rule_name RULE_ATTR_OIFNAME o (r_oifname (ce_data o)) oif;
}.

Definition rule_nums_parts (o : rule) : list (Z * list Z) :=
  opt_attr (has_attr RULE_ATTR_PRIO o) FRA_PRIORITY (le_split 4 (u32 (num r_prio o))) ++
  opt_attr (has_attr RULE_ATTR_MARK o) FRA_FWMARK (le_split 4 (u32 (num r_mark o))) ++
  opt_attr (has_attr RULE_ATTR_MASK o) FRA_FWMASK (le_split 4 (u32 (num r_mask o))) ++
  opt_attr (has_attr RULE_ATTR_GOTO o) FRA_GOTO (le_split 4 (u32 (num r_goto o))) ++
  opt_attr (has_attr RULE_ATTR_FLOW o) FRA_FLOW (le_split 4 (u32 (num r_flow o))).

Definition rule_parts (o : rule) (src dst iif oif : list Z) : list (Z * list Z) :=
  opt_attr (has_attr RULE_ATTR_SRC o) FRA_SRC src ++
  opt_attr (has_attr RULE_ATTR_DST o) FRA_DST dst ++
  opt_attr (has_attr RULE_ATTR_IIFNAME o) FRA_IIFNAME (iif ++ [0]) ++
  opt_attr (has_attr RULE_ATTR_OIFNAME o) FRA_OIFNAME (oif ++ [0]) ++
  rule_nums_parts o.

Lemma zlen_nul s : zlen s ≤ 15 → zlen (s ++ [0]) ≤ 32.
Proof. intros Hs. rewrite zlen_app. change (zlen [0]) with 1. lia. Qed.

Lemma rule_parts_len o src dst iif oif :
  zlen src ≤ 32 → zlen dst ≤ 32 → zlen iif ≤ 15 → zlen oif ≤ 15 → zlen (flat (rule_parts o src dst iif oif)) ≤ 324.
Proof.
  intros H1 H2 H3%zlen_nul H4%zlen_nul. unfold rule_parts, rule_nums_parts. rewrite !flat_app, !zlen_app.
  repeat match goal with
  | |- context [zlen (flat (opt_attr ?b ?ty ?bs))] =>
      pose proof (flat_opt_len b ty bs ltac:(first [done|rewrite zlen_le_split; lia])); generalize dependent (zlen (flat (opt_attr b ty bs))); intros
  end. lia.
Qed.

(** The header and the attributes of the message. *)
Definition rule_body (o : rule) (cmd flags : Z) (src dst iif oif : list Z) : list Z :=
  (le_split 2 cmd ++ le_split 2 flags ++ replicate 8 0) ++ fib_rule_hdr (r_nums (ce_data o)) ++ flat (rule_parts o src dst iif oif).

Lemma put_name_is msg ty bit o name s m :
  rule_name bit o name s → has_attr bit o = true → put_name msg ty name m = (r ← nla_put msg ty (s ++ [0]); Some (r, m)).
Proof.
  intros [_ Hs] Hb. rewrite Hb in Hs. unfold put_name, sbind, sget. rewrite Hs. unfold nla_put_string. by destruct (nla_put _ _ _).
Qed.

Lemma put_num_is msg ty v (m : addrs) :
  sget (λ _ : addrs, nla_put_u32 msg ty v) m = (r ← nla_put msg ty (le_split 4 (u32 v)); Some (r, m)).
Proof. unfold sget, nla_put_u32. by destruct (nla_put _ _ _). Qed.

(** The next attribute of a message that is built. *)
Ltac put_next Hb Hal Hfit tac :=
  eapply put_if_step; [exact Hb|exact Hal| |exact Hfit|intros; tac|];
    [clear Hb Hal Hfit; intros _; rewrite ?zlen_app, ?zlen_le_split; change (zlen [0]) with 1; lia|];
    clear Hb Hal Hfit; intros ? ? Hb Hal Hfit.

Lemma build_rule_ok size o src dst iif oif cmd flags m :
  rule_sendable o src dst iif oif m → 1024 ≤ size < 2 ^ 31 →
  ∃ msg, build_rule_msg size true o cmd flags m = Some ((0, Some msg), m) ∧
    wire msg = le_split 4 (4 + zlen (rule_body o cmd flags src dst iif oif)) ++ rule_body o cmd flags src dst iif oif.
Proof.
  intros [Hf _ (L1 & _ & Hsrc) (L2 & _ & Hdst) Hiif Hoif] Hsz.
  pose proof Hiif as [(_ & _ & L3) _]. pose proof Hoif as [(_ & _ & L4) _].
  pose proof (rule_parts_len o src dst iif oif L1 L2 L3 L4) as Hlen.
  set (fh := fib_rule_hdr (r_nums (ce_data o))).
  assert (zlen fh = 12) as Efh by (subst fh; unfold fib_rule_hdr; rewrite !zlen_app, !zlen_le_split; done).
  assert (swp (build_rule_msg size true o cmd flags) (λ r m', m' = m ∧ ∃ msg, r = (0, Some msg) ∧
    wire msg = le_split 4 (4 + zlen (rule_body o cmd flags src dst iif oif)) ++ rule_body o cmd flags src dst iif oif) m) as Hwp.
  2: { apply swp_run in Hwp as (r & m' & E & -> & msg & -> & Hm). by exists msg. }
  unfold build_rule_msg. rewrite Hf. cbn [negb].
  destruct (simple_msg size cmd flags fh) as (msg & msg' & room & E1 & E2 & Hb & Hs); [by rewrite Efh|lia|].
  apply swp_bind. eapply swp_get; [exact E1|]. apply swp_bind. eapply swp_get; [exact E2|].
  set (h := le_split 2 cmd ++ le_split 2 flags ++ replicate 8 0) in *.
  assert (zlen (h ++ fh) = 24) as Eh by (subst h; rewrite !zlen_app, !zlen_le_split, Efh; done).
  assert (zlen (h ++ fh) mod 4 = 0) as Hal by (rewrite Eh; done).
  assert (2 * (4 + zlen ((h ++ fh) ++ flat (rule_parts o src dst iif oif))) ≤ nm_size msg') as Hfit
    by (rewrite zlen_app, Eh; lia).
  unfold rule_parts, rule_nums_parts in Hfit. clear Hal Hlen Hs E1 E2 Hsz. assert (zlen (h ++ fh) mod 4 = 0) as Hal by (rewrite Eh; done).
  put_next Hb Hal Hfit ltac:(edestruct Hsrc as (a & Ha & Hw & <-); [eassumption|]; by apply put_addr_is).
  put_next Hb Hal Hfit ltac:(edestruct Hdst as (a & Ha & Hw & <-); [eassumption|]; by apply put_addr_is).
  put_next Hb Hal Hfit ltac:(by eapply put_name_is).
  put_next Hb Hal Hfit ltac:(by eapply put_name_is).
  do 4 put_next Hb Hal Hfit ltac:(apply put_num_is).
  rewrite <- (app_nil_r (opt_attr _ FRA_FLOW _)) in Hfit. put_next Hb Hal Hfit ltac:(apply put_num_is).
  apply swp_ret. split; [done|]. eexists. split; [done|]. cbn [fst snd]. rewrite (wire_built _ _ _ Hb).
  unfold rule_body, rule_parts, rule_nums_parts. rewrite !flat_app. by rewrite <- !app_assoc.
Qed.

(** The rule that is read back: the table is cut to eight bits, and the prefix lengths are
    lost. *)
Definition rule_back (ops cmd : Z) (o : rule) (src dst : Z) (iif oif : list Z) : rule :=
  mkObj 1 ops 0 cmd 0
    (Z.lor 0xf (Z.lor (opt_bit (negb (num r_dsfield o =? 0)) RULE_ATTR_DSFIELD) (Z.land (ce_mask o) 0x2ff0)))
    (mkRule (r_set_table (u8 (num r_table o)) (r_nums (ce_data o))) src dst (padded iif) (padded oif)).

Definition unprefixed (family : Z) (bs : list Z) : nl_addr := nl_addr_set_prefixlen 0 (made family bs).

(** The bits of the optional attributes. *)
Lemma rule_mask_eq (o : rule) x :
  let has b := opt_bit (has_attr b o) b in
  foldl Z.lor x [0; has RULE_ATTR_IIFNAME; has RULE_ATTR_OIFNAME; has RULE_ATTR_PRIO; has RULE_ATTR_MARK; has RULE_ATTR_MASK;
                 has RULE_ATTR_GOTO; has RULE_ATTR_SRC; has RULE_ATTR_DST; has RULE_ATTR_FLOW] =
  Z.lor x (Z.land (ce_mask o) 0x2ff0).
Proof.
  cbn [foldl]. change 0x2ff0 with (foldl Z.lor 0 [RULE_ATTR_IIFNAME; RULE_ATTR_OIFNAME; RULE_ATTR_PRIO; RULE_ATTR_MARK; RULE_ATTR_MASK;
    RULE_ATTR_GOTO; RULE_ATTR_SRC; RULE_ATTR_DST; RULE_ATTR_FLOW]). cbn [foldl].
  change RULE_ATTR_IIFNAME with (2 ^ 4). change RULE_ATTR_OIFNAME with (2 ^ 5). change RULE_ATTR_PRIO with (2 ^ 6). change RULE_ATTR_MARK with (2 ^ 7). change RULE_ATTR_MASK with (2 ^ 8).
  change RULE_ATTR_GOTO with (2 ^ 9). change RULE_ATTR_SRC with (2 ^ 10). change RULE_ATTR_DST with (2 ^ 11). change RULE_ATTR_FLOW with (2 ^ 13).
  rewrite (attr_bit o 4), (attr_bit o 5), (attr_bit o 6), (attr_bit o 7), (attr_bit o 8), (attr_bit o 9), (attr_bit o 10),
    (attr_bit o 11), (attr_bit o 13) by lia.
  rewrite !Z.land_lor_distr_r, Z.land_0_r, Z.lor_0_r, Z.lor_0_l. by rewrite <- !Z.lor_assoc.
Qed.

Lemma rule_passes o src dst iif oif :
  Forall is_byte src → Forall is_byte dst → name_ok iif → name_ok oif → zlen src ≤ 32 → zlen dst ≤ 32 →
  Forall attr_ok (rule_parts o src dst iif oif) ∧ Forall (passes FRA_MAX rule_policy) (rule_parts o src dst iif oif).
Proof.
  intros B1 B2 N1 N2 L1 L2. pose proof N1 as (_ & _ & L3%zlen_nul). pose proof N2 as (_ & _ & L4%zlen_nul).
  unfold rule_parts, rule_nums_parts. rewrite !Forall_app. split_and!; apply Forall_opt; intros _;
    first [split; [done|cbn [snd]; rewrite ?zlen_le_split; lia]|by apply passes_none|by apply passes_u32|eapply passes_name; [done|done|by right] ].
Qed.

(** The next attribute of a message that is read. *)
Ltac find_rule l := subst l; unfold rule_parts, rule_nums_parts; find_opts.

(** The object after the header. *)
Definition rule_head (ops cmd : Z) (o : rule) : rule :=
  mkObj 1 ops 0 cmd 0 (Z.lor 0xf (opt_bit (negb (num r_dsfield o =? 0)) RULE_ATTR_DSFIELD))
    (mkRule (mkNums (num r_family o) (num r_action o) (num r_dsfield o) (u8 (num r_table o)) (num r_flags o) 0 0 0 0 0) 0 0
       (padded []) (padded [])).

Lemma parse_head_ok ops cmd o pre post m :
  nums_ok o → zlen pre = 16 →
  rule_parse_head (pre ++ fib_rule_hdr (r_nums (ce_data o)) ++ post)
    (set_body cmd 0 rule_new (new_object ops)) m = Some (rule_head ops cmd o, m).
Proof.
  intros [H1 H2 H3 H4 _ _ _ _ _] Hp. set (buf := pre ++ _).
  assert (swp (rule_parse_head buf (set_body cmd 0 rule_new (new_object ops))) (λ r m', m' = m ∧ r = rule_head ops cmd o) m) as Hwp.
  2: { by apply swp_run in Hwp as (r & m' & E & -> & ->). }
  unfold rule_parse_head. change (nlmsg_data 0) with 16.
  subst buf. unfold fib_rule_hdr.
  apply swp_bind; eapply swp_get; [rewrite (ld_skip _ _ _ _ 16) by done; change (16 - 16) with 0; ld_field|].
  apply swp_bind; eapply swp_get; [rewrite (ld_skip _ _ _ _ 16) by done; change (16 + 4 - 16) with 4; ld_field|].
  apply swp_bind; eapply swp_get; [rewrite (ld_skip _ _ _ _ 16) by done; change (16 + 7 - 16) with 7; ld_field|].
  apply swp_bind; eapply swp_get; [rewrite (ld_skip _ _ _ _ 16) by done; change (16 + 8 - 16) with 8; ld_field; exact H4|].
  apply swp_bind; eapply swp_get; [rewrite (ld_skip _ _ _ _ 16) by done; change (16 + 3 - 16) with 3; ld_field|].
  apply swp_ret. split; [done|]. unfold num in *. rewrite !(u8_small (r_family _)), !(u8_small (r_action _)), !(u8_small (r_dsfield _)) by done.
  unfold rule_head, num, opt_bit. destruct (Z.eqb_spec (r_dsfield (r_nums (ce_data o))) 0) as [E|E]; cbn [negb]; [by rewrite E|done].
Qed.

Lemma parse_rule_ok ops size o src dst iif oif cmd flags m :
  plenty addr_calloc → rule_sendable o src dst iif oif m → 1024 ≤ size < 2 ^ 31 → 0 ≤ cmd < 2 ^ 16 →
  let bs := has_attr RULE_ATTR_SRC o in
  let bd := has_attr RULE_ATTR_DST o in
  let m1 := if bs then <[addr_calloc m := unprefixed (num r_family o) src]> m else m in
  let m2 := if bd then <[addr_calloc m1 := unprefixed (num r_family o) dst]> m1 else m1 in
  ∃ msg, build_rule_msg size true o cmd flags m = Some ((0, Some msg), m) ∧
    rule_fill addr_calloc (wire msg) (new_object ops) m =
    Some ((0, rule_back ops cmd o (opt_bit bs (addr_calloc m)) (opt_bit bd (addr_calloc m1)) iif oif), m2).
Proof.
  intros Hpl Hs Hsz Hcmd bs bd m1 m2. destruct (build_rule_ok size o src dst iif oif cmd flags m Hs Hsz) as (msg & E & Hwire).
  exists msg. split; [done|]. rewrite Hwire. clear E Hwire msg. pose proof Hs as [Hf Hn (L1 & B1 & _) (L2 & B2 & _) [N1 Q1] [N2 Q2] ].
  pose proof N1 as (_ & _ & L3). pose proof N2 as (_ & _ & L4). pose proof (rule_parts_len o src dst iif oif L1 L2 L3 L4) as Hlen.
  destruct (rule_passes o src dst iif oif B1 B2 N1 N2 L1 L2) as [Hok Hpa].
  unfold rule_body. set (l := rule_parts o src dst iif oif) in *. set (fh := fib_rule_hdr (r_nums (ce_data o))).
  destruct (nlmsg_parse_ok (le_split 2 cmd ++ le_split 2 flags ++ replicate 8 0) fh l [] 12 FRA_MAX rule_policy) as (t & Et & Hix); try done; [lia|].
  rewrite app_nil_r in Et, Hix. set (buf := le_split 4 _ ++ _) in *.
  assert (swp (rule_fill addr_calloc buf (new_object ops)) (λ r m', m' = m2 ∧
    r = (0, rule_back ops cmd o (opt_bit bs (addr_calloc m)) (opt_bit bd (addr_calloc m1)) iif oif)) m) as Hwp.
  2: { by apply swp_run in Hwp as (r & m' & E & -> & ->). }
  unfold rule_fill. apply swp_bind. eapply swp_get; [subst buf; unfold nlmsg_type; ld_field; done|].
  apply swp_bind. eapply swp_get; [exact Et|]. change (0 <? 0) with false. cbv iota.
  assert (rule_parse_head buf (set_body cmd 0 rule_new (new_object ops)) m = Some (rule_head ops cmd o, m)) as Ehead.
  { subst buf. rewrite (assoc_L (++) (le_split 4 _)). apply parse_head_ok; [done|]. by rewrite !zlen_app, !zlen_le_split. }
  apply swp_bind. unfold swp at 1. change (ce_mask (new_object ops)) with 0. change (ce_data (new_object ops)) with rule_new.
  rewrite Ehead.
  change (num r_family (rule_head ops cmd o)) with (num r_family o). unfold rule_head.
  destruct Hn as [Hfam _ _ _ [P1 P2] [M1 M2] [K1 K2] [G1 G2] [F1 F2] ].
  eapply (take_u32_clean _ l _ _ FRA_TABLE false (u8 (num r_table o)));
    [exact Hix|done|find_rule l|split; [by apply Z.mod_pos_bound|eapply Z.lt_trans; [by apply Z.mod_pos_bound|done] ]|done|].
  eapply (take_name_clean _ l _ _ FRA_IIFNAME (has_attr RULE_ATTR_IIFNAME o) iif);
    [exact Hix|done|find_rule l|done|done|intros E; rewrite E in Q1; by subst|].
  eapply (take_name_clean _ l _ _ FRA_OIFNAME (has_attr RULE_ATTR_OIFNAME o) oif);
    [exact Hix|done|find_rule l|done|done|intros E; rewrite E in Q2; by subst|].
  eapply (take_u32_clean _ l _ _ FRA_PRIORITY (has_attr RULE_ATTR_PRIO o) (num r_prio o));
    [exact Hix|done|find_rule l|done|intros E; by rewrite (P2 E)|].
  eapply (take_u32_clean _ l _ _ FRA_FWMARK (has_attr RULE_ATTR_MARK o) (num r_mark o));
    [exact Hix|done|find_rule l|done|intros E; by rewrite (M2 E)|].
  eapply (take_u32_clean _ l _ _ FRA_FWMASK (has_attr RULE_ATTR_MASK o) (num r_mask o));
    [exact Hix|done|find_rule l|done|intros E; by rewrite (K2 E)|].
  eapply (take_u32_clean _ l _ _ FRA_GOTO (has_attr RULE_ATTR_GOTO o) (num r_goto o));
    [exact Hix|done|find_rule l|done|intros E; by rewrite (G2 E)|].
  apply swp_bind. eapply swp_get; [subst buf fh; unfold fib_rule_hdr; change (nlmsg_data 0 + 2) with 18; ld_field|].
  apply swp_bind. eapply swp_get; [subst buf fh; unfold fib_rule_hdr; change (nlmsg_data 0 + 1) with 17; ld_field|].
  eapply (take_addr_clean addr_calloc _ l _ _ FRA_SRC bs src);
    [done|exact Hix|done|subst bs; find_rule l|lia|lia|done|done|]. fold (unprefixed (num r_family o) src). fold m1.
  eapply (take_addr_clean addr_calloc _ l _ _ FRA_DST bd dst);
    [done|exact Hix|done|subst bd; find_rule l|lia|lia|done|done|]. fold (unprefixed (num r_family o) dst). fold m2.
  cbn [fst snd]. change (0 <? 0) with false. cbv iota.
  eapply (take_u32_clean _ l _ _ FRA_FLOW (has_attr RULE_ATTR_FLOW o) (num r_flow o));
    [exact Hix|done|find_rule l|done|intros E; by rewrite (F2 E)|].
  apply swp_ret. split; [done|]. f_equal. unfold rule_back. rewrite Z.lor_assoc, <- rule_mask_eq. done.
Qed.
End RuleMsg.
