(* ===== verification/Tc.v ===== *)
(** * Traffic control objects: [lib/route/tc.c], [qdisc.c], [class.c] and modules of [qdisc/]

    A traffic control object has identifiers, the kind of a module, and the data of that
    module, which the module's functions write into messages and read out of them.  The
    modules here are pfifo, bfifo, prio, pfifo_fast, sfq, dsmark, red and blackhole.

    The data of an object is a block of the module's size that is used as the module's
    structure; here it is that structure, and its use as another structure crashes, as [BUG()]
    and a NULL pointer do.  Flags tell whether there is memory. *)

From stdpp Require Import strings.
From S2P Require Import Prelude Packet Netlink NlError Text Attr CStr Addr Recv NlList Objects RtObj.
Import Nl.

Module Tc.

Definition TCA_ATTR_HANDLE : Z := 0x0001.
Definition TCA_ATTR_PARENT : Z := 0x0002.
Definition TCA_ATTR_IFINDEX : Z := 0x0004.
Definition TCA_ATTR_KIND : Z := 0x0008.
Definition TCA_ATTR_FAMILY : Z := 0x0010.
Definition TCA_ATTR_INFO : Z := 0x0020.
Definition TCA_ATTR_OPTS : Z := 0x0040.
Definition TCA_ATTR_STATS : Z := 0x0080.
Definition TCA_ATTR_XSTATS : Z := 0x0100.
Definition TCA_ATTR_LINK : Z := 0x0200.
Definition TCA_ATTR_MTU : Z := 0x0400.
Definition TCA_ATTR_MPU : Z := 0x0800.
Definition TCA_ATTR_OVERHEAD : Z := 0x1000.
Definition TCA_ATTR_LINKTYPE : Z := 0x2000.

Definition TCA_KIND : Z := 1.
Definition TCA_OPTIONS : Z := 2.
Definition TCA_STATS : Z := 3.
Definition TCA_XSTATS : Z := 4.
Definition TCA_STATS2 : Z := 7.
Definition TCA_MAX : Z := 8.
Definition TCA_STATS_BASIC : Z := 1.
Definition TCA_STATS_RATE_EST : Z := 2.
Definition TCA_STATS_QUEUE : Z := 3.
Definition TCA_STATS_APP : Z := 4.
Definition TCA_STATS_MAX : Z := 4.
Definition TCKINDSIZ : Z := 32.
Definition TC_PRIO_MAX : Z := 15.
Definition ARPHRD_ETHER : Z := 1.
Definition RTM_NEWQDISC : Z := 36.
Definition RTM_DELQDISC : Z := 37.
Definition RTM_NEWTCLASS : Z := 40.
Definition RTM_DELTCLASS : Z := 41.
Definition NLM_F_REPLACE : Z := 0x100.

(** [enum rtnl_tc_type] *)
Definition RTNL_TC_TYPE_QDISC : Z := 0.
Definition RTNL_TC_TYPE_CLASS : Z := 1.
Definition RTNL_TC_TYPE_MAX : Z := 2.

(** [enum rtnl_tc_stat] *)
Definition RTNL_TC_PACKETS : Z := 0.
Definition RTNL_TC_BYTES : Z := 1.
Definition RTNL_TC_RATE_BPS : Z := 2.
Definition RTNL_TC_RATE_PPS : Z := 3.
Definition RTNL_TC_QLEN : Z := 4.
Definition RTNL_TC_BACKLOG : Z := 5.
Definition RTNL_TC_DROPS : Z := 6.
Definition RTNL_TC_REQUEUES : Z := 7.
Definition RTNL_TC_OVERLIMITS : Z := 8.
Definition RTNL_TC_STATS_MAX : Z := 8.

(** ** The structures of the modules *)

Record rtnl_fifo := mkFifo { qf_limit : Z; qf_mask : Z }.
Record rtnl_prio := mkPrio { qp_bands : Z; qp_priomap : list Z; qp_mask : Z }.
Record rtnl_sfq := mkSfq { qs_quantum : Z; qs_perturb : Z; qs_limit : Z; qs_divisor : Z; qs_flows : Z; qs_mask : Z }.
Record rtnl_dsmark_qdisc := mkDsq { qdm_indices : Z; qdm_default_index : Z; qdm_set_tc_index : Z; qdm_mask : Z }.
Record rtnl_dsmark_class := mkDsc { cdm_bmask : Z; cdm_value : Z; cdm_mask : Z }.
Record rtnl_red := mkRed {
  qr_limit : Z; qr_qth_min : Z; qr_qth_max : Z; qr_flags : Z; qr_wlog : Z; qr_plog : Z; qr_scell_log : Z; qr_mask : Z;
}.

(** What a block of data is used as. *)
Inductive subdata :=
  | DFifo (d : rtnl_fifo)
  | DPrio (d : rtnl_prio)
  | DSfq (d : rtnl_sfq)
  | DDsmark (d : rtnl_dsmark_qdisc)
  | DDsmarkClass (d : rtnl_dsmark_class)
  | DRed (d : rtnl_red).

(** The modules: the addresses of their operations. *)
Inductive tc_module :=
  | pfifo_ops | bfifo_ops | prio_ops | pfifo_fast_ops | sfq_ops | dsmark_qdisc_ops | dsmark_class_ops | red_ops | blackhole_ops.

#[export] Instance tc_module_eq : EqDecision tc_module.
Proof. solve_decision. Defined.

(** [to_kind], [to_type] and [to_size] *)
Definition to_kind (m : tc_module) : list Z :=
  match m with
  | pfifo_ops => text "pfifo"
  | bfifo_ops => text "bfifo"
  | prio_ops => text "prio"
  | pfifo_fast_ops => text "pfifo_fast"
  | sfq_ops => text "sfq"
  | dsmark_qdisc_ops | dsmark_class_ops => text "dsmark"
  | red_ops => text "red"
  | blackhole_ops => text "blackhole"
  end.

Definition to_type (m : tc_module) : Z :=
  match m with dsmark_class_ops => RTNL_TC_TYPE_CLASS | _ => RTNL_TC_TYPE_QDISC end.

Definition to_size (m : tc_module) : Z :=
  match m with
  | pfifo_ops | bfifo_ops => 8
  | prio_ops | pfifo_fast_ops => 24
  | sfq_ops => 24
  | dsmark_qdisc_ops => 12
  | dsmark_class_ops => 8
  | red_ops => 20
  | blackhole_ops => 0
  end.

(** The structure in a block of zeros; no module of this size has none. *)
Definition to_new (m : tc_module) : option subdata :=
  match m with
  | pfifo_ops | bfifo_ops => Some (DFifo (mkFifo 0 0))
  | prio_ops | pfifo_fast_ops => Some (DPrio (mkPrio 0 (replicate 16 0) 0))
  | sfq_ops => Some (DSfq (mkSfq 0 0 0 0 0 0))
  | dsmark_qdisc_ops => Some (DDsmark (mkDsq 0 0 0 0))
  | dsmark_class_ops => Some (DDsmarkClass (mkDsc 0 0 0))
  | red_ops => Some (DRed (mkRed 0 0 0 0 0 0 0 0))
  | blackhole_ops => None
  end.

(** ** The object *)

Record tc_ids := mkIds { tc_family : Z; tc_ifindex : Z; tc_handle : Z; tc_parent : Z; tc_info : Z }.
Record tc_sizes := mkSizes { tc_mtu : Z; tc_mpu : Z; tc_overhead : Z; tc_linktype : Z }.

(** [struct rtnl_tc] without its header; [tc_link] is a pointer. *)
Record rtnl_tc := mkTc {
  tc_id : tc_ids;
  tc_sz : tc_sizes;
  tc_kind : list Z;
  tc_opts : option nl_data;
  tc_stats : list Z;
  tc_xstats : option nl_data;
  tc_subdata : option subdata;
  tc_link : Z;
  tc_ops : option tc_module;
  tc_type : Z;
}.

Abbreviation tc := (nl_object rtnl_tc).

Definition t_set_id (v : tc_ids) (t : rtnl_tc) : rtnl_tc :=
  mkTc v (tc_sz t) (tc_kind t) (tc_opts t) (tc_stats t) (tc_xstats t) (tc_subdata t) (tc_link t) (tc_ops t) (tc_type t).
Definition t_set_sz (v : tc_sizes) (t : rtnl_tc) : rtnl_tc :=
  mkTc (tc_id t) v (tc_kind t) (tc_opts t) (tc_stats t) (tc_xstats t) (tc_subdata t) (tc_link t) (tc_ops t) (tc_type t).
Definition t_set_kind (v : list Z) (t : rtnl_tc) : rtnl_tc :=
  mkTc (tc_id t) (tc_sz t) v (tc_opts t) (tc_stats t) (tc_xstats t) (tc_subdata t) (tc_link t) (tc_ops t) (tc_type t).
Definition t_set_opts (v : option nl_data) (t : rtnl_tc) : rtnl_tc :=
  mkTc (tc_id t) (tc_sz t) (tc_kind t) v (tc_stats t) (tc_xstats t) (tc_subdata t) (tc_link t) (tc_ops t) (tc_type t).
Definition t_set_stats (v : list Z) (t : rtnl_tc) : rtnl_tc :=
  mkTc (tc_id t) (tc_sz t) (tc_kind t) (tc_opts t) v (tc_xstats t) (tc_subdata t) (tc_link t) (tc_ops t) (tc_type t).
Definition t_set_xstats (v : option nl_data) (t : rtnl_tc) : rtnl_tc :=
  mkTc (tc_id t) (tc_sz t) (tc_kind t) (tc_opts t) (tc_stats t) v (tc_subdata t) (tc_link t) (tc_ops t) (tc_type t).
Definition t_set_subdata (v : option subdata) (t : rtnl_tc) : rtnl_tc :=
  mkTc (tc_id t) (tc_sz t) (tc_kind t) (tc_opts t) (tc_stats t) (tc_xstats t) v (tc_link t) (tc_ops t) (tc_type t).
Definition t_set_link (v : Z) (t : rtnl_tc) : rtnl_tc :=
  mkTc (tc_id t) (tc_sz t) (tc_kind t) (tc_opts t) (tc_stats t) (tc_xstats t) (tc_subdata t) v (tc_ops t) (tc_type t).
Definition t_set_ops (v : option tc_module) (t : rtnl_tc) : rtnl_tc :=
  mkTc (tc_id t) (tc_sz t) (tc_kind t) (tc_opts t) (tc_stats t) (tc_xstats t) (tc_subdata t) (tc_link t) v (tc_type t).

(** A change of the payload only. *)
Definition on_tc (f : rtnl_tc → rtnl_tc) (o : tc) : tc := set_body (ce_msgtype o) (ce_mask o) (f (ce_data o)) o.

(** [rtnl_qdisc_alloc] and [rtnl_class_alloc] *)
Definition tc_new (type : Z) : rtnl_tc :=
  mkTc (mkIds 0 0 0 0 0) (mkSizes 0 0 0 0) (replicate 32 0) None (replicate 9 0) None None 0 None type.
Definition rtnl_qdisc_alloc (ops : Z) : tc := mkObj 1 ops 0 0 0 0 (tc_new RTNL_TC_TYPE_QDISC).
Definition rtnl_class_alloc (ops : Z) : tc := mkObj 1 ops 0 0 0 0 (tc_new RTNL_TC_TYPE_CLASS).

Definition id (f : tc_ids → Z) (o : tc) : Z := f (tc_id (ce_data o)).
Definition sz (f : tc_sizes → Z) (o : tc) : Z := f (tc_sz (ce_data o)).

(** *** Attributes without links and modules *)

Definition rtnl_tc_get_ifindex (o : tc) : Z := s32 (id tc_ifindex o).

Definition set_size (bit : Z) (f : tc_sizes → tc_sizes) (o : tc) : tc := put_data bit (t_set_sz (f (tc_sz (ce_data o))) (ce_data o)) o.
Definition rtnl_tc_set_mtu (mtu : Z) : tc → tc :=
  set_size TCA_ATTR_MTU (λ s, mkSizes mtu (tc_mpu s) (tc_overhead s) (tc_linktype s)).
Definition rtnl_tc_set_mpu (mpu : Z) : tc → tc :=
  set_size TCA_ATTR_MPU (λ s, mkSizes (tc_mtu s) mpu (tc_overhead s) (tc_linktype s)).
Definition rtnl_tc_get_mpu (o : tc) : Z := sz tc_mpu o.
Definition rtnl_tc_set_overhead (overhead : Z) : tc → tc :=
  set_size TCA_ATTR_OVERHEAD (λ s, mkSizes (tc_mtu s) (tc_mpu s) overhead (tc_linktype s)).
Definition rtnl_tc_get_overhead (o : tc) : Z := sz tc_overhead o.
Definition rtnl_tc_set_linktype (type : Z) : tc → tc :=
  set_size TCA_ATTR_LINKTYPE (λ s, mkSizes (tc_mtu s) (tc_mpu s) (tc_overhead s) type).

Definition set_id (bit : Z) (f : tc_ids → tc_ids) (o : tc) : tc := put_data bit (t_set_id (f (tc_id (ce_data o))) (ce_data o)) o.
Definition rtnl_tc_set_handle (v : Z) : tc → tc :=
  set_id TCA_ATTR_HANDLE (λ i, mkIds (tc_family i) (tc_ifindex i) v (tc_parent i) (tc_info i)).
Definition rtnl_tc_get_handle (o : tc) : Z := id tc_handle o.
Definition rtnl_tc_set_parent (v : Z) : tc → tc :=
  set_id TCA_ATTR_PARENT (λ i, mkIds (tc_family i) (tc_ifindex i) (tc_handle i) v (tc_info i)).
Definition rtnl_tc_get_parent (o : tc) : Z := id tc_parent o.

(** The array, or NULL. *)
Definition rtnl_tc_get_kind (o : tc) : option (list Z) := if has_attr TCA_ATTR_KIND o then Some (tc_kind (ce_data o)) else None.

Definition rtnl_tc_get_stat (o : tc) (i : Z) : Z :=
  if (i <? 0) || (RTNL_TC_STATS_MAX <? i) then 0 else znth (tc_stats (ce_data o)) i.

Definition stat (i v : Z) (o : tc) : tc := on_tc (λ t, t_set_stats (<[Z.to_nat i := v]> (tc_stats t)) t) o.

Definition rtnl_tc_calc_cell_log (cell_size : Z) : Z :=
  (fix loop (n : nat) (i : Z) : Z :=
     match n with
     | O => - NLE_INVAL
     | S n => if s32 (Z.shiftl 1 i) =? cell_size then i else loop n (i + 1)
     end) 32%nat 0.

Definition rtnl_tc_compare (a b : tc) (attrs flags : Z) : option Z :=
  let DIFF attr f := ATTR_DIFF attrs attr (ce_mask a) (ce_mask b) (negb (id f a =? id f b)) in
  (* the names are compared only if both objects have one *)
  k ← (if negb (Z.land attrs TCA_ATTR_KIND =? 0) && (Z.land (Z.lxor (ce_mask a) (ce_mask b)) TCA_ATTR_KIND =? 0)
          && negb (Z.land (Z.land (ce_mask a) (ce_mask b)) TCA_ATTR_KIND =? 0)
       then s ← c_string (tc_kind (ce_data a)); t ← c_string (tc_kind (ce_data b)); Some (negb (bool_decide (s = t)))
       else Some false);
  Some (foldl Z.lor 0 [DIFF TCA_ATTR_HANDLE tc_handle; DIFF TCA_ATTR_PARENT tc_parent; DIFF TCA_ATTR_IFINDEX tc_ifindex;
                       ATTR_DIFF attrs TCA_ATTR_KIND (ce_mask a) (ce_mask b) k]).

(** ** Links *)

(** The fields of [struct rtnl_link] that are used here, and its references. *)
Record rtnl_link := mkLink { l_refcnt : Z; l_index : Z; l_mtu : Z; l_arptype : Z }.
Abbreviation links := (gmap Z rtnl_link).

Section Links.
Local Open Scope state_scope.

(** A link that loses its last reference is gone. *)
Definition rtnl_link_put (p : Z) : St links unit :=
  if p =? 0 then sret tt
  else
    l <- sget (λ m, m !! p) ;;
    if l_refcnt l - 1 <? 0 then scrash
    else if l_refcnt l - 1 <=? 0 then smodify (delete p)
    else smodify (insert p (mkLink (l_refcnt l - 1) (l_index l) (l_mtu l) (l_arptype l))).

Definition set_ifindex (ifindex mask : Z) (o : tc) : tc :=
  let i := tc_id (ce_data o) in
  set_body (ce_msgtype o) mask (t_set_id (mkIds (tc_family i) (u32 ifindex) (tc_handle i) (tc_parent i) (tc_info i)) (ce_data o)) o.

Definition rtnl_tc_set_ifindex (ifindex : Z) (o : tc) : St links tc :=
  rtnl_link_put (tc_link (ce_data o)) ;;
  let o := on_tc (t_set_link 0) o in
  sret (set_ifindex ifindex (Z.lor (Z.land (ce_mask o) (Z.lnot TCA_ATTR_LINK)) TCA_ATTR_IFINDEX) o).

(** With NULL, the old link is given back and stays in the object. *)
Definition rtnl_tc_set_link (link : Z) (o : tc) : St links tc :=
  rtnl_link_put (tc_link (ce_data o)) ;;
  if link =? 0 then sret o
  else
    l <- sget (λ m, m !! link) ;;
    smodify (insert link (mkLink (l_refcnt l + 1) (l_index l) (l_mtu l) (l_arptype l))) ;;
    let o := on_tc (t_set_link link) o in
    sret (set_ifindex (l_index l) (Z.lor (ce_mask o) (Z.lor TCA_ATTR_LINK TCA_ATTR_IFINDEX)) o).

Definition rtnl_tc_get_mtu (o : tc) : St links Z :=
  if has_attr TCA_ATTR_MTU o then sret (sz tc_mtu o)
  else if has_attr TCA_ATTR_LINK o then l <- sget (λ m, m !! tc_link (ce_data o)) ;; sret (l_mtu l)
  else sret 1600.

Definition rtnl_tc_get_linktype (o : tc) : St links Z :=
  if has_attr TCA_ATTR_LINKTYPE o then sret (sz tc_linktype o)
  else if has_attr TCA_ATTR_LINK o then l <- sget (λ m, m !! tc_link (ce_data o)) ;; sret (l_arptype l)
  else sret ARPHRD_ETHER.
End Links.

(** ** Modules *)

(** [tc_ops_list]: the modules of each type that are registered, in their order. *)
Abbreviation registry := (Z → list tc_module).

Definition rtnl_tc_lookup_ops (reg : registry) (type : Z) (kind : list Z) : option tc_module :=
  list_find (λ m, kind = to_kind m) (reg type) ≫= λ r, Some r.2.

(** The result and the registry; [BUG()] for a type that does not exist. *)
Definition rtnl_tc_register (m : tc_module) (reg : registry) : option (Z * registry) :=
  if RTNL_TC_TYPE_MAX <? to_type m then None
  else match rtnl_tc_lookup_ops reg (to_type m) (to_kind m) with
       | Some _ => Some (- NLE_EXIST, reg)
       | None => Some (0, λ t, if t =? to_type m then reg t ++ [m] else reg t)
       end.

(** A module that is not in a list has no neighbours to link with each other. *)
Definition rtnl_tc_unregister (m : tc_module) (reg : registry) : option registry :=
  if bool_decide (m ∈ reg (to_type m)) then Some (λ t, if t =? to_type m then base.filter (λ k, k ≠ m) (reg t) else reg t)
  else None.

Section Modules.
Context (reg : registry).

(** The kind is the C string in the array. *)
Definition rtnl_tc_get_ops (o : tc) : option (option tc_module * tc) :=
  match tc_ops (ce_data o) with
  | Some m => Some (Some m, o)
  | None =>
      kind ← c_string (tc_kind (ce_data o));
      let r := rtnl_tc_lookup_ops reg (tc_type (ce_data o)) kind in
      Some (r, on_tc (t_set_ops r) o)
  end.

(** The data of the object, made if there is none. *)
Definition rtnl_tc_data (ok : bool) (o : tc) : option (option subdata * tc) :=
  match tc_subdata (ce_data o) with
  | Some d => Some (Some d, o)
  | None =>
      r ← rtnl_tc_get_ops o;
      match r with
      | (None, o) => Some (None, o)
      | (Some m, o) =>
          if to_size m =? 0 then None
          else if negb ok then Some (None, o)
          else d ← to_new m; Some (Some d, on_tc (t_set_subdata (Some d)) o)
      end
  end.

(** [kind] without its NUL. *)
Definition rtnl_tc_set_kind (ok : bool) (kind : list Z) (o : tc) : option (Z * tc) :=
  if has_attr TCA_ATTR_KIND o then Some (- NLE_EXIST, o)
  else
    k ← strncpy (tc_kind (ce_data o)) kind (TCKINDSIZ - 1);
    let o := put_data TCA_ATTR_KIND (t_set_kind k (ce_data o)) o in
    r ← rtnl_tc_data ok o;
    Some (0, r.2).
End Modules.

(** *** Structures *)

Class Struct (D : Type) := { wrap : D → subdata; unwrap : subdata → option D }.
#[export] Instance fifo_struct : Struct rtnl_fifo := {| wrap := DFifo; unwrap d := if d is DFifo d then Some d else None |}.
#[export] Instance prio_struct : Struct rtnl_prio := {| wrap := DPrio; unwrap d := if d is DPrio d then Some d else None |}.
#[export] Instance sfq_struct : Struct rtnl_sfq := {| wrap := DSfq; unwrap d := if d is DSfq d then Some d else None |}.
#[export] Instance dsmark_struct : Struct rtnl_dsmark_qdisc :=
  {| wrap := DDsmark; unwrap d := if d is DDsmark d then Some d else None |}.
#[export] Instance dsmark_class_struct : Struct rtnl_dsmark_class :=
  {| wrap := DDsmarkClass; unwrap d := if d is DDsmarkClass d then Some d else None |}.
#[export] Instance red_struct : Struct rtnl_red := {| wrap := DRed; unwrap d := if d is DRed d then Some d else None |}.

Section Access.
Context {D : Type} `{Struct D} (reg : registry) (ok : bool).

(** A setter: [none] is what it does without memory, [f] gives the result and the new data. *)
Definition tc_update (none : option Z) (f : D → option (Z * D)) (o : tc) : option (Z * tc) :=
  r ← rtnl_tc_data reg ok o;
  match r.1 with
  | None => e ← none; Some (e, r.2)
  | Some d => d ← unwrap d; x ← f d; Some (x.1, on_tc (t_set_subdata (Some (wrap x.2))) r.2)
  end.

(** A getter. *)
Definition tc_read {A} (none : option A) (f : D → A) (o : tc) : option (A * tc) :=
  r ← rtnl_tc_data reg ok o;
  match r.1 with
  | None => e ← none; Some (e, r.2)
  | Some d => d ← unwrap d; Some (f d, r.2)
  end.
End Access.

Definition has (mask bit : Z) : bool := negb (Z.land mask bit =? 0).

(** The bytes of the options, [tc->tc_opts->d_data], and their number. *)
Definition opts_bytes (o : tc) : option (list Z * Z) :=
  d ← tc_opts (ce_data o); bs ← d_data d; Some (bs, d_size d).

(** The error, the bytes, and where the attributes are in them. *)
Definition tca_parse (maxattr : Z) (o : tc) (policy : Z → nla_policy) : option (Z * list Z * tb) :=
  if has_attr TCA_ATTR_OPTS o then
    x ← opts_bytes o;
    r ← nla_parse x.1 maxattr 0 x.2 (Some policy);
    Some (r.1, x.1, r.2)
  else Some (0, [], λ _, None).

(** ** First in, first out: [qdisc/fifo.c] *)

Definition SCH_FIFO_ATTR_LIMIT : Z := 1.

Definition fifo_msg_parser (o : tc) (fifo : rtnl_fifo) : option (Z * rtnl_fifo) :=
  x ← opts_bytes o;
  if x.2 <? 4 then Some (- NLE_INVAL, fifo)
  else limit ← ld 4 x.1 0; Some (0, mkFifo limit SCH_FIFO_ATTR_LIMIT).

Definition fifo_msg_fill (fifo : option rtnl_fifo) (msg : nl_msg) : option (Z * nl_msg) :=
  match fifo with
  | None => Some (- NLE_INVAL, msg)
  | Some fifo =>
      if negb (has (qf_mask fifo) SCH_FIFO_ATTR_LIMIT) then Some (- NLE_INVAL, msg)
      else nlmsg_append msg (le_split 4 (qf_limit fifo)) 0
  end.

Definition rtnl_qdisc_fifo_set_limit (reg : registry) (ok : bool) (limit : Z) : tc → option (Z * tc) :=
  tc_update reg ok (Some (- NLE_NOMEM)) (λ f, Some (0, mkFifo (u32 limit) (Z.lor (qf_mask f) SCH_FIFO_ATTR_LIMIT))).

Definition rtnl_qdisc_fifo_get_limit (reg : registry) (ok : bool) : tc → option (Z * tc) :=
  tc_read reg ok (Some (- NLE_NOMEM)) (λ f, if has (qf_mask f) SCH_FIFO_ATTR_LIMIT then s32 (qf_limit f) else - NLE_NOATTR).

(** ** Priorities: [qdisc/prio.c] *)

Definition SCH_PRIO_ATTR_BANDS : Z := 1.
Definition SCH_PRIO_ATTR_PRIOMAP : Z := 2.

Definition prio_msg_parser (o : tc) (prio : rtnl_prio) : option (Z * rtnl_prio) :=
  x ← opts_bytes o;
  if x.2 <? 20 then Some (- NLE_INVAL, prio)
  else
    bands ← ld 4 x.1 0;
    if zlen x.1 <? 20 then None
    else Some (0, mkPrio bands (take 16 (drop 4 x.1)) (Z.lor SCH_PRIO_ATTR_BANDS SCH_PRIO_ATTR_PRIOMAP)).

Definition prio_msg_fill (prio : option rtnl_prio) (msg : nl_msg) : option (Z * nl_msg) :=
  p ← prio;
  if negb (has (qp_mask p) SCH_PRIO_ATTR_PRIOMAP) then None
  else nlmsg_append msg (le_split 4 (qp_bands p) ++ qp_priomap p) 0.

Definition rtnl_qdisc_prio_set_bands (reg : registry) (ok : bool) (bands : Z) : tc → option (Z * tc) :=
  tc_update reg ok None (λ p, Some (0, mkPrio (u32 bands) (qp_priomap p) (Z.lor (qp_mask p) SCH_PRIO_ATTR_BANDS))).

Definition rtnl_qdisc_prio_get_bands (reg : registry) (ok : bool) : tc → option (Z * tc) :=
  tc_read reg ok None (λ p, if has (qp_mask p) SCH_PRIO_ATTR_BANDS then s32 (qp_bands p) else - NLE_NOMEM).

(** Is none of the first [n] entries over [bands]?  The array may end before. *)
Fixpoint priomap_ok (n : nat) (priomap : list Z) (bands : Z) : option bool :=
  match n, priomap with
  | O, _ => Some true
  | S _, [] => None
  | S n, b :: priomap => if bands <? b then Some false else priomap_ok n priomap bands
  end.

(** All the 16 entries are checked, whatever [len] is. *)
Definition rtnl_qdisc_prio_set_priomap (reg : registry) (ok : bool) (priomap : list Z) (len : Z) : tc → option (Z * tc) :=
  tc_update reg ok None (λ p,
    if negb (has (qp_mask p) SCH_PRIO_ATTR_BANDS) then Some (- NLE_MISSING_ATTR, p)
    else if TC_PRIO_MAX + 1 <? u64 len then Some (- NLE_RANGE, p)
    else
      good ← priomap_ok 16 priomap (qp_bands p);
      if negb good then Some (- NLE_RANGE, p)
      else
        m ← st (qp_priomap p) 0 (take (Z.to_nat len) priomap);
        Some (0, mkPrio (qp_bands p) m (Z.lor (qp_mask p) SCH_PRIO_ATTR_PRIOMAP))).

(** The map, or NULL. *)
Definition rtnl_qdisc_prio_get_priomap (reg : registry) (ok : bool) : tc → option (option (list Z) * tc) :=
  tc_read reg ok None (λ p, if has (qp_mask p) SCH_PRIO_ATTR_PRIOMAP then Some (qp_priomap p) else None).

(** ** Stochastic fairness: [qdisc/sfq.c] *)

Definition SCH_SFQ_ATTR_QUANTUM : Z := 0x01.
Definition SCH_SFQ_ATTR_PERTURB : Z := 0x02.
Definition SCH_SFQ_ATTR_LIMIT : Z := 0x04.
Definition SCH_SFQ_ATTR_DIVISOR : Z := 0x08.
Definition SCH_SFQ_ATTR_FLOWS : Z := 0x10.

Definition sfq_msg_parser (o : tc) (sfq : rtnl_sfq) : option (Z * rtnl_sfq) :=
  if negb (has_attr TCA_ATTR_OPTS o) then Some (0, sfq)
  else
    x ← opts_bytes o;
    if x.2 <? 20 then Some (- NLE_INVAL, sfq)
    else
      quantum ← ld 4 x.1 0;
      perturb ← ld 4 x.1 4;
      limit ← ld 4 x.1 8;
      divisor ← ld 4 x.1 12;
      flows ← ld 4 x.1 16;
      Some (0, mkSfq quantum perturb limit divisor flows
        (foldl Z.lor 0 [SCH_SFQ_ATTR_QUANTUM; SCH_SFQ_ATTR_PERTURB; SCH_SFQ_ATTR_LIMIT; SCH_SFQ_ATTR_DIVISOR; SCH_SFQ_ATTR_FLOWS])).

(** Divisor and flows are left at zero. *)
Definition sfq_msg_fill (sfq : option rtnl_sfq) (msg : nl_msg) : option (Z * nl_msg) :=
  s ← sfq;
  nlmsg_append msg (le_split 4 (qs_quantum s) ++ le_split 4 (qs_perturb s) ++ le_split 4 (qs_limit s) ++ replicate 8 0) 0.

Definition rtnl_sfq_set_quantum (reg : registry) (ok : bool) (v : Z) : tc → option (Z * tc) :=
  tc_update reg ok None (λ s,
    Some (0, mkSfq (u32 v) (qs_perturb s) (qs_limit s) (qs_divisor s) (qs_flows s) (Z.lor (qs_mask s) SCH_SFQ_ATTR_QUANTUM))).
Definition rtnl_sfq_set_limit (reg : registry) (ok : bool) (v : Z) : tc → option (Z * tc) :=
  tc_update reg ok None (λ s,
    Some (0, mkSfq (qs_quantum s) (qs_perturb s) (u32 v) (qs_divisor s) (qs_flows s) (Z.lor (qs_mask s) SCH_SFQ_ATTR_LIMIT))).
Definition rtnl_sfq_set_perturb (reg : registry) (ok : bool) (v : Z) : tc → option (Z * tc) :=
  tc_update reg ok None (λ s,
    Some (0, mkSfq (qs_quantum s) (u32 v) (qs_limit s) (qs_divisor s) (qs_flows s) (Z.lor (qs_mask s) SCH_SFQ_ATTR_PERTURB))).

Definition sfq_get (bit : Z) (f : rtnl_sfq → Z) (reg : registry) (ok : bool) : tc → option (Z * tc) :=
  tc_read reg ok None (λ s, if has (qs_mask s) bit then s32 (f s) else - NLE_NOATTR).
Definition rtnl_sfq_get_quantum : registry → bool → tc → option (Z * tc) := sfq_get SCH_SFQ_ATTR_QUANTUM qs_quantum.
Definition rtnl_sfq_get_limit : registry → bool → tc → option (Z * tc) := sfq_get SCH_SFQ_ATTR_LIMIT qs_limit.
Definition rtnl_sfq_get_perturb : registry → bool → tc → option (Z * tc) := sfq_get SCH_SFQ_ATTR_PERTURB qs_perturb.
Definition rtnl_sfq_get_divisor : registry → bool → tc → option (Z * tc) := sfq_get SCH_SFQ_ATTR_DIVISOR qs_divisor.

(** ** Marking: [qdisc/dsmark.c] *)

Definition SCH_DSMARK_ATTR_INDICES : Z := 0x1.
Definition SCH_DSMARK_ATTR_DEFAULT_INDEX : Z := 0x2.
Definition SCH_DSMARK_ATTR_SET_TC_INDEX : Z := 0x4.
Definition SCH_DSMARK_ATTR_MASK : Z := 0x1.
Definition SCH_DSMARK_ATTR_VALUE : Z := 0x2.
Definition TCA_DSMARK_INDICES : Z := 1.
Definition TCA_DSMARK_DEFAULT_INDEX : Z := 2.
Definition TCA_DSMARK_SET_TC_INDEX : Z := 3.
Definition TCA_DSMARK_MASK : Z := 4.
Definition TCA_DSMARK_VALUE : Z := 5.
Definition TCA_DSMARK_MAX : Z := 5.

Definition dsmark_policy (t : Z) : nla_policy :=
  if (t =? TCA_DSMARK_INDICES) || (t =? TCA_DSMARK_DEFAULT_INDEX) then mkPolicy NLA_U16 0 0
  else if t =? TCA_DSMARK_SET_TC_INDEX then mkPolicy NLA_FLAG 0 0
  else if (t =? TCA_DSMARK_VALUE) || (t =? TCA_DSMARK_MASK) then mkPolicy NLA_U8 0 0
  else no_policy.

(** [if (tb[TYPE]) ...] *)
Definition take_attr {D} (nla : option Z) (get : Z → option Z) (set : Z → D → D) (d : D) : option D :=
  match nla with None => Some d | Some nla => v ← get nla; Some (set v d) end.

Definition dsmark_qdisc_msg_parser (o : tc) (d : rtnl_dsmark_qdisc) : option (Z * rtnl_dsmark_qdisc) :=
  r ← tca_parse TCA_DSMARK_MAX o dsmark_policy;
  let '(err, bs, tb) := r in
  if err <? 0 then Some (err, d)
  else
    d ← take_attr (tb TCA_DSMARK_INDICES) (nla_get_u16 bs)
          (λ v d, mkDsq v (qdm_default_index d) (qdm_set_tc_index d) (Z.lor (qdm_mask d) SCH_DSMARK_ATTR_INDICES)) d;
    d ← take_attr (tb TCA_DSMARK_DEFAULT_INDEX) (nla_get_u16 bs)
          (λ v d, mkDsq (qdm_indices d) v (qdm_set_tc_index d) (Z.lor (qdm_mask d) SCH_DSMARK_ATTR_DEFAULT_INDEX)) d;
    d ← take_attr (tb TCA_DSMARK_SET_TC_INDEX) (λ _, Some 1)
          (λ v d, mkDsq (qdm_indices d) (qdm_default_index d) v (Z.lor (qdm_mask d) SCH_DSMARK_ATTR_SET_TC_INDEX)) d;
    Some (0, d).

Definition dsmark_class_msg_parser (o : tc) (d : rtnl_dsmark_class) : option (Z * rtnl_dsmark_class) :=
  r ← tca_parse TCA_DSMARK_MAX o dsmark_policy;
  let '(err, bs, tb) := r in
  if err <? 0 then Some (err, d)
  else
    d ← take_attr (tb TCA_DSMARK_MASK) (nla_get_u8 bs) (λ v d, mkDsc v (cdm_value d) (Z.lor (cdm_mask d) SCH_DSMARK_ATTR_MASK)) d;
    d ← take_attr (tb TCA_DSMARK_VALUE) (nla_get_u8 bs) (λ v d, mkDsc (cdm_bmask d) v (Z.lor (cdm_mask d) SCH_DSMARK_ATTR_VALUE)) d;
    Some (0, d).

(** An attribute that is put if [b] holds; a negative error is a jump to [nla_put_failure]. *)
Definition fill_if (b : bool) (put : nl_msg → option (Z * nl_msg)) (r : Z * nl_msg) : option (Z * nl_msg) :=
  if r.1 <? 0 then Some r else if b then put r.2 else Some (0, r.2).

Definition filled (r : Z * nl_msg) : Z * nl_msg := if r.1 <? 0 then (- NLE_MSGSIZE, r.2) else (0, r.2).

Definition dsmark_qdisc_msg_fill (d : option rtnl_dsmark_qdisc) (msg : nl_msg) : option (Z * nl_msg) :=
  match d with
  | None => Some (0, msg)
  | Some d =>
      r ← fill_if (has (qdm_mask d) SCH_DSMARK_ATTR_INDICES) (λ m, nla_put_u16 m TCA_DSMARK_INDICES (qdm_indices d)) (0, msg);
      r ← fill_if (has (qdm_mask d) SCH_DSMARK_ATTR_DEFAULT_INDEX) (λ m, nla_put_u16 m TCA_DSMARK_DEFAULT_INDEX (qdm_default_index d)) r;
      r ← fill_if (has (qdm_mask d) SCH_DSMARK_ATTR_SET_TC_INDEX) (λ m, nla_put_flag m TCA_DSMARK_SET_TC_INDEX) r;
      Some (filled r)
  end.

Definition dsmark_class_msg_fill (d : option rtnl_dsmark_class) (msg : nl_msg) : option (Z * nl_msg) :=
  match d with
  | None => Some (0, msg)
  | Some d =>
      r ← fill_if (has (cdm_mask d) SCH_DSMARK_ATTR_MASK) (λ m, nla_put_u8 m TCA_DSMARK_MASK (cdm_bmask d)) (0, msg);
      r ← fill_if (has (cdm_mask d) SCH_DSMARK_ATTR_VALUE) (λ m, nla_put_u8 m TCA_DSMARK_VALUE (cdm_value d)) r;
      Some (filled r)
  end.

Definition rtnl_class_dsmark_set_bitmask (reg : registry) (ok : bool) (v : Z) : tc → option (Z * tc) :=
  tc_update reg ok (Some (- NLE_NOMEM)) (λ d, Some (0, mkDsc v (cdm_value d) (Z.lor (cdm_mask d) SCH_DSMARK_ATTR_MASK))).
Definition rtnl_class_dsmark_get_bitmask (reg : registry) (ok : bool) : tc → option (Z * tc) :=
  tc_read reg ok (Some (- NLE_NOMEM)) (λ d, if has (cdm_mask d) SCH_DSMARK_ATTR_MASK then cdm_bmask d else - NLE_NOATTR).
Definition rtnl_class_dsmark_set_value (reg : registry) (ok : bool) (v : Z) : tc → option (Z * tc) :=
  tc_update reg ok (Some (- NLE_NOMEM)) (λ d, Some (0, mkDsc (cdm_bmask d) v (Z.lor (cdm_mask d) SCH_DSMARK_ATTR_VALUE))).
Definition rtnl_class_dsmark_get_value (reg : registry) (ok : bool) : tc → option (Z * tc) :=
  tc_read reg ok (Some (- NLE_NOMEM)) (λ d, if has (cdm_mask d) SCH_DSMARK_ATTR_VALUE then cdm_value d else - NLE_NOATTR).

Definition rtnl_qdisc_dsmark_set_indices (reg : registry) (ok : bool) (v : Z) : tc → option (Z * tc) :=
  tc_update reg ok (Some (- NLE_NOMEM)) (λ d,
    Some (0, mkDsq v (qdm_default_index d) (qdm_set_tc_index d) (Z.lor (qdm_mask d) SCH_DSMARK_ATTR_INDICES))).
Definition rtnl_qdisc_dsmark_get_indices (reg : registry) (ok : bool) : tc → option (Z * tc) :=
  tc_read reg ok (Some (- NLE_NOMEM)) (λ d, if has (qdm_mask d) SCH_DSMARK_ATTR_INDICES then qdm_indices d else - NLE_NOATTR).
Definition rtnl_qdisc_dsmark_set_default_index (reg : registry) (ok : bool) (v : Z) : tc → option (Z * tc) :=
  tc_update reg ok (Some (- NLE_NOMEM)) (λ d,
    Some (0, mkDsq (qdm_indices d) v (qdm_set_tc_index d) (Z.lor (qdm_mask d) SCH_DSMARK_ATTR_DEFAULT_INDEX))).
Definition rtnl_qdisc_dsmark_get_default_index (reg : registry) (ok : bool) : tc → option (Z * tc) :=
  tc_read reg ok (Some (- NLE_NOMEM)) (λ d, if has (qdm_mask d) SCH_DSMARK_ATTR_DEFAULT_INDEX then qdm_default_index d else - NLE_NOATTR).
Definition rtnl_qdisc_dsmark_set_set_tc_index (reg : registry) (ok : bool) (flag : Z) : tc → option (Z * tc) :=
  tc_update reg ok (Some (- NLE_NOMEM)) (λ d,
    Some (0, mkDsq (qdm_indices d) (qdm_default_index d) (if flag =? 0 then 0 else 1) (Z.lor (qdm_mask d) SCH_DSMARK_ATTR_SET_TC_INDEX))).
Definition rtnl_qdisc_dsmark_get_set_tc_index (reg : registry) (ok : bool) : tc → option (Z * tc) :=
  tc_read reg ok (Some (- NLE_NOMEM)) (λ d, if has (qdm_mask d) SCH_DSMARK_ATTR_SET_TC_INDEX then s32 (qdm_set_tc_index d) else - NLE_NOATTR).

(** ** Random early detection: [qdisc/red.c] *)

Definition RED_ATTR_LIMIT : Z := 0x01.
Definition RED_ATTR_ALL : Z := 0x7f.
Definition TCA_RED_PARMS : Z := 1.
Definition TCA_RED_MAX : Z := 2.

Definition red_policy (t : Z) : nla_policy := if t =? TCA_RED_PARMS then mkPolicy NLA_UNSPEC 16 0 else no_policy.

Definition red_msg_parser (o : tc) (red : rtnl_red) : option (Z * rtnl_red) :=
  if negb (has_attr TCA_ATTR_OPTS o) then Some (0, red)
  else
    r ← tca_parse TCA_RED_MAX o red_policy;
    let '(err, bs, tb) := r in
    if err <? 0 then Some (err, red)
    else match tb TCA_RED_PARMS with
         | None => Some (- NLE_MISSING_ATTR, red)
         | Some nla =>
             let p := nla_data nla in
             limit ← ld 4 bs p;
             qth_min ← ld 4 bs (p + 4);
             qth_max ← ld 4 bs (p + 8);
             wlog ← ld 1 bs (p + 12);
             plog ← ld 1 bs (p + 13);
             scell_log ← ld 1 bs (p + 14);
             flags ← ld 1 bs (p + 15);
             Some (0, mkRed limit qth_min qth_max flags wlog plog scell_log RED_ATTR_ALL)
         end.

Definition red_msg_fill (red : option rtnl_red) (msg : nl_msg) : option (Z * nl_msg) :=
  match red with None => None | Some _ => Some (- NLE_OPNOTSUPP, msg) end.

Definition rtnl_red_set_limit (reg : registry) (ok : bool) (v : Z) : tc → option (Z * tc) :=
  tc_update reg ok None (λ r,
    Some (0, mkRed (u32 v) (qr_qth_min r) (qr_qth_max r) (qr_flags r) (qr_wlog r) (qr_plog r) (qr_scell_log r)
               (Z.lor (qr_mask r) RED_ATTR_LIMIT))).
Definition rtnl_red_get_limit (reg : registry) (ok : bool) : tc → option (Z * tc) :=
  tc_read reg ok None (λ r, if has (qr_mask r) RED_ATTR_LIMIT then s32 (qr_limit r) else - NLE_NOATTR).

(** ** Messages *)

(** A function of a module on the data as it is in the object. *)
Definition on_struct {D} `{Struct D} (f : option D → nl_msg → option (Z * nl_msg)) (d : option subdata) (msg : nl_msg)
    : option (Z * nl_msg) :=
  match d with None => f None msg | Some d => d ← unwrap d; f (Some d) msg end.

(** [to_msg_fill]; blackhole has none. *)
Definition to_msg_fill (m : tc_module) : option (option subdata → nl_msg → option (Z * nl_msg)) :=
  match m with
  | pfifo_ops | bfifo_ops => Some (on_struct fifo_msg_fill)
  | prio_ops | pfifo_fast_ops => Some (on_struct prio_msg_fill)
  | sfq_ops => Some (on_struct sfq_msg_fill)
  | dsmark_qdisc_ops => Some (on_struct dsmark_qdisc_msg_fill)
  | dsmark_class_ops => Some (on_struct dsmark_class_msg_fill)
  | red_ops => Some (on_struct red_msg_fill)
  | blackhole_ops => None
  end.

Definition parse_struct {D} `{Struct D} (f : tc → D → option (Z * D)) (o : tc) (d : subdata) : option (Z * subdata) :=
  d ← unwrap d; r ← f o d; Some (r.1, wrap r.2).

(** [to_msg_parser] *)
Definition to_msg_parser (m : tc_module) : option (tc → subdata → option (Z * subdata)) :=
  match m with
  | pfifo_ops | bfifo_ops => Some (parse_struct fifo_msg_parser)
  | prio_ops | pfifo_fast_ops => Some (parse_struct prio_msg_parser)
  | sfq_ops => Some (parse_struct sfq_msg_parser)
  | dsmark_qdisc_ops => Some (parse_struct dsmark_qdisc_msg_parser)
  | dsmark_class_ops => Some (parse_struct dsmark_class_msg_parser)
  | red_ops => Some (parse_struct red_msg_parser)
  | blackhole_ops => None
  end.

(** Is there memory for the data, the options, the statistics of the module, and the data
    again? *)
Record tc_mem := mkMem { m_kind : bool; m_opts : bool; m_xstats : bool; m_data : bool }.

Definition tc_policy (t : Z) : nla_policy :=
  if t =? TCA_KIND then mkPolicy NLA_STRING 0 TCKINDSIZ
  else if t =? TCA_STATS then mkPolicy NLA_UNSPEC 40 0
  else if t =? TCA_STATS2 then mkPolicy NLA_NESTED 0 0
  else no_policy.

Definition tc_stats2_policy (t : Z) : nla_policy :=
  if t =? TCA_STATS_BASIC then mkPolicy NLA_UNSPEC 16 0
  else if t =? TCA_STATS_RATE_EST then mkPolicy NLA_UNSPEC 8 0
  else if t =? TCA_STATS_QUEUE then mkPolicy NLA_UNSPEC 20 0
  else no_policy.

(** A step after which an error ends the function. *)
Definition unless_error (r : option (Z * tc)) (k : tc → option (Z * tc)) : option (Z * tc) :=
  r ← r; if r.1 <? 0 then Some r else k r.2.

(** The header [struct tcmsg]. *)
Definition tc_parse_head (buf : list Z) (o : tc) : option tc :=
  let tm := nlmsg_data 0 in
  family ← ld 1 buf tm;
  ifindex ← ld 4 buf (tm + 4);
  handle ← ld 4 buf (tm + 8);
  parent ← ld 4 buf (tm + 12);
  info ← ld 4 buf (tm + 16);
  Some (put_data (foldl Z.lor 0 [TCA_ATTR_FAMILY; TCA_ATTR_IFINDEX; TCA_ATTR_HANDLE; TCA_ATTR_PARENT; TCA_ATTR_INFO])
          (t_set_id (mkIds family ifindex handle parent info) (ce_data o)) o).

Definition tc_parse_opts (ok : bool) (buf : list Z) (nla : option Z) (o : tc) : option (Z * tc) :=
  match nla with
  | None => Some (0, o)
  | Some nla =>
      d ← nl_data_alloc_attr ok ok buf nla;
      let o := on_tc (t_set_opts d) o in
      Some (if d is None then (- NLE_NOMEM, o) else (0, put_data TCA_ATTR_OPTS (ce_data o) o))
  end.

(** The counters of a structure: their number, width and offset. *)
Definition read_stats (buf : list Z) (nla : option Z) (fields : list (Z * nat * Z)) (o : tc) : option tc :=
  match nla with
  | None => Some o
  | Some nla => foldl (λ o f, o ← o; v ← ld f.1.2 buf (nla_data nla + f.2); Some (stat f.1.1 v o)) (Some o) fields
  end.

Definition gnet_stats_basic : list (Z * nat * Z) := [(RTNL_TC_BYTES, 8%nat, 0); (RTNL_TC_PACKETS, 4%nat, 8)].
Definition gnet_stats_rate_est : list (Z * nat * Z) := [(RTNL_TC_RATE_BPS, 4%nat, 0); (RTNL_TC_RATE_PPS, 4%nat, 4)].
Definition gnet_stats_queue : list (Z * nat * Z) :=
  [(RTNL_TC_QLEN, 4%nat, 0); (RTNL_TC_BACKLOG, 4%nat, 4); (RTNL_TC_DROPS, 4%nat, 8); (RTNL_TC_REQUEUES, 4%nat, 12);
   (RTNL_TC_OVERLIMITS, 4%nat, 16)].
Definition struct_tc_stats : list (Z * nat * Z) :=
  [(RTNL_TC_BYTES, 8%nat, 0); (RTNL_TC_PACKETS, 4%nat, 8); (RTNL_TC_RATE_BPS, 4%nat, 20); (RTNL_TC_RATE_PPS, 4%nat, 24);
   (RTNL_TC_QLEN, 4%nat, 28); (RTNL_TC_BACKLOG, 4%nat, 32); (RTNL_TC_DROPS, 4%nat, 12); (RTNL_TC_OVERLIMITS, 4%nat, 16)].

(** [bit] is 0 where the mask is left alone. *)
Definition tc_parse_xstats (ok : bool) (buf : list Z) (nla bit : Z) (o : tc) : option (Z * tc) :=
  d ← nl_data_alloc_attr ok ok buf nla;
  let o := on_tc (t_set_xstats d) o in
  Some (if d is None then (- NLE_NOMEM, o) else (0, put_data bit (ce_data o) o)).

Definition compat_xstats (ok : bool) (buf : list Z) (tb : tb) (o : tc) : option (Z * tc) :=
  match tb TCA_XSTATS with None => Some (0, o) | Some nla => tc_parse_xstats ok buf nla TCA_ATTR_XSTATS o end.

Definition tc_parse_stats (ok : bool) (buf : list Z) (tb : tb) (o : tc) : option (Z * tc) :=
  match tb TCA_STATS2 with
  | Some nla =>
      r ← nla_parse_nested buf TCA_STATS_MAX nla (Some tc_stats2_policy);
      let '(err, tbs) := r in
      if err <? 0 then Some (err, o)
      else
        o ← read_stats buf (tbs TCA_STATS_BASIC) gnet_stats_basic o;
        o ← read_stats buf (tbs TCA_STATS_RATE_EST) gnet_stats_rate_est o;
        o ← read_stats buf (tbs TCA_STATS_QUEUE) gnet_stats_queue o;
        let o := put_data TCA_ATTR_STATS (ce_data o) o in
        match tbs TCA_STATS_APP with
        | Some nla => tc_parse_xstats ok buf nla 0 o
        | None => compat_xstats ok buf tb o
        end
  | None =>
      o ← read_stats buf (tb TCA_STATS) struct_tc_stats o;
      compat_xstats ok buf tb (if tb TCA_STATS is Some _ then put_data TCA_ATTR_STATS (ce_data o) o else o)
  end.

(** The module reads the options. *)
Definition tc_parse_data (reg : registry) (ok : bool) (o : tc) : option (Z * tc) :=
  x ← rtnl_tc_get_ops reg o;
  match x.1 ≫= to_msg_parser with
  | None => Some (0, x.2)
  | Some parser =>
      y ← rtnl_tc_data reg ok x.2;
      match y.1 with
      | None => Some (- NLE_NOMEM, y.2)
      | Some d => r ← parser y.2 d; Some (if r.1 <? 0 then r.1 else 0, on_tc (t_set_subdata (Some r.2)) y.2)
      end
  end.

(** [junk] is the array for the kind before it is written. *)
Definition rtnl_tc_msg_parse (reg : registry) (mem : tc_mem) (junk buf : list Z) (o : tc) : option (Z * tc) :=
  type ← nlmsg_type buf 0;
  let o := set_body type (ce_mask o) (ce_data o) o in
  r ← nlmsg_parse buf 0 20 TCA_MAX (Some tc_policy);
  match r with
  | (err, None) => Some (err, o)
  | (err, Some tb) =>
      if err <? 0 then Some (err, o)
      else match tb TCA_KIND with
           | None => Some (- NLE_MISSING_ATTR, o)
           | Some nla =>
               k ← nla_strlcpy junk buf nla TCKINDSIZ;
               kind ← c_string k.2;
               r ← rtnl_tc_set_kind reg (m_kind mem) kind o;
               o ← tc_parse_head buf r.2;
               unless_error (tc_parse_opts (m_opts mem) buf (tb TCA_OPTIONS) o) (λ o,
               unless_error (tc_parse_stats (m_xstats mem) buf tb o) (λ o,
               tc_parse_data reg (m_data mem) o))
           end
  end.

(** [struct tcmsg], with its padding. *)
Definition tcmsg (pad : list Z) (ifindex handle parent : Z) (info : list Z) : list Z :=
  [AF_UNSPEC] ++ pad ++ le_split 4 ifindex ++ le_split 4 handle ++ le_split 4 parent ++ info.

(** The error, the message, and the object, whose module may have been looked up.  [ok] and
    [data_ok] tell whether there is memory for the message and for the data. *)
Definition rtnl_tc_msg_build (reg : registry) (size : Z) (ok data_ok : bool) (o : tc) (type flags : Z)
    : option (Z * option nl_msg * tc) :=
  if negb ok then Some (- NLE_NOMEM, None, o)
  else
    msg ← nlmsg_alloc_simple size type flags;
    r ← nlmsg_append msg (tcmsg (replicate 3 0) (id tc_ifindex o) (id tc_handle o) (id tc_parent o) (replicate 4 0)) 4;
    r ← fill_if (has_attr TCA_ATTR_KIND o) (λ msg, s ← c_string (tc_kind (ce_data o)); nla_put_string msg TCA_KIND s) r;
    if r.1 <? 0 then Some (- NLE_MSGSIZE, None, o)
    else
      x ← rtnl_tc_get_ops reg o;
      match x.1 ≫= to_msg_fill with
      | None => Some (0, Some r.2, x.2)
      | Some fill =>
          y ← rtnl_tc_data reg data_ok x.2;
          n ← nla_nest_start r.2 TCA_OPTIONS;
          match n.1 with
          | None => Some (- NLE_MSGSIZE, None, y.2)
          | Some start =>
              f ← fill y.1 n.2;
              if f.1 <? 0 then Some (f.1, None, y.2)
              else e ← nla_nest_end f.2 start; Some (0, Some e.2, y.2)
          end
      end.

(** A request to delete: the padding and the information are not initialised. *)
Definition build_delete (size : Z) (ok : bool) (pad info : list Z) (o : tc) (type : Z) : option (Z * option nl_msg) :=
  let required := Z.lor TCA_ATTR_IFINDEX TCA_ATTR_PARENT in
  if negb (Z.land (ce_mask o) required =? required) then None
  else if negb ok then Some (- NLE_NOMEM, None)
  else
    msg ← nlmsg_alloc_simple size type 0;
    r ← nlmsg_append msg (tcmsg pad (id tc_ifindex o) (id tc_handle o) (id tc_parent o) info) 4;
    Some (if r.1 <? 0 then (- NLE_MSGSIZE, None) else (0, Some r.2)).

Section Requests.
Context (reg : registry) (size : Z) (ok data_ok : bool).

Definition rtnl_qdisc_build_add_request (qdisc : tc) (flags : Z) : option (Z * option nl_msg * tc) :=
  rtnl_tc_msg_build reg size ok data_ok qdisc RTM_NEWQDISC (Z.lor Rule.NLM_F_CREATE flags).

(** The new attributes are not used. *)
Definition rtnl_qdisc_build_change_request (qdisc new : tc) : option (Z * option nl_msg * tc) :=
  rtnl_tc_msg_build reg size ok data_ok qdisc RTM_NEWQDISC NLM_F_REPLACE.

Definition rtnl_qdisc_build_delete_request (pad info : list Z) (qdisc : tc) : option (Z * option nl_msg) :=
  build_delete size ok pad info qdisc RTM_DELQDISC.

Definition rtnl_class_build_add_request (class : tc) (flags : Z) : option (Z * option nl_msg * tc) :=
  rtnl_tc_msg_build reg size ok data_ok class RTM_NEWTCLASS (Z.lor Rule.NLM_F_CREATE flags).

Definition rtnl_class_build_delete_request (pad info : list Z) (class : tc) : option (Z * option nl_msg) :=
  build_delete size ok pad info class RTM_DELTCLASS.
End Requests.

(** The parsers of the caches, up to the callback; [ok] tells whether there is memory for
    the object. *)
Definition qdisc_msg_parser (reg : registry) (ok : bool) (mem : tc_mem) (ops : Z) (junk buf : list Z) : option (Z * option tc) :=
  if negb ok then Some (- NLE_NOMEM, None)
  else r ← rtnl_tc_msg_parse reg mem junk buf (rtnl_qdisc_alloc ops); Some (r.1, Some r.2).

Definition class_msg_parser (reg : registry) (ok : bool) (mem : tc_mem) (ops : Z) (junk buf : list Z) : option (Z * option tc) :=
  if negb ok then Some (- NLE_NOMEM, None)
  else r ← rtnl_tc_msg_parse reg mem junk buf (rtnl_class_alloc ops); Some (r.1, Some r.2).

End Tc.
