(* ===== verification/TcOk.v ===== *)
(** * Traffic control objects: what a module promises, and messages

    A class states how a module writes its data into the options of a message and reads it
    back; the modules that can do both are its instances.  The messages of any such module
    are then built and parsed. *)

From stdpp Require Import strings.
From S2P Require Import Prelude Packet Netlink NlError Text Attr CStr Addr AddrOk Recv NlList Objects RtObj RtOk Tc.
Import Nl Tc.

(** ** The promise of a module *)

Class ModuleOk (m : tc_module) := mkModuleOk {
  (** data that can be sent, its options, and what is read back *)
  k_ok : subdata → Prop;
  k_opts : subdata → list Z;
  k_back : subdata → subdata;
  k_zero : subdata;
  k_new : to_new m = Some k_zero;
  k_fill : option subdata → nl_msg → option (Z * nl_msg);
  k_parser : tc → subdata → option (Z * subdata);
  k_is_fill : to_msg_fill m = Some k_fill;
  k_is_parser : to_msg_parser m = Some k_parser;
  k_bytes d : k_ok d → zlen (k_opts d) mod 4 = 0 ∧ zlen (k_opts d) ≤ 64 ∧ Forall is_byte (k_opts d);
  k_fill_ok d msg body room :
    k_ok d → built msg body room → zlen body mod 4 = 0 → 2 * (4 + zlen (body ++ k_opts d)) ≤ nm_size msg →
    ∃ msg' room', k_fill (Some d) msg = Some (0, msg') ∧ built msg' (body ++ k_opts d) room' ∧ nm_size msg' = nm_size msg;
  k_parse_ok d o :
    k_ok d → has_attr TCA_ATTR_OPTS o = true → opts_bytes o = Some (k_opts d, zlen (k_opts d)) →
    k_parser o k_zero = Some (0, k_back d);
}.

(** A structure that is appended as it is. *)
Lemma append_opts msg body room bs :
  built msg body room → zlen bs mod 4 = 0 → 2 * (4 + zlen (body ++ bs)) ≤ nm_size msg →
  ∃ msg' room', nlmsg_append msg bs 0 = Some (0, msg') ∧ built msg' (body ++ bs) room' ∧ nm_size msg' = nm_size msg.
Proof.
  intros Hb Hal Hfit. rewrite zlen_app in Hfit. pose proof (zlen_nonneg body). pose proof (zlen_nonneg bs).
  apply (append_built _ _ _ _ _ Hb Hal); [by left|lia].
Qed.

(** *** First in, first out *)

Definition fifo_sendable (d : subdata) : Prop :=
  match d with DFifo f => has (qf_mask f) SCH_FIFO_ATTR_LIMIT = true ∧ 0 ≤ qf_limit f < 2 ^ 32 | _ => False end.
Definition fifo_opts (d : subdata) : list Z := match d with DFifo f => le_split 4 (qf_limit f) | _ => [] end.
Definition fifo_back (d : subdata) : subdata :=
  match d with DFifo f => DFifo (mkFifo (qf_limit f) SCH_FIFO_ATTR_LIMIT) | _ => d end.

Lemma fifo_bytes d : fifo_sendable d → zlen (fifo_opts d) mod 4 = 0 ∧ zlen (fifo_opts d) ≤ 64 ∧ Forall is_byte (fifo_opts d).
Proof. destruct d; try done. intros _. cbn [fifo_opts]. rewrite zlen_le_split. split_and!; try done. apply le_split_bytes. Qed.

Lemma fifo_fill_ok d msg body room :
  fifo_sendable d → built msg body room → zlen body mod 4 = 0 → 2 * (4 + zlen (body ++ fifo_opts d)) ≤ nm_size msg →
  ∃ msg' room', on_struct fifo_msg_fill (Some d) msg = Some (0, msg') ∧ built msg' (body ++ fifo_opts d) room' ∧
    nm_size msg' = nm_size msg.
Proof.
  intros Hd Hb Hal Hfit. pose proof (fifo_bytes _ Hd) as [H4 _]. destruct d; try done. destruct Hd as [Hm _]. cbn. rewrite Hm. cbn [negb].
  by eapply append_opts.
Qed.

Lemma fifo_parse_ok d o :
  fifo_sendable d → has_attr TCA_ATTR_OPTS o = true → opts_bytes o = Some (fifo_opts d, zlen (fifo_opts d)) →
  parse_struct fifo_msg_parser o (DFifo (mkFifo 0 0)) = Some (0, fifo_back d).
Proof.
  destruct d as [f| | | | |]; try done. intros [_ Hl] _ E. unfold parse_struct, fifo_msg_parser. cbn [unwrap fifo_struct fifo_opts] in *.
  rewrite some_bind, E, some_bind. cbn [fst snd]. rewrite zlen_le_split. change (Z.of_nat 4 <? 4) with false. cbv iota.
  rewrite <- (app_nil_r (le_split 4 _)), ld_word by done. done.
Qed.

#[export] Instance pfifo_ok : ModuleOk pfifo_ops :=
  mkModuleOk pfifo_ops fifo_sendable fifo_opts fifo_back (DFifo (mkFifo 0 0)) eq_refl
    (on_struct fifo_msg_fill) (parse_struct fifo_msg_parser) eq_refl eq_refl fifo_bytes fifo_fill_ok fifo_parse_ok.
#[export] Instance bfifo_ok : ModuleOk bfifo_ops :=
  mkModuleOk bfifo_ops fifo_sendable fifo_opts fifo_back (DFifo (mkFifo 0 0)) eq_refl
    (on_struct fifo_msg_fill) (parse_struct fifo_msg_parser) eq_refl eq_refl fifo_bytes fifo_fill_ok fifo_parse_ok.

(** *** Priorities *)

Definition prio_sendable (d : subdata) : Prop :=
  match d with
  | DPrio p => has (qp_mask p) SCH_PRIO_ATTR_PRIOMAP = true ∧ 0 ≤ qp_bands p < 2 ^ 32 ∧
      length (qp_priomap p) = 16%nat ∧ Forall is_byte (qp_priomap p)
  | _ => False
  end.
Definition prio_opts (d : subdata) : list Z := match d with DPrio p => le_split 4 (qp_bands p) ++ qp_priomap p | _ => [] end.
Definition prio_back (d : subdata) : subdata :=
  match d with DPrio p => DPrio (mkPrio (qp_bands p) (qp_priomap p) 3) | _ => d end.

Lemma prio_bytes d : prio_sendable d → zlen (prio_opts d) mod 4 = 0 ∧ zlen (prio_opts d) ≤ 64 ∧ Forall is_byte (prio_opts d).
Proof.
  destruct d as [|p| | | |]; try done. intros (_ & _ & Hl & Hb). cbn [prio_opts]. rewrite zlen_app, zlen_le_split. unfold zlen. rewrite Hl.
  split_and!; try done. apply Forall_app. split; [apply le_split_bytes|done].
Qed.

Lemma prio_fill_ok d msg body room :
  prio_sendable d → built msg body room → zlen body mod 4 = 0 → 2 * (4 + zlen (body ++ prio_opts d)) ≤ nm_size msg →
  ∃ msg' room', on_struct prio_msg_fill (Some d) msg = Some (0, msg') ∧ built msg' (body ++ prio_opts d) room' ∧
    nm_size msg' = nm_size msg.
Proof.
  intros Hd Hb Hal Hfit. pose proof (prio_bytes _ Hd) as [H4 _]. destruct d as [|p| | | |]; try done. destruct Hd as (Hm & _).
  unfold on_struct, prio_msg_fill. cbn [unwrap prio_struct]. rewrite !some_bind, Hm. cbn [negb]. by eapply append_opts.
Qed.

Lemma prio_parse_ok d o :
  prio_sendable d → has_attr TCA_ATTR_OPTS o = true → opts_bytes o = Some (prio_opts d, zlen (prio_opts d)) →
  parse_struct prio_msg_parser o (DPrio (mkPrio 0 (replicate 16 0) 0)) = Some (0, prio_back d).
Proof.
  destruct d as [|p| | | |]; try done. intros (_ & Hb & Hl & _) _ E. unfold parse_struct, prio_msg_parser.
  cbn [unwrap prio_struct prio_opts] in *. rewrite some_bind, E, some_bind. cbn [fst snd].
  assert (zlen (le_split 4 (qp_bands p) ++ qp_priomap p) = 20) as -> by (rewrite zlen_app, zlen_le_split; unfold zlen; lia).
  change (20 <? 20) with false. cbv iota. rewrite ld_word, some_bind by done. cbn [prio_back wrap].
  rewrite drop_app_length', take_ge by (rewrite ?length_le_split; lia). done.
Qed.

#[export] Instance prio_ok : ModuleOk prio_ops :=
  mkModuleOk prio_ops prio_sendable prio_opts prio_back (DPrio (mkPrio 0 (replicate 16 0) 0)) eq_refl
    (on_struct prio_msg_fill) (parse_struct prio_msg_parser) eq_refl eq_refl prio_bytes prio_fill_ok prio_parse_ok.
#[export] Instance pfifo_fast_ok : ModuleOk pfifo_fast_ops :=
  mkModuleOk pfifo_fast_ops prio_sendable prio_opts prio_back (DPrio (mkPrio 0 (replicate 16 0) 0)) eq_refl
    (on_struct prio_msg_fill) (parse_struct prio_msg_parser) eq_refl eq_refl prio_bytes prio_fill_ok prio_parse_ok.

(** *** Stochastic fairness *)

Definition sfq_sendable (d : subdata) : Prop :=
  match d with DSfq s => 0 ≤ qs_quantum s < 2 ^ 32 ∧ 0 ≤ qs_perturb s < 2 ^ 32 ∧ 0 ≤ qs_limit s < 2 ^ 32 | _ => False end.
Definition sfq_opts (d : subdata) : list Z :=
  match d with
  | DSfq s => le_split 4 (qs_quantum s) ++ le_split 4 (qs_perturb s) ++ le_split 4 (qs_limit s) ++ replicate 8 0
  | _ => []
  end.
(** Divisor and flows are lost. *)
Definition sfq_back (d : subdata) : subdata :=
  match d with DSfq s => DSfq (mkSfq (qs_quantum s) (qs_perturb s) (qs_limit s) 0 0 0x1f) | _ => d end.

Lemma sfq_bytes d : sfq_sendable d → zlen (sfq_opts d) mod 4 = 0 ∧ zlen (sfq_opts d) ≤ 64 ∧ Forall is_byte (sfq_opts d).
Proof.
  destruct d as [| |s| | |]; try done. intros _. cbn [sfq_opts]. rewrite !zlen_app, !zlen_le_split. split_and!; try done.
  rewrite !Forall_app. split_and!; try apply le_split_bytes. by repeat constructor.
Qed.

Lemma sfq_fill_ok d msg body room :
  sfq_sendable d → built msg body room → zlen body mod 4 = 0 → 2 * (4 + zlen (body ++ sfq_opts d)) ≤ nm_size msg →
  ∃ msg' room', on_struct sfq_msg_fill (Some d) msg = Some (0, msg') ∧ built msg' (body ++ sfq_opts d) room' ∧
    nm_size msg' = nm_size msg.
Proof.
  intros Hd Hb Hal Hfit. pose proof (sfq_bytes _ Hd) as [H4 _]. destruct d; try done. by eapply append_opts.
Qed.

Lemma sfq_parse_ok d o :
  sfq_sendable d → has_attr TCA_ATTR_OPTS o = true → opts_bytes o = Some (sfq_opts d, zlen (sfq_opts d)) →
  parse_struct sfq_msg_parser o (DSfq (mkSfq 0 0 0 0 0 0)) = Some (0, sfq_back d).
Proof.
  destruct d as [| |s| | |]; try done. intros (H1 & H2 & H3) Ho E. unfold parse_struct, sfq_msg_parser.
  cbn [unwrap sfq_struct sfq_opts] in *. rewrite some_bind, Ho. cbn [negb]. rewrite E, some_bind. cbn [fst snd].
  assert (zlen (le_split 4 (qs_quantum s) ++ le_split 4 (qs_perturb s) ++ le_split 4 (qs_limit s) ++ replicate 8 0) = 20) as ->
    by (rewrite !zlen_app, !zlen_le_split; done). change (20 <? 20) with false. cbv iota.
  rewrite ld_word, some_bind by done.
  rewrite (ld_skip 4 (le_split 4 _) _ 4 4) by (by rewrite ?zlen_le_split). rewrite ld_word, some_bind by done.
  rewrite !(ld_skip 4 (le_split 4 (qs_quantum s)) _ _ 4) by (by rewrite ?zlen_le_split).
  rewrite !(ld_skip 4 (le_split 4 (qs_perturb s)) _ _ 4) by (by rewrite ?zlen_le_split).
  change (8 - 4 - 4) with 0. rewrite ld_word, some_bind by done.
  rewrite !(ld_skip 4 (le_split 4 (qs_limit s)) _ _ 4) by (by rewrite ?zlen_le_split). done.
Qed.

#[export] Instance sfq_ok : ModuleOk sfq_ops :=
  mkModuleOk sfq_ops sfq_sendable sfq_opts sfq_back (DSfq (mkSfq 0 0 0 0 0 0)) eq_refl
    (on_struct sfq_msg_fill) (parse_struct sfq_msg_parser) eq_refl eq_refl sfq_bytes sfq_fill_ok sfq_parse_ok.

(** *** Marking *)

Lemma fill_if_step b put ty bs rest msg body room :
  built msg body room → zlen body mod 4 = 0 →
  2 * (4 + zlen (body ++ flat (opt_attr b ty bs ++ rest))) ≤ nm_size msg →
  (b = true → put msg = nla_put msg ty bs) → 4 + zlen bs < 2 ^ 16 →
  ∃ msg' room', fill_if b put (0, msg) = Some (0, msg') ∧
    built msg' (body ++ flat (opt_attr b ty bs)) room' ∧ zlen (body ++ flat (opt_attr b ty bs)) mod 4 = 0 ∧
    2 * (4 + zlen ((body ++ flat (opt_attr b ty bs)) ++ flat rest)) ≤ nm_size msg' ∧ nm_size msg' = nm_size msg.
Proof.
  intros Hb Hal Hfit Hput Hsm. destruct (opt_built b ty bs rest msg body room Hb Hal (λ _, Hsm) Hfit) as (msg' & room' & E & Hm).
  exists msg', room'. unfold fill_if. cbn [fst snd]. change (0 <? 0) with false. cbv iota. split; [|done].
  destruct b; [by rewrite Hput|done].
Qed.

(** The next attribute of the options. *)
Ltac fill_next Hb Hal Hfit S :=
  match goal with
  | |- context [fill_if ?b ?put (0, ?m)] =>
      let E := fresh in
      edestruct (fill_if_step b put _ _ _ m _ _ Hb Hal Hfit (λ _, eq_refl) eq_refl) as (? & ? & E & ?Hb & ?Hal & ?Hfit & S);
      rewrite E, some_bind; clear E Hb Hal Hfit
  end;
  match goal with H : built _ _ _ |- _ => rename H into Hb end;
  match goal with H : _ mod 4 = 0 |- _ => rename H into Hal end;
  match goal with H : 2 * _ ≤ _ |- _ => rename H into Hfit end.

(** Reading an optional attribute. *)
Lemma take_attr_step {D} buf l max t ty b bs get v (set : Z → D → D) d :
  indexes buf l max t → ty ≤ max → find_attr ty l = (if b : bool then Some bs else None) →
  (∀ off, attr_in buf off bs → get off = Some v) → take_attr (t ty) get set d = Some (if b then set v d else d).
Proof.
  intros Hix Hty Hf Hget. specialize (Hix ty Hty). rewrite Hf in Hix. destruct b; [|by rewrite Hix].
  destruct Hix as (off & -> & Ha). cbn. by rewrite (Hget off Ha).
Qed.

(** The options as a list of attributes. *)
Lemma tca_parse_ok o l max policy :
  has_attr TCA_ATTR_OPTS o = true → opts_bytes o = Some (flat l, zlen (flat l)) → Forall attr_ok l →
  Forall (passes max policy) l → zlen (flat l) ≤ 64 →
  ∃ t, tca_parse max o policy = Some (0, flat l, t) ∧ indexes (flat l) l max t.
Proof.
  intros Ho E Hok Hpa Hl. destruct (parse_stream max policy l [] [] Hok Hpa ltac:(lia)) as (t & Et & Hix).
  rewrite app_nil_l, app_nil_r in *. exists t. split; [|exact Hix].
  unfold tca_parse. rewrite Ho, E, some_bind. cbn [fst snd]. change (zlen []) with 0 in Et. by rewrite Et.
Qed.

Definition dsq_attrs (d : rtnl_dsmark_qdisc) : list (Z * list Z) :=
  opt_attr (has (qdm_mask d) SCH_DSMARK_ATTR_INDICES) TCA_DSMARK_INDICES (le_split 2 (u16 (qdm_indices d))) ++
  opt_attr (has (qdm_mask d) SCH_DSMARK_ATTR_DEFAULT_INDEX) TCA_DSMARK_DEFAULT_INDEX (le_split 2 (u16 (qdm_default_index d))) ++
  opt_attr (has (qdm_mask d) SCH_DSMARK_ATTR_SET_TC_INDEX) TCA_DSMARK_SET_TC_INDEX [].

Definition dsq_sendable (d : subdata) : Prop :=
  match d with DDsmark d => 0 ≤ qdm_indices d < 2 ^ 16 ∧ 0 ≤ qdm_default_index d < 2 ^ 16 | _ => False end.
Definition dsq_opts (d : subdata) : list Z := match d with DDsmark d => flat (dsq_attrs d) | _ => [] end.
(** Every flag that is sent is read back as set. *)
Definition dsq_back (d : subdata) : subdata :=
  match d with
  | DDsmark d =>
      let bit b := opt_bit (has (qdm_mask d) b) in
      DDsmark (mkDsq (bit SCH_DSMARK_ATTR_INDICES (qdm_indices d)) (bit SCH_DSMARK_ATTR_DEFAULT_INDEX (qdm_default_index d))
                 (bit SCH_DSMARK_ATTR_SET_TC_INDEX 1)
                 (Z.lor (Z.lor (bit SCH_DSMARK_ATTR_INDICES SCH_DSMARK_ATTR_INDICES)
                   (bit SCH_DSMARK_ATTR_DEFAULT_INDEX SCH_DSMARK_ATTR_DEFAULT_INDEX))
                   (bit SCH_DSMARK_ATTR_SET_TC_INDEX SCH_DSMARK_ATTR_SET_TC_INDEX)))
  | _ => d
  end.

Lemma flat_small l : Forall (λ a : Z * list Z, zlen a.2 ≤ 4) l → zlen (flat l) ≤ 8 * zlen l.
Proof.
  induction 1 as [|a l Ha _ IH]; [done|]. change (flat (a :: l)) with (enc a ++ flat l). rewrite zlen_app, zlen_enc, zlen_cons.
  assert (nla_total_size (zlen a.2) ≤ 8); [|lia]. unfold nla_total_size, nla_attr_size. change NLA_HDRLEN with 4.
  pose proof (zlen_nonneg a.2). rewrite ALIGN_val by lia. pose proof (Z.div_le_mono (4 + zlen a.2 + 3) 11 4). change (11 / 4) with 2 in *. lia.
Qed.

(** An attribute of a few bytes that a policy lets through. *)
Record small (policy : Z → nla_policy) (max : Z) (a : Z * list Z) : Prop := {
  sm_len : zlen a.2 ≤ 4;
  sm_ok : attr_ok a;
  sm_passes : passes max policy a;
}.

Lemma small_value policy max ty n v :
  (n ≤ 4)%nat → 0 < ty < 2 ^ 14 → accepts (policy ty) (le_split n v) = true → small policy max (ty, le_split n v).
Proof.
  intros Hn Hty Ha. split; cbn [fst snd]; [rewrite zlen_le_split; lia| |].
  - split; [done|]. cbn [snd]. rewrite zlen_le_split. lia.
  - split; [apply le_split_bytes|done].
Qed.

Lemma small_all policy max l :
  Forall (small policy max) l → zlen l ≤ 8 →
  zlen (flat l) mod 4 = 0 ∧ zlen (flat l) ≤ 64 ∧ Forall is_byte (flat l) ∧ Forall attr_ok l ∧ Forall (passes max policy) l.
Proof.
  intros Hl Hn. split_and!; [apply flat_aligned|..].
  - assert (zlen (flat l) ≤ 8 * zlen l); [|lia]. apply flat_small. eapply list.Forall_impl; [exact Hl|]. by intros a [? _].
  - clear Hn. induction Hl as [|a l [_ _ [Ha _] ] _ IH]; [constructor|]. change (flat (a :: l)) with (enc a ++ flat l).
    apply Forall_app. split; [|done]. unfold enc. rewrite !Forall_app. split_and!; try apply le_split_bytes; [done|].
    by apply Forall_replicate.
  - eapply list.Forall_impl; [exact Hl|]. by intros a [].
  - eapply list.Forall_impl; [exact Hl|]. by intros a [].
Qed.

Lemma dsq_small d : Forall (small dsmark_policy TCA_DSMARK_MAX) (dsq_attrs d) ∧ zlen (dsq_attrs d) ≤ 8.
Proof.
  split; [|unfold dsq_attrs, opt_attr; by repeat case_match]. unfold dsq_attrs. rewrite !Forall_app.
  split_and!; apply Forall_opt; intros _; apply (small_value _ _ _ 2) || apply (small_value _ _ _ 0 0); done || lia.
Qed.

Lemma dsq_bytes d : dsq_sendable d → zlen (dsq_opts d) mod 4 = 0 ∧ zlen (dsq_opts d) ≤ 64 ∧ Forall is_byte (dsq_opts d).
Proof.
  destruct d as [| | |d| |]; try done. intros _. destruct (dsq_small d) as [H1 H2].
  by destruct (small_all _ _ _ H1 H2) as (? & ? & ? & _).
Qed.

Lemma dsq_fill_ok d msg body room :
  dsq_sendable d → built msg body room → zlen body mod 4 = 0 → 2 * (4 + zlen (body ++ dsq_opts d)) ≤ nm_size msg →
  ∃ msg' room', on_struct dsmark_qdisc_msg_fill (Some d) msg = Some (0, msg') ∧ built msg' (body ++ dsq_opts d) room' ∧
    nm_size msg' = nm_size msg.
Proof.
  destruct d as [| | |d| |]; try done. intros _ Hb Hal Hfit. unfold on_struct, dsmark_qdisc_msg_fill. cbn [unwrap dsmark_struct dsq_opts] in *.
  rewrite some_bind. unfold dsq_attrs in *.
  fill_next Hb Hal Hfit S1. fill_next Hb Hal Hfit S2.
  rewrite <- (app_nil_r (opt_attr _ TCA_DSMARK_SET_TC_INDEX _)) in Hfit. fill_next Hb Hal Hfit S3.
  do 2 eexists. split; [done|]. split; [|cbn [snd]; congruence]. by rewrite !flat_app, !(assoc_L (++)).
Qed.

Lemma dsq_parse_ok d o :
  dsq_sendable d → has_attr TCA_ATTR_OPTS o = true → opts_bytes o = Some (dsq_opts d, zlen (dsq_opts d)) →
  parse_struct dsmark_qdisc_msg_parser o (DDsmark (mkDsq 0 0 0 0)) = Some (0, dsq_back d).
Proof.
  destruct d as [| | |d| |]; try done. intros [H1 H2] Ho E. cbn [dsq_opts] in E. destruct (dsq_small d) as [S1 S2].
  destruct (small_all _ _ _ S1 S2) as (_ & Hl & _ & Hok & Hpa). destruct (tca_parse_ok o _ _ _ Ho E Hok Hpa Hl) as (t & Et & Hix).
  unfold parse_struct, dsmark_qdisc_msg_parser. cbn [unwrap dsmark_struct]. rewrite some_bind, Et, some_bind.
  change (0 <? 0) with false. cbv iota.
  assert (∀ v off, 0 ≤ v < 2 ^ 16 → attr_in (flat (dsq_attrs d)) off (le_split 2 (u16 v)) → nla_get_u16 (flat (dsq_attrs d)) off = Some v) as Hget.
  { intros v off Hv Ha. unfold nla_get_u16. rewrite (get_value 2 _ _ _ Ha). f_equal. unfold u16. rewrite Z.mod_mod by done. by apply Z.mod_small. }
  erewrite (take_attr_step _ (dsq_attrs d) _ _ TCA_DSMARK_INDICES (has (qdm_mask d) SCH_DSMARK_ATTR_INDICES) (le_split 2 (u16 (qdm_indices d))));
    [|exact Hix|done|unfold dsq_attrs; find_opts|intros ? Ha; exact (Hget _ _ H1 Ha)]. rewrite some_bind.
  erewrite (take_attr_step _ (dsq_attrs d) _ _ TCA_DSMARK_DEFAULT_INDEX (has (qdm_mask d) SCH_DSMARK_ATTR_DEFAULT_INDEX)
      (le_split 2 (u16 (qdm_default_index d))));
    [|exact Hix|done|unfold dsq_attrs; find_opts|intros ? Ha; exact (Hget _ _ H2 Ha)]. rewrite some_bind.
  erewrite (take_attr_step _ (dsq_attrs d) _ _ TCA_DSMARK_SET_TC_INDEX (has (qdm_mask d) SCH_DSMARK_ATTR_SET_TC_INDEX) []);
    [|exact Hix|done|unfold dsq_attrs; find_opts|done]. rewrite some_bind.
  cbn [dsq_back wrap fst snd]. by destruct (has (qdm_mask d) SCH_DSMARK_ATTR_INDICES), (has (qdm_mask d) SCH_DSMARK_ATTR_DEFAULT_INDEX),
    (has (qdm_mask d) SCH_DSMARK_ATTR_SET_TC_INDEX).
Qed.

#[export] Instance dsmark_ok : ModuleOk dsmark_qdisc_ops :=
  mkModuleOk dsmark_qdisc_ops dsq_sendable dsq_opts dsq_back (DDsmark (mkDsq 0 0 0 0)) eq_refl
    (on_struct dsmark_qdisc_msg_fill) (parse_struct dsmark_qdisc_msg_parser) eq_refl eq_refl dsq_bytes dsq_fill_ok dsq_parse_ok.

(** *** Marked classes *)

Definition dsc_attrs (d : rtnl_dsmark_class) : list (Z * list Z) :=
  opt_attr (has (cdm_mask d) SCH_DSMARK_ATTR_MASK) TCA_DSMARK_MASK (le_split 1 (u8 (cdm_bmask d))) ++
  opt_attr (has (cdm_mask d) SCH_DSMARK_ATTR_VALUE) TCA_DSMARK_VALUE (le_split 1 (u8 (cdm_value d))).

Definition dsc_sendable (d : subdata) : Prop :=
  match d with DDsmarkClass d => 0 ≤ cdm_bmask d < 2 ^ 8 ∧ 0 ≤ cdm_value d < 2 ^ 8 | _ => False end.
Definition dsc_opts (d : subdata) : list Z := match d with DDsmarkClass d => flat (dsc_attrs d) | _ => [] end.
Definition dsc_back (d : subdata) : subdata :=
  match d with
  | DDsmarkClass d =>
      let bit b := opt_bit (has (cdm_mask d) b) in
      DDsmarkClass (mkDsc (bit SCH_DSMARK_ATTR_MASK (cdm_bmask d)) (bit SCH_DSMARK_ATTR_VALUE (cdm_value d))
        (Z.lor (bit SCH_DSMARK_ATTR_MASK SCH_DSMARK_ATTR_MASK) (bit SCH_DSMARK_ATTR_VALUE SCH_DSMARK_ATTR_VALUE)))
  | _ => d
  end.

Lemma dsc_small d : Forall (small dsmark_policy TCA_DSMARK_MAX) (dsc_attrs d) ∧ zlen (dsc_attrs d) ≤ 8.
Proof.
  split; [|unfold dsc_attrs, opt_attr; by repeat case_match]. unfold dsc_attrs. rewrite !Forall_app.
  split_and!; apply Forall_opt; intros _; apply (small_value _ _ _ 1); done || lia.
Qed.

Lemma dsc_bytes d : dsc_sendable d → zlen (dsc_opts d) mod 4 = 0 ∧ zlen (dsc_opts d) ≤ 64 ∧ Forall is_byte (dsc_opts d).
Proof.
  destruct d as [| | | |d|]; try done. intros _. destruct (dsc_small d) as [H1 H2].
  by destruct (small_all _ _ _ H1 H2) as (? & ? & ? & _).
Qed.

Lemma dsc_fill_ok d msg body room :
  dsc_sendable d → built msg body room → zlen body mod 4 = 0 → 2 * (4 + zlen (body ++ dsc_opts d)) ≤ nm_size msg →
  ∃ msg' room', on_struct dsmark_class_msg_fill (Some d) msg = Some (0, msg') ∧ built msg' (body ++ dsc_opts d) room' ∧
    nm_size msg' = nm_size msg.
Proof.
  destruct d as [| | | |d|]; try done. intros _ Hb Hal Hfit. unfold on_struct, dsmark_class_msg_fill.
  cbn [unwrap dsmark_class_struct dsc_opts] in *. rewrite some_bind. unfold dsc_attrs in *. fill_next Hb Hal Hfit S1.
  rewrite <- (app_nil_r (opt_attr _ TCA_DSMARK_VALUE _)) in Hfit. fill_next Hb Hal Hfit S2.
  do 2 eexists. split; [done|]. split; [|cbn [snd]; congruence]. by rewrite !flat_app, !(assoc_L (++)).
Qed.

Lemma dsc_parse_ok d o :
  dsc_sendable d → has_attr TCA_ATTR_OPTS o = true → opts_bytes o = Some (dsc_opts d, zlen (dsc_opts d)) →
  parse_struct dsmark_class_msg_parser o (DDsmarkClass (mkDsc 0 0 0)) = Some (0, dsc_back d).
Proof.
  destruct d as [| | | |d|]; try done. intros [H1 H2] Ho E. cbn [dsc_opts] in E. destruct (dsc_small d) as [S1 S2].
  destruct (small_all _ _ _ S1 S2) as (_ & Hl & _ & Hok & Hpa). destruct (tca_parse_ok o _ _ _ Ho E Hok Hpa Hl) as (t & Et & Hix).
  unfold parse_struct, dsmark_class_msg_parser. cbn [unwrap dsmark_class_struct]. rewrite some_bind, Et, some_bind.
  change (0 <? 0) with false. cbv iota.
  assert (∀ v off, 0 ≤ v < 2 ^ 8 → attr_in (flat (dsc_attrs d)) off (le_split 1 (u8 v)) → nla_get_u8 (flat (dsc_attrs d)) off = Some v) as Hget.
  { intros v off Hv Ha. unfold nla_get_u8. rewrite (get_value 1 _ _ _ Ha). f_equal. unfold u8. rewrite Z.mod_mod by done. by apply Z.mod_small. }
  erewrite (take_attr_step _ (dsc_attrs d) _ _ TCA_DSMARK_MASK (has (cdm_mask d) SCH_DSMARK_ATTR_MASK) (le_split 1 (u8 (cdm_bmask d))));
    [|exact Hix|done|unfold dsc_attrs; find_opts|intros ? Ha; exact (Hget _ _ H1 Ha)]. rewrite some_bind.
  erewrite (take_attr_step _ (dsc_attrs d) _ _ TCA_DSMARK_VALUE (has (cdm_mask d) SCH_DSMARK_ATTR_VALUE) (le_split 1 (u8 (cdm_value d))));
    [|exact Hix|done|unfold dsc_attrs; find_opts|intros ? Ha; exact (Hget _ _ H2 Ha)]. rewrite some_bind.
  cbn [dsc_back wrap fst snd]. by destruct (has (cdm_mask d) SCH_DSMARK_ATTR_MASK), (has (cdm_mask d) SCH_DSMARK_ATTR_VALUE).
Qed.

#[export] Instance dsmark_class_ok : ModuleOk dsmark_class_ops :=
  mkModuleOk dsmark_class_ops dsc_sendable dsc_opts dsc_back (DDsmarkClass (mkDsc 0 0 0)) eq_refl
    (on_struct dsmark_class_msg_fill) (parse_struct dsmark_class_msg_parser) eq_refl eq_refl dsc_bytes dsc_fill_ok dsc_parse_ok.

(** ** Messages of a module *)

Lemma kind_name m : name_ok (to_kind m).
Proof.
  split_and!; [| |by destruct m].
  - apply (bool_decide_unpack (0 ∉ to_kind m)). by destruct m; vm_compute.
  - destruct m; vm_compute; repeat constructor; done.
Qed.

Section Messages.
Context (m : tc_module) `{ModuleOk m} (reg : registry).
Hypothesis registered : rtnl_tc_lookup_ops reg (to_type m) (to_kind m) = Some m.

(** An object of the module with the data [d]. *)
Record tc_sendable (o : tc) (d : subdata) : Prop := {
  ts_kind : has_attr TCA_ATTR_KIND o = true;
  ts_name : c_string (tc_kind (ce_data o)) = Some (to_kind m);
  ts_ops : tc_ops (ce_data o) = Some m;
  ts_data : tc_subdata (ce_data o) = Some d;
  ts_ok : k_ok d;
  ts_ifindex : 0 ≤ id tc_ifindex o < 2 ^ 32;
  ts_handle : 0 ≤ id tc_handle o < 2 ^ 32;
  ts_parent : 0 ≤ id tc_parent o < 2 ^ 32;
}.

Definition tc_attrs (d : subdata) : list (Z * list Z) := [(TCA_KIND, to_kind m ++ [0]); (TCA_OPTIONS, k_opts d)].

Definition tc_hdr (o : tc) : list Z :=
  tcmsg (replicate 3 0) (id tc_ifindex o) (id tc_handle o) (id tc_parent o) (replicate 4 0).

Definition tc_body (o : tc) (d : subdata) (type flags : Z) : list Z :=
  (le_split 2 type ++ le_split 2 flags ++ replicate 8 0) ++ tc_hdr o ++ flat (tc_attrs d).

Lemma zlen_hdr o : zlen (tc_hdr o) = 20.
Proof. unfold tc_hdr, tcmsg. by rewrite !zlen_app, !zlen_le_split. Qed.

Lemma kind_enc : zlen (enc (TCA_KIND, to_kind m ++ [0])) ≤ 20 ∧ zlen (enc (TCA_KIND, to_kind m ++ [0])) mod 4 = 0.
Proof.
  rewrite zlen_enc. cbn [snd]. split; [|apply total_size_pos, zlen_nonneg]. by destruct m.
Qed.

Lemma build_tc_ok size o d type flags data_ok :
  tc_sendable o d → 512 ≤ size < 2 ^ 31 →
  ∃ msg, rtnl_tc_msg_build reg size true data_ok o type flags = Some (0, Some msg, o) ∧
    wire msg = le_split 4 (4 + zlen (tc_body o d type flags)) ++ tc_body o d type flags.
Proof.
  intros [Hk Hn Ho Hd Hok _ _ _] Hsz. destruct (k_bytes d Hok) as (Hal & Hlen & _). pose proof kind_enc as [Hke Hka].
  destruct (simple_msg size type flags (tc_hdr o)) as (msg & msg1 & room1 & E1 & E2 & B1 & S1); [by rewrite zlen_hdr|rewrite zlen_hdr; lia|].
  set (h := le_split 2 type ++ le_split 2 flags ++ replicate 8 0) in *.
  assert (zlen (h ++ tc_hdr o) = 32) as Eh by (rewrite zlen_app, zlen_hdr; subst h; by rewrite !zlen_app, !zlen_le_split).
  destruct (put_built msg1 _ room1 TCA_KIND (to_kind m ++ [0]) B1) as (msg2 & room2 & E3 & B2 & S2).
  { by rewrite Eh. }
  { by destruct m. }
  { rewrite zlen_enc in Hke. cbn [snd] in Hke. lia. }
  assert (zlen ((h ++ tc_hdr o) ++ enc (TCA_KIND, to_kind m ++ [0])) mod 4 = 0) as A2
    by (by rewrite zlen_app, Eh, Z.add_mod, Hka by lia).
  destruct (nest_start_built msg2 _ room2 TCA_OPTIONS B2 A2) as (msg3 & room3 & E4 & B3 & S3).
  { rewrite zlen_app, Eh. lia. }
  assert (zlen (enc (TCA_OPTIONS, [])) = 4) as E0 by done.
  destruct (k_fill_ok d msg3 _ room3 Hok B3) as (msg4 & room4 & E5 & B4 & S4).
  { by rewrite zlen_app, E0, Z.add_mod, A2 by lia. }
  { rewrite !(zlen_app _ (k_opts d)), zlen_app, E0, zlen_app, Eh. lia. }
  rewrite <- (app_assoc _ (enc (TCA_OPTIONS, []))) in B4.
  destruct (nest_end_built _ _ _ _ _ B4 A2 Hal) as (msg5 & E6 & B5 & S5).
  exists msg5. split.
  - unfold rtnl_tc_msg_build. cbn [negb]. rewrite E1, some_bind. fold (tc_hdr o). rewrite E2, some_bind. unfold fill_if. rewrite Hk.
    cbn [fst snd]. change (0 <? 0) with false. cbv iota. rewrite Hn, some_bind. unfold nla_put_string. rewrite E3, some_bind. cbn [fst snd].
    change (0 <? 0) with false. cbv iota. unfold rtnl_tc_get_ops. rewrite Ho, some_bind. cbn [fst snd]. rewrite some_bind, k_is_fill.
    unfold rtnl_tc_data. rewrite Hd, some_bind, E4, some_bind. cbn [fst snd]. rewrite E5, some_bind. cbn [fst snd].
    change (0 <? 0) with false. cbv iota. by rewrite E6, some_bind.
  - rewrite (wire_built _ _ _ B5). unfold tc_body, tc_attrs. fold h.
    change (flat [(TCA_KIND, to_kind m ++ [0]); (TCA_OPTIONS, k_opts d)])
      with (enc (TCA_KIND, to_kind m ++ [0]) ++ enc (TCA_OPTIONS, k_opts d) ++ []). by rewrite app_nil_r, <- !app_assoc.
Qed.

(** The object that is read back. *)
Definition tc_back (ops type : Z) (o : tc) (d : subdata) : tc :=
  mkObj 1 ops 0 type 0 0x7f
    (mkTc (mkIds 0 (id tc_ifindex o) (id tc_handle o) (id tc_parent o) 0) (mkSizes 0 0 0 0)
       (to_kind m ++ replicate (32 - length (to_kind m)) 0) (Some (mkData (zlen (k_opts d)) (Some (k_opts d))))
       (replicate 9 0) None (Some (k_back d)) 0 (Some m) (to_type m)).

(** The array with the kind. *)
Definition kind_array : list Z := to_kind m ++ replicate (32 - length (to_kind m)) 0.

Lemma kind_string : c_string kind_array = Some (to_kind m).
Proof.
  unfold kind_array. destruct (kind_name m) as (H0 & _ & Hl).
  replace (32 - length (to_kind m))%nat with (S (31 - length (to_kind m))) by (unfold zlen in *; lia).
  by apply c_string_text.
Qed.

(** A new object of the type that got its kind. *)
Definition tc_named (ops type : Z) : tc :=
  mkObj 1 ops 0 type 0 TCA_ATTR_KIND
    (mkTc (mkIds 0 0 0 0 0) (mkSizes 0 0 0 0) kind_array None (replicate 9 0) None (Some k_zero) 0 (Some m) (to_type m)).

Lemma set_kind_ok ops type :
  rtnl_tc_set_kind reg true (to_kind m) (mkObj 1 ops 0 type 0 0 (tc_new (to_type m))) = Some (0, tc_named ops type).
Proof.
  unfold rtnl_tc_set_kind. change (has_attr TCA_ATTR_KIND _) with false. cbv iota.
  assert (strncpy (replicate 32 0) (to_kind m) (TCKINDSIZ - 1) = Some kind_array) as E by (unfold kind_array; by destruct m).
  cbn [ce_data tc_new tc_kind]. rewrite E, some_bind. unfold rtnl_tc_data. cbn [ce_data put_data set_body tc_subdata t_set_kind].
  unfold rtnl_tc_get_ops. cbn [ce_data put_data set_body tc_ops tc_kind tc_type t_set_kind]. rewrite kind_string, some_bind.
  cbn [ce_data put_data set_body tc_ops tc_kind tc_type t_set_kind tc_new]. rewrite registered, some_bind.
  assert (to_size m =? 0 = false) as -> by (pose proof k_new; by destruct m). cbn [negb]. rewrite k_new, some_bind. done.
Qed.

Lemma parse_tc_head pre post o x :
  zlen pre = 16 → 0 ≤ id tc_ifindex o < 2 ^ 32 → 0 ≤ id tc_handle o < 2 ^ 32 → 0 ≤ id tc_parent o < 2 ^ 32 →
  tc_parse_head (pre ++ tc_hdr o ++ post) x =
  Some (put_data 0x37 (t_set_id (mkIds 0 (id tc_ifindex o) (id tc_handle o) (id tc_parent o) 0) (ce_data x)) x).
Proof.
  intros Hp H1 H2 H3. unfold tc_parse_head. change (nlmsg_data 0) with 16. unfold tc_hdr, tcmsg.
  assert (∀ n off v, 16 ≤ off →
    ld n (([AF_UNSPEC] ++ replicate 3 0 ++ le_split 4 (id tc_ifindex o) ++ le_split 4 (id tc_handle o) ++ le_split 4 (id tc_parent o) ++
      replicate 4 0) ++ post) (off - 16) = v →
    ld n (pre ++ ([AF_UNSPEC] ++ replicate 3 0 ++ le_split 4 (id tc_ifindex o) ++ le_split 4 (id tc_handle o) ++ le_split 4 (id tc_parent o) ++
      replicate 4 0) ++ post) off = v) as Hld.
  { intros n off v Ho Hv. by rewrite (ld_skip _ _ _ _ 16). }
  rewrite (Hld 1%nat 16 (Some 0)), some_bind; [|done|change (16 - 16) with 0; ld_field].
  rewrite (Hld 4%nat (16 + 4) (Some (id tc_ifindex o))), some_bind; [|done|change (16 + 4 - 16) with 4; ld_field; done].
  rewrite (Hld 4%nat (16 + 8) (Some (id tc_handle o))), some_bind; [|done|change (16 + 8 - 16) with 8; ld_field; done].
  rewrite (Hld 4%nat (16 + 12) (Some (id tc_parent o))), some_bind; [|done|change (16 + 12 - 16) with 12; ld_field; done].
  rewrite (Hld 4%nat (16 + 16) (Some 0)), some_bind; [done|done|].
  change (16 + 16 - 16) with 16. change (replicate 4 0) with (le_split 4 0). ld_field; done.
Qed.

Lemma tc_passes d : k_ok d → Forall attr_ok (tc_attrs d) ∧ Forall (passes TCA_MAX tc_policy) (tc_attrs d).
Proof.
  intros (_ & Hl & Hb)%k_bytes. split; repeat constructor; cbn [fst snd]; try done.
  - by destruct m.
  - lia.
  - apply bytes_name, kind_name.
  - intros _. apply (passes_name TCA_MAX _ _ _ 32); [done|apply kind_name|by right|done].
  - intros _. unfold accepts. cbn. pose proof (zlen_nonneg (k_opts d)). by decide_test (0 <=? zlen (k_opts d)) true.
Qed.

(** The kind of a message is written into an array, whatever was in it. *)
Lemma copy_kind junk buf off :
  length junk = 32%nat → attr_in buf off (to_kind m ++ [0]) → nla_strlcpy junk buf off TCKINDSIZ = Some (zlen (to_kind m), kind_array).
Proof.
  intros Hj Ha. assert (zlen junk = 32) as Ej by (unfold zlen; by rewrite Hj).
  pose proof (strlcpy_ok junk buf off _ Ha ltac:(lia)) as E. cbv zeta in E. rewrite attr_text_nul, Ej in E.
  change TCKINDSIZ with 32. rewrite E. destruct (kind_name m) as (_ & _ & Hl). pose proof (zlen_nonneg (to_kind m)).
  rewrite Z.min_l, take_ge by (unfold zlen in *; lia). unfold kind_array. do 3 f_equal. unfold zlen. f_equal. lia.
Qed.

Lemma parse_tc_ok ops size o d type flags data_ok mem junk :
  tc_sendable o d → 512 ≤ size < 2 ^ 31 → 0 ≤ type < 2 ^ 16 → length junk = 32%nat → m_kind mem = true → m_opts mem = true →
  ∃ msg, rtnl_tc_msg_build reg size true data_ok o type flags = Some (0, Some msg, o) ∧
    rtnl_tc_msg_parse reg mem junk (wire msg) (mkObj 1 ops 0 0 0 0 (tc_new (to_type m))) = Some (0, tc_back ops type o d).
Proof.
  intros Hs Hsz Hty Hj Hm1 Hm2. destruct (build_tc_ok size o d type flags data_ok Hs Hsz) as (msg & E & Hwire).
  exists msg. split; [done|]. rewrite Hwire. clear E Hwire msg. destruct Hs as [_ _ _ _ Hok H1 H2 H3].
  destruct (tc_passes d Hok) as [Hat Hpa]. destruct (k_bytes d Hok) as (Hal & Hlen & Hby). unfold tc_body.
  destruct (nlmsg_parse_ok (le_split 2 type ++ le_split 2 flags ++ replicate 8 0) (tc_hdr o) (tc_attrs d) [] 20 TCA_MAX tc_policy)
    as (t & Et & Hix); try done.
  { pose proof kind_enc as [Hke _]. change (flat (tc_attrs d)) with (enc (TCA_KIND, to_kind m ++ [0]) ++ enc (TCA_OPTIONS, k_opts d) ++ []).
    rewrite app_nil_r, (enc_aligned TCA_OPTIONS) by done. rewrite !zlen_app, !zlen_le_split. lia. }
  rewrite app_nil_r in Et, Hix. set (buf := le_split 4 _ ++ _) in *.
  pose proof (Hix TCA_KIND ltac:(done)) as (ok & Ek & Hk). pose proof (Hix TCA_OPTIONS ltac:(done)) as (oo & Eo & Hopt).
  pose proof (Hix TCA_STATS2 ltac:(done) : t TCA_STATS2 = None) as E2. pose proof (Hix TCA_STATS ltac:(done) : t TCA_STATS = None) as E3.
  pose proof (Hix TCA_XSTATS ltac:(done) : t TCA_XSTATS = None) as E4. change (attr_in buf ok (to_kind m ++ [0])) in Hk.
  change (attr_in buf oo (k_opts d)) in Hopt.
  assert (∀ x, tc_parse_head buf x =
    Some (put_data 0x37 (t_set_id (mkIds 0 (id tc_ifindex o) (id tc_handle o) (id tc_parent o) 0) (ce_data x)) x)) as Hhead.
  { intros x. subst buf. rewrite (assoc_L (++) (le_split 4 _)). by apply parse_tc_head. }
  assert (nlmsg_type buf 0 = Some type) as Etype by (subst buf; unfold nlmsg_type; ld_field; done).
  clearbody buf. unfold rtnl_tc_msg_parse. rewrite Etype, some_bind, Et, some_bind. change (0 <? 0) with false. cbv iota.
  rewrite Ek, (copy_kind junk buf ok Hj Hk), some_bind. cbn [fst snd]. rewrite kind_string, some_bind, Hm1.
  change (set_body type _ _ _) with (mkObj 1 ops 0 type 0 0 (tc_new (to_type m))). rewrite set_kind_ok, some_bind. cbn [fst snd].
  rewrite Hhead, some_bind, Eo. unfold tc_parse_opts, nl_data_alloc_attr. rewrite Hm2, (attr_payload _ _ _ (proj1 Hopt) (proj2 Hopt)), some_bind.
  unfold nl_data_alloc. cbn [negb]. rewrite source_all, !some_bind. unfold unless_error at 1. rewrite some_bind. cbn [fst snd].
  change (0 <? 0) with false. cbv iota. unfold tc_parse_stats, compat_xstats, read_stats. rewrite E2, E3, some_bind, E4.
  unfold unless_error. rewrite some_bind. cbn [fst snd]. change (0 <? 0) with false. cbv iota.
  unfold tc_parse_data, rtnl_tc_get_ops, tc_named. cbn [ce_data put_data set_body on_tc tc_ops t_set_opts t_set_id].
  rewrite some_bind. cbn [fst snd]. rewrite some_bind, k_is_parser. unfold rtnl_tc_data.
  cbn [ce_data put_data set_body on_tc tc_subdata t_set_opts t_set_id]. rewrite some_bind. cbn [fst snd].
  rewrite (k_parse_ok d _ Hok), some_bind by done. done.
Qed.
End Messages.
