(* ===== verification/Cache.v ===== *)
(** * Caches of libnl: [lib/cache.c]

    A cache is a list of objects of one type.  It is filled from the replies of the kernel
    to a dump request: [__cache_pickup] runs the receiving loop of [Recv] with the store as
    the state of its callbacks, and the parser of the cache's type calls back with each
    object that it has read.  The change callback only records its calls. *)

From S2P Require Import Prelude Netlink NlError Attr Recv NlList Objects.

Section Cache.
Context {D : Type} `{World D}.
Local Open Scope store_scope.

(** ** Loops over a list *)

(** [nl_list_for_each_entry], from [pos] on; a body that returns [Some] leaves the loop. *)
Fixpoint for_each {A} (fuel : nat) (hd pos : node) (body : Z → R D (option A)) : R D (option A) :=
  match fuel with
  | O => crash
  | S fuel =>
      if decide (pos = hd) then rret None
      else match pos with
           | NHead _ => crash
           | NObj p =>
               r <- body p ;;
               match r with
               | Some a => rret (Some a)
               | None => n <- ask_heads (λ h, next h pos) ;; for_each fuel hd n body
               end
           end
  end.

(** [nl_list_for_each_entry_safe]: the successor is read before the body runs. *)
Fixpoint for_each_safe (fuel : nat) (hd pos n : node) (body : Z → R D unit) : R D unit :=
  match fuel with
  | O => crash
  | S fuel =>
      if decide (pos = hd) then rret tt
      else match pos with
           | NHead _ => crash
           | NObj p =>
               body p ;;
               n' <- ask_heads (λ h, next h n) ;;
               for_each_safe fuel hd n n' body
           end
  end.

(** No list is longer than the number of list heads. *)
Definition each_entry {A} (c : Z) (body : Z → R D (option A)) : R D (option A) := λ st,
  (n <- ask_heads (λ h, next h (NHead c)) ;;
   for_each (S (size (hs st))) (NHead c) n body) st.

Definition each_entry_safe (c : Z) (body : Z → R D unit) : R D unit := λ st,
  (pos <- ask_heads (λ h, next h (NHead c)) ;;
   n <- ask_heads (λ h, next h pos) ;;
   for_each_safe (S (size (hs st))) (NHead c) pos n body) st.

(** A loop that counts the entries on which [test] holds. *)
Fixpoint count_each (fuel : nat) (hd pos : node) (test : Z → R D bool) (n : Z) : R D Z :=
  match fuel with
  | O => crash
  | S fuel =>
      if decide (pos = hd) then rret n
      else match pos with
           | NHead _ => crash
           | NObj p =>
               b <- test p ;;
               nx <- ask_heads (λ h, next h pos) ;;
               count_each fuel hd nx test (if b then n + 1 else n)
           end
  end.

(** ** Access functions *)

Definition nl_cache_nitems (c : Z) : R D Z := k <- cache c ;; rret (c_nitems k).

Definition nl_cache_nitems_filter (c filter : Z) : R D Z := λ st,
  (k <- cache c ;;
   n <- ask_heads (λ h, next h (NHead c)) ;;
   count_each (S (size (hs st))) (NHead c) n
     (λ p, if filter =? 0 then rret true else nl_object_match_filter p filter) 0) st.

Definition nl_cache_is_empty (c : Z) : R D bool :=
  cache c ;; ask_heads (nl_list_empty (NHead c)).

(** [nl_list_entry]: the object that a list head is in. *)
Definition nl_list_entry (n : node) : R D Z :=
  match n with NObj p => rret p | NHead _ => crash end.

Definition nl_cache_get_first (c : Z) : R D Z :=
  cache c ;;
  e <- ask_heads (nl_list_empty (NHead c)) ;;
  if (e : bool) then rret 0 else n <- ask_heads (λ h, next h (NHead c)) ;; nl_list_entry n.

Definition nl_cache_get_last (c : Z) : R D Z :=
  cache c ;;
  e <- ask_heads (nl_list_empty (NHead c)) ;;
  if (e : bool) then rret 0 else n <- ask_heads (λ h, prev h (NHead c)) ;; nl_list_entry n.

Definition nl_cache_get_next (p : Z) : R D Z :=
  o <- obj p ;;
  e <- ask_heads (nl_list_at_tail (NObj p) (NHead (ce_cache o))) ;;
  if (e : bool) then rret 0 else n <- ask_heads (λ h, next h (NObj p)) ;; nl_list_entry n.

Definition nl_cache_get_prev (p : Z) : R D Z :=
  o <- obj p ;;
  e <- ask_heads (nl_list_at_head (NObj p) (NHead (ce_cache o))) ;;
  if (e : bool) then rret 0 else n <- ask_heads (λ h, prev h (NObj p)) ;; nl_list_entry n.

(** ** Creation, deletion and modification *)

Definition nl_cache_alloc (ops : Z) : R D Z := λ st,
  let c := a_calloc st in
  if c =? 0 then Some (0, st)
  else Some (c, mkStore (objs st) (<[c := mkCache 0 ops]> (caches st))
                  (nl_init_list_head (NHead c) (hs st)) (log st) (io st)).

Definition __cache_add (c p : Z) : R D Z :=
  upd p (set_cache c) ;;
  on_heads (nl_list_add_tail (NObj p) (NHead c)) ;;
  upd_nitems c 1 ;;
  rret 0.

Definition nl_cache_add (c p : Z) : R D Z :=
  k <- cache c ;; o <- obj p ;;
  if negb (co_obj_ops (cache_ops_at (c_ops k)) =? ce_ops o) then rret (- NLE_OBJ_MISMATCH)
  else
    e <- ask_heads (nl_list_empty (NObj p)) ;;
    if negb e then
      new <- nl_object_clone p ;;
      if new =? 0 then rret (- Nl.NLE_NOMEM) else __cache_add c new
    else nl_object_get p ;; __cache_add c p.

Definition nl_cache_move (c p : Z) : R D Z :=
  k <- cache c ;; o <- obj p ;;
  if negb (co_obj_ops (cache_ops_at (c_ops k)) =? ce_ops o) then rret (- NLE_OBJ_MISMATCH)
  else
    nl_object_get p ;;
    e <- ask_heads (nl_list_empty (NObj p)) ;;
    (if negb e then nl_cache_remove p else rret tt) ;;
    __cache_add c p.

Definition nl_cache_clear (c : Z) : R D unit := each_entry_safe c nl_cache_remove.

(** [free(cache)] *)
Definition free_cache (c : Z) : R D unit := λ st,
  match caches st !! c with
  | Some _ => Some (tt, mkStore (objs st) (delete c (caches st)) (delete (NHead c) (hs st))
                          (log st) (io st))
  | None => None
  end.

Definition nl_cache_free (c : Z) : R D unit :=
  if c =? 0 then rret tt else nl_cache_clear c ;; free_cache c.

(** The object, or 0. *)
Definition nl_cache_search (c needle : Z) : R D Z :=
  r <- each_entry c (λ p,
         b <- nl_object_identical p needle ;;
         if b then nl_object_get p ;; rret (Some p) else rret None) ;;
  rret (default 0 r).

Definition nl_cache_mark_all (c : Z) : R D unit :=
  each_entry (A := unit) c (λ p, nl_object_mark p ;; rret None) ;; rret tt.

(** [change_cb(cache, obj, act, data)] if it is set. *)
Definition change (cb : bool) (c p : Z) (act : nl_act) : R D unit := λ st,
  Some (tt, if cb then mkStore (objs st) (caches st) (hs st) (log st ++ [(c, p, act)]) (io st) else st).

Definition cache_include (c p : Z) (act : nl_act) (cb : bool) : R D Z :=
  match act with
  | NL_ACT_NEW | NL_ACT_DEL =>
      old <- nl_cache_search c p ;;
      (if negb (old =? 0) then
         nl_cache_remove old ;;
         (if decide (act = NL_ACT_DEL) then
            change cb c old NL_ACT_DEL ;; nl_object_put old
          else rret tt)
       else rret tt) ;;
      (if decide (act = NL_ACT_NEW) then
         nl_cache_move c p ;;
         (if old =? 0 then change cb c p NL_ACT_NEW
          else
            d <- nl_object_diff old p ;;
            (if negb (d =? 0) then change cb c p NL_ACT_CHANGE else rret tt) ;;
            nl_object_put old)
       else rret tt) ;;
      rret 0
  | _ => rret 0
  end.

(** The loop over the table of message types. *)
Fixpoint include_types (types : list (Z * nl_act)) (msgtype : Z) (k : nl_act → R D Z) : R D Z :=
  match types with
  | [] => crash
  | (mt_id, mt_act) :: types =>
      if mt_id <? 0 then rret (- NLE_MSGTYPE_NOSUPPORT)
      else if mt_id =? msgtype then k mt_act
      else include_types types msgtype k
  end.

Definition nl_cache_include (c p : Z) (cb : bool) : R D Z :=
  k <- cache c ;; o <- obj p ;;
  let ops := cache_ops_at (c_ops k) in
  if negb (co_obj_ops ops =? ce_ops o) then rret (- NLE_OBJ_MISMATCH)
  else include_types (co_msgtypes ops) (ce_msgtype o) (λ act, cache_include c p act cb).

Definition nl_cache_subset (orig filter : Z) : R D Z :=
  if filter =? 0 then crash
  else
    k <- cache orig ;;
    c <- nl_cache_alloc (c_ops k) ;;
    if c =? 0 then rret 0
    else
      each_entry (A := unit) orig (λ p,
        b <- nl_object_match_filter p filter ;;
        if negb b then rret None else nl_cache_add c p ;; rret None) ;;
      rret c.

Definition nl_cache_foreach_filter (c filter : Z) (cb : Z → R D unit) : R D unit :=
  cache c ;;
  each_entry_safe c (λ p,
    b <- (if filter =? 0 then rret true else nl_object_match_filter p filter) ;;
    if negb b then rret tt
    else nl_object_get p ;; cb p ;; nl_object_put p).

Definition nl_cache_foreach (c : Z) (cb : Z → R D unit) : R D unit :=
  nl_cache_foreach_filter c 0 cb.

(** ** Filling a cache *)

Definition nl_cache_request_full_dump (c : Z) : R D Z :=
  k <- cache c ;;
  match co_request_update (cache_ops_at (c_ops k)) with
  | None => rret (- NLE_OPNOTSUPP)
  | Some f => f c
  end.

Fixpoint parse_types (types : list (Z * nl_act)) (msgtype : Z) (parse : R D Z) : R D Z :=
  match types with
  | [] => crash
  | (mt_id, _) :: types =>
      if mt_id <? 0 then rret (- NLE_MSGTYPE_NOSUPPORT)
      else if mt_id =? msgtype then
        err <- parse ;;
        if negb (err =? - NLE_OPNOTSUPP) then rret err else parse_types types msgtype parse
      else parse_types types msgtype parse
  end.

(** [pp_cb] is the function that the parser calls with each object. *)
Definition nl_cache_parse (ops : nl_cache_ops D) (msg : list Z) (pp_cb : Z → R D Z) : R D Z :=
  ok <- lift (Attr.nlmsg_valid_hdr msg 0 (co_hdrsize ops)) ;;
  if negb ok then rret (- Nl.NLE_MSG_TOOSHORT)
  else
    ty <- lift (Nl.nlmsg_type msg 0) ;;
    parse_types (co_msgtypes ops) ty (co_msg_parser ops msg pp_cb).

Definition pickup_cb (c : Z) (p : Z) : R D Z := nl_cache_add c p.

Definition nl_cache_parse_and_add (c : Z) (msg : list Z) : R D Z :=
  k <- cache c ;; nl_cache_parse (cache_ops_at (c_ops k)) msg (pickup_cb c).

(** [nl_recvmsgs(sk, cb)]: [None] when it waits for ever. *)
Definition nl_recvmsgs (cb : nl_cb (store D)) : R D (option Z) := λ st,
  let i := io st in
  match recvmsgs a_msg_copy cb true (io_incoming i) (mkRst st (io_seq_expect i) false) with
  | None => None
  | Some (Blocked r) => Some (None, r_user r)
  | Some (Returned err r rest) =>
      let st := r_user r in
      let i := io st in
      Some (Some err, mkStore (objs st) (caches st) (hs st) (log st)
                        (mkIo (io_seq_next i) (r_seq_expect r) (io_sent i) rest))
  end.

(** The callbacks of the socket are copied, with [NL_CB_VALID] set to [update_msg_parser]. *)
Definition __cache_pickup (c : Z) (pp_cb : Z → R D Z) : R D (option Z) :=
  k <- cache c ;;
  ok <- (λ st, Some (a_cb_clone st, st)) ;;
  if negb ok then rret (Some (- Nl.NLE_NOMEM))
  else
    nl_recvmsgs (nl_socket_modify_cb s_cb NL_CB_VALID
                   (λ msg, nl_cache_parse (cache_ops_at (c_ops k)) msg pp_cb)).

Definition nl_cache_pickup (c : Z) : R D (option Z) := __cache_pickup c (pickup_cb c).

Definition resync_cb (c : Z) (cb : bool) (p : Z) : R D Z := nl_cache_include c p cb.

(** Drop the objects that are still marked. *)
Definition drop_marked (c : Z) (cb : bool) : R D unit :=
  each_entry_safe c (λ p,
    b <- nl_object_is_marked p ;;
    if (b : bool) then
      nl_object_get p ;;
      nl_cache_remove p ;;
      change cb c p NL_ACT_DEL ;;
      nl_object_put p
    else rret tt).

Definition nl_cache_resync (c : Z) (cb : bool) : R D (option Z) :=
  nl_cache_mark_all c ;;
  err <- nl_cache_request_full_dump c ;;
  if err <? 0 then rret (Some err)
  else
    r <- __cache_pickup c (resync_cb c cb) ;;
    match r with
    | None => rret None
    | Some err =>
        if err <? 0 then rret (Some err)
        else drop_marked c cb ;; rret (Some 0)
    end.

Definition nl_cache_refill (c : Z) : R D (option Z) :=
  err <- nl_cache_request_full_dump c ;;
  if err <? 0 then rret (Some err)
  else nl_cache_clear c ;; nl_cache_pickup c.

(** The code and the cache; [sock] tells whether a socket is given. *)
Definition nl_cache_alloc_and_fill (ops : Z) (sock : bool) : R D (option (Z * Z)) :=
  c <- nl_cache_alloc ops ;;
  if c =? 0 then rret (Some (- Nl.NLE_NOMEM, 0))
  else if negb sock then rret (Some (0, c))
  else
    r <- nl_cache_refill c ;;
    match r with
    | None => rret None
    | Some err =>
        if err <? 0 then nl_cache_free c ;; rret (Some (err, 0)) else rret (Some (0, c))
    end.

End Cache.
