(* ===== verification/CacheInv.v ===== *)
(** * The invariant of objects and caches

    [st_ok ext ct st]: the store [st] has the caches [ct] with these sequences of objects,
    and the users of the library hold [ext p] references to the object at [p].  Every
    operation of [Objects] and [Cache] is described by what it does to [ext] and [ct]; the
    linked lists, the reference counts and the memory follow. *)

From S2P Require Import Prelude Netlink NlError Recv NlList Objects Cache.

Section Inv.
Context {D : Type} `{World D}.
Local Open Scope store_scope.

Implicit Types (st : store D) (ct : gmap Z (list Z)) (ext : Z → Z).

(** ** Total correctness of a program on the store *)

Definition rwp {A} (m : R D A) (Q : A → store D → Prop) (st : store D) : Prop :=
  match m st with Some (a, st') => Q a st' | None => False end.

Lemma rwp_bind {A B} (m : R D A) (k : A → R D B) Q st :
  rwp m (λ a, rwp (k a) Q) st → rwp (rbind m k) Q st.
Proof. unfold rwp, rbind. by destruct (m st) as [ [a st']|]. Qed.

Lemma rwp_mono {A} (m : R D A) (P Q : A → store D → Prop) st :
  rwp m P st → (∀ a st', P a st' → Q a st') → rwp m Q st.
Proof. unfold rwp. destruct (m st) as [ [a st']|]; auto. Qed.

Lemma rwp_seq {A B} (m : R D A) (k : A → R D B) (P : A → store D → Prop) Q st :
  rwp m P st → (∀ a st', P a st' → rwp (k a) Q st') → rwp (rbind m k) Q st.
Proof. intros Hm Hk. apply rwp_bind. eapply rwp_mono; [exact Hm|exact Hk]. Qed.

Lemma rwp_ret {A} (a : A) (Q : A → store D → Prop) st : Q a st → rwp (rret a) Q st.
Proof. done. Qed.

Lemma rwp_obj p o (Q : nl_object D → store D → Prop) st :
  objs st !! p = Some o → Q o st → rwp (obj p) Q st.
Proof. unfold rwp, obj. by intros ->. Qed.

Lemma rwp_cache c k (Q : nl_cache → store D → Prop) st :
  caches st !! c = Some k → Q k st → rwp (cache c) Q st.
Proof. unfold rwp, cache. by intros ->. Qed.

Lemma rwp_upd p o f (Q : unit → store D → Prop) st :
  objs st !! p = Some o → Q tt (set_objs (<[p := f o]> (objs st)) st) → rwp (upd p f) Q st.
Proof. unfold rwp, upd. by intros ->. Qed.

Lemma rwp_ask {A} (f : heads → option A) a (Q : A → store D → Prop) st :
  f (hs st) = Some a → Q a st → rwp (ask_heads f) Q st.
Proof. unfold rwp, ask_heads. by intros ->. Qed.

Lemma rwp_heads (f : heads → option heads) h (Q : unit → store D → Prop) st :
  f (hs st) = Some h → Q tt (set_hs h st) → rwp (on_heads f) Q st.
Proof. unfold rwp, on_heads. by intros ->. Qed.

Lemma rwp_nitems c d k (Q : unit → store D → Prop) st :
  caches st !! c = Some k →
  Q tt (set_caches (<[c := mkCache (c_nitems k + d) (c_ops k)]> (caches st)) st) →
  rwp (upd_nitems c d) Q st.
Proof. unfold rwp, upd_nitems. by intros ->. Qed.

Lemma rwp_lift {A} (o : option A) a (Q : A → store D → Prop) st :
  o = Some a → Q a st → rwp (lift o) Q st.
Proof. unfold rwp, lift. by intros ->. Qed.

(** ** The invariant *)

(** The lists, the owners of the objects, the reference counts, and the memory. *)
Record core (ext : Z → Z) (ct : gmap Z (list Z)) (st : store D) : Prop := {
  core_caches : dom ct = dom (caches st);
  core_null : caches st !! 0 = None ∧ objs st !! 0 = None;
  core_list : ∀ c ps, ct !! c = Some ps → dlist (hs st) (NHead c) (NObj <$> ps);
  core_mem : ∀ c ps p, ct !! c = Some ps → p ∈ ps → ∃ o, objs st !! p = Some o ∧ ce_cache o = c;
  core_own : ∀ p o, objs st !! p = Some o → ce_cache o ≠ 0 →
    ∃ ps, ct !! ce_cache o = Some ps ∧ p ∈ ps;
  core_ref : ∀ p o, objs st !! p = Some o → 0 ≤ ext p ∧ 0 < ce_refcnt o ∧
    ce_refcnt o = ext p + (if ce_cache o =? 0 then 0 else 1);
  core_dead : ∀ p, objs st !! p = None → ext p = 0;
  core_node : ∀ p, is_Some (objs st !! p) → is_Some (hs st !! NObj p);
}.

(** The numbers of items, and the type of the objects of a cache. *)
Definition counts (ct : gmap Z (list Z)) (st : store D) : Prop :=
  ∀ c ps k, ct !! c = Some ps → caches st !! c = Some k → c_nitems k = zlen ps.

Definition typed (st : store D) : Prop :=
  ∀ p o k, objs st !! p = Some o → caches st !! ce_cache o = Some k →
    ce_ops o = co_obj_ops (cache_ops_at (c_ops k)).

Record st_ok (ext : Z → Z) (ct : gmap Z (list Z)) (st : store D) : Prop := {
  ok_core :> core ext ct st;
  ok_counts : counts ct st;
  ok_typed : typed st;
}.

(** What an operation leaves alone: the objects that are still there have the contents
    they had, no cache changes its type. *)
Definition body_of (o : nl_object D) : Z * Z * Z * Z * D :=
  (ce_ops o, ce_msgtype o, ce_flags o, ce_mask o, ce_data o).
Definition body st : gmap Z (Z * Z * Z * Z * D) := body_of <$> objs st.
Definition kinds st : gmap Z Z := c_ops <$> caches st.

Record keeps (st st' : store D) : Prop := {
  keeps_body : body st' ⊆ body st;
  keeps_kinds : kinds st' = kinds st;
  keeps_log : log st' = log st;
  keeps_io : io st' = io st;
}.

#[export] Instance keeps_refl : Reflexive keeps.
Proof. by split. Qed.

#[export] Instance keeps_trans : Transitive keeps.
Proof.
  intros a b c [B1 K1 L1 I1] [B2 K2 L2 I2]. split; [by etrans|congruence..].
Qed.

Lemma core_ext ext ext' ct st : (∀ p, ext p = ext' p) → core ext ct st → core ext' ct st.
Proof.
  intros E [? ? ? ? ? Hr Hd ?]. split; try done.
  - intros p o Ho. rewrite <- E. by apply Hr.
  - intros p Hp. rewrite <- E. by apply Hd.
Qed.

Lemma st_ok_ext ext ext' ct st : (∀ p, ext p = ext' p) → st_ok ext ct st → st_ok ext' ct st.
Proof. intros E [C N T]. split; [by eapply core_ext|done..]. Qed.

Lemma core_cache_ne ext ct st c : core ext ct st → is_Some (ct !! c) → c ≠ 0.
Proof.
  intros Hc Hs ->. apply elem_of_dom in Hs. rewrite (core_caches _ _ _ Hc) in Hs.
  apply elem_of_dom in Hs as [k Hk]. destruct (core_null _ _ _ Hc) as [E _]. congruence.
Qed.

Lemma core_kind ext ct st c ps : core ext ct st → ct !! c = Some ps → ∃ k, caches st !! c = Some k.
Proof.
  intros Hc Hs. assert (c ∈ dom (caches st)) as Hd.
  { rewrite <- (core_caches _ _ _ Hc). apply elem_of_dom. by eexists. }
  by apply elem_of_dom in Hd as [k Hk]; exists k.
Qed.

(** An object is in one list at most. *)
Lemma core_one ext ct st c ps c' ps' p :
  core ext ct st → ct !! c = Some ps → ct !! c' = Some ps' → p ∈ ps → p ∈ ps' → c = c'.
Proof.
  intros Hc H1 H2 M1 M2.
  destruct (core_mem _ _ _ Hc _ _ _ H1 M1) as (o & Ho & E).
  destruct (core_mem _ _ _ Hc _ _ _ H2 M2) as (o' & Ho' & E'). congruence.
Qed.

(** An object is there if and only if a user or a cache holds it. *)
Lemma core_live ext ct st p :
  core ext ct st → is_Some (objs st !! p) ↔ 0 < ext p ∨ ∃ c ps, ct !! c = Some ps ∧ p ∈ ps.
Proof.
  intros Hc. split.
  - intros [o Ho]. destruct (core_ref _ _ _ Hc _ _ Ho) as (H1 & H2 & H3).
    destruct (Z.eqb_spec (ce_cache o) 0) as [E|E]; [left; lia|right].
    destruct (core_own _ _ _ Hc _ _ Ho E) as (ps & Hps & Hin). by eexists _, ps.
  - intros [He|(c & ps & Hps & Hin)].
    + destruct (objs st !! p) eqn:E; [done|]. pose proof (core_dead _ _ _ Hc _ E). lia.
    + destruct (core_mem _ _ _ Hc _ _ _ Hps Hin) as (o & Ho & _). by eexists.
Qed.

(** ** Changes of one object *)

Lemma core_upd ext ct st p o o' d :
  core ext ct st → objs st !! p = Some o → ce_cache o' = ce_cache o →
  ce_refcnt o' = ce_refcnt o + d → 0 < ce_refcnt o + d → 0 ≤ ext p + d →
  core (add_ref p d ext) ct (set_objs (<[p := o']> (objs st)) st).
Proof.
  intros [Hdom [N1 N2] Hl Hm Ho Hr Hd Hn] Hp Hcc Hrc Hpos Hext.
  assert (p ≠ 0) as Hp0 by congruence. split; simpl.
  - done.
  - by rewrite lookup_insert_ne.
  - done.
  - intros c ps q Hc Hq. destruct (Hm c ps q Hc Hq) as (x & Hx & E).
    destruct (decide (q = p)) as [->|]; [|rewrite lookup_insert_ne by done; eauto].
    rewrite lookup_insert_eq. eexists; split; [done|]. congruence.
  - intros q x. destruct (decide (q = p)) as [->|]; [|rewrite lookup_insert_ne by done; eauto].
    rewrite lookup_insert_eq. intros [= <-]. rewrite Hcc. eauto.
  - intros q x. unfold add_ref. destruct (Z.eqb_spec q p) as [->|].
    + rewrite lookup_insert_eq. intros [= <-]. rewrite Hcc, Hrc.
      destruct (Hr p o Hp) as (? & ? & Hrp). lia.
    + rewrite lookup_insert_ne by done. eauto.
  - intros q. unfold add_ref. destruct (Z.eqb_spec q p) as [->|].
    + by rewrite lookup_insert_eq.
    + rewrite lookup_insert_ne by done. eauto.
  - intros q. destruct (decide (q = p)) as [->|]; [eauto|]. rewrite lookup_insert_ne by done. eauto.
Qed.

Lemma typed_upd st p o o' :
  typed st → objs st !! p = Some o → ce_cache o' = ce_cache o → ce_ops o' = ce_ops o →
  typed (set_objs (<[p := o']> (objs st)) st).
Proof.
  intros T Hp E1 E2 q x k. simpl. destruct (decide (q = p)) as [->|].
  - rewrite lookup_insert_eq. intros [= <-]. rewrite E1, E2. exact (T p o k Hp).
  - rewrite lookup_insert_ne by done. exact (T q x k).
Qed.

Lemma keeps_upd st p o o' :
  objs st !! p = Some o → body_of o' = body_of o →
  keeps st (set_objs (<[p := o']> (objs st)) st).
Proof.
  intros Hp E. split; [|done..]. unfold body. simpl. rewrite fmap_insert, E, insert_id; [done|].
  by rewrite lookup_fmap, Hp.
Qed.

(** Freeing an object that nobody holds. *)
Lemma core_delete ext ct st p o :
  core ext ct st → objs st !! p = Some o → ce_cache o = 0 →
  core (λ q, if q =? p then 0 else ext q) ct
    (mkStore (delete p (objs st)) (caches st) (delete (NObj p) (hs st)) (log st) (io st)).
Proof.
  intros [Hdom [N1 N2] Hl Hm Ho Hr Hd Hn] Hp Hc0.
  assert (∀ c ps, ct !! c = Some ps → p ∉ ps) as Hnot.
  { intros c ps Hc Hin. destruct (Hm c ps p Hc Hin) as (x & Hx & E).
    assert (c = 0) as -> by congruence.
    assert (0 ∈ dom ct) as Hd0 by (apply elem_of_dom; by eexists).
    rewrite Hdom in Hd0. apply elem_of_dom in Hd0 as [k Hk]. congruence. }
  split; simpl.
  - done.
  - by rewrite lookup_delete_None; auto.
  - intros c ps Hc. eapply dlist_frame; [by apply Hl|]. intros m Hin.
    rewrite lookup_delete_ne; [done|]. intros <-. apply elem_of_cons in Hin as [?|Hin]; [done|].
    apply list_elem_of_fmap in Hin as (q & [= <-] & Hq). by eapply Hnot.
  - intros c ps q Hc Hq. rewrite lookup_delete_ne; [eauto|]. intros <-. by eapply Hnot.
  - intros q x [_ Hq]%lookup_delete_Some. eauto.
  - intros q x [E Hq]%lookup_delete_Some. destruct (Z.eqb_spec q p); [congruence|eauto].
  - intros q. destruct (Z.eqb_spec q p); [done|]. rewrite lookup_delete_ne by congruence. eauto.
  - intros q [x [E Hx]%lookup_delete_Some]. rewrite lookup_delete_ne by congruence. eauto.
Qed.

Lemma keeps_delete st p h :
  keeps st (mkStore (delete p (objs st)) (caches st) h (log st) (io st)).
Proof. split; [|done..]. unfold body. simpl. rewrite fmap_delete. apply delete_subseteq. Qed.

(** ** References *)

Lemma get_ok ext ct st p :
  st_ok ext ct st → is_Some (objs st !! p) →
  rwp (nl_object_get p) (λ _ st', st_ok (add_ref p 1 ext) ct st' ∧ keeps st st' ∧
    hs st' = hs st ∧ caches st' = caches st) st.
Proof.
  intros [C N T] [o Ho]. apply (rwp_upd _ o); [done|]. destruct (core_ref _ _ _ C _ _ Ho) as (?&?&?).
  split; [|split; [by eapply keeps_upd|done]].
  split; [|done|by eapply typed_upd].
  eapply core_upd; [done|done|done|done|lia|lia].
Qed.

(** The core of [nl_object_put], which [nl_cache_remove] uses while the count of the cache
    is off by one. *)
Lemma put_core ext ct st p :
  core ext ct st → typed st → 0 < ext p →
  rwp (nl_object_put p) (λ _ st', core (add_ref p (-1) ext) ct st' ∧ typed st' ∧ keeps st st' ∧
    caches st' = caches st ∧ (∀ c, hs st' !! NHead c = hs st !! NHead c) ∧
    (∀ q, is_Some (objs st' !! q) → hs st' !! NObj q = hs st !! NObj q)) st.
Proof.
  intros C T He. destruct (objs st !! p) as [o|] eqn:Ho.
  2:{ pose proof (core_dead _ _ _ C _ Ho). lia. }
  destruct (core_ref _ _ _ C _ _ Ho) as (?&?&Hr).
  unfold nl_object_put, put_with.
  destruct (Z.eqb_spec p 0) as [->|Hp0].
  { destruct (core_null _ _ _ C). congruence. }
  apply rwp_bind, (rwp_upd _ o); [done|]. apply rwp_bind, (rwp_obj _ (set_refcnt (ce_refcnt o - 1) o)).
  { apply lookup_insert_eq. }
  cbn [ce_refcnt set_refcnt]. destruct (Z.ltb_spec (ce_refcnt o - 1) 0); [lia|].
  destruct (Z.leb_spec (ce_refcnt o - 1) 0) as [Hz|Hz].
  - assert (ce_cache o = 0 ∧ ext p = 1) as [Hc0 He1].
    { destruct (Z.eqb_spec (ce_cache o) 0); lia. }
    unfold nl_object_free. cbn [object_free].
    apply rwp_bind, (rwp_obj _ (set_refcnt (ce_refcnt o - 1) o)); [apply lookup_insert_eq|].
    cbn [ce_cache set_refcnt]. rewrite Hc0. cbn [negb Z.eqb].
    apply rwp_bind, rwp_ret. unfold rwp, free_obj. simpl. rewrite lookup_insert_eq.
    rewrite delete_insert_eq. split; [|split; [|split; [apply keeps_delete|split; [done|]]]].
    + eapply core_ext; [|by eapply core_delete]. intros q. unfold add_ref. simpl.
      destruct (Z.eqb_spec q p) as [->|]; lia.
    + intros q x k. simpl. intros [_ Hq]%lookup_delete_Some. exact (T q x k Hq).
    + simpl. split; [intros c; by rewrite lookup_delete_ne|].
      intros q [x [Hq Hx]%lookup_delete_Some]. rewrite lookup_delete_ne; congruence.
  - split; [|split; [by eapply typed_upd|split; [by eapply keeps_upd|done]]].
    eapply core_upd; try done; simpl; lia.
Qed.

Lemma put_ok ext ct st p :
  st_ok ext ct st → 0 < ext p →
  rwp (nl_object_put p) (λ _ st', st_ok (add_ref p (-1) ext) ct st' ∧ keeps st st') st.
Proof.
  intros [C N T] He. eapply rwp_mono; [by apply put_core|].
  intros _ st' (C' & T' & K & E & _). split; [|done]. split; [done| |done].
  intros c ps k. rewrite E. apply N.
Qed.

Lemma put_null st : rwp (nl_object_put 0) (λ _ st', st' = st) st.
Proof. done. Qed.
(** ** Linking and unlinking *)

Lemma core_nodup ext ct st c ps : core ext ct st → ct !! c = Some ps → NoDup ps.
Proof.
  intros C Hc. destruct (core_list _ _ _ C _ _ Hc) as [Hnd _].
  apply list.NoDup_cons in Hnd as [_ Hnd]. by apply NoDup_fmap_1 in Hnd.
Qed.

(** The list heads of two caches are apart. *)
Lemma core_disjoint ext ct st c ps c' ps' m :
  core ext ct st → ct !! c = Some ps → ct !! c' = Some ps' → c ≠ c' →
  m ∈ NHead c' :: (NObj <$> ps') → m ∉ NHead c :: (NObj <$> ps).
Proof.
  intros C H1 H2 Hne Hin Hin'. apply elem_of_cons in Hin as [->|Hin].
  - apply elem_of_cons in Hin' as [E|Hin']; [congruence|].
    by apply list_elem_of_fmap in Hin' as (q & ? & _).
  - apply list_elem_of_fmap in Hin as (q & -> & Hq). apply elem_of_cons in Hin' as [?|Hin']; [done|].
    apply list_elem_of_fmap in Hin' as (q' & [= <-] & Hq'). apply Hne. by eapply core_one.
Qed.

Lemma core_unlink ext ct st p o c xs ys h :
  core ext ct st → objs st !! p = Some o → ce_cache o = c → ct !! c = Some (xs ++ p :: ys) →
  dlist h (NHead c) (NObj <$> (xs ++ ys)) → h !! NObj p = hs st !! NObj p →
  (∀ m, m ∉ NHead c :: (NObj <$> (xs ++ ys)) → h !! m = hs st !! m) → dom h = dom (hs st) →
  core (add_ref p 1 ext) (<[c := xs ++ ys]> ct)
    (set_objs (<[p := set_cache 0 o]> (objs st)) (set_hs h st)).
Proof.
  intros C Hp Hcc Hps Hd Hhp Hf Hdom.
  pose proof (core_nodup _ _ _ _ _ C Hps) as Hnd.
  apply list.NoDup_app in Hnd as (_ & Hnx & Hny). apply list.NoDup_cons in Hny as [Hny _].
  assert (p ∉ xs ++ ys) as Hnot by (rewrite elem_of_app; set_solver).
  assert (c ≠ 0) as Hc0 by (eapply core_cache_ne; eauto).
  pose proof C as [Hdc [N1 N2] Hl Hm Ho Hr Hdead Hn].
  split; simpl.
  - rewrite dom_insert_L, <- Hdc. apply subseteq_union_1_L, singleton_subseteq_l.
    apply elem_of_dom. by eexists.
  - split; [done|]. rewrite lookup_insert_ne; [done|congruence].
  - intros c' ps'. destruct (decide (c' = c)) as [->|Hne].
    + rewrite lookup_insert_eq. by intros [= <-].
    + rewrite lookup_insert_ne by done. intros H'. eapply dlist_frame; [by apply Hl|].
      intros m Hin. apply Hf. pose proof (core_disjoint _ _ _ _ _ _ _ m C Hps H' ltac:(done) Hin).
      rewrite fmap_app in *. set_solver.
  - intros c' ps' q. destruct (decide (c' = c)) as [->|Hne].
    + rewrite lookup_insert_eq. intros [= <-] Hq. rewrite lookup_insert_ne by set_solver.
      apply (Hm c _ q Hps). set_solver.
    + rewrite lookup_insert_ne by done. intros H' Hq. rewrite lookup_insert_ne; [eauto|].
      intros <-. apply Hne. eapply core_one; [exact C|exact H'|exact Hps|done|set_solver].
  - intros q x. destruct (decide (q = p)) as [->|Hq].
    + rewrite lookup_insert_eq. by intros [= <-].
    + rewrite lookup_insert_ne by done. intros Hx Hx0. destruct (Ho q x Hx Hx0) as (l & Hl' & Hin).
      destruct (decide (ce_cache x = c)) as [E|E].
      * rewrite E, lookup_insert_eq. eexists; split; [done|]. rewrite E, Hps in Hl'. set_solver.
      * rewrite lookup_insert_ne by done. eauto.
  - intros q x. unfold add_ref. destruct (Z.eqb_spec q p) as [->|].
    + rewrite lookup_insert_eq. intros [= <-]. simpl. destruct (Hr p o Hp) as (?&?&Hrp).
      destruct (Z.eqb_spec (ce_cache o) 0); lia.
    + rewrite lookup_insert_ne by done. eauto.
  - intros q. unfold add_ref. destruct (Z.eqb_spec q p) as [->|]; [by rewrite lookup_insert_eq|].
    rewrite lookup_insert_ne by done. eauto.
  - intros q Hq. eapply is_Some_dom; [exact Hdom|]. apply Hn.
    destruct (decide (q = p)) as [->|]; [by eexists|]. by rewrite lookup_insert_ne in Hq.
Qed.

Lemma core_link ext ct st p o c ps h :
  core ext ct st → objs st !! p = Some o → ce_cache o = 0 → 0 < ext p → ct !! c = Some ps →
  dlist h (NHead c) (NObj <$> (ps ++ [p])) →
  (∀ m, m ∉ NObj p :: NHead c :: (NObj <$> ps) → h !! m = hs st !! m) → dom h = dom (hs st) →
  core (add_ref p (-1) ext) (<[c := ps ++ [p]]> ct)
    (set_hs h (set_objs (<[p := set_cache c o]> (objs st)) st)).
Proof.
  intros C Hp Hcc He Hps Hd Hf Hdom.
  assert (c ≠ 0) as Hc0 by (eapply core_cache_ne; eauto).
  pose proof C as [Hdc [N1 N2] Hl Hm Ho Hr Hdead Hn].
  assert (∀ c' ps', ct !! c' = Some ps' → p ∉ ps') as Hnot.
  { intros c' ps' H' Hin. destruct (Hm _ _ _ H' Hin) as (x & Hx & E).
    eapply core_cache_ne; [exact C|by eexists|]. congruence. }
  split; simpl.
  - rewrite dom_insert_L, <- Hdc. apply subseteq_union_1_L, singleton_subseteq_l.
    apply elem_of_dom. by eexists.
  - split; [done|]. rewrite lookup_insert_ne; [done|congruence].
  - intros c' ps'. destruct (decide (c' = c)) as [->|Hne].
    + rewrite lookup_insert_eq. by intros [= <-].
    + rewrite lookup_insert_ne by done. intros H'. eapply dlist_frame; [by apply Hl|].
      intros m Hin. apply Hf. pose proof (core_disjoint _ _ _ _ _ _ _ m C Hps H' ltac:(done) Hin).
      rewrite elem_of_cons. intros [->|?]; [|done].
      apply elem_of_cons in Hin as [?|Hin]; [done|].
      apply list_elem_of_fmap in Hin as (q & [= <-] & Hq). by eapply Hnot.
  - intros c' ps' q. destruct (decide (c' = c)) as [->|Hne].
    + rewrite lookup_insert_eq. intros [= <-] Hq. destruct (decide (q = p)) as [->|Hqp].
      * rewrite lookup_insert_eq. by eexists.
      * rewrite lookup_insert_ne by done. apply (Hm c _ q Hps). set_solver.
    + rewrite lookup_insert_ne by done. intros H' Hq. rewrite lookup_insert_ne; [eauto|].
      intros <-. by eapply Hnot.
  - intros q x. destruct (decide (q = p)) as [->|Hq].
    + rewrite lookup_insert_eq. intros [= <-] _. simpl. rewrite lookup_insert_eq.
      eexists; split; [done|]. set_solver.
    + rewrite lookup_insert_ne by done. intros Hx Hx0. destruct (Ho q x Hx Hx0) as (l & Hl' & Hin).
      destruct (decide (ce_cache x = c)) as [E|E].
      * rewrite E, lookup_insert_eq. eexists; split; [done|]. rewrite E, Hps in Hl'. set_solver.
      * rewrite lookup_insert_ne by done. eauto.
  - intros q x. unfold add_ref. destruct (Z.eqb_spec q p) as [->|].
    + rewrite lookup_insert_eq. intros [= <-]. simpl. destruct (Hr p o Hp) as (?&?&Hrp).
      rewrite Hcc in Hrp. simpl in Hrp. destruct (Z.eqb_spec c 0); lia.
    + rewrite lookup_insert_ne by done. eauto.
  - intros q. unfold add_ref. destruct (Z.eqb_spec q p) as [->|]; [by rewrite lookup_insert_eq|].
    rewrite lookup_insert_ne by done. eauto.
  - intros q Hq. eapply is_Some_dom; [exact Hdom|]. apply Hn.
    destruct (decide (q = p)) as [->|]; [by eexists|]. by rewrite lookup_insert_ne in Hq.
Qed.

(** ** The contents of the caches *)

(** [p] leaves the cache it is in; [p] is put at the end of [c]. *)
Definition without (p : Z) (ct : gmap Z (list Z)) : gmap Z (list Z) :=
  filter (λ q, q ≠ p) <$> ct.
Definition push (c p : Z) (ct : gmap Z (list Z)) : gmap Z (list Z) := alter (λ ps, ps ++ [p]) c ct.

Lemma filter_ne_id p (l : list Z) : p ∉ l → filter (λ q, q ≠ p) l = l.
Proof.
  intros Hn. induction l as [|q l IH]; [done|]. rewrite filter_cons_True by set_solver.
  f_equal. apply IH. set_solver.
Qed.

Lemma without_none ct p : (∀ c ps, ct !! c = Some ps → p ∉ ps) → without p ct = ct.
Proof.
  intros Hn. apply map_eq. intros c. unfold without. rewrite lookup_fmap.
  destruct (ct !! c) as [ps|] eqn:E; [|done]. simpl. by rewrite filter_ne_id by eauto.
Qed.

Lemma without_one ext ct st p c xs ys :
  core ext ct st → ct !! c = Some (xs ++ p :: ys) → without p ct = <[c := xs ++ ys]> ct.
Proof.
  intros C Hc. apply map_eq. intros c'. unfold without. rewrite lookup_fmap.
  destruct (decide (c' = c)) as [->|Hne].
  - rewrite lookup_insert_eq, Hc. simpl. pose proof (core_nodup _ _ _ _ _ C Hc) as Hnd.
    apply list.NoDup_app in Hnd as (_ & Hx & Hy). apply list.NoDup_cons in Hy as [Hy _].
    rewrite list.filter_app, filter_cons_False by tauto. by rewrite !filter_ne_id by set_solver.
  - rewrite lookup_insert_ne by done. destruct (ct !! c') as [ps|] eqn:E; [|done]. simpl.
    rewrite filter_ne_id; [done|]. intros Hin. apply Hne.
    eapply core_one; [exact C|exact E|exact Hc|done|set_solver].
Qed.

(** An object outside all caches, and one in a cache. *)
Lemma core_free_obj ext ct st p o :
  core ext ct st → objs st !! p = Some o → ce_cache o = 0 → ∀ c ps, ct !! c = Some ps → p ∉ ps.
Proof.
  intros C Ho E c ps Hc Hin. destruct (core_mem _ _ _ C _ _ _ Hc Hin) as (x & Hx & Ex).
  eapply core_cache_ne; [exact C|by eexists|]. congruence.
Qed.

Lemma core_cached ext ct st p o :
  core ext ct st → objs st !! p = Some o → ce_cache o ≠ 0 →
  ∃ xs ys, ct !! ce_cache o = Some (xs ++ p :: ys).
Proof.
  intros C Ho E. destruct (core_own _ _ _ C _ _ Ho E) as (ps & Hps & Hin).
  apply list_elem_of_split in Hin as (xs & ys & ->). eauto.
Qed.

(** ** Removing an object *)

Lemma counts_insert ct st c ps k :
  counts ct st → caches st !! c = Some k → c_nitems k = zlen ps → counts (<[c := ps]> ct) st.
Proof.
  intros N Hk Hn c' ps' k'. destruct (decide (c' = c)) as [->|].
  - rewrite lookup_insert_eq. intros [= <-] Hk'. congruence.
  - rewrite lookup_insert_ne by done. apply N.
Qed.

(** Only the number of items changes. *)
Lemma core_nitems ext ct st c k n :
  core ext ct st → caches st !! c = Some k →
  core ext ct (set_caches (<[c := mkCache n (c_ops k)]> (caches st)) st).
Proof.
  intros [Hdc [N1 N2] Hl Hm Ho Hr Hdead Hn] Hk. split; simpl; try done.
  - rewrite Hdc, dom_insert_lookup_L; [done|by eexists].
  - split; [|done]. rewrite lookup_insert_ne; [done|congruence].
Qed.

Lemma typed_nitems st c k n :
  typed st → caches st !! c = Some k →
  typed (set_caches (<[c := mkCache n (c_ops k)]> (caches st)) st).
Proof.
  intros T Hk p o k' Ho. simpl. destruct (decide (ce_cache o = c)) as [E|E].
  - rewrite E, lookup_insert_eq. intros [= <-]. simpl. apply (T p o k Ho). by rewrite E.
  - rewrite lookup_insert_ne by done. by apply (T p o k').
Qed.

Lemma keeps_nitems st c k n :
  caches st !! c = Some k → keeps st (set_caches (<[c := mkCache n (c_ops k)]> (caches st)) st).
Proof.
  intros Hk. split; try done. unfold kinds. simpl. rewrite fmap_insert. simpl.
  rewrite insert_id; [done|]. by rewrite lookup_fmap, Hk.
Qed.

Lemma counts_nitems ct st c ps k :
  counts (delete c ct) st → caches st !! c = Some k →
  counts (<[c := ps]> ct) (set_caches (<[c := mkCache (zlen ps) (c_ops k)]> (caches st)) st).
Proof.
  intros N Hk c' ps' k'. simpl. destruct (decide (c' = c)) as [->|].
  - rewrite !lookup_insert_eq. by intros [= <-] [= <-].
  - rewrite !lookup_insert_ne by done. intros H1 H2. eapply N; [|done].
    by rewrite lookup_delete_ne by done.
Qed.

Lemma remove_ok ext ct st p :
  st_ok ext ct st → is_Some (objs st !! p) →
  rwp (nl_cache_remove p) (λ _ st', st_ok ext (without p ct) st' ∧ keeps st st') st.
Proof.
  intros [C N T] [o Ho]. unfold nl_cache_remove, remove_with.
  apply rwp_bind, (rwp_obj _ o); [done|]. destruct (Z.eqb_spec (ce_cache o) 0) as [E|E].
  { apply rwp_ret. rewrite (without_none ct); [by split|]. by eapply core_free_obj. }
  destruct (core_cached _ _ _ _ _ C Ho E) as (xs & ys & Hc). set (c := ce_cache o) in *.
  pose proof (core_list _ _ _ C _ _ Hc) as Hd. rewrite fmap_app, fmap_cons in Hd.
  destruct (list_del_ok _ _ _ _ _ Hd) as (h & Eh & Hd' & Hhp & Hf & Hdom). rewrite <- fmap_app in *.
  destruct (core_kind _ _ _ _ _ C Hc) as [k Hk].
  rewrite (without_one _ _ _ _ _ _ _ C Hc).
  apply rwp_bind, (rwp_heads _ h); [done|].
  apply rwp_bind, (rwp_upd _ o); [done|].
  set (st1 := set_objs (<[p := set_cache 0 o]> (objs st)) (set_hs h st)).
  assert (core (add_ref p 1 ext) (<[c := xs ++ ys]> ct) st1) as C1 by by eapply core_unlink.
  assert (typed st1) as T1.
  { intros q x k'. simpl. destruct (decide (q = p)) as [->|].
    - rewrite lookup_insert_eq. intros [= <-]. simpl. destruct (core_null _ _ _ C). congruence.
    - rewrite lookup_insert_ne by done. exact (T q x k'). }
  assert (keeps st st1) as K1.
  { split; [|done..]. unfold body. simpl. rewrite fmap_insert, insert_id; [done|].
    by rewrite lookup_fmap, Ho. }
  eapply rwp_seq; [eapply put_core; [exact C1|exact T1|]|].
  { unfold add_ref. rewrite Z.eqb_refl. destruct (core_ref _ _ _ C _ _ Ho). lia. }
  intros _ st2 (C2 & T2 & K2 & E2 & _). apply (rwp_nitems _ _ k); [by rewrite E2|].
  assert (caches st2 !! c = Some k) as Hk2 by by rewrite E2.
  assert (c_nitems k + -1 = zlen (xs ++ ys)) as Hn.
  { rewrite (N _ _ _ Hc Hk). unfold zlen. rewrite !length_app. simpl. lia. }
  split; [|etrans; [exact K1|etrans; [exact K2|by apply keeps_nitems]]].
  split; [|rewrite Hn; apply counts_nitems; [|done]|by apply typed_nitems].
  - apply core_nitems; [|done]. eapply core_ext; [|exact C2].
    intros q. unfold add_ref. destruct (q =? p); lia.
  - intros c' ps' k' [Hne H']%lookup_delete_Some. rewrite E2. by apply N.
Qed.
End Inv.
