(* ===== verification/CacheOps.v ===== *)
(** * The operations on caches keep the invariant

    What each operation of [lib/cache.c] does to the references held by users and to the
    contents of the caches. *)

From S2P Require Import Prelude Netlink NlError Recv NlList Objects Cache CacheInv.

Section Ops.
Context {D : Type} `{World D}.
Local Open Scope store_scope.

Implicit Types (st : store D) (ct : gmap Z (list Z)) (ext : Z → Z).

(** ** Adding an object *)

Lemma push_eq ct c ps p : ct !! c = Some ps → push c p ct = <[c := ps ++ [p]]> ct.
Proof.
  intros E. apply map_eq. intros c'. unfold push. destruct (decide (c' = c)) as [->|].
  - by rewrite lookup_alter_eq, E, lookup_insert_eq.
  - by rewrite lookup_alter_ne, lookup_insert_ne.
Qed.

(** A reference to an object outside all caches is handed over to a cache of its type. *)
Lemma cache_add_ok ext ct st c ps k p o :
  st_ok ext ct st → objs st !! p = Some o → ce_cache o = 0 → 0 < ext p →
  ct !! c = Some ps → caches st !! c = Some k → ce_ops o = co_obj_ops (cache_ops_at (c_ops k)) →
  rwp (__cache_add c p) (λ r st', r = 0 ∧ st_ok (add_ref p (-1) ext) (push c p ct) st' ∧
    keeps st st' ∧ body st' = body st) st.
Proof.
  intros [C N T] Ho E He Hc Hk Hty. unfold __cache_add. rewrite (push_eq _ _ _ _ Hc).
  apply rwp_bind, (rwp_upd _ o); [done|].
  destruct (add_tail_ok (hs st) (NHead c) (NObj <$> ps) (NObj p)) as (h & Eh & Hd & Hf & Hdom).
  { by eapply core_list. }
  { intros [?|Hin]%elem_of_cons; [done|]. apply list_elem_of_fmap in Hin as (q & [= <-] & Hq).
    by eapply core_free_obj. }
  { eapply core_node; [exact C|by eexists]. }
  apply rwp_bind, (rwp_heads _ h); [done|].
  apply rwp_bind, (rwp_nitems _ _ k); [done|]. apply rwp_ret. split; [done|].
  replace ((NObj <$> ps) ++ [NObj p]) with (NObj <$> (ps ++ [p])) in Hd by by rewrite fmap_app.
  pose proof (core_link _ _ _ _ _ _ _ _ C Ho E He Hc Hd Hf Hdom) as C1.
  set (st1 := set_hs h (set_objs (<[p := set_cache c o]> (objs st)) st)) in *.
  assert (typed st1) as T1.
  { intros q x k'. simpl. destruct (decide (q = p)) as [->|].
    - rewrite lookup_insert_eq. intros [= <-]. simpl. congruence.
    - rewrite lookup_insert_ne by done. exact (T q x k'). }
  assert (body st1 = body st) as B1.
  { unfold body. simpl. rewrite fmap_insert, insert_id; [done|]. by rewrite lookup_fmap, Ho. }
  assert (keeps st st1) as K1 by (split; [by rewrite B1|done..]).
  assert (caches st1 !! c = Some k) as Hk1 by done.
  assert (c_nitems k + 1 = zlen (ps ++ [p])) as Hn.
  { rewrite (N _ _ _ Hc Hk). unfold zlen. rewrite length_app. simpl. lia. }
  split; [|split; [etrans; [exact K1|by apply (keeps_nitems st1)]|done]].
  split; [by apply (core_nitems _ _ st1)| |by apply (typed_nitems st1)].
  rewrite Hn. apply (counts_nitems ct st1); [|done].
  intros c' ps' k' [Hne H']%lookup_delete_Some. by apply N.
Qed.

(** ** Allocation *)

(** [st'] is [st] with a new object at [p]. *)
Record grows (p : Z) (b : Z * Z * Z * Z * D) (st st' : store D) : Prop := {
  grows_fresh : body st !! p = None;
  grows_body : body st' = <[p := b]> (body st);
  grows_kinds : kinds st' = kinds st;
  grows_log : log st' = log st;
  grows_io : io st' = io st;
}.

Lemma core_alloc ext ct st p o :
  core ext ct st → p ≠ 0 → objs st !! p = None → ce_refcnt o = 1 → ce_cache o = 0 →
  core (add_ref p 1 ext) ct
    (mkStore (<[p := o]> (objs st)) (caches st) (nl_init_list_head (NObj p) (hs st)) (log st) (io st)).
Proof.
  intros C Hp0 Hnone Hrc Hcc. pose proof C as [Hdc [N1 N2] Hl Hm Ho Hr Hdead Hn].
  assert (∀ c ps, ct !! c = Some ps → p ∉ ps) as Hnot.
  { intros c ps Hc Hin. destruct (Hm c ps p Hc Hin) as (x & Hx & _). congruence. }
  split; simpl; try done.
  - by rewrite lookup_insert_ne by congruence.
  - intros c ps Hc. eapply dlist_frame; [by apply Hl|]. intros m Hin. unfold nl_init_list_head.
    rewrite lookup_insert_ne; [done|]. intros <-. apply elem_of_cons in Hin as [?|Hin]; [done|].
    apply list_elem_of_fmap in Hin as (q & [= <-] & Hq). by eapply Hnot.
  - intros c ps q Hc Hq. rewrite lookup_insert_ne; [eauto|]. intros <-. by eapply Hnot.
  - intros q x. destruct (decide (q = p)) as [->|]; [|rewrite lookup_insert_ne by done; eauto].
    rewrite lookup_insert_eq. intros [= <-]. by rewrite Hcc.
  - intros q x. unfold add_ref. destruct (Z.eqb_spec q p) as [->|].
    + rewrite lookup_insert_eq. intros [= <-]. rewrite Hrc, Hcc, (Hdead p Hnone). simpl. lia.
    + rewrite lookup_insert_ne by done. eauto.
  - intros q. unfold add_ref. destruct (Z.eqb_spec q p) as [->|]; [by rewrite lookup_insert_eq|].
    rewrite lookup_insert_ne by done. eauto.
  - intros q Hq. unfold nl_init_list_head. destruct (decide (q = p)) as [->|Hne].
    + rewrite lookup_insert_eq. by eexists.
    + rewrite lookup_insert_ne by congruence. apply Hn. by rewrite lookup_insert_ne in Hq by done.
Qed.

Lemma object_alloc_ok ext ct st a :
  calloc_ok → st_ok ext ct st →
  rwp (nl_object_alloc a) (λ p st',
    p = 0 ∧ st' = st ∨
    p ≠ 0 ∧ st_ok (add_ref p 1 ext) ct st' ∧
    grows p (a, 0, 0, 0, oo_constructor (obj_ops_at a)) st st' ∧
    objs st' !! p = Some (mkObj 1 a 0 0 0 0 (oo_constructor (obj_ops_at a))) ∧
    nl_list_empty (NObj p) (hs st') = Some true) st.
Proof.
  intros Hcalloc [C N T]. unfold rwp, nl_object_alloc. destruct (Z.eqb_spec (a_calloc st) 0) as [E|E]; [by left|].
  right. destruct (Hcalloc st) as [?|[Hn1 Hn2]]; [done|]. split; [done|].
  split; [split|split; [split|split]]; try done; simpl.
  - by apply core_alloc.
  - intros q x k. simpl. destruct (decide (q = a_calloc st)) as [->|].
    + rewrite lookup_insert_eq. intros [= <-]. simpl. destruct (core_null _ _ _ C). congruence.
    + rewrite lookup_insert_ne by done. exact (T q x k).
  - unfold body. by rewrite lookup_fmap, Hn1.
  - unfold body. simpl. by rewrite fmap_insert.
  - apply lookup_insert_eq.
  - unfold nl_list_empty, next, nl_init_list_head. rewrite lookup_insert_eq. simpl.
    by rewrite bool_decide_true.
Qed.

(** The types can be cloned: one whose payload owns memory has a function for it (otherwise
    [nl_object_clone] stops the program), which returns, and which, when it fails, has taken
    the source's pointers out of the copy. *)
Definition clonable : Prop :=
  ∀ a, match oo_clone (obj_ops_at a) with
       | None => oo_free_data (obj_ops_at a) = false
       | Some f => ∀ d, f d ≠ CloneBusy ∧ (f d = CloneErr true → oo_free_data (obj_ops_at a) = false)
       end.

(** What a clone of [o] has. *)
Definition cloned (o : nl_object D) (b : Z * Z * Z * Z * D) : Prop :=
  ∃ d, b = (ce_ops o, ce_msgtype o, 0, ce_mask o, d) ∧
    match oo_clone (obj_ops_at (ce_ops o)) with
    | Some f => f (ce_data o) = CloneOk d
    | None => d = ce_data o
    end.

Lemma grows_upd st st' p b o' :
  grows p b st st' → is_Some (objs st' !! p) →
  grows p (body_of o') st (set_objs (<[p := o']> (objs st')) st').
Proof.
  intros [F B K L I] Hp. split; try done. unfold body in *. simpl.
  by rewrite fmap_insert, B, insert_insert_eq.
Qed.

Lemma set_body_ok ext ct st q o m k d :
  st_ok ext ct st → objs st !! q = Some o →
  st_ok ext ct (set_objs (<[q := set_body m k d o]> (objs st)) st).
Proof.
  intros [C N T] Ho. split; [|done|by eapply typed_upd]. destruct (core_ref _ _ _ C _ _ Ho).
  eapply core_ext; [|eapply (core_upd _ _ _ _ o _ 0)]; try done; simpl; try lia.
  intros z. unfold add_ref. destruct (z =? q); lia.
Qed.

(** [nl_object_free] of a new object. *)
Lemma free_new_ok ext ct st st' q b :
  st_ok (add_ref q 1 ext) ct st' → grows q b st st' → st_ok ext ct st →
  (∃ o, objs st' !! q = Some o ∧ ce_cache o = 0) →
  rwp (nl_object_free q) (λ _ st'', st_ok ext ct st'' ∧ keeps st st'' ∧ body st'' = body st) st'.
Proof.
  intros [C' N' T'] [F B K L I] [C N T] (o & Ho & E).
  assert (ext q = 0) as He.
  { eapply core_dead; [exact C|]. unfold body in F. rewrite lookup_fmap in F. by destruct (objs st !! q). }
  unfold nl_object_free. cbn [object_free]. apply rwp_bind, (rwp_obj _ o); [done|].
  rewrite E. apply rwp_bind, rwp_ret. unfold rwp, free_obj. rewrite Ho.
  match goal with |- st_ok _ _ ?x ∧ _ => assert (body x = body st) as Eb end.
  { unfold body in *. simpl. by rewrite fmap_delete, B, delete_insert_id. }
  split; [split; [|done|]|split; [split; try done; by rewrite Eb|done] ].
  - eapply core_ext; [|by eapply core_delete]. intros z. unfold add_ref. simpl.
    destruct (Z.eqb_spec z q) as [->|]; lia.
  - intros z x k. simpl. intros [_ Hz]%lookup_delete_Some. exact (T' z x k Hz).
Qed.

Lemma clone_ok ext ct st p o :
  calloc_ok → clonable → st_ok ext ct st → objs st !! p = Some o →
  rwp (nl_object_clone p) (λ q st',
    q = 0 ∧ st_ok ext ct st' ∧ keeps st st' ∨
    q ≠ 0 ∧ st_ok (add_ref q 1 ext) ct st' ∧ (∃ b, grows q b st st' ∧ cloned o b) ∧
    ∃ o', objs st' !! q = Some o' ∧ ce_cache o' = 0 ∧ ce_ops o' = ce_ops o) st.
Proof.
  intros Hca Hcl Hok Ho. unfold nl_object_clone. apply rwp_bind, (rwp_obj _ o); [done|].
  eapply rwp_seq; [by eapply object_alloc_ok|]. cbn beta. intros q st1 [ [-> ->]|(Hq & Hok1 & G1 & Hq1 & _)].
  { by left. }
  apply Z.eqb_neq in Hq as Eq. rewrite Eq. set (x := mkObj 1 _ _ _ _ _ _) in Hq1.
  apply rwp_bind, (rwp_upd _ x); [done|]. set (st2 := set_objs _ _).
  assert (∀ d, cloned o (body_of (set_body (ce_msgtype o) (ce_mask o) d x)) →
    let st3 := set_objs (<[q := set_body (ce_msgtype o) (ce_mask o) d x]> (objs st1)) st1 in
    st_ok (add_ref q 1 ext) ct st3 ∧ (∃ b, grows q b st st3 ∧ cloned o b) ∧
    ∃ o', objs st3 !! q = Some o' ∧ ce_cache o' = 0 ∧ ce_ops o' = ce_ops o) as Hset.
  { intros d Hd st3. split; [by apply set_body_ok|]. split; [|by eexists; split; [apply lookup_insert_eq|]].
    eexists. split; [by eapply grows_upd; [exact G1|eexists]|done]. }
  specialize (Hcl (ce_ops o)). destruct (oo_clone (obj_ops_at (ce_ops o))) as [f|] eqn:Ef.
  - destruct (Hcl (ce_data o)) as [Hb Hs]. destruct (f (ce_data o)) as [d|sh|] eqn:Ed; [| |done].
    + apply rwp_bind. eapply rwp_upd; [apply lookup_insert_eq|]. apply rwp_ret. right. split; [done|].
      unfold st2, set_objs. cbn [objs caches hs log io]. rewrite insert_insert_eq.
      apply (Hset d). exists d. by rewrite Ef.
    + assert (sh && oo_free_data (obj_ops_at (ce_ops o)) = false) as -> by (destruct sh; [by rewrite Hs|done]).
      assert (grows q (body_of (set_body (ce_msgtype o) (ce_mask o) (ce_data o) x)) st st2) as G2
        by by eapply grows_upd; [exact G1|eexists].
      eapply rwp_seq; [eapply free_new_ok; [by apply set_body_ok|exact G2|done|]|].
      { eexists. split; [apply lookup_insert_eq|done]. }
      intros [] st3 (? & ? & _). left. done.
  - rewrite Hcl. apply rwp_ret. right.
    split; [done|]. apply Hset. exists (ce_data o). by rewrite Ef.
Qed.

(** ** [nl_cache_add] and [nl_cache_move] *)

(** A list head that is linked to itself is in no list. *)
Lemma linked_not_empty ext ct st p o :
  core ext ct st → objs st !! p = Some o → nl_list_empty (NObj p) (hs st) = Some true →
  ce_cache o = 0.
Proof.
  intros C Ho He. destruct (Z.eq_dec (ce_cache o) 0) as [|E]; [done|].
  destruct (core_cached _ _ _ _ _ C Ho E) as (xs & ys & Hc).
  pose proof (core_list _ _ _ C _ _ Hc) as Hd. rewrite fmap_app, fmap_cons in Hd.
  unfold nl_list_empty in He. rewrite (list_next _ _ _ _ _ Hd) in He. cbn in He.
  pose proof (core_nodup _ _ _ _ _ C Hc) as Hnd. apply list.NoDup_app in Hnd as (_ & _ & Hnd).
  destruct ys as [|y ys]; [done|]. simpl in He.
  destruct (decide (y = p)) as [->|Hne]; [|by rewrite bool_decide_false in He by congruence].
  apply list.NoDup_cons in Hnd as [Hnd _]. set_solver.
Qed.

Lemma list_empty_total st p : is_Some (hs st !! NObj p) → ∃ e, nl_list_empty (NObj p) (hs st) = Some e.
Proof. intros [x Hx]. unfold nl_list_empty, next. rewrite Hx. by eexists. Qed.

(** The objects and the caches after an operation that keeps them. *)
Lemma body_obj st st' p o o' :
  body st' ⊆ body st → objs st !! p = Some o → objs st' !! p = Some o' → body_of o' = body_of o.
Proof.
  intros K Ho Ho'. assert (body st' !! p = Some (body_of o')) as Hb
    by (unfold body; by rewrite lookup_fmap, Ho').
  eapply lookup_weaken in Hb; [|exact K]. unfold body in Hb. rewrite lookup_fmap, Ho in Hb.
  by injection Hb as ? ? ? ? ?; unfold body_of; congruence.
Qed.

Lemma kinds_cache st st' c k :
  kinds st' = kinds st → caches st !! c = Some k → ∃ k', caches st' !! c = Some k' ∧ c_ops k' = c_ops k.
Proof.
  intros Ek Hk. apply (f_equal (lookup c)) in Ek. unfold kinds in Ek.
  rewrite !lookup_fmap, Hk in Ek. destruct (caches st' !! c) as [k1|]; [|done].
  injection Ek as Ek. eauto.
Qed.

(** An object to which a reference is held is there. *)
Lemma held_obj ext ct st p : core ext ct st → 0 < ext p → ∃ o, objs st !! p = Some o.
Proof. intros C He. apply (core_live _ _ _ p C). by left. Qed.

Lemma grows_none p b st st' : grows p b st st' → objs st !! p = None.
Proof. intros [F _ _ _ _]. unfold body in F. rewrite lookup_fmap in F. by destruct (objs st !! p). Qed.

Lemma grows_same p b st st' st'' :
  grows p b st st' → keeps st' st'' → body st'' = body st' → grows p b st st''.
Proof. intros [F B K L I] [_ K' L' I'] B'. split; congruence. Qed.

(** Adding [p], to which a reference was just taken for the cache. *)
Lemma add_held ext ct st c ps k p o :
  st_ok (add_ref p 1 ext) ct st → objs st !! p = Some o → ce_cache o = 0 → 0 ≤ ext p →
  ct !! c = Some ps → caches st !! c = Some k → ce_ops o = co_obj_ops (cache_ops_at (c_ops k)) →
  rwp (__cache_add c p) (λ r st', r = 0 ∧ st_ok ext (push c p ct) st' ∧ keeps st st' ∧
    body st' = body st) st.
Proof.
  intros Hok Ho E He Hc Hk Ht. eapply rwp_mono; [eapply cache_add_ok; try done|].
  { unfold add_ref. rewrite Z.eqb_refl. lia. }
  intros r st' (-> & Hok' & K & B). split; [done|]. split; [|done].
  eapply st_ok_ext; [|exact Hok']. intros z. unfold add_ref. destruct (z =? p); lia.
Qed.

(** The object itself is added when it was never in a list, a clone of it otherwise. *)
Lemma nl_cache_add_ok ext ct st c ps k p o :
  calloc_ok → nl_list_empty (NObj p) (hs st) = Some true ∨ clonable → st_ok ext ct st →
  objs st !! p = Some o → ct !! c = Some ps → caches st !! c = Some k →
  rwp (nl_cache_add c p) (λ r st',
    r < 0 ∧ st_ok ext ct st' ∧ keeps st st' ∧
      (co_obj_ops (cache_ops_at (c_ops k)) ≠ ce_ops o ∨ nl_list_empty (NObj p) (hs st) = Some false) ∨
    r = 0 ∧ st_ok ext (push c p ct) st' ∧ keeps st st' ∧
      nl_list_empty (NObj p) (hs st) = Some true ∨
    r = 0 ∧ nl_list_empty (NObj p) (hs st) = Some false ∧
      ∃ q b, q ≠ 0 ∧ st_ok ext (push c q ct) st' ∧ grows q b st st' ∧ cloned o b) st.
Proof.
  intros Hca Hcl Hok Ho Hc Hk. unfold nl_cache_add.
  apply rwp_bind, (rwp_cache _ k); [done|]. apply rwp_bind, (rwp_obj _ o); [done|].
  destruct (Z.eqb_spec (co_obj_ops (cache_ops_at (c_ops k))) (ce_ops o)) as [Et|Et]; cbn [negb];
    [|left; split; [done|]; split; [done|]; split; [done|by left] ].
  destruct (list_empty_total st p) as [e He]; [eapply core_node; [apply Hok|by eexists]|].
  destruct (core_ref _ _ _ Hok _ _ Ho) as [He0 _].
  apply rwp_bind, (rwp_ask _ e); [done|]. destruct e; cbn [negb].
  - eapply rwp_seq; [eapply get_ok; [done|by eexists]|]. intros [] st1 (Hok1 & K1 & Eh & Ec).
    destruct (held_obj _ _ _ p (ok_core _ _ _ Hok1)) as [o1 Ho1].
    { unfold add_ref. rewrite Z.eqb_refl. lia. }
    pose proof (body_obj _ _ _ _ _ (keeps_body _ _ K1) Ho Ho1) as [= E2 _ _ _ _].
    eapply rwp_mono; [eapply add_held; [exact Hok1|exact Ho1| |done|exact Hc|by rewrite Ec|congruence]|].
    { eapply linked_not_empty; [apply Hok1|done|by rewrite Eh]. }
    intros r st2 (-> & Hok2 & K2 & _). right; left. split; [done|]. split; [done|]. split; [by etrans|done].
  - destruct Hcl as [Hcl|Hcl]; [congruence|]. eapply rwp_seq; [by eapply clone_ok|].
    intros q st1 [(-> & Hok1 & K1)|(Hq & Hok1 & (b & G & Hb) & o1 & Ho1 & E1 & E2)];
      [left; split; [done|]; split; [done|]; split; [done|by right]|].
    apply Z.eqb_neq in Hq as Eq. rewrite Eq.
    destruct (kinds_cache _ _ _ _ (grows_kinds _ _ _ _ G) Hk) as (k1 & Hk1 & Ek1).
    eapply rwp_mono; [eapply add_held; [exact Hok1|exact Ho1|done| |exact Hc|exact Hk1|congruence]|].
    { rewrite (core_dead _ _ _ Hok q); [done|]. by eapply grows_none. }
    intros r st2 (-> & Hok2 & K2 & B2). right; right. split; [done|]. split; [done|]. exists q, b. split; [done|].
    split; [done|]. split; [by eapply grows_same|done].
Qed.

(** The object leaves the cache it was in, and goes to the end of the new one. *)
Lemma nl_cache_move_ok ext ct st c k p o :
  st_ok ext ct st → objs st !! p = Some o → is_Some (ct !! c) → caches st !! c = Some k →
  rwp (nl_cache_move c p) (λ r st',
    if co_obj_ops (cache_ops_at (c_ops k)) =? ce_ops o
    then r = 0 ∧ st_ok ext (push c p (without p ct)) st' ∧ keeps st st'
    else r = - NLE_OBJ_MISMATCH ∧ st' = st) st.
Proof.
  intros Hok Ho [ps Hc] Hk. unfold nl_cache_move.
  apply rwp_bind, (rwp_cache _ k); [done|]. apply rwp_bind, (rwp_obj _ o); [done|].
  destruct (Z.eqb_spec (co_obj_ops (cache_ops_at (c_ops k))) (ce_ops o)) as [Et|Et]; [|done]. cbn [negb].
  destruct (core_ref _ _ _ Hok _ _ Ho) as [He0 _].
  eapply rwp_seq; [eapply get_ok; [done|by eexists]|]. intros [] st1 (Hok1 & K1 & Eh & Ec).
  destruct (held_obj _ _ _ p (ok_core _ _ _ Hok1)) as [o1 Ho1].
  { unfold add_ref. rewrite Z.eqb_refl. lia. }
  destruct (list_empty_total st1 p) as [e He]; [eapply core_node; [apply Hok1|by eexists]|].
  apply rwp_bind, (rwp_ask _ e); [done|].
  eapply (rwp_seq _ _ (λ _ st2, st_ok (add_ref p 1 ext) (without p ct) st2 ∧ keeps st1 st2)).
  { destruct e; cbn [negb]; [|eapply remove_ok; [done|by eexists]].
    apply rwp_ret. split; [|done]. rewrite without_none; [done|].
    eapply core_free_obj; [apply Hok1|done|]. eapply linked_not_empty; [apply Hok1|done..]. }
  intros [] st2 (Hok2 & K2). assert (keeps st st2) as K by by etrans.
  destruct (held_obj _ _ _ p (ok_core _ _ _ Hok2)) as [o2 Ho2].
  { unfold add_ref. rewrite Z.eqb_refl. lia. }
  pose proof (body_obj _ _ _ _ _ (keeps_body _ _ K) Ho Ho2) as [= E2 _ _ _ _].
  destruct (kinds_cache _ _ _ _ (keeps_kinds _ _ K) Hk) as (k2 & Hk2 & Ek2).
  eapply rwp_mono; [eapply (add_held _ _ _ _ (filter (λ q, q ≠ p) ps)); [exact Hok2|exact Ho2| |done| |exact Hk2|congruence]|].
  - destruct (Z.eq_dec (ce_cache o2) 0) as [|En]; [done|].
    destruct (core_own _ _ _ Hok2 _ _ Ho2 En) as (l & Hl & Hin). unfold without in Hl.
    rewrite lookup_fmap in Hl. destruct (ct !! ce_cache o2); [|done]. injection Hl as <-.
    apply list_elem_of_filter in Hin as [Hne _]. done.
  - unfold without. by rewrite lookup_fmap, Hc.
  - intros r st3 (-> & Hok3 & K3 & _). split; [done|]. split; [done|by etrans].
Qed.
End Ops.
