(* ===== verification/CacheLoop.v ===== *)
(** * Loops over caches, and the operations that are loops

    The two loop macros of [list.h], and the operations of [lib/cache.c] that use them:
    clearing and freeing a cache, searching it, and including an object into it. *)

From S2P Require Import Prelude Netlink NlError Recv NlList Objects Cache CacheInv CacheOps.

Section Loop.
Context {D : Type} `{World D}.
Local Open Scope store_scope.

Implicit Types (st : store D) (ct : gmap Z (list Z)) (ext : Z → Z).

(** ** The loops *)

(** The fuel of the loops is enough. *)
Lemma dlist_size h hd xs : dlist h hd xs → (length xs < size h)%nat.
Proof.
  intros Hd. pose proof Hd as [Hnd _].
  assert (size (list_to_set (hd :: xs) : gset node) ≤ size (dom h))%nat as Hs.
  { apply subseteq_size. intros x Hx. apply elem_of_list_to_set in Hx. apply elem_of_dom.
    by eapply dlist_live. }
  rewrite size_list_to_set in Hs by done. rewrite size_dom in Hs. simpl in Hs. lia.
Qed.

(** The list head from which the loop goes on. *)
Definition front (c : Z) (ys : list Z) : node := match ys with y :: _ => NObj y | [] => NHead c end.

Lemma front_fmap c ys : match NObj <$> ys with y :: _ => y | [] => NHead c end = front c ys.
Proof. by destruct ys. Qed.

Section Rules.
Context (c : Z) (I : list Z → list Z → store D → Prop).
Context (HI : ∀ xs ys st, I xs ys st → dlist (hs st) (NHead c) (NObj <$> (xs ++ ys))).

Lemma next_front xs p ys st : I xs (p :: ys) st → next (hs st) (NObj p) = Some (front c ys).
Proof.
  intros HIs. pose proof (HI _ _ _ HIs) as Hd. rewrite fmap_app, fmap_cons in Hd.
  by rewrite (list_next _ _ _ _ _ Hd), front_fmap.
Qed.

Lemma first_front ys st : I [] ys st → next (hs st) (NHead c) = Some (front c ys).
Proof. intros HIs. by rewrite (list_first _ _ _ (HI _ _ _ HIs)), front_fmap. Qed.

(** After [p], which may have left the list, the loop goes on at the front of the rest. *)
Lemma after_front xs ys st :
  I xs ys st → is_Some (next (hs st) (front c ys)) ∧
    ∀ y ys', ys = y :: ys' → next (hs st) (front c ys) = Some (front c ys').
Proof.
  intros HIs. destruct ys as [|y ys]; [|split; [|intros ? ? [= <- <-]; by eapply next_front]].
  - cbn [front]. split; [|done]. rewrite (list_first _ _ _ (HI _ _ _ HIs)). by eexists.
  - simpl. rewrite (next_front _ _ _ _ HIs). by eexists.
Qed.

Lemma for_each_ok {A} (body : Z → R D (option A)) (Q : option A → store D → Prop) fuel xs ys st :
  (∀ xs p ys st, I xs (p :: ys) st →
     rwp (body p) (λ r st', match r with Some a => Q (Some a) st' | None => I (xs ++ [p]) (ys) st' end) st) →
  (∀ xs st, I xs [] st → Q None st) →
  I xs ys st → (length ys < fuel)%nat → rwp (for_each fuel (NHead c) (front c ys) body) Q st.
Proof.
  intros Hb Hq. revert xs ys st. induction fuel as [|fuel IH]; intros xs ys st HIs Hf; [lia|].
  destruct ys as [|p ys]; cbn [for_each front].
  { rewrite decide_True by done. apply rwp_ret. by eapply Hq. }
  rewrite decide_False by done. eapply rwp_seq; [by eapply Hb|].
  intros [a|] st' Hst'; [done|]. pose proof Hst' as HI'.
  pose proof (HI _ _ _ Hst') as Hd. rewrite <- app_assoc, fmap_app in Hd. cbn [app fmap list_fmap] in Hd.
  apply rwp_bind, (rwp_ask _ (front c ys)).
  { by rewrite (list_next _ _ _ _ _ Hd), front_fmap. }
  eapply IH; [exact Hst'|]. simpl in Hf. lia.
Qed.

Lemma each_entry_ok {A} (body : Z → R D (option A)) (Q : option A → store D → Prop) ps st :
  (∀ xs p ys st, I xs (p :: ys) st →
     rwp (body p) (λ r st', match r with Some a => Q (Some a) st' | None => I (xs ++ [p]) ys st' end) st) →
  (∀ xs st, I xs [] st → Q None st) →
  I [] ps st → rwp (each_entry c body) Q st.
Proof.
  intros Hb Hq HIs. pose proof (dlist_size _ _ _ (HI _ _ _ HIs)) as Hs. rewrite length_fmap in Hs.
  unfold each_entry, rwp. apply rwp_bind, (rwp_ask _ (front c ps)); [by apply first_front|].
  eapply for_each_ok; [done|done|exact HIs|]. simpl in Hs. lia.
Qed.

Lemma for_each_safe_ok (body : Z → R D unit) fuel xs ys n st :
  (∀ xs p ys st, I xs (p :: ys) st → rwp (body p) (λ _ st', ∃ xs', I xs' ys st') st) →
  I xs ys st → (∀ y ys', ys = y :: ys' → n = front c ys') → (length ys < fuel)%nat →
  rwp (for_each_safe fuel (NHead c) (front c ys) n body) (λ _ st', ∃ xs', I xs' [] st') st.
Proof.
  intros Hb. revert xs ys n st. induction fuel as [|fuel IH]; intros xs ys n st HIs Hn Hf; [lia|].
  destruct ys as [|p ys]; cbn [for_each_safe front].
  { rewrite decide_True by done. apply rwp_ret. by exists xs. }
  rewrite decide_False by done. rewrite (Hn p ys eq_refl).
  eapply rwp_seq; [by eapply Hb|]. intros [] st' (xs' & HI').
  destruct (after_front _ _ _ HI') as [ [n' Hn'] Hy].
  apply rwp_bind, (rwp_ask _ n'); [done|]. eapply IH; [exact HI'| |simpl in Hf; lia].
  intros y ys' ->. specialize (Hy y ys' eq_refl). congruence.
Qed.

Lemma each_entry_safe_ok (body : Z → R D unit) ps st :
  (∀ xs p ys st, I xs (p :: ys) st → rwp (body p) (λ _ st', ∃ xs', I xs' ys st') st) →
  I [] ps st → rwp (each_entry_safe c body) (λ _ st', ∃ xs', I xs' [] st') st.
Proof.
  intros Hb HIs. pose proof (dlist_size _ _ _ (HI _ _ _ HIs)) as Hs. rewrite length_fmap in Hs.
  unfold each_entry_safe, rwp. apply rwp_bind, (rwp_ask _ (front c ps)); [by apply first_front|].
  destruct (after_front _ _ _ HIs) as [ [n Hn] Hy].
  apply rwp_bind, (rwp_ask _ n); [done|].
  eapply for_each_safe_ok; [done|exact HIs| |simpl in Hs; lia].
  intros y ys' ->. specialize (Hy y ys' eq_refl). congruence.
Qed.
End Rules.

(** ** Creating, clearing and freeing caches *)

Lemma cache_alloc_ok ext ct st a :
  calloc_ok → st_ok ext ct st →
  rwp (nl_cache_alloc a) (λ c st',
    c = 0 ∧ a_calloc st = 0 ∧ st' = st ∨
    c ≠ 0 ∧ ct !! c = None ∧ objs st' = objs st ∧ st_ok ext (<[c := []]> ct) st' ∧
    kinds st' = <[c := a]> (kinds st) ∧ log st' = log st ∧ io st' = io st) st.
Proof.
  intros Ha [C N T]. unfold rwp, nl_cache_alloc. destruct (Z.eqb_spec (a_calloc st) 0) as [E|E]; [by left|].
  set (c := a_calloc st) in *. right. destruct (Ha st) as [?|[Hn1 Hn2]]; [done|]. fold c in Hn1, Hn2.
  pose proof C as [Hdc [Z1 Z2] Hl Hm Ho Hr Hdead Hn].
  assert (ct !! c = None) as Hc.
  { apply not_elem_of_dom. rewrite Hdc. by apply not_elem_of_dom. }
  split; [done|]. split; [done|]. split; [done|].
  split; [|split; [unfold kinds; simpl; by rewrite fmap_insert|done]].
  split; [split|..]; simpl; try done.
  - by rewrite !dom_insert_L, Hdc.
  - by rewrite lookup_insert_ne by congruence.
  - intros c' ps'. destruct (decide (c' = c)) as [->|Hne].
    + rewrite lookup_insert_eq. intros [= <-]. apply init_list_ok.
    + rewrite lookup_insert_ne by done. intros H'. eapply dlist_frame; [by apply Hl|].
      intros m Hin. unfold nl_init_list_head. rewrite lookup_insert_ne; [done|]. intros <-.
      apply elem_of_cons in Hin as [?|Hin]; [congruence|].
      by apply list_elem_of_fmap in Hin as (q & ? & _).
  - intros c' ps' q. destruct (decide (c' = c)) as [->|Hne].
    + rewrite lookup_insert_eq. intros [= <-]. set_solver.
    + rewrite lookup_insert_ne by done. apply Hm.
  - intros p o H1 H2. destruct (Ho p o H1 H2) as (ps & Hps & Hin). exists ps. split; [|done].
    rewrite lookup_insert_ne; congruence.
  - intros q Hq. unfold nl_init_list_head. rewrite lookup_insert_ne by done. by apply Hn.
  - intros c' ps' k'. simpl. destruct (decide (c' = c)) as [->|Hne].
    + rewrite !lookup_insert_eq. by intros [= <-] [= <-].
    + rewrite !lookup_insert_ne by done. apply N.
  - intros p o k H1. simpl. rewrite lookup_insert_ne; [by apply (T p)|]. intros Ec.
    destruct (Ho p o H1) as (ps & Hps & _); [congruence|]. congruence.
Qed.

Lemma clear_ok ext ct st c ps :
  st_ok ext ct st → ct !! c = Some ps →
  rwp (nl_cache_clear c) (λ _ st', st_ok ext (<[c := []]> ct) st' ∧ keeps st st') st.
Proof.
  intros Hok Hc. unfold nl_cache_clear.
  set (I (xs ys : list Z) (st' : store D) := xs = [] ∧ st_ok ext (<[c := ys]> ct) st' ∧ keeps st st').
  eapply rwp_mono; [eapply (each_entry_safe_ok c I) with (ps := ps)|].
  - intros xs ys st' (-> & Hok' & _). eapply core_list; [apply Hok'|]. apply lookup_insert_eq.
  - intros xs p ys st' (-> & Hok' & K). 
    assert (<[c := p :: ys]> ct !! c = Some ([] ++ p :: ys)) as Hl by apply lookup_insert_eq.
    eapply rwp_mono; [eapply remove_ok; [exact Hok'|]|].
    + destruct (core_mem _ _ _ Hok' _ _ p Hl) as (o & Ho & _); [set_solver|by eexists].
    + intros _ st'' (Hok'' & K'). exists []. split; [done|]. split; [|by etrans].
      by rewrite (without_one _ _ _ _ _ [] ys (ok_core _ _ _ Hok') Hl), insert_insert_eq in Hok''.
  - split; [done|]. by rewrite insert_id.
  - intros _ st' (xs' & _ & Hok' & K). done.
Qed.

Lemma cache_free_ok ext ct st c ps :
  st_ok ext ct st → ct !! c = Some ps →
  rwp (nl_cache_free c) (λ _ st', st_ok ext (delete c ct) st' ∧ body st' ⊆ body st ∧
    kinds st' = delete c (kinds st) ∧ log st' = log st ∧ io st' = io st) st.
Proof.
  intros Hok Hc. unfold nl_cache_free. assert (c ≠ 0) as Hc0.
  { eapply core_cache_ne; [apply Hok|by eexists]. }
  apply Z.eqb_neq in Hc0 as Ec. rewrite Ec.
  eapply rwp_seq; [by eapply clear_ok|]. intros [] st1 ([C N T] & [K1 K2 K3 K4]).
  destruct (core_kind _ _ _ c [] C) as [k Hk]; [apply lookup_insert_eq|].
  pose proof C as [Hdc [Z1 Z2] Hl Hm Ho Hr Hdead Hn].
  unfold rwp, free_cache. rewrite Hk. split; [|split; [done|split; [|done]]].
  2:{ unfold kinds in *. simpl. by rewrite fmap_delete, K2. }
  assert (∀ p o, objs st1 !! p = Some o → ce_cache o ≠ c) as Hno.
  { intros p o Hp E. destruct (Ho p o Hp) as (l & Hl' & Hin); [congruence|].
    rewrite E, lookup_insert_eq in Hl'. injection Hl' as <-. set_solver. }
  assert (∀ c' ps', delete c ct !! c' = Some ps' → c' ≠ c ∧ <[c := []]> ct !! c' = Some ps') as Hdel.
  { intros c' ps' [Hne H']%lookup_delete_Some. split; [done|]. by rewrite lookup_insert_ne. }
  split; [split|..]; simpl; try done.
  - rewrite !dom_delete_L, <- Hdc, dom_insert_L. set_solver.
  - split; [|done]. by rewrite lookup_delete_ne.
  - intros c' ps' [Hne H']%Hdel. eapply dlist_frame; [by apply Hl|]. intros m Hin.
    rewrite lookup_delete_ne; [done|]. intros <-. apply elem_of_cons in Hin as [?|Hin]; [congruence|].
    by apply list_elem_of_fmap in Hin as (q & ? & _).
  - intros c' ps' q [Hne H']%Hdel. by apply Hm.
  - intros p o H1 H2. destruct (Ho p o H1 H2) as (l & Hl' & Hin). exists l. split; [|done].
    pose proof (Hno p o H1). rewrite lookup_insert_ne in Hl' by done. by rewrite lookup_delete_ne by done.
  - intros q Hq. rewrite lookup_delete_ne by done. by apply Hn.
  - intros c' ps' k' [Hne H']%Hdel. simpl. rewrite lookup_delete_ne by done. by apply N.
  - intros p o k' H1. simpl. intros [_ H2]%lookup_delete_Some. by apply (T p).
Qed.
End Loop.
