(* ===== verification/CacheSync.v ===== *)
(** * Searching a cache, including objects into it, dropping outdated ones

    The steps of [nl_cache_resync], described by what they do to the contents of the cache
    and by the calls of the change callback. *)

From S2P Require Import Prelude Netlink NlError Recv NlList Objects Cache CacheInv CacheOps CacheLoop.

Section Sync.
Context {D : Type} `{World D}.
Local Open Scope store_scope.

Implicit Types (st : store D) (ct : gmap Z (list Z)) (ext : Z → Z).

(** ** What a user sees: the bodies of the objects, and the calls of the callback *)

(** [st'] comes after [st]: no object changed, and the callback was called with [l]. *)
Record evolves (l : list (Z * Z * nl_act)) (st st' : store D) : Prop := {
  ev_body : body st' ⊆ body st;
  ev_kinds : kinds st' = kinds st;
  ev_log : log st' = log st ++ l;
  ev_io : io st' = io st;
}.

Lemma keeps_evolves st st' : keeps st st' → evolves [] st st'.
Proof. intros [B K L I]. split; [done|done|by rewrite app_nil_r|done]. Qed.

Lemma evolves_trans l1 l2 st1 st2 st3 :
  evolves l1 st1 st2 → evolves l2 st2 st3 → evolves (l1 ++ l2) st1 st3.
Proof.
  intros [B1 K1 L1 I1] [B2 K2 L2 I2]. split; [by etrans|congruence| |congruence].
  by rewrite L2, L1, app_assoc.
Qed.

Lemma evolves_keeps l st1 st2 st3 : evolves l st1 st2 → keeps st2 st3 → evolves l st1 st3.
Proof.
  intros E K%keeps_evolves. rewrite <- (app_nil_r l). by eapply evolves_trans.
Qed.

Lemma keeps_evolves_trans l st1 st2 st3 : keeps st1 st2 → evolves l st2 st3 → evolves l st1 st3.
Proof. intros K%keeps_evolves E. by eapply (evolves_trans []). Qed.

(** The call of the callback. *)
Definition called (cb : bool) (c p : Z) (act : nl_act) : list (Z * Z * nl_act) :=
  if cb then [(c, p, act)] else [].

Lemma change_ok ext ct st cb c p act :
  st_ok ext ct st →
  rwp (change cb c p act) (λ _ st', st_ok ext ct st' ∧ evolves (called cb c p act) st st' ∧
    objs st' = objs st) st.
Proof.
  intros Hok. unfold rwp, change, called. destruct cb.
  - destruct Hok as [ [? ? ? ? ? ? ? ?] N T]. by split; [split; [split|..]|split; [split|]].
  - split; [done|]. split; [|done]. by apply keeps_evolves.
Qed.

(** ** Identity *)

(** [nl_object_identical] on bodies. *)
Definition same_id (x y : Z * Z * Z * Z * D) : bool :=
  let '(ops, mt, fl, mk, d) := x in
  let '(ops', mt', fl', mk', d') := y in
  identical (mkObj 0 ops 0 mt fl mk d) (mkObj 0 ops' 0 mt' fl' mk' d').

Lemma same_id_ok o o' : same_id (body_of o) (body_of o') = identical o o'.
Proof. done. Qed.

(** Is the object at [p] identical to the one at [q]? *)
Definition twin st (q p : Z) : bool :=
  match body st !! p, body st !! q with
  | Some x, Some y => same_id x y
  | _, _ => false
  end.

Lemma body_lookup st p o : objs st !! p = Some o → body st !! p = Some (body_of o).
Proof. intros Ho. unfold body. by rewrite lookup_fmap, Ho. Qed.

(** The result of a search: the first identical object, or NULL; a found object gets a
    reference. *)
Definition found st (needle : Z) (ps : list Z) : Z := default 0 (List.find (twin st needle) ps).
Definition hold (p : Z) (ext : Z → Z) : Z → Z := if p =? 0 then ext else add_ref p 1 ext.

Lemma find_app {A} (f : A → bool) xs ys :
  List.find f (xs ++ ys) = match List.find f xs with Some x => Some x | None => List.find f ys end.
Proof. induction xs as [|x xs IH]; [done|]. simpl. by destruct (f x). Qed.

(** A loop that returns the first object with the property [P], with a reference. *)
Lemma first_ok ext ct st c ps (P : Z → bool) (body : Z → R D (option Z)) :
  st_ok ext ct st → ct !! c = Some ps →
  (∀ p Q, p ∈ ps → (if P p then rwp (nl_object_get p ;; rret (Some p)) Q st else Q None st) → rwp (body p) Q st) →
  rwp (r <- each_entry c body ;; rret (default 0 r)) (λ r st',
    r = default 0 (List.find P ps) ∧ st_ok (hold r ext) ct st' ∧ keeps st st' ∧ (r = 0 ∨ r ∈ ps)) st.
Proof.
  intros Hok Hc Hb.
  set (I (xs ys : list Z) (st' : store D) := st' = st ∧ ps = xs ++ ys ∧ List.find P xs = None).
  set (Q (r : option Z) (st' : store D) := default 0 r = default 0 (List.find P ps) ∧
    st_ok (hold (default 0 r) ext) ct st' ∧ keeps st st' ∧ (default 0 r = 0 ∨ default 0 r ∈ ps)).
  eapply (rwp_seq _ _ Q); [eapply (each_entry_ok c I) with (ps := ps)|].
  - intros xs ys st' (-> & -> & _). by eapply core_list; [apply Hok|].
  - intros xs p ys st' (-> & Eps & Hno).
    assert (p ∈ ps) as Hp by (rewrite Eps; set_solver). apply (Hb p _ Hp).
    destruct (core_mem _ _ _ Hok _ _ p Hc Hp) as (o & Ho & _). destruct (P p) eqn:Et.
    + eapply rwp_seq; [eapply get_ok; [exact Hok|by eexists]|]. intros [] st1 (Hok1 & K1 & _).
      apply rwp_ret. unfold Q. cbn [default]. rewrite Eps, find_app, Hno. simpl. rewrite Et.
      split; [done|]. split; [|split; [done|right; set_solver]]. unfold hold. destruct (Z.eqb_spec p 0) as [->|]; [|done].
      destruct (core_null _ _ _ Hok). congruence.
    + split; [done|]. split; [by rewrite <- app_assoc|]. rewrite find_app, Hno. simpl. by rewrite Et.
  - intros xs st' (-> & Eps & Hno). rewrite app_nil_r in Eps. unfold Q. rewrite Eps, Hno.
    split; [done|]. split; [done|]. split; [done|]. by left.
  - split; [done|]. auto.
  - intros r st' HQ. by apply rwp_ret.
Qed.

Lemma search_ok ext ct st c ps needle :
  st_ok ext ct st → ct !! c = Some ps → is_Some (objs st !! needle) →
  rwp (nl_cache_search c needle) (λ r st', r = found st needle ps ∧ st_ok (hold r ext) ct st' ∧
    keeps st st' ∧ (r = 0 ∨ r ∈ ps)) st.
Proof.
  intros Hok Hc [y Hy]. apply (first_ok ext ct st c ps (twin st needle)); [done..|].
  intros p Q Hp HQ. destruct (core_mem _ _ _ Hok _ _ p Hc Hp) as (o & Ho & _).
  assert (twin st needle p = identical o y) as Ht.
  { unfold twin. by rewrite (body_lookup _ _ _ Ho), (body_lookup _ _ _ Hy), same_id_ok. }
  unfold nl_object_identical. apply rwp_bind, rwp_bind, (rwp_obj _ o); [done|].
  apply rwp_bind, (rwp_obj _ y); [done|]. apply rwp_ret. rewrite <- Ht. by destruct (twin st needle p).
Qed.

(** ** Including an object *)

(** [nl_object_diff] on the objects at [p] and [q]. *)
Definition diff_of st (p q : Z) : Z :=
  match objs st !! p, objs st !! q with Some x, Some y => diff x y | _, _ => 0 end.

Lemma diff_ok st p q o o' :
  objs st !! p = Some o → objs st !! q = Some o' →
  rwp (nl_object_diff p q) (λ r st', r = diff o o' ∧ st' = st) st.
Proof.
  intros H1 H2. unfold nl_object_diff. apply rwp_bind, (rwp_obj _ o); [done|].
  by apply rwp_bind, (rwp_obj _ o'); [done|].
Qed.

Lemma diff_body (o o' x x' : nl_object D) :
  body_of x = body_of o → body_of x' = body_of o' → diff x x' = diff o o'.
Proof. intros [= E1 E2 E3 E4 E5] [= F1 F2 F3 F4 F5]. unfold diff. by rewrite E1, E4, E5, F1, F4, F5. Qed.

(** What the callback is told when [p] takes the place of [old]. *)
Definition told (cb : bool) st (c p old : Z) : list (Z * Z * nl_act) :=
  if old =? 0 then called cb c p NL_ACT_NEW
  else if diff_of st old p =? 0 then [] else called cb c p NL_ACT_CHANGE.

(** The cache after [old], if there is one, has left it. *)
Definition drop_old (old : Z) (ct : gmap Z (list Z)) : gmap Z (list Z) :=
  if old =? 0 then ct else without old ct.

Lemma without_some p ct c : is_Some (ct !! c) → is_Some (without p ct !! c).
Proof. intros [ps Hc]. unfold without. rewrite lookup_fmap, Hc. by eexists. Qed.

Lemma drop_old_some p ct c : is_Some (ct !! c) → is_Some (drop_old p ct !! c).
Proof. unfold drop_old. destruct (p =? 0); [done|]. apply without_some. Qed.

Lemma hold_ge p q ext : ext q ≤ hold p ext q.
Proof. unfold hold, add_ref. destruct (p =? 0); [lia|]. destruct (q =? p); lia. Qed.

(** [nl_cache_remove(old)] for a found object. *)
Lemma remove_found ext ct st old :
  st_ok (hold old ext) ct st → old ≠ 0 → 0 ≤ ext old →
  rwp (nl_cache_remove old) (λ _ st', st_ok (hold old ext) (without old ct) st' ∧ keeps st st') st.
Proof.
  intros Hok Hne He. eapply remove_ok; [done|]. eapply held_obj; [apply Hok|].
  unfold hold, add_ref. rewrite (proj2 (Z.eqb_neq _ _) Hne), Z.eqb_refl. lia.
Qed.

(** Giving back the reference that the search took. *)
Lemma put_found ext ct st old :
  st_ok (hold old ext) ct st → old ≠ 0 → 0 ≤ ext old →
  rwp (nl_object_put old) (λ _ st', st_ok ext ct st' ∧ keeps st st') st.
Proof.
  intros Hok Hne He. eapply rwp_mono; [eapply put_ok; [exact Hok|]|].
  { unfold hold, add_ref. rewrite (proj2 (Z.eqb_neq _ _) Hne), Z.eqb_refl. lia. }
  intros [] st' (Hok' & K). split; [|done]. eapply st_ok_ext; [|exact Hok'].
  intros z. unfold hold, add_ref. rewrite (proj2 (Z.eqb_neq _ _) Hne). destruct (z =? old); lia.
Qed.

Lemma ext_nonneg ext ct st p : core ext ct st → 0 ≤ ext p.
Proof.
  intros C. destruct (objs st !! p) eqn:E; [by destruct (core_ref _ _ _ C _ _ E)|].
  by rewrite (core_dead _ _ _ C _ E).
Qed.

(** An object to which the user holds a reference, of the type of the cache: the identical
    object is replaced, and the new one is at the end. *)
Lemma include_new_ok ext ct st c ps k p o cb :
  st_ok ext ct st → ct !! c = Some ps → caches st !! c = Some k → objs st !! p = Some o →
  0 < ext p → co_obj_ops (cache_ops_at (c_ops k)) = ce_ops o →
  rwp (cache_include c p NL_ACT_NEW cb) (λ r st',
    let old := found st p ps in
    r = 0 ∧ st_ok ext (push c p (without p (drop_old old ct))) st' ∧
    evolves (told cb st c p old) st st') st.
Proof.
  intros Hok Hc Hk Ho He Ht. unfold cache_include.
  eapply rwp_seq; [eapply search_ok; [done|done|by eexists]|].
  intros old st1 (Eold & Hok1 & K1 & Hin). rewrite <- Eold. cbv zeta.
  pose proof (ext_nonneg _ _ _ old (ok_core _ _ _ Hok)) as Heo.
  eapply (rwp_seq _ _ (λ _ st2, st_ok (hold old ext) (drop_old old ct) st2 ∧ keeps st st2)).
  { unfold drop_old. destruct (Z.eqb_spec old 0) as [->|Hne]; cbn [negb].
    - apply rwp_ret. done.
    - eapply rwp_seq; [by eapply remove_found|]. intros [] st2 (Hok2 & K2).
      rewrite decide_False by done. apply rwp_ret. split; [done|by etrans]. }
  intros [] st2 (Hok2 & K2). rewrite decide_True by done.
  destruct (held_obj _ _ _ p (ok_core _ _ _ Hok2)) as [o2 Ho2].
  { pose proof (hold_ge old p ext). lia. }
  pose proof (body_obj _ _ _ _ _ (keeps_body _ _ K2) Ho Ho2) as E2.
  destruct (kinds_cache _ _ _ _ (keeps_kinds _ _ K2) Hk) as (k2 & Hk2 & Ek2).
  apply rwp_bind, rwp_bind. eapply rwp_mono.
  { eapply nl_cache_move_ok; [exact Hok2|exact Ho2|apply drop_old_some; by eexists|exact Hk2]. }
  cbn beta. assert (ce_ops o2 = ce_ops o) as Eo by by injection E2.
  rewrite Ek2, Eo, (proj2 (Z.eqb_eq _ _) Ht). intros r3 st3 (_ & Hok3 & K3).
  assert (keeps st st3) as K by by etrans.
  unfold told. destruct (Z.eqb_spec old 0) as [->|Hne].
  - eapply rwp_mono; [by eapply change_ok|]. intros [] st4 (Hok4 & E4 & _). apply rwp_ret.
    split; [done|]. split; [done|]. by eapply keeps_evolves_trans.
  - destruct (held_obj _ _ _ p (ok_core _ _ _ Hok3)) as [o3 Ho3].
    { pose proof (hold_ge old p ext). lia. }
    destruct (held_obj _ _ _ old (ok_core _ _ _ Hok3)) as [x3 Hx3].
    { unfold hold, add_ref. rewrite (proj2 (Z.eqb_neq _ _) Hne), Z.eqb_refl. lia. }
    apply rwp_bind. eapply rwp_mono; [by eapply diff_ok|]. intros d st3' (-> & ->).
    assert (diff x3 o3 = diff_of st old p) as ->.
    { unfold diff_of. destruct Hin as [?|Hin]; [done|].
      destruct (core_mem _ _ _ Hok _ _ old Hc Hin) as (x & Hx & _). rewrite Hx, Ho.
      apply diff_body; [by apply (body_obj st st3 old) ; [apply K|..]|by apply (body_obj st st3 p); [apply K|..] ]. }
    eapply (rwp_seq _ _ (λ _ st4, st_ok (hold old ext) (push c p (without p (drop_old old ct))) st4 ∧
       evolves (if diff_of st old p =? 0 then [] else called cb c p NL_ACT_CHANGE) st st4)).
    { destruct (diff_of st old p =? 0); cbn [negb].
      - apply rwp_ret. split; [done|]. by apply keeps_evolves.
      - eapply rwp_mono; [by eapply change_ok|]. intros [] st4 (Hok4 & E4 & _).
        split; [done|]. by eapply keeps_evolves_trans. }
    intros [] st4 (Hok4 & E4). eapply rwp_mono; [by eapply put_found|].
    intros [] st5 (Hok5 & K5). apply rwp_ret. split; [done|]. split; [done|]. by eapply evolves_keeps.
Qed.

Lemma include_del_ok ext ct st c ps p cb :
  st_ok ext ct st → ct !! c = Some ps → is_Some (objs st !! p) →
  rwp (cache_include c p NL_ACT_DEL cb) (λ r st',
    let old := found st p ps in
    r = 0 ∧ st_ok ext (drop_old old ct) st' ∧
    evolves (if old =? 0 then [] else called cb c old NL_ACT_DEL) st st') st.
Proof.
  intros Hok Hc Hp. unfold cache_include.
  eapply rwp_seq; [by eapply search_ok|].
  intros old st1 (Eold & Hok1 & K1 & Hin). rewrite <- Eold. cbv zeta.
  pose proof (ext_nonneg _ _ _ old (ok_core _ _ _ Hok)) as Heo.
  unfold drop_old. destruct (Z.eqb_spec old 0) as [->|Hne]; cbn [negb].
  { do 2 apply rwp_bind, rwp_ret. split; [done|]. split; [done|]. by apply keeps_evolves. }
  apply rwp_bind. eapply rwp_seq; [by eapply remove_found|]. intros [] st2 (Hok2 & K2).
  rewrite decide_True by done. eapply rwp_seq; [by eapply change_ok|]. intros [] st3 (Hok3 & E3 & _).
  eapply rwp_mono; [by eapply put_found|]. intros [] st4 (Hok4 & K4).
  rewrite decide_False by done. apply rwp_bind, rwp_ret. split; [done|]. split; [done|].
  eapply evolves_keeps; [|done]. eapply keeps_evolves_trans; [|done]. by etrans.
Qed.
End Sync.
