(* ===== verification/CacheResync.v ===== *)
(** * Resynchronising a cache with the kernel

    [nl_cache_resync] marks the objects of the cache, includes each object of the kernel's
    dump, and drops what is still marked.  After it the cache holds what was dumped, and the
    change callback was told the difference. *)

From Stdlib Require Import Sorting.Sorted.
From S2P Require Import Prelude Netlink NlError Attr Recv Dump NlList.
From S2P Require Import Objects Cache CacheInv CacheOps CacheLoop CacheSync.

Section Resync.
Context {D : Type} `{World D}.
Local Open Scope store_scope.

Implicit Types (st : store D) (ct : gmap Z (list Z)) (ext : Z → Z) (b : Z * Z * Z * Z * D).

(** ** Marks *)

Definition marked b : bool := let '(_, _, fl, _, _) := b in negb (Z.land fl NL_OBJ_MARK =? 0).
Definition mark b : Z * Z * Z * Z * D :=
  let '(ops, mt, fl, mk, d) := b in (ops, mt, Z.lor fl NL_OBJ_MARK, mk, d).

Lemma marked_mark b : marked (mark b) = true.
Proof.
  destruct b as [ [ [ [ops mt] fl] mk] d]. simpl. unfold NL_OBJ_MARK.
  destruct (Z.eqb_spec (Z.land (Z.lor fl 1) 1) 0) as [E|]; [|done].
  apply (f_equal (λ z, Z.testbit z 0)) in E.
  rewrite Z.land_spec, Z.lor_spec, Z.bits_0, orb_true_r in E. done.
Qed.

Lemma same_id_mark x y : same_id (mark x) y = same_id x y.
Proof. by destruct x as [ [ [ [? ?] ?] ?] ?], y as [ [ [ [? ?] ?] ?] ?]. Qed.

(** The objects of [xs] get a mark. *)
Record marks (xs : list Z) (st st' : store D) : Prop := {
  mk_body : ∀ p, body st' !! p = (if bool_decide (p ∈ xs) then mark else id) <$> body st !! p;
  mk_kinds : kinds st' = kinds st;
  mk_log : log st' = log st;
  mk_io : io st' = io st;
}.

Lemma mark_ok ext ct st p o :
  st_ok ext ct st → objs st !! p = Some o →
  rwp (nl_object_mark p) (λ _ st', st_ok ext ct st' ∧ body st' = <[p := mark (body_of o)]> (body st) ∧
    kinds st' = kinds st ∧ log st' = log st ∧ io st' = io st) st.
Proof.
  intros [C N T] Ho. apply (rwp_upd _ o); [done|]. destruct (core_ref _ _ _ C _ _ Ho).
  split; [split; [|done|by eapply typed_upd]|].
  - eapply core_ext; [|eapply (core_upd _ _ _ _ o _ 0)]; try done; simpl; try lia.
    intros z. unfold add_ref. destruct (z =? p); lia.
  - split; [|done]. unfold body. simpl. by rewrite fmap_insert.
Qed.

Lemma mark_all_ok ext ct st c ps :
  st_ok ext ct st → ct !! c = Some ps →
  rwp (nl_cache_mark_all c) (λ _ st', st_ok ext ct st' ∧ marks ps st st') st.
Proof.
  intros Hok Hc. unfold nl_cache_mark_all.
  set (I (xs ys : list Z) (st' : store D) := ps = xs ++ ys ∧ st_ok ext ct st' ∧ marks xs st st').
  eapply (rwp_seq _ _ (λ _ st', st_ok ext ct st' ∧ marks ps st st'));
    [eapply (each_entry_ok c I) with (ps := ps)|].
  - intros xs ys st' (-> & Hok' & _). by eapply core_list; [apply Hok'|].
  - intros xs p ys st' (Eps & Hok' & M).
    destruct (core_mem _ _ _ Hok' _ _ p Hc) as (o & Ho & _); [rewrite Eps; set_solver|].
    assert (p ∉ xs) as Hp.
    { pose proof (core_nodup _ _ _ _ _ (ok_core _ _ _ Hok) Hc) as Hnd. rewrite Eps in Hnd.
      apply list.NoDup_app in Hnd as (_ & Hx & _). set_solver. }
    eapply rwp_seq; [by eapply mark_ok|]. intros [] st'' (Hok'' & B & K & L & Ei). apply rwp_ret.
    destruct M as [M1 M2 M3 M4].
    split; [by rewrite <- app_assoc|]. split; [done|]. split; [|congruence..].
    intros q. rewrite B. destruct (decide (q = p)) as [->|Hq].
    + rewrite lookup_insert_eq, bool_decide_true by set_solver.
      pose proof (M1 p) as Mp. rewrite (body_lookup _ _ _ Ho), bool_decide_false in Mp by done.
      destruct (body st !! p) as [x|]; [|done].
      assert (body_of o = x) as -> by by apply (inj Some). done.
    + rewrite lookup_insert_ne, M1 by done. f_equal.
      destruct (bool_decide_reflect (q ∈ xs)); [by rewrite bool_decide_true by set_solver|].
      rewrite bool_decide_false by set_solver. done.
  - intros xs st' (Eps & Hok' & M). rewrite app_nil_r in Eps. by subst.
  - split; [done|]. split; [done|]. split; [|done..]. intros q. by destruct (body st !! q).
  - intros _ st' HQ. by apply rwp_ret.
Qed.

(** ** Dropping the marked objects *)

Definition is_marked st (p : Z) : bool :=
  match body st !! p with Some b => marked b | None => false end.

Lemma is_marked_ok st p o :
  objs st !! p = Some o →
  rwp (nl_object_is_marked p) (λ r st', r = is_marked st p ∧ st' = st) st.
Proof.
  intros Ho. unfold nl_object_is_marked. apply rwp_bind, (rwp_obj _ o); [done|].
  apply rwp_ret. split; [|done]. unfold is_marked. by rewrite (body_lookup _ _ _ Ho).
Qed.

(** The calls of the callback for dropped objects. *)
Definition deleted (cb : bool) (c : Z) (ps : list Z) : list (Z * Z * nl_act) :=
  concat (map (λ p, called cb c p NL_ACT_DEL) ps).

Lemma drop_one ext ct st cb c p xs ys :
  st_ok ext (<[c := xs ++ p :: ys]> ct) st →
  rwp (nl_object_get p ;; nl_cache_remove p ;; change cb c p NL_ACT_DEL ;; nl_object_put p)
    (λ _ st', st_ok ext (<[c := xs ++ ys]> ct) st' ∧ evolves (called cb c p NL_ACT_DEL) st st') st.
Proof.
  intros Hok. assert (<[c := xs ++ p :: ys]> ct !! c = Some (xs ++ p :: ys)) as Hc
    by apply lookup_insert_eq.
  destruct (core_mem _ _ _ Hok _ _ p Hc) as (o & Ho & _); [set_solver|].
  assert (p ≠ 0) as Hp0 by (intros ->; destruct (core_null _ _ _ Hok); congruence).
  pose proof (ext_nonneg _ _ _ p (ok_core _ _ _ Hok)) as He.
  eapply rwp_seq; [eapply get_ok; [done|by eexists]|]. intros [] st1 (Hok1 & K1 & _).
  assert (st_ok (hold p ext) (<[c := xs ++ p :: ys]> ct) st1) as Hok1'.
  { unfold hold. by rewrite (proj2 (Z.eqb_neq _ _) Hp0). }
  eapply rwp_seq; [by eapply remove_found|]. intros [] st2 (Hok2 & K2).
  rewrite (without_one _ _ _ _ _ _ _ (ok_core _ _ _ Hok1') Hc), insert_insert_eq in Hok2.
  eapply rwp_seq; [by eapply change_ok|]. intros [] st3 (Hok3 & E3 & _).
  eapply rwp_mono; [by eapply put_found|]. intros [] st4 (Hok4 & K4). split; [done|].
  eapply evolves_keeps; [|done]. eapply keeps_evolves_trans; [|done]. by etrans.
Qed.

Lemma drop_marked_ok ext ct st cb c ps :
  st_ok ext ct st → ct !! c = Some ps →
  rwp (drop_marked c cb) (λ _ st',
    st_ok ext (<[c := List.filter (λ p, negb (is_marked st p)) ps]> ct) st' ∧
    evolves (deleted cb c (List.filter (is_marked st) ps)) st st') st.
Proof.
  intros Hok Hc. unfold drop_marked.
  set (I (xs ys : list Z) (st' : store D) := ∃ dn, ps = dn ++ ys ∧
    xs = List.filter (λ p, negb (is_marked st p)) dn ∧ st_ok ext (<[c := xs ++ ys]> ct) st' ∧
    evolves (deleted cb c (List.filter (is_marked st) dn)) st st').
  eapply rwp_mono; [eapply (each_entry_safe_ok c I) with (ps := ps)|].
  - intros xs ys st' (dn & _ & _ & Hok' & _). eapply core_list; [apply Hok'|]. apply lookup_insert_eq.
  - intros xs p ys st' (dn & Eps & Exs & Hok' & E').
    destruct (core_mem _ _ _ Hok' c (xs ++ p :: ys) p) as (o & Ho & _);
      [apply lookup_insert_eq|set_solver|].
    assert (is_marked st' p = is_marked st p) as Em.
    { unfold is_marked. by rewrite (lookup_weaken _ _ _ _ (body_lookup _ _ _ Ho) (ev_body _ _ _ E')),
        (body_lookup _ _ _ Ho). }
    eapply rwp_seq; [by eapply is_marked_ok|]. intros m st0 (-> & ->). rewrite Em.
    destruct (is_marked st p) eqn:Ep.
    + eapply rwp_mono; [by eapply drop_one|]. intros [] st'' (Hok'' & E'').
      exists xs, (dn ++ [p]). split; [by rewrite <- app_assoc|].
      rewrite !List.filter_app. simpl. rewrite Ep. simpl. rewrite app_nil_r. split; [done|]. split; [done|].
      unfold deleted. rewrite map_app, concat_app. simpl. rewrite app_nil_r. by eapply evolves_trans.
    + apply rwp_ret. exists (xs ++ [p]), (dn ++ [p]). split; [by rewrite <- app_assoc|].
      rewrite !List.filter_app. simpl. rewrite Ep. simpl. rewrite app_nil_r, <- app_assoc.
      split; [by rewrite Exs|done].
  - exists []. split; [done|]. split; [done|]. simpl. rewrite insert_id by done. split; [done|].
    by apply keeps_evolves.
  - intros [] st' (xs & dn & Eps & Exs & Hok' & E'). rewrite app_nil_r in *. by subst.
Qed.

(** ** The object of a message *)

(** What the parser of a cache's type does with a message of one object: it makes the
    object, hands it to the callback, and gives its own reference back. *)
Definition parse_obj b (pp_cb : Z → R D Z) : R D Z :=
  let '(a, mt, _, mk, d) := b in
  p <- nl_object_alloc a ;;
  if p =? 0 then rret (- Nl.NLE_NOMEM)
  else
    upd p (set_body mt mk d) ;;
    err <- pp_cb p ;;
    nl_object_put p ;;
    rret err.

(** The action of a message type in the table. *)
Fixpoint lookup_type (types : list (Z * nl_act)) (ty : Z) : option nl_act :=
  match types with
  | [] => None
  | (id, act) :: types =>
      if id <? 0 then None else if id =? ty then Some act else lookup_type types ty
  end.

Lemma include_types_ok types ty act (k : nl_act → R D Z) :
  lookup_type types ty = Some act → include_types types ty k = k act.
Proof.
  induction types as [|[id a] types IH]; [done|]. simpl. destruct (id <? 0); [done|].
  destruct (id =? ty); [by intros [= ->]|exact IH].
Qed.

Lemma parse_types_ok types ty act (parse : R D Z) Q st :
  lookup_type types ty = Some act →
  rwp parse (λ r st', r ≠ - NLE_OPNOTSUPP ∧ Q r st') st → rwp (parse_types types ty parse) Q st.
Proof.
  intros Hl Hp. induction types as [|[id a] types IH]; [done|]. simpl in *.
  destruct (id <? 0); [done|]. destruct (id =? ty); [|by apply IH].
  eapply rwp_seq; [exact Hp|]. intros r st' [Hne HQ].
  by rewrite (proj2 (Z.eqb_neq _ _) Hne).
Qed.

(** [oom] holds when an allocation fails. *)
Definition memory (oom : Prop) : Prop :=
  (∀ st, a_calloc st = 0 → oom) ∧ (∀ st, a_cb_clone st = false → oom) ∧
  (∀ st m, a_msg_copy st m = false → oom).

(** The parser fails, for lack of memory, and leaves nothing behind. *)
Definition gives_up (oom : Prop) (m : R D Z) st : Prop :=
  oom ∧ ∀ ext ct, st_ok ext ct st →
  rwp m (λ r st', r = - Nl.NLE_NOMEM ∧ st_ok ext ct st' ∧ keeps st st' ∧ body st' = body st) st.

(** The message [m] has the object [b]. *)
Record carries (oom : Prop) (ops : nl_cache_ops D) (m : list Z) b : Prop := {
  ca_ops : b.1.1.1.1 = co_obj_ops ops;
  ca_flags : b.1.1.2 = 0;
  ca_hdr : ∃ l, Nl.nlmsg_len m 0 = Some l ∧ Nl.nlmsg_msg_size (co_hdrsize ops) ≤ l;
  ca_type : ∃ ty act, Nl.nlmsg_type m 0 = Some ty ∧ lookup_type (co_msgtypes ops) ty = Some act;
  ca_parse : ∀ pp_cb st, co_msg_parser ops m pp_cb st = parse_obj b pp_cb st ∨
    gives_up oom (co_msg_parser ops m pp_cb) st;
}.

(** An object that the table of message types says is a new one. *)
Definition news_obj (ops : nl_cache_ops D) b : Prop :=
  lookup_type (co_msgtypes ops) b.1.1.1.2 = Some NL_ACT_NEW.

(** ** Including it *)

(** The result of the search, and what the callback is told, from the bodies. *)
Definition found_b (B : gmap Z (Z * Z * Z * Z * D)) b (ps : list Z) : Z :=
  default 0 (List.find (λ q, match B !! q with Some x => same_id x b | None => false end) ps).
Definition diff_b (x y : Z * Z * Z * Z * D) : Z :=
  let '(a, mt, fl, mk, d) := x in
  let '(a', mt', fl', mk', d') := y in
  diff (mkObj 0 a 0 mt fl mk d) (mkObj 0 a' 0 mt' fl' mk' d').
Definition told_b (cb : bool) (B : gmap Z (Z * Z * Z * Z * D)) (c p : Z) b (old : Z)
    : list (Z * Z * nl_act) :=
  if old =? 0 then called cb c p NL_ACT_NEW
  else match B !! old with
       | Some x => if diff_b x b =? 0 then [] else called cb c p NL_ACT_CHANGE
       | None => []
       end.

Lemma find_ext {A} (f g : A → bool) l : (∀ x, x ∈ l → f x = g x) → List.find f l = List.find g l.
Proof.
  induction l as [|x l IH]; intros Hfg; [done|]. simpl. rewrite <- (Hfg x) by set_solver.
  destruct (f x); [done|]. apply IH. set_solver.
Qed.

Lemma found_in B b ps : found_b B b ps = 0 ∨ found_b B b ps ∈ ps.
Proof.
  unfold found_b. destruct (List.find _ ps) as [q|] eqn:E; [|by left]. right.
  apply find_some in E as [E _]. by apply list_elem_of_In.
Qed.

(** A new object changes nothing for the search. *)
Lemma found_new st st' p b ps :
  body st' = <[p := b]> (body st) → p ∉ ps → found st' p ps = found_b (body st) b ps.
Proof.
  intros B Hp. unfold found, found_b. f_equal. apply find_ext. intros q Hq. unfold twin.
  rewrite B, lookup_insert_eq, lookup_insert_ne; [done|]. congruence.
Qed.

Lemma told_new cb st st' c p b old :
  body st' = <[p := b]> (body st) → old ≠ p → (old = 0 ∨ is_Some (body st !! old)) →
  told cb st' c p old = told_b cb (body st) c p b old.
Proof.
  intros B Hne Hold. unfold told, told_b. destruct (Z.eqb_spec old 0) as [|Ho]; [done|].
  destruct Hold as [?|[x Hx]]; [done|]. rewrite Hx. unfold diff_of.
  assert (body st' !! old = Some x ∧ body st' !! p = Some b) as [E1 E2].
  { rewrite B, lookup_insert_eq, lookup_insert_ne by congruence. done. }
  unfold body in E1, E2. rewrite lookup_fmap in E1, E2.
  destruct (objs st' !! old) as [o1|]; [|done]. destruct (objs st' !! p) as [o2|]; [|done].
  simpl in E1, E2. assert (body_of o1 = x) as <- by congruence. assert (body_of o2 = b) as <- by congruence.
  done.
Qed.

(** The new object of [parse_obj]. *)
Lemma parse_obj_ok ext ct st b pp_cb (Q : Z → store D → Prop) :
  calloc_ok → st_ok ext ct st → b.1.1.2 = 0 → (a_calloc st = 0 → Q (- Nl.NLE_NOMEM) st) →
  (∀ p o st', p ≠ 0 → st_ok (add_ref p 1 ext) ct st' → grows p b st st' → objs st' !! p = Some o →
     body_of o = b → nl_list_empty (NObj p) (hs st') = Some true →
     rwp (err <- pp_cb p ;; nl_object_put p ;; rret err) Q st') →
  rwp (parse_obj b pp_cb) Q st.
Proof.
  destruct b as [ [ [ [a mt] fl] mk] d]. cbn [fst snd]. intros Hca Hok -> Hfail Hk. unfold parse_obj.
  pose proof (object_alloc_ok ext ct st a Hca Hok) as Ha. apply rwp_bind. unfold rwp at 1. revert Ha. unfold rwp at 1, nl_object_alloc.
  destruct (Z.eqb_spec (a_calloc st) 0) as [E|E]; [intros _; by apply Hfail|].
  intros [ [? _]|(Hp & Hok1 & G1 & Hp1 & He1)]; [done|]. rewrite (proj2 (Z.eqb_neq _ _) Hp). apply rwp_bind. eapply rwp_upd; [exact Hp1|]. set (x := mkObj _ _ _ _ _ _ _) in *.
  set (p := a_calloc st) in *. eapply (Hk p (set_body mt mk d x)); [done|by apply set_body_ok| |apply lookup_insert_eq|done|done].
  exact (grows_upd _ _ _ _ (set_body mt mk d x) G1 (mk_is_Some _ _ Hp1)).
Qed.

(** A new object is in no cache. *)
Lemma fresh_not_in ext ct st p c ps : core ext ct st → objs st !! p = None → ct !! c = Some ps → p ∉ ps.
Proof.
  intros C Hf Hc Hin. destruct (core_mem _ _ _ C _ _ p Hc Hin) as (x & Hx & _). congruence.
Qed.

Lemma drop_old_sub old ct c ps p :
  drop_old old ct !! c = Some ps → p ∈ ps → ∃ ps', ct !! c = Some ps' ∧ p ∈ ps'.
Proof.
  unfold drop_old. destruct (old =? 0); [eauto|]. unfold without. rewrite lookup_fmap.
  destruct (ct !! c) as [l|]; [|done]. intros [= <-] Hin. apply list_elem_of_filter in Hin as [_ Hin]. eauto.
Qed.

(** One object of the dump. *)
Lemma parse_include_ok ext ct st c ps k b cb :
  calloc_ok → st_ok ext ct st → ct !! c = Some ps → caches st !! c = Some k →
  b.1.1.1.1 = co_obj_ops (cache_ops_at (c_ops k)) → b.1.1.2 = 0 →
  lookup_type (co_msgtypes (cache_ops_at (c_ops k))) b.1.1.1.2 = Some NL_ACT_NEW →
  rwp (parse_obj b (resync_cb c cb)) (λ r st',
    r = - Nl.NLE_NOMEM ∧ a_calloc st = 0 ∧ st' = st ∨
    r = 0 ∧ ∃ p, p ≠ 0 ∧ body st !! p = None ∧
      let old := found_b (body st) b ps in
      st_ok ext (push c p (drop_old old ct)) st' ∧ body st' ⊆ <[p := b]> (body st) ∧
      kinds st' = kinds st ∧ io st' = io st ∧
      log st' = log st ++ told_b cb (body st) c p b old) st.
Proof.
  intros Hca Hok Hc Hk Eops Efl Hmt. eapply parse_obj_ok; [done|done|done|intros E; by left|].
  intros p o st2 Hp Hok2 G Ho2 Eb _. pose proof (grows_none _ _ _ _ G) as Hfresh. destruct G as [F2 B2 K2 L2 I2].
  pose proof (λ c' ps', fresh_not_in _ _ _ _ c' ps' (ok_core _ _ _ Hok) Hfresh) as Hnot.
  destruct (kinds_cache _ _ _ _ K2 Hk) as (k2 & Hk2 & Ek2).
  assert (0 < add_ref p 1 ext p) as Hep.
  { unfold add_ref. rewrite Z.eqb_refl, (core_dead _ _ _ Hok _ Hfresh). lia. }
  assert (ce_ops o = b.1.1.1.1 ∧ ce_msgtype o = b.1.1.1.2) as [E1 E2] by by rewrite <- Eb.
  unfold resync_cb, nl_cache_include. apply rwp_bind, rwp_bind, (rwp_cache _ k2); [done|].
  apply rwp_bind, (rwp_obj _ o); [done|]. rewrite Ek2, E1, E2, Eops, Z.eqb_refl. cbn [negb].
  rewrite (include_types_ok _ _ _ _ Hmt).
  eapply rwp_mono; [eapply include_new_ok; [exact Hok2|exact Hc|exact Hk2|exact Ho2|done|congruence]|].
  cbv zeta. rewrite (found_new st _ _ b) by eauto.
  set (old := found_b (body st) b ps). intros r st3 (-> & Hok3 & [B3 K3 L3 I3]).
  eapply rwp_seq; [by eapply put_ok|]. intros [] st4 (Hok4 & [B4 K4 L4 I4]). apply rwp_ret. right.
  split; [done|]. exists p. split; [done|]. split; [done|].
  rewrite without_none in Hok4 by (intros ? ? H1 H2; destruct (drop_old_sub _ _ _ _ _ H1 H2) as (?&?&?); by eapply Hnot).
  split; [eapply st_ok_ext; [|exact Hok4]; intros z; unfold add_ref; destruct (z =? p); lia|].
  split; [rewrite <- B2; by etrans|]. split; [congruence|]. split; [congruence|].
  rewrite L4, L3, L2. f_equal.
  destruct (found_in (body st) b ps) as [E|E]; fold old in E; apply told_new; try done; [congruence|by left| |right].
  - intros Ep. rewrite Ep in E. by eapply Hnot.
  - destruct (core_mem _ _ _ Hok _ _ _ Hc E) as (x & Hx & _). rewrite (body_lookup _ _ _ Hx). by eexists.
Qed.

(** ** The whole dump *)

(** What the dump [news] (the new objects and their addresses) does to the old objects:
    those that are left, and the calls of the callback. *)
Fixpoint sync (cb : bool) (B : gmap Z (Z * Z * Z * Z * D)) (c : Z) (olds : list Z)
    (news : list (Z * (Z * Z * Z * Z * D))) : list Z * list (Z * Z * nl_act) :=
  match news with
  | [] => (olds, [])
  | (p, b) :: news =>
      let old := found_b B b olds in
      let r := sync cb B c (filter (λ q, q ≠ old) olds) news in
      (r.1, told_b cb B c p b old ++ r.2)
  end.

(** During the dump: old objects that are still marked, then the new ones. *)
Record syncing (ext : Z → Z) (ct : gmap Z (list Z)) (B : gmap Z (Z * Z * Z * Z * D)) (c : Z)
    (kd : gmap Z Z) (olds qs : list Z) (dn : list (Z * Z * Z * Z * D)) (st : store D) : Prop := {
  sy_ok : st_ok ext (<[c := olds ++ qs]> ct) st;
  sy_old : ∀ p, p ∈ olds → ∃ x, B !! p = Some x ∧ marked x = true ∧ body st !! p = Some x;
  sy_new : Forall2 (λ q b, body st !! q = Some b) qs dn;
  sy_kinds : kinds st = kd;
}.

Lemma without_insert ext ct st c l p :
  core ext (<[c := l]> ct) st → p ∈ l →
  without p (<[c := l]> ct) = <[c := filter (λ q, q ≠ p) l]> ct.
Proof.
  intros C Hin. apply map_eq. intros c'. unfold without. rewrite lookup_fmap.
  destruct (decide (c' = c)) as [->|Hne]; [by rewrite !lookup_insert_eq|].
  rewrite !lookup_insert_ne by done. destruct (ct !! c') as [l'|] eqn:E; [|done]. simpl. f_equal.
  apply filter_ne_id. intros Hin'. apply Hne.
  eapply (core_one _ _ _ c' l' c l p C); [by rewrite lookup_insert_ne|by rewrite lookup_insert_eq|done..].
Qed.

(** The search finds an old object, if any. *)
Lemma syncing_found ext ct B c kd olds qs dn st b :
  syncing ext ct B c kd olds qs dn st → Forall (λ x, same_id x b = false) dn →
  found_b (body st) b (olds ++ qs) = found_b B b olds.
Proof.
  intros [Hok Ho Hn _] Hap. unfold found_b. rewrite find_app.
  assert (List.find (λ q, match body st !! q with Some x => same_id x b | None => false end) qs = None) as ->.
  { clear Hok Ho. induction Hn as [|q x qs dn Hq Hn IH]; [done|]. apply list.Forall_cons in Hap as [Hx Hap].
    simpl. rewrite Hq, Hx. by apply IH. }
  rewrite (find_ext (λ q, match body st !! q with Some x => same_id x b | None => false end)
    (λ q, match B !! q with Some x => same_id x b | None => false end) olds);
    [by destruct (List.find _ olds)|].
  intros q Hq. destruct (Ho q Hq) as (x & -> & _ & ->). done.
Qed.

Lemma syncing_drop ext ct B c kd olds qs dn st old :
  syncing ext ct B c kd olds qs dn st → (old = 0 ∨ old ∈ olds) →
  drop_old old (<[c := olds ++ qs]> ct) = <[c := filter (λ q, q ≠ old) olds ++ qs]> ct.
Proof.
  intros [Hok Ho Hn _] Hold. pose proof (core_nodup _ _ _ c (olds ++ qs) (ok_core _ _ _ Hok)) as Hnd.
  rewrite lookup_insert_eq in Hnd. specialize (Hnd eq_refl). apply list.NoDup_app in Hnd as (_ & Hdis & _).
  unfold drop_old. destruct (Z.eqb_spec old 0) as [->|Hne].
  - rewrite filter_ne_id; [done|]. intros Hin. destruct (Ho 0 Hin) as (x & _ & _ & Hx).
    unfold body in Hx. rewrite lookup_fmap in Hx. destruct (core_null _ _ _ Hok) as [_ E]. by rewrite E in Hx.
  - destruct Hold as [?|Hin]; [done|].
    rewrite (without_insert _ _ _ _ _ _ (ok_core _ _ _ Hok)) by set_solver.
    rewrite list.filter_app, (filter_ne_id old qs); [done|]. by apply Hdis.
Qed.

Lemma Forall2_impl_in {A B} (P Q : A → B → Prop) l k :
  Forall2 P l k → (∀ x y, x ∈ l → P x y → Q x y) → Forall2 Q l k.
Proof.
  induction 1 as [|x y l k Hxy Hlk IH]; intros HPQ; constructor; [apply HPQ; [set_solver|done]|].
  apply IH. intros a b Ha. apply HPQ. set_solver.
Qed.

(** The store after one more object. *)
Lemma syncing_step ext ct B c kd olds qs dn st p b st' old :
  syncing ext ct B c kd olds qs dn st → body st !! p = None →
  st_ok ext (<[c := filter (λ q, q ≠ old) olds ++ qs ++ [p]]> ct) st' →
  body st' ⊆ <[p := b]> (body st) → kinds st' = kinds st →
  syncing ext ct B c kd (filter (λ q, q ≠ old) olds) (qs ++ [p]) (dn ++ [b]) st'.
Proof.
  intros [Hok Ho Hn Hk] Hp Hok' B' K'.
  assert (∀ q x, q ∈ filter (λ q, q ≠ old) olds ++ qs ++ [p] → <[p := b]> (body st) !! q = Some x →
    body st' !! q = Some x) as Hkeep.
  { intros q x Hin Hq. destruct (core_mem _ _ _ Hok' c (filter (λ q, q ≠ old) olds ++ qs ++ [p]) q)
      as (o & Hoq & _); [apply lookup_insert_eq|done|].
    pose proof (body_lookup _ _ _ Hoq) as Hb. rewrite Hb. eapply lookup_weaken in Hb; [|exact B']. congruence. }
  split; [done| | |congruence].
  - intros q Hq. assert (q ∈ olds) as Hqo by (apply list_elem_of_filter in Hq as [_ Hq]; done).
    destruct (Ho q Hqo) as (x & Hx & Hm & Hb). exists x. split; [done|]. split; [done|].
    apply Hkeep; [set_solver|]. rewrite lookup_insert_ne; [done|]. congruence.
  - apply Forall2_app.
    + eapply Forall2_impl_in; [exact Hn|]. intros q x Hq Hx. apply Hkeep; [set_solver|].
      rewrite lookup_insert_ne; [done|]. congruence.
    + constructor; [|done]. apply Hkeep; [set_solver|]. apply lookup_insert_eq.
Qed.

(** The callback of the receiving loop on one message. *)
Lemma parse_msg_ok oom ext ct ops m b pp_cb (Q : Z → store D → Prop) st :
  carries oom ops m b → st_ok ext ct st →
  rwp (parse_obj b pp_cb) (λ r st', r ≠ - NLE_OPNOTSUPP ∧ Q r st') st →
  (∀ st', oom → st_ok ext ct st' → keeps st st' → body st' = body st → Q (- Nl.NLE_NOMEM) st') →
  rwp (nl_cache_parse ops m pp_cb) Q st.
Proof.
  intros [_ _ (l & Hl & Hh) (ty & act & Hty & Hact) Hp] Hok Hobj Hup. unfold nl_cache_parse.
  apply rwp_bind, (rwp_lift _ true).
  { unfold nlmsg_valid_hdr. rewrite Hl, Nl.some_bind.
    destruct (Z.ltb_spec l (Nl.nlmsg_msg_size (co_hdrsize ops))); [lia|done]. }
  apply rwp_bind, (rwp_lift _ ty); [done|].
  apply (parse_types_ok _ _ act); [done|]. destruct (Hp pp_cb st) as [E|[Hm Hg] ]; [unfold rwp; by rewrite E|].
  eapply rwp_mono; [by apply Hg|]. intros r st' (-> & Hok' & K & B). split; [done|]. by apply Hup.
Qed.

Lemma syncing_caches ext ct B c kd olds qs dn st a :
  syncing ext ct B c kd olds qs dn st → kd !! c = Some a →
  ∃ k, caches st !! c = Some k ∧ c_ops k = a.
Proof.
  intros [_ _ _ Hk] Ha. rewrite <- Hk in Ha. unfold kinds in Ha. rewrite lookup_fmap in Ha.
  destruct (caches st !! c) as [k|]; [|done]. injection Ha as <-. eauto.
Qed.

Lemma rwp_feed (f : callback (store D)) m ms Q st :
  (a_msg_copy st m = false → Q (- Nl.NLE_NOMEM) st) →
  rwp (f m) (λ r st', if (r =? 0) || (r =? 1) then rwp (feed a_msg_copy f ms) Q st' else Q r st') st →
  rwp (feed a_msg_copy f (m :: ms)) Q st.
Proof.
  unfold rwp. cbn [feed]. destruct (a_msg_copy st m); [intros _|by intros HQ _; apply HQ]. destruct (f m st) as [ [r st']|]; [|done]. simpl.
  by destruct ((r =? 0) || (r =? 1)).
Qed.

(** All messages: either memory runs out, or every object is in. *)
Lemma feed_dump oom ext ct B c kd a cb ms bs : 
  memory oom → calloc_ok → kd !! c = Some a → Forall2 (carries oom (cache_ops_at a)) ms bs →
  Forall (news_obj (cache_ops_at a)) bs → StronglySorted (λ x y, same_id x y = false) bs →
  ∀ olds qs dn st, syncing ext ct B c kd olds qs dn st →
  Forall (λ x, Forall (λ y, same_id x y = false) bs) dn →
  rwp (feed a_msg_copy (λ msg, nl_cache_parse (cache_ops_at a) msg (resync_cb c cb)) ms) (λ r st',
    oom ∧ r = - Nl.NLE_NOMEM ∧ (∃ ct', st_ok ext ct' st') ∨
    r = 0 ∧ ∃ ps, length ps = length bs ∧
      let s := sync cb B c olds (zip ps bs) in
      syncing ext ct B c kd s.1 (qs ++ ps) (dn ++ bs) st' ∧ log st' = log st ++ s.2) st.
Proof.
  intros Hmem Hca Hkd Hms. induction Hms as [|m b ms bs Hm Hms IH]; intros Hnw Hs olds qs dn st Hsy Hap.
  { right. split; [done|]. exists []. split; [done|]. simpl. by rewrite !app_nil_r. }
  apply StronglySorted_inv in Hs as [Hs Hb]. apply list.Forall_cons in Hnw as [Hnew Hnw].
  destruct (syncing_caches _ _ _ _ _ _ _ _ _ _ Hsy Hkd) as (k & Hk & <-).
  assert (Forall (λ x, same_id x b = false) dn) as Hapb.
  { eapply list.Forall_impl; [exact Hap|]. intros x Hx. by apply list.Forall_cons in Hx as [? _]. }
  pose proof (syncing_found _ _ _ _ _ _ _ _ _ _ Hsy Hapb) as Ef.
  set (old := found_b B b olds) in *.
  assert (old = 0 ∨ old ∈ olds) as Hold by apply found_in.
  pose proof (syncing_drop _ _ _ _ _ _ _ _ _ _ Hsy Hold) as Ed.
  assert (∀ p, told_b cb (body st) c p b old = told_b cb B c p b old) as Et.
  { intros p. unfold told_b. destruct (Z.eqb_spec old 0); [done|]. destruct Hold as [?|Hin]; [done|].
    destruct (sy_old _ _ _ _ _ _ _ _ _ Hsy _ Hin) as (x & -> & _ & ->). done. }
  apply rwp_feed.
  { intros Ecp. left. split; [by apply (proj2 (proj2 Hmem) _ _ Ecp)|]. split; [done|]. eexists. apply Hsy. }
  eapply parse_msg_ok; [exact Hm|apply Hsy| |].
  2:{ intros st' Hr Hok' _ _. left. split; [done|]. split; [done|]. by eexists. }
  destruct Hm as [Eops Efl _ _ _].
  eapply rwp_mono.
  { eapply parse_include_ok; [done|apply Hsy|apply lookup_insert_eq|exact Hk|done..]. }
  cbv zeta. rewrite Ef. intros r st' [(-> & E0 & ->)|(-> & p & Hp & Hfresh & Hok' & B' & K' & I' & L')].
  { split; [done|]. left. split; [by apply (proj1 Hmem _ E0)|]. split; [done|]. eexists. apply Hsy. }
  split; [done|]. cbn [Z.eqb orb]. rewrite Ed in Hok'.
  unfold push in Hok'. rewrite alter_insert_eq, <- app_assoc in Hok'.
  pose proof (syncing_step _ _ _ _ _ _ _ _ _ _ _ _ _ Hsy Hfresh Hok' B' K') as Hsy'.
  eapply rwp_mono; [apply (IH Hnw Hs _ _ _ _ Hsy')|].
  { apply Forall_app. split; [|by constructor].
    eapply list.Forall_impl; [exact Hap|]. intros x Hx. by apply list.Forall_cons in Hx as [_ ?]. }
  intros r st'' [?|(-> & ps & Hlen & Hsy'' & L'')]; [by left|right]. split; [done|].
  exists (p :: ps). split; [simpl; congruence|]. cbn [zip zip_with sync fst snd]. fold old.
  rewrite <- !app_assoc in Hsy''. split; [done|]. by rewrite L'', L', Et, app_assoc.
Qed.

(** ** Receiving it *)

Definition set_io (i : nl_io) st : store D :=
  mkStore (objs st) (caches st) (hs st) (log st) i.

Lemma st_ok_io ext ct st i : st_ok ext ct st → st_ok ext ct (set_io i st).
Proof. intros [ [? ? ? ? ? ? ? ?] N T]. by split; [split|..]. Qed.

(** The kernel's answer waits in the socket. *)
Record dumped (i : nl_io) (mss : list (list (list Z))) (ms : list (list Z)) (fin : list Z)
    (rest : list datagram) : Prop := {
  du_incoming : io_incoming i = dump_dgs mss ms fin ++ rest;
  du_first : Forall (λ ms, ms ≠ [] ∧ Forall (part_msg (io_seq_expect i) false) ms) mss;
  du_last : Forall (part_msg (io_seq_expect i) false) ms;
  du_fin : part_msg (io_seq_expect i) true fin;
}.

Lemma recvmsgs_ok cb f st mss ms fin rest (Q : option Z → store D → Prop) :
  valid_only cb f → dumped (io st) mss ms fin rest →
  rwp (feed a_msg_copy f (concat mss ++ ms)) (λ r st', ∀ i, (r = 0 → io_incoming i = rest) →
    Q (Some (if r =? 2 then 0 else r)) (set_io i st') ∧
    (r = 0 → a_msg_copy st' fin = false → Q (Some (- Nl.NLE_NOMEM)) (set_io i st'))) st →
  rwp (nl_recvmsgs cb) Q st.
Proof.
  intros Hcb [Hin H1 H2 H3] Hf. unfold rwp, nl_recvmsgs.
  destruct (recv_dump a_msg_copy cb f Hcb mss ms fin rest (mkRst st (io_seq_expect (io st)) false) H1 H2 H3)
    as (rest' & mp & E).
  rewrite Hin, E. cbn [r_user]. unfold rwp in Hf. unfold dump_result.
  destruct (feed a_msg_copy f (concat mss ++ ms) st) as [ [r st']|]; [|done].
  destruct (Z.eqb_spec r 0) as [->|Hr]; [|by apply (Hf (mkIo _ _ _ _))].
  destruct (a_msg_copy st' fin) eqn:Ecp; [by apply (Hf (mkIo _ _ _ _))|].
  by apply (proj2 (Hf (mkIo _ _ _ _) (λ _, eq_refl))).
Qed.

(** The callbacks of the socket do not get in the way. *)
Definition plain_cb : Prop :=
  cb_set (s_cb (D := D)) NL_CB_MSG_IN = None ∧ (∀ e, seq_pass (s_cb (D := D)) e e) ∧
  cb_set (s_cb (D := D)) NL_CB_FINISH = None.

Lemma plain_valid f : plain_cb → valid_only (nl_socket_modify_cb s_cb NL_CB_VALID f) f.
Proof. intros (H1 & H2 & H3). by split. Qed.

(** The objects of a dump are not marked. *)
Lemma carries_unmarked oom ops ms bs :
  Forall2 (carries oom ops) ms bs → Forall (λ b, marked b = false) bs.
Proof.
  induction 1 as [|m b l k [_ Efl _ _ _] _ IH]; [constructor|]. constructor; [|done].
  destruct b as [ [ [ [? ?] fl] ?] ?]. simpl in *. by subst.
Qed.

(** ** The theorem *)

Section Main.
Context (ext : Z → Z) (ct : gmap Z (list Z)) (c a : Z) (ps : list Z).
Context (mss : list (list (list Z))) (ms : list (list Z)) (fin : list Z) (rest : list datagram).
Context (bs : list (Z * Z * Z * Z * D)).
Context (oom : Prop) (Hmem : memory oom) (Hca : calloc_ok) (Hplain : plain_cb).
Context (Hms : Forall2 (carries oom (cache_ops_at a)) (concat mss ++ ms) bs).
Context (Hnw : Forall (news_obj (cache_ops_at a)) bs).
Context (Hap : StronglySorted (λ x y, same_id x y = false) bs).

Lemma is_marked_news st qs dn :
  Forall2 (λ q b, body st !! q = Some b) qs dn → Forall (λ b, marked b = false) dn →
  Forall (λ q, is_marked st q = false) qs.
Proof.
  induction 1 as [|q b qs dn Hq Hqs IH]; intros Hd; [constructor|]. constructor.
  - unfold is_marked. rewrite Hq. by apply list.Forall_cons in Hd as [? _].
  - apply IH. by apply list.Forall_cons in Hd as [_ ?].
Qed.

Lemma filter_all {A} (f : A → bool) l : (∀ x, x ∈ l → f x = true) → List.filter f l = l.
Proof.
  induction l as [|x l IH]; intros Hf; [done|]. simpl. rewrite (Hf x) by set_solver. f_equal.
  apply IH. set_solver.
Qed.

Lemma filter_none {A} (f : A → bool) l : (∀ x, x ∈ l → f x = false) → List.filter f l = [].
Proof.
  induction l as [|x l IH]; intros Hf; [done|]. simpl. rewrite (Hf x) by set_solver.
  apply IH. set_solver.
Qed.

(** The last loop of [nl_cache_resync]. *)
Lemma finish_ok B kd olds qs st cb :
  syncing ext ct B c kd olds qs bs st →
  rwp (drop_marked c cb) (λ _ st', st_ok ext (<[c := qs]> ct) st' ∧
    Forall2 (λ q b, body st' !! q = Some b) qs bs ∧ log st' = log st ++ deleted cb c olds) st.
Proof.
  intros [Hok Ho Hn Hk]. pose proof (is_marked_news _ _ _ Hn (carries_unmarked _ _ _ _ Hms)) as Hu.
  rewrite list.Forall_forall in Hu.
  assert (∀ p, p ∈ olds → is_marked st p = true) as Hm.
  { intros p Hp. destruct (Ho p Hp) as (x & _ & Hx & Hb). unfold is_marked. by rewrite Hb. }
  eapply rwp_mono; [eapply drop_marked_ok; [exact Hok|apply lookup_insert_eq]|].
  rewrite !List.filter_app, (filter_none _ olds), (filter_all _ qs), (filter_all _ olds), (filter_none _ qs), app_nil_r;
    [|intros x Hx; first [by rewrite Hu|by rewrite Hm]..].
  intros [] st' (Hok' & [B' K' L' I']). rewrite insert_insert_eq in Hok'. cbn [app] in Hok'.
  split; [done|]. split; [|done]. eapply Forall2_impl_in; [exact Hn|]. intros q b Hq Hb.
  destruct (core_mem _ _ _ Hok' c qs q) as (o & Hoq & _); [apply lookup_insert_eq|done|].
  pose proof (body_lookup _ _ _ Hoq) as E. rewrite E. eapply lookup_weaken in E; [|exact B']. congruence.
Qed.

(** What [nl_cache_resync] does: memory runs out, with the store still in order, or the cache holds
    the dumped objects, and the callback was told about each new and changed object and
    then about each one that is gone. *)
Theorem resync_ok st k f err reply cb :
  st_ok ext ct st → ct !! c = Some ps → caches st !! c = Some k → c_ops k = a →
  co_request_update (cache_ops_at a) = Some f →
  (∀ st', f c st' = Some (err, set_io (reply (io st')) st')) → 0 ≤ err →
  dumped (reply (io st)) mss ms fin rest →
  rwp (nl_cache_resync c cb) (λ r st',
    oom ∧ r = Some (- Nl.NLE_NOMEM) ∧ (∃ ct', st_ok ext ct' st') ∨
    r = Some 0 ∧ ∃ qs,
      st_ok ext (<[c := qs]> ct) st' ∧ Forall2 (λ q b, body st' !! q = Some b) qs bs ∧
      let s := sync cb (mark <$> body st) c ps (zip qs bs) in
      log st' = log st ++ s.2 ++ deleted cb c s.1) st.
Proof.
  intros Hok Hc Hk Ea Hreq Hf He Hd. unfold nl_cache_resync.
  eapply rwp_seq; [by eapply mark_all_ok|]. intros [] st1 (Hok1 & [M1 M2 M3 M4]).
  destruct (kinds_cache _ _ _ _ M2 Hk) as (k1 & Hk1 & Ek1).
  unfold nl_cache_request_full_dump. apply rwp_bind, rwp_bind, (rwp_cache _ k1); [done|].
  rewrite Ek1, Ea, Hreq. unfold rwp at 1. rewrite Hf, M4. destruct (Z.ltb_spec err 0); [lia|].
  set (st2 := set_io (reply (io st)) st1). assert (st_ok ext ct st2) as Hok2 by by apply st_ok_io.
  unfold __cache_pickup. apply rwp_bind, rwp_bind, (rwp_cache _ k1); [done|].
  apply rwp_bind. unfold rwp at 1. destruct (a_cb_clone st2) eqn:Ecl; cbn [negb].
  2:{ apply rwp_ret. left. split; [by apply (proj1 (proj2 Hmem) _ Ecl)|]. split; [done|]. by eexists. }
  eapply recvmsgs_ok; [by apply plain_valid|exact Hd|]. rewrite Ek1, Ea.
  assert (syncing ext ct (mark <$> body st) c (kinds st) ps [] [] st2) as Hsy.
  { split; [by rewrite app_nil_r, insert_id| |done|done]. intros p Hp.
    destruct (core_mem _ _ _ Hok _ _ p Hc Hp) as (o & Ho & _). exists (mark (body_of o)).
    rewrite lookup_fmap, (body_lookup _ _ _ Ho). split; [done|]. split; [apply marked_mark|].
    change (body st2) with (body st1). by rewrite M1, bool_decide_true, (body_lookup _ _ _ Ho). }
  assert (kinds st !! c = Some a) as Hkd by (unfold kinds; by rewrite lookup_fmap, Hk, <- Ea).
  eapply rwp_mono; [by eapply feed_dump|]. cbv zeta.
  intros r st3 [(Hm & -> & ct' & Hok3)|(-> & qs & Hlen & Hsy3 & L3)] i Hi.
  { split; [|done]. apply rwp_ret. left. split; [done|]. split; [done|]. exists ct'. by apply st_ok_io. }
  split.
  2:{ intros _ Ecp. apply rwp_ret. left. split; [by apply (proj2 (proj2 Hmem) _ _ Ecp)|]. split; [done|].
      eexists. apply st_ok_io, Hsy3. }
  cbn [Z.eqb Z.ltb Z.compare app] in *.
  eapply rwp_seq; [eapply (finish_ok _ _ _ _ (set_io i st3) cb)|].
  { destruct Hsy3 as [? ? ? ?]. by split; [apply st_ok_io|..]. }
  intros [] st4 (Hok4 & Hb4 & L4). apply rwp_ret. right. split; [done|]. exists qs.
  split; [done|]. split; [done|]. cbn [log set_io] in L4. rewrite L4, L3.
  change (log st2) with (log st1). by rewrite M3, app_assoc.
Qed.
End Main.
End Resync.
