(* ===== verification/CacheApi.v ===== *)
(** * Programs that use objects and caches

    A program that only touches objects it holds a reference to, or that are in a cache,
    and that gives back what it holds: its calls never crash and never leak.  The rules of
    use ([may]) and the effect of a call ([after]) are stated on the references held by the
    program and the contents of the caches alone. *)

From S2P Require Import Prelude Netlink NlError Recv NlList.
From S2P Require Import Objects Cache CacheInv CacheOps CacheLoop CacheSync CacheResync.

Section Api.
Context {D : Type} `{World D}.
Local Open Scope store_scope.

Implicit Types (st : store D) (ct : gmap Z (list Z)) (ext : Z → Z).

Inductive call :=
  | CAlloc (a : Z) | CGet (p : Z) | CPut (p : Z) | CClone (p : Z) | CMark (p : Z)
  | CCacheAlloc (a : Z) | CAdd (c p : Z) | CMove (c p : Z) | CRemove (p : Z) | CClear (c : Z)
  | CCacheFree (c : Z) | CSearch (c p : Z) | CInclude (c p : Z) (cb : bool) | CSubset (c p : Z).

(** The result of a call; 0 for the ones that return nothing. *)
Definition exec (x : call) : R D Z :=
  match x with
  | CAlloc a => nl_object_alloc a
  | CGet p => nl_object_get p ;; rret 0
  | CPut p => nl_object_put p ;; rret 0
  | CClone p => nl_object_clone p
  | CMark p => nl_object_mark p ;; rret 0
  | CCacheAlloc a => nl_cache_alloc a
  | CAdd c p => nl_cache_add c p
  | CMove c p => nl_cache_move c p
  | CRemove p => nl_cache_remove p ;; rret 0
  | CClear c => nl_cache_clear c ;; rret 0
  | CCacheFree c => nl_cache_free c ;; rret 0
  | CSearch c p => nl_cache_search c p
  | CInclude c p cb => nl_cache_include c p cb
  | CSubset c p => nl_cache_subset c p
  end.

(** The object is there: it is held, or in a cache. *)
Definition live ext ct (p : Z) : Prop := 0 < ext p ∨ ∃ c ps, ct !! c = Some ps ∧ p ∈ ps.

(** What a program may call. *)
Definition may ext ct (x : call) : Prop :=
  match x with
  | CAlloc _ | CCacheAlloc _ => True
  | CGet p | CClone p | CMark p | CRemove p => live ext ct p
  | CPut p => p = 0 ∨ 0 < ext p
  | CAdd c p | CMove c p | CSearch c p | CSubset c p => is_Some (ct !! c) ∧ live ext ct p
  | CInclude c p _ => is_Some (ct !! c) ∧ 0 < ext p
  | CClear c => is_Some (ct !! c)
  | CCacheFree c => c = 0 ∨ is_Some (ct !! c)
  end.

(** What a call does. *)
Definition after (x : call) (r : Z) ext ct ext' ct' : Prop :=
  let same := (∀ q, ext' q = ext q) ∧ ct' = ct in
  match x with
  | CAlloc _ | CClone _ =>
      r = 0 ∧ same ∨ r ≠ 0 ∧ ¬ live ext ct r ∧ (∀ q, ext' q = add_ref r 1 ext q) ∧ ct' = ct
  | CGet p => (∀ q, ext' q = add_ref p 1 ext q) ∧ ct' = ct
  | CPut p => (∀ q, ext' q = if p =? 0 then ext q else add_ref p (-1) ext q) ∧ ct' = ct
  | CMark _ => same
  | CCacheAlloc _ => r = 0 ∧ same ∨ r ≠ 0 ∧ ct !! r = None ∧ (∀ q, ext' q = ext q) ∧ ct' = <[r := []]> ct
  | CAdd c p =>
      r < 0 ∧ same ∨
      r = 0 ∧ (∀ q, ext' q = ext q) ∧ ∃ q, q ≠ 0 ∧ (q = p ∨ ¬ live ext ct q) ∧ ct' = push c q ct
  | CMove c p => r < 0 ∧ same ∨ r = 0 ∧ (∀ q, ext' q = ext q) ∧ ct' = push c p (without p ct)
  | CRemove p => (∀ q, ext' q = ext q) ∧ ct' = without p ct
  | CClear c => (∀ q, ext' q = ext q) ∧ ct' = <[c := []]> ct
  | CCacheFree c => (∀ q, ext' q = ext q) ∧ ct' = delete c ct
  | CSearch c p =>
      (r = 0 ∨ ∃ ps, ct !! c = Some ps ∧ r ∈ ps) ∧ (∀ q, ext' q = hold r ext q) ∧ ct' = ct
  | CInclude c p _ =>
      r < 0 ∧ same ∨
      r = 0 ∧ (∀ q, ext' q = ext q) ∧
      (ct' = ct ∨ ∃ old, (old = 0 ∨ ∃ ps, ct !! c = Some ps ∧ old ∈ ps) ∧
         (ct' = drop_old old ct ∨ ct' = push c p (without p (drop_old old ct))))
  | CSubset c p =>
      r = 0 ∧ same ∨
      r ≠ 0 ∧ ct !! r = None ∧ (∀ q, ext' q = ext q) ∧
      ∃ l, (∀ q, q ∈ l → ¬ live ext ct q) ∧ ct' = <[r := l]> ct
  end.

(** Tables of message types are closed by a negative number. *)
Definition closed_tables : Prop :=
  ∀ a, Exists (λ t, t.1 < 0) (co_msgtypes (cache_ops_at (D := D) a)).

Context (Hca : calloc_ok) (Hcl : clonable) (Htab : closed_tables).

Lemma live_obj ext ct st p : st_ok ext ct st → live ext ct p ↔ is_Some (objs st !! p).
Proof. intros Hok. symmetry. apply core_live, Hok. Qed.

Lemma not_live ext ct st p : st_ok ext ct st → objs st !! p = None → ¬ live ext ct p.
Proof. intros Hok Hn. rewrite (live_obj _ _ _ _ Hok), Hn. by intros []. Qed.

(** The table has the action, or ends the search. *)
Lemma include_types_total types ty (k : nl_act → R D Z) :
  Exists (λ t, t.1 < 0) types →
  include_types types ty k = rret (- NLE_MSGTYPE_NOSUPPORT) ∨ ∃ act, include_types types ty k = k act.
Proof.
  induction types as [|[id act] types IH]; [intros H0; by inversion H0|]. intros Hex. simpl.
  destruct (Z.ltb_spec id 0); [by left|]. destruct (id =? ty); [right; by eexists|]. apply IH.
  inversion Hex; subst; [simpl in *; lia|done].
Qed.

(** ** [nl_cache_include] and [nl_cache_subset] *)

Lemma nl_cache_include_ok ext ct st c p cb :
  st_ok ext ct st → is_Some (ct !! c) → 0 < ext p →
  rwp (nl_cache_include c p cb) (λ r st', ∃ ct', st_ok ext ct' st' ∧
    after (CInclude c p cb) r ext ct ext ct') st.
Proof.
  intros Hok [ps Hc] He. destruct (held_obj _ _ _ _ (ok_core _ _ _ Hok) He) as [o Ho].
  destruct (core_kind _ _ _ _ _ (ok_core _ _ _ Hok) Hc) as [k Hk].
  unfold nl_cache_include. apply rwp_bind, (rwp_cache _ k); [done|]. apply rwp_bind, (rwp_obj _ o); [done|].
  destruct (Z.eqb_spec (co_obj_ops (cache_ops_at (c_ops k))) (ce_ops o)) as [Et|Et]; cbn [negb].
  2:{ exists ct. split; [done|]. by left. }
  assert (∀ old, found st p ps = old → old = 0 ∨ ∃ ps, ct !! c = Some ps ∧ old ∈ ps) as Hfound.
  { intros old <-. unfold found. destruct (List.find _ ps) as [q|] eqn:E; [|by left]. right.
    exists ps. split; [done|]. apply find_some in E as [E _]. by apply list_elem_of_In. }
  destruct (include_types_total (co_msgtypes (cache_ops_at (c_ops k))) (ce_msgtype o)
    (λ act, cache_include c p act cb) (Htab _)) as [->|[act ->]].
  { exists ct. split; [done|]. by left. }
  destruct act; try (by exists ct; split; [done|right; split; [done|split; [done|by left]]]).
  - eapply rwp_mono; [by eapply include_new_ok|]. intros r st' (-> & Hok' & _). eexists.
    split; [exact Hok'|]. right. split; [done|]. split; [done|]. right. eauto.
  - eapply rwp_mono; [eapply include_del_ok; [done|done|by eexists]|]. intros r st' (-> & Hok' & _). eexists.
    split; [exact Hok'|]. right. split; [done|]. split; [done|]. right. eauto.
Qed.

Lemma match_filter_total st p f o x :
  objs st !! p = Some o → objs st !! f = Some x →
  rwp (nl_object_match_filter p f) (λ r st', r = match_filter o x ∧ st' = st) st.
Proof.
  intros Ho Hx. unfold nl_object_match_filter. apply rwp_bind, (rwp_obj _ o); [done|].
  by apply rwp_bind, (rwp_obj _ x); [done|].
Qed.

(** An object that is in a cache is cloned when it is added to another one. *)
Lemma add_cached ext ct st c ps k p o :
  st_ok ext ct st → objs st !! p = Some o → ce_cache o ≠ 0 → ct !! c = Some ps → caches st !! c = Some k →
  rwp (nl_cache_add c p) (λ r st', kinds st' = kinds st ∧
    (st_ok ext ct st' ∧ keeps st st' ∨
     ∃ q, q ≠ 0 ∧ objs st !! q = None ∧ st_ok ext (push c q ct) st')) st.
Proof.
  intros Hok Ho E Hc Hk. eapply rwp_mono; [by eapply nl_cache_add_ok; eauto|].
  intros r st' [(_ & Hok' & K & _)|[(_ & _ & _ & He)|(_ & _ & q & b & Hq & Hok' & G & _)]].
  - split; [apply K|by left].
  - destruct E. by eapply linked_not_empty; [apply Hok|..].
  - split; [apply G|]. right. exists q. split; [done|]. split; [by eapply grows_none|done].
Qed.

(** The objects of the caches [ct] are still there when only the new cache [r] grows. *)
Lemma obj_stays ext ct st r l c ps p :
  core ext (<[r := l]> ct) st → r ≠ c → ct !! c = Some ps → p ∈ ps →
  ∃ o, objs st !! p = Some o ∧ ce_cache o = c.
Proof. intros C Hr Hc Hp. eapply (core_mem _ _ _ C c ps); [|done]. by rewrite lookup_insert_ne. Qed.

Lemma subset_ok ext ct st c f :
  st_ok ext ct st → is_Some (ct !! c) → live ext ct f →
  rwp (nl_cache_subset c f) (λ r st', ∃ ct', st_ok ext ct' st' ∧
    after (CSubset c f) r ext ct ext ct') st.
Proof.
  intros Hok [ps Hc] Hf. pose proof (proj1 (live_obj _ _ _ _ Hok) Hf) as [x Hx].
  destruct (core_kind _ _ _ _ _ (ok_core _ _ _ Hok) Hc) as [k Hk].
  assert (f ≠ 0) as Hf0 by (intros ->; destruct (core_null _ _ _ Hok); congruence).
  unfold nl_cache_subset. rewrite (proj2 (Z.eqb_neq _ _) Hf0).
  apply rwp_bind, (rwp_cache _ k); [done|]. eapply rwp_seq; [by eapply cache_alloc_ok|]. cbn beta.
  intros r st1 [(-> & _ & ->)|(Hr & Hrn & Eo & Hok1 & K1 & _)]; [exists ct; split; [done|by left]|].
  rewrite (proj2 (Z.eqb_neq _ _) Hr). assert (r ≠ c) as Hrc by congruence.
  set (I (xs ys : list Z) (st' : store D) := ps = xs ++ ys ∧ kinds st' = kinds st1 ∧
    ∃ l, st_ok ext (<[r := l]> ct) st' ∧ ∀ q, q ∈ l → ¬ live ext ct q).
  eapply (rwp_seq _ _ (λ _ st', ∃ l, st_ok ext (<[r := l]> ct) st' ∧ ∀ q, q ∈ l → ¬ live ext ct q));
    [eapply (each_entry_ok c I) with (ps := ps)|].
  - intros xs ys st' (-> & _ & l & Hok' & _). eapply core_list; [apply Hok'|]. by rewrite lookup_insert_ne.
  - intros xs p ys st' (Eps & Ek & l & Hok' & Hl).
    destruct (obj_stays _ _ _ _ _ _ _ p (ok_core _ _ _ Hok') Hrc Hc) as (o & Ho & Eoc); [rewrite Eps; set_solver|].
    assert (live ext (<[r := l]> ct) f) as Hf'.
    { destruct Hf as [?|(c' & ps' & Hc' & Hin)]; [by left|right]. exists c', ps'. split; [|done].
      rewrite lookup_insert_ne; [done|]. congruence. }
    apply (live_obj _ _ _ _ Hok') in Hf' as [y Hy].
    eapply rwp_seq; [by eapply match_filter_total|]. intros m st0 (-> & ->).
    destruct (match_filter o y); cbn [negb].
    2:{ apply rwp_ret. split; [by rewrite <- app_assoc|]. split; [done|]. by exists l. }
    assert (∃ k', caches st' !! r = Some k') as [k' Hk'].
    { eapply core_kind; [apply Hok'|]. apply lookup_insert_eq. }
    assert (ce_cache o ≠ 0) as Ec0.
    { rewrite Eoc. eapply core_cache_ne; [apply Hok|by eexists]. }
    eapply rwp_seq; [eapply add_cached; [exact Hok'|exact Ho|exact Ec0|apply lookup_insert_eq|exact Hk']|].
    intros _ st'' (Ek' & Hst). apply rwp_ret. split; [by rewrite <- app_assoc|]. split; [congruence|].
    destruct Hst as [ [Hok'' _]|(q & Hq & Hqn & Hok'')]; [by exists l|]. exists (l ++ [q]).
    unfold push in Hok''. rewrite alter_insert_eq in Hok''. split; [done|].
    intros z [Hz|Hz%list_elem_of_singleton]%elem_of_app; [by apply Hl|]. subst z. intros Hlv.
    apply (not_live _ _ _ _ Hok' Hqn). destruct Hlv as [?|(c' & ps' & Hc' & Hin)]; [by left|right].
    exists c', ps'. split; [|done]. rewrite lookup_insert_ne; [done|]. congruence.
  - intros xs st' (_ & _ & Hl). done.
  - split; [done|]. split; [done|]. exists []. split; [done|]. set_solver.
  - intros _ st' (l & Hok' & Hl). apply rwp_ret. eexists. split; [exact Hok'|]. right.
    split; [done|]. split; [done|]. split; [done|]. by exists l.
Qed.

(** ** Every call *)

Lemma exec_ok ext ct st x :
  st_ok ext ct st → may ext ct x →
  rwp (exec x) (λ r st', ∃ ext' ct', st_ok ext' ct' st' ∧ after x r ext ct ext' ct') st.
Proof.
  intros Hok Hmay. destruct x; simpl in Hmay; simpl exec.
  - eapply rwp_mono; [by eapply object_alloc_ok|]. intros r st' [ [-> ->]|(Hr & Hok' & G & _)].
    + exists ext, ct. split; [done|]. by left.
    + eexists _, ct. split; [exact Hok'|]. right. split; [done|].
      split; [|done]. eapply not_live; [done|]. by eapply grows_none.
  - eapply rwp_seq; [eapply get_ok; [done|by apply (live_obj _ _ _ _ Hok)]|].
    intros [] st' (Hok' & _). apply rwp_ret. by eexists _, ct.
  - destruct (Z.eqb_spec p 0) as [->|Hp].
    + apply rwp_bind, rwp_ret, rwp_ret. by exists ext, ct.
    + destruct Hmay as [?|Hmay]; [done|]. eapply rwp_seq; [by eapply put_ok|].
      intros [] st' (Hok' & _). apply rwp_ret. eexists _, ct. split; [exact Hok'|]. simpl.
      by rewrite (proj2 (Z.eqb_neq _ _) Hp).
  - pose proof (proj1 (live_obj _ _ _ _ Hok) Hmay) as [o Ho].
    eapply rwp_mono; [by eapply clone_ok|]. intros r st' [(-> & Hok' & _)|(Hr & Hok' & (b & G & _) & _)].
    + exists ext, ct. split; [done|]. by left.
    + eexists _, ct. split; [exact Hok'|]. right. split; [done|].
      split; [|done]. eapply not_live; [done|]. by eapply grows_none.
  - pose proof (proj1 (live_obj _ _ _ _ Hok) Hmay) as [o Ho].
    eapply rwp_seq; [by eapply mark_ok|]. intros [] st' (Hok' & _). apply rwp_ret. by exists ext, ct.
  - eapply rwp_mono; [by eapply cache_alloc_ok|]. intros r st' [(-> & _ & ->)|(Hr & Hrn & _ & Hok' & _)].
    + exists ext, ct. split; [done|]. by left.
    + eexists ext, _. split; [exact Hok'|]. by right.
  - destruct Hmay as [ [ps Hc] Hlv]. pose proof (proj1 (live_obj _ _ _ _ Hok) Hlv) as [o Ho].
    destruct (core_kind _ _ _ _ _ (ok_core _ _ _ Hok) Hc) as [k Hk].
    eapply rwp_mono; [by eapply nl_cache_add_ok; eauto|].
    intros r st' [(Hr & Hok' & K & _)|[(-> & Hok' & _ & _)|(-> & _ & q & b & Hq & Hok' & G & _)]].
    + exists ext, ct. split; [done|]. by left.
    + eexists ext, _. split; [exact Hok'|]. right. split; [done|]. split; [done|].
      exists p. split; [|auto]. intros ->. destruct (core_null _ _ _ Hok). congruence.
    + eexists ext, _. split; [exact Hok'|]. right. split; [done|]. split; [done|].
      exists q. split; [done|]. split; [|done]. right. eapply not_live; [done|]. by eapply grows_none.
  - destruct Hmay as [Hc Hlv]. pose proof (proj1 (live_obj _ _ _ _ Hok) Hlv) as [o Ho].
    destruct Hc as [ps Hc]. destruct (core_kind _ _ _ _ _ (ok_core _ _ _ Hok) Hc) as [k Hk].
    eapply rwp_mono; [eapply nl_cache_move_ok; [done|done|by eexists|done]|]. intros r st'.
    destruct (_ =? _); [intros (-> & Hok' & _)|intros (-> & ->)].
    + eexists ext, _. split; [exact Hok'|]. by right.
    + exists ext, ct. split; [done|]. by left.
  - eapply rwp_seq; [eapply remove_ok; [done|by apply (live_obj _ _ _ _ Hok)]|].
    intros [] st' (Hok' & _). apply rwp_ret. by eexists ext, _.
  - destruct Hmay as [ps Hc]. eapply rwp_seq; [by eapply clear_ok|].
    intros [] st' (Hok' & _). apply rwp_ret. by eexists ext, _.
  - destruct (Z.eqb_spec c 0) as [->|Hc0].
    + apply rwp_bind, rwp_ret, rwp_ret. exists ext, ct. split; [done|]. split; [done|].
      rewrite delete_id; [done|]. destruct (ct !! 0) eqn:E; [|done].
      destruct (core_cache_ne _ _ _ 0 (ok_core _ _ _ Hok)); [by eexists|done].
    + destruct Hmay as [?|[ps Hc]]; [done|]. eapply rwp_seq; [by eapply cache_free_ok|].
      intros [] st' (Hok' & _). apply rwp_ret. by eexists ext, _.
  - destruct Hmay as [ [ps Hc] Hlv]. eapply rwp_mono; [eapply search_ok; [done|done|by apply (live_obj _ _ _ _ Hok)]|].
    intros r st' (_ & Hok' & _ & Hr). eexists _, ct. split; [exact Hok'|]. split; [|done].
    destruct Hr as [?|Hr]; [by left|right; eauto].
  - destruct Hmay as [Hc He]. eapply rwp_mono; [by eapply nl_cache_include_ok|].
    intros r st' (ct' & Hok' & Ha). by exists ext, ct'.
  - destruct Hmay as [Hc Hlv]. eapply rwp_mono; [by eapply subset_ok|].
    intros r st' (ct' & Hok' & Ha). by exists ext, ct'.
Qed.

(** ** Programs *)

(** A program chooses each call by the results of the ones before. *)
Inductive plays (prog : list Z → option call) : list Z → store D → list Z → store D → Prop :=
  | plays_end rs st : prog rs = None → plays prog rs st rs st
  | plays_call rs st x r st1 rs' st' :
      prog rs = Some x → exec x st = Some (r, st1) → plays prog (rs ++ [r]) st1 rs' st' →
      plays prog rs st rs' st'.

(** Whatever the library answers within its contract, the next call is allowed, and the
    program ends, with [fin]. *)
Inductive polite (prog : list Z → option call) (fin : (Z → Z) → gmap Z (list Z) → Prop)
    : list Z → (Z → Z) → gmap Z (list Z) → Prop :=
  | polite_end rs ext ct : prog rs = None → fin ext ct → polite prog fin rs ext ct
  | polite_call rs ext ct x :
      prog rs = Some x → may ext ct x →
      (∀ r ext' ct', after x r ext ct ext' ct' → polite prog fin (rs ++ [r]) ext' ct') →
      polite prog fin rs ext ct.

Lemma polite_plays prog fin rs ext ct st :
  st_ok ext ct st → polite prog fin rs ext ct →
  ∃ rs' st' ext' ct', plays prog rs st rs' st' ∧ st_ok ext' ct' st' ∧ fin ext' ct'.
Proof.
  intros Hok Hp. revert st Hok. induction Hp as [rs ext ct Hn Hf|rs ext ct x Hx Hmay Hp IH]; intros st Hok.
  - exists rs, st, ext, ct. split; [by constructor|done].
  - pose proof (exec_ok _ _ _ _ Hok Hmay) as Hex. unfold rwp in Hex.
    destruct (exec x st) as [ [r st1]|] eqn:E; [|done]. destruct Hex as (ext1 & ct1 & Hok1 & Ha).
    destruct (IH _ _ _ Ha st1 Hok1) as (rs' & st' & ext' & ct' & Hpl & Hst').
    exists rs', st', ext', ct'. split; [by econstructor|done].
Qed.

(** A program that holds nothing and has no cache has freed all memory. *)
Lemma nothing_left ext st : st_ok ext ∅ st → (∀ p, ext p = 0) → objs st = ∅ ∧ caches st = ∅.
Proof.
  intros Hok He. split.
  - apply map_empty. intros p. destruct (objs st !! p) eqn:E; [|done].
    assert (is_Some (objs st !! p)) as Hs by by eexists. apply (core_live _ _ _ p (ok_core _ _ _ Hok)) in Hs.
    destruct Hs as [Hp|(c & ps & Hc & _)]; [specialize (He p); lia|]. by rewrite lookup_empty in Hc.
  - apply dom_empty_inv_L. by rewrite <- (core_caches _ _ _ Hok), dom_empty_L.
Qed.
End Api.
