(* ===== verification/CacheFill.v ===== *)
(** * Filling a new cache: [nl_cache_alloc_and_fill]

    A cache that is made and filled with a dump holds the dumped objects in their order;
    when anything fails, nothing is left behind. *)

From S2P Require Import Prelude Netlink NlError Attr Recv Dump NlList.
From S2P Require Import Objects Cache CacheInv CacheOps CacheLoop CacheSync CacheResync.

Section Fill.
Context {D : Type} `{World D}.
Local Open Scope store_scope.

Implicit Types (st : store D) (ct : gmap Z (list Z)) (ext : Z → Z) (b : Z * Z * Z * Z * D).

(** The cache [c] was made in the store [st0] and holds [qs], which are the objects [dn]. *)
Record filling ext ct (c : Z) (st0 : store D) (kd : gmap Z Z) (qs : list Z)
    (dn : list (Z * Z * Z * Z * D)) (st : store D) : Prop := {
  fi_ok : st_ok ext (<[c := qs]> ct) st;
  fi_new : Forall2 (λ q b, body st !! q = Some b) qs dn;
  fi_kinds : kinds st = kd;
  fi_old : body st0 ⊆ body st;
  fi_log : log st = log st0;
}.

(** What was there before is still there. *)
Lemma old_stays ext ct c st0 qs st' :
  st_ok ext ct st0 → ct !! c = None → st_ok ext (<[c := qs]> ct) st' →
  (∀ q x y, body st0 !! q = Some x → body st' !! q = Some y → x = y) → body st0 ⊆ body st'.
Proof.
  intros Hok0 Hc Hok' Hb. apply map_subseteq_spec. intros q x Hq.
  assert (is_Some (objs st' !! q)) as [o Ho].
  { apply (core_live _ _ _ q (ok_core _ _ _ Hok')).
    assert (is_Some (objs st0 !! q)) as Hl.
    { unfold body in Hq. rewrite lookup_fmap in Hq. by destruct (objs st0 !! q). }
    apply (core_live _ _ _ q (ok_core _ _ _ Hok0)) in Hl as [?|(c' & ps & Hc' & Hin)]; [by left|].
    right. exists c', ps. split; [|done]. rewrite lookup_insert_ne; [done|]. congruence. }
  pose proof (body_lookup _ _ _ Ho) as E. rewrite E. f_equal. symmetry. by eapply Hb.
Qed.

(** The new object itself is put into the cache. *)
Lemma parse_pickup_ok ext ct st c ps k b :
  calloc_ok → st_ok ext ct st → ct !! c = Some ps → caches st !! c = Some k →
  b.1.1.1.1 = co_obj_ops (cache_ops_at (c_ops k)) → b.1.1.2 = 0 →
  rwp (parse_obj b (pickup_cb c)) (λ r st',
    r = - Nl.NLE_NOMEM ∧ a_calloc st = 0 ∧ st' = st ∨
    r = 0 ∧ ∃ p, body st !! p = None ∧ st_ok ext (push c p ct) st' ∧
      body st' ⊆ <[p := b]> (body st) ∧ kinds st' = kinds st ∧ log st' = log st) st.
Proof.
  intros Hca Hok Hc Hk Eops Efl. eapply parse_obj_ok; [done|done|done|intros E; by left|].
  intros p o st2 Hp Hok2 G Ho2 Eb He2. pose proof (grows_none _ _ _ _ G) as Hfresh.
  destruct G as [F2 B2 K2 L2 I2]. destruct (kinds_cache _ _ _ _ K2 Hk) as (k2 & Hk2 & Ek2).
  eapply rwp_seq; [by eapply nl_cache_add_ok; eauto|]. unfold pickup_cb.
  assert (ce_ops o = b.1.1.1.1) as Eo by by rewrite <- Eb.
  intros r st3 [(_ & _ & _ & [Et|He])|[(-> & Hok3 & [B3 K3 L3 I3] & _)|(_ & He & _)]]; [congruence|congruence| |congruence].
  eapply rwp_seq; [eapply put_ok; [done|]|].
  { unfold add_ref. rewrite Z.eqb_refl, (core_dead _ _ _ Hok _ Hfresh). lia. }
  intros [] st4 (Hok4 & [B4 K4 L4 I4]). apply rwp_ret. right. split; [done|]. exists p. split; [done|].
  split; [eapply st_ok_ext; [|exact Hok4]; intros z; unfold add_ref; destruct (z =? p); lia|].
  split; [rewrite <- B2; by etrans|]. split; congruence.
Qed.

(** One more object. *)
Lemma filling_step ext ct c st0 kd qs dn st p b st' :
  st_ok ext ct st0 → ct !! c = None → filling ext ct c st0 kd qs dn st → body st !! p = None →
  st_ok ext (<[c := qs ++ [p]]> ct) st' → body st' ⊆ <[p := b]> (body st) → kinds st' = kinds st →
  log st' = log st →
  filling ext ct c st0 kd (qs ++ [p]) (dn ++ [b]) st'.
Proof.
  intros Hok0 Hc [Hok Hn Hk Ho Hl] Hp Hok' B' K' L'.
  assert (∀ q x, q ∈ qs ++ [p] → <[p := b]> (body st) !! q = Some x → body st' !! q = Some x) as Hkeep.
  { intros q x Hin Hq. destruct (core_mem _ _ _ Hok' c (qs ++ [p]) q) as (o & Hoq & _);
      [apply lookup_insert_eq|done|].
    pose proof (body_lookup _ _ _ Hoq) as Hb. rewrite Hb. eapply lookup_weaken in Hb; [|exact B']. congruence. }
  split; [done| |congruence| |congruence].
  2:{ eapply old_stays; [done|done|done|]. intros q x y Hx Hy. eapply lookup_weaken in Hx; [|exact Ho].
      eapply lookup_weaken in Hy; [|exact B']. rewrite lookup_insert_ne in Hy; congruence. }
  apply Forall2_app.
  - eapply Forall2_impl_in; [exact Hn|]. intros q x Hq Hx. apply Hkeep; [set_solver|].
    rewrite lookup_insert_ne; [done|]. congruence.
  - constructor; [|done]. apply Hkeep; [set_solver|]. apply lookup_insert_eq.
Qed.

(** All messages of the dump. *)
Lemma feed_pickup oom ext ct c st0 kd a ms bs :
  memory oom → calloc_ok → st_ok ext ct st0 → ct !! c = None → kd !! c = Some a →
  Forall2 (carries oom (cache_ops_at a)) ms bs →
  ∀ qs dn st, filling ext ct c st0 kd qs dn st →
  rwp (feed a_msg_copy (λ msg, nl_cache_parse (cache_ops_at a) msg (pickup_cb c)) ms) (λ r st',
    ∃ qs' dn', filling ext ct c st0 kd qs' dn' st' ∧ (oom ∧ r = - Nl.NLE_NOMEM ∨ r = 0 ∧ dn' = dn ++ bs)) st.
Proof.
  intros Hmem Hca Hok0 Hc Hkd Hms. induction Hms as [|m b ms bs Hm Hms IH]; intros qs dn st Hfi.
  { exists qs, dn. split; [done|]. right. by rewrite app_nil_r. }
  assert (∃ k, caches st !! c = Some k ∧ c_ops k = a) as (k & Hk & Ek).
  { rewrite <- (fi_kinds _ _ _ _ _ _ _ _ Hfi) in Hkd. unfold kinds in Hkd. rewrite lookup_fmap in Hkd.
    destruct (caches st !! c) as [k|]; [|done]. injection Hkd as <-. eauto. }
  apply rwp_feed.
  { intros Ecp. exists qs, dn. split; [done|]. left. split; [by apply (proj2 (proj2 Hmem) _ _ Ecp)|done]. }
  eapply parse_msg_ok; [exact Hm|apply Hfi| |].
  2:{ intros st' Hr Hok' [B K L I] Eb. cbn [Z.opp Z.eqb orb Nl.NLE_NOMEM Pos.eqb].
      exists qs, dn. split; [|by left]. destruct Hfi as [? ? ? ? ?]. split; [done|by rewrite Eb|congruence|by rewrite Eb|congruence]. }
  destruct Hm as [Eops Efl _ _ _]. subst a.
  eapply rwp_mono; [eapply parse_pickup_ok; [done|apply Hfi|apply lookup_insert_eq|exact Hk|done..]|].
  intros r st' [(-> & E0 & ->)|(-> & p & Hp & Hok' & B' & K' & L')].
  { split; [done|]. exists qs, dn. split; [done|]. left. split; [by apply (proj1 Hmem _ E0)|done]. }
  split; [done|]. cbn [Z.eqb orb]. unfold push in Hok'. rewrite alter_insert_eq in Hok'.
  pose proof (filling_step _ _ _ _ _ _ _ _ _ _ _ Hok0 Hc Hfi Hp Hok' B' K' L') as Hfi'.
  eapply rwp_mono; [by apply (IH _ _ _ Hfi')|]. intros r st'' (qs' & dn' & Hf & Hr).
  exists qs', dn'. split; [done|]. by rewrite <- app_assoc in Hr.
Qed.

(** ** [nl_cache_alloc_and_fill] *)

Lemma filling_io ext ct c st0 kd qs dn st i :
  filling ext ct c st0 kd qs dn st → filling ext ct c st0 kd qs dn (set_io i st).
Proof. intros [? ? ? ? ?]. by split; [apply st_ok_io|..]. Qed.

(** A store that is as it was, but for the connection. *)
Definition restored ext ct st st' : Prop := st_ok ext ct st' ∧ body st' = body st ∧ log st' = log st ∧ kinds st' = kinds st.

(** Freeing the new cache. *)
Lemma free_filled ext ct c st0 a qs dn st :
  st_ok ext ct st0 → ct !! c = None → filling ext ct c st0 (<[c := a]> (kinds st0)) qs dn st →
  rwp (nl_cache_free c) (λ _ st', restored ext ct st0 st') st.
Proof.
  intros Hok0 Hc [Hok Hn Hk Ho Hl]. eapply rwp_mono; [eapply cache_free_ok; [exact Hok|apply lookup_insert_eq]|].
  intros [] st' (Hok' & B' & K' & L' & _). rewrite delete_insert_id in Hok' by done.
  split; [done|]. split; [|split; [congruence|]].
  - apply map_eq. intros q. destruct (body st0 !! q) as [x|] eqn:E.
    + assert (is_Some (objs st' !! q)) as [o Hq].
      { apply (core_live _ _ _ q (ok_core _ _ _ Hok')), (core_live _ _ _ q (ok_core _ _ _ Hok0)).
        unfold body in E. rewrite lookup_fmap in E. by destruct (objs st0 !! q). }
      pose proof (body_lookup _ _ _ Hq) as E'. rewrite E'. eapply lookup_weaken in E'; [|exact B'].
      eapply lookup_weaken in E; [|exact Ho]. congruence.
    + unfold body in *. rewrite lookup_fmap in *. destruct (objs st' !! q) as [o|] eqn:Hq; [|done].
      assert (is_Some (objs st0 !! q)) as [? Hq0].
      { apply (core_live _ _ _ q (ok_core _ _ _ Hok0)), (core_live _ _ _ q (ok_core _ _ _ Hok')). by eexists. }
      by rewrite Hq0 in E.
  - rewrite K', Hk. apply delete_insert_id. unfold kinds. rewrite lookup_fmap.
    destruct (caches st0 !! c) eqn:E; [|done]. exfalso. assert (c ∈ dom ct) as Hd by (rewrite (core_caches _ _ _ Hok0); apply elem_of_dom; by eexists).
    apply elem_of_dom in Hd as [? Hd]. congruence.
Qed.

(** Filling the new cache. *)
Lemma refill_new_ok oom ext ct c a st0 st i f err reply mss ms fin rest bs :
  memory oom → calloc_ok → plain_cb (D := D) → st_ok ext ct st0 → ct !! c = None →
  Forall2 (carries oom (cache_ops_at a)) (concat mss ++ ms) bs →
  co_request_update (cache_ops_at a) = Some f →
  (∀ st', f c st' = Some (err (io st'), set_io (reply (io st')) st')) → io st = i →
  (0 ≤ err i → dumped (reply i) mss ms fin rest) →
  filling ext ct c st0 (<[c := a]> (kinds st0)) [] [] st →
  rwp (nl_cache_refill c) (λ r st', ∃ e qs dn, r = Some e ∧ filling ext ct c st0 (<[c := a]> (kinds st0)) qs dn st' ∧
    (oom ∧ e = - Nl.NLE_NOMEM ∨ e = err i ∧ e < 0 ∨ e = 0 ∧ dn = bs)) st.
Proof.
  intros Hmem Hca Hplain Hok Hc Hms Hreq Hf Hi Hd Hfi. set (kd := <[c := a]> (kinds st0)) in *.
  assert (kd !! c = Some a) as Hkd by apply lookup_insert_eq.
  assert (∀ st' qs dn, filling ext ct c st0 kd qs dn st' → ∃ k, caches st' !! c = Some k ∧ c_ops k = a) as Hhas.
  { intros st' qs dn Hf'. pose proof (fi_kinds _ _ _ _ _ _ _ _ Hf') as E. rewrite <- E in Hkd. unfold kinds in Hkd.
    rewrite lookup_fmap in Hkd. destruct (caches st' !! c) as [k|]; [|done]. injection Hkd as Hkd. eauto. }
  destruct (Hhas _ _ _ Hfi) as (k1 & Hk1 & Ek1).
  unfold nl_cache_refill, nl_cache_request_full_dump. do 2 apply rwp_bind. apply (rwp_cache _ k1); [done|]. rewrite Ek1, Hreq.
  unfold rwp at 1. rewrite Hf, Hi. destruct (Z.ltb_spec (err i) 0) as [He|He].
  { apply rwp_ret. exists (err i), [], []. split; [done|]. split; [by apply filling_io|auto]. }
  specialize (Hd He). pose proof (filling_io _ _ _ _ _ _ _ _ (reply i) Hfi) as Hfi2.
  eapply rwp_seq; [eapply clear_ok; [apply Hfi2|apply lookup_insert_eq]|].
  intros [] st3 (Hok3 & [B3 K3 L3 I3]). rewrite insert_insert_eq in Hok3.
  assert (filling ext ct c st0 kd [] [] st3) as Hfi3.
  { destruct Hfi2 as [_ _ K2 O2 L2]. split; [done|done|congruence| |congruence].
    eapply old_stays; [done|done|done|]. intros q x y Hx Hy. eapply lookup_weaken in Hy; [|exact B3].
    eapply lookup_weaken in Hx; [|exact O2]. congruence. }
  destruct (Hhas _ _ _ Hfi3) as (k3 & Hk3 & Ek3).
  unfold nl_cache_pickup, __cache_pickup. apply rwp_bind, (rwp_cache _ k3); [done|]. apply rwp_bind.
  unfold rwp at 1. destruct (a_cb_clone st3) eqn:Ecl; cbn [negb].
  2:{ apply rwp_ret. exists (- Nl.NLE_NOMEM), [], []. split; [done|]. split; [done|]. left. split; [by apply (proj1 (proj2 Hmem) _ Ecl)|done]. }
  rewrite Ek3. eapply recvmsgs_ok; [by apply plain_valid|by rewrite I3|].
  eapply rwp_mono; [by eapply (feed_pickup oom ext ct c st0)|].
  intros r st4 (qs & dn & Hfi4 & Hr) j _. apply (filling_io _ _ _ _ _ _ _ _ j) in Hfi4. split.
  2:{ intros _ Ecp. exists (- Nl.NLE_NOMEM), qs, dn. split; [done|]. split; [done|]. left.
      split; [by apply (proj2 (proj2 Hmem) _ _ Ecp)|done]. }
  destruct Hr as [ [Hm ->]|[-> ->] ]; (eexists _, qs, _; split; [done|]); (split; [exact Hfi4|]); auto.
Qed.

Lemma alloc_and_fill_ok oom ext ct st a f err reply mss ms fin rest bs :
  memory oom → calloc_ok → plain_cb (D := D) → st_ok ext ct st →
  Forall2 (carries oom (cache_ops_at a)) (concat mss ++ ms) bs →
  co_request_update (cache_ops_at a) = Some f →
  (∀ c st', f c st' = Some (err (io st'), set_io (reply (io st')) st')) →
  (0 ≤ err (io st) → dumped (reply (io st)) mss ms fin rest) →
  rwp (nl_cache_alloc_and_fill a true) (λ r st', ∃ e c, r = Some (e, c) ∧
    ((oom ∧ e = - Nl.NLE_NOMEM ∨ e = err (io st) ∧ e < 0) ∧ restored ext ct st st' ∨
     e = 0 ∧ c ≠ 0 ∧ ct !! c = None ∧ ∃ qs, filling ext ct c st (<[c := a]> (kinds st)) qs bs st')) st.
Proof.
  intros Hmem Hca Hplain Hok Hms Hreq Hf Hd. unfold nl_cache_alloc_and_fill.
  eapply rwp_seq; [by eapply cache_alloc_ok|]. cbn beta.
  intros c st1 [(-> & E0 & ->)|(Hc0 & Hc & Eo & Hok1 & K1 & L1 & I1)].
  { apply rwp_ret. eexists _, _. split; [done|]. left. split; [left; split; [by apply (proj1 Hmem _ E0)|done]|done]. }
  rewrite (proj2 (Z.eqb_neq _ _) Hc0). cbn [negb].
  eapply rwp_seq; [eapply (refill_new_ok oom ext ct c a st st1 (io st)); try done|].
  { split; try done. unfold body. by rewrite Eo. }
  intros r st2 (e & qs & dn & -> & Hfi & Hr).
  assert (e < 0 → (oom ∧ e = - Nl.NLE_NOMEM ∨ e = err (io st) ∧ e < 0)) as He.
  { intros ?. destruct Hr as [?|[?|[-> _] ] ]; [by left|by right|lia]. }
  destruct (Z.ltb_spec e 0) as [Hlt|Hge].
  - eapply rwp_seq; [eapply free_filled; [exact Hok|exact Hc|exact Hfi]|]. intros [] st' Hre. apply rwp_ret.
    exists e, 0. split; [done|]. left. split; [by apply He|done].
  - assert (e = 0 ∧ dn = bs) as [-> ->] by (destruct Hr as [ [_ ->]|[ [_ ?]|?] ]; [done|lia|done]).
    apply rwp_ret. exists 0, c. split; [done|]. right. split; [done|]. split; [done|]. split; [done|]. by exists qs.
Qed.
End Fill.
