(* ===== verification/Family.v ===== *)
(** * Generic netlink families: [lib/genl/family.c]

    The object of a family: its attributes, which of them are set (the mask), its
    operations and its multicast groups.  The lists of operations and groups are values
    here.  [family_clone] copies the list heads byte by byte, and is modelled on the heap of
    list heads: the head of the new object's list points into the source's list, so the
    operations that the loop appends end up in the list that it walks, and it never comes
    back to the source's head. *)

From S2P Require Import Prelude Netlink NlError Recv NlList Objects.

Definition GENL_NAMSIZ : Z := 16.
Definition GENL_ID_GENERATE : Z := 0.

Definition FAMILY_ATTR_ID : Z := 0x01.
Definition FAMILY_ATTR_NAME : Z := 0x02.
Definition FAMILY_ATTR_VERSION : Z := 0x04.
Definition FAMILY_ATTR_HDRSIZE : Z := 0x08.
Definition FAMILY_ATTR_MAXATTR : Z := 0x10.
Definition FAMILY_ATTR_OPS : Z := 0x20.

(** [gf_name] without its NUL; the operations as (id, flags), the groups as (id, name). *)
Record genl_family := mkFamily {
  gf_id : Z;
  gf_name : list Z;
  gf_version : Z;
  gf_hdrsize : Z;
  gf_maxattr : Z;
  gf_ops : list (Z * Z);
  gf_mc_grps : list (Z * list Z);
}.

(** [calloc] and [family_constructor]. *)
Definition family_new : genl_family := mkFamily 0 [] 0 0 0 [] [].

Definition family_compare (a b : Z * genl_family) (attrs flags : Z) : Z :=
  let diff := ATTR_DIFF attrs FAMILY_ATTR_ID a.1 b.1 (negb (gf_id a.2 =? gf_id b.2)) in
  let diff := Z.lor diff (ATTR_DIFF attrs FAMILY_ATTR_VERSION a.1 b.1
                            (negb (gf_version a.2 =? gf_version b.2))) in
  let diff := Z.lor diff (ATTR_DIFF attrs FAMILY_ATTR_HDRSIZE a.1 b.1
                            (negb (gf_hdrsize a.2 =? gf_hdrsize b.2))) in
  let diff := Z.lor diff (ATTR_DIFF attrs FAMILY_ATTR_MAXATTR a.1 b.1
                            (negb (gf_maxattr a.2 =? gf_maxattr b.2))) in
  Z.lor diff (ATTR_DIFF attrs FAMILY_ATTR_NAME a.1 b.1
                (negb (bool_decide (gf_name a.2 = gf_name b.2)))).

Section Family.
Context `{World genl_family}.
Local Open Scope store_scope.

Implicit Types st : store genl_family.

(** Change the family at [p] and set the bits [m] of its mask. *)
Definition fam_set (p m : Z) (f : genl_family → genl_family) : R genl_family unit :=
  upd p (λ o, set_body (ce_msgtype o) (Z.lor (ce_mask o) m) (f (ce_data o)) o).

Definition genl_family_set_id (p id : Z) : R genl_family unit :=
  fam_set p FAMILY_ATTR_ID (λ f, mkFamily (u16 id) (gf_name f) (gf_version f) (gf_hdrsize f)
                                   (gf_maxattr f) (gf_ops f) (gf_mc_grps f)).
(** [strncpy] of at most 15 bytes into the array of 16, which starts out as zeros. *)
Definition genl_family_set_name (p : Z) (name : list Z) : R genl_family unit :=
  fam_set p FAMILY_ATTR_NAME (λ f, mkFamily (gf_id f) (take 15 name) (gf_version f) (gf_hdrsize f)
                                     (gf_maxattr f) (gf_ops f) (gf_mc_grps f)).
(** The parameter is a [uint8_t]. *)
Definition genl_family_set_version (p v : Z) : R genl_family unit :=
  fam_set p FAMILY_ATTR_VERSION (λ f, mkFamily (gf_id f) (gf_name f) (u8 v) (gf_hdrsize f)
                                        (gf_maxattr f) (gf_ops f) (gf_mc_grps f)).
Definition genl_family_set_hdrsize (p v : Z) : R genl_family unit :=
  fam_set p FAMILY_ATTR_HDRSIZE (λ f, mkFamily (gf_id f) (gf_name f) (gf_version f) (u32 v)
                                        (gf_maxattr f) (gf_ops f) (gf_mc_grps f)).
Definition genl_family_set_maxattr (p v : Z) : R genl_family unit :=
  fam_set p FAMILY_ATTR_MAXATTR (λ f, mkFamily (gf_id f) (gf_name f) (gf_version f) (gf_hdrsize f)
                                        (u32 v) (gf_ops f) (gf_mc_grps f)).

Definition genl_family_get_id (p : Z) : R genl_family Z :=
  o <- obj p ;;
  rret (if negb (Z.land (ce_mask o) FAMILY_ATTR_ID =? 0) then gf_id (ce_data o) else GENL_ID_GENERATE).
(** [None] is NULL. *)
Definition genl_family_get_name (p : Z) : R genl_family (option (list Z)) :=
  o <- obj p ;;
  rret (if negb (Z.land (ce_mask o) FAMILY_ATTR_NAME =? 0) then Some (gf_name (ce_data o)) else None).
Definition genl_family_get_version (p : Z) : R genl_family Z :=
  o <- obj p ;;
  rret (if negb (Z.land (ce_mask o) FAMILY_ATTR_VERSION =? 0) then u8 (gf_version (ce_data o)) else 0).
Definition genl_family_get_hdrsize (p : Z) : R genl_family Z :=
  o <- obj p ;;
  rret (if negb (Z.land (ce_mask o) FAMILY_ATTR_HDRSIZE =? 0) then gf_hdrsize (ce_data o) else 0).
(** Both branches of the code return the field. *)
Definition genl_family_get_maxattr (p : Z) : R genl_family Z :=
  o <- obj p ;; rret (gf_maxattr (ce_data o)).

(** [ok] tells whether memory was left for the entry. *)
Definition genl_family_add_op (ok : bool) (p id flags : Z) : R genl_family Z :=
  if negb ok then rret (- Nl.NLE_NOMEM)
  else
    fam_set p FAMILY_ATTR_OPS (λ f, mkFamily (gf_id f) (gf_name f) (gf_version f) (gf_hdrsize f)
      (gf_maxattr f) (gf_ops f ++ [(u32 id, u32 flags)]) (gf_mc_grps f)) ;;
    rret 0.

Definition genl_family_add_grp (ok : bool) (p id : Z) (name : list Z) : R genl_family Z :=
  if negb ok then rret (- Nl.NLE_NOMEM)
  else
    fam_set p 0 (λ f, mkFamily (gf_id f) (gf_name f) (gf_version f) (gf_hdrsize f)
      (gf_maxattr f) (gf_ops f) (gf_mc_grps f ++ [(u32 id, take 15 name)])) ;;
    rret 0.

Definition genl_family_put (p : Z) : R genl_family unit := nl_object_put p.
End Family.

(** ** Cloning a family *)

(** The heads of the lists of two families are [NHead src] and [NHead dst], the operation at
    [p] is linked through [NObj p]; [ops] has the operations, (id, flags). *)
Record opstore := mkOpstore {
  op_heads : heads;
  ops : gmap Z (Z * Z);
}.

(** The outcome of a loop that may not end: [Busy] is a run that is not over after the given
    number of iterations. *)
Inductive outcome := Ended (err : Z) (s : opstore) | Busy | Crashed.

Section Clone.
(** [calloc] of an operation; 0 is NULL. *)
Context (op_calloc : opstore → Z).

(** The [memcpy] of [nl_object_clone], as far as [gf_ops] is concerned. *)
Definition copy_head (src dst : Z) (s : opstore) : option opstore :=
  x ← op_heads s !! NHead src; Some (mkOpstore (<[NHead dst := x]> (op_heads s)) (ops s)).

(** [genl_family_add_op] on the list of the family [dst]: a new operation at the tail. *)
Definition family_add_op (dst id flags : Z) (s : opstore) : option (Z * opstore) :=
  let p := op_calloc s in
  if p =? 0 then Some (- Nl.NLE_NOMEM, s)
  else
    h ← nl_list_add_tail (NObj p) (NHead dst) (<[NObj p := (NObj 0, NObj 0)]> (op_heads s));
    Some (0, mkOpstore h (<[p := (id, flags)]> (ops s))).

(** The first loop of [family_clone].  The head of a family's list is not an operation:
    reading it as one is a crash. *)
Fixpoint clone_ops (fuel : nat) (src dst : Z) (pos : node) (s : opstore) : outcome :=
  if bool_decide (pos = NHead src) then Ended 0 s
  else
    match fuel with
    | O => Busy
    | S fuel =>
        match pos with
        | NHead _ => Crashed
        | NObj p =>
            match ops s !! p with
            | None => Crashed
            | Some op =>
                match family_add_op dst op.1 op.2 s with
                | None => Crashed
                | Some (err, s) =>
                    if err <? 0 then Ended err s
                    else
                      match next (op_heads s) pos with
                      | None => Crashed
                      | Some n => clone_ops fuel src dst n s
                      end
                end
            end
        end
    end.

(** The copy of the head and the loop. *)
Definition family_clone_ops (fuel : nat) (src dst : Z) (s : opstore) : outcome :=
  match copy_head src dst s with
  | None => Crashed
  | Some s =>
      match next (op_heads s) (NHead src) with
      | None => Crashed
      | Some n => clone_ops fuel src dst n s
      end
  end.

(** ** The loop never ends *)

(** Memory never runs out, and what is allocated is new. *)
Definition plenty : Prop := ∀ s, op_calloc s ≠ 0 ∧ op_heads s !! NObj (op_calloc s) = None.

(** Each operation of [ps] is followed by the next one. *)
Fixpoint chain (h : heads) (ps : list Z) : Prop :=
  match ps with
  | p :: (q :: _) as t => next h (NObj p) = Some (NObj q) ∧ chain h t
  | _ => True
  end.

(** The operations that are still ahead of the loop: a chain that ends in the operation that
    is at the tail of the new family's list. *)
Record ahead (dst : Z) (xs : list Z) (t : Z) (s : opstore) : Prop := {
  ah_chain : chain (op_heads s) (xs ++ [t]);
  ah_tail : prev (op_heads s) (NHead dst) = Some (NObj t);
  ah_ops : ∀ p, p ∈ xs ++ [t] → is_Some (ops s !! p) ∧ is_Some (op_heads s !! NObj p);
  ah_nodup : NoDup (xs ++ [t]);
}.

Lemma chain_snoc h h' xs t q :
  chain h (xs ++ [t]) → (∀ x, x ∈ xs → next h' (NObj x) = next h (NObj x)) →
  next h' (NObj t) = Some (NObj q) → chain h' ((xs ++ [t]) ++ [q]).
Proof.
  intros Hc Hx Ht. induction xs as [|x xs IH]; [done|].
  assert (next h (NObj x) = Some (NObj (List.hd t xs)) ∧ chain h (xs ++ [t])) as [H1 H2] by by destruct xs.
  assert (chain h' ((xs ++ [t]) ++ [q])) as IH' by (apply IH; [done|]; intros y Hy; apply Hx, elem_of_cons; by right).
  assert (next h' (NObj x) = Some (NObj (List.hd t xs))) as E by (rewrite Hx by (apply elem_of_cons; by left); done).
  by destruct xs.
Qed.

Lemma chain_of h hd xs : path h (hd :: (NObj <$> xs) ++ [hd]) → chain h xs.
Proof.
  intros Hp. assert (path h ((NObj <$> xs) ++ [hd])) as Hp' by (destruct xs; [done|]; by destruct Hp).
  clear Hp. induction xs as [|x xs IH]; [done|]. destruct xs as [|y xs]; [done|].
  destruct Hp' as [ [Hn _] Hp']. split; [done|]. by apply IH.
Qed.

(** One more operation. *)
Lemma ahead_step dst xs t s id flags :
  plenty → ahead dst xs t s →
  ∃ q s', family_add_op dst id flags s = Some (0, s') ∧ chain (op_heads s') ((xs ++ [t]) ++ [q]) ∧
    ahead dst (tl (xs ++ [t])) q s'.
Proof.
  intros Hpl [Hc Hv Ho Hd]. destruct (Hpl s) as [Hq0 Hq].
  set (q := op_calloc s) in *. unfold family_add_op. fold q. rewrite (proj2 (Z.eqb_neq _ _) Hq0).
  set (h := <[NObj q := (NObj 0, NObj 0)]> (op_heads s)).
  assert (∀ m, m ≠ NObj q → h !! m = op_heads s !! m) as Hh by (intros m Hm; subst h; by rewrite lookup_insert_ne).
  assert (∀ x, x ∈ xs ++ [t] → x ≠ q ∧ is_Some (h !! NObj x)) as Hx.
  { intros x Hx. destruct (Ho x Hx) as [_ [y Hy] ].
    assert (x ≠ q) as Hne by congruence. split; [done|]. rewrite Hh by congruence. by eexists. }
  assert (t ∈ xs ++ [t]) as Ht by (apply elem_of_app; right; by apply list_elem_of_singleton).
  destruct (Hx t Ht) as [Htq Hts].
  assert (is_Some (h !! NHead dst)) as Hdst.
  { rewrite Hh by done. unfold prev in Hv. by destruct (op_heads s !! NHead dst). }
  destruct (list_add_run h (NObj q) (NObj t) (NHead dst)) as (h' & E & N & P & F & D); [|done|done|].
  { subst h. rewrite lookup_insert_eq. by eexists. }
  assert (prev h (NHead dst) = Some (NObj t)) as Hv' by (unfold prev in *; by rewrite Hh).
  unfold nl_list_add_tail. rewrite Hv'. cbn [mbind option_bind]. rewrite E. cbn [mbind option_bind].
  exists q, (mkOpstore h' (<[q := (id, flags)]> (ops s))). split; [done|]. cbn [op_heads].
  assert (chain h' ((xs ++ [t]) ++ [q])) as Hc'.
  { eapply chain_snoc; [exact Hc| |].
    - intros x Hin. assert (x ∈ xs ++ [t]) as Hin' by (apply elem_of_app; by left). destruct (Hx x Hin') as [Hxq _].
      rewrite N, !decide_False by (try congruence; intros [= ->]; apply list.NoDup_app in Hd as (_ & Hdt & _);
        by apply (Hdt t Hin), list_elem_of_singleton). unfold next. by rewrite Hh by congruence.
    - by rewrite N, decide_False, decide_True by congruence. }
  split; [done|].
  assert (∀ p, p ∈ tl (xs ++ [t]) ++ [q] → p = q ∨ p ∈ xs ++ [t]) as Hin.
  { intros p [Hp|Hp%list_elem_of_singleton]%elem_of_app; [right|by left].
    destruct (xs ++ [t]); [done|]. apply elem_of_cons. by right. }
  split; cbn [op_heads ops].
  - destruct xs as [|x [|y xs] ]; [done|by destruct Hc'|by destruct Hc'].
  - by rewrite P, decide_True.
  - intros p [->|Hp]%Hin.
    + rewrite lookup_insert_eq. split; [by eexists|]. eapply is_Some_dom; [exact D|]. subst h. rewrite lookup_insert_eq. by eexists.
    + destruct (Hx p Hp) as [Hpq Hps]. rewrite lookup_insert_ne by done. split; [by apply Ho|]. by eapply is_Some_dom.
  - apply list.NoDup_app. split; [|split; [|apply NoDup_singleton] ].
    + destruct (xs ++ [t]); [done|]. by apply list.NoDup_cons in Hd as [_ Hd].
    + intros p Hp ->%list_elem_of_singleton. assert (q ∈ xs ++ [t]) as Hqin; [|by destruct (Hx q Hqin)].
      destruct (xs ++ [t]); [done|]. apply elem_of_cons. by right.
Qed.

Lemma clone_ops_busy fuel src dst xs t s :
  plenty → ahead dst xs t s → clone_ops fuel src dst (NObj (List.hd t xs)) s = Busy.
Proof.
  intros Hpl. revert xs t s. induction fuel as [|fuel IH]; intros xs t s Ha; [by destruct xs|].
  cbn [clone_ops]. rewrite bool_decide_false by done.
  assert (List.hd t xs ∈ xs ++ [t]) as Hin.
  { destruct xs; apply elem_of_cons; by left. }
  destruct (ah_ops _ _ _ _ Ha _ Hin) as [ [op ->] _].
  destruct (ahead_step dst xs t s op.1 op.2 Hpl Ha) as (q & s' & -> & Hc & Ha'). cbn [Z.ltb Z.compare].
  assert (next (op_heads s') (NObj (List.hd t xs)) = Some (NObj (List.hd q (tl (xs ++ [t]))))) as ->.
  { destruct xs as [|x [|y xs] ]; by destruct Hc. }
  by apply IH.
Qed.

(** A family with an operation is never cloned: however long the loop runs, it is not over. *)
Lemma family_clone_busy fuel src dst p ps s :
  plenty → src ≠ dst → dlist (op_heads s) (NHead src) (NObj <$> p :: ps) →
  (∀ q, q ∈ p :: ps → is_Some (ops s !! q)) →
  family_clone_ops fuel src dst s = Busy.
Proof.
  intros Hpl Hne Hd Ho. pose proof Hd as [Hnd Hp].
  unfold family_clone_ops, copy_head.
  destruct (dlist_live _ _ _ (NHead src) Hd) as [x Hx]; [apply elem_of_cons; by left|]. rewrite Hx. cbn [mbind option_bind].
  set (h := <[NHead dst := x]> (op_heads s)). cbn [op_heads].
  assert (∀ m, m ≠ NHead dst → h !! m = op_heads s !! m) as Hh by (intros m Hm; subst h; by rewrite lookup_insert_ne).
  assert (next h (NHead src) = Some (NObj p)) as ->.
  { unfold next. rewrite Hh by congruence. cbn [fmap list_fmap app path] in Hp. by destruct Hp as [ [Hp _] _]. }
  destruct (exists_last (l := p :: ps)) as (xs & t & El); [done|].
  replace (NObj p) with (NObj (List.hd t xs)) by (destruct xs; by injection El as ->).
  apply clone_ops_busy; [done|]. cbn [fmap list_fmap] in Hp, Hnd. change (NObj p :: (NObj <$> ps)) with (NObj <$> p :: ps) in Hp, Hnd.
  rewrite El in *. split; cbn [op_heads ops].
  - apply (chain_of _ (NHead src)). eapply path_frame; [exact Hp| |]; intros m Hm; unfold next, prev; rewrite Hh; try done; intros ->.
    + apply elem_of_cons in Hm as [?|Hm]; [congruence|]. by apply list_elem_of_fmap in Hm as (? & ? & _).
    + apply elem_of_app in Hm as [Hm|Hm%list_elem_of_singleton]; [|congruence]. by apply list_elem_of_fmap in Hm as (? & ? & _).
  - assert (prev (op_heads s) (NHead src) = Some (NObj t)) as Hv.
    { rewrite fmap_app in Hp. cbn [fmap list_fmap] in Hp. rewrite <- app_assoc, app_comm_cons in Hp. cbn [app] in Hp.
      change (path (op_heads s) ((NHead src :: (NObj <$> xs)) ++ NObj t :: [NHead src])) in Hp.
      apply path_app in Hp as [_ [ [_ Hv] _] ]. done. }
    unfold prev in *. subst h. rewrite lookup_insert_eq. rewrite Hx in Hv. done.
  - intros q Hq. split; [by apply Ho|]. rewrite Hh by done. eapply dlist_live; [exact Hd|].
    apply elem_of_cons. right. apply list_elem_of_fmap. exists q. by split.
  - apply list.NoDup_cons in Hnd as [_ Hnd]. by apply NoDup_fmap_1 in Hnd.
Qed.
End Clone.
