(* ===== verification/GenlCtrl.v ===== *)
(** * The generic netlink controller: [lib/genl/ctrl.c], [lib/genl/mngt.c]

    The cache of families: the request for a dump, the parser of its messages, and the
    functions that look a family up by name, by which a program learns the number of the
    driver's family. *)

From S2P Require Import Prelude Mem Kernel Packet Netlink NlError Attr Recv Dump NlList.
From S2P Require Import Objects Cache Family UserLib.
Import Nl.

Definition GENL_ID_CTRL : Z := 0x10.
Definition CTRL_VERSION : Z := 1.
Definition CTRL_CMD_NEWFAMILY : Z := 1.
Definition CTRL_CMD_DELFAMILY : Z := 2.
Definition CTRL_CMD_GETFAMILY : Z := 3.
Definition CTRL_CMD_NEWOPS : Z := 4.
Definition CTRL_CMD_DELOPS : Z := 5.
Definition CTRL_ATTR_FAMILY_ID : Z := 1.
Definition CTRL_ATTR_FAMILY_NAME : Z := 2.
Definition CTRL_ATTR_VERSION : Z := 3.
Definition CTRL_ATTR_HDRSIZE : Z := 4.
Definition CTRL_ATTR_MAXATTR : Z := 5.
Definition CTRL_ATTR_OPS : Z := 6.
Definition CTRL_ATTR_MCAST_GROUPS : Z := 7.
Definition CTRL_ATTR_MAX : Z := 7.
Definition CTRL_ATTR_OP_ID : Z := 1.
Definition CTRL_ATTR_OP_FLAGS : Z := 2.
Definition CTRL_ATTR_OP_MAX : Z := 2.
Definition CTRL_ATTR_MCAST_GRP_NAME : Z := 1.
Definition CTRL_ATTR_MCAST_GRP_ID : Z := 2.
Definition CTRL_ATTR_MCAST_GRP_MAX : Z := 2.
Definition NLM_F_DUMP : Z := 0x300.

Definition ctrl_policy (t : Z) : nla_policy :=
  if t =? CTRL_ATTR_FAMILY_ID then mkPolicy NLA_U16 0 0
  else if t =? CTRL_ATTR_FAMILY_NAME then mkPolicy NLA_STRING 0 GENL_NAMSIZ
  else if t =? CTRL_ATTR_VERSION then mkPolicy NLA_U32 0 0
  else if t =? CTRL_ATTR_HDRSIZE then mkPolicy NLA_U32 0 0
  else if t =? CTRL_ATTR_MAXATTR then mkPolicy NLA_U32 0 0
  else if t =? CTRL_ATTR_OPS then mkPolicy NLA_NESTED 0 0
  else if t =? CTRL_ATTR_MCAST_GROUPS then mkPolicy NLA_NESTED 0 0
  else mkPolicy 0 0 0.

Definition family_op_policy (t : Z) : nla_policy :=
  if t =? CTRL_ATTR_OP_ID then mkPolicy NLA_U32 0 0
  else if t =? CTRL_ATTR_OP_FLAGS then mkPolicy NLA_U32 0 0
  else mkPolicy 0 0 0.

Definition family_grp_policy (t : Z) : nla_policy :=
  if t =? CTRL_ATTR_MCAST_GRP_NAME then mkPolicy NLA_STRING 0 0
  else if t =? CTRL_ATTR_MCAST_GRP_ID then mkPolicy NLA_U32 0 0
  else mkPolicy 0 0 0.

(** What is outside: memory, the socket, the kernel behind it. *)
Class Ctrl := {
  cw_calloc : store genl_family → Z;
  cw_entry_alloc : store genl_family → bool;
  cw_msg_alloc : nl_io → bool;
  cw_cb_clone : store genl_family → bool;
  cw_msg_copy : store genl_family → list Z → bool;
  cw_cb : nl_cb (store genl_family);
  cw_pid : Z;
  cw_msg_size : Z;
  (** what [sendmsg] makes of a message, after the ones that were sent before, and the
      datagrams with which the kernel answers *)
  cw_send : list (list Z) → list Z → Z * list datagram;
}.

Section Ctrl.
Context `{Ctrl}.
Local Open Scope store_scope.

(** [family_clone] never gives a copy that may be used: its loop over the operations does not
    end while there is memory ([family_clone_busy]), and fails with the lists of the source in
    the copy when there is none. *)
Definition genl_family_ops : nl_object_ops genl_family := {|
  oo_constructor := family_new;
  oo_clone := Some (λ _, CloneBusy);
  oo_free_data := true;
  oo_compare := Some family_compare;
  oo_id_attrs := FAMILY_ATTR_ID;
|}.

(** ** The request *)

(** [nl_send_simple(sk, type, flags, buf, size)]: build, complete and send. *)
Definition nl_send_simple (type flags : Z) (data : list Z) (i : nl_io) : option (Z * nl_io) :=
  if negb (cw_msg_alloc i) then Some (- NLE_NOMEM, i)
  else
    msg ← nlmsg_alloc_simple cw_msg_size type flags;
    r ← (if zlen data =? 0 then Some (0, msg) else nlmsg_append msg data 4);
    if r.1 <? 0 then Some (r.1, i)
    else
      buf ← nl_complete_msg cw_pid (io_seq_next i) (nm_nlh r.2);
      l ← nlmsg_len buf 0;
      let bytes := take (Z.to_nat l) buf in
      let s := cw_send (io_sent i) bytes in
      Some (s.1, mkIo (u32 (io_seq_next i + 1)) (io_seq_expect i) (io_sent i ++ [bytes])
                   (io_incoming i ++ s.2)).

Definition genl_send_simple (family cmd version flags : Z) (i : nl_io) : option (Z * nl_io) :=
  nl_send_simple family flags (genlmsghdr cmd version) i.

Definition ctrl_request_update (c : Z) : R genl_family Z := λ st,
  match genl_send_simple GENL_ID_CTRL CTRL_CMD_GETFAMILY CTRL_VERSION NLM_F_DUMP (io st) with
  | None => None
  | Some (err, i) => Some (err, mkStore (objs st) (caches st) (hs st) (log st) i)
  end.

(** ** The parser *)

(** A loop over nested attributes; a body that returns [Some] leaves it with an error. *)
Fixpoint for_each_nested (fuel : nat) (buf : list Z) (nla rem : Z)
    (body : Z → R genl_family (option Z)) : R genl_family (option Z) :=
  match fuel with
  | O => crash
  | S fuel =>
      ok <- lift (nla_ok buf nla rem) ;;
      if negb ok then rret None
      else
        e <- body nla ;;
        match e with
        | Some err => rret (Some err)
        | None =>
            nx <- lift (nla_next buf nla rem) ;;
            for_each_nested fuel buf nx.1 nx.2 body
        end
  end.

Definition each_nested (buf : list Z) (nla : Z) (body : Z → R genl_family (option Z))
    : R genl_family (option Z) :=
  len <- lift (nla_len buf nla) ;;
  for_each_nested (S (Z.to_nat len)) buf (nla_data nla) len body.

(** One operation of [CTRL_ATTR_OPS]. *)
Definition parse_op (buf : list Z) (family nla : Z) : R genl_family (option Z) :=
  r <- lift (nla_parse_nested buf CTRL_ATTR_OP_MAX nla (Some family_op_policy)) ;;
  if r.1 <? 0 then rret (Some r.1)
  else
    match r.2 CTRL_ATTR_OP_ID with
    | None => rret (Some (- NLE_MISSING_ATTR))
    | Some a =>
        id <- lift (nla_get_u32 buf a) ;;
        flags <- (match r.2 CTRL_ATTR_OP_FLAGS with
                  | None => rret 0
                  | Some a => lift (nla_get_u32 buf a)
                  end) ;;
        ok <- (λ st, Some (cw_entry_alloc st, st)) ;;
        err <- genl_family_add_op ok family id flags ;;
        rret (if err <? 0 then Some err else None)
    end.

(** One group of [CTRL_ATTR_MCAST_GROUPS]. *)
Definition parse_grp (buf : list Z) (family nla : Z) : R genl_family (option Z) :=
  r <- lift (nla_parse_nested buf CTRL_ATTR_MCAST_GRP_MAX nla (Some family_grp_policy)) ;;
  if r.1 <? 0 then rret (Some r.1)
  else
    match r.2 CTRL_ATTR_MCAST_GRP_ID with
    | None => rret (Some (- NLE_MISSING_ATTR))
    | Some a =>
        id <- lift (nla_get_u32 buf a) ;;
        match r.2 CTRL_ATTR_MCAST_GRP_NAME with
        | None => rret (Some (- NLE_MISSING_ATTR))
        | Some a =>
            name <- lift (nla_get_string buf a) ;;
            ok <- (λ st, Some (cw_entry_alloc st, st)) ;;
            err <- genl_family_add_grp ok family id name ;;
            rret (if err <? 0 then Some err else None)
        end
    end.

(** A [uint32_t] attribute that may be missing. *)
Definition opt_u32 (buf : list Z) (a : option Z) (set : Z → R genl_family unit) : R genl_family unit :=
  match a with
  | None => rret tt
  | Some a => v <- lift (nla_get_u32 buf a) ;; set v
  end.

(** The part of [ctrl_msg_parser] between the allocation and the callback; [Some] for the
    jump to [errout]. *)
Definition fill_family (buf : list Z) (attrs : tb) (family : Z) : R genl_family (option Z) :=
  match attrs CTRL_ATTR_FAMILY_NAME, attrs CTRL_ATTR_FAMILY_ID with
  | None, _ => rret (Some (- NLE_MISSING_ATTR))
  | _, None => rret (Some (- NLE_MISSING_ATTR))
  | Some a_name, Some a_id =>
      ty <- lift (nlmsg_type buf 0) ;;
      upd family (λ o, set_body ty (ce_mask o) (ce_data o) o) ;;
      id <- lift (nla_get_u16 buf a_id) ;;
      genl_family_set_id family id ;;
      name <- lift (nla_get_string buf a_name) ;;
      genl_family_set_name family name ;;
      opt_u32 buf (attrs CTRL_ATTR_VERSION) (genl_family_set_version family) ;;
      opt_u32 buf (attrs CTRL_ATTR_HDRSIZE) (genl_family_set_hdrsize family) ;;
      opt_u32 buf (attrs CTRL_ATTR_MAXATTR) (genl_family_set_maxattr family) ;;
      e <- (match attrs CTRL_ATTR_OPS with
            | None => rret None
            | Some a => each_nested buf a (parse_op buf family)
            end) ;;
      match e with
      | Some err => rret (Some err)
      | None =>
          match attrs CTRL_ATTR_MCAST_GROUPS with
          | None => rret None
          | Some a => each_nested buf a (parse_grp buf family)
          end
      end
  end.

(** The allocation of an object looks at the types of objects only. *)
Definition alloc_world : World genl_family := {|
  obj_ops_at _ := genl_family_ops;
  cache_ops_at _ := mkCops _ 0 0 [] (λ _ _, crash) None;
  a_calloc := cw_calloc;
  s_cb := cw_cb;
  a_cb_clone := cw_cb_clone;
  a_msg_copy := cw_msg_copy;
|}.

(** The address of [genl_family_ops], and of [genl_ctrl_ops]. *)
Definition FAMILY_OPS : Z := 1.
Definition CTRL_OPS : Z := 1.

Definition genl_family_alloc : R genl_family Z := @nl_object_alloc _ alloc_world FAMILY_OPS.

Definition ctrl_msg_parser (buf : list Z) (attrs : tb) (pp_cb : Z → R genl_family Z) : R genl_family Z :=
  family <- genl_family_alloc ;;
  if family =? 0 then genl_family_put 0 ;; rret (- NLE_NOMEM)
  else
    e <- fill_family buf attrs family ;;
    err <- (match e with Some err => rret err | None => pp_cb family end) ;;
    genl_family_put family ;;
    rret err.

(** [genl_cmds]: the command, and for the one that has a parser its attributes and policy. *)
Record genl_cmd := mkCmd {
  c_id : Z;
  c_msg_parser : option (Z * (Z → nla_policy) *
    (list Z → tb → (Z → R genl_family Z) → R genl_family Z));
}.

Definition genl_cmds : list genl_cmd := [
  mkCmd CTRL_CMD_NEWFAMILY (Some (CTRL_ATTR_MAX, ctrl_policy, ctrl_msg_parser));
  mkCmd CTRL_CMD_DELFAMILY None;
  mkCmd CTRL_CMD_GETFAMILY None;
  mkCmd CTRL_CMD_NEWOPS None;
  mkCmd CTRL_CMD_DELOPS None
].

Definition co_hdrsize_ctrl : Z := GENL_HDRLEN + 0.

Fixpoint find_cmd (cmds : list genl_cmd) (cmd : Z) : option genl_cmd :=
  match cmds with
  | [] => None
  | c :: cmds => if c_id c =? cmd then Some c else find_cmd cmds cmd
  end.

(** [genl_msg_parser] of [mngt.c], with the operations of the controller. *)
Definition genl_msg_parser (buf : list Z) (pp_cb : Z → R genl_family Z) : R genl_family Z :=
  cmd <- lift (ld 1 buf (nlmsg_data 0)) ;;
  match find_cmd genl_cmds cmd with
  | None => rret (- NLE_MSGTYPE_NOSUPPORT)
  | Some c =>
      match c_msg_parser c with
      | None => rret (- NLE_OPNOTSUPP)
      | Some (maxattr, policy, parser) =>
          r <- lift (nlmsg_parse buf 0 co_hdrsize_ctrl maxattr (Some policy)) ;;
          if r.1 <? 0 then rret r.1
          else match r.2 with Some attrs => parser buf attrs pp_cb | None => crash end
      end
  end.

(** [genl_ctrl_ops]; [GENL_FAMILY] gives the message type no action. *)
Definition genl_ctrl_ops : nl_cache_ops genl_family := {|
  co_obj_ops := FAMILY_OPS;
  co_hdrsize := co_hdrsize_ctrl;
  co_msgtypes := [(GENL_ID_CTRL, NL_ACT_UNSPEC); (-1, NL_ACT_UNSPEC)];
  co_msg_parser := genl_msg_parser;
  co_request_update := Some ctrl_request_update;
|}.

#[export] Instance ctrl_world : World genl_family := {|
  obj_ops_at _ := genl_family_ops;
  cache_ops_at _ := genl_ctrl_ops;
  a_calloc := cw_calloc;
  s_cb := cw_cb;
  a_cb_clone := cw_cb_clone;
  a_msg_copy := cw_msg_copy;
|}.

(** ** Looking a family up *)

Definition genl_ctrl_alloc_cache : R genl_family (option (Z * Z)) :=
  nl_cache_alloc_and_fill CTRL_OPS true.

(** The family, with a reference, or 0. *)
Definition genl_ctrl_search (c id : Z) : R genl_family Z :=
  k <- cache c ;;
  if negb (c_ops k =? CTRL_OPS) then crash
  else
    r <- each_entry c (λ p,
           o <- obj p ;;
           if gf_id (ce_data o) =? id then nl_object_get p ;; rret (Some p) else rret None) ;;
    rret (default 0 r).

Definition genl_ctrl_search_by_name (c : Z) (name : list Z) : R genl_family Z :=
  k <- cache c ;;
  if negb (c_ops k =? CTRL_OPS) then crash
  else
    r <- each_entry c (λ p,
           o <- obj p ;;
           if bool_decide (name = gf_name (ce_data o)) then nl_object_get p ;; rret (Some p) else rret None) ;;
    rret (default 0 r).

(** The number of the family or an error; [None] when the kernel does not answer. *)
Definition genl_ctrl_resolve (name : list Z) : R genl_family (option Z) :=
  a <- genl_ctrl_alloc_cache ;;
  match a with
  | None => rret None
  | Some (err, c) =>
      if err <? 0 then rret (Some err)
      else
        family <- genl_ctrl_search_by_name c name ;;
        err <- (if family =? 0 then rret (- NLE_OBJ_NOTFOUND)
                else err <- genl_family_get_id family ;; genl_family_put family ;; rret err) ;;
        nl_cache_free c ;;
        rret (Some err)
  end.

(** The number of the group as an [int], 0 if there is none. *)
Definition genl_ctrl_grp_by_name (family : Z) (grp_name : list Z) : R genl_family Z :=
  o <- obj family ;;
  rret (default 0 ((λ g, s32 g.1) <$> List.find (λ g, bool_decide (g.2 = grp_name)) (gf_mc_grps (ce_data o)))).

Definition genl_ctrl_resolve_grp (family_name grp_name : list Z) : R genl_family (option Z) :=
  a <- genl_ctrl_alloc_cache ;;
  match a with
  | None => rret None
  | Some (err, c) =>
      if err <? 0 then rret (Some err)
      else
        family <- genl_ctrl_search_by_name c family_name ;;
        err <- (if family =? 0 then rret (- NLE_OBJ_NOTFOUND)
                else err <- genl_ctrl_grp_by_name family grp_name ;; genl_family_put family ;; rret err) ;;
        nl_cache_free c ;;
        rret (Some err)
  end.
End Ctrl.
