(* ===== verification/CtrlParse.v ===== *)
(** * The messages of the controller

    The kernel's message for a family, and the proof that [ctrl_msg_parser] reads the family
    back from it: identifier, name, version, header size, number of attributes, operations
    and groups. *)

From S2P Require Import Prelude Mem Kernel Packet Netlink NlError Attr Recv Dump NlList.
From S2P Require Import Objects Cache CacheInv CacheOps CacheLoop CacheSync CacheResync.
From S2P Require Import Family GenlCtrl.
Import Nl.

(** ** The message of a family *)

(** Nested attributes are numbered from 1. *)
Fixpoint number (n : Z) (l : list (list Z)) : list (Z * list Z) :=
  match l with
  | [] => []
  | x :: l => (n, x) :: number (n + 1) l
  end.

Definition op_attrs (op : Z * Z) : list (Z * list Z) :=
  [(CTRL_ATTR_OP_ID, le_split 4 op.1); (CTRL_ATTR_OP_FLAGS, le_split 4 op.2)].
Definition grp_attrs (g : Z * list Z) : list (Z * list Z) :=
  [(CTRL_ATTR_MCAST_GRP_ID, le_split 4 g.1); (CTRL_ATTR_MCAST_GRP_NAME, g.2 ++ [0])].

Definition ops_attrs (f : genl_family) : list (Z * list Z) :=
  number 1 (map (λ op, flat (op_attrs op)) (gf_ops f)).
Definition grps_attrs (f : genl_family) : list (Z * list Z) :=
  number 1 (map (λ g, flat (grp_attrs g)) (gf_mc_grps f)).

(** A list that is empty is not sent. *)
Definition nest (ty : Z) (l : list (Z * list Z)) : list (Z * list Z) :=
  match l with [] => [] | _ => [(ty, flat l)] end.

Definition fam_attrs (f : genl_family) : list (Z * list Z) :=
  [(CTRL_ATTR_FAMILY_NAME, gf_name f ++ [0]); (CTRL_ATTR_FAMILY_ID, le_split 2 (gf_id f));
   (CTRL_ATTR_VERSION, le_split 4 (gf_version f)); (CTRL_ATTR_HDRSIZE, le_split 4 (gf_hdrsize f));
   (CTRL_ATTR_MAXATTR, le_split 4 (gf_maxattr f))] ++
  nest CTRL_ATTR_OPS (ops_attrs f) ++ nest CTRL_ATTR_MCAST_GROUPS (grps_attrs f).

(** The rest of the headers: a part of a multipart message, command NEWFAMILY. *)
Definition fam_hdr (seq pid : Z) : list Z :=
  le_split 2 GENL_ID_CTRL ++ le_split 2 NLM_F_MULTI ++ le_split 4 seq ++ le_split 4 pid ++
  genlmsghdr CTRL_CMD_NEWFAMILY 2.

Definition fam_msg (seq pid : Z) (f : genl_family) : list Z :=
  le_split 4 (20 + zlen (flat (fam_attrs f))) ++ fam_hdr seq pid ++ flat (fam_attrs f).

(** The ranges of the fields; what is sent fits its length words. *)
Record family_ok (f : genl_family) : Prop := {
  fo_id : 0 ≤ gf_id f < 2 ^ 16;
  fo_name : name_ok (gf_name f);
  fo_version : 0 ≤ gf_version f < 2 ^ 8;
  fo_hdrsize : 0 ≤ gf_hdrsize f < 2 ^ 32;
  fo_maxattr : 0 ≤ gf_maxattr f < 2 ^ 32;
  fo_ops : Forall (λ op, 0 ≤ op.1 < 2 ^ 32 ∧ 0 ≤ op.2 < 2 ^ 32) (gf_ops f);
  fo_grps : Forall (λ g, 0 ≤ g.1 < 2 ^ 32 ∧ name_ok g.2) (gf_mc_grps f);
  fo_ops_fit : Forall attr_ok (ops_attrs f);
  fo_grps_fit : Forall attr_ok (grps_attrs f);
  fo_fit : Forall attr_ok (fam_attrs f);
}.

(** The mask of a family that was read from the kernel. *)
Definition fam_mask (f : genl_family) : Z :=
  Z.lor (FAMILY_ATTR_ID + FAMILY_ATTR_NAME + FAMILY_ATTR_VERSION + FAMILY_ATTR_HDRSIZE + FAMILY_ATTR_MAXATTR)
        (match gf_ops f with [] => 0 | _ => FAMILY_ATTR_OPS end).

Definition fam_body (f : genl_family) : Z * Z * Z * Z * genl_family :=
  (FAMILY_OPS, GENL_ID_CTRL, 0, fam_mask f, f).

(** ** Bytes *)

Lemma bytes_enc a : Forall is_byte a.2 → Forall is_byte (enc a).
Proof.
  intros Ha. unfold enc. repeat (apply Forall_app; split); try apply le_split_bytes; [done|].
  apply Forall_replicate. unfold is_byte. lia.
Qed.

Lemma bytes_flat l : Forall (λ a, Forall is_byte a.2) l → Forall is_byte (flat l).
Proof.
  induction 1 as [|a l Ha _ IH]; [constructor|]. change (flat (a :: l)) with (enc a ++ flat l).
  apply Forall_app. split; [by apply bytes_enc|done].
Qed.

Lemma bytes_number n l : Forall (Forall is_byte) l → Forall (λ a, Forall is_byte a.2) (number n l).
Proof. intros Hl. revert n. induction Hl as [|x l Hx _ IH]; intros n; constructor; [done|apply IH]. Qed.

(** ** Changes of one object *)

Section Parse.
Context `{Ctrl}.
Local Open Scope store_scope.

Definition with_obj (p : Z) (o : nl_object genl_family) (st : store genl_family) : store genl_family :=
  set_objs (<[p := o]> (objs st)) st.

Lemma with_obj_twice p o o' st : with_obj p o' (with_obj p o st) = with_obj p o' st.
Proof. unfold with_obj, set_objs. simpl. by rewrite insert_insert_eq. Qed.

Lemma rwp_upd_with p o f (Q : unit → store genl_family → Prop) st :
  Q tt (with_obj p (f o) st) → rwp (upd p f) Q (with_obj p o st).
Proof.
  intros HQ. apply (rwp_upd _ o); [apply lookup_insert_eq|]. fold (with_obj p (f o) (with_obj p o st)).
  by rewrite with_obj_twice.
Qed.

(** The loop over nested attributes. *)
Lemma nested_ok buf off l (body : Z → R genl_family (option Z))
    (P : list (Z * list Z) → store genl_family → Prop) (Q : option Z → store genl_family → Prop) st :
  attr_in buf off (flat l) → Forall attr_ok l → zlen (flat l) < 2 ^ 31 →
  (∀ a rest nla st, a ∈ l → P (a :: rest) st → attr_in buf nla a.2 →
     rwp (body nla) (λ e st', match e with Some err => Q (Some err) st' | None => P rest st' end) st) →
  (∀ st, P [] st → Q None st) → P l st → rwp (each_nested buf off body) Q st.
Proof.
  intros Ha Hok Hsm Hb Hq HP. pose proof Ha as [ [_ [Hl _] ] _].
  destruct (attr_split _ _ _ Ha) as (pre & post & Eb & Ep). unfold each_nested.
  apply rwp_bind, (rwp_lift _ (zlen (flat l))); [done|]. rewrite <- Ep.
  assert (length l < S (Z.to_nat (zlen (flat l))))%nat as Hf by (pose proof (flat_length l); lia).
  revert Hf. generalize (S (Z.to_nat (zlen (flat l)))) as fuel. clear Ha Hl Ep off.
  revert pre st Eb HP. induction l as [|a l IH]; intros pre st Eb HP fuel Hf;
    (destruct fuel as [|fuel]; [simpl in Hf; lia|]); cbn [for_each_nested].
  { apply rwp_bind, (rwp_lift _ false); [done|]. cbn [negb]. apply rwp_ret. by apply Hq. }
  apply Forall_cons_iff in Hok as [Ha Hok].
  destruct (stream_step pre a l post Ha Hsm) as (E1 & E2 & E3 & E4 & E5). rewrite <- Eb in *.
  apply rwp_bind, (rwp_lift _ true); [done|]. cbn [negb].
  eapply rwp_seq; [eapply Hb; [apply elem_of_cons; by left|exact HP|exact E3]|]. intros [err|] st' Hst'; [by apply rwp_ret|].
  apply rwp_bind, (rwp_lift _ (zlen (pre ++ enc a), zlen (flat l))); [done|]. cbn [fst snd].
  apply IH; try done.
  - change (flat (a :: l)) with (enc a ++ flat l) in Hsm. rewrite zlen_app in Hsm.
    pose proof (zlen_nonneg (enc a)). lia.
  - intros a' rest nla st0 Hin. apply Hb, elem_of_cons. by right.
  - simpl in Hf. lia.
Qed.

(** ** One operation, one group *)

Definition add_op (o : nl_object genl_family) (op : Z * Z) : nl_object genl_family :=
  let f := ce_data o in
  set_body (ce_msgtype o) (Z.lor (ce_mask o) FAMILY_ATTR_OPS)
    (mkFamily (gf_id f) (gf_name f) (gf_version f) (gf_hdrsize f) (gf_maxattr f)
       (gf_ops f ++ [op]) (gf_mc_grps f)) o.

Definition add_grp (o : nl_object genl_family) (g : Z * list Z) : nl_object genl_family :=
  let f := ce_data o in
  set_body (ce_msgtype o) (Z.lor (ce_mask o) 0)
    (mkFamily (gf_id f) (gf_name f) (gf_version f) (gf_hdrsize f) (gf_maxattr f)
       (gf_ops f) (gf_mc_grps f ++ [g])) o.

Lemma pair_ok (a b : Z * list Z) : attr_ok a → attr_ok b → zlen (flat [a; b]) < 2 ^ 31 ∧ Forall attr_ok [a; b].
Proof.
  intros Ha Hb. split; [|by apply list.Forall_cons; split; [|apply list.Forall_cons; split; [|apply Forall_nil] ] ].
  change (flat [a; b]) with (enc a ++ enc b ++ []). rewrite app_nil_r, zlen_app, !zlen_enc.
  destruct Ha as [_ Ha], Hb as [_ Hb]. unfold nla_total_size, nla_attr_size. change NLA_HDRLEN with 4.
  pose proof (zlen_nonneg a.2). pose proof (zlen_nonneg b.2).
  pose proof (ALIGN_bounds (4 + zlen a.2)). pose proof (ALIGN_bounds (4 + zlen b.2)). lia.
Qed.

Lemma attr_ok_u32 ty v : 0 < ty < 2 ^ 14 → attr_ok (ty, le_split 4 v).
Proof. intros Ht. split; [done|]. cbn [snd]. rewrite zlen_le_split. lia. Qed.

Lemma attr_ok_name ty s : 0 < ty < 2 ^ 14 → name_ok s → attr_ok (ty, s ++ [0]).
Proof. intros Ht (_ & _ & Hl). split; [done|]. cbn [snd]. rewrite zlen_app. change (zlen [0]) with 1. lia. Qed.

(** An entry of a list cannot be allocated. *)
Definition no_entry : Prop := ∃ st, cw_entry_alloc st = false.

Lemma parse_op_ok buf nla op p o st :
  attr_in buf nla (flat (op_attrs op)) → 0 ≤ op.1 < 2 ^ 32 ∧ 0 ≤ op.2 < 2 ^ 32 →
  rwp (parse_op buf p nla) (λ e st',
    e = None ∧ st' = with_obj p (add_op o op) st ∨
    e = Some (- NLE_NOMEM) ∧ st' = with_obj p o st ∧ no_entry) (with_obj p o st).
Proof.
  intros Ha [H1 H2]. unfold parse_op.
  destruct (pair_ok _ _ (attr_ok_u32 CTRL_ATTR_OP_ID op.1 ltac:(unfold CTRL_ATTR_OP_ID; lia))
    (attr_ok_u32 CTRL_ATTR_OP_FLAGS op.2 ltac:(unfold CTRL_ATTR_OP_FLAGS; lia))) as [Hsm Hok].
  destruct (parse_nested_ok buf nla CTRL_ATTR_OP_MAX family_op_policy (op_attrs op) Ha Hok) as (t & Et & Hfind);
    [by apply list.Forall_cons; split; [apply passes_u32|apply list.Forall_cons; split; [apply passes_u32|apply Forall_nil] ]|done|].
  apply rwp_bind, (rwp_lift _ (0, t)); [done|]. cbn [fst snd]. change (0 <? 0) with false. cbv iota.
  destruct (Hfind CTRL_ATTR_OP_ID) as (a1 & Ea1 & Ha1); [done|]. rewrite Ea1.
  destruct (Hfind CTRL_ATTR_OP_FLAGS) as (a2 & Ea2 & Ha2); [done|]. rewrite Ea2.
  apply rwp_bind, (rwp_lift _ op.1); [by apply get_u32_ok|].
  apply rwp_bind, (rwp_lift _ op.2); [by apply get_u32_ok|].
  apply rwp_bind. unfold rwp at 1. destruct (cw_entry_alloc _) eqn:Een; unfold genl_family_add_op; cbn [negb].
  - apply rwp_bind, rwp_bind. unfold fam_set. apply rwp_upd_with, rwp_ret, rwp_ret. left.
    rewrite !u32_small by done. by destruct op.
  - apply rwp_bind, rwp_ret, rwp_ret. right. split; [done|]. split; [done|]. by eexists.
Qed.

Lemma parse_grp_ok buf nla g p o st :
  attr_in buf nla (flat (grp_attrs g)) → 0 ≤ g.1 < 2 ^ 32 ∧ name_ok g.2 →
  rwp (parse_grp buf p nla) (λ e st',
    e = None ∧ st' = with_obj p (add_grp o g) st ∨
    e = Some (- NLE_NOMEM) ∧ st' = with_obj p o st ∧ no_entry) (with_obj p o st).
Proof.
  intros Ha [H1 H2]. unfold parse_grp.
  destruct (pair_ok _ _ (attr_ok_u32 CTRL_ATTR_MCAST_GRP_ID g.1 ltac:(unfold CTRL_ATTR_MCAST_GRP_ID; lia))
    (attr_ok_name CTRL_ATTR_MCAST_GRP_NAME g.2 ltac:(unfold CTRL_ATTR_MCAST_GRP_NAME; lia) H2)) as [Hsm Hok].
  destruct (parse_nested_ok buf nla CTRL_ATTR_MCAST_GRP_MAX family_grp_policy (grp_attrs g) Ha Hok) as (t & Et & Hfind).
  { constructor; [by apply passes_u32|]. constructor; [|done]. eapply passes_name; [done|done|by left]. }
  { done. }
  apply rwp_bind, (rwp_lift _ (0, t)); [done|]. cbn [fst snd]. change (0 <? 0) with false. cbv iota.
  destruct (Hfind CTRL_ATTR_MCAST_GRP_ID) as (a1 & Ea1 & Ha1); [done|]. rewrite Ea1.
  destruct (Hfind CTRL_ATTR_MCAST_GRP_NAME) as (a2 & Ea2 & Ha2); [done|]. rewrite Ea2.
  apply rwp_bind, (rwp_lift _ g.1); [by apply get_u32_ok|].
  apply rwp_bind, (rwp_lift _ g.2); [apply get_string; [done|apply H2]|].
  apply rwp_bind. unfold rwp at 1. destruct (cw_entry_alloc _) eqn:Een; unfold genl_family_add_grp; cbn [negb].
  - apply rwp_bind, rwp_bind. unfold fam_set. apply rwp_upd_with, rwp_ret, rwp_ret. left.
    rewrite u32_small by done. destruct H2 as (_ & _ & Hl). rewrite take_ge by (unfold zlen in Hl; lia).
    by destruct g.
  - apply rwp_bind, rwp_ret, rwp_ret. right. split; [done|]. split; [done|]. by eexists.
Qed.

(** ** All of them *)

Definition add_ops (o : nl_object genl_family) (ops : list (Z * Z)) : nl_object genl_family :=
  fold_left add_op ops o.
Definition add_grps (o : nl_object genl_family) (gs : list (Z * list Z)) : nl_object genl_family :=
  fold_left add_grp gs o.

(** A jump to [errout]: the object is still private to the parser. *)
Definition bailed (p : Z) (st : store genl_family) (e : option Z) (st' : store genl_family) : Prop :=
  e = Some (- NLE_NOMEM) ∧ no_entry ∧ ∃ o, st' = with_obj p o st ∧ ce_refcnt o = 1 ∧ ce_cache o = 0.

Lemma add_ops_hdr ops o : ce_refcnt (add_ops o ops) = ce_refcnt o ∧ ce_cache (add_ops o ops) = ce_cache o.
Proof. unfold add_ops. revert o. induction ops as [|op ops IH]; intros o; [done|]. apply (IH (add_op o op)). Qed.

Lemma add_grps_hdr gs o : ce_refcnt (add_grps o gs) = ce_refcnt o ∧ ce_cache (add_grps o gs) = ce_cache o.
Proof. unfold add_grps. revert o. induction gs as [|g gs IH]; intros o; [done|]. apply (IH (add_grp o g)). Qed.

Lemma number_size n l x : x ∈ l → ∃ k, (k, x) ∈ number n l.
Proof.
  revert n. induction l as [|y l IH]; intros n Hin; [set_solver|].
  apply elem_of_cons in Hin as [->|Hin]; [exists n; cbn; apply elem_of_cons; by left|].
  destruct (IH (n + 1) Hin) as [k Hk]. exists k. cbn. apply elem_of_cons. by right.
Qed.

(** A loop over numbered attributes, each of which adds one entry. *)
Lemma numbered_ok {A} buf off (enc1 : A → list Z) (l : list A) (parse : Z → R genl_family (option Z))
    (add : nl_object genl_family → A → nl_object genl_family) (good : A → Prop) p o st :
  attr_in buf off (flat (number 1 (map enc1 l))) → Forall attr_ok (number 1 (map enc1 l)) →
  zlen (flat (number 1 (map enc1 l))) < 2 ^ 31 → Forall good l →
  ce_refcnt o = 1 → ce_cache o = 0 →
  (∀ o x, ce_refcnt (add o x) = ce_refcnt o ∧ ce_cache (add o x) = ce_cache o) →
  (∀ nla x o, attr_in buf nla (enc1 x) → good x →
     rwp (parse nla) (λ e st', e = None ∧ st' = with_obj p (add o x) st ∨
       e = Some (- NLE_NOMEM) ∧ st' = with_obj p o st ∧ no_entry) (with_obj p o st)) →
  rwp (each_nested buf off parse) (λ e st',
    e = None ∧ st' = with_obj p (fold_left add l o) st ∨ bailed p st e st') (with_obj p o st).
Proof.
  intros Ha Hok Hsm Hg Hr Hc Hadd Hp.
  eapply (nested_ok buf off _ parse (λ rest st', ∃ n xs o', rest = number n (map enc1 xs) ∧ Forall good xs ∧
    fold_left add l o = fold_left add xs o' ∧ ce_refcnt o' = 1 ∧ ce_cache o' = 0 ∧ st' = with_obj p o' st));
    [exact Ha|done|done| | |].
  - intros a rest nla st0 Hin (n & xs & o' & Er & Hxs & Ef & Hr' & Hc' & ->) Hnla.
    destruct xs as [|x xs]; [done|]. cbn [map number] in Er. injection Er as -> ->.
    apply list.Forall_cons in Hxs as [Hx Hxs]. eapply rwp_mono; [by eapply Hp|].
    intros e st' [ [-> ->]|(-> & -> & Hno)].
    + destruct (Hadd o' x) as [E1 E2]. exists (n + 1), xs, (add o' x).
      split; [done|]. split; [done|]. split; [done|]. by rewrite E1, E2.
    + right. split; [done|]. split; [done|]. by exists o'.
  - intros st0 (n & xs & o' & Er & Hxs & Ef & Hr' & Hc' & ->). destruct xs as [|x xs]; [|done].
    left. split; [done|]. by rewrite Ef.
  - by exists 1, l, o.
Qed.

(** The object after the parser is done with it. *)
Lemma add_all_eq (o : nl_object genl_family) f :
  ce_data o = mkFamily (gf_id f) (gf_name f) (gf_version f) (gf_hdrsize f) (gf_maxattr f) [] [] →
  add_grps (add_ops o (gf_ops f)) (gf_mc_grps f) =
  set_body (ce_msgtype o) (Z.lor (ce_mask o) (match gf_ops f with [] => 0 | _ => FAMILY_ATTR_OPS end)) f o.
Proof.
  intros Hd.
  assert (∀ ops o', add_ops o' ops = set_body (ce_msgtype o')
    (Z.lor (ce_mask o') (match ops with [] => 0 | _ => FAMILY_ATTR_OPS end))
    (mkFamily (gf_id (ce_data o')) (gf_name (ce_data o')) (gf_version (ce_data o')) (gf_hdrsize (ce_data o'))
       (gf_maxattr (ce_data o')) (gf_ops (ce_data o') ++ ops) (gf_mc_grps (ce_data o'))) o') as Hops.
  { induction ops as [|op ops IH]; intros o'.
    - rewrite Z.lor_0_r, app_nil_r. by destruct o' as [? ? ? ? ? ? [] ].
    - change (add_ops o' (op :: ops)) with (add_ops (add_op o' op) ops). rewrite IH. unfold add_op, set_body. simpl.
      rewrite <- app_assoc, <- Z.lor_assoc. f_equal. f_equal.
      destruct ops; [by rewrite Z.lor_0_r|by rewrite Z.lor_diag]. }
  assert (∀ gs o', add_grps o' gs = set_body (ce_msgtype o') (ce_mask o')
    (mkFamily (gf_id (ce_data o')) (gf_name (ce_data o')) (gf_version (ce_data o')) (gf_hdrsize (ce_data o'))
       (gf_maxattr (ce_data o')) (gf_ops (ce_data o')) (gf_mc_grps (ce_data o') ++ gs)) o') as Hgrps.
  { induction gs as [|g gs IH]; intros o'.
    - rewrite app_nil_r. by destruct o' as [? ? ? ? ? ? [] ].
    - change (add_grps o' (g :: gs)) with (add_grps (add_grp o' g) gs). rewrite IH. unfold add_grp, set_body. simpl.
      by rewrite <- app_assoc, Z.lor_0_r. }
  rewrite Hgrps, Hops. unfold set_body. simpl. rewrite Hd. by destruct f.
Qed.

(** ** The parser *)

Lemma find_tail ty f :
  ty ≤ CTRL_ATTR_MAXATTR →
  find_attr ty (nest CTRL_ATTR_OPS (ops_attrs f) ++ nest CTRL_ATTR_MCAST_GROUPS (grps_attrs f)) = None.
Proof.
  unfold CTRL_ATTR_MAXATTR. intros Hty. unfold nest.
  assert (ty =? CTRL_ATTR_OPS = false) as E1 by (apply Z.eqb_neq; unfold CTRL_ATTR_OPS; lia).
  assert (ty =? CTRL_ATTR_MCAST_GROUPS = false) as E2 by (apply Z.eqb_neq; unfold CTRL_ATTR_MCAST_GROUPS; lia).
  destruct (ops_attrs f), (grps_attrs f); cbn [app find_attr fst]; by rewrite ?E1, ?E2.
Qed.

Lemma find_nested f :
  find_attr CTRL_ATTR_OPS (fam_attrs f) =
    match ops_attrs f with [] => None | l => Some (flat l) end ∧
  find_attr CTRL_ATTR_MCAST_GROUPS (fam_attrs f) =
    match grps_attrs f with [] => None | l => Some (flat l) end.
Proof. unfold fam_attrs, nest. by destruct (ops_attrs f), (grps_attrs f). Qed.

Lemma find_fixed f :
  find_attr CTRL_ATTR_FAMILY_NAME (fam_attrs f) = Some (gf_name f ++ [0]) ∧
  find_attr CTRL_ATTR_FAMILY_ID (fam_attrs f) = Some (le_split 2 (gf_id f)) ∧
  find_attr CTRL_ATTR_VERSION (fam_attrs f) = Some (le_split 4 (gf_version f)) ∧
  find_attr CTRL_ATTR_HDRSIZE (fam_attrs f) = Some (le_split 4 (gf_hdrsize f)) ∧
  find_attr CTRL_ATTR_MAXATTR (fam_attrs f) = Some (le_split 4 (gf_maxattr f)).
Proof.
  unfold fam_attrs. cbn [app find_attr fst snd].
  rewrite !(find_tail _ f) by (unfold CTRL_ATTR_FAMILY_NAME, CTRL_ATTR_FAMILY_ID, CTRL_ATTR_VERSION,
    CTRL_ATTR_HDRSIZE, CTRL_ATTR_MAXATTR; lia). done.
Qed.

Lemma opt_u32_ok buf a v set (Q : unit → store genl_family → Prop) st :
  attr_in buf a (le_split 4 v) → 0 ≤ v < 2 ^ 32 → rwp (set v) Q st →
  rwp (opt_u32 buf (Some a) set) Q st.
Proof. intros Ha Hv Hs. unfold opt_u32. apply rwp_bind, (rwp_lift _ v); [by apply get_u32_ok|done]. Qed.

Lemma nested_size ty l : attr_ok (ty, flat l) → zlen (flat l) < 2 ^ 31.
Proof. intros [_ Hs]. cbn [snd] in Hs. lia. Qed.

Lemma attr_of ty l (fl : list (Z * list Z)) :
  Forall attr_ok fl → find_attr ty fl = Some l → zlen l < 2 ^ 31.
Proof.
  induction 1 as [|a fl Ha _ IH]; [done|]. simpl. destruct (find_attr ty fl) as [bs|]; [intros [= <-]; by apply IH|].
  destruct (ty =? a.1); [|done]. intros [= <-]. destruct Ha as [_ Ha]. lia.
Qed.

(** The last two loops. *)
Lemma fill_lists_ok buf attrs f p o st :
  family_ok f → indexes buf (fam_attrs f) CTRL_ATTR_MAX attrs → ce_refcnt o = 1 → ce_cache o = 0 →
  rwp (e <- (match attrs CTRL_ATTR_OPS with
             | None => rret None
             | Some a => each_nested buf a (parse_op buf p)
             end) ;;
       match e with
       | Some err => rret (Some err)
       | None =>
           match attrs CTRL_ATTR_MCAST_GROUPS with
           | None => rret None
           | Some a => each_nested buf a (parse_grp buf p)
           end
       end) (λ e st', e = None ∧ st' = with_obj p (add_grps (add_ops o (gf_ops f)) (gf_mc_grps f)) st ∨
                      bailed p st e st') (with_obj p o st).
Proof.
  intros Hf Hix Hr Hc. destruct (find_nested f) as [F1 F2].
  pose proof (Hix CTRL_ATTR_OPS ltac:(done)) as H1. pose proof (Hix CTRL_ATTR_MCAST_GROUPS ltac:(done)) as H2.
  pose proof (attr_of CTRL_ATTR_OPS (flat (ops_attrs f)) _ (fo_fit _ Hf)) as S1.
  pose proof (attr_of CTRL_ATTR_MCAST_GROUPS (flat (grps_attrs f)) _ (fo_fit _ Hf)) as S2.
  rewrite F1 in H1, S1. rewrite F2 in H2, S2.
  eapply (rwp_seq _ _ (λ e st', e = None ∧ st' = with_obj p (add_ops o (gf_ops f)) st ∨ bailed p st e st')).
  - destruct (ops_attrs f) as [|x l] eqn:E.
    + rewrite H1. apply rwp_ret. left. unfold ops_attrs in E. by destruct (gf_ops f).
    + destruct H1 as (off & -> & Ha). rewrite <- E in Ha, S1.
      eapply numbered_ok; [exact Ha|apply Hf|by apply S1; rewrite E|apply Hf|done|done|done|].
      intros nla op o' Hin Hop. by apply parse_op_ok.
  - intros e st' [ [-> ->]|Hb]; [|destruct Hb as [-> Hb]; apply rwp_ret; right; by split].
    destruct (add_ops_hdr (gf_ops f) o) as [E1 E2].
    destruct (grps_attrs f) as [|x l] eqn:E.
    + rewrite H2. apply rwp_ret. left. unfold grps_attrs in E. by destruct (gf_mc_grps f).
    + destruct H2 as (off & -> & Ha). rewrite <- E in Ha, S2.
      eapply numbered_ok; [exact Ha|apply Hf|by apply S2; rewrite E|apply Hf|congruence|congruence|done|].
      intros nla g o' Hin Hg. by apply parse_grp_ok.
Qed.

Lemma fill_family_ok buf attrs f p o st :
  family_ok f → indexes buf (fam_attrs f) CTRL_ATTR_MAX attrs → nlmsg_type buf 0 = Some GENL_ID_CTRL →
  ce_refcnt o = 1 → ce_cache o = 0 → ce_mask o = 0 → ce_data o = family_new →
  rwp (fill_family buf attrs p) (λ e st',
    e = None ∧ st' = with_obj p (set_body GENL_ID_CTRL (fam_mask f) f o) st ∨ bailed p st e st')
    (with_obj p o st).
Proof.
  intros Hf Hix Hty Hr Hc Hm Hd. destruct (find_fixed f) as (F1 & F2 & F3 & F4 & F5).
  pose proof (Hix CTRL_ATTR_FAMILY_NAME ltac:(done)) as H1. rewrite F1 in H1. destruct H1 as (a1 & E1 & H1).
  pose proof (Hix CTRL_ATTR_FAMILY_ID ltac:(done)) as H2. rewrite F2 in H2. destruct H2 as (a2 & E2 & H2).
  pose proof (Hix CTRL_ATTR_VERSION ltac:(done)) as H3. rewrite F3 in H3. destruct H3 as (a3 & E3 & H3).
  pose proof (Hix CTRL_ATTR_HDRSIZE ltac:(done)) as H4. rewrite F4 in H4. destruct H4 as (a4 & E4 & H4).
  pose proof (Hix CTRL_ATTR_MAXATTR ltac:(done)) as H5. rewrite F5 in H5. destruct H5 as (a5 & E5 & H5).
  pose proof Hf as [R1 R2 R3 R4 R5 _ _ _ _ _]. unfold fill_family. rewrite E1, E2, E3, E4, E5.
  apply rwp_bind, (rwp_lift _ GENL_ID_CTRL); [done|]. apply rwp_bind, rwp_upd_with.
  apply rwp_bind, (rwp_lift _ (gf_id f)).
  { unfold nla_get_u16. rewrite (get_value 2 _ _ _ H2). f_equal. by apply Z.mod_small. }
  apply rwp_bind, rwp_upd_with.
  apply rwp_bind, (rwp_lift _ (gf_name f)); [apply get_string; [done|apply R2]|].
  apply rwp_bind, rwp_upd_with.
  apply rwp_bind. eapply opt_u32_ok; [exact H3|lia|]. apply rwp_upd_with.
  apply rwp_bind. eapply opt_u32_ok; [exact H4|lia|]. apply rwp_upd_with.
  apply rwp_bind. eapply opt_u32_ok; [exact H5|lia|]. apply rwp_upd_with.
  eapply rwp_mono; [apply fill_lists_ok; done|]. cbv beta. rewrite add_all_eq.
  - unfold set_body. cbn [ce_refcnt ce_ops ce_cache ce_msgtype ce_flags ce_mask ce_data]. rewrite Hm. done.
  - unfold set_body. cbn [ce_data gf_id gf_name gf_version gf_hdrsize gf_maxattr gf_ops gf_mc_grps].
    rewrite Hd. cbn [family_new gf_ops gf_mc_grps]. destruct R2 as (_ & _ & Hl).
    rewrite take_ge by (unfold zlen in Hl; lia). unfold u16, u8. rewrite !u32_small, !Z.mod_small by lia. done.
Qed.
End Parse.
