(* ===== verification/CtrlOk.v ===== *)
(** * Resolving a family by its name

    A dump of families fills the controller's cache, the resolver finds the first family of
    the given name and returns its number, and everything that was allocated is freed. *)

From S2P Require Import Prelude Mem Kernel Packet Netlink NlError Attr Recv Dump NlList.
From S2P Require Import Objects Cache CacheInv CacheOps CacheLoop CacheSync CacheResync CacheFill.
From S2P Require Import Family UserLib GenlCtrl CtrlParse.
Import Nl.

Section Ok.
Context `{Ctrl}.
Local Open Scope store_scope.

Lemma rbind_some {A B} (m : R genl_family A) (k : A → R genl_family B) st a st' :
  m st = Some (a, st') → rbind m k st = k a st'.
Proof. intros E. unfold rbind. by rewrite E. Qed.

(** ** The message of a family carries the family *)

Section Msg.
Context (seq pid : Z) (f : genl_family) (Hf : family_ok f) (Hseq : 0 ≤ seq < 2 ^ 32).

Lemma fam_passes : Forall (passes CTRL_ATTR_MAX ctrl_policy) (fam_attrs f).
Proof.
  destruct Hf as [_ Hn _ _ _ Ho Hg _ _ _].
  assert (∀ ty l, ctrl_policy ty = mkPolicy NLA_NESTED 0 0 → Forall (λ a, Forall is_byte a.2) l →
    Forall (passes CTRL_ATTR_MAX ctrl_policy) (nest ty l)) as Hnest.
  { intros ty l Hp Hl. unfold nest. destruct l as [|a l]; [apply Forall_nil|].
    apply list.Forall_cons. split; [|apply Forall_nil]. split; [by apply bytes_flat|]. intros _. cbn [fst snd].
    rewrite Hp. unfold accepts. cbn [pt_type pt_minlen pt_maxlen]. pose proof (zlen_nonneg (flat (a :: l))).
    change (nla_attr_minlen NLA_NESTED) with 0. cbn [negb Z.eqb NLA_NESTED NLA_FLAG NLA_STRING Pos.eqb andb orb].
    by decide_test (0 <=? zlen (flat (a :: l))) true. }
  unfold fam_attrs. cbn [app].
  apply list.Forall_cons; split; [eapply passes_name; [done|done|by right]|].
  apply list.Forall_cons; split; [split; [apply le_split_bytes|done]|].
  do 3 (apply list.Forall_cons; split; [by apply passes_u32|]).
  apply Forall_app. split; apply Hnest; try done; apply bytes_number, Forall_map.
  - eapply list.Forall_impl; [exact Ho|]. intros op _. apply bytes_flat.
    do 2 (apply list.Forall_cons; split; [apply le_split_bytes|]). apply Forall_nil.
  - eapply list.Forall_impl; [exact Hg|]. intros g [_ Hgn]. apply bytes_flat.
    apply list.Forall_cons; split; [apply le_split_bytes|].
    apply list.Forall_cons; split; [by apply bytes_name|apply Forall_nil].
Qed.

Context (Hsz : zlen (flat (fam_attrs f)) < 2 ^ 30).

Lemma fam_len : nlmsg_len (fam_msg seq pid f) 0 = Some (20 + zlen (flat (fam_attrs f))).
Proof.
  unfold nlmsg_len, fam_msg. rewrite ld_head by (by rewrite length_le_split).
  pose proof (zlen_nonneg (flat (fam_attrs f))). rewrite le_combine_split4, u32_small by lia. done.
Qed.

Lemma fam_field n pre bs post v :
  fam_hdr seq pid = pre ++ bs ++ post → length bs = n → le_combine bs = v →
  ld n (fam_msg seq pid f) (4 + zlen pre) = Some v.
Proof.
  intros E Hl <-. unfold fam_msg. rewrite E, <- !app_assoc, (app_assoc (le_split 4 _)).
  apply ld_mid; [|done]. by rewrite zlen_app, zlen_le_split.
Qed.

Lemma fam_type : nlmsg_type (fam_msg seq pid f) 0 = Some GENL_ID_CTRL.
Proof. exact (fam_field 2 [] (le_split 2 GENL_ID_CTRL) _ _ eq_refl eq_refl eq_refl). Qed.

Lemma fam_flags : nlmsg_flags (fam_msg seq pid f) 0 = Some NLM_F_MULTI.
Proof. exact (fam_field 2 (le_split 2 GENL_ID_CTRL) (le_split 2 NLM_F_MULTI) _ _ eq_refl eq_refl eq_refl). Qed.

Lemma fam_seq : nlmsg_seq (fam_msg seq pid f) 0 = Some seq.
Proof.
  apply (fam_field 4 (le_split 2 GENL_ID_CTRL ++ le_split 2 NLM_F_MULTI) (le_split 4 seq)
    (le_split 4 pid ++ genlmsghdr CTRL_CMD_NEWFAMILY 2)); [done|done|].
  by rewrite le_combine_split4, u32_small.
Qed.

Lemma fam_cmd : ld 1 (fam_msg seq pid f) (nlmsg_data 0) = Some CTRL_CMD_NEWFAMILY.
Proof.
  apply (fam_field 1 (le_split 2 GENL_ID_CTRL ++ le_split 2 NLM_F_MULTI ++ le_split 4 seq ++ le_split 4 pid)
    [1] [2; 0; 0]); [|done|done]. unfold fam_hdr. by rewrite <- !app_assoc.
Qed.

Lemma fam_zlen : zlen (fam_msg seq pid f) = 20 + zlen (flat (fam_attrs f)).
Proof. unfold fam_msg, fam_hdr. rewrite !zlen_app, !zlen_le_split. change (zlen (genlmsghdr _ _)) with 4. lia. Qed.

Lemma fam_part : part_msg seq false (fam_msg seq pid f).
Proof.
  pose proof (zlen_nonneg (flat (fam_attrs f))). split.
  - by rewrite fam_len, fam_zlen.
  - exists GENL_ID_CTRL. split; [apply fam_type|done].
  - exists NLM_F_MULTI. split; [apply fam_flags|done].
  - apply fam_seq.
  - rewrite fam_zlen. lia.
  - rewrite fam_zlen, Z.add_mod, flat_aligned by lia. done.
Qed.

Lemma fam_parse :
  ∃ t, nlmsg_parse (fam_msg seq pid f) 0 co_hdrsize_ctrl CTRL_ATTR_MAX (Some ctrl_policy) = Some (0, Some t) ∧
    indexes (fam_msg seq pid f) (fam_attrs f) CTRL_ATTR_MAX t.
Proof.
  pose proof (zlen_nonneg (flat (fam_attrs f))).
  set (pre := le_split 4 (20 + zlen (flat (fam_attrs f))) ++ fam_hdr seq pid).
  assert (zlen pre = 20) as Hpre by (subst pre; unfold fam_hdr; rewrite !zlen_app, !zlen_le_split; done).
  assert (fam_msg seq pid f = pre ++ flat (fam_attrs f) ++ []) as Em
    by (unfold fam_msg; subst pre; by rewrite app_nil_r, <- app_assoc).
  destruct (parse_stream CTRL_ATTR_MAX ctrl_policy (fam_attrs f) pre [] (fo_fit _ Hf) fam_passes) as (t & Et & Hix);
    [lia|].
  exists t. rewrite <- Em in *. split; [|exact Hix].
  unfold nlmsg_parse, nlmsg_valid_hdr, nlmsg_attrlen, nlmsg_attrdata. rewrite fam_len, !some_bind.
  change (nlmsg_msg_size co_hdrsize_ctrl) with 20. decide_test (20 + zlen (flat (fam_attrs f)) <? 20) false.
  cbn [negb]. rewrite ?some_bind. change NLMSG_HDRLEN with 16. change (NLMSG_ALIGN co_hdrsize_ctrl) with 4.
  change (nlmsg_data 0 + 4) with 20. rewrite Hpre in Et.
  replace (20 + zlen (flat (fam_attrs f)) - 16 - 4) with (zlen (flat (fam_attrs f))) by lia. by rewrite Et.
Qed.

(** An object that the parser gives up is freed. *)
Lemma put_private p o o' st (Q : unit → store genl_family → Prop) :
  p ≠ 0 → objs st !! p = Some o → ce_cache o = 0 → ce_refcnt o' = 1 → ce_cache o' = 0 →
  rwp (nl_object_free p) Q st → rwp (genl_family_put p) Q (with_obj p o' st).
Proof.
  intros Hp Ho Hc Hr' Hc' HQ. unfold genl_family_put, nl_object_put, put_with. rewrite (proj2 (Z.eqb_neq _ _) Hp).
  apply rwp_bind, rwp_upd_with, rwp_bind, (rwp_obj _ (set_refcnt (ce_refcnt o' - 1) o')); [apply lookup_insert_eq|].
  cbn [ce_refcnt set_refcnt]. rewrite Hr'. cbn [Z.sub Z.ltb Z.leb Z.compare Z.add Z.opp Z.pos_sub].
  unfold nl_object_free in *. cbn [object_free] in *.
  apply rwp_bind, (rwp_obj _ (set_refcnt 0 o')); [apply lookup_insert_eq|]. cbn [ce_cache set_refcnt]. rewrite Hc'.
  apply rwp_bind, rwp_ret. revert HQ. unfold rwp, rbind, obj, rret, free_obj. rewrite Ho, Hc. simpl. rewrite Ho.
  by rewrite lookup_insert_eq, delete_insert_eq.
Qed.

Lemma fam_carries (oom : Prop) :
  calloc_ok → (∀ st, cw_entry_alloc st = false → oom) →
  carries oom genl_ctrl_ops (fam_msg seq pid f) (fam_body f).
Proof.
  intros Hca Hoom. pose proof (zlen_nonneg (flat (fam_attrs f))). split; [done|done| | |].
  - eexists. split; [apply fam_len|]. change (nlmsg_msg_size (co_hdrsize genl_ctrl_ops)) with 20. lia.
  - exists GENL_ID_CTRL, NL_ACT_UNSPEC. split; [apply fam_type|done].
  - intros pp_cb st. destruct fam_parse as (t & Et & Hix).
    assert (co_msg_parser genl_ctrl_ops (fam_msg seq pid f) pp_cb st =
      ctrl_msg_parser (fam_msg seq pid f) t pp_cb st) as Eparse.
    { cbn [co_msg_parser genl_ctrl_ops]. unfold genl_msg_parser, rbind, lift. rewrite fam_cmd.
      cbn [find_cmd genl_cmds c_id Z.eqb Pos.eqb CTRL_CMD_NEWFAMILY c_msg_parser]. by rewrite Et. }
    rewrite Eparse. unfold ctrl_msg_parser, parse_obj, fam_body.
    destruct (Z.eqb_spec (cw_calloc st) 0) as [E0|E0].
    { left. unfold rbind, genl_family_alloc, nl_object_alloc. cbn [a_calloc alloc_world ctrl_world].
      by rewrite E0. }
    set (p := cw_calloc st) in *. set (o := mkObj 1 FAMILY_OPS 0 0 0 0 family_new).
    set (st0 := mkStore (objs st) (caches st) (nl_init_list_head (NObj p) (hs st)) (log st) (io st)).
    assert (∀ w : World genl_family, a_calloc (World := w) = cw_calloc → obj_ops_at (World := w) = (λ _, genl_family_ops) →
      @nl_object_alloc _ w FAMILY_OPS st = Some (p, with_obj p o st0)) as Ealloc.
    { intros w E1 E2. unfold nl_object_alloc. rewrite E1, E2. fold p. by rewrite (proj2 (Z.eqb_neq _ _) E0). }
    pose proof (fill_family_ok _ t f p o st0 Hf Hix fam_type eq_refl eq_refl eq_refl eq_refl) as Hfill.
    unfold rwp in Hfill. destruct (fill_family _ t p (with_obj p o st0)) as [ [e st2]|] eqn:Efill; [|done].
    destruct Hfill as [ [-> ->]|(-> & [sx Hno] & o' & -> & Hr & Hc)].
    + left. rewrite (rbind_some _ _ _ _ _ (Ealloc alloc_world eq_refl eq_refl)).
      rewrite (rbind_some _ _ _ _ _ (Ealloc ctrl_world eq_refl eq_refl)), (proj2 (Z.eqb_neq _ _) E0).
      rewrite (rbind_some _ _ _ _ _ Efill).
      rewrite (rbind_some _ _ _ tt (with_obj p (set_body GENL_ID_CTRL (fam_mask f) f o) st0)); [done|].
      unfold upd. cbn [objs with_obj set_objs]. rewrite lookup_insert_eq. f_equal. f_equal. apply with_obj_twice.
    + right. split; [by eapply Hoom|]. intros ext ct Hok. unfold rwp. rewrite Eparse. fold (rwp (ctrl_msg_parser (fam_msg seq pid f) t pp_cb)).
      unfold ctrl_msg_parser. apply rwp_bind. unfold rwp at 1, genl_family_alloc. rewrite Ealloc by done.
      rewrite (proj2 (Z.eqb_neq _ _) E0). apply rwp_bind. unfold rwp at 1. rewrite Efill.
      apply rwp_bind, rwp_ret.
      pose proof (object_alloc_ok ext ct st FAMILY_OPS Hca Hok) as Ha. unfold rwp in Ha. rewrite Ealloc in Ha by done.
      destruct Ha as [ [? _]|(_ & Hok1 & G1 & Ho1 & _)]; [done|].
      rewrite <- (with_obj_twice p o o' st0).
      eapply rwp_seq; [eapply put_private; [done|exact Ho1|done|done|done|]|].
      { eapply free_new_ok; [exact Hok1|exact G1|done|]. by exists o. }
      intros [] st3 (Hok3 & K3 & B3). by apply rwp_ret.
Qed.
End Msg.

(** ** The request *)

Definition getfamily_req (seq : Z) : list Z :=
  wire_msg cw_pid seq GENL_ID_CTRL 0x305 CTRL_CMD_GETFAMILY CTRL_VERSION [].

(** What the request does to the connection. *)
Definition asked (i : nl_io) : Z * nl_io :=
  if cw_msg_alloc i then
    let s := cw_send (io_sent i) (getfamily_req (io_seq_next i)) in
    (s.1, mkIo (u32 (io_seq_next i + 1)) (io_seq_expect i) (io_sent i ++ [getfamily_req (io_seq_next i)])
            (io_incoming i ++ s.2))
  else (- NLE_NOMEM, i).

Lemma ctrl_request_ok c st :
  20 ≤ cw_msg_size < 2 ^ 31 →
  ctrl_request_update c st = Some ((asked (io st)).1, set_io (asked (io st)).2 st).
Proof.
  intros Hsz. unfold ctrl_request_update, genl_send_simple, nl_send_simple, asked.
  destruct (cw_msg_alloc (io st)); [|by destruct st]. cbn [negb].
  destruct (simple_append cw_msg_size GENL_ID_CTRL NLM_F_DUMP (genlmsghdr CTRL_CMD_GETFAMILY CTRL_VERSION))
    as (n & n' & tail & E1 & E2 & E3); [change (zlen (genlmsghdr _ _)) with 4; change (NLMSG_ALIGN 4) with 4; lia|].
  rewrite E1, some_bind. change (zlen (genlmsghdr _ _) =? 0) with false. cbv iota. rewrite E2, some_bind.
  cbn [fst snd]. change (0 <? 0) with false. cbv iota.
  assert (nm_nlh n' = le_split 4 20 ++ req_hdr 0 0 GENL_ID_CTRL NLM_F_DUMP CTRL_CMD_GETFAMILY CTRL_VERSION ++ tail) as ->.
  { rewrite E3. unfold req_hdr. rewrite <- !app_assoc. done. }
  rewrite complete_any, some_bind by done. rewrite field_len, some_bind by lia. done.
Qed.

(** ** The search *)

Lemma search_id_ok ext ct st c ps k id :
  st_ok ext ct st → ct !! c = Some ps → caches st !! c = Some k → c_ops k = CTRL_OPS →
  rwp (genl_ctrl_search c id) (λ r st',
    r = default 0 (List.find (λ p, match body st !! p with Some b => gf_id b.2 =? id | None => false end) ps) ∧
    st_ok (hold r ext) ct st' ∧ keeps st st' ∧ (r = 0 ∨ r ∈ ps)) st.
Proof.
  intros Hok Hc Hk Ek. unfold genl_ctrl_search. apply rwp_bind, (rwp_cache _ k); [done|].
  rewrite Ek, Z.eqb_refl. cbn [negb]. apply first_ok; [done..|].
  intros p Q Hp HQ. destruct (core_mem _ _ _ Hok _ _ p Hc Hp) as (o & Ho & _).
  apply rwp_bind, (rwp_obj _ o); [done|]. rewrite (body_lookup _ _ _ Ho) in HQ. cbn [body_of snd] in HQ.
  by destruct (gf_id (ce_data o) =? id).
Qed.

Definition named (name : list Z) (B : gmap Z (Z * Z * Z * Z * genl_family)) (p : Z) : bool :=
  match B !! p with Some b => bool_decide (name = gf_name b.2) | None => false end.

Lemma search_by_name_ok ext ct st c ps k name :
  st_ok ext ct st → ct !! c = Some ps → caches st !! c = Some k → c_ops k = CTRL_OPS →
  rwp (genl_ctrl_search_by_name c name) (λ r st',
    r = default 0 (List.find (named name (body st)) ps) ∧ st_ok (hold r ext) ct st' ∧ keeps st st' ∧
    (r = 0 ∨ r ∈ ps)) st.
Proof.
  intros Hok Hc Hk Ek. unfold genl_ctrl_search_by_name. apply rwp_bind, (rwp_cache _ k); [done|].
  rewrite Ek, Z.eqb_refl. cbn [negb]. apply first_ok; [done..|].
  intros p Q Hp HQ. destruct (core_mem _ _ _ Hok _ _ p Hc Hp) as (o & Ho & _).
  apply rwp_bind, (rwp_obj _ o); [done|]. unfold named in HQ. rewrite (body_lookup _ _ _ Ho) in HQ. cbn [body_of snd] in HQ.
  by destruct (bool_decide (name = gf_name (ce_data o))).
Qed.
(** ** The resolver *)

(** An allocation fails. *)
Definition no_memory : Prop :=
  (∃ st, cw_calloc st = 0 ∨ cw_entry_alloc st = false ∨ cw_cb_clone st = false ∨ ∃ m, cw_msg_copy st m = false) ∨ ∃ i, cw_msg_alloc i = false.

(** The kernel has the families [concat fss ++ fs] and answers the request with a dump of
    them that ends with [fin]; nothing else is on its way. *)
Record answers (fss : list (list genl_family)) (fs : list genl_family) (fin : list Z) (i : nl_io) : Prop := {
  an_fams : Forall (λ f, family_ok f ∧ zlen (flat (fam_attrs f)) < 2 ^ 30) (concat fss ++ fs);
  an_some : Forall (λ l, l ≠ []) fss;
  an_seq : 0 ≤ io_seq_next i < 2 ^ 32;
  an_expect : io_seq_expect i = io_seq_next i;
  an_quiet : io_incoming i = [];
  an_send : 0 ≤ (cw_send (io_sent i) (getfamily_req (io_seq_next i))).1 →
    (cw_send (io_sent i) (getfamily_req (io_seq_next i))).2 =
    dump_dgs (map (map (fam_msg (io_seq_next i) cw_pid)) fss) (map (fam_msg (io_seq_next i) cw_pid) fs) fin;
  an_fin : part_msg (io_seq_next i) true fin;
}.

(** The first family of the name, and what is returned for it. *)
Definition lookup_family (name : list Z) (fams : list genl_family) : option genl_family :=
  List.find (λ f, bool_decide (name = gf_name f)) fams.

Definition resolved (val : genl_family → Z) (name : list Z) (fams : list genl_family) : Z :=
  match lookup_family name fams with Some f => val f | None => - NLE_OBJ_NOTFOUND end.

Lemma fams_carried seq pid l :
  calloc_ok → Forall (λ f, family_ok f ∧ zlen (flat (fam_attrs f)) < 2 ^ 30) l → 0 ≤ seq < 2 ^ 32 →
  Forall2 (carries no_memory genl_ctrl_ops) (map (fam_msg seq pid) l) (map fam_body l) ∧
  Forall (part_msg seq false) (map (fam_msg seq pid) l).
Proof.
  intros Hca Hl Hs. induction Hl as [|f l [Hf Hsz] _ [IH1 IH2] ]; [split; constructor|]. cbn [map]. split.
  - apply list.Forall2_cons. split; [|done]. apply fam_carries; [done..|]. intros st Hst. left. exists st. auto.
  - apply list.Forall_cons. split; [by apply fam_part|done].
Qed.

Lemma answer_dumped fss fs fin i :
  calloc_ok → answers fss fs fin i → 0 ≤ (asked i).1 →
  dumped (asked i).2 (map (map (fam_msg (io_seq_next i) cw_pid)) fss) (map (fam_msg (io_seq_next i) cw_pid) fs) fin [].
Proof.
  intros Hca [Hf Hne Hsq Hex Hq Hs Hfin]. unfold asked. destruct (cw_msg_alloc i); [|done]. cbn [fst snd]. intros He.
  apply Forall_app in Hf as [Hf1 Hf2]. split; cbn [io_incoming io_seq_expect]; rewrite ?Hex; [|  | |done].
  - by rewrite Hq, Hs, app_nil_r.
  - apply Forall_map. apply Forall_concat in Hf1. apply list.Forall_and. split.
    + eapply list.Forall_impl; [exact Hne|]. intros [|f l] Hl; done.
    + eapply list.Forall_impl; [exact Hf1|]. intros l Hl. by apply fams_carried.
  - by apply fams_carried.
Qed.

(** The search in the filled cache. *)
Lemma find_filled name (B : gmap Z (Z * Z * Z * Z * genl_family)) qs fams :
  Forall2 (λ q b, B !! q = Some b) qs (map fam_body fams) →
  match lookup_family name fams with
  | Some f => ∃ q, List.find (named name B) qs = Some q ∧ B !! q = Some (fam_body f)
  | None => List.find (named name B) qs = None
  end.
Proof.
  revert qs. induction fams as [|f fams IH]; intros qs Hq; cbn [map] in Hq.
  { apply Forall2_nil_inv_r in Hq as ->. done. }
  apply Forall2_cons_inv_r in Hq as (q & qs' & Hq & Hqs & ->). specialize (IH qs' Hqs).
  unfold lookup_family in *. cbn [List.find]. unfold named at 1 3. rewrite Hq. cbn [fam_body snd].
  destruct (bool_decide (name = gf_name f)); [by exists q|done].
Qed.

Lemma filling_keeps ext ct c (st0 : store genl_family) kd qs dn st st' :
  st_ok ext ct st0 → ct !! c = None → filling ext ct c st0 kd qs dn st →
  st_ok ext (<[c := qs]> ct) st' → keeps st st' → filling ext ct c st0 kd qs dn st'.
Proof.
  intros Hok0 Hc [Hok Hn Hk Ho Hl] Hok' [B K L I]. split; [done| |congruence| |congruence].
  - eapply Forall2_impl_in; [exact Hn|]. intros q b Hq Hb.
    destruct (core_mem _ _ _ Hok' c qs q) as (o & Hoq & _); [apply lookup_insert_eq|done|].
    pose proof (body_lookup _ _ _ Hoq) as E. rewrite E. eapply lookup_weaken in E; [|exact B]. congruence.
  - eapply old_stays; [done|done|done|]. intros q x y Hx Hy. eapply lookup_weaken in Hx; [|exact Ho].
    eapply lookup_weaken in Hy; [|exact B]. congruence.
Qed.

(** ** The theorem *)

Section Lookup.
Context (ext : Z → Z) (ct : gmap Z (list Z)) (st : store genl_family).
Context (fss : list (list genl_family)) (fs : list genl_family) (fin : list Z).
Context (Hca : calloc_ok) (Hplain : plain_cb (D := genl_family)) (Hsz : 20 ≤ cw_msg_size < 2 ^ 31).
Context (Hok : st_ok ext ct st) (Han : answers fss fs fin (io st)).

(** What a lookup by name gives: the value of the first family of that name, unless memory
    runs out or the request cannot be sent; everything it allocated is freed. *)
Definition looked_up (val : genl_family → Z) (name : list Z) (r : option Z) (st' : store genl_family) : Prop :=
  ∃ e, r = Some e ∧ restored ext ct st st' ∧
    (e = resolved val name (concat fss ++ fs) ∨ no_memory ∧ e = - NLE_NOMEM ∨
     e = (cw_send (io_sent (io st)) (getfamily_req (io_seq_next (io st)))).1 ∧ e < 0).

Lemma lookup_ok (get : Z → R genl_family Z) (val : genl_family → Z) name :
  (∀ p o st f, objs st !! p = Some o → body_of o = fam_body f → get p st = Some (val f, st)) →
  rwp (a <- genl_ctrl_alloc_cache ;;
       match a with
       | None => rret None
       | Some (err, c) =>
           if err <? 0 then rret (Some err)
           else
             family <- genl_ctrl_search_by_name c name ;;
             err <- (if family =? 0 then rret (- NLE_OBJ_NOTFOUND)
                     else err <- get family ;; genl_family_put family ;; rret err) ;;
             nl_cache_free c ;;
             rret (Some err)
       end) (looked_up val name) st.
Proof.
  intros Hget. eapply rwp_seq.
  { eapply (alloc_and_fill_ok no_memory ext ct st CTRL_OPS ctrl_request_update (λ i, (asked i).1) (λ i, (asked i).2));
      [|done|done|done| |done| |].
    - split_and!; intros s; [intros Hs|intros Hs|intros m Hs]; left; exists s; eauto.
    - rewrite <- concat_map, <- map_app. apply (proj1 (fams_carried _ cw_pid _ Hca (an_fams _ _ _ _ Han) (an_seq _ _ _ _ Han))).
    - intros c st'. by apply ctrl_request_ok.
    - intros He. by eapply answer_dumped. }
  cbv beta. intros r st1 (e & c & -> & [(He & Hr)|(-> & Hc0 & Hc & qs & Hfi)]).
  { assert (e < 0) as He0 by (destruct He as [ [_ ->]|[_ ?] ]; [done|lia]). rewrite (proj2 (Z.ltb_lt _ _) He0).
    apply rwp_ret. exists e. split; [done|]. split; [done|]. right.
    destruct He as [?|[-> _] ]; [by left|]. unfold asked in *. destruct (cw_msg_alloc (io st)) eqn:Em; [by right|].
    left. split; [right; by exists (io st)|done]. }
  cbn [Z.ltb Z.compare]. pose proof Hfi as [Hok1 Hn1 Hk1 _ _].
  assert (∃ k, caches st1 !! c = Some k ∧ c_ops k = CTRL_OPS) as (k & Hk & Ek).
  { apply (f_equal (lookup c)) in Hk1. unfold kinds in Hk1. rewrite lookup_insert_eq, lookup_fmap in Hk1.
    destruct (caches st1 !! c) as [k1|]; [|done]. injection Hk1 as Hk1. eauto. }
  eapply rwp_seq; [eapply search_by_name_ok; [exact Hok1|apply lookup_insert_eq|exact Hk|exact Ek]|].
  intros q st2 (Eq & Hok2 & K2 & _). pose proof (find_filled name _ _ _ Hn1) as Hfind.
  eapply (rwp_seq _ _ (λ err st3, err = resolved val name (concat fss ++ fs) ∧
    filling ext ct c st (<[c := CTRL_OPS]> (kinds st)) qs (map fam_body (concat fss ++ fs)) st3)).
  - unfold resolved. destruct (lookup_family name (concat fss ++ fs)) as [f|].
    + destruct Hfind as (q' & Eq' & Hb). rewrite Eq' in Eq. simpl in Eq. subst q'.
      assert (q ≠ 0 ∧ q ∈ qs) as [Hq0 Hin].
      { apply find_some in Eq' as [Hin%list_elem_of_In _]. split; [|done]. intros ->.
        destruct (core_mem _ _ _ Hok1 c qs 0) as (o & Ho & _); [apply lookup_insert_eq|done|].
        destruct (core_null _ _ _ Hok1). congruence. }
      rewrite (proj2 (Z.eqb_neq _ _) Hq0). destruct (core_mem _ _ _ Hok2 c qs q) as (o & Ho & _); [apply lookup_insert_eq|done|].
      apply rwp_bind. unfold rwp at 1. rewrite (Hget q o st2 f Ho).
      2:{ pose proof (body_lookup _ _ _ Ho) as E. eapply lookup_weaken in E; [|apply K2].
          rewrite Hb in E. by apply (inj Some). }
      eapply rwp_seq; [eapply put_ok; [exact Hok2|] |].
      { unfold hold. rewrite (proj2 (Z.eqb_neq _ _) Hq0). unfold add_ref. rewrite Z.eqb_refl.
        pose proof (ext_nonneg _ _ _ q (ok_core _ _ _ Hok1)). lia. }
      intros [] st3 (Hok3 & K3). apply rwp_ret. split; [done|].
      eapply filling_keeps; [done|done|exact Hfi| |by etrans].
      eapply st_ok_ext; [|exact Hok3]. intros z. unfold hold. rewrite (proj2 (Z.eqb_neq _ _) Hq0).
      unfold add_ref. destruct (z =? q); lia.
    + rewrite Hfind in Eq. simpl in Eq. subst q. cbn [Z.eqb]. apply rwp_ret. split; [done|].
      by eapply filling_keeps.
  - intros err st3 [-> Hfi3]. eapply rwp_seq; [eapply free_filled; [exact Hok|exact Hc|exact Hfi3]|]. intros [] st4 Hr. apply rwp_ret.
    eexists. split; [done|]. split; [done|]. by left.
Qed.

Lemma resolve_ok name : rwp (genl_ctrl_resolve name) (looked_up gf_id name) st.
Proof.
  apply lookup_ok. intros p o st' f Ho Eb. unfold genl_family_get_id, rbind, obj. rewrite Ho.
  assert (ce_mask o = fam_mask f ∧ ce_data o = f) as [-> ->] by (split; [change (ce_mask o) with (body_of o).1.2; by rewrite Eb|
    change (ce_data o) with (body_of o).2; by rewrite Eb]).
  unfold fam_mask. by destruct (gf_ops f).
Qed.

(** The number of the first group of the name, 0 if the family has none. *)
Definition group_of (grp_name : list Z) (f : genl_family) : Z :=
  default 0 ((λ g, s32 g.1) <$> List.find (λ g, bool_decide (g.2 = grp_name)) (gf_mc_grps f)).

Lemma resolve_grp_ok name grp_name :
  rwp (genl_ctrl_resolve_grp name grp_name) (looked_up (group_of grp_name) name) st.
Proof.
  apply lookup_ok. intros p o st' f Ho Eb. unfold genl_ctrl_grp_by_name, rbind, obj. rewrite Ho.
  assert (ce_data o = f) as -> by (change (ce_data o) with (body_of o).2; by rewrite Eb). done.
Qed.
End Lookup.
End Ok.
