(* ===== verification/Ports.v ===== *)
(** * Local ports: [generate_local_port], [release_local_port] of [lib/socket.c]

    The library numbers its sockets with 1024 ports per process, which it keeps in a bitmap
    of 32 words.  The bitmap is shown to be a set of numbers below 1024: a port is generated
    for the smallest number that is free, and releasing a port frees its number. *)

From S2P Require Import Prelude Netlink.

Definition UINT_MAX : Z := 0xFFFFFFFF.

(** [used_ports_map], 32 words. *)
Abbreviation port_map := (list Z).

Definition word (m : port_map) (i : Z) : Z := m !!! Z.to_nat i.

(** The inner loop, from bit [n]: the first bit that is clear. *)
Fixpoint bit_loop (fuel : nat) (n w : Z) : option Z :=
  match fuel with
  | O => None
  | S fuel => if negb (Z.land 1 (Z.shiftr w n) =? 0) then bit_loop fuel (n + 1) w else Some n
  end.

(** The outer loop, from word [i]. *)
Fixpoint port_loop (fuel : nat) (i pid : Z) (m : port_map) : Z * port_map :=
  match fuel with
  | O => (UINT_MAX, m)
  | S fuel =>
      if word m i =? 0xFFFFFFFF then port_loop fuel (i + 1) pid m
      else
        match bit_loop 32 0 (word m i) with
        | Some n => (u32 (pid + Z.shiftl (n + i * 32) 22),
                     <[Z.to_nat i := Z.lor (word m i) (Z.shiftl 1 n)]> m)
        | None => port_loop fuel (i + 1) pid m
        end
  end.

(** [getpid] is a parameter. *)
Definition generate_local_port (getpid : Z) (m : port_map) : Z * port_map :=
  port_loop 32 0 (Z.land getpid 0x3FFFFF) m.

Definition release_local_port (port : Z) (m : port_map) : port_map :=
  if port =? UINT_MAX then m
  else
    let nr := Z.shiftr port 22 in
    <[Z.to_nat (nr / 32) := Z.land (word m (nr / 32)) (u32 (Z.lnot (Z.shiftl 1 (nr mod 32))))]> m.

(** ** The bitmap as a set *)

(** The number [k] is in use. *)
Definition used (m : port_map) (k : Z) : bool := Z.testbit (word m (k / 32)) (k mod 32).

(** 32 words of 32 bits. *)
Definition map_ok (m : port_map) : Prop := length m = 32%nat ∧ Forall (λ w, 0 ≤ w < 2 ^ 32) m.

Definition port_of (pid k : Z) : Z := u32 (Z.land pid 0x3FFFFF + Z.shiftl k 22).

Lemma word_range m i : map_ok m → 0 ≤ word m i < 2 ^ 32.
Proof.
  intros [_ Hm]. unfold word. rewrite list_lookup_total_alt. destruct (m !! Z.to_nat i) as [w|] eqn:E; simpl; [|lia].
  by apply (Forall_lookup_1 _ _ _ _ Hm E).
Qed.

Lemma word_insert m i j w :
  map_ok m → 0 ≤ i < 32 → 0 ≤ j < 32 → word (<[Z.to_nat i := w]> m) j = if j =? i then w else word m j.
Proof.
  intros [Hl _] Hi Hj. unfold word. destruct (Z.eqb_spec j i) as [->|Hne].
  - apply list_lookup_total_insert_eq. lia.
  - apply list_lookup_total_insert_ne. lia.
Qed.

Lemma map_ok_insert m i w : map_ok m → 0 ≤ w < 2 ^ 32 → map_ok (<[i := w]> m).
Proof. intros [Hl Hm] Hw. split; [by rewrite length_insert|]. by apply Forall_insert. Qed.

Lemma bit_clear w n : 0 ≤ n → (Z.land 1 (Z.shiftr w n) =? 0) = negb (Z.testbit w n).
Proof.
  intros Hn. rewrite Z.land_comm. change 1 with (Z.ones 1). rewrite Z.land_ones by lia. change (2 ^ 1) with 2.
  rewrite <- Z.bit0_mod, Z.shiftr_spec, Z.add_0_l by lia. by destruct (Z.testbit w n).
Qed.

Lemma bit_loop_ok fuel n w :
  0 ≤ n →
  match bit_loop fuel n w with
  | Some k => n ≤ k < n + Z.of_nat fuel ∧ Z.testbit w k = false ∧ ∀ j, n ≤ j < k → Z.testbit w j = true
  | None => ∀ j, n ≤ j < n + Z.of_nat fuel → Z.testbit w j = true
  end.
Proof.
  revert n. induction fuel as [|fuel IH]; intros n Hn; cbn [bit_loop]; [lia|].
  rewrite bit_clear, negb_involutive by done. destruct (Z.testbit w n) eqn:E.
  - specialize (IH (n + 1) ltac:(lia)). destruct (bit_loop fuel (n + 1) w) as [k|].
    + destruct IH as (Hk & Ek & Hj). split; [lia|]. split; [done|]. intros j Hj'.
      destruct (decide (j = n)) as [->|]; [done|]. apply Hj. lia.
    + intros j Hj. destruct (decide (j = n)) as [->|]; [done|]. apply IH. lia.
  - split; [lia|]. split; [done|]. intros j Hj. lia.
Qed.

(** A full word has every bit. *)
Lemma full_word j : 0 ≤ j < 32 → Z.testbit 0xFFFFFFFF j = true.
Proof. intros Hj. change 0xFFFFFFFF with (Z.ones 32). apply Z.ones_spec_low. lia. Qed.

Lemma lor_bit w n : 0 ≤ n < 32 → 0 ≤ w < 2 ^ 32 → 0 ≤ Z.lor w (Z.shiftl 1 n) < 2 ^ 32.
Proof.
  intros Hn Hw. assert (0 ≤ Z.lor w (Z.shiftl 1 n)) as H0 by (apply Z.lor_nonneg; rewrite Z.shiftl_nonneg; lia).
  split; [done|]. destruct (Z.eq_dec (Z.lor w (Z.shiftl 1 n)) 0); [lia|]. apply Z.log2_lt_pow2; [lia|].
  rewrite Z.log2_lor, Z.shiftl_1_l, Z.log2_pow2 by (rewrite ?Z.shiftl_nonneg; lia).
  destruct (Z.eq_dec w 0) as [->|]; [change (Z.log2 0) with 0; lia|].
  assert (Z.log2 w < 32) by (apply Z.log2_lt_pow2; lia). lia.
Qed.

Lemma shiftl_1_testbit n j : 0 ≤ n → 0 ≤ j → Z.testbit (Z.shiftl 1 n) j = (j =? n).
Proof. intros Hn Hj. rewrite Z.shiftl_1_l, Z.pow2_bits_eqb by lia. apply Z.eqb_sym. Qed.

(** The numbers of word [i]. *)
Lemma number_word k : 0 ≤ k < 1024 → 0 ≤ k / 32 < 32 ∧ 0 ≤ k mod 32 < 32 ∧ k = 32 * (k / 32) + k mod 32.
Proof.
  intros Hk. pose proof (Z.div_mod k 32 ltac:(lia)). pose proof (Z.mod_pos_bound k 32 ltac:(lia)).
  split; [|done]. split; [apply Z.div_pos; lia|]. apply Z.div_lt_upper_bound; lia.
Qed.

Lemma used_set m k j :
  map_ok m → 0 ≤ k < 1024 → 0 ≤ j < 1024 →
  used (<[Z.to_nat (k / 32) := Z.lor (word m (k / 32)) (Z.shiftl 1 (k mod 32))]> m) j = used m j || (j =? k).
Proof.
  intros Hm Hk Hj. destruct (number_word k Hk) as (A1 & A2 & A3), (number_word j Hj) as (B1 & B2 & B3).
  unfold used. rewrite word_insert by done. destruct (Z.eqb_spec (j / 32) (k / 32)) as [E|E].
  - rewrite Z.lor_spec, shiftl_1_testbit, <- E by lia. f_equal.
    destruct (Z.eqb_spec (j mod 32) (k mod 32)), (Z.eqb_spec j k); try done; exfalso; [lia|congruence].
  - destruct (Z.eqb_spec j k); [congruence|]. by rewrite orb_false_r.
Qed.

(** ** Generating a port *)

Lemma port_loop_ok fuel i pid m :
  map_ok m → 0 ≤ i → i + Z.of_nat fuel = 32 →
  (∀ j, 0 ≤ j < 32 * i → used m j = true) →
  (∃ k, 0 ≤ k < 1024 ∧ used m k = false ∧ (∀ j, 0 ≤ j < k → used m j = true) ∧
     port_loop fuel i pid m = (u32 (pid + Z.shiftl k 22),
       <[Z.to_nat (k / 32) := Z.lor (word m (k / 32)) (Z.shiftl 1 (k mod 32))]> m)) ∨
  (∀ j, 0 ≤ j < 1024 → used m j = true) ∧ port_loop fuel i pid m = (UINT_MAX, m).
Proof.
  revert i. induction fuel as [|fuel IH]; intros i Hm Hi Ef Hu.
  { right. split; [|done]. intros j Hj. apply Hu. lia. }
  cbn [port_loop].
  assert ((∀ j, 0 ≤ j < 32 → Z.testbit (word m i) j = true) → ∀ j, 0 ≤ j < 32 * (i + 1) → used m j = true) as Hfull.
  { intros Hw j Hj. destruct (Z.lt_ge_cases j (32 * i)) as [?|Hge]; [apply Hu; lia|]. unfold used.
    destruct (number_word j ltac:(lia)) as (A1 & A2 & A3). replace (j / 32) with i by lia. by apply Hw. }
  destruct (Z.eqb_spec (word m i) 0xFFFFFFFF) as [E|E].
  { apply IH; [done|lia|lia|]. apply Hfull. rewrite E. apply full_word. }
  pose proof (bit_loop_ok 32 0 (word m i) ltac:(lia)) as Hb. destruct (bit_loop 32 0 (word m i)) as [n|].
  - destruct Hb as (Hn & En & Hlow). left. exists (n + i * 32). change (Z.of_nat 32) with 32 in Hn.
    assert ((n + i * 32) / 32 = i ∧ (n + i * 32) mod 32 = n) as [E1 E2].
    { rewrite Z.div_add, Z.mod_add, Z.div_small, Z.mod_small by lia. lia. }
    split; [lia|]. unfold used at 1. rewrite E1, E2. split; [done|]. split; [|done].
    intros j Hj. destruct (Z.lt_ge_cases j (32 * i)) as [?|Hge]; [apply Hu; lia|]. unfold used.
    destruct (number_word j ltac:(lia)) as (A1 & A2 & A3). replace (j / 32) with i by lia. apply Hlow. lia.
  - apply IH; [done|lia|lia|]. by apply Hfull.
Qed.

(** A port is generated for the smallest free number, which is then in use; only when all
    1024 are in use there is none. *)
Lemma generate_ok pid m :
  map_ok m →
  (∃ k, 0 ≤ k < 1024 ∧ used m k = false ∧ (∀ j, 0 ≤ j < k → used m j = true) ∧
     (generate_local_port pid m).1 = port_of pid k ∧ map_ok (generate_local_port pid m).2 ∧
     ∀ j, 0 ≤ j < 1024 → used (generate_local_port pid m).2 j = used m j || (j =? k)) ∨
  (∀ j, 0 ≤ j < 1024 → used m j = true) ∧ generate_local_port pid m = (UINT_MAX, m).
Proof.
  intros Hm. unfold generate_local_port.
  destruct (port_loop_ok 32 0 (Z.land pid 0x3FFFFF) m Hm) as [(k & Hk & Eu & Hl & ->)|?]; [lia|lia|intros; lia| |by right].
  left. exists k. split; [done|]. split; [done|]. split; [done|]. split; [done|]. cbn [snd].
  destruct (number_word k Hk) as (A1 & A2 & _). split.
  - apply map_ok_insert; [done|]. apply lor_bit; [done|]. by apply word_range.
  - intros j Hj. by apply used_set.
Qed.

(** ** Releasing it *)

Lemma pid_range pid : 0 ≤ Z.land pid 0x3FFFFF < 2 ^ 22.
Proof. change 0x3FFFFF with (Z.ones 22). rewrite Z.land_ones by lia. apply Z.mod_pos_bound. lia. Qed.

(** The number of a port. *)
Lemma port_number pid k : 0 ≤ k < 1024 → Z.shiftr (port_of pid k) 22 = k ∧ 0 ≤ port_of pid k < 2 ^ 32.
Proof.
  intros Hk. pose proof (pid_range pid). unfold port_of. rewrite Z.shiftl_mul_pow2 by lia.
  change (2 ^ 22) with 4194304 in *. rewrite u32_small by lia. split; [|lia].
  rewrite Z.shiftr_div_pow2 by lia. change (2 ^ 22) with 4194304.
  symmetry. apply Z.div_unique with (Z.land pid 0x3FFFFF); lia.
Qed.

(** The one port of one process that looks like a failure. *)
Lemma port_not_max pid k : 0 ≤ k < 1024 → port_of pid k = UINT_MAX ↔ k = 1023 ∧ Z.land pid 0x3FFFFF = 0x3FFFFF.
Proof.
  intros Hk. pose proof (pid_range pid). unfold port_of, UINT_MAX. rewrite Z.shiftl_mul_pow2 by lia.
  change (2 ^ 22) with 4194304 in *. rewrite u32_small by lia. lia.
Qed.

Lemma clear_bit w n j :
  0 ≤ w < 2 ^ 32 → 0 ≤ n < 32 → 0 ≤ j < 32 →
  Z.testbit (Z.land w (u32 (Z.lnot (Z.shiftl 1 n)))) j = Z.testbit w j && negb (j =? n).
Proof.
  intros Hw Hn Hj. rewrite Z.land_spec. unfold u32. rewrite Z.mod_pow2_bits_low by lia.
  by rewrite Z.lnot_spec, shiftl_1_testbit by lia.
Qed.

Lemma land_range w v : 0 ≤ w < 2 ^ 32 → 0 ≤ Z.land w v < 2 ^ 32.
Proof.
  intros Hw. rewrite <- (Z.mod_small w (2 ^ 32) Hw), <- Z.land_ones by lia.
  rewrite Z.land_comm, Z.land_assoc, Z.land_ones by lia. apply Z.mod_pos_bound. lia.
Qed.

Lemma release_max m : release_local_port UINT_MAX m = m.
Proof. done. Qed.

Lemma release_ok port m :
  map_ok m → 0 ≤ port < 2 ^ 32 → port ≠ UINT_MAX →
  map_ok (release_local_port port m) ∧
  ∀ j, 0 ≤ j < 1024 → used (release_local_port port m) j = used m j && negb (j =? Z.shiftr port 22).
Proof.
  intros Hm Hp Hmax. unfold release_local_port. rewrite (proj2 (Z.eqb_neq _ _) Hmax).
  assert (0 ≤ Z.shiftr port 22 < 1024) as Hk.
  { rewrite Z.shiftr_div_pow2 by lia. split; [apply Z.div_pos; lia|]. apply Z.div_lt_upper_bound; lia. }
  set (k := Z.shiftr port 22) in *. destruct (number_word k Hk) as (A1 & A2 & A3).
  pose proof (word_range m (k / 32) Hm) as Hw. split.
  - apply map_ok_insert; [done|]. by apply land_range.
  - intros j Hj. destruct (number_word j Hj) as (B1 & B2 & B3). unfold used. rewrite word_insert by done.
    destruct (Z.eqb_spec (j / 32) (k / 32)) as [E|E].
    + rewrite clear_bit, <- E by done. f_equal. f_equal.
      destruct (Z.eqb_spec (j mod 32) (k mod 32)), (Z.eqb_spec j k); try done; exfalso; [lia|congruence].
    + destruct (Z.eqb_spec j k); [congruence|]. by rewrite andb_true_r.
Qed.
