(* ===== verification/Handlers.v ===== *)
(** * Callback handles: [lib/handlers.c]

    A callback handle has a handler and an argument for each type of event, and a count of
    references.  The default handlers print and return an action. *)

From S2P Require Import Prelude Netlink NlError Recv.

Definition NL_CB_DEFAULT : Z := 0.
Definition NL_CB_VERBOSE : Z := 1.
Definition NL_CB_DEBUG : Z := 2.
Definition NL_CB_CUSTOM : Z := 3.
Definition NL_CB_KIND_MAX : Z := 3.
Definition NL_CB_TYPE_MAX : Z := 9.
Definition NL_OK : Z := 0.
Definition NL_SKIP : Z := 1.
Definition NL_STOP : Z := 2.

(** The handlers of the library, and the functions of its users, by their address. *)
Inductive handler :=
  | nl_valid_handler_verbose | nl_valid_handler_debug | nl_finish_handler_debug
  | nl_invalid_handler_verbose | nl_msg_in_handler_debug | nl_msg_out_handler_debug
  | nl_overrun_handler_verbose | nl_skipped_handler_debug | nl_ack_handler_debug
  | noop_seq_check | ack_wait_handler
  | custom (f : Z).

Inductive err_handler := nl_error_handler_verbose | custom_err (f : Z).

(** What a handler of the library returns; the text that it prints is left out. *)
Definition handler_action (h : handler) : option Z :=
  match h with
  | nl_valid_handler_verbose | nl_valid_handler_debug | nl_msg_in_handler_debug
  | nl_msg_out_handler_debug | noop_seq_check => Some NL_OK
  | nl_finish_handler_debug | nl_invalid_handler_verbose | nl_overrun_handler_verbose
  | nl_ack_handler_debug | ack_wait_handler => Some NL_STOP
  | nl_skipped_handler_debug => Some NL_SKIP
  | custom _ => None
  end.

(** [nl_error_handler_verbose] returns [-nl_syserr2nlerr(e->error)]. *)
Definition error_action (error : Z) : Z := - nl_syserr2nlerr error.

(** [cb_def[type][kind]] *)
Definition cb_def (type : nl_cb_type) (kind : Z) : option handler :=
  if kind =? NL_CB_VERBOSE then
    match type with
    | NL_CB_VALID => Some nl_valid_handler_verbose
    | NL_CB_INVALID => Some nl_invalid_handler_verbose
    | NL_CB_OVERRUN => Some nl_overrun_handler_verbose
    | _ => None
    end
  else if kind =? NL_CB_DEBUG then
    match type with
    | NL_CB_VALID => Some nl_valid_handler_debug
    | NL_CB_FINISH => Some nl_finish_handler_debug
    | NL_CB_INVALID => Some nl_invalid_handler_verbose
    | NL_CB_MSG_IN => Some nl_msg_in_handler_debug
    | NL_CB_MSG_OUT => Some nl_msg_out_handler_debug
    | NL_CB_OVERRUN => Some nl_overrun_handler_verbose
    | NL_CB_SKIPPED => Some nl_skipped_handler_debug
    | NL_CB_ACK => Some nl_ack_handler_debug
    | _ => None
    end
  else None.

(** [cb_err_def[kind]] *)
Definition cb_err_def (kind : Z) : option err_handler :=
  if (kind =? NL_CB_VERBOSE) || (kind =? NL_CB_DEBUG) then Some nl_error_handler_verbose else None.

(** The types of events in the order of [enum nl_cb_type]. *)
Definition cb_types : list nl_cb_type :=
  [NL_CB_VALID; NL_CB_FINISH; NL_CB_OVERRUN; NL_CB_SKIPPED; NL_CB_ACK;
   NL_CB_MSG_IN; NL_CB_MSG_OUT; NL_CB_INVALID; NL_CB_SEQ_CHECK; NL_CB_SEND_ACK].

Definition type_of (type : Z) : option nl_cb_type :=
  if (type <? 0) || (NL_CB_TYPE_MAX <? type) then None else cb_types !! Z.to_nat type.

(** [struct nl_cb]; functions that overwrite internal calls by their address. *)
Record nl_cbh := mkCbh {
  h_set : nl_cb_type → option handler;
  h_args : nl_cb_type → Z;
  h_err : option err_handler;
  h_err_arg : Z;
  h_recvmsgs_ow : option Z;
  h_recv_ow : option Z;
  h_send_ow : option Z;
  h_refcnt : Z;
}.

Definition cb_zero : nl_cbh := mkCbh (λ _, None) (λ _, 0) None 0 None None None 0.

Definition set_refs (n : Z) (cb : nl_cbh) : nl_cbh :=
  mkCbh (h_set cb) (h_args cb) (h_err cb) (h_err_arg cb) (h_recvmsgs_ow cb) (h_recv_ow cb) (h_send_ow cb) n.

(** [cb->cb_set[t] = func; cb->cb_args[t] = arg;] *)
Definition put_handler (t : nl_cb_type) (func : option handler) (arg : Z) (cb : nl_cbh) : nl_cbh :=
  mkCbh (λ t', if decide (t' = t) then func else h_set cb t')
        (λ t', if decide (t' = t) then arg else h_args cb t')
        (h_err cb) (h_err_arg cb) (h_recvmsgs_ow cb) (h_recv_ow cb) (h_send_ow cb) (h_refcnt cb).

Definition nl_cb_set (cb : nl_cbh) (type kind : Z) (func : option handler) (arg : Z) : Z * nl_cbh :=
  match type_of type with
  | None => (- Nl.NLE_RANGE, cb)
  | Some t =>
      if (kind <? 0) || (NL_CB_KIND_MAX <? kind) then (- Nl.NLE_RANGE, cb)
      else if kind =? NL_CB_CUSTOM then (0, put_handler t func arg cb)
      else (0, put_handler t (cb_def t kind) arg cb)
  end.

(** The loop of [nl_cb_set_all], from type [i]. *)
Fixpoint cb_set_loop (fuel : nat) (i : Z) (cb : nl_cbh) (kind : Z) (func : option handler) (arg : Z)
    : Z * nl_cbh :=
  match fuel with
  | O => (0, cb)
  | S fuel =>
      let r := nl_cb_set cb i kind func arg in
      if r.1 <? 0 then r else cb_set_loop fuel (i + 1) r.2 kind func arg
  end.

Definition nl_cb_set_all (cb : nl_cbh) (kind : Z) (func : option handler) (arg : Z) : Z * nl_cbh :=
  cb_set_loop 10 0 cb kind func arg.

Definition nl_cb_err (cb : nl_cbh) (kind : Z) (func : option err_handler) (arg : Z) : Z * nl_cbh :=
  if (kind <? 0) || (NL_CB_KIND_MAX <? kind) then (- Nl.NLE_RANGE, cb)
  else
    let f := if kind =? NL_CB_CUSTOM then func else cb_err_def kind in
    (0, mkCbh (h_set cb) (h_args cb) f arg (h_recvmsgs_ow cb) (h_recv_ow cb) (h_send_ow cb) (h_refcnt cb)).

Definition nl_cb_overwrite_recvmsgs (cb : nl_cbh) (func : option Z) : nl_cbh :=
  mkCbh (h_set cb) (h_args cb) (h_err cb) (h_err_arg cb) func (h_recv_ow cb) (h_send_ow cb) (h_refcnt cb).
Definition nl_cb_overwrite_recv (cb : nl_cbh) (func : option Z) : nl_cbh :=
  mkCbh (h_set cb) (h_args cb) (h_err cb) (h_err_arg cb) (h_recvmsgs_ow cb) func (h_send_ow cb) (h_refcnt cb).
Definition nl_cb_overwrite_send (cb : nl_cbh) (func : option Z) : nl_cbh :=
  mkCbh (h_set cb) (h_args cb) (h_err cb) (h_err_arg cb) (h_recvmsgs_ow cb) (h_recv_ow cb) func (h_refcnt cb).

(** The contents of a new handle: [nl_cb_alloc] after its [calloc]; its loop ignores the
    results of [nl_cb_set]. *)
Fixpoint cb_init_loop (fuel : nat) (i kind : Z) (cb : nl_cbh) : nl_cbh :=
  match fuel with
  | O => cb
  | S fuel => cb_init_loop fuel (i + 1) kind (nl_cb_set cb i kind None 0).2
  end.

Definition cb_init (kind : Z) : nl_cbh :=
  (nl_cb_err (cb_init_loop 10 0 kind (set_refs 1 cb_zero)) kind None 0).2.

(** ** The handles as [Recv] sees them *)

Section Meaning.
Context {S : Type}.
(** The users' functions. *)
Context (call : Z → Z → callback S) (call_err : Z → Z → Z → S → option (Z * S)).

Definition handler_fun (h : handler) (arg : Z) : callback S :=
  match h with
  | custom f => call f arg
  | _ => λ _ u, a ← handler_action h; Some (a, u)
  end.

Definition err_fun (h : err_handler) (arg : Z) : Z → S → option (Z * S) :=
  match h with
  | custom_err f => call_err f arg
  | nl_error_handler_verbose => λ e u, Some (error_action e, u)
  end.

Definition meaning (cb : nl_cbh) : nl_cb S :=
  mkCb (λ t, (λ h, handler_fun h (h_args cb t)) <$> h_set cb t)
       ((λ h, err_fun h (h_err_arg cb)) <$> h_err cb).

(** ** What the operations do *)

Lemma type_of_ok t : ∃ i, 0 ≤ i ≤ NL_CB_TYPE_MAX ∧ type_of i = Some t.
Proof. destruct t; [exists 0|exists 1|exists 2|exists 3|exists 4|exists 5|exists 6|exists 7|exists 8|exists 9]; done. Qed.

Lemma type_of_in i : 0 ≤ i ≤ NL_CB_TYPE_MAX → ∃ t, type_of i = Some t.
Proof.
  unfold NL_CB_TYPE_MAX. intros Hi.
  assert (i = 0 ∨ i = 1 ∨ i = 2 ∨ i = 3 ∨ i = 4 ∨ i = 5 ∨ i = 6 ∨ i = 7 ∨ i = 8 ∨ i = 9) as Hc by lia.
  repeat destruct Hc as [->|Hc]; [by eexists..|]. subst i. by eexists.
Qed.

(** Numbers that are out of range are refused and change nothing. *)
Lemma cb_set_range cb type kind func arg :
  ¬ (0 ≤ type ≤ NL_CB_TYPE_MAX ∧ 0 ≤ kind ≤ NL_CB_KIND_MAX) →
  nl_cb_set cb type kind func arg = (- Nl.NLE_RANGE, cb).
Proof.
  intros Hr. unfold nl_cb_set. destruct (type_of type) as [t|] eqn:Et; [|done].
  destruct ((kind <? 0) || (NL_CB_KIND_MAX <? kind)) eqn:Ek; [done|]. exfalso. apply Hr.
  apply orb_false_iff in Ek as [?%Z.ltb_ge ?%Z.ltb_ge]. unfold type_of in Et.
  destruct ((type <? 0) || (NL_CB_TYPE_MAX <? type)) eqn:Ety; [done|].
  apply orb_false_iff in Ety as [?%Z.ltb_ge ?%Z.ltb_ge]. done.
Qed.

(** A user's function is called with its argument for the events of its type; the other
    events keep their handlers. *)
Lemma cb_set_custom cb type t f arg :
  type_of type = Some t →
  let r := nl_cb_set cb type NL_CB_CUSTOM (Some (custom f)) arg in
  r.1 = 0 ∧ (∀ t', cb_set (meaning r.2) t' = cb_set (nl_socket_modify_cb (meaning cb) t (call f arg)) t') ∧
  cb_err (meaning r.2) = cb_err (meaning cb) ∧ h_refcnt r.2 = h_refcnt cb.
Proof.
  intros Et. unfold nl_cb_set. rewrite Et. cbn [fst snd]. split; [done|]. split; [|done].
  intros t'. cbn. by destruct (decide (t' = t)) as [->|].
Qed.

(** A new handle has the handlers of its kind, and one reference. *)
Lemma cb_init_ok kind :
  0 ≤ kind < NL_CB_CUSTOM →
  (∀ t, h_set (cb_init kind) t = cb_def t kind ∧ h_args (cb_init kind) t = 0) ∧
  h_err (cb_init kind) = cb_err_def kind ∧ h_refcnt (cb_init kind) = 1.
Proof.
  unfold NL_CB_CUSTOM. intros Hk. assert (kind = 0 ∨ kind = 1 ∨ kind = 2) as [->|[->| ->] ] by lia;
    (split; [intros []; done|done]).
Qed.

(** The default handle of [Recv]. *)
Lemma default_meaning t :
  cb_set (meaning (cb_init NL_CB_DEFAULT)) t = cb_set (@nl_cb_default S) t ∧
  cb_err (meaning (cb_init NL_CB_DEFAULT)) = cb_err (@nl_cb_default S).
Proof. by destruct t. Qed.

(** [nl_cb_set_all] with a kind that exists sets every handler. *)
Lemma set_all_ok cb kind func arg :
  0 ≤ kind ≤ NL_CB_KIND_MAX →
  (nl_cb_set_all cb kind func arg).1 = 0 ∧
  ∀ t, h_set (nl_cb_set_all cb kind func arg).2 t = (if kind =? NL_CB_CUSTOM then func else cb_def t kind) ∧
       h_args (nl_cb_set_all cb kind func arg).2 t = arg.
Proof.
  unfold NL_CB_KIND_MAX. intros Hk. assert (kind = 0 ∨ kind = 1 ∨ kind = 2 ∨ kind = 3) as [->|[->|[->| ->] ] ] by lia;
    (split; [done|intros []; done]).
Qed.
End Meaning.
