(* ===== verification/Socket.v ===== *)
(** * Netlink sockets: [lib/socket.c], and the connection part of [lib/nl.c]

    The heap of callback handles and sockets, the bitmap of local ports and the open file
    descriptors.  System calls are parameters: a call fails with a value of [errno] or
    succeeds. *)

From S2P Require Import Prelude Netlink NlError Recv Handlers Ports.

Definition AF_NETLINK : Z := 16.
Definition SOL_SOCKET : Z := 1.
Definition SO_SNDBUF : Z := 7.
Definition SO_RCVBUF : Z := 8.
Definition SO_PASSCRED : Z := 16.
Definition SOL_NETLINK : Z := 270.
Definition NETLINK_ADD_MEMBERSHIP : Z := 1.
Definition NETLINK_DROP_MEMBERSHIP : Z := 2.
Definition NETLINK_PKTINFO : Z := 3.
Definition sizeof_sockaddr_nl : Z := 12.

Definition NL_SOCK_BUFSIZE_SET : Z := 1.
Definition NL_SOCK_PASSCRED : Z := 2.
Definition NL_OWN_PORT : Z := 4.
Definition NL_MSG_PEEK : Z := 8.
Definition NL_NO_AUTO_ACK : Z := 16.

(** [struct sockaddr_nl] *)
Record sockaddr_nl := mkAddr { nl_family : Z; nl_pid : Z; nl_groups : Z }.

Record nl_sock := mkSock {
  s_local : sockaddr_nl;
  s_peer : sockaddr_nl;
  s_fd : Z;
  s_proto : Z;
  s_seq_next : Z;
  s_seq_expect : Z;
  s_flags : Z;
  s_cb : Z;
}.

(** The memory of the library and the open descriptors; [opts] has the socket options that
    were set: the descriptor, the level, the option and its value. *)
Record net := mkNet {
  cbs : gmap Z nl_cbh;
  socks : gmap Z nl_sock;
  ports : port_map;
  fds : gset Z;
  opts : list (Z * Z * Z * Z);
}.

Class Os := {
  os_calloc : net → Z;
  os_time : net → Z;
  os_getpid : Z;
  (** [socket]: a descriptor, or [errno] *)
  os_socket : net → Z → Z + Z;
  (** the other calls: [errno] when they fail *)
  os_setsockopt : net → Z → Z → Z → Z → option Z;
  os_bind : net → Z → sockaddr_nl → option Z;
  os_getsockname : net → Z → (sockaddr_nl * Z) + Z;
  os_fcntl : net → Z → option Z;
}.

Section Socket.
Context `{Os}.
Local Open Scope state_scope.

Abbreviation N A := (St net A).

Definition set_cbs (v : gmap Z nl_cbh) (n : net) : net := mkNet v (socks n) (ports n) (fds n) (opts n).
Definition set_socks (v : gmap Z nl_sock) (n : net) : net := mkNet (cbs n) v (ports n) (fds n) (opts n).
Definition set_ports (v : port_map) (n : net) : net := mkNet (cbs n) (socks n) v (fds n) (opts n).
Definition set_fds (v : gset Z) (n : net) : net := mkNet (cbs n) (socks n) (ports n) v (opts n).

Definition cb_at (p : Z) : N nl_cbh := sget (λ n, cbs n !! p).
Definition upd_cb (p : Z) (f : nl_cbh → nl_cbh) : N unit :=
  cb <- cb_at p ;; smodify (λ n, set_cbs (<[p := f cb]> (cbs n)) n).
Definition sock (p : Z) : N nl_sock := sget (λ n, socks n !! p).
Definition upd_sock (p : Z) (f : nl_sock → nl_sock) : N unit :=
  sk <- sock p ;; smodify (λ n, set_socks (<[p := f sk]> (socks n)) n).
(** The result of a system call. *)
Definition sys {A} (f : net → A) : N A := λ n, Some (f n, n).

(** [close(fd)] *)
Definition close (fd : Z) : N unit := smodify (λ n, set_fds (fds n ∖ {[fd]}) n).

(** ** Callback handles *)

Definition nl_cb_alloc (kind : Z) : N Z :=
  if (kind <? 0) || (NL_CB_KIND_MAX <? kind) then sret 0
  else
    p <- sys os_calloc ;;
    if p =? 0 then sret 0
    else smodify (λ n, set_cbs (<[p := cb_init kind]> (cbs n)) n) ;; sret p.

Definition nl_cb_clone (orig : Z) : N Z :=
  p <- nl_cb_alloc NL_CB_DEFAULT ;;
  if p =? 0 then sret 0
  else
    o <- cb_at orig ;;
    upd_cb p (λ _, set_refs 1 o) ;;
    sret p.

Definition nl_cb_get (p : Z) : N Z := upd_cb p (λ cb, set_refs (h_refcnt cb + 1) cb) ;; sret p.

Definition nl_cb_put (p : Z) : N unit :=
  if p =? 0 then sret tt
  else
    upd_cb p (λ cb, set_refs (h_refcnt cb - 1) cb) ;;
    cb <- cb_at p ;;
    if h_refcnt cb <? 0 then scrash
    else if h_refcnt cb <=? 0 then smodify (λ n, set_cbs (delete p (cbs n)) n)
    else sret tt.

(** [nl_cb_set] on the handle at [p]. *)
Definition cb_set_at (p type kind : Z) (func : option handler) (arg : Z) : N Z :=
  cb <- cb_at p ;;
  let r := nl_cb_set cb type kind func arg in
  upd_cb p (λ _, r.2) ;;
  sret r.1.

(** ** Sockets *)

Definition set_local (a : sockaddr_nl) (sk : nl_sock) : nl_sock :=
  mkSock a (s_peer sk) (s_fd sk) (s_proto sk) (s_seq_next sk) (s_seq_expect sk) (s_flags sk) (s_cb sk).
Definition set_peer (a : sockaddr_nl) (sk : nl_sock) : nl_sock :=
  mkSock (s_local sk) a (s_fd sk) (s_proto sk) (s_seq_next sk) (s_seq_expect sk) (s_flags sk) (s_cb sk).
Definition set_fd (fd : Z) (sk : nl_sock) : nl_sock :=
  mkSock (s_local sk) (s_peer sk) fd (s_proto sk) (s_seq_next sk) (s_seq_expect sk) (s_flags sk) (s_cb sk).
Definition set_proto (p : Z) (sk : nl_sock) : nl_sock :=
  mkSock (s_local sk) (s_peer sk) (s_fd sk) p (s_seq_next sk) (s_seq_expect sk) (s_flags sk) (s_cb sk).
Definition set_seq_next (v : Z) (sk : nl_sock) : nl_sock :=
  mkSock (s_local sk) (s_peer sk) (s_fd sk) (s_proto sk) v (s_seq_expect sk) (s_flags sk) (s_cb sk).
Definition set_sflags (v : Z) (sk : nl_sock) : nl_sock :=
  mkSock (s_local sk) (s_peer sk) (s_fd sk) (s_proto sk) (s_seq_next sk) (s_seq_expect sk) v (s_cb sk).
Definition set_scb (c : Z) (sk : nl_sock) : nl_sock :=
  mkSock (s_local sk) (s_peer sk) (s_fd sk) (s_proto sk) (s_seq_next sk) (s_seq_expect sk) (s_flags sk) c.

(** [sk->s_flags |= f;] and [sk->s_flags &= ~f;] *)
Definition flag_on (f : Z) (sk : nl_sock) : nl_sock := set_sflags (Z.lor (s_flags sk) f) sk.
Definition flag_off (f : Z) (sk : nl_sock) : nl_sock := set_sflags (Z.land (s_flags sk) (Z.lnot f)) sk.
Definition has_flag (f : Z) (sk : nl_sock) : bool := negb (Z.land (s_flags sk) f =? 0).

Definition gen_port : N Z := λ n,
  let r := generate_local_port os_getpid (ports n) in Some (r.1, set_ports r.2 n).
Definition rel_port (port : Z) : N unit := smodify (λ n, set_ports (release_local_port port (ports n)) n).

Definition nl_socket_free (p : Z) : N unit :=
  if p =? 0 then sret tt
  else
    sk <- sock p ;;
    (if 0 <=? s_fd sk then close (s_fd sk) else sret tt) ;;
    (if negb (has_flag NL_OWN_PORT sk) then rel_port (nl_pid (s_local sk)) else sret tt) ;;
    nl_cb_put (s_cb sk) ;;
    smodify (λ n, set_socks (delete p (socks n)) n).

Definition __alloc_socket (cb : Z) : N Z :=
  p <- sys os_calloc ;;
  if p =? 0 then sret 0
  else
    t <- sys os_time ;;
    let sk := mkSock (mkAddr AF_NETLINK 0 0) (mkAddr AF_NETLINK 0 0) (-1) 0 (u32 t) (u32 t) 0 cb in
    smodify (λ n, set_socks (<[p := sk]> (socks n)) n) ;;
    port <- gen_port ;;
    upd_sock p (set_local (mkAddr AF_NETLINK port 0)) ;;
    if port =? UINT_MAX then nl_socket_free p ;; sret 0 else sret p.

(** [default_cb] is [NL_CB_DEFAULT] unless the environment says otherwise. *)
Definition nl_socket_alloc (default_cb : Z) : N Z :=
  cb <- nl_cb_alloc default_cb ;;
  if cb =? 0 then sret 0 else __alloc_socket cb.

Definition nl_socket_alloc_cb (cb : Z) : N Z :=
  if cb =? 0 then scrash else cb <- nl_cb_get cb ;; __alloc_socket cb.

Definition nl_socket_disable_seq_check (p : Z) : N unit :=
  sk <- sock p ;; cb_set_at (s_cb sk) 8 NL_CB_CUSTOM (Some noop_seq_check) 0 ;; sret tt.

Definition nl_socket_use_seq (p : Z) : N Z :=
  sk <- sock p ;; upd_sock p (set_seq_next (u32 (s_seq_next sk + 1))) ;; sret (s_seq_next sk).

Definition nl_socket_disable_auto_ack (p : Z) : N unit := upd_sock p (flag_on NL_NO_AUTO_ACK).
Definition nl_socket_enable_auto_ack (p : Z) : N unit := upd_sock p (flag_off NL_NO_AUTO_ACK).
Definition nl_socket_enable_msg_peek (p : Z) : N unit := upd_sock p (flag_on NL_MSG_PEEK).
Definition nl_socket_disable_msg_peek (p : Z) : N unit := upd_sock p (flag_off NL_MSG_PEEK).

Definition nl_socket_get_local_port (p : Z) : N Z := sk <- sock p ;; sret (nl_pid (s_local sk)).

Definition set_pid (port : Z) (sk : nl_sock) : nl_sock :=
  set_local (mkAddr (nl_family (s_local sk)) port (nl_groups (s_local sk))) sk.

Definition nl_socket_set_local_port (p port : Z) : N unit :=
  if port =? 0 then
    port <- gen_port ;;
    upd_sock p (flag_off NL_OWN_PORT) ;;
    upd_sock p (set_pid port)
  else
    sk <- sock p ;;
    (if negb (has_flag NL_OWN_PORT sk) then rel_port (nl_pid (s_local sk)) else sret tt) ;;
    upd_sock p (flag_on NL_OWN_PORT) ;;
    upd_sock p (set_pid port).

(** [setsockopt]: 0, or the error of the library. *)
Definition setsockopt (fd level opt v : Z) : N Z :=
  e <- sys (λ n, os_setsockopt n fd level opt v) ;;
  match e with
  | Some errno => sret (- nl_syserr2nlerr errno)
  | None => smodify (λ n, mkNet (cbs n) (socks n) (ports n) (fds n) (opts n ++ [(fd, level, opt, v)])) ;; sret 0
  end.

(** The loop over the groups of [nl_socket_add_memberships] and [nl_socket_drop_memberships];
    the list of groups ends with 0. *)
Fixpoint membership_loop (fd opt : Z) (groups : list Z) : N Z :=
  match groups with
  | [] => scrash
  | g :: groups =>
      if g =? 0 then sret 0
      else if g <? 0 then sret (- Nl.NLE_INVAL)
      else
        err <- setsockopt fd SOL_NETLINK opt g ;;
        if err <? 0 then sret err else membership_loop fd opt groups
  end.

Definition nl_socket_add_memberships (p : Z) (groups : list Z) : N Z :=
  sk <- sock p ;;
  if s_fd sk =? -1 then sret (- NLE_BAD_SOCK) else membership_loop (s_fd sk) NETLINK_ADD_MEMBERSHIP groups.
Definition nl_socket_add_membership (p group : Z) : N Z := nl_socket_add_memberships p [group; 0].
Definition nl_socket_drop_memberships (p : Z) (groups : list Z) : N Z :=
  sk <- sock p ;;
  if s_fd sk =? -1 then sret (- NLE_BAD_SOCK) else membership_loop (s_fd sk) NETLINK_DROP_MEMBERSHIP groups.
Definition nl_socket_drop_membership (p group : Z) : N Z := nl_socket_drop_memberships p [group; 0].

Definition nl_join_groups (p groups : Z) : N unit :=
  upd_sock p (λ sk, set_local (mkAddr (nl_family (s_local sk)) (nl_pid (s_local sk))
    (Z.lor (nl_groups (s_local sk)) (u32 groups))) sk).

Definition nl_socket_get_peer_port (p : Z) : N Z := sk <- sock p ;; sret (nl_pid (s_peer sk)).
Definition nl_socket_set_peer_port (p port : Z) : N unit :=
  upd_sock p (λ sk, set_peer (mkAddr (nl_family (s_peer sk)) port (nl_groups (s_peer sk))) sk).
Definition nl_socket_get_peer_groups (p : Z) : N Z := sk <- sock p ;; sret (nl_groups (s_peer sk)).
Definition nl_socket_set_peer_groups (p groups : Z) : N unit :=
  upd_sock p (λ sk, set_peer (mkAddr (nl_family (s_peer sk)) (nl_pid (s_peer sk)) groups) sk).
Definition nl_socket_get_fd (p : Z) : N Z := sk <- sock p ;; sret (s_fd sk).

Definition nl_socket_set_nonblocking (p : Z) : N Z :=
  sk <- sock p ;;
  if s_fd sk =? -1 then sret (- NLE_BAD_SOCK)
  else
    e <- sys (λ n, os_fcntl n (s_fd sk)) ;;
    sret (match e with Some errno => - nl_syserr2nlerr errno | None => 0 end).

Definition nl_socket_get_cb (p : Z) : N Z := sk <- sock p ;; nl_cb_get (s_cb sk).

Definition nl_socket_set_cb (p cb : Z) : N unit :=
  sk <- sock p ;;
  nl_cb_put (s_cb sk) ;;
  c <- nl_cb_get cb ;;
  upd_sock p (set_scb c).

Definition nl_socket_modify_cb (p type kind : Z) (func : option handler) (arg : Z) : N Z :=
  sk <- sock p ;; cb_set_at (s_cb sk) type kind func arg.

Definition nl_socket_set_buffer_size (p rxbuf txbuf : Z) : N Z :=
  let rxbuf := if rxbuf <=? 0 then 32768 else rxbuf in
  let txbuf := if txbuf <=? 0 then 32768 else txbuf in
  sk <- sock p ;;
  if s_fd sk =? -1 then sret (- NLE_BAD_SOCK)
  else
    err <- setsockopt (s_fd sk) SOL_SOCKET SO_SNDBUF txbuf ;;
    if err <? 0 then sret err
    else
      err <- setsockopt (s_fd sk) SOL_SOCKET SO_RCVBUF rxbuf ;;
      if err <? 0 then sret err
      else upd_sock p (flag_on NL_SOCK_BUFSIZE_SET) ;; sret 0.

Definition nl_socket_set_passcred (p state : Z) : N Z :=
  sk <- sock p ;;
  if s_fd sk =? -1 then sret (- NLE_BAD_SOCK)
  else
    err <- setsockopt (s_fd sk) SOL_SOCKET SO_PASSCRED state ;;
    if err <? 0 then sret err
    else
      upd_sock p (if negb (state =? 0) then flag_on NL_SOCK_PASSCRED else flag_off NL_SOCK_PASSCRED) ;;
      sret 0.

Definition nl_socket_recv_pktinfo (p state : Z) : N Z :=
  sk <- sock p ;;
  if s_fd sk =? -1 then sret (- NLE_BAD_SOCK) else setsockopt (s_fd sk) SOL_NETLINK NETLINK_PKTINFO state.

(** ** Connecting: [nl_connect], [nl_close] of [lib/nl.c] *)

(** The steps of [nl_connect] after [socket]; [Some err] for the jump to [errout]. *)
Definition connect_steps (p protocol : Z) : N (option Z) :=
  sk <- sock p ;;
  err <- (if negb (has_flag NL_SOCK_BUFSIZE_SET sk) then nl_socket_set_buffer_size p 0 0 else sret 0) ;;
  if err <? 0 then sret (Some err)
  else
    sk <- sock p ;;
    e <- sys (λ n, os_bind n (s_fd sk) (s_local sk)) ;;
    match e with
    | Some errno => sret (Some (- nl_syserr2nlerr errno))
    | None =>
        r <- sys (λ n, os_getsockname n (s_fd sk)) ;;
        match r with
        | inr errno => sret (Some (- nl_syserr2nlerr errno))
        | inl (addr, addrlen) =>
            upd_sock p (set_local addr) ;;
            if negb (addrlen =? sizeof_sockaddr_nl) then sret (Some (- NLE_NOADDR))
            else if negb (nl_family addr =? AF_NETLINK) then sret (Some (- NLE_AF_NOSUPPORT))
            else upd_sock p (set_proto protocol) ;; sret None
        end
    end.

Definition nl_connect (p protocol : Z) : N Z :=
  r <- sys (λ n, os_socket n protocol) ;;
  e <- (match r with
        | inr errno => upd_sock p (set_fd (-1)) ;; sret (Some (- nl_syserr2nlerr errno))
        | inl fd =>
            smodify (λ n, set_fds ({[fd]} ∪ fds n) n) ;;
            upd_sock p (set_fd fd) ;;
            connect_steps p protocol
        end) ;;
  match e with
  | None => sret 0
  | Some err =>
      sk <- sock p ;;
      close (s_fd sk) ;;
      upd_sock p (set_fd (-1)) ;;
      sret err
  end.

Definition nl_close (p : Z) : N unit :=
  sk <- sock p ;;
  (if 0 <=? s_fd sk then close (s_fd sk) ;; upd_sock p (set_fd (-1)) else sret tt) ;;
  upd_sock p (set_proto 0).
End Socket.
