(* ===== verification/SockInv.v ===== *)
(** * The invariant of sockets

    [net_ok ext n]: the users of the library hold [ext c] references to the callback handle
    at [c]; every handle counts its users and its sockets; the bitmap has the ports of the
    sockets, each once; the open descriptors are those of the connected sockets. *)

From S2P Require Import Prelude Netlink NlError Recv Handlers Ports Socket.

Implicit Types (n : net) (ext : Z → Z) (sk : nl_sock).

(** The number of sockets that use the handle [c]. *)
Definition uses (c : Z) (sk : nl_sock) : Z := if s_cb sk =? c then 1 else 0.
Definition users (c : Z) (m : gmap Z nl_sock) : Z :=
  map_fold (λ _ sk acc, uses c sk + acc) 0 m.

Lemma users_insert c m p sk : m !! p = None → users c (<[p := sk]> m) = uses c sk + users c m.
Proof. intros Hp. unfold users. rewrite map_fold_insert_L; [done|intros; lia|done]. Qed.

Lemma users_delete c m p sk : m !! p = Some sk → users c m = uses c sk + users c (delete p m).
Proof.
  intros Hp. rewrite <- (insert_delete_id m p sk Hp) at 1. apply users_insert, lookup_delete_eq.
Qed.

Lemma users_upd c m p sk sk' :
  m !! p = Some sk → users c (<[p := sk']> m) = users c m - uses c sk + uses c sk'.
Proof.
  intros Hp. rewrite <- insert_delete_eq, users_insert by apply lookup_delete_eq.
  rewrite (users_delete c m p sk Hp). lia.
Qed.

Lemma users_nonneg c m : 0 ≤ users c m.
Proof.
  induction m as [|p sk m Hp IH] using map_ind; [done|]. rewrite users_insert by done.
  assert (0 ≤ uses c sk) by (unfold uses; by destruct (s_cb sk =? c)). lia.
Qed.

Lemma users_pos c m p sk : m !! p = Some sk → s_cb sk = c → 0 < users c m.
Proof.
  intros Hp E. rewrite (users_delete c m p sk Hp). pose proof (users_nonneg c (delete p m)).
  unfold uses. rewrite E, Z.eqb_refl. lia.
Qed.

Section Inv.
Context `{Os}.
Local Open Scope state_scope.

(** The socket has the generated port of number [k]. *)
Definition owns (sk : nl_sock) (k : Z) : Prop :=
  has_flag NL_OWN_PORT sk = false ∧ nl_pid (s_local sk) = port_of os_getpid k.

Record cbs_ok ext n : Prop := {
  co_refs : ∀ c h, cbs n !! c = Some h → 0 ≤ ext c ∧ 0 < h_refcnt h ∧ h_refcnt h = ext c + users c (socks n);
  co_dead : ∀ c, cbs n !! c = None → ext c = 0 ∧ users c (socks n) = 0;
  co_null : cbs n !! 0 = None;
}.

Record ports_ok n : Prop := {
  po_map : map_ok (ports n);
  po_used : ∀ k, 0 ≤ k < 1024 → used (ports n) k = true ↔ ∃ p sk, socks n !! p = Some sk ∧ owns sk k;
  po_port : ∀ p sk, socks n !! p = Some sk → has_flag NL_OWN_PORT sk = false →
    nl_pid (s_local sk) ≠ UINT_MAX ∧ ∃ k, 0 ≤ k < 1024 ∧ owns sk k;
  po_one : ∀ p q sk sk' k, 0 ≤ k < 1024 → socks n !! p = Some sk → socks n !! q = Some sk' →
    owns sk k → owns sk' k → p = q;
}.

Record fds_ok n : Prop := {
  fo_open : ∀ fd, fd ∈ fds n ↔ 0 ≤ fd ∧ ∃ p sk, socks n !! p = Some sk ∧ s_fd sk = fd;
  fo_one : ∀ p q sk sk', socks n !! p = Some sk → socks n !! q = Some sk' →
    0 ≤ s_fd sk → s_fd sk = s_fd sk' → p = q;
  fo_closed : ∀ p sk, socks n !! p = Some sk → -1 ≤ s_fd sk;
}.

Record net_ok ext n : Prop := {
  no_cbs :> cbs_ok ext n;
  no_ports :> ports_ok n;
  no_fds :> fds_ok n;
  no_null : socks n !! 0 = None;
}.

(** What the system calls promise: fresh memory, fresh descriptors, and a socket that is
    bound to a port keeps it. *)
Record os_ok : Prop := {
  os_fresh : ∀ n, os_calloc n = 0 ∨ (cbs n !! os_calloc n = None ∧ socks n !! os_calloc n = None);
  os_new_fd : ∀ n proto fd, os_socket n proto = inl fd → 0 ≤ fd ∧ fd ∉ fds n;
  os_bound : ∀ n p sk addr len, socks n !! p = Some sk → 0 ≤ s_fd sk →
    os_getsockname n (s_fd sk) = inl (addr, len) → nl_pid addr = nl_pid (s_local sk);
  (** the one process whose last port is [UINT_MAX] *)
  os_pid : Z.land os_getpid 0x3FFFFF ≠ 0x3FFFFF;
}.

(** ** Small steps *)

Lemma swp_cb p h Q n : cbs n !! p = Some h → Q h n → swp (cb_at p) Q n.
Proof. apply (swp_get (λ n, cbs n !! p)). Qed.

Lemma swp_upd_cb p h f (Q : unit → net → Prop) n :
  cbs n !! p = Some h → Q tt (set_cbs (<[p := f h]> (cbs n)) n) → swp (upd_cb p f) Q n.
Proof. intros Hp HQ. apply swp_bind, (swp_cb _ h); [done|]. by apply swp_modify. Qed.

Lemma swp_sock p sk Q n : socks n !! p = Some sk → Q sk n → swp (sock p) Q n.
Proof. apply (swp_get (λ n, socks n !! p)). Qed.

Lemma swp_upd_sock p sk f (Q : unit → net → Prop) n :
  socks n !! p = Some sk → Q tt (set_socks (<[p := f sk]> (socks n)) n) → swp (upd_sock p f) Q n.
Proof. intros Hp HQ. apply swp_bind, (swp_sock _ sk); [done|]. by apply swp_modify. Qed.

Lemma cbs_ok_ext ext ext' n : (∀ c, ext c = ext' c) → cbs_ok ext n → cbs_ok ext' n.
Proof. intros E [H1 H2 H3]. split; [intros c h Hc|intros c Hc|done]; rewrite <- E; auto. Qed.

Lemma net_ok_ext ext ext' n : (∀ c, ext c = ext' c) → net_ok ext n → net_ok ext' n.
Proof. intros E [C P F Z]. split; [by eapply cbs_ok_ext|done..]. Qed.

(** Nothing but the handles changes. *)
Lemma net_ok_cbs ext ext' n v :
  net_ok ext n → cbs_ok ext' (set_cbs v n) → net_ok ext' (set_cbs v n).
Proof. intros [_ [? ? ? ?] [? ? ?] ?] C. by split. Qed.

(** ** Handles *)

Lemma cbs_ok_upd ext n c h h' d :
  cbs_ok ext n → cbs n !! c = Some h → h_refcnt h' = h_refcnt h + d → 0 < h_refcnt h + d → 0 ≤ ext c + d →
  cbs_ok (add_ref c d ext) (set_cbs (<[c := h']> (cbs n)) n).
Proof.
  intros [Hr Hd Hn0] Hc Eh Hp He. assert (c ≠ 0) as Hc0 by congruence. split; simpl.
  - intros c' x. unfold add_ref. destruct (Z.eqb_spec c' c) as [->|Hne].
    + rewrite lookup_insert_eq. intros [= <-]. destruct (Hr c h Hc) as (? & ? & ?). lia.
    + rewrite lookup_insert_ne by done. apply Hr.
  - intros c'. unfold add_ref. destruct (Z.eqb_spec c' c) as [->|Hne]; [by rewrite lookup_insert_eq|].
    rewrite lookup_insert_ne by done. apply Hd.
  - by rewrite lookup_insert_ne.
Qed.

Lemma cb_get_ok ext n c h :
  net_ok ext n → cbs n !! c = Some h →
  swp (nl_cb_get c) (λ r n', r = c ∧ net_ok (add_ref c 1 ext) n' ∧ socks n' = socks n) n.
Proof.
  intros Hok Hc. unfold nl_cb_get. apply swp_bind, (swp_upd_cb _ h); [done|]. apply swp_ret. split; [done|].
  split; [|done]. destruct (co_refs _ _ Hok _ _ Hc) as (? & ? & ?).
  eapply net_ok_cbs; [exact Hok|]. eapply cbs_ok_upd; [apply Hok|done|done|lia|lia].
Qed.

(** Giving back a reference of a user, or, with [users] one too high, of a socket. *)
Lemma cb_put_cbs ext n c :
  cbs_ok ext n → 0 < ext c →
  swp (nl_cb_put c) (λ _ n', cbs_ok (add_ref c (-1) ext) n' ∧ ∃ v, n' = set_cbs v n) n.
Proof.
  intros C He. destruct (cbs n !! c) as [h|] eqn:Hc; [|destruct (co_dead _ _ C _ Hc); lia].
  unfold nl_cb_put. destruct (Z.eqb_spec c 0) as [->|Hc0]; [pose proof (co_null _ _ C); congruence|].
  destruct (co_refs _ _ C _ _ Hc) as (? & ? & Er). pose proof (users_nonneg c (socks n)).
  apply swp_bind, (swp_upd_cb _ h); [done|]. apply swp_bind, (swp_cb _ (set_refs (h_refcnt h - 1) h)); [apply lookup_insert_eq|].
  cbn [h_refcnt set_refs]. destruct (Z.ltb_spec (h_refcnt h - 1) 0); [lia|].
  destruct (Z.leb_spec (h_refcnt h - 1) 0) as [Hz|Hz].
  - apply swp_modify. unfold set_cbs at 1 2 3. cbn [cbs socks ports fds opts]. rewrite delete_insert_eq. split; [|by eexists].
    destruct C as [Hr Hd Hn0]. split; simpl.
    + intros c' x [Hne Hx]%lookup_delete_Some. unfold add_ref. rewrite (proj2 (Z.eqb_neq _ _)) by done. by apply Hr.
    + intros c'. unfold add_ref. destruct (Z.eqb_spec c' c) as [->|Hne]; [intros _; lia|].
      rewrite lookup_delete_ne by done. apply Hd.
    + by apply lookup_delete_None; right.
  - apply swp_ret. split; [|by eexists]. eapply cbs_ok_upd; [done|done|done|lia|lia].
Qed.

Lemma cb_put_ok ext n c :
  net_ok ext n → 0 < ext c →
  swp (nl_cb_put c) (λ _ n', net_ok (add_ref c (-1) ext) n' ∧ socks n' = socks n) n.
Proof.
  intros Hok He. eapply swp_mono; [apply cb_put_cbs; [apply Hok|done]|].
  intros [] n' (C & v & ->). split; [|done]. by eapply net_ok_cbs.
Qed.

Lemma cb_alloc_ok ext n kind :
  os_ok → net_ok ext n → 0 ≤ kind < NL_CB_CUSTOM →
  swp (nl_cb_alloc kind) (λ c n', c = 0 ∧ n' = n ∨
    c ≠ 0 ∧ net_ok (add_ref c 1 ext) n' ∧ socks n' = socks n ∧ cbs n' = <[c := cb_init kind]> (cbs n) ∧ cbs n !! c = None) n.
Proof.
  intros Hos Hok Hk. unfold nl_cb_alloc.
  assert ((kind <? 0) || (NL_CB_KIND_MAX <? kind) = false) as ->.
  { apply orb_false_iff. unfold NL_CB_CUSTOM, NL_CB_KIND_MAX in *. split; apply Z.ltb_ge; lia. }
  apply swp_bind. unfold sys, swp at 1. destruct (Z.eqb_spec (os_calloc n) 0) as [E|E]; [apply swp_ret; by left|].
  apply swp_bind, swp_modify, swp_ret. right. split; [done|]. set (c := os_calloc n) in *.
  destruct (os_fresh Hos n) as [?|[Hf _] ]; [done|]. fold c in Hf. split; [|done].
  eapply net_ok_cbs; [exact Hok|]. destruct (co_dead _ _ Hok _ Hf) as [D1 D2].
  destruct (no_cbs _ _ Hok) as [Hr Hd Hn0]. split; simpl.
  - intros c' x. unfold add_ref. destruct (Z.eqb_spec c' c) as [->|Hne].
    + rewrite lookup_insert_eq. intros [= <-]. destruct (cb_init_ok kind Hk) as (_ & _ & ->). lia.
    + rewrite lookup_insert_ne by done. apply Hr.
  - intros c'. unfold add_ref. destruct (Z.eqb_spec c' c) as [->|Hne]; [by rewrite lookup_insert_eq|].
    rewrite lookup_insert_ne by done. apply Hd.
  - by rewrite lookup_insert_ne.
Qed.

(** ** Sockets that come and go *)

(** [nl_cb_put] looks at the handles only. *)
Definition put_cbs (c : Z) (m : gmap Z nl_cbh) : option (gmap Z nl_cbh) :=
  if c =? 0 then Some m
  else
    match m !! c with
    | None => None
    | Some h =>
        if h_refcnt h - 1 <? 0 then None
        else if h_refcnt h - 1 <=? 0 then Some (delete c m)
        else Some (<[c := set_refs (h_refcnt h - 1) h]> m)
    end.

Lemma cb_put_run c n :
  nl_cb_put c n = match put_cbs c (cbs n) with Some v => Some (tt, set_cbs v n) | None => None end.
Proof.
  unfold nl_cb_put, put_cbs. destruct (c =? 0); [by destruct n|]. unfold upd_cb, cb_at, sbind, sget.
  destruct (cbs n !! c) as [h|]; [|done]. cbn [smodify cbs set_cbs]. rewrite lookup_insert_eq. cbn [h_refcnt set_refs].
  destruct (h_refcnt h - 1 <? 0); [done|]. destruct (h_refcnt h - 1 <=? 0); [|done].
  unfold smodify, set_cbs. cbn [cbs socks ports fds opts]. by rewrite delete_insert_eq.
Qed.

(** Putting a handle on behalf of a socket that is about to go. *)
Lemma put_cbs_ok ext n c m :
  cbs_ok (add_ref c 1 ext) (set_socks m n) → 0 ≤ ext c →
  ∃ v, put_cbs c (cbs n) = Some v ∧ ∀ q f o, cbs_ok ext (mkNet v m q f o).
Proof.
  intros C He. pose proof (cb_put_cbs (add_ref c 1 ext) _ c C) as Hput. unfold swp in Hput. rewrite cb_put_run in Hput.
  cbn [cbs set_socks] in Hput. unfold add_ref in Hput at 1. rewrite Z.eqb_refl in Hput. specialize (Hput ltac:(lia)).
  destruct (put_cbs c (cbs n)) as [v|]; [|done]. destruct Hput as (C' & _). exists v. split; [done|].
  intros q f o. apply (cbs_ok_ext _ ext) in C'; [|apply add_ref_back]. by destruct C'.
Qed.

Lemma cbs_without ext n p sk :
  cbs_ok ext n → socks n !! p = Some sk → cbs_ok (add_ref (s_cb sk) 1 ext) (set_socks (delete p (socks n)) n) ∧ 0 ≤ ext (s_cb sk).
Proof.
  intros [Hr Hd Hn0] Hp. pose proof (users_pos (s_cb sk) (socks n) p sk Hp eq_refl) as Hpos.
  assert (∀ c, users c (socks n) = uses c sk + users c (delete p (socks n))) as Hu by (intros c; by apply users_delete).
  destruct (cbs n !! s_cb sk) as [h|] eqn:Ec; [|destruct (Hd _ Ec); lia].
  split; [|by destruct (Hr _ _ Ec)]. split; simpl; [| |done].
  - intros c x Hx. destruct (Hr c x Hx) as (E1 & E2 & E3). rewrite Hu in E3. unfold add_ref, uses in *.
    rewrite (Z.eqb_sym (s_cb sk) c) in E3. destruct (c =? s_cb sk); lia.
  - intros c Hx. destruct (Hd c Hx) as (E1 & E2). rewrite Hu in E2. pose proof (users_nonneg c (delete p (socks n))).
    unfold add_ref, uses in *. rewrite (Z.eqb_sym (s_cb sk) c) in E2. destruct (c =? s_cb sk); lia.
Qed.

(** A new socket takes over a reference to its handle. *)
Lemma cbs_with ext n p sk :
  cbs_ok (add_ref (s_cb sk) 1 ext) n → 0 ≤ ext (s_cb sk) → socks n !! p = None →
  ∀ q f o, cbs_ok ext (mkNet (cbs n) (<[p := sk]> (socks n)) q f o).
Proof.
  intros [Hr Hd Hn0] He Hp q f o. split; simpl; [| |done].
  - intros c x Hx. destruct (Hr c x Hx) as (E1 & E2 & E3). rewrite users_insert by done. unfold add_ref, uses in *.
    rewrite (Z.eqb_sym (s_cb sk) c). destruct (Z.eqb_spec c (s_cb sk)) as [->|]; lia.
  - intros c Hx. destruct (Hd c Hx) as (E1 & E2). rewrite users_insert by done. unfold add_ref, uses in *.
    rewrite (Z.eqb_sym (s_cb sk) c). destruct (Z.eqb_spec c (s_cb sk)) as [->|]; lia.
Qed.

(** The port of a socket that goes. *)
Definition drop_port (sk : nl_sock) (m : port_map) : port_map :=
  if has_flag NL_OWN_PORT sk then m else release_local_port (nl_pid (s_local sk)) m.

Lemma drop_port_ok n p sk :
  ports_ok n → socks n !! p = Some sk →
  map_ok (drop_port sk (ports n)) ∧
  ∀ k, 0 ≤ k < 1024 → used (drop_port sk (ports n)) k = true ↔
    ∃ q sk', q ≠ p ∧ socks n !! q = Some sk' ∧ owns sk' k.
Proof.
  intros [Hm Hu Hp Ho] Hsk. unfold drop_port. destruct (has_flag NL_OWN_PORT sk) eqn:Ef.
  - split; [done|]. intros k Hk. rewrite Hu by done. split.
    + intros (q & sk' & Hq & Hk'). exists q, sk'. split; [|done]. intros ->. destruct Hk' as [Hf _]. congruence.
    + intros (q & sk' & _ & Hq & Hk'). eauto.
  - destruct (Hp p sk Hsk Ef) as (Hmax & k0 & Hk0 & Hown). pose proof Hown as [_ Epid].
    destruct (port_number os_getpid k0 Hk0) as [Enr Hrange].
    destruct (release_ok (nl_pid (s_local sk)) (ports n) Hm) as [Hm' Hu']; [by rewrite Epid|done|].
    split; [done|]. intros k Hk. rewrite Hu' by done. rewrite Epid, Enr, andb_true_iff, Hu by done. split.
    + intros ((q & sk' & Hq & Hk') & Hne). exists q, sk'. split; [|done]. intros ->.
      assert (sk' = sk) as -> by congruence. destruct Hk' as [_ E]. rewrite Epid in E.
      apply (f_equal (λ z, Z.shiftr z 22)) in E. rewrite Enr in E. destruct (port_number os_getpid k Hk) as [Enr' _].
      rewrite Enr' in E. subst k. by rewrite Z.eqb_refl in Hne.
    + intros (q & sk' & Hne & Hq & Hk'). split; [eauto|]. apply negb_true_iff, Z.eqb_neq. intros ->.
      apply Hne. by eapply Ho.
Qed.

Lemma ports_without n p sk :
  ports_ok n → socks n !! p = Some sk →
  ∀ v f o, ports_ok (mkNet v (delete p (socks n)) (drop_port sk (ports n)) f o).
Proof.
  intros Hpo Hsk v f o. destruct (drop_port_ok n p sk Hpo Hsk) as [Hm Hu]. destruct Hpo as [_ _ Hp Ho].
  split; simpl; [done| | |].
  - intros k Hk. rewrite Hu by done. split.
    + intros (q & sk' & Hne & Hq & Hk'). exists q, sk'. by rewrite lookup_delete_ne.
    + intros (q & sk' & [Hne Hq]%lookup_delete_Some & Hk'). exists q, sk'. by split.
  - intros q sk' [_ Hq]%lookup_delete_Some. by apply Hp with q.
  - intros q q' sk1 sk2 k Hk [_ H1]%lookup_delete_Some [_ H2]%lookup_delete_Some. by eapply Ho.
Qed.

(** A new socket with a new port. *)
Lemma ports_with n p sk k m' :
  ports_ok n → socks n !! p = None → 0 ≤ k < 1024 → used (ports n) k = false → owns sk k →
  nl_pid (s_local sk) ≠ UINT_MAX → map_ok m' →
  (∀ j, 0 ≤ j < 1024 → used m' j = used (ports n) j || (j =? k)) →
  ∀ v f o, ports_ok (mkNet v (<[p := sk]> (socks n)) m' f o).
Proof.
  intros [Hm Hu Hp Ho] Hnone Hk Hfree Hown Hmax Hm' Hu' v f o.
  assert (∀ j, 0 ≤ j < 1024 → owns sk j → j = k) as Hj.
  { intros j Hj [_ E]. destruct Hown as [_ E']. rewrite E' in E.
    destruct (port_number os_getpid k Hk) as [E1 _], (port_number os_getpid j Hj) as [E2 _]. congruence. }
  assert (∀ q sk' , socks n !! q = Some sk' → ¬ owns sk' k) as Hno.
  { intros q sk' Hq Hk'. assert (used (ports n) k = true) by (apply Hu; [done|eauto]). congruence. }
  split; simpl; [done| | |].
  - intros j Hj'. rewrite Hu', orb_true_iff, Hu, Z.eqb_eq by done. split.
    + intros [(q & sk' & Hq & Ho')| ->]; [|exists p, sk; by rewrite lookup_insert_eq].
      exists q, sk'. rewrite lookup_insert_ne; [done|]. congruence.
    + intros (q & sk' & Hq & Ho'). destruct (decide (q = p)) as [->|].
      * rewrite lookup_insert_eq in Hq. injection Hq as <-. right. by apply Hj.
      * rewrite lookup_insert_ne in Hq by done. left. eauto.
  - intros q sk'. destruct (decide (q = p)) as [->|]; [rewrite lookup_insert_eq; intros [= <-] _; by eauto|].
    rewrite lookup_insert_ne by done. apply Hp.
  - intros q q' sk1 sk2 j Hj'. destruct (decide (q = p)) as [->|], (decide (q' = p)) as [->|]; [done| | |].
    + rewrite lookup_insert_eq, lookup_insert_ne by done. intros [= <-] H2 O1 O2.
      rewrite (Hj j Hj' O1) in O2. by destruct (Hno q' sk2).
    + rewrite lookup_insert_ne, lookup_insert_eq by done. intros H1 [= <-] O1 O2.
      rewrite (Hj j Hj' O2) in O1. by destruct (Hno q sk1).
    + rewrite !lookup_insert_ne by done. intros H1 H2 O1 O2. by eapply (Ho q q' sk1 sk2 j).
Qed.

(** The descriptor of a socket that goes. *)
Definition drop_fd (sk : nl_sock) (s : gset Z) : gset Z := if 0 <=? s_fd sk then s ∖ {[s_fd sk]} else s.

Lemma fds_without n p sk :
  fds_ok n → socks n !! p = Some sk →
  ∀ v m o, fds_ok (mkNet v (delete p (socks n)) m (drop_fd sk (fds n)) o).
Proof.
  intros [Ho H1 Hc] Hsk v m o.
  assert (∀ fd, fd ∈ drop_fd sk (fds n) ↔ fd ∈ fds n ∧ fd ≠ s_fd sk) as Hd.
  { intros fd. unfold drop_fd. destruct (Z.leb_spec 0 (s_fd sk)); [set_solver|].
    split; [|by intros [? _] ]. intros Hfd. split; [done|]. apply Ho in Hfd as [? _]. lia. }
  split; simpl.
  - intros fd. rewrite Hd, Ho. split.
    + intros [(Hpos & q & sk' & Hq & E) Hne]. split; [done|]. exists q, sk'. rewrite lookup_delete_ne; [done|]. congruence.
    + intros (Hpos & q & sk' & [Hne Hq]%lookup_delete_Some & E). split; [eauto|]. intros E'. apply Hne.
      eapply (H1 p q sk sk'); [done|done|lia|congruence].
  - intros q q' sk1 sk2 [_ Hq]%lookup_delete_Some [_ Hq']%lookup_delete_Some. by apply H1.
  - intros q sk' [_ Hq]%lookup_delete_Some. by apply Hc with q.
Qed.

Lemma fds_with n p sk :
  fds_ok n → socks n !! p = None → s_fd sk = -1 → ∀ v m o, fds_ok (mkNet v (<[p := sk]> (socks n)) m (fds n) o).
Proof.
  intros [Ho H1 Hc] Hnone Efd v m o. split; simpl.
  - intros fd. rewrite Ho. split; intros (Hpos & q & sk' & Hq & E); (split; [done|]).
    + exists q, sk'. rewrite lookup_insert_ne; [done|]. congruence.
    + destruct (decide (q = p)) as [->|]; [rewrite lookup_insert_eq in Hq; injection Hq as <-; lia|].
      rewrite lookup_insert_ne in Hq by done. eauto.
  - intros q q' sk1 sk2. destruct (decide (q = p)) as [->|], (decide (q' = p)) as [->|]; [done| | |].
    + rewrite lookup_insert_eq. intros [= <-]. lia.
    + rewrite lookup_insert_ne, lookup_insert_eq by done. intros _ [= <-]. lia.
    + rewrite !lookup_insert_ne by done. apply H1.
  - intros q sk'. destruct (decide (q = p)) as [->|]; [rewrite lookup_insert_eq; intros [= <-]; lia|].
    rewrite lookup_insert_ne by done. apply Hc.
Qed.
End Inv.
