(* ===== verification/SockOps.v ===== *)
(** * What the operations on sockets do

    Each operation keeps the invariant of [SockInv]: sockets are made and freed with their
    handle, their port and their descriptor; a socket that is connected has an open
    descriptor, and one that cannot be connected has none. *)

From S2P Require Import Prelude Netlink NlError Recv Handlers Ports Socket SockInv.

Section Ops.
Context `{Os}.
Local Open Scope state_scope.
Local Opaque generate_local_port release_local_port.

Implicit Types (n : net) (ext : Z → Z) (sk : nl_sock).

(** ** Freeing a socket *)

Lemma socket_free_run p sk n v :
  p ≠ 0 → socks n !! p = Some sk → put_cbs (s_cb sk) (cbs n) = Some v →
  nl_socket_free p n = Some (tt, mkNet v (delete p (socks n)) (drop_port sk (ports n)) (drop_fd sk (fds n)) (opts n)).
Proof.
  intros Hp Hsk Hv. unfold nl_socket_free. rewrite (proj2 (Z.eqb_neq _ _) Hp). unfold sock, sbind, sget. rewrite Hsk.
  unfold drop_port, drop_fd. destruct (0 <=? s_fd sk), (has_flag NL_OWN_PORT sk);
    cbn [negb close rel_port smodify sret]; rewrite cb_put_run; cbn [cbs set_fds set_ports]; by rewrite Hv.
Qed.

Lemma socket_free_ok ext n p sk :
  net_ok ext n → socks n !! p = Some sk →
  swp (nl_socket_free p) (λ _ n', net_ok ext n' ∧ socks n' = delete p (socks n)) n.
Proof.
  intros Hok Hsk. assert (p ≠ 0) as Hp by (intros ->; pose proof (no_null _ _ Hok); congruence).
  destruct (cbs_without _ _ _ _ (no_cbs _ _ Hok) Hsk) as [C He].
  destruct (put_cbs_ok _ _ _ _ C He) as (v & Ev & Hv). unfold swp. rewrite (socket_free_run p sk n v) by done.
  split; [|done]. split; [apply Hv|apply ports_without; [apply Hok|done]|apply fds_without; [apply Hok|done]|].
  apply lookup_delete_None. right. apply Hok.
Qed.

(** ** Making one *)

(** A new socket: what [nl_socket_alloc] promises of it. *)
Definition new_sock (c : Z) (n : net) (p : Z) (n' : net) : Prop :=
  socks n !! p = None ∧ ∃ sk, socks n' = <[p := sk]> (socks n) ∧ s_fd sk = -1 ∧ s_flags sk = 0 ∧ s_cb sk = c ∧
    s_seq_next sk = s_seq_expect sk ∧ ∃ k, 0 ≤ k < 1024 ∧ used (ports n) k = false ∧
    (∀ j, 0 ≤ j < k → used (ports n) j = true) ∧ nl_pid (s_local sk) = port_of os_getpid k.

Lemma drop_port_max sk m : nl_pid (s_local sk) = UINT_MAX → drop_port sk m = m.
Proof. unfold drop_port. intros ->. rewrite release_max. by destruct (has_flag NL_OWN_PORT sk). Qed.

(** The socket that is made. *)
Definition made (c port t : Z) : nl_sock :=
  mkSock (mkAddr AF_NETLINK port 0) (mkAddr AF_NETLINK 0 0) (-1) 0 (u32 t) (u32 t) 0 c.

Lemma alloc_socket_run n c port m' :
  generate_local_port os_getpid (ports n) = (port, m') → os_calloc n ≠ 0 →
  let n1 := mkNet (cbs n) (<[os_calloc n := made c port (os_time n)]> (socks n)) m' (fds n) (opts n) in
  __alloc_socket c n = if port =? UINT_MAX then (nl_socket_free (os_calloc n) ;; sret 0) n1 else Some (os_calloc n, n1).
Proof.
  intros Eg E n1. unfold __alloc_socket. rewrite (sbind_some _ _ n (os_calloc n) n eq_refl), (proj2 (Z.eqb_neq _ _) E).
  rewrite (sbind_some _ _ n (os_time n) n eq_refl). cbv zeta.
  set (sk := mkSock _ _ _ _ _ _ _ _). set (n0 := set_socks (<[os_calloc n := sk]> (socks n)) n).
  rewrite sbind_modify. fold n0.
  assert (gen_port n0 = Some (port, set_ports m' n0)) as Egen.
  { unfold gen_port. change (ports n0) with (ports n). by rewrite Eg. }
  rewrite (sbind_some _ _ _ _ _ Egen), (sbind_some _ _ (set_ports m' n0) tt n1).
  - by destruct (port =? UINT_MAX).
  - unfold upd_sock, sock, sbind, sget. cbn [socks set_ports set_socks n0]. rewrite lookup_insert_eq.
    unfold smodify, set_socks, n1. cbn [socks set_ports set_socks cbs ports fds opts n0]. by rewrite insert_insert_eq.
Qed.

Lemma alloc_socket_ok ext n c :
  os_ok → net_ok (add_ref c 1 ext) n → 0 ≤ ext c → c ≠ 0 →
  swp (__alloc_socket c) (λ p n',
    p = 0 ∧ n' = n ∧ os_calloc n = 0 ∨
    p = 0 ∧ net_ok ext n' ∧ socks n' = socks n ∧ (∀ j, 0 ≤ j < 1024 → used (ports n) j = true) ∨
    p ≠ 0 ∧ net_ok ext n' ∧ new_sock c n p n') n.
Proof.
  intros Hos Hok He Hc. destruct (Z.eq_dec (os_calloc n) 0) as [E|E].
  { unfold swp, __alloc_socket, sbind at 1, sys at 1. rewrite E. by left. }
  destruct (os_fresh Hos n) as [?|[_ Hf] ]; [done|].
  pose proof (generate_ok os_getpid (ports n) (po_map _ Hok)) as Hgen.
  destruct (generate_local_port os_getpid (ports n)) as [port m'] eqn:Eg. cbn [fst snd] in Hgen.
  unfold swp. rewrite (alloc_socket_run n c port m' Eg E). set (p := os_calloc n) in *. set (sk := made c port (os_time n)).
  destruct Hgen as [(k & Hk & Hfree & Hlow & Ep & Hm' & Hu')|[Hall [= -> ->] ] ].
  - assert (port ≠ UINT_MAX) as Hmax.
    { rewrite Ep, port_not_max by done. intros [_ ?]. by apply (os_pid Hos). }
    rewrite (proj2 (Z.eqb_neq _ _) Hmax). right. right. split; [done|]. split.
    + split.
      * apply cbs_with; [apply (no_cbs _ _ Hok)|done|done].
      * eapply ports_with; [apply (no_ports _ _ Hok)|done|exact Hk|done|split; [done|exact Ep]|done|done|done].
      * apply fds_with; [apply (no_fds _ _ Hok)|done|done].
      * cbn [socks]. rewrite lookup_insert_ne by done. apply (no_null _ _ Hok).
    + split; [done|]. exists sk. split; [done|]. split; [done|]. split; [done|]. split; [done|]. split; [done|].
      exists k. split; [exact Hk|]. split; [done|]. split; [done|]. exact Ep.
  - rewrite Z.eqb_refl.
    assert (delete p (<[p := sk]> (socks n)) = socks n) as Ed by by rewrite delete_insert_id.
    destruct (put_cbs_ok ext (mkNet (cbs n) (<[p := sk]> (socks n)) (ports n) (fds n) (opts n)) c (socks n)) as (v & Ev & Hv);
      [by destruct (no_cbs _ _ Hok); split|done|].
    unfold sbind. rewrite (socket_free_run p sk _ v); [|done|apply lookup_insert_eq|done].
    cbn [socks ports fds opts sret]. rewrite Ed. right. left. split; [done|]. split; [|done].
    rewrite drop_port_max by done. destruct (no_ports _ _ Hok), (no_fds _ _ Hok).
    split; [apply Hv|by split|by split|apply (no_null _ _ Hok)].
Qed.

(** [nl_socket_alloc]: a new socket, or NULL because there is no port (and nothing else
    changed) or no memory; a handle that was allocated before memory ran out is lost. *)
Lemma socket_alloc_ok ext n kind :
  os_ok → net_ok ext n → 0 ≤ kind < NL_CB_CUSTOM →
  swp (nl_socket_alloc kind) (λ p n',
    p = 0 ∧ net_ok ext n' ∧ socks n' = socks n ∨
    p = 0 ∧ (∃ c, cbs n !! c = None ∧ net_ok (add_ref c 1 ext) n') ∧ socks n' = socks n ∧ (∃ n0, os_calloc n0 = 0) ∨
    p ≠ 0 ∧ net_ok ext n' ∧ socks n !! p = None ∧ ∃ sk, socks n' = <[p := sk]> (socks n) ∧ s_fd sk = -1 ∧
      has_flag NL_OWN_PORT sk = false) n.
Proof.
  intros Hos Hok Hk. unfold nl_socket_alloc. eapply swp_seq; [by eapply cb_alloc_ok|]. cbv beta.
  intros c n1 [ [-> ->]|(Hc & Hok1 & Es & _ & Hfr)].
  { apply swp_ret. by left. }
  rewrite (proj2 (Z.eqb_neq _ _) Hc).
  assert (0 ≤ ext c) as He by (destruct (co_dead _ _ Hok _ Hfr) as [-> _]; done).
  eapply swp_mono; [by eapply alloc_socket_ok|]. cbv beta. rewrite <- Es.
  intros p n' [(-> & -> & E0)|[(-> & Hok' & Es' & _)|(Hp & Hok' & Hnone & sk & Esk & Efd & Efl & _)] ].
  - right. left. split; [done|]. split; [by exists c|]. split; [done|]. by exists n1.
  - left. split; [done|]. done.
  - right. right. split; [done|]. split; [done|]. split; [done|]. exists sk. split; [done|]. split; [done|].
    unfold has_flag. by rewrite Efl.
Qed.

(** With a handle of the caller, who keeps his reference. *)
Lemma socket_alloc_cb_ok ext n c h :
  os_ok → net_ok ext n → cbs n !! c = Some h →
  swp (nl_socket_alloc_cb c) (λ p n',
    p = 0 ∧ net_ok (add_ref c 1 ext) n' ∧ socks n' = socks n ∧ (∃ n0, os_calloc n0 = 0) ∨
    p = 0 ∧ net_ok ext n' ∧ socks n' = socks n ∨
    p ≠ 0 ∧ net_ok ext n' ∧ socks n !! p = None ∧ ∃ sk, socks n' = <[p := sk]> (socks n) ∧ s_fd sk = -1 ∧ s_cb sk = c) n.
Proof.
  intros Hos Hok Hc. assert (c ≠ 0) as Hc0 by (intros ->; pose proof (co_null _ _ (no_cbs _ _ Hok)); congruence).
  unfold nl_socket_alloc_cb. rewrite (proj2 (Z.eqb_neq _ _) Hc0).
  eapply swp_seq; [by eapply cb_get_ok|]. cbv beta. intros r n1 (-> & Hok1 & Es).
  destruct (co_refs _ _ (no_cbs _ _ Hok) _ _ Hc) as (He & _ & _).
  eapply swp_mono; [by eapply alloc_socket_ok|]. cbv beta. rewrite <- Es.
  intros p n' [(-> & -> & E0)|[(-> & Hok' & Es' & _)|(Hp & Hok' & Hnone & sk & Esk & Efd & Efl & Ecb & _)] ].
  - left. split; [done|]. split; [done|]. split; [done|]. by exists n1.
  - right. left. split; [done|]. by split.
  - right. right. split; [done|]. split; [done|]. split; [done|]. by exists sk.
Qed.

(** ** Changes that the invariant does not see *)

Definition same_id (sk sk' : nl_sock) : Prop :=
  s_cb sk' = s_cb sk ∧ s_fd sk' = s_fd sk ∧ nl_pid (s_local sk') = nl_pid (s_local sk) ∧
  has_flag NL_OWN_PORT sk' = has_flag NL_OWN_PORT sk.

Lemma cbs_upd ext n p sk sk' :
  cbs_ok ext n → socks n !! p = Some sk → s_cb sk' = s_cb sk → ∀ m f o, cbs_ok ext (mkNet (cbs n) (<[p := sk']> (socks n)) m f o).
Proof.
  intros [Hr Hd Hn0] Hp E m f o.
  assert (∀ c, users c (<[p := sk']> (socks n)) = users c (socks n)) as Hu.
  { intros c. rewrite (users_upd c _ p sk sk' Hp). unfold uses. rewrite E. lia. }
  split; simpl; [intros c h Hc; rewrite Hu; by apply Hr|intros c Hc; rewrite Hu; by apply Hd|done].
Qed.

(** A lookup in the changed map is a lookup of the old one, with a property [R] between the
    sockets that are found. *)
Lemma upd_lookup (m : gmap Z nl_sock) p sk sk' (R : nl_sock → nl_sock → Prop) :
  m !! p = Some sk → R sk sk' → (∀ x, R x x) →
  (∀ q x, <[p := sk']> m !! q = Some x → ∃ y, m !! q = Some y ∧ R y x) ∧
  (∀ q y, m !! q = Some y → ∃ x, <[p := sk']> m !! q = Some x ∧ R y x).
Proof.
  intros Hp Hr Hrefl. split; intros q x; (destruct (decide (q = p)) as [->|]; [rewrite lookup_insert_eq|rewrite lookup_insert_ne by done]).
  - intros [= <-]. by exists sk.
  - intros Hq. by exists x.
  - intros Hx. exists sk'. by simplify_eq.
  - intros Hq. by exists x.
Qed.

Lemma ports_upd n p sk sk' :
  ports_ok n → socks n !! p = Some sk → nl_pid (s_local sk') = nl_pid (s_local sk) →
  has_flag NL_OWN_PORT sk' = has_flag NL_OWN_PORT sk → ∀ v f o, ports_ok (mkNet v (<[p := sk']> (socks n)) (ports n) f o).
Proof.
  intros [Hm Hu Hpo Hon] Hp E1 E2 v f o.
  destruct (upd_lookup _ p sk sk' (λ x y, (∀ k, owns x k ↔ owns y k) ∧ nl_pid (s_local x) = nl_pid (s_local y) ∧
    has_flag NL_OWN_PORT x = has_flag NL_OWN_PORT y) Hp) as [H1 H2]; [|done|].
  { split; [|done]. intros k. unfold owns. by rewrite E1, E2. }
  split; simpl; [done| | |].
  - intros k Hk. rewrite Hu by done. split; intros (q & x & Hq & Hx).
    + destruct (H2 q x Hq) as (y & Hy & Hyo & _). exists q, y. by rewrite <- Hyo.
    + destruct (H1 q x Hq) as (y & Hy & Hyo & _). exists q, y. by rewrite Hyo.
  - intros q x Hq Hf. destruct (H1 q x Hq) as (y & Hy & Hyo & <- & Ef). rewrite <- Ef in Hf.
    destruct (Hpo q y Hy Hf) as (? & k & Hk & Hk'). split; [done|]. exists k. by rewrite <- Hyo.
  - intros q q' x x' k Hk Hq Hq' Hx Hx'. destruct (H1 q x Hq) as (y & Hy & Hyo & _), (H1 q' x' Hq') as (y' & Hy' & Hyo' & _).
    apply (Hon q q' y y' k); try done; [by apply Hyo|by apply Hyo'].
Qed.

Lemma fds_upd n p sk sk' :
  fds_ok n → socks n !! p = Some sk → s_fd sk' = s_fd sk → ∀ v m o, fds_ok (mkNet v (<[p := sk']> (socks n)) m (fds n) o).
Proof.
  intros [Hop Hof Hcl] Hp E v m o.
  destruct (upd_lookup _ p sk sk' (λ x y, s_fd x = s_fd y) Hp) as [H1 H2]; [done|done|]. split; simpl.
  - intros fd. rewrite Hop. split; intros (Hfd & q & x & Hq & Hx); (split; [done|]).
    + destruct (H2 q x Hq) as (y & Hy & Ey). exists q, y. by rewrite <- Ey.
    + destruct (H1 q x Hq) as (y & Hy & Ey). exists q, y. by rewrite Ey.
  - intros q q' x x' Hq Hq' Hx Hx'. destruct (H1 q x Hq) as (y & Hy & Ey), (H1 q' x' Hq') as (y' & Hy' & Ey').
    apply (Hof q q' y y'); try done; congruence.
  - intros q x Hq. destruct (H1 q x Hq) as (y & Hy & <-). by apply Hcl with q.
Qed.

Lemma net_ok_upd ext n p sk sk' :
  net_ok ext n → socks n !! p = Some sk → same_id sk sk' →
  ∀ o, net_ok ext (mkNet (cbs n) (<[p := sk']> (socks n)) (ports n) (fds n) o).
Proof.
  intros [C P F Hn] Hp (E1 & E2 & E3 & E4) o. split; [by eapply cbs_upd|by eapply ports_upd|by eapply fds_upd|].
  cbn [socks]. rewrite lookup_insert_ne; [done|]. congruence.
Qed.

Lemma upd_sock_ok ext n p sk f :
  net_ok ext n → socks n !! p = Some sk → same_id sk (f sk) →
  swp (upd_sock p f) (λ _ n', net_ok ext n' ∧ socks n' = <[p := f sk]> (socks n) ∧ fds n' = fds n) n.
Proof.
  intros Hok Hp Hs. apply (swp_upd_sock _ sk); [done|]. split; [|done]. by apply (net_ok_upd _ _ _ _ _ Hok Hp Hs).
Qed.

Lemma flag_on_id f sk : Z.land f NL_OWN_PORT = 0 → same_id sk (flag_on f sk).
Proof.
  intros Hf. repeat split. unfold has_flag, flag_on. cbn [s_flags set_sflags].
  by rewrite Z.land_lor_distr_l, Hf, Z.lor_0_r.
Qed.

Lemma flag_off_id f sk : Z.land f NL_OWN_PORT = 0 → same_id sk (flag_off f sk).
Proof.
  intros Hf. repeat split. unfold has_flag, flag_off. cbn [s_flags set_sflags].
  rewrite <- Z.land_assoc, (Z.land_comm (Z.lnot f)), <- Z.ldiff_land. f_equal. f_equal. f_equal.
  apply Z.bits_inj'. intros i Hi. rewrite Z.ldiff_spec. apply (f_equal (λ z, Z.testbit z i)) in Hf.
  rewrite Z.land_spec, Z.bits_0 in Hf. by destruct (Z.testbit f i), (Z.testbit NL_OWN_PORT i).
Qed.

(** ** A port of the caller's *)

Lemma ports_give n p sk sk' :
  ports_ok n → socks n !! p = Some sk → has_flag NL_OWN_PORT sk' = true →
  ∀ v f o, ports_ok (mkNet v (<[p := sk']> (socks n)) (drop_port sk (ports n)) f o).
Proof.
  intros Hpo Hsk Hf v f o. destruct (drop_port_ok n p sk Hpo Hsk) as [Hm Hu]. destruct Hpo as [_ _ Hp Ho].
  assert (∀ k, ¬ owns sk' k) as Hno by (intros k [? _]; congruence).
  split; simpl; [done| | |].
  - intros k Hk. rewrite Hu by done. split.
    + intros (q & x & Hne & Hq & Hx). exists q, x. by rewrite lookup_insert_ne.
    + intros (q & x & Hq & Hx). destruct (decide (q = p)) as [->|].
      * rewrite lookup_insert_eq in Hq. injection Hq as <-. by destruct (Hno k).
      * rewrite lookup_insert_ne in Hq by done. by exists q, x.
  - intros q x. destruct (decide (q = p)) as [->|]; [rewrite lookup_insert_eq; intros [= <-]; congruence|].
    rewrite lookup_insert_ne by done. apply Hp.
  - intros q q' x x' k Hk Hq Hq' Hx Hx'. destruct (decide (q = p)) as [->|].
    { rewrite lookup_insert_eq in Hq. injection Hq as <-. by destruct (Hno k). }
    destruct (decide (q' = p)) as [->|]; [rewrite lookup_insert_eq in Hq'; injection Hq' as <-; by destruct (Hno k)|].
    rewrite lookup_insert_ne in Hq, Hq' by done. by eapply (Ho q q' x x' k).
Qed.

Lemma set_local_port_ok ext n p sk port :
  net_ok ext n → socks n !! p = Some sk → port ≠ 0 →
  swp (nl_socket_set_local_port p port) (λ _ n', net_ok ext n' ∧
    socks n' = <[p := set_pid port (flag_on NL_OWN_PORT sk)]> (socks n)) n.
Proof.
  intros Hok Hp Hport. unfold nl_socket_set_local_port. rewrite (proj2 (Z.eqb_neq _ _) Hport).
  apply swp_bind, (swp_sock _ sk); [done|].
  eapply (swp_seq _ _ (λ _ n', n' = set_ports (drop_port sk (ports n)) n)).
  { unfold drop_port. destruct (has_flag NL_OWN_PORT sk); cbn [negb]; [apply swp_ret; by destruct n|by apply swp_modify]. }
  intros [] n1 ->. apply swp_bind, (swp_upd_sock _ sk); [done|]. eapply swp_upd_sock; [apply lookup_insert_eq|].
  unfold set_socks. cbn [cbs socks ports fds opts set_ports]. rewrite insert_insert_eq. split; [|done].
  assert (has_flag NL_OWN_PORT (set_pid port (flag_on NL_OWN_PORT sk)) = true) as Hf.
  { unfold has_flag, set_pid, flag_on. cbn [s_flags set_sflags set_local]. rewrite Z.land_lor_distr_l.
    apply negb_true_iff, Z.eqb_neq. intros [_ ?]%Z.lor_eq_0_iff. done. }
  destruct Hok as [C P F Hn]. split; [by eapply cbs_upd|by eapply ports_give|by eapply fds_upd|].
  cbn [socks]. rewrite lookup_insert_ne; [done|]. congruence.
Qed.

(** ** A handle of the caller's *)

Lemma set_cb_ok ext n p sk c :
  net_ok ext n → socks n !! p = Some sk → 0 < ext c →
  swp (nl_socket_set_cb p c) (λ _ n', net_ok ext n' ∧ socks n' = <[p := set_scb c sk]> (socks n)) n.
Proof.
  intros Hok Hp He. destruct (cbs_without _ _ _ _ (no_cbs _ _ Hok) Hp) as [C Hes].
  destruct (put_cbs_ok _ _ _ _ C Hes) as (v & Ev & Hv).
  assert (is_Some (v !! c)) as [h Hh].
  { destruct (v !! c) eqn:E; [done|]. destruct (co_dead _ _ (Hv (ports n) (fds n) (opts n)) c E). lia. }
  unfold nl_socket_set_cb. apply swp_bind, (swp_sock _ sk); [done|]. apply swp_bind. unfold swp at 1. rewrite cb_put_run, Ev.
  unfold nl_cb_get. do 2 apply swp_bind. apply (swp_upd_cb _ h); [done|]. apply swp_ret. apply (swp_upd_sock _ sk); [done|].
  split; [|done]. unfold set_socks, set_cbs. cbn [cbs socks ports fds opts].
  pose proof (Hv (ports n) (fds n) (opts n)) as C1. destruct (co_refs _ _ C1 c h Hh) as (_ & Hpos & _).
  pose proof (cbs_ok_upd ext _ c h (set_refs (h_refcnt h + 1) h) 1 C1 Hh eq_refl ltac:(lia) ltac:(lia)) as C2.
  pose proof (cbs_with ext _ p (set_scb c sk) C2 ltac:(cbn; lia) (lookup_delete_eq _ _) (ports n) (fds n) (opts n)) as C3.
  cbn [cbs socks set_cbs] in C3. rewrite insert_delete_eq in C3.
  destruct Hok as [_ P F Hn]. split; [exact C3|by eapply ports_upd|by eapply fds_upd|].
  cbn [socks]. rewrite lookup_insert_ne; [done|]. congruence.
Qed.

(** ** Connecting *)

Lemma fds_open n p sk fd sk' :
  fds_ok n → socks n !! p = Some sk → s_fd sk = -1 → 0 ≤ fd → fd ∉ fds n → s_fd sk' = fd →
  ∀ v m o, fds_ok (mkNet v (<[p := sk']> (socks n)) m ({[fd]} ∪ fds n) o).
Proof.
  intros [Hop Hof Hcl] Hp E Hfd Hnew E' v m o. subst fd.
  assert (∀ q x, socks n !! q = Some x → s_fd x ≠ s_fd sk') as Hne.
  { intros q x Hq Ex. apply Hnew. apply Hop. split; [done|]. eauto. }
  split; simpl.
  - intros fd. rewrite elem_of_union, elem_of_singleton, Hop. split.
    + intros [->|(H0 & q & x & Hq & Ex)]; [split; [done|]; exists p, sk'; by rewrite lookup_insert_eq|].
      split; [done|]. exists q, x. rewrite lookup_insert_ne; [done|]. intros <-. simplify_eq. lia.
    + intros (H0 & q & x & Hq & Ex). destruct (decide (q = p)) as [->|].
      * rewrite lookup_insert_eq in Hq. injection Hq as <-. by left.
      * rewrite lookup_insert_ne in Hq by done. right. split; [done|]. eauto.
  - intros q q' x x'. destruct (decide (q = p)) as [->|], (decide (q' = p)) as [->|]; [done| | |].
    + rewrite lookup_insert_eq, lookup_insert_ne by done. intros [= <-] Hq' _ Ex. by destruct (Hne q' x' Hq').
    + rewrite lookup_insert_ne, lookup_insert_eq by done. intros Hq [= <-] _ Ex. by destruct (Hne q x Hq).
    + rewrite !lookup_insert_ne by done. apply Hof.
  - intros q x. destruct (decide (q = p)) as [->|]; [rewrite lookup_insert_eq; intros [= <-]; lia|].
    rewrite lookup_insert_ne by done. apply Hcl.
Qed.

Lemma fds_close n p sk sk' :
  fds_ok n → socks n !! p = Some sk → s_fd sk' = -1 →
  ∀ v m o, fds_ok (mkNet v (<[p := sk']> (socks n)) m (drop_fd sk (fds n)) o).
Proof.
  intros F Hp E v m o. pose proof (fds_without n p sk F Hp v m o) as F'.
  pose proof (fds_with _ p sk' F' (lookup_delete_eq _ _) E v m o) as F2. cbn [socks fds] in F2. by rewrite insert_delete_eq in F2.
Qed.

(** Only the socket at [p] changes, and it keeps its identity. *)
Definition touches ext p sk n n' : Prop :=
  net_ok ext n' ∧ fds n' = fds n ∧ ∃ sk', socks n' = <[p := sk']> (socks n) ∧ same_id sk sk'.

Lemma net_ok_opts ext n o : net_ok ext n → net_ok ext (mkNet (cbs n) (socks n) (ports n) (fds n) o).
Proof. intros [ [? ? ?] [? ? ? ?] [? ? ?] ?]. by split; [split|split|split|]. Qed.

Lemma setsockopt_ok ext n fd level opt v :
  net_ok ext n →
  swp (setsockopt fd level opt v) (λ r n', r ≤ 0 ∧ net_ok ext n' ∧ socks n' = socks n ∧ fds n' = fds n ∧
    opts n' = if r <? 0 then opts n else opts n ++ [(fd, level, opt, v)]) n.
Proof.
  intros Hok. unfold setsockopt. apply swp_bind. unfold sys, swp at 1. destruct (os_setsockopt n fd level opt v) as [e|].
  - apply swp_ret. pose proof (syserr_range e). split; [lia|]. split; [done|]. split; [done|]. split; [done|].
    by decide_test (- nl_syserr2nlerr e <? 0) true.
  - apply swp_bind, swp_modify, swp_ret. split; [done|]. split; [by apply net_ok_opts|done].
Qed.

Lemma same_id_refl sk : same_id sk sk.
Proof. done. Qed.

Lemma same_id_trans a b c : same_id a b → same_id b c → same_id a c.
Proof. intros (? & ? & ? & ?) (? & ? & ? & ?). repeat split; congruence. Qed.

Lemma buffer_size_ok ext n p sk rx tx :
  net_ok ext n → socks n !! p = Some sk →
  swp (nl_socket_set_buffer_size p rx tx) (λ r n', r ≤ 0 ∧ touches ext p sk n n') n.
Proof.
  intros Hok Hp. unfold nl_socket_set_buffer_size. cbv zeta. apply swp_bind, (swp_sock _ sk); [done|].
  assert (∀ n', net_ok ext n' → socks n' = socks n → fds n' = fds n → touches ext p sk n n') as Hsame.
  { intros n' Hok' E1 E2. split; [done|]. split; [done|]. exists sk. by rewrite E1, insert_id. }
  destruct (s_fd sk =? -1); [apply swp_ret; split; [done|by apply Hsame]|].
  eapply swp_seq; [by eapply setsockopt_ok|]. intros r n1 (Hr & Hok1 & E1 & F1 & _).
  destruct (Z.ltb_spec r 0); [apply swp_ret; split; [done|by apply Hsame]|].
  eapply swp_seq; [by eapply setsockopt_ok|]. intros r' n2 (Hr' & Hok2 & E2 & F2 & _).
  destruct (Z.ltb_spec r' 0); [apply swp_ret; split; [done|apply Hsame; congruence]|].
  eapply swp_seq; [eapply (upd_sock_ok _ _ _ sk); [done|congruence|by apply flag_on_id]|].
  intros [] n3 (Hok3 & E3 & F3). apply swp_ret. split; [done|]. split; [done|]. split; [congruence|].
  eexists. split; [by rewrite E3, E2, E1|by apply flag_on_id].
Qed.

Lemma connect_steps_ok ext n p sk proto :
  os_ok → net_ok ext n → socks n !! p = Some sk → 0 ≤ s_fd sk →
  swp (connect_steps p proto) (λ e n', touches ext p sk n n' ∧
    match e with Some err => err < 0 | None => ∃ sk', socks n' !! p = Some sk' ∧ s_proto sk' = proto end) n.
Proof.
  intros Hos Hok Hp Hfd. unfold connect_steps. apply swp_bind, (swp_sock _ sk); [done|].
  eapply (swp_seq _ _ (λ r n', r ≤ 0 ∧ touches ext p sk n n')).
  { destruct (has_flag NL_SOCK_BUFSIZE_SET sk); cbn [negb]; [|by apply buffer_size_ok].
    apply swp_ret. split; [done|]. split; [done|]. split; [done|]. exists sk. by rewrite insert_id. }
  intros r n1 (Hr & Hok1 & F1 & sk1 & E1 & S1).
  destruct (Z.ltb_spec r 0); [apply swp_ret; split; [|done]; split; [done|]; split; [done|]; by exists sk1|].
  assert (socks n1 !! p = Some sk1) as Hp1 by (rewrite E1; apply lookup_insert_eq).
  assert (0 ≤ s_fd sk1) as Hfd1 by (destruct S1 as (_ & -> & _); done).
  apply swp_bind, (swp_sock _ sk1); [done|]. apply swp_bind. unfold sys at 1, swp at 1.
  destruct (os_bind n1 (s_fd sk1) (s_local sk1)) as [e|].
  { apply swp_ret. pose proof (syserr_range e). split; [|lia]. split; [done|]. split; [done|]. by exists sk1. }
  apply swp_bind. unfold sys, swp at 1. destruct (os_getsockname n1 (s_fd sk1)) as [ [addr len]|e] eqn:Eg.
  2:{ apply swp_ret. pose proof (syserr_range e). split; [|lia]. split; [done|]. split; [done|]. by exists sk1. }
  assert (same_id sk1 (set_local addr sk1)) as S2.
  { repeat split. by apply (os_bound Hos _ _ _ _ _ Hp1 Hfd1 Eg). }
  eapply swp_seq; [eapply (upd_sock_ok _ _ _ sk1); [done|done|exact S2]|].
  intros [] n2 (Hok2 & E2 & F2).
  assert (touches ext p sk n n2) as T2.
  { split; [done|]. split; [congruence|]. eexists. split; [rewrite E2, E1; by rewrite insert_insert_eq|]. by eapply same_id_trans. }
  destruct (negb (len =? sizeof_sockaddr_nl)); [by apply swp_ret|].
  destruct (negb (nl_family addr =? AF_NETLINK)); [by apply swp_ret|].
  eapply swp_seq; [eapply (upd_sock_ok _ _ _ (set_local addr sk1)); [done|by rewrite E2, lookup_insert_eq|done]|].
  intros [] n3 (Hok3 & E3 & F3). apply swp_ret. split.
  - split; [done|]. split; [congruence|]. eexists. split; [rewrite E3, E2, E1; by rewrite !insert_insert_eq|].
    eapply same_id_trans; [exact S1|]. by eapply same_id_trans.
  - eexists. rewrite E3, lookup_insert_eq. done.
Qed.

(** [nl_connect] leaves an open descriptor in the socket, or a negative error and none. *)
Lemma nl_connect_ok ext n p sk proto :
  os_ok → net_ok ext n → socks n !! p = Some sk → s_fd sk = -1 →
  swp (nl_connect p proto) (λ r n', net_ok ext n' ∧ ∃ sk', socks n' = <[p := sk']> (socks n) ∧
    has_flag NL_OWN_PORT sk' = has_flag NL_OWN_PORT sk ∧ s_cb sk' = s_cb sk ∧
    (r = 0 ∧ 0 ≤ s_fd sk' ∧ s_proto sk' = proto ∧ s_fd sk' ∉ fds n ∧ fds n' = {[s_fd sk']} ∪ fds n ∨
     r < 0 ∧ s_fd sk' = -1 ∧ fds n' = fds n)) n.
Proof.
  intros Hos Hok Hp Efd. unfold nl_connect. apply swp_bind. unfold sys at 1, swp at 1.
  assert (∀ m : gset Z, (∀ fd, fd ∈ m → 0 ≤ fd) → m ∖ {[-1]} = m) as Hm1.
  { intros m Hm. apply set_eq. intros x. rewrite elem_of_difference, elem_of_singleton. split; [by intros [? _]|].
    intros Hx. split; [done|]. intros ->. by apply Hm in Hx. }
  assert (∀ fd, fd ∈ fds n → 0 ≤ fd) as Hpos by (intros fd Hfd; by apply (fo_open _ (no_fds _ _ Hok)) in Hfd as [? _]).
  destruct (os_socket n proto) as [fd|e] eqn:Es.
  2:{ apply swp_bind, swp_bind, (swp_upd_sock _ sk); [done|]. apply swp_ret.
      apply swp_bind. eapply swp_sock; [apply lookup_insert_eq|]. apply swp_bind, swp_modify.
      apply swp_bind. eapply swp_upd_sock; [apply lookup_insert_eq|]. apply swp_ret.
      unfold set_socks, set_fds. cbn [cbs socks ports fds opts s_fd set_fd]. rewrite !insert_insert_eq, Hm1 by done.
      split; [by apply (net_ok_upd _ _ _ sk)|]. eexists. split; [done|]. split; [done|]. split; [done|]. right.
      pose proof (syserr_range e). split; [lia|done]. }
  destruct (os_new_fd Hos _ _ _ Es) as [Hfd Hnew]. apply swp_bind, swp_bind, swp_modify, swp_bind, (swp_upd_sock _ sk); [done|].
  set (n1 := set_socks _ _). assert (net_ok ext n1) as Hok1.
  { destruct Hok as [C P F Hn]. unfold n1, set_socks, set_fds. cbn [cbs socks ports fds opts].
    split; [by eapply cbs_upd|by eapply ports_upd|by eapply fds_open|].
    cbn [socks]. rewrite lookup_insert_ne; [done|]. congruence. }
  eapply swp_mono; [eapply (connect_steps_ok _ _ _ (set_fd fd sk)); [done|done|apply lookup_insert_eq|done]|].
  cbv beta. intros [err|] n2 ((Hok2 & F2 & sk2 & E2 & S2a & S2b & S2c & S2d) & He).
  - cbn [n1 socks set_socks set_fds] in E2. rewrite insert_insert_eq in E2.
    apply swp_bind, (swp_sock _ sk2); [by rewrite E2, lookup_insert_eq|]. apply swp_bind, swp_modify.
    apply swp_bind, (swp_upd_sock _ sk2); [cbn [socks set_fds]; by rewrite E2, lookup_insert_eq|]. apply swp_ret.
    unfold set_socks, set_fds. cbn [cbs socks ports fds opts].
    cbn [s_fd set_fd] in S2b. rewrite E2, insert_insert_eq.
    assert (fds n2 ∖ {[s_fd sk2]} = fds n) as Ef.
    { rewrite F2, S2b. cbn [n1 fds set_socks set_fds]. set_solver. }
    split.
    + assert (drop_fd sk2 (fds n2) = fds n2 ∖ {[s_fd sk2]}) as Ed by (unfold drop_fd; by decide_test (0 <=? s_fd sk2) true).
      assert (socks n2 !! p = Some sk2) as Hp2 by by rewrite E2, lookup_insert_eq.
      assert (<[p := set_fd (-1) sk2]> (socks n) = <[p := set_fd (-1) sk2]> (socks n2)) as -> by by rewrite E2, insert_insert_eq.
      destruct Hok2 as [C P F Hn]. rewrite <- Ed.
      split; [by eapply cbs_upd|by eapply ports_upd|by eapply fds_close|].
      cbn [socks]. rewrite lookup_insert_ne; [done|]. congruence.
    + eexists. split; [done|]. split; [done|]. split; [done|]. right. split; [done|]. split; [done|]. exact Ef.
  - cbn [n1 socks set_socks set_fds] in E2. rewrite insert_insert_eq in E2. apply swp_ret. split; [done|].
    exists sk2. split; [done|]. split; [done|]. split; [done|]. left. split; [done|].
    cbn [s_fd set_fd] in S2b. rewrite S2b. split; [done|]. split; [|by rewrite F2].
    destruct He as (x & Hx & <-). rewrite E2, lookup_insert_eq in Hx. by injection Hx as <-.
Qed.

Lemma close_ok ext n p sk :
  net_ok ext n → socks n !! p = Some sk →
  swp (nl_close p) (λ _ n', net_ok ext n' ∧ ∃ sk', socks n' = <[p := sk']> (socks n) ∧ s_fd sk' = -1 ∧ s_proto sk' = 0 ∧
    has_flag NL_OWN_PORT sk' = has_flag NL_OWN_PORT sk ∧ s_cb sk' = s_cb sk ∧ fds n' = drop_fd sk (fds n)) n.
Proof.
  intros Hok Hp. pose proof (fo_closed _ (no_fds _ _ Hok) _ _ Hp) as Hcl.
  unfold nl_close. apply swp_bind, (swp_sock _ sk); [done|].
  unfold drop_fd. destruct (Z.leb_spec 0 (s_fd sk)) as [Hfd|Hfd].
  - apply swp_bind, swp_bind, swp_modify, (swp_upd_sock _ sk); [done|]. eapply swp_upd_sock; [apply lookup_insert_eq|].
    unfold set_socks, set_fds. cbn [cbs socks ports fds opts]. rewrite insert_insert_eq.
    split; [|by eexists]. destruct Hok as [C P F Hn].
    pose proof (fds_close n p sk (set_proto 0 (set_fd (-1) sk)) F Hp eq_refl (cbs n) (ports n) (opts n)) as F'.
    unfold drop_fd in F'. rewrite (proj2 (Z.leb_le _ _) Hfd) in F'.
    split; [by eapply cbs_upd|by eapply ports_upd|exact F'|]. cbn [socks]. rewrite lookup_insert_ne; [done|]. congruence.
  - apply swp_bind, swp_ret, (swp_upd_sock _ sk); [done|]. split; [by apply (net_ok_upd _ _ _ sk)|].
    eexists. split; [done|]. split; [cbn [s_fd set_proto]; lia|done].
Qed.
End Ops.
