(* ===== verification/SockApi.v ===== *)
(** * Programs that use sockets

    The calls of a program as a transition system on the memory of the library and on the
    references that the program holds.  A program that only uses sockets it has and handles
    it has a reference to never crashes; when it is done, no port and no descriptor is left,
    and no handle but those that failed allocations of sockets have lost. *)

From S2P Require Import Prelude Netlink NlError Recv Handlers Ports Socket SockInv SockOps.

Inductive scall :=
  | CCbAlloc (kind : Z) | CCbClone (c : Z) | CCbGet (c : Z) | CCbPut (c : Z)
  | CCbSet (c type kind : Z) (func : option handler) (arg : Z)
  | CAlloc (kind : Z) | CAllocCb (c : Z) | CFree (p : Z)
  | CConnect (p proto : Z) | CClose (p : Z)
  | CSetPort (p port : Z) | CSetCb (p c : Z) | CGetCb (p : Z)
  | CModifyCb (p type kind : Z) (func : option handler) (arg : Z)
  | CUseSeq (p : Z) | CNoAck (p : Z) | CPeek (p : Z) | CBuffers (p rx tx : Z)
  | CJoin (p : Z) (groups : list Z).

Section Api.
Context `{Os}.
Local Open Scope state_scope.

Implicit Types (n : net) (ext : Z → Z).

Definition sexec (k : scall) : St net Z :=
  match k with
  | CCbAlloc kind => nl_cb_alloc kind
  | CCbClone c => nl_cb_clone c
  | CCbGet c => nl_cb_get c
  | CCbPut c => nl_cb_put c ;; sret 0
  | CCbSet c type kind func arg => cb_set_at c type kind func arg
  | CAlloc kind => nl_socket_alloc kind
  | CAllocCb c => nl_socket_alloc_cb c
  | CFree p => nl_socket_free p ;; sret 0
  | CConnect p proto => nl_connect p proto
  | CClose p => nl_close p ;; sret 0
  | CSetPort p port => nl_socket_set_local_port p port ;; sret 0
  | CSetCb p c => nl_socket_set_cb p c ;; sret 0
  | CGetCb p => nl_socket_get_cb p
  | CModifyCb p type kind func arg => nl_socket_modify_cb p type kind func arg
  | CUseSeq p => nl_socket_use_seq p
  | CNoAck p => nl_socket_disable_auto_ack p ;; sret 0
  | CPeek p => nl_socket_enable_msg_peek p ;; sret 0
  | CBuffers p rx tx => nl_socket_set_buffer_size p rx tx
  | CJoin p groups => nl_socket_add_memberships p groups
  end.

Definition has_sock n (p : Z) : Prop := is_Some (socks n !! p).

(** What a program may call: with sockets that it has, with handles that it holds. *)
Definition smay ext n (k : scall) : Prop :=
  match k with
  | CCbAlloc kind | CAlloc kind => 0 ≤ kind < NL_CB_CUSTOM
  | CCbClone c | CCbGet c | CCbPut c | CCbSet c _ _ _ _ | CAllocCb c => 0 < ext c
  | CFree p | CClose p | CGetCb p | CModifyCb p _ _ _ _ | CUseSeq p | CNoAck p | CPeek p | CBuffers p _ _ => has_sock n p
  | CConnect p _ => ∃ sk, socks n !! p = Some sk ∧ s_fd sk = -1
  | CSetPort p port => has_sock n p ∧ port ≠ 0
  | CSetCb p c => has_sock n p ∧ 0 < ext c
  | CJoin p groups => has_sock n p ∧ 0 ∈ groups
  end.

(** The count of the handle at [c]. *)
Definition count n (c : Z) : Z := match cbs n !! c with Some h => h_refcnt h | None => 0 end.

(** The references that the program holds after a call that returned [r]. *)
Definition srefs ext (k : scall) (r : Z) : Z → Z :=
  match k with
  | CCbAlloc _ | CCbClone _ | CCbGet _ | CGetCb _ => if r =? 0 then ext else add_ref r 1 ext
  | CCbPut c => add_ref c (-1) ext
  | _ => ext
  end.

(** The references that a call loses, which nobody can give back any more: when a socket
    cannot be allocated, [__alloc_socket] may leave behind the handle that [nl_socket_alloc]
    made for it, or the reference to the caller's handle that [nl_socket_alloc_cb] took.
    Nothing else loses a reference. *)
Definition slost (k : scall) (r : Z) n n' : list Z :=
  match k with
  | CAlloc _ => if r =? 0 then elements (dom (cbs n') ∖ dom (cbs n) : gset Z) else []
  | CAllocCb c => if (r =? 0) && negb (count n' c =? count n c) then [c] else []
  | _ => []
  end.

(** How often a handle is among the lost references. *)
Definition losses (lost : list Z) (c : Z) : Z := zlen (filter (λ q, q = c) lost).

(** The references to a handle other than those of sockets. *)
Definition outside ext (lost : list Z) (c : Z) : Z := ext c + losses lost c.

(** ** Every call that is allowed is safe *)

Lemma cb_live ext n c : net_ok ext n → 0 < ext c → ∃ h, cbs n !! c = Some h.
Proof.
  intros Hok He. destruct (cbs n !! c) as [h|] eqn:E; [by eexists|].
  destruct (co_dead _ _ (no_cbs _ _ Hok) _ E). lia.
Qed.

Lemma sock_cb_live ext n p sk : net_ok ext n → socks n !! p = Some sk → ∃ h, cbs n !! s_cb sk = Some h.
Proof.
  intros Hok Hp. pose proof (users_pos _ _ _ _ Hp eq_refl). destruct (cbs n !! s_cb sk) as [h|] eqn:E; [by eexists|].
  destruct (co_dead _ _ (no_cbs _ _ Hok) _ E). lia.
Qed.

(** A change of a handle's contents. *)
Lemma cb_upd_ok ext n c h f :
  net_ok ext n → cbs n !! c = Some h → h_refcnt (f h) = h_refcnt h →
  swp (upd_cb c f) (λ _ n', net_ok ext n' ∧ socks n' = socks n) n.
Proof.
  intros Hok Hc Ef. apply (swp_upd_cb _ h); [done|]. split; [|done]. destruct (co_refs _ _ (no_cbs _ _ Hok) _ _ Hc) as (? & ? & ?).
  eapply net_ok_cbs; [exact Hok|]. eapply (cbs_ok_ext (add_ref c 0 ext)).
  - intros q. unfold add_ref. destruct (q =? c); lia.
  - eapply cbs_ok_upd; [apply Hok|done|lia|lia|lia].
Qed.

Lemma cb_set_refcnt cb type kind func arg : h_refcnt (nl_cb_set cb type kind func arg).2 = h_refcnt cb.
Proof.
  unfold nl_cb_set. destruct (type_of type); [|done]. destruct ((kind <? 0) || _); [done|].
  by destruct (kind =? NL_CB_CUSTOM).
Qed.

Lemma cb_set_at_ok ext n c h type kind func arg :
  net_ok ext n → cbs n !! c = Some h →
  swp (cb_set_at c type kind func arg) (λ _ n', net_ok ext n' ∧ socks n' = socks n) n.
Proof.
  intros Hok Hc. unfold cb_set_at. apply swp_bind, (swp_cb _ h); [done|].
  eapply swp_seq; [eapply cb_upd_ok; [done|done|apply cb_set_refcnt]|]. intros [] n' Hn. by apply swp_ret.
Qed.

Lemma cb_clone_ok ext n c h :
  os_ok → net_ok ext n → cbs n !! c = Some h →
  swp (nl_cb_clone c) (λ r n', r = 0 ∧ n' = n ∨
    r ≠ 0 ∧ net_ok (add_ref r 1 ext) n' ∧ socks n' = socks n ∧ cbs n' !! r = Some (set_refs 1 h)) n.
Proof.
  intros Hos Hok Hc. unfold nl_cb_clone. eapply swp_seq; [by eapply cb_alloc_ok|]. cbv beta.
  intros r n1 [ [-> ->]|(Hr & Hok1 & Es & Ec & Hfr)]; [apply swp_ret; by left|].
  rewrite (proj2 (Z.eqb_neq _ _) Hr). assert (r ≠ c) as Hrc by congruence.
  apply swp_bind, (swp_cb _ h); [by rewrite Ec, lookup_insert_ne|].
  assert (cbs n1 !! r = Some (cb_init NL_CB_DEFAULT)) as Hc1 by (rewrite Ec; apply lookup_insert_eq).
  apply swp_bind. apply (swp_upd_cb _ (cb_init NL_CB_DEFAULT)); [done|]. apply swp_ret. right. split; [done|].
  pose proof (cb_upd_ok _ n1 r _ (λ _, set_refs 1 h) Hok1 Hc1 eq_refl) as Hu. apply swp_run in Hu as (a & n2 & E & Hn).
  unfold upd_cb, cb_at, sbind, sget in E. rewrite Hc1 in E. injection E as <- <-. destruct Hn as [Hn _].
  split; [done|]. split; [done|]. cbn [cbs set_cbs]. by rewrite lookup_insert_eq.
Qed.

Lemma memberships_ok ext n fd opt groups :
  net_ok ext n → 0 ∈ groups → swp (membership_loop fd opt groups) (λ _ n', net_ok ext n') n.
Proof.
  intros Hok Hin. revert n Hok. induction groups as [|g groups IH]; intros n Hok; [by apply elem_of_nil in Hin|].
  cbn [membership_loop]. destruct (Z.eqb_spec g 0) as [->|Hg]; [by apply swp_ret|].
  apply elem_of_cons in Hin as [?|Hin]; [done|]. destruct (g <? 0); [by apply swp_ret|].
  eapply swp_seq; [by eapply setsockopt_ok|]. intros r n' (_ & Hok' & _). destruct (r <? 0); [by apply swp_ret|]. by apply IH.
Qed.

Lemma count_ok ext n c : net_ok ext n → count n c = ext c + users c (socks n).
Proof.
  intros Hok. unfold count. destruct (cbs n !! c) as [h|] eqn:E.
  - by destruct (co_refs _ _ (no_cbs _ _ Hok) _ _ E) as (_ & _ & ?).
  - by destruct (co_dead _ _ (no_cbs _ _ Hok) _ E) as [-> ->].
Qed.

(** The references other than those of sockets after a call. *)
Definition counted ext (k : scall) (r : Z) n n' : Z → Z :=
  match k with
  | CAlloc _ =>
      if r =? 0 then λ c, if (count n c =? 0) && negb (count n' c =? 0) then ext c + 1 else ext c else ext
  | CAllocCb c => if (r =? 0) && negb (count n' c =? count n c) then add_ref c 1 ext else ext
  | _ => srefs ext k r
  end.

Lemma sexec_counts ext n k :
  os_ok → net_ok ext n → smay ext n k →
  swp (sexec k) (λ r n', net_ok (counted ext k r n n') n') n.
Proof.
  intros Hos Hok Hmay.
  assert (∀ p sk f, socks n !! p = Some sk → same_id sk (f sk) → swp (upd_sock p f) (λ _ n', net_ok ext n') n) as Hupd.
  { intros p sk f Hp Hs. eapply swp_mono; [by eapply upd_sock_ok|]. by intros [] n' (? & _). }
  destruct k; cbn [sexec smay counted srefs] in *.
  - eapply swp_mono; [by eapply cb_alloc_ok|]. intros r n' [ [-> ->]|(Hr & Hok' & _)]; [done|].
    by rewrite (proj2 (Z.eqb_neq _ _) Hr).
  - destruct (cb_live _ _ _ Hok Hmay) as [h Hc]. eapply swp_mono; [by eapply cb_clone_ok|].
    intros r n' [ [-> ->]|(Hr & Hok' & _)]; [done|]. by rewrite (proj2 (Z.eqb_neq _ _) Hr).
  - destruct (cb_live _ _ _ Hok Hmay) as [h Hc]. eapply swp_mono; [by eapply cb_get_ok|].
    intros r n' (-> & Hok' & _). assert (c ≠ 0) as Hc0 by (intros ->; pose proof (co_null _ _ (no_cbs _ _ Hok)); congruence).
    by rewrite (proj2 (Z.eqb_neq _ _) Hc0).
  - eapply swp_seq; [by eapply cb_put_ok|]. intros [] n' (Hok' & _). by apply swp_ret.
  - destruct (cb_live _ _ _ Hok Hmay) as [h Hc]. eapply swp_mono; [by eapply cb_set_at_ok|]. by intros r n' (Hok' & _).
  - eapply swp_mono; [by eapply socket_alloc_ok|].
    intros r n' [(-> & Hok' & Es)|[(-> & (c & Hf & Hok') & Es & _)|(Hr & Hok' & _)] ].
    + cbn [Z.eqb]. eapply net_ok_ext; [|exact Hok']. intros c. rewrite (count_ok _ _ c Hok), (count_ok _ _ c Hok'), Es.
      by destruct (ext c + users c (socks n) =? 0).
    + cbn [Z.eqb]. eapply net_ok_ext; [|exact Hok']. intros c'. rewrite (count_ok _ _ c' Hok), (count_ok _ _ c' Hok'), Es.
      destruct (co_dead _ _ (no_cbs _ _ Hok) c Hf) as [D1 D2]. unfold add_ref. destruct (Z.eqb_spec c' c) as [->|]; [by rewrite D1, D2|].
      by destruct (ext c' + users c' (socks n) =? 0).
    + by rewrite (proj2 (Z.eqb_neq _ _) Hr).
  - destruct (cb_live _ _ _ Hok Hmay) as [h Hc]. eapply swp_mono; [by eapply socket_alloc_cb_ok|].
    intros r n' [(-> & Hok' & Es & _)|[(-> & Hok' & Es)|(Hr & Hok' & _)] ].
    + rewrite (count_ok _ _ c Hok), (count_ok _ _ c Hok'), Es.
      assert (add_ref c 1 ext c = ext c + 1) as -> by (unfold add_ref; by rewrite Z.eqb_refl).
      destruct (Z.eqb_spec (ext c + 1 + users c (socks n)) (ext c + users c (socks n))); [lia|done].
    + by rewrite (count_ok _ _ c Hok), (count_ok _ _ c Hok'), Es, !Z.eqb_refl.
    + by rewrite (proj2 (Z.eqb_neq _ _) Hr).
  - destruct Hmay as [sk Hp]. eapply swp_seq; [by eapply socket_free_ok|]. intros [] n' (Hok' & _). by apply swp_ret.
  - destruct Hmay as (sk & Hp & Hfd). eapply swp_mono; [by eapply nl_connect_ok|]. by intros r n' (Hok' & _).
  - destruct Hmay as [sk Hp]. eapply swp_seq; [by eapply close_ok|]. intros [] n' (Hok' & _). by apply swp_ret.
  - destruct Hmay as [ [sk Hp] Hport]. eapply swp_seq; [by eapply set_local_port_ok|]. intros [] n' (Hok' & _). by apply swp_ret.
  - destruct Hmay as [ [sk Hp] He]. eapply swp_seq; [by eapply set_cb_ok|]. intros [] n' (Hok' & _). by apply swp_ret.
  - destruct Hmay as [sk Hp]. unfold nl_socket_get_cb. apply swp_bind, (swp_sock _ sk); [done|].
    destruct (sock_cb_live _ _ _ _ Hok Hp) as [h Hc]. eapply swp_mono; [by eapply cb_get_ok|]. intros r n' (-> & Hok' & _).
    assert (s_cb sk ≠ 0) as Hc0 by (intros E; rewrite E in Hc; pose proof (co_null _ _ (no_cbs _ _ Hok)); congruence).
    by rewrite (proj2 (Z.eqb_neq _ _) Hc0).
  - destruct Hmay as [sk Hp]. unfold nl_socket_modify_cb. apply swp_bind, (swp_sock _ sk); [done|].
    destruct (sock_cb_live _ _ _ _ Hok Hp) as [h Hc]. eapply swp_mono; [by eapply cb_set_at_ok|]. by intros r n' (Hok' & _).
  - destruct Hmay as [sk Hp]. unfold nl_socket_use_seq. apply swp_bind, (swp_sock _ sk); [done|].
    eapply swp_seq; [by eapply (Hupd p sk)|]. intros [] n' Hok'. by apply swp_ret.
  - destruct Hmay as [sk Hp]. eapply swp_seq; [eapply (Hupd p sk); [done|by apply flag_on_id]|]. intros [] n' Hok'. by apply swp_ret.
  - destruct Hmay as [sk Hp]. eapply swp_seq; [eapply (Hupd p sk); [done|by apply flag_on_id]|]. intros [] n' Hok'. by apply swp_ret.
  - destruct Hmay as [sk Hp]. eapply swp_mono; [by eapply buffer_size_ok|]. by intros r n' (_ & Hok' & _).
  - destruct Hmay as [ [sk Hp] Hin]. unfold nl_socket_add_memberships. apply swp_bind, (swp_sock _ sk); [done|].
    destruct (s_fd sk =? -1); [by apply swp_ret|]. by eapply memberships_ok.
Qed.

Lemma losses_app l l' c : losses (l ++ l') c = losses l c + losses l' c.
Proof. unfold losses. by rewrite list.filter_app, zlen_app. Qed.

Lemma losses_nodup l c : NoDup l → losses l c = if bool_decide (c ∈ l) then 1 else 0.
Proof.
  unfold losses. induction 1 as [|x l Hx _ IH]; [done|]. rewrite list.filter_cons. destruct (decide (x = c)) as [->|Hne].
  - rewrite zlen_cons, IH, bool_decide_false, bool_decide_true by set_solver. lia.
  - rewrite IH. by destruct (bool_decide_reflect (c ∈ l)); [rewrite bool_decide_true|rewrite bool_decide_false]; [|set_solver..].
Qed.

Lemma count_dom ext n c : net_ok ext n → count n c = 0 ↔ c ∉ (dom (cbs n) : gset Z).
Proof.
  intros Hok. rewrite not_elem_of_dom. unfold count. destruct (cbs n !! c) as [h|] eqn:E; [|done].
  destruct (co_refs _ _ (no_cbs _ _ Hok) _ _ E) as (_ & ? & _). split; [lia|done].
Qed.

(** What is counted is what is held and what is lost. *)
Lemma counted_split ext lost k r n n' c ext' :
  net_ok ext' n → (∃ e, net_ok e n') →
  counted (outside ext lost) k r n n' c = outside (srefs ext k r) (lost ++ slost k r n n') c.
Proof.
  intros Hok [e Hok']. unfold outside. rewrite losses_app.
  destruct k; cbn [counted srefs slost]; change (losses [] c) with 0; unfold add_ref; rewrite ?Z.add_0_r; try done.
  - destruct (r =? 0); [lia|]. by destruct (c =? r); lia.
  - destruct (r =? 0); [lia|]. by destruct (c =? r); lia.
  - destruct (r =? 0); [lia|]. by destruct (c =? r); lia.
  - by destruct (c =? c0); lia.
  - destruct (r =? 0); [|change (losses [] c) with 0; lia]. rewrite (losses_nodup (elements _)) by apply NoDup_elements.
    pose proof (count_dom _ _ c Hok) as H1. pose proof (count_dom _ _ c Hok') as H2.
    destruct (Z.eqb_spec (count n c) 0), (Z.eqb_spec (count n' c) 0); cbn [andb negb];
      destruct (bool_decide_reflect (c ∈ elements (dom (cbs n') ∖ dom (cbs n) : gset Z))) as [Hin|Hin];
      rewrite elem_of_elements, elem_of_difference in Hin; try lia; destruct (decide (c ∈ (dom (cbs n') : gset Z))); tauto || lia.
  - destruct (_ && _); [|change (losses [] c) with 0; lia]. rewrite (losses_nodup [_]) by apply NoDup_singleton.
    destruct (Z.eqb_spec c c0) as [->|Hne]; [rewrite bool_decide_true by set_solver; lia|].
    rewrite bool_decide_false by set_solver. lia.
  - destruct (r =? 0); [lia|]. by destruct (c =? r); lia.
Qed.

Lemma sexec_ok ext lost n k :
  os_ok → net_ok (outside ext lost) n → smay ext n k →
  swp (sexec k) (λ r n', net_ok (outside (srefs ext k r) (lost ++ slost k r n n')) n') n.
Proof.
  intros Hos Hok Hmay. assert (∀ c, 0 < ext c → 0 < outside ext lost c) as Hp.
  { intros c Hc. unfold outside, losses. pose proof (zlen_nonneg (filter (λ q, q = c) lost)). lia. }
  eapply swp_mono; [apply (sexec_counts (outside ext lost)); [done|done|]|].
  - destruct k; cbn [smay] in *; naive_solver.
  - cbv beta. intros r n' Hok'. eapply net_ok_ext; [|exact Hok']. intros c. eapply counted_split; [exact Hok|eauto].
Qed.

(** ** Runs *)

(** Nothing allocated, all ports free. *)
Definition net0 : net := mkNet ∅ ∅ (replicate 32 0) ∅ [].

(** The states that a program reaches, the references that it holds there and those that
    were lost. *)
Inductive reach : (Z → Z) → list Z → net → Prop :=
  | reach_start : reach (λ _, 0) [] net0
  | reach_step ext lost n k r n' :
      reach ext lost n → smay ext n k → sexec k n = Some (r, n') →
      reach (srefs ext k r) (lost ++ slost k r n n') n'.

Lemma map0_ok : map_ok (replicate 32 0) ∧ ∀ k, 0 ≤ k < 1024 → used (replicate 32 0) k = false.
Proof.
  split; [split; [done|apply Forall_replicate; lia]|]. intros k Hk. destruct (number_word k Hk) as (? & ? & _).
  unfold used, word. rewrite lookup_total_replicate_2 by lia. apply Z.bits_0.
Qed.

Lemma net0_ok : net_ok (λ _, 0) net0.
Proof.
  destruct map0_ok as [Hm Hu]. split; [split|split|split|]; try done.
  - intros k Hk. cbn [ports net0]. rewrite Hu by done. split; [done|]. intros (p & sk & Hp & _).
    cbn [socks net0] in Hp. by rewrite lookup_empty in Hp.
  - intros fd. cbn [fds net0 socks]. split; [set_solver|]. intros (_ & p & sk & Hp & _). by rewrite lookup_empty in Hp.
Qed.

Lemma reach_ok ext lost n : os_ok → reach ext lost n → net_ok (outside ext lost) n.
Proof.
  intros Hos. induction 1 as [|ext lost n k r n' _ IH Hmay E]; [apply net0_ok|].
  pose proof (sexec_ok ext lost n k Hos IH Hmay) as Hx. unfold swp in Hx. by rewrite E in Hx.
Qed.

(** Any call that is allowed runs, and leads to a state that is reached. *)
Lemma reach_safe ext lost n k :
  os_ok → reach ext lost n → smay ext n k →
  ∃ r n', sexec k n = Some (r, n') ∧ reach (srefs ext k r) (lost ++ slost k r n n') n'.
Proof.
  intros Hos Hr Hmay. pose proof (sexec_ok ext lost n k Hos (reach_ok _ _ _ Hos Hr) Hmay) as Hx.
  apply swp_run in Hx as (r & n' & E & _). exists r, n'. split; [done|]. by apply reach_step.
Qed.

(** Two sockets with generated ports have different ones. *)
Lemma ports_distinct ext n p q sk sk' :
  net_ok ext n → socks n !! p = Some sk → socks n !! q = Some sk' →
  has_flag NL_OWN_PORT sk = false → has_flag NL_OWN_PORT sk' = false →
  nl_pid (s_local sk) = nl_pid (s_local sk') → p = q.
Proof.
  intros Hok Hp Hq Hf Hf' E. destruct (no_ports _ _ Hok) as [_ _ Hpo Ho].
  destruct (Hpo p sk Hp Hf) as (_ & k & Hk & Hk'). eapply (Ho p q sk sk' k); [done|done|done|done|].
  destruct Hk' as [_ Ek]. split; [done|]. congruence.
Qed.

(** When all sockets are freed and all references are given back, only the lost handles are
    left. *)
Lemma all_gone ext lost n :
  net_ok (outside ext lost) n → socks n = ∅ → (∀ c, ext c = 0) →
  (∀ c, count n c = losses lost c) ∧ fds n = ∅ ∧ ∀ k, 0 ≤ k < 1024 → used (ports n) k = false.
Proof.
  intros Hok Es He. split; [|split].
  - intros c. rewrite (count_ok _ _ _ Hok), Es. change (users c ∅) with 0. unfold outside. rewrite He. lia.
  - destruct Hok as [_ _ [Hop _ _] _]. rewrite Es in *.
    apply set_eq. intros fd. rewrite Hop. split; [|set_solver]. intros (_ & p & sk & Hp & _). by rewrite lookup_empty in Hp.
  - destruct Hok as [_ [_ Hu _ _] _ _]. rewrite Es in *.
    intros k Hk. destruct (used (ports n) k) eqn:E; [|done]. apply Hu in E as (p & sk & Hp & _); [|done]. by rewrite lookup_empty in Hp.
Qed.

Lemma count_none ext n : net_ok ext n → (∀ c, count n c = 0) → cbs n = ∅.
Proof.
  intros Hok Hc. apply map_empty. intros c. apply not_elem_of_dom. by eapply count_dom.
Qed.
End Api.
