(* ===== verification/NlIo.v ===== *)
(** * Sending and receiving datagrams: [lib/nl.c]

    [nl_recv] reads one datagram into a buffer that it enlarges as needed; [nl_sendmsg] and
    its callers complete a message and hand it to the socket.  The socket itself is a
    parameter: what [recvmsg] and [sendmsg] do. *)

From S2P Require Import Prelude Mem Kernel Packet Netlink NlError Recv Handlers Ports Socket UserLib.

(** ** Receiving *)

(** What one [recvmsg] returns: the number of bytes ([-1] with [errno]), the bytes, the flags
    [MSG_TRUNC] and [MSG_CTRUNC], and the size of the sender's address. *)
Record rx := mkRx {
  rx_n : Z;
  rx_errno : Z;
  rx_bytes : list Z;
  rx_trunc : bool;
  rx_ctrunc : bool;
  rx_namelen : Z;
}.

Section Recv.
Context {K : Type}.
(** [recvmsg] with a buffer of [len] bytes, with or without [MSG_PEEK], and with room for
    [clen] bytes of control data. *)
Context (recvmsg : K → Z → bool → Z → rx * K).

(** From the label [retry]: the result and, when it is positive, the bytes. *)
Fixpoint nl_recv_retry (fuel : nat) (len clen : Z) (peek : bool) (k : K) : option (Z * list Z * K) :=
  match fuel with
  | O => None
  | S fuel =>
      let r := recvmsg k len peek clen in
      let n := rx_n r.1 in
      if n =? 0 then Some (0, [], r.2)
      else if n <? 0 then
        if rx_errno r.1 =? EINTR then nl_recv_retry fuel len clen peek r.2
        else if rx_errno r.1 =? EAGAIN then Some (0, [], r.2)
        else Some (- nl_syserr2nlerr (rx_errno r.1), [], r.2)
      else if (len <? n) || rx_trunc r.1 then nl_recv_retry fuel (len * 2) clen peek r.2
      else if rx_ctrunc r.1 then nl_recv_retry fuel len (clen * 2) peek r.2
      else if peek then nl_recv_retry fuel len clen false r.2
      else if negb (rx_namelen r.1 =? sizeof_sockaddr_nl) then Some (- NLE_NOADDR, [], r.2)
      else Some (n, rx_bytes r.1, r.2)
  end.

(** The size of a page; [CMSG_SPACE(sizeof(struct ucred))] is 32. *)
Definition nl_recv (page_size : Z) (fuel : nat) (sk : nl_sock) (k : K) : option (Z * list Z * K) :=
  nl_recv_retry fuel page_size (if has_flag NL_SOCK_PASSCRED sk then 32 else 0) (has_flag NL_MSG_PEEK sk) k.

(** What waits in a datagram socket: an error that the next call reports, or a datagram. *)
Inductive event := Fails (errno : Z) | Arrives (bs : list Z).

(** [recvmsg] of a datagram socket with the queue [queue k]: it takes the first event, except
    that a datagram stays when it is only peeked at; bytes that do not fit are cut off and
    reported. *)
Record datagrams (queue : K → list event) : Prop := {
  dg_fails : ∀ k e q len peek clen, queue k = Fails e :: q →
    rx_n (recvmsg k len peek clen).1 = -1 ∧ rx_errno (recvmsg k len peek clen).1 = e ∧
    queue (recvmsg k len peek clen).2 = q;
  dg_arrives : ∀ k bs q len peek clen, queue k = Arrives bs :: q →
    (recvmsg k len peek clen).1 = mkRx (Z.min len (zlen bs)) 0 (take (Z.to_nat len) bs) (len <? zlen bs) false sizeof_sockaddr_nl ∧
    queue (recvmsg k len peek clen).2 = if peek then Arrives bs :: q else q;
}.

Context (queue : K → list event) (Hq : datagrams queue).

(** The turns of the loop. *)
Lemma retry_intr fuel len clen peek k q :
  queue k = Fails EINTR :: q →
  ∃ k', queue k' = q ∧ nl_recv_retry (S fuel) len clen peek k = nl_recv_retry fuel len clen peek k'.
Proof.
  intros E. destruct (dg_fails _ Hq k EINTR q len peek clen E) as (E1 & E2 & E3).
  exists (recvmsg k len peek clen).2. split; [done|]. cbn [nl_recv_retry]. by rewrite E1, E2.
Qed.

Lemma retry_grow fuel len clen (peek : bool) k bs q :
  queue k = Arrives bs :: q → 0 < len < zlen bs →
  ∃ k', queue k' = (if peek then Arrives bs :: q else q) ∧
    nl_recv_retry (S fuel) len clen peek k = nl_recv_retry fuel (len * 2) clen peek k'.
Proof.
  intros E Hlen. destruct (dg_arrives _ Hq k bs q len peek clen E) as (E1 & E2).
  exists (recvmsg k len peek clen).2. split; [done|]. cbn [nl_recv_retry]. rewrite E1. cbn [rx_n rx_trunc].
  rewrite Z.min_l by lia. decide_test (len =? 0) false. decide_test (len <? 0) false. decide_test (len <? len) false.
  by decide_test (len <? zlen bs) true.
Qed.

Lemma retry_read fuel len clen k bs q :
  queue k = Arrives bs :: q → 0 < zlen bs ≤ len →
  ∃ k', queue k' = q ∧ nl_recv_retry (S fuel) len clen false k = Some (zlen bs, bs, k').
Proof.
  intros E Hlen. destruct (dg_arrives _ Hq k bs q len false clen E) as (E1 & E2).
  exists (recvmsg k len false clen).2. split; [done|]. cbn [nl_recv_retry]. rewrite E1. cbn [rx_n rx_trunc rx_ctrunc rx_namelen rx_bytes].
  rewrite Z.min_r by lia. decide_test (zlen bs =? 0) false. decide_test (zlen bs <? 0) false. decide_test (len <? zlen bs) false.
  cbn [orb negb Z.eqb]. rewrite take_ge by (unfold zlen in *; lia). done.
Qed.

Lemma retry_peek fuel len clen k bs q :
  queue k = Arrives bs :: q → 0 < zlen bs ≤ len →
  ∃ k', queue k' = Arrives bs :: q ∧ nl_recv_retry (S fuel) len clen true k = nl_recv_retry fuel len clen false k'.
Proof.
  intros E Hlen. destruct (dg_arrives _ Hq k bs q len true clen E) as (E1 & E2).
  exists (recvmsg k len true clen).2. split; [done|]. cbn [nl_recv_retry]. rewrite E1. cbn [rx_n rx_trunc rx_ctrunc].
  rewrite Z.min_r by lia. decide_test (zlen bs =? 0) false. decide_test (zlen bs <? 0) false. by decide_test (len <? zlen bs) false.
Qed.

(** With peeking, the buffer grows until the datagram fits. *)
Lemma recv_peeked d fuel len clen k bs q :
  queue k = Arrives bs :: q → 0 < len → 0 < zlen bs ≤ len * 2 ^ Z.of_nat d → (d + 2 ≤ fuel)%nat →
  ∃ k', queue k' = q ∧ nl_recv_retry fuel len clen true k = Some (zlen bs, bs, k').
Proof.
  revert fuel len k. induction d as [|d IH]; intros fuel len k Ek Hlen Hbs Hf.
  - rewrite Z.mul_1_r in Hbs. destruct fuel as [|[|fuel] ]; [lia|lia|].
    destruct (retry_peek (S fuel) len clen k bs q Ek Hbs) as (k1 & Ek1 & ->).
    exact (retry_read fuel len clen k1 bs q Ek1 Hbs).
  - destruct fuel as [|fuel]; [lia|]. destruct (Z.lt_ge_cases len (zlen bs)) as [Hlt|Hge].
    + destruct (retry_grow fuel len clen true k bs q Ek) as (k1 & Ek1 & ->); [lia|].
      apply IH; [done|lia| |lia]. replace (len * 2 * 2 ^ Z.of_nat d) with (len * 2 ^ Z.of_nat (S d)); [lia|].
      rewrite Nat2Z.inj_succ, Z.pow_succ_r by lia. lia.
    + destruct fuel as [|fuel]; [lia|].
      destruct (retry_peek (S fuel) len clen k bs q Ek ltac:(lia)) as (k1 & Ek1 & ->).
      exact (retry_read fuel len clen k1 bs q Ek1 ltac:(lia)).
Qed.

(** Interrupted calls are repeated. *)
Lemma retry_intrs m fuel len clen peek k q :
  queue k = replicate m (Fails EINTR) ++ q →
  ∃ k', queue k' = q ∧ nl_recv_retry (m + fuel) len clen peek k = nl_recv_retry fuel len clen peek k'.
Proof.
  revert k. induction m as [|m IH]; intros k Ek; [by exists k|].
  destruct (retry_intr (m + fuel) len clen peek k (replicate m (Fails EINTR) ++ q) Ek) as (k1 & Ek1 & E).
  destruct (IH k1 Ek1) as (k' & Ek' & E'). exists k'. split; [done|]. cbn [Nat.add]. by rewrite E.
Qed.

(** A socket that peeks gets the whole first datagram, however long it is. *)
Lemma recv_peek_ok page sk m k bs q :
  0 < page → 0 < zlen bs → has_flag NL_MSG_PEEK sk = true → queue k = replicate m (Fails EINTR) ++ Arrives bs :: q →
  ∃ k', queue k' = q ∧ nl_recv page (m + (length bs + 2)) sk k = Some (zlen bs, bs, k').
Proof.
  intros Hp Hbs Hf Ek. unfold nl_recv. rewrite Hf.
  destruct (retry_intrs m (length bs + 2) page (if has_flag NL_SOCK_PASSCRED sk then 32 else 0) true k _ Ek) as (k1 & Ek1 & ->).
  apply (recv_peeked (length bs)); [done|done| |lia]. split; [done|].
  assert (zlen bs < 2 ^ zlen bs) by (apply Z.pow_gt_lin_r; lia). unfold zlen in *. nia.
Qed.

(** One that does not peek gets it when it fits into a page... *)
Lemma recv_small_ok page sk m k bs q :
  0 < zlen bs ≤ page → has_flag NL_MSG_PEEK sk = false → queue k = replicate m (Fails EINTR) ++ Arrives bs :: q →
  ∃ k', queue k' = q ∧ nl_recv page (m + 1) sk k = Some (zlen bs, bs, k').
Proof.
  intros Hbs Hf Ek. unfold nl_recv. rewrite Hf.
  destruct (retry_intrs m 1 page (if has_flag NL_SOCK_PASSCRED sk then 32 else 0) false k _ Ek) as (k1 & Ek1 & ->).
  by apply (retry_read 0 page _ k1 bs q Ek1).
Qed.

(** ... and loses it otherwise: the next datagram is returned in its place. *)
Lemma recv_large_lost page sk k bs bs' q :
  0 < page < zlen bs → 0 < zlen bs' ≤ page * 2 → has_flag NL_MSG_PEEK sk = false →
  queue k = Arrives bs :: Arrives bs' :: q →
  ∃ k', queue k' = q ∧ nl_recv page 2 sk k = Some (zlen bs', bs', k').
Proof.
  intros Hbs Hbs' Hf Ek. unfold nl_recv. rewrite Hf.
  destruct (retry_grow 1 page (if has_flag NL_SOCK_PASSCRED sk then 32 else 0) false k bs _ Ek Hbs) as (k1 & Ek1 & ->).
  by apply (retry_read 0 (page * 2) _ k1 bs' q Ek1).
Qed.
End Recv.

(** ** Sending *)

(** [struct nl_msg], as far as sending looks at it. *)
Record out_msg := mkOut {
  om_protocol : Z;
  om_src : sockaddr_nl;
  om_dst : sockaddr_nl;
  om_creds : option (list Z);
  om_nlh : list Z;
}.

Section Send.
(** A callback on the message ([NL_CB_MSG_OUT]), and [sendmsg]: the address, the
    credentials, the bytes; [inr] is [errno]. *)
Context (msg_out : option (out_msg → Z)).
Context (sendmsg : Z → sockaddr_nl → option (list Z) → list Z → Z + Z).

Definition set_src (a : sockaddr_nl) (msg : out_msg) : out_msg :=
  mkOut (om_protocol msg) a (om_dst msg) (om_creds msg) (om_nlh msg).

(** The address, the control data and the bytes of [struct msghdr] are arguments. *)
Definition nl_sendmsg (sk : nl_sock) (msg : out_msg) (name : sockaddr_nl) (control : option (list Z)) (iov : list Z) : Z :=
  let msg := set_src (s_local sk) msg in
  let r := match msg_out with Some f => f msg | None => NL_OK end in
  if negb (r =? NL_OK) then r
  else match sendmsg (s_fd sk) name control iov with
       | inr errno => - nl_syserr2nlerr errno
       | inl n => n
       end.

Definition nl_send_iovec (sk : nl_sock) (msg : out_msg) (iov : list Z) : Z :=
  let name := if nl_family (om_dst msg) =? AF_NETLINK then om_dst msg else s_peer sk in
  nl_sendmsg sk msg name (om_creds msg) iov.

(** [nlmsg_len] bytes of the message. *)
Definition nl_send (sk : nl_sock) (msg : out_msg) : option Z :=
  l ← Nl.nlmsg_len (om_nlh msg) 0;
  Some (nl_send_iovec sk msg (take (Z.to_nat l) (om_nlh msg))).

(** [sendto] with the peer's address. *)
Definition nl_sendto (sk : nl_sock) (buf : list Z) : Z :=
  match sendmsg (s_fd sk) (s_peer sk) None buf with
  | inr errno => - nl_syserr2nlerr errno
  | inl n => n
  end.

Definition complete_msg (sk : nl_sock) (msg : out_msg) : option (nl_sock * out_msg) :=
  let nlh := om_nlh msg in
  p ← Nl.nlmsg_pid nlh 0;
  nlh ← (if p =? 0 then Nl.st nlh 12 (le_split 4 (nl_pid (s_local sk))) else Some nlh);
  s ← Nl.nlmsg_seq nlh 0;
  nlh ← (if s =? 0 then Nl.st nlh 8 (le_split 4 (s_seq_next sk)) else Some nlh);
  let sk := if s =? 0 then set_seq_next (u32 (s_seq_next sk + 1)) sk else sk in
  let proto := if om_protocol msg =? -1 then s_proto sk else om_protocol msg in
  f ← Nl.nlmsg_flags nlh 0;
  let f := Z.lor f Nl.NLM_F_REQUEST in
  let f := if negb (has_flag NL_NO_AUTO_ACK sk) then Z.lor f Nl.NLM_F_ACK else f in
  nlh ← Nl.st nlh 6 (le_split 2 f);
  Some (sk, mkOut proto (om_src msg) (om_dst msg) (om_creds msg) nlh).

(** [nl_send_auto]; [send_ow] replaces [nl_send]. *)
Definition nl_send_auto_sk (send_ow : option (nl_sock → out_msg → Z)) (sk : nl_sock) (msg : out_msg) : option (Z * nl_sock) :=
  r ← complete_msg sk msg;
  n ← (match send_ow with Some f => Some (f r.1 r.2) | None => nl_send r.1 r.2 end);
  Some (n, r.1).

(** ** What they do *)

Section Request.
Context (sk : nl_sock) (dst src : sockaddr_nl) (creds : option (list Z)) (proto family flags cmd version : Z) (rest : list Z).
Context (Hflags : 0 ≤ flags < 2 ^ 16) (Hseq : 0 < s_seq_next sk < 2 ^ 32).

Definition request (pid seq fl : Z) : list Z :=
  le_split 4 (20 + zlen rest) ++ Nl.req_hdr pid seq family fl cmd version ++ rest.

(** The flags of a completed request. *)
Definition auto_flags : Z :=
  let f := Z.lor flags Nl.NLM_F_REQUEST in if has_flag NL_NO_AUTO_ACK sk then f else Z.lor f Nl.NLM_F_ACK.

(** A message without port and sequence number gets those of the socket, whose next number is
    the following one; an acknowledgement is asked for unless the socket says otherwise. *)
Lemma complete_msg_ok :
  complete_msg sk (mkOut proto src dst creds (request 0 0 flags)) =
  Some (set_seq_next (u32 (s_seq_next sk + 1)) sk,
        mkOut (if proto =? -1 then s_proto sk else proto) src dst creds
          (request (nl_pid (s_local sk)) (s_seq_next sk) auto_flags)).
Proof.
  unfold complete_msg, request, auto_flags. cbn [om_nlh om_protocol om_src om_dst om_creds].
  rewrite field_pid, Nl.some_bind by done. change (0 =? 0) with true.
  cbv iota. rewrite set_pid, Nl.some_bind, field_seq, Nl.some_bind by done. change (0 =? 0) with true. cbv iota.
  rewrite set_seq, Nl.some_bind, field_flags, Nl.some_bind by done.
  change (has_flag NL_NO_AUTO_ACK (set_seq_next (u32 (s_seq_next sk + 1)) sk)) with (has_flag NL_NO_AUTO_ACK sk).
  destruct (has_flag NL_NO_AUTO_ACK sk); cbn [negb]; by rewrite set_flags, Nl.some_bind.
Qed.

(** The whole request goes to the address of the message, else to the peer. *)
Lemma send_auto_ok :
  20 + zlen rest < 2 ^ 32 → msg_out = None →
  let name := if nl_family dst =? AF_NETLINK then dst else s_peer sk in
  nl_send_auto_sk None sk (mkOut proto src dst creds (request 0 0 flags)) =
  Some (match sendmsg (s_fd sk) name creds (request (nl_pid (s_local sk)) (s_seq_next sk) auto_flags) with
        | inr errno => - nl_syserr2nlerr errno
        | inl n => n
        end, set_seq_next (u32 (s_seq_next sk + 1)) sk).
Proof.
  intros Hlen Hout name. unfold nl_send_auto_sk. rewrite complete_msg_ok, Nl.some_bind. cbn [fst snd].
  unfold nl_send. cbn [om_nlh]. pose proof (zlen_nonneg rest). 
  assert (∀ p q f, Nl.nlmsg_len (request p q f) 0 = Some (20 + zlen rest)) as -> by (intros; unfold request; apply field_len; lia).
  rewrite !Nl.some_bind. unfold nl_send_iovec, nl_sendmsg. rewrite Hout. cbn [om_dst om_creds Z.eqb NL_OK negb].
  rewrite take_ge; [done|]. unfold request. rewrite !length_app, length_le_split, length_req_hdr. unfold zlen. lia.
Qed.
End Request.
End Send.
