(* ===== verification/Mngr.v ===== *)
(** * Cache managers: [lib/cache_mngr.c]

    A manager keeps caches up to date with the notifications on its socket.  Its state spans
    the sockets ([Socket]), the caches and the connection ([Cache]), the registered cache
    types ([Mngt]), and the managers themselves. *)

From stdpp Require Import strings.
From S2P Require Import Prelude Packet Netlink NlError Text Attr CStr Recv NlList TransList Mngt.
From S2P Require Import Objects Cache Handlers Ports Socket.
Import Nl.

Definition NL_AUTO_PROVIDE : Z := 1.
(** The address of [event_input]. *)
Definition EVENT_INPUT : Z := 1.

(** [struct nl_cache_assoc]; [ca_change] tells whether a change callback is set. *)
Record nl_cache_assoc := mkAssoc { ca_cache : Z; ca_change : bool; ca_change_data : Z }.
Definition no_assoc : nl_cache_assoc := mkAssoc 0 false 0.

(** [struct nl_cache_mngr]; [cm_assocs] is [None] for NULL. *)
Record nl_cache_mngr := mkMngr {
  cm_protocol : Z;
  cm_flags : Z;
  cm_nassocs : Z;
  cm_handle : Z;
  cm_assocs : option (list nl_cache_assoc);
}.

Record mstate {D : Type} := mkMs {
  ms_net : net;
  ms_store : store D;
  ms_mngt : mngt;
  ms_mngrs : gmap Z nl_cache_mngr;
}.
Arguments mstate D : clear implicits.
Arguments mkMs {D}.

(** What the manager uses of the system. *)
Class MngrSys (D : Type) := {
  my_calloc : mstate D → Z;
  (** the array of associations: is there memory for it *)
  my_assocs : mstate D → bool;
  (** [realloc]: the contents of the 16 new associations *)
  my_realloc : mstate D → option (list nl_cache_assoc);
  (** [poll]: the number of events, or [errno] *)
  my_poll : mstate D → Z → Z → Z + Z;
  (** the callbacks of users *)
  my_call : Z → Z → callback (store D);
  my_call_err : Z → Z → Z → store D → option (Z * store D);
}.

Section Mngr.
Context {D : Type} `{W : World D} `{OS : Os} `{Y : MngrSys D}.
Local Open Scope state_scope.

Abbreviation C A := (St (mstate D) A).

Definition on_net {A} (f : St net A) : C A := λ s,
  match f (ms_net s) with Some (a, n) => Some (a, mkMs n (ms_store s) (ms_mngt s) (ms_mngrs s)) | None => None end.
Definition on_store {A} (f : R D A) : C A := λ s,
  match f (ms_store s) with Some (a, t) => Some (a, mkMs (ms_net s) t (ms_mngt s) (ms_mngrs s)) | None => None end.
Definition on_mngt {A} (f : St mngt A) : C A := λ s,
  match f (ms_mngt s) with Some (a, g) => Some (a, mkMs (ms_net s) (ms_store s) g (ms_mngrs s)) | None => None end.

Definition mngr_at (p : Z) : C nl_cache_mngr := sget (λ s, ms_mngrs s !! p).
Definition put_mngr (p : Z) (m : nl_cache_mngr) : C unit :=
  smodify (λ s, mkMs (ms_net s) (ms_store s) (ms_mngt s) (<[p := m]> (ms_mngrs s))).
Definition ask {A} (f : mstate D → A) : C A := sget (λ s, Some (f s)).

(** ** Notifications *)

Definition include_cb (ca : nl_cache_assoc) (p : Z) : R D Z := nl_cache_include (ca_cache ca) p (ca_change ca).

(** The loop over the table of message types, which ends with a negative number. *)
Fixpoint has_type (types : list (Z * nl_act)) (type : Z) : option bool :=
  match types with
  | [] => None
  | t :: types => if t.1 <? 0 then Some false else if t.1 =? type then Some true else has_type types type
  end.

(** The loop over the associations: the first cache with the message type. *)
Fixpoint find_assoc (cas : list nl_cache_assoc) (type : Z) : R D (option nl_cache_assoc) :=
  match cas with
  | [] => rret None
  | ca :: cas =>
      if ca_cache ca =? 0 then find_assoc cas type
      else
        rbind (cache (ca_cache ca)) (λ k,
        rbind (lift (has_type (co_msgtypes (cache_ops_at (c_ops k))) type)) (λ b,
        if (b : bool) then rret (Some ca) else find_assoc cas type))
  end.

(** [protocol] is the protocol of the message, which is that of the socket. *)
Definition event_input (m : nl_cache_mngr) (protocol : Z) (msg : list Z) : R D Z :=
  rbind (lift (nlmsg_type msg 0)) (λ type,
  if negb (cm_protocol m =? protocol) then crash
  else
    rbind (lift (cm_assocs m)) (λ cas,
    rbind (find_assoc (take (Z.to_nat (cm_nassocs m)) cas) type) (λ r,
    match r with
    | None => rret NL_SKIP
    | Some ca =>
        rbind (cache (ca_cache ca)) (λ k, nl_cache_parse (cache_ops_at (c_ops k)) msg (include_cb ca))
    end))).

(** The callbacks of a socket: those of its handle, with the managers as they are. *)
Definition sock_cb (p : Z) : C (nl_cb (store D)) :=
  sk <- on_net (sock p) ;;
  h <- on_net (cb_at (Socket.s_cb sk)) ;;
  ms <- ask ms_mngrs ;;
  sret (meaning (λ f arg msg st,
                   if f =? EVENT_INPUT then m ← ms !! arg; event_input m (s_proto sk) msg st
                   else my_call f arg msg st) my_call_err h).

(** The caches' world, with the callbacks of the manager's socket. *)
Definition with_cb (cb : nl_cb (store D)) : World D := {|
  obj_ops_at := obj_ops_at;
  cache_ops_at := cache_ops_at;
  a_calloc := a_calloc;
  Objects.s_cb := cb;
  a_cb_clone := a_cb_clone;
  a_msg_copy := a_msg_copy;
|}.

(** ** Releasing a manager *)

Fixpoint free_assocs (cas : list nl_cache_assoc) : C unit :=
  match cas with
  | [] => sret tt
  | ca :: cas =>
      (if negb (ca_cache ca =? 0) then on_store (nl_cache_free (ca_cache ca)) else sret tt) ;;
      free_assocs cas
  end.

Definition nl_cache_mngr_free (p : Z) : C unit :=
  if p =? 0 then sret tt
  else
    m <- mngr_at p ;;
    (if negb (cm_handle m =? 0) then on_net (nl_close (cm_handle m)) else sret tt) ;;
    (if 0 <? cm_nassocs m then
       cas <- sget (λ _, cm_assocs m) ;; free_assocs (take (Z.to_nat (cm_nassocs m)) cas)
     else sret tt) ;;
    smodify (λ s, mkMs (ms_net s) (ms_store s) (ms_mngt s) (delete p (ms_mngrs s))).

(** ** Creating a manager *)

(** The error, and the manager on success. *)
Definition nl_cache_mngr_alloc (sk protocol flags : Z) : C (Z * Z) :=
  if sk =? 0 then scrash
  else
    p <- ask my_calloc ;;
    if p =? 0 then nl_cache_mngr_free 0 ;; sret (- NLE_NOMEM, 0)
    else
      ok <- ask my_assocs ;;
      put_mngr p (mkMngr protocol flags 32 sk (if ok then Some (replicate 32 no_assoc) else None)) ;;
      if negb ok then nl_cache_mngr_free p ;; sret (- NLE_NOMEM, 0)
      else
        on_net (Socket.nl_socket_modify_cb sk 0 NL_CB_CUSTOM (Some (custom EVENT_INPUT)) p) ;;
        on_net (nl_socket_disable_seq_check sk) ;;
        r <- on_net (nl_connect sk protocol) ;;
        (* err = nl_connect(...) < 0 *)
        if r <? 0 then nl_cache_mngr_free p ;; sret (1, 0)
        else
          r <- on_net (nl_socket_set_nonblocking sk) ;;
          if r <? 0 then nl_cache_mngr_free p ;; sret (1, 0) else sret (0, p).

(** ** Adding a cache *)

(** Is one of the caches of this type? *)
Fixpoint has_ops (cas : list nl_cache_assoc) (ops : Z) : R D bool :=
  match cas with
  | [] => rret false
  | ca :: cas =>
      if ca_cache ca =? 0 then has_ops cas ops
      else rbind (cache (ca_cache ca)) (λ k, if c_ops k =? ops then rret true else has_ops cas ops)
  end.

(** The first free association. *)
Fixpoint free_slot (cas : list nl_cache_assoc) (i : nat) : option nat :=
  match cas with
  | [] => None
  | ca :: cas => if ca_cache ca =? 0 then Some i else free_slot cas (S i)
  end.

(** The label [retry]: the place, or an error; the array grows by 16.  [cm_assocs] is NULL
    after a [realloc] that failed. *)
Fixpoint find_slot (fuel : nat) (p : Z) : C (nat + Z) :=
  match fuel with
  | O => scrash
  | S fuel =>
      m <- mngr_at p ;;
      cas <- sget (λ _, cm_assocs m) ;;
      match free_slot (take (Z.to_nat (cm_nassocs m)) cas) 0 with
      | Some i => sret (inl i)
      | None =>
          new <- ask my_realloc ;;
          put_mngr p (mkMngr (cm_protocol m) (cm_flags m) (cm_nassocs m + 16) (cm_handle m) ((λ l, cas ++ l) <$> new)) ;;
          match new with
          | None => sret (inr (- NLE_NOMEM))
          | Some _ => find_slot fuel p
          end
      end
  end.

(** The list of groups ends with group 0; the result of the first call that fails. *)
Fixpoint join_groups (sk : Z) (groups : list Z) : C Z :=
  match groups with
  | [] => scrash
  | g :: groups =>
      if g =? 0 then sret 0
      else err <- on_net (nl_socket_add_membership sk g) ;; if err <? 0 then sret err else join_groups sk groups
  end.

Fixpoint leave_groups (sk : Z) (groups : list Z) : C unit :=
  match groups with
  | [] => scrash
  | g :: groups => if g =? 0 then sret tt else on_net (nl_socket_drop_membership sk g) ;; leave_groups sk groups
  end.

(** The end of [nl_cache_mngr_add]: the cache [c] is put in its place and provided. *)
Definition add_filled (p : Z) (o : reg_ops) (i : nat) (c : Z) (cb : bool) (data : Z) : C (option (Z * Z)) :=
  m <- mngr_at p ;;
  cas <- sget (λ _, cm_assocs m) ;;
  put_mngr p (mkMngr (cm_protocol m) (cm_flags m) (cm_nassocs m) (cm_handle m) (Some (<[i := mkAssoc c cb data]> cas))) ;;
  (if negb (Z.land (cm_flags m) NL_AUTO_PROVIDE =? 0) then on_mngt (nl_cache_mngt_provide c (ro_obj_ops o))
   else sret tt) ;;
  sret (Some (0, c)).

(** What it does with the free place [i]. *)
Definition add_new (p : Z) (m : nl_cache_mngr) (ops : Z) (o : reg_ops) (groups : list Z) (i : nat) (cb : bool) (data : Z)
    : C (option (Z * Z)) :=
  c <- on_store (nl_cache_alloc ops) ;;
  if c =? 0 then sret (Some (- NLE_NOMEM, 0))
  else
    err <- join_groups (cm_handle m) groups ;;
    if err <? 0 then on_store (nl_cache_free c) ;; sret (Some (err, 0))
    else
      scb <- sock_cb (cm_handle m) ;;
      r <- on_store (@nl_cache_refill D (with_cb scb) c) ;;
      match r with
      | None => sret None
      | Some err =>
          if err <? 0 then
            leave_groups (cm_handle m) groups ;;
            on_store (nl_cache_free c) ;;
            sret (Some (err, 0))
          else add_filled p o i c cb data
      end.

(** The error, and the cache on success; [None] when the kernel does not answer.  [retries]
    bounds how often the array grows. *)
Definition nl_cache_mngr_add (retries : nat) (p : Z) (name : list Z) (cb : bool) (data : Z) : C (option (Z * Z)) :=
  ops <- on_mngt (nl_cache_ops_lookup name) ;;
  if ops =? 0 then sret (Some (- NLE_NOCACHE, 0))
  else
    o <- on_mngt (ops_at ops) ;;
    m <- mngr_at p ;;
    if negb (ro_protocol o =? cm_protocol m) then sret (Some (- NLE_PROTO_MISMATCH, 0))
    else match ro_groups o with
    | None => sret (Some (- NLE_OPNOTSUPP, 0))
    | Some groups =>
        cas <- sget (λ _, cm_assocs m) ;;
        dup <- on_store (has_ops (take (Z.to_nat (cm_nassocs m)) cas) ops) ;;
        if (dup : bool) then sret (Some (- NLE_EXIST, 0))
        else
          slot <- find_slot retries p ;;
          match slot with
          | inr err => sret (Some (err, 0))
          | inl i => add_new p m ops o groups i cb data
          end
    end.

(** ** Receiving *)

Definition nl_cache_mngr_get_fd (p : Z) : C Z := m <- mngr_at p ;; on_net (nl_socket_get_fd (cm_handle m)).

(** The socket does not block: without a datagram, [nl_recvmsgs_default] returns 0. *)
Definition nl_cache_mngr_data_ready (p : Z) : C Z :=
  m <- mngr_at p ;;
  scb <- sock_cb (cm_handle m) ;;
  r <- on_store (nl_recvmsgs scb) ;;
  let err := default 0 r in
  if err <? 0 then sret err else sret 1.

Definition nl_cache_mngr_poll (p timeout : Z) : C Z :=
  fd <- nl_cache_mngr_get_fd p ;;
  r <- ask (λ s, my_poll s fd timeout) ;;
  match r with
  | inr errno => sret (- nl_syserr2nlerr errno)
  | inl n => if n =? 0 then sret 0 else nl_cache_mngr_data_ready p
  end.
End Mngr.
