(* ===== verification/MngrOk.v ===== *)
(** * A cache manager keeps its caches up to date *)

From stdpp Require Import strings.
From S2P Require Import Prelude Packet Netlink NlError Text Attr CStr Recv NlList TransList Mngt.
From S2P Require Import Objects Cache CacheInv CacheOps CacheLoop CacheSync CacheResync Handlers Ports Socket Mngr.
Import Nl.

Section Events.
Context {D : Type} `{W : World D} `{OS : Os} `{Y : MngrSys D}.

Implicit Types (st : store D) (ct : gmap Z (list Z)) (ext : Z → Z) (b : Z * Z * Z * Z * D).

(** ** One notification *)

(** What a notification about the object [b] does to the cache [c] that has the objects [ps]:
    a new object is put at the end in place of the one with the same identity, an object that
    is deleted is taken out, and the callback is told. *)
Definition notified (cb : bool) (act : nl_act) (c : Z) b (ps : list Z) st ct st' ct' : Prop :=
  let old := found_b (body st) b ps in
  match act with
  | NL_ACT_NEW => ∃ q, q ≠ 0 ∧ body st !! q = None ∧ ct' = push c q (drop_old old ct) ∧ body st' !! q = Some b ∧
      log st' = log st ++ told_b cb (body st) c q b old
  | NL_ACT_DEL => ct' = drop_old old ct ∧ log st' = log st ++ (if old =? 0 then [] else called cb c old NL_ACT_DEL)
  | _ => False
  end.

Lemma in_push c q ct ps : ct !! c = Some ps → push c q ct !! c = Some (ps ++ [q]).
Proof. intros Hc. rewrite (push_eq _ _ _ _ Hc). apply lookup_insert_eq. Qed.

Lemma include_new_notified ext ct st c ps k b cb :
  calloc_ok → st_ok ext ct st → ct !! c = Some ps → caches st !! c = Some k →
  b.1.1.1.1 = co_obj_ops (cache_ops_at (c_ops k)) → b.1.1.2 = 0 →
  lookup_type (co_msgtypes (cache_ops_at (c_ops k))) b.1.1.1.2 = Some NL_ACT_NEW →
  rwp (parse_obj b (resync_cb c cb)) (λ r st',
    r = - Nl.NLE_NOMEM ∧ a_calloc st = 0 ∧ st' = st ∨
    r = 0 ∧ kinds st' = kinds st ∧ io st' = io st ∧ ∃ ct', st_ok ext ct' st' ∧ notified cb NL_ACT_NEW c b ps st ct st' ct') st.
Proof.
  intros Hca Hok Hc Hk Eo Ef Hty. eapply rwp_mono; [by eapply parse_include_ok|].
  intros r st' [?|(-> & q & Hq & Hfr & Hok' & Hb & K & I & L)]; [by left|right]. split_and!; try done.
  eexists. split; [exact Hok'|]. exists q. split_and!; try done.
  set (ct1 := drop_old _ ct) in *. destruct (drop_old_some (found_b (body st) b ps) ct c) as [ps1 Hp1]; [by eexists|]. fold ct1 in Hp1.
  destruct (core_mem _ _ _ Hok' c (ps1 ++ [q]) q) as (o & Ho & _).
  { by apply in_push. }
  { apply elem_of_app. right. apply list_elem_of_here. }
  pose proof (body_lookup _ _ _ Ho) as E. rewrite E. eapply lookup_weaken in E; [|exact Hb]. by rewrite lookup_insert_eq in E.
Qed.

Lemma include_del_notified ext ct st c ps k b cb :
  calloc_ok → st_ok ext ct st → ct !! c = Some ps → caches st !! c = Some k →
  b.1.1.1.1 = co_obj_ops (cache_ops_at (c_ops k)) → b.1.1.2 = 0 →
  lookup_type (co_msgtypes (cache_ops_at (c_ops k))) b.1.1.1.2 = Some NL_ACT_DEL →
  rwp (parse_obj b (resync_cb c cb)) (λ r st',
    r = - Nl.NLE_NOMEM ∧ a_calloc st = 0 ∧ st' = st ∨
    r = 0 ∧ kinds st' = kinds st ∧ io st' = io st ∧ ∃ ct', st_ok ext ct' st' ∧ notified cb NL_ACT_DEL c b ps st ct st' ct') st.
Proof.
  intros Hca Hok Hc Hk Eops Efl Hmt. eapply parse_obj_ok; [done|done|done|intros E; by left|].
  intros p o st2 Hp Hok2 G Ho2 Eb _. pose proof (grows_none _ _ _ _ G) as Hfresh. destruct G as [F2 B2 K2 L2 I2].
  destruct (kinds_cache _ _ _ _ K2 Hk) as (k2 & Hk2 & Ek2).
  assert (ce_ops o = b.1.1.1.1 ∧ ce_msgtype o = b.1.1.1.2) as [E1 E2] by by rewrite <- Eb.
  unfold resync_cb, nl_cache_include. apply rwp_bind, rwp_bind, (rwp_cache _ k2); [done|].
  apply rwp_bind, (rwp_obj _ o); [done|]. rewrite Ek2, E1, E2, Eops, Z.eqb_refl. cbn [negb].
  rewrite (include_types_ok _ _ _ _ Hmt).
  eapply rwp_mono; [eapply include_del_ok; [exact Hok2|exact Hc|by eexists]|]. cbv zeta.
  rewrite (found_new st _ _ b) by (try done; by eapply fresh_not_in; [apply Hok|..]).
  intros r st3 (-> & Hok3 & [B3 K3 L3 I3]).
  eapply rwp_seq; [eapply put_ok; [exact Hok3|]|].
  { unfold add_ref. rewrite Z.eqb_refl, (core_dead _ _ _ (ok_core _ _ _ Hok) _ Hfresh). lia. }
  intros [] st4 (Hok4 & [B4 K4 L4 I4]). apply rwp_ret. right. split_and!; [done|congruence|congruence|].
  eexists. split; [eapply st_ok_ext; [|exact Hok4]; intros z; unfold add_ref; destruct (z =? p); lia|]. split; [done|].
  by rewrite L4, L3, L2.
Qed.

(** The first association whose cache has the message type: the others before it are free, or
    their tables say no. *)
Record responsible st (cas : list nl_cache_assoc) (ca : nl_cache_assoc) (k : nl_cache) (type : Z) : Prop := {
  rs_split : ∃ xs ys, cas = xs ++ ca :: ys ∧
    Forall (λ x, ca_cache x = 0 ∨ ∃ k', caches st !! ca_cache x = Some k' ∧
      has_type (co_msgtypes (cache_ops_at (D := D) (c_ops k'))) type = Some false) xs;
  rs_cache : ca_cache ca ≠ 0 ∧ caches st !! ca_cache ca = Some k;
  rs_type : has_type (co_msgtypes (cache_ops_at (D := D) (c_ops k))) type = Some true;
}.

Lemma find_assoc_ok st cas ca k type : responsible st cas ca k type → find_assoc cas type st = Some (Some ca, st).
Proof.
  intros [(xs & ys & -> & Hxs) [Hca Hk] Ht]. induction Hxs as [|x xs Hx _ IH]; cbn [app find_assoc].
  - rewrite (proj2 (Z.eqb_neq _ 0)) by done. unfold rbind, cache. rewrite Hk. unfold lift. by rewrite Ht.
  - destruct (Z.eqb_spec (ca_cache x) 0) as [|Hne]; [done|]. destruct Hx as [?|(k' & Hk' & Hf)]; [done|].
    unfold rbind at 1, cache. rewrite Hk'. unfold rbind, lift. by rewrite Hf.
Qed.

(** What a notification ends with: the change, or no memory and no change. *)
Definition handled (oom : Prop) (cb : bool) (act : nl_act) (c : Z) b (ps : list Z) ext ct st (r : Z) st' : Prop :=
  oom ∧ r = - NLE_NOMEM ∧ st_ok ext ct st' ∧ kinds st' = kinds st ∧ log st' = log st ∨
  r = 0 ∧ kinds st' = kinds st ∧ ∃ ct', st_ok ext ct' st' ∧ notified cb act c b ps st ct st' ct'.

Lemma event_ok oom ext ct st m cas ca k ps msg b act type :
  memory oom → calloc_ok → st_ok ext ct st → cm_assocs m = Some cas → cm_nassocs m = zlen cas →
  nlmsg_type msg 0 = Some type → responsible st cas ca k type → ct !! ca_cache ca = Some ps →
  carries oom (cache_ops_at (c_ops k)) msg b → lookup_type (co_msgtypes (cache_ops_at (D := D) (c_ops k))) b.1.1.1.2 = Some act →
  act = NL_ACT_NEW ∨ act = NL_ACT_DEL →
  rwp (event_input m (cm_protocol m) msg) (handled oom (ca_change ca) act (ca_cache ca) b ps ext ct st) st.
Proof.
  intros Hmem Hca Hok Hcas Hn Hty Hres Hc Hcar Hact Hor. unfold event_input.
  apply rwp_bind, (rwp_lift _ type); [done|]. rewrite Z.eqb_refl. cbn [negb]. apply rwp_bind, (rwp_lift _ cas); [done|].
  rewrite Hn, take_ge by (unfold zlen; lia). apply rwp_bind. unfold rwp at 1. rewrite (find_assoc_ok _ _ _ _ _ Hres).
  destruct (rs_cache _ _ _ _ _ Hres) as [_ Hk]. apply rwp_bind, (rwp_cache _ k); [done|].
  eapply parse_msg_ok; [exact Hcar|exact Hok| |].
  2: { intros st' Ho Hok' [_ K L _] _. left. by split_and!. }
  destruct Hcar as [Eo Ef _ _ _]. change (include_cb ca) with (resync_cb (ca_cache ca) (ca_change ca)).
  assert (∀ r st', (r = - Nl.NLE_NOMEM ∧ a_calloc st = 0 ∧ st' = st ∨
    r = 0 ∧ kinds st' = kinds st ∧ io st' = io st ∧ ∃ ct', st_ok ext ct' st' ∧ notified (ca_change ca) act (ca_cache ca) b ps st ct st' ct') →
    r ≠ - NLE_OPNOTSUPP ∧ handled oom (ca_change ca) act (ca_cache ca) b ps ext ct st r st') as Hfin.
  { intros r st' [(-> & E0 & ->)|(-> & K & _ & ct' & Hok' & Hnot)]; (split; [done|]).
    - left. split_and!; try done. by apply (proj1 Hmem _ E0).
    - right. split_and!; try done. by exists ct'. }
  destruct Hor as [->| ->]; (eapply rwp_mono; [|exact Hfin]).
  - by eapply include_new_notified.
  - by eapply include_del_notified.
Qed.

(** ** A manager and its socket *)

Record mngr_ok (s : mstate D) (p : Z) (m : nl_cache_mngr) (cas : list nl_cache_assoc) : Prop := {
  mo_mngr : ms_mngrs s !! p = Some m;
  mo_assocs : cm_assocs m = Some cas;
  mo_size : cm_nassocs m = zlen cas;
  mo_sock : ∃ sk h, socks (ms_net s) !! cm_handle m = Some sk ∧ s_proto sk = cm_protocol m ∧
    cbs (ms_net s) !! Socket.s_cb sk = Some h ∧
    h_set h NL_CB_VALID = Some (custom EVENT_INPUT) ∧ h_args h NL_CB_VALID = p ∧
    h_set h NL_CB_SEQ_CHECK = Some noop_seq_check ∧ h_set h NL_CB_MSG_IN = None ∧ h_set h NL_CB_FINISH = None;
}.

(** The callbacks of the manager's socket. *)
Lemma sock_cb_ok (s : mstate D) p m cas :
  mngr_ok s p m cas →
  ∃ cb, sock_cb (cm_handle m) s = Some (cb, s) ∧ cb_set cb NL_CB_MSG_IN = None ∧ (∀ seq e, seq_pass cb seq e) ∧
    cb_set cb NL_CB_FINISH = None ∧ ∃ f, cb_set cb NL_CB_VALID = Some f ∧ ∀ msg, f msg = event_input m (cm_protocol m) msg.
Proof.
  intros [Hm _ _ (sk & h & Hsk & Hpr & Hh & Hv & Hva & Hs & Hi & Hf)]. unfold sock_cb.
  rewrite (sbind_some _ _ _ sk s) by (unfold on_net, sock, sget; rewrite Hsk; by destruct s).
  rewrite (sbind_some _ _ _ h s) by (unfold on_net, cb_at, sget; rewrite Hh; by destruct s).
  rewrite (sbind_some _ _ _ (ms_mngrs s) s) by done. eexists. split; [done|]. cbn [meaning cb_set]. rewrite Hi, Hv, Hf.
  split; [done|]. split; [|split; [done|] ].
  - intros seq e. unfold seq_pass. cbn [meaning cb_set]. by rewrite Hs.
  - eexists. split; [done|]. intros msg. cbn [handler_fun]. rewrite Hva, Hpr, Z.eqb_refl, Hm. done.
Qed.

(** The manager handles a notification that waits in its socket. *)
Lemma data_ready_ok oom ext ct (s : mstate D) p m cas ca k ps msg b act type seq rest :
  memory oom → calloc_ok → mngr_ok s p m cas → st_ok ext ct (ms_store s) →
  io_incoming (io (ms_store s)) = Datagram msg :: rest → data_msg msg seq →
  nlmsg_type msg 0 = Some type → responsible (ms_store s) cas ca k type → ct !! ca_cache ca = Some ps →
  carries oom (cache_ops_at (c_ops k)) msg b → lookup_type (co_msgtypes (cache_ops_at (D := D) (c_ops k))) b.1.1.1.2 = Some act →
  act = NL_ACT_NEW ∨ act = NL_ACT_DEL →
  ∃ r s', nl_cache_mngr_data_ready p s = Some (r, s') ∧ ms_mngrs s' = ms_mngrs s ∧ ms_net s' = ms_net s ∧
    io_incoming (io (ms_store s')) = rest ∧
    ∃ e, r = (if e <? 0 then e else 1) ∧ handled oom (ca_change ca) act (ca_cache ca) b ps ext ct (ms_store s) e (ms_store s').
Proof.
  intros Hmem Hca Hmo Hok Hin Hd Hty Hres Hc Hcar Hact Hor. pose proof Hmo as [Hm Hcas Hn _].
  unfold nl_cache_mngr_data_ready, mngr_at. rewrite (sbind_some _ _ _ m s) by (unfold sget; by rewrite Hm).
  destruct (sock_cb_ok s p m cas Hmo) as (cb & Ecb & Hmi & Hsq & _ & f & Hv & Hf). rewrite (sbind_some _ _ _ _ _ Ecb).
  pose proof (event_ok oom ext ct (ms_store s) m cas ca k ps msg b act type Hmem Hca Hok Hcas Hn Hty Hres Hc Hcar Hact Hor) as Hev.
  unfold rwp in Hev. destruct (event_input m (cm_protocol m) msg (ms_store s)) as [ [e st']|] eqn:Ee; [|done].
  unfold sbind, on_store, nl_recvmsgs. rewrite Hin, (recv_passed _ cb msg seq) by done. rewrite Hv, Hf. cbn [r_user].
  destruct (a_msg_copy (ms_store s) msg) eqn:Ecp.
  2: { do 2 eexists. split; [done|]. split_and!; [done..|]. exists (- NLE_NOMEM). split; [done|].
       left. split_and!; try done; [by apply (proj2 (proj2 Hmem) _ _ Ecp)|by apply st_ok_io]. }
  rewrite Ee.
  cbn [mbind option_bind fst snd r_user r_seq_expect].
  assert (cb_result e = e) as Er by (destruct Hev as [(_ & -> & _)|(-> & _)]; done). rewrite Er.
  change (default 0 (Some e)) with e.
  assert (handled oom (ca_change ca) act (ca_cache ca) b ps ext ct (ms_store s) e
    (set_io (mkIo (io_seq_next (io st')) (io_seq_expect (io (ms_store s))) (io_sent (io st')) rest) st')) as Hev'.
  { destruct Hev as [(Ho & -> & Hok' & K & L)|(-> & K & ct' & Hok' & Hnot)]; [left|right].
    - split_and!; try done. by apply st_ok_io.
    - split_and!; try done. exists ct'. split; [by apply st_ok_io|]. by destruct Hor as [->| ->]. }
  destruct Hev as [(_ & -> & _)|(-> & _)]; cbn [Z.ltb Z.compare]; (do 2 eexists; split; [done|]); (split_and!; [done..|]); (eexists; split; [|exact Hev']; done).
Qed.
End Events.
