(* ===== verification/MngrAdd.v ===== *)
(** * Making a manager, adding caches to it and releasing it

    A new manager has its callback on the socket, which is connected and not checked for
    sequence numbers; when the connection fails the manager is released again.
    [nl_cache_mngr_add] leaves a filled cache in the first free place, or no trace in memory;
    [nl_cache_mngr_free] frees the caches. *)

From stdpp Require Import strings.
From S2P Require Import Prelude Packet Netlink NlError Text Attr CStr Recv Dump NlList TransList Mngt MngtOk.
From S2P Require Import Objects Cache CacheInv CacheOps CacheLoop CacheSync CacheResync CacheFill.
From S2P Require Import Handlers Ports Socket SockInv SockOps SockApi Mngr MngrOk.
Import Nl.

(** ** Programs that leave the callback handles alone *)

Section Keep.
Context `{OS : Os}.

Definition keeps_cbs {A} (m : St net A) : Prop := ∀ n a n', m n = Some (a, n') → cbs n' = cbs n.

Lemma kc_bind {A B} (m : St net A) (k : A → St net B) : keeps_cbs m → (∀ a, keeps_cbs (k a)) → keeps_cbs (sbind m k).
Proof.
  intros Hm Hk n b n' E. unfold sbind in E. destruct (m n) as [ [a n1]|] eqn:E1; [|done].
  rewrite (Hk a _ _ _ E). by eapply Hm.
Qed.

Lemma kc_ret {A} (a : A) : keeps_cbs (sret a).
Proof. by intros n b n' [= <- <-]. Qed.

Lemma kc_get {A} (f : net → option A) : keeps_cbs (sget f).
Proof. intros n a n' E. unfold sget in E. destruct (f n); [|done]. by injection E as <- <-. Qed.

Lemma kc_sys {A} (f : net → A) : keeps_cbs (sys f).
Proof. by intros n a n' [= <- <-]. Qed.

Lemma kc_modify f : (∀ n, cbs (f n) = cbs n) → keeps_cbs (smodify f).
Proof. intros Hf n a n' [= <- <-]. apply Hf. Qed.

Lemma kc_if {A} (b : bool) (m k : St net A) : keeps_cbs m → keeps_cbs k → keeps_cbs (if b then m else k).
Proof. by destruct b. Qed.
End Keep.

Create HintDb cbs.
#[export] Hint Resolve kc_ret kc_get kc_sys kc_bind kc_if : cbs.
#[export] Hint Extern 1 (keeps_cbs (smodify _)) => (apply kc_modify; done) : cbs.
#[export] Hint Extern 1 (keeps_cbs (sock _)) => (apply kc_get) : cbs.

Section Connect.
Context `{OS : Os}.

Lemma kc_upd_sock p f : keeps_cbs (upd_sock p f).
Proof. unfold upd_sock. apply kc_bind; [apply kc_get|]. intros a. by apply kc_modify. Qed.
#[local] Hint Resolve kc_upd_sock : cbs.

Lemma kc_setsockopt fd level opt v : keeps_cbs (setsockopt fd level opt v).
Proof. unfold setsockopt. apply kc_bind; [apply kc_sys|]. intros [e|]; auto with cbs. Qed.
#[local] Hint Resolve kc_setsockopt : cbs.

Lemma kc_buffer p rx tx : keeps_cbs (nl_socket_set_buffer_size p rx tx).
Proof.
  unfold nl_socket_set_buffer_size. cbv zeta. apply kc_bind; [apply kc_get|]. intros sk. apply kc_if; [apply kc_ret|].
  apply kc_bind; [auto with cbs|]. intros e. apply kc_if; [apply kc_ret|]. apply kc_bind; [auto with cbs|].
  intros e'. apply kc_if; [apply kc_ret|]. apply kc_bind; auto with cbs.
Qed.
#[local] Hint Resolve kc_buffer : cbs.

Lemma kc_steps p proto : keeps_cbs (connect_steps p proto).
Proof.
  unfold connect_steps. apply kc_bind; [apply kc_get|]. intros sk. apply kc_bind; [auto with cbs|]. intros e.
  apply kc_if; [apply kc_ret|]. apply kc_bind; [apply kc_get|]. intros sk'. apply kc_bind; [apply kc_sys|].
  intros [e'|]; [apply kc_ret|]. apply kc_bind; [apply kc_sys|]. intros [ [addr len]|e']; [|apply kc_ret].
  apply kc_bind; [auto with cbs|]. intros _. apply kc_if; [apply kc_ret|]. apply kc_if; [apply kc_ret|]. auto with cbs.
Qed.

Lemma kc_connect p proto : keeps_cbs (nl_connect p proto).
Proof.
  unfold nl_connect. apply kc_bind; [apply kc_sys|]. intros r. apply kc_bind.
  - destruct r as [fd|e]; auto with cbs. apply kc_bind; [auto with cbs|]. intros _. apply kc_bind; [auto with cbs|]. intros _. apply kc_steps.
  - intros [err|]; [|apply kc_ret]. apply kc_bind; [apply kc_get|]. intros sk. apply kc_bind; [unfold close; auto with cbs|].
    intros _. auto with cbs.
Qed.
End Connect.

(** ** Allocation *)

Section Alloc.
Context {D : Type} `{W : World D} `{OS : Os} `{Y : MngrSys D}.

(** Setting a handler, as a step on the sockets. *)
Lemma cb_set_run (n : net) c h type kind f arg h' :
  cbs n !! c = Some h → nl_cb_set h type kind f arg = (0, h') →
  cb_set_at c type kind f arg n = Some (0, set_cbs (<[c := h']> (cbs n)) n).
Proof.
  intros Hc E. unfold cb_set_at, cb_at. rewrite (sbind_some _ _ _ h n) by (unfold sget; by rewrite Hc). rewrite E. cbn [fst snd].
  unfold upd_cb, cb_at. unfold sbind, sget. by rewrite Hc.
Qed.

(** The handlers of the manager. *)
Definition mngr_handlers (p : Z) (h : nl_cbh) : nl_cbh :=
  put_handler NL_CB_SEQ_CHECK (Some noop_seq_check) 0 (put_handler NL_CB_VALID (Some (custom EVENT_INPUT)) p h).

Lemma install_ok ext (n : net) sk k h p :
  net_ok ext n → socks n !! sk = Some k → cbs n !! Socket.s_cb k = Some h →
  ∃ n1 n2, Socket.nl_socket_modify_cb sk 0 NL_CB_CUSTOM (Some (custom EVENT_INPUT)) p n = Some (0, n1) ∧
    nl_socket_disable_seq_check sk n1 = Some (tt, n2) ∧ net_ok ext n2 ∧ socks n2 = socks n ∧ fds n2 = fds n ∧
    cbs n2 !! Socket.s_cb k = Some (mngr_handlers p h).
Proof.
  intros Hok Hsk Hh.
  pose proof (cb_set_run n _ h 0 NL_CB_CUSTOM (Some (custom EVENT_INPUT)) p _ Hh eq_refl) as E1. set (n1 := set_cbs _ n) in E1.
  assert (cbs n1 !! Socket.s_cb k = Some (put_handler NL_CB_VALID (Some (custom EVENT_INPUT)) p h)) as Hh1 by apply lookup_insert_eq.
  pose proof (cb_set_run n1 _ _ 8 NL_CB_CUSTOM (Some noop_seq_check) 0 _ Hh1 eq_refl) as E2. set (n2 := set_cbs _ n1) in E2.
  exists n1, n2. unfold Socket.nl_socket_modify_cb, nl_socket_disable_seq_check, sock.
  rewrite (sbind_some _ _ _ k n), (sbind_some _ _ _ k n1), (sbind_some _ _ _ _ _ E2) by (unfold sget; cbn [n1 socks set_cbs]; by rewrite Hsk).
  split_and!; try done; [|apply lookup_insert_eq].
  pose proof (cb_set_at_ok ext n _ h 0 NL_CB_CUSTOM (Some (custom EVENT_INPUT)) p Hok Hh) as S1. unfold swp in S1. rewrite E1 in S1. destruct S1 as [Hok1 _].
  pose proof (cb_set_at_ok ext n1 _ _ 8 NL_CB_CUSTOM (Some noop_seq_check) 0 Hok1 Hh1) as S2. unfold swp in S2. rewrite E2 in S2. by destruct S2.
Qed.

(** Releasing a manager that has no caches closes its socket. *)
Lemma free_empty ext (s : mstate D) p m k :
  net_ok ext (ms_net s) → p ≠ 0 → ms_mngrs s !! p = Some m → cm_handle m ≠ 0 → socks (ms_net s) !! cm_handle m = Some k →
  cm_assocs m = Some (replicate 32 no_assoc) → cm_nassocs m = 32 →
  ∃ n', nl_cache_mngr_free p s = Some (tt, mkMs n' (ms_store s) (ms_mngt s) (delete p (ms_mngrs s))) ∧ net_ok ext n' ∧
    fds n' = drop_fd k (fds (ms_net s)) ∧ ∃ k', socks n' !! cm_handle m = Some k' ∧ s_fd k' = -1.
Proof.
  intros Hok Hp Hm Hh Hk Ha Hn. unfold nl_cache_mngr_free, mngr_at. rewrite (proj2 (Z.eqb_neq p 0)) by done.
  rewrite (sbind_some _ _ _ m s) by (unfold sget; by rewrite Hm). rewrite (proj2 (Z.eqb_neq (cm_handle m) 0)) by done. cbn [negb].
  pose proof (close_ok ext (ms_net s) (cm_handle m) k Hok Hk) as Hc. apply swp_run in Hc as ([] & n' & E & Hok' & k' & Es & Ef & _ & _ & _ & Efd).
  exists n'. rewrite (sbind_some _ _ _ tt (mkMs n' (ms_store s) (ms_mngt s) (ms_mngrs s))) by (unfold on_net; by rewrite E).
  rewrite Hn, Ha. split; [done|]. split; [done|]. split; [done|]. exists k'. by rewrite Es, lookup_insert_eq.
Qed.

(** Giving up: the new manager is released and the result is the code 1. *)
Lemma alloc_fails ext (s : mstate D) n p m k :
  p ≠ 0 → ms_mngrs s !! p = None → cm_handle m ≠ 0 → cm_assocs m = Some (replicate 32 no_assoc) → cm_nassocs m = 32 →
  net_ok ext n → socks n !! cm_handle m = Some k → drop_fd k (fds n) = fds (ms_net s) →
  ∃ s', sbind (nl_cache_mngr_free p) (λ _, sret (1, 0)) (mkMs n (ms_store s) (ms_mngt s) (<[p := m]> (ms_mngrs s))) = Some ((1, 0), s') ∧
    net_ok ext (ms_net s') ∧ ms_store s' = ms_store s ∧ ms_mngt s' = ms_mngt s ∧
    ms_mngrs s' = ms_mngrs s ∧ fds (ms_net s') = fds (ms_net s).
Proof.
  intros Hp Hfr Hh Ha Hn Hok Hk Hd.
  destruct (free_empty ext (mkMs n (ms_store s) (ms_mngt s) (<[p := m]> (ms_mngrs s))) p m k) as (n4 & E4 & Hok4 & Ef4 & _);
    try done; [apply lookup_insert_eq|].
  eexists. rewrite (sbind_some _ _ _ _ _ E4). split; [done|]. cbn [ms_net ms_store ms_mngt ms_mngrs] in *.
  rewrite delete_insert_id by done. split_and!; try done. by rewrite Ef4.
Qed.

(** The two ends of [nl_cache_mngr_alloc] when there is memory: a manager on a connected
    socket, or the code 1 and nothing left. *)
Lemma mngr_alloc_ok ext (s : mstate D) sk k h proto flags :
  os_ok → net_ok ext (ms_net s) → socks (ms_net s) !! sk = Some k → s_fd k = -1 → cbs (ms_net s) !! Socket.s_cb k = Some h →
  h_set h NL_CB_MSG_IN = None → h_set h NL_CB_FINISH = None → my_calloc s ≠ 0 → ms_mngrs s !! my_calloc s = None → my_assocs s = true →
  ∃ r p s', nl_cache_mngr_alloc sk proto flags s = Some ((r, p), s') ∧ net_ok ext (ms_net s') ∧
    ms_store s' = ms_store s ∧ ms_mngt s' = ms_mngt s ∧
    (r = 0 ∧ (∃ m, mngr_ok s' p m (replicate 32 no_assoc) ∧ cm_protocol m = proto ∧ cm_flags m = flags ∧ cm_handle m = sk) ∨
     r = 1 ∧ p = 0 ∧ ms_mngrs s' = ms_mngrs s ∧ fds (ms_net s') = fds (ms_net s)).
Proof.
  intros Hos Hok Hsk Hfd Hh Hin Hfin Hp Hfr Has. set (p := my_calloc s) in *.
  assert (sk ≠ 0) as Hsk0 by (intros ->; by rewrite (no_null _ _ Hok) in Hsk).
  set (m := mkMngr proto flags 32 sk (Some (replicate 32 no_assoc))).
  set (s0 := mkMs (ms_net s) (ms_store s) (ms_mngt s) (<[p := m]> (ms_mngrs s))).
  destruct (install_ok ext (ms_net s) sk k h p Hok Hsk Hh) as (n1 & n2 & E1 & E2 & Hok2 & Es2 & Ef2 & Hh2).
  set (at_net := λ n, mkMs n (ms_store s) (ms_mngt s) (<[p := m]> (ms_mngrs s))).
  pose proof (nl_connect_ok ext n2 sk k proto Hos Hok2 ltac:(by rewrite Es2) Hfd) as Hc.
  apply swp_run in Hc as (r & n3 & E3 & Hok3 & k3 & Es3 & _ & Ecb3 & Hr).
  assert (socks n3 !! sk = Some k3) as Hk3 by (rewrite Es3; apply lookup_insert_eq).
  pose proof (kc_connect _ _ _ _ _ E3) as Ec3.
  unfold nl_cache_mngr_alloc. rewrite (proj2 (Z.eqb_neq sk 0)) by done. rewrite (sbind_some _ _ _ p s) by done.
  rewrite (proj2 (Z.eqb_neq p 0)) by done. rewrite (sbind_some _ _ _ true s) by (unfold ask, sget; by rewrite Has).
  rewrite (sbind_some _ _ _ tt s0) by done. cbn [negb].
  rewrite (sbind_some _ _ _ 0 (at_net n1)) by (unfold on_net; cbn [s0 ms_net]; by rewrite E1).
  rewrite (sbind_some _ _ _ tt (at_net n2)) by (unfold on_net; cbn [at_net ms_net]; by rewrite E2).
  rewrite (sbind_some _ _ _ r (at_net n3)) by (unfold on_net; cbn [at_net ms_net]; by rewrite E3).
  destruct Hr as [(-> & Hfd3 & Hpr3 & Hnew & Ef3)|(Hr & Hfd3 & Ef3)].
  2: { decide_test (r <? 0) true. destruct (alloc_fails ext s n3 p m k3 Hp Hfr Hsk0 eq_refl eq_refl Hok3 Hk3) as (s' & E & ? & ? & ? & ? & ?).
       { unfold drop_fd. rewrite Hfd3. cbn [Z.leb Z.compare]. congruence. }
       exists 1, 0, s'. split_and!; try done. by right. }
  cbn [Z.ltb Z.compare].
  assert (∃ r4, nl_socket_set_nonblocking sk n3 = Some (r4, n3)) as [r4 E4].
  { unfold nl_socket_set_nonblocking, sock. rewrite (sbind_some _ _ _ k3 n3) by (unfold sget; by rewrite Hk3).
    destruct (s_fd k3 =? -1); [by eexists|]. by eexists. }
  rewrite (sbind_some _ _ _ r4 (at_net n3)) by (unfold on_net; cbn [at_net ms_net]; by rewrite E4).
  destruct (Z.ltb_spec r4 0).
  - destruct (alloc_fails ext s n3 p m k3 Hp Hfr Hsk0 eq_refl eq_refl Hok3 Hk3) as (s' & E & ? & ? & ? & ? & ?).
    { unfold drop_fd. decide_test (0 <=? s_fd k3) true. rewrite Ef3, Ef2 in *. set_solver. }
    exists 1, 0, s'. split_and!; try done. by right.
  - exists 0, p, (at_net n3). split_and!; try done. left. split; [done|]. exists m. split_and!; try done.
    split; [apply lookup_insert_eq|done|done|]. exists k3, (mngr_handlers p h). cbn [cm_handle m at_net ms_net]. rewrite Ecb3, Ec3. by split_and!.
Qed.

(** Without memory for the associations, releasing the manager goes through NULL. *)
Lemma mngr_alloc_crash ext (s : mstate D) sk k proto flags :
  net_ok ext (ms_net s) → socks (ms_net s) !! sk = Some k → my_calloc s ≠ 0 → my_assocs s = false →
  nl_cache_mngr_alloc sk proto flags s = None.
Proof.
  intros Hok Hsk Hp Has. assert (sk ≠ 0) as Hsk0 by (intros ->; by rewrite (no_null _ _ Hok) in Hsk).
  unfold nl_cache_mngr_alloc. rewrite (proj2 (Z.eqb_neq sk 0)) by done. rewrite (sbind_some _ _ _ (my_calloc s) s) by done.
  rewrite (proj2 (Z.eqb_neq (my_calloc s) 0)) by done. rewrite (sbind_some _ _ _ false s) by (unfold ask, sget; by rewrite Has).
  unfold put_mngr at 1. rewrite sbind_modify. cbn [negb]. set (s0 := mkMs _ _ _ _).
  enough (nl_cache_mngr_free (my_calloc s) s0 = None) as E by (unfold sbind; by rewrite E).
  unfold nl_cache_mngr_free, mngr_at. rewrite (proj2 (Z.eqb_neq (my_calloc s) 0)) by done.
  rewrite (sbind_some _ _ _ (mkMngr proto flags 32 sk None) s0) by (unfold sget; cbn [s0 ms_mngrs]; by rewrite lookup_insert_eq).
  cbn [cm_handle cm_nassocs cm_assocs]. rewrite (proj2 (Z.eqb_neq sk 0)) by done. cbn [negb].
  pose proof (close_ok ext (ms_net s) sk k Hok Hsk) as Hc. apply swp_run in Hc as ([] & n' & E & _).
  rewrite (sbind_some _ _ _ tt (mkMs n' (ms_store s) (ms_mngt s) (ms_mngrs s0))) by (unfold on_net; cbn [s0 ms_net]; by rewrite E).
  done.
Qed.
End Alloc.

Section Groups.
Context {D : Type} `{W : World D} `{OS : Os} `{Y : MngrSys D}.

(** A system call on the socket leaves the sockets and the handlers as they are. *)
Definition same_socks (n n' : net) : Prop := socks n' = socks n ∧ cbs n' = cbs n.

Definition quiet (m : St net Z) (ext : Z → Z) : Prop := ∀ n, net_ok ext n →
  ∃ r n', m n = Some (r, n') ∧ net_ok ext n' ∧ same_socks n n'.

Lemma quiet_setsockopt ext fd level opt v : quiet (setsockopt fd level opt v) ext.
Proof.
  intros n Hok. pose proof (setsockopt_ok ext n fd level opt v Hok) as Hs. apply swp_run in Hs as (r & n' & E & _ & Hok' & Es & _).
  exists r, n'. split_and!; try done. unfold setsockopt, sbind, sys in E. destruct (os_setsockopt n fd level opt v).
  - by injection E as _ <-.
  - by injection E as _ <-.
Qed.

(** The loops of the socket with one group. *)
Lemma quiet_group ext fd opt g : quiet (membership_loop fd opt [g; 0]) ext.
Proof.
  intros n Hok. cbn [membership_loop]. destruct (g =? 0); [by exists 0, n|]. destruct (g <? 0); [by exists (- NLE_INVAL), n|].
  destruct (quiet_setsockopt ext fd SOL_NETLINK opt g n Hok) as (r & n' & E & Hok' & Hs).
  rewrite (sbind_some _ _ _ _ _ E). destruct (r <? 0); [by exists r, n'|by exists 0, n'].
Qed.

Lemma quiet_member ext n p k opt g :
  net_ok ext n → socks n !! p = Some k →
  ∃ r n', sbind (sock p) (λ sk, if s_fd sk =? -1 then sret (- NLE_BAD_SOCK) else membership_loop (s_fd sk) opt [g; 0]) n = Some (r, n') ∧
    net_ok ext n' ∧ same_socks n n'.
Proof.
  intros Hok Hk. unfold sock. rewrite (sbind_some _ _ _ k n) by (unfold sget; by rewrite Hk).
  destruct (s_fd k =? -1); [by eexists _, n|]. by apply quiet_group.
Qed.

Definition at_net (n : net) (s : mstate D) : mstate D := mkMs n (ms_store s) (ms_mngt s) (ms_mngrs s).

Lemma join_ok ext sk k groups : ∀ s : mstate D,
  0 ∈ groups → net_ok ext (ms_net s) → socks (ms_net s) !! sk = Some k →
  ∃ r n', join_groups sk groups s = Some (r, at_net n' s) ∧ r ≤ 0 ∧ net_ok ext n' ∧ same_socks (ms_net s) n'.
Proof.
  induction groups as [|g groups IH]; intros s H0 Hok Hk; [by apply elem_of_nil in H0|]. cbn [join_groups].
  destruct (Z.eqb_spec g 0) as [->|Hg]; [exists 0, (ms_net s); by destruct s|]. apply elem_of_cons in H0 as [?|H0]; [done|].
  destruct (quiet_member ext (ms_net s) sk k NETLINK_ADD_MEMBERSHIP g Hok Hk) as (r & n1 & E & Hok1 & Es & Ec).
  rewrite (sbind_some _ _ _ r (at_net n1 s)).
  2: { unfold on_net, nl_socket_add_membership, nl_socket_add_memberships. by rewrite E. }
  destruct (Z.ltb_spec r 0); [exists r, n1; by split_and!; try lia|].
  destruct (IH (at_net n1 s) H0 Hok1) as (r' & n' & E' & Hr & Hok' & Es' & Ec'); [change (socks n1 !! sk = Some k); by rewrite Es|].
  exists r', n'. split_and!; try done. split; [by rewrite Es'|by rewrite Ec'].
Qed.

(** Joining groups looks at the sockets only. *)
Lemma join_net sk groups : ∀ (s s' : mstate D) r n,
  ms_net s = ms_net s' → join_groups sk groups s = Some (r, at_net n s) → join_groups sk groups s' = Some (r, at_net n s').
Proof.
  induction groups as [|g groups IH]; intros s s' r n En; [done|]. cbn [join_groups].
  destruct (g =? 0).
  { intros [= <- E]. apply (f_equal ms_net) in E. cbn in E. unfold at_net. rewrite <- E, En. by destruct s'. }
  unfold sbind, on_net. rewrite En. destruct (nl_socket_add_membership sk g (ms_net s')) as [ [e n1]|]; [|done].
  destruct (e <? 0); [by intros [= <- ->]|]. apply (IH (at_net n1 s) (at_net n1 s')). done.
Qed.

Lemma leave_ok ext sk k groups : ∀ s : mstate D,
  0 ∈ groups → net_ok ext (ms_net s) → socks (ms_net s) !! sk = Some k →
  ∃ n', leave_groups sk groups s = Some (tt, at_net n' s) ∧ net_ok ext n' ∧ same_socks (ms_net s) n'.
Proof.
  induction groups as [|g groups IH]; intros s H0 Hok Hk; [by apply elem_of_nil in H0|]. cbn [leave_groups].
  destruct (Z.eqb_spec g 0) as [->|Hg]; [exists (ms_net s); by destruct s|]. apply elem_of_cons in H0 as [?|H0]; [done|].
  destruct (quiet_member ext (ms_net s) sk k NETLINK_DROP_MEMBERSHIP g Hok Hk) as (r & n1 & E & Hok1 & Es & Ec).
  rewrite (sbind_some _ _ _ r (at_net n1 s)).
  2: { unfold on_net, nl_socket_drop_membership, nl_socket_drop_memberships. by rewrite E. }
  destruct (IH (at_net n1 s) H0 Hok1) as (n' & E' & Hok' & Es' & Ec'); [change (socks n1 !! sk = Some k); by rewrite Es|].
  exists n'. split_and!; try done. split; [by rewrite Es'|by rewrite Ec'].
Qed.

Lemma mngr_ok_net (s : mstate D) p m cas n (st : store D) g :
  mngr_ok s p m cas → same_socks (ms_net s) n → mngr_ok (mkMs n st g (ms_mngrs s)) p m cas.
Proof.
  intros [Hm Ha Hn (k & h & Hk & Hpr & Hh & Hr)] [Es Ec]. split; [done..|]. exists k, h. cbn [ms_net]. rewrite Es, Ec. naive_solver.
Qed.

(** No association has a cache with these operations. *)
Definition new_type (st : store D) (ops : Z) (cas : list nl_cache_assoc) : Prop :=
  Forall (λ ca, ca_cache ca = 0 ∨ ∃ k, caches st !! ca_cache ca = Some k ∧ c_ops k ≠ ops) cas.

Lemma has_ops_no st ops cas : new_type st ops cas → has_ops cas ops st = Some (false, st).
Proof.
  induction 1 as [|ca cas Hca _ IH]; [done|]. cbn [has_ops]. destruct (Z.eqb_spec (ca_cache ca) 0) as [|Hne]; [done|].
  destruct Hca as [?|(k & Hk & Ho)]; [done|]. unfold rbind, cache. by rewrite Hk, (proj2 (Z.eqb_neq _ _) Ho).
Qed.
End Groups.

Section World.
Context {D : Type} `{W : World D} (cb : nl_cb (store D)).

(** The callbacks of the socket do not matter for the invariants of the caches. *)
Lemma st_ok_world ext ct st : @st_ok D W ext ct st ↔ @st_ok D (with_cb cb) ext ct st.
Proof. split; intros [? ? ?]; by split. Qed.

Lemma carries_world oom ops m b : @carries D W oom ops m b → @carries D (with_cb cb) oom ops m b.
Proof.
  intros [? ? ? ? Hp]. split; try done. intros pp_cb st. destruct (Hp pp_cb st) as [?|[Ho Hg] ]; [by left|right]. split; [done|].
  intros ext ct Hok. eapply rwp_mono; [by apply (Hg ext ct), st_ok_world|]. intros r st' (-> & Hok' & Hr). split; [done|].
  split; [by apply st_ok_world|done].
Qed.

Lemma filling_world ext ct c st0 kd qs dn st :
  @filling D W ext ct c st0 kd qs dn st ↔ @filling D (with_cb cb) ext ct c st0 kd qs dn st.
Proof. split; intros [? ? ? ? ?]; (split; [by apply st_ok_world|done..]). Qed.
End World.

Section Add.
Context {D : Type} `{W : World D} `{OS : Os} `{Y : MngrSys D}.

(** The checks of [nl_cache_mngr_add] pass. *)
Lemma add_checks (reg : gmap (list Z) Z) (s : mstate D) p m cas name ops o groups i cb data retries :
  mngr_ok s p m cas → models (ms_mngt s) reg → reg !! name = Some ops → g_ops (ms_mngt s) !! ops = Some o →
  ro_protocol o = cm_protocol m → ro_groups o = Some groups → new_type (ms_store s) ops cas → free_slot cas 0 = Some i →
  nl_cache_mngr_add (S retries) p name cb data s = add_new p m ops o groups i cb data s.
Proof.
  intros [Hm Ha Hn _] Hmo Hreg Ho Hpr Hg Hnew Hi. pose proof (models_nonzero _ _ _ _ Hmo Hreg) as Hops.
  assert (take (Z.to_nat (cm_nassocs m)) cas = cas) as Ht by (rewrite Hn; apply take_ge; unfold zlen; lia).
  assert (mngr_at p s = Some (m, s)) as Em by (unfold mngr_at, sget; by rewrite Hm).
  unfold nl_cache_mngr_add. rewrite (sbind_some _ _ _ ops s).
  2: { unfold on_mngt. rewrite (registry_lookup _ reg) by done. rewrite Hreg. by destruct s. }
  rewrite (proj2 (Z.eqb_neq ops 0)) by done.
  rewrite (sbind_some _ _ _ o s) by (unfold on_mngt, ops_at, sget; rewrite Ho; by destruct s).
  rewrite (sbind_some _ _ _ _ _ Em), Hpr, Z.eqb_refl, Hg. cbn [negb].
  rewrite (sbind_some _ _ _ cas s) by (unfold sget; by rewrite Ha).
  rewrite (sbind_some _ _ _ false s) by (unfold on_store; rewrite Ht, has_ops_no by done; by destruct s).
  rewrite (sbind_some _ _ _ (inl i) s); [done|]. cbn [find_slot]. rewrite (sbind_some _ _ _ _ _ Em).
  rewrite (sbind_some _ _ _ cas s) by (unfold sget; by rewrite Ha). by rewrite Ht, Hi.
Qed.

Definition with_cas (m : nl_cache_mngr) (cas : list nl_cache_assoc) : nl_cache_mngr :=
  mkMngr (cm_protocol m) (cm_flags m) (cm_nassocs m) (cm_handle m) (Some cas).

(** What the kernel sends when the cache is filled. *)
Record fills oom ops (f : Z → R D Z) (err : nl_io → Z) (reply : nl_io → nl_io) (i : nl_io) mss ms fin rest bs : Prop := {
  fl_carries : Forall2 (carries oom (cache_ops_at ops)) (concat mss ++ ms) bs;
  fl_request : co_request_update (cache_ops_at ops) = Some f;
  fl_sends c st : f c st = Some (err (io st), set_io (reply (io st)) st);
  fl_dump : 0 ≤ err i → dumped (reply i) mss ms fin rest;
}.

(** The manager keeps running: a cache in the place [i]. *)
Lemma mngr_ok_put (s : mstate D) p m cas i ca n (st : store D) g :
  mngr_ok s p m cas → same_socks (ms_net s) n →
  mngr_ok (mkMs n st g (<[p := with_cas m (<[i := ca]> cas)]> (ms_mngrs s))) p (with_cas m (<[i := ca]> cas)) (<[i := ca]> cas).
Proof.
  intros [Hm Ha Hn (k & h & Hk & Hpr & Hh & Hr)] [Es Ec]. split; [apply lookup_insert_eq|done| |].
  - cbn. rewrite Hn. unfold zlen. by rewrite length_insert.
  - exists k, h. cbn [ms_net with_cas cm_handle cm_protocol]. rewrite Es, Ec. naive_solver.
Qed.

(** The end of [nl_cache_mngr_add]: the cache is put in its place and provided. *)
Lemma add_end (reg : gmap (list Z) Z) (s : mstate D) p m cas name ops o i c cb data n (st : store D) :
  mngr_ok s p m cas → models (ms_mngt s) reg → reg !! name = Some ops → g_ops (ms_mngt s) !! ops = Some o →
  (∀ b q o', reg !! b = Some q → g_ops (ms_mngt s) !! q = Some o' → ro_obj_ops o' = ro_obj_ops o → q = ops) →
  same_socks (ms_net s) n →
  ∃ g', add_filled p o i c cb data (mkMs n st (ms_mngt s) (ms_mngrs s)) =
    Some (Some (0, c), mkMs n st g' (<[p := with_cas m (<[i := mkAssoc c cb data]> cas)]> (ms_mngrs s))) ∧ models g' reg ∧
    (Z.land (cm_flags m) NL_AUTO_PROVIDE ≠ 0 → nl_cache_mngt_require name g' = Some (c, g')).
Proof.
  intros [Hm Ha Hn _] Hmo Hreg Ho Hu Hs. unfold add_filled.
  rewrite (sbind_some _ _ _ m (mkMs n st (ms_mngt s) (ms_mngrs s))) by (unfold mngr_at, sget; cbn [ms_mngrs]; by rewrite Hm).
  rewrite (sbind_some _ _ _ cas (mkMs n st (ms_mngt s) (ms_mngrs s))) by (unfold sget; by rewrite Ha).
  unfold put_mngr. rewrite sbind_modify. cbn [ms_net ms_store ms_mngt ms_mngrs].
  change (mkMngr _ _ _ _ _) with (with_cas m (<[i := mkAssoc c cb data]> cas)).
  destruct (Z.eqb_spec (Z.land (cm_flags m) NL_AUTO_PROVIDE) 0) as [E|E]; cbn [negb].
  - exists (ms_mngt s). by split_and!.
  - destruct (provide_require (ms_mngt s) reg name ops o c Hmo Hreg Ho Hu) as (g' & Ep & Hmo' & Hr & _). exists g'.
    erewrite sbind_some by (unfold on_mngt; cbn [ms_mngt]; by rewrite Ep). by split_and!.
Qed.

(** [rwp] as a run, in the state of a manager. *)
Lemma on_store_run {A} (m : R D A) (s : mstate D) P :
  rwp m P (ms_store s) → ∃ a st, on_store m s = Some (a, mkMs (ms_net s) st (ms_mngt s) (ms_mngrs s)) ∧ P a st.
Proof. unfold rwp, on_store. destruct (m (ms_store s)) as [ [a st]|]; [|done]. intros Hp. by exists a, st. Qed.

(** The errors of adding a cache: there is no memory, a group of its type cannot be joined, or
    the request for the dump cannot be sent. *)
Definition add_error (oom : Prop) (groups : list Z) (err : nl_io → Z) (s : mstate D) (m : nl_cache_mngr) (e : Z) : Prop :=
  e < 0 ∧ (oom ∧ e = - NLE_NOMEM ∨ (∃ s', join_groups (cm_handle m) groups s = Some (e, s')) ∨ e = err (io (ms_store s))).

(** The results of adding a cache to a manager in the state [s]. *)
Definition added oom groups err next ext ct reg name ops i cb data bs (s : mstate D) p m cas (r : option (Z * Z)) (s' : mstate D) : Prop :=
  net_ok next (ms_net s') ∧ ∃ e c, r = Some (e, c) ∧
    (add_error oom groups err s m e ∧ c = 0 ∧ restored ext ct (ms_store s) (ms_store s') ∧ ms_mngrs s' = ms_mngrs s ∧ ms_mngt s' = ms_mngt s ∨
     e = 0 ∧ c ≠ 0 ∧ ct !! c = None ∧ (∃ qs, filling ext ct c (ms_store s) (<[c := ops]> (kinds (ms_store s))) qs bs (ms_store s')) ∧
     mngr_ok s' p (with_cas m (<[i := mkAssoc c cb data]> cas)) (<[i := mkAssoc c cb data]> cas) ∧ models (ms_mngt s') reg ∧
     (Z.land (cm_flags m) NL_AUTO_PROVIDE ≠ 0 → nl_cache_mngt_require name (ms_mngt s') = Some (c, ms_mngt s'))).

(** Giving up: the new cache is freed. *)
Lemma add_fails oom groups err next ext ct reg name ops i cb data bs (s : mstate D) p m cas n st c qs dn e :
  st_ok ext ct (ms_store s) → ct !! c = None → net_ok next n → add_error oom groups err s m e →
  filling ext ct c (ms_store s) (<[c := ops]> (kinds (ms_store s))) qs dn st →
  ∃ r s', sbind (on_store (nl_cache_free c)) (λ _, sret (Some (e, 0))) (mkMs n st (ms_mngt s) (ms_mngrs s)) = Some (r, s') ∧
    added oom groups err next ext ct reg name ops i cb data bs s p m cas r s'.
Proof.
  intros Hok Hc Hn He Hf. destruct (on_store_run _ (mkMs n st (ms_mngt s) (ms_mngrs s)) _
    (free_filled ext ct c (ms_store s) ops qs dn st Hok Hc Hf)) as ([] & st' & E & Hr). rewrite (sbind_some _ _ _ _ _ E).
  do 2 eexists. split; [done|]. split; [done|]. exists e, 0. split; [done|]. left. by split_and!.
Qed.

Lemma add_new_ok (oom : Prop) (reg : gmap (list Z) Z) ext ct next (s : mstate D) p m cas name ops o groups i cb data f err reply mss ms fin rest bs :
  memory (D := D) oom → calloc_ok (D := D) → mngr_ok s p m cas → net_ok next (ms_net s) → st_ok ext ct (ms_store s) →
  models (ms_mngt s) reg → reg !! name = Some ops → g_ops (ms_mngt s) !! ops = Some o →
  (∀ b q o', reg !! b = Some q → g_ops (ms_mngt s) !! q = Some o' → ro_obj_ops o' = ro_obj_ops o → q = ops) →
  0 ∈ groups → fills oom ops f err reply (io (ms_store s)) mss ms fin rest bs →
  ∃ r s', add_new p m ops o groups i cb data s = Some (r, s') ∧ added oom groups err next ext ct reg name ops i cb data bs s p m cas r s'.
Proof.
  intros Hmem Hca Hmo Hnet Hok Hreg Hn Ho Hu H0 [Fc Fr Fs Fd]. unfold add_new.
  destruct (mo_sock _ _ _ _ Hmo) as (k & h & Hk & _).
  destruct (on_store_run _ s _ (cache_alloc_ok ext ct (ms_store s) ops Hca Hok)) as (c & st1 & E1 & H1). rewrite (sbind_some _ _ _ _ _ E1).
  destruct H1 as [(-> & Hz & ->)|(Hc0 & Hc & Eo & Hok1 & K1 & L1 & I1)].
  { cbn [Z.eqb]. do 2 eexists. split; [done|]. split; [done|]. do 2 eexists. split; [done|]. left. split_and!; try done.
    split; [done|]. left. split; [by apply (proj1 Hmem _ Hz)|done]. }
  rewrite (proj2 (Z.eqb_neq _ _) Hc0). set (s1 := mkMs (ms_net s) st1 _ _).
  assert (filling ext ct c (ms_store s) (<[c := ops]> (kinds (ms_store s))) [] [] st1) as Hfi.
  { split; try done. unfold body. by rewrite Eo. }
  destruct (join_ok next (cm_handle m) k groups s1 H0 Hnet Hk) as (e1 & n1 & Ej & He1 & Hnet1 & Hs1). rewrite (sbind_some _ _ _ _ _ Ej).
  unfold at_net. cbn [ms_store ms_mngt ms_mngrs s1].
  destruct (Z.ltb_spec e1 0) as [Hlt|Hge].
  { eapply add_fails; [done|done|done| |exact Hfi]. split; [done|]. right. left. eexists. by eapply (join_net _ _ s1). }
  set (s2 := mkMs n1 st1 (ms_mngt s) (ms_mngrs s)). assert (mngr_ok s2 p m cas) as Hmo2 by (by apply mngr_ok_net).
  destruct (sock_cb_ok s2 p m cas Hmo2) as (scb & Ecb & P1 & P2 & P3 & _). rewrite (sbind_some _ _ _ _ _ Ecb).
  assert (Forall2 (@carries D (with_cb scb) oom (cache_ops_at ops)) (concat mss ++ ms) bs) as Fc'.
  { eapply Forall2_impl; [|exact Fc]. intros x b. apply carries_world. }
  destruct (on_store_run (@nl_cache_refill D (with_cb scb) c) s2 _ (@refill_new_ok D (with_cb scb) oom ext ct c ops (ms_store s) st1
    (io (ms_store s)) f err reply mss ms fin rest bs Hmem Hca (conj P1 (conj (λ e, P2 e e) P3)) (proj1 (st_ok_world scb _ _ _) Hok) Hc Fc' Fr (Fs c) I1 Fd (proj1 (filling_world scb _ _ _ _ _ _ _ _) Hfi)))
    as (r & st2 & E2 & e & qs & dn & -> & Hfi2 & Hr). apply filling_world in Hfi2.
  rewrite (sbind_some _ _ _ _ _ E2). cbn [ms_net ms_mngt ms_mngrs s2].
  destruct (Z.ltb_spec e 0) as [Hlt|Hge'].
  - destruct (leave_ok next (cm_handle m) k groups (mkMs n1 st2 (ms_mngt s) (ms_mngrs s)) H0 Hnet1) as (n2 & El & Hnet2 & _).
    { cbn [ms_net]. by rewrite (proj1 Hs1). }
    rewrite (sbind_some _ _ _ _ _ El). unfold at_net. cbn [ms_store ms_mngt ms_mngrs].
    eapply add_fails; [done|done|done| |exact Hfi2]. split; [done|]. destruct Hr as [?|[ [? _]|[-> _] ] ]; [by left|by right; right|done].
  - assert (e = 0 ∧ dn = bs) as [-> ->] by (destruct Hr as [ [_ ->]|[ [_ ?]|?] ]; [done|lia|done]).
    destruct (add_end reg s p m cas name ops o i c cb data n1 st2 Hmo Hreg Hn Ho Hu Hs1) as (g' & Ee & Hreg' & Hp). rewrite Ee.
    do 2 eexists. split; [done|]. split; [done|]. exists 0, c. split; [done|]. right. split_and!; try done; [by exists qs|].
    by apply mngr_ok_put.
Qed.

(** Adding a cache of a registered type that the manager does not have. *)
Lemma mngr_add_ok (oom : Prop) (reg : gmap (list Z) Z) ext ct next (s : mstate D) p m cas name ops o groups i cb data f err reply mss ms fin rest bs retries :
  memory (D := D) oom → calloc_ok (D := D) → mngr_ok s p m cas → net_ok next (ms_net s) → st_ok ext ct (ms_store s) →
  models (ms_mngt s) reg → reg !! name = Some ops → g_ops (ms_mngt s) !! ops = Some o →
  (∀ b q o', reg !! b = Some q → g_ops (ms_mngt s) !! q = Some o' → ro_obj_ops o' = ro_obj_ops o → q = ops) →
  ro_protocol o = cm_protocol m → ro_groups o = Some groups → 0 ∈ groups → new_type (ms_store s) ops cas → free_slot cas 0 = Some i →
  fills oom ops f err reply (io (ms_store s)) mss ms fin rest bs →
  ∃ r s', nl_cache_mngr_add (S retries) p name cb data s = Some (r, s') ∧ added oom groups err next ext ct reg name ops i cb data bs s p m cas r s'.
Proof. intros. rewrite (add_checks reg s p m cas name ops o groups i) by done. by eapply add_new_ok. Qed.

(** ** Releasing a manager *)

(** The caches of the associations. *)
Definition cas_caches (cas : list nl_cache_assoc) : list Z := List.filter (λ c, negb (c =? 0)) (map ca_cache cas).

Lemma free_assocs_ok ext cas : ∀ ct (s : mstate D),
  st_ok ext ct (ms_store s) → NoDup (cas_caches cas) → (∀ c, c ∈ cas_caches cas → is_Some (ct !! c)) →
  ∃ st', free_assocs cas s = Some (tt, mkMs (ms_net s) st' (ms_mngt s) (ms_mngrs s)) ∧
    st_ok ext (foldr delete ct (cas_caches cas)) st'.
Proof.
  induction cas as [|ca cas IH]; intros ct s Hok Hnd Hin; cbn [free_assocs]; [exists (ms_store s); by destruct s|].
  unfold cas_caches in *. cbn [map List.filter] in *. destruct (Z.eqb_spec (ca_cache ca) 0) as [E0|E0]; cbn [negb] in *.
  - rewrite (sbind_some _ _ _ tt s) by done. by apply IH.
  - apply list.NoDup_cons in Hnd as [Hni Hnd]. destruct (Hin _ (list_elem_of_here _ _)) as [ps Hps].
    destruct (on_store_run _ s _ (cache_free_ok ext ct (ms_store s) (ca_cache ca) ps Hok Hps)) as ([] & st1 & E & Hok1 & _).
    rewrite (sbind_some _ _ _ _ _ E).
    destruct (IH (delete (ca_cache ca) ct) (mkMs (ms_net s) st1 (ms_mngt s) (ms_mngrs s)) Hok1 Hnd) as (st' & E' & Hok').
    { intros c Hc. rewrite lookup_delete_ne; [apply Hin; by apply list_elem_of_further|]. by intros <-. }
    exists st'. split; [done|]. cbn [foldr]. clear -Hok'. revert Hok'. set (l := List.filter _ _).
    enough (foldr delete (delete (ca_cache ca) ct) l = delete (ca_cache ca) (foldr delete ct l)) as -> by done.
    induction l as [|c l IHl]; [done|]. cbn [foldr]. by rewrite IHl, delete_delete.
Qed.

Lemma mngr_free_ok next ext ct (s : mstate D) p m cas :
  p ≠ 0 → cm_handle m ≠ 0 → mngr_ok s p m cas → net_ok next (ms_net s) → st_ok ext ct (ms_store s) → NoDup (cas_caches cas) →
  (∀ c, c ∈ cas_caches cas → is_Some (ct !! c)) →
  ∃ s', nl_cache_mngr_free p s = Some (tt, s') ∧ net_ok next (ms_net s') ∧ ms_mngrs s' = delete p (ms_mngrs s) ∧
    st_ok ext (foldr delete ct (cas_caches cas)) (ms_store s') ∧
    (∃ k, socks (ms_net s') !! cm_handle m = Some k ∧ s_fd k = -1).
Proof.
  intros Hp Hh [Hm Ha Hn (k & h & Hk & _)] Hnet Hok Hnd Hin. unfold nl_cache_mngr_free, mngr_at. rewrite (proj2 (Z.eqb_neq p 0)) by done.
  rewrite (sbind_some _ _ _ m s) by (unfold sget; by rewrite Hm). rewrite (proj2 (Z.eqb_neq (cm_handle m) 0)) by done. cbn [negb].
  pose proof (close_ok next (ms_net s) (cm_handle m) k Hnet Hk) as Hc. apply swp_run in Hc as ([] & n' & E & Hok' & k' & Es & Ef & _).
  set (s1 := mkMs n' (ms_store s) (ms_mngt s) (ms_mngrs s)).
  rewrite (sbind_some _ _ _ tt s1) by (unfold on_net; by rewrite E).
  destruct (free_assocs_ok ext cas ct s1 Hok Hnd Hin) as (st' & Ec & Hok2).
  rewrite (sbind_some _ _ _ tt (mkMs n' st' (ms_mngt s) (ms_mngrs s))).
  2: { destruct (Z.ltb_spec 0 (cm_nassocs m)) as [Hlt|Hge].
       - rewrite (sbind_some _ _ _ cas s1) by (unfold sget; by rewrite Ha). rewrite Hn, take_ge by (unfold zlen; lia). done.
       - destruct cas; [|unfold zlen in Hn; simpl in Hn; lia]. exact Ec. }
  eexists. split; [done|]. split_and!; try done. exists k'. cbn [ms_net]. by rewrite Es, lookup_insert_eq.
Qed.
End Add.
