(* ===== verification/SupportCorrect.v ===== *)
(** * Correctness of libnl's supporting parts: addresses, names, times and registered types

    The theorems on [lib/addr.c], [lib/utils.c], [lib/route/route_utils.c],
    [lib/cache_mngt.c] and [lib/genl/mngt.c], with their instances. *)

From stdpp Require Import strings.
From S2P Require Import Prelude Packet Netlink NlError Text Attr CStr NlList.
From S2P Require Import Addr AddrOk Utils Tables Names TransList Mngt MngtOk.
Import Nl.

(** ** Addresses *)

(** C34 What [nl_addr2str] writes for an IPv4, IPv6, DECnet or link layer address, with its
    prefix length if that is not the full length, [nl_addr_parse] reads back as the same
    address, if [inet_pton] reads what [inet_ntop] writes. *)
Theorem addresses_roundtrip `{Inet} a buf size :
  inet_ok → printable a → zlen buf = size → 96 ≤ size < 2 ^ 63 →
  ∃ buf' s, nl_addr2str (Some a) buf size = Some buf' ∧ c_string buf' = Some s ∧
    nl_addr_parse true true s (a_family a) = Some (0, Some a).
Proof. apply addr_roundtrip. Qed.

(** Numbers with dots, and groups of four hexadecimal digits with colons. *)
Module Inets.
Fixpoint join (sep : Z) (ws : list (list Z)) : list Z :=
  match ws with
  | [] => []
  | w :: ws => w ++ match ws with [] => [] | _ => sep :: join sep ws end
  end.

(** The number below 256 with this text. *)
Definition octet (s : list Z) : option Z := List.find (λ n, bool_decide (fmt_u n = s)) (seqZ 0 256).

Fixpoint octets (n : nat) (s : list Z) : option (list Z) :=
  match n with
  | O => None
  | S O => b ← octet s; Some [b]
  | S n => r ← strchr 46 s; b ← octet r.1; l ← octets n r.2; Some (b :: l)
  end.

Fixpoint groups (bs : list Z) : list Z :=
  match bs with
  | a :: b :: bs => fmt_02x a ++ fmt_02x b ++ match bs with [] => [] | _ => 58 :: groups bs end
  | _ => []
  end.

Fixpoint ungroup (n : nat) (s : list Z) : option (list Z) :=
  match n with
  | O => Some []
  | S n =>
      r ← scan_02x s;
      q ← scan_02x r.2;
      match q.2 with
      | 58 :: s => l ← ungroup n s; Some (r.1 :: q.1 :: l)
      | _ => Some [r.1; q.1]
      end
  end.

Definition inets : Inet := {|
  inet_pton f s := if f =? AF_INET then octets 4 s else ungroup 8 s;
  inet_ntop f bs := if f =? AF_INET then join 46 (map fmt_u bs) else groups bs;
|}.

Definition octet_good (b : Z) : bool :=
  bool_decide (octet (fmt_u b) = Some b) && forallb (λ c, (48 <=? c) && (c <=? 57)) (fmt_u b) && (length (fmt_u b) <=? 3)%nat.

Lemma octet_ok b : is_byte b → octet (fmt_u b) = Some b ∧ Forall addr_char (fmt_u b) ∧ 46 ∉ fmt_u b ∧ (length (fmt_u b) ≤ 3)%nat.
Proof.
  intros Hb. assert (octet_good b = true) as Hg.
  { apply (check_range octet_good 256); [vm_compute; reflexivity|]. unfold is_byte in Hb. lia. }
  unfold octet_good in Hg. apply andb_prop in Hg as [Hg H3%Nat.leb_le]. apply andb_prop in Hg as [H1%bool_decide_eq_true H2].
  rewrite forallb_forall in H2. split_and!; [done| |intros Hin%list_elem_of_In; by apply H2 in Hin|done].
  apply list.Forall_forall. intros c Hc%list_elem_of_In. apply H2 in Hc. left. boolify. unfold digit.
  decide_test (48 <=? c) true. decide_test (c <=? 57) true. simpl. lia.
Qed.

Lemma octets_step n s : octets (S (S n)) s = (r ← strchr 46 s; b ← octet r.1; l ← octets (S n) r.2; Some (b :: l)).
Proof. done. Qed.

Lemma ungroup_step n s :
  ungroup (S n) s = (r ← scan_02x s; q ← scan_02x r.2;
    match q.2 with 58 :: s => l ← ungroup n s; Some (r.1 :: q.1 :: l) | _ => Some [r.1; q.1] end).
Proof. done. Qed.

Lemma octets_ok bs : ∀ b, Forall is_byte (b :: bs) →
  octets (S (length bs)) (join 46 (map fmt_u (b :: bs))) = Some (b :: bs) ∧
  Forall addr_char (join 46 (map fmt_u (b :: bs))) ∧ (length (join 46 (map fmt_u (b :: bs))) ≤ 3 + 4 * length bs)%nat.
Proof.
  induction bs as [|b' bs IH]; intros b [Hb Hbs]%list.Forall_cons; destruct (octet_ok b Hb) as (O1 & O2 & O3 & O4).
  - cbn [map join octets length]. rewrite app_nil_r, O1. split; [done|]. split; [done|]. lia.
  - destruct (IH b' Hbs) as (I1 & I2 & I3).
    change (join 46 (map fmt_u (b :: b' :: bs))) with (fmt_u b ++ 46 :: join 46 (map fmt_u (b' :: bs))).
    cbn [length]. rewrite octets_step, strchr_app, some_bind by done. cbn [fst snd]. rewrite O1, some_bind, I1, some_bind. split; [done|]. split.
    + apply Forall_app. split; [done|]. apply list.Forall_cons. split; [by right; left|done].
    + rewrite length_app. cbn [length] in *. lia.
Qed.

Lemma groups_ok n : ∀ bs, Forall is_byte bs → length bs = (2 * S n)%nat →
  ungroup (S n) (groups bs) = Some bs ∧ Forall addr_char (groups bs) ∧ (length (groups bs) = 4 + 5 * n)%nat.
Proof.
  induction n as [|n IH]; intros bs Hbs Hl; destruct bs as [|a [|b bs] ]; try done;
    apply list.Forall_cons in Hbs as [Ha Hbs]; apply list.Forall_cons in Hbs as [Hb Hbs].
  - destruct bs; [|done]. cbn [groups]. cbn [ungroup]. rewrite scan_02x_ok, some_bind by done. cbn [fst snd].
    rewrite scan_02x_ok, some_bind by done. split; [done|]. split; [|done].
    apply Forall_app. split; [apply fmt_02x_addr|]. rewrite app_nil_r. apply fmt_02x_addr.
  - destruct (IH bs Hbs) as (I1 & I2 & I3); [simpl in *; lia|]. destruct bs as [|c bs]; [simpl in Hl; lia|].
    change (groups (a :: b :: c :: bs)) with (fmt_02x a ++ fmt_02x b ++ 58 :: groups (c :: bs)). set (t := groups (c :: bs)) in *.
    rewrite ungroup_step.
    rewrite scan_02x_ok, some_bind by done. cbn [fst snd]. rewrite scan_02x_ok, some_bind by done. cbn [fst snd].
    rewrite I1, some_bind. split; [done|]. split.
    + apply Forall_app. split; [apply fmt_02x_addr|]. apply Forall_app. split; [apply fmt_02x_addr|].
      apply list.Forall_cons. split; [by right; right|done].
    + rewrite !length_app. change (length (fmt_02x a)) with 2%nat. change (length (fmt_02x b)) with 2%nat. cbn [length]. lia.
Qed.

Lemma inets_ok : @inet_ok inets.
Proof.
  assert (∀ f bs, f = AF_INET ∨ f = AF_INET6 → family_size f = Some (zlen bs) → Forall is_byte bs →
    (Forall addr_char (@inet_ntop inets f bs) ∧ zlen (@inet_ntop inets f bs) ≤ 45) ∧
    @inet_pton inets f (@inet_ntop inets f bs) = Some bs) as Hall.
  { intros f bs [->| ->] Hs Hb; injection Hs as Hs; cbn [inet_ntop inet_pton inets AF_INET AF_INET6 Z.eqb Pos.eqb].
    - destruct bs as [|b bs]; [done|]. destruct (octets_ok bs b Hb) as (E & C & Ln). unfold zlen in *. simpl in Hs.
      replace 4%nat with (S (length bs)) by lia. split; [split; [done|lia]|done].
    - destruct (groups_ok 7 bs Hb) as (E & C & Ln); [unfold zlen in Hs; lia|]. unfold zlen. split; [split; [done|lia]|done]. }
  split; intros f bs Hf Hs Hb; by destruct (Hall f bs Hf Hs Hb).
Qed.
End Inets.

(** 10.0.128.1/17 *)
Definition demo_addr : nl_addr := mkNlAddr AF_INET 4 4 17 1 [10; 0; 128; 1].

Lemma addresses_roundtrip_witness :
  ∃ buf' s, @nl_addr2str Inets.inets (Some demo_addr) (replicate 100 0) 100 = Some buf' ∧ c_string buf' = Some s ∧
    @nl_addr_parse Inets.inets true true s AF_INET = Some (0, Some demo_addr).
Proof.
  apply (@addresses_roundtrip Inets.inets demo_addr (replicate 100 0) 100); [apply Inets.inets_ok| |done|lia].
  split; cbn; try done. repeat (apply list.Forall_cons; split; [unfold is_byte; lia|]). apply Forall_nil.
Defined.

(** Comparing addresses, with the bytes that are compared: [nl_addr_cmp] is 0 for the same
    family and bytes and for nothing else; [nl_addr_cmp_prefix] is 0 when the whole bytes of
    the shorter prefix agree and, of the byte after them, as many of the {e low} bits as the
    prefix has more. *)
Theorem addresses_compared a b :
  addr_wf a → addr_wf b →
  let len := Z.min (a_prefixlen a) (a_prefixlen b) in
  0 ≤ len < 8 * Z.min (a_maxsize a) (a_maxsize b) → a_family a = a_family b →
  (∃ d, nl_addr_cmp a b = Some d ∧ (d = 0 ↔ binary a = binary b)) ∧
  (∃ d, nl_addr_cmp_prefix a b = Some d ∧
    (d = 0 ↔ take (Z.to_nat (len / 8)) (a_addr a) = take (Z.to_nat (len / 8)) (a_addr b) ∧
             znth (a_addr a) (len / 8) mod 2 ^ (len mod 8) = znth (a_addr b) (len / 8) mod 2 ^ (len mod 8))).
Proof.
  intros Ha Hb len Hl Hf. split; [|by apply cmp_prefix_val].
  destruct (cmp_zero a b Ha Hb) as (d & E & Hd). exists d. split; [done|]. rewrite Hd. tauto.
Qed.

Lemma byte_list l : forallb (λ b, (0 <=? b) && (b <? 256)) l = true → Forall is_byte l.
Proof.
  intros Hl. apply list.Forall_forall. intros b Hb%list_elem_of_In. rewrite forallb_forall in Hl. apply Hl in Hb.
  unfold is_byte. boolify. lia.
Qed.

(** 10.0.128.1/17 and 10.0.0.1/17, which are not in the same network, compare equal. *)
Definition other_addr : nl_addr := mkNlAddr AF_INET 4 4 17 1 [10; 0; 0; 1].

Lemma addr_wf_demo l : zlen l = 4 → forallb (λ b, (0 <=? b) && (b <? 256)) l = true → addr_wf (mkNlAddr AF_INET 4 4 17 1 l).
Proof. intros Hl Hb. split; cbn; try done; try lia. by apply byte_list. Qed.

Lemma prefixes_compared_wrong :
  nl_addr_cmp_prefix demo_addr other_addr = Some 0 ∧ bit_at (a_addr demo_addr) 16 ≠ bit_at (a_addr other_addr) 16.
Proof. split; [|done]. vm_compute. reflexivity. Qed.

Lemma addresses_compared_witness :
  ∃ d, nl_addr_cmp demo_addr other_addr = Some d ∧ d ≠ 0.
Proof.
  destruct (addresses_compared demo_addr other_addr) as [(d & E & Hd) _]; [by apply addr_wf_demo..|cbn; lia|done|].
  exists d. split; [done|]. intros E0%Hd. done.
Defined.

(** C35 Addresses shared by counting references: in every state that a program reaches which
    only uses addresses it holds, the count of each address is the number of references that
    are held to it, each further call that is allowed returns, and when all references are
    given back no memory is left. *)
Theorem address_references addr_calloc m ext :
  addr_calloc_ok addr_calloc → addr_reach addr_calloc m ext →
  (∀ p a, m !! p = Some a → a_refcnt a = ext p ∧ 0 < ext p ∧ addr_wf a) ∧
  (∀ x, addr_may x ext → ∃ r m', addr_exec addr_calloc x m = Some (r, m') ∧ addr_reach addr_calloc m' (addr_after x r ext)) ∧
  ((∀ p, ext p = 0) → m = ∅).
Proof.
  intros Hca Hr. pose proof (reach_counted _ _ _ Hca Hr) as Hc. split; [apply (ct_live _ _ Hc)|]. split; [|by eapply counted_empty].
  intros x Hx. destruct (addr_exec_ok _ _ _ _ Hca Hc Hx) as (r & m' & E & _). exists r, m'. split; [done|]. by eapply areach_step.
Qed.

(** An address is built and cloned. *)
Lemma address_references_witness :
  ∃ r m m', addr_exec addr_fresh (ABuild AF_INET [10; 0; 0; 1]) ∅ = Some (r, m) ∧
    addr_exec addr_fresh (AClone r) m = Some (2, m') ∧ addr_reach addr_fresh m' (addr_after (AClone r) 2 (addr_after (ABuild AF_INET [10; 0; 0; 1]) r (λ _, 0))).
Proof.
  destruct (address_references addr_fresh ∅ (λ _, 0) addr_fresh_ok (areach_init _)) as (_ & Hstep & _).
  destruct (Hstep (ABuild AF_INET [10; 0; 0; 1])) as (r & m & E & Hr).
  { split; [unfold AF_INET; lia|]. split; [done|]. by apply byte_list. }
  exists r, m. pose proof E as E'. vm_compute in E'. injection E' as <- <-.
  destruct (address_references addr_fresh _ _ addr_fresh_ok Hr) as (_ & Hstep' & _).
  destruct (Hstep' (AClone 1)) as (r' & m' & E2 & Hr'); [by vm_compute|]. exists m'. split; [done|].
  assert (r' = 2) as -> by (pose proof E2 as E3; vm_compute in E3; by injection E3 as <- _).
  by split.
Defined.

(** ** Names and times *)





(** An empty text, or an item after a comma with nothing in it, is read as all flags of the
    table; and the item ["seq"] of the netfilter log also sets the flag ["seq_global"]. *)
Lemma flags_read_wrong : ∀ tbl, __str2flags [] tbl = or_all tbl.
Proof. apply str2flags_empty. Qed.

(** What [nl_msec2str] writes for a time, [nl_str2msec] reads back exactly if the time is
    a number of whole seconds: it refuses the unit ["msec"] that is written for the rest. *)
Theorem times_roundtrip msec buf len :
  0 < msec < 2 ^ 31 * 86400000 → zlen buf = len → 75 < len < 2 ^ 63 →
  ∃ buf' s, nl_msec2str msec buf len = Some buf' ∧ c_string buf' = Some s ∧
    nl_str2msec s = if msec mod 1000 =? 0 then inl msec else inr (- NLE_INVAL).
Proof. apply msec_roundtrip. Qed.

Lemma times_roundtrip_witness :
  ∃ buf' s, nl_msec2str 90061000 (replicate 80 0) 80 = Some buf' ∧ c_string buf' = Some s ∧ nl_str2msec s = inl 90061000.
Proof. apply (times_roundtrip 90061000 (replicate 80 0) 80); [lia|done|lia]. Defined.

(** ** Lists of names *)

(** A list of names that is read from a file or filled by the program behaves as a table
    with the same entries; once it is cleared, which the functions that read the files of
    routing tables and protocols do first, every search in it uses memory that was freed. *)
Theorem name_lists m head l :
  names_are m head l →
  (∀ type buf len, __list_type2str type buf len head m = (b ← __type2str type buf len l; Some (b, m))) ∧
  (∀ name, __list_str2type name head m = Some (__str2type name l, m)) ∧
  (l ≠ [] → ∃ m', __trans_list_clear head m = Some (tt, m') ∧
     ∀ type buf len name, name ≠ [] → __list_type2str type buf len head m' = None ∧ __list_str2type name head m' = None).
Proof.
  intros Hn. split; [intros; by apply list_type2str_ok|]. split; [intros; by apply list_str2type_ok|].
  intros Hl. destruct l as [|e l]; [done|]. destruct (clear_dangles _ _ _ _ Hn) as (m' & p & E & Hn' & Hz).
  exists m'. split; [done|]. intros type buf len name Hne. by eapply search_after_clear.
Qed.

(** The list of routing tables with one entry. *)
Definition one_name : names :=
  mkNames {[NHead table_names := (NObj 5, NObj 5); NObj 5 := (NHead table_names, NHead table_names)]}
    {[5 := mkTl 254 (Some (text "main"))]}.

Lemma one_name_ok : names_are one_name table_names [mkTr 254 (text "main")].
Proof.
  exists [5]. split; [|constructor; [done|constructor] ]. split.
  - apply list.NoDup_cons. split; [set_solver|]. apply NoDup_singleton.
  - repeat split; vm_compute; reflexivity.
Qed.

Lemma name_lists_witness :
  rtnl_route_str2table (text "main") one_name = Some (254, one_name) ∧
  ∃ m', __trans_list_clear table_names one_name = Some (tt, m') ∧ rtnl_route_str2table (text "main") m' = None.
Proof.
  destruct (name_lists one_name table_names [mkTr 254 (text "main")] one_name_ok) as (_ & Hs & Hc). split; [apply Hs|].
  destruct (Hc ltac:(done)) as (m' & E & Hd). exists m'. split; [done|]. by apply (Hd 0 [] 0 (text "main")).
Defined.

(** ** Registered cache types *)

(** C33 The list of registered cache types is a map from names to operations: for every
    sequence of registrations, removals and searches, the results are those on the map, and
    the list stands for it: a name is registered once, and removed by the operations that
    have it. *)
Theorem registry_refines_map (g : mngt) (s : gmap (list Z) Z) l :
  models g s → Forall (λ x, reg_valid x g) l →
  ∃ g', reg_run l g = Some ((reg_specs (g_ops g) l s).1, g') ∧ models g' (reg_specs (g_ops g) l s).2.
Proof. intros Hm Hv. by apply reg_run_ok. Qed.

(** Two types for the same kind of object; the first one is registered. *)
Definition reg_named (a : string) (next : Z) : reg_ops :=
  mkReg (Some (text a)) 0 9 16 None [(16, text "new"); (-1, [])] 0 false 0 next.

Definition two_types : mngt := mkMngt {[1 := reg_named "route/link" 0; 2 := reg_named "route/addr" 0]} 1 ∅ ∅.

Lemma two_types_ok : models two_types {[text "route/link" := 1]}.
Proof. by apply (one_registered _ _ _ (reg_named "route/link" 0)). Qed.

Lemma registry_refines_map_witness :
  ∃ g', reg_run [Register 2; Register 1; Find (text "route/addr"); Unregister 1; Find (text "route/link")] two_types =
    Some ([0; - NLE_EXIST; 2; 0; 0], g') ∧ models g' {[text "route/addr" := 2]}.
Proof.
  destruct (registry_refines_map two_types {[text "route/link" := 1]}
    [Register 2; Register 1; Find (text "route/addr"); Unregister 1; Find (text "route/link")] two_types_ok) as (g' & E & Hm).
  - repeat (apply Forall_cons_2; [first [exact I|split; [done|by eexists] ]|]). apply Forall_nil_2.
  - exists g'. split; [rewrite E; do 2 f_equal|]; by vm_compute.
Defined.

(** A cache that is provided for a type is the one that is required by the name of the
    type, and the caches of other types stay, if no other type has the same objects. *)
Theorem provided_required (g : mngt) (s : gmap (list Z) Z) a p o c :
  models g s → s !! a = Some p → g_ops g !! p = Some o →
  (∀ b q o', s !! b = Some q → g_ops g !! q = Some o' → ro_obj_ops o' = ro_obj_ops o → q = p) →
  ∃ g', nl_cache_mngt_provide c (ro_obj_ops o) g = Some (tt, g') ∧ models g' s ∧
    nl_cache_mngt_require a g' = Some (c, g') ∧
    (∀ b, b ≠ a → ∀ r g1, nl_cache_mngt_require b g = Some (r, g1) → nl_cache_mngt_require b g' = Some (r, g')).
Proof. apply provide_require. Qed.

Lemma provided_required_witness :
  ∃ g', nl_cache_mngt_provide 77 9 two_types = Some (tt, g') ∧ nl_cache_mngt_require (text "route/link") g' = Some (77, g').
Proof.
  destruct (provided_required two_types {[text "route/link" := 1]} (text "route/link") 1 (reg_named "route/link" 0) 77 two_types_ok)
    as (g' & E & _ & Er & _); [done|done| |by exists g'].
  intros b q o' [_ <-]%lookup_singleton_Some. done.
Defined.

(** Registering the same generic netlink operations twice: the second registration fails
    with [-NLE_EXIST], but they were linked a second time before the check, and every entry
    of the list behind them can no longer be reached. *)
Theorem genl_registered_twice (g : mngt) (s : gmap (list Z) Z) p o a go t r xs :
  models g s → g_ops g !! p = Some o → ro_name o = Some a → s !! a = Some p → ro_obj_ops o ≠ 0 →
  ro_protocol o = NETLINK_GENERIC → GENL_HDRSIZE0 ≤ ro_hdrsize o → ro_genl o ≠ 0 →
  g_genl g !! ro_genl o = Some go → head (ro_msgtypes o) = Some t →
  dlist (g_heads g) genl_ops_list (map NObj (ro_genl o :: r :: xs)) →
  ∃ g', genl_register p g = Some (- NLE_EXIST, g') ∧
    ∀ A (body : Z → option (option A)), find_entry (g_heads g') genl_ops_list body = first_in [ro_genl o] body.
Proof. apply genl_register_again. Qed.

(** The operations 1, with the entry 11 of the list, before those with the entry 12. *)
Definition genl_type : reg_ops := mkReg (Some (text "genl/family")) NETLINK_GENERIC 9 20 None [(16, text "nlctrl"); (-1, [])] 11 true 0 0.

Definition two_genl : mngt := mkMngt {[1 := genl_type]} 1
  {[11 := mkGops 1 16 (text "nlctrl") 1 []; 12 := mkGops 2 17 (text "other") 2 [] ]}
  {[genl_ops_list := (NObj 11, NObj 12); NObj 11 := (NObj 12, genl_ops_list); NObj 12 := (genl_ops_list, NObj 11)]}.

Lemma two_genl_ok : models two_genl {[text "genl/family" := 1]}.
Proof. by apply (one_registered _ _ _ genl_type). Qed.

Lemma genl_registered_twice_witness :
  ∃ g', genl_register 1 two_genl = Some (- NLE_EXIST, g') ∧
    find_entry (g_heads two_genl) genl_ops_list (λ p, Some (if p =? 12 then Some p else None)) = Some (Some 12) ∧
    find_entry (g_heads g') genl_ops_list (λ p, Some (if p =? 12 then Some p else None)) = Some None.
Proof.
  destruct (genl_registered_twice two_genl {[text "genl/family" := 1]} 1 genl_type (text "genl/family")
    (mkGops 1 16 (text "nlctrl") 1 []) (16, text "nlctrl") 12 [] two_genl_ok) as (g' & E & Hf); try done; try lia.
  - split; [|repeat split; vm_compute; reflexivity].
    repeat (apply list.NoDup_cons; split; [set_solver|]). apply NoDup_nil_2.
  - exists g'. split; [done|]. split; [by vm_compute|]. by rewrite Hf.
Defined.
