(* ===== verification/DemoLib.v ===== *)
(** * Concrete instances for the library's theorems

    A small type of cached objects with its messages, a kernel that knows two families, an
    operating system for sockets and a queue of datagrams: the parameters of the models of
    libnl, instantiated, with the proofs that they behave as the models ask. *)

From S2P Require Import Prelude Mem Kernel Packet Netlink NlError Recv Dump Attr NlList.
From S2P Require Import Handlers Ports Socket SockInv NlIo.
From S2P Require Import Objects Cache CacheInv CacheOps CacheSync CacheResync CacheApi CacheFill.
From S2P Require Import Family UserLib GenlCtrl CtrlParse CtrlOk.

(** ** Objects with a key and a value *)

Module Pairs.
Import Nl.
Local Open Scope store_scope.

(** Attribute 1 is the key, which identifies an object, attribute 2 the value. *)
Definition pair_ops : nl_object_ops (Z * Z) := {|
  oo_constructor := (0, 0);
  oo_clone := None;
  oo_free_data := false;
  oo_compare := Some (λ a b attrs _,
    Z.lor (if negb (Z.land attrs 1 =? 0) && negb (a.2.1 =? b.2.1) then 1 else 0)
          (if negb (Z.land attrs 2 =? 0) && negb (a.2.2 =? b.2.2) then 2 else 0));
  oo_id_attrs := 1;
|}.

(** A header and two words. *)
Definition pair_msg (seq : Z) (d : Z * Z) : list Z :=
  le_split 4 24 ++ le_split 2 16 ++ le_split 2 NLM_F_MULTI ++ le_split 4 seq ++ le_split 4 0 ++
  le_split 4 d.1 ++ le_split 4 d.2.

Definition done_msg (seq : Z) : list Z :=
  le_split 4 20 ++ le_split 2 NLMSG_DONE ++ le_split 2 NLM_F_MULTI ++ le_split 4 seq ++ le_split 4 0 ++ le_split 4 0.

(** Fresh memory, never NULL. *)
Definition fresh_addr (st : store (Z * Z)) : Z := fresh (dom (objs st) ∪ dom (caches st) ∪ {[0]} : gset Z).

(** The kernel answers a request with the pairs (7, 71) and (8, 80). *)
Definition answer (i : nl_io) : nl_io :=
  mkIo (io_seq_next i) (io_seq_expect i) (io_sent i)
    (dump_dgs [ [pair_msg (io_seq_expect i) (7, 71)] ] [pair_msg (io_seq_expect i) (8, 80)] (done_msg (io_seq_expect i))).

(** What the allocation of an object looks at. *)
Definition base_world : World (Z * Z) := {|
  obj_ops_at _ := pair_ops;
  cache_ops_at _ := mkCops _ 0 0 [] (λ _ _, crash) None;
  a_calloc := fresh_addr;
  s_cb := nl_cb_default;
  a_cb_clone _ := true;
  a_msg_copy _ _ := true;
|}.

Definition pair_body (d : Z * Z) : Z * Z * Z * Z * (Z * Z) := (1, 16, 0, 3, d).

Definition pair_parser (msg : list Z) (pp_cb : Z → R (Z * Z) Z) : R (Z * Z) Z :=
  k <- lift (ld 4 msg 16) ;;
  v <- lift (ld 4 msg 20) ;;
  @parse_obj _ base_world (pair_body (k, v)) pp_cb.

Definition pair_request (c : Z) : R (Z * Z) Z := λ st,
  Some (0, mkStore (objs st) (caches st) (hs st) (Objects.log st) (answer (io st))).

#[export] Instance pair_world : World (Z * Z) := {|
  obj_ops_at _ := pair_ops;
  cache_ops_at _ := {|
    co_obj_ops := 1;
    co_hdrsize := 0;
    co_msgtypes := [(16, NL_ACT_NEW); (17, NL_ACT_DEL); (-1, NL_ACT_UNSPEC)];
    co_msg_parser := pair_parser;
    co_request_update := Some pair_request;
  |};
  a_calloc := fresh_addr;
  s_cb := nl_cb_default;
  a_cb_clone _ := true;
  a_msg_copy _ _ := true;
|}.

Lemma fresh_ok st : fresh_addr st ≠ 0 ∧ objs st !! fresh_addr st = None ∧ caches st !! fresh_addr st = None.
Proof.
  unfold fresh_addr. pose proof (is_fresh (dom (objs st) ∪ dom (caches st) ∪ {[0]} : gset Z)) as Hf.
  rewrite !not_elem_of_union, not_elem_of_singleton, !not_elem_of_dom in Hf. tauto.
Qed.

Lemma pair_calloc : calloc_ok (D := Z * Z).
Proof. intros st. right. apply fresh_ok. Qed.

Lemma pair_clonable : clonable (D := Z * Z).
Proof. by intros a. Qed.

Lemma pair_tables : closed_tables (D := Z * Z).
Proof. intros a. apply Exists_cons. right. apply Exists_cons. right. by apply Exists_cons_hd. Qed.

Lemma pair_plain : plain_cb (D := Z * Z).
Proof. done. Qed.

(** Memory never runs out. *)
Lemma pair_memory : memory (D := Z * Z) False.
Proof. split; [|done]. intros st E. by destruct (fresh_ok st). Qed.

Section Msg.
Context (seq : Z) (d : Z * Z) (Hs : 0 ≤ seq < 2 ^ 32) (H1 : 0 ≤ d.1 < 2 ^ 32) (H2 : 0 ≤ d.2 < 2 ^ 32).

Lemma pair_field n pre bs post v :
  pair_msg seq d = pre ++ bs ++ post → length bs = n → le_combine bs = v → ld n (pair_msg seq d) (zlen pre) = Some v.
Proof. intros -> Hl <-. by apply ld_mid. Qed.

Lemma pair_carries ops : ops = cache_ops_at (D := Z * Z) 1 → carries False ops (pair_msg seq d) (pair_body d).
Proof.
  intros ->. split; [done|done| | |].
  - exists 24. split; [|done]. exact (pair_field 4 [] (le_split 4 24) _ _ eq_refl eq_refl eq_refl).
  - exists 16, NL_ACT_NEW. split; [|done]. exact (pair_field 2 (le_split 4 24) (le_split 2 16) _ _ eq_refl eq_refl eq_refl).
  - intros pp_cb st. left. cbn [co_msg_parser cache_ops_at pair_world]. unfold pair_parser.
    assert (ld 4 (pair_msg seq d) 16 = Some d.1) as E1.
    { apply (pair_field 4 (le_split 4 24 ++ le_split 2 16 ++ le_split 2 NLM_F_MULTI ++ le_split 4 seq ++ le_split 4 0) (le_split 4 d.1) (le_split 4 d.2));
        [unfold pair_msg; by rewrite <- !app_assoc|by rewrite length_le_split|by rewrite le_combine_split4, u32_small]. }
    assert (ld 4 (pair_msg seq d) 20 = Some d.2) as E2.
    { apply (pair_field 4 (le_split 4 24 ++ le_split 2 16 ++ le_split 2 NLM_F_MULTI ++ le_split 4 seq ++ le_split 4 0 ++ le_split 4 d.1) (le_split 4 d.2) []);
        [unfold pair_msg; by rewrite app_nil_r, <- !app_assoc|by rewrite length_le_split|by rewrite le_combine_split4, u32_small]. }
    unfold rbind, lift. rewrite E1, E2. by destruct d.
Qed.

Lemma pair_part : part_msg seq false (pair_msg seq d).
Proof.
  split; [| | | |done|done].
  - exact (pair_field 4 [] (le_split 4 24) _ _ eq_refl eq_refl eq_refl).
  - exists 16. split; [|done]. exact (pair_field 2 (le_split 4 24) (le_split 2 16) _ _ eq_refl eq_refl eq_refl).
  - exists NLM_F_MULTI. split; [|done].
    exact (pair_field 2 (le_split 4 24 ++ le_split 2 16) (le_split 2 NLM_F_MULTI) _ _ eq_refl eq_refl eq_refl).
  - apply (pair_field 4 (le_split 4 24 ++ le_split 2 16 ++ le_split 2 NLM_F_MULTI) (le_split 4 seq)
      (le_split 4 0 ++ le_split 4 d.1 ++ le_split 4 d.2)); [done|done|by rewrite le_combine_split4, u32_small].
Qed.

Lemma done_field n pre bs post v :
  done_msg seq = pre ++ bs ++ post → length bs = n → le_combine bs = v → ld n (done_msg seq) (zlen pre) = Some v.
Proof. intros -> Hl <-. by apply ld_mid. Qed.

Lemma done_part : part_msg seq true (done_msg seq).
Proof.
  split; [| | | |done|done].
  - exact (done_field 4 [] (le_split 4 20) _ _ eq_refl eq_refl eq_refl).
  - exists NLMSG_DONE. split; [|done]. exact (done_field 2 (le_split 4 20) (le_split 2 NLMSG_DONE) _ _ eq_refl eq_refl eq_refl).
  - exists NLM_F_MULTI. split; [|done].
    exact (done_field 2 (le_split 4 20 ++ le_split 2 NLMSG_DONE) (le_split 2 NLM_F_MULTI) _ _ eq_refl eq_refl eq_refl).
  - apply (done_field 4 (le_split 4 20 ++ le_split 2 NLMSG_DONE ++ le_split 2 NLM_F_MULTI) (le_split 4 seq)
      (le_split 4 0 ++ le_split 4 0)); [done|done|by rewrite le_combine_split4, u32_small].
Qed.
End Msg.

(** A cache at the address 5 with the pair (7, 70) at 6. *)
Definition pair_store : store (Z * Z) :=
  mkStore {[6 := mkObj 1 1 5 16 0 3 (7, 70)]} {[5 := mkCache 1 1]}
    {[NHead 5 := (NObj 6, NObj 6); NObj 6 := (NHead 5, NHead 5)]} [] (mkIo 10 10 [] []).

Definition empty_store : store (Z * Z) := mkStore ∅ ∅ ∅ [] (mkIo 10 10 [] []).

Lemma empty_store_ok : st_ok (λ _, 0) ∅ empty_store.
Proof. split; [split|..]; try done. intros p [o Ho]. done. Qed.

Lemma pair_store_ok : st_ok (λ _, 0) {[5 := [6]]} pair_store.
Proof.
  split; [split|..]; simpl.
  - by rewrite !dom_singleton_L.
  - done.
  - intros c ps [<- <-]%lookup_singleton_Some. split; [|repeat split; vm_compute; reflexivity]. apply list.NoDup_cons. split; [set_solver|apply NoDup_singleton].
  - intros c ps p [<- <-]%lookup_singleton_Some ->%list_elem_of_singleton. eexists. by rewrite lookup_singleton_eq.
  - intros p o [<- <-]%lookup_singleton_Some _. exists [6]. rewrite lookup_singleton_eq. split; [done|]. set_solver.
  - intros p o [<- <-]%lookup_singleton_Some. done.
  - done.
  - intros p [o [<- _]%lookup_singleton_Some]. by eexists.
  - intros c ps k [<- <-]%lookup_singleton_Some. cbn [caches pair_store]. by intros [_ <-]%lookup_singleton_Some.
  - intros p o k. cbn [objs pair_store]. intros [<- <-]%lookup_singleton_Some. cbn [ce_cache caches pair_store]. by intros [_ <-]%lookup_singleton_Some.
Qed.
End Pairs.

(** ** A kernel with two families *)

Module Fams.
Import Nl.

(** "nf10_eth_driver", with two operations and the group "events", and "nlctrl". *)
Definition nf10_name : list Z := [110; 102; 49; 48; 95; 101; 116; 104; 95; 100; 114; 105; 118; 101; 114].
Definition ctrl_name : list Z := [110; 108; 99; 116; 114; 108].
Definition events : list Z := [101; 118; 101; 110; 116; 115].
Definition nf10 : genl_family := mkFamily 27 nf10_name 1 0 4 [(1, 11); (2, 11)] [(3, events)].
Definition nlctrl : genl_family := mkFamily 16 ctrl_name 2 0 7 [(3, 14)] [].

Definition fresh_addr (st : store genl_family) : Z := fresh (dom (objs st) ∪ dom (caches st) ∪ {[0]} : gset Z).

(** The reply to the request [bytes]: a dump in two datagrams with its sequence number. *)
Definition reply (bytes : list Z) : list datagram :=
  let seq := le_combine (take 4 (drop 8 bytes)) in
  dump_dgs [ [fam_msg seq 4242 nlctrl] ] [fam_msg seq 4242 nf10] (Pairs.done_msg seq).

#[export] Instance ctrl : Ctrl := {|
  cw_calloc := fresh_addr;
  cw_entry_alloc _ := true;
  cw_msg_alloc _ := true;
  cw_cb_clone _ := true;
  cw_msg_copy _ _ := true;
  cw_cb := nl_cb_default;
  cw_pid := 4242;
  cw_msg_size := 4096;
  cw_send _ bytes := (zlen bytes, reply bytes);
|}.

Lemma ctrl_fresh_ok st : fresh_addr st ≠ 0 ∧ objs st !! fresh_addr st = None ∧ caches st !! fresh_addr st = None.
Proof.
  unfold fresh_addr. pose proof (is_fresh (dom (objs st) ∪ dom (caches st) ∪ {[0]} : gset Z)) as Hf.
  rewrite !not_elem_of_union, not_elem_of_singleton, !not_elem_of_dom in Hf. tauto.
Qed.

Lemma ctrl_calloc : calloc_ok (D := genl_family).
Proof. intros st. right. apply ctrl_fresh_ok. Qed.

Lemma ctrl_memory : ¬ no_memory.
Proof. intros [(st & [E|[E|[E|[m E] ] ] ])|(i & E)]; try done. by destruct (ctrl_fresh_ok st). Qed.

(** Decidable conditions on lists, evaluated. *)
Lemma Forall_bool {A} (f : A → bool) (P : A → Prop) l : (∀ x, f x = true → P x) → forallb f l = true → Forall P l.
Proof.
  intros Hf. induction l as [|x l IH]; intros E; [constructor|]. cbn [forallb] in E.
  apply andb_true_iff in E as [E1 E2]. constructor; auto.
Qed.

Definition attr_okb (a : Z * list Z) : bool := (0 <? a.1) && (a.1 <? 2 ^ 14) && (4 + zlen a.2 <? 2 ^ 16).

Lemma attr_ok_bool l : forallb attr_okb l = true → Forall attr_ok l.
Proof.
  apply Forall_bool. intros a Ha. unfold attr_okb in Ha. unfold attr_ok. change NLA_HDRLEN with 4 in *. boolify. lia.
Qed.

Definition byteb (b : Z) : bool := (0 <=? b) && (b <? 256).

Lemma name_ok_bool s : forallb (λ b, byteb b && negb (b =? 0)) s = true → zlen s ≤ 15 → name_ok s.
Proof.
  intros Hs Hl. split; [|split; [|done] ].
  - intros Hin. rewrite forallb_forall in Hs. specialize (Hs 0). rewrite <- list_elem_of_In in Hs. by specialize (Hs Hin).
  - eapply (Forall_bool _ _ s); [|exact Hs]. intros b Hb. unfold byteb, is_byte in *. boolify. lia.
Qed.

Lemma nf10_ok : family_ok nf10.
Proof.
  split; try (cbn; lia).
  - by apply name_ok_bool.
  - repeat (apply list.Forall_cons; split); try (cbn; lia). apply Forall_nil.
  - apply list.Forall_cons. split; [|apply Forall_nil]. split; [cbn; lia|by apply name_ok_bool].
  - by apply attr_ok_bool.
  - by apply attr_ok_bool.
  - by apply attr_ok_bool.
Qed.

Lemma nlctrl_ok : family_ok nlctrl.
Proof.
  split; try (cbn; lia).
  - by apply name_ok_bool.
  - apply list.Forall_cons. split; [cbn; lia|apply Forall_nil].
  - apply Forall_nil.
  - by apply attr_ok_bool.
  - by apply attr_ok_bool.
  - by apply attr_ok_bool.
Qed.

Definition empty_store : store genl_family := mkStore ∅ ∅ ∅ [] (mkIo 10 10 [] []).

Lemma ctrl_store_ok : st_ok (λ _, 0) ∅ empty_store.
Proof. split; [split|..]; try done. intros p [o Ho]. cbn in Ho. by rewrite lookup_empty in Ho. Qed.

Lemma ctrl_answers : answers [ [nlctrl] ] [nf10] (Pairs.done_msg 10) (io empty_store).
Proof.
  split; try done.
  - apply list.Forall_cons. split; [split; [apply nlctrl_ok|by vm_compute]|].
    apply list.Forall_cons. split; [split; [apply nf10_ok|by vm_compute]|apply Forall_nil].
  - apply list.Forall_cons. split; [done|apply Forall_nil].
  - by apply Pairs.done_part.
Qed.
End Fams.

(** ** Sockets *)

Module Machine.
Definition fresh_addr (n : net) : Z := fresh (dom (cbs n) ∪ dom (socks n) ∪ {[0]} : gset Z).

(** The descriptor after the highest one. *)
Definition next_fd (n : net) : Z := 1 + set_fold Z.max 2 (fds n).

(** The sockets with a descriptor. *)
Definition with_fd (n : net) (fd : Z) : list (Z * nl_sock) :=
  List.filter (λ x, s_fd x.2 =? fd) (map_to_list (socks n)).

#[export] Instance machine : Os := {|
  os_calloc := fresh_addr;
  os_time _ := 1000;
  os_getpid := 4242;
  os_socket n _ := inl (next_fd n);
  os_setsockopt _ _ _ _ _ := None;
  os_bind _ _ _ := None;
  os_getsockname n fd :=
    match with_fd n fd with
    | [x] => inl (mkAddr AF_NETLINK (nl_pid (s_local x.2)) 0, sizeof_sockaddr_nl)
    | _ => inr 9
    end;
  os_fcntl _ _ := None;
|}.

Lemma next_fd_new n fd : fd ∈ fds n → fd < next_fd n.
Proof.
  unfold next_fd. revert fd. apply (set_fold_ind_L (λ b X, 2 ≤ b ∧ ∀ fd, fd ∈ X → fd < 1 + b)).
  - split; [done|]. set_solver.
  - intros x X b _ [Hb IH]. split; [lia|]. intros fd [->%elem_of_singleton|Hfd]%elem_of_union; [lia|]. specialize (IH fd Hfd). lia.
Qed.

Lemma next_fd_pos n : 0 ≤ next_fd n.
Proof.
  unfold next_fd. assert (2 ≤ set_fold Z.max 2 (fds n)); [|lia].
  apply (set_fold_ind_L (λ b X, 2 ≤ b)); [done|]. intros. lia.
Qed.

Lemma machine_ok : os_ok.
Proof.
  split.
  - intros n. right. cbn [os_calloc machine]. unfold fresh_addr.
    pose proof (is_fresh (dom (cbs n) ∪ dom (socks n) ∪ {[0]} : gset Z)) as Hf.
    rewrite !not_elem_of_union, not_elem_of_singleton, !not_elem_of_dom in Hf. tauto.
  - intros n proto fd [= <-]. split; [apply next_fd_pos|]. intros Hin. pose proof (next_fd_new _ _ Hin). lia.
  - intros n p sk addr len Hp _. cbn [os_getsockname machine].
    assert ((p, sk) ∈ with_fd n (s_fd sk)) as Hin.
    { unfold with_fd. apply list_elem_of_In, filter_In. split; [by apply list_elem_of_In, elem_of_map_to_list|by rewrite Z.eqb_refl]. }
    destruct (with_fd n (s_fd sk)) as [|x [|] ]; [done| |done]. apply list_elem_of_singleton in Hin as <-.
    intros [= <- _]. done.
  - done.
Qed.
End Machine.

Module Queue.
Definition recvmsg (q : list event) (len : Z) (peek : bool) (clen : Z) : rx * list event :=
  match q with
  | [] => (mkRx (-1) EAGAIN [] false false 0, [])
  | Fails e :: q => (mkRx (-1) e [] false false 0, q)
  | Arrives bs :: q' =>
      (mkRx (Z.min len (zlen bs)) 0 (take (Z.to_nat len) bs) (len <? zlen bs) false sizeof_sockaddr_nl,
       if peek then q else q')
  end.

Lemma queue_ok : datagrams recvmsg (λ q, q).
Proof. split; by intros k x q len peek clen ->. Qed.

(** A socket with the flags [fl]. *)
Definition sock_with (fl : Z) : nl_sock :=
  mkSock (mkAddr AF_NETLINK 4242 0) (mkAddr AF_NETLINK 0 0) 3 16 1000 1000 fl 1.
End Queue.
