(* ===== verification/LibnlCorrect.v ===== *)
(** * Correctness of libnl: attributes, receiving, caches and the controller

    The theorems on the parts of libnl that the register library is built on, with instances
    at the objects and families of [DemoLib]. *)

From Stdlib Require Import Sorting.Sorted.
From S2P Require Import Prelude Mem Kernel Packet Netlink NlError Recv Dump Attr NlList.
From S2P Require Import Family Objects Cache CacheInv CacheOps CacheSync CacheResync CacheApi.
From S2P Require Import CacheFill Family UserLib GenlCtrl CtrlParse CtrlOk DemoLib.

#[local] Existing Instance Pairs.pair_world.
#[local] Existing Instance Fams.ctrl.

(** ** Caches *)

(** C7 Resynchronising a cache with the kernel, on a socket whose callbacks leave valid
    messages to the cache: the dump answers the request, its messages have objects with
    pairwise different identities, and their message types are listed as [NL_ACT_NEW] in the
    cache's table ([news_obj]; the controller's table is not such a one).  Unless memory runs
    out, the cache then holds exactly the objects of the dump, in their order, and the change
    callback was called for each object that is new or differs from the one it replaces and
    then for each one that is gone.  When memory runs out, the error says so and the store is
    in order. *)
Theorem cache_resync {D} `{World D} oom ext ct st c a ps k f err reply cb mss ms fin rest bs :
  memory (D := D) oom → calloc_ok (D := D) → plain_cb (D := D) → st_ok ext ct st → ct !! c = Some ps →
  caches st !! c = Some k → c_ops k = a → co_request_update (cache_ops_at a) = Some f →
  (∀ st', f c st' = Some (err, set_io (reply (io st')) st')) → 0 ≤ err →
  dumped (reply (io st)) mss ms fin rest →
  Forall2 (carries oom (cache_ops_at a)) (concat mss ++ ms) bs →
  Forall (news_obj (cache_ops_at a)) bs → StronglySorted (λ x y, CacheSync.same_id x y = false) bs →
  rwp (nl_cache_resync c cb) (λ r st',
    oom ∧ r = Some (- Nl.NLE_NOMEM) ∧ (∃ ct', st_ok ext ct' st') ∨
    r = Some 0 ∧ ∃ qs,
      st_ok ext (<[c := qs]> ct) st' ∧ Forall2 (λ q b, body st' !! q = Some b) qs bs ∧
      let s := sync cb (mark <$> body st) c ps (zip qs bs) in
      Objects.log st' = Objects.log st ++ s.2 ++ deleted cb c s.1) st.
Proof. intros. by eapply resync_ok. Qed.

(** The cache of [Pairs] has (7, 70); the dump has (7, 71) and (8, 80). *)
Lemma cache_resync_witness :
  rwp (nl_cache_resync 5 true) (λ r st', r = Some 0 ∧ ∃ q1 q2,
    st_ok (λ _, 0) {[5 := [q1; q2]]} st' ∧ body st' !! q1 = Some (Pairs.pair_body (7, 71)) ∧
    body st' !! q2 = Some (Pairs.pair_body (8, 80)) ∧
    Objects.log st' = [(5, q1, NL_ACT_CHANGE); (5, q2, NL_ACT_NEW)]) Pairs.pair_store.
Proof.
  eapply rwp_mono.
  { apply (cache_resync False (λ _, 0) {[5 := [6]]} Pairs.pair_store 5 1 [6] (mkCache 1 1) Pairs.pair_request 0 Pairs.answer true
      [ [Pairs.pair_msg 10 (7, 71)] ] [Pairs.pair_msg 10 (8, 80)] (Pairs.done_msg 10) []
      [Pairs.pair_body (7, 71); Pairs.pair_body (8, 80)]);
      [apply Pairs.pair_memory|apply Pairs.pair_calloc|apply Pairs.pair_plain|apply Pairs.pair_store_ok
      |reflexivity|reflexivity|reflexivity|reflexivity|reflexivity|lia| | | |].
    - split; [reflexivity| | |by apply Pairs.done_part].
      + apply list.Forall_cons. split; [|apply Forall_nil]. split; [done|].
        apply list.Forall_cons. split; [|apply Forall_nil]. by apply Pairs.pair_part.
      + apply list.Forall_cons. split; [|apply Forall_nil]. by apply Pairs.pair_part.
    - apply list.Forall2_cons. split; [by apply Pairs.pair_carries|].
      apply list.Forall2_cons. split; [by apply Pairs.pair_carries|]. apply Forall2_nil.
    - apply list.Forall_cons. split; [done|]. apply list.Forall_cons. split; [done|apply Forall_nil].
    - apply SSorted_cons; [|apply list.Forall_cons; split; [done|apply Forall_nil] ]. apply SSorted_cons; [apply SSorted_nil|apply Forall_nil]. }
  intros r st' [(? & _)|(-> & qs & Hok & Hb & Hl)]; [done|]. split; [done|].
  apply Forall2_cons_inv_r in Hb as (q1 & qs1 & B1 & Hb & ->).
  apply Forall2_cons_inv_r in Hb as (q2 & qs2 & B2 & Hb & ->). apply Forall2_nil_inv_r in Hb as ->.
  exists q1, q2. rewrite insert_singleton_eq in Hok. split; [done|]. split; [done|]. split; [done|]. by rewrite Hl.
Defined.

(** C10 Programs that use objects and caches by the rules, with types that can be cloned (a
    type that owns memory has a function to clone it, which returns and which, when it fails,
    leaves no pointer of the source in the copy; the families, neighbours and rules of the
    library are not such types) and tables of message types that are closed: whatever results the library gives, also without memory, a
    program that only touches objects it holds or that are in a cache never crashes, and one
    that ends with no reference and no cache has freed all objects and caches. *)
Theorem cache_programs_clean {D} `{World D} prog st :
  calloc_ok (D := D) → clonable (D := D) → closed_tables (D := D) → st_ok (λ _, 0) ∅ st →
  polite prog (λ ext ct, ct = ∅ ∧ ∀ p, ext p = 0) [] (λ _, 0) ∅ →
  ∃ rs st', plays prog [] st rs st' ∧ objs st' = ∅ ∧ caches st' = ∅.
Proof.
  intros Hca Hcl Htab Hok Hp.
  destruct (polite_plays Hca Hcl Htab _ _ _ _ _ _ Hok Hp) as (rs & st' & ext & ct & Hpl & Hok' & -> & He).
  exists rs, st'. split; [done|]. by eapply nothing_left.
Qed.

(** Make an object and a cache, add the one to the other, and free both. *)
Definition demo_prog (rs : list Z) : option call :=
  match rs with
  | [] => Some (CAlloc 1)
  | [p] => if p =? 0 then None else Some (CCacheAlloc 1)
  | [p; c] => if c =? 0 then Some (CPut p) else Some (CAdd c p)
  | [p; c; _] => if c =? 0 then None else Some (CPut p)
  | [p; c; _; _] => Some (CCacheFree c)
  | _ => None
  end.

Lemma demo_polite : polite demo_prog (λ ext ct, ct = ∅ ∧ ∀ p, ext p = 0) [] (λ _, 0) ∅.
Proof.
  eapply polite_call; [done|done|]. cbn [after app]. intros p e1 c1 [(-> & E1 & ->)|(Hp & _ & E1 & ->)].
  { by eapply polite_end. }
  assert (0 < e1 p ∧ ∀ q, e1 q = add_ref p 1 (λ _, 0) q) as [Hep He1] by (rewrite E1; unfold add_ref; by rewrite Z.eqb_refl).
  eapply polite_call; [cbn; by rewrite (proj2 (Z.eqb_neq _ _) Hp)|done|]. cbn [after app].
  intros c e2 c2 [(-> & E2 & ->)|(Hc & Hn & E2 & ->)].
  { eapply polite_call; [done|right; by rewrite E2|]. cbn [after app]. intros r e3 c3 (E3 & ->).
    eapply polite_end; [done|]. split; [done|]. intros q. rewrite E3, (proj2 (Z.eqb_neq _ _) Hp).
    unfold add_ref. rewrite E2, He1. unfold add_ref. destruct (q =? p); lia. }
  eapply polite_call; [cbn; by rewrite (proj2 (Z.eqb_neq _ _) Hc)|split; [by rewrite lookup_insert_eq|left; by rewrite E2]|].
  cbn [after app]. intros r e3 c3 Ha.
  assert ((∀ q, e3 q = e2 q) ∧ ∃ l, c3 = <[c := l]> ∅) as [E3 [l ->] ].
  { destruct Ha as [(_ & E3 & ->)|(_ & E3 & q & _ & _ & ->)]; (split; [done|]); [by eexists|].
    unfold push. rewrite alter_insert_eq. by eexists. }
  eapply polite_call; [cbn; by rewrite (proj2 (Z.eqb_neq _ _) Hc)|right; by rewrite E3, E2|]. cbn [after app].
  intros r4 e4 c4 (E4 & ->).
  eapply polite_call; [done|right; by rewrite lookup_insert_eq|]. cbn [after app]. intros r5 e5 c5 (E5 & ->).
  eapply polite_end; [done|]. split; [by rewrite delete_insert_eq, delete_empty|]. intros q.
  rewrite E5, E4, (proj2 (Z.eqb_neq _ _) Hp). unfold add_ref. rewrite E3, E2, He1. unfold add_ref. destruct (q =? p); lia.
Qed.

Lemma cache_programs_clean_witness :
  ∃ rs st', plays demo_prog [] Pairs.empty_store rs st' ∧ objs st' = ∅ ∧ caches st' = ∅.
Proof.
  apply (cache_programs_clean demo_prog Pairs.empty_store);
    [apply Pairs.pair_calloc|apply Pairs.pair_clonable|apply Pairs.pair_tables|apply Pairs.empty_store_ok|apply demo_polite].
Defined.

(** C16 What every call keeps: a call by the rules, on types that can be cloned ([clonable]: a
    type that owns memory has a function to clone it, which returns and which, when it fails,
    leaves no pointer of the source in the copy), never crashes; after it each object of a
    cache is of the cache's type, says that it is in this cache, and occurs there once, the
    cache counts its objects, and the count of references of each object is the number held
    by the program, and one for its cache. *)
Theorem cache_calls_typed {D} `{World D} ext ct st x :
  calloc_ok (D := D) → clonable (D := D) → closed_tables (D := D) → st_ok ext ct st → may ext ct x →
  rwp (exec x) (λ r st', ∃ ext' ct', after x r ext ct ext' ct' ∧ st_ok ext' ct' st' ∧
    (∀ c ps k, ct' !! c = Some ps → caches st' !! c = Some k → c_nitems k = zlen ps ∧ NoDup ps ∧
       ∀ p, p ∈ ps → ∃ o, objs st' !! p = Some o ∧ ce_cache o = c ∧ ce_ops o = co_obj_ops (cache_ops_at (c_ops k))) ∧
    (∀ p o, objs st' !! p = Some o → ce_refcnt o = ext' p + (if ce_cache o =? 0 then 0 else 1))) st.
Proof.
  intros Hca Hcl Htab Hok Hmay. eapply rwp_mono; [by eapply exec_ok|].
  intros r st' (ext' & ct' & Hok' & Ha). exists ext', ct'. split; [done|]. split; [done|]. split.
  - intros c ps k Hc Hk. split; [by eapply (ok_counts _ _ _ Hok')|]. split; [by eapply core_nodup; [apply Hok'|]|].
    intros p Hp. destruct (core_mem _ _ _ (ok_core _ _ _ Hok') _ _ _ Hc Hp) as (o & Ho & <-). exists o.
    split; [done|]. split; [done|]. exact (ok_typed _ _ _ Hok' p o k Ho Hk).
  - intros p o Ho. by destruct (core_ref _ _ _ (ok_core _ _ _ Hok') _ _ Ho) as (_ & _ & ?).
Qed.

(** Removing the object of the cache of [Pairs]. *)
Lemma cache_calls_typed_witness :
  rwp (exec (CRemove 6)) (λ r st', ∃ ext' ct', after (CRemove 6) r (λ _, 0) {[5 := [6]]} ext' ct' ∧ st_ok ext' ct' st' ∧
    (∀ c ps k, ct' !! c = Some ps → caches st' !! c = Some k → c_nitems k = zlen ps ∧ NoDup ps ∧
       ∀ p, p ∈ ps → ∃ o, objs st' !! p = Some o ∧ ce_cache o = c ∧ ce_ops o = co_obj_ops (cache_ops_at (D := Z * Z) (c_ops k))) ∧
    (∀ p o, objs st' !! p = Some o → ce_refcnt o = ext' p + (if ce_cache o =? 0 then 0 else 1))) Pairs.pair_store.
Proof.
  apply (cache_calls_typed (λ _, 0) {[5 := [6]]} Pairs.pair_store (CRemove 6));
    [apply Pairs.pair_calloc|apply Pairs.pair_clonable|apply Pairs.pair_tables|apply Pairs.pair_store_ok|].
  right. exists 5, [6]. split; [reflexivity|]. apply elem_of_cons. by left.
Defined.

(** ** The controller *)

(** C8 Resolving a family by its name: the kernel's dump of families, spread over datagrams in
    any way, is read into a cache, the number of the first family of that name is returned
    (-NLE_OBJ_NOTFOUND if there is none), or that of its multicast group, and everything that
    was allocated for it is freed.  The only other results are -NLE_NOMEM, when memory runs
    out, and the error of [sendmsg]. *)
Theorem family_resolved `{Ctrl} ext ct st fss fs fin name grp :
  calloc_ok (D := genl_family) → plain_cb (D := genl_family) → 20 ≤ cw_msg_size < 2 ^ 31 → st_ok ext ct st →
  answers fss fs fin (io st) →
  rwp (genl_ctrl_resolve name) (looked_up ext ct st fss fs gf_id name) st ∧
  rwp (genl_ctrl_resolve_grp name grp) (looked_up ext ct st fss fs (group_of grp) name) st.
Proof. intros. split; [eapply resolve_ok; eassumption|eapply resolve_grp_ok; eassumption]. Qed.

(** The driver's family is found, with the number 27, and its group "events", number 3. *)
Lemma family_resolved_witness :
  rwp (genl_ctrl_resolve Fams.nf10_name) (λ r st', r = Some 27 ∧ objs st' = ∅) Fams.empty_store ∧
  rwp (genl_ctrl_resolve_grp Fams.nf10_name Fams.events) (λ r st', r = Some 3 ∧ objs st' = ∅) Fams.empty_store.
Proof.
  destruct (family_resolved (λ _, 0) ∅ Fams.empty_store [ [Fams.nlctrl] ] [Fams.nf10] (Pairs.done_msg 10) Fams.nf10_name Fams.events)
    as [H1 H2]; [apply Fams.ctrl_calloc|done|cbn; lia|apply Fams.ctrl_store_ok|apply Fams.ctrl_answers|].
  assert (∀ val v, resolved val Fams.nf10_name [Fams.nlctrl; Fams.nf10] = v → 0 ≤ v → ∀ r st',
    looked_up (λ _, 0) ∅ Fams.empty_store [ [Fams.nlctrl] ] [Fams.nf10] val Fams.nf10_name r st' → r = Some v ∧ objs st' = ∅) as Hl.
  { intros val v Ev Hv r st' (e & -> & (Hok & Hb & _) & He). split.
    - destruct He as [->|[ [Hm _]|[-> ?] ] ]; [by rewrite <- Ev|by destruct Fams.ctrl_memory|done].
    - apply map_empty. intros p. apply (f_equal (lookup p)) in Hb. unfold body in Hb. rewrite !lookup_fmap in Hb.
      cbn [objs Fams.empty_store] in Hb. rewrite lookup_empty in Hb. by destruct (objs st' !! p). }
  split.
  - eapply rwp_mono; [exact H1|]. apply Hl; [vm_compute; reflexivity|lia].
  - eapply rwp_mono; [exact H2|]. apply Hl; [vm_compute; reflexivity|lia].
Defined.

(** C17 Reading back a family: the parser makes, of the message in which the kernel sends a
    family, an object with the family's number, name, version, header size, attributes,
    operations and groups, and hands it to the callback; or memory runs out, and it leaves
    nothing behind. *)
Theorem family_message_roundtrip `{Ctrl} seq pid f pp_cb st :
  calloc_ok (D := genl_family) → family_ok f → 0 ≤ seq < 2 ^ 32 → zlen (Nl.flat (fam_attrs f)) < 2 ^ 30 →
  genl_msg_parser (fam_msg seq pid f) pp_cb st = parse_obj (fam_body f) pp_cb st ∨
  gives_up no_entry (genl_msg_parser (fam_msg seq pid f) pp_cb) st.
Proof.
  intros Hca Hf Hs Hsz. refine (ca_parse no_entry genl_ctrl_ops (fam_msg seq pid f) (fam_body f) _ pp_cb st).
  apply fam_carries; [done..|]. intros st' Hst'. by exists st'.
Qed.

Lemma family_message_roundtrip_witness :
  genl_msg_parser (fam_msg 10 0 Fams.nf10) (λ _, rret 0) Fams.empty_store =
  parse_obj (fam_body Fams.nf10) (λ _, rret 0) Fams.empty_store.
Proof.
  destruct (family_message_roundtrip 10 0 Fams.nf10 (λ _, rret 0) Fams.empty_store) as [E|[ [? ?] _] ];
    [apply Fams.ctrl_calloc|apply Fams.nf10_ok|lia|by vm_compute|exact E|done].
Defined.

(** Cloning a family with an operation never ends: the bytes of the new object are those of
    the old one, so that the loop appends each copy to the very list that it walks. *)
Theorem family_clone_endless op_calloc fuel src dst p ps s :
  plenty op_calloc → src ≠ dst → dlist (op_heads s) (NHead src) (NObj <$> p :: ps) →
  (∀ q, q ∈ p :: ps → is_Some (ops s !! q)) →
  family_clone_ops op_calloc fuel src dst s = Busy.
Proof. apply family_clone_busy. Qed.

(** Two families, one operation. *)
Definition demo_ops : opstore :=
  mkOpstore {[NHead 1 := (NObj 5, NObj 5); NObj 5 := (NHead 1, NHead 1)]} {[5 := (3, 14)]}.
Definition demo_op_calloc (s : opstore) : Z :=
  1 + set_fold (λ n m, match n with NObj p => Z.max p m | NHead _ => m end) 1 (dom (op_heads s) : gset node).

Lemma demo_plenty : plenty demo_op_calloc.
Proof.
  intros s. unfold demo_op_calloc. set (X := dom (op_heads s) : gset node).
  assert (1 ≤ set_fold (λ n m, match n with NObj p => Z.max p m | NHead _ => m end) 1 X ∧
    ∀ p, NObj p ∈ X → p ≤ set_fold (λ n m, match n with NObj p => Z.max p m | NHead _ => m end) 1 X) as [H1 H2].
  { apply (set_fold_ind_L (λ b X, 1 ≤ b ∧ ∀ p, NObj p ∈ X → p ≤ b)); [split; [done|set_solver]|].
    intros x Y b _ [Hb IH]. destruct x as [q|q].
    - split; [lia|]. intros p [[= ->]%elem_of_singleton|Hp]%elem_of_union; [lia|]. specialize (IH p Hp). lia.
    - split; [done|]. intros p [?%elem_of_singleton|Hp]%elem_of_union; [done|]. by apply IH. }
  split; [lia|]. apply not_elem_of_dom. intros Hin. specialize (H2 _ Hin). lia.
Qed.

Lemma family_clone_endless_witness : family_clone_ops demo_op_calloc 1000 1 2 demo_ops = Busy.
Proof.
  apply (family_clone_endless demo_op_calloc 1000 1 2 5 [] demo_ops); [apply demo_plenty|done| |].
  - split; [|repeat split; vm_compute; reflexivity]. apply list.NoDup_cons. split; [set_solver|apply NoDup_singleton].
  - intros q ->%list_elem_of_singleton. by eexists.
Defined.

(** ** Attributes *)

(** C26 A nested attribute that is built from its parts, in a message with room for it, is read
    back: the attribute is found in the message, and in it every inner attribute, with its
    bytes. *)
Theorem nested_attributes_roundtrip msg hdr l ty inner room maxtype policy maxtype' policy' :
  Nl.represents msg hdr l room →
  2 * (20 + zlen (Nl.flat (l ++ (ty, []) :: inner))) ≤ Nl.nm_size msg →
  Forall Nl.attr_ok (l ++ [(ty, Nl.flat inner)]) → Forall (passes maxtype policy) (l ++ [(ty, Nl.flat inner)]) →
  Forall Nl.attr_ok inner → Forall (passes maxtype' policy') inner → ty ≤ maxtype →
  ∃ start m1 m2 m3 t off t',
    nla_nest_start msg ty = Some (Some start, m1) ∧ Nl.nla_puts m1 inner = Some m2 ∧ nla_nest_end m2 start = Some (0, m3) ∧
    Nl.nla_parse (Nl.nm_nlh m3) maxtype 20 (zlen (Nl.flat (l ++ [(ty, Nl.flat inner)]))) (Some policy) = Some (0, t) ∧
    t ty = Some off ∧ nla_parse_nested (Nl.nm_nlh m3) maxtype' off (Some policy') = Some (0, t') ∧
    ∀ ty', ty' ≤ maxtype' →
      match Nl.find_attr ty' inner with
      | Some bs => ∃ off', t' ty' = Some off' ∧ attr_in (Nl.nm_nlh m3) off' bs
      | None => t' ty' = None
      end.
Proof.
  intros Hr Hfit Hok Hpass Hoki Hpassi Hty.
  pose proof Hok as [_ Hlast]%Forall_app. apply list.Forall_cons in Hlast as [ [_ Hsm] _]. cbn [snd] in Hsm.
  destruct (nest_roundtrip msg hdr l ty inner room Hr Hfit ltac:(lia)) as (start & m1 & m2 & m3 & room' & E1 & E2 & E3 & Hr3).
  pose proof Hr3 as [Hb Hh Hs Hbd]. set (L := l ++ [(ty, Nl.flat inner)]) in *.
  set (pre := le_split 4 (20 + zlen (Nl.flat L)) ++ hdr).
  assert (zlen pre = 20) as Hpre by (unfold pre; rewrite zlen_app, zlen_le_split; unfold zlen; rewrite Hh; lia).
  assert (Nl.nm_nlh m3 = pre ++ Nl.flat L ++ room') as Em by (rewrite Hb; unfold pre; by rewrite <- app_assoc).
  assert (zlen (Nl.flat L) < 2 ^ 31) as HL.
  { rewrite Hs, Em, !zlen_app, Hpre in Hbd. pose proof (zlen_nonneg room'). lia. }
  destruct (parse_stream maxtype policy L pre room' Hok Hpass HL) as (t & Et & Hfind).
  rewrite <- Em, Hpre in Et. specialize (Hfind ty Hty). rewrite <- Em in Hfind.
  assert (Nl.find_attr ty L = Some (Nl.flat inner)) as Ef.
  { unfold L. clear. induction l as [|a l IH]; [cbn; by rewrite Z.eqb_refl|]. cbn [app Nl.find_attr]. by rewrite IH. }
  rewrite Ef in Hfind. destruct Hfind as (off & Eoff & Hin).
  destruct (parse_nested_ok (Nl.nm_nlh m3) off maxtype' policy' inner Hin Hoki Hpassi) as (t' & Et' & Hf'); [lia|].
  exists start, m1, m2, m3, t, off, t'. done.
Qed.

(** A policy that lets everything through. *)
Definition any_policy (_ : Z) : Nl.nla_policy := Nl.mkPolicy 0 0 0.

Lemma nested_attributes_roundtrip_witness :
  ∃ msg start m1 m2 m3 t off t',
    nla_nest_start msg 6 = Some (Some start, m1) ∧
    Nl.nla_puts m1 [(1, [1; 2; 3; 4]); (2, [104; 105; 0])] = Some m2 ∧ nla_nest_end m2 start = Some (0, m3) ∧
    Nl.nla_parse (Nl.nm_nlh m3) 6 20 (zlen (Nl.flat [(6, Nl.flat [(1, [1; 2; 3; 4]); (2, [104; 105; 0])])])) (Some any_policy) = Some (0, t) ∧
    t 6 = Some off ∧ nla_parse_nested (Nl.nm_nlh m3) 2 off (Some any_policy) = Some (0, t') ∧
    ∀ ty', ty' ≤ 2 →
      match Nl.find_attr ty' [(1, [1; 2; 3; 4]); (2, [104; 105; 0])] with
      | Some bs => ∃ off', t' ty' = Some off' ∧ attr_in (Nl.nm_nlh m3) off' bs
      | None => t' ty' = None
      end.
Proof.
  destruct (Nl.genlmsg_put_ok 4096 1 2 20 5 4 1) as (msg & _ & Hr & Hs); [lia|]. exists msg.
  assert (∀ mt ty bs, forallb Fams.byteb bs = true → passes mt any_policy (ty, bs)) as Hp.
  { intros mt ty bs Hb. split; [|intros _; unfold accepts; cbn; by rewrite (proj2 (Z.leb_le _ _) (zlen_nonneg bs))]. eapply (Fams.Forall_bool _ _ bs); [|exact Hb]. intros b Hb'.
    unfold Fams.byteb, is_byte in *. boolify. lia. }
  apply (nested_attributes_roundtrip msg (Nl.req_hdr 1 2 20 5 4 1) [] 6 [(1, [1; 2; 3; 4]); (2, [104; 105; 0])] _ 6 any_policy 2 any_policy Hr).
  - rewrite Hs. vm_compute. discriminate.
  - by apply Fams.attr_ok_bool.
  - apply list.Forall_cons. split; [by apply Hp|apply Forall_nil].
  - by apply Fams.attr_ok_bool.
  - apply list.Forall_cons. split; [by apply Hp|]. apply list.Forall_cons. split; [by apply Hp|apply Forall_nil].
  - lia.
Defined.





(** ** Receiving *)

(** C21 A dump is received whole: however the kernel spreads the messages of a dump over
    datagrams, [recvmsgs] on a socket with a callback for valid messages, none for raw messages
    and the end of a dump, and a check of sequence numbers that passes, calls the callback for
    valid messages with each of them in order and stops after the end of the dump, leaving what comes later.  If a call stops or fails,
    no further message is delivered and its result is returned; if there is no memory for the
    copy of a message ([copied] says no), that is -NLE_NOMEM. *)
Theorem dump_received {S} (copied : S → list Z → bool) (cb : nl_cb S) f mss ms fin rest r :
  valid_only cb f → Forall (λ ms, ms ≠ [] ∧ Forall (part_msg (r_seq_expect r) false) ms) mss →
  Forall (part_msg (r_seq_expect r) false) ms → part_msg (r_seq_expect r) true fin →
  ∃ rest' mp, recvmsgs copied cb true (dump_dgs mss ms fin ++ rest) r =
  match feed copied f (concat mss ++ ms) (r_user r) with
  | None => None
  | Some (c, u) =>
      if c =? 0 then
        Some (if copied u fin then Returned 0 (mkRst u (u32 (r_seq_expect r + 1)) false) rest
              else Returned (- Nl.NLE_NOMEM) (mkRst u (r_seq_expect r) mp) rest)
      else Some (Returned (if c =? 2 then 0 else c) (mkRst u (r_seq_expect r) mp) rest')
  end.
Proof. intros. by apply recv_dump. Qed.

(** Two objects in two datagrams, counted by the callback. *)
Definition count_cb : nl_cb Z :=
  mkCb (λ k, match k with NL_CB_VALID => Some (λ _ n, Some (0, n + 1)) | _ => None end) None.

Lemma dump_received_witness :
  recvmsgs (λ _ _, true) count_cb true
    (dump_dgs [ [Pairs.pair_msg 10 (7, 71)] ] [Pairs.pair_msg 10 (8, 80)] (Pairs.done_msg 10) ++ [])
    (mkRst 0 10 false) = Some (Returned 0 (mkRst 2 11 false) []).
Proof.
  destruct (dump_received (λ _ _, true) count_cb (λ _ n, Some (0, n + 1)) [ [Pairs.pair_msg 10 (7, 71)] ] [Pairs.pair_msg 10 (8, 80)]
    (Pairs.done_msg 10) [] (mkRst 0 10 false)) as (rest' & mp & E); [by split| | |by apply Pairs.done_part|].
  - apply list.Forall_cons. split; [|apply Forall_nil]. split; [done|].
    apply list.Forall_cons. split; [|apply Forall_nil]. by apply Pairs.pair_part.
  - apply list.Forall_cons. split; [|apply Forall_nil]. by apply Pairs.pair_part.
  - exact E.
Defined.

(** C24 A request is acknowledged or its error is reported: waiting for the acknowledgement,
    which is the next datagram, on a socket without callbacks of its own for raw messages, sequence numbers and errors
    returns 0 if the kernel's report has the error 0, and otherwise the negation of the
    library's code for the error, which is never 0; the next request's number is expected in
    both cases.  Without memory for the copy of the handlers ([cloned]), nothing is received,
    and without memory for that of the message ([copied]) the report is lost: both times the
    result is -NLE_NOMEM.  Every result has a message. *)
Theorem ack_or_error {S} (copied : S → list Z → bool) cloned auto_ack (cb : nl_cb S) m e r dgs :
  report (r_seq_expect r) e m → r_multipart r = false →
  cb_set cb NL_CB_MSG_IN = None → cb_set cb NL_CB_SEQ_CHECK = None → cb_err cb = None →
  ∃ res r', nl_wait_for_ack copied cloned cb auto_ack (Datagram m :: dgs) r =
    Some (Returned res r' (if cloned : bool then dgs else Datagram m :: dgs)) ∧
  (if cloned && copied (r_user r) m then
     r' = mkRst (r_user r) (u32 (r_seq_expect r + 1)) false ∧
     (if e =? 0 then res = 0 else res = - nl_syserr2nlerr e ∧ - NLE_MAX ≤ res < 0)
   else r' = r ∧ res = - Nl.NLE_NOMEM) ∧
  is_Some (nl_geterror res).
Proof.
  intros Hr Hm H1 H2 H3. pose proof (syserr_range e) as He. unfold NLE_MAX, NLE_PARSE_ERR in *.
  destruct cloned; [|exists (- Nl.NLE_NOMEM), r; split; [done|]; by split; [|apply geterror_total] ].
  rewrite (wait_for_ack_ok copied cb auto_ack m e) by done. cbn [andb].
  destruct (copied (r_user r) m); [|exists (- Nl.NLE_NOMEM), r; split; [done|]; by split; [|apply geterror_total] ].
  do 2 eexists. split; [done|]. destruct (e =? 0).
  - split; [done|]. by apply geterror_total.
  - split; [split; [done|split; [done|lia] ]|]. apply geterror_total. lia.
Qed.

(** The report of EPERM. *)
Definition eperm_msg : list Z :=
  le_split 4 36 ++ le_split 2 2 ++ le_split 2 0 ++ le_split 4 10 ++ le_split 4 0 ++ le_split 4 (2 ^ 32 - 1) ++ replicate 16 0.

Lemma ack_or_error_witness : ∃ res r',
  nl_wait_for_ack (λ _ _, true) true count_cb true [Datagram eperm_msg] (mkRst 0 10 false) = Some (Returned res r' []) ∧
  (r' = mkRst 0 11 false ∧ res = - NLE_PERM ∧ - NLE_MAX ≤ res < 0) ∧ is_Some (nl_geterror res).
Proof.
  apply (ack_or_error (λ _ _, true) true true count_cb eperm_msg (-1) (mkRst 0 10 false) []); [|done..].
  split; [reflexivity..|by exists (2 ^ 32 - 1)|vm_compute; discriminate|reflexivity].
Defined.
