(* ===== verification/SocketCorrect.v ===== *)
(** * Correctness of libnl's sockets: local ports, handles, connections and datagrams

    The theorems on [lib/socket.c], [lib/handlers.c] and the input and output of [lib/nl.c],
    with instances at the machine and the queue of [DemoLib]. *)

From S2P Require Import Prelude Mem Kernel Packet Netlink NlError Recv Handlers Ports Socket.
From S2P Require Import SockInv SockOps SockApi NlIo DemoLib.

#[local] Existing Instance Machine.machine.

(** ** Local ports *)

(** The specification of the port numbers: a set of numbers below 1024, of which the smallest
    free one is handed out. *)
Inductive port_op := Generate | Release (port : Z).

Definition free_number (s : gset Z) : option Z := List.find (λ k, bool_decide (k ∉ s)) (seqZ 0 1024).

Definition spec_step (pid : Z) (op : port_op) (s : gset Z) : Z * gset Z :=
  match op with
  | Generate =>
      match free_number s with
      | Some k => (port_of pid k, {[k]} ∪ s)
      | None => (UINT_MAX, s)
      end
  | Release port => (0, if port =? UINT_MAX then s else s ∖ {[Z.shiftr port 22]})
  end.

Definition map_step (pid : Z) (op : port_op) (m : port_map) : Z * port_map :=
  match op with
  | Generate => generate_local_port pid m
  | Release port => (0, release_local_port port m)
  end.

(** The results of a sequence of operations, and the state after it. *)
Fixpoint run {S} (step : port_op → S → Z * S) (l : list port_op) (s : S) : list Z * S :=
  match l with
  | [] => ([], s)
  | op :: l => let r := step op s in let q := run step l r.2 in (r.1 :: q.1, q.2)
  end.

(** The simulation. *)
Definition stands_for (m : port_map) (s : gset Z) : Prop :=
  map_ok m ∧ ∀ k, 0 ≤ k < 1024 → used m k = bool_decide (k ∈ s).

Definition op_ok (op : port_op) : Prop := match op with Generate => True | Release port => 0 ≤ port < 2 ^ 32 end.

Lemma find_first (f : Z → bool) k n :
  0 ≤ k < n → f k = true → (∀ j, 0 ≤ j < k → f j = false) → List.find f (seqZ 0 n) = Some k.
Proof.
  intros Hk Hf Hj. replace n with (k + Z.succ (n - k - 1)) by lia. rewrite seqZ_app by lia.
  assert (∀ l, Forall (λ j, f j = false) l → ∀ l', List.find f (l ++ l') = List.find f l') as Hskip.
  { induction 1 as [|x l Hx _ IH]; intros l'; [done|]. cbn [app List.find]. by rewrite Hx. }
  rewrite Hskip.
  - rewrite seqZ_cons by lia. cbn [List.find]. by rewrite Z.add_0_l, Hf.
  - apply list.Forall_forall. intros j Hin%elem_of_seqZ. apply Hj. lia.
Qed.

Lemma step_simulates pid op m s :
  stands_for m s → op_ok op →
  (map_step pid op m).1 = (spec_step pid op s).1 ∧ stands_for (map_step pid op m).2 (spec_step pid op s).2.
Proof.
  intros [Hm Hu] Hop. destruct op as [|port]; cbn [map_step spec_step].
  - assert (∀ j, 0 ≤ j < 1024 → bool_decide (j ∉ s) = negb (used m j)) as Hn.
    { intros j Hj. rewrite Hu by done. apply bool_decide_not. }
    destruct (generate_ok pid m Hm) as [(k & Hk & Eu & Hl & E1 & Hm' & Hu')|[Hfull ->] ].
    + unfold free_number. rewrite (find_first _ k); [|done|by rewrite Hn, Eu|intros j Hj; by rewrite Hn, Hl by lia].
      cbn [fst snd]. split; [done|]. split; [done|]. intros j Hj. rewrite Hu', Hu by done.
      destruct (Z.eqb_spec j k) as [->|Hne]; [rewrite orb_true_r; symmetry; apply bool_decide_eq_true; set_solver|].
      rewrite orb_false_r. apply bool_decide_ext. set_solver.
    + unfold free_number. destruct (List.find _ _) as [k|] eqn:E; [|done].
      apply List.find_some in E as [Hin%list_elem_of_In%elem_of_seqZ Hb]. rewrite Hn, Hfull in Hb by lia. done.
  - split; [done|]. cbn [snd]. destruct (Z.eqb_spec port UINT_MAX) as [->|Hne]; [done|].
    destruct (release_ok port m Hm Hop Hne) as [Hm' Hu']. split; [done|]. intros j Hj. rewrite Hu', Hu by done.
    destruct (Z.eqb_spec j (Z.shiftr port 22)) as [->|Hj'].
    + rewrite andb_false_r. symmetry. apply bool_decide_eq_false. set_solver.
    + rewrite andb_true_r. apply bool_decide_ext. set_solver.
Qed.

(** C18 The bitmap of local ports is the set of numbers in use: for every sequence of generated
    and released ports, the results are those of the specification, which hands out the
    smallest free number of the 1024, and the bitmap stands for its set. *)
Theorem ports_refine_set pid l m s :
  stands_for m s → Forall op_ok l →
  (run (map_step pid) l m).1 = (run (spec_step pid) l s).1 ∧
  stands_for (run (map_step pid) l m).2 (run (spec_step pid) l s).2.
Proof.
  intros Hs Hl. revert m s Hs. induction Hl as [|op l Hop _ IH]; intros m s Hs; [done|].
  destruct (step_simulates pid op m s Hs Hop) as [E Hs']. destruct (IH _ _ Hs') as [El Hl].
  cbn [run fst snd]. split; [by f_equal|done].
Qed.

(** Three ports, the second of which is released and generated again. *)
Lemma ports_refine_set_witness :
  (run (map_step 4242) [Generate; Generate; Generate; Release (4242 + 2 ^ 22); Generate] (replicate 32 0)).1 =
  [4242; 4242 + 2 ^ 22; 4242 + 2 * 2 ^ 22; 0; 4242 + 2 ^ 22].
Proof.
  destruct (ports_refine_set 4242 [Generate; Generate; Generate; Release (4242 + 2 ^ 22); Generate] (replicate 32 0) ∅) as [E _].
  - destruct map0_ok as [Hm Hu]. split; [done|]. exact Hu.
  - repeat (apply list.Forall_cons; split; [cbn; lia|]). apply Forall_nil.
  - rewrite E. vm_compute. reflexivity.
Defined.

(** ** Programs that use sockets *)

(** C9 A program that uses sockets by the rules ([smay]): it uses its own sockets and the
    callback handles to which it holds references, asks for default kinds of handles, does not
    connect a socket that is connected, does not set the port 0, and ends lists of groups with
    0; the number of its process does not end in 22 ones, memory and descriptors that it is given
    are new, and a bound socket keeps its port ([os_ok]).  Each call it makes
    returns; in every state that it reaches, sockets with generated ports have different ports
    and connected sockets different descriptors.  When it has freed its sockets and given back
    its references, no descriptor and no port is left in use, and the handles that are left
    have exactly the references that failed calls of [nl_socket_alloc] and
    [nl_socket_alloc_cb] have lost ([slost]): none, if none has. *)
Theorem socket_programs_clean `{Os} ext lost n :
  os_ok → reach ext lost n →
  (∀ k, smay ext n k →
     ∃ r n', sexec k n = Some (r, n') ∧ reach (srefs ext k r) (lost ++ slost k r n n') n') ∧
  (∀ p q sk sk', socks n !! p = Some sk → socks n !! q = Some sk' → p ≠ q →
     (has_flag NL_OWN_PORT sk = false → has_flag NL_OWN_PORT sk' = false → nl_pid (s_local sk) ≠ nl_pid (s_local sk')) ∧
     (0 ≤ s_fd sk → s_fd sk ≠ s_fd sk')) ∧
  (socks n = ∅ → (∀ c, ext c = 0) →
     (∀ c, count n c = losses lost c) ∧ (lost = [] → cbs n = ∅) ∧
     fds n = ∅ ∧ ∀ k, 0 ≤ k < 1024 → used (ports n) k = false).
Proof.
  intros Hos Hr. pose proof (reach_ok ext lost n Hos Hr) as Hok. split; [|split].
  - intros k Hk. by apply reach_safe.
  - intros p q sk sk' Hp Hq Hne. split.
    + intros Hf Hf' E. apply Hne. by eapply ports_distinct.
    + intros Hfd E. apply Hne. by eapply (fo_one _ (no_fds _ _ Hok)).
  - intros Es He. destruct (all_gone ext lost n Hok Es He) as (Hc & Hfd & Hp). split_and!; try done.
    intros ->. by eapply count_none.
Qed.

(** Two sockets are allocated, at the addresses 2 and 4; one is connected; both are freed. *)
Definition called (k : scall) (n : net) : net := match sexec k n with Some x => x.2 | None => n end.
Definition two_socks : net := called (CAlloc NL_CB_DEFAULT) (called (CAlloc NL_CB_DEFAULT) net0).
Definition connected : net := called (CConnect 2 16) two_socks.
Definition none_left : net := called (CFree 4) (called (CFree 2) connected).

Lemma called_reached n k r :
  reach (λ _, 0) [] n → smay (λ _, 0) n k → fst <$> sexec k n = Some r →
  srefs (λ _, 0) k r = (λ _, 0) → slost k r n (called k n) = [] → reach (λ _, 0) [] (called k n).
Proof.
  intros Hn Hk Er Es El. pose proof (reach_step _ _ n k r (called k n) Hn Hk) as Hs. rewrite Es, El in Hs. apply Hs.
  unfold called. destruct (sexec k n) as [ [r' n']|]; [|done]. by injection Er as ->.
Qed.

Lemma two_socks_reached : reach (λ _, 0) [] two_socks.
Proof.
  apply (called_reached _ _ 4); [|vm_compute; split; [discriminate|reflexivity]|vm_compute; reflexivity|reflexivity|reflexivity].
  apply (called_reached _ _ 2); [|vm_compute; split; [discriminate|reflexivity]|vm_compute; reflexivity|reflexivity|reflexivity].
  apply reach_start.
Qed.

Lemma none_left_reached : reach (λ _, 0) [] none_left.
Proof.
  apply (called_reached _ _ 0); [|vm_compute; by eexists|vm_compute; reflexivity|reflexivity|reflexivity].
  apply (called_reached _ _ 0); [|vm_compute; by eexists|vm_compute; reflexivity|reflexivity|reflexivity].
  apply (called_reached _ _ 0); [|eexists; split; vm_compute; reflexivity|vm_compute; reflexivity|reflexivity|reflexivity].
  apply two_socks_reached.
Qed.

Lemma socket_programs_clean_witness :
  cbs none_left = ∅ ∧ fds none_left = ∅ ∧ ∀ k, 0 ≤ k < 1024 → used (ports none_left) k = false.
Proof.
  destruct (socket_programs_clean (λ _, 0) [] none_left Machine.machine_ok none_left_reached) as (_ & _ & H).
  destruct H as (_ & Hc & Hf & Hp); [by vm_compute|reflexivity|]. exact (conj (Hc eq_refl) (conj Hf Hp)).
Defined.

(** C23 Connecting a socket that is not connected gives it a new descriptor, the only one that is added, and its
    protocol; or it fails with a negative error, and no descriptor is left open.  In both
    cases the sockets, the ports and the handles stay in order. *)
Theorem connect_or_nothing `{Os} ext n p sk proto :
  os_ok → net_ok ext n → socks n !! p = Some sk → s_fd sk = -1 →
  ∃ r n' sk', nl_connect p proto n = Some (r, n') ∧ net_ok ext n' ∧ socks n' = <[p := sk']> (socks n) ∧
    (r = 0 ∧ 0 ≤ s_fd sk' ∧ s_proto sk' = proto ∧ s_fd sk' ∉ fds n ∧ fds n' = {[s_fd sk']} ∪ fds n ∨
     r < 0 ∧ s_fd sk' = -1 ∧ fds n' = fds n).
Proof.
  intros Hos Hok Hp Hfd. pose proof (nl_connect_ok ext n p sk proto Hos Hok Hp Hfd) as Hc.
  apply swp_run in Hc as (r & n' & E & Hok' & sk' & Es & _ & _ & Hr). by exists r, n', sk'.
Qed.

Lemma connect_or_nothing_witness :
  ∃ r n' sk', nl_connect 2 16 two_socks = Some (r, n') ∧ net_ok (λ _, 0) n' ∧ socks n' = <[2 := sk']> (socks two_socks) ∧
    (r = 0 ∧ 0 ≤ s_fd sk' ∧ s_proto sk' = 16 ∧ s_fd sk' ∉ fds two_socks ∧ fds n' = {[s_fd sk']} ∪ fds two_socks ∨
     r < 0 ∧ s_fd sk' = -1 ∧ fds n' = fds two_socks).
Proof.
  eapply (connect_or_nothing (λ _, 0) two_socks 2 _ 16); [apply Machine.machine_ok|apply (reach_ok _ _ _ Machine.machine_ok two_socks_reached)|vm_compute; reflexivity|reflexivity].
Defined.

(** ** Datagrams *)

(** C22 Receiving a datagram, with calls of [recvmsg] that are interrupted in between: a socket
    that peeks gets the first datagram whole, however long it is; one that does not gets it
    if it fits into a page, and loses it otherwise, returning the next one in its place. *)
Theorem datagram_received {K} (recvmsg : K → Z → bool → Z → rx * K) queue page sk m k bs q :
  datagrams recvmsg queue → 0 < page → 0 < zlen bs → queue k = replicate m (Fails EINTR) ++ Arrives bs :: q →
  (has_flag NL_MSG_PEEK sk = true ∨ zlen bs ≤ page →
     ∃ k', queue k' = q ∧ nl_recv recvmsg page (m + (length bs + 2)) sk k = Some (zlen bs, bs, k')) ∧
  (∀ bs' q', has_flag NL_MSG_PEEK sk = false → page < zlen bs → q = Arrives bs' :: q' → 0 < zlen bs' ≤ page * 2 →
     ∃ k', queue k' = q' ∧ nl_recv recvmsg page (m + 2) sk k = Some (zlen bs', bs', k')).
Proof.
  intros Hq Hp Hbs Ek. split.
  - intros Hor. destruct (has_flag NL_MSG_PEEK sk) eqn:Ef; [by eapply recv_peek_ok|].
    destruct Hor as [?|Hle]; [done|]. unfold nl_recv. rewrite Ef.
    destruct (retry_intrs recvmsg queue Hq m (length bs + 2) page (if has_flag NL_SOCK_PASSCRED sk then 32 else 0) false k _ Ek) as (k1 & Ek1 & ->).
    rewrite Nat.add_succ_r. by eapply retry_read.
  - intros bs' q' Hf Hlt -> Hbs'. unfold nl_recv. rewrite Hf.
    destruct (retry_intrs recvmsg queue Hq m 2 page (if has_flag NL_SOCK_PASSCRED sk then 32 else 0) false k _ Ek) as (k1 & Ek1 & ->).
    destruct (recv_large_lost recvmsg queue Hq page sk k1 bs bs' q') as (k2 & Ek2 & E); [lia|done|done|done|].
    unfold nl_recv in E. rewrite Hf in E. by exists k2.
Qed.

(** A datagram of five bytes and one of two, with a page of four. *)
Lemma datagram_received_witness :
  nl_recv Queue.recvmsg 4 8 (Queue.sock_with NL_MSG_PEEK) [Fails EINTR; Arrives [1; 2; 3; 4; 5]; Arrives [6; 7] ]
    = Some (5, [1; 2; 3; 4; 5], [Arrives [6; 7] ]) ∧
  nl_recv Queue.recvmsg 4 3 (Queue.sock_with 0) [Fails EINTR; Arrives [1; 2; 3; 4; 5]; Arrives [6; 7] ] = Some (2, [6; 7], []).
Proof.
  destruct (datagram_received Queue.recvmsg (λ q, q) 4 (Queue.sock_with NL_MSG_PEEK) 1
    [Fails EINTR; Arrives [1; 2; 3; 4; 5]; Arrives [6; 7] ] [1; 2; 3; 4; 5] [Arrives [6; 7] ] Queue.queue_ok) as [H1 _]; [lia|done|done|].
  destruct (datagram_received Queue.recvmsg (λ q, q) 4 (Queue.sock_with 0) 1
    [Fails EINTR; Arrives [1; 2; 3; 4; 5]; Arrives [6; 7] ] [1; 2; 3; 4; 5] [Arrives [6; 7] ] Queue.queue_ok) as [_ H2]; [lia|done|done|].
  split.
  - destruct H1 as (k' & <- & E); [by left|exact E].
  - destruct (H2 [6; 7] []) as (k' & <- & E); [done|done|done|by vm_compute|exact E].
Defined.

(** C25 A request is completed and sent: it gets the socket's port, the socket's next sequence
    number, which is then used up, the request flag and, unless the socket says otherwise,
    the flag that asks for an acknowledgement; its bytes go in one piece to the message's
    address or else the peer's; the result is that of [sendmsg], an error as a negative
    code of the library. *)
Theorem request_sent sendmsg sk dst src creds proto family flags cmd version rest :
  0 ≤ flags < 2 ^ 16 → 20 + zlen rest < 2 ^ 32 →
  ∃ n, nl_send_auto_sk None sendmsg None sk (mkOut proto src dst creds (request family cmd version rest 0 0 flags)) =
    Some (n, set_seq_next (u32 (s_seq_next sk + 1)) sk) ∧
  match sendmsg (s_fd sk) (if nl_family dst =? AF_NETLINK then dst else s_peer sk) creds
          (request family cmd version rest (nl_pid (s_local sk)) (s_seq_next sk) (auto_flags sk flags)) with
  | inl sent => n = sent
  | inr errno => n = - nl_syserr2nlerr errno ∧ n < 0
  end.
Proof.
  intros Hf Hl. eexists. split; [by apply send_auto_ok|].
  destruct (sendmsg _ _ _ _) as [sent|errno]; [done|]. pose proof (syserr_range errno). split; [done|lia].
Qed.

(** A request without payload, sent by a [sendmsg] that takes all bytes. *)
Lemma request_sent_witness : ∃ n,
  nl_send_auto_sk None (λ _ _ _ bs, inl (zlen bs)) None (Queue.sock_with 0)
    (mkOut 16 (mkAddr 0 0 0) (mkAddr 0 0 0) None (request 27 1 1 [] 0 0 0)) =
  Some (n, set_seq_next 1001 (Queue.sock_with 0)) ∧ n = 20.
Proof.
  apply (request_sent (λ _ _ _ bs, inl (zlen bs)) (Queue.sock_with 0) (mkAddr 0 0 0) (mkAddr 0 0 0) None 16 27 0 1 1 []);
    [lia|by vm_compute].
Defined.
