(* ===== verification/MngrCorrect.v ===== *)
(** * Correctness of the cache manager

    The theorems on [lib/cache_mngr.c], with their instances: a manager for the pairs and on
    the machine of [DemoLib]. *)

From stdpp Require Import strings.
From S2P Require Import Prelude Packet Netlink NlError Text Attr CStr Recv Dump NlList TransList Mngt MngtOk.
From S2P Require Import Objects Cache CacheInv CacheOps CacheLoop CacheSync CacheResync CacheFill.
From S2P Require Import Handlers Ports Socket SockInv SockOps SockApi Mngr MngrOk MngrAdd DemoLib.
Import Nl.

#[local] Existing Instance Machine.machine.
#[local] Existing Instance Pairs.pair_world.

Module Managers.
#[export] Instance sys : MngrSys (Z * Z) := {|
  my_calloc _ := 7;
  my_assocs _ := true;
  my_realloc _ := None;
  my_poll _ _ _ := inl 1;
  my_call _ _ _ st := Some (0, st);
  my_call_err _ _ _ st := Some (0, st);
|}.

(** A socket that is not connected, at the address 2. *)
Definition one_sock : net := match sexec (CAlloc NL_CB_DEFAULT) net0 with Some x => x.2 | None => net0 end.

Lemma one_sock_ok : net_ok (λ _, 0) one_sock.
Proof.
  apply (reach_ok (λ _, 0) []); [apply Machine.machine_ok|].
  apply (reach_step _ _ net0 (CAlloc NL_CB_DEFAULT) 2 one_sock reach_start); [vm_compute; split; [discriminate|reflexivity]|].
  unfold one_sock. destruct (sexec (CAlloc NL_CB_DEFAULT) net0) as [ [r n]|] eqn:E; [|by vm_compute in E].
  assert (fst <$> sexec (CAlloc NL_CB_DEFAULT) net0 = Some 2) as E' by (vm_compute; reflexivity). rewrite E in E'.
  by injection E' as ->.
Qed.

(** The registered type of the pairs, with the group 3. *)
Definition pair_type : reg_ops := mkReg (Some (text "pairs")) 16 1 0 (Some [3; 0]) [(16, text "new"); (17, text "del"); (-1, [])] 0 false 0 0.
Definition types : mngt := mkMngt {[1 := pair_type]} 1 ∅ ∅.

Lemma types_ok : models types {[text "pairs" := 1]}.
Proof. by apply (one_registered _ _ _ pair_type). Qed.

(** Before a manager is made. *)
Definition start : mstate (Z * Z) := mkMs one_sock Pairs.empty_store types ∅.

(** A notification that the pair (7, 71) is new. *)
Definition event : list Z :=
  le_split 4 24 ++ le_split 2 16 ++ le_split 2 0 ++ le_split 4 0 ++ le_split 4 0 ++ le_split 4 7 ++ le_split 4 71.

(** A manager at 7 with the cache at 5 of [Pairs] in its second place. *)
Definition handle : nl_cbh :=
  put_handler NL_CB_SEQ_CHECK (Some noop_seq_check) 0 (put_handler NL_CB_VALID (Some (custom EVENT_INPUT)) 7
    (mkCbh (λ _, None) (λ _, 0) None 0 None None None 1)).
Definition mngr : nl_cache_mngr := mkMngr 16 0 2 2 (Some [no_assoc; mkAssoc 5 true 0]).
Definition running : mstate (Z * Z) :=
  mkMs (mkNet {[1 := handle]} {[2 := mkSock (mkAddr AF_NETLINK 4242 0) (mkAddr AF_NETLINK 0 0) 3 16 10 10 0 1]} [] {[3]} [])
    (mkStore (objs Pairs.pair_store) (caches Pairs.pair_store) (hs Pairs.pair_store) [] (mkIo 10 10 [] [Datagram event]))
    types {[7 := mngr]}.
End Managers.
#[local] Existing Instance Managers.sys.

(** ** Creating a manager *)

(** Creating a manager on a socket that is not connected, when there is memory: the manager
    has 32 free places, its callback on the socket and a connected socket without a check of
    sequence numbers; or the result is 1, a positive number, and neither the manager nor a
    descriptor is left. *)
Theorem manager_created {D} `{World D} `{Os} `{MngrSys D} ext (s : mstate D) sk k h proto flags :
  os_ok → net_ok ext (ms_net s) → socks (ms_net s) !! sk = Some k → s_fd k = -1 → cbs (ms_net s) !! Socket.s_cb k = Some h →
  h_set h NL_CB_MSG_IN = None → h_set h NL_CB_FINISH = None → my_calloc s ≠ 0 → ms_mngrs s !! my_calloc s = None → my_assocs s = true →
  ∃ r p s', nl_cache_mngr_alloc sk proto flags s = Some ((r, p), s') ∧ net_ok ext (ms_net s') ∧
    ms_store s' = ms_store s ∧ ms_mngt s' = ms_mngt s ∧
    (r = 0 ∧ (∃ m, mngr_ok s' p m (replicate 32 no_assoc) ∧ cm_protocol m = proto ∧ cm_flags m = flags ∧ cm_handle m = sk) ∨
     r = 1 ∧ p = 0 ∧ ms_mngrs s' = ms_mngrs s ∧ fds (ms_net s') = fds (ms_net s)).
Proof. intros. by eapply mngr_alloc_ok. Qed.

Lemma manager_created_witness :
  ∃ r p s', nl_cache_mngr_alloc 2 16 0 Managers.start = Some ((r, p), s') ∧ (r = 0 ∨ r = 1 ∧ p = 0).
Proof.
  assert (∃ k, socks Managers.one_sock !! 2 = Some k ∧ s_fd k = -1 ∧ ∃ h, cbs Managers.one_sock !! Socket.s_cb k = Some h ∧
    h_set h NL_CB_MSG_IN = None ∧ h_set h NL_CB_FINISH = None) as (k & Hk & Hfd & h & Hh & Hi & Hf).
  { eexists. split; [vm_compute; reflexivity|]. split; [reflexivity|]. eexists. by split; [vm_compute; reflexivity|]. }
  destruct (manager_created (λ _, 0) Managers.start 2 k h 16 0) as (r & p & s' & E & _ & _ & _ & Hr); try done;
    [apply Machine.machine_ok|apply Managers.one_sock_ok|].
  exists r, p, s'. split; [done|]. destruct Hr as [ [? _]|(? & ? & _)]; auto.
Defined.

(** Without memory for the places, releasing the manager goes through a NULL pointer: the
    number of places is set before they are allocated. *)
Theorem manager_alloc_null {D} `{World D} `{Os} `{MngrSys D} ext (s : mstate D) sk k proto flags :
  net_ok ext (ms_net s) → socks (ms_net s) !! sk = Some k → my_calloc s ≠ 0 → my_assocs s = false →
  nl_cache_mngr_alloc sk proto flags s = None.
Proof. apply mngr_alloc_crash. Qed.

(** ** Adding caches *)

(** C20 Adding a cache of a registered type to a manager with a free place, when the manager
    has no cache of that type yet, the type has groups and the manager's protocol, and no other
    registered type has the same objects: either the result is 0 and the cache is in the first
    free place, holds exactly the objects of the kernel's dump, and is the one that is required
    by the name of its type if the manager provides caches; or the result is -NLE_NOMEM for
    lack of memory, the error of joining a group of the type or that of sending the request,
    and the store, the managers and the registry are as before. *)
Theorem manager_adds_cache {D} `{World D} `{Os} `{MngrSys D} (oom : Prop) (reg : gmap (list Z) Z) ext ct next (s : mstate D)
    p m cas name ops o groups i cb data f err reply mss ms fin rest bs retries :
  memory (D := D) oom → calloc_ok (D := D) → mngr_ok s p m cas → net_ok next (ms_net s) → st_ok ext ct (ms_store s) →
  models (ms_mngt s) reg → reg !! name = Some ops → g_ops (ms_mngt s) !! ops = Some o →
  (∀ b q o', reg !! b = Some q → g_ops (ms_mngt s) !! q = Some o' → ro_obj_ops o' = ro_obj_ops o → q = ops) →
  ro_protocol o = cm_protocol m → ro_groups o = Some groups → 0 ∈ groups → new_type (ms_store s) ops cas → free_slot cas 0 = Some i →
  fills oom ops f err reply (io (ms_store s)) mss ms fin rest bs →
  ∃ r s', nl_cache_mngr_add (S retries) p name cb data s = Some (r, s') ∧ added oom groups err next ext ct reg name ops i cb data bs s p m cas r s'.
Proof. intros. by eapply mngr_add_ok. Qed.

(** The new manager gets the cache of pairs. *)
Lemma manager_adds_cache_witness :
  ∃ p s c s' qs, nl_cache_mngr_alloc 2 16 1 Managers.start = Some ((0, p), s) ∧
    nl_cache_mngr_add 1 p (text "pairs") true 0 s = Some (Some (0, c), s') ∧ c ≠ 0 ∧
    Forall2 (λ q b, body (ms_store s') !! q = Some b) qs [Pairs.pair_body (7, 71); Pairs.pair_body (8, 80)] ∧
    st_ok (λ _, 0) {[c := qs]} (ms_store s').
Proof.
  assert (∃ k, socks Managers.one_sock !! 2 = Some k ∧ s_fd k = -1 ∧ ∃ h, cbs Managers.one_sock !! Socket.s_cb k = Some h ∧
    h_set h NL_CB_MSG_IN = None ∧ h_set h NL_CB_FINISH = None) as (k & Hk & Hfd & h & Hh & Hi & Hf).
  { eexists. split; [vm_compute; reflexivity|]. split; [reflexivity|]. eexists. by split; [vm_compute; reflexivity|]. }
  destruct (mngr_alloc_ok (λ _, 0) Managers.start 2 k h 16 1) as (r & p & s & E & Hnet & Est & Emg & Hr); try done;
    [apply Machine.machine_ok|apply Managers.one_sock_ok|].
  assert (fst ∘ fst <$> nl_cache_mngr_alloc 2 16 1 Managers.start = Some 0) as E0 by (vm_compute; reflexivity).
  rewrite E in E0. injection E0 as ->. destruct Hr as [(_ & m & Hm & Hpr & Hfl & Hsk)|(? & _)]; [|done].
  destruct (manager_adds_cache False {[text "pairs" := 1]} (λ _, 0) ∅ (λ _, 0) s p m (replicate 32 no_assoc) (text "pairs") 1
    Managers.pair_type [3; 0] 0%nat true 0 Pairs.pair_request (λ _, 0) Pairs.answer
    [ [Pairs.pair_msg 10 (7, 71)] ] [Pairs.pair_msg 10 (8, 80)] (Pairs.done_msg 10) []
    [Pairs.pair_body (7, 71); Pairs.pair_body (8, 80)] 0%nat) as (r & s' & E' & _ & e & c & -> & Hr);
    [apply Pairs.pair_memory|apply Pairs.pair_calloc|exact Hm|exact Hnet|rewrite Est; apply Pairs.empty_store_ok
    |rewrite Emg; apply Managers.types_ok|done|by rewrite Emg| |by rewrite Hpr|done|set_solver| |done| |].
  - rewrite Emg. by intros b q o' [_ <-]%lookup_singleton_Some.
  - apply Forall_replicate. by left.
  - rewrite Est. split; [|done|done|].
    + apply list.Forall2_cons. split; [by apply Pairs.pair_carries|].
      apply list.Forall2_cons. split; [by apply Pairs.pair_carries|]. apply Forall2_nil.
    + intros _. split; [reflexivity| | |by apply Pairs.done_part].
      * apply list.Forall_cons. split; [|apply Forall_nil]. split; [done|].
        apply list.Forall_cons. split; [|apply Forall_nil]. by apply Pairs.pair_part.
      * apply list.Forall_cons. split; [|apply Forall_nil]. by apply Pairs.pair_part.
  - destruct Hr as [ [ [He [ [ [] _]|[ [s2 Ej]| ->] ] ] _]|(-> & Hc & _ & [qs [Hok Hn _ _ _] ] & _)]; [|done|].
    + assert (fst <$> (match nl_cache_mngr_alloc 2 16 1 Managers.start with
                       | Some x => join_groups 2 [3; 0] x.2 | None => None end) = Some 0) as E1 by (vm_compute; reflexivity).
      rewrite E in E1. cbn [snd] in E1. rewrite Hsk in Ej. rewrite Ej in E1. injection E1 as ->. done.
    + by exists p, s, c, s', qs.
Defined.

(** ** Following the kernel *)

(** C19 A notification that waits in the socket of a manager, of a message type that one of its
    caches has: the first such cache is updated, a new object at its end in place of one with
    the same identity, a deleted object taken out, its callback is told, and the result is 1;
    or there is no memory, and the caches stay as they are. *)
Theorem manager_follows_kernel {D} `{World D} `{Os} `{MngrSys D} oom ext ct (s : mstate D) p m cas ca k ps msg b act type seq rest :
  memory (D := D) oom → calloc_ok (D := D) → mngr_ok s p m cas → st_ok ext ct (ms_store s) →
  io_incoming (io (ms_store s)) = Datagram msg :: rest → data_msg msg seq →
  nlmsg_type msg 0 = Some type → responsible (ms_store s) cas ca k type → ct !! ca_cache ca = Some ps →
  carries oom (cache_ops_at (c_ops k)) msg b → lookup_type (co_msgtypes (cache_ops_at (D := D) (c_ops k))) b.1.1.1.2 = Some act →
  act = NL_ACT_NEW ∨ act = NL_ACT_DEL →
  ∃ r s', nl_cache_mngr_data_ready p s = Some (r, s') ∧ ms_mngrs s' = ms_mngrs s ∧ ms_net s' = ms_net s ∧
    io_incoming (io (ms_store s')) = rest ∧
    ∃ e, r = (if e <? 0 then e else 1) ∧ handled oom (ca_change ca) act (ca_cache ca) b ps ext ct (ms_store s) e (ms_store s').
Proof. intros. by eapply data_ready_ok. Qed.

(** The pair (7, 70) of the cache is replaced by (7, 71). *)
Lemma manager_follows_kernel_witness :
  ∃ s', nl_cache_mngr_data_ready 7 Managers.running = Some (1, s') ∧
    ∃ q, st_ok (λ _, 0) {[5 := [q]]} (ms_store s') ∧ body (ms_store s') !! q = Some (Pairs.pair_body (7, 71)) ∧
      Objects.log (ms_store s') = [(5, q, NL_ACT_CHANGE)].
Proof.
  destruct (manager_follows_kernel False (λ _, 0) {[5 := [6]]} Managers.running 7 Managers.mngr [no_assoc; mkAssoc 5 true 0]
    (mkAssoc 5 true 0) (mkCache 1 1) [6] Managers.event (Pairs.pair_body (7, 71)) NL_ACT_NEW 16 0 [])
    as (r & s' & E & _ & _ & _ & e & -> & Hh).
  - apply Pairs.pair_memory.
  - apply Pairs.pair_calloc.
  - split; [done..|]. do 2 eexists. by split_and!.
  - exact (st_ok_io _ _ _ (mkIo 10 10 [] [Datagram Managers.event]) Pairs.pair_store_ok).
  - done.
  - split; try done; by eexists.
  - done.
  - split; [|done|done]. exists [no_assoc], []. split; [done|]. apply list.Forall_cons. split; [by left|apply Forall_nil].
  - done.
  - split; [done|done|by eexists; split|by do 2 eexists; split|]. intros pp_cb st. left. by vm_compute.
  - done.
  - by left.
  - destruct Hh as [ [ [] _]|(E0 & _ & ct' & Hok & Hnot)]. rewrite E0 in E. cbn [Z.ltb Z.compare] in E.
    unfold notified in Hnot. cbv zeta in Hnot. destruct Hnot as (q & _ & _ & Ect & Hb & Hl). rewrite Ect in Hok. exists s'. split; [exact E|]. exists q.
    assert (found_b (body (ms_store Managers.running)) (Pairs.pair_body (7, 71)) [6] = 6) as Ef by (vm_compute; reflexivity).
    assert (drop_old 6 {[5 := [6]]} = {[5 := []]}) as Ed by (vm_compute; reflexivity).
    cbn [ca_cache] in Hok, Hl. rewrite Ef, Ed, (push_eq _ _ [] _ (lookup_singleton_eq _ _)), insert_singleton_eq in Hok. split; [exact Hok|]. split; [exact Hb|].
    rewrite Hl, Ef. vm_compute. reflexivity.
Defined.
