(* ===== verification/RouteCorrect.v ===== *)
(** * Correctness of libnl's routing and traffic control objects

    The theorems on [lib/route/neigh.c], [lib/route/rule.c], [lib/route/tc.c], [qdisc.c],
    [class.c] and the modules of [lib/route/qdisc/], with their instances. *)

From stdpp Require Import strings.
From S2P Require Import Prelude Packet Netlink NlError Text Attr CStr Addr AddrOk Recv NlList Objects RtObj RtOk Tc TcOk.
Import Nl.

#[local] Existing Instance Neigh.neigh_holder.
#[local] Existing Instance Rule.rule_holder.

(** ** Neighbours *)

Lemma binary_made family bs : binary (made family bs) = bs.
Proof. unfold binary, made. cbn. apply take_ge. unfold zlen. lia. Qed.

(** A new address leaves the others alone. *)
Lemma fresh_subseteq addr_calloc m a : plenty addr_calloc → m ⊆ <[addr_calloc m := a]> m.
Proof. intros [Hca Hpl]. apply insert_subseteq. by destruct (Hca m) as [E|E]; [destruct (Hpl m)|]. Qed.

(** C31 A neighbour is read back from its request: with memory left, the message to add a
    neighbour that has a destination is made, and the parser makes of it an object with the
    same interface, the family and the bytes of the destination, the state (permanent if none
    was set), and the bytes of the link layer address if there is one; addresses that were
    there are not changed. *)
Theorem neighbour_roundtrip addr_calloc ops size (o : Neigh.neigh) a ll flags m :
  plenty addr_calloc → neigh_sendable o a m → neigh_ll o ll m → zlen ll ≤ 32 → Forall is_byte ll → 256 ≤ size < 2 ^ 31 →
  ∃ msg o' m', Neigh.rtnl_neigh_build_add_request size true o flags m = Some ((0, Some msg), m) ∧
    Neigh.neigh_fill addr_calloc (wire msg) (new_object ops) m = Some ((0, o'), m') ∧
    m ⊆ m' ∧
    Neigh.rtnl_neigh_get_ifindex o' = Neigh.rtnl_neigh_get_ifindex o ∧
    Neigh.rtnl_neigh_get_family o' = a_family a ∧
    Neigh.rtnl_neigh_get_state o' = sent_state o ∧
    (∃ b, m' !! Neigh.rtnl_neigh_get_dst o' = Some b ∧ a_family b = a_family a ∧ binary b = binary a) ∧
    (if has_attr Neigh.NEIGH_ATTR_LLADDR o
     then ∃ b, m' !! Neigh.rtnl_neigh_get_lladdr o' = Some b ∧ binary b = ll
     else Neigh.rtnl_neigh_get_lladdr o' = 0).
Proof.
  intros Hpl Hs Hll Hl Hb Hsz. pose proof Hs as [_ _ (_ & Hf & _) _ _].
  destruct (parse_neigh_ok addr_calloc ops size o a ll Neigh.RTM_NEWNEIGH flags m Hpl Hs Hll Hl Hb Hsz ltac:(done)) as (msg & E1 & E2).
  set (m1 := if has_attr Neigh.NEIGH_ATTR_LLADDR o then _ else m) in E2.
  assert (m ⊆ m1) as Hm1 by (subst m1; destruct (has_attr _ o); [by apply fresh_subseteq|done]).
  do 3 eexists. split; [exact E1|]. split; [exact E2|]. split; [etrans; [exact Hm1|by apply fresh_subseteq]|].
  split; [done|]. split; [unfold Neigh.rtnl_neigh_get_family; cbn; apply s32_small; lia|].
  unfold Neigh.rtnl_neigh_get_state, Neigh.rtnl_neigh_get_dst, Neigh.rtnl_neigh_get_lladdr, has_attr at 1 2 4, neigh_back.
  cbn [ce_mask ce_data Neigh.n_state Neigh.n_dst Neigh.n_lladdr].
  assert (∀ bit, bit = Neigh.NEIGH_ATTR_STATE ∨ bit = Neigh.NEIGH_ATTR_DST →
    negb (Z.land (Z.lor (Z.lor 227 Neigh.NEIGH_ATTR_DST) (if has_attr Neigh.NEIGH_ATTR_LLADDR o then Neigh.NEIGH_ATTR_LLADDR else 0)) bit =? 0) = true)
    as Hbit by (intros bit [->| ->]; by destruct (has_attr Neigh.NEIGH_ATTR_LLADDR o)).
  rewrite !Hbit by tauto. split; [done|]. split.
  { exists (made (a_family a) (binary a)). rewrite lookup_insert_eq. split_and!; try done. apply binary_made. }
  destruct (has_attr Neigh.NEIGH_ATTR_LLADDR o) eqn:Eb; [|done]. cbn.
  eexists. split; [eapply lookup_weaken; [|by apply fresh_subseteq]; apply lookup_insert_eq|]. apply binary_made.
Qed.

(** An IPv4 address and a link layer address. *)
Definition demo_addrs : addrs :=
  <[1 := made AF_INET [10; 0; 0; 1]]> (<[2 := made AF_LLC [0; 78; 70; 48; 0; 0]]> ∅).

Lemma wf_made family bs : - 2 ^ 31 ≤ family < 2 ^ 31 → zlen bs < 2 ^ 28 → Forall is_byte bs → addr_wf (made family bs).
Proof. intros Hf Hl Hb. pose proof (zlen_nonneg bs). split; cbn; try done; lia. Qed.

(** A neighbour on interface 3 with both addresses and no state. *)
Definition demo_neigh : Neigh.neigh :=
  mkObj 1 1 0 0 0 0x6c (Neigh.mkNeigh AF_INET 3 0 0 0 2 1 0 (Neigh.mkNci 0 0 0 0) 0 0).

Lemma plenty_fresh : plenty addr_fresh.
Proof. split; [apply addr_fresh_ok|apply addr_fresh_some]. Qed.

Lemma neighbour_roundtrip_witness :
  ∃ msg o' m', Neigh.rtnl_neigh_build_add_request 4096 true demo_neigh 0 demo_addrs = Some ((0, Some msg), demo_addrs) ∧
    Neigh.neigh_fill addr_fresh (wire msg) (new_object 1) demo_addrs = Some ((0, o'), m') ∧
    Neigh.rtnl_neigh_get_ifindex o' = 3 ∧ Neigh.rtnl_neigh_get_state o' = Neigh.NUD_PERMANENT.
Proof.
  destruct (neighbour_roundtrip addr_fresh 1 4096 demo_neigh (made AF_INET [10; 0; 0; 1]) [0; 78; 70; 48; 0; 0] 0 demo_addrs)
    as (msg & o' & m' & E1 & E2 & _ & E3 & _ & E4 & _).
  - apply plenty_fresh.
  - split; try done. split_and!; try done. apply wf_made; [unfold AF_INET; lia|done|by repeat constructor].
  - intros _. exists (made AF_LLC [0; 78; 70; 48; 0; 0]). split_and!; try done. apply wf_made; [unfold AF_LLC; lia|done|by repeat constructor].
  - done.
  - by repeat constructor.
  - lia.
  - exists msg, o', m'. split; [exact E1|]. split; [exact E2|]. rewrite E3, E4. split; reflexivity.
Defined.

(** ** Rules *)

(** C32 A routing rule is read back from its request, but for what the request leaves out:
    with memory left, the parser makes of the message to add a rule an object with the same
    family, action, field, flags, priority, mark, mask, target and realms, the same names of
    interfaces and the bytes of the same addresses; the table is cut to its low eight bits and
    the addresses have the prefix length 0. *)
Theorem rule_roundtrip addr_calloc ops size (o : Rule.rule) src dst iif oif flags m :
  plenty addr_calloc → rule_sendable o src dst iif oif m → 1024 ≤ size < 2 ^ 31 →
  ∃ msg o' m', Rule.rtnl_rule_build_add_request size true o flags m = Some ((0, Some msg), m) ∧
    Rule.rule_fill addr_calloc (wire msg) (new_object ops) m = Some ((0, o'), m') ∧
    m ⊆ m' ∧
    Rule.r_nums (ce_data o') = Rule.r_set_table (u8 (Rule.rtnl_rule_get_table o)) (Rule.r_nums (ce_data o)) ∧
    c_string (Rule.r_iifname (ce_data o')) = Some iif ∧ c_string (Rule.r_oifname (ce_data o')) = Some oif ∧
    (if has_attr Rule.RULE_ATTR_SRC o
     then ∃ b, m' !! Rule.rtnl_rule_get_src o' = Some b ∧ binary b = src ∧ a_prefixlen b = 0
     else Rule.rtnl_rule_get_src o' = 0) ∧
    (if has_attr Rule.RULE_ATTR_DST o
     then ∃ b, m' !! Rule.rtnl_rule_get_dst o' = Some b ∧ binary b = dst ∧ a_prefixlen b = 0
     else Rule.rtnl_rule_get_dst o' = 0).
Proof.
  intros Hpl Hs Hsz. pose proof Hs as [_ _ _ _ [N1 _] [N2 _] ].
  destruct (parse_rule_ok addr_calloc ops size o src dst iif oif Rule.RTM_NEWRULE (Z.lor Rule.NLM_F_CREATE flags) m Hpl Hs Hsz ltac:(done))
    as (msg & E1 & E2).
  set (bs := has_attr Rule.RULE_ATTR_SRC o) in *. set (bd := has_attr Rule.RULE_ATTR_DST o) in *.
  set (m1 := if bs then _ else m) in E2. set (m2 := if bd then _ else m1) in E2.
  assert (m ⊆ m1) as H1 by (subst m1; destruct bs; [by apply fresh_subseteq|done]).
  assert (m1 ⊆ m2) as H2 by (subst m2; destruct bd; [by apply fresh_subseteq|done]).
  assert (∀ s, name_ok s → c_string (padded s) = Some s) as Hpad.
  { intros s (H0 & _ & Hl). unfold padded. pose proof (zlen_nonneg s).
    replace (Z.to_nat (16 - zlen s)) with (S (Z.to_nat (15 - zlen s))) by lia. by apply c_string_text. }
  do 3 eexists. split; [exact E1|]. split; [exact E2|]. split; [by etrans|]. split; [done|].
  cbn [rule_back ce_data Rule.r_iifname Rule.r_oifname]. rewrite !Hpad by done. split; [done|]. split; [done|].
  unfold Rule.rtnl_rule_get_src, Rule.rtnl_rule_get_dst. cbn [rule_back ce_data Rule.r_src Rule.r_dst]. split.
  - destruct bs; [|done]. eexists. split; [eapply lookup_weaken; [|exact H2]; apply lookup_insert_eq|]. split; [apply binary_made|done].
  - destruct bd; [|done]. eexists. split; [apply lookup_insert_eq|]. split; [apply binary_made|done].
Qed.

(** A rule for packets from 10.0.0.0 that arrive at lo, for the table 1000. *)
Definition demo_rule : Rule.rule :=
  mkObj 1 1 0 0 0 0x413 (Rule.mkRule (Rule.mkNums AF_INET 1 0 1000 0 0 0 0 0 0) 1 0 (padded [108; 111]) (padded [])).

Lemma rule_roundtrip_witness :
  ∃ msg o' m', Rule.rtnl_rule_build_add_request 4096 true demo_rule 0 demo_addrs = Some ((0, Some msg), demo_addrs) ∧
    Rule.rule_fill addr_fresh (wire msg) (new_object 1) demo_addrs = Some ((0, o'), m') ∧
    Rule.rtnl_rule_get_table o' = 232 ∧ Rule.r_iifname (ce_data o') = padded [108; 111].
Proof.
  destruct (rule_roundtrip addr_fresh 1 4096 demo_rule [10; 0; 0; 1] [] [108; 111] [] 0 demo_addrs)
    as (msg & o' & m' & E1 & E2 & _ & E3 & _).
  - apply plenty_fresh.
  - split; try done.
    + split_and!; [done|by repeat constructor|]. intros _. exists (made AF_INET [10; 0; 0; 1]). split_and!; try done.
      apply wf_made; [unfold AF_INET; lia|done|by repeat constructor].
    + split; [|done]. split_and!; [set_solver|by repeat constructor|done].
    + split; [|done]. split_and!; [set_solver|constructor|done].
  - lia.
  - exists msg, o', m'. split; [exact E1|]. split; [exact E2|]. unfold Rule.rtnl_rule_get_table, Rule.num. rewrite E3. split; [reflexivity|].
    vm_compute in E1. injection E1 as <-. vm_compute in E2. by injection E2 as <- _.
Defined.

(** ** The addresses of routing objects *)

(** What is promised to programs on objects of a type. *)
Definition objects_counted (D : Type) `{HolderOk D} : Prop :=
  ∀ addr_calloc ops (s : rt_state D) ext, plenty addr_calloc → rt_reach addr_calloc ops s ext →
  (∀ p a, s.1 !! p = Some a → a_refcnt a = ext p + cnt (all_ptrs s.2) p ∧ addr_wf a) ∧
  (∀ p, p ∈ all_ptrs s.2 → p = 0 ∨ is_Some (s.1 !! p)) ∧
  (∀ x, rt_may x s ext → ∃ r s', rt_exec addr_calloc ops x s = Some (r, s') ∧ rt_reach addr_calloc ops s' (rt_after x r ext)) ∧
  (s.2 = [] → (∀ p, ext p = 0) → s.1 = ∅).

Lemma objects_counted_all (D : Type) `{HolderOk D} : objects_counted D.
Proof.
  intros calloc ops s ext [Hca Hpl] Hr. pose proof (rt_reach_inv calloc ops s ext Hca Hpl Hr) as Hi. pose proof Hi as [Hc He Hl].
  split_and!.
  - intros p a (? & _ & ?)%(ct_live _ _ Hc). done.
  - intros p Hp. destruct (ptr_held p _ _ Hp He) as [?|Hh]; [by left|right]. destruct (counted_held _ _ _ Hc Hh) as (a & Ha & _). by exists a.
  - intros x Hx. destruct (rt_exec_ok calloc ops x s ext Hca Hpl Hi Hx) as (r & s' & E & _). exists r, s'. split; [done|]. by eapply rreach_step.
  - intros E0 Hext. eapply counted_empty; [exact Hc|]. intros p. unfold held. rewrite E0, Hext. change (all_ptrs []) with (@nil Z).
    by rewrite cnt_nil.
Qed.

(** C29 The addresses of neighbours and of rules: with memory left, in every state that a
    program reaches which makes, clones, references and releases objects, sets their
    addresses and uses addresses of its own, the count of each address is the number of the
    program's references and of the pointers of the objects to it, no object has a pointer to
    an address that was freed, each further call that is allowed returns, and when all objects
    and references are given back no address is left. *)
Theorem routing_objects_counted : objects_counted Neigh.rtnl_neigh ∧ objects_counted Rule.rtnl_rule.
Proof. split; apply objects_counted_all. Qed.

(** An address is made, a neighbour is made, and the address becomes its destination. *)
Lemma routing_objects_counted_witness :
  ∃ (s1 s2 s3 : rt_state Neigh.rtnl_neigh),
    rt_exec addr_fresh 1 (RAddr (ABuild AF_INET [10; 0; 0; 1])) (∅, []) = Some (1, s1) ∧
    rt_exec addr_fresh 1 RNew s1 = Some (0, s2) ∧ rt_exec addr_fresh 1 (RSet 0 false 1) s2 = Some (0, s3) ∧
    ∃ a, s3.1 !! 1 = Some a ∧ a_refcnt a = 2.
Proof.
  pose proof (proj1 routing_objects_counted addr_fresh 1) as Hc.
  destruct (Hc (∅, []) (λ _, 0) plenty_fresh (rreach_init _ _)) as (_ & _ & Hstep & _).
  destruct (Hstep (RAddr (ABuild AF_INET [10; 0; 0; 1]))) as (r & s1 & E1 & R1).
  { split; [unfold AF_INET; lia|]. split; [done|]. by repeat constructor. }
  destruct (Hc _ _ plenty_fresh R1) as (_ & _ & Hstep1 & _). destruct (Hstep1 RNew I) as (r2 & s2 & E2 & R2).
  pose proof E1 as E1'. vm_compute in E1'. injection E1' as <- <-. pose proof E2 as E2'. vm_compute in E2'. injection E2' as <- <-.
  destruct (Hc _ _ plenty_fresh R2) as (_ & _ & Hstep2 & _). destruct (Hstep2 (RSet 0 false 1)) as (r3 & s3 & E3 & R3).
  { split; [cbn; lia|by vm_compute]. }
  pose proof E3 as E3'. vm_compute in E3'. injection E3' as <- <-. do 3 eexists. split; [exact E1|]. split; [exact E2|]. split; [exact E3|].
  eexists. split; [by vm_compute|done].
Defined.

(** A neighbour that has both addresses is cloned when there is no memory: the address of the
    destination, which the copy still shares with the source, is given back with the copy,
    and the source is left with a pointer to an address that was freed. *)
Theorem failed_clone_frees_source addr_calloc (o : Neigh.neigh) a b m :
  addr_calloc m = 0 → Neigh.n_lladdr (ce_data o) ≠ 0 → m !! Neigh.n_lladdr (ce_data o) = Some a →
  Neigh.n_dst (ce_data o) ≠ 0 → m !! Neigh.n_dst (ce_data o) = Some b → a_refcnt b = 1 → addr_wf a →
  object_clone addr_calloc true o m = Some (None, delete (Neigh.n_dst (ce_data o)) m).
Proof.
  intros H0 Hl Ha Hd Hb Hr Hw. unfold object_clone. cbn [negb].
  assert (nl_addr_clone addr_calloc (Neigh.n_lladdr (ce_data o)) m = Some (0, m)) as E.
  { destruct (clone_makes addr_calloc _ a m Ha Hw) as [ [_ E]|[? _] ]; [exact E|done]. }
  apply Z.eqb_neq in Hl as El, Hd as Ed. unfold h_clone, Neigh.neigh_holder, Neigh.neigh_clone.
  cbn [ce_data set_body]. rewrite El. cbn [negb andb]. unfold sbind. rewrite E. cbn [Z.eqb sret andb fst snd].
  change (- NLE_NOMEM <? 0) with true. cbv iota. unfold release, sret. cbn.
  unfold Neigh.neigh_free_data, nl_addr_put, sbind. cbn. rewrite Ed. unfold addr_at, sget. rewrite Hb, Hr. cbn.
  unfold addr_destroy, sbind, addr_at, sget. rewrite Ed, Hb, Hr. done.
Qed.

(** ** Traffic control *)

Section Qdisc.
Import Tc.

(** Data that a module can send, and what is made of it when it is read back. *)
Definition readable (m : tc_module) (d back : subdata) : Prop :=
  match m with
  | pfifo_ops | bfifo_ops => fifo_sendable d ∧ back = fifo_back d
  | prio_ops | pfifo_fast_ops => prio_sendable d ∧ back = prio_back d
  | sfq_ops => sfq_sendable d ∧ back = sfq_back d
  | dsmark_qdisc_ops => dsq_sendable d ∧ back = dsq_back d
  | dsmark_class_ops => dsc_sendable d ∧ back = dsc_back d
  | red_ops | blackhole_ops => False
  end.

(** An object of the module [m] with the data [d] that can be sent. *)
Record tc_object (m : tc_module) (o : tc) (d : subdata) : Prop := {
  to_named : has_attr TCA_ATTR_KIND o = true ∧ c_string (tc_kind (ce_data o)) = Some (to_kind m);
  to_module : tc_ops (ce_data o) = Some m;
  to_data : tc_subdata (ce_data o) = Some d;
  to_ids : 0 ≤ tc_ifindex (tc_id (ce_data o)) < 2 ^ 32 ∧ 0 ≤ rtnl_tc_get_handle o < 2 ^ 32 ∧ 0 ≤ rtnl_tc_get_parent o < 2 ^ 32;
}.

Definition tc_alloc (ops type : Z) : tc := mkObj 1 ops 0 0 0 0 (tc_new type).

Lemma module_roundtrip m `{ModuleOk m} reg ops size o d type flags data_ok mem junk :
  rtnl_tc_lookup_ops reg (to_type m) (to_kind m) = Some m → tc_object m o d → k_ok d → 512 ≤ size < 2 ^ 31 → 0 ≤ type < 2 ^ 16 →
  length junk = 32%nat → m_kind mem = true → m_opts mem = true →
  ∃ msg o', rtnl_tc_msg_build reg size true data_ok o type flags = Some (0, Some msg, o) ∧
    rtnl_tc_msg_parse reg mem junk (wire msg) (tc_alloc ops (to_type m)) = Some (0, o') ∧
    c_string (tc_kind (ce_data o')) = Some (to_kind m) ∧ tc_ops (ce_data o') = Some m ∧
    rtnl_tc_get_ifindex o' = rtnl_tc_get_ifindex o ∧ rtnl_tc_get_handle o' = rtnl_tc_get_handle o ∧
    rtnl_tc_get_parent o' = rtnl_tc_get_parent o ∧ tc_subdata (ce_data o') = Some (k_back d).
Proof.
  intros Hreg [ [H1 H2] H3 H4 (H5 & H6 & H7)] Hk Hsz Hty Hj Hm1 Hm2.
  destruct (parse_tc_ok m reg Hreg ops size o d type flags data_ok mem junk) as (msg & E1 & E2); try done.
  do 2 eexists. split; [exact E1|]. split; [exact E2|]. split; [by apply kind_string|]. done.
Qed.

(** C30 A queueing discipline or class is read back from its request: when its module is
    registered and there is memory, the message for an object of the kinds pfifo, bfifo,
    prio, pfifo_fast, sfq and dsmark is made, and parsing it gives an object of the same
    kind and module with the same interface, handle and parent, and the module's data as
    [readable] says, in which only divisor and flows of sfq are lost and a flag of dsmark
    that was sent is set. *)
Theorem traffic_control_roundtrip reg ops size m o d back type flags data_ok mem junk :
  rtnl_tc_lookup_ops reg (to_type m) (to_kind m) = Some m → tc_object m o d → readable m d back →
  512 ≤ size < 2 ^ 31 → 0 ≤ type < 2 ^ 16 → length junk = 32%nat → m_kind mem = true → m_opts mem = true →
  ∃ msg o', rtnl_tc_msg_build reg size true data_ok o type flags = Some (0, Some msg, o) ∧
    rtnl_tc_msg_parse reg mem junk (wire msg) (tc_alloc ops (to_type m)) = Some (0, o') ∧
    c_string (tc_kind (ce_data o')) = Some (to_kind m) ∧ tc_ops (ce_data o') = Some m ∧
    rtnl_tc_get_ifindex o' = rtnl_tc_get_ifindex o ∧ rtnl_tc_get_handle o' = rtnl_tc_get_handle o ∧
    rtnl_tc_get_parent o' = rtnl_tc_get_parent o ∧ tc_subdata (ce_data o') = Some back.
Proof.
  intros Hreg Ho Hd Hsz Hty Hj Hm1 Hm2.
  destruct m; try done; destruct Hd as [Hd ->];
    match goal with H : tc_object ?m _ _ |- _ => exact (module_roundtrip m reg ops size o d type flags data_ok mem junk Hreg H Hd Hsz Hty Hj Hm1 Hm2) end.
Qed.

Definition demo_registry : registry := λ t, if t =? RTNL_TC_TYPE_QDISC then [pfifo_ops; bfifo_ops; prio_ops; sfq_ops; blackhole_ops] else [].

(** A packet queue of 64 packets at the root of interface 3. *)
Definition demo_qdisc : option tc :=
  r ← rtnl_tc_set_kind demo_registry true (text "pfifo") (rtnl_qdisc_alloc 1);
  r ← rtnl_qdisc_fifo_set_limit demo_registry true 64 (rtnl_tc_set_parent 0xffffffff r.2);
  x ← rtnl_tc_set_ifindex 3 r.2 ∅;
  Some x.1.

Lemma traffic_control_roundtrip_witness :
  ∃ q msg o', demo_qdisc = Some q ∧ rtnl_tc_msg_build demo_registry 4096 true true q RTM_NEWQDISC 0 = Some (0, Some msg, q) ∧
    rtnl_tc_msg_parse demo_registry (mkMem true true true true) (replicate 32 7) (wire msg) (tc_alloc 1 RTNL_TC_TYPE_QDISC) = Some (0, o') ∧
    rtnl_tc_get_parent o' = 0xffffffff ∧ tc_subdata (ce_data o') = Some (DFifo (mkFifo 64 1)).
Proof.
  destruct demo_qdisc as [q|] eqn:Eq; [|vm_compute in Eq; discriminate Eq]. exists q.
  destruct (traffic_control_roundtrip demo_registry 1 4096 pfifo_ops q (DFifo (mkFifo 64 1)) (DFifo (mkFifo 64 1)) RTM_NEWQDISC 0 true
    (mkMem true true true true) (replicate 32 7)) as (msg & o' & E1 & E2 & _ & _ & _ & _ & E3 & E4); try done.
  - vm_compute in Eq. injection Eq as <-. split; try done; by split.
  - exists msg, o'. split; [reflexivity|]. split; [exact E1|]. split; [exact E2|]. split; [|exact E4]. rewrite E3.
    vm_compute in Eq. injection Eq as <-. reflexivity.
Defined.

(** Taking the link away from an object leaves the pointer in it: after the last reference to
    the link is gone, the next change of the interface crashes. *)
Theorem unset_link_dangles (o : tc) l ls i :
  tc_link (ce_data o) ≠ 0 → ls !! tc_link (ce_data o) = Some l → l_refcnt l = 1 →
  rtnl_tc_set_link 0 o ls = Some (o, delete (tc_link (ce_data o)) ls) ∧
  rtnl_tc_set_ifindex i o (delete (tc_link (ce_data o)) ls) = None.
Proof.
  intros Hp%Z.eqb_neq Hl Hr. unfold rtnl_tc_set_link, rtnl_tc_set_ifindex, rtnl_link_put, sbind, sget. rewrite !Hp, Hl, Hr, lookup_delete_eq. done.
Qed.

(** The module for blackhole has no data, and every object must have some: giving an object
    this kind, which parsing a message does too, ends in [BUG()]. *)
Theorem blackhole_kind_crashes reg ops ok :
  rtnl_tc_lookup_ops reg RTNL_TC_TYPE_QDISC (text "blackhole") = Some blackhole_ops →
  rtnl_tc_set_kind reg ok (text "blackhole") (rtnl_qdisc_alloc ops) = None.
Proof.
  intros Hr. unfold rtnl_tc_set_kind. change (has_attr TCA_ATTR_KIND _) with false. cbv iota.
  assert (strncpy (replicate 32 0) (text "blackhole") (TCKINDSIZ - 1) = Some (kind_array blackhole_ops)) as E by done.
  cbn [ce_data tc_new tc_kind rtnl_qdisc_alloc]. rewrite E, some_bind. unfold rtnl_tc_data, rtnl_tc_get_ops.
  cbn [ce_data put_data set_body tc_subdata tc_ops tc_kind t_set_kind tc_new]. rewrite (kind_string blackhole_ops), some_bind.
  cbn [ce_data put_data set_body tc_type t_set_kind tc_new]. change (to_kind blackhole_ops) with (text "blackhole").
  rewrite Hr. done.
Qed.
End Qdisc.
